(* ===== verification/_CoqProject ===== *)
-Q . S2P
Prelude.v
HIDParser.v
HIDItems.v
HIDParserInv.v
HIDParserLayout.v
HIDReport.v
ConfigDescriptors.v
USBIo.v
Endpoint.v
EndpointSpec.v
ControlStream.v
DeviceRequests.v
DeviceRequestsSpec.v
HIDDevice.v
HIDDeviceSpec.v
NetBuffers.v
RNDIS.v
TCP.v
Webserver.v
EthernetStack.v
RNDISDevice.v
NetLemmas.v
EndianSpec.v
RNDISSpec.v
EthernetSpec.v
RNDISDeviceSpec.v
EchoSpec.v
DHCPSpec.v
TCPTable.v
TCPSpec.v
TCPSend.v
WebserverSpec.v
NetWitness.v
Dataflash.v
DataflashChip.v
DataflashSpec.v
DataflashDisk.v
MassStorage.v
SCSI.v
Quiet.v
MassStorageSpec.v
SCSISpec.v
DiskWitness.v
RingBuffer.v
RingBufferSpec.v
CDCDevice.v
USBtoSerial.v
CDCDeviceSpec.v
SerialSpec.v
Pipe.v
HostRequests.v
HostRequestsSpec.v
HostTask.v
HostTaskSpec.v
HostEnumeration.v
PipeSpec.v
MassStorageHost.v
MassStorageHostSpec.v
DiskEndToEnd.v
Controller.v
ControllerSpec.v
HIDHost.v
MouseDemo.v
HIDHostSpec.v
MouseEndToEnd.v
SelfProgram.v
DataStage.v
BootloaderDFU.v
BootloaderDFUSpec.v
BootloaderDFUSecure.v
BootloaderHID.v
BootloaderHIDSpec.v
HIDLoader.v
HIDLoaderSpec.v
HIDLoaderEndToEnd.v
BootloaderCDC.v
BootloaderCDCSpec.v
SerialProtocol.v
AVRISP.v
