(* ===== verification/Prelude.v ===== *)
(** * LUFA firmware: a verification library

    The repository holds the MightyMouse project: an Android application and an
    Arduino sketch around the LUFA USB stack (src/LUFA-120730), a C library for
    Atmel microcontrollers with demonstration programs.  This library models the
    C code: the controller with its interrupt handler, the device core that answers a
    host's requests and the class drivers on it, the host core that enumerates a device
    and two class drivers on it, and several programs: an Ethernet adapter with a web
    server, a disk, a USB to serial bridge, a mouse and a host for it, the three
    bootloaders and the loader that runs on a computer; and of MightyMouse itself the
    sketch and the messages it receives.  Every model is executable; the theorems
    are about the models, at the widths of the machine's integers.

    ** The program and its model

    Paths are relative to src/LUFA-120730; DRV is LUFA/Drivers/USB.

    - HID report descriptors (DRV/Class/Common/HIDParser.c, HIDReportData.h,
      HIDClassCommon.h).  A host or a bridge parses the descriptor of a HID device
      and then reads and writes the items of its reports.  [HIDItems]: the macros that
      build descriptors.  [HIDParser]: [USB_ProcessHIDReport], one definition per
      item tag, on a record of the parser's local variables and the tables of
      [HID_ReportInfo_t].  [HIDParserInv]: memory safety and the invariant of the
      tables.  [HIDParserLayout]: the layout it computes.  [HIDReport]: item access
      and report sizes.
    - Configuration descriptors (DRV/Core/ConfigDescriptors.c): [ConfigDescriptors],
      the searches a host makes in the descriptor of a device; the host's control
      transfer is the class [HostControl].
    - Endpoints (DRV/Core/AVR8/Endpoint_AVR8.c, EndpointStream_AVR8.c and its
      templates): [Endpoint], with [EndpointSpec] for streams and [ControlStream] for
      the data stages of control transfers.
    - Device core (DRV/Core/DeviceStandardReq.c, USBTask.c): [DeviceRequests] and
      [DeviceRequestsSpec], every standard request; the callbacks of the application
      are the class [Application].
    - HID class driver (DRV/Class/Device/HIDClassDevice.c): [HIDDevice] and
      [HIDDeviceSpec].
    - RNDIS class driver (DRV/Class/Device/RNDISClassDevice.c) and the RNDIS
      demonstration (Demos/Device/LowLevel/RNDISEthernet): [RNDIS], the messages, for
      the driver and for the older copy of the demonstration (Lib/RNDIS.c);
      [RNDISDevice], requests, notifications, packets and the two tasks of
      RNDISEthernet.c; [RNDISSpec] and [RNDISDeviceSpec].
    - Network stack of that demonstration (Lib/Ethernet.c, ARP.c, IP.c, ICMP.c,
      UDP.c, DHCP.c, TCP.c): [NetBuffers], frame buffers, tables and field accesses;
      [EthernetStack] and [TCP], the handlers; [NetLemmas], slices, numbers,
      checksums and the weakest precondition [nwp]; [EndianSpec] for
      LUFA/Common/Endianness.h; [EthernetSpec], [EchoSpec], [DHCPSpec] for the
      exchanges; [TCPTable], [TCPSpec] and [TCPSend] for the connection table, the
      connection state machine and the data sent.  Lib/Webserver.c is an application
      of the TCP model: [Webserver], [WebserverSpec].
    - Mass storage class driver (DRV/Class/Device/MassStorageClassDevice.c):
      [MassStorage] and [MassStorageSpec]; the SCSI callback is the class
      [MSApplication].  The mass storage demonstration
      (Demos/Device/ClassDriver/MassStorage) implements it: [SCSI] (Lib/SCSI.c and
      MassStorage.c) and [Dataflash] (Lib/DataflashManager.c and the board driver
      LUFA/Drivers/Board/AVR8/USBKEY/Dataflash.h).  [DataflashChip] says what the
      memory chips do; [DataflashSpec] and [DataflashDisk] prove the block transfers
      against it, and [SCSISpec] whole commands from the host.
    - CDC class driver (DRV/Class/Device/CDCClassDevice.c): [CDCDevice] and
      [CDCDeviceSpec]; the callbacks are the class [CDCApplication].  The USB to serial
      bridge (Projects/USBtoSerial/USBtoSerial.c) implements it: [USBtoSerial] and
      [SerialSpec], on the ring buffer of LUFA/Drivers/Misc/RingBuffer.h: [RingBuffer]
      and [RingBufferSpec].
    - Controller (DRV/Core/AVR8/USBController_AVR8.c, USBInterrupt_AVR8.c and the
      inline functions of their headers): [Controller] and [ControllerSpec], at the
      level of registers.
    - Pipes (DRV/Core/AVR8/Pipe_AVR8.c, PipeStream_AVR8.c): [Pipe], the counterpart of
      the endpoints for a host, and [PipeSpec], streams against a device that keeps up.
    - Host core (DRV/Core/HostStandardReq.c, AVR8/Host_AVR8.c, USBTask.c):
      [HostRequests] and [HostRequestsSpec], the control requests; [HostTask],
      [HostTaskSpec] and [HostEnumeration], the state machine of the enumeration.
    - Mass storage host driver (DRV/Class/Host/MassStorageClassHost.c):
      [MassStorageHost] and [MassStorageHostSpec].  [DiskEndToEnd] connects it with the
      disk above.
    - HID host driver (DRV/Class/Host/HIDClassHost.c): [HIDHost] and [HIDHostSpec].
      [MouseDemo]: the mouse (Demos/Device/ClassDriver/Mouse) on the board drivers
      LUFA/Drivers/Board/AVR8/USBKEY/Joystick.h and Buttons.h, an application of the HID
      device driver, and the host that shows its movements
      (Demos/Host/ClassDriver/MouseHostWithParser); [MouseEndToEnd] connects the two.
    - Bootloaders.  [SelfProgram]: the program memory, the start-up check and the API for
      applications (Bootloaders/DFU/BootloaderAPI.c).  [DataStage]: packets that arrive
      byte by byte, and pages programmed from them.  [BootloaderDFU]
      (Bootloaders/DFU/BootloaderDFU.c) with [BootloaderDFUSpec], programming and reading,
      and [BootloaderDFUSecure], the secure mode; [BootloaderHID]
      (Bootloaders/HID/BootloaderHID.c) and [BootloaderHIDSpec]; [BootloaderCDC]
      (Bootloaders/CDC/BootloaderCDC.c) and [BootloaderCDCSpec], the AVR109 commands.
    - The loader for the HID bootloader (Bootloaders/HID/HostLoaderApp/
      hid_bootloader_cli.c): [HIDLoader], [HIDLoaderSpec], the reader of hex files, and
      [HIDLoaderEndToEnd], from the file to the flash.
    - MightyMouse: [SerialProtocol], the sketch (src/SerialProtocol/SerialProtocol.ino)
      and the messages of the application (DispatcherSingleton.java and TrackPad.java in
      src/MightyMouse/src/com/vos/MightyMouse).
    - [Quiet]: code that neither sends nor receives.  [NetWitness] and [DiskWitness]
      apply the theorems to concrete frames, commands and hosts.

    The parts interact as in the C code: a demonstration calls the class driver from
    its main loop and from the control request event, the class driver calls the
    endpoint streams and its callbacks, the device core calls the application, and
    the streams call [USB_USBTask] while they wait; on the other side, the host
    task enumerates and the host driver is called by the application.

    ** How code is modelled

    Integers are [Z], with the conversions of C written out ([u8], [u16], [u32],
    [i16] below).  An access to an array outside its bounds, to a buffer outside its
    object or through a null pointer is a fault: [None], or [Faults] of [outcome].  A
    pointer is an index or an offset, and structures that C code overlays on a byte
    buffer (network headers, RNDIS messages, command blocks) are bytes at offsets of
    that buffer, so that a reply built in place over its request is built in place
    here too.

    Accesses to the controller, the SPI and volatile variables go through [USBIo]: a
    read is a query and a write is a command, both are appended to the history, and
    an environment [hw] answers each query as a function of the history.  The
    environment stands for the controller, the host, the interrupt handlers and,
    for the disk, the chips.  [wp false h m t Q] says that the code [m], run in the
    environment [h] after the history [t], does not fault and ends with [Q] if it
    ends; [wp true h m t Q] that it also ends.  Theorems for every host leave [h]
    unrestricted; theorems that promise completion name what they need of it
    ([cooperative]: a bank that is released becomes ready; [delivers]: the bytes the
    host sends; [no_reset], [clears_stalls], [configured]; [attached]: chips that
    behave as [DataflashChip] says; on the host's side [keeps_up], a device that is
    ready whenever the host waits for it, and [pipe_delivers], the bytes it sends).  Each such theorem has a witness with a concrete
    environment.

    Loops that C bounds only by the environment (polling an endpoint or a chip,
    repeating a stream, walking over descriptors or options) run on fuel, an explicit
    argument.  [Loops] means that it ran out.  The theorems of total correctness say
    how much is enough: one more than the bytes of a stream or the number of times
    a loop polls, for the mass storage task 40 (a command block of at most 31 bytes
    and a status of 13) and the number of polls after which a chip or a stalled
    endpoint is ready; for a command of the host driver twice the bytes of its data
    and 64.  Loops that C bounds by a count recurse on that count.

    [Controller] is at a lower level: its state is the registers and the volatile
    variables, a statement maps states to states, and the hardware may change its own
    registers between two runs of the interrupt handler ([moves]).  That a register
    cannot be written while its clock is frozen is not part of it.  The ring buffer has,
    beside its operations, their single steps, which two threads interleave; the bridge
    runs its receive interrupt between the statements of its main loop.

    The operations of avr-libc on flash and EEPROM are events, too; [memory] in
    [SelfProgram] is what the data sheet says about them, and [memory_answers] an
    environment that reads what was written.  A theorem about several requests lets
    each run in an environment of its own, which knows the others only through the
    memory.  A wait of the host driver takes at most 1001 frames, the fuel asked for is
    that and one more than the bytes of the request; a bootloader's loop polls once, or
    twice, when the packets are there.  The sketch and the classes of the application
    work on bytes from 0 to 255; the type [char] of the sketch is a parameter, and the
    theorems are for an unsigned one.

    ** What is proved

    - Memory safety and invariants: the HID parser stays within its tables on every
      framed descriptor without PUSH and leaves them well formed; control transfers,
      HID requests and the RNDIS task stay within their buffers whatever the host
      does; the configuration number stays valid.
    - What is on the wire: control transfers are cut into packets and terminated as
      USB wants it, streams move exactly the bytes of the buffer in order, GET
      DESCRIPTOR sends the descriptor, SET ADDRESS takes effect after the status
      stage, every control request is acknowledged once, a HID report is sent when it
      is due.
    - Refinement of abstract specifications: TCP segments move connections as an
      abstract state machine says, the connection table is a map from connections to
      states, RNDIS messages are answered as a function of the message says.
    - The controller: after the set-up in any mode every run of the interrupt handler
      returns and keeps the invariant of the mode; suspending and resuming restores
      every register.
    - The host: control requests are on the bus as USB wants them, the enumeration
      follows its states in order, and an attached device that answers is enumerated
      after 1608 calls of the task; a SCSI command is its wrapper, its data and its
      status on the right pipes; the report protocol of a HID device is its parsed
      report descriptor.
    - The bootloaders: what is downloaded over DFU, or written in blocks over AVR109, is
      in the flash and is what is read back; in secure mode nothing is read or changed
      until the application is erased.  The loader reads every hex file as the image it
      stands for.
    - MightyMouse: what the user does on the phone is what the sketch types, clicks and
      moves; a file is typed character by character.
    - End to end: a hex file ends up in the flash of the device; the joystick of the mouse
      lights the LEDs of its host; blocks written by the host driver are on the memory chips of the
      device, and blocks read come back; bytes of the host leave the bridge on the
      line in order, and those of the line reach the host; an ARP request is answered through both tasks; ICMP echo and DHCP
      exchanges; the web page is served completely and once; TCP data is received and
      sent with valid checksums; a WRITE (10) command stores the blocks of the host on
      the chips and a READ (10) command returns them.
    - Round trips and equivalences: report items, packets, blocks of the disk, the
      byte order routines.
    - Errors: unknown requests and invalid commands are stalled, addresses that are
      not on the disk are refused; and the inputs on which the code itself goes
      wrong (an overflow in TCP and in RNDIS, and the lemmas [push_never_safe],
      [set_unaligned_lost], [closed_port_null], [two_requests_overrun] and others).

    ** Not modelled

    - Endpoint configuration (the register sequences of DRV/Core/AVR8/Endpoint_AVR8.c),
      the set-up of the boards and the peripheral drivers.  Their effect on the modelled
      code is part of the environment.
    - Of the device class drivers MIDI and audio, of the host class drivers all but
      mass storage and HID, and the other demonstrations and projects.  They are built
      over the same endpoint and pipe operations as those modelled here; the larger
      projects drive programming hardware or third-party libraries.
    - The set-up, the main loops and the LED interrupts of the mouse, its host and the
      bootloaders; the USB access of the loader on the three operating systems.
    - A mouse has one endpoint, and the host driver reads the other one through a null
      pointer ([mouse_pipes_fault]); [mouse_moves_leds] is about a host whose interface was
      configured all the same.
    - The UC3 and XMEGA ports, which are variants of the AVR8 one.
    - FatFs, uIP and Contiki, which the projects contain as third-party code, and the user
      interface and the Bluetooth connection of the Android application.

    This file has what the components share: machine integers, arrays, outcomes,
    the tactics and the hint databases. *)
From stdpp Require Export base list numbers option sets.
From Stdlib Require Export ZArith Lia Bool.
#[export] Set Default Goal Selector "!".
#[global] Open Scope Z_scope.

(** ** Machine integers *)

(** Conversion to an unsigned integer type of [w] bits. *)
Definition wrap (w x : Z) : Z := x mod 2 ^ w.
Abbreviation u8 := (wrap 8).
Abbreviation u16 := (wrap 16).
Abbreviation u32 := (wrap 32).

(** Conversion to [int16_t]. *)
Definition i16 (x : Z) : Z := let y := u16 x in if y <? 2 ^ 15 then y else y - 2 ^ 16.

(** A C condition on an integer: anything but zero is true. *)
Definition truthy (x : Z) : bool := negb (x =? 0).

(** A C [bool] used as an integer. *)
Definition bool_Z (b : bool) : Z := if b then 1 else 0.

(** ** Arrays: an access outside the object is a fault ([None]) *)

Definition arr_get {A} (l : list A) (i : Z) : option A :=
  if 0 <=? i then l !! Z.to_nat i else None.

Definition arr_set {A} (l : list A) (i : Z) (x : A) : option (list A) :=
  if (0 <=? i) && (i <? Z.of_nat (length l)) then Some (<[Z.to_nat i := x]> l) else None.

(** ** Results of C code that may fault or not terminate

    [Returns] is a normal return, [Faults] undefined behaviour (an access
    outside an object, a null dereference), [Loops] that the fuel ran out: a
    function that gives [Loops] for every fuel does not terminate. *)
Inductive outcome (A : Type) : Type :=
  | Returns (a : A)
  | Faults
  | Loops.
Arguments Returns {A} a.
Arguments Faults {A}.
Arguments Loops {A}.

#[export] Instance outcome_ret : MRet outcome := fun A a => Returns a.
#[export] Instance outcome_bind : MBind outcome := fun A B f m =>
  match m with Returns a => f a | Faults => Faults | Loops => Loops end.

(** An access that may be outside its object. *)
Definition access {A} (o : option A) : outcome A :=
  match o with Some a => Returns a | None => Faults end.

(** ** Hint databases and tactics *)

Create HintDb cint.

Ltac zdm := Z.div_mod_to_equations; lia.

(** Turn the boolean tests of the code into propositions. *)
Ltac bprop :=
  repeat match goal with
  | H : (_ =? _) = true |- _ => apply Z.eqb_eq in H
  | H : (_ =? _) = false |- _ => apply Z.eqb_neq in H
  | H : (_ <? _) = true |- _ => apply Z.ltb_lt in H
  | H : (_ <? _) = false |- _ => apply Z.ltb_ge in H
  | H : (_ <=? _) = true |- _ => apply Z.leb_le in H
  | H : (_ <=? _) = false |- _ => apply Z.leb_gt in H
  | H : negb _ = true |- _ => apply negb_true_iff in H
  | H : negb _ = false |- _ => apply negb_false_iff in H
  | H : (_ && _) = true |- _ => apply andb_true_iff in H; destruct H
  | H : (_ || _) = false |- _ => apply orb_false_iff in H; destruct H
  | H : truthy _ = true |- _ => unfold truthy in H
  | H : truthy _ = false |- _ => unfold truthy in H
  end.

(** Invert the bind chains of option-valued code in the hypotheses. *)
Ltac inv_opt :=
  repeat match goal with
  | H : mbind _ ?m = Some _ |- _ =>
      let x := fresh "x" in let E := fresh "E" in
      destruct m as [x|] eqn:E; [cbn [mbind option_bind] in H | discriminate H]
  | H : Some _ = Some _ |- _ => injection H as H; try subst
  | H : None = Some _ |- _ => discriminate H
  end.

(** Step through the binds of [H : e = Some _], keeping the defined cases. *)
Ltac bind_cases H :=
  repeat match type of H with mbind _ ?m = _ => destruct m; [cbn in H|done] end.

(** ** Integer lemmas *)

Lemma wrap_range w x : 0 <= w -> 0 <= wrap w x < 2 ^ w.
Proof. intros. apply Z.mod_pos_bound. lia. Qed.

Lemma u8_range x : 0 <= u8 x < 256.
Proof. apply (wrap_range 8). lia. Qed.

Lemma u16_range x : 0 <= u16 x < 65536.
Proof. apply (wrap_range 16). lia. Qed.

Lemma u32_range x : 0 <= u32 x < 4294967296.
Proof. apply (wrap_range 32). lia. Qed.

Lemma wrap_small w x : 0 <= x < 2 ^ w -> wrap w x = x.
Proof. apply Z.mod_small. Qed.

Lemma u8_small x : 0 <= x < 256 -> u8 x = x.
Proof. apply Z.mod_small. Qed.

Lemma u16_small x : 0 <= x < 65536 -> u16 x = x.
Proof. apply Z.mod_small. Qed.

Lemma u32_small x : 0 <= x < 4294967296 -> u32 x = x.
Proof. apply Z.mod_small. Qed.

Lemma wrap_wrap w x : 0 <= w -> wrap w (wrap w x) = wrap w x.
Proof. intros. apply wrap_small, wrap_range. done. Qed.

Lemma testbit_wrap w x i : 0 <= w -> Z.testbit (wrap w x) i = (i <? w) && Z.testbit x i.
Proof.
  intros Hw. unfold wrap. destruct (Z.ltb_spec i w).
  - by rewrite Z.mod_pow2_bits_low.
  - by rewrite Z.mod_pow2_bits_high by lia.
Qed.

Lemma land_mask_wrap w x : 0 <= w -> Z.land x (2 ^ w - 1) = wrap w x.
Proof. intros. unfold wrap. rewrite <- Z.land_ones by done. f_equal. rewrite Z.ones_equiv. lia. Qed.

#[export] Hint Resolve wrap_range u8_range u16_range u32_range : cint.

(** ** Conditions *)

Lemma truthy_false n : negb (truthy n) = true -> n = 0.
Proof. unfold truthy. intros. by bprop. Qed.
Lemma truthy_true n : negb (truthy n) = false -> n <> 0.
Proof. unfold truthy. intros. by bprop. Qed.
Lemma truthy_neq n : truthy n = true -> n <> 0.
Proof. unfold truthy. intros. by bprop. Qed.
Lemma truthy_eq n : truthy n = false -> n = 0.
Proof. unfold truthy. intros. by bprop. Qed.

(** ** Array lemmas *)

Section arrays.
Context {A : Type}.
Implicit Types l : list A.

Lemma arr_get_Some l i x :
  arr_get l i = Some x <-> 0 <= i /\ l !! Z.to_nat i = Some x.
Proof. unfold arr_get. case_match; bprop; naive_solver lia. Qed.

Lemma arr_get_lt l i x : arr_get l i = Some x -> 0 <= i < Z.of_nat (length l).
Proof. rewrite arr_get_Some. intros [? Hl%lookup_lt_Some]. lia. Qed.

Lemma arr_get_is_Some l i : 0 <= i < Z.of_nat (length l) -> is_Some (arr_get l i).
Proof.
  intros. unfold arr_get. replace (0 <=? i) with true by (symmetry; apply Z.leb_le; lia).
  apply lookup_lt_is_Some. lia.
Qed.

Lemma arr_set_Some l i x l' :
  arr_set l i x = Some l' <-> 0 <= i < Z.of_nat (length l) /\ l' = <[Z.to_nat i := x]> l.
Proof.
  unfold arr_set. destruct (0 <=? i) eqn:?, (i <? Z.of_nat (length l)) eqn:?;
    bprop; cbn [andb]; naive_solver lia.
Qed.

Lemma arr_set_is_Some l i x : 0 <= i < Z.of_nat (length l) -> is_Some (arr_set l i x).
Proof. intros. exists (<[Z.to_nat i := x]> l). by apply arr_set_Some. Qed.

Lemma arr_set_length l i x l' : arr_set l i x = Some l' -> length l' = length l.
Proof. rewrite arr_set_Some. intros [_ ->]. apply length_insert. Qed.

Lemma arr_get_set_eq l i x l' : arr_set l i x = Some l' -> arr_get l' i = Some x.
Proof.
  rewrite arr_set_Some, arr_get_Some. intros [? ->]. split; [lia|].
  apply list_lookup_insert_eq. lia.
Qed.

Lemma arr_get_set_ne l i j x l' :
  arr_set l i x = Some l' -> i <> j -> arr_get l' j = arr_get l j.
Proof.
  rewrite arr_set_Some. intros [? ->] ?. unfold arr_get. case_match; [bprop|done].
  apply list_lookup_insert_ne. lia.
Qed.

Lemma arr_set_Forall (P : A -> Prop) l i x l' :
  arr_set l i x = Some l' -> P x -> Forall P l -> Forall P l'.
Proof. rewrite arr_set_Some. intros [? ->] ? ?. by apply Forall_insert. Qed.

Lemma arr_get_Forall (P : A -> Prop) l i x :
  arr_get l i = Some x -> Forall P l -> P x.
Proof. rewrite arr_get_Some. intros [_ ?] ?. by eapply Forall_lookup_1. Qed.
End arrays.

#[export] Hint Resolve arr_get_is_Some arr_set_is_Some : cint.

Lemma fmap_eq_elem {A B} (f g : A -> B) (l : list A) x :
  f <$> l = g <$> l -> x ∈ l -> f x = g x.
Proof.
  induction l as [|y l IH]; cbn; intros E Hx; [by apply elem_of_nil in Hx|].
  injection E as E1 E2. apply elem_of_cons in Hx as [->|Hx]; auto.
Qed.
