(* ===== verification/HIDParser.v ===== *)
(** * HID report descriptor parser

    Model of [src/LUFA-120730/LUFA/Drivers/USB/Class/Common/HIDParser.c]
    ([USB_ProcessHIDReport]) with the types of [HIDParser.h].  Pointers into
    the arrays of [HID_ReportInfo_t] are indices, [NULL] is [None].  A result
    [None] is a memory fault: an access outside the object, or an overlapping
    [memcpy].  The application's filter callback and the contents of
    uninitialised automatic variables are the fields of [HIDParserEnv]. *)
From S2P Require Import Prelude.

(** ** Constants of [HIDParser.h], [HIDReportData.h] and [HIDClassCommon.h] *)

Definition HID_STATETABLE_STACK_DEPTH : Z := 2.
Definition HID_USAGE_STACK_DEPTH : Z := 8.
Definition HID_MAX_COLLECTIONS : Z := 10.
Definition HID_MAX_REPORTITEMS : Z := 20.
Definition HID_MAX_REPORT_IDS : Z := 10.

Definition HID_PARSE_Successful : Z := 0.
Definition HID_PARSE_HIDStackOverflow : Z := 1.
Definition HID_PARSE_HIDStackUnderflow : Z := 2.
Definition HID_PARSE_InsufficientReportItems : Z := 3.
Definition HID_PARSE_UnexpectedEndCollection : Z := 4.
Definition HID_PARSE_InsufficientCollectionPaths : Z := 5.
Definition HID_PARSE_UsageListOverflow : Z := 6.
Definition HID_PARSE_InsufficientReportIDItems : Z := 7.
Definition HID_PARSE_NoUnfilteredReportItems : Z := 8.

Definition HID_RI_DATA_SIZE_MASK : Z := 0x03.
Definition HID_RI_TYPE_MASK : Z := 0x0C.
Definition HID_RI_TAG_MASK : Z := 0xF0.
Definition HID_RI_TYPE_MAIN : Z := 0x00.
Definition HID_IOF_CONSTANT : Z := 0x01.
Definition HID_REPORT_ITEM_In : Z := 0.
Definition HID_REPORT_ITEM_Out : Z := 1.
Definition HID_REPORT_ITEM_Feature : Z := 2.

(** The item tags the parser's [switch] distinguishes, and its default. *)
Inductive item_tag :=
  | RI_INPUT | RI_OUTPUT | RI_COLLECTION | RI_FEATURE | RI_END_COLLECTION
  | RI_USAGE_PAGE | RI_LOGICAL_MINIMUM | RI_LOGICAL_MAXIMUM
  | RI_PHYSICAL_MINIMUM | RI_PHYSICAL_MAXIMUM | RI_UNIT_EXPONENT | RI_UNIT
  | RI_REPORT_SIZE | RI_REPORT_ID | RI_REPORT_COUNT | RI_PUSH | RI_POP
  | RI_USAGE | RI_USAGE_MINIMUM | RI_USAGE_MAXIMUM | RI_unknown.

#[export] Instance item_tag_eq_dec : EqDecision item_tag.
Proof. solve_decision. Defined.

(** [HIDReportItem & (HID_RI_TYPE_MASK | HID_RI_TAG_MASK)] against the
    [HID_RI_*(0)] case labels. *)
Definition tag_of (HIDReportItem : Z) : item_tag :=
  let t := Z.land HIDReportItem (Z.lor HID_RI_TYPE_MASK HID_RI_TAG_MASK) in
  if t =? 0x80 then RI_INPUT else if t =? 0x90 then RI_OUTPUT
  else if t =? 0xA0 then RI_COLLECTION else if t =? 0xB0 then RI_FEATURE
  else if t =? 0xC0 then RI_END_COLLECTION
  else if t =? 0x04 then RI_USAGE_PAGE else if t =? 0x14 then RI_LOGICAL_MINIMUM
  else if t =? 0x24 then RI_LOGICAL_MAXIMUM else if t =? 0x34 then RI_PHYSICAL_MINIMUM
  else if t =? 0x44 then RI_PHYSICAL_MAXIMUM else if t =? 0x54 then RI_UNIT_EXPONENT
  else if t =? 0x64 then RI_UNIT else if t =? 0x74 then RI_REPORT_SIZE
  else if t =? 0x84 then RI_REPORT_ID else if t =? 0x94 then RI_REPORT_COUNT
  else if t =? 0xA4 then RI_PUSH else if t =? 0xB4 then RI_POP
  else if t =? 0x08 then RI_USAGE else if t =? 0x18 then RI_USAGE_MINIMUM
  else if t =? 0x28 then RI_USAGE_MAXIMUM else RI_unknown.

(** ** Data types of [HIDParser.h] *)

Record HID_MinMax_t := { Minimum : Z; Maximum : Z }.
Record HID_Unit_t := { Unit_Type : Z; Unit_Exponent : Z }.
Record HID_Usage_t := { Usage_Page : Z; Usage_Usage : Z }.

Record HID_CollectionPath_t := {
  Path_Type : Z; Path_Usage : HID_Usage_t; Path_Parent : option nat }.

Record HID_ReportItem_Attributes_t := {
  BitSize : Z; Attr_Usage : HID_Usage_t; Attr_Unit : HID_Unit_t;
  Logical : HID_MinMax_t; Physical : HID_MinMax_t }.

Record HID_ReportItem_t := {
  BitOffset : Z; ItemType : Z; ItemFlags : Z; Item_ReportID : Z;
  CollectionPath : option nat; Attributes : HID_ReportItem_Attributes_t;
  Value : Z; PreviousValue : Z }.

Record HID_ReportSizeInfo_t := {
  Size_ReportID : Z; ReportSizeBits : list Z }.

Record HID_ReportInfo_t := {
  TotalReportItems : Z; ReportItems : list HID_ReportItem_t;
  CollectionPaths : list HID_CollectionPath_t; TotalDeviceReports : Z;
  ReportIDSizes : list HID_ReportSizeInfo_t; LargestReportSizeBits : Z;
  UsingReportIDs : bool }.

Record HID_StateTable_t := {
  ST_Attributes : HID_ReportItem_Attributes_t; ReportCount : Z; ST_ReportID : Z }.

(** Sizes of the two structures on the AVR: no padding, 2-byte pointers. *)
Definition sizeof_HID_ReportItem_Attributes_t : Z := 1 + (2 + 2) + (4 + 1) + (4 + 4) + (4 + 4).
Definition sizeof_HID_StateTable_t : Z := sizeof_HID_ReportItem_Attributes_t + 1 + 1.
Definition sizeof_HID_ReportItem_t : Z :=
  2 + 1 + 2 + 1 + 2 + sizeof_HID_ReportItem_Attributes_t + 4 + 4.

(** The all-zero values [memset] leaves. *)
Definition zero_usage : HID_Usage_t := {| Usage_Page := 0; Usage_Usage := 0 |}.
Definition zero_minmax : HID_MinMax_t := {| Minimum := 0; Maximum := 0 |}.
Definition zero_attributes : HID_ReportItem_Attributes_t :=
  {| BitSize := 0; Attr_Usage := zero_usage;
     Attr_Unit := {| Unit_Type := 0; Unit_Exponent := 0 |};
     Logical := zero_minmax; Physical := zero_minmax |}.
Definition zero_item : HID_ReportItem_t :=
  {| BitOffset := 0; ItemType := 0; ItemFlags := 0; Item_ReportID := 0;
     CollectionPath := None; Attributes := zero_attributes; Value := 0; PreviousValue := 0 |}.
Definition zero_path : HID_CollectionPath_t :=
  {| Path_Type := 0; Path_Usage := zero_usage; Path_Parent := None |}.
Definition zero_sizeinfo : HID_ReportSizeInfo_t :=
  {| Size_ReportID := 0; ReportSizeBits := [0; 0; 0] |}.
Definition zero_state : HID_StateTable_t :=
  {| ST_Attributes := zero_attributes; ReportCount := 0; ST_ReportID := 0 |}.

(** What the parser takes from its surroundings: the application's
    [CALLBACK_HIDParser_FilterHIDReportItem] (which may follow the item's
    collection path through the array), and the unspecified contents of the
    automatic variables the code does not initialise. *)
Class HIDParserEnv := {
  FilterHIDReportItem : list HID_CollectionPath_t -> HID_ReportItem_t -> bool;
  indet : Z;
  indet_state : HID_StateTable_t }.

(** The local variables of [USB_ProcessHIDReport] and the output structure. *)
Record parser_state := {
  ParserData : HID_ReportInfo_t;
  StateTable : list HID_StateTable_t; CurrStateTable : Z;
  CurrCollectionPath : option nat; CurrReportIDInfo : Z;
  UsageList : list Z; UsageListSize : Z; UsageMinMax : HID_MinMax_t }.

(** One trip round the loop either continues or returns an error code. *)
Inductive step_result :=
  | Continue (st : parser_state)
  | Return (code : Z) (st : parser_state).

(** ** Field updates *)

Definition set_ParserData f st :=
  {| ParserData := f (ParserData st); StateTable := StateTable st;
     CurrStateTable := CurrStateTable st; CurrCollectionPath := CurrCollectionPath st;
     CurrReportIDInfo := CurrReportIDInfo st; UsageList := UsageList st;
     UsageListSize := UsageListSize st; UsageMinMax := UsageMinMax st |}.
Definition set_StateTable l i st :=
  {| ParserData := ParserData st; StateTable := l;
     CurrStateTable := i; CurrCollectionPath := CurrCollectionPath st;
     CurrReportIDInfo := CurrReportIDInfo st; UsageList := UsageList st;
     UsageListSize := UsageListSize st; UsageMinMax := UsageMinMax st |}.
Definition set_CurrCollectionPath p st :=
  {| ParserData := ParserData st; StateTable := StateTable st;
     CurrStateTable := CurrStateTable st; CurrCollectionPath := p;
     CurrReportIDInfo := CurrReportIDInfo st; UsageList := UsageList st;
     UsageListSize := UsageListSize st; UsageMinMax := UsageMinMax st |}.
Definition set_CurrReportIDInfo i st :=
  {| ParserData := ParserData st; StateTable := StateTable st;
     CurrStateTable := CurrStateTable st; CurrCollectionPath := CurrCollectionPath st;
     CurrReportIDInfo := i; UsageList := UsageList st;
     UsageListSize := UsageListSize st; UsageMinMax := UsageMinMax st |}.
Definition set_Usages l n mm st :=
  {| ParserData := ParserData st; StateTable := StateTable st;
     CurrStateTable := CurrStateTable st; CurrCollectionPath := CurrCollectionPath st;
     CurrReportIDInfo := CurrReportIDInfo st; UsageList := l;
     UsageListSize := n; UsageMinMax := mm |}.

Definition set_Items n l pd :=
  {| TotalReportItems := n; ReportItems := l; CollectionPaths := CollectionPaths pd;
     TotalDeviceReports := TotalDeviceReports pd; ReportIDSizes := ReportIDSizes pd;
     LargestReportSizeBits := LargestReportSizeBits pd; UsingReportIDs := UsingReportIDs pd |}.
Definition set_Paths l pd :=
  {| TotalReportItems := TotalReportItems pd; ReportItems := ReportItems pd;
     CollectionPaths := l;
     TotalDeviceReports := TotalDeviceReports pd; ReportIDSizes := ReportIDSizes pd;
     LargestReportSizeBits := LargestReportSizeBits pd; UsingReportIDs := UsingReportIDs pd |}.
Definition set_Reports n l largest uses pd :=
  {| TotalReportItems := TotalReportItems pd; ReportItems := ReportItems pd;
     CollectionPaths := CollectionPaths pd; TotalDeviceReports := n; ReportIDSizes := l;
     LargestReportSizeBits := largest; UsingReportIDs := uses |}.

Definition set_BitSize v a :=
  {| BitSize := v; Attr_Usage := Attr_Usage a; Attr_Unit := Attr_Unit a;
     Logical := Logical a; Physical := Physical a |}.
Definition set_AttrUsage v a :=
  {| BitSize := BitSize a; Attr_Usage := v; Attr_Unit := Attr_Unit a;
     Logical := Logical a; Physical := Physical a |}.
Definition set_Unit v a :=
  {| BitSize := BitSize a; Attr_Usage := Attr_Usage a; Attr_Unit := v;
     Logical := Logical a; Physical := Physical a |}.
Definition set_Logical v a :=
  {| BitSize := BitSize a; Attr_Usage := Attr_Usage a; Attr_Unit := Attr_Unit a;
     Logical := v; Physical := Physical a |}.
Definition set_Physical v a :=
  {| BitSize := BitSize a; Attr_Usage := Attr_Usage a; Attr_Unit := Attr_Unit a;
     Logical := Logical a; Physical := v |}.
Definition set_Page v u := {| Usage_Page := v; Usage_Usage := Usage_Usage u |}.
Definition set_UsageUsage v u := {| Usage_Page := Usage_Page u; Usage_Usage := v |}.

Definition on_attributes f s :=
  {| ST_Attributes := f (ST_Attributes s); ReportCount := ReportCount s;
     ST_ReportID := ST_ReportID s |}.
Definition set_ReportCount v s :=
  {| ST_Attributes := ST_Attributes s; ReportCount := v; ST_ReportID := ST_ReportID s |}.
Definition set_STReportID v s :=
  {| ST_Attributes := ST_Attributes s; ReportCount := ReportCount s; ST_ReportID := v |}.

(** [CurrStateTable->... = ...] *)
Definition upd_state (f : HID_StateTable_t -> HID_StateTable_t) (st : parser_state)
    : option parser_state :=
  s ← arr_get (StateTable st) (CurrStateTable st);
  l ← arr_set (StateTable st) (CurrStateTable st) (f s);
  Some (set_StateTable l (CurrStateTable st) st).

(** ** The loop body *)

Section parser.
Context `{Env : HIDParserEnv}.

(** [memcpy] of [n] bytes inside one object of [size] bytes is defined when
  both ranges lie in the object and do not overlap. *)
Definition memcpy_defined (dst src n size : Z) : bool :=
  (0 <=? src) && (src + n <=? size) && (0 <=? dst) && (dst + n <=? size)
  && ((src + n <=? dst) || (dst + n <=? src)).

(** [for (i = 0; i < UsageListSize; i++) UsageList[i] = UsageList[i + 1];] *)
Fixpoint shift_usages (n : nat) (i : Z) (l : list Z) : option (list Z) :=
  match n with
  | O => Some l
  | S n' => v ← arr_get l (i + 1); l' ← arr_set l i v; shift_usages n' (i + 1) l'
  end.

(** The usage given to a collection or report item: the head of the usage
  list, else the next value of the usage range, else the one it had. *)
Definition take_usage (old : Z) (st : parser_state) : option (Z * parser_state) :=
  if truthy (UsageListSize st) then
    u ← arr_get (UsageList st) 0;
    l ← shift_usages (Z.to_nat (UsageListSize st)) 0 (UsageList st);
    Some (u, set_Usages l (u8 (UsageListSize st - 1)) (UsageMinMax st) st)
  else
    let mm := UsageMinMax st in
    if Minimum mm <=? Maximum mm then
      Some (u16 (Minimum mm),
            set_Usages (UsageList st) (UsageListSize st)
              {| Minimum := u32 (Minimum mm + 1); Maximum := Maximum mm |} st)
    else Some (old, st).

Definition do_push (st : parser_state) : option step_result :=
  if CurrStateTable st =? HID_STATETABLE_STACK_DEPTH - 1 then
    Some (Return HID_PARSE_HIDStackOverflow st)
  else if memcpy_defined ((CurrStateTable st + 1) * sizeof_HID_StateTable_t)
                         (CurrStateTable st * sizeof_HID_StateTable_t)
                         sizeof_HID_ReportItem_t
                         (HID_STATETABLE_STACK_DEPTH * sizeof_HID_StateTable_t) then
    s ← arr_get (StateTable st) (CurrStateTable st);
    l ← arr_set (StateTable st) (CurrStateTable st + 1) s;
    Some (Continue (set_StateTable l (CurrStateTable st + 1) st))
  else None.

Definition do_pop (st : parser_state) : option step_result :=
  if CurrStateTable st =? 0 then Some (Return HID_PARSE_HIDStackUnderflow st)
  else Some (Continue (set_StateTable (StateTable st) (CurrStateTable st - 1) st)).

Definition do_usage_page (HIDReportItem ReportItemData : Z) (st : parser_state)
    : option step_result :=
  st ← (if Z.land HIDReportItem HID_RI_DATA_SIZE_MASK =? 3 then
          upd_state (on_attributes (fun a =>
            set_AttrUsage (set_Page (u16 (Z.shiftr ReportItemData 16)) (Attr_Usage a)) a)) st
        else Some st);
  st ← upd_state (on_attributes (fun a =>
         set_AttrUsage (set_Page (u16 ReportItemData) (Attr_Usage a)) a)) st;
  Some (Continue st).

(** The search of [ReportIDSizes[0 .. TotalDeviceReports - 1]] for an ID. *)
Fixpoint find_report_id (n : nat) (i : Z) (ID : Z) (l : list HID_ReportSizeInfo_t)
    : option (option Z) :=
  match n with
  | O => Some None
  | S n' =>
      s ← arr_get l i;
      if Size_ReportID s =? ID then Some (Some i) else find_report_id n' (i + 1) ID l
  end.

(** [ParserData->UsingReportIDs = true; CurrReportIDInfo->ReportID = ...] *)
Definition use_report_id (i ID : Z) (st : parser_state) : option step_result :=
  let pd := ParserData st in
  s ← arr_get (ReportIDSizes pd) i;
  l ← arr_set (ReportIDSizes pd) i
        {| Size_ReportID := ID; ReportSizeBits := ReportSizeBits s |};
  Some (Continue (set_CurrReportIDInfo i
         (set_ParserData (set_Reports (TotalDeviceReports pd) l (LargestReportSizeBits pd) true) st))).

Definition do_report_id (ReportItemData : Z) (st : parser_state) : option step_result :=
  let ID := u8 ReportItemData in
  st ← upd_state (set_STReportID ID) st;
  let pd := ParserData st in
  if UsingReportIDs pd then
    found ← find_report_id (Z.to_nat (TotalDeviceReports pd)) 0 ID (ReportIDSizes pd);
    match found with
    | Some i => use_report_id i ID st
    | None =>
        if TotalDeviceReports pd =? HID_MAX_REPORT_IDS then
          Some (Return HID_PARSE_InsufficientReportIDItems st)
        else
          l ← arr_set (ReportIDSizes pd) (TotalDeviceReports pd) zero_sizeinfo;
          use_report_id (TotalDeviceReports pd) ID
            (set_ParserData (set_Reports (u8 (TotalDeviceReports pd + 1)) l
               (LargestReportSizeBits pd) (UsingReportIDs pd)) st)
    end
  else use_report_id (CurrReportIDInfo st) ID st.

Definition do_usage (ReportItemData : Z) (st : parser_state) : option step_result :=
  if UsageListSize st =? HID_USAGE_STACK_DEPTH then
    Some (Return HID_PARSE_UsageListOverflow st)
  else
    l ← arr_set (UsageList st) (UsageListSize st) (u16 ReportItemData);
    Some (Continue (set_Usages l (u8 (UsageListSize st + 1)) (UsageMinMax st) st)).

(** First collection path from [idx] on without a parent; [inr tt] when the
  last of the array has one.  [n] is the number of entries after [idx]. *)
Fixpoint find_free_path (n idx : nat) (paths : list HID_CollectionPath_t)
    : option (nat + unit) :=
  p ← paths !! idx;
  match Path_Parent p with
  | None => Some (inl idx)
  | Some _ => match n with
              | O => Some (inr tt)
              | S n' => find_free_path n' (S idx) paths
              end
  end.

(** The collection's type, page and usage, once [CurrCollectionPath] is set. *)
Definition fill_collection (idx : nat) (parent : option nat) (ReportItemData : Z)
    (st : parser_state) : option step_result :=
  let paths := CollectionPaths (ParserData st) in
  p ← paths !! idx;
  s ← arr_get (StateTable st) (CurrStateTable st);
  '(u, st) ← take_usage (Usage_Usage (Path_Usage p)) st;
  let p' := {| Path_Type := u8 ReportItemData;
               Path_Usage := {| Usage_Page := Usage_Page (Attr_Usage (ST_Attributes s));
                                Usage_Usage := u |};
               Path_Parent := parent |} in
  Some (Continue (set_CurrCollectionPath (Some idx)
         (set_ParserData (set_Paths (<[idx := p']> paths)) st))).

Definition do_collection (ReportItemData : Z) (st : parser_state) : option step_result :=
  let paths := CollectionPaths (ParserData st) in
  match CurrCollectionPath st with
  | None => p ← paths !! 0%nat; fill_collection 0 (Path_Parent p) ReportItemData st
  | Some parent =>
      r ← find_free_path (Z.to_nat HID_MAX_COLLECTIONS - 2) 1 paths;
      match r with
      | inr _ => Some (Return HID_PARSE_InsufficientCollectionPaths st)
      | inl idx => fill_collection idx (Some parent) ReportItemData st
      end
  end.

Definition do_end_collection (st : parser_state) : option step_result :=
  match CurrCollectionPath st with
  | None => Some (Return HID_PARSE_UnexpectedEndCollection st)
  | Some i => p ← CollectionPaths (ParserData st) !! i;
              Some (Continue (set_CurrCollectionPath (Path_Parent p) st))
  end.

(** One trip round the [ReportCount] loop of INPUT, OUTPUT and FEATURE. *)
Definition add_report_item (type ReportItemData : Z) (st : parser_state)
    : option step_result :=
  s ← arr_get (StateTable st) (CurrStateTable st);
  let attrs := ST_Attributes s in
  '(u, st) ← take_usage (Usage_Usage (Attr_Usage attrs)) st;
  let pd := ParserData st in
  info ← arr_get (ReportIDSizes pd) (CurrReportIDInfo st);
  off ← arr_get (ReportSizeBits info) type;
  let NewReportItem :=
    {| BitOffset := off; ItemType := type; ItemFlags := u16 ReportItemData;
       Item_ReportID := ST_ReportID s; CollectionPath := CurrCollectionPath st;
       Attributes := set_AttrUsage (set_UsageUsage u (Attr_Usage attrs)) attrs;
       Value := indet; PreviousValue := indet |} in
  let size := u16 (off + BitSize attrs) in
  bits ← arr_set (ReportSizeBits info) type size;
  sizes ← arr_set (ReportIDSizes pd) (CurrReportIDInfo st)
            {| Size_ReportID := Size_ReportID info; ReportSizeBits := bits |};
  let st := set_ParserData (set_Reports (TotalDeviceReports pd) sizes
              (Z.max (LargestReportSizeBits pd) size) (UsingReportIDs pd)) st in
  if TotalReportItems pd =? HID_MAX_REPORTITEMS then
    Some (Return HID_PARSE_InsufficientReportItems st)
  else
    items ← arr_set (ReportItems pd) (TotalReportItems pd) NewReportItem;
    let keep := negb (truthy (Z.land ReportItemData HID_IOF_CONSTANT))
                && FilterHIDReportItem (CollectionPaths pd) NewReportItem in
    Some (Continue (set_ParserData (set_Items
      (if keep then u8 (TotalReportItems pd + 1) else TotalReportItems pd) items) st)).

Fixpoint add_report_items (n : nat) (type ReportItemData : Z) (st : parser_state)
    : option step_result :=
  match n with
  | O => Some (Continue st)
  | S n' =>
      r ← add_report_item type ReportItemData st;
      match r with
      | Continue st => add_report_items n' type ReportItemData st
      | Return c st => Some (Return c st)
      end
  end.

Definition do_main_item (type ReportItemData : Z) (st : parser_state) : option step_result :=
  s ← arr_get (StateTable st) (CurrStateTable st);
  add_report_items (Z.to_nat (ReportCount s)) type ReportItemData st.

Definition upd_continue f (st : parser_state) : option step_result :=
  st ← upd_state f st; Some (Continue st).

(** The [switch] on the item's type and tag. *)
Definition process_item (HIDReportItem D : Z) (st : parser_state) : option step_result :=
  match tag_of HIDReportItem with
  | RI_PUSH => do_push st
  | RI_POP => do_pop st
  | RI_USAGE_PAGE => do_usage_page HIDReportItem D st
  | RI_LOGICAL_MINIMUM => upd_continue (on_attributes (fun a =>
      set_Logical {| Minimum := u32 D; Maximum := Maximum (Logical a) |} a)) st
  | RI_LOGICAL_MAXIMUM => upd_continue (on_attributes (fun a =>
      set_Logical {| Minimum := Minimum (Logical a); Maximum := u32 D |} a)) st
  | RI_PHYSICAL_MINIMUM => upd_continue (on_attributes (fun a =>
      set_Physical {| Minimum := u32 D; Maximum := Maximum (Physical a) |} a)) st
  | RI_PHYSICAL_MAXIMUM => upd_continue (on_attributes (fun a =>
      set_Physical {| Minimum := Minimum (Physical a); Maximum := u32 D |} a)) st
  | RI_UNIT_EXPONENT => upd_continue (on_attributes (fun a =>
      set_Unit {| Unit_Type := Unit_Type (Attr_Unit a); Unit_Exponent := u8 D |} a)) st
  | RI_UNIT => upd_continue (on_attributes (fun a =>
      set_Unit {| Unit_Type := u32 D; Unit_Exponent := Unit_Exponent (Attr_Unit a) |} a)) st
  | RI_REPORT_SIZE => upd_continue (on_attributes (set_BitSize (u8 D))) st
  | RI_REPORT_COUNT => upd_continue (set_ReportCount (u8 D)) st
  | RI_REPORT_ID => do_report_id D st
  | RI_USAGE => do_usage D st
  | RI_USAGE_MINIMUM => Some (Continue (set_Usages (UsageList st) (UsageListSize st)
      {| Minimum := u32 D; Maximum := Maximum (UsageMinMax st) |} st))
  | RI_USAGE_MAXIMUM => Some (Continue (set_Usages (UsageList st) (UsageListSize st)
      {| Minimum := Minimum (UsageMinMax st); Maximum := u32 D |} st))
  | RI_COLLECTION => do_collection D st
  | RI_END_COLLECTION => do_end_collection st
  | RI_INPUT => do_main_item HID_REPORT_ITEM_In D st
  | RI_OUTPUT => do_main_item HID_REPORT_ITEM_Out D st
  | RI_FEATURE => do_main_item HID_REPORT_ITEM_Feature D st
  | RI_unknown => Some (Continue st)
  end.

(** The local items are dropped after every main item. *)
Definition end_of_item (HIDReportItem : Z) (st : parser_state) : parser_state :=
  if Z.land HIDReportItem HID_RI_TYPE_MASK =? HID_RI_TYPE_MAIN
  then set_Usages (UsageList st) 0 zero_minmax st else st.

(** [while (ReportSize)]: the item byte, its 0, 1, 2 or 4 data bytes, the
  [switch].  Reading past the end of the buffer is a fault; [ReportSize] is
  a [uint16_t] and wraps when an item is cut off by the end. *)
Fixpoint parse_loop (ReportData : list Z) (ReportSize : Z) (st : parser_state)
    : option (Z * parser_state) :=
  if ReportSize =? 0 then
    Some (if truthy (TotalReportItems (ParserData st)) then HID_PARSE_Successful
          else HID_PARSE_NoUnfilteredReportItems, st)
  else
    match ReportData with
    | [] => None
    | item :: rest =>
        let sz := Z.land item HID_RI_DATA_SIZE_MASK in
        let run D next :=
          r ← process_item item D st;
          match r with
          | Return c st => Some (c, st)
          | Continue st => next (end_of_item item st)
          end in
        if sz =? 3 then
          match rest with
          | d0 :: d1 :: d2 :: d3 :: rest =>
              run (Z.lor (Z.lor (Z.shiftl d3 24) (Z.shiftl d2 16)) (Z.lor (Z.shiftl d1 8) d0))
                  (parse_loop rest (u16 (u16 (ReportSize - 1) - 4)))
          | _ => None
          end
        else if sz =? 2 then
          match rest with
          | d0 :: d1 :: rest =>
              run (Z.lor (Z.shiftl d1 8) d0) (parse_loop rest (u16 (u16 (ReportSize - 1) - 2)))
          | _ => None
          end
        else if sz =? 1 then
          match rest with
          | d0 :: rest => run d0 (parse_loop rest (u16 (u16 (ReportSize - 1) - 1)))
          | _ => None
          end
        else run 0 (parse_loop rest (u16 (ReportSize - 1)))
    end.

Definition initial_state : parser_state :=
  {| ParserData :=
       {| TotalReportItems := 0;
          ReportItems := replicate (Z.to_nat HID_MAX_REPORTITEMS) zero_item;
          CollectionPaths := replicate (Z.to_nat HID_MAX_COLLECTIONS) zero_path;
          TotalDeviceReports := 1;
          ReportIDSizes := replicate (Z.to_nat HID_MAX_REPORT_IDS) zero_sizeinfo;
          LargestReportSizeBits := 0; UsingReportIDs := false |};
     StateTable := [zero_state; indet_state]; CurrStateTable := 0;
     CurrCollectionPath := None; CurrReportIDInfo := 0;
     UsageList := replicate (Z.to_nat HID_USAGE_STACK_DEPTH) indet;
     UsageListSize := 0; UsageMinMax := zero_minmax |}.

(** The parser: its return value and the structure it filled. *)
Definition USB_ProcessHIDReport (ReportData : list Z) (ReportSize : Z)
    : option (Z * HID_ReportInfo_t) :=
  '(code, st) ← parse_loop ReportData ReportSize initial_state;
  Some (code, ParserData st).

End parser.
