(* ===== verification/HIDItems.v ===== *)
(** * HID report descriptor items

    The items a report descriptor is made of, their bytes, the macros of
    [src/LUFA-120730/LUFA/Drivers/USB/Class/Common/HIDReportData.h] that build
    them and the standard keyboard and mouse descriptors of
    [HIDClassCommon.h]. *)
From S2P Require Import Prelude HIDParser.

(** ** Items and their framing *)

(** An item: its first byte and the data bytes after it. *)
Definition item : Type := Z * list Z.

(** The number of data bytes the first byte announces. *)
Definition data_length (b : Z) : nat :=
  let sz := Z.land b HID_RI_DATA_SIZE_MASK in
  if sz =? 3 then 4%nat else Z.to_nat sz.

Definition item_value (data : list Z) : Z :=
  match data with
  | [d0; d1; d2; d3] => Z.lor (Z.lor (Z.shiftl d3 24) (Z.shiftl d2 16)) (Z.lor (Z.shiftl d1 8) d0)
  | [d0; d1] => Z.lor (Z.shiftl d1 8) d0
  | [d0] => d0
  | _ => 0
  end.

Definition framed (it : item) : Prop := length it.2 = data_length it.1.

Definition encode_items (its : list item) : list Z :=
  mjoin ((fun it : item => it.1 :: it.2) <$> its).

Lemma encode_items_cons b d its : encode_items ((b, d) :: its) = b :: d ++ encode_items its.
Proof. done. Qed.

Lemma data_length_cases b :
  let sz := Z.land b HID_RI_DATA_SIZE_MASK in
  sz = 0 \/ sz = 1 \/ sz = 2 \/ sz = 3.
Proof.
  cbv zeta. change HID_RI_DATA_SIZE_MASK with (2 ^ 2 - 1). rewrite land_mask_wrap by lia.
  pose proof (wrap_range 2 b). lia.
Qed.


(** ** The item macros of [HIDReportData.h] *)

(** [_HID_RI_ENTRY(Type, Tag, DataBits, Data)]: [DataBits] is 0, 8, 16 or 32. *)
Definition HID_RI_DATA_BITS (DataBits : Z) : Z :=
  if DataBits =? 32 then 3 else if DataBits =? 16 then 2 else if DataBits =? 8 then 1 else 0.

Definition HID_RI_ENCODE (DataBits Data : Z) : list Z :=
  if DataBits =? 8 then [Z.land Data 0xFF]
  else if DataBits =? 16 then [Z.land Data 0xFF; Z.land (Z.shiftr Data 8) 0xFF]
  else if DataBits =? 32 then
    [Z.land Data 0xFF; Z.land (Z.shiftr Data 8) 0xFF;
     Z.land (Z.shiftr Data 16) 0xFF; Z.land (Z.shiftr (Z.shiftr Data 16) 8) 0xFF]
  else [].

Definition HID_RI_ENTRY (Type_ Tag DataBits Data : Z) : item :=
  (Z.lor (Z.lor Type_ Tag) (HID_RI_DATA_BITS DataBits), HID_RI_ENCODE DataBits Data).

Definition HID_RI_INPUT := HID_RI_ENTRY 0x00 0x80.
Definition HID_RI_OUTPUT := HID_RI_ENTRY 0x00 0x90.
Definition HID_RI_COLLECTION := HID_RI_ENTRY 0x00 0xA0.
Definition HID_RI_FEATURE := HID_RI_ENTRY 0x00 0xB0.
Definition HID_RI_END_COLLECTION := HID_RI_ENTRY 0x00 0xC0.
Definition HID_RI_USAGE_PAGE := HID_RI_ENTRY 0x04 0x00.
Definition HID_RI_LOGICAL_MINIMUM := HID_RI_ENTRY 0x04 0x10.
Definition HID_RI_LOGICAL_MAXIMUM := HID_RI_ENTRY 0x04 0x20.
Definition HID_RI_PHYSICAL_MINIMUM := HID_RI_ENTRY 0x04 0x30.
Definition HID_RI_PHYSICAL_MAXIMUM := HID_RI_ENTRY 0x04 0x40.
Definition HID_RI_UNIT_EXPONENT := HID_RI_ENTRY 0x04 0x50.
Definition HID_RI_UNIT := HID_RI_ENTRY 0x04 0x60.
Definition HID_RI_REPORT_SIZE := HID_RI_ENTRY 0x04 0x70.
Definition HID_RI_REPORT_ID := HID_RI_ENTRY 0x04 0x80.
Definition HID_RI_REPORT_COUNT := HID_RI_ENTRY 0x04 0x90.
Definition HID_RI_PUSH := HID_RI_ENTRY 0x04 0xA0.
Definition HID_RI_POP := HID_RI_ENTRY 0x04 0xB0.
Definition HID_RI_USAGE := HID_RI_ENTRY 0x08 0x00.
Definition HID_RI_USAGE_MINIMUM := HID_RI_ENTRY 0x08 0x10.
Definition HID_RI_USAGE_MAXIMUM := HID_RI_ENTRY 0x08 0x20.

Definition HID_IOF_DATA : Z := 0.
Definition HID_IOF_VARIABLE : Z := 2.
Definition HID_IOF_ARRAY : Z := 0.
Definition HID_IOF_RELATIVE : Z := 4.
Definition HID_IOF_ABSOLUTE : Z := 0.
Definition HID_IOF_NON_VOLATILE : Z := 0.

(** ** The report descriptors of [HIDClassCommon.h] *)

Definition HID_DESCRIPTOR_KEYBOARD (MaxKeys : Z) : list item :=
  [HID_RI_USAGE_PAGE 8 0x01; HID_RI_USAGE 8 0x06; HID_RI_COLLECTION 8 0x01;
     HID_RI_USAGE_PAGE 8 0x07; HID_RI_USAGE_MINIMUM 8 0xE0; HID_RI_USAGE_MAXIMUM 8 0xE7;
     HID_RI_LOGICAL_MINIMUM 8 0x00; HID_RI_LOGICAL_MAXIMUM 8 0x01;
     HID_RI_REPORT_SIZE 8 0x01; HID_RI_REPORT_COUNT 8 0x08;
     HID_RI_INPUT 8 (Z.lor (Z.lor HID_IOF_DATA HID_IOF_VARIABLE) HID_IOF_ABSOLUTE);
     HID_RI_REPORT_COUNT 8 0x01; HID_RI_REPORT_SIZE 8 0x08;
     HID_RI_INPUT 8 HID_IOF_CONSTANT;
     HID_RI_USAGE_PAGE 8 0x08; HID_RI_USAGE_MINIMUM 8 0x01; HID_RI_USAGE_MAXIMUM 8 0x05;
     HID_RI_REPORT_COUNT 8 0x05; HID_RI_REPORT_SIZE 8 0x01;
     HID_RI_OUTPUT 8 (Z.lor (Z.lor (Z.lor HID_IOF_DATA HID_IOF_VARIABLE) HID_IOF_ABSOLUTE)
                        HID_IOF_NON_VOLATILE);
     HID_RI_REPORT_COUNT 8 0x01; HID_RI_REPORT_SIZE 8 0x03;
     HID_RI_OUTPUT 8 HID_IOF_CONSTANT;
     HID_RI_LOGICAL_MINIMUM 8 0x00; HID_RI_LOGICAL_MAXIMUM 8 0x65;
     HID_RI_USAGE_PAGE 8 0x07; HID_RI_USAGE_MINIMUM 8 0x00; HID_RI_USAGE_MAXIMUM 8 0x65;
     HID_RI_REPORT_COUNT 8 MaxKeys; HID_RI_REPORT_SIZE 8 0x08;
     HID_RI_INPUT 8 (Z.lor (Z.lor HID_IOF_DATA HID_IOF_ARRAY) HID_IOF_ABSOLUTE);
   HID_RI_END_COLLECTION 0 0].

Definition HID_DESCRIPTOR_MOUSE (MinAxisVal MaxAxisVal MinPhysicalVal MaxPhysicalVal Buttons : Z)
    (AbsoluteCoords : bool) : list item :=
  [HID_RI_USAGE_PAGE 8 0x01; HID_RI_USAGE 8 0x02; HID_RI_COLLECTION 8 0x01;
     HID_RI_USAGE 8 0x01; HID_RI_COLLECTION 8 0x00;
       HID_RI_USAGE_PAGE 8 0x09; HID_RI_USAGE_MINIMUM 8 0x01; HID_RI_USAGE_MAXIMUM 8 Buttons;
       HID_RI_LOGICAL_MINIMUM 8 0x00; HID_RI_LOGICAL_MAXIMUM 8 0x01;
       HID_RI_REPORT_COUNT 8 Buttons; HID_RI_REPORT_SIZE 8 0x01;
       HID_RI_INPUT 8 (Z.lor (Z.lor HID_IOF_DATA HID_IOF_VARIABLE) HID_IOF_ABSOLUTE);
       HID_RI_REPORT_COUNT 8 0x01; HID_RI_REPORT_SIZE 8 (8 - Z.rem Buttons 8);
       HID_RI_INPUT 8 HID_IOF_CONSTANT;
       HID_RI_USAGE_PAGE 8 0x01; HID_RI_USAGE 8 0x30; HID_RI_USAGE 8 0x31;
       HID_RI_LOGICAL_MINIMUM 16 MinAxisVal; HID_RI_LOGICAL_MAXIMUM 16 MaxAxisVal;
       HID_RI_PHYSICAL_MINIMUM 16 MinPhysicalVal; HID_RI_PHYSICAL_MAXIMUM 16 MaxPhysicalVal;
       HID_RI_REPORT_COUNT 8 0x02;
       HID_RI_REPORT_SIZE 8 (if (-0xFF <=? MinAxisVal) && (MaxAxisVal <=? 0xFF) then 8 else 16);
       HID_RI_INPUT 8 (Z.lor (Z.lor HID_IOF_DATA HID_IOF_VARIABLE)
                         (if AbsoluteCoords then HID_IOF_ABSOLUTE else HID_IOF_RELATIVE));
     HID_RI_END_COLLECTION 0 0;
   HID_RI_END_COLLECTION 0 0].

(** ** Encoding and decoding of item data *)

Lemma land_255 x : Z.land x 0xFF = u8 x.
Proof. apply (land_mask_wrap 8). lia. Qed.

(** What [HID_RI_ENCODE] writes is what the parser's loop reads back. *)
Lemma item_value_encode bits D :
  bits ∈ [8; 16; 32] -> item_value (HID_RI_ENCODE bits D) = wrap bits D.
Proof.
  intros Hb. unfold HID_RI_ENCODE.
  assert (bits = 8 \/ bits = 16 \/ bits = 32) as [-> | [-> | ->]] 
    by (rewrite !elem_of_cons, elem_of_nil in Hb; tauto); cbn [Z.eqb Pos.eqb];
    rewrite !land_255; cbn [item_value]; [done|..].
  - apply Z.bits_inj'. intros i Hi. rewrite Z.lor_spec, Z.shiftl_spec, !testbit_wrap by lia.
    destruct (Z.ltb_spec i 8), (Z.ltb_spec i 16), (Z.ltb_spec (i - 8) 8); try lia; cbn [andb orb]; try done.
    + rewrite (Z.testbit_neg_r _ (i - 8)) by lia. done.
    + rewrite Z.shiftr_spec, orb_false_r by lia. f_equal. lia.
  - apply Z.bits_inj'. intros i Hi.
    rewrite !Z.lor_spec, !Z.shiftl_spec, !testbit_wrap by lia.
    destruct (Z.ltb_spec i 8), (Z.ltb_spec i 32), (Z.ltb_spec (i - 8) 8), (Z.ltb_spec (i - 16) 8),
      (Z.ltb_spec (i - 24) 8); try lia; cbn [andb orb]; try done.
    all: repeat match goal with |- context [Z.testbit ?a (?x - ?k)] =>
      rewrite (Z.testbit_neg_r a (x - k)) by lia end.
    all: rewrite ?Z.shiftr_spec by lia; cbn [orb]; rewrite ?orb_false_r; try done; f_equal; lia.
Qed.

Lemma framed_entry Type_ Tag bits D :
  Z.land (Z.lor Type_ Tag) 3 = 0 -> bits ∈ [0; 8; 16; 32] -> framed (HID_RI_ENTRY Type_ Tag bits D).
Proof.
  intros Ht Hb. unfold framed, HID_RI_ENTRY, data_length, HID_RI_DATA_SIZE_MASK; cbn [fst snd].
  rewrite Z.land_lor_distr_l, Ht, Z.lor_0_l.
  assert (bits = 0 \/ bits = 8 \/ bits = 16 \/ bits = 32) as [-> | [-> | [-> | ->]]] 
    by (rewrite !elem_of_cons, elem_of_nil in Hb; tauto); done.
Qed.

(** A parser environment whose filter keeps every item; what uninitialised
    variables hold is left open. *)
Definition accept_all (junk : Z) (junk_state : HID_StateTable_t) : HIDParserEnv :=
  {| FilterHIDReportItem := fun _ _ => true; indet := junk; indet_state := junk_state |}.
