(* ===== verification/HIDParserInv.v ===== *)
(** * HID report descriptor parser: memory safety and structural invariant

    The invariant [wf_parser] of the parser's state, that every item handler
    keeps it, and that a well-framed descriptor without PUSH items is parsed
    without leaving the parser's arrays. *)
From S2P Require Import Prelude HIDParser HIDItems.

Definition state_of (r : step_result) : parser_state :=
  match r with Continue st => st | Return _ st => st end.

(** ** The invariant *)

(** Collection paths are allocated in order: [1 .. k-1] have a parent before
    them in the array, [0] and the entries from [k] on have none. *)
Record wf_paths (k : nat) (paths : list HID_CollectionPath_t) : Prop := {
  wf_paths_length : length paths = 10%nat;
  wf_paths_used : (1 <= k <= 10)%nat;
  wf_paths_free i p : paths !! i = Some p ->
    (Path_Parent p = None <-> (i = 0 \/ k <= i)%nat);
  wf_paths_parent i p j : paths !! i = Some p -> Path_Parent p = Some j -> (j < i)%nat }.

Definition wf_sizeinfo (s : HID_ReportSizeInfo_t) : Prop :=
  length (ReportSizeBits s) = 3%nat /\ Forall (fun b => 0 <= b < 65536) (ReportSizeBits s).

Record wf_parser (st : parser_state) : Prop := {
  wf_items_length : length (ReportItems (ParserData st)) = 20%nat;
  wf_items_total : 0 <= TotalReportItems (ParserData st) <= 20;
  wf_collections : exists k, wf_paths k (CollectionPaths (ParserData st)) /\
    (forall c, CurrCollectionPath st = Some c -> (c < k)%nat);
  wf_reports_length : length (ReportIDSizes (ParserData st)) = 10%nat;
  wf_reports_total : 1 <= TotalDeviceReports (ParserData st) <= 10;
  wf_reports : Forall wf_sizeinfo (ReportIDSizes (ParserData st));
  wf_report : 0 <= CurrReportIDInfo st < TotalDeviceReports (ParserData st);
  wf_table : length (StateTable st) = 2%nat;
  wf_top : CurrStateTable st = 0;
  wf_usages : length (UsageList st) = 8%nat;
  wf_usages_size : 0 <= UsageListSize st <= 8;
  wf_largest : 0 <= LargestReportSizeBits (ParserData st) < 65536 }.

Create HintDb hid.
#[export] Hint Resolve wf_items_length wf_items_total wf_reports_length wf_reports_total
  wf_reports wf_report wf_table wf_top wf_usages wf_usages_size wf_largest : hid.

(** Discharge the fields of the invariant a step leaves alone. *)
Ltac wf_solve :=
  constructor; cbn [ParserData StateTable CurrStateTable CurrCollectionPath CurrReportIDInfo
    UsageList UsageListSize UsageMinMax TotalReportItems ReportItems CollectionPaths
    TotalDeviceReports ReportIDSizes LargestReportSizeBits UsingReportIDs
    set_ParserData set_StateTable set_CurrCollectionPath set_CurrReportIDInfo set_Usages
    set_Items set_Paths set_Reports state_of];
  try solve [eauto with hid | lia | match goal with H : wf_parser _ |- _ => apply H end].

Section invariant.
Context `{Env : HIDParserEnv}.

Lemma wf_initial : wf_parser initial_state.
Proof.
  constructor; try done; try (cbn; lia).
  - exists 1%nat. split; [|done]. constructor; [done|lia| |].
    + intros i p Hp. cbn in Hp. apply lookup_replicate_1 in Hp as [-> ?]. cbn. split; [lia|done].
    + intros i p j Hp. cbn in Hp. apply lookup_replicate_1 in Hp as [-> ?]. done.
  - repeat constructor; cbn; lia.
Qed.

Lemma state_get_ok st : wf_parser st -> is_Some (arr_get (StateTable st) (CurrStateTable st)).
Proof. intros H. apply arr_get_is_Some. rewrite wf_top, wf_table by done. lia. Qed.

Lemma upd_state_ok f st : wf_parser st -> is_Some (upd_state f st).
Proof.
  intros H. unfold upd_state. destruct (state_get_ok st H) as [s Hs]. rewrite Hs. cbn.
  destruct (arr_set_is_Some (StateTable st) (CurrStateTable st) (f s)) as [l Hl];
    [by eapply arr_get_lt|]. rewrite Hl. cbn. done.
Qed.

Lemma upd_state_wf f st st' : wf_parser st -> upd_state f st = Some st' -> wf_parser st'.
Proof.
  intros H Hu. unfold upd_state in Hu. inv_opt. wf_solve.
  erewrite arr_set_length by done. by apply wf_table.
Qed.

Lemma upd_state_data f st st' :
  upd_state f st = Some st' ->
  ParserData st' = ParserData st /\ UsageListSize st' = UsageListSize st /\
  CurrReportIDInfo st' = CurrReportIDInfo st /\
  CurrCollectionPath st' = CurrCollectionPath st /\
  exists s, arr_get (StateTable st) (CurrStateTable st) = Some s /\
            arr_get (StateTable st') (CurrStateTable st') = Some (f s).
Proof.
  unfold upd_state. intros Hu. inv_opt. cbn. repeat split; try done.
  eexists; split; [done|]. by eapply arr_get_set_eq.
Qed.

(** *** Usages *)

Lemma shift_usages_ok n i l :
  0 <= i -> i + Z.of_nat n < Z.of_nat (length l) -> is_Some (shift_usages n i l).
Proof.
  revert i l. induction n as [|n IH]; intros i l Hi Hn; cbn; [done|].
  destruct (arr_get_is_Some l (i + 1)) as [v Hv]; [lia|]. rewrite Hv. cbn.
  destruct (arr_set_is_Some l i v) as [l' Hl']; [lia|]. rewrite Hl'. cbn.
  apply IH; [lia|]. rewrite (arr_set_length _ _ _ _ Hl'). lia.
Qed.

Lemma shift_usages_length n i l l' : shift_usages n i l = Some l' -> length l' = length l.
Proof.
  revert i l. induction n as [|n IH]; intros i l H; cbn in H; inv_opt; [done|].
  rewrite (IH _ _ H). by eapply arr_set_length.
Qed.

Lemma take_usage_ok old st : wf_parser st -> UsageListSize st < 8 -> is_Some (take_usage old st).
Proof.
  intros H Hs. unfold take_usage. destruct (truthy _) eqn:Ht.
  - destruct (arr_get_is_Some (UsageList st) 0) as [u Hu]; [rewrite wf_usages by done; lia|].
    rewrite Hu. cbn. pose proof (wf_usages_size _ H).
    destruct (shift_usages_ok (Z.to_nat (UsageListSize st)) 0 (UsageList st)) as [l Hl];
      [lia|rewrite wf_usages by done; lia|]. rewrite Hl. cbn. done.
  - case_match; done.
Qed.

Lemma take_usage_wf old st u st' :
  wf_parser st -> take_usage old st = Some (u, st') ->
  wf_parser st' /\ UsageListSize st' <= UsageListSize st /\
  ParserData st' = ParserData st /\ StateTable st' = StateTable st /\
  CurrStateTable st' = CurrStateTable st /\ CurrReportIDInfo st' = CurrReportIDInfo st /\
  CurrCollectionPath st' = CurrCollectionPath st.
Proof.
  intros H Ht. unfold take_usage in Ht. pose proof (wf_usages_size _ H).
  destruct (truthy _) eqn:E; bprop.
  - inv_opt. cbn. rewrite u8_small by lia. split; [|repeat split; lia].
    wf_solve. erewrite shift_usages_length by done. by apply wf_usages.
  - case_match; inv_opt; cbn; (split; [|repeat split; lia]); [wf_solve|done].
Qed.

(** *** Report IDs *)

Lemma find_report_id_spec n i ID l :
  0 <= i -> i + Z.of_nat n <= Z.of_nat (length l) ->
  exists r, find_report_id n i ID l = Some r /\
    match r with
    | Some j => i <= j < i + Z.of_nat n /\
                exists s, arr_get l j = Some s /\ Size_ReportID s = ID
    | None => forall j s, i <= j < i + Z.of_nat n -> arr_get l j = Some s -> Size_ReportID s <> ID
    end.
Proof.
  revert i. induction n as [|n IH]; intros i Hi Hn; cbn [find_report_id].
  - exists None. split; [done|]. intros. lia.
  - destruct (arr_get_is_Some l i) as [s Hs]; [lia|]. rewrite Hs. cbn.
    destruct (Z.eqb_spec (Size_ReportID s) ID) as [E|E].
    + exists (Some i). split; [done|]. split; [lia|]. eauto.
    + destruct (IH (i + 1)) as (r & Hr & Hspec); [lia|lia|]. exists r. split; [done|].
      destruct r as [j|].
      * destruct Hspec as [? ?]. split; [lia|done].
      * intros j s' Hj Hs'. destruct (decide (j = i)) as [->|]; [congruence|].
        apply (Hspec j); [lia|done].
Qed.

Lemma use_report_id_ok i ID st :
  0 <= i < Z.of_nat (length (ReportIDSizes (ParserData st))) -> is_Some (use_report_id i ID st).
Proof.
  intros Hi. unfold use_report_id. destruct (arr_get_is_Some _ _ Hi) as [s Hs]. rewrite Hs. cbn.
  destruct (arr_set_is_Some (ReportIDSizes (ParserData st)) i
    {| Size_ReportID := ID; ReportSizeBits := ReportSizeBits s |} Hi) as [l Hl].
  rewrite Hl. done.
Qed.

Lemma use_report_id_wf i ID st r :
  wf_parser st -> i < TotalDeviceReports (ParserData st) ->
  use_report_id i ID st = Some r ->
  wf_parser (state_of r) /\ UsageListSize (state_of r) = UsageListSize st.
Proof.
  intros H Hi Hr. unfold use_report_id in Hr. inv_opt. cbn. split; [|done].
  match goal with E : arr_get _ i = Some _ |- _ => pose proof (arr_get_lt _ _ _ E);
    pose proof (arr_get_Forall _ _ _ _ E (wf_reports _ H)) end.
  wf_solve.
  - erewrite arr_set_length by done. by apply wf_reports_length.
  - eapply arr_set_Forall; [done| |by apply wf_reports]. done.
Qed.

Lemma do_report_id_ok D st : wf_parser st -> is_Some (do_report_id D st).
Proof.
  intros H. unfold do_report_id.
  destruct (upd_state_ok (set_STReportID (u8 D)) st H) as [st1 E1]. rewrite E1. cbn.
  pose proof (upd_state_wf _ _ _ H E1) as H1. clear E1.
  pose proof (wf_reports_total _ H1). pose proof (wf_reports_length _ H1).
  destruct (UsingReportIDs _).
  - destruct (find_report_id_spec (Z.to_nat (TotalDeviceReports (ParserData st1))) 0 (u8 D)
      (ReportIDSizes (ParserData st1))) as (r & Hr & Hs); [lia|lia|]. rewrite Hr. cbn.
    destruct r as [j|].
    + apply use_report_id_ok. lia.
    + case_match; [done|]. bprop.
      destruct (arr_set_is_Some (ReportIDSizes (ParserData st1))
        (TotalDeviceReports (ParserData st1)) zero_sizeinfo) as [l Hl];
        [unfold HID_MAX_REPORT_IDS in *; lia|]. rewrite Hl. cbn.
      apply use_report_id_ok. cbn. rewrite (arr_set_length _ _ _ _ Hl).
      unfold HID_MAX_REPORT_IDS in *; lia.
  - apply use_report_id_ok. pose proof (wf_report _ H1). lia.
Qed.

Lemma wf_new_report l st :
  wf_parser st -> TotalDeviceReports (ParserData st) <> HID_MAX_REPORT_IDS ->
  arr_set (ReportIDSizes (ParserData st)) (TotalDeviceReports (ParserData st)) zero_sizeinfo
    = Some l ->
  wf_parser (set_ParserData (set_Reports (u8 (TotalDeviceReports (ParserData st) + 1)) l
    (LargestReportSizeBits (ParserData st)) (UsingReportIDs (ParserData st))) st).
Proof.
  intros H Hn Hl. unfold HID_MAX_REPORT_IDS in Hn. pose proof (wf_reports_total _ H).
  pose proof (wf_report _ H).
  rewrite u8_small by lia. wf_solve.
  - rewrite (arr_set_length _ _ _ _ Hl). by apply wf_reports_length.
  - eapply arr_set_Forall; [done| |by apply wf_reports].
    split; [done|]. repeat constructor; lia.
Qed.

Lemma do_report_id_wf D st r :
  wf_parser st -> do_report_id D st = Some r ->
  wf_parser (state_of r) /\ UsageListSize (state_of r) = UsageListSize st.
Proof.
  intros H Hr. unfold do_report_id in Hr.
  destruct (upd_state _ st) as [st1|] eqn:E1; [cbn in Hr|done].
  pose proof (upd_state_wf _ _ _ H E1) as H1.
  destruct (upd_state_data _ _ _ E1) as (_ & Hu & _). rewrite <- Hu. clear E1 Hu.
  pose proof (wf_reports_total _ H1). pose proof (wf_reports_length _ H1).
  destruct (UsingReportIDs _).
  - destruct (find_report_id_spec (Z.to_nat (TotalDeviceReports (ParserData st1))) 0 (u8 D)
      (ReportIDSizes (ParserData st1))) as (f & Hf & Hs); [lia|lia|]. rewrite Hf in Hr.
    cbn in Hr. destruct f as [j|].
    + apply (use_report_id_wf j (u8 D) st1 r); [done|lia|done].
    + destruct (_ =? _) eqn:Ht; [by inv_opt|]. bprop.
      destruct (arr_set _ _ zero_sizeinfo) as [l|] eqn:Hl; [cbn in Hr|done].
      pose proof (wf_new_report _ _ H1 Ht Hl) as Hnew.
      apply (use_report_id_wf _ _ _ _ Hnew) in Hr; [done|].
      cbn. unfold HID_MAX_REPORT_IDS in Ht. rewrite u8_small by lia. lia.
  - apply (use_report_id_wf _ _ st1 r H1) in Hr; [done|]. apply wf_report. done.
Qed.

(** *** Collections *)

Lemma find_free_path_spec k n idx paths :
  wf_paths k paths -> (1 <= idx <= k)%nat -> (idx + n = 9)%nat ->
  exists r, find_free_path n idx paths = Some r /\
    match r with inl j => j = k /\ (k < 10)%nat | inr _ => k = 10%nat end.
Proof.
  intros Hw. revert idx. induction n as [|n IH]; intros idx Hi Hn.
  all: destruct (lookup_lt_is_Some_2 paths idx) as [p Hp];
    [rewrite (wf_paths_length _ _ Hw); lia|].
  all: cbn [find_free_path]; rewrite Hp; cbn [mbind option_bind].
  all: pose proof (wf_paths_free _ _ Hw _ _ Hp) as Hf; pose proof (wf_paths_used _ _ Hw).
  all: destruct (Path_Parent p) as [q|] eqn:Ep.
  - exists (inr tt). split; [done|]. destruct (decide (k = 10%nat)); [done|].
    exfalso. assert (Some q = None) by (apply Hf; lia). done.
  - exists (inl idx). split; [done|]. destruct Hf as [Hf _]. specialize (Hf eq_refl). lia.
  - apply IH; [|lia]. destruct (decide (idx = k)) as [->|]; [|lia].
    exfalso. assert (Some q = None) by (apply Hf; lia). done.
  - exists (inl idx). split; [done|]. destruct Hf as [Hf _]. specialize (Hf eq_refl). lia.
Qed.

Lemma fill_collection_ok idx parent D st :
  wf_parser st -> UsageListSize st < 8 -> (idx < 10)%nat ->
  is_Some (fill_collection idx parent D st).
Proof.
  intros H Hs Hi. unfold fill_collection. destruct (wf_collections _ H) as (k & Hw & _).
  destruct (lookup_lt_is_Some_2 (CollectionPaths (ParserData st)) idx) as [p Hp];
    [rewrite (wf_paths_length _ _ Hw); lia|]. rewrite Hp. cbn.
  destruct (state_get_ok st H) as [s Hs']. rewrite Hs'. cbn.
  destruct (take_usage_ok (Usage_Usage (Path_Usage p)) st H Hs) as [[u st'] Hu].
  rewrite Hu. done.
Qed.

(** Writing entry [0], or allocating entry [k] under a used parent, keeps
    the allocation order. *)
Lemma wf_paths_insert k idx p' paths :
  wf_paths k paths ->
  (idx = 0%nat /\ Path_Parent p' = None \/
   idx = k /\ (k < 10)%nat /\ exists q, Path_Parent p' = Some q /\ (q < k)%nat) ->
  wf_paths (if decide (idx = 0%nat) then k else S k) (<[idx := p']> paths).
Proof.
  intros Hw Hc. pose proof (wf_paths_used _ _ Hw). constructor.
  - rewrite length_insert. apply Hw.
  - case_decide; lia.
  - intros i p Hp. destruct (decide (idx = i)) as [<-|Hne].
    + rewrite list_lookup_insert_eq in Hp by (rewrite (wf_paths_length _ _ Hw); lia).
      injection Hp as <-. case_decide; destruct Hc as [[? E]|(? & ? & q & E & ?)]; rewrite E;
        try lia; split; try done; lia.
    + rewrite list_lookup_insert_ne in Hp by done.
      rewrite (wf_paths_free _ _ Hw _ _ Hp). case_decide; lia.
  - intros i p j Hp Hj. destruct (decide (idx = i)) as [<-|Hne].
    + rewrite list_lookup_insert_eq in Hp by (rewrite (wf_paths_length _ _ Hw); lia).
      injection Hp as <-. destruct Hc as [[? E]|(? & ? & q & E & ?)]; [congruence|].
      rewrite E in Hj. injection Hj as <-. lia.
    + rewrite list_lookup_insert_ne in Hp by done. by eapply wf_paths_parent.
Qed.

Lemma fill_collection_wf k idx parent D st r :
  wf_parser st -> wf_paths k (CollectionPaths (ParserData st)) ->
  (idx = 0%nat /\ parent = None \/
   idx = k /\ (k < 10)%nat /\ exists q, parent = Some q /\ (q < k)%nat) ->
  fill_collection idx parent D st = Some r ->
  wf_parser (state_of r) /\ UsageListSize (state_of r) <= UsageListSize st.
Proof.
  intros H Hw Hc Hr. pose proof (wf_paths_used _ _ Hw). unfold fill_collection in Hr.
  destruct (_ !! idx) as [p|]; [cbn in Hr|done].
  destruct (arr_get (StateTable st) _) as [s|]; [cbn in Hr|done].
  destruct (take_usage _ st) as [[u st1]|] eqn:Hu; [cbn in Hr|done].
  apply (take_usage_wf _ _ _ _ H) in Hu as (H1 & Hle & Ed & _). injection Hr as <-. cbn.
  split; [|done]. rewrite <- Ed in Hw |- *. wf_solve.
  exists (if decide (idx = 0%nat) then k else S k). split.
  - by apply wf_paths_insert.
  - intros c [= <-]. case_decide; lia.
Qed.

Lemma do_collection_ok D st :
  wf_parser st -> UsageListSize st < 8 -> is_Some (do_collection D st).
Proof.
  intros H Hs. unfold do_collection. destruct (wf_collections _ H) as (k & Hw & Hk).
  pose proof (wf_paths_used _ _ Hw).
  destruct (CurrCollectionPath st) as [c|].
  - destruct (find_free_path_spec k 8 1 _ Hw) as (r & Hr & Hs'); [lia|done|].
    change (Z.to_nat HID_MAX_COLLECTIONS - 2)%nat with 8%nat. rewrite Hr. cbn.
    destruct r as [j|]; [|done]. apply fill_collection_ok; [done..|lia].
  - destruct (lookup_lt_is_Some_2 (CollectionPaths (ParserData st)) 0) as [p Hp];
      [rewrite (wf_paths_length _ _ Hw); lia|]. rewrite Hp. cbn.
    apply fill_collection_ok; [done..|lia].
Qed.

Lemma do_collection_wf D st r :
  wf_parser st -> do_collection D st = Some r ->
  wf_parser (state_of r) /\ UsageListSize (state_of r) <= UsageListSize st.
Proof.
  intros H Hr. unfold do_collection in Hr. destruct (wf_collections _ H) as (k & Hw & Hk).
  pose proof (wf_paths_used _ _ Hw).
  destruct (CurrCollectionPath st) as [c|].
  - destruct (find_free_path_spec k 8 1 _ Hw) as (f & Hf & Hs'); [lia|done|].
    change (Z.to_nat HID_MAX_COLLECTIONS - 2)%nat with 8%nat in Hr. rewrite Hf in Hr. cbn in Hr.
    destruct f as [j|]; [|inv_opt; cbn; split; [done|lia]].
    eapply fill_collection_wf; [done..| |done]. right. destruct Hs' as [-> ?].
    repeat split; [done|]. exists c. auto.
  - destruct (_ !! 0%nat) as [p|] eqn:Hp; [cbn in Hr|done].
    eapply fill_collection_wf; [done..| |done]. left. split; [done|].
    apply (wf_paths_free _ _ Hw _ _ Hp). by left.
Qed.

Lemma do_end_collection_ok st : wf_parser st -> is_Some (do_end_collection st).
Proof.
  intros H. unfold do_end_collection. destruct (wf_collections _ H) as (k & Hw & Hk).
  destruct (CurrCollectionPath st) as [c|]; [|done]. specialize (Hk _ eq_refl).
  pose proof (wf_paths_used _ _ Hw).
  destruct (lookup_lt_is_Some_2 (CollectionPaths (ParserData st)) c) as [p Hp];
    [rewrite (wf_paths_length _ _ Hw); lia|]. rewrite Hp. done.
Qed.

Lemma do_end_collection_wf st r :
  wf_parser st -> do_end_collection st = Some r ->
  wf_parser (state_of r) /\ UsageListSize (state_of r) = UsageListSize st.
Proof.
  intros H Hr. unfold do_end_collection in Hr. destruct (wf_collections _ H) as (k & Hw & Hk).
  destruct (CurrCollectionPath st) as [c|] eqn:Ec; [|by inv_opt].
  destruct (_ !! c) as [p|] eqn:Hp; [cbn in Hr|done]. injection Hr as <-. cbn. split; [|done].
  wf_solve. exists k. split; [done|]. intros q Hq. specialize (Hk _ eq_refl).
  pose proof (wf_paths_parent _ _ Hw _ _ _ Hp Hq). lia.
Qed.

(** *** Report items *)

Lemma report_bits_ok st t :
  wf_parser st -> 0 <= t < 3 ->
  exists info off, arr_get (ReportIDSizes (ParserData st)) (CurrReportIDInfo st) = Some info /\
    wf_sizeinfo info /\ arr_get (ReportSizeBits info) t = Some off /\ 0 <= off < 65536.
Proof.
  intros H Ht. pose proof (wf_report _ H). pose proof (wf_reports_total _ H).
  destruct (arr_get_is_Some (ReportIDSizes (ParserData st)) (CurrReportIDInfo st)) as [info Hi];
    [rewrite wf_reports_length by done; lia|].
  pose proof (arr_get_Forall _ _ _ _ Hi (wf_reports _ H)) as [Hl Hb].
  destruct (arr_get_is_Some (ReportSizeBits info) t) as [off Ho]; [lia|].
  exists info, off. repeat split; try done; by apply (arr_get_Forall _ _ _ _ Ho Hb).
Qed.

Lemma add_report_item_ok t D st :
  wf_parser st -> UsageListSize st < 8 -> 0 <= t < 3 -> is_Some (add_report_item t D st).
Proof.
  intros H Hs Ht. unfold add_report_item.
  destruct (state_get_ok st H) as [s Es]. rewrite Es. cbn.
  destruct (take_usage_ok (Usage_Usage (Attr_Usage (ST_Attributes s))) st H Hs)
    as [[u st1] Hu]. rewrite Hu. cbn.
  apply (take_usage_wf _ _ _ _ H) in Hu as (H1 & _).
  destruct (report_bits_ok st1 t H1 Ht) as (info & off & Hi & [Hl _] & Ho & Hoff).
  rewrite Hi. cbn. rewrite Ho. cbn.
  destruct (arr_set_is_Some (ReportSizeBits info) t (u16 (off + BitSize (ST_Attributes s))))
    as [bits Hb]; [lia|]. rewrite Hb. cbn.
  destruct (arr_set_is_Some (ReportIDSizes (ParserData st1)) (CurrReportIDInfo st1)
    {| Size_ReportID := Size_ReportID info; ReportSizeBits := bits |}) as [sizes Hz];
    [by eapply arr_get_lt|]. rewrite Hz. cbn.
  case_match; [done|]. bprop. unfold HID_MAX_REPORTITEMS in *.
  pose proof (wf_items_total _ H1).
  match goal with |- is_Some (arr_set ?l ?i ?x ≫= _) =>
    destruct (arr_set_is_Some l i x) as [l' Hl']; [rewrite wf_items_length by done; lia|] end.
  rewrite Hl'. done.
Qed.

Lemma add_report_item_wf t D st r :
  wf_parser st -> 0 <= t < 3 -> add_report_item t D st = Some r ->
  wf_parser (state_of r) /\ UsageListSize (state_of r) <= UsageListSize st.
Proof.
  intros H Ht Hr. unfold add_report_item in Hr.
  destruct (arr_get (StateTable st) _) as [s|]; [cbn in Hr|done].
  destruct (take_usage _ st) as [[u st1]|] eqn:Hu; [cbn in Hr|done].
  apply (take_usage_wf _ _ _ _ H) in Hu as (H1 & Hle & _).
  destruct (report_bits_ok st1 t H1 Ht) as (info & off & Hi & [Hl Hf] & Ho & Hoff).
  rewrite Hi in Hr. cbn in Hr. rewrite Ho in Hr. cbn in Hr.
  set (size := u16 (off + _)) in Hr. pose proof (u16_range (off + BitSize (ST_Attributes s))).
  destruct (arr_set _ t _) as [bits|] eqn:Hb; [cbn in Hr|done].
  destruct (arr_set _ (CurrReportIDInfo st1) _) as [sizes|] eqn:Hz; [cbn in Hr|done].
  pose proof (wf_largest _ H1). pose proof (wf_items_total _ H1).
  assert (wf_parser (set_ParserData (set_Reports (TotalDeviceReports (ParserData st1)) sizes
    (Z.max (LargestReportSizeBits (ParserData st1)) size) (UsingReportIDs (ParserData st1))) st1))
    as Hst2.
  { wf_solve.
    - rewrite (arr_set_length _ _ _ _ Hz). by apply wf_reports_length.
    - eapply arr_set_Forall; [done| |by apply wf_reports]. split.
      + cbn. by rewrite (arr_set_length _ _ _ _ Hb).
      + eapply arr_set_Forall; [done| |done]. done. }
  destruct (_ =? HID_MAX_REPORTITEMS) eqn:En; [by inv_opt|].
  inv_opt. bprop. unfold HID_MAX_REPORTITEMS in *. cbn. split; [|done].
  match goal with E : arr_set (ReportItems _) _ _ = Some _ |- _ =>
    pose proof (arr_set_length _ _ _ _ E) as Hlen; clear E end.
  destruct Hst2. constructor; cbn in *; try done; [lia|].
  case_match; [rewrite u8_small by lia|]; lia.
Qed.

Lemma add_report_items_ok n t D st :
  wf_parser st -> UsageListSize st < 8 -> 0 <= t < 3 -> is_Some (add_report_items n t D st).
Proof.
  revert st. induction n as [|n IH]; intros st H Hs Ht; cbn; [done|].
  destruct (add_report_item_ok t D st H Hs Ht) as [r Hr]. rewrite Hr. cbn.
  destruct (add_report_item_wf t D st r H Ht Hr) as [H1 ?].
  destruct r as [st1|]; [|done]. cbn in *. apply IH; [done|lia|done].
Qed.

Lemma add_report_items_wf n t D st r :
  wf_parser st -> 0 <= t < 3 -> add_report_items n t D st = Some r ->
  wf_parser (state_of r) /\ UsageListSize (state_of r) <= UsageListSize st.
Proof.
  revert st. induction n as [|n IH]; intros st H Ht Hr; cbn in Hr.
  - injection Hr as <-. cbn. split; [done|lia].
  - destruct (add_report_item t D st) as [r1|] eqn:E; [cbn in Hr|done].
    destruct (add_report_item_wf t D st r1 H Ht E) as [H1 Hle].
    destruct r1 as [st1|]; cbn in *; [|injection Hr as <-; cbn; done].
    destruct (IH st1 H1 Ht Hr). split; [done|lia].
Qed.

Lemma do_main_item_wf t D st r :
  wf_parser st -> 0 <= t < 3 -> do_main_item t D st = Some r ->
  wf_parser (state_of r) /\ UsageListSize (state_of r) <= UsageListSize st.
Proof.
  intros H Ht Hr. unfold do_main_item in Hr. inv_opt. by apply add_report_items_wf in Hr.
Qed.

(** *** One item *)

Definition is_main (item : Z) : bool := Z.land item HID_RI_TYPE_MASK =? HID_RI_TYPE_MAIN.

Lemma land_type_mask item :
  Z.land item HID_RI_TYPE_MASK
  = Z.land (Z.land item (Z.lor HID_RI_TYPE_MASK HID_RI_TAG_MASK)) HID_RI_TYPE_MASK.
Proof. rewrite <- Z.land_assoc. done. Qed.

Definition main_tag (t : item_tag) : bool :=
  match t with
  | RI_INPUT | RI_OUTPUT | RI_FEATURE | RI_COLLECTION | RI_END_COLLECTION => true
  | _ => false
  end.

Lemma tag_of_main item :
  main_tag (tag_of item) = true -> is_main item = true.
Proof.
  unfold is_main. rewrite land_type_mask. unfold tag_of. cbv zeta.
  destruct (_ =? 0x80) eqn:E1; [bprop; rewrite E1; done|].
  destruct (_ =? 0x90) eqn:E2; [bprop; rewrite E2; done|].
  destruct (_ =? 0xA0) eqn:E3; [bprop; rewrite E3; done|].
  destruct (_ =? 0xB0) eqn:E4; [bprop; rewrite E4; done|].
  destruct (_ =? 0xC0) eqn:E5; [bprop; rewrite E5; done|].
  repeat case_match; done.
Qed.

(** No item faults but PUSH, and a main item while the usage list is full. *)
Lemma process_item_ok item D st :
  wf_parser st -> tag_of item <> RI_PUSH ->
  (is_main item = true -> UsageListSize st < 8) ->
  is_Some (process_item item D st).
Proof.
  intros H Hp Hs. unfold process_item, upd_continue, do_main_item, do_usage_page, do_usage, do_pop.
  assert (forall f g, is_Some (upd_state f st ≫= (fun st => Some (g st : step_result)))) as Hupd.
  { intros f g. destruct (upd_state_ok f st H) as [? E]. rewrite E. done. }
  pose proof (tag_of_main item) as Hm. pose proof (wf_usages_size _ H).
  destruct (tag_of item) eqn:Et; try done.
  all: try apply Hupd.
  all: try assert (UsageListSize st < 8) as Hlt by (apply Hs, Hm; reflexivity).
  - destruct (state_get_ok st H) as [s Es]. rewrite Es. cbn. by apply add_report_items_ok.
  - destruct (state_get_ok st H) as [s Es]. rewrite Es. cbn. by apply add_report_items_ok.
  - by apply do_collection_ok.
  - destruct (state_get_ok st H) as [s Es]. rewrite Es. cbn. by apply add_report_items_ok.
  - by apply do_end_collection_ok.
  - case_match; [|apply Hupd].
    match goal with |- is_Some (upd_state ?f st ≫= _) =>
      destruct (upd_state_ok f st H) as [st1 E1] end. rewrite E1. cbn.
    pose proof (upd_state_wf _ _ _ H E1) as Hst1.
    match goal with |- is_Some (upd_state ?f st1 ≫= _) =>
      destruct (upd_state_ok f st1 Hst1) as [st2 E2] end. rewrite E2. done.
  - by apply do_report_id_ok.
  - case_match; done.
  - case_match; [done|]. bprop. unfold HID_USAGE_STACK_DEPTH in *.
    destruct (arr_set_is_Some (UsageList st) (UsageListSize st) (u16 D)) as [l Hl];
      [rewrite wf_usages by done; lia|]. rewrite Hl. done.
Qed.

(** Only PUSH could leave [CurrStateTable] anywhere but at the first entry,
    and its [memcpy] is never defined. *)
Lemma do_push_fault st : wf_parser st -> do_push st = None.
Proof. intros H. unfold do_push. by rewrite wf_top. Qed.

Lemma process_item_wf item D st r :
  wf_parser st -> process_item item D st = Some r ->
  wf_parser (state_of r) /\
  (tag_of item <> RI_USAGE -> UsageListSize (state_of r) <= UsageListSize st) /\
  UsageListSize (state_of r) <= UsageListSize st + 1.
Proof.
  intros H Hr. unfold process_item in Hr.
  assert (forall f r, upd_continue f st = Some r ->
    wf_parser (state_of r) /\ UsageListSize (state_of r) = UsageListSize st) as Hupd.
  { clear r Hr. intros f r Hr. unfold upd_continue in Hr. inv_opt. cbn. split.
    - by eapply upd_state_wf. - by eapply upd_state_data. }
  pose proof (wf_usages_size _ H).
  destruct (tag_of item) eqn:Et;
    try (apply Hupd in Hr as [? ->]; (split; [done|split; [intros|]; lia]));
    try (injection Hr as <-; cbn; split; [wf_solve|split; intros; lia]);
    try (apply do_main_item_wf in Hr as [? ?]; [(split; [done|split; [intros|]; lia])|done|done]).
  - apply do_collection_wf in Hr as [? ?]; [|done]. (split; [done|split; [intros|]; lia]).
  - apply do_end_collection_wf in Hr as [? ->]; [|done]. (split; [done|split; [intros|]; lia]).
  - unfold do_usage_page in Hr. case_match; cbn in Hr; inv_opt;
      repeat match goal with E : upd_state _ _ = Some _ |- _ =>
        pose proof (proj1 (proj2 (upd_state_data _ _ _ E))); apply upd_state_wf in E; [|done] end;
      cbn; (split; [done|split; [intros|]; lia]).
  - apply do_report_id_wf in Hr as [? ->]; [|done]. (split; [done|split; [intros|]; lia]).
  - by rewrite do_push_fault in Hr.
  - unfold do_pop in Hr. rewrite wf_top in Hr by done. injection Hr as <-. cbn.
    (split; [done|split; [intros|]; lia]).
  - unfold do_usage in Hr. case_match; inv_opt; cbn; [(split; [done|split; [intros|]; lia])|].
    bprop. unfold HID_USAGE_STACK_DEPTH in *. rewrite u8_small by lia.
    split; [|split; [done|lia]]. wf_solve.
    erewrite arr_set_length by done. by apply wf_usages.
Qed.

(** An early return never reports success. *)
Lemma add_report_items_code n t D st c st' :
  add_report_items n t D st = Some (Return c st') -> c <> HID_PARSE_Successful.
Proof.
  revert st. induction n as [|n IH]; intros st Hr; cbn [add_report_items] in Hr; [done|].
  destruct (add_report_item t D st) as [[st1|c1 st1]|] eqn:E; cbn in Hr; [by eapply IH| |done].
  injection Hr as -> ->. unfold add_report_item in E.
  destruct (arr_get (StateTable st) _); [cbn in E|done].
  destruct (take_usage _ st) as [[u st2]|]; [cbn in E|done].
  bind_cases E.
  destruct (_ =? HID_MAX_REPORTITEMS); [by injection E as <- _|].
  bind_cases E. done.
Qed.

Lemma process_item_code item D st c st' :
  process_item item D st = Some (Return c st') -> c <> HID_PARSE_Successful.
Proof.
  unfold process_item, upd_continue, do_main_item. intros Hr.
  destruct (tag_of item);
    bind_cases Hr;
    try (eapply add_report_items_code; exact Hr); try done.
  - unfold do_collection, fill_collection in Hr. repeat case_match; try done;
      bind_cases Hr.
    all: repeat case_match; try done.
    all: try (by injection Hr as <- _).
    all: bind_cases Hr.
    all: repeat case_match; done.
  - unfold do_end_collection in Hr. case_match; [|by injection Hr as <- _].
    by destruct (_ !! _).
  - unfold do_usage_page in Hr. bind_cases Hr. done.
  - unfold do_report_id, use_report_id in Hr.
    destruct (upd_state _ st) as [st1|]; [cbn in Hr|done]. destruct (UsingReportIDs _).
    + destruct (find_report_id _ _ _ _) as [[i|]|]; [cbn in Hr..|done].
      * bind_cases Hr. done.
      * destruct (_ =? _); [by injection Hr as <- _|].
        bind_cases Hr. done.
    + bind_cases Hr. done.
  - unfold do_push in Hr. destruct (_ =? _); [by injection Hr as <- _|].
    destruct (memcpy_defined _ _ _ _); [|done].
    bind_cases Hr. done.
  - unfold do_pop in Hr. by destruct (_ =? _); [injection Hr as <- _|].
  - unfold do_usage in Hr. destruct (_ =? _); [by injection Hr as <- _|].
    by destruct (arr_set _ _ _).
Qed.

Lemma end_of_item_wf item st : wf_parser st -> wf_parser (end_of_item item st).
Proof. intros H. unfold end_of_item. case_match; [wf_solve|done]. Qed.
End invariant.

(** ** Framing *)

Section framing.
Context `{Env : HIDParserEnv}.

(** The parser's loop over a list of items. *)
Fixpoint run_items (its : list item) (st : parser_state) : option (Z * parser_state) :=
  match its with
  | [] => Some (if truthy (TotalReportItems (ParserData st)) then HID_PARSE_Successful
                else HID_PARSE_NoUnfilteredReportItems, st)
  | (b, d) :: rest =>
      r ← process_item b (item_value d) st;
      match r with
      | Return c st => Some (c, st)
      | Continue st => run_items rest (end_of_item b st)
      end
  end.

Lemma parse_loop_nil data st : parse_loop data 0 st = run_items [] st.
Proof. by destruct data. Qed.

Lemma parse_loop_cons b d data n st :
  framed (b, d) -> 0 <= n -> n + 1 + Z.of_nat (length d) < 65536 ->
  parse_loop (b :: d ++ data) (n + 1 + Z.of_nat (length d)) st =
    (r ← process_item b (item_value d) st;
     match r with
     | Return c st => Some (c, st)
     | Continue st => parse_loop data n (end_of_item b st)
     end).
Proof.
  unfold framed, data_length; cbn [fst snd]. intros Hf Hn Hb. cbn [parse_loop].
  replace (n + 1 + Z.of_nat (length d) =? 0) with false by (symmetry; apply Z.eqb_neq; lia).
  destruct (data_length_cases b) as [E|[E|[E|E]]]; rewrite E in Hf |- *; cbn in Hf |- *.
  all: repeat (destruct d as [|? d]; try discriminate Hf).
  all: cbn [length] in *; cbn [app item_value].
  all: rewrite !u16_small by (rewrite ?u16_small by lia; lia).
  all: destruct (process_item _ _ _) as [[]|]; [cbn|cbn; done..]; do 2 f_equal; lia.
Qed.

(** The bytes of framed items, followed by anything, parse as the items. *)
Lemma parse_loop_items its tail st :
  Forall framed its -> Z.of_nat (length (encode_items its)) < 65536 ->
  parse_loop (encode_items its ++ tail) (Z.of_nat (length (encode_items its))) st
  = run_items its st.
Proof.
  revert st. induction its as [|[b d] its IH]; intros st Hf Hl; [apply parse_loop_nil|].
  apply Forall_cons in Hf as [Hd Hf]. rewrite encode_items_cons in *.
  rewrite length_cons, length_app in *. rewrite <- app_comm_cons, <- app_assoc.
  replace (Z.of_nat (S (length d + length (encode_items its)))) with
    (Z.of_nat (length (encode_items its)) + 1 + Z.of_nat (length d)) by lia.
  rewrite parse_loop_cons by (done || lia).
  cbn [run_items]. destruct (process_item _ _ _) as [[]|]; cbn; [|done..].
  apply IH; [done|lia].
Qed.
End framing.

(** ** Safety of the whole parser *)

(** [n] bounds the usages listed since the last main item.  A PUSH is never
    allowed, and a main item only while the usage list is not full. *)
Fixpoint parsable (n : Z) (its : list item) : Prop :=
  match its with
  | [] => True
  | (b, _) :: rest =>
      tag_of b <> RI_PUSH /\
      (if is_main b then n < HID_USAGE_STACK_DEPTH /\ parsable 0 rest
       else if decide (tag_of b = RI_USAGE) then parsable (n + 1) rest
       else parsable n rest)
  end.

#[export] Instance parsable_dec n its : Decision (parsable n its).
Proof.
  revert n. induction its as [|[b d] its IH]; intros n; cbn [parsable]; [apply _|].
  destruct (is_main b); [|destruct (decide (tag_of b = RI_USAGE))]; apply _.
Defined.

Section safety.
Context `{Env : HIDParserEnv}.

Lemma end_of_item_usages b st :
  wf_parser st ->
  0 <= UsageListSize (end_of_item b st) <= (if is_main b then 0 else UsageListSize st).
Proof.
  intros H. unfold end_of_item, is_main. pose proof (wf_usages_size _ H). case_match; cbn; lia.
Qed.

Lemma run_items_ok its n st :
  wf_parser st -> UsageListSize st <= n -> parsable n its ->
  exists code st', run_items its st = Some (code, st') /\ wf_parser st'.
Proof.
  revert n st. induction its as [|[b d] its IH]; intros n st H Hn Hp; [cbn; eauto|].
  cbn [run_items parsable] in *. destruct Hp as [Ht Hp].
  destruct (process_item_ok b (item_value d) st H Ht) as [r Hr].
  { intros Hm. rewrite Hm in Hp. unfold HID_USAGE_STACK_DEPTH in Hp. lia. }
  rewrite Hr. cbn. apply process_item_wf in Hr as (H1 & Hle & Hle'); [|done].
  destruct r as [st1|c st1]; cbn in *; [|eauto].
  pose proof (end_of_item_wf b st1 H1) as H2. pose proof (end_of_item_usages b st1 H1).
  destruct (is_main b); [apply (IH 0); [done|lia|apply Hp]|].
  case_decide; [apply (IH (n + 1))|apply (IH n)]; try done; [lia|].
  specialize (Hle ltac:(done)). lia.
Qed.

(** Whatever the bytes are, an outcome of the loop satisfies the invariant. *)
Lemma parse_loop_wf data size st code st' :
  wf_parser st -> parse_loop data size st = Some (code, st') -> wf_parser st'.
Proof.
  remember (length data) as n eqn:Hn. revert data Hn size st.
  induction n as [n IH] using lt_wf_ind. intros data Hn size st H Hp.
  destruct data as [|b rest]; cbn [parse_loop] in Hp; (destruct (size =? 0); [by inv_opt|]);
    [done|].
  assert (forall D rest' sz, (length rest' < n)%nat ->
    (r ← process_item b D st;
     match r with
     | Return c st => Some (c, st)
     | Continue st => parse_loop rest' sz (end_of_item b st)
     end) = Some (code, st') -> wf_parser st') as Hrun.
  { intros D rest' sz Hlt Hr. destruct (process_item b D st) as [r|] eqn:E; [cbn in Hr|done].
    apply process_item_wf in E as (H1 & _); [|done].
    destruct r as [st1|c st1]; cbn in *; [|by injection Hr as _ <-].
    eapply (IH _ Hlt rest' eq_refl); [|exact Hr]. by apply end_of_item_wf. }
  cbn [length] in Hn. repeat case_match; try done; subst;
    (eapply Hrun; [|exact Hp]); cbn [length]; lia.
Qed.
End safety.

(** ** Theorems *)

(** What a client of the parser can rely on in the structure it filled. *)
Record wf_report_info (pd : HID_ReportInfo_t) : Prop := {
  info_items : 0 <= TotalReportItems pd <= HID_MAX_REPORTITEMS;
  info_items_length : Z.of_nat (length (ReportItems pd)) = HID_MAX_REPORTITEMS;
  info_reports : 1 <= TotalDeviceReports pd <= HID_MAX_REPORT_IDS;
  info_reports_length : Z.of_nat (length (ReportIDSizes pd)) = HID_MAX_REPORT_IDS;
  info_paths_length : Z.of_nat (length (CollectionPaths pd)) = HID_MAX_COLLECTIONS;
  info_parents i p j : CollectionPaths pd !! i = Some p -> Path_Parent p = Some j -> (j < i)%nat }.

Lemma wf_parser_info st : wf_parser st -> wf_report_info (ParserData st).
Proof.
  intros H. destruct (wf_collections _ H) as (k & Hk & _). constructor.
  - by apply wf_items_total.
  - by rewrite wf_items_length.
  - by apply wf_reports_total.
  - by rewrite wf_reports_length.
  - by rewrite (wf_paths_length _ _ Hk).
  - apply Hk.
Qed.



(** A PUSH item that the parser reaches is never executed safely: its
    [memcpy] copies [sizeof(HID_ReportItem_t)] bytes between two
    [HID_StateTable_t], overlapping and overrunning the state table. *)
Theorem push_never_safe (Env : HIDParserEnv) (data : list Z) (size : Z) (st : parser_state) (b : Z) :
  wf_parser st -> tag_of b = RI_PUSH -> size <> 0 -> parse_loop (b :: data) size st = None.
Proof.
  intros H Ht Hne. cbn [parse_loop]. apply Z.eqb_neq in Hne. rewrite Hne.
  assert (forall D, process_item b D st = None) as Hf
    by (intros D; unfold process_item; rewrite Ht; by apply do_push_fault).
  repeat case_match; rewrite ?Hf; done.
Qed.



Lemma push_never_safe_witness :
  @parse_loop (accept_all 7 zero_state) [0xA4; 0x05; 0x01] 3 (@initial_state (accept_all 7 zero_state))
    = None.
Proof.
  apply (push_never_safe (accept_all 7 zero_state) [0x05; 0x01] 3); [apply wf_initial| |done].
  vm_compute. reflexivity.
Defined.
