(* ===== verification/HIDParserLayout.v ===== *)
(** * HID report descriptor parser: the report layout it computes

    The items the parser stores describe disjoint bit ranges of their report,
    inside the sizes the parser records, as long as the descriptor's reports
    have fewer than 2^16 bits and no report is given the reserved ID 0. *)
From S2P Require Import Prelude HIDParser HIDItems HIDParserInv.

(** Item [k] of the output is [it]. *)
Definition stored (pd : HID_ReportInfo_t) (k : Z) (it : HID_ReportItem_t) : Prop :=
  k < TotalReportItems pd /\ arr_get (ReportItems pd) k = Some it.

(** Report [i] has label [ID]. *)
Definition labelled (pd : HID_ReportInfo_t) (i : Z) (ID : Z) : Prop :=
  i < TotalDeviceReports pd /\
  exists info, arr_get (ReportIDSizes pd) i = Some info /\ Size_ReportID info = ID.

(** Report [i] has [b] bits in direction [t]. *)
Definition bits_of (pd : HID_ReportInfo_t) (i t b : Z) : Prop :=
  i < TotalDeviceReports pd /\
  exists info, arr_get (ReportIDSizes pd) i = Some info /\
               arr_get (ReportSizeBits info) t = Some b.

Definition item_end (it : HID_ReportItem_t) : Z := BitOffset it + BitSize (Attributes it).

(** The layout invariant: [rid] and [cur] are the current report ID and the
    index of its sizes; [B] bounds every size. *)
Record layout (B rid cur : Z) (pd : HID_ReportInfo_t) : Prop := {
  lay_cur : labelled pd cur rid;
  lay_unique i j ID : labelled pd i ID -> labelled pd j ID -> i = j;
  lay_noid : UsingReportIDs pd = false -> TotalDeviceReports pd = 1 /\
    forall k it, stored pd k it -> Item_ReportID it = 0;
  lay_bound i t b : bits_of pd i t b -> 0 <= b <= B;
  lay_largest i t b : bits_of pd i t b -> b <= LargestReportSizeBits pd;
  lay_known k it : stored pd k it ->
    Item_ReportID it = 0 \/ exists i, labelled pd i (Item_ReportID it);
  lay_item k it : stored pd k it -> 0 <= ItemType it < 3 /\ 0 <= BitOffset it /\
    0 <= BitSize (Attributes it) < 256 /\ item_end it <= LargestReportSizeBits pd;
  lay_end k it i b : stored pd k it -> labelled pd i (Item_ReportID it) ->
    bits_of pd i (ItemType it) b -> item_end it <= b;
  lay_disjoint k1 k2 it1 it2 : stored pd k1 it1 -> stored pd k2 it2 -> k1 < k2 ->
    ItemType it1 = ItemType it2 -> Item_ReportID it1 = Item_ReportID it2 ->
    item_end it1 <= BitOffset it2 }.

Lemma layout_paths B rid cur l pd : layout B rid cur pd -> layout B rid cur (set_Paths l pd).
Proof. intros []. constructor; assumption. Qed.

Lemma layout_mono B B' rid cur pd : layout B rid cur pd -> B <= B' -> layout B' rid cur pd.
Proof. intros [] ?. constructor; try assumption. intros i t b Hb. apply lay_bound0 in Hb. lia. Qed.

(** ** Report IDs *)

Section report_ids.
Context (B rid cur : Z) (pd : HID_ReportInfo_t).
Context (Hlay : layout B rid cur pd).

(** Relabelling report [i] with an ID no other report and no item has. *)
Lemma layout_relabel i info l ID :
  arr_get (ReportIDSizes pd) i = Some info -> 0 <= i < TotalDeviceReports pd ->
  arr_set (ReportIDSizes pd) i {| Size_ReportID := ID; ReportSizeBits := ReportSizeBits info |}
    = Some l ->
  Size_ReportID info = ID \/
    ((forall j, ~ labelled pd j ID) /\ (forall k it, stored pd k it -> Item_ReportID it <> ID) /\
     (forall k it, stored pd k it -> Item_ReportID it = 0)) ->
  layout B ID i (set_Reports (TotalDeviceReports pd) l (LargestReportSizeBits pd) true pd).
Proof.
  intros Hi Hit Hl Hc. set (pd' := set_Reports _ _ _ _ _).
  assert (forall j t b, bits_of pd' j t b -> bits_of pd j t b) as Hbits.
  { intros j t b (Hj & info' & Hg & Ht). split; [done|]. cbn in Hg.
    destruct (decide (i = j)) as [<-|Hne].
    - rewrite (arr_get_set_eq _ _ _ _ Hl) in Hg. injection Hg as <-. eauto.
    - rewrite (arr_get_set_ne _ _ _ _ _ Hl Hne) in Hg. eauto. }
  assert (forall j ID', labelled pd' j ID' -> (j = i /\ ID' = ID) \/ (j <> i /\ labelled pd j ID'))
    as Hlab.
  { intros j ID' (Hj & info' & Hg & Ht). cbn in Hg. destruct (decide (i = j)) as [<-|Hne].
    - rewrite (arr_get_set_eq _ _ _ _ Hl) in Hg. injection Hg as <-. by left.
    - rewrite (arr_get_set_ne _ _ _ _ _ Hl Hne) in Hg. right. split; [done|].
      split; [done|]. eauto. }
  assert (labelled pd i (Size_ReportID info)) as Hold by (split; [lia|eauto]).
  assert (labelled pd' i ID) as Hnew.
  { split; [cbn; lia|]. eexists. split; [by eapply arr_get_set_eq|done]. }
  constructor; try done.
  - intros j1 j2 ID' H1 H2. apply Hlab in H1 as [[-> ->]|[? H1]], H2 as [[-> E]|[? H2]];
      try done; try subst.
    + exfalso. destruct Hc as [<-|[Hc _]]; [|by eapply Hc].
      by pose proof (lay_unique _ _ _ _ Hlay _ _ _ H2 Hold).
    + exfalso. destruct Hc as [<-|[Hc _]]; [|by eapply Hc].
      by pose proof (lay_unique _ _ _ _ Hlay _ _ _ H1 Hold).
    + by eapply lay_unique.
  - intros j t b Hb. apply (lay_bound _ _ _ _ Hlay j t b), Hbits, Hb.
  - intros j t b Hb. apply (lay_largest _ _ _ _ Hlay j t b), Hbits, Hb.
  - intros k it Hk. destruct Hc as [Hc|(_ & _ & Hz)]; [|left; by eapply Hz].
    destruct (lay_known _ _ _ _ Hlay _ _ Hk) as [?|[j Hj]]; [by left|right].
    destruct (decide (j = i)) as [->|Hne].
    + exists i. destruct Hj as (_ & info' & Hg & <-). rewrite Hi in Hg.
      injection Hg as <-. by rewrite Hc.
    + exists j. destruct Hj as (Hj & info' & Hg & E). split; [done|]. cbn.
      rewrite (arr_get_set_ne _ _ _ _ _ Hl) by done. eauto.
  - intros k it Hk. by apply (lay_item _ _ _ _ Hlay k).
  - intros k it j b Hk Hj Hb. apply Hlab in Hj as [[-> E]|[_ Hj]].
    + destruct Hc as [Hc|(_ & Hc & _)]; [|by apply Hc in Hk].
      eapply (lay_end _ _ _ _ Hlay k it i b Hk); [|by apply Hbits]. by rewrite E, <- Hc.
    + eapply (lay_end _ _ _ _ Hlay k it j b Hk Hj). by apply Hbits.
  - intros k1 k2 it1 it2 ? ? ? ? ?. by apply (lay_disjoint _ _ _ _ Hlay k1 k2).
Qed.

(** Adding a report with a fresh, non-zero ID after the others. *)
Lemma layout_extend l ID :
  0 <= B -> 0 <= LargestReportSizeBits pd -> ID <> 0 -> (forall j, ~ labelled pd j ID) ->
  arr_get l (TotalDeviceReports pd) = Some {| Size_ReportID := ID; ReportSizeBits := [0; 0; 0] |} ->
  (forall j, TotalDeviceReports pd <> j -> arr_get l j = arr_get (ReportIDSizes pd) j) ->
  layout B ID (TotalDeviceReports pd)
    (set_Reports (TotalDeviceReports pd + 1) l (LargestReportSizeBits pd) true pd).
Proof.
  intros HB HL HID Hfresh Hl Hne. set (T := TotalDeviceReports pd) in *.
  set (pd' := set_Reports _ _ _ _ _).
  assert (forall j t b, bits_of pd' j t b -> (j = T /\ b = 0) \/ bits_of pd j t b) as Hbits.
  { intros j t b (Hj & info' & Hg & Ht). cbn in Hj, Hg. destruct (decide (T = j)) as [<-|Hj'].
    - left. split; [done|]. rewrite Hl in Hg. injection Hg as <-. cbn in Ht.
      assert (Forall (fun b => b = 0) [0; 0; 0]) as HF by (repeat constructor).
      apply (arr_get_Forall _ _ _ _ Ht HF).
    - right. rewrite Hne in Hg by done. split; [fold T; lia|]. eauto. }
  assert (forall j ID', labelled pd' j ID' -> (j = T /\ ID' = ID) \/ (j <> T /\ labelled pd j ID'))
    as Hlab.
  { intros j ID' (Hj & info' & Hg & Ht). cbn in Hj, Hg. destruct (decide (T = j)) as [<-|Hj'].
    - left. split; [done|]. rewrite Hl in Hg. by injection Hg as <-.
    - right. rewrite Hne in Hg by done. split; [done|]. split; [fold T; lia|]. eauto. }
  assert (forall j ID', labelled pd j ID' -> labelled pd' j ID') as Hlab'.
  { intros j ID' (Hj & info' & Hg & Ht). fold T in Hj. split; [cbn; lia|]. cbn.
    rewrite Hne by lia. eauto. }
  constructor.
  - split; [cbn; lia|]. eauto.
  - intros j1 j2 ID' H1 H2. apply Hlab in H1 as [[-> ->]|[? H1]], H2 as [[-> E]|[? H2]]; try done.
    + by apply Hfresh in H2.
    + subst. by apply Hfresh in H1.
    + by eapply lay_unique.
  - done.
  - intros j t b Hb. apply Hbits in Hb as [[-> ->]|Hb]; [lia|].
    apply (lay_bound _ _ _ _ Hlay j t b Hb).
  - intros j t b Hb. apply Hbits in Hb as [[-> ->]|Hb]; [done|].
    apply (lay_largest _ _ _ _ Hlay j t b Hb).
  - intros k it Hk. destruct (lay_known _ _ _ _ Hlay _ _ Hk) as [?|[j Hj]]; [by left|right].
    exists j. by apply Hlab'.
  - intros k it Hk. by apply (lay_item _ _ _ _ Hlay k).
  - intros k it j b Hk Hj Hb. apply Hlab in Hj as [[-> E]|[Hj Hj2]].
    + exfalso. destruct (lay_known _ _ _ _ Hlay _ _ Hk) as [?|[q Hq]]; [congruence|].
      rewrite E in Hq. by apply Hfresh in Hq.
    + apply Hbits in Hb as [[-> ->]|Hb]; [done|].
      apply (lay_end _ _ _ _ Hlay k it j b Hk Hj2 Hb).
  - intros k1 k2 it1 it2 ? ? ? ? ?. by apply (lay_disjoint _ _ _ _ Hlay k1 k2).
Qed.
End report_ids.

(** ** Report items *)

Section items.
Context (B rid cur : Z) (pd : HID_ReportInfo_t).
Context (Hlay : layout B rid cur pd).
Context (info : HID_ReportSizeInfo_t) (t off bsz : Z) (bits : list Z) (l : list HID_ReportSizeInfo_t).
Context (Hinfo : arr_get (ReportIDSizes pd) cur = Some info) (Ht : 0 <= t < 3).
Context (Hoff : arr_get (ReportSizeBits info) t = Some off) (Hbsz : 0 <= bsz < 256).
Context (Hset : arr_set (ReportSizeBits info) t (off + bsz) = Some bits).
Context (Hl : arr_set (ReportIDSizes pd) cur
  {| Size_ReportID := Size_ReportID info; ReportSizeBits := bits |} = Some l).

Definition grown : HID_ReportInfo_t :=
  set_Reports (TotalDeviceReports pd) l
    (Z.max (LargestReportSizeBits pd) (off + bsz)) (UsingReportIDs pd) pd.

Lemma cur_bits : bits_of pd cur t off.
Proof. split; [apply (lay_cur _ _ _ _ Hlay)|]. eauto. Qed.

Lemma grown_labelled j ID : labelled grown j ID <-> labelled pd j ID.
Proof.
  unfold labelled, grown. cbn. destruct (decide (cur = j)) as [<-|Hne].
  - rewrite (arr_get_set_eq _ _ _ _ Hl), Hinfo.
    split; intros (? & ? & [= <-] & ?); eauto.
  - by rewrite (arr_get_set_ne _ _ _ _ _ Hl Hne).
Qed.

Lemma grown_bits j t' b :
  bits_of grown j t' b ->
  (j = cur /\ t' = t /\ b = off + bsz) \/ (~ (j = cur /\ t' = t) /\ bits_of pd j t' b).
Proof.
  intros (Hj & info' & Hg & Hb). cbn in Hj, Hg. destruct (decide (cur = j)) as [<-|Hne].
  - rewrite (arr_get_set_eq _ _ _ _ Hl) in Hg. injection Hg as <-. cbn in Hb.
    destruct (decide (t = t')) as [<-|Hne'].
    + rewrite (arr_get_set_eq _ _ _ _ Hset) in Hb. injection Hb as <-. auto.
    + rewrite (arr_get_set_ne _ _ _ _ _ Hset Hne') in Hb. right. split; [by intros [? ?]|].
      split; [done|]. eauto.
  - rewrite (arr_get_set_ne _ _ _ _ _ Hl Hne) in Hg. right. split; [by intros [? ?]|].
    split; [done|]. eauto.
Qed.

(** Growing the current report by one item. *)
Lemma layout_grow : layout (B + bsz) rid cur grown.
Proof.
  pose proof (lay_bound _ _ _ _ Hlay _ _ _ cur_bits) as Hb0.
  constructor.
  - apply grown_labelled. apply (lay_cur _ _ _ _ Hlay).
  - intros i j ID H1%grown_labelled H2%grown_labelled. by eapply lay_unique.
  - apply (lay_noid _ _ _ _ Hlay).
  - intros j t' b Hb. apply grown_bits in Hb as [(-> & -> & ->)|[_ Hb]]; [lia|].
    pose proof (lay_bound _ _ _ _ Hlay _ _ _ Hb). lia.
  - intros j t' b Hb. cbn. apply grown_bits in Hb as [(-> & -> & ->)|[_ Hb]]; [lia|].
    pose proof (lay_largest _ _ _ _ Hlay _ _ _ Hb). lia.
  - intros k it Hk. destruct (lay_known _ _ _ _ Hlay _ _ Hk) as [?|[j Hj]]; [by left|right].
    exists j. by apply grown_labelled.
  - intros k it Hk. destruct (lay_item _ _ _ _ Hlay _ _ Hk) as (? & ? & ? & ?).
    cbn. repeat split; lia.
  - intros k it i b Hk Hi%grown_labelled Hb.
    apply grown_bits in Hb as [(-> & Et & ->)|[_ Hb]]; [|by apply (lay_end _ _ _ _ Hlay k it i b)].
    enough (item_end it <= off) by lia. apply (lay_end _ _ _ _ Hlay k it cur off Hk Hi).
    rewrite Et. apply cur_bits.
  - apply (lay_disjoint _ _ _ _ Hlay).
Qed.

(** Storing the item that was given the grown range. *)
Context (it : HID_ReportItem_t) (items : list HID_ReportItem_t) (n : Z).
Context (Hitems : arr_set (ReportItems pd) (TotalReportItems pd) it = Some items).
Context (Hn : n = TotalReportItems pd \/ n = TotalReportItems pd + 1).
Context (Hit : BitOffset it = off /\ ItemType it = t /\ Item_ReportID it = rid /\
               BitSize (Attributes it) = bsz).
Context (Hrid : UsingReportIDs pd = false -> rid = 0).

Lemma stored_inv k it' :
  stored (set_Items n items grown) k it' ->
  stored grown k it' \/ (k = TotalReportItems pd /\ it' = it).
Proof.
  intros [Hk Hg]. cbn in Hk, Hg. destruct (decide (TotalReportItems pd = k)) as [<-|Hne].
  - rewrite (arr_get_set_eq _ _ _ _ Hitems) in Hg. injection Hg as <-. by right.
  - rewrite (arr_get_set_ne _ _ _ _ _ Hitems Hne) in Hg. left. split; [cbn; lia|done].
Qed.

Lemma layout_store : layout (B + bsz) rid cur (set_Items n items grown).
Proof.
  pose proof layout_grow as Hg. destruct Hit as (Eo & Et & Er & Eb).
  pose proof (lay_bound _ _ _ _ Hlay _ _ _ cur_bits) as Hb0.
  constructor; try apply Hg.
  - intros Hu. destruct (lay_noid _ _ _ _ Hg Hu) as [HT H0]. split; [done|].
    intros k it' Hk. apply stored_inv in Hk as [Hk|[_ ->]]; [eauto|]. rewrite Er. auto.
  - intros k it' Hk. apply stored_inv in Hk as [Hk|[_ ->]]; [by apply (lay_known _ _ _ _ Hg k)|].
    right. exists cur. rewrite Er. apply Hg.
  - intros k it' Hk. apply stored_inv in Hk as [Hk|[_ ->]]; [by apply (lay_item _ _ _ _ Hg k)|].
    unfold item_end. rewrite Eo, Et, Eb. cbn. repeat split; lia.
  - intros k it' i b Hk Hi Hb. apply stored_inv in Hk as [Hk|[_ ->]];
      [by apply (lay_end _ _ _ _ Hg k it' i)|].
    rewrite Er in Hi. rewrite (lay_unique _ _ _ _ Hg i cur rid Hi) in Hb by apply Hg.
    apply grown_bits in Hb as [(_ & _ & ->)|[Hne _]]; [unfold item_end; lia|].
    exfalso. by apply Hne.
  - intros k1 k2 it1 it2 H1 H2 Hlt E1 E2.
    apply stored_inv in H1 as [H1|[-> ->]], H2 as [H2|[-> ->]]; try lia.
    + by apply (lay_disjoint _ _ _ _ Hg k1 k2).
    + rewrite Eo. apply (lay_end _ _ _ _ Hlay k1 it1 cur off).
      * exact H1.
      * rewrite E2, Er. apply Hlay.
      * rewrite E1, Et. apply cur_bits.
    + destruct H2 as [H2 _]. cbn in H2. lia.
Qed.
End items.

(** ** The parser keeps the layout *)

(** The report size and count in force, which only REPORT SIZE and REPORT
    COUNT items change, and the bits the main items add to their report. *)
Definition next_size (sz : Z) (b v : Z) : Z :=
  match tag_of b with RI_REPORT_SIZE => u8 v | _ => sz end.
Definition next_count (cnt : Z) (b v : Z) : Z :=
  match tag_of b with RI_REPORT_COUNT => u8 v | _ => cnt end.
Definition item_bits (sz cnt b : Z) : Z :=
  match tag_of b with RI_INPUT | RI_OUTPUT | RI_FEATURE => cnt * sz | _ => 0 end.

(** All the bits of all the reports of a descriptor. *)
Fixpoint descriptor_bits (sz cnt : Z) (its : list item) : Z :=
  match its with
  | [] => 0
  | (b, d) :: rest =>
      item_bits sz cnt b
      + descriptor_bits (next_size sz b (item_value d)) (next_count cnt b (item_value d)) rest
  end.

(** No item selects the reserved report ID 0. *)
Definition nonzero_ids (its : list item) : Prop :=
  Forall (fun it : item => tag_of it.1 = RI_REPORT_ID -> u8 (item_value it.2) <> 0) its.

Record laid (B sz cnt : Z) (st : parser_state) : Prop := {
  laid_wf : wf_parser st;
  laid_layout : exists s, arr_get (StateTable st) (CurrStateTable st) = Some s /\
    BitSize (ST_Attributes s) = sz /\ ReportCount s = cnt /\
    layout B (ST_ReportID s) (CurrReportIDInfo st) (ParserData st) /\
    (UsingReportIDs (ParserData st) = false -> ST_ReportID s = 0);
  laid_size : 0 <= sz < 256;
  laid_count : 0 <= cnt < 256;
  laid_budget : 0 <= B }.

Lemma descriptor_bits_nonneg its sz cnt : 0 <= sz -> 0 <= cnt -> 0 <= descriptor_bits sz cnt its.
Proof.
  revert sz cnt. induction its as [|[b d] its IH]; intros sz cnt ? ?; cbn [descriptor_bits]; [done|].
  apply Z.add_nonneg_nonneg; [unfold item_bits; case_match; nia|].
  apply IH; unfold next_size, next_count; case_match; try done; apply u8_range.
Qed.

Section keeps.
Context `{Env : HIDParserEnv}.

Lemma initial_bits i t b : bits_of (ParserData initial_state) i t b -> b = 0.
Proof.
  intros (_ & info & Hg & Hb). cbn in Hg.
  assert (Forall (fun s => s = zero_sizeinfo)
    (replicate (Z.to_nat HID_MAX_REPORT_IDS) zero_sizeinfo)) as HF by (by apply Forall_replicate).
  rewrite (arr_get_Forall _ _ _ _ Hg HF) in Hb.
  assert (Forall (fun b => b = 0) (ReportSizeBits zero_sizeinfo)) as HF' by (repeat constructor).
  by apply (arr_get_Forall _ _ _ _ Hb HF').
Qed.

Lemma initial_stored k it : ~ stored (ParserData initial_state) k it.
Proof. intros [Hk Hg%arr_get_lt]. cbn in Hk. lia. Qed.

Lemma layout_initial : layout 0 0 0 (ParserData initial_state).
Proof.
  constructor.
  - split; [done|]. by exists zero_sizeinfo.
  - intros i j ID [Hi (info & Hg%arr_get_lt & _)] [Hj (info' & Hg'%arr_get_lt & _)].
    cbn in *. lia.
  - intros _. split; [done|]. intros k it Hk. by apply initial_stored in Hk.
  - intros i t b ->%initial_bits. lia.
  - intros i t b ->%initial_bits. done.
  - intros k it Hk. by apply initial_stored in Hk.
  - intros k it Hk. by apply initial_stored in Hk.
  - intros k it i b Hk. by apply initial_stored in Hk.
  - intros k1 k2 it1 it2 Hk. by apply initial_stored in Hk.
Qed.

Lemma laid_initial : laid 0 0 0 initial_state.
Proof.
  constructor; [apply wf_initial| |lia..]. exists zero_state.
  split; [done|]. split; [done|]. split; [done|]. split; [apply layout_initial|done].
Qed.

(** Steps that leave the reports, the items and the current ID alone. *)
Lemma laid_frame B sz cnt sz' cnt' st st' :
  laid B sz cnt st -> wf_parser st' -> 0 <= sz' < 256 -> 0 <= cnt' < 256 ->
  (forall rid cur, layout B rid cur (ParserData st) -> layout B rid cur (ParserData st')) ->
  UsingReportIDs (ParserData st') = UsingReportIDs (ParserData st) ->
  CurrReportIDInfo st' = CurrReportIDInfo st ->
  (forall s, arr_get (StateTable st) (CurrStateTable st) = Some s ->
    BitSize (ST_Attributes s) = sz -> ReportCount s = cnt ->
    exists s', arr_get (StateTable st') (CurrStateTable st') = Some s' /\
      BitSize (ST_Attributes s') = sz' /\ ReportCount s' = cnt' /\
      ST_ReportID s' = ST_ReportID s) ->
  laid B sz' cnt' st'.
Proof.
  intros [H (s & Hs & Hb & Hc & Hl & Hu) ? ? ?] H' ? ? Hd Eu Ec Ht.
  destruct (Ht s Hs Hb Hc) as (s' & Hs' & ? & ? & Er).
  constructor; try done. exists s'. rewrite Er, Eu, Ec. split_and!; auto.
Qed.

Lemma laid_upd B sz cnt sz' cnt' f st st' :
  laid B sz cnt st -> upd_state f st = Some st' -> 0 <= sz' < 256 -> 0 <= cnt' < 256 ->
  (forall s, BitSize (ST_Attributes s) = sz -> ReportCount s = cnt ->
    BitSize (ST_Attributes (f s)) = sz' /\ ReportCount (f s) = cnt' /\
    ST_ReportID (f s) = ST_ReportID s) ->
  laid B sz' cnt' st'.
Proof.
  intros Hl Hu ? ? Hf.
  destruct (upd_state_data _ _ _ Hu) as (Ed & _ & Ec & _ & s0 & Hs0 & Hs').
  eapply laid_frame; [done| |done|done| | |done|].
  - eapply upd_state_wf; [apply Hl|done].
  - by rewrite Ed.
  - by rewrite Ed.
  - intros s Hs Hb Hc. rewrite Hs0 in Hs. injection Hs as <-.
    destruct (Hf s0 Hb Hc) as (? & ? & ?). exists (f s0). auto.
Qed.

Lemma laid_take_usage B sz cnt old st u st' :
  laid B sz cnt st -> take_usage old st = Some (u, st') -> laid B sz cnt st'.
Proof.
  intros Hl Hu. destruct (take_usage_wf _ _ _ _ (laid_wf _ _ _ _ Hl) Hu)
    as (Hw & _ & Ed & Et & Ect & Er & _).
  pose proof (laid_size _ _ _ _ Hl). pose proof (laid_count _ _ _ _ Hl).
  eapply laid_frame; try done; rewrite ?Ed; try done.
  intros s Hs ? ?. exists s. by rewrite Et, Ect.
Qed.

(** Main items. *)
Lemma laid_add_item B sz cnt t D st st' :
  laid B sz cnt st -> 0 <= t < 3 -> B + sz < 65536 ->
  add_report_item t D st = Some (Continue st') -> laid (B + sz) sz cnt st'.
Proof.
  intros Hl Ht HB Hr. pose proof (laid_wf _ _ _ _ Hl) as H.
  pose proof (proj1 (add_report_item_wf _ _ _ _ H Ht Hr)) as Hw'. cbn in Hw'.
  unfold add_report_item in Hr.
  destruct (arr_get (StateTable st) _) as [s|] eqn:Es; [cbn in Hr|done].
  destruct (take_usage _ st) as [[u st1]|] eqn:Hu; [cbn in Hr|done].
  destruct (take_usage_wf _ _ _ _ H Hu) as (H1 & _ & _ & Et & Ect & _).
  pose proof (laid_take_usage _ _ _ _ _ _ _ Hl Hu) as Hl1.
  destruct (laid_layout _ _ _ _ Hl1) as (s1 & Hs1 & Hb & Hc & Hlay & Hnoid).
  rewrite Et, Ect, Es in Hs1. injection Hs1 as <-.
  destruct (report_bits_ok st1 t H1 Ht) as (info & off & Hi & _ & Ho & Hoff).
  rewrite Hi in Hr. cbn in Hr. rewrite Ho in Hr. cbn in Hr.
  pose proof (laid_size _ _ _ _ Hl) as Hsz. pose proof (laid_count _ _ _ _ Hl).
  pose proof (laid_budget _ _ _ _ Hl) as HB0.
  assert (bits_of (ParserData st1) (CurrReportIDInfo st1) t off) as Hcb
    by (split; [apply wf_report; done|]; eauto).
  pose proof (lay_bound _ _ _ _ Hlay _ _ _ Hcb).
  rewrite Hb, (u16_small (off + sz)) in Hr by lia.
  destruct (arr_set _ t _) as [bits|] eqn:Hbits; [cbn in Hr|done].
  destruct (arr_set _ (CurrReportIDInfo st1) _) as [sizes|] eqn:Hz; [cbn in Hr|done].
  destruct (_ =? HID_MAX_REPORTITEMS) eqn:En; [done|]. bprop. inv_opt.
  constructor; [done| |done|done|lia].
  exists s. cbn. rewrite Et, Ect. split; [done|]. split; [done|]. split; [done|].
  split; [|done].
  eapply (layout_store B (ST_ReportID s) (CurrReportIDInfo st1) (ParserData st1) Hlay
    info t off (BitSize (ST_Attributes s)) bits sizes); try done.
  pose proof (wf_items_total _ H1). unfold HID_MAX_REPORTITEMS in *.
  case_match; [right; rewrite u8_small; lia|by left].
Qed.

Lemma laid_add_items n B sz cnt t D st st' :
  laid B sz cnt st -> 0 <= t < 3 -> B + Z.of_nat n * sz < 65536 ->
  add_report_items n t D st = Some (Continue st') -> laid (B + Z.of_nat n * sz) sz cnt st'.
Proof.
  revert B st. induction n as [|n IH]; intros B st Hl Ht HB Hr; cbn [add_report_items] in Hr.
  - injection Hr as <-. by rewrite Z.add_0_r.
  - pose proof (laid_size _ _ _ _ Hl).
    destruct (add_report_item t D st) as [[st1|]|] eqn:E; [cbn in Hr|done..].
    apply (laid_add_item _ _ _ _ _ _ _ Hl Ht) in E; [|nia].
    replace (B + Z.of_nat (S n) * sz) with (B + sz + Z.of_nat n * sz) in * by lia.
    by apply (IH _ st1).
Qed.

Lemma laid_main_item B sz cnt t D st st' :
  laid B sz cnt st -> 0 <= t < 3 -> B + cnt * sz < 65536 ->
  do_main_item t D st = Some (Continue st') -> laid (B + cnt * sz) sz cnt st'.
Proof.
  intros Hl Ht HB Hr. unfold do_main_item in Hr. pose proof (laid_count _ _ _ _ Hl).
  destruct (laid_layout _ _ _ _ Hl) as (s & Hs & Hb & Hc & _). rewrite Hs in Hr.
  cbn in Hr. rewrite Hc in Hr.
  rewrite <- (Z2Nat.id cnt) at 1 by lia. eapply laid_add_items; [done|done| |done].
  rewrite Z2Nat.id by lia. done.
Qed.

(** Report IDs. *)
Lemma laid_use_known B sz cnt i ID st st' :
  wf_parser st -> wf_parser st' -> 0 <= sz < 256 -> 0 <= cnt < 256 -> 0 <= B ->
  0 <= i < TotalDeviceReports (ParserData st) ->
  (exists s, arr_get (StateTable st) (CurrStateTable st) = Some s /\
    BitSize (ST_Attributes s) = sz /\ ReportCount s = cnt /\ ST_ReportID s = ID) ->
  (exists rid cur, layout B rid cur (ParserData st)) ->
  (forall info, arr_get (ReportIDSizes (ParserData st)) i = Some info ->
    Size_ReportID info = ID \/
    (forall j, ~ labelled (ParserData st) j ID) /\
    (forall k it, stored (ParserData st) k it -> Item_ReportID it <> ID) /\
    (forall k it, stored (ParserData st) k it -> Item_ReportID it = 0)) ->
  use_report_id i ID st = Some (Continue st') -> laid B sz cnt st'.
Proof.
  intros H H' ? ? ? Hi (s & Hs & Hb & Hc & Hr) (rid & cur & Hlay) Hcase Hu.
  unfold use_report_id in Hu.
  destruct (arr_get (ReportIDSizes _) i) as [info|] eqn:Hg; [cbn in Hu|done].
  destruct (arr_set _ i _) as [l|] eqn:Hl; [cbn in Hu|done]. injection Hu as <-.
  constructor; try done. exists s. cbn. split_and!; try done.
  rewrite Hr. by apply (layout_relabel B rid cur _ Hlay i info l ID Hg Hi Hl), Hcase.
Qed.

Lemma laid_report_id B sz cnt D st st' :
  laid B sz cnt st -> u8 D <> 0 -> do_report_id D st = Some (Continue st') -> laid B sz cnt st'.
Proof.
  intros Hl HID Hr. destruct Hl as [H (s & Hs & Hb & Hc & Hlay & Hnoid) ? ? ?].
  pose proof (proj1 (do_report_id_wf _ _ _ H Hr)) as Hw'. cbn in Hw'.
  unfold do_report_id in Hr.
  destruct (upd_state _ st) as [st1|] eqn:E1; [cbn in Hr|done].
  pose proof (upd_state_wf _ _ _ H E1) as H1.
  destruct (upd_state_data _ _ _ E1) as (Ed & _ & Ecur & _ & s0 & Hs0 & Hs1).
  rewrite Hs in Hs0. injection Hs0 as <-. rewrite <- Ed, <- Ecur in *. clear E1 Ed Ecur.
  pose proof (wf_reports_total _ H1). pose proof (wf_reports_length _ H1).
  assert (exists s', arr_get (StateTable st1) (CurrStateTable st1) = Some s' /\
    BitSize (ST_Attributes s') = sz /\ ReportCount s' = cnt /\ ST_ReportID s' = u8 D) as Hst
    by (eexists; split_and!; [exact Hs1|done..]).
  destruct (UsingReportIDs (ParserData st1)) eqn:Eu.
  - destruct (find_report_id_spec (Z.to_nat (TotalDeviceReports (ParserData st1))) 0 (u8 D)
      (ReportIDSizes (ParserData st1))) as (f & Hf & Hspec); [lia|lia|]. rewrite Hf in Hr.
    cbn in Hr. destruct f as [i|].
    + destruct Hspec as (Hi & s' & Hg' & E).
      eapply (laid_use_known _ _ _ i); [exact H1|done..| |exact Hst|eauto| |exact Hr]; [lia|].
      intros info Hg. left. congruence.
    + destruct (_ =? HID_MAX_REPORT_IDS) eqn:Emax; [done|]. bprop. unfold HID_MAX_REPORT_IDS in *.
      destruct (arr_set _ _ zero_sizeinfo) as [l|] eqn:Hz; [cbn in Hr|done].
      unfold use_report_id in Hr. cbn in Hr. rewrite (arr_get_set_eq _ _ _ _ Hz) in Hr. cbn in Hr.
      destruct (arr_set l _ _) as [l2|] eqn:Hz2; [cbn in Hr|done]. injection Hr as <-.
      constructor; try done. destruct Hst as (s' & ? & ? & ? & Er). exists s'. cbn.
      split_and!; try done. rewrite Er, (u8_small (_ + 1)) by lia.
      apply (layout_extend B _ _ (ParserData st1) Hlay l2 (u8 D)); try done.
      * by apply wf_largest.
      * intros j (Hj & info & Hg & El). apply arr_get_lt in Hg as ?.
        apply (Hspec j info); [lia|done|done].
      * by eapply arr_get_set_eq.
      * intros j Hne. rewrite (arr_get_set_ne _ _ _ _ _ Hz2 Hne).
        by apply (arr_get_set_ne _ _ _ _ _ Hz).
  - destruct (lay_noid _ _ _ _ Hlay Eu) as [ET Hz]. pose proof (wf_report _ H1).
    eapply (laid_use_known _ _ _ (CurrReportIDInfo st1)); [exact H1|done..|exact Hst|eauto| |done].
    intros info Hg. right. split_and!.
    + intros j Hj. pose proof (lay_cur _ _ _ _ Hlay) as Hcur. rewrite Hnoid in Hcur by done.
      destruct Hj as (Hj & ij & Hgj & Ej), Hcur as (_ & ic & Hgc & Ecl).
      pose proof (arr_get_lt _ _ _ Hgj). replace j with (CurrReportIDInfo st1) in Hgj by lia.
      congruence.
    + intros k it Hk. rewrite (Hz k it Hk). done.
    + done.
Qed.

Lemma laid_fill_collection B sz cnt idx parent D st st' :
  laid B sz cnt st -> wf_parser st' -> fill_collection idx parent D st = Some (Continue st') ->
  laid B sz cnt st'.
Proof.
  intros Hl Hw Hr. unfold fill_collection in Hr.
  destruct (_ !! idx) as [p|]; [cbn in Hr|done].
  destruct (arr_get (StateTable st) _) as [s|]; [cbn in Hr|done].
  destruct (take_usage _ st) as [[u st1]|] eqn:Hu; [cbn in Hr|done].
  pose proof (take_usage_wf _ _ _ _ (laid_wf _ _ _ _ Hl) Hu) as (_ & _ & Ed & _).
  apply (laid_take_usage _ _ _ _ _ _ _ Hl) in Hu. injection Hr as <-.
  eapply laid_frame; [exact Hu|done|apply Hl|apply Hl| |done|done|cbn; eauto].
  intros rid cur. rewrite <- Ed. apply layout_paths.
Qed.

Lemma laid_collection B sz cnt D st st' :
  laid B sz cnt st -> wf_parser st' -> do_collection D st = Some (Continue st') ->
  laid B sz cnt st'.
Proof.
  intros Hl Hw Hr. unfold do_collection in Hr. destruct (CurrCollectionPath st).
  - destruct (find_free_path _ _ _) as [[idx|]|]; [cbn in Hr|done..].
    by eapply laid_fill_collection.
  - destruct (_ !! 0%nat); [cbn in Hr|done]. by eapply laid_fill_collection.
Qed.

Lemma laid_end_of_item B sz cnt b st : laid B sz cnt st -> laid B sz cnt (end_of_item b st).
Proof.
  intros Hl. eapply laid_frame; [done|apply end_of_item_wf, Hl|apply Hl|apply Hl|..].
  all: unfold end_of_item; case_match; cbn; eauto.
Qed.

Lemma laid_process_item B sz cnt b v st st' :
  laid B sz cnt st -> (tag_of b = RI_REPORT_ID -> u8 v <> 0) ->
  B + item_bits sz cnt b < 65536 ->
  process_item b v st = Some (Continue st') ->
  laid (B + item_bits sz cnt b) (next_size sz b v) (next_count cnt b v) st'.
Proof.
  intros Hl HID HB Hr. pose proof (process_item_wf _ _ _ _ (laid_wf _ _ _ _ Hl) Hr) as [Hw' _].
  pose proof (laid_size _ _ _ _ Hl). pose proof (laid_count _ _ _ _ Hl).
  pose proof (u8_range v). cbn in Hw'.
  unfold process_item, item_bits, next_size, next_count, upd_continue in *.
  destruct (tag_of b) eqn:Et; rewrite ?Z.add_0_r.
  all: try (apply (fun Ht => laid_main_item _ _ _ _ _ _ _ Hl Ht HB Hr); cbv; split; congruence).
  all: try (injection Hr as <-; exact Hl).
  all: try (inv_opt; eapply laid_upd; [exact Hl|done|lia|lia|by intros s <- <-]).
  all: try (injection Hr as <-; eapply laid_frame; [exact Hl|done..|cbn; eauto]).
  - by eapply laid_collection.
  - unfold do_end_collection in Hr. case_match; [|done].
    bind_cases Hr. injection Hr as <-. eapply laid_frame; [exact Hl|done..|cbn; eauto].
  - unfold do_usage_page in Hr. destruct (_ =? 3); cbn in Hr.
    + destruct (upd_state _ st) as [st1|] eqn:E1; [cbn in Hr|done].
      apply (laid_upd _ _ _ sz cnt _ _ _ Hl) in E1; [|lia|lia|by intros s <- <-].
      inv_opt. eapply laid_upd; [exact E1|done|lia|lia|by intros s <- <-].
    + inv_opt. eapply laid_upd; [exact Hl|done|lia|lia|by intros s <- <-].
  - by eapply laid_report_id; eauto.
  - by rewrite do_push_fault in Hr by apply Hl.
  - unfold do_pop in Hr. rewrite wf_top in Hr by apply Hl. done.
  - unfold do_usage in Hr. case_match; [done|].
    bind_cases Hr. injection Hr as <-. eapply laid_frame; [exact Hl|done..|cbn; eauto].
Qed.

Lemma run_items_laid its B sz cnt st st' :
  laid B sz cnt st -> nonzero_ids its -> B + descriptor_bits sz cnt its < 65536 ->
  run_items its st = Some (HID_PARSE_Successful, st') ->
  exists sz' cnt', laid (B + descriptor_bits sz cnt its) sz' cnt' st'.
Proof.
  revert B sz cnt st. induction its as [|[b d] its IH]; intros B sz cnt st Hl Hz HB Hr.
  - cbn in Hr. injection Hr as _ <-. exists sz, cnt. cbn. by rewrite Z.add_0_r.
  - apply Forall_cons in Hz as [Hz Hz']. cbn [run_items descriptor_bits fst snd] in *.
    destruct (process_item b _ st) as [[st1|c st1]|] eqn:E; [cbn in Hr| |done].
    + rewrite Z.add_assoc in *.
      assert (0 <= descriptor_bits (next_size sz b (item_value d))
        (next_count cnt b (item_value d)) its) by (apply descriptor_bits_nonneg;
        unfold next_size, next_count; case_match; apply Hl || apply u8_range).
      apply (laid_process_item _ _ _ _ _ _ _ Hl Hz) in E; [|lia].
      eapply IH; [by apply laid_end_of_item|done|done|done].
    + exfalso. injection Hr as -> _. apply process_item_code in E. done.
Qed.
End keeps.

(** ** Theorem *)

(** A descriptor whose reports fit 16-bit sizes, parsed successfully. *)
Definition parses_to `{HIDParserEnv} (its : list item) (tail : list Z) (pd : HID_ReportInfo_t) : Prop :=
  Forall framed its /\ Z.of_nat (length (encode_items its)) < 65536 /\
  nonzero_ids its /\ descriptor_bits 0 0 its < 65536 /\
  USB_ProcessHIDReport (encode_items its ++ tail) (Z.of_nat (length (encode_items its)))
    = Some (HID_PARSE_Successful, pd).

Lemma parses_to_laid `{Env : HIDParserEnv} its tail pd :
  parses_to its tail pd -> exists B sz cnt st, laid B sz cnt st /\ pd = ParserData st.
Proof.
  intros (Hf & Hl & Hz & Hb & Hr). unfold USB_ProcessHIDReport in Hr.
  rewrite parse_loop_items in Hr by done.
  destruct (run_items its initial_state) as [[c st]|] eqn:E; [cbn in Hr|done].
  injection Hr as -> <-.
  destruct (run_items_laid its 0 0 0 _ _ laid_initial Hz Hb E) as (sz & cnt & Hlaid). eauto 10.
Qed.


(** A keyboard and a mouse on one interface, told apart by report IDs, as in
    the KeyboardMouseMultiReport demo's report descriptor. *)
Definition two_report_items : list item :=
  [HID_RI_USAGE_PAGE 8 0x01; HID_RI_USAGE 8 0x02; HID_RI_COLLECTION 8 0x01;
     HID_RI_REPORT_ID 8 1; HID_RI_REPORT_SIZE 8 1; HID_RI_REPORT_COUNT 8 3;
     HID_RI_INPUT 8 2;
     HID_RI_REPORT_ID 8 2; HID_RI_REPORT_SIZE 8 8; HID_RI_REPORT_COUNT 8 2;
     HID_RI_INPUT 8 2;
   HID_RI_END_COLLECTION 0 0].

Definition witness_info : HID_ReportInfo_t :=
  match @USB_ProcessHIDReport (accept_all 7 zero_state) (encode_items two_report_items) 23 with
  | Some (_, pd) => pd
  | None => ParserData (@initial_state (accept_all 7 zero_state))
  end.

Lemma witness_parses : @parses_to (accept_all 7 zero_state) two_report_items [] witness_info.
Proof.
  unfold parses_to. split_and!.
  - repeat (constructor; [reflexivity|]); constructor.
  - vm_compute. reflexivity.
  - repeat (constructor; [vm_compute; intros; congruence|]). constructor.
  - vm_compute. reflexivity.
  - vm_compute. reflexivity.
Qed.

