(* ===== verification/HIDReport.v ===== *)
(** * HID reports: reading and writing items, report sizes

    Model of [USB_GetHIDReportItemInfo], [USB_SetHIDReportItemInfo] and
    [USB_GetHIDReportSize] of [HIDParser.c].  A report is the list of its
    bytes; [None] is an access outside the report buffer. *)
From S2P Require Import Prelude HIDParser HIDItems HIDParserInv HIDParserLayout.

(** ** Definitions *)

Definition set_Value (prev v : Z) (it : HID_ReportItem_t) : HID_ReportItem_t :=
  {| BitOffset := BitOffset it; ItemType := ItemType it; ItemFlags := ItemFlags it;
     Item_ReportID := Item_ReportID it; CollectionPath := CollectionPath it;
     Attributes := Attributes it; Value := v; PreviousValue := prev |}.

(** [while (DataBitsRem--)] of [USB_GetHIDReportItemInfo]. *)
Fixpoint get_loop (DataBitsRem : nat) (ReportData : list Z) (CurrentBit BitMask v : Z) : option Z :=
  match DataBitsRem with
  | O => Some v
  | S n =>
      byte ← arr_get ReportData (CurrentBit / 8);
      let v := if truthy (Z.land byte (Z.shiftl 1 (CurrentBit mod 8)))
               then Z.lor v BitMask else v in
      get_loop n ReportData (u16 (CurrentBit + 1)) (u32 (Z.shiftl BitMask 1)) v
  end.

Definition USB_GetHIDReportItemInfo (ReportData : list Z) (ReportItem : option HID_ReportItem_t)
    : option (bool * option HID_ReportItem_t) :=
  match ReportItem with
  | None => Some (false, None)
  | Some it =>
      let read data :=
        v ← get_loop (Z.to_nat (BitSize (Attributes it))) data (BitOffset it) 1 0;
        Some (true, Some (set_Value (Value it) v it)) in
      if truthy (Item_ReportID it) then
        id ← arr_get ReportData 0;
        if negb (Item_ReportID it =? id) then Some (false, Some it)
        else read (drop 1 ReportData)
      else read ReportData
  end.

(** [while (DataBitsRem--)] of [USB_SetHIDReportItemInfo]. *)
Fixpoint set_loop (DataBitsRem : nat) (ReportData : list Z) (CurrentBit BitMask v : Z)
    : option (list Z) :=
  match DataBitsRem with
  | O => Some ReportData
  | S n =>
      data ← (if truthy (Z.land v (Z.shiftl 1 (CurrentBit mod 8))) then
                byte ← arr_get ReportData (CurrentBit / 8);
                arr_set ReportData (CurrentBit / 8) (u8 (Z.lor byte BitMask))
              else Some ReportData);
      set_loop n data (u16 (CurrentBit + 1)) (u32 (Z.shiftl BitMask 1)) v
  end.

(** The report buffer and the item after the call. *)
Definition USB_SetHIDReportItemInfo (ReportData : list Z) (ReportItem : option HID_ReportItem_t)
    : option (list Z * option HID_ReportItem_t) :=
  match ReportItem with
  | None => Some (ReportData, None)
  | Some it =>
      let n := Z.to_nat (BitSize (Attributes it)) in
      let it' := set_Value (Value it) (Value it) it in
      if truthy (Item_ReportID it) then
        data ← arr_set ReportData 0 (Item_ReportID it);
        rest ← set_loop n (drop 1 data) (BitOffset it) 1 (Value it);
        Some (take 1 data ++ rest, Some it')
      else
        data ← set_loop n ReportData (BitOffset it) 1 (Value it);
        Some (data, Some it')
  end.

(** The search loop of [USB_GetHIDReportSize] from entry [i] on. *)
Fixpoint report_size_loop (n : nat) (i : Z) (l : list HID_ReportSizeInfo_t)
    (ReportID ReportType : Z) : option Z :=
  match n with
  | O => Some 0
  | S n' =>
      info ← arr_get l i;
      bits ← arr_get (ReportSizeBits info) ReportType;
      if Size_ReportID info =? ReportID
      then Some (u16 (bits / 8 + (if truthy (bits mod 8) then 1 else 0)))
      else report_size_loop n' (i + 1) l ReportID ReportType
  end.

Definition USB_GetHIDReportSize (pd : HID_ReportInfo_t) (ReportID ReportType : Z) : option Z :=
  report_size_loop (Z.to_nat HID_MAX_REPORT_IDS) 0 (ReportIDSizes pd) ReportID ReportType.

(** ** Reading an item *)

(** Bit [i] of a report. *)
Definition report_bit (data : list Z) (i : Z) : bool :=
  match arr_get data (i / 8) with Some b => Z.testbit b (i mod 8) | None => false end.

Lemma truthy_land_bit v k : 0 <= k -> truthy (Z.land v (Z.shiftl 1 k)) = Z.testbit v k.
Proof.
  intros Hk. rewrite Z.shiftl_1_l. unfold truthy. destruct (Z.testbit v k) eqn:E.
  - apply negb_true_iff, Z.eqb_neq. intros H0.
    assert (Z.testbit (Z.land v (2 ^ k)) k = true) as Ht
      by (rewrite Z.land_spec, E, Z.pow2_bits_true by done; done).
    by rewrite H0, Z.bits_0 in Ht.
  - apply negb_false_iff, Z.eqb_eq. apply Z.bits_inj'. intros i Hi.
    rewrite Z.land_spec, Z.bits_0. destruct (decide (i = k)) as [->|].
    + by rewrite E.
    + rewrite Z.pow2_bits_false by done. by rewrite andb_false_r.
Qed.

Lemma shl_mask j : 0 <= j -> u32 (Z.shiftl (u32 (2 ^ j)) 1) = u32 (2 ^ (j + 1)).
Proof.
  intros. unfold wrap. rewrite Z.shiftl_mul_pow2, Z.mul_mod_idemp_l, Z.pow_add_r by lia. done.
Qed.

Lemma mask_bit j i : 0 <= j -> 0 <= i -> Z.testbit (u32 (2 ^ j)) i = (j <? 32) && (i =? j).
Proof.
  intros Hj Hi. rewrite testbit_wrap by lia. rewrite Z.pow2_bits_eqb by done.
  rewrite (Z.eqb_sym j i). destruct (Z.eqb_spec i j) as [->|]; by rewrite ?andb_true_r, ?andb_false_r.
Qed.

Lemma get_loop_spec n data off j v :
  0 <= off -> 0 <= j -> off + j + Z.of_nat n < 65536 ->
  off + j + Z.of_nat n <= 8 * Z.of_nat (length data) ->
  exists v', get_loop n data (off + j) (u32 (2 ^ j)) v = Some v' /\
    forall i, 0 <= i -> Z.testbit v' i =
      Z.testbit v i || ((j <=? i) && (i <? j + Z.of_nat n) && (i <? 32) && report_bit data (off + i)).
Proof.
  revert j v. induction n as [|n IH]; intros j v Ho Hj Hw Hl; cbn [get_loop].
  - exists v. split; [done|]. intros i Hi.
    destruct (Z.leb_spec j i), (Z.ltb_spec i (j + Z.of_nat 0)); cbn; rewrite ?orb_false_r; try done; lia.
  - destruct (arr_get_is_Some data ((off + j) / 8)) as [byte Hb]; [zdm|]. rewrite Hb. cbn [mbind option_bind].
    rewrite truthy_land_bit by zdm. rewrite shl_mask, u16_small by lia.
    replace (off + j + 1) with (off + (j + 1)) by lia.
    match goal with |- context [get_loop n data _ _ ?w] => destruct (IH (j + 1) w) as (v' & Hv' & Hs);
      [lia..|] end.
    rewrite Hv'. exists v'. split; [done|]. intros i Hi. rewrite (Hs i Hi).
    assert (report_bit data (off + j) = Z.testbit byte ((off + j) mod 8)) as Hrb
      by (unfold report_bit; by rewrite Hb).
    assert (Z.testbit (if Z.testbit byte ((off + j) mod 8) then Z.lor v (u32 (2 ^ j)) else v) i
      = Z.testbit v i || ((i =? j) && (j <? 32) && report_bit data (off + j))) as ->.
    { rewrite Hrb. destruct (Z.testbit byte _).
      - rewrite Z.lor_spec, mask_bit by lia. by rewrite andb_true_r, andb_comm.
      - by rewrite andb_false_r, orb_false_r. }
    rewrite <- orb_assoc. f_equal. destruct (Z.eqb_spec i j) as [->|Hne].
    + destruct (Z.leb_spec (j + 1) j), (Z.leb_spec j j), (Z.ltb_spec j (j + Z.of_nat (S n)));
        try lia. cbn. by rewrite orb_false_r.
    + cbn [andb orb]. do 2 f_equal.
      destruct (Z.leb_spec (j + 1) i), (Z.leb_spec j i), (Z.ltb_spec i (j + 1 + Z.of_nat n)),
        (Z.ltb_spec i (j + Z.of_nat (S n))); try done; lia.
Qed.

(** ** Writing an item *)

Lemma arr_get_u8_byte (data : list Z) k b :
  Forall (fun x => 0 <= x < 256) data -> arr_get data k = Some b -> 0 <= b < 256.
Proof. intros HF Hg. by apply (arr_get_Forall _ _ _ _ Hg HF). Qed.

(** On a byte boundary and inside one byte the loop sets bit [i] of the byte
    exactly when bit [i] of the value is set. *)
Lemma set_loop_aligned n data off j v byte :
  0 <= off -> off mod 8 = 0 -> 0 <= j -> j + Z.of_nat n <= 8 -> off + 8 < 65536 ->
  arr_get data (off / 8) = Some byte -> 0 <= byte < 256 ->
  exists byte' data', set_loop n data (off + j) (u32 (2 ^ j)) v = Some data' /\
    0 <= byte' < 256 /\ data' = <[Z.to_nat (off / 8) := byte']> data /\
    forall i, 0 <= i < 8 -> Z.testbit byte' i =
      Z.testbit byte i || ((j <=? i) && (i <? j + Z.of_nat n) && Z.testbit v i).
Proof.
  revert data j byte. induction n as [|n IH]; intros data j byte Ho Ha Hj Hn Hw Hg Hb; cbn [set_loop].
  - exists byte, data. split_and!; try done; try lia.
    + rewrite list_insert_id; [done|]. by apply arr_get_Some in Hg as [_ ?].
    + intros i Hi. destruct (Z.leb_spec j i), (Z.ltb_spec i (j + Z.of_nat 0)); cbn;
        rewrite ?orb_false_r; try done; lia.
  - replace ((off + j) mod 8) with j by zdm. replace ((off + j) / 8) with (off / 8) by zdm.
    rewrite truthy_land_bit by lia. rewrite shl_mask, u16_small by lia.
    replace (off + j + 1) with (off + (j + 1)) by lia.
    set (b1 := if Z.testbit v j then u8 (Z.lor byte (u32 (2 ^ j))) else byte).
    assert (0 <= b1 < 256) as Hb1 by (subst b1; destruct (Z.testbit v j); [apply u8_range|done]).
    assert ((if Z.testbit v j then
        byte ← arr_get data (off / 8);
        arr_set data (off / 8) (u8 (Z.lor byte (u32 (2 ^ j))))
      else Some data) = Some (<[Z.to_nat (off / 8) := b1]> data)) as ->.
    { subst b1. apply arr_get_lt in Hg as Hlt. destruct (Z.testbit v j).
      - rewrite Hg. cbn [mbind option_bind]. by apply arr_set_Some.
      - rewrite list_insert_id; [done|]. by apply arr_get_Some in Hg as [_ ?]. }
    cbn [mbind option_bind]. apply arr_get_lt in Hg as Hlt.
    destruct (IH (<[Z.to_nat (off / 8) := b1]> data) (j + 1) b1) as (b' & d' & Hd' & Hb' & -> & Hs);
      try done; try lia.
    { apply arr_get_Some. split; [lia|]. apply list_lookup_insert_eq. lia. }
    exists b', (<[Z.to_nat (off / 8) := b']> data). split_and!; try lia.
    + rewrite Hd'. by rewrite list_insert_insert_eq.
    + done.
    + intros i Hi. rewrite (Hs i Hi).
      assert (Z.testbit b1 i = Z.testbit byte i || ((i =? j) && Z.testbit v j)) as ->.
      { subst b1. destruct (Z.testbit v j).
        - rewrite testbit_wrap, Z.lor_spec, mask_bit by lia.
          destruct (Z.ltb_spec i 8), (Z.ltb_spec j 32); try lia. by rewrite andb_true_r.
        - by rewrite andb_false_r, orb_false_r. }
      rewrite <- orb_assoc. f_equal. destruct (Z.eqb_spec i j) as [->|Hne].
      * destruct (Z.leb_spec (j + 1) j), (Z.leb_spec j j), (Z.ltb_spec j (j + Z.of_nat (S n)));
          try lia. cbn. by rewrite orb_false_r.
      * cbn [andb orb]. f_equal.
        destruct (Z.leb_spec (j + 1) i), (Z.leb_spec j i), (Z.ltb_spec i (j + 1 + Z.of_nat n)),
          (Z.ltb_spec i (j + Z.of_nat (S n))); try done; lia.
Qed.

(** ** Report sizes *)

Lemma report_size_loop_spec n i l ID t :
  0 <= i -> i + Z.of_nat n <= Z.of_nat (length l) -> 0 <= t < 3 ->
  Forall wf_sizeinfo l ->
  (exists j info bits, i <= j < i + Z.of_nat n /\ arr_get l j = Some info /\
     Size_ReportID info = ID /\ arr_get (ReportSizeBits info) t = Some bits /\
     0 <= bits < 65536 /\
     (forall j' info', i <= j' < j -> arr_get l j' = Some info' -> Size_ReportID info' <> ID) /\
     report_size_loop n i l ID t = Some (u16 (bits / 8 + (if truthy (bits mod 8) then 1 else 0)))) \/
  ((forall j info, i <= j < i + Z.of_nat n -> arr_get l j = Some info -> Size_ReportID info <> ID) /\
   report_size_loop n i l ID t = Some 0).
Proof.
  revert i. induction n as [|n IH]; intros i Hi Hn Ht HF; cbn [report_size_loop].
  { right. split; [intros; lia|done]. }
  destruct (arr_get_is_Some l i) as [info Hg]; [lia|]. rewrite Hg. cbn [mbind option_bind].
  pose proof (arr_get_Forall _ _ _ _ Hg HF) as [Hlen Hbits].
  destruct (arr_get_is_Some (ReportSizeBits info) t) as [bits Hb]; [lia|]. rewrite Hb.
  cbn [mbind option_bind].
  destruct (Z.eqb_spec (Size_ReportID info) ID) as [E|E].
  - left. exists i, info, bits. split_and!; try done; try lia.
    + apply (arr_get_Forall _ _ _ _ Hb Hbits).
    + apply (arr_get_Forall _ _ _ _ Hb Hbits).
  - destruct (IH (i + 1)) as [(j & info' & b' & Hj & Hg' & E' & Hb' & Hr & Hfirst & Hs)|[Hnone Hs]];
      [lia|lia|done|done| |].
    + left. exists j, info', b'. split_and!; try done; try lia.
      intros j' i' Hj' Hgj'. destruct (decide (j' = i)) as [->|]; [congruence|].
      apply (Hfirst j'); [lia|done].
    + right. split; [|done]. intros j info' Hj Hg'. destruct (decide (j = i)) as [->|]; [congruence|].
      apply (Hnone j); [lia|done].
Qed.

Lemma bytes_cover_bits b : 0 <= b < 65536 ->
  b <= 8 * u16 (b / 8 + (if truthy (b mod 8) then 1 else 0)) < b + 8.
Proof.
  intros Hb. rewrite u16_small by (case_match; zdm).
  unfold truthy. destruct (Z.eqb_spec (b mod 8) 0); cbn [negb]; zdm.
Qed.

(** ** Theorems *)

(** The bytes of a report the items of report ID [ID] lie in: the ID comes
    first when there is one. *)
Definition payload (ID : Z) (ReportData : list Z) : list Z :=
  if truthy ID then drop 1 ReportData else ReportData.

(** Reading an item from a report long enough for it succeeds, keeps the
    old value as the previous one, and the new value is made of the item's
    bits of the report, lowest first; bits past the 32nd are dropped. *)
Theorem get_item_value (ReportData : list Z) (it : HID_ReportItem_t) :
  0 <= BitOffset it -> 0 <= BitSize (Attributes it) < 256 -> item_end it < 65536 ->
  (truthy (Item_ReportID it) = true -> arr_get ReportData 0 = Some (Item_ReportID it)) ->
  item_end it <= 8 * Z.of_nat (length (payload (Item_ReportID it) ReportData)) ->
  exists v,
    USB_GetHIDReportItemInfo ReportData (Some it) = Some (true, Some (set_Value (Value it) v it)) /\
    forall i, 0 <= i -> Z.testbit v i =
      (i <? BitSize (Attributes it)) && (i <? 32)
      && report_bit (payload (Item_ReportID it) ReportData) (BitOffset it + i).
Proof.
  unfold item_end. intros Ho Hs He Hid Hl.
  destruct (get_loop_spec (Z.to_nat (BitSize (Attributes it)))
    (payload (Item_ReportID it) ReportData) (BitOffset it) 0 0) as (v & Hv & Hspec); [lia..|].
  rewrite Z.add_0_r in Hv. change (u32 (2 ^ 0)) with 1 in Hv. exists v. split.
  - unfold USB_GetHIDReportItemInfo, payload in *. destruct (truthy _) eqn:Et.
    + rewrite (Hid eq_refl). cbn [mbind option_bind]. rewrite Z.eqb_refl. cbn [negb].
      rewrite Hv. done.
    + rewrite Hv. done.
  - intros i Hi. rewrite (Hspec i Hi), Z.bits_0, Z.add_0_l, Z2Nat.id by lia. cbn [orb].
    destruct (Z.leb_spec 0 i); [done|lia].
Qed.

(** A report that does not carry the item's ID is rejected and the item is
    left as it was. *)
Theorem get_item_wrong_report (ReportData : list Z) (it : HID_ReportItem_t) (id : Z) :
  Item_ReportID it <> 0 -> arr_get ReportData 0 = Some id -> id <> Item_ReportID it ->
  USB_GetHIDReportItemInfo ReportData (Some it) = Some (false, Some it).
Proof.
  intros H0 Hg Hne. unfold USB_GetHIDReportItemInfo, truthy.
  apply Z.eqb_neq in H0. rewrite H0. cbn [negb]. rewrite Hg. cbn [mbind option_bind].
  rewrite Z.eqb_sym. apply Z.eqb_neq in Hne. by rewrite Hne.
Qed.

(** For every item of a parsed descriptor, the size [USB_GetHIDReportSize]
    gives for the item's report and direction is the size of a report the item
    fits in, and not a byte more than the report's bits need. *)
Theorem report_size_covers (Env : HIDParserEnv) (its : list item) (tail : list Z)
    (pd : HID_ReportInfo_t) (k : Z) (it : HID_ReportItem_t) :
  parses_to its tail pd -> stored pd k it -> Item_ReportID it <> 0 ->
  exists i bits n, labelled pd i (Item_ReportID it) /\ bits_of pd i (ItemType it) bits /\
    USB_GetHIDReportSize pd (Item_ReportID it) (ItemType it) = Some n /\
    item_end it <= 8 * n < bits + 8.
Proof.
  intros Hp Hk Hid. destruct (parses_to_laid _ _ _ Hp) as (B & sz & cnt & st & Hlaid & ->).
  destruct (laid_layout _ _ _ _ Hlaid) as (s & _ & _ & _ & Hlay & _).
  pose proof (laid_wf _ _ _ _ Hlaid) as Hw.
  destruct (lay_item _ _ _ _ Hlay _ _ Hk) as (Ht & _).
  destruct (lay_known _ _ _ _ Hlay _ _ Hk) as [?|[i Hi]]; [done|].
  destruct Hi as (Hlt & info & Hg & El). pose proof (arr_get_lt _ _ _ Hg).
  destruct (report_size_loop_spec 10 0 (ReportIDSizes (ParserData st)) (Item_ReportID it)
    (ItemType it)) as [(j & info' & bits & Hj & Hg' & E' & Hb & Hr & Hfirst & Hs)|[Hnone _]].
  all: try lia.
  - rewrite wf_reports_length by done. lia.
  - by apply wf_reports.
  - assert (j <= i) by (destruct (decide (j <= i)); [done|exfalso; apply (Hfirst i info); [lia|done|done]]).
    assert (labelled (ParserData st) j (Item_ReportID it)) as Hlab by (split; [lia|eauto]).
    assert (bits_of (ParserData st) j (ItemType it) bits) as Hbo by (split; [lia|eauto]).
    pose proof (lay_end _ _ _ _ Hlay _ _ _ _ Hk Hlab Hbo). pose proof (bytes_cover_bits bits Hr).
    eexists j, bits, _. split_and!; [done|done|exact Hs|lia|lia].
  - exfalso. rewrite wf_reports_length in * by done. apply (Hnone i info); [lia|done|done].
Qed.


(** Writing an item that starts on a byte boundary and fits that byte, into
    a report whose bits for it are clear, and reading it back gives the item's
    value, cut to its size. *)
Theorem set_get_aligned (data : list Z) (it : HID_ReportItem_t) (byte : Z) :
  0 <= BitOffset it -> BitOffset it mod 8 = 0 -> BitOffset it + 8 < 65536 ->
  0 <= BitSize (Attributes it) <= 8 -> Item_ReportID it = 0 -> 0 <= Value it ->
  arr_get data (BitOffset it / 8) = Some byte -> 0 <= byte < 256 ->
  wrap (BitSize (Attributes it)) byte = 0 ->
  exists data' it',
    USB_SetHIDReportItemInfo data (Some it) = Some (data', Some it') /\
    USB_GetHIDReportItemInfo data' (Some it') =
      Some (true, Some (set_Value (Value it) (wrap (BitSize (Attributes it)) (Value it)) it)).
Proof.
  intros Ho Ha Hw Hs Hid Hv Hg Hb Hclr.
  destruct (set_loop_aligned (Z.to_nat (BitSize (Attributes it))) data (BitOffset it) 0 (Value it) byte)
    as (b' & d' & Hd & Hb' & -> & Hspec); try done; [lia..|].
  rewrite Z.add_0_r in Hd. change (u32 (2 ^ 0)) with 1 in Hd.
  apply arr_get_lt in Hg as Hlt. set (d' := <[_ := b']> data) in *.
  assert (arr_get d' (BitOffset it / 8) = Some b') as Hg'.
  { apply arr_get_Some. split; [lia|]. apply list_lookup_insert_eq. lia. }
  exists d', (set_Value (Value it) (Value it) it). unfold USB_SetHIDReportItemInfo.
  rewrite Hid. cbn [truthy]. change (truthy 0) with false. cbn match. rewrite Hd. split; [done|].
  destruct (get_loop_spec (Z.to_nat (BitSize (Attributes it))) d' (BitOffset it) 0 0)
    as (v & Hv' & Hvs); [lia|lia|lia|subst d'; rewrite length_insert; zdm|].
  rewrite Z.add_0_r in Hv'. change (u32 (2 ^ 0)) with 1 in Hv'.
  unfold USB_GetHIDReportItemInfo. cbn [Item_ReportID set_Value Attributes BitOffset].
  rewrite Hid. change (truthy 0) with false. cbn match. rewrite Hv'. cbn [mbind option_bind].
  do 3 f_equal. unfold set_Value; cbn. f_equal.
  apply Z.bits_inj'. intros i Hi. rewrite (Hvs i Hi), Z.bits_0, testbit_wrap by lia. cbn [orb].
  rewrite Z2Nat.id by lia. destruct (Z.leb_spec 0 i); [|lia]. cbn [andb].
  rewrite Z.add_0_l. destruct (Z.ltb_spec i (BitSize (Attributes it))); [|done].
  destruct (Z.ltb_spec i 32); [|lia]. cbn [andb]. unfold report_bit.
  replace ((BitOffset it + i) / 8) with (BitOffset it / 8) by zdm.
  replace ((BitOffset it + i) mod 8) with i by zdm. rewrite Hg', Hspec by lia.
  assert (Z.testbit byte i = false) as ->.
  { assert (Z.testbit (wrap (BitSize (Attributes it)) byte) i = false) as Hz
      by (by rewrite Hclr, Z.bits_0). rewrite testbit_wrap in Hz by lia.
    destruct (Z.ltb_spec i (BitSize (Attributes it))); [done|lia]. }
  cbn [orb]. destruct (Z.leb_spec 0 i); [|lia]. rewrite Z2Nat.id by lia.
  by destruct (Z.ltb_spec i (0 + BitSize (Attributes it))); [|lia].
Qed.

(** Off a byte boundary the writer tests the wrong bit of the value: a
    one-bit item set to 1 leaves the report as it was, and is read back as 0. *)
Theorem set_unaligned_lost (data : list Z) (it : HID_ReportItem_t) :
  0 <= BitOffset it < 65535 -> BitOffset it mod 8 <> 0 -> BitSize (Attributes it) = 1 ->
  Item_ReportID it = 0 -> Value it = 1 ->
  USB_SetHIDReportItemInfo data (Some it) = Some (data, Some (set_Value 1 1 it)).
Proof.
  intros Ho Ha Hs Hid Hv. unfold USB_SetHIDReportItemInfo. rewrite Hid, Hs, Hv.
  change (truthy 0) with false. cbn match. change (Z.to_nat 1) with 1%nat. cbn [set_loop].
  rewrite truthy_land_bit by zdm.
  assert (Z.testbit 1 (BitOffset it mod 8) = false) as ->.
  { apply Z.bits_above_log2; [lia|]. change (Z.log2 1) with 0. zdm. }
  done.
Qed.

Definition witness_item : HID_ReportItem_t :=
  default zero_item (arr_get (ReportItems witness_info) 1).

Lemma get_item_value_witness :
  exists v, USB_GetHIDReportItemInfo [1; 6] (Some witness_item)
    = Some (true, Some (set_Value (Value witness_item) v witness_item)) /\ Z.testbit v 0 = true.
Proof.
  destruct (get_item_value [1; 6] witness_item) as (v & Hv & Hb).
  - vm_compute. congruence.
  - vm_compute. split; congruence.
  - vm_compute. reflexivity.
  - intros _. vm_compute. reflexivity.
  - vm_compute. congruence.
  - exists v. split; [exact Hv|]. rewrite (Hb 0) by lia. vm_compute. reflexivity.
Defined.

Lemma get_item_wrong_report_witness :
  USB_GetHIDReportItemInfo [2; 6] (Some witness_item) = Some (false, Some witness_item).
Proof.
  apply (get_item_wrong_report [2; 6] witness_item 2); vm_compute; congruence.
Defined.

Lemma report_size_covers_witness :
  exists i bits n, labelled witness_info i 1 /\ bits_of witness_info i 0 bits /\
    USB_GetHIDReportSize witness_info 1 0 = Some n /\ 2 <= 8 * n < bits + 8.
Proof.
  apply (report_size_covers (accept_all 7 zero_state) two_report_items [] witness_info 1 witness_item).
  - apply witness_parses.
  - split; vm_compute; reflexivity.
  - vm_compute. congruence.
Defined.


(** An eight-bit item in the second byte, and a one-bit one in the fourth bit. *)
Definition byte_item : HID_ReportItem_t :=
  {| BitOffset := 8; ItemType := 1; ItemFlags := 2; Item_ReportID := 0; CollectionPath := None;
     Attributes := set_BitSize 8 zero_attributes; Value := 0xA5; PreviousValue := 0 |}.
Definition bit_item : HID_ReportItem_t :=
  {| BitOffset := 3; ItemType := 1; ItemFlags := 2; Item_ReportID := 0; CollectionPath := None;
     Attributes := set_BitSize 1 zero_attributes; Value := 1; PreviousValue := 0 |}.

Lemma set_get_aligned_witness :
  exists data' it', USB_SetHIDReportItemInfo [1; 0; 3] (Some byte_item) = Some (data', Some it') /\
    USB_GetHIDReportItemInfo data' (Some it') = Some (true, Some (set_Value 0xA5 0xA5 byte_item)).
Proof.
  apply (set_get_aligned [1; 0; 3] byte_item 0); vm_compute; try split; congruence.
Defined.

Lemma set_unaligned_lost_witness :
  USB_SetHIDReportItemInfo [0; 0] (Some bit_item) = Some ([0; 0], Some (set_Value 1 1 bit_item)).
Proof.
  apply (set_unaligned_lost [0; 0] bit_item); vm_compute; try split; congruence.
Defined.

(** ** The standard keyboard and mouse reports *)

(** Direction, offset, size, usage page and usage of the stored items. *)
Definition item_layout (it : HID_ReportItem_t) : Z * Z * Z * Z * Z :=
  (ItemType it, BitOffset it, BitSize (Attributes it),
   Usage_Page (Attr_Usage (Attributes it)), Usage_Usage (Attr_Usage (Attributes it))).

Definition stored_layout (pd : HID_ReportInfo_t) : list (Z * Z * Z * Z * Z) :=
  item_layout <$> take (Z.to_nat (TotalReportItems pd)) (ReportItems pd).

Definition parse_items (junk : Z) (junk_state : HID_StateTable_t) (its : list item)
    : option (Z * HID_ReportInfo_t) :=
  @USB_ProcessHIDReport (accept_all junk junk_state) (encode_items its)
    (Z.of_nat (length (encode_items its))).

(** The keyboard report descriptor describes [USB_KeyboardReport_Data_t]:
    eight modifier bits (usages E0 to E7), a byte left out, six key code bytes,
    an eight byte IN report, and a one byte OUT report with the five LED bits. *)
Theorem keyboard_report_layout (junk : Z) (junk_state : HID_StateTable_t) :
  exists pd,
    parse_items junk junk_state (HID_DESCRIPTOR_KEYBOARD 6) = Some (HID_PARSE_Successful, pd) /\
    stored_layout pd =
      ((fun i => (0, i, 1, 7, 0xE0 + i)) <$> seqZ 0 8) ++
      ((fun i => (1, i, 1, 8, 1 + i)) <$> seqZ 0 5) ++
      ((fun i => (0, 16 + 8 * i, 8, 7, i)) <$> seqZ 0 6) /\
    USB_GetHIDReportSize pd 0 HID_REPORT_ITEM_In = Some 8 /\
    USB_GetHIDReportSize pd 0 HID_REPORT_ITEM_Out = Some 1.
Proof.
  destruct (parse_items junk junk_state (HID_DESCRIPTOR_KEYBOARD 6)) as [[c pd]|] eqn:E;
    vm_compute in E; [|done].
  injection E as <- <-. eexists. split; [reflexivity|]. vm_compute. auto.
Qed.

(** With the default [HID_MAX_REPORTITEMS] the parser takes the standard
    keyboard descriptor for up to seven keys, and answers "insufficient report
    items" for any more. *)
Theorem keyboard_keys_limit (junk : Z) (junk_state : HID_StateTable_t) (MaxKeys : Z) :
  1 <= MaxKeys <= 255 ->
  fst <$> parse_items junk junk_state (HID_DESCRIPTOR_KEYBOARD MaxKeys) =
  Some (if MaxKeys <=? 7 then HID_PARSE_Successful else HID_PARSE_InsufficientReportItems).
Proof.
  intros Hk.
  apply (fmap_eq_elem (fun k => fst <$> parse_items junk junk_state (HID_DESCRIPTOR_KEYBOARD k))
    (fun k => Some (if k <=? 7 then HID_PARSE_Successful else HID_PARSE_InsufficientReportItems))
    (seqZ 1 255)); [vm_compute; reflexivity|]. apply elem_of_seqZ. lia.
Qed.

Lemma keyboard_keys_limit_witness :
  fst <$> parse_items 7 zero_state (HID_DESCRIPTOR_KEYBOARD 8) = Some HID_PARSE_InsufficientReportItems.
Proof. apply (keyboard_keys_limit 7 zero_state 8). lia. Defined.

(** The mouse report descriptor with one-byte axes and one to seven buttons
    describes [USB_MouseReport_Data_t]: the buttons from bit 0 on, X in the
    second byte and Y in the third, three bytes in all. *)
Theorem mouse_report_layout (junk : Z) (junk_state : HID_StateTable_t) (Buttons : Z) :
  1 <= Buttons <= 7 ->
  exists pd,
    parse_items junk junk_state (HID_DESCRIPTOR_MOUSE (-1) 1 (-1) 1 Buttons false)
      = Some (HID_PARSE_Successful, pd) /\
    stored_layout pd = ((fun i => (0, i, 1, 9, 1 + i)) <$> seqZ 0 Buttons) ++
      [(0, 8, 8, 1, 0x30); (0, 16, 8, 1, 0x31)] /\
    USB_GetHIDReportSize pd 0 HID_REPORT_ITEM_In = Some 3.
Proof.
  intros Hb. assert (Buttons = 1 \/ Buttons = 2 \/ Buttons = 3 \/ Buttons = 4 \/ Buttons = 5 \/
    Buttons = 6 \/ Buttons = 7) as Hin by lia.
  destruct_or! Hin; subst Buttons.
  all: destruct (parse_items _ _ _) as [[c pd]|] eqn:E; vm_compute in E; [|done].
  all: injection E as <- <-; eexists; split; [reflexivity|]; vm_compute; auto.
Qed.

Lemma mouse_report_layout_witness :
  exists pd,
    parse_items 7 zero_state (HID_DESCRIPTOR_MOUSE (-1) 1 (-1) 1 3 false)
      = Some (HID_PARSE_Successful, pd) /\
    stored_layout pd = ((fun i => (0, i, 1, 9, 1 + i)) <$> seqZ 0 3) ++
      [(0, 8, 8, 1, 0x30); (0, 16, 8, 1, 0x31)] /\
    USB_GetHIDReportSize pd 0 HID_REPORT_ITEM_In = Some 3.
Proof. apply (mouse_report_layout 7 zero_state 3). lia. Defined.
