(* ===== verification/ConfigDescriptors.v ===== *)
(** * Searching a configuration descriptor

    [LUFA/Drivers/USB/Core/ConfigDescriptors.c] and the inline
    [USB_GetNextDescriptor] of its header: a host reads the configuration
    descriptor of an attached device into a buffer and walks over the
    sub-descriptors in it, each of which starts with its size and its type.

    The buffer is a list of bytes, a location in it an index, and the pair the
    code keeps ([BytesRem], [CurrConfigLoc]) the [cursor] below.  The loops take
    fuel.  The specifications are on descriptor lists ([at_chain]): a buffer
    that holds well-formed descriptors from the cursor on. *)
From S2P Require Import Prelude.

(** ** Constants *)

Definition DTYPE_Device := 1.
Definition DTYPE_Configuration := 2.
Definition DTYPE_String := 3.
Definition DTYPE_Interface := 4.
Definition DTYPE_Endpoint := 5.

Definition DESCRIPTOR_SEARCH_Found := 0.
Definition DESCRIPTOR_SEARCH_Fail := 1.
Definition DESCRIPTOR_SEARCH_NotFound := 2.
Definition DESCRIPTOR_SEARCH_COMP_Found := 0.
Definition DESCRIPTOR_SEARCH_COMP_Fail := 1.
Definition DESCRIPTOR_SEARCH_COMP_EndOfDescriptor := 2.

Definition HOST_GETCONFIG_Successful := 0.
Definition HOST_GETCONFIG_BuffOverflow := 5.
Definition HOST_GETCONFIG_InvalidData := 6.
Definition HOST_SENDCONTROL_Successful := 0.

Definition REQDIR_HOSTTODEVICE := 0.
Definition REQDIR_DEVICETOHOST := 128.
Definition REQTYPE_STANDARD := 0.
Definition REQTYPE_CLASS := 32.
Definition REQTYPE_VENDOR := 64.
Definition REQREC_DEVICE := 0.
Definition REQREC_INTERFACE := 1.
Definition REQREC_ENDPOINT := 2.

Definition REQ_GetStatus := 0.
Definition REQ_ClearFeature := 1.
Definition REQ_SetFeature := 3.
Definition REQ_SetAddress := 5.
Definition REQ_GetDescriptor := 6.
Definition REQ_SetDescriptor := 7.
Definition REQ_GetConfiguration := 8.
Definition REQ_SetConfiguration := 9.

(** [USB_Request_Header_t] of [StdRequestType.h]. *)
Record USB_Request_Header_t := mk_request {
    bmRequestType : Z;
    bRequest : Z;
    wValue : Z;
    wIndex : Z;
    wLength : Z
  }.

#[export] Instance request_eq_dec : EqDecision USB_Request_Header_t.
Proof. solve_decision. Defined.

(** ** Reading the configuration descriptor *)

(** What the host side of a control transfer ([USB_Host_SendControlRequest])
    is to its callers: the request is sent, the data stage fills the buffer. *)
Class HostControl (W : Type) := {
    USB_Host_SendControlRequest :
      USB_Request_Header_t -> list Z -> W -> Z * list Z * W
  }.

Definition sizeof_Configuration_Header := 9.

(** A little-endian 16-bit field at byte [i] of a buffer. *)
Definition get_u16 (buf : list Z) (i : Z) : option Z :=
  lo ← arr_get buf i; hi ← arr_get buf (i + 1); Some (lo + 256 * hi).

(** [DESCRIPTOR_TYPE(p)] *)
Definition DESCRIPTOR_TYPE (mem : list Z) (p : Z) : option Z := arr_get mem (p + 1).
(** [DESCRIPTOR_SIZE(p)] *)
Definition DESCRIPTOR_SIZE (mem : list Z) (p : Z) : option Z := arr_get mem p.

Section get_config.
Context {W : Type} `{!HostControl W}.

(** The contents of the uninitialised [ConfigHeader] array. *)
Context (ConfigHeader0 : list Z).

(** Result: the error code, [*ConfigSizePtr], the buffer, [USB_ControlRequest]. *)
Definition USB_Host_GetDeviceConfigDescriptor (ConfigNumber ConfigSize : Z)
    (Buffer : list Z) (BufferSize : Z) (w : W)
    : outcome (Z * Z * list Z * USB_Request_Header_t * W) :=
  let req := mk_request (Z.lor (Z.lor REQDIR_DEVICETOHOST REQTYPE_STANDARD) REQREC_DEVICE)
               REQ_GetDescriptor
               (u16 (Z.lor (Z.shiftl DTYPE_Configuration 8) (ConfigNumber - 1)))
               0 sizeof_Configuration_Header in
  let '(ErrorCode, ConfigHeader, w) := USB_Host_SendControlRequest req ConfigHeader0 w in
  if negb (ErrorCode =? HOST_SENDCONTROL_Successful)
  then Returns (ErrorCode, ConfigSize, Buffer, req, w) else
  ConfigSize ← access (get_u16 ConfigHeader 2);
  if BufferSize <? ConfigSize
  then Returns (HOST_GETCONFIG_BuffOverflow, ConfigSize, Buffer, req, w) else
  let req := mk_request (bmRequestType req) (bRequest req) (wValue req) (wIndex req)
               ConfigSize in
  let '(ErrorCode, Buffer, w) := USB_Host_SendControlRequest req Buffer w in
  if negb (ErrorCode =? HOST_SENDCONTROL_Successful)
  then Returns (ErrorCode, ConfigSize, Buffer, req, w) else
  type ← access (DESCRIPTOR_TYPE Buffer 0);
  if negb (type =? DTYPE_Configuration)
  then Returns (HOST_GETCONFIG_InvalidData, ConfigSize, Buffer, req, w) else
  Returns (HOST_GETCONFIG_Successful, ConfigSize, Buffer, req, w).
End get_config.

(** ** Walking over the descriptors *)

Record cursor := mk_cursor { BytesRem : Z; CurrConfigLoc : Z }.

Section walk.
Context (mem : list Z).

Definition USB_GetNextDescriptor (c : cursor) : option cursor :=
  CurrDescriptorSize ← DESCRIPTOR_SIZE mem (CurrConfigLoc c);
  let CurrDescriptorSize :=
    if BytesRem c <? CurrDescriptorSize then BytesRem c else CurrDescriptorSize in
  Some (mk_cursor (u16 (BytesRem c - CurrDescriptorSize))
                  (CurrConfigLoc c + CurrDescriptorSize)).

Fixpoint USB_GetNextDescriptorOfType (fuel : nat) (Type_ : Z) (c : cursor) : outcome cursor :=
  match fuel with
  | O => Loops
  | S fuel =>
      if negb (truthy (BytesRem c)) then Returns c else
      c ← access (USB_GetNextDescriptor c);
      type ← access (DESCRIPTOR_TYPE mem (CurrConfigLoc c));
      if type =? Type_ then Returns c
      else USB_GetNextDescriptorOfType fuel Type_ c
  end.

Fixpoint USB_GetNextDescriptorOfTypeBefore (fuel : nat) (Type_ BeforeType : Z) (c : cursor)
    : outcome cursor :=
  match fuel with
  | O => Loops
  | S fuel =>
      if negb (truthy (BytesRem c)) then Returns c else
      c ← access (USB_GetNextDescriptor c);
      type ← access (DESCRIPTOR_TYPE mem (CurrConfigLoc c));
      if type =? Type_ then Returns c
      else if type =? BeforeType then Returns (mk_cursor 0 (CurrConfigLoc c))
      else USB_GetNextDescriptorOfTypeBefore fuel Type_ BeforeType c
  end.

Definition USB_GetNextDescriptorOfTypeAfter (fuel : nat) (Type_ AfterType : Z) (c : cursor)
    : outcome cursor :=
  c ← USB_GetNextDescriptorOfType fuel AfterType c;
  if truthy (BytesRem c) then USB_GetNextDescriptorOfType fuel Type_ c else Returns c.

(** A comparator reads the descriptor at a location. *)
Fixpoint USB_GetNextDescriptorComp (fuel : nat) (ComparatorRoutine : list Z -> Z -> option Z)
    (c : cursor) : outcome (Z * cursor) :=
  match fuel with
  | O => Loops
  | S fuel =>
      if negb (truthy (BytesRem c)) then Returns (DESCRIPTOR_SEARCH_COMP_EndOfDescriptor, c) else
      let prev := c in
      c ← access (USB_GetNextDescriptor c);
      ErrorCode ← access (ComparatorRoutine mem (CurrConfigLoc c));
      if negb (ErrorCode =? DESCRIPTOR_SEARCH_NotFound)
      then if ErrorCode =? DESCRIPTOR_SEARCH_Fail then Returns (ErrorCode, prev)
           else Returns (ErrorCode, c)
      else USB_GetNextDescriptorComp fuel ComparatorRoutine c
  end.
End walk.

(** ** Buffers that hold well-formed descriptors *)

(** A descriptor: its first byte is its size, its second its type. *)
Definition wf_desc (d : list Z) : Prop :=
  (2 <= length d <= 255)%nat /\ d !! 0%nat = Some (Z.of_nat (length d)).

#[export] Instance wf_desc_dec d : Decision (wf_desc d).
Proof. unfold wf_desc. apply _. Defined.

Definition type_of (d : list Z) : Z := default 0 (d !! 1%nat).

Definition total (ds : list (list Z)) : Z := Z.of_nat (length (concat ds)).

(** From location [p] on, [mem] holds the descriptors [ds] and two more bytes. *)
Definition at_chain (mem : list Z) (p : Z) (ds : list (list Z)) : Prop :=
  exists pre post, mem = pre ++ concat ds ++ post /\ p = Z.of_nat (length pre) /\
    (2 <= length post)%nat /\ Forall wf_desc ds.

(** The cursor at the first descriptor of [ds]; the list
    ends at location [fin]. *)
Definition cursor_at (fin : Z) (ds : list (list Z)) : cursor :=
  mk_cursor (total ds) (fin - total ds).

Fixpoint drop_until (P : list Z -> bool) (ds : list (list Z)) : list (list Z) :=
  match ds with
  | [] => []
  | d :: ds' => if P d then ds else drop_until P ds'
  end.

Lemma total_cons d ds : total (d :: ds) = Z.of_nat (length d) + total ds.
Proof. unfold total. cbn. rewrite length_app. lia. Qed.

Lemma total_nonneg ds : 0 <= total ds.
Proof. unfold total. lia. Qed.

Lemma total_zero ds : Forall wf_desc ds -> total ds = 0 -> ds = [].
Proof. destruct ds as [|d ds]; [done|]. intros [[] _]%Forall_cons. rewrite total_cons. pose proof (total_nonneg ds). lia. Qed.

Lemma at_chain_nonneg mem p ds : at_chain mem p ds -> 0 <= p.
Proof. intros (? & ? & _ & -> & _). lia. Qed.

Lemma at_chain_wf mem p ds : at_chain mem p ds -> Forall wf_desc ds.
Proof. by intros (? & ? & _ & _ & _ & ?). Qed.

Lemma at_chain_tail mem p d ds :
  at_chain mem p (d :: ds) -> at_chain mem (p + Z.of_nat (length d)) ds.
Proof.
  intros (pre & post & -> & -> & ? & [_ ?]%Forall_cons).
  exists (pre ++ d), post. rewrite length_app. cbn. rewrite <-!app_assoc. split_and!; auto. lia.
Qed.

Lemma at_chain_byte mem p d ds i :
  at_chain mem p (d :: ds) -> 0 <= i < Z.of_nat (length d) ->
  arr_get mem (p + i) = d !! Z.to_nat i.
Proof.
  intros (pre & post & -> & -> & _) ?. unfold arr_get.
  replace (0 <=? Z.of_nat (length pre) + i) with true by (symmetry; apply Z.leb_le; lia).
  rewrite lookup_app_r by lia. cbn. rewrite <-app_assoc, lookup_app_l by lia. f_equal. lia.
Qed.

Lemma at_chain_end mem p i :
  at_chain mem p [] -> 0 <= i < 2 -> is_Some (arr_get mem (p + i)).
Proof.
  intros (pre & post & -> & -> & ? & _) ?. apply arr_get_is_Some. cbn. rewrite length_app. lia.
Qed.

Lemma at_chain_size mem p d ds :
  at_chain mem p (d :: ds) -> DESCRIPTOR_SIZE mem p = Some (Z.of_nat (length d)).
Proof.
  intros H. pose proof (at_chain_wf _ _ _ H) as [[? Hd] _]%Forall_cons. unfold DESCRIPTOR_SIZE.
  rewrite <-(Z.add_0_r p). erewrite at_chain_byte by (eauto; lia). done.
Qed.

Lemma at_chain_type mem p d ds :
  at_chain mem p (d :: ds) -> DESCRIPTOR_TYPE mem p = Some (type_of d).
Proof.
  intros H. pose proof (at_chain_wf _ _ _ H) as [[? Hd] _]%Forall_cons. unfold DESCRIPTOR_TYPE.
  erewrite at_chain_byte by (eauto; lia). unfold type_of.
  destruct (d !! 1%nat) eqn:E; [done|]. apply lookup_ge_None in E. lia.
Qed.

Section chain.
Context (mem : list Z) (fin : Z).
(** [on ds]: the cursor is at the first of [ds], which end at [fin]. *)
Definition on (ds : list (list Z)) : Prop :=
  at_chain mem (fin - total ds) ds /\ total ds < 65536.

Lemma on_tail d ds : on (d :: ds) -> on ds.
Proof.
  intros [H ?]. split; [|rewrite total_cons in *; lia].
  apply at_chain_tail in H. revert H. rewrite total_cons.
  by replace (fin - (Z.of_nat (length d) + total ds) + Z.of_nat (length d)) with (fin - total ds) by lia.
Qed.

Lemma on_pos d ds : on (d :: ds) -> truthy (total (d :: ds)) = true.
Proof.
  intros [H%at_chain_wf _]. apply Forall_cons in H as [[? _] _]. pose proof (total_nonneg ds).
  rewrite total_cons. unfold truthy. apply negb_true_iff, Z.eqb_neq. lia.
Qed.

(** One step moves to the next descriptor of the list. *)
Lemma USB_GetNextDescriptor_on d ds :
  on (d :: ds) -> USB_GetNextDescriptor mem (cursor_at fin (d :: ds)) = Some (cursor_at fin ds).
Proof.
  intros [H Ht]. unfold USB_GetNextDescriptor. cbn [cursor_at BytesRem CurrConfigLoc].
  rewrite (at_chain_size _ _ _ _ H). cbn. rewrite total_cons in *. pose proof (total_nonneg ds).
  case_match; bprop; [lia|]. rewrite u16_small by lia. unfold cursor_at. f_equal. f_equal; lia.
Qed.

Lemma type_on d ds : on (d :: ds) ->
  DESCRIPTOR_TYPE mem (CurrConfigLoc (cursor_at fin (d :: ds))) = Some (type_of d).
Proof. intros [H _]. exact (at_chain_type _ _ _ _ H). Qed.

Lemma type_on_end : on [] ->
  exists t, DESCRIPTOR_TYPE mem (CurrConfigLoc (cursor_at fin [])) = Some t.
Proof. intros [H _]. apply (at_chain_end _ _ 1 H). lia. Qed.

Lemma of_type_on t : forall ds d fuel, on (d :: ds) -> (length ds + 2 <= fuel)%nat ->
  USB_GetNextDescriptorOfType mem fuel t (cursor_at fin (d :: ds))
    = Returns (cursor_at fin (drop_until (fun d => type_of d =? t) ds)).
Proof.
  induction ds as [|d' ds IH]; intros d [|fuel] Hon Hf; cbn in Hf; try lia; cbn [USB_GetNextDescriptorOfType].
  all: change (BytesRem (cursor_at fin ?l)) with (total l); rewrite on_pos by done; cbn [negb].
  all: rewrite USB_GetNextDescriptor_on by done; cbn [access mbind outcome_bind].
  - destruct (type_on_end (on_tail _ _ Hon)) as [x ->]. cbn.
    case_match; [done|]. destruct fuel; [lia|done].
  - rewrite type_on by eauto using on_tail. cbn [access mbind outcome_bind drop_until].
    case_match; [done|]. apply IH; [by eapply on_tail|lia].
Qed.

Lemma of_type_before_on t b : forall ds d fuel, on (d :: ds) -> (length ds + 2 <= fuel)%nat ->
  USB_GetNextDescriptorOfTypeBefore mem fuel t b (cursor_at fin (d :: ds))
    = Returns (let rest := drop_until (fun d => (type_of d =? t) || (type_of d =? b)) ds in
               if match rest with [] => true | d :: _ => type_of d =? t end
               then cursor_at fin rest
               else mk_cursor 0 (CurrConfigLoc (cursor_at fin rest))).
Proof.
  induction ds as [|d' ds IH]; intros d [|fuel] Hon Hf; cbn in Hf; try lia; cbn [USB_GetNextDescriptorOfTypeBefore].
  all: change (BytesRem (cursor_at fin ?l)) with (total l); rewrite on_pos by done; cbn [negb].
  all: rewrite USB_GetNextDescriptor_on by done; cbn [access mbind outcome_bind].
  - destruct (type_on_end (on_tail _ _ Hon)) as [x ->]. cbn.
    case_match; [done|]. case_match; [done|]. destruct fuel; [lia|done].
  - rewrite type_on by eauto using on_tail. cbn [access mbind outcome_bind drop_until].
    destruct (type_of d' =? t) eqn:E; cbn [orb]; [by rewrite E|].
    destruct (type_of d' =? b) eqn:E'; [by rewrite E|].
    apply IH; [by eapply on_tail|lia].
Qed.

(** The descriptor search with a comparator, on lists: [prev] is the current
    descriptor, [f] the comparator as a function of a descriptor. *)
Fixpoint search_comp (f : list Z -> Z) (prev : list Z) (ds : list (list Z)) : Z * list (list Z) :=
  match ds with
  | [] => (DESCRIPTOR_SEARCH_COMP_EndOfDescriptor, [])
  | d :: ds' =>
      if f d =? DESCRIPTOR_SEARCH_NotFound then search_comp f d ds'
      else if f d =? DESCRIPTOR_SEARCH_Fail then (f d, prev :: ds)
      else (f d, ds)
  end.

(** The comparator [cmp] is [f] on the descriptors of the buffer, and finds
    nothing in the bytes after the last of them. *)
Definition implements (cmp : list Z -> Z -> option Z) (f : list Z -> Z) (ds : list (list Z)) : Prop :=
  (forall d p ds', at_chain mem p (d :: ds') -> d ∈ ds -> cmp mem p = Some (f d)) /\
  cmp mem fin = Some DESCRIPTOR_SEARCH_NotFound.

Lemma implements_tail cmp f d ds : implements cmp f (d :: ds) -> implements cmp f ds.
Proof. intros [H ?]. split; [|done]. intros. eapply H; eauto. by right. Qed.

Lemma comp_on cmp f : forall ds d fuel, on (d :: ds) -> implements cmp f ds ->
  (length ds + 2 <= fuel)%nat ->
  USB_GetNextDescriptorComp mem fuel cmp (cursor_at fin (d :: ds))
    = Returns (let '(code, rest) := search_comp f d ds in (code, cursor_at fin rest)).
Proof.
  induction ds as [|d' ds IH]; intros d [|fuel] Hon Hc Hf; cbn in Hf; try lia; cbn [USB_GetNextDescriptorComp].
  all: change (BytesRem (cursor_at fin ?l)) with (total l); rewrite on_pos by done; cbn [negb].
  all: rewrite USB_GetNextDescriptor_on by done; cbn [access mbind outcome_bind].
  - destruct Hc as [_ Hc]. change (CurrConfigLoc (cursor_at fin [])) with (fin - 0).
    rewrite Z.sub_0_r, Hc. cbn. destruct fuel; [lia|done].
  - pose proof (on_tail _ _ Hon) as [Hch _].
    change (CurrConfigLoc (cursor_at fin ?l)) with (fin - total l).
    rewrite (proj1 Hc _ _ _ Hch) by left. cbn [access mbind outcome_bind search_comp].
    destruct (f d' =? DESCRIPTOR_SEARCH_NotFound); cbn [negb].
    + apply IH; eauto using on_tail, implements_tail. lia.
    + by case_match.
Qed.

Lemma on_drop_until P ds : on ds -> on (drop_until P ds).
Proof. induction ds as [|d ds IH]; cbn; [done|]. case_match; eauto using on_tail. Qed.

Lemma drop_until_length P ds : (length (drop_until P ds) <= length ds)%nat.
Proof. induction ds; cbn; [lia|]. case_match; cbn; lia. Qed.
End chain.

(** ** Properties *)

Section fetch.
Context {W : Type} `{!HostControl W}.

(** When the configuration descriptor is fetched successfully its size is
    the one the device reported in the header, it fits the caller's buffer,
    what the buffer holds starts with a configuration descriptor, and the
    second request asks for exactly that many bytes of configuration
    [ConfigNumber - 1]. *)
Theorem get_config_success H0 n size0 buf bufsize w size buf' req w' :
  1 <= n <= 256 ->
  USB_Host_GetDeviceConfigDescriptor H0 n size0 buf bufsize w
    = Returns (HOST_GETCONFIG_Successful, size, buf', req, w') ->
  size <= bufsize /\
  DESCRIPTOR_TYPE buf' 0 = Some DTYPE_Configuration /\
  req = mk_request 128 REQ_GetDescriptor (512 + (n - 1)) 0 size /\
  exists hdr w1,
    USB_Host_SendControlRequest (mk_request 128 REQ_GetDescriptor (512 + (n - 1)) 0 9) H0 w
      = (HOST_SENDCONTROL_Successful, hdr, w1) /\
    get_u16 hdr 2 = Some size /\
    USB_Host_SendControlRequest req buf w1 = (HOST_SENDCONTROL_Successful, buf', w').
Proof.
  intros Hn. unfold USB_Host_GetDeviceConfigDescriptor.
  replace (u16 _) with (512 + (n - 1)).
  2: { assert (Forall (fun i => 512 + i = u16 (Z.lor (Z.shiftl DTYPE_Configuration 8) i)) (seqZ 0 256))
         as HF by (by apply (bool_decide_eq_true_1 _); vm_compute).
       rewrite Forall_forall in HF. apply HF, elem_of_seqZ. lia. }
  change (Z.lor (Z.lor REQDIR_DEVICETOHOST REQTYPE_STANDARD) REQREC_DEVICE) with 128.
  destruct (USB_Host_SendControlRequest _ H0 w) as [[e hdr] w1] eqn:E1. cbn zeta.
  destruct (e =? HOST_SENDCONTROL_Successful) eqn:He; cbn [negb].
  2: { intros [= Ee]. bprop. by rewrite Ee in He. }
  destruct (get_u16 hdr 2) as [sz|] eqn:Esz; cbn; [|done].
  destruct (bufsize <? sz) eqn:Hsz; [done|].
  destruct (USB_Host_SendControlRequest _ buf w1) as [[e2 b2] w2] eqn:E2.
  destruct (e2 =? HOST_SENDCONTROL_Successful) eqn:He2; cbn [negb].
  2: { intros [= Ee]. bprop. by rewrite Ee in He2. }
  destruct (DESCRIPTOR_TYPE b2 0) as [t|] eqn:Et; cbn; [|done].
  destruct (t =? DTYPE_Configuration) eqn:Ht; cbn; [|done].
  intros [= <- <- <- <-]. bprop. subst. split_and!; auto.
  exists hdr, w1. split_and!; auto.
Qed.
End fetch.

(** On a buffer of well-formed descriptors the search for a type visits the
    descriptors after the current one in order and stops at the first of that
    type, or at the end with no bytes remaining; it terminates within two steps
    more than there are descriptors. *)
Theorem next_of_type_spec mem fin t d ds fuel :
  on mem fin (d :: ds) -> (length ds + 2 <= fuel)%nat ->
  USB_GetNextDescriptorOfType mem fuel t (cursor_at fin (d :: ds))
    = Returns (cursor_at fin (drop_until (fun d => type_of d =? t) ds)).
Proof. apply of_type_on. Qed.

(** The search for a descriptor of one type before one of another type stops
    at the first descriptor of either type, and reports it (a non-zero number of
    bytes remaining) only when it is of the wanted type. *)
Theorem next_of_type_before_spec mem fin t b d ds fuel :
  on mem fin (d :: ds) -> (length ds + 2 <= fuel)%nat ->
  exists c, USB_GetNextDescriptorOfTypeBefore mem fuel t b (cursor_at fin (d :: ds)) = Returns c /\
    let rest := drop_until (fun d => (type_of d =? t) || (type_of d =? b)) ds in
    CurrConfigLoc c = fin - total rest /\
    (BytesRem c <> 0 <-> exists d' ds', rest = d' :: ds' /\ type_of d' = t) /\
    (BytesRem c <> 0 -> BytesRem c = total rest).
Proof.
  intros Hon Hf. eexists. split; [by apply of_type_before_on|]. cbv zeta.
  assert (Hr : on mem fin (drop_until (fun d => (type_of d =? t) || (type_of d =? b)) ds))
    by eauto using on_drop_until, on_tail.
  destruct (drop_until _ ds) as [|d' ds'].
  - cbn. split_and!; [done| |done]. split; [done|]. by intros (?&?&?&?).
  - pose proof (on_pos _ _ _ _ Hr) as Hp. destruct (type_of d' =? t) eqn:E; cbn [BytesRem CurrConfigLoc cursor_at].
    + bprop. split_and!; [done| |done]. split; [by eauto|done].
    + bprop. split_and!; [done| |lia]. split; [lia|]. intros (?&?&[= -> ->]&?). lia.
Qed.

(** The search for a type after another type is the composition of the two
    searches on the descriptor list. *)
Theorem next_of_type_after_spec mem fin t a d ds fuel :
  on mem fin (d :: ds) -> (length ds + 2 <= fuel)%nat ->
  USB_GetNextDescriptorOfTypeAfter mem fuel t a (cursor_at fin (d :: ds))
    = Returns (cursor_at fin (drop_until (fun d => type_of d =? t)
                 (drop 1 (drop_until (fun d => type_of d =? a) ds)))).
Proof.
  intros Hon Hf. unfold USB_GetNextDescriptorOfTypeAfter. rewrite of_type_on by done. cbn [mbind outcome_bind].
  assert (Hr : on mem fin (drop_until (fun d => type_of d =? a) ds)) by eauto using on_drop_until, on_tail.
  pose proof (drop_until_length (fun d => type_of d =? a) ds) as Hl.
  destruct (drop_until _ ds) as [|d' ds']; [done|].
  change (BytesRem (cursor_at fin ?l)) with (total l). rewrite (on_pos _ _ _ _ Hr).
  cbn in Hl. rewrite of_type_on; [done|done|lia].
Qed.

(** A descriptor of size zero stops the walk for ever: at such a descriptor,
    of another type than the one searched for, the search does not terminate,
    whatever the number of bytes remaining. *)
Theorem zero_size_diverges mem t n p x fuel :
  0 < n < 65536 -> DESCRIPTOR_SIZE mem p = Some 0 -> DESCRIPTOR_TYPE mem p = Some x -> x <> t ->
  USB_GetNextDescriptorOfType mem fuel t (mk_cursor n p) = Loops.
Proof.
  intros Hn Hs Ht Hx. induction fuel as [|fuel IH]; [done|]. cbn [USB_GetNextDescriptorOfType BytesRem].
  replace (truthy n) with true by (symmetry; apply negb_true_iff, Z.eqb_neq; lia). cbn [negb].
  unfold USB_GetNextDescriptor. cbn [BytesRem CurrConfigLoc]. rewrite Hs. cbn.
  replace (n <? 0) with false by (symmetry; apply Z.ltb_ge; lia). cbn.
  rewrite Z.add_0_r, Z.sub_0_r, u16_small by lia. rewrite Ht. cbn.
  replace (x =? t) with false by (symmetry; apply Z.eqb_neq; lia). done.
Qed.

(** ** Witnesses *)

(** A configuration descriptor with an interface and an endpoint. *)
Definition sample_descs : list (list Z) :=
  [[9; 2; 25; 0; 1; 1; 0; 192; 50]; [9; 4; 0; 0; 1; 3; 1; 1; 0]; [7; 5; 129; 3; 8; 0; 1]].
Definition sample_mem : list Z := concat sample_descs ++ [0; 0].

Lemma sample_on : on sample_mem 25 sample_descs.
Proof.
  split; [|done]. exists [], [0; 0]. split_and!; [done|done|cbn; lia|].
  apply (bool_decide_eq_true_1 _). by vm_compute.
Qed.

Lemma next_of_type_spec_witness :
  USB_GetNextDescriptorOfType sample_mem 4 DTYPE_Endpoint (mk_cursor 25 0) = Returns (mk_cursor 7 18).
Proof.
  refine (next_of_type_spec sample_mem 25 DTYPE_Endpoint _ _ 4 sample_on _). cbn. lia.
Defined.

Lemma next_of_type_before_spec_witness :
  exists c, USB_GetNextDescriptorOfTypeBefore sample_mem 4 DTYPE_Endpoint DTYPE_Interface (mk_cursor 25 0)
              = Returns c /\ BytesRem c = 0 /\ CurrConfigLoc c = 9.
Proof.
  destruct (next_of_type_before_spec sample_mem 25 DTYPE_Endpoint DTYPE_Interface _ _ 4 sample_on)
    as (c & E & Hl & Hb & _); [cbn; lia|].
  exists c. split; [exact E|]. split; [|exact Hl].
  destruct (Z.eq_dec (BytesRem c) 0) as [->|Hc]; [reflexivity|].
  apply Hb in Hc as (d & ds & [= <- <-] & Ht). discriminate Ht.
Defined.

Lemma next_of_type_after_spec_witness :
  USB_GetNextDescriptorOfTypeAfter sample_mem 4 DTYPE_Endpoint DTYPE_Interface (mk_cursor 25 0)
    = Returns (mk_cursor 7 18).
Proof.
  refine (next_of_type_after_spec sample_mem 25 DTYPE_Endpoint DTYPE_Interface _ _ 4 sample_on _). cbn. lia.
Defined.

Lemma zero_size_diverges_witness :
  USB_GetNextDescriptorOfType [0; 4; 0; 0] 1000 DTYPE_Endpoint (mk_cursor 4 0) = Loops.
Proof.
  apply (zero_size_diverges _ _ _ _ DTYPE_Interface); [lia|reflexivity|reflexivity|discriminate].
Defined.

(** A device that answers both requests from [sample_mem]. *)
Definition sample_control : HostControl unit :=
  {| USB_Host_SendControlRequest := fun req buf w =>
       (HOST_SENDCONTROL_Successful,
        take (Z.to_nat (wLength req)) sample_mem ++ drop (Z.to_nat (wLength req)) buf, w) |}.

Lemma get_config_success_witness :
  let buf' := take 25 sample_mem ++ replicate 5 0 in
  @USB_Host_GetDeviceConfigDescriptor unit sample_control (replicate 9 0) 1 0 (replicate 30 0) 30 tt
    = Returns (0, 25, buf', mk_request 128 6 512 0 25, tt) /\
  25 <= 30 /\ DESCRIPTOR_TYPE buf' 0 = Some DTYPE_Configuration.
Proof.
  cbv zeta. split; [reflexivity|].
  destruct (@get_config_success unit sample_control (replicate 9 0) 1 0 (replicate 30 0) 30 tt 25
              (take 25 sample_mem ++ replicate 5 0) (mk_request 128 6 512 0 25) tt) as (H1 & H2 & _);
    [lia|reflexivity|]. split; [exact H1|exact H2].
Defined.
