(* ===== verification/USBIo.v ===== *)
(** * Hardware access as a trace of events

    The USB driver talks to the controller through the inline functions of
    [Endpoint_AVR8.h], [Device_AVR8.h] and [USBController_AVR8.h], each of which
    reads or writes controller registers, and through variables that interrupt
    handlers change ([USB_DeviceState]).  A call that reads such a register or
    variable is a query, and its answer is a function of everything that happened
    before (the history); a call that writes one is a command.  An environment
    [hw] answers the queries, in any way: the theorems hold for every controller
    and host, and every interleaving with the interrupt handlers, unless they
    restrict [hw].

    [io A] is code with such accesses; it may fault, and its polling loops run on
    fuel.  [wp] is its weakest precondition: [wp false] for partial correctness
    (running out of fuel is allowed), [wp true] for total correctness. *)
From S2P Require Import Prelude.

(** ** Events *)

(** Registers of the peripherals that are accessed directly, and the variables that the
    timer interrupts of a programmer change. *)
Inductive io_register : Type :=
  | TIFR0 | UDR1 | UCSR1A | UCSR1B | UCSR1C | UBRR1 | PINB | PINE | MCUSR
  | PORTB | DDRB | DDRC | SPCR | SPSR | TCCR0B | TIMSK1 | TCNT1 | OCR1A | TCCR1A | TCCR1B | ADC
  | TimeoutTicksRemaining | SoftSPI_Data | SoftSPI_BitsRemaining.

(** The host side of the controller: the registers of the selected pipe, the flags of
    the bus, and the state variables the interrupt handlers change. *)
Inductive pipe_register : Type := UPCFG0X | UPCFG1X | UPCFG2X | UPIENX | UPINTX | UPINT | UPNUM.
Inductive host_interrupt : Type := USB_INT_HSOFI | USB_INT_DCONNI | USB_INT_DDISCI | USB_INT_VBERRI.

Inductive host_query : Type :=
  | p_IsINReceived | p_IsOUTReady | p_IsSETUPSent | p_IsReadWriteAllowed | p_IsStalled | p_IsError
  | p_IsConfigured | p_BytesInPipe | p_Read_8 | p_Register (r : pipe_register)
  | p_IsBusSuspended | p_IsBusResetComplete | p_GetFrameNumber | p_HostState | p_CurrentMode
  | p_HasOccurred (i : host_interrupt) | p_IntEnabled (i : host_interrupt).

Inductive host_command : Type :=
  | k_SelectPipe (Address : Z) | k_ResetPipe (Address : Z) | k_EnablePipe | k_DisablePipe
  | k_Freeze | k_Unfreeze | k_SetInfiniteINRequests
  | k_ClearError | k_ClearStall | k_ClearSETUP | k_ClearIN | k_ClearOUT
  | k_Write_8 (Data : Z) | k_Register (r : pipe_register) (Value : Z)
  | k_ResumeBus | k_SuspendBus | k_ResetBus | k_VBUS (step : Z) | k_Delay_MS
  | k_INT_Enable (i : host_interrupt) | k_INT_Disable (i : host_interrupt) | k_INT_Clear (i : host_interrupt)
  | k_SetHostState (State : Z) | k_SetDeviceAddress (Address : Z)
  | k_EnumerationComplete | k_EnumerationFailed (ErrorCode SubErrorCode : Z) | k_DeviceUnattached | k_ResetInterface.

(** The program's own memory: flash (with its page buffer) and EEPROM. *)
Inductive memory_query : Type := m_Byte (Address : Z) | m_Word (Address : Z) | m_EEPROM (Address : Z) | m_LockFuse (Address : Z).
Inductive memory_command : Type :=
  | w_Page_Fill (Address Data : Z) | w_Page_Erase (Address : Z) | w_Page_Write (Address : Z) | w_Busy_Wait | w_RWW_Enable
  | w_EEPROM (Address Data : Z) | w_LockBits (Bits : Z).

Inductive query : Type :=
  | q_IsINReady | q_IsOUTReceived | q_IsSETUPReceived | q_IsReadWriteAllowed
  | q_IsStalled | q_BytesInEndpoint | q_GetEndpointDirection | q_GetCurrentEndpoint
  | q_Read_8 | q_IsConfigured | q_GetFrameNumber | q_DeviceState
  | q_IsEnabled | q_IsAddressSet | q_GlobalInterruptMask | q_SignatureByte (Address : Z)
  | q_ConfigureEndpoint (Address Type_ Size Banks : Z)
  | q_PORTE | q_SPDR
  | q_IsMassStoreReset
  | q_Register (r : io_register)
  | q_Memory (q : memory_query)
  | q_Host (q : host_query).

Inductive command : Type :=
  | c_SelectEndpoint (Address : Z) | c_Write_8 (Data : Z)
  | c_ClearIN | c_ClearOUT | c_ClearSETUP | c_SetEndpointDirection (Mask : Z) | c_Delay_MS (MS : Z)
  | c_StallTransaction | c_ClearStall | c_ResetEndpoint (Address : Z) | c_ResetDataToggle
  | c_SetDeviceState (State : Z)
  | c_SetDeviceAddress (Address : Z)
  | c_GlobalInterruptDisable | c_SetGlobalInterruptMask (Mask : Z)
  | c_USBTask
  | c_EnableSOFEvents
  | c_SetAllLEDs (Mask : Z) | c_ToggleLEDs (Mask : Z) | c_Watchdog (Timeout : Z)
  | c_PORTE (Value : Z) | c_SPI_Transfer (Byte : Z)
  | c_SetMassStoreReset (b : bool)
  | c_Register (r : io_register) (Value : Z)
  | c_Memory (c : memory_command)
  | c_Host (c : host_command).

Inductive event : Type :=
  | Ask (q : query) (a : Z)
  | Cmd (c : command).

#[export] Instance io_register_eq_dec : EqDecision io_register.
Proof. solve_decision. Defined.
#[export] Instance pipe_register_eq_dec : EqDecision pipe_register.
Proof. solve_decision. Defined.
#[export] Instance host_interrupt_eq_dec : EqDecision host_interrupt.
Proof. solve_decision. Defined.
#[export] Instance host_query_eq_dec : EqDecision host_query.
Proof. solve_decision. Defined.
#[export] Instance host_command_eq_dec : EqDecision host_command.
Proof. solve_decision. Defined.
#[export] Instance memory_query_eq_dec : EqDecision memory_query.
Proof. solve_decision. Defined.
#[export] Instance memory_command_eq_dec : EqDecision memory_command.
Proof. solve_decision. Defined.
#[export] Instance query_eq_dec : EqDecision query.
Proof. solve_decision. Defined.
#[export] Instance command_eq_dec : EqDecision command.
Proof. solve_decision. Defined.
#[export] Instance event_eq_dec : EqDecision event.
Proof. solve_decision. Defined.

(** The environment: the answer to a query, given the history. *)
Definition hw := list event -> query -> Z.

(** ** Code with hardware accesses *)

Definition io (A : Type) : Type := hw -> list event -> outcome (A * list event).

#[export] Instance io_ret : MRet io := fun A a _ t => Returns (a, t).
#[export] Instance io_bind : MBind io := fun A B f m h t =>
  match m h t with
  | Returns (a, t) => f a h t
  | Faults => Faults
  | Loops => Loops
  end.

Definition ask (q : query) : io Z := fun h t => let a := h t q in Returns (a, t ++ [Ask q a]).
Definition cmd (c : command) : io unit := fun _ t => Returns (tt, t ++ [Cmd c]).
Definition fault {A} : io A := fun _ _ => Faults.
Definition loops {A} : io A := fun _ _ => Loops.

(** Code of the program that has no hardware access. *)
Definition pure {A} (o : outcome A) : io A := fun _ t => a ← o; Returns (a, t).

(** An access to an object of the program. *)
Definition get {A} (o : option A) : io A := match o with Some a => mret a | None => fault end.

Definition ask_bool (q : query) : io bool := a ← ask q; mret (truthy a).
Definition ask_u8 (q : query) : io Z := a ← ask q; mret (u8 a).
Definition ask_u16 (q : query) : io Z := a ← ask q; mret (u16 a).

(** ** The endpoint primitives *)

Definition Endpoint_IsINReady : io bool := ask_bool q_IsINReady.
Definition Endpoint_IsOUTReceived : io bool := ask_bool q_IsOUTReceived.
Definition Endpoint_IsSETUPReceived : io bool := ask_bool q_IsSETUPReceived.
Definition Endpoint_IsReadWriteAllowed : io bool := ask_bool q_IsReadWriteAllowed.
Definition Endpoint_IsStalled : io bool := ask_bool q_IsStalled.
Definition Endpoint_IsConfigured : io bool := ask_bool q_IsConfigured.
Definition Endpoint_BytesInEndpoint : io Z := ask_u16 q_BytesInEndpoint.
Definition Endpoint_GetEndpointDirection : io Z :=
  b ← ask_bool q_GetEndpointDirection; mret (if b : bool then 128 else 0).
Definition Endpoint_GetCurrentEndpoint : io Z := ask_u8 q_GetCurrentEndpoint.
Definition Endpoint_Read_8 : io Z := ask_u8 q_Read_8.
Definition Endpoint_ConfigureEndpoint (Address Type_ Size Banks : Z) : io bool :=
  ask_bool (q_ConfigureEndpoint Address Type_ Size Banks).
Definition USB_Device_GetFrameNumber : io Z := ask_u16 q_GetFrameNumber.
Definition USB_DeviceState : io Z := ask_u8 q_DeviceState.
Definition Endpoint_IsEnabled : io bool := ask_bool q_IsEnabled.
Definition USB_Device_IsAddressSet : io bool := ask_bool q_IsAddressSet.
Definition GetGlobalInterruptMask : io Z := ask_u8 q_GlobalInterruptMask.
Definition boot_signature_byte_get (Address : Z) : io Z := ask_u8 (q_SignatureByte Address).

Definition Endpoint_SelectEndpoint (Address : Z) : io unit := cmd (c_SelectEndpoint (Z.land Address 15)).
Definition Endpoint_Write_8 (Data : Z) : io unit := cmd (c_Write_8 (u8 Data)).
Definition Endpoint_Discard_8 : io unit := _ ← Endpoint_Read_8; mret tt.
Definition Endpoint_ClearIN : io unit := cmd c_ClearIN.
Definition Endpoint_ClearOUT : io unit := cmd c_ClearOUT.
Definition Endpoint_ClearSETUP : io unit := cmd c_ClearSETUP.
Definition Endpoint_StallTransaction : io unit := cmd c_StallTransaction.
Definition Endpoint_ClearStall : io unit := cmd c_ClearStall.
Definition Endpoint_ResetEndpoint (Address : Z) : io unit := cmd (c_ResetEndpoint (Z.land Address 15)).
Definition Endpoint_ResetDataToggle : io unit := cmd c_ResetDataToggle.
Definition Endpoint_SetEndpointDirection (DirectionMask : Z) : io unit := cmd (c_SetEndpointDirection DirectionMask).

Definition Set_USB_DeviceState (State : Z) : io unit := cmd (c_SetDeviceState State).
Definition USB_Device_SetDeviceAddress (Address : Z) : io unit := cmd (c_SetDeviceAddress (Z.land Address 127)).
Definition GlobalInterruptDisable : io unit := cmd c_GlobalInterruptDisable.
Definition SetGlobalInterruptMask (Mask : Z) : io unit := cmd (c_SetGlobalInterruptMask Mask).
Definition USB_Device_EnableSOFEvents : io unit := cmd c_EnableSOFEvents.
Definition LEDs_SetAllLEDs (Mask : Z) : io unit := cmd (c_SetAllLEDs Mask).

Definition LEDs_ToggleLEDs (Mask : Z) : io unit := cmd (c_ToggleLEDs Mask).

(** [Endpoint_AVR8.h]: the multi-byte accesses, byte by byte. *)
Definition Endpoint_Write_16_LE (Data : Z) : io unit :=
  Endpoint_Write_8 (Z.land Data 255);; Endpoint_Write_8 (Z.shiftr Data 8).

Definition Endpoint_Write_32_LE (Data : Z) : io unit :=
  Endpoint_Write_8 (Z.land Data 255);; Endpoint_Write_8 (Z.shiftr Data 8);;
  Endpoint_Write_8 (Z.shiftr Data 16);; Endpoint_Write_8 (Z.shiftr Data 24).

Definition Endpoint_Read_16_LE : io Z :=
  b0 ← Endpoint_Read_8; b1 ← Endpoint_Read_8; mret (b0 + Z.shiftl b1 8).

Definition Endpoint_Read_32_LE : io Z :=
  b0 ← Endpoint_Read_8; b1 ← Endpoint_Read_8; b2 ← Endpoint_Read_8; b3 ← Endpoint_Read_8;
  mret (b0 + Z.shiftl b1 8 + Z.shiftl b2 16 + Z.shiftl b3 24).

Create HintDb usbio.
#[export] Hint Unfold Endpoint_IsINReady Endpoint_IsOUTReceived Endpoint_IsSETUPReceived
  Endpoint_IsReadWriteAllowed Endpoint_IsStalled Endpoint_IsConfigured
  Endpoint_BytesInEndpoint Endpoint_GetEndpointDirection Endpoint_GetCurrentEndpoint
  Endpoint_Read_8 Endpoint_ConfigureEndpoint USB_Device_GetFrameNumber USB_DeviceState
  Endpoint_IsEnabled USB_Device_IsAddressSet GetGlobalInterruptMask
  boot_signature_byte_get Endpoint_SelectEndpoint Endpoint_Write_8 Endpoint_Discard_8
  Endpoint_ClearIN Endpoint_ClearOUT Endpoint_ClearSETUP Endpoint_StallTransaction
  Endpoint_ClearStall Endpoint_ResetEndpoint Endpoint_ResetDataToggle Endpoint_SetEndpointDirection Set_USB_DeviceState
  USB_Device_SetDeviceAddress GlobalInterruptDisable SetGlobalInterruptMask
  USB_Device_EnableSOFEvents LEDs_SetAllLEDs LEDs_ToggleLEDs Endpoint_Write_16_LE Endpoint_Write_32_LE Endpoint_Read_16_LE
  Endpoint_Read_32_LE : usbio.

(** Device states, [Device.h]. *)
Definition DEVICE_STATE_Unattached := 0.
Definition DEVICE_STATE_Powered := 1.
Definition DEVICE_STATE_Default := 2.
Definition DEVICE_STATE_Addressed := 3.
Definition DEVICE_STATE_Configured := 4.
Definition DEVICE_STATE_Suspended := 5.

(** ** Weakest preconditions

    The postcondition speaks about the result and about the events the code
    added to the history, whose answers are those of the environment. *)

Fixpoint valid (h : hw) (t s : list event) : Prop :=
  match s with
  | [] => True
  | e :: s => match e with Ask q a => h t q = a | Cmd _ => True end /\ valid h (t ++ [e]) s
  end.

Lemma valid_app h : forall s t s', valid h t (s ++ s') <-> valid h t s /\ valid h (t ++ s) s'.
Proof.
  induction s as [|e s IH]; intros t s'; cbn; [by rewrite app_nil_r; tauto|].
  rewrite IH, <-app_assoc. cbn. tauto.
Qed.

Definition wp {A} (tot : bool) (h : hw) (m : io A) (t : list event)
    (Q : A -> list event -> Prop) : Prop :=
  match m h t with
  | Returns (a, t') => exists s, t' = t ++ s /\ valid h t s /\ Q a s
  | Faults => False
  | Loops => tot = false
  end.

Section wp_rules.
Context (tot : bool) (h : hw).

Lemma wp_ret {A} (a : A) t (Q : A -> list event -> Prop) : Q a [] -> wp tot h (mret a) t Q.
Proof. exists []. by rewrite app_nil_r. Qed.

Lemma wp_bind {A B} (m : io A) (f : A -> io B) t Q :
  wp tot h m t (fun a s => wp tot h (f a) (t ++ s) (fun b s' => Q b (s ++ s'))) ->
  wp tot h (m ≫= f) t Q.
Proof.
  unfold wp, mbind, io_bind. destruct (m h t) as [[a t1]| |]; [|done..].
  intros (s & -> & Hv & H). destruct (f a h (t ++ s)) as [[b t2]| |]; [|done..].
  destruct H as (s' & -> & Hv' & H). exists (s ++ s'). by rewrite app_assoc, valid_app.
Qed.

Lemma wp_mono {A} (m : io A) t (P Q : A -> list event -> Prop) :
  wp tot h m t P -> (forall a s, P a s -> Q a s) -> wp tot h m t Q.
Proof. unfold wp. destruct (m h t) as [[]| |]; naive_solver. Qed.

Lemma wp_cmd c t (Q : unit -> list event -> Prop) : Q tt [Cmd c] -> wp tot h (cmd c) t Q.
Proof. by exists [Cmd c]. Qed.

Lemma wp_ask q t (Q : Z -> list event -> Prop) :
  (forall a, h t q = a -> Q a [Ask q a]) -> wp tot h (ask q) t Q.
Proof. exists [Ask q (h t q)]. cbn. auto. Qed.

Lemma wp_ask_bool q t (Q : bool -> list event -> Prop) :
  (forall a, h t q = a -> Q (truthy a) [Ask q a]) -> wp tot h (ask_bool q) t Q.
Proof. exists [Ask q (h t q)]. cbn. auto. Qed.

Lemma wp_ask_u8 q t (Q : Z -> list event -> Prop) :
  (forall a, h t q = a -> Q (u8 a) [Ask q a]) -> wp tot h (ask_u8 q) t Q.
Proof. exists [Ask q (h t q)]. cbn. auto. Qed.

Lemma wp_ask_u16 q t (Q : Z -> list event -> Prop) :
  (forall a, h t q = a -> Q (u16 a) [Ask q a]) -> wp tot h (ask_u16 q) t Q.
Proof. exists [Ask q (h t q)]. cbn. auto. Qed.

Lemma wp_get {A} (o : option A) a t (Q : A -> list event -> Prop) :
  o = Some a -> Q a [] -> wp tot h (get o) t Q.
Proof. intros -> ?. by apply wp_ret. Qed.

Lemma wp_pure {A} (o : outcome A) a t (Q : A -> list event -> Prop) :
  o = Returns a -> Q a [] -> wp tot h (pure o) t Q.
Proof. intros -> ?. by apply wp_ret. Qed.

Lemma wp_if {A} (b : bool) (m1 m2 : io A) t Q :
  (b = true -> wp tot h m1 t Q) -> (b = false -> wp tot h m2 t Q) ->
  wp tot h (if b then m1 else m2) t Q.
Proof. destruct b; auto. Qed.

Lemma wp_loops {A} t (Q : A -> list event -> Prop) : tot = false -> wp tot h loops t Q.
Proof. done. Qed.

(** The postcondition may use that the answers are those of the environment. *)
Lemma wp_valid {A} (m : io A) t Q :
  wp tot h m t Q -> wp tot h m t (fun a s => Q a s /\ valid h t s).
Proof. unfold wp. destruct (m h t) as [[]| |]; naive_solver. Qed.

(** What a result says about the run. *)
Lemma wp_run_eq {A} (m : io A) t Q :
  wp tot h m t Q ->
  match m h t with
  | Returns (a, t') => exists s, t' = t ++ s /\ Q a s
  | Faults => False
  | Loops => tot = false
  end.
Proof. unfold wp. destruct (m h t) as [[]| |]; naive_solver. Qed.
End wp_rules.

Lemma wp_partial {A} h (m : io A) t Q : wp true h m t Q -> wp false h m t Q.
Proof. unfold wp. by destruct (m h t) as [[]| |]. Qed.

(** The postcondition may use that the result is the one of this run. *)
Lemma wp_returned {A} tot h (m : io A) t Q :
  wp tot h m t Q -> wp tot h m t (fun a s => Q a s /\ m h t = Returns (a, t ++ s)).
Proof. unfold wp. destruct (m h t) as [[a t']| |]; [|done..]. intros (s & -> & ? & ?). eauto. Qed.

Lemma wp_combine {A} h (m : io A) t P Q :
  wp true h m t P -> wp false h m t Q -> wp true h m t (fun a s => P a s /\ Q a s).
Proof.
  unfold wp. destruct (m h t) as [[a t']| |]; [|done..].
  intros (s & -> & ? & ?) (s' & <-%app_inv_head & _ & ?). eauto.
Qed.

(** A partial-correctness result speaks about every run that returns. *)
Lemma wp_returns {A} h (m : io A) t Q a t' :
  wp false h m t Q -> m h t = Returns (a, t') -> exists s, t' = t ++ s /\ Q a s.
Proof. intros H%wp_run_eq E. by rewrite E in H. Qed.

Lemma wp_total {A} h (m : io A) t Q :
  wp true h m t Q -> exists a s, m h t = Returns (a, t ++ s) /\ Q a s.
Proof. intros H%wp_run_eq. destruct (m h t) as [[a t']| |]; naive_solver. Qed.

(** Symbolic execution of one statement. *)
Ltac wp_step :=
  lazymatch goal with
  | |- wp _ _ (mbind _ _) _ _ => apply wp_bind
  | |- wp _ _ (mret _) _ _ => apply wp_ret
  | |- wp _ _ (if _ then _ else _) _ _ => apply wp_if; intros
  | |- wp _ _ (cmd _) _ _ => apply wp_cmd
  | |- wp _ _ (ask _) _ _ => apply wp_ask; intros ? ?
  | |- wp _ _ (ask_bool _) _ _ => apply wp_ask_bool; intros ? ?
  | |- wp _ _ (ask_u8 _) _ _ => apply wp_ask_u8; intros ? ?
  | |- wp _ _ (ask_u16 _) _ _ => apply wp_ask_u16; intros ? ?
  | |- wp _ _ (get _) _ _ => eapply wp_get
  | |- wp _ _ (let _ := _ in _) _ _ => cbv zeta
  | |- wp _ _ _ _ _ => progress autounfold with usbio
  end.

(** Evaluate a closed program whose [wp] is the hypothesis [H]; [E] is its run. *)
Ltac wp_run H :=
  apply wp_run_eq in H;
  lazymatch type of H with
  | match ?m with _ => _ end =>
      destruct m as [[]| |] eqn:E;
      [|exact H|vm_compute in E; discriminate E]
  end.

(** ** Observations on a history *)

(** The bytes written to the selected endpoint. *)
Definition sent (t : list event) : list Z :=
  omap (fun e => match e with Cmd (c_Write_8 b) => Some b | _ => None end) t.

(** The bytes read from it. *)
Definition received (t : list event) : list Z :=
  omap (fun e => match e with Ask q_Read_8 a => Some (u8 a) | _ => None end) t.

(** The commands, without the queries. *)
Definition commands (t : list event) : list command :=
  omap (fun e => match e with Cmd c => Some c | _ => None end) t.

(** The packets sent: the bytes written between two [Endpoint_ClearIN]. *)
Fixpoint packets_from (cur : list Z) (t : list event) : list (list Z) :=
  match t with
  | [] => []
  | Cmd (c_Write_8 b) :: t => packets_from (cur ++ [b]) t
  | Cmd c_ClearIN :: t => cur :: packets_from [] t
  | _ :: t => packets_from cur t
  end.
Definition packets : list event -> list (list Z) := packets_from [].

(** The bytes written since the last [Endpoint_ClearIN]. *)
Fixpoint pending_from (cur : list Z) (t : list event) : list Z :=
  match t with
  | [] => cur
  | Cmd (c_Write_8 b) :: t => pending_from (cur ++ [b]) t
  | Cmd c_ClearIN :: t => pending_from [] t
  | _ :: t => pending_from cur t
  end.

Lemma packets_from_app : forall t cur t',
  packets_from cur (t ++ t') = packets_from cur t ++ packets_from (pending_from cur t) t'.
Proof. induction t as [|[[] ?|[]] t IH]; intros; cbn; auto. by rewrite IH. Qed.

Lemma pending_from_app : forall t cur t',
  pending_from cur (t ++ t') = pending_from (pending_from cur t) t'.
Proof. by induction t as [|[[] ?|[]] t IH]; intros; cbn. Qed.

(** The events of writing the bytes [l]. *)
Definition writes (l : list Z) : list event := (fun b => Cmd (c_Write_8 b)) <$> l.

Lemma writes_packets l cur : packets_from cur (writes l) = [].
Proof. revert cur. by induction l; cbn. Qed.
Lemma writes_pending l cur : pending_from cur (writes l) = cur ++ l.
Proof. revert cur. induction l as [|b l IH]; intros; cbn; [by rewrite app_nil_r|]. by rewrite IH, <-app_assoc. Qed.
Lemma writes_sent l : sent (writes l) = l.
Proof. induction l; cbn; [done|]. f_equal. done. Qed.
Lemma writes_received l : received (writes l) = [].
Proof. by induction l. Qed.

Lemma sent_app t t' : sent (t ++ t') = sent t ++ sent t'.
Proof. apply omap_app. Qed.
Lemma received_app t t' : received (t ++ t') = received t ++ received t'.
Proof. apply omap_app. Qed.
Lemma commands_app t t' : commands (t ++ t') = commands t ++ commands t'.
Proof. apply omap_app. Qed.

(** What is sent depends on the commands only. *)
Lemma sent_commands t :
  sent t = omap (fun c => match c with c_Write_8 b => Some b | _ => None end) (commands t).
Proof.
  induction t as [|[q a|c] t IH]; [done|exact IH|]. destruct c; try exact IH. cbn. f_equal. exact IH.
Qed.

Lemma commands_sent t : commands t = [] -> sent t = [].
Proof. rewrite sent_commands. by intros ->. Qed.

Create Rewrite HintDb trace_rw.
Create HintDb trace.
#[export] Hint Rewrite sent_app received_app commands_app : trace_rw.

(** How often the SETUP packet was acknowledged. *)
Definition acks (s : list event) : Z :=
  Z.of_nat (length (filter (fun c => c = c_ClearSETUP) (commands s))).

Lemma acks_app s s' : acks (s ++ s') = acks s + acks s'.
Proof. unfold acks. rewrite commands_app, filter_app, length_app. lia. Qed.

Lemma acks_nil : acks [] = 0.
Proof. done. Qed.

Lemma acks_ask q a s : acks (Ask q a :: s) = acks s.
Proof. done. Qed.

Lemma acks_cmd c s : acks (Cmd c :: s) = (match c with c_ClearSETUP => 1 | _ => 0 end) + acks s.
Proof.
  unfold acks. cbn [commands omap list_omap]. change (omap _ s) with (commands s).
  destruct (decide (c = c_ClearSETUP)) as [->|Hc].
  - rewrite filter_cons_True by done. cbn. lia.
  - rewrite filter_cons_False by done. by destruct c.
Qed.

Lemma acks_nonneg s : 0 <= acks s.
Proof. unfold acks. lia. Qed.

#[export] Hint Rewrite acks_app acks_nil acks_ask acks_cmd : trace_rw.

Lemma commands_acks s : commands s = [] -> acks s = 0.
Proof. unfold acks. by intros ->. Qed.

(** Segments whose commands only fill and release the endpoint bank. *)
Definition data_stage (s : list event) : Prop :=
  Forall (fun c => match c with c_Write_8 _ | c_ClearIN => True | _ => False end) (commands s).

Lemma data_stage_app s s' : data_stage s -> data_stage s' -> data_stage (s ++ s').
Proof. unfold data_stage. rewrite commands_app. apply Forall_app_2. Qed.

Lemma data_stage_acks s : data_stage s -> acks s = 0.
Proof.
  unfold data_stage, acks. induction 1 as [|c l Hc _ IH]; [done|].
  rewrite filter_cons_False; [done|]. by destruct c.
Qed.

Lemma data_stage_writes l : data_stage (writes l).
Proof. unfold data_stage. induction l; cbn; constructor; done. Qed.

(** Segments of the history that only poll: no command, no byte read. *)
Definition silent (s : list event) : Prop :=
  Forall (fun e => match e with Ask q_Read_8 _ | Ask q_SPDR _ | Cmd _ => False | _ => True end) s.

Lemma silent_nil : silent [].
Proof. constructor. Qed.
Lemma silent_app s s' : silent s -> silent s' -> silent (s ++ s').
Proof. apply Forall_app_2. Qed.
Lemma silent_ask q a : q <> q_Read_8 -> q <> q_SPDR -> silent [Ask q a].
Proof. intros ? ?. repeat constructor. by destruct q. Qed.

Lemma silent_ask_cons q a s : q <> q_Read_8 -> q <> q_SPDR -> silent s -> silent (Ask q a :: s).
Proof. intros ? ? ?. apply (silent_app [_]); [by apply silent_ask|done]. Qed.

Lemma silent_sent s : silent s -> sent s = [].
Proof. induction 1 as [|[[] ?|?] s ?]; cbn; auto; done. Qed.
Lemma silent_received s : silent s -> received s = [].
Proof. induction 1 as [|[[] ?|?] s ?]; cbn; auto; done. Qed.
Lemma silent_commands s : silent s -> commands s = [].
Proof. induction 1 as [|[[] ?|?] s ?]; cbn; auto; done. Qed.

Lemma silent_acks s : silent s -> acks s = 0.
Proof. intros. by apply commands_acks, silent_commands. Qed.
Lemma silent_packets s cur : silent s -> packets_from cur s = [].
Proof. induction 1 as [|[[] ?|?] s ?]; cbn; auto; done. Qed.
Lemma silent_pending s cur : silent s -> pending_from cur s = cur.
Proof. induction 1 as [|[[] ?|?] s ?]; cbn; auto; done. Qed.

#[export] Hint Resolve silent_nil silent_app : trace.
#[export] Hint Resolve silent_ask_cons : trace.
#[export] Hint Extern 1 (_ <> q_Read_8) => discriminate : trace.
#[export] Hint Extern 1 (_ <> q_SPDR) => discriminate : trace.
