(* ===== verification/Endpoint.v ===== *)
(** * Endpoint management and endpoint streams

    [LUFA/Drivers/USB/Core/AVR8/Endpoint_AVR8.c], [EndpointStream_AVR8.c] and
    the templates the latter includes: waiting for an endpoint, the status stage
    of control transfers, and the routines that move a buffer through an
    endpoint in packets.

    A buffer is a list of bytes; [DataStream] is an index in it.  The C templates
    are parametrised by macros, which become a [stream_template] record. *)
From S2P Require Import Prelude ConfigDescriptors USBIo.

(** ** Return codes *)

Definition ENDPOINT_READYWAIT_NoError := 0.
Definition ENDPOINT_READYWAIT_EndpointStalled := 1.
Definition ENDPOINT_READYWAIT_DeviceDisconnected := 2.
Definition ENDPOINT_READYWAIT_BusSuspended := 3.
Definition ENDPOINT_READYWAIT_Timeout := 4.

Definition ENDPOINT_RWSTREAM_NoError := 0.
Definition ENDPOINT_RWSTREAM_IncompleteTransfer := 5.

Definition ENDPOINT_RWCSTREAM_NoError := 0.
Definition ENDPOINT_RWCSTREAM_HostAborted := 1.
Definition ENDPOINT_RWCSTREAM_DeviceDisconnected := 2.
Definition ENDPOINT_RWCSTREAM_BusSuspended := 3.

Definition ENDPOINT_DIR_IN := 128.
Definition USB_STREAM_TIMEOUT_MS := 100.

(** ** [Endpoint_AVR8.c] *)

(** [USB_Endpoint_Table_t] of [Endpoint.h]. *)
Record USB_Endpoint_Table_t := mk_endpoint {
    ep_Address : Z;
    ep_Size : Z;
    ep_Type : Z;
    ep_Banks : Z
  }.

Definition EP_TYPE_BULK := 2.

Definition set_ep_Type (type : Z) (e : USB_Endpoint_Table_t) : USB_Endpoint_Table_t :=
  mk_endpoint (ep_Address e) (ep_Size e) type (ep_Banks e).

(** The loop over the [Entries] first elements of the table. *)
Fixpoint Endpoint_ConfigureEndpointTable (Table : list USB_Endpoint_Table_t) : io bool :=
  match Table with
  | [] => mret true
  | e :: Table =>
      if negb (truthy (ep_Address e)) then Endpoint_ConfigureEndpointTable Table else
      ok ← Endpoint_ConfigureEndpoint (ep_Address e) (ep_Type e) (ep_Size e) (ep_Banks e);
      if negb ok then mret false else Endpoint_ConfigureEndpointTable Table
  end.

(** Poll until [ready]; give up when the device is unattached. *)
Fixpoint poll_attached (fuel : nat) (ready : io bool) : io bool :=
  match fuel with
  | O => loops
  | S fuel =>
      r ← ready;
      if r : bool then mret true else
      s ← USB_DeviceState;
      if s =? DEVICE_STATE_Unattached then mret false else poll_attached fuel ready
  end.

Definition Endpoint_ClearStatusStage (fuel : nat) (USB_ControlRequest : USB_Request_Header_t) : io unit :=
  if truthy (Z.land (bmRequestType USB_ControlRequest) REQDIR_DEVICETOHOST) then
    ok ← poll_attached fuel Endpoint_IsOUTReceived;
    if ok : bool then Endpoint_ClearOUT else mret tt
  else
    ok ← poll_attached fuel Endpoint_IsINReady;
    if ok : bool then Endpoint_ClearIN else mret tt.

Fixpoint wait_loop (fuel : nat) (TimeoutMSRem PreviousFrameNumber : Z) : io Z :=
  match fuel with
  | O => loops
  | S fuel =>
      dir ← Endpoint_GetEndpointDirection;
      ready ← (if dir =? ENDPOINT_DIR_IN then Endpoint_IsINReady else Endpoint_IsOUTReceived);
      if ready : bool then mret ENDPOINT_READYWAIT_NoError else
      USB_DeviceState_LCL ← USB_DeviceState;
      if USB_DeviceState_LCL =? DEVICE_STATE_Unattached
      then mret ENDPOINT_READYWAIT_DeviceDisconnected else
      if USB_DeviceState_LCL =? DEVICE_STATE_Suspended
      then mret ENDPOINT_READYWAIT_BusSuspended else
      stalled ← Endpoint_IsStalled;
      if stalled : bool then mret ENDPOINT_READYWAIT_EndpointStalled else
      CurrentFrameNumber ← USB_Device_GetFrameNumber;
      if negb (CurrentFrameNumber =? PreviousFrameNumber) then
        if negb (truthy TimeoutMSRem) then mret ENDPOINT_READYWAIT_Timeout
        else wait_loop fuel (u8 (TimeoutMSRem - 1)) CurrentFrameNumber
      else wait_loop fuel TimeoutMSRem PreviousFrameNumber
  end.

Definition Endpoint_WaitUntilReady (fuel : nat) : io Z :=
  PreviousFrameNumber ← USB_Device_GetFrameNumber;
  wait_loop fuel USB_STREAM_TIMEOUT_MS PreviousFrameNumber.

(** ** [EndpointStream_AVR8.c] *)

(** [Length] after [if (BytesProcessed != NULL) Length -= *BytesProcessed]. *)
Definition remaining (Length : Z) (BytesProcessed : option Z) : Z :=
  match BytesProcessed with Some b => u16 (Length - b) | None => Length end.

(** The loop both [Endpoint_Discard_Stream] and [Endpoint_Null_Stream] have:
    [clear] releases the bank, [transfer] moves one byte. *)
Fixpoint plain_stream_loop (fuel : nat) (clear transfer : io unit)
    (Length BytesInTransfer : Z) (BytesProcessed : option Z) : io (Z * option Z) :=
  match fuel with
  | O => loops
  | S fuel' =>
      if negb (truthy Length) then mret (ENDPOINT_RWSTREAM_NoError, BytesProcessed) else
      allowed ← Endpoint_IsReadWriteAllowed;
      if negb allowed then
        clear;;
        match BytesProcessed with
        | Some b => mret (ENDPOINT_RWSTREAM_IncompleteTransfer, Some (u16 (b + BytesInTransfer)))
        | None =>
            ErrorCode ← Endpoint_WaitUntilReady fuel;
            if truthy ErrorCode then mret (ErrorCode, BytesProcessed)
            else plain_stream_loop fuel' clear transfer Length BytesInTransfer BytesProcessed
        end
      else
        transfer;;
        plain_stream_loop fuel' clear transfer (u16 (Length - 1)) (u16 (BytesInTransfer + 1)) BytesProcessed
  end.

Definition Endpoint_Discard_Stream (fuel : nat) (Length : Z) (BytesProcessed : option Z)
    : io (Z * option Z) :=
  ErrorCode ← Endpoint_WaitUntilReady fuel;
  if truthy ErrorCode then mret (ErrorCode, BytesProcessed) else
  plain_stream_loop fuel Endpoint_ClearOUT Endpoint_Discard_8
    (remaining Length BytesProcessed) 0 BytesProcessed.

Definition Endpoint_Null_Stream (fuel : nat) (Length : Z) (BytesProcessed : option Z)
    : io (Z * option Z) :=
  ErrorCode ← Endpoint_WaitUntilReady fuel;
  if truthy ErrorCode then mret (ErrorCode, BytesProcessed) else
  plain_stream_loop fuel Endpoint_ClearIN (Endpoint_Write_8 0)
    (remaining Length BytesProcessed) 0 BytesProcessed.

(** The macros of a stream template: [TEMPLATE_CLEAR_ENDPOINT],
    [TEMPLATE_BUFFER_OFFSET], [TEMPLATE_BUFFER_MOVE] and [TEMPLATE_TRANSFER_BYTE]. *)
Record stream_template := {
    CLEAR_ENDPOINT : io unit;
    BUFFER_OFFSET : Z -> Z;
    BUFFER_MOVE : Z -> Z -> Z;
    TRANSFER_BYTE : list Z -> Z -> io (list Z)
  }.

Definition write_byte (Buffer : list Z) (DataStream : Z) : io (list Z) :=
  b ← get (arr_get Buffer DataStream); Endpoint_Write_8 b;; mret Buffer.

Definition read_byte (Buffer : list Z) (DataStream : Z) : io (list Z) :=
  b ← Endpoint_Read_8; get (arr_set Buffer DataStream b).

Section template_rw.
Context (T : stream_template).

Fixpoint stream_loop (fuel : nat) (Buffer : list Z) (DataStream Length BytesInTransfer : Z)
    (BytesProcessed : option Z) : io (Z * list Z * option Z) :=
  match fuel with
  | O => loops
  | S fuel' =>
      if negb (truthy Length)
      then mret (ENDPOINT_RWSTREAM_NoError, Buffer, BytesProcessed) else
      allowed ← Endpoint_IsReadWriteAllowed;
      if negb allowed then
        CLEAR_ENDPOINT T;;
        cmd c_USBTask;;
        match BytesProcessed with
        | Some b =>
            mret (ENDPOINT_RWSTREAM_IncompleteTransfer, Buffer, Some (u16 (b + BytesInTransfer)))
        | None =>
            ErrorCode ← Endpoint_WaitUntilReady fuel;
            if truthy ErrorCode then mret (ErrorCode, Buffer, BytesProcessed)
            else stream_loop fuel' Buffer DataStream Length BytesInTransfer BytesProcessed
        end
      else
        Buffer ← TRANSFER_BYTE T Buffer DataStream;
        stream_loop fuel' Buffer (BUFFER_MOVE T DataStream 1) (u16 (Length - 1))
          (u16 (BytesInTransfer + 1)) BytesProcessed
  end.

(** [Template_Endpoint_RW.c] *)
Definition Template_Endpoint_RW (fuel : nat) (Buffer : list Z) (Length : Z)
    (BytesProcessed : option Z) : io (Z * list Z * option Z) :=
  let DataStream := BUFFER_OFFSET T Length in
  ErrorCode ← Endpoint_WaitUntilReady fuel;
  if truthy ErrorCode then mret (ErrorCode, Buffer, BytesProcessed) else
  let DataStream :=
    match BytesProcessed with Some b => BUFFER_MOVE T DataStream b | None => DataStream end in
  stream_loop fuel Buffer DataStream (remaining Length BytesProcessed) 0 BytesProcessed.
End template_rw.

Definition write_LE := {| CLEAR_ENDPOINT := Endpoint_ClearIN; BUFFER_OFFSET := fun _ => 0;
  BUFFER_MOVE := Z.add; TRANSFER_BYTE := write_byte |}.
Definition write_BE := {| CLEAR_ENDPOINT := Endpoint_ClearIN; BUFFER_OFFSET := fun l => l - 1;
  BUFFER_MOVE := Z.sub; TRANSFER_BYTE := write_byte |}.
Definition read_LE := {| CLEAR_ENDPOINT := Endpoint_ClearOUT; BUFFER_OFFSET := fun _ => 0;
  BUFFER_MOVE := Z.add; TRANSFER_BYTE := read_byte |}.
Definition read_BE := {| CLEAR_ENDPOINT := Endpoint_ClearOUT; BUFFER_OFFSET := fun l => l - 1;
  BUFFER_MOVE := Z.sub; TRANSFER_BYTE := read_byte |}.

Definition Endpoint_Write_Stream_LE := Template_Endpoint_RW write_LE.
Definition Endpoint_Write_Stream_BE := Template_Endpoint_RW write_BE.
Definition Endpoint_Read_Stream_LE := Template_Endpoint_RW read_LE.
Definition Endpoint_Read_Stream_BE := Template_Endpoint_RW read_BE.

(** ** Control streams *)

Section template_control.
Context (T : stream_template).
Context (USB_ControlRequest : USB_Request_Header_t) (USB_Device_ControlEndpointSize : Z).

(** The inner loop of the control write: fill one packet.  It runs at most
    [Length] times, which is its fuel. *)
Fixpoint fill_packet (n : nat) (Buffer : list Z) (DataStream Length BytesInEndpoint : Z)
    : io (Z * Z * Z) :=
  if truthy Length && (BytesInEndpoint <? USB_Device_ControlEndpointSize) then
    match n with
    | O => loops
    | S n =>
        TRANSFER_BYTE T Buffer DataStream;;
        fill_packet n Buffer (BUFFER_MOVE T DataStream 1) (u16 (Length - 1))
          (u16 (BytesInEndpoint + 1))
    end
  else mret (DataStream, Length, BytesInEndpoint).

(** The end of both control transfers: wait for the status stage. *)
Fixpoint wait_status (fuel : nat) (ready : io bool) : io Z :=
  match fuel with
  | O => loops
  | S fuel =>
      r ← ready;
      if r : bool then mret ENDPOINT_RWCSTREAM_NoError else
      USB_DeviceState_LCL ← USB_DeviceState;
      if USB_DeviceState_LCL =? DEVICE_STATE_Unattached
      then mret ENDPOINT_RWCSTREAM_DeviceDisconnected else
      if USB_DeviceState_LCL =? DEVICE_STATE_Suspended
      then mret ENDPOINT_RWCSTREAM_BusSuspended else
      wait_status fuel ready
  end.

Fixpoint control_write_loop (fuel : nat) (Buffer : list Z) (DataStream Length : Z)
    (LastPacketFull : bool) : io Z :=
  match fuel with
  | O => loops
  | S fuel' =>
      if truthy Length || LastPacketFull then
        USB_DeviceState_LCL ← USB_DeviceState;
        if USB_DeviceState_LCL =? DEVICE_STATE_Unattached
        then mret ENDPOINT_RWCSTREAM_DeviceDisconnected else
        if USB_DeviceState_LCL =? DEVICE_STATE_Suspended
        then mret ENDPOINT_RWCSTREAM_BusSuspended else
        setup ← Endpoint_IsSETUPReceived;
        if setup : bool then mret ENDPOINT_RWCSTREAM_HostAborted else
        out ← Endpoint_IsOUTReceived;
        if out : bool then wait_status fuel Endpoint_IsOUTReceived else
        ready ← Endpoint_IsINReady;
        if ready : bool then
          BytesInEndpoint ← Endpoint_BytesInEndpoint;
          '(DataStream, Length, BytesInEndpoint) ←
            fill_packet (Z.to_nat Length) Buffer DataStream Length BytesInEndpoint;
          let LastPacketFull := BytesInEndpoint =? USB_Device_ControlEndpointSize in
          Endpoint_ClearIN;;
          control_write_loop fuel' Buffer DataStream Length LastPacketFull
        else control_write_loop fuel' Buffer DataStream Length LastPacketFull
      else wait_status fuel Endpoint_IsOUTReceived
  end.

(** [Template_Endpoint_Control_W.c] *)
Definition Template_Endpoint_Control_W (fuel : nat) (Buffer : list Z) (Length : Z) : io Z :=
  let DataStream := BUFFER_OFFSET T Length in
  Length' ← (if wLength USB_ControlRequest <? Length then mret (wLength USB_ControlRequest)
             else if negb (truthy Length) then Endpoint_ClearIN;; mret Length
             else mret Length);
  control_write_loop fuel Buffer DataStream Length' false.

Fixpoint drain_packet (fuel : nat) (Buffer : list Z) (DataStream Length : Z)
    : io (list Z * Z * Z) :=
  match fuel with
  | O => loops
  | S fuel =>
      if negb (truthy Length) then mret (Buffer, DataStream, Length) else
      bytes ← Endpoint_BytesInEndpoint;
      if negb (truthy bytes) then mret (Buffer, DataStream, Length) else
      Buffer ← TRANSFER_BYTE T Buffer DataStream;
      drain_packet fuel Buffer (BUFFER_MOVE T DataStream 1) (u16 (Length - 1))
  end.

Fixpoint control_read_loop (fuel : nat) (Buffer : list Z) (DataStream Length : Z)
    : io (Z * list Z) :=
  match fuel with
  | O => loops
  | S fuel' =>
      if truthy Length then
        USB_DeviceState_LCL ← USB_DeviceState;
        if USB_DeviceState_LCL =? DEVICE_STATE_Unattached
        then mret (ENDPOINT_RWCSTREAM_DeviceDisconnected, Buffer) else
        if USB_DeviceState_LCL =? DEVICE_STATE_Suspended
        then mret (ENDPOINT_RWCSTREAM_BusSuspended, Buffer) else
        setup ← Endpoint_IsSETUPReceived;
        if setup : bool then mret (ENDPOINT_RWCSTREAM_HostAborted, Buffer) else
        out ← Endpoint_IsOUTReceived;
        if out : bool then
          '(Buffer, DataStream, Length) ← drain_packet fuel Buffer DataStream Length;
          Endpoint_ClearOUT;;
          control_read_loop fuel' Buffer DataStream Length
        else control_read_loop fuel' Buffer DataStream Length
      else
        code ← wait_status fuel Endpoint_IsINReady;
        mret (code, Buffer)
  end.

(** [Template_Endpoint_Control_R.c] *)
Definition Template_Endpoint_Control_R (fuel : nat) (Buffer : list Z) (Length : Z)
    : io (Z * list Z) :=
  let DataStream := BUFFER_OFFSET T Length in
  (if negb (truthy Length) then Endpoint_ClearOUT else mret tt);;
  control_read_loop fuel Buffer DataStream Length.
End template_control.

Definition Endpoint_Write_Control_Stream_LE := Template_Endpoint_Control_W write_LE.
Definition Endpoint_Write_Control_Stream_BE := Template_Endpoint_Control_W write_BE.
Definition Endpoint_Read_Control_Stream_LE := Template_Endpoint_Control_R read_LE.
Definition Endpoint_Read_Control_Stream_BE := Template_Endpoint_Control_R read_BE.
