(* ===== verification/EndpointSpec.v ===== *)
(** * Correctness of the endpoint layer

    What waiting for an endpoint reports and when it stops, which bytes the
    stream routines move and in which order, and how control transfers are cut
    into packets. *)
From S2P Require Import Prelude ConfigDescriptors USBIo Endpoint.

(** ** Waiting for an endpoint *)

(** The frame numbers read in a history. *)
Definition frames (t : list event) : list Z :=
  omap (fun e => match e with Ask q_GetFrameNumber a => Some (u16 a) | _ => None end) t.

(** How often consecutive readings differ. *)
Fixpoint changes (prev : Z) (l : list Z) : Z :=
  match l with
  | [] => 0
  | x :: l => (if x =? prev then 0 else 1) + changes x l
  end.

(** Why a wait ended: the last answer it got. *)
Definition wait_reason (code : Z) (s : list event) : Prop :=
  match code with
  | 0 => exists q a, last s = Some (Ask q a) /\ (q = q_IsINReady \/ q = q_IsOUTReceived) /\ a <> 0
  | 1 => exists a, last s = Some (Ask q_IsStalled a) /\ a <> 0
  | 2 => exists a, last s = Some (Ask q_DeviceState a) /\ u8 a = DEVICE_STATE_Unattached
  | 3 => exists a, last s = Some (Ask q_DeviceState a) /\ u8 a = DEVICE_STATE_Suspended
  | 4 => exists a, last s = Some (Ask q_GetFrameNumber a)
  | _ => False
  end.

Lemma wait_reason_app code s s' : wait_reason code s' -> wait_reason code (s ++ s').
Proof.
  assert (forall e, last s' = Some e -> last (s ++ s') = Some e) as H.
  { intros e. rewrite last_app. by intros ->. }
  unfold wait_reason. destruct code as [|[[|[]|]|[[]|[]|]|]|]; firstorder eauto 8.
Qed.

Lemma wait_reason_code code s : wait_reason code s -> 0 <= code <= 4.
Proof. unfold wait_reason. destruct code as [|[[|[]|]|[[]|[]|]|]|]; cbn; lia. Qed.

Lemma frames_app t t' : frames (t ++ t') = frames t ++ frames t'.
Proof. apply omap_app. Qed.
#[export] Hint Rewrite frames_app : trace_rw.
#[export] Hint Resolve wait_reason_app : trace.

Section wait.
Context (h : hw).

(** The result of a wait with [r] frames left, the last frame seen being [prev]. *)
Definition wait_post (r prev code : Z) (s : list event) : Prop :=
  silent s /\ wait_reason code s /\ changes prev (frames s) <= r + 1 /\
  (code = 4 -> changes prev (frames s) = r + 1).

Lemma wait_post_app r prev code s s' :
  silent s -> frames s = [] -> wait_post r prev code s' -> wait_post r prev code (s ++ s').
Proof.
  intros ? Hs (? & ? & ? & ?). unfold wait_post. rewrite frames_app, Hs. split_and!; auto with trace.
Qed.

(** A frame number that was read, and what followed. *)
Lemma wait_post_frame r prev r' code a s' :
  r' = r - (if u16 a =? prev then 0 else 1) -> wait_post r' (u16 a) code s' ->
  wait_post r prev code (Ask q_GetFrameNumber a :: s').
Proof.
  intros -> (? & ? & ? & ?). unfold wait_post. cbn [frames omap list_omap changes].
  change (omap _ s') with (frames s'). split_and!; auto with trace.
  - by apply (wait_reason_app _ [_]).
  - lia.
  - lia.
Qed.

Ltac wait_leaf :=
  unfold wait_post; cbn; split_and!; auto with trace; try lia; unfold truthy in *; bprop; eauto 7.

Lemma wait_loop_spec : forall fuel r prev t, 0 <= r < 256 ->
  wp false h (wait_loop fuel r prev) t (wait_post r prev).
Proof.
  induction fuel as [|fuel IH]; intros r prev t Hr; [done|]. cbn [wait_loop].
  repeat wp_step; rewrite ?app_nil_r; cbn [app].
  all: try (by wait_leaf); bprop.
  all: try (eapply wp_mono; [apply IH; first [exact Hr | apply u8_range]|intros code s Hs]).
  all: apply (wait_post_app _ _ _ [_; _; _; _]); auto 10 with trace.
  all: lazymatch goal with
       | |- wait_post _ _ _ [_] => wait_leaf; (destruct (Z.eqb_spec (u16 a3) prev); [done|lia])
       | _ => eapply wait_post_frame; [reflexivity|];
              rewrite ?(proj2 (Z.eqb_neq _ _)), ?(proj2 (Z.eqb_eq _ _)) by done
       end.
  - by rewrite u8_small in Hs by lia.
  - subst. by rewrite Z.sub_0_r.
  - by rewrite u8_small in Hs by lia.
  - subst. by rewrite Z.sub_0_r.
Qed.
End wait.

Lemma wait_until_ready h fuel t :
  wp false h (Endpoint_WaitUntilReady fuel) t (fun code s => silent s /\ wait_reason code s).
Proof.
  unfold Endpoint_WaitUntilReady. repeat wp_step.
  eapply wp_mono; [apply wait_loop_spec; done|]. intros code s (? & ? & _).
  split; [by auto with trace|]. by apply (wait_reason_app _ [_]).
Qed.

(** ** Streams *)

(** The bytes at [i], [i + dir], [i + 2 dir], ... of a buffer. *)
Definition bytes_at (buf : list Z) (i dir : Z) (k : nat) : list Z :=
  (fun j => default 0 (arr_get buf (i + dir * Z.of_nat j))) <$> seq 0 k.

Lemma bytes_at_S buf i dir k b :
  arr_get buf i = Some b -> bytes_at buf i dir (S k) = b :: bytes_at buf (i + dir) dir k.
Proof.
  intros Hb. unfold bytes_at. cbn [seq fmap list_fmap]. rewrite Z.mul_0_r, Z.add_0_r, Hb. cbn. f_equal.
  rewrite <-seq_shift, <-list_fmap_compose. apply list_fmap_ext. intros _ j _. cbn.
  do 2 f_equal. lia.
Qed.

Lemma length_bytes_at buf i dir k : length (bytes_at buf i dir k) = k.
Proof. unfold bytes_at. by rewrite length_fmap, length_seq. Qed.

Lemma bytes_at_LE buf i k :
  0 <= i -> i + Z.of_nat k <= Z.of_nat (length buf) ->
  bytes_at buf i 1 k = take k (drop (Z.to_nat i) buf).
Proof.
  intros. apply list_eq. intros j. unfold bytes_at. rewrite list_lookup_fmap.
  destruct (decide (j < k)%nat).
  - rewrite lookup_seq_lt, lookup_take_lt, lookup_drop by done. cbn.
    destruct (arr_get_is_Some buf (i + 1 * Z.of_nat j)) as [x Hx]; [lia|].
    rewrite Hx. cbn. apply arr_get_Some in Hx as [_ Hx]. rewrite <-Hx. f_equal. lia.
  - rewrite lookup_seq_ge, lookup_take_ge by lia. done.
Qed.

Lemma bytes_at_BE buf k :
  (k <= length buf)%nat ->
  bytes_at buf (Z.of_nat k - 1) (-1) k = reverse (take k buf).
Proof.
  revert buf. induction k as [|k IH]; intros buf Hk; [done|].
  destruct (lookup_lt_is_Some_2 buf k) as [x Hx]; [lia|].
  rewrite (take_S_r _ _ _ Hx), reverse_snoc, <-IH by lia.
  rewrite (bytes_at_S _ _ _ _ x) by (apply arr_get_Some; split; [lia|]; by rewrite <-Hx; f_equal; lia).
  do 2 f_equal. lia.
Qed.

Definition is_byte (b : Z) : Prop := 0 <= b < 256.
#[export] Instance is_byte_dec b : Decision (is_byte b).
Proof. unfold is_byte. apply _. Defined.

(** A template that writes buffer bytes in direction [dir]. *)
Class Writer (T : stream_template) (dir : Z) := {
    writer_clear : CLEAR_ENDPOINT T = Endpoint_ClearIN;
    writer_transfer : TRANSFER_BYTE T = write_byte;
    writer_move : forall p n, BUFFER_MOVE T p n = p + dir * n
  }.

#[export] Instance writer_LE : Writer write_LE 1.
Proof. by split; [done..|intros; cbn; lia]. Qed.
#[export] Instance writer_BE : Writer write_BE (-1).
Proof. by split; [done..|intros; cbn; lia]. Qed.

(** A template that stores the bytes it reads in direction [dir]. *)
Class Reader (T : stream_template) (dir : Z) := {
    reader_clear : CLEAR_ENDPOINT T = Endpoint_ClearOUT;
    reader_transfer : TRANSFER_BYTE T = read_byte;
    reader_move : forall p n, BUFFER_MOVE T p n = p + dir * n
  }.

#[export] Instance reader_LE : Reader read_LE 1.
Proof. by split; [done..|intros; cbn; lia]. Qed.
#[export] Instance reader_BE : Reader read_BE (-1).
Proof. by split; [done..|intros; cbn; lia]. Qed.

(** The positions a transfer of [n] bytes from [i] on uses are in the buffer. *)
Definition in_buffer (buf : list Z) (i dir n : Z) : Prop :=
  forall j, 0 <= j < n -> 0 <= i + dir * j < Z.of_nat (length buf).

Lemma in_buffer_step buf i dir n :
  in_buffer buf i dir n -> 0 < n -> in_buffer buf (i + dir) dir (n - 1).
Proof. intros H ? j ?. specialize (H (j + 1)). nia. Qed.

Lemma in_buffer_get buf i dir n :
  in_buffer buf i dir n -> 0 < n -> exists b, arr_get buf i = Some b.
Proof. intros H ?. apply arr_get_is_Some. specialize (H 0). lia. Qed.

(** The result of a transfer of [n] bytes of which [k] were moved; [bp] is
    [BytesProcessed] before it, [done] the bytes already moved in this call. *)
Definition stream_result (n : Z) (bp : option Z) (done : Z) (code : Z) (bp' : option Z) (k : nat) : Prop :=
  Z.of_nat k <= n /\
  (code = 0 -> Z.of_nat k = n /\ bp' = bp) /\
  (code = ENDPOINT_RWSTREAM_IncompleteTransfer ->
     exists b, bp = Some b /\ bp' = Some (u16 (b + (done + Z.of_nat k)))) /\
  (code <> ENDPOINT_RWSTREAM_IncompleteTransfer -> bp' = bp) /\
  0 <= code <= 5.

Lemma stream_result_step n bp d code bp' k :
  stream_result (n - 1) bp (d + 1) code bp' k -> stream_result n bp d code bp' (S k).
Proof.
  intros (? & H0 & H & ? & ?). split_and!; auto; try lia.
  - intros [? ?]%H0. split; [lia|done].
  - intros E. destruct (H E) as (b & -> & ->). exists b. split; [done|]. do 3 f_equal. lia.
Qed.

Lemma stream_result_done bp d : stream_result 0 bp d 0 bp 0.
Proof. by repeat split. Qed.

Lemma stream_result_incomplete n b d :
  0 <= n -> stream_result n (Some b) d ENDPOINT_RWSTREAM_IncompleteTransfer (Some (u16 (b + d))) 0.
Proof. intros. split_and!; try done. exists b. by rewrite Z.add_0_r. Qed.

Lemma stream_result_error n bp d code s :
  0 <= n -> wait_reason code s -> code <> 0 -> stream_result n bp d code bp 0.
Proof.
  intros ? ?%wait_reason_code ?. unfold stream_result, ENDPOINT_RWSTREAM_IncompleteTransfer.
  split_and!; try lia; intros; try done; exfalso; lia.
Qed.

Section write_stream.
Context (h : hw) (T : stream_template) (dir : Z) `{!Writer T dir}.
Context (buf : list Z) (Hbuf : Forall is_byte buf).

Lemma wp_write_byte tot i b t (Q : list Z -> list event -> Prop) :
  arr_get buf i = Some b -> Q buf [Cmd (c_Write_8 b)] ->
  wp tot h (TRANSFER_BYTE T buf i) t Q.
Proof.
  intros Hb HQ. rewrite writer_transfer. unfold write_byte. rewrite Hb. repeat wp_step; [done|].
  repeat wp_step. cbn [app].
  rewrite u8_small; [done|]. by eapply (arr_get_Forall is_byte).
Qed.

Definition write_post (i n d : Z) (bp : option Z)
    (r : Z * list Z * option Z) (s : list event) : Prop :=
  let '(code, buf', bp') := r in
  buf' = buf /\ received s = [] /\
  exists k, sent s = bytes_at buf i dir k /\ stream_result n bp d code bp' k.

Lemma write_post_app i n d bp r s s' :
  sent s = [] -> received s = [] -> write_post i n d bp r s' -> write_post i n d bp r (s ++ s').
Proof.
  destruct r as [[code buf'] bp']. intros Hs Hr (-> & ? & k & ? & ?).
  unfold write_post. rewrite sent_app, received_app, Hs, Hr. split_and!; eauto.
Qed.

Lemma write_post_step i n d bp r a b s :
  arr_get buf i = Some b -> write_post (i + dir) (n - 1) (d + 1) bp r s ->
  write_post i n d bp r (Ask q_IsReadWriteAllowed a :: Cmd (c_Write_8 b) :: s).
Proof.
  destruct r as [[code buf'] bp']. intros Hb (-> & Hr & k & Hs & ?). split_and!; [done|done|].
  exists (S k). split; [|by apply stream_result_step].
  erewrite bytes_at_S by done. cbn. f_equal. exact Hs.
Qed.

Lemma write_loop : forall fuel i n d bp t,
  0 <= d -> 0 <= n -> d + n < 65536 -> in_buffer buf i dir n ->
  wp false h (stream_loop T fuel buf i n d bp) t (write_post i n d bp).
Proof.
  induction fuel as [|fuel IH]; intros i n d bp t Hd Hn Hnd Hi; [done|]. cbn [stream_loop].
  wp_step; wp_step.
  { apply truthy_false in H. subst. split_and!; eauto using stream_result_done. by exists 0%nat. }
  apply truthy_true in H. repeat wp_step; cbn [app].
  - rewrite writer_clear. destruct bp as [b|]; repeat wp_step; cbn [app].
    + split_and!; [done..|]. exists 0%nat. eauto using stream_result_incomplete.
    + eapply wp_mono; [apply wait_until_ready|]. intros code s [Hs Hr]. cbn beta.
      wp_step; [wp_step|].
      * rewrite app_nil_r. split_and!; [done|exact (silent_received _ Hs)|]. exists 0%nat.
        split; [exact (silent_sent _ Hs)|]. eapply stream_result_error; eauto. by apply truthy_neq.
      * eapply wp_mono; [by apply IH|]. intros r s' Hp.
        apply (write_post_app _ _ _ _ _ (_ :: _ :: _ :: s)); [exact (silent_sent _ Hs)|exact (silent_received _ Hs)|done].
  - destruct (in_buffer_get _ _ _ _ Hi) as [b Hb]; [lia|]. eapply wp_write_byte; [done|].
    rewrite writer_move, Z.mul_1_r, !u16_small by lia.
    eapply wp_mono; [apply IH; try lia; apply in_buffer_step; auto with lia|].
    intros r s Hp. by apply write_post_step.
Qed.
End write_stream.

(** [buf] with the bytes [l] stored at [i], [i + dir], ... *)
Fixpoint store_at (buf : list Z) (i dir : Z) (l : list Z) : list Z :=
  match l with
  | [] => buf
  | b :: l => store_at (<[Z.to_nat i := b]> buf) (i + dir) dir l
  end.

Lemma store_at_LE buf i l :
  0 <= i -> i + Z.of_nat (length l) <= Z.of_nat (length buf) ->
  store_at buf i 1 l = take (Z.to_nat i) buf ++ l ++ drop (Z.to_nat i + length l) buf.
Proof.
  revert buf i. induction l as [|b l IH]; intros buf i Hi Hl; cbn [store_at length] in *.
  { cbn. by rewrite Nat.add_0_r, take_drop. }
  rewrite IH by (rewrite ?length_insert; lia).
  replace (Z.to_nat (i + 1)) with (S (Z.to_nat i)) by lia.
  erewrite take_S_r by (apply list_lookup_insert_eq; lia).
  rewrite take_insert_ge, drop_insert_lt by lia. rewrite <-app_assoc. cbn. do 4 f_equal. lia.
Qed.

Section read_stream.
Context (h : hw) (T : stream_template) (dir : Z) `{!Reader T dir}.

Lemma wp_read_byte tot buf i t (Q : list Z -> list event -> Prop) :
  0 <= i < Z.of_nat (length buf) ->
  (forall a, Q (<[Z.to_nat i := u8 a]> buf) [Ask q_Read_8 a]) ->
  wp tot h (TRANSFER_BYTE T buf i) t Q.
Proof.
  intros Hi HQ. rewrite reader_transfer. unfold read_byte. repeat wp_step.
  - by apply arr_set_Some.
  - cbn [app]. apply HQ.
Qed.

Definition read_post (buf : list Z) (i n d : Z) (bp : option Z)
    (r : Z * list Z * option Z) (s : list event) : Prop :=
  let '(code, buf', bp') := r in
  sent s = [] /\ buf' = store_at buf i dir (received s) /\
  stream_result n bp d code bp' (length (received s)).

Lemma read_post_app buf i n d bp r s s' :
  sent s = [] -> received s = [] -> read_post buf i n d bp r s' -> read_post buf i n d bp r (s ++ s').
Proof.
  destruct r as [[code buf'] bp']. intros Hs Hr (? & ? & ?).
  unfold read_post. by rewrite sent_app, received_app, Hs, Hr.
Qed.

Lemma read_post_step buf i n d bp r a b s :
  read_post (<[Z.to_nat i := u8 b]> buf) (i + dir) (n - 1) (d + 1) bp r s ->
  read_post buf i n d bp r (Ask q_IsReadWriteAllowed a :: Ask q_Read_8 b :: s).
Proof.
  destruct r as [[code buf'] bp']. intros (? & ? & ?). split_and!; [done|done|].
  by apply stream_result_step.
Qed.

Lemma read_loop : forall fuel buf i n d bp t,
  0 <= d -> 0 <= n -> d + n < 65536 -> in_buffer buf i dir n ->
  wp false h (stream_loop T fuel buf i n d bp) t (read_post buf i n d bp).
Proof.
  induction fuel as [|fuel IH]; intros buf i n d bp t Hd Hn Hnd Hi; [done|]. cbn [stream_loop].
  wp_step; wp_step.
  { apply truthy_false in H. subst. split_and!; eauto using stream_result_done. }
  apply truthy_true in H. repeat wp_step; cbn [app].
  - rewrite reader_clear. destruct bp as [b|]; repeat wp_step; cbn [app].
    + split_and!; [done..|]. eauto using stream_result_incomplete.
    + eapply wp_mono; [apply wait_until_ready|]. intros code s [Hs Hr]. cbn beta.
      assert (received (Ask q_IsReadWriteAllowed a :: Cmd c_ClearOUT :: Cmd c_USBTask :: s) = [])
        as Hrec by exact (silent_received _ Hs).
      wp_step; [wp_step|].
      * rewrite app_nil_r. unfold read_post. rewrite Hrec. split_and!; [exact (silent_sent _ Hs)|done|].
        eapply stream_result_error; eauto. by apply truthy_neq.
      * eapply wp_mono; [by apply IH|]. intros r s' Hp.
        apply (read_post_app _ _ _ _ _ _ (_ :: _ :: _ :: s)); [exact (silent_sent _ Hs)|done|done].
  - apply wp_read_byte; [specialize (Hi 0); lia|]. intros b. cbn beta.
    rewrite reader_move, Z.mul_1_r, !u16_small by lia.
    eapply wp_mono; [apply IH; try lia|].
    { intros j Hj. rewrite length_insert. eapply in_buffer_step; eauto. lia. }
    intros r s Hp. by apply read_post_step.
Qed.
End read_stream.

(** ** A host that keeps up *)

(** Endpoints are always ready, and a bank that was full is free again after it
    was released with [clear] and the endpoint was waited for. *)
Definition cooperative (h : hw) (clear : command) : Prop :=
  (forall t, h t q_IsINReady <> 0 /\ h t q_IsOUTReceived <> 0) /\
  (forall t s, h t q_IsReadWriteAllowed = 0 -> silent s ->
     h (t ++ Ask q_IsReadWriteAllowed 0 :: Cmd clear :: Cmd c_USBTask :: s)
       q_IsReadWriteAllowed <> 0).

Section cooperative.
Context (h : hw).

Lemma wait_ready_now fuel t :
  (forall t, h t q_IsINReady <> 0 /\ h t q_IsOUTReceived <> 0) -> (1 <= fuel)%nat ->
  wp true h (Endpoint_WaitUntilReady fuel) t (fun code s => code = 0 /\ silent s).
Proof.
  intros Hr Hf. destruct fuel as [|fuel]; [lia|]. unfold Endpoint_WaitUntilReady. cbn [wait_loop].
  repeat wp_step.
  all: try (by split; [done|auto 12 with trace]).
  all: exfalso; match goal with
       | H : h ?x ?q = ?a, H' : truthy ?a = false |- _ =>
           apply truthy_eq in H'; destruct (Hr x); congruence
       end.
Qed.

(** A transfer that moves one byte a round, whatever it does with it. *)
Section returns.
Context (T : stream_template) (c : command) (dir : Z).
Context (Hco : cooperative h c) (Hcl : CLEAR_ENDPOINT T = cmd c)
  (Hmv : forall p, BUFFER_MOVE T p 1 = p + dir)
  (Htr : forall buf i t, 0 <= i < Z.of_nat (length buf) ->
     wp true h (TRANSFER_BYTE T buf i) t (fun buf' _ => length buf' = length buf)).

Let returns fuel buf i n d t : Prop :=
  wp true h (stream_loop T fuel buf i (Z.of_nat n) d None) t (fun r _ => r.1.1 = 0).

Lemma transfer_returns n fuel buf i d t :
  (forall buf i d t, in_buffer buf i dir (Z.of_nat n) -> returns fuel buf i n d t) ->
  Z.of_nat (S n) < 65536 -> in_buffer buf i dir (Z.of_nat (S n)) ->
  wp true h (Buffer ← TRANSFER_BYTE T buf i;
             stream_loop T fuel Buffer (BUFFER_MOVE T i 1) (u16 (Z.of_nat (S n) - 1)) (u16 (d + 1)) None)
     t (fun r _ => r.1.1 = 0).
Proof.
  intros IH Hn Hi. wp_step. eapply wp_mono; [apply Htr; specialize (Hi 0); lia|]. intros buf' s Hl. cbn beta.
  rewrite Hmv, u16_small by lia. replace (Z.of_nat (S n) - 1) with (Z.of_nat n) by lia.
  apply IH. intros j Hj. rewrite Hl. eapply in_buffer_step; [eauto|lia|lia].
Qed.

Lemma stream_loop_returns : forall n fuel buf i d t,
  (2 * n + 1 <= fuel)%nat -> Z.of_nat n < 65536 -> in_buffer buf i dir (Z.of_nat n) ->
  returns fuel buf i n d t.
Proof.
  assert (Htt : forall n, negb (truthy (Z.of_nat (S n))) = false).
  { intros. unfold truthy. rewrite negb_involutive. apply Z.eqb_neq. lia. }
  induction n as [|n IH]; intros fuel buf i d t Hf Hn Hi; destruct fuel as [|fuel]; try lia;
    [by apply wp_ret..|].
  unfold returns. cbn [stream_loop]. rewrite Htt. wp_step. wp_step. wp_step. wp_step.
  - rewrite Hcl. do 4 wp_step. wp_step.
    eapply wp_mono; [apply wait_ready_now; [apply Hco|lia]|]. intros code s [-> Hs]. cbn beta.
    replace (truthy 0) with false by done. destruct fuel as [|fuel]; [lia|].
    cbn [stream_loop]. rewrite Htt.
    do 4 wp_step.
    + exfalso. apply truthy_false in H0, H2. subst. rewrite <-!app_assoc in H2.
      rewrite H0 in H2. by destruct (proj2 Hco t s).
    + apply transfer_returns; [|done|done]. intros. apply IH; [lia|lia|done].
  - apply transfer_returns; [|done|done]. intros. apply IH; [lia|lia|done].
Qed.
End returns.
End cooperative.

(** ** A host that sends given bytes *)

(** From the history [t0] on, the host sends the bytes [B]. *)
Definition delivers (h : hw) (t0 : list event) (B : list Z) : Prop :=
  forall s, h (t0 ++ s) q_Read_8 = nth (length (received s)) B 0.

Lemma delivered_nth h t0 B s i x :
  valid h t0 s -> delivers h t0 B -> received s !! i = Some x -> x = u8 (nth i B 0).
Proof.
  intros Hv Hd. induction s as [|e s IH] using rev_ind; [done|].
  apply valid_app in Hv as [Hv He]. rewrite received_app.
  assert (received [e] = [] \/ exists a, e = Ask q_Read_8 a /\ received [e] = [u8 a]) as [E|(a & -> & E)]
    by (destruct e as [[] ?|?]; cbn; eauto).
  - rewrite E, app_nil_r. auto.
  - rewrite E. intros [Hi|[Hi Hx]]%lookup_app_Some; [auto|].
    destruct He as [Ha _]. rewrite Hd in Ha. subst a.
    destruct (decide (i = length (received s))) as [->|Hne].
    + rewrite Nat.sub_diag in Hx. cbn in Hx. congruence.
    + rewrite lookup_ge_None_2 in Hx by (cbn; lia). done.
Qed.

(** What was read is what the host sent, as far as it goes. *)
Lemma delivered h t0 B s k :
  valid h t0 s -> delivers h t0 B -> Forall is_byte B -> (k <= length (received s))%nat -> (k <= length B)%nat ->
  take k (received s) = take k B.
Proof.
  intros Hv Hd HB Hk HkB. apply list_eq_same_length with k; [rewrite length_take; lia..|].
  intros i x y Hi [Hx _]%lookup_take_Some [Hy _]%lookup_take_Some.
  rewrite (delivered_nth _ _ _ _ _ _ Hv Hd Hx), nth_lookup, Hy. cbn. apply u8_small.
  by apply (Forall_lookup_1 _ _ _ _ HB Hy).
Qed.

Lemma received_bytes s : Forall is_byte (received s).
Proof.
  induction s as [|[[] a|c] s IH]; try exact IH; [constructor|]. constructor; [apply u8_range|exact IH].
Qed.

Lemma delivers_shift h t B1 B2 s :
  delivers h t (B1 ++ B2) -> length (received s) = length B1 -> delivers h (t ++ s) B2.
Proof. intros Hd Hl s'. rewrite <- app_assoc, (Hd (s ++ s')), received_app, length_app, Hl, app_nth2 by lia. f_equal. lia. Qed.

(** The device stays configured. *)
Definition configured (h : hw) : Prop := forall t, h t q_DeviceState = DEVICE_STATE_Configured.

(** ** Properties of the streams *)

(** Waiting for an endpoint only polls the hardware; it reports success when
    the last poll found the endpoint ready, a stall, a disconnection or a
    suspension when the last poll showed it, and a timeout after the frame number
    was seen to change more than [USB_STREAM_TIMEOUT_MS] times and not earlier. *)
Theorem wait_until_ready_spec h fuel t :
  wp false h (Endpoint_WaitUntilReady fuel) t (fun code s =>
    silent s /\ wait_reason code s /\
    exists f fs, frames s = f :: fs /\ changes f fs <= USB_STREAM_TIMEOUT_MS + 1 /\
      (code = ENDPOINT_READYWAIT_Timeout -> changes f fs = USB_STREAM_TIMEOUT_MS + 1)).
Proof.
  unfold Endpoint_WaitUntilReady. repeat wp_step.
  eapply wp_mono; [apply wait_loop_spec; done|]. intros code s (? & ? & ? & ?).
  split_and!; [by auto with trace|by apply (wait_reason_app _ [_])|].
  exists (u16 a), (frames s). done.
Qed.

(** [BytesProcessed] as a number: a null pointer starts at zero. *)
Definition start (bp : option Z) : Z := default 0 bp.

Definition valid_start (Length : Z) (bp : option Z) : Prop := 0 <= start bp <= Length.

Lemma remaining_start Length bp :
  0 <= Length < 65536 -> valid_start Length bp -> remaining Length bp = Length - start bp.
Proof. destruct bp as [b|]; unfold valid_start; cbn; intros; [rewrite u16_small by lia|]; lia. Qed.

Lemma bytes_at_take buf i dir n k :
  (k <= n)%nat -> bytes_at buf i dir k = take k (bytes_at buf i dir n).
Proof. intros. unfold bytes_at. rewrite <-fmap_take, take_seq. do 2 f_equal. lia. Qed.

Lemma bytes_at_app buf i dir k k' :
  bytes_at buf i dir (k + k') = bytes_at buf i dir k ++ bytes_at buf (i + dir * Z.of_nat k) dir k'.
Proof.
  unfold bytes_at. rewrite seq_app, fmap_app. f_equal. cbn.
  rewrite <-(Nat.add_0_r k) at 1. rewrite <-fmap_add_seq, <-list_fmap_compose.
  apply list_fmap_ext. intros _ j _. cbn. do 2 f_equal. lia.
Qed.

(** Every stream routine waits for the endpoint first. *)
Lemma wp_wait_first {A} h fuel t (m : io A) (Q : A -> list event -> Prop) ret :
  (forall code s, wait_reason code s -> silent s -> code <> 0 -> Q (ret code) s) ->
  (forall s, silent s -> wp false h m (t ++ s) (fun a s' => Q a (s ++ s'))) ->
  wp false h (ErrorCode ← Endpoint_WaitUntilReady fuel;
              if truthy ErrorCode then mret (ret ErrorCode) else m) t Q.
Proof.
  intros He Hm. wp_step. eapply wp_mono; [apply wait_until_ready|]. intros code s [Hs Hr]. cbn beta.
  wp_step; [wp_step; rewrite app_nil_r; eauto using truthy_neq|]. by apply Hm.
Qed.

Section streams.
Context (h : hw) (fuel : nat) (buf : list Z) (Length : Z) (bp : option Z) (t : list event).
Context (HL : 0 <= Length < 65536) (Hlen : Length <= Z.of_nat (length buf))
        (Hbp : valid_start Length bp).

Lemma template_write T dir `{!Writer T dir} :
  Forall is_byte buf -> in_buffer buf (BUFFER_OFFSET T Length + dir * start bp) dir (Length - start bp) ->
  wp false h (Template_Endpoint_RW T fuel buf Length bp) t
    (write_post dir buf (BUFFER_OFFSET T Length + dir * start bp) (Length - start bp) 0 bp).
Proof.
  intros Hb Hin. unfold Template_Endpoint_RW. apply wp_wait_first with (ret := fun c => (c, buf, bp)).
  - intros code s Hr Hs Hc. split_and!; [done|by apply silent_received|]. exists 0%nat.
    split; [by apply silent_sent|]. eapply stream_result_error; eauto. unfold valid_start in Hbp. lia.
  - intros s Hs.
    replace (match bp with Some b => _ | None => _ end) with (BUFFER_OFFSET T Length + dir * start bp)
      by (destruct bp; cbn; rewrite ?writer_move; lia).
    rewrite remaining_start by done. unfold valid_start in Hbp.
    eapply wp_mono; [apply write_loop; first [done | lia]|]. intros r s' Hr.
    apply write_post_app; auto using silent_sent, silent_received.
Qed.

Lemma template_read T dir `{!Reader T dir} :
  in_buffer buf (BUFFER_OFFSET T Length + dir * start bp) dir (Length - start bp) ->
  wp false h (Template_Endpoint_RW T fuel buf Length bp) t
    (read_post dir buf (BUFFER_OFFSET T Length + dir * start bp) (Length - start bp) 0 bp).
Proof.
  intros Hin. unfold Template_Endpoint_RW. apply wp_wait_first with (ret := fun c => (c, buf, bp)).
  - intros code s Hr Hs Hc. unfold read_post. rewrite silent_received, silent_sent by done.
    split_and!; [done..|]. eapply stream_result_error; eauto. unfold valid_start in Hbp. lia.
  - intros s Hs.
    replace (match bp with Some b => _ | None => _ end) with (BUFFER_OFFSET T Length + dir * start bp)
      by (destruct bp; cbn; rewrite ?reader_move; lia).
    rewrite remaining_start by done. unfold valid_start in Hbp.
    eapply wp_mono; [apply read_loop; first [done | lia]|]. intros r s' Hr.
    apply read_post_app; auto using silent_sent, silent_received.
Qed.

Lemma write_le_ok :
  Forall is_byte buf ->
  wp false h (Endpoint_Write_Stream_LE fuel buf Length bp) t (fun '(code, buf', bp') s =>
    buf' = buf /\ received s = [] /\
    exists k, sent s = take k (drop (Z.to_nat (start bp)) buf) /\
      stream_result (Length - start bp) bp 0 code bp' k).
Proof.
  intros Hb. unfold valid_start in Hbp. eapply wp_mono; [apply (template_write write_LE 1 Hb)|].
  { intros j Hj. cbn. lia. }
  intros [[code buf'] bp'] s (-> & Hr & k & Hs & Hres). split_and!; [done..|]. exists k.
  split; [|done]. rewrite Hs. cbn. rewrite bytes_at_LE by (destruct Hres; lia). do 2 f_equal. lia.
Qed.

(** Writing a buffer to an endpoint never reads outside the buffer, and
    whatever the host does it sends a prefix of the bytes from the start
    position on, in order: all of them when it reports success; when it reports an
    incomplete transfer, [BytesProcessed] is advanced by exactly the bytes sent, so
    that the next call continues where this one stopped. *)
Theorem write_stream_le_spec :
  Forall is_byte buf ->
  wp false h (Endpoint_Write_Stream_LE fuel buf Length bp) t (fun '(code, buf', bp') s =>
    buf' = buf /\ received s = [] /\
    exists k, sent s = take k (drop (Z.to_nat (start bp)) buf) /\
      stream_result (Length - start bp) bp 0 code bp' k).
Proof. apply write_le_ok. Qed.

(** The big-endian write sends the same bytes, last byte first. *)
Theorem write_stream_be_spec :
  Forall is_byte buf ->
  wp false h (Endpoint_Write_Stream_BE fuel buf Length bp) t (fun '(code, buf', bp') s =>
    buf' = buf /\ received s = [] /\
    exists k, sent s = take k (reverse (take (Z.to_nat (Length - start bp)) buf)) /\
      stream_result (Length - start bp) bp 0 code bp' k).
Proof.
  intros Hb. unfold valid_start in Hbp. eapply wp_mono; [apply (template_write write_BE (-1) Hb)|].
  { intros j Hj. cbn. lia. }
  intros [[code buf'] bp'] s (-> & Hr & k & Hs & Hres). split_and!; [done..|]. exists k.
  split; [|done]. rewrite Hs, (bytes_at_take _ _ _ (Z.to_nat (Length - start bp))) by (destruct Hres; lia).
  rewrite <-bytes_at_BE by lia. cbn. do 2 f_equal. lia.
Qed.

Lemma read_le_ok :
  wp false h (Endpoint_Read_Stream_LE fuel buf Length bp) t (fun '(code, buf', bp') s =>
    sent s = [] /\
    buf' = take (Z.to_nat (start bp)) buf ++ received s ++
           drop (Z.to_nat (start bp) + length (received s)) buf /\
    stream_result (Length - start bp) bp 0 code bp' (length (received s))).
Proof.
  unfold valid_start in Hbp. eapply wp_mono; [apply (template_read read_LE 1)|].
  { intros j Hj. cbn. lia. }
  intros [[code buf'] bp'] s (? & -> & Hres). split_and!; [done| |done].
  cbn [read_LE BUFFER_OFFSET]. rewrite !Z.mul_1_l, !Z.add_0_l. apply store_at_LE; destruct Hres; lia.
Qed.

(** Reading from an endpoint stores the bytes received, in order, from the
    start position on and changes nothing else of the buffer; it never writes
    outside it, and success means that the requested number of bytes was read. *)
Theorem read_stream_le_spec :
  wp false h (Endpoint_Read_Stream_LE fuel buf Length bp) t (fun '(code, buf', bp') s =>
    sent s = [] /\
    buf' = take (Z.to_nat (start bp)) buf ++ received s ++
           drop (Z.to_nat (start bp) + length (received s)) buf /\
    stream_result (Length - start bp) bp 0 code bp' (length (received s))).
Proof. apply read_le_ok. Qed.
End streams.

(** With a host that keeps up the streams end. *)
Lemma stream_completes h T c dir fuel buf Length t :
  cooperative h c -> CLEAR_ENDPOINT T = cmd c -> (forall p, BUFFER_MOVE T p 1 = p + dir) ->
  (forall buf i t, 0 <= i < Z.of_nat (length buf) ->
     wp true h (TRANSFER_BYTE T buf i) t (fun buf' _ => length buf' = length buf)) ->
  0 <= Length < 65536 -> in_buffer buf (BUFFER_OFFSET T Length) dir Length ->
  (2 * Z.to_nat Length + 1 <= fuel)%nat ->
  wp true h (Template_Endpoint_RW T fuel buf Length None) t (fun r _ => r.1.1 = 0).
Proof.
  intros Hco Hcl Hmv Htr HL Hin Hf. unfold Template_Endpoint_RW. wp_step.
  eapply wp_mono; [apply wait_ready_now; [apply Hco|lia]|]. intros code s [-> Hs]. cbn beta.
  change (truthy 0) with false. cbn [remaining].
  replace (stream_loop T fuel buf (BUFFER_OFFSET T Length) Length)
    with (stream_loop T fuel buf (BUFFER_OFFSET T Length) (Z.of_nat (Z.to_nat Length))) by (f_equal; lia).
  eapply (stream_loop_returns h T c dir); eauto; try lia. by rewrite Z2Nat.id by lia.
Qed.

Lemma write_completes h fuel buf Length t :
  cooperative h c_ClearIN -> Forall is_byte buf ->
  0 <= Length < 65536 -> Length <= Z.of_nat (length buf) -> (2 * Z.to_nat Length + 1 <= fuel)%nat ->
  wp true h (Endpoint_Write_Stream_LE fuel buf Length None) t (fun r s =>
    r = (0, buf, None) /\ received s = [] /\ sent s = take (Z.to_nat Length) buf).
Proof.
  intros Hco Hb HL Hlen Hf.
  assert (wp true h (Endpoint_Write_Stream_LE fuel buf Length None) t (fun r _ => r.1.1 = 0)) as Ht.
  { apply (stream_completes h write_LE c_ClearIN 1); auto; [|intros j Hj; cbn; lia].
    intros buf' i t' Hi. destruct (arr_get_is_Some _ _ Hi) as [x Hx]. cbn [TRANSFER_BYTE write_LE].
    unfold write_byte. rewrite Hx. repeat wp_step; [done|]. repeat wp_step. done. }
  pose proof (write_le_ok h fuel buf Length None t HL Hlen) as Hp.
  eapply wp_mono; [apply (wp_combine _ _ _ _ _ Ht (Hp ltac:(unfold valid_start; cbn; lia) Hb))|].
  intros [[code buf'] bp'] s (Hc & -> & Hr & k & Hs & (? & Hres & _)). cbn in Hc. subst.
  destruct (Hres eq_refl) as [? ->]. split_and!; [done..|]. rewrite Hs. cbn in *. f_equal. lia.
Qed.

Lemma read_completes h fuel buf Length t :
  cooperative h c_ClearOUT ->
  0 <= Length < 65536 -> Length <= Z.of_nat (length buf) -> (2 * Z.to_nat Length + 1 <= fuel)%nat ->
  wp true h (Endpoint_Read_Stream_LE fuel buf Length None) t (fun r s =>
    r = (0, received s ++ drop (Z.to_nat Length) buf, None) /\
    sent s = [] /\ Z.of_nat (length (received s)) = Length).
Proof.
  intros Hco HL Hlen Hf.
  assert (wp true h (Endpoint_Read_Stream_LE fuel buf Length None) t (fun r _ => r.1.1 = 0)) as Ht.
  { apply (stream_completes h read_LE c_ClearOUT 1); auto; [|intros j Hj; cbn; lia].
    intros buf' i t' Hi. apply (wp_read_byte h read_LE 1); [done|]. intros. apply length_insert. }
  pose proof (read_le_ok h fuel buf Length None t HL Hlen ltac:(unfold valid_start; cbn; lia)) as Hp.
  eapply wp_mono; [apply (wp_combine _ _ _ _ _ Ht Hp)|].
  intros [[code buf'] bp'] s (Hc & Hs & -> & (? & Hres & _)). cbn in Hc. subst.
  destruct (Hres eq_refl) as [E ->]. cbn [start default] in *. rewrite Z.sub_0_r in E.
  split_and!; [|done|done]. by replace (Z.to_nat 0 + length (received s))%nat with (Z.to_nat Length) by lia.
Qed.

(** With a host that keeps up, a write of [Length] bytes in one call succeeds
    and sends exactly the first [Length] bytes of the buffer, whatever the packet
    size (termination within two rounds per byte). *)
Theorem write_stream_completes h fuel buf Length t :
  cooperative h c_ClearIN -> Forall is_byte buf ->
  0 <= Length < 65536 -> Length <= Z.of_nat (length buf) -> (2 * Z.to_nat Length + 1 <= fuel)%nat ->
  exists s, Endpoint_Write_Stream_LE fuel buf Length None h t = Returns (0, buf, None, t ++ s) /\
            sent s = take (Z.to_nat Length) buf.
Proof.
  intros. destruct (wp_total _ _ _ _ (write_completes h fuel buf Length t ltac:(done) ltac:(done) ltac:(done)
    ltac:(done) ltac:(done))) as (r & s & E & -> & _ & Hs). eauto.
Qed.

(** ** Witnesses *)

(** The number of bytes moved since the bank was last released. *)
Definition in_bank (t : list event) : nat :=
  foldl (fun n e => match e with
                    | Cmd (c_Write_8 _) | Ask q_Read_8 _ => S n
                    | Cmd (c_ClearIN | c_ClearOUT) => O
                    | _ => n
                    end) O t.

(** A host that keeps up, with banks of two bytes. *)
Definition ready_host : hw := fun t q =>
  match q with
  | q_IsINReady | q_IsOUTReceived => 1
  | q_IsReadWriteAllowed => if decide (in_bank t < 2)%nat then 1 else 0
  | q_Read_8 => 65 + Z.of_nat (length (received t))
  | _ => 0
  end.

Lemma in_bank_silent t s : silent s -> in_bank (t ++ s) = in_bank t.
Proof.
  intros Hs. unfold in_bank. rewrite foldl_app. generalize (foldl (fun n e => match e with
    | Cmd (c_Write_8 _) | Ask q_Read_8 _ => S n | Cmd (c_ClearIN | c_ClearOUT) => O | _ => n end) O t).
  induction Hs as [|[[] ?|?] s Hx Hs IH]; intros n; cbn in *; done.
Qed.

Lemma ready_host_cooperative : cooperative ready_host c_ClearIN.
Proof.
  split; [done|]. intros t s _ Hs. cbn [ready_host].
  replace (t ++ _) with ((t ++ [Ask q_IsReadWriteAllowed 0; Cmd c_ClearIN; Cmd c_USBTask]) ++ s)
    by by rewrite <-app_assoc.
  rewrite in_bank_silent by done. unfold in_bank. rewrite foldl_app. done.
Qed.

Definition four_bytes : list Z := [10; 20; 30; 40].

Lemma four_bytes_ok : Forall is_byte four_bytes.
Proof. apply (bool_decide_eq_true_1 _). by vm_compute. Qed.

Lemma write_stream_completes_witness :
  exists s, Endpoint_Write_Stream_LE 7 four_bytes 3 None ready_host [] = Returns (0, four_bytes, None, s) /\
            sent s = [10; 20; 30].
Proof.
  destruct (write_stream_completes ready_host 7 four_bytes 3 [] ready_host_cooperative four_bytes_ok)
    as (s & E & Hs); [lia|by vm_compute|by vm_compute|]. exists s. split; [exact E|exact Hs].
Defined.

Lemma write_stream_le_spec_witness :
  match Endpoint_Write_Stream_LE 20 four_bytes 4 (Some 1) ready_host [] with
  | Returns (code, _, bp', s) => exists k, sent s = take k [20; 30; 40] /\ stream_result 3 (Some 1) 0 code bp' k
  | _ => False
  end.
Proof.
  pose proof (write_stream_le_spec ready_host 20 four_bytes 4 (Some 1) [] ltac:(lia) ltac:(by vm_compute)
    ltac:(by vm_compute) four_bytes_ok) as H.
  apply wp_run_eq in H. destruct (Endpoint_Write_Stream_LE _ _ _ _ _ _) as [[[[code buf'] bp'] s]| |] eqn:E.
  - destruct H as (s' & -> & _ & _ & H). exact H.
  - exact H.
  - vm_compute in E. discriminate E.
Defined.

Lemma write_stream_be_spec_witness :
  match Endpoint_Write_Stream_BE 20 four_bytes 4 None ready_host [] with
  | Returns (code, _, bp', s) => exists k, sent s = take k [40; 30; 20; 10] /\ stream_result 4 None 0 code bp' k
  | _ => False
  end.
Proof.
  pose proof (write_stream_be_spec ready_host 20 four_bytes 4 None [] ltac:(lia) ltac:(by vm_compute)
    ltac:(by vm_compute) four_bytes_ok) as H.
  apply wp_run_eq in H. destruct (Endpoint_Write_Stream_BE _ _ _ _ _ _) as [[[[code buf'] bp'] s]| |] eqn:E.
  - destruct H as (s' & -> & _ & _ & H). exact H.
  - exact H.
  - vm_compute in E. discriminate E.
Defined.

Lemma read_stream_le_spec_witness :
  match Endpoint_Read_Stream_LE 20 four_bytes 4 (Some 1) ready_host [] with
  | Returns (code, buf', bp', s) =>
      buf' = take 1 four_bytes ++ received s ++ drop (1 + length (received s)) four_bytes
  | _ => False
  end.
Proof.
  pose proof (read_stream_le_spec ready_host 20 four_bytes 4 (Some 1) [] ltac:(lia) ltac:(by vm_compute)
    ltac:(by vm_compute)) as H.
  apply wp_run_eq in H. destruct (Endpoint_Read_Stream_LE _ _ _ _ _ _) as [[[[code buf'] bp'] s]| |] eqn:E.
  - destruct H as (s' & -> & _ & H & _). exact H.
  - exact H.
  - vm_compute in E. discriminate E.
Defined.
