(* ===== verification/ControlStream.v ===== *)
(** * Correctness of control transfers

    The data stage of a control transfer: what
    [Template_Endpoint_Control_W.c] and [Template_Endpoint_Control_R.c] put on
    the wire, for every host, and that they complete with a host that follows the
    protocol. *)
From S2P Require Import Prelude ConfigDescriptors USBIo Endpoint EndpointSpec.

(** ** Sending *)

Section control_write.
Context (h : hw) (T : stream_template) (dir : Z) `{!Writer T dir}.
Context (buf : list Z) (Hbuf : Forall is_byte buf) (size : Z) (Hsize : 0 < size < 256).

(** How many bytes one packet takes when [B] are in the endpoint already. *)
Definition packet_room (n B : Z) : nat := Z.to_nat (n `min` (size - B)).

Lemma fill_packet_spec tot : forall f i n B t,
  (Z.to_nat n <= f)%nat -> 0 <= n < 65536 -> 0 <= B < 65536 -> in_buffer buf i dir n ->
  wp tot h (fill_packet T size f buf i n B) t (fun r s =>
    let k := packet_room n B in
    r = (i + dir * Z.of_nat k, n - Z.of_nat k, B + Z.of_nat k) /\ s = writes (bytes_at buf i dir k)).
Proof.
  assert (Hend : forall f i n B t, 0 <= n -> (truthy n && (B <? size)) = false ->
    wp tot h (fill_packet T size f buf i n B) t (fun r s =>
      let k := packet_room n B in
      r = (i + dir * Z.of_nat k, n - Z.of_nat k, B + Z.of_nat k) /\ s = writes (bytes_at buf i dir k))).
  { intros f i n B t Hn He.
    assert (packet_room n B = 0%nat) as ->.
    { unfold packet_room. apply andb_false_iff in He as [He%truthy_eq|He]; bprop; lia. }
    destruct f; cbn [fill_packet]; rewrite He; wp_step; (split; [|done]); repeat f_equal; lia. }
  induction f as [|f IH]; intros i n B t Hf Hn HB Hi.
  { apply Hend; [lia|]. replace n with 0 by lia. done. }
  destruct (truthy n && (B <? size)) eqn:E; [|by apply Hend; [lia|]].
  cbn [fill_packet]. rewrite E. apply andb_true_iff in E as [En%truthy_neq EB]. bprop.
  destruct (in_buffer_get _ _ _ _ Hi) as [b Hb]; [lia|].
  wp_step. eapply wp_write_byte; [done..|]. rewrite writer_move, Z.mul_1_r, !u16_small by lia.
  eapply wp_mono; [apply IH; try lia; apply in_buffer_step; auto; lia|].
  intros r s (-> & ->). cbv zeta.
  assert (packet_room n B = S (packet_room (n - 1) (B + 1))) as -> by (unfold packet_room; lia).
  erewrite bytes_at_S by done. split; [|done]. rewrite Nat2Z.inj_succ. f_equal; [f_equal|]; lia.
Qed.

(** The status stage: the code is one of four, the wait only polls. *)
Lemma wait_status_spec q fuel t :
  q <> q_Read_8 -> q <> q_SPDR ->
  wp false h (wait_status fuel (ask_bool q)) t (fun code s =>
    silent s /\ 0 <= code <= 3 /\ (code = 0 -> exists a, last s = Some (Ask q a) /\ a <> 0)).
Proof.
  intros Hq Hq'. revert t. induction fuel as [|fuel IH]; intros t; [done|]. cbn [wait_status].
  repeat wp_step; rewrite ?app_nil_r; cbn [app].
  - split_and!; auto with trace; try done. intros _. exists a. by apply truthy_neq in H0.
  - split_and!; auto with trace; done.
  - split_and!; auto with trace; done.
  - eapply wp_mono; [apply IH|]. intros code s (? & ? & Hl). split_and!; auto with trace; try lia.
    intros E. destruct (Hl E) as (x & Hx & ?). exists x. by rewrite !last_cons, Hx.
Qed.

(** The result of a data stage that had [n] bytes from position [i] to send. *)
Definition write_stage (i n : Z) (code : Z) (s : list event) : Prop :=
  received s = [] /\ data_stage s /\ pending_from [] s = [] /\ Forall (fun p => Z.of_nat (length p) <= size) (packets s) /\
  0 <= code <= 3 /\
  (code = 0 -> exists a, last s = Some (Ask q_IsOUTReceived a) /\ a <> 0) /\
  exists k, Z.of_nat k <= n /\ sent s = bytes_at buf i dir k.

Lemma write_stage_silent i n code s :
  0 <= n -> silent s -> 0 <= code <= 3 ->
  (code = 0 -> exists a, last s = Some (Ask q_IsOUTReceived a) /\ a <> 0) -> write_stage i n code s.
Proof.
  intros. unfold write_stage, packets, data_stage. rewrite silent_commands, silent_received, silent_pending, silent_packets, silent_sent by done.
  split_and!; auto; try lia. by exists 0%nat.
Qed.

Lemma write_stage_app i n code s s' :
  silent s -> write_stage i n code s' -> write_stage i n code (s ++ s').
Proof.
  intros Hs (? & ? & ? & ? & ? & Hl & ?). unfold write_stage, packets.
  rewrite received_app, pending_from_app, packets_from_app, sent_app.
  rewrite (silent_received s), (silent_pending s), (silent_packets s), (silent_sent s) by done.
  split_and!; auto; try lia.
  - apply data_stage_app; [|done]. unfold data_stage. by rewrite silent_commands.
  - intros E. destruct (Hl E) as (a & La & ?). exists a. by rewrite last_app, La.
Qed.

(** One packet of [k] bytes, and what follows. *)
Lemma write_stage_packet i n code k s :
  Z.of_nat k <= n -> Z.of_nat k <= size ->
  write_stage (i + dir * Z.of_nat k) (n - Z.of_nat k) code s ->
  write_stage i n code (writes (bytes_at buf i dir k) ++ Cmd c_ClearIN :: s).
Proof.
  intros Hk Hk' (? & ? & ? & ? & ? & Hl & k' & ? & Hs). unfold write_stage, packets.
  rewrite received_app, pending_from_app, packets_from_app, sent_app.
  rewrite writes_received, writes_pending, writes_packets, writes_sent. cbn [received omap list_omap pending_from packets_from app].
  split_and!; auto; try lia.
  - apply data_stage_app; [apply data_stage_writes|]. by apply (Forall_cons_2 _ c_ClearIN).
  - constructor; [|done]. unfold bytes_at. rewrite length_fmap, length_seq. lia.
  - intros E. destruct (Hl E) as (a & La & ?). exists a. by rewrite last_app, last_cons, La.
  - exists (k + k')%nat. split; [lia|]. rewrite bytes_at_app. f_equal. exact Hs.
Qed.

Lemma control_write_spec : forall fuel i n full t,
  0 <= n < 65536 -> in_buffer buf i dir n ->
  wp false h (control_write_loop T size fuel buf i n full) t (write_stage i n).
Proof.
  induction fuel as [|fuel IH]; intros i n full t Hn Hi; [done|]. cbn [control_write_loop].
  wp_step; [|by eapply wp_mono; [apply (wait_status_spec q_IsOUTReceived); done|];
              intros ? ? (? & ? & ?); apply write_stage_silent; auto; lia].
  repeat wp_step; rewrite ?app_nil_r; cbn [app].
  1-3: apply write_stage_silent; auto with trace; try lia; done.
  - eapply wp_mono; [apply (wait_status_spec q_IsOUTReceived); done|]. intros code s (? & ? & Hl).
    apply (write_stage_app _ _ _ [_; _; _]); [auto with trace|]. apply write_stage_silent; auto; lia.
  - set (k := packet_room n (u16 a3)).
    assert (Hk : Z.of_nat k <= n /\ Z.of_nat k <= size)
      by (pose proof (u16_range a3); unfold k, packet_room; lia).
    eapply wp_mono; [apply fill_packet_spec; auto using u16_range|]. intros r s (-> & ->). cbn beta iota. fold k.
    repeat wp_step. eapply wp_mono; [apply IH; [lia|]|].
    { intros j Hj. specialize (Hi (j + Z.of_nat k)). nia. }
    intros code s Hs. apply (write_stage_app _ _ _ [_; _; _; _; _]); [auto 8 with trace|].
    apply write_stage_packet; [lia..|done].
  - eapply wp_mono; [by apply IH|]. intros code s Hs.
    apply (write_stage_app _ _ _ [_; _; _; _]); auto 8 with trace.
Qed.

(** The packets of a data stage: full ones, and a short one (which may be
    empty) at the end. *)
Fixpoint packetize_fuel (f : nat) (l : list Z) : list (list Z) :=
  match f with
  | O => [l]
  | S f => if Z.of_nat (length l) <? size then [l]
           else take (Z.to_nat size) l :: packetize_fuel f (drop (Z.to_nat size) l)
  end.
Definition packetize (l : list Z) : list (list Z) := packetize_fuel (length l) l.

Lemma packetize_fuel_enough : forall f l, (length l <= f)%nat -> packetize_fuel f l = packetize l.
Proof.
  assert (H : forall f f' l, (length l <= f)%nat -> (length l <= f')%nat ->
    packetize_fuel f l = packetize_fuel f' l).
  { induction f as [|f IH]; intros [|f'] l Hf Hf'; cbn.
    - done.
    - case_match; bprop; [done|lia].
    - case_match; bprop; [done|lia].
    - case_match; bprop; [done|]. f_equal. apply IH; rewrite length_drop; lia. }
  intros. by apply H.
Qed.

Lemma packetize_short l : Z.of_nat (length l) < size -> packetize l = [l].
Proof.
  intros. unfold packetize. destruct l as [|b l]; [done|]. cbn [length packetize_fuel].
  case_match; bprop; [done|]. cbn in *. lia.
Qed.

Lemma packetize_full l : size <= Z.of_nat (length l) ->
  packetize l = take (Z.to_nat size) l :: packetize (drop (Z.to_nat size) l).
Proof.
  intros. unfold packetize at 1. destruct l as [|b l]; [cbn in *; lia|]. cbn [length packetize_fuel].
  case_match; bprop; [cbn in *; lia|]. f_equal. apply packetize_fuel_enough. rewrite length_drop. cbn. lia.
Qed.

(** Whether the last packet sent was a short one. *)
Definition short_end (s : list event) : bool :=
  match last (packets s) with Some p => Z.of_nat (length p) <? size | None => false end.

(** A host that follows the protocol from the history [t0] on: the device stays
    attached, every IN packet is fetched, and the status stage starts after a
    short packet. *)
Record protocol_host (t0 : list event) : Prop := {
    host_attached : forall s, u8 (h (t0 ++ s) q_DeviceState) <> DEVICE_STATE_Unattached /\
                              u8 (h (t0 ++ s) q_DeviceState) <> DEVICE_STATE_Suspended;
    host_no_setup : forall s, h (t0 ++ s) q_IsSETUPReceived = 0;
    host_fetches : forall s, h (t0 ++ s) q_IsINReady <> 0;
    host_count : forall s, u16 (h (t0 ++ s) q_BytesInEndpoint) = u16 (Z.of_nat (length (pending_from [] s)));
    host_status : forall s, truthy (h (t0 ++ s) q_IsOUTReceived) = short_end s
  }.

Lemma short_end_packet s0 sx l :
  pending_from [] s0 = [] -> silent sx ->
  short_end (s0 ++ sx ++ writes l ++ [Cmd c_ClearIN]) = (Z.of_nat (length l) <? size).
Proof.
  intros H0 Hsx. unfold short_end, packets. rewrite packets_from_app, H0, packets_from_app.
  rewrite (silent_packets sx), (silent_pending sx), packets_from_app, writes_packets, writes_pending by done.
  cbn. by rewrite last_snoc.
Qed.

Section host.
Context (t0 : list event) (Hh : protocol_host t0).

(** What the host answers after [s]. *)
Definition host_answer (s : list event) (q : query) (a : Z) : Prop :=
  match q with
  | q_DeviceState => u8 a <> DEVICE_STATE_Unattached /\ u8 a <> DEVICE_STATE_Suspended
  | q_IsSETUPReceived => truthy a = false
  | q_IsINReady => truthy a = true
  | q_BytesInEndpoint => u16 a = u16 (Z.of_nat (length (pending_from [] s)))
  | q_IsOUTReceived => truthy a = short_end s
  | _ => True
  end.

Lemma host_answers s q a : h (t0 ++ s) q = a -> host_answer s q a.
Proof.
  intros <-. destruct q; cbn; try done; try by apply Hh.
  - pose proof (host_fetches _ Hh s). unfold truthy. by apply negb_true_iff, Z.eqb_neq.
  - by rewrite (host_no_setup _ Hh s).
Qed.

Lemma short_end_silent s sx : silent sx -> short_end (s ++ sx) = short_end s.
Proof. intros. unfold short_end, packets. by rewrite packets_from_app, (silent_packets sx), app_nil_r. Qed.

Lemma pending_silent s sx : silent sx -> pending_from [] (s ++ sx) = pending_from [] s.
Proof. intros. by rewrite pending_from_app, (silent_pending sx). Qed.

(** One packet: five polls, the bytes, and the release of the bank. *)
Lemma control_write_packet fuel i n full s0 (Q : Z -> list event -> Prop) :
  0 <= n < 65536 -> in_buffer buf i dir n -> truthy n || full = true ->
  pending_from [] s0 = [] -> short_end s0 = false ->
  (forall sx, silent sx ->
     let k := packet_room n 0 in
     wp true h (control_write_loop T size fuel buf (i + dir * Z.of_nat k) (n - Z.of_nat k)
                  (Z.of_nat k =? size))
        (t0 ++ s0 ++ sx ++ writes (bytes_at buf i dir k) ++ [Cmd c_ClearIN])
        (fun code s => Q code (sx ++ writes (bytes_at buf i dir k) ++ Cmd c_ClearIN :: s))) ->
  wp true h (control_write_loop T size (S fuel) buf i n full) (t0 ++ s0) Q.
Proof.
  intros Hn Hi Hgo Hp Hse Hk. cbn [control_write_loop]. rewrite Hgo.
  repeat wp_step.
  all: repeat match goal with
       | H : h _ _ = _ |- _ => rewrite <-?app_assoc in H; apply host_answers in H; cbn [host_answer app] in H
       end.
  all: rewrite ?short_end_silent, ?pending_silent, ?Hp, ?Hse in * by auto 8 with trace.
  all: bprop; try (match goal with H : _ <> _ /\ _ <> _ |- _ => destruct H end; congruence).
  rewrite H8. eapply wp_mono; [apply fill_packet_spec; try done; lia|].
  intros r s (-> & ->). cbn beta iota. repeat wp_step.
  rewrite <-!app_assoc. cbn [app].
  apply (Hk [_; _; _; _; _]). auto 8 with trace.
Qed.

Lemma status_now fuel s0 :
  short_end s0 = true -> (1 <= fuel)%nat ->
  wp true h (wait_status fuel Endpoint_IsOUTReceived) (t0 ++ s0) (fun code s => code = 0 /\ silent s).
Proof.
  intros Hse Hf. destruct fuel as [|fuel]; [lia|]. cbn [wait_status]. do 4 wp_step.
  - wp_step. split; [done|]. auto with trace.
  - apply host_answers in H. cbn in H. congruence.
Qed.

(** The last packet of the data stage, a short one, and the status stage. *)
Lemma control_write_last fuel i n full s0 :
  0 <= n < size -> (2 <= fuel)%nat -> in_buffer buf i dir n -> truthy n || full = true ->
  pending_from [] s0 = [] -> short_end s0 = false ->
  wp true h (control_write_loop T size fuel buf i n full) (t0 ++ s0) (fun code s =>
    code = 0 /\ packets s = [bytes_at buf i dir (Z.to_nat n)]).
Proof.
  intros Hn Hf Hi Hgo Hp Hse. destruct fuel as [|[|fuel]]; [lia..|].
  apply control_write_packet; [lia|done..|]. intros sx Hsx. cbv zeta.
  assert (packet_room n 0 = Z.to_nat n) as -> by (unfold packet_room; lia).
  replace (Z.of_nat (Z.to_nat n) =? size) with false by (symmetry; apply Z.eqb_neq; lia).
  replace (n - Z.of_nat (Z.to_nat n)) with 0 by lia. cbn [control_write_loop].
  change (truthy 0 || false) with false. cbn iota.
  eapply wp_mono; [apply status_now; [|lia]|].
  { rewrite short_end_packet, length_bytes_at by done. apply Z.ltb_lt. lia. }
  intros code s [-> Hs]. split; [done|]. unfold packets.
  rewrite packets_from_app, (silent_packets sx), (silent_pending sx) by done.
  rewrite packets_from_app, writes_packets, writes_pending. cbn. by rewrite (silent_packets s).
Qed.

Lemma control_write_returns : forall r fuel i n full s0,
  n / size <= Z.of_nat r -> (r + 2 <= fuel)%nat ->
  0 <= n < 65536 -> in_buffer buf i dir n -> truthy n || full = true ->
  pending_from [] s0 = [] -> short_end s0 = false ->
  wp true h (control_write_loop T size fuel buf i n full) (t0 ++ s0) (fun code s =>
    code = 0 /\ packets s = packetize (bytes_at buf i dir (Z.to_nat n))).
Proof.
  induction r as [|r IH]; intros fuel i n full s0 Hr Hf Hn Hi Hgo Hp Hse.
  all: destruct (Z.ltb_spec n size) as [Hns|Hns];
    [rewrite packetize_short by (rewrite length_bytes_at; lia); apply control_write_last; done || lia|].
  { exfalso. pose proof (Z.div_le_lower_bound n size 1). lia. }
  destruct fuel as [|fuel]; [lia|]. apply control_write_packet; [done..|]. intros sx Hsx. cbv zeta.
  assert (packet_room n 0 = Z.to_nat size) as -> by (unfold packet_room; lia).
  replace (Z.of_nat (Z.to_nat size)) with size by lia. rewrite Z.eqb_refl.
  eapply wp_mono; [apply IH; try lia|].
  - replace n with (n - size + 1 * size) in Hr by lia. rewrite Z.div_add in Hr by lia. lia.
  - intros j Hj. specialize (Hi (j + size)). nia.
  - rewrite pending_from_app, Hp, pending_from_app, (silent_pending sx), pending_from_app, writes_pending by done. done.
  - rewrite short_end_packet, length_bytes_at by done. apply Z.ltb_ge. lia.
  - intros code s [-> Hs]. split; [done|]. unfold packets in *.
    rewrite packets_from_app, (silent_packets sx), (silent_pending sx) by done.
    rewrite packets_from_app, writes_packets, writes_pending. cbn. rewrite Hs.
    replace (Z.to_nat n) with (Z.to_nat size + Z.to_nat (n - size))%nat by lia.
    rewrite (packetize_full (bytes_at buf i dir _)) by (rewrite length_bytes_at; lia).
    rewrite bytes_at_app, take_app_length', drop_app_length' by (rewrite length_bytes_at; lia).
    do 3 f_equal. lia.
Qed.
End host.
End control_write.

(** ** Receiving *)

Section control_read.
Context (h : hw) (T : stream_template) (dir : Z) `{!Reader T dir}.

Lemma in_buffer_skip buf buf' i n m :
  in_buffer buf i dir n -> 0 <= m -> length buf' = length buf ->
  in_buffer buf' (i + dir * m) dir (n - m).
Proof. intros Hi ? Hl j ?. rewrite Hl. specialize (Hi (j + m)). nia. Qed.

Lemma length_store_at : forall l buf i, length (store_at buf i dir l) = length buf.
Proof. induction l; intros; cbn; [done|]. by rewrite IHl, length_insert. Qed.

Lemma store_at_app : forall l buf i l',
  store_at buf i dir (l ++ l') = store_at (store_at buf i dir l) (i + dir * Z.of_nat (length l)) dir l'.
Proof.
  induction l as [|b l IH]; intros; cbn [store_at app length]; [by rewrite Z.mul_0_r, Z.add_0_r|].
  rewrite IH. f_equal. lia.
Qed.

Definition drained (buf : list Z) (i n : Z) (r : list Z * Z * Z) (s : list event) : Prop :=
  let m := Z.of_nat (length (received s)) in
  m <= n /\ sent s = [] /\ commands s = [] /\
  r = (store_at buf i dir (received s), i + dir * m, n - m).

Lemma drain_packet_spec : forall fuel buf i n t,
  0 <= n < 65536 -> in_buffer buf i dir n ->
  wp false h (drain_packet T fuel buf i n) t (drained buf i n).
Proof.
  induction fuel as [|fuel IH]; intros buf i n t Hn Hi; [done|]. cbn [drain_packet].
  assert (drained buf i n (buf, i, n) []) as Hdone.
  { split_and!; [cbn; lia|done..|]. cbn. f_equal; [f_equal|]; lia. }
  wp_step; [by wp_step|]. apply truthy_true in H. do 4 wp_step; [by wp_step|].
  wp_step. apply (wp_read_byte h T dir); [specialize (Hi 0); lia|]. intros b. cbn beta.
  rewrite reader_move, Z.mul_1_r, u16_small by lia.
  eapply wp_mono; [apply IH; [lia|]|].
  { replace (i + dir) with (i + dir * 1) by lia. eapply in_buffer_skip; [done|lia|apply length_insert]. }
  intros r s (? & ? & ? & ->). unfold drained. cbn [app]. rewrite ?app_nil_r.
  change (received (_ :: _ :: s)) with (u8 b :: received s). cbn [length store_at].
  split_and!; [lia|done|done|]. rewrite Nat2Z.inj_succ. f_equal; [f_equal|]; lia.
Qed.

(** The result of a data stage that had [n] bytes to receive. *)
Definition read_stage (buf : list Z) (i n : Z) (r : Z * list Z) (s : list event) : Prop :=
  sent s = [] /\ Z.of_nat (length (received s)) <= n /\
  r.2 = store_at buf i dir (received s) /\ 0 <= r.1 <= 3 /\
  (r.1 = 0 -> Z.of_nat (length (received s)) = n /\
              exists a, last s = Some (Ask q_IsINReady a) /\ a <> 0) /\
  acks s = 0.

Lemma read_stage_silent buf i n code s :
  0 <= n -> silent s -> 0 < code <= 3 -> read_stage buf i n (code, buf) s.
Proof.
  intros. unfold read_stage. rewrite silent_acks, silent_sent, silent_received by done. cbn.
  split_and!; try lia; done.
Qed.

(** Some bytes, and what follows. *)
Lemma read_stage_app buf i n s r s' :
  sent s = [] -> acks s = 0 -> let m := Z.of_nat (length (received s)) in
  m <= n -> read_stage (store_at buf i dir (received s)) (i + dir * m) (n - m) r s' ->
  read_stage buf i n r (s ++ s').
Proof.
  intros Hs Ha m Hm (Hs' & ? & ? & ? & Hl & Ha'). unfold read_stage. rewrite acks_app, Ha, Ha', sent_app, received_app, Hs, Hs', length_app, store_at_app.
  split_and!; try done; try lia. intros E. destruct (Hl E) as (? & a & La & ?). split; [lia|].
  exists a. by rewrite last_app, La.
Qed.

Lemma control_read_spec : forall fuel buf i n t,
  0 <= n < 65536 -> in_buffer buf i dir n ->
  wp false h (control_read_loop T fuel buf i n) t (read_stage buf i n).
Proof.
  induction fuel as [|fuel IH]; intros buf i n t Hn Hi; [done|]. cbn [control_read_loop].
  wp_step.
  - repeat wp_step; rewrite ?app_nil_r; cbn [app].
    1-3: apply read_stage_silent; [lia|auto with trace|done].
    + eapply wp_mono; [by apply drain_packet_spec|]. intros r s (Hm & Hs & Hc%commands_acks & ->). cbn beta iota.
      repeat wp_step. eapply wp_mono; [apply IH|].
      { lia. } { eapply in_buffer_skip; [done|lia|apply length_store_at]. }
      intros r s' Hr. apply (read_stage_app _ _ _ [_; _; _]); [done|done|cbn; lia|].
      cbn [received omap list_omap length store_at]. rewrite Z.mul_0_r, Z.add_0_r, Z.sub_0_r.
      apply read_stage_app; [done|done|done|]. by apply (read_stage_app _ _ _ [_]); [done|done|cbn; lia|cbn; rewrite Z.mul_0_r, Z.add_0_r, Z.sub_0_r].
    + eapply wp_mono; [by apply IH|]. intros r s' Hr. apply (read_stage_app _ _ _ [_; _; _]); [done|done|cbn; lia|].
      cbn. by rewrite Z.mul_0_r, Z.add_0_r, Z.sub_0_r.
  - apply truthy_eq in H. subst. wp_step.
    eapply wp_mono; [apply (wait_status_spec h q_IsINReady); done|]. intros code s (? & ? & Hl). wp_step.
    rewrite app_nil_r. unfold read_stage. rewrite silent_acks, silent_sent, silent_received by done. cbn.
    split_and!; try lia; try done. intros E. split; [done|]. by apply Hl.
Qed.
End control_read.

(** ** Properties *)

Lemma in_buffer_LE buf n m : n <= m -> m <= Z.of_nat (length buf) -> in_buffer buf 0 1 n.
Proof. intros ? ? j ?. lia. Qed.

Lemma wait_status_hangs h :
  (forall t, h t q_IsOUTReceived = 0) -> (forall t, h t q_DeviceState = DEVICE_STATE_Configured) ->
  forall fuel t, wait_status fuel Endpoint_IsOUTReceived h t = Loops.
Proof.
  intros Hout Hst. induction fuel as [|fuel IH]; intros t; [done|]. cbn [wait_status].
  unfold Endpoint_IsOUTReceived, USB_DeviceState, ask_bool, ask_u8, ask, mbind, io_bind, mret, io_ret in *.
  rewrite Hout. change (truthy 0) with false. cbn beta iota zeta. rewrite Hst. apply IH.
Qed.

Section properties.
Context (h : hw) (fuel : nat) (req : USB_Request_Header_t) (size : Z) (buf : list Z) (Length : Z).
Context (Hsize : 0 < size < 256) (HL : 0 <= Length < 65536)
        (Hlen : Length <= Z.of_nat (length buf)) (Hw : 0 <= wLength req < 65536).

Lemma control_write_stage t :
  Forall is_byte buf ->
  wp false h (Endpoint_Write_Control_Stream_LE req size fuel buf Length) t
    (write_stage 1 buf size 0 (Length `min` wLength req)).
Proof.
  intros Hb. set (n := Length `min` wLength req).
  assert (Hin : in_buffer buf 0 1 n) by (apply (in_buffer_LE _ _ Length); lia).
  unfold Endpoint_Write_Control_Stream_LE, Template_Endpoint_Control_W. cbn [write_LE BUFFER_OFFSET].
  wp_step. wp_step; [wp_step|wp_step]; bprop.
  - replace (wLength req) with n by lia. apply control_write_spec; first [apply _ | done | lia].
  - repeat wp_step. replace Length with n by lia.
    eapply wp_mono; [apply control_write_spec; first [apply _ | done | lia]|]. intros code s Hs.
    apply (write_stage_packet 1 buf size 0 n code 0); [lia..|]. by rewrite Z.mul_0_r, Z.sub_0_r, Z.add_0_r.
  - wp_step. replace Length with n by lia. apply control_write_spec; first [apply _ | done | lia].
Qed.

(** C37: whatever the host does, a control write sends a prefix of the first
    [min Length wLength] bytes of the buffer, in order and in packets no longer
    than the control endpoint, leaves no half-filled packet, and reports success
    only after the host has started the status stage. *)
Theorem control_write_any_host t :
  Forall is_byte buf ->
  wp false h (Endpoint_Write_Control_Stream_LE req size fuel buf Length) t (fun code s =>
    (exists k, Z.of_nat k <= Length `min` wLength req /\ sent s = take k buf) /\
    Forall (fun p => Z.of_nat (length p) <= size) (packets s) /\ pending_from [] s = [] /\
    0 <= code <= 3 /\
    (code = ENDPOINT_RWCSTREAM_NoError ->
       exists a, last s = Some (Ask q_IsOUTReceived a) /\ a <> 0)).
Proof.
  intros Hb. eapply wp_mono; [by apply control_write_stage|].
  intros code s (_ & _ & ? & ? & ? & ? & k & ? & Hs). split_and!; auto; try lia.
  exists k. split; [done|]. rewrite Hs, bytes_at_LE by lia. done.
Qed.

Lemma control_write_wire t :
  Forall is_byte buf -> 0 < wLength req -> protocol_host h size t ->
  (Z.to_nat (Length / size) + 2 <= fuel)%nat ->
  wp true h (Endpoint_Write_Control_Stream_LE req size fuel buf Length) t (fun code s =>
    code = ENDPOINT_RWCSTREAM_NoError /\
    packets s = packetize size (take (Z.to_nat (Length `min` wLength req)) buf)).
Proof.
  intros Hb Hw0 Hh Hf. set (n := Length `min` wLength req).
  assert (Hin : in_buffer buf 0 1 n) by (apply (in_buffer_LE _ _ Length); lia).
  assert (Hgo : 0 < n -> wp true h (control_write_loop write_LE size fuel buf 0 n false) t (fun code s =>
      code = 0 /\ packets s = packetize size (take (Z.to_nat n) buf))).
  { intros Hn. rewrite <-(app_nil_r t).
    eapply wp_mono; [eapply (control_write_returns h write_LE 1 buf Hb size Hsize t Hh
                               (Z.to_nat (n / size))); try done; try lia|].
    - assert (n / size <= Length / size) by (apply Z.div_le_mono; lia). lia.
    - unfold truthy. apply orb_true_iff. left. apply negb_true_iff, Z.eqb_neq. lia.
    - intros code s [-> Hs]. split; [done|]. rewrite Hs, bytes_at_LE by lia. done. }
  unfold Endpoint_Write_Control_Stream_LE, Template_Endpoint_Control_W. cbn [write_LE BUFFER_OFFSET].
  wp_step. wp_step; [wp_step|wp_step]; bprop.
  - rewrite app_nil_r. replace (wLength req) with n by lia. apply Hgo. lia.
  - repeat wp_step. assert (n = 0) as -> by lia. subst.
    destruct fuel as [|f]; [lia|]. cbn [control_write_loop orb]. change (truthy 0) with false. cbn iota.
    eapply wp_mono; [eapply (status_now h size t Hh _ [Cmd c_ClearIN]); [|lia]|].
    + cbn. apply Z.ltb_lt. lia.
    + intros code s [-> Hs]. split; [done|]. unfold packets. cbn. by rewrite silent_packets.
  - wp_step. rewrite app_nil_r. replace Length with n by lia. apply Hgo. lia.
Qed.


(** A control write to which the host answers with no OUT packet, as it
    does when it asked for zero bytes, waits for ever: not even a new SETUP packet
    ends it. *)
Theorem control_write_hangs t :
  wLength req = 0 -> 0 < Length ->
  (forall t, h t q_IsOUTReceived = 0) -> (forall t, h t q_DeviceState = DEVICE_STATE_Configured) ->
  Endpoint_Write_Control_Stream_LE req size fuel buf Length h t = Loops.
Proof.
  intros Hw0 HL0 Hout Hst.
  unfold Endpoint_Write_Control_Stream_LE, Template_Endpoint_Control_W. rewrite Hw0.
  replace (0 <? Length) with true by (symmetry; apply Z.ltb_lt; lia). cbn.
  unfold mbind, io_bind. cbn. destruct fuel as [|f]; [done|]. change (truthy 0) with false. cbn [orb control_write_loop].
  by apply wait_status_hangs.
Qed.

Lemma control_read_stage_ok t :
  wp false h (Endpoint_Read_Control_Stream_LE fuel buf Length) t (read_stage 1 buf 0 Length).
Proof.
  assert (Hin : in_buffer buf 0 1 Length) by (apply (in_buffer_LE _ _ Length); lia).
  unfold Endpoint_Read_Control_Stream_LE, Template_Endpoint_Control_R. cbn [read_LE BUFFER_OFFSET].
  wp_step. wp_step; wp_step.
  - wp_step. eapply wp_mono; [apply control_read_spec; first [apply _ | done | lia]|]. intros r s Hr.
    apply (read_stage_app 1 _ _ _ [_]); [done|done|cbn; lia|]. cbn. by rewrite Z.sub_0_r.
  - apply control_read_spec; first [apply _ | done | lia].
Qed.
(** What the callers of a control read need: the buffer keeps its length and no
    SETUP packet is acknowledged. *)
Lemma control_read_stage t :
  wp false h (Endpoint_Read_Control_Stream_LE fuel buf Length) t (fun '(_, buf') s =>
    length buf' = length buf /\ acks s = 0).
Proof.
  eapply wp_mono; [apply control_read_stage_ok|]. intros [code buf'] s (_ & _ & E & _ & _ & Ha). cbn in E.
  by rewrite E, length_store_at.
Qed.

(** A control read stores exactly the bytes it received at the start of the
    buffer, leaves the rest unchanged, never writes outside the buffer, and reports
    success only when all [Length] bytes have arrived. *)
Theorem control_read_any_host t :
  wp false h (Endpoint_Read_Control_Stream_LE fuel buf Length) t (fun '(code, buf') s =>
    sent s = [] /\ Z.of_nat (length (received s)) <= Length /\
    buf' = received s ++ drop (length (received s)) buf /\
    (code = ENDPOINT_RWCSTREAM_NoError -> Z.of_nat (length (received s)) = Length)).
Proof.
  eapply wp_mono; [apply control_read_stage_ok|].
  intros [code buf'] s (? & Hl & ? & ? & Hc & _). cbn in *. split_and!; try done.
  - subst. rewrite store_at_LE by lia. done.
  - intros E. by apply Hc.
Qed.
End properties.

(** ** Witnesses *)

(** A host that follows the protocol, for packets of 8 bytes, from the start on. *)
Definition good_host : hw := fun t q =>
  match q with
  | q_DeviceState => DEVICE_STATE_Configured
  | q_IsINReady => 1
  | q_BytesInEndpoint => Z.of_nat (length (pending_from [] t))
  | q_IsOUTReceived => bool_Z (short_end 8 t)
  | _ => 0
  end.

Lemma good_host_protocol : protocol_host good_host 8 [].
Proof.
  split; intros s; cbn; try done. by destruct (short_end 8 s).
Qed.

(** A host that never sends an OUT packet. *)
Definition silent_host : hw := fun _ q =>
  match q with q_DeviceState => DEVICE_STATE_Configured | q_IsSETUPReceived => 1 | _ => 0 end.

Definition sample_request (n : Z) : USB_Request_Header_t := mk_request 128 6 256 0 n.
Definition sample_buffer : list Z := seqZ 0 18.

Lemma sample_bytes : Forall is_byte sample_buffer.
Proof. apply (bool_decide_eq_true_1 _). by vm_compute. Qed.

Lemma control_write_any_host_witness :
  match Endpoint_Write_Control_Stream_LE (sample_request 64) 8 5 sample_buffer 18 good_host [] with
  | Returns (code, s) => 0 <= code <= 3 /\ Forall (fun p => Z.of_nat (length p) <= 8) (packets s)
  | _ => False
  end.
Proof.
  pose proof (control_write_any_host good_host 5 (sample_request 64) 8 sample_buffer 18
    ltac:(lia) ltac:(lia) ltac:(by vm_compute) ltac:(by vm_compute) [] sample_bytes) as H.
  apply wp_run_eq in H. destruct (Endpoint_Write_Control_Stream_LE _ _ _ _ _ _ _) as [[code s]| |] eqn:E.
  - destruct H as (s' & -> & _ & Hp & _ & Hc & _). split; [exact Hc|exact Hp].
  - exact H.
  - vm_compute in E. discriminate E.
Defined.


Lemma control_write_hangs_witness :
  Endpoint_Write_Control_Stream_LE (sample_request 0) 8 1000 sample_buffer 18 silent_host [] = Loops.
Proof.
  apply (control_write_hangs silent_host 1000 (sample_request 0) 8 sample_buffer 18);
    first [reflexivity | lia | by vm_compute | intros; reflexivity].
Defined.

(** A host that sends one packet of three bytes and accepts the status stage. *)
Definition sending_host : hw := fun t q =>
  match q with
  | q_DeviceState => DEVICE_STATE_Configured
  | q_IsOUTReceived => 1
  | q_BytesInEndpoint => 3 - Z.of_nat (length (received t))
  | q_Read_8 => 7 + Z.of_nat (length (received t))
  | q_IsINReady => 1
  | _ => 0
  end.

Lemma control_read_any_host_witness :
  match Endpoint_Read_Control_Stream_LE 9 [0; 0; 0; 0] 3 sending_host [] with
  | Returns ((code, buf'), s) => buf' = received s ++ drop (length (received s)) [0; 0; 0; 0]
  | _ => False
  end.
Proof.
  pose proof (control_read_any_host sending_host 9 [0; 0; 0; 0] 3 ltac:(lia) ltac:(by vm_compute) []) as H.
  apply wp_run_eq in H. destruct (Endpoint_Read_Control_Stream_LE _ _ _ _ _) as [[[code buf'] s]| |] eqn:E.
  - destruct H as (s' & -> & _ & _ & Hb & _). exact Hb.
  - exact H.
  - vm_compute in E. discriminate E.
Defined.
