(* ===== verification/DeviceRequests.v ===== *)
(** * The USB device: standard control requests

    [LUFA/Drivers/USB/Core/DeviceStandardReq.c] and the device side of
    [USBTask.c]: the state of a device and the handlers of the standard requests,
    with the application's callbacks as an interface ([Application]).

    The model is that of the default build: descriptors in any memory space, the
    number of configurations taken from the device descriptor, the internal serial
    number enabled.  The three memory spaces hold byte lists, and reading a byte
    of any of them is an array access. *)
From S2P Require Import Prelude ConfigDescriptors USBIo Endpoint.

Definition NO_DESCRIPTOR := 0.
Definition ENDPOINT_CONTROLEP := 0.
Definition ENDPOINT_EPNUM_MASK := 15.
Definition CONTROL_REQTYPE_RECIPIENT := 31.
Definition FEATURE_SEL_EndpointHalt := 0.
Definition FEATURE_SEL_DeviceRemoteWakeup := 1.
Definition FEATURE_SELFPOWERED_ENABLED := 1.
Definition FEATURE_REMOTE_WAKEUP_ENABLED := 2.
Definition USE_INTERNAL_SERIAL := 220.
Definition INTERNAL_SERIAL_LENGTH_BITS := 80.
Definition INTERNAL_SERIAL_START_ADDRESS := 14.
Definition sizeof_Descriptor_Header := 2.
Definition USB_STRING_LEN (UnicodeChars : Z) : Z := sizeof_Descriptor_Header + Z.shiftl UnicodeChars 1.

(** The address spaces a descriptor may be in ([USB_DescriptorMemorySpaces_t]). *)
Inductive memspace := MEMSPACE_FLASH | MEMSPACE_EEPROM | MEMSPACE_RAM.
#[export] Instance memspace_eq_dec : EqDecision memspace.
Proof. solve_decision. Defined.

(** The global variables of the device core. *)
Record device := mk_device {
    USB_ControlRequest : USB_Request_Header_t;
    USB_Device_ConfigurationNumber : Z;
    USB_Device_CurrentlySelfPowered : bool;
    USB_Device_RemoteWakeupEnabled : bool
  }.

Definition set_ControlRequest (r : USB_Request_Header_t) (d : device) : device :=
  mk_device r (USB_Device_ConfigurationNumber d) (USB_Device_CurrentlySelfPowered d)
    (USB_Device_RemoteWakeupEnabled d).
Definition set_ConfigurationNumber (n : Z) (d : device) : device :=
  mk_device (USB_ControlRequest d) n (USB_Device_CurrentlySelfPowered d)
    (USB_Device_RemoteWakeupEnabled d).
Definition set_RemoteWakeupEnabled (b : bool) (d : device) : device :=
  mk_device (USB_ControlRequest d) (USB_Device_ConfigurationNumber d)
    (USB_Device_CurrentlySelfPowered d) b.

(** What the application provides.  [CALLBACK_USB_GetDescriptor wValue wIndex]
    gives the size, the memory the pointer designates, and its address space. *)
Class Application (A : Type) := {
    CALLBACK_USB_GetDescriptor : Z -> Z -> Z * list Z * memspace;
    EVENT_USB_Device_ControlRequest : device -> A -> io A;
    EVENT_USB_Device_ConfigurationChanged : device -> A -> io A
  }.

Definition Endpoint_Write_Control_PStream_LE := Endpoint_Write_Control_Stream_LE.
Definition Endpoint_Write_Control_EStream_LE := Endpoint_Write_Control_Stream_LE.

(** [Device_AVR8.h]: the serial number characters, in hexadecimal, from the
    signature row; [n] characters are left, [SerialCharNum] is the current one. *)
Fixpoint serial_string_loop (n : nat) (SerialCharNum SigReadAddress : Z) : io (list Z) :=
  match n with
  | O => mret []
  | S n =>
      SerialByte ← boot_signature_byte_get SigReadAddress;
      let odd := truthy (Z.land SerialCharNum 1) in
      let SerialByte := if odd then Z.shiftr SerialByte 4 else SerialByte in
      let SigReadAddress := if odd then u8 (SigReadAddress + 1) else SigReadAddress in
      let SerialByte := Z.land SerialByte 15 in
      let c := if 10 <=? SerialByte then (65 - 10) + SerialByte else 48 + SerialByte in
      rest ← serial_string_loop n (SerialCharNum + 1) SigReadAddress;
      mret (c :: rest)
  end.

Definition USB_Device_GetSerialString : io (list Z) :=
  CurrentGlobalInt ← GetGlobalInterruptMask;
  GlobalInterruptDisable;;
  UnicodeString ← serial_string_loop (Z.to_nat (INTERNAL_SERIAL_LENGTH_BITS / 4)) 0
                    INTERNAL_SERIAL_START_ADDRESS;
  SetGlobalInterruptMask CurrentGlobalInt;;
  mret UnicodeString.

(** The bytes of an array of [uint16_t]. *)
Definition le16_bytes (l : list Z) : list Z := c ← l; [Z.land c 255; Z.land (Z.shiftr c 8) 255].

Section core.
Context {A : Type} `{!Application A}.
(** Fuel of the polling loops; the size of the control endpoint. *)
Context (fuel : nat) (USB_Device_ControlEndpointSize : Z).

Definition ClearStatusStage (d : device) : io unit :=
  Endpoint_ClearStatusStage fuel (USB_ControlRequest d).

(** [while (!(Endpoint_IsINReady()));] *)
Fixpoint wait_in_ready (n : nat) : io unit :=
  match n with
  | O => loops
  | S n => ready ← Endpoint_IsINReady; if ready : bool then mret tt else wait_in_ready n
  end.

Definition USB_Device_SetAddress (d : device) : io unit :=
  let DeviceAddress := Z.land (wValue (USB_ControlRequest d)) 127 in
  CurrentGlobalInt ← GetGlobalInterruptMask;
  GlobalInterruptDisable;;
  Endpoint_ClearSETUP;;
  ClearStatusStage d;;
  wait_in_ready fuel;;
  USB_Device_SetDeviceAddress DeviceAddress;;
  Set_USB_DeviceState (if truthy DeviceAddress then DEVICE_STATE_Addressed else DEVICE_STATE_Default);;
  SetGlobalInterruptMask CurrentGlobalInt.

(** The offset of [NumberOfConfigurations] in the device descriptor. *)
Definition offset_NumberOfConfigurations := 17.

Definition USB_Device_SetConfiguration (d : device) (a : A) : io (device * A) :=
  let '(size, DevDescriptorPtr, _) := CALLBACK_USB_GetDescriptor (Z.shiftl DTYPE_Device 8) 0 in
  if size =? NO_DESCRIPTOR then mret (d, a) else
  NumberOfConfigurations ← get (arr_get DevDescriptorPtr offset_NumberOfConfigurations);
  if NumberOfConfigurations <? u8 (wValue (USB_ControlRequest d)) then mret (d, a) else
  Endpoint_ClearSETUP;;
  let d := set_ConfigurationNumber (u8 (wValue (USB_ControlRequest d))) d in
  ClearStatusStage d;;
  (if truthy (USB_Device_ConfigurationNumber d)
   then Set_USB_DeviceState DEVICE_STATE_Configured
   else b ← USB_Device_IsAddressSet;
        Set_USB_DeviceState (if b : bool then DEVICE_STATE_Configured else DEVICE_STATE_Powered));;
  a ← EVENT_USB_Device_ConfigurationChanged d a;
  mret (d, a).

Definition USB_Device_GetConfiguration (d : device) : io unit :=
  Endpoint_ClearSETUP;;
  Endpoint_Write_8 (USB_Device_ConfigurationNumber d);;
  Endpoint_ClearIN;;
  ClearStatusStage d.

Definition USB_Device_GetInternalSerialDescriptor (d : device) : io unit :=
  UnicodeString ← USB_Device_GetSerialString;
  let SignatureDescriptor :=
    USB_STRING_LEN (INTERNAL_SERIAL_LENGTH_BITS / 4) :: DTYPE_String :: le16_bytes UnicodeString in
  Endpoint_ClearSETUP;;
  Endpoint_Write_Control_Stream_LE (USB_ControlRequest d) USB_Device_ControlEndpointSize fuel
    SignatureDescriptor (Z.of_nat (length SignatureDescriptor));;
  Endpoint_ClearOUT.

Definition USB_Device_GetDescriptor (d : device) : io unit :=
  let r := USB_ControlRequest d in
  if wValue r =? Z.lor (Z.shiftl DTYPE_String 8) USE_INTERNAL_SERIAL
  then USB_Device_GetInternalSerialDescriptor d else
  let '(DescriptorSize, DescriptorPointer, DescriptorAddressSpace) :=
    CALLBACK_USB_GetDescriptor (wValue r) (wIndex r) in
  if DescriptorSize =? NO_DESCRIPTOR then mret tt else
  Endpoint_ClearSETUP;;
  match DescriptorAddressSpace with
  | MEMSPACE_FLASH =>
      Endpoint_Write_Control_PStream_LE r USB_Device_ControlEndpointSize fuel DescriptorPointer DescriptorSize
  | MEMSPACE_EEPROM =>
      Endpoint_Write_Control_EStream_LE r USB_Device_ControlEndpointSize fuel DescriptorPointer DescriptorSize
  | MEMSPACE_RAM =>
      Endpoint_Write_Control_Stream_LE r USB_Device_ControlEndpointSize fuel DescriptorPointer DescriptorSize
  end;;
  Endpoint_ClearOUT.

(** The case labels of the requests, as bmRequestType values. *)
Definition to_host (recipient : Z) : Z := Z.lor (Z.lor REQDIR_DEVICETOHOST REQTYPE_STANDARD) recipient.
Definition to_device (recipient : Z) : Z := Z.lor (Z.lor REQDIR_HOSTTODEVICE REQTYPE_STANDARD) recipient.

Definition USB_Device_GetStatus (d : device) : io unit :=
  let r := USB_ControlRequest d in
  let reply (CurrentStatus : Z) : io unit :=
    Endpoint_ClearSETUP;;
    Endpoint_Write_16_LE CurrentStatus;;
    Endpoint_ClearIN;;
    ClearStatusStage d in
  if bmRequestType r =? to_host REQREC_DEVICE then
    let CurrentStatus := 0 in
    let CurrentStatus := if USB_Device_CurrentlySelfPowered d
      then Z.lor CurrentStatus FEATURE_SELFPOWERED_ENABLED else CurrentStatus in
    let CurrentStatus := if USB_Device_RemoteWakeupEnabled d
      then Z.lor CurrentStatus FEATURE_REMOTE_WAKEUP_ENABLED else CurrentStatus in
    reply CurrentStatus
  else if bmRequestType r =? to_host REQREC_ENDPOINT then
    Endpoint_SelectEndpoint (Z.land (u8 (wIndex r)) ENDPOINT_EPNUM_MASK);;
    stalled ← Endpoint_IsStalled;
    Endpoint_SelectEndpoint ENDPOINT_CONTROLEP;;
    reply (bool_Z stalled)
  else mret tt.

Definition USB_Device_ClearSetFeature (d : device) : io device :=
  let r := USB_ControlRequest d in
  let finish (d : device) : io device :=
    Endpoint_SelectEndpoint ENDPOINT_CONTROLEP;;
    Endpoint_ClearSETUP;;
    ClearStatusStage d;;
    mret d in
  let recipient := Z.land (bmRequestType r) CONTROL_REQTYPE_RECIPIENT in
  if recipient =? REQREC_DEVICE then
    if u8 (wValue r) =? FEATURE_SEL_DeviceRemoteWakeup
    then finish (set_RemoteWakeupEnabled (bRequest r =? REQ_SetFeature) d)
    else mret d
  else if recipient =? REQREC_ENDPOINT then
    if u8 (wValue r) =? FEATURE_SEL_EndpointHalt then
      let EndpointIndex := Z.land (u8 (wIndex r)) ENDPOINT_EPNUM_MASK in
      if EndpointIndex =? ENDPOINT_CONTROLEP then mret d else
      Endpoint_SelectEndpoint EndpointIndex;;
      enabled ← Endpoint_IsEnabled;
      (if enabled : bool then
         if bRequest r =? REQ_SetFeature then Endpoint_StallTransaction
         else Endpoint_ClearStall;; Endpoint_ResetEndpoint EndpointIndex;; Endpoint_ResetDataToggle
       else mret tt);;
      finish d
    else finish d
  else mret d.

(** The eight bytes of [USB_Request_Header_t], read from the endpoint. *)
Definition read_request : io USB_Request_Header_t :=
  b0 ← Endpoint_Read_8; b1 ← Endpoint_Read_8; b2 ← Endpoint_Read_8; b3 ← Endpoint_Read_8;
  b4 ← Endpoint_Read_8; b5 ← Endpoint_Read_8; b6 ← Endpoint_Read_8; b7 ← Endpoint_Read_8;
  mret (mk_request b0 b1 (b2 + 256 * b3) (b4 + 256 * b5) (b6 + 256 * b7)).

(** The switch on the request: the standard handlers. *)
Definition standard_request (d : device) (a : A) : io (device * A) :=
  let r := USB_ControlRequest d in
  let bmRequestType := bmRequestType r in
  if bRequest r =? REQ_GetStatus then
    if (bmRequestType =? to_host REQREC_DEVICE) || (bmRequestType =? to_host REQREC_ENDPOINT)
    then USB_Device_GetStatus d;; mret (d, a) else mret (d, a)
  else if (bRequest r =? REQ_ClearFeature) || (bRequest r =? REQ_SetFeature) then
    if (bmRequestType =? to_device REQREC_DEVICE) || (bmRequestType =? to_device REQREC_ENDPOINT)
    then d ← USB_Device_ClearSetFeature d; mret (d, a) else mret (d, a)
  else if bRequest r =? REQ_SetAddress then
    if bmRequestType =? to_device REQREC_DEVICE
    then USB_Device_SetAddress d;; mret (d, a) else mret (d, a)
  else if bRequest r =? REQ_GetDescriptor then
    if (bmRequestType =? to_host REQREC_DEVICE) || (bmRequestType =? to_host REQREC_INTERFACE)
    then USB_Device_GetDescriptor d;; mret (d, a) else mret (d, a)
  else if bRequest r =? REQ_GetConfiguration then
    if bmRequestType =? to_host REQREC_DEVICE
    then USB_Device_GetConfiguration d;; mret (d, a) else mret (d, a)
  else if bRequest r =? REQ_SetConfiguration then
    if bmRequestType =? to_device REQREC_DEVICE
    then USB_Device_SetConfiguration d a else mret (d, a)
  else mret (d, a).

Definition USB_Device_ProcessControlRequest (d : device) (a : A) : io (device * A) :=
  r ← read_request;
  let d := set_ControlRequest r d in
  a ← EVENT_USB_Device_ControlRequest d a;
  setup ← Endpoint_IsSETUPReceived;
  '(d, a) ← (if setup : bool then standard_request d a else mret (d, a));
  setup ← Endpoint_IsSETUPReceived;
  (if setup : bool then Endpoint_StallTransaction;; Endpoint_ClearSETUP else mret tt);;
  mret (d, a).

Definition USB_DeviceTask (d : device) (a : A) : io (device * A) :=
  s ← USB_DeviceState;
  if s =? DEVICE_STATE_Unattached then mret (d, a) else
  PrevEndpoint ← Endpoint_GetCurrentEndpoint;
  Endpoint_SelectEndpoint ENDPOINT_CONTROLEP;;
  setup ← Endpoint_IsSETUPReceived;
  '(d, a) ← (if setup : bool then USB_Device_ProcessControlRequest d a else mret (d, a));
  Endpoint_SelectEndpoint PrevEndpoint;;
  mret (d, a).
End core.
