(* ===== verification/DeviceRequestsSpec.v ===== *)
(** * Correctness of the standard control requests

    Every control request is acknowledged exactly once, requests that nobody
    handles are stalled, and the handlers have the effects the USB specification
    gives them, for every host. *)
From S2P Require Import Prelude ConfigDescriptors USBIo Endpoint EndpointSpec ControlStream DeviceRequests.

(** ** What the device core relies on *)

(** The laws of an application: its descriptors are well-formed objects, it
    acknowledges a request at most once, and never when the configuration changes. *)
Class ApplicationOk (A : Type) `{!Application A} := {
    app_descriptor : forall v i size p sp, CALLBACK_USB_GetDescriptor v i = (size, p, sp) ->
      0 <= size < 65536 /\ size <= Z.of_nat (length p) /\ Forall is_byte p;
    app_device_descriptor : forall size p sp,
      CALLBACK_USB_GetDescriptor 256 0 = (size, p, sp) -> size <> NO_DESCRIPTOR ->
      18 <= Z.of_nat (length p);
    app_request : forall h d a t,
      wp false h (EVENT_USB_Device_ControlRequest d a) t (fun _ s => acks s <= 1);
    app_config : forall h d a t,
      wp false h (EVENT_USB_Device_ConfigurationChanged d a) t (fun _ s => acks s = 0)
  }.

(** A SETUP packet is pending until it is acknowledged, and no new one arrives
    after the history [t0]. *)
Definition setup_pending (h : hw) (t0 : list event) : Prop :=
  forall s, truthy (h (t0 ++ s) q_IsSETUPReceived) = (acks s =? 0).

(** ** The handlers *)

Section handlers.
Context {A : Type} `{!Application A, !ApplicationOk A}.
Context (h : hw) (fuel : nat) (size : Z) (Hsize : 0 < size < 256).

Lemma poll_attached_silent q t :
  q <> q_Read_8 -> q <> q_SPDR -> wp false h (poll_attached fuel (ask_bool q)) t (fun _ s => silent s).
Proof.
  intros Hq Hq'. revert t. induction fuel as [|f IH]; intros t; [done|]. cbn [poll_attached].
  repeat wp_step; cbn [app]; auto with trace.
  eapply wp_mono; [apply IH|]. intros. auto with trace.
Qed.

(** The status stage: an IN packet to end a write, an OUT packet to end a read,
    none when the device is unplugged meanwhile. *)
Lemma status_stage_spec d t :
  wp false h (ClearStatusStage fuel d) t (fun _ s =>
    commands s = [] \/
    commands s = [if truthy (Z.land (bmRequestType (USB_ControlRequest d)) REQDIR_DEVICETOHOST)
                  then c_ClearOUT else c_ClearIN]).
Proof.
  unfold ClearStatusStage, Endpoint_ClearStatusStage. case_match.
  all: wp_step; eapply wp_mono; [apply poll_attached_silent; discriminate|]; intros b s Hs; cbn beta.
  all: wp_step; repeat wp_step; rewrite commands_app, silent_commands by done; auto.
Qed.

Lemma status_stage_acks d t : wp false h (ClearStatusStage fuel d) t (fun _ s => acks s = 0).
Proof.
  eapply wp_mono; [apply status_stage_spec|]. cbn. intros _ s [E|E]; unfold acks; rewrite E; [done|].
  by case_match.
Qed.

Lemma wait_in_ready_silent n t : wp false h (wait_in_ready n) t (fun _ s => silent s).
Proof.
  revert t. induction n as [|n IH]; intros t; [done|]. cbn [wait_in_ready].
  repeat wp_step; cbn [app]; auto with trace. eapply wp_mono; [apply IH|]. intros. auto with trace.
Qed.


(** ** Acknowledgements *)

(** Count the acknowledgements of a finished branch. *)
Ltac count_acks :=
  repeat match goal with H : silent _ |- _ => apply silent_acks in H end;
  autorewrite with trace_rw in *; cbn beta iota in *; lia.

Ltac call L := eapply wp_mono; [apply L; done|]; intros ? ? ?; cbn beta in *.

Lemma set_address_acks d t : wp false h (USB_Device_SetAddress fuel d) t (fun _ s => acks s = 1).
Proof.
  unfold USB_Device_SetAddress. repeat wp_step. call status_stage_acks. wp_step.
  call wait_in_ready_silent. repeat wp_step. count_acks.
Qed.

Lemma set_configuration_acks d a t :
  wp false h (USB_Device_SetConfiguration fuel d a) t (fun _ s => 0 <= acks s <= 1).
Proof.
  unfold USB_Device_SetConfiguration. change (Z.shiftl DTYPE_Device 8) with 256.
  destruct (CALLBACK_USB_GetDescriptor 256 0) as [[n p] sp] eqn:E.
  wp_step; [by wp_step|]. bprop. pose proof (app_device_descriptor _ _ _ E H) as Hl.
  wp_step. destruct (arr_get_is_Some p offset_NumberOfConfigurations) as [x Hx].
  { unfold offset_NumberOfConfigurations. lia. }
  wp_step; [exact Hx|]. wp_step; [by wp_step|]. repeat wp_step. call status_stage_acks.
  wp_step. wp_step; repeat wp_step.
  all: call app_config; repeat wp_step; count_acks.
Qed.

Lemma get_configuration_acks d t : wp false h (USB_Device_GetConfiguration fuel d) t (fun _ s => acks s = 1).
Proof. unfold USB_Device_GetConfiguration. repeat wp_step. call status_stage_acks. count_acks. Qed.

Lemma serial_loop_silent : forall n c sig t, wp false h (serial_string_loop n c sig) t (fun l s =>
  silent s /\ length l = n /\ Forall (fun c => 0 <= c < 256) l).
Proof.
  induction n as [|n IH]; intros c sig t; cbn [serial_string_loop]; [wp_step; split_and!; auto with trace|].
  repeat wp_step. eapply wp_mono; [apply IH|]. intros l s (? & ? & ?). cbn beta. wp_step. rewrite app_nil_r.
  split_and!; [by auto with trace|by f_equal/=|]. constructor; [|done].
  match goal with |- context [Z.land ?x 15] => set (y := x) end.
  assert (0 <= Z.land y 15 < 16).
  { rewrite (land_mask_wrap 4) by lia. apply (wrap_range 4). lia. }
  destruct (10 <=? Z.land y 15) eqn:?; bprop; lia.
Qed.

(** A descriptor of [n] bytes at [p], sent in answer to the request. *)
Lemma control_write_acks req p n t :
  Forall is_byte p -> 0 <= n < 65536 -> n <= Z.of_nat (length p) -> 0 <= wLength req < 65536 ->
  wp false h (Endpoint_Write_Control_Stream_LE req size fuel p n) t (fun _ s => acks s = 0).
Proof.
  intros. eapply wp_mono; [by apply control_write_stage|]. intros code s (_ & Hs & _).
  by apply data_stage_acks.
Qed.

Lemma le16_bytes_ok l : Forall (fun c => 0 <= c < 256) l ->
  Forall is_byte (le16_bytes l) /\ length (le16_bytes l) = (2 * length l)%nat.
Proof.
  induction 1 as [|c l Hc _ [IH1 IH2]]; [done|].
  change (le16_bytes (c :: l)) with (Z.land c 255 :: Z.land (Z.shiftr c 8) 255 :: le16_bytes l).
  cbn [length]. split; [|lia]. constructor; [|constructor; [|done]].
  all: unfold is_byte; rewrite (land_mask_wrap 8) by lia; apply (wrap_range 8); lia.
Qed.

Lemma get_serial_acks d t :
  0 <= wLength (USB_ControlRequest d) < 65536 ->
  wp false h (USB_Device_GetInternalSerialDescriptor fuel size d) t (fun _ s => acks s = 1).
Proof.
  intros Hw. unfold USB_Device_GetInternalSerialDescriptor, USB_Device_GetSerialString. repeat wp_step.
  eapply wp_mono; [apply serial_loop_silent|]. intros l s (? & Hl & Hb). cbn beta. repeat wp_step.
  apply le16_bytes_ok in Hb as [Hb1 Hb2]. rewrite Hl in Hb2.
  eapply wp_mono; [apply control_write_acks|].
  - repeat constructor; try done.
  - cbn [length]. rewrite Hb2. by vm_compute.
  - lia.
  - done.
  - intros ? ? ?. cbn beta. repeat wp_step. count_acks.
Qed.

Lemma get_descriptor_acks d t :
  0 <= wLength (USB_ControlRequest d) < 65536 ->
  wp false h (USB_Device_GetDescriptor fuel size d) t (fun _ s => 0 <= acks s <= 1).
Proof.
  intros Hw. unfold USB_Device_GetDescriptor. cbv zeta. wp_step.
  { eapply wp_mono; [by apply get_serial_acks|]. intros; cbn in *; lia. }
  destruct (CALLBACK_USB_GetDescriptor _ _) as [[n p] sp] eqn:E.
  destruct (app_descriptor _ _ _ _ _ E) as (? & ? & ?).
  wp_step; [by wp_step|]. repeat wp_step. destruct sp.
  all: eapply wp_mono; [by apply control_write_acks|]; intros ? ? ?; cbn beta in *; repeat wp_step; count_acks.
Qed.

Lemma get_status_acks d t : wp false h (USB_Device_GetStatus fuel d) t (fun _ s => 0 <= acks s <= 1).
Proof.
  unfold USB_Device_GetStatus. repeat wp_step; try done.
  all: call status_stage_acks; count_acks.
Qed.

Lemma set_feature_acks d t : wp false h (USB_Device_ClearSetFeature fuel d) t (fun _ s => 0 <= acks s <= 1).
Proof.
  unfold USB_Device_ClearSetFeature. repeat wp_step; try done.
  all: call status_stage_acks; repeat wp_step; count_acks.
Qed.

Lemma standard_request_acks d a t :
  0 <= wLength (USB_ControlRequest d) < 65536 ->
  wp false h (standard_request fuel size d a) t (fun _ s => 0 <= acks s <= 1).
Proof.
  intros Hw. unfold standard_request. repeat wp_step; try done.
  - call get_status_acks. wp_step. count_acks.
  - call set_feature_acks. wp_step. count_acks.
  - call set_address_acks. wp_step. count_acks.
  - eapply wp_mono; [by apply get_descriptor_acks|]. intros ? ? ?. cbn beta in *. wp_step. count_acks.
  - call get_configuration_acks. wp_step. count_acks.
  - apply set_configuration_acks.
Qed.

Definition request_ok (r : USB_Request_Header_t) : Prop :=
  0 <= bmRequestType r < 256 /\ 0 <= bRequest r < 256 /\ 0 <= wValue r < 65536 /\
  0 <= wIndex r < 65536 /\ 0 <= wLength r < 65536.

Lemma read_request_spec t :
  wp false h read_request t (fun r s => request_ok r /\ commands s = [] /\ received s !! 1%nat = Some (bRequest r)).
Proof.
  unfold read_request. repeat wp_step. split; [|done]. unfold request_ok. cbn.
  repeat match goal with |- context [u8 ?x] => pose proof (u8_range x); generalize dependent (u8 x); intros end.
  lia.
Qed.

(** Decide the polls for the SETUP packet from the acknowledgements so far. *)
Ltac setup_answers :=
  repeat match goal with
  | Hs : forall s' x, _ -> truthy x = (acks s' =? 0), H : h _ q_IsSETUPReceived = _ |- _ =>
      rewrite <-!app_assoc in H; apply Hs in H
  end;
  repeat match goal with H : truthy _ = (_ =? _), H' : truthy _ = _ |- _ => rewrite H in H'; clear H end;
  bprop; count_acks.

(** C6: every control request is acknowledged exactly once, by the application,
    by the standard handler, or by the stall at the end. *)
Theorem request_acknowledged_once d a t :
  setup_pending h t ->
  wp false h (USB_Device_ProcessControlRequest fuel size d a) t (fun _ s => acks s = 1).
Proof.
  intros Hset. unfold USB_Device_ProcessControlRequest. wp_step.
  eapply wp_mono; [apply read_request_spec|]. intros r s0 ((_ & _ & _ & _ & Hw) & Hc0%commands_acks & _). cbn beta. wp_step.
  call app_request. pose proof (acks_nonneg s).
  assert (Hsetup : forall s' x, h (t ++ s') q_IsSETUPReceived = x -> truthy x = (acks s' =? 0))
    by (by intros ? ? <-).
  repeat wp_step.
  { eapply wp_mono; [by apply standard_request_acks|]. intros [d' a'] s1 Hs1. cbn beta iota. repeat wp_step.
    all: setup_answers. }
  all: setup_answers.
Qed.

(** The requests the core has a handler for. *)
Definition is_standard (bRequest : Z) : bool :=
  bool_decide (bRequest ∈ [REQ_GetStatus; REQ_ClearFeature; REQ_SetFeature; REQ_SetAddress;
                           REQ_GetDescriptor; REQ_GetConfiguration; REQ_SetConfiguration]).

Lemma standard_request_unknown d a :
  is_standard (bRequest (USB_ControlRequest d)) = false -> standard_request fuel size d a = mret (d, a).
Proof.
  unfold is_standard. intros Hn%bool_decide_eq_false_1. unfold standard_request.
  set (b := bRequest _) in *. repeat rewrite not_elem_of_cons in Hn. destruct Hn as (?&?&?&?&?&?&?&?).
  by repeat rewrite (proj2 (Z.eqb_neq b _)) by done.
Qed.

(** A request that neither the application nor the core knows is answered by
    a stall and nothing else, and leaves the state of the device and of the
    application unchanged. *)
Theorem unknown_request_stalled d a t :
  setup_pending h t -> (forall d a, EVENT_USB_Device_ControlRequest d a = mret a) ->
  wp false h (USB_Device_ProcessControlRequest fuel size d a) t (fun '(d', a') s =>
    exists r, received s !! 1%nat = Some (bRequest r) /\
      (is_standard (bRequest r) = false ->
         commands s = [c_StallTransaction; c_ClearSETUP] /\ a' = a /\ d' = set_ControlRequest r d)).
Proof.
  intros Hset Happ. unfold USB_Device_ProcessControlRequest. wp_step.
  eapply wp_mono; [apply read_request_spec|]. intros r s0 ((_ & _ & _ & _ & Hw) & Hc0 & Hr0). cbn beta. wp_step.
  rewrite Happ. wp_step. rewrite ?app_nil_r.
  assert (Hsetup : forall x, h (t ++ s0) q_IsSETUPReceived = x -> truthy x = true).
  { intros x <-. by rewrite Hset, commands_acks. }
  assert (Hrec : forall s', received (s0 ++ s') !! 1%nat = Some (bRequest r)).
  { intros s'. rewrite received_app. by apply lookup_app_l_Some. }
  do 3 wp_step. rewrite (Hsetup _ H). wp_step. destruct (is_standard (bRequest r)) eqn:Hs.
  - eapply wp_mono; [by apply standard_request_acks|]. intros [d' a'] s1 _. cbn beta iota.
    repeat wp_step; exists r; (split; [by rewrite Hrec|by rewrite Hs]).
  - rewrite standard_request_unknown by done. repeat wp_step; exists r; (split; [by rewrite Hrec|]); intros _.
    + rewrite !commands_app, Hc0. done.
    + exfalso. rewrite <-!app_assoc in H0. rewrite <-H0, Hset, !acks_app, commands_acks in H1 by done. done.
Qed.

(** ** Configurations *)

(** The number of configurations of the device descriptor, zero without one. *)
Definition num_configurations : Z :=
  let '(n, p, _) := CALLBACK_USB_GetDescriptor 256 0 in
  if n =? NO_DESCRIPTOR then -1 else default (-1) (arr_get p offset_NumberOfConfigurations).

(** The state a configuration number leads to. *)
Definition configured_state (n : Z) (address_set : bool) : Z :=
  if truthy n then DEVICE_STATE_Configured
  else if address_set then DEVICE_STATE_Configured else DEVICE_STATE_Powered.

Lemma set_configuration_ok d a t :
  let n := u8 (wValue (USB_ControlRequest d)) in
  wp false h (USB_Device_SetConfiguration fuel d a) t (fun '(d', a') s =>
    if num_configurations <? n then d' = d /\ a' = a /\ s = []
    else d' = set_ConfigurationNumber n d /\
         exists status b rest, (status = [] \/ length status = 1%nat) /\
           commands s = [c_ClearSETUP] ++ status ++ [c_SetDeviceState (configured_state n b)] ++ rest /\
           (n = 0 -> exists s1 s2, s = s1 ++ s2 /\ truthy (h (t ++ s1) q_IsAddressSet) = b)).
Proof.
  cbv zeta. unfold USB_Device_SetConfiguration, num_configurations. change (Z.shiftl DTYPE_Device 8) with 256.
  destruct (CALLBACK_USB_GetDescriptor 256 0) as [[m p] sp] eqn:E.
  wp_step.
  { wp_step. rewrite H. pose proof (u8_range (wValue (USB_ControlRequest d))).
    by rewrite (proj2 (Z.ltb_lt _ _)) by lia. }
  rewrite H. bprop. pose proof (app_device_descriptor _ _ _ E H) as Hl.
  wp_step. destruct (arr_get_is_Some p offset_NumberOfConfigurations) as [x Hx].
  { unfold offset_NumberOfConfigurations. lia. }
  wp_step; [exact Hx|]. rewrite Hx. cbn [default from_option id]. wp_step.
  { wp_step. by rewrite H0. }
  rewrite H0. repeat wp_step. eapply wp_mono; [apply status_stage_spec|]. intros ? s Hs. cbn beta.
  assert (Hst : commands s = [] \/ length (commands s) = 1%nat) by (destruct Hs as [-> | ->]; auto).
  wp_step. wp_step; repeat wp_step.
  all: call app_config; repeat wp_step; split; [done|].
  - exists (commands s), true. eexists. split_and!; [exact Hst| |].
    + rewrite !commands_app. cbn. rewrite app_nil_r. unfold configured_state. cbn in H1. rewrite H1. done.
    + intros Hn. cbn in H1. by rewrite Hn in H1.
  - exists (commands s), (truthy a1). eexists. split_and!; [exact Hst| |].
    + rewrite !commands_app. cbn. rewrite app_nil_r. unfold configured_state. cbn in H1. rewrite H1. done.
    + intros _. exists ([Cmd c_ClearSETUP] ++ s). eexists. split; [by rewrite <-!app_assoc|].
      rewrite app_nil_r, <-app_assoc in H2. by rewrite H2.
Qed.

(** SET_CONFIGURATION with a number above the number of configurations of
    the device descriptor (or without one) changes nothing; otherwise the request
    is acknowledged, the number is recorded, and after the status stage the device
    state is set, before the application is told. *)
Theorem set_configuration_spec d a t :
  let n := u8 (wValue (USB_ControlRequest d)) in
  wp false h (USB_Device_SetConfiguration fuel d a) t (fun '(d', a') s =>
    if num_configurations <? n then d' = d /\ a' = a /\ s = []
    else d' = set_ConfigurationNumber n d /\
         exists status b rest, (status = [] \/ length status = 1%nat) /\
           commands s = [c_ClearSETUP] ++ status ++ [c_SetDeviceState (configured_state n b)] ++ rest /\
           (n = 0 -> exists s1 s2, s = s1 ++ s2 /\ truthy (h (t ++ s1) q_IsAddressSet) = b)).
Proof. apply set_configuration_ok. Qed.

(** SET_CONFIGURATION(0) on a device that has its address puts it in the
    Configured state, not in the Addressed one. *)
Theorem deconfigure_stays_configured d a t :
  u8 (wValue (USB_ControlRequest d)) = 0 -> 0 <= num_configurations ->
  (forall t, h t q_IsAddressSet <> 0) ->
  wp false h (USB_Device_SetConfiguration fuel d a) t (fun '(d', a') s =>
    USB_Device_ConfigurationNumber d' = 0 /\
    exists status rest, (status = [] \/ length status = 1%nat) /\
      commands s = [c_ClearSETUP] ++ status ++ [c_SetDeviceState DEVICE_STATE_Configured] ++ rest).
Proof.
  intros Hn Hc Ha. eapply wp_mono; [apply set_configuration_ok|]. intros [d' a'] s. cbn beta iota.
  rewrite Hn, (proj2 (Z.ltb_ge _ _)) by done. intros (-> & status & b & rest & Hst & -> & Hb).
  split; [done|]. exists status, rest. split; [done|].
  destruct (Hb eq_refl) as (s1 & s2 & _ & <-). unfold configured_state, truthy.
  by rewrite (proj2 (Z.eqb_neq (h _ _) 0)) by apply Ha.
Qed.

Definition config_valid (d : device) : Prop :=
  USB_Device_ConfigurationNumber d <= 0 `max` num_configurations.

Lemma set_feature_config d t :
  wp false h (USB_Device_ClearSetFeature fuel d) t (fun d' _ =>
    USB_Device_ConfigurationNumber d' = USB_Device_ConfigurationNumber d).
Proof.
  unfold USB_Device_ClearSetFeature. repeat wp_step; try done.
  all: call status_stage_acks; by repeat wp_step.
Qed.

Lemma standard_request_config d a t :
  0 <= wLength (USB_ControlRequest d) < 65536 -> config_valid d ->
  wp false h (standard_request fuel size d a) t (fun r _ => config_valid r.1).
Proof.
  intros Hw Hd. unfold standard_request. repeat wp_step; try done.
  - call get_status_acks. by wp_step.
  - call set_feature_config. wp_step. unfold config_valid in *. cbn. lia.
  - call set_address_acks. by wp_step.
  - eapply wp_mono; [by apply get_descriptor_acks|]. intros ? ? ?. by wp_step.
  - call get_configuration_acks. by wp_step.
  - eapply wp_mono; [apply set_configuration_ok|]. intros [d' a'] s. cbn beta iota.
    case_match; bprop; [by intros (-> & _)|]. intros (-> & _). unfold config_valid. cbn. lia.
Qed.

(** The configuration number of the device never exceeds the number of
    configurations of its device descriptor: every control request preserves it. *)
Theorem configuration_number_valid d a t :
  config_valid d ->
  wp false h (USB_Device_ProcessControlRequest fuel size d a) t (fun r _ => config_valid r.1).
Proof.
  intros Hd. unfold USB_Device_ProcessControlRequest. wp_step.
  eapply wp_mono; [apply read_request_spec|]. intros r s0 ((_ & _ & _ & _ & Hw) & _). cbn beta. wp_step.
  call app_request. repeat wp_step; try done.
  eapply wp_mono; [apply standard_request_config; [done|exact Hd]|].
  intros [d' a'] s1 Hs1. cbn beta iota. by repeat wp_step.
Qed.

(** ** Replies *)

(** The answer to GET_STATUS for the device is two bytes, the first of which
    has bit 0 set when the device is self-powered and bit 1 when remote wakeup is
    enabled, sent in one packet after the request was acknowledged. *)
Theorem get_status_device_reply d t :
  bmRequestType (USB_ControlRequest d) = 128 ->
  wp false h (USB_Device_GetStatus fuel d) t (fun _ s =>
    exists status, (status = [] \/ status = [c_ClearOUT]) /\
    commands s = [c_ClearSETUP;
      c_Write_8 (bool_Z (USB_Device_CurrentlySelfPowered d) + 2 * bool_Z (USB_Device_RemoteWakeupEnabled d));
      c_Write_8 0; c_ClearIN] ++ status).
Proof.
  intros Hr. unfold USB_Device_GetStatus. rewrite Hr. change (128 =? to_host REQREC_DEVICE) with true.
  cbn iota zeta. repeat wp_step. eapply wp_mono; [apply status_stage_spec|]. intros ? s Hs.
  rewrite Hr in Hs. exists (commands s). split; [exact Hs|]. rewrite !commands_app.
  by destruct (USB_Device_CurrentlySelfPowered d), (USB_Device_RemoteWakeupEnabled d).
Qed.

(** GET_DESCRIPTOR sends the descriptor the application gives for the
    request, cut to the length the host asked for, in packets of the control
    endpoint's size ended by a short one, to every host that follows the protocol,
    and then completes the status stage. *)
Theorem get_descriptor_wire d t n p sp :
  let r := USB_ControlRequest d in
  0 < wLength r < 65536 -> wValue r <> 768 + USE_INTERNAL_SERIAL ->
  CALLBACK_USB_GetDescriptor (wValue r) (wIndex r) = (n, p, sp) -> n <> NO_DESCRIPTOR ->
  protocol_host h size (t ++ [Cmd c_ClearSETUP]) -> (Z.to_nat (n / size) + 2 <= fuel)%nat ->
  wp true h (USB_Device_GetDescriptor fuel size d) t (fun _ s =>
    packets s = packetize size (take (Z.to_nat (n `min` wLength r)) p) /\
    last s = Some (Cmd c_ClearOUT) /\ acks s = 1).
Proof.
  intros r Hw Hv E Hn Hh Hf. destruct (app_descriptor _ _ _ _ _ E) as (? & ? & ?).
  unfold USB_Device_GetDescriptor. fold r. cbv zeta.
  replace (wValue r =? _) with false by (symmetry; apply Z.eqb_neq; exact Hv).
  rewrite E, (proj2 (Z.eqb_neq n NO_DESCRIPTOR)) by done. do 4 wp_step.
  assert (Hm : wp true h (Endpoint_Write_Control_Stream_LE r size fuel p n) (t ++ [Cmd c_ClearSETUP]) (fun code s =>
    (code = 0 /\ packets s = packetize size (take (Z.to_nat (n `min` wLength r)) p)) /\
    write_stage 1 p size 0 (n `min` wLength r) code s)).
  { apply wp_combine; [apply control_write_wire; done || lia|apply control_write_stage; done || lia]. }
  destruct sp.
  all: eapply wp_mono; [exact Hm|]; intros code s [[-> Hp] (_ & Hd & _)]; cbn beta; repeat wp_step.
  all: split_and!; [unfold packets in *; cbn; rewrite packets_from_app, Hp; by rewrite app_nil_r| |].
  all: try (by rewrite app_assoc, last_snoc).
  all: autorewrite with trace_rw; rewrite (data_stage_acks s) by done; done.
Qed.

Lemma process_request_safe d a t :
  wp false h (USB_Device_ProcessControlRequest fuel size d a) t (fun _ _ => True).
Proof.
  unfold USB_Device_ProcessControlRequest. wp_step.
  eapply wp_mono; [apply read_request_spec|]. intros r s0 ((_ & _ & _ & _ & Hw) & _). cbn beta. wp_step.
  call app_request. repeat wp_step; try done.
  eapply wp_mono; [by apply standard_request_acks|]. intros [d' a'] s1 _. cbn beta iota. by repeat wp_step.
Qed.

(** The device task leaves the endpoint selected that was selected before it
    ran, whatever the request handlers select in between. *)
Theorem device_task_restores_endpoint d a t :
  wp false h (USB_DeviceTask fuel size d a) t (fun _ s =>
    commands s = [] \/
    exists x, Ask q_GetCurrentEndpoint x ∈ s /\ last s = Some (Cmd (c_SelectEndpoint (Z.land (u8 x) 15)))).
Proof.
  unfold USB_DeviceTask. repeat wp_step; [by left| |].
  - eapply wp_mono; [apply process_request_safe|]. intros [d' a'] s _. cbn beta iota. repeat wp_step.
    right. eexists. split; [by right; left|]. by rewrite !app_assoc, app_nil_r, last_snoc.
  - right. eexists. split; [by right; left|]. done.
Qed.
End handlers.

(** ** Witnesses *)

(** An application with a device descriptor of one configuration and no requests
    of its own. *)
Definition plain_device_descriptor : list Z :=
  [18; 1; 16; 1; 0; 0; 0; 8; 235; 3; 66; 32; 1; 0; 1; 2; 220; 1].

Definition plain_app : Application unit := {|
    CALLBACK_USB_GetDescriptor := fun v _ =>
      if v =? 256 then (18, plain_device_descriptor, MEMSPACE_FLASH) else (0, [], MEMSPACE_RAM);
    EVENT_USB_Device_ControlRequest := fun _ a => mret a;
    EVENT_USB_Device_ConfigurationChanged := fun _ a => mret a
  |}.

Lemma plain_app_ok : @ApplicationOk unit plain_app.
Proof.
  assert (Hb : Forall is_byte plain_device_descriptor) by (apply (bool_decide_eq_true_1 _); by vm_compute).
  split.
  - intros v i size p sp. cbn. case_match; intros [= <- <- <-]; split_and!; done.
  - intros size p sp [= <- <- <-]. by vm_compute.
  - intros. by apply wp_ret.
  - intros. by apply wp_ret.
Qed.

(** A host that sends the request [req] (its eight bytes) and then nothing, and
    takes the data and the status stage. *)
Definition request_host (req : list Z) : hw := fun t q =>
  match q with
  | q_Read_8 => default 0 (req !! length (received t))
  | q_IsSETUPReceived => bool_Z (acks t =? 0)
  | q_IsINReady | q_IsOUTReceived | q_IsAddressSet => 1
  | q_DeviceState => DEVICE_STATE_Addressed
  | _ => 0
  end.

Lemma request_host_pending req : setup_pending (request_host req) [].
Proof. intros s. cbn. by destruct (acks s =? 0). Qed.

Definition device0 (req : USB_Request_Header_t) : device := mk_device req 0 true false.

Definition set_config_request (n : Z) : USB_Request_Header_t := mk_request 0 9 n 0 0.


Lemma request_acknowledged_once_witness :
  match @USB_Device_ProcessControlRequest unit plain_app 4 8 (device0 (set_config_request 0)) tt
          (request_host [0; 9; 1; 0; 0; 0; 0; 0]) [] with
  | Returns (_, s) => acks s = 1
  | _ => False
  end.
Proof.
  pose proof (@request_acknowledged_once unit plain_app plain_app_ok (request_host [0; 9; 1; 0; 0; 0; 0; 0])
    4 8 ltac:(lia) (device0 (set_config_request 0)) tt [] (request_host_pending _)) as H.
  wp_run H. destruct H as (s' & -> & H). exact H.
Defined.

Lemma unknown_request_stalled_witness :
  match @USB_Device_ProcessControlRequest unit plain_app 4 8 (device0 (set_config_request 0)) tt
          (request_host [64; 77; 0; 0; 0; 0; 0; 0]) [] with
  | Returns (_, s) => exists r, received s !! 1%nat = Some r /\
      (is_standard r = false -> commands s = [c_StallTransaction; c_ClearSETUP])
  | _ => False
  end.
Proof.
  pose proof (@unknown_request_stalled unit plain_app plain_app_ok (request_host [64; 77; 0; 0; 0; 0; 0; 0])
    4 8 ltac:(lia) (device0 (set_config_request 0)) tt [] (request_host_pending _) (fun _ _ => eq_refl)) as H.
  wp_run H. destruct p as [d' a']. destruct H as (s' & -> & r & Hr & H). exists (bRequest r). split; [exact Hr|].
  intros Hs. exact (proj1 (H Hs)).
Defined.

Lemma set_configuration_spec_witness :
  match @USB_Device_SetConfiguration unit plain_app 4 (device0 (set_config_request 1)) tt (request_host []) [] with
  | Returns ((d', _), _) => USB_Device_ConfigurationNumber d' = 1
  | _ => False
  end.
Proof.
  pose proof (@set_configuration_spec unit plain_app plain_app_ok (request_host []) 4
    (device0 (set_config_request 1)) tt []) as H.
  cbv zeta in H. wp_run H. destruct p as [d' a']. destruct H as (s' & -> & -> & _). reflexivity.
Defined.

Lemma deconfigure_stays_configured_witness :
  match @USB_Device_SetConfiguration unit plain_app 4 (device0 (set_config_request 0)) tt (request_host []) [] with
  | Returns (_, s) => exists status rest,
      commands s = [c_ClearSETUP] ++ status ++ [c_SetDeviceState DEVICE_STATE_Configured] ++ rest
  | _ => False
  end.
Proof.
  pose proof (@deconfigure_stays_configured unit plain_app plain_app_ok (request_host []) 4
    (device0 (set_config_request 0)) tt [] eq_refl ltac:(by vm_compute) ltac:(done)) as H.
  wp_run H. destruct p as [d' a']. destruct H as (s' & -> & _ & status & rest & _ & H).
  exists status, rest. exact H.
Defined.

Lemma configuration_number_valid_witness :
  match @USB_Device_ProcessControlRequest unit plain_app 4 8 (device0 (set_config_request 0)) tt
          (request_host [0; 9; 1; 0; 0; 0; 0; 0]) [] with
  | Returns ((d', _), _) => USB_Device_ConfigurationNumber d' <= 1
  | _ => False
  end.
Proof.
  pose proof (@configuration_number_valid unit plain_app plain_app_ok (request_host [0; 9; 1; 0; 0; 0; 0; 0])
    4 8 ltac:(lia) (device0 (set_config_request 0)) tt [] ltac:(by vm_compute)) as H.
  wp_run H. destruct p as [d' a']. destruct H as (s' & -> & H). exact H.
Defined.

Lemma get_status_device_reply_witness :
  match USB_Device_GetStatus 4 (device0 (mk_request 128 0 0 0 2)) (request_host []) [] with
  | Returns (_, s) => exists status, commands s = [c_ClearSETUP; c_Write_8 1; c_Write_8 0; c_ClearIN] ++ status
  | _ => False
  end.
Proof.
  pose proof (get_status_device_reply (request_host []) 4 (device0 (mk_request 128 0 0 0 2)) [] eq_refl) as H.
  wp_run H. destruct H as (s' & -> & status & _ & H). exists status. exact H.
Defined.

(** A host that follows the protocol after the request was acknowledged. *)
Definition descriptor_host : hw := fun t q => good_host (drop 1 t) q.

Lemma descriptor_host_protocol : protocol_host descriptor_host 8 [Cmd c_ClearSETUP].
Proof. destruct good_host_protocol. by split. Qed.

Lemma get_descriptor_wire_witness :
  exists s, @USB_Device_GetDescriptor unit plain_app 4 8 (device0 (mk_request 128 6 256 0 64)) descriptor_host []
              = Returns (tt, s) /\
    packets s = [take 8 plain_device_descriptor; take 8 (drop 8 plain_device_descriptor);
                 drop 16 plain_device_descriptor].
Proof.
  destruct (wp_total _ _ _ _ (@get_descriptor_wire unit plain_app plain_app_ok descriptor_host 4 8 ltac:(lia)
    (device0 (mk_request 128 6 256 0 64)) [] 18 plain_device_descriptor MEMSPACE_FLASH
    ltac:(cbn; lia) ltac:(done) eq_refl ltac:(done) descriptor_host_protocol ltac:(by vm_compute)))
    as ([] & s & E & Hp & _).
  exists s. split; [exact E|]. rewrite Hp. reflexivity.
Defined.

Lemma device_task_restores_endpoint_witness :
  match @USB_DeviceTask unit plain_app 4 8 (device0 (set_config_request 0)) tt
          (request_host [0; 9; 1; 0; 0; 0; 0; 0]) [] with
  | Returns (_, s) => commands s = [] \/
      exists x, Ask q_GetCurrentEndpoint x ∈ s /\ last s = Some (Cmd (c_SelectEndpoint (Z.land (u8 x) 15)))
  | _ => False
  end.
Proof.
  pose proof (@device_task_restores_endpoint unit plain_app plain_app_ok
    (request_host [0; 9; 1; 0; 0; 0; 0; 0]) 4 8 ltac:(lia) (device0 (set_config_request 0)) tt []) as H.
  wp_run H. destruct H as (s' & -> & H). exact H.
Defined.
