(* ===== verification/HIDDevice.v ===== *)
(** * The HID class driver, device side

    [LUFA/Drivers/USB/Class/Device/HIDClassDevice.c]: the class requests of a HID
    interface and the task that sends input reports.  The interface object
    [USB_ClassInfo_HID_Device_t] is a record, [PrevReportINBuffer] the array its
    pointer designates ([None] for a null pointer), and the two callbacks are the
    interface [HIDApplication]. *)
From S2P Require Import Prelude ConfigDescriptors USBIo Endpoint DeviceRequests.

Definition HID_REQ_GetReport := 1.
Definition HID_REQ_GetIdle := 2.
Definition HID_REQ_GetProtocol := 3.
Definition HID_REQ_SetReport := 9.
Definition HID_REQ_SetIdle := 10.
Definition HID_REQ_SetProtocol := 11.
Definition HID_DTYPE_HID := 33.
Definition HID_DTYPE_Report := 34.
Definition HID_REPORT_ITEM_In := 0.
Definition HID_REPORT_ITEM_Out := 1.
Definition EP_TYPE_INTERRUPT := 3.

Record USB_ClassInfo_HID_Device_t := mk_hid {
    InterfaceNumber : Z;
    ReportINEndpoint : USB_Endpoint_Table_t;
    PrevReportINBuffer : option (list Z);
    PrevReportINBufferSize : Z;
    UsingReportProtocol : bool;
    PrevFrameNum : Z;
    IdleCount : Z;
    IdleMSRemaining : Z
  }.

(** Updates of the state part. *)
Definition set_PrevReportINBuffer (b : option (list Z)) (i : USB_ClassInfo_HID_Device_t) :=
  mk_hid (InterfaceNumber i) (ReportINEndpoint i) b (PrevReportINBufferSize i)
    (UsingReportProtocol i) (PrevFrameNum i) (IdleCount i) (IdleMSRemaining i).
Definition set_UsingReportProtocol (b : bool) (i : USB_ClassInfo_HID_Device_t) :=
  mk_hid (InterfaceNumber i) (ReportINEndpoint i) (PrevReportINBuffer i) (PrevReportINBufferSize i)
    b (PrevFrameNum i) (IdleCount i) (IdleMSRemaining i).
Definition set_PrevFrameNum (n : Z) (i : USB_ClassInfo_HID_Device_t) :=
  mk_hid (InterfaceNumber i) (ReportINEndpoint i) (PrevReportINBuffer i) (PrevReportINBufferSize i)
    (UsingReportProtocol i) n (IdleCount i) (IdleMSRemaining i).
Definition set_IdleCount (n : Z) (i : USB_ClassInfo_HID_Device_t) :=
  mk_hid (InterfaceNumber i) (ReportINEndpoint i) (PrevReportINBuffer i) (PrevReportINBufferSize i)
    (UsingReportProtocol i) (PrevFrameNum i) n (IdleMSRemaining i).
Definition set_IdleMSRemaining (n : Z) (i : USB_ClassInfo_HID_Device_t) :=
  mk_hid (InterfaceNumber i) (ReportINEndpoint i) (PrevReportINBuffer i) (PrevReportINBufferSize i)
    (UsingReportProtocol i) (PrevFrameNum i) (IdleCount i) n.

(** The callbacks: [CreateHIDReport] is given the report ID, the report type, the
    report buffer and the report size, and returns whether to force the
    report, and the report ID, buffer and size it left behind;
    [ProcessHIDReport] is given the report ID and type, the data from its pointer
    on, and the size. *)
Class HIDApplication (A : Type) := {
    CALLBACK_HID_Device_CreateHIDReport :
      USB_ClassInfo_HID_Device_t -> A -> Z -> Z -> list Z -> Z -> io (bool * Z * list Z * Z * A);
    CALLBACK_HID_Device_ProcessHIDReport :
      USB_ClassInfo_HID_Device_t -> A -> Z -> Z -> list Z -> Z -> io A
  }.

(** [memcmp(a, b, n) != 0] *)
Definition memcmp_differs (a b : list Z) (n : Z) : option bool :=
  if (n <=? Z.of_nat (length a)) && (n <=? Z.of_nat (length b))
  then Some (negb (bool_decide (take (Z.to_nat n) a = take (Z.to_nat n) b))) else None.

(** [memcpy(dst, src, n)] *)
Definition memcpy (dst src : list Z) (n : Z) : option (list Z) :=
  if (n <=? Z.of_nat (length dst)) && (n <=? Z.of_nat (length src))
  then Some (take (Z.to_nat n) src ++ drop (Z.to_nat n) dst) else None.

(** [&data[i]], a pointer into (or just past) an array. *)
Definition ptr_at (data : list Z) (i : Z) : list Z := drop (Z.to_nat i) data.

Section driver.
Context {A : Type} `{!HIDApplication A}.
Context (fuel : nat) (USB_Device_ControlEndpointSize : Z).
(** The contents of the uninitialised [ReportData] array of SET_REPORT. *)
Context (indeterminate : nat -> list Z).

Abbreviation info := USB_ClassInfo_HID_Device_t.

(** Copy a report to the previous-report buffer, if there is one. *)
Definition save_report (i : info) (ReportData : list Z) : io info :=
  match PrevReportINBuffer i with
  | None => mret i
  | Some prev =>
      prev ← get (memcpy prev ReportData (PrevReportINBufferSize i));
      mret (set_PrevReportINBuffer (Some prev) i)
  end.

Definition class_to_host : Z := Z.lor (Z.lor REQDIR_DEVICETOHOST REQTYPE_CLASS) REQREC_INTERFACE.
Definition class_to_device : Z := Z.lor (Z.lor REQDIR_HOSTTODEVICE REQTYPE_CLASS) REQREC_INTERFACE.

Definition hid_GetReport (r : USB_Request_Header_t) (i : info) (a : A) : io (info * A) :=
  let ReportID := Z.land (wValue r) 255 in
  let ReportType := u8 (Z.shiftr (wValue r) 8 - 1) in
  let ReportData := replicate (Z.to_nat (PrevReportINBufferSize i)) 0 in
  '(_, ReportID, ReportData, ReportSize, a) ←
    CALLBACK_HID_Device_CreateHIDReport i a ReportID ReportType ReportData 0;
  i ← save_report i ReportData;
  Endpoint_SelectEndpoint ENDPOINT_CONTROLEP;;
  Endpoint_ClearSETUP;;
  Endpoint_Write_Control_Stream_LE r USB_Device_ControlEndpointSize fuel ReportData ReportSize;;
  Endpoint_ClearOUT;;
  mret (i, a).

Definition hid_SetReport (r : USB_Request_Header_t) (i : info) (a : A) : io (info * A) :=
  let ReportSize := wLength r in
  let ReportID := Z.land (wValue r) 255 in
  let ReportType := u8 (Z.shiftr (wValue r) 8 - 1) in
  let ReportData := indeterminate (Z.to_nat ReportSize) in
  Endpoint_ClearSETUP;;
  '(_, ReportData) ← Endpoint_Read_Control_Stream_LE fuel ReportData ReportSize;
  Endpoint_ClearIN;;
  let skip := if truthy ReportID then 1 else 0 in
  a ← CALLBACK_HID_Device_ProcessHIDReport i a ReportID ReportType
        (ptr_at ReportData skip) (u16 (ReportSize - skip));
  mret (i, a).

(** The reply to GET_PROTOCOL and GET_IDLE: one byte. *)
Definition hid_reply (r : USB_Request_Header_t) (b : Z) : io unit :=
  Endpoint_ClearSETUP;;
  wait_in_ready fuel;;
  Endpoint_Write_8 b;;
  Endpoint_ClearIN;;
  Endpoint_ClearStatusStage fuel r.

Definition HID_Device_ProcessControlRequest (d : device) (i : info) (a : A) : io (info * A) :=
  setup ← Endpoint_IsSETUPReceived;
  if negb setup then mret (i, a) else
  let r := USB_ControlRequest d in
  if negb (wIndex r =? InterfaceNumber i) then mret (i, a) else
  if bRequest r =? HID_REQ_GetReport then
    if bmRequestType r =? class_to_host then hid_GetReport r i a else mret (i, a)
  else if bRequest r =? HID_REQ_SetReport then
    if bmRequestType r =? class_to_device then hid_SetReport r i a else mret (i, a)
  else if bRequest r =? HID_REQ_GetProtocol then
    if bmRequestType r =? class_to_host
    then hid_reply r (bool_Z (UsingReportProtocol i));; mret (i, a) else mret (i, a)
  else if bRequest r =? HID_REQ_SetProtocol then
    if bmRequestType r =? class_to_device then
      Endpoint_ClearSETUP;;
      Endpoint_ClearStatusStage fuel r;;
      mret (set_UsingReportProtocol (negb (Z.land (wValue r) 255 =? 0)) i, a)
    else mret (i, a)
  else if bRequest r =? HID_REQ_SetIdle then
    if bmRequestType r =? class_to_device then
      Endpoint_ClearSETUP;;
      Endpoint_ClearStatusStage fuel r;;
      mret (set_IdleCount (Z.shiftr (Z.land (wValue r) 65280) 6) i, a)
    else mret (i, a)
  else if bRequest r =? HID_REQ_GetIdle then
    if bmRequestType r =? class_to_host
    then hid_reply r (u8 (Z.shiftr (IdleCount i) 2));; mret (i, a) else mret (i, a)
  else mret (i, a).

Definition HID_Device_ConfigureEndpoints (i : info) : io (bool * info) :=
  let i := mk_hid (InterfaceNumber i)
    (mk_endpoint (ep_Address (ReportINEndpoint i)) (ep_Size (ReportINEndpoint i)) EP_TYPE_INTERRUPT
       (ep_Banks (ReportINEndpoint i)))
    (PrevReportINBuffer i) (PrevReportINBufferSize i) true 0 500 0 in
  ok ← Endpoint_ConfigureEndpointTable [ReportINEndpoint i];
  if negb ok then mret (false, i) else mret (true, i).

(** Send a report: the report ID if there is one, and the data. *)
Definition send_report (i : info) (ReportID : Z) (ReportINData : list Z) (ReportINSize : Z) : io info :=
  let i := set_IdleMSRemaining (IdleCount i) i in
  Endpoint_SelectEndpoint (ep_Address (ReportINEndpoint i));;
  (if truthy ReportID then Endpoint_Write_8 ReportID else mret tt);;
  Endpoint_Write_Stream_LE fuel ReportINData ReportINSize None;;
  Endpoint_ClearIN;;
  mret i.

Definition HID_Device_USBTask (i : info) (a : A) : io (info * A) :=
  s ← USB_DeviceState;
  if negb (s =? DEVICE_STATE_Configured) then mret (i, a) else
  frame ← USB_Device_GetFrameNumber;
  if PrevFrameNum i =? frame then mret (i, a) else
  Endpoint_SelectEndpoint (ep_Address (ReportINEndpoint i));;
  allowed ← Endpoint_IsReadWriteAllowed;
  if negb allowed then mret (i, a) else
  let ReportINData := replicate (Z.to_nat (PrevReportINBufferSize i)) 0 in
  '(ForceSend, ReportID, ReportINData, ReportINSize, a) ←
    CALLBACK_HID_Device_CreateHIDReport i a 0 HID_REPORT_ITEM_In ReportINData 0;
  let IdlePeriodElapsed := truthy (IdleCount i) && negb (truthy (IdleMSRemaining i)) in
  StatesChanged ←
    match PrevReportINBuffer i with
    | None => mret false
    | Some prev => get (memcmp_differs ReportINData prev ReportINSize)
    end;
  i ← save_report i ReportINData;
  i ← (if truthy ReportINSize && (ForceSend || StatesChanged || IdlePeriodElapsed)
       then send_report i ReportID ReportINData ReportINSize else mret i);
  frame ← USB_Device_GetFrameNumber;
  mret (set_PrevFrameNum frame i, a).

(** [HIDClassDevice.h]: called once a millisecond. *)
Definition HID_Device_MillisecondElapsed (i : info) : info :=
  if truthy (IdleMSRemaining i) then set_IdleMSRemaining (u16 (IdleMSRemaining i - 1)) i else i.
End driver.
