(* ===== verification/HIDDeviceSpec.v ===== *)
(** * Correctness of the HID class driver (device side)

    The class requests are acknowledged at most once and keep the interface
    object well formed, what SET_IDLE and SET_PROTOCOL store GET_IDLE and
    GET_PROTOCOL return, and the task sends a report exactly when it has to. *)
From S2P Require Import Prelude ConfigDescriptors USBIo Endpoint EndpointSpec ControlStream.
From S2P Require Import DeviceRequests DeviceRequestsSpec HIDDevice.

(** ** What the driver relies on *)

(** The laws of the callbacks.  [CreateHIDReport] fills its buffer with bytes and
    reports a size that fits; [ProcessHIDReport] may be called with any report
    whose size is within its data.  Neither touches the endpoints. *)
Class HIDApplicationOk (A : Type) `{!HIDApplication A} := {
    create_ok : forall h i a id ty data n t, 0 <= id < 256 ->
      wp false h (CALLBACK_HID_Device_CreateHIDReport i a id ty data n) t (fun '(_, id', data', n', _) s =>
        length data' = length data /\ Forall is_byte data' /\ 0 <= n' <= Z.of_nat (length data) /\
        0 <= id' < 256 /\ commands s = [] /\ received s = []);
    process_ok : forall h i a id ty data n t, 0 <= n <= Z.of_nat (length data) ->
      wp false h (CALLBACK_HID_Device_ProcessHIDReport i a id ty data n) t (fun _ s => commands s = [])
  }.

Definition hid_ok (i : USB_ClassInfo_HID_Device_t) : Prop :=
  0 <= PrevReportINBufferSize i < 256 /\
  (forall b, PrevReportINBuffer i = Some b -> Z.of_nat (length b) = PrevReportINBufferSize i) /\
  0 <= IdleCount i < 65536 /\ 0 <= IdleMSRemaining i < 65536.

(** The idle period in milliseconds is four times the high byte of the request value. *)
Lemma idle_period v : 0 <= v < 65536 -> Z.shiftr (Z.land v 65280) 6 = 4 * (v / 256).
Proof.
  intros Hv. replace (4 * (v / 256)) with (Z.shiftl (Z.shiftr v 8) 2)
    by (rewrite Z.shiftl_mul_pow2, Z.shiftr_div_pow2 by lia;
        change (2 ^ 8) with 256; change (2 ^ 2) with 4; lia).
  replace 65280 with (Z.shiftl (Z.ones 8) 8) by done.
  apply Z.bits_inj'. intros n Hn. rewrite Z.shiftr_spec, Z.land_spec, !Z.shiftl_spec by lia.
  destruct (decide (n < 2)).
  - rewrite (Z.testbit_neg_r (Z.shiftr v 8)), (Z.testbit_neg_r (Z.ones 8)) by lia. apply andb_false_r.
  - rewrite Z.shiftr_spec by lia. replace (n - 2 + 8) with (n + 6) by lia.
    destruct (decide (n + 6 - 8 < 8)).
    + rewrite Z.ones_spec_low by lia. apply andb_true_r.
    + rewrite Z.ones_spec_high, andb_false_r by lia. symmetry.
      rewrite <-(Z.mod_small v (2 ^ 16)) by lia. apply Z.mod_pow2_bits_high. lia.
Qed.

Lemma land_byte x : 0 <= Z.land x 255 < 256.
Proof. rewrite (land_mask_wrap 8) by lia. apply (wrap_range 8). lia. Qed.

Section driver.
Context {A : Type} `{!HIDApplication A, !HIDApplicationOk A}.
Context (h : hw) (fuel : nat) (size : Z) (Hsize : 0 < size < 256).
Context (ind : nat -> list Z) (Hind : forall n, length (ind n) = n).

Lemma status_stage_sent d t :
  wp false h (Endpoint_ClearStatusStage fuel (USB_ControlRequest d)) t (fun _ s => sent s = []).
Proof.
  eapply wp_mono; [apply (status_stage_spec h fuel d)|]. intros ? s Hs. rewrite sent_commands.
  destruct Hs as [-> | ->]; [done|by case_match].
Qed.

Lemma memcpy_all (dst src : list Z) n :
  Z.of_nat (length dst) = n -> Z.of_nat (length src) = n -> memcpy dst src n = Some src.
Proof.
  intros Hd Hs. unfold memcpy. rewrite Hd, Hs, Z.leb_refl. cbn.
  by rewrite take_ge, drop_ge, app_nil_r by lia.
Qed.

Lemma save_report_ok i data t (Q : USB_ClassInfo_HID_Device_t -> list event -> Prop) :
  hid_ok i -> Z.of_nat (length data) = PrevReportINBufferSize i ->
  Q (set_PrevReportINBuffer ((fun _ => data) <$> PrevReportINBuffer i) i) [] -> wp false h (save_report i data) t Q.
Proof.
  intros (_ & Hp & _) Hd HQ. unfold save_report. destruct (PrevReportINBuffer i) as [prev|] eqn:E.
  - wp_step. wp_step; [by apply memcpy_all; [apply Hp|]|]. by wp_step.
  - wp_step. destruct i; cbn in *. by subst.
Qed.

Lemma hid_ok_save i data :
  hid_ok i -> Z.of_nat (length data) = PrevReportINBufferSize i ->
  hid_ok (set_PrevReportINBuffer ((fun _ => data) <$> PrevReportINBuffer i) i).
Proof.
  intros (? & _ & ?) Hd. split_and!; try done; cbn; try lia.
  intros b. destruct (PrevReportINBuffer i); [|done]. by intros [= <-].
Qed.

Ltac call L := eapply wp_mono; [apply L; done|]; intros ? ? ?; cbn beta in *.
Ltac count_acks :=
  repeat match goal with
  | H : silent _ |- _ => apply silent_acks in H
  | H : commands _ = [] |- _ => apply commands_acks in H
  end; autorewrite with trace_rw in *; cbn beta iota in *; lia.

Lemma hid_reply_acks d b t : wp false h (hid_reply fuel (USB_ControlRequest d) b) t (fun _ s => acks s = 1).
Proof.
  unfold hid_reply. repeat wp_step. call wait_in_ready_silent. repeat wp_step.
  call status_stage_acks. count_acks.
Qed.

Lemma get_report_ok r i a t :
  hid_ok i -> 0 <= wLength r < 65536 ->
  wp false h (hid_GetReport fuel size r i a) t (fun x s => hid_ok x.1 /\ acks s = 1).
Proof.
  intros Hi Hw. unfold hid_GetReport. wp_step. cbv zeta.
  eapply wp_mono; [apply create_ok, land_byte|]. intros [[[[f id] data] n] a'] s (Hl & Hb & Hn & _ & Hc & _).
  cbn beta iota. rewrite length_replicate in Hl. destruct Hi as (Hs & Hi). 
  assert (Hd : Z.of_nat (length data) = PrevReportINBufferSize i) by lia.
  rewrite length_replicate in Hn.
  wp_step. apply save_report_ok; [by split|done|]. repeat wp_step.
  eapply wp_mono; [apply control_write_acks; done || lia|]. intros ? ? ?. cbn beta in *. repeat wp_step.
  split; [apply hid_ok_save; [by split|done]|]. count_acks.
Qed.

(** A report ID comes with at least one byte of data. *)
Definition report_not_empty (r : USB_Request_Header_t) : Prop :=
  Z.land (wValue r) 255 <> 0 -> 0 < wLength r.

Lemma set_report_ok r i a t :
  0 <= wLength r < 65536 -> report_not_empty r ->
  wp false h (hid_SetReport fuel ind r i a) t (fun x s => x.1 = i /\ acks s = 1).
Proof.
  intros Hw Hne. unfold hid_SetReport. cbv zeta. repeat wp_step.
  eapply wp_mono; [apply control_read_stage; [lia|rewrite Hind; lia]|].
  intros [code data] s (Hlen & Hacks). cbn beta iota in *. rewrite Hind in Hlen. repeat wp_step.
  eapply wp_mono; [apply process_ok|].
  { unfold ptr_at, report_not_empty in *. rewrite length_drop.
    destruct (truthy _) eqn:E; [apply truthy_neq in E; specialize (Hne E)|].
    all: rewrite u16_small by lia; lia. }
  intros ? ? ?. cbn beta in *. repeat wp_step. split; [done|]. count_acks.
Qed.

(** A HID class request is acknowledged at most once, and only when it is
    for this interface; it keeps the interface object well formed and never
    accesses memory outside the report buffers. *)
Theorem hid_request_safe d i a t :
  let r := USB_ControlRequest d in
  hid_ok i -> request_ok r -> report_not_empty r ->
  wp false h (HID_Device_ProcessControlRequest fuel size ind d i a) t (fun x s =>
    hid_ok x.1 /\ 0 <= acks s <= 1 /\
    (wIndex r <> InterfaceNumber i -> x = (i, a) /\ acks s = 0)).
Proof.
  intros r Hi (_ & _ & Hv & _ & Hw) Hne. unfold HID_Device_ProcessControlRequest. fold r.
  assert (H0 : forall q x, hid_ok (i, a).1 /\ 0 <= acks [Ask q x] <= 1 /\
    (wIndex r <> InterfaceNumber i -> (i, a) = (i, a) /\ acks [Ask q x] = 0)) by done.
  do 4 wp_step; [by wp_step|]. cbv zeta. wp_step; [by wp_step|]. bprop.
  repeat wp_step; try (apply H0).
  - eapply wp_mono; [by apply get_report_ok|]. intros x s [? ?]. cbn beta. split_and!; count_acks || done.
  - eapply wp_mono; [by apply set_report_ok|]. intros x s [-> ?]. cbn beta. split_and!; count_acks || done.
  - call hid_reply_acks. wp_step. split_and!; count_acks || done.
  - call (status_stage_acks h fuel d). wp_step. split_and!; count_acks || done.
  - call (status_stage_acks h fuel d). wp_step. rewrite idle_period by done.
    assert (0 <= 4 * (wValue r / 256) < 65536) by zdm.
    destruct Hi as (? & ? & ? & ?). split; [by split|]. split_and!; count_acks || done.
  - call hid_reply_acks. wp_step. split_and!; count_acks || done.
Qed.

(** ** Round trips *)

(** The one-byte replies: acknowledge, write, send. *)
Lemma hid_reply_sent d b t :
  wp false h (hid_reply fuel (USB_ControlRequest d) b) t (fun _ s => sent s = [u8 b]).
Proof.
  unfold hid_reply. repeat wp_step. call wait_in_ready_silent. repeat wp_step.
  call status_stage_sent. autorewrite with trace_rw. by rewrite (silent_sent s), H0 by done.
Qed.

Definition is_request (r : USB_Request_Header_t) (i : USB_ClassInfo_HID_Device_t) (type req : Z) : Prop :=
  bmRequestType r = type /\ bRequest r = req /\ wIndex r = InterfaceNumber i.

(** The class requests that set or report a byte of the state. *)
Section simple_requests.
Context (d : device) (i : USB_ClassInfo_HID_Device_t) (a : A) (t : list event).
Context (Hset : forall t, h t q_IsSETUPReceived <> 0).

(** Evaluate the tests on constants. *)
Ltac eval_tests :=
  cbv zeta; repeat match goal with
  | |- context [?x =? ?y] =>
      let b := eval vm_compute in (x =? y) in
      lazymatch b with true => idtac | false => idtac end; change (x =? y) with b
  end; cbn [negb].

Ltac enter H :=
  destruct H as (E1 & E2 & E3); unfold HID_Device_ProcessControlRequest; rewrite E1, E2, E3, Z.eqb_refl;
  do 4 wp_step; [exfalso; bprop; apply (Hset t); congruence|]; eval_tests;
  repeat wp_step.

Lemma set_idle_run :
  is_request (USB_ControlRequest d) i class_to_device HID_REQ_SetIdle ->
  0 <= wValue (USB_ControlRequest d) < 65536 ->
  wp false h (HID_Device_ProcessControlRequest fuel size ind d i a) t (fun x s =>
    sent s = [] /\ x = (set_IdleCount (4 * (wValue (USB_ControlRequest d) / 256)) i, a)).
Proof.
  intros H Hv. enter H. call status_stage_sent. wp_step. rewrite idle_period by done. split; [|done].
  by autorewrite with trace_rw; rewrite H1.
Qed.

Lemma get_idle_run :
  is_request (USB_ControlRequest d) i class_to_host HID_REQ_GetIdle ->
  wp false h (HID_Device_ProcessControlRequest fuel size ind d i a) t (fun x s =>
    sent s = [u8 (Z.shiftr (IdleCount i) 2)] /\ x = (i, a)).
Proof.
  intros H. enter H. call hid_reply_sent. wp_step. split; [|done].
  by autorewrite with trace_rw; rewrite H1, wrap_wrap.
Qed.

Lemma set_protocol_run :
  is_request (USB_ControlRequest d) i class_to_device HID_REQ_SetProtocol ->
  wp false h (HID_Device_ProcessControlRequest fuel size ind d i a) t (fun x s =>
    sent s = [] /\ x = (set_UsingReportProtocol (negb (Z.land (wValue (USB_ControlRequest d)) 255 =? 0)) i, a)).
Proof.
  intros H. enter H. call status_stage_sent. wp_step. split; [|done].
  by autorewrite with trace_rw; rewrite H1.
Qed.

Lemma get_protocol_run :
  is_request (USB_ControlRequest d) i class_to_host HID_REQ_GetProtocol ->
  wp false h (HID_Device_ProcessControlRequest fuel size ind d i a) t (fun x s =>
    sent s = [bool_Z (UsingReportProtocol i)] /\ x = (i, a)).
Proof.
  intros H. enter H. call hid_reply_sent. wp_step. split; [|done].
  autorewrite with trace_rw; rewrite H1. by destruct (UsingReportProtocol i).
Qed.
End simple_requests.

(** GET_IDLE returns the idle rate that the last SET_IDLE set, in units of 4 ms:
    the high byte of its value; the driver keeps it in milliseconds. *)
Theorem idle_round_trip d1 d2 i a t :
  (forall t, h t q_IsSETUPReceived <> 0) ->
  is_request (USB_ControlRequest d1) i class_to_device HID_REQ_SetIdle ->
  is_request (USB_ControlRequest d2) i class_to_host HID_REQ_GetIdle ->
  0 <= wValue (USB_ControlRequest d1) < 65536 ->
  wp false h ('(i', a') ← HID_Device_ProcessControlRequest fuel size ind d1 i a;
              HID_Device_ProcessControlRequest fuel size ind d2 i' a') t (fun x s =>
    sent s = [wValue (USB_ControlRequest d1) / 256] /\
    IdleCount x.1 = 4 * (wValue (USB_ControlRequest d1) / 256)).
Proof.
  intros Hset H1 H2 Hv. wp_step. eapply wp_mono; [by apply set_idle_run|].
  intros x s [Hs ->]. cbn beta iota. eapply wp_mono; [by apply get_idle_run|].
  intros x s' [Hs' ->]. cbn -[Z.mul Z.div]. split; [|done]. rewrite sent_app, Hs, Hs'. cbn [app IdleCount set_IdleCount].
  f_equal. rewrite Z.shiftr_div_pow2 by lia. change (2 ^ 2) with 4.
  rewrite Z.mul_comm, Z.div_mul by lia. apply u8_small. zdm.
Qed.

(** GET_PROTOCOL returns one exactly when the last SET_PROTOCOL selected the
    report protocol (a non-zero value). *)
Theorem protocol_round_trip d1 d2 i a t :
  (forall t, h t q_IsSETUPReceived <> 0) ->
  is_request (USB_ControlRequest d1) i class_to_device HID_REQ_SetProtocol ->
  is_request (USB_ControlRequest d2) i class_to_host HID_REQ_GetProtocol ->
  wp false h ('(i', a') ← HID_Device_ProcessControlRequest fuel size ind d1 i a;
              HID_Device_ProcessControlRequest fuel size ind d2 i' a') t (fun _ s =>
    sent s = [bool_Z (negb (Z.land (wValue (USB_ControlRequest d1)) 255 =? 0))]).
Proof.
  intros Hset H1 H2. wp_step. eapply wp_mono; [by apply set_protocol_run|].
  intros x s [Hs ->]. cbn beta iota. eapply wp_mono; [by apply get_protocol_run|].
  intros x s' [Hs' ->]. by rewrite sent_app, Hs, Hs'.
Qed.

(** ** Sending reports *)

(** Whether the first [n] bytes of a report differ from the previous one. *)
Definition report_changed (i : USB_ClassInfo_HID_Device_t) (data : list Z) (n : Z) : bool :=
  match PrevReportINBuffer i with
  | None => false
  | Some prev => negb (bool_decide (take (Z.to_nat n) data = take (Z.to_nat n) prev))
  end.

(** Whether the task has to send the report the callback made. *)
Definition must_send (i : USB_ClassInfo_HID_Device_t) (force : bool) (data : list Z) (n : Z) : bool :=
  truthy n && (force || report_changed i data n || (truthy (IdleCount i) && negb (truthy (IdleMSRemaining i)))).

(** The callback [CreateHIDReport] returned [x] when the task called it. *)
Definition created (i : USB_ClassInfo_HID_Device_t) (a : A) (x : bool * Z * list Z * Z * A) : Prop :=
  exists t t', CALLBACK_HID_Device_CreateHIDReport i a 0 HID_REPORT_ITEM_In
                 (replicate (Z.to_nat (PrevReportINBufferSize i)) 0) 0 h t = Returns (x, t').

Lemma send_report_ok i id data n t :
  0 <= n <= Z.of_nat (length data) -> n < 65536 -> Forall is_byte data -> 0 <= id < 256 ->
  wp false h (send_report fuel i id data n) t (fun i' s =>
    i' = set_IdleMSRemaining (IdleCount i) i /\
    exists k, Z.of_nat k <= n /\ sent s = (if truthy id then [id] else []) ++ take k data).
Proof.
  intros Hn Hn' Hb Hid. unfold send_report. cbv zeta. do 4 wp_step.
  eapply (wp_mono _ _ _ _ (fun _ s => sent s = if truthy id then [id] else [])).
  { destruct (truthy id); repeat wp_step; [|done]. cbn. by rewrite u8_small. }
  intros _ s Hs. wp_step. eapply wp_mono; [apply write_le_ok; first [done | lia | split; cbn; lia]|].
  intros [[code buf'] bp'] s' (_ & _ & k & Hk & (Hk' & _)). cbn beta iota. repeat wp_step. split; [done|].
  exists k. cbn in Hk'. split; [lia|]. autorewrite with trace_rw. rewrite Hs, Hk. by rewrite app_nil_r.
Qed.

End driver.

(** The idle timer counts down by one a millisecond and stops at zero. *)
Theorem idle_timer_counts_down n i :
  hid_ok i ->
  IdleMSRemaining (Nat.iter n HID_Device_MillisecondElapsed i) = 0 `max` (IdleMSRemaining i - Z.of_nat n).
Proof.
  intros (_ & _ & _ & Hm). induction n as [|n IH]; [cbn; lia|].
  change (Nat.iter (S n) ?f i) with (f (Nat.iter n f i)). set (j := Nat.iter n _ i) in *.
  unfold HID_Device_MillisecondElapsed.
  destruct (truthy (IdleMSRemaining j)) eqn:E; [apply truthy_neq in E|apply truthy_eq in E].
  - cbn [IdleMSRemaining set_IdleMSRemaining]. rewrite IH, u16_small by lia. lia.
  - lia.
Qed.

(** An application that records the sizes of the reports it is given, and whose
    input report is its state. *)
Definition recorder : HIDApplication (list Z) := {|
    CALLBACK_HID_Device_CreateHIDReport := fun _ a id _ data _ =>
      mret (false, id, replicate (length data) 7, Z.of_nat (length data), a);
    CALLBACK_HID_Device_ProcessHIDReport := fun _ a _ _ _ n => mret (n :: a)
  |}.

(** A SET_REPORT with a report ID and no data hands the application a report
    of 65535 bytes: the size of the data without the ID wraps around. *)
Theorem set_report_size_wraps h fuel ind d i t :
  (2 <= fuel)%nat -> (forall t, h t q_IsINReady <> 0) -> (forall t, h t q_IsSETUPReceived <> 0) ->
  is_request (USB_ControlRequest d) i class_to_device HID_REQ_SetReport ->
  Z.land (wValue (USB_ControlRequest d)) 255 <> 0 -> wLength (USB_ControlRequest d) = 0 ->
  exists t', @HID_Device_ProcessControlRequest _ recorder fuel 8 ind d i [] h t
               = Returns (i, [65535], t').
Proof.
  intros Hf Hin Hset (E1 & E2 & E3) Hid Hw.
  assert (Hwp : wp true h (@HID_Device_ProcessControlRequest _ recorder fuel 8 ind d i []) t
    (fun x _ => x = (i, [65535]))).
  { unfold HID_Device_ProcessControlRequest. rewrite E1, E2, E3, Z.eqb_refl.
    do 4 wp_step; [exfalso; bprop; apply (Hset t); congruence|]. cbv zeta. cbn [negb].
    change (HID_REQ_SetReport =? HID_REQ_GetReport) with false. cbn iota. rewrite !Z.eqb_refl.
    unfold hid_SetReport. rewrite Hw. cbv zeta. destruct fuel as [|f]; [lia|].
    unfold Endpoint_Read_Control_Stream_LE, Template_Endpoint_Control_R. change (truthy 0) with false.
    cbn [negb control_read_loop wait_status]. change (truthy 0) with false. cbn iota.
    repeat wp_step.
    all: try (exfalso; match goal with
              | H : _ ?x q_IsINReady = _, H' : truthy _ = false, Hr : forall t, _ t q_IsINReady <> 0 |- _ =>
                  apply truthy_eq in H'; apply (Hr x); congruence
              end).
    unfold truthy at 1 2. rewrite (proj2 (Z.eqb_neq _ 0) Hid).
    cbn [CALLBACK_HID_Device_ProcessHIDReport recorder]. by repeat wp_step. }
  destruct (wp_total _ _ _ _ Hwp) as (x & s & E & ->). eauto.
Qed.

(** ** Witnesses *)

Lemma recorder_ok : @HIDApplicationOk _ recorder.
Proof.
  split.
  - intros. cbn [CALLBACK_HID_Device_CreateHIDReport recorder]. wp_step.
    rewrite length_replicate. split_and!; try done; try lia. apply Forall_replicate. by vm_compute.
  - intros. cbn [CALLBACK_HID_Device_ProcessHIDReport recorder]. by wp_step.
Qed.

Definition keyboard_info (idle remaining : Z) : USB_ClassInfo_HID_Device_t :=
  mk_hid 0 (mk_endpoint 129 8 3 1) (Some [7; 7; 7; 1]) 4 true 0 idle remaining.

Lemma keyboard_info_ok idle remaining :
  0 <= idle < 65536 -> 0 <= remaining < 65536 -> hid_ok (keyboard_info idle remaining).
Proof. intros. split_and!; cbn; try lia. by intros b [= <-]. Qed.

Definition zeros (n : nat) : list Z := replicate n 0.

(** A host with which everything is ready. *)
Definition easy_host : hw := fun t q =>
  match q with
  | q_IsINReady | q_IsOUTReceived | q_IsSETUPReceived | q_IsReadWriteAllowed => 1
  | q_DeviceState => DEVICE_STATE_Configured
  | q_GetFrameNumber => 5
  | _ => 0
  end.

Lemma hid_request_safe_witness :
  match @HID_Device_ProcessControlRequest _ recorder 4 8 zeros (device0 (mk_request 33 10 1024 0 0))
          (keyboard_info 0 0) [] easy_host [] with
  | Returns (x, s) => hid_ok x.1 /\ 0 <= acks s <= 1
  | _ => False
  end.
Proof.
  pose proof (@hid_request_safe _ recorder recorder_ok easy_host 4 8 ltac:(lia) zeros
    (fun n => length_replicate n 0) (device0 (mk_request 33 10 1024 0 0)) (keyboard_info 0 0) [] []
    (keyboard_info_ok 0 0 ltac:(lia) ltac:(lia)) ltac:(by vm_compute) ltac:(by vm_compute)) as H.
  cbv zeta in H. wp_run H. destruct H as (s' & -> & Hk & Ha & _). split; [exact Hk|exact Ha].
Defined.

Lemma idle_round_trip_witness :
  match ('(i', a') ← @HID_Device_ProcessControlRequest _ recorder 4 8 zeros
            (device0 (mk_request 33 10 1024 0 0)) (keyboard_info 0 0) [];
         @HID_Device_ProcessControlRequest _ recorder 4 8 zeros
            (device0 (mk_request 161 2 0 0 1)) i' a') easy_host [] with
  | Returns (x, s) => sent s = [4] /\ IdleCount x.1 = 16
  | _ => False
  end.
Proof.
  pose proof (@idle_round_trip _ recorder easy_host 4 8 zeros
    (device0 (mk_request 33 10 1024 0 0)) (device0 (mk_request 161 2 0 0 1)) (keyboard_info 0 0) [] []
    ltac:(done) ltac:(done) ltac:(done) ltac:(by vm_compute)) as H.
  wp_run H. destruct H as (s' & -> & Hs & Hi). split; [exact Hs|exact Hi].
Defined.

Lemma protocol_round_trip_witness :
  match ('(i', a') ← @HID_Device_ProcessControlRequest _ recorder 4 8 zeros
            (device0 (mk_request 33 11 0 0 0)) (keyboard_info 0 0) [];
         @HID_Device_ProcessControlRequest _ recorder 4 8 zeros
            (device0 (mk_request 161 3 0 0 1)) i' a') easy_host [] with
  | Returns (_, s) => sent s = [0]
  | _ => False
  end.
Proof.
  pose proof (@protocol_round_trip _ recorder easy_host 4 8 zeros
    (device0 (mk_request 33 11 0 0 0)) (device0 (mk_request 161 3 0 0 1)) (keyboard_info 0 0) [] []
    ltac:(done) ltac:(done) ltac:(done)) as H.
  wp_run H. destruct H as (s' & -> & Hs). exact Hs.
Defined.


Lemma idle_timer_counts_down_witness :
  IdleMSRemaining (Nat.iter 3 HID_Device_MillisecondElapsed (keyboard_info 500 2)) = 0.
Proof. exact (idle_timer_counts_down 3 _ (keyboard_info_ok 500 2 ltac:(lia) ltac:(lia))). Defined.

Lemma set_report_size_wraps_witness :
  exists t', @HID_Device_ProcessControlRequest _ recorder 2 8 zeros (device0 (mk_request 33 9 513 0 0))
               (keyboard_info 0 0) [] easy_host [] = Returns (keyboard_info 0 0, [65535], t').
Proof.
  exact (set_report_size_wraps easy_host 2 zeros (device0 (mk_request 33 9 513 0 0)) (keyboard_info 0 0) []
    ltac:(lia) ltac:(done) ltac:(done) ltac:(done) ltac:(done) eq_refl).
Defined.
