(* ===== verification/NetBuffers.v ===== *)
(** * Frame buffers and the state of the RNDIS demo's network stack

    [Demos/Device/LowLevel/RNDISEthernet/Lib]: the two Ethernet frame buffers
    ([FrameIN], [FrameOUT] of [Ethernet.c]), the TCP tables ([TCP.c]), and the
    accesses to them.  A header pointer of the C code is an offset into
    [FrameData]; a field access through it reads or writes the bytes of the field
    (the AVR is little endian and packs structures), and an access outside the
    1500 bytes of the buffer is a fault.

    The header layouts are those of [Ethernet.h], [IP.h], [ICMP.h], [ARP.h],
    [UDP.h], [DHCP.h] and [TCP.h]; the addresses are those of
    [Config/AppConfig.h], which also compiles the [Decode...] calls (serial
    debugging output) out. *)
From S2P Require Import Prelude.

(** ** Bytes *)

Definition byte_ok (b : Z) : Prop := 0 <= b < 256.

Fixpoint le_val (bs : list Z) : Z :=
  match bs with [] => 0 | b :: bs => b + 256 * le_val bs end.

Fixpoint le_bytes (n : nat) (v : Z) : list Z :=
  match n with O => [] | S n => v mod 256 :: le_bytes n (v / 256) end.

(** [n] bytes of [d] from offset [off]. *)
Definition slice (off n : Z) (d : list Z) : list Z := take (Z.to_nat n) (drop (Z.to_nat off) d).

(** [d] with [bs] written at offset [off]. *)
Definition splice (off : Z) (bs d : list Z) : list Z := list_inserts (Z.to_nat off) bs d.

Definition peek (off n : Z) (d : list Z) : option (list Z) :=
  if (0 <=? off) && (0 <=? n) && (off + n <=? Z.of_nat (length d)) then Some (slice off n d) else None.

Definition poke (off : Z) (bs d : list Z) : option (list Z) :=
  if (0 <=? off) && (off + Z.of_nat (length bs) <=? Z.of_nat (length d))
  then Some (splice off bs d) else None.

(** [Endianness.h]: the macros, which the compiler uses for constants ... *)
Definition SwapEndian_16 (x : Z) : Z :=
  u16 (Z.lor (Z.shiftr (Z.land x 0xFF00) 8) (Z.shiftl (Z.land x 0x00FF) 8)).

Definition SwapEndian_32 (x : Z) : Z :=
  u32 (Z.lor (Z.lor (Z.lor (Z.shiftr (Z.land x 0xFF000000) 24) (Z.shiftr (Z.land x 0x00FF0000) 8))
             (Z.shiftl (Z.land x 0x0000FF00) 8)) (Z.shiftl (Z.land x 0x000000FF) 24)).

(** ... and the code for other values, which exchanges the bytes of a union. *)
Definition swap_bytes (i j : nat) (Bytes : list Z) : list Z :=
  match Bytes !! i, Bytes !! j with
  | Some bi, Some bj => <[j := bi]> (<[i := bj]> Bytes)
  | _, _ => Bytes
  end.

Definition SwapEndian_16_runtime (Word : Z) : Z := le_val (swap_bytes 0 1 (le_bytes 2 Word)).

Definition SwapEndian_32_runtime (DWord : Z) : Z :=
  le_val (swap_bytes 1 2 (swap_bytes 0 3 (le_bytes 4 DWord))).

(** [SwapEndian_n]: [CurrDataPos] is an index of the data.  A round takes two off
    [Length], so [Length] rounds are enough. *)
Fixpoint swap_loop (fuel : nat) (Data : list Z) (CurrDataPos Length : Z) : outcome (list Z) :=
  if 1 <? Length then
    match fuel with
    | O => Loops
    | S fuel =>
        Temp ← access (arr_get Data CurrDataPos);
        last ← access (arr_get Data (CurrDataPos + Length - 1));
        Data ← access (arr_set Data CurrDataPos last);
        Data ← access (arr_set Data (CurrDataPos + Length - 1) Temp);
        swap_loop fuel Data (CurrDataPos + 1) (u8 (Length - 2))
    end
  else mret Data.

Definition SwapEndian_n (Data : list Z) (Length : Z) : outcome (list Z) :=
  swap_loop (Z.to_nat Length) Data 0 Length.

(** ** Constants *)

Definition ETHERNET_FRAME_SIZE_MAX := 1500.
Definition ETHERNET_VER2_MINSIZE := 0x0600.
Definition NO_RESPONSE := 0.
Definition NO_PROCESS := -1.
Definition ETHERTYPE_IPV4 := 0x0800.
Definition ETHERTYPE_ARP := 0x0806.
Definition PROTOCOL_ICMP := 1.
Definition PROTOCOL_TCP := 6.
Definition PROTOCOL_UDP := 17.
Definition DEFAULT_TTL := 128.

Definition ServerMACAddress : list Z := [0x00; 0x01; 0x00; 0x01; 0x00; 0x01].
Definition ServerIPAddress : list Z := [10; 0; 0; 2].
Definition BroadcastMACAddress : list Z := [0xFF; 0xFF; 0xFF; 0xFF; 0xFF; 0xFF].
Definition BroadcastIPAddress : list Z := [0xFF; 0xFF; 0xFF; 0xFF].
Definition ClientIPAddress : list Z := [10; 0; 0; 1].

(** [memcmp(a, b, n) == 0] of two addresses of the same type. *)
Definition MAC_COMPARE (a b : list Z) : bool := bool_decide (a = b).
Definition IP_COMPARE (a b : list Z) : bool := bool_decide (a = b).

Definition sizeof_Ethernet_Frame_Header_t := 14.
Definition sizeof_IP_Header_t := 20.
Definition sizeof_ICMP_Header_t := 8.
Definition sizeof_ARP_Header_t := 28.
Definition sizeof_UDP_Header_t := 8.
Definition sizeof_DHCP_Header_t := 240.
Definition sizeof_TCP_Header_t := 20.

Create HintDb net.
Create Rewrite HintDb net.
#[export] Hint Unfold sizeof_Ethernet_Frame_Header_t sizeof_IP_Header_t sizeof_ICMP_Header_t
  sizeof_ARP_Header_t sizeof_UDP_Header_t sizeof_DHCP_Header_t sizeof_TCP_Header_t : net.

(** ** State *)

Record Ethernet_Frame_Info_t := { FrameData : list Z; FrameLength : Z }.

Record TCP_ConnectionBuffer_t := {
  Length : Z;
  Data : list Z;
  Direction : bool;
  Ready : bool;
  InUse : bool }.

Record TCP_ConnectionInfo_t := {
  SequenceNumberIn : Z;
  SequenceNumberOut : Z;
  Buffer : TCP_ConnectionBuffer_t }.

Record TCP_ConnectionState_t := {
  Port : Z;
  RemotePort : Z;
  RemoteAddress : list Z;
  Info : TCP_ConnectionInfo_t;
  State : Z }.

(** An application handler runs on the connection it is given a pointer to
    (and to its buffer) and on the state [A] of the applications. *)
Definition handler (A : Type) : Type :=
  A -> TCP_ConnectionState_t -> outcome (A * TCP_ConnectionState_t).

Record TCP_PortState_t (A : Type) := {
  P_Port : Z;
  P_State : Z;
  ApplicationHandler : handler A }.
Arguments P_Port {A} _.
Arguments P_State {A} _.
Arguments ApplicationHandler {A} _.

(** The globals of the network stack, and the state of the applications. *)
Record net (A : Type) := mk_net {
  FrameIN : Ethernet_Frame_Info_t;
  FrameOUT : Ethernet_Frame_Info_t;
  PortStateTable : list (TCP_PortState_t A);
  ConnectionStateTable : list TCP_ConnectionState_t;
  app : A }.
Arguments mk_net {A} _ _ _ _ _.
Arguments FrameIN {A} _.
Arguments FrameOUT {A} _.
Arguments PortStateTable {A} _.
Arguments ConnectionStateTable {A} _.
Arguments app {A} _.

(** Field assignments. *)
Definition set_Length v b := {| Length := v; Data := Data b; Direction := Direction b; Ready := Ready b; InUse := InUse b |}.
Definition set_Data v b := {| Length := Length b; Data := v; Direction := Direction b; Ready := Ready b; InUse := InUse b |}.
Definition set_Direction v b := {| Length := Length b; Data := Data b; Direction := v; Ready := Ready b; InUse := InUse b |}.
Definition set_Ready v b := {| Length := Length b; Data := Data b; Direction := Direction b; Ready := v; InUse := InUse b |}.
Definition set_InUse v b := {| Length := Length b; Data := Data b; Direction := Direction b; Ready := Ready b; InUse := v |}.
Definition set_SequenceNumberIn v i := {| SequenceNumberIn := v; SequenceNumberOut := SequenceNumberOut i; Buffer := Buffer i |}.
Definition set_SequenceNumberOut v i := {| SequenceNumberIn := SequenceNumberIn i; SequenceNumberOut := v; Buffer := Buffer i |}.
Definition on_Buffer f i := {| SequenceNumberIn := SequenceNumberIn i; SequenceNumberOut := SequenceNumberOut i; Buffer := f (Buffer i) |}.
Definition on_Info f c := {| Port := Port c; RemotePort := RemotePort c; RemoteAddress := RemoteAddress c; Info := f (Info c); State := State c |}.
Definition set_State v c := {| Port := Port c; RemotePort := RemotePort c; RemoteAddress := RemoteAddress c; Info := Info c; State := v |}.

Definition set_FrameIN {A} f (s : net A) :=
  mk_net f (FrameOUT s) (PortStateTable s) (ConnectionStateTable s) (app s).
Definition set_FrameOUT {A} f (s : net A) :=
  mk_net (FrameIN s) f (PortStateTable s) (ConnectionStateTable s) (app s).
Definition set_Ports {A} l (s : net A) :=
  mk_net (FrameIN s) (FrameOUT s) l (ConnectionStateTable s) (app s).
Definition set_Connections {A} l (s : net A) :=
  mk_net (FrameIN s) (FrameOUT s) (PortStateTable s) l (app s).
Definition set_app {A} a (s : net A) :=
  mk_net (FrameIN s) (FrameOUT s) (PortStateTable s) (ConnectionStateTable s) a.
Definition set_in_data {A} d (s : net A) :=
  set_FrameIN {| FrameData := d; FrameLength := FrameLength (FrameIN s) |} s.
Definition set_out_data {A} d (s : net A) :=
  set_FrameOUT {| FrameData := d; FrameLength := FrameLength (FrameOUT s) |} s.
Abbreviation in_data s := (FrameData (FrameIN s)).
Abbreviation out_data s := (FrameData (FrameOUT s)).

(** [x] with [v] in the bit field of [width] bits from bit [lo]. *)
Definition bits (x lo width v : Z) : Z :=
  let mask := Z.shiftl (Z.ones width) lo in
  Z.lor (Z.ldiff x mask) (Z.land (Z.shiftl v lo) mask).

(** ** Code that runs on this state *)

(** Code that runs on a state of type [S], and may fault or not terminate. *)
Definition st (S T : Type) : Type := S -> outcome (T * S).

#[export] Instance st_ret S : MRet (st S) := fun T x s => Returns (x, s).
#[export] Instance st_bind S : MBind (st S) := fun T U f m s =>
  match m s with Returns (x, s') => f x s' | Faults => Faults | Loops => Loops end.

Section state.
Context {S : Type}.

Definition lift {T} (o : outcome T) : st S T := fun s => x ← o; Returns (x, s).
Definition reads {T} (f : S -> T) : st S T := fun s => Returns (f s, s).
Definition modifies (f : S -> S) : st S unit := fun s => Returns (tt, f s).
End state.

(** Code of the network stack. *)
Abbreviation nio A := (st (net A)).

Section access.
Context {A : Type}.

(** The bytes of an object in [FrameIN]. *)
Definition in_bytes (off n : Z) : nio A (list Z) := fun s =>
  bs ← access (peek off n (in_data s)); Returns (bs, s).
Definition in_u8 (off : Z) : nio A Z := bs ← in_bytes off 1; mret (le_val bs).
Definition in_u16 (off : Z) : nio A Z := bs ← in_bytes off 2; mret (le_val bs).
Definition in_u32 (off : Z) : nio A Z := bs ← in_bytes off 4; mret (le_val bs).
Definition in_set (off : Z) (bs : list Z) : nio A unit := fun s =>
  d ← access (poke off bs (in_data s)); Returns (tt, set_in_data d s).

(** The bytes of an object in [FrameOUT]. *)
Definition out_bytes (off n : Z) : nio A (list Z) := fun s =>
  bs ← access (peek off n (out_data s)); Returns (bs, s).
Definition out_set (off : Z) (bs : list Z) : nio A unit := fun s =>
  d ← access (poke off bs (out_data s)); Returns (tt, set_out_data d s).
Definition out_u8 (off v : Z) : nio A unit := out_set off (le_bytes 1 v).
Definition out_u16 (off v : Z) : nio A unit := out_set off (le_bytes 2 v).
Definition out_u32 (off v : Z) : nio A unit := out_set off (le_bytes 4 v).

(** Assignment to a bit field of [width] bits from bit [lo] of the [n]-byte
    unit at [off]. *)
Definition out_bits (n : nat) (off lo width v : Z) : nio A unit :=
  bs ← out_bytes off (Z.of_nat n);
  out_set off (le_bytes n (bits (le_val bs) lo width v)).
End access.

(** ** [Ethernet_Checksum16] *)

(** [for (CurrWord = ...) Checksum += Words[CurrWord];], [n] words left. *)
Fixpoint sum_words (n : nat) (off : Z) (d : list Z) (Checksum : Z) : outcome Z :=
  match n with
  | O => mret Checksum
  | S n => w ← access (peek off 2 d); sum_words n (off + 2) d (u32 (Checksum + le_val w))
  end.

(** [while (Checksum & 0xFFFF0000) ...] *)
Fixpoint fold_carries (fuel : nat) (Checksum : Z) : outcome Z :=
  match fuel with
  | O => Loops
  | S fuel =>
      if truthy (Z.land Checksum 0xFFFF0000)
      then fold_carries fuel (u32 (Z.land Checksum 0xFFFF + Z.shiftr Checksum 16))
      else mret Checksum
  end.

(** The carries of a 32-bit sum are gone after two rounds; the third sees it. *)
Definition carry_fuel : nat := 3.

(** [Ethernet_Checksum16] on [Bytes] bytes at offset [off] of a buffer. *)
Definition Ethernet_Checksum16 (d : list Z) (off Bytes : Z) : outcome Z :=
  Checksum ← sum_words (Z.to_nat (Z.shiftr Bytes 1)) off d 0;
  Checksum ← fold_carries carry_fuel Checksum;
  mret (u16 (Z.lnot Checksum)).

(** [header->Checksum = Ethernet_Checksum16(header, Bytes);] for the header at
    [off] of the output frame, with its checksum at [field]. *)
Definition store_checksum {A} (off Bytes field : Z) : nio A unit :=
  d ← reads (fun s => out_data s);
  sum ← lift (Ethernet_Checksum16 d off Bytes);
  out_u16 field sum.
