(* ===== verification/RNDIS.v ===== *)
(** * RNDIS: the class driver, device side, and the RNDIS of the Ethernet demo

    [LUFA/Drivers/USB/Class/Device/RNDISClassDevice.c] and
    [Demos/Device/LowLevel/RNDISEthernet/Lib/RNDIS.c], which has an older copy of the
    same message processing.  A message and its reply share one buffer, a list of
    bytes; a field of a message is read and written at its offset in the buffer
    (the message structures of [RNDISClassCommon.h] are packed and consist of 32-bit
    little-endian fields), and an access outside the buffer is a fault. *)
From S2P Require Import Prelude ConfigDescriptors USBIo Endpoint DeviceRequests HIDDevice NetBuffers.

(** ** Constants, [RNDISClassCommon.h] *)

Definition REMOTE_NDIS_PACKET_MSG := 0x00000001.
Definition REMOTE_NDIS_INITIALIZE_MSG := 0x00000002.
Definition REMOTE_NDIS_HALT_MSG := 0x00000003.
Definition REMOTE_NDIS_QUERY_MSG := 0x00000004.
Definition REMOTE_NDIS_SET_MSG := 0x00000005.
Definition REMOTE_NDIS_RESET_MSG := 0x00000006.
Definition REMOTE_NDIS_KEEPALIVE_MSG := 0x00000008.
Definition REMOTE_NDIS_INITIALIZE_CMPLT := 0x80000002.
Definition REMOTE_NDIS_QUERY_CMPLT := 0x80000004.
Definition REMOTE_NDIS_SET_CMPLT := 0x80000005.
Definition REMOTE_NDIS_RESET_CMPLT := 0x80000006.
Definition REMOTE_NDIS_KEEPALIVE_CMPLT := 0x80000008.
Definition REMOTE_NDIS_STATUS_SUCCESS := 0.
Definition REMOTE_NDIS_STATUS_NOT_SUPPORTED := 0xC00000BB.
Definition REMOTE_NDIS_MEDIA_STATE_CONNECTED := 0.
Definition REMOTE_NDIS_MEDIUM_802_3 := 0.
Definition REMOTE_NDIS_DF_CONNECTIONLESS := 1.
Definition REMOTE_NDIS_VERSION_MAJOR := 1.
Definition REMOTE_NDIS_VERSION_MINOR := 0.
Definition NDIS_HardwareStatus_Ready := 0.
Definition RNDIS_ERROR_LOGICAL_CMD_FAILED := 0x80.
Definition RNDIS_MESSAGE_BUFFER_SIZE := 128.
Definition RNDIS_REQ_SendEncapsulatedCommand := 0.
Definition RNDIS_REQ_GetEncapsulatedResponse := 1.
Definition RNDIS_NOTIF_ResponseAvailable := 1.
Definition RNDIS_Uninitialized := 0.
Definition RNDIS_Initialized := 1.
Definition RNDIS_Data_Initialized := 2.
Definition ENDPOINT_RWSTREAM_DeviceDisconnected := 2.

Definition OID_GEN_SUPPORTED_LIST := 0x00010101.
Definition OID_GEN_HARDWARE_STATUS := 0x00010102.
Definition OID_GEN_MEDIA_SUPPORTED := 0x00010103.
Definition OID_GEN_MEDIA_IN_USE := 0x00010104.
Definition OID_GEN_MAXIMUM_FRAME_SIZE := 0x00010106.
Definition OID_GEN_LINK_SPEED := 0x00010107.
Definition OID_GEN_TRANSMIT_BLOCK_SIZE := 0x0001010A.
Definition OID_GEN_RECEIVE_BLOCK_SIZE := 0x0001010B.
Definition OID_GEN_VENDOR_ID := 0x0001010C.
Definition OID_GEN_VENDOR_DESCRIPTION := 0x0001010D.
Definition OID_GEN_CURRENT_PACKET_FILTER := 0x0001010E.
Definition OID_GEN_MAXIMUM_TOTAL_SIZE := 0x00010111.
Definition OID_GEN_MEDIA_CONNECT_STATUS := 0x00010114.
Definition OID_GEN_PHYSICAL_MEDIUM := 0x00010202.
Definition OID_GEN_XMIT_OK := 0x00020101.
Definition OID_GEN_RCV_OK := 0x00020102.
Definition OID_GEN_XMIT_ERROR := 0x00020103.
Definition OID_GEN_RCV_ERROR := 0x00020104.
Definition OID_GEN_RCV_NO_BUFFER := 0x00020105.
Definition OID_802_3_PERMANENT_ADDRESS := 0x01010101.
Definition OID_802_3_CURRENT_ADDRESS := 0x01010102.
Definition OID_802_3_MULTICAST_LIST := 0x01010103.
Definition OID_802_3_MAXIMUM_LIST_SIZE := 0x01010104.
Definition OID_802_3_RCV_ERROR_ALIGNMENT := 0x01020101.
Definition OID_802_3_XMIT_ONE_COLLISION := 0x01020102.
Definition OID_802_3_XMIT_MORE_COLLISIONS := 0x01020103.

Definition AdapterSupportedOIDList : list Z :=
  [OID_GEN_SUPPORTED_LIST; OID_GEN_PHYSICAL_MEDIUM; OID_GEN_HARDWARE_STATUS;
   OID_GEN_MEDIA_SUPPORTED; OID_GEN_MEDIA_IN_USE; OID_GEN_MAXIMUM_FRAME_SIZE;
   OID_GEN_MAXIMUM_TOTAL_SIZE; OID_GEN_LINK_SPEED; OID_GEN_TRANSMIT_BLOCK_SIZE;
   OID_GEN_RECEIVE_BLOCK_SIZE; OID_GEN_VENDOR_ID; OID_GEN_VENDOR_DESCRIPTION;
   OID_GEN_CURRENT_PACKET_FILTER; OID_GEN_MAXIMUM_TOTAL_SIZE; OID_GEN_MEDIA_CONNECT_STATUS;
   OID_GEN_XMIT_OK; OID_GEN_RCV_OK; OID_GEN_XMIT_ERROR; OID_GEN_RCV_ERROR;
   OID_GEN_RCV_NO_BUFFER; OID_802_3_PERMANENT_ADDRESS; OID_802_3_CURRENT_ADDRESS;
   OID_802_3_MULTICAST_LIST; OID_802_3_MAXIMUM_LIST_SIZE; OID_802_3_RCV_ERROR_ALIGNMENT;
   OID_802_3_XMIT_ONE_COLLISION; OID_802_3_XMIT_MORE_COLLISIONS].

(** An array of 32-bit values, as bytes. *)
Definition le32s (l : list Z) : list Z := concat (le_bytes 4 <$> l).

Definition sizeof_RNDIS_Message_Header_t := 8.
Definition sizeof_RNDIS_Packet_Message_t := 44.
Definition sizeof_RNDIS_Initialize_Complete_t := 52.
Definition sizeof_RNDIS_KeepAlive_Complete_t := 16.
Definition sizeof_RNDIS_Reset_Complete_t := 16.
Definition sizeof_RNDIS_Set_Complete_t := 16.
Definition sizeof_RNDIS_Query_Complete_t := 24.

(** ** State *)

(** The [State] part of [USB_ClassInfo_RNDIS_Device_t]; the demo has the same
    variables as globals. *)
Record rndis := mk_rndis {
  RNDISMessageBuffer : list Z;
  ResponseReady : bool;
  CurrRNDISState : Z;
  CurrPacketFilter : Z }.

Definition set_message b s := mk_rndis b (ResponseReady s) (CurrRNDISState s) (CurrPacketFilter s).
Definition set_ResponseReady b s := mk_rndis (RNDISMessageBuffer s) b (CurrRNDISState s) (CurrPacketFilter s).
Definition set_CurrRNDISState v s := mk_rndis (RNDISMessageBuffer s) (ResponseReady s) v (CurrPacketFilter s).
Definition set_CurrPacketFilter v s := mk_rndis (RNDISMessageBuffer s) (ResponseReady s) (CurrRNDISState s) v.

Record USB_ClassInfo_RNDIS_Device_t := mk_rndis_info {
  ControlInterfaceNumber : Z;
  DataINEndpoint : USB_Endpoint_Table_t;
  DataOUTEndpoint : USB_Endpoint_Table_t;
  NotificationEndpoint : USB_Endpoint_Table_t;
  AdapterVendorDescription : list Z;
  AdapterMACAddress : list Z;
  rndis_State : rndis }.

Definition set_rndis s i :=
  mk_rndis_info (ControlInterfaceNumber i) (DataINEndpoint i) (DataOUTEndpoint i)
    (NotificationEndpoint i) (AdapterVendorDescription i) (AdapterMACAddress i) s.

(** ** Fields of the message *)

Definition message_bytes (off n : Z) : st rndis (list Z) := fun s =>
  bs ← access (peek off n (RNDISMessageBuffer s)); Returns (bs, s).
Definition field (off : Z) : st rndis Z := bs ← message_bytes off 4; mret (le_val bs).
Definition store (off : Z) (bs : list Z) : st rndis unit := fun s =>
  b ← access (poke off bs (RNDISMessageBuffer s)); Returns (tt, set_message b s).
Definition set_field (off v : Z) : st rndis unit := store off (le_bytes 4 v).

(** Offsets: the header of every message, then those of the messages. *)
Definition msg_MessageType := 0.
Definition msg_MessageLength := 4.
Definition msg_RequestId := 8.
Definition msg_Status := 12.
(** [RNDIS_Set_Message_t], [RNDIS_Query_Message_t] *)
Definition msg_Oid := 12.
Definition msg_InformationBufferLength := 16.
Definition msg_InformationBufferOffset := 20.
(** [RNDIS_Query_Complete_t] *)
Definition cmplt_InformationBufferLength := 16.
Definition cmplt_InformationBufferOffset := 20.
(** [RNDIS_Reset_Complete_t] *)
Definition reset_Status := 8.
Definition reset_AddressingReset := 12.
(** [RNDIS_Packet_Message_t] *)
Definition pkt_DataOffset := 8.
Definition pkt_DataLength := 12.

#[export] Hint Unfold msg_MessageType msg_MessageLength msg_RequestId msg_Status msg_Oid
  msg_InformationBufferLength msg_InformationBufferOffset cmplt_InformationBufferLength
  cmplt_InformationBufferOffset reset_Status reset_AddressingReset pkt_DataOffset pkt_DataLength
  sizeof_RNDIS_Message_Header_t sizeof_RNDIS_Packet_Message_t sizeof_RNDIS_Initialize_Complete_t
  sizeof_RNDIS_KeepAlive_Complete_t sizeof_RNDIS_Reset_Complete_t sizeof_RNDIS_Set_Complete_t
  sizeof_RNDIS_Query_Complete_t : net.

(** ** Queries *)

Section query.
(** [sizeof(RNDISMessageBuffer)], the vendor description with its final zero byte,
    and the hardware address: constants of the demo, configuration of the driver. *)
Context (BufferSize : Z) (VendorDescription MACAddress : list Z).

(** [*ResponseSize = n; memcpy(ResponseData, bs, n);] *)
Definition respond (ResponseData : Z) (bs : list Z) : st rndis (option Z) :=
  store ResponseData bs;; mret (Some (u16 (Z.of_nat (length bs)))).

(** [*ResponseSize = sizeof(uint32_t); *((uint32_t* )ResponseData) = v;] *)
Definition respond32 (ResponseData v : Z) : st rndis (option Z) :=
  set_field ResponseData v;; mret (Some 4).

(** [Some ResponseSize] for [true], [None] for [false].  The query data and its
    size are not used by the code. *)
Definition process_query (OId ResponseData : Z) : st rndis (option Z) :=
  if OId =? OID_GEN_SUPPORTED_LIST then respond ResponseData (le32s AdapterSupportedOIDList) else
  if OId =? OID_GEN_PHYSICAL_MEDIUM then respond32 ResponseData 0 else
  if OId =? OID_GEN_HARDWARE_STATUS then respond32 ResponseData NDIS_HardwareStatus_Ready else
  if (OId =? OID_GEN_MEDIA_SUPPORTED) || (OId =? OID_GEN_MEDIA_IN_USE)
  then respond32 ResponseData REMOTE_NDIS_MEDIUM_802_3 else
  if OId =? OID_GEN_VENDOR_ID then respond32 ResponseData 0x00FFFFFF else
  if (OId =? OID_GEN_MAXIMUM_FRAME_SIZE) || (OId =? OID_GEN_TRANSMIT_BLOCK_SIZE)
     || (OId =? OID_GEN_RECEIVE_BLOCK_SIZE)
  then respond32 ResponseData ETHERNET_FRAME_SIZE_MAX else
  if OId =? OID_GEN_VENDOR_DESCRIPTION then respond ResponseData VendorDescription else
  if OId =? OID_GEN_MEDIA_CONNECT_STATUS
  then respond32 ResponseData REMOTE_NDIS_MEDIA_STATE_CONNECTED else
  if OId =? OID_GEN_LINK_SPEED then respond32 ResponseData 100000 else
  if (OId =? OID_802_3_PERMANENT_ADDRESS) || (OId =? OID_802_3_CURRENT_ADDRESS)
  then respond ResponseData MACAddress else
  if OId =? OID_802_3_MAXIMUM_LIST_SIZE then respond32 ResponseData 1 else
  if OId =? OID_GEN_CURRENT_PACKET_FILTER
  then filter ← reads CurrPacketFilter; respond32 ResponseData filter else
  if (OId =? OID_GEN_XMIT_OK) || (OId =? OID_GEN_RCV_OK) || (OId =? OID_GEN_XMIT_ERROR)
     || (OId =? OID_GEN_RCV_ERROR) || (OId =? OID_GEN_RCV_NO_BUFFER)
     || (OId =? OID_802_3_RCV_ERROR_ALIGNMENT) || (OId =? OID_802_3_XMIT_ONE_COLLISION)
     || (OId =? OID_802_3_XMIT_MORE_COLLISIONS)
  then respond32 ResponseData 0 else
  if OId =? OID_GEN_MAXIMUM_TOTAL_SIZE
  then respond32 ResponseData (BufferSize + ETHERNET_FRAME_SIZE_MAX)
  else mret None.
End query.

(** ** Replies that driver and demo build alike *)

Definition on_initialize : st rndis unit :=
  modifies (set_ResponseReady true);;
  set_field msg_MessageType REMOTE_NDIS_INITIALIZE_CMPLT;;
  set_field msg_MessageLength sizeof_RNDIS_Initialize_Complete_t;;
  id ← field msg_RequestId; set_field msg_RequestId id;;
  set_field msg_Status REMOTE_NDIS_STATUS_SUCCESS;;
  set_field 16 REMOTE_NDIS_VERSION_MAJOR;;
  set_field 20 REMOTE_NDIS_VERSION_MINOR;;
  set_field 24 REMOTE_NDIS_DF_CONNECTIONLESS;;
  set_field 28 REMOTE_NDIS_MEDIUM_802_3;;
  set_field 32 1;;
  set_field 36 (sizeof_RNDIS_Packet_Message_t + ETHERNET_FRAME_SIZE_MAX);;
  set_field 40 0;;
  set_field 44 0;;
  set_field 48 0;;
  modifies (set_CurrRNDISState RNDIS_Initialized).

Definition on_halt : st rndis unit :=
  modifies (set_ResponseReady false);;
  set_field msg_MessageLength 0;;
  modifies (set_CurrRNDISState RNDIS_Uninitialized).

Definition on_reset : st rndis unit :=
  modifies (set_ResponseReady true);;
  set_field msg_MessageType REMOTE_NDIS_RESET_CMPLT;;
  set_field msg_MessageLength sizeof_RNDIS_Reset_Complete_t;;
  set_field reset_Status REMOTE_NDIS_STATUS_SUCCESS;;
  set_field reset_AddressingReset 0.

Definition on_keepalive : st rndis unit :=
  modifies (set_ResponseReady true);;
  set_field msg_MessageType REMOTE_NDIS_KEEPALIVE_CMPLT;;
  set_field msg_MessageLength sizeof_RNDIS_KeepAlive_Complete_t;;
  id ← field msg_RequestId; set_field msg_RequestId id;;
  set_field msg_Status REMOTE_NDIS_STATUS_SUCCESS.

(** The SET message, with the handler [set_oid OId SetData] of the parameter. *)
Definition on_set (set_oid : Z -> Z -> st rndis bool) : st rndis unit :=
  modifies (set_ResponseReady true);;
  SET_Oid ← field msg_Oid;
  set_field msg_MessageType REMOTE_NDIS_SET_CMPLT;;
  set_field msg_MessageLength sizeof_RNDIS_Set_Complete_t;;
  id ← field msg_RequestId; set_field msg_RequestId id;;
  offset ← field msg_InformationBufferOffset;
  let SetData := u32 (sizeof_RNDIS_Message_Header_t + offset) in
  ok ← set_oid SET_Oid SetData;
  set_field msg_Status (if ok : bool then REMOTE_NDIS_STATUS_SUCCESS
                        else REMOTE_NDIS_STATUS_NOT_SUPPORTED).

(** The [switch] on the type of the message. *)
Definition dispatch (on_query : st rndis unit) (set_oid : Z -> Z -> st rndis bool) : st rndis unit :=
  type ← field msg_MessageType;
  if type =? REMOTE_NDIS_INITIALIZE_MSG then on_initialize else
  if type =? REMOTE_NDIS_HALT_MSG then on_halt else
  if type =? REMOTE_NDIS_QUERY_MSG then on_query else
  if type =? REMOTE_NDIS_SET_MSG then on_set set_oid else
  if type =? REMOTE_NDIS_RESET_MSG then on_reset else
  if type =? REMOTE_NDIS_KEEPALIVE_MSG then on_keepalive else mret tt.

(** ** The message processing of the class driver *)

Definition RNDIS_Device_ProcessNDISSet (OId SetData : Z) : st rndis bool :=
  if OId =? OID_GEN_CURRENT_PACKET_FILTER then
    v ← field SetData;
    modifies (set_CurrPacketFilter v);;
    filter ← reads CurrPacketFilter;
    modifies (set_CurrRNDISState (if truthy filter then RNDIS_Data_Initialized else RNDIS_Initialized));;
    mret true
  else if OId =? OID_802_3_MULTICAST_LIST then mret true
  else mret false.

Section class_driver.
(** [AdapterVendorDescription], without its final zero, and [AdapterMACAddress]. *)
Context (description mac : list Z).

Definition RNDIS_Device_ProcessNDISQuery (OId ResponseData : Z) : st rndis (option Z) :=
  process_query RNDIS_MESSAGE_BUFFER_SIZE (description ++ [0]) mac OId ResponseData.

Definition RNDIS_Device_query : st rndis unit :=
  modifies (set_ResponseReady true);;
  Query_Oid ← field msg_Oid;
  set_field msg_MessageType REMOTE_NDIS_QUERY_CMPLT;;
  r ← RNDIS_Device_ProcessNDISQuery Query_Oid sizeof_RNDIS_Query_Complete_t;
  match r with
  | Some ResponseSize =>
      set_field msg_Status REMOTE_NDIS_STATUS_SUCCESS;;
      set_field msg_MessageLength (sizeof_RNDIS_Query_Complete_t + ResponseSize);;
      set_field cmplt_InformationBufferLength ResponseSize;;
      set_field cmplt_InformationBufferOffset
        (sizeof_RNDIS_Query_Complete_t - sizeof_RNDIS_Message_Header_t)
  | None =>
      set_field msg_Status REMOTE_NDIS_STATUS_NOT_SUPPORTED;;
      set_field msg_MessageLength sizeof_RNDIS_Query_Complete_t;;
      set_field cmplt_InformationBufferLength 0;;
      set_field cmplt_InformationBufferOffset 0
  end.

Definition RNDIS_Device_ProcessRNDISControlMessage : st rndis unit :=
  dispatch RNDIS_Device_query RNDIS_Device_ProcessNDISSet.
End class_driver.

(** ** The message processing of the demo *)

Definition demo_BufferSize : Z := 4 * Z.of_nat (length AdapterSupportedOIDList) + sizeof_RNDIS_Query_Complete_t.

(** "LUFA RNDIS Adapter" *)
Definition demo_VendorDescription : list Z :=
  [76; 85; 70; 65; 32; 82; 78; 68; 73; 83; 32; 65; 100; 97; 112; 116; 101; 114; 0].

Definition demo_MACAddress : list Z := [0x02; 0x00; 0x02; 0x00; 0x02; 0x00].

Definition ProcessNDISQuery (OId ResponseData : Z) : st rndis (option Z) :=
  process_query demo_BufferSize demo_VendorDescription demo_MACAddress OId ResponseData.

Definition ProcessNDISSet (OId SetData : Z) : st rndis bool :=
  if OId =? OID_GEN_CURRENT_PACKET_FILTER then
    v ← field SetData;
    modifies (set_CurrPacketFilter v);;
    filter ← reads CurrPacketFilter;
    modifies (set_CurrRNDISState (if truthy filter then RNDIS_Data_Initialized else RNDIS_Data_Initialized));;
    mret true
  else if OId =? OID_802_3_MULTICAST_LIST then mret true
  else mret false.

Definition demo_query : st rndis unit :=
  modifies (set_ResponseReady true);;
  Query_Oid ← field msg_Oid;
  set_field msg_MessageType REMOTE_NDIS_QUERY_CMPLT;;
  set_field msg_MessageLength sizeof_RNDIS_Query_Complete_t;;
  r ← ProcessNDISQuery Query_Oid sizeof_RNDIS_Query_Complete_t;
  match r with
  | Some ResponseSize =>
      set_field msg_Status REMOTE_NDIS_STATUS_SUCCESS;;
      len ← field msg_MessageLength; set_field msg_MessageLength (u32 (len + ResponseSize));;
      set_field cmplt_InformationBufferLength ResponseSize;;
      set_field cmplt_InformationBufferOffset
        (sizeof_RNDIS_Query_Complete_t - sizeof_RNDIS_Message_Header_t)
  | None =>
      set_field msg_Status REMOTE_NDIS_STATUS_NOT_SUPPORTED;;
      set_field cmplt_InformationBufferLength 0;;
      set_field cmplt_InformationBufferOffset 0
  end.

Definition ProcessRNDISControlMessage : st rndis unit := dispatch demo_query ProcessNDISSet.
