(* ===== verification/TCP.v ===== *)
(** * TCP: the port and connection tables, and the connection state machine

    [Demos/Device/LowLevel/RNDISEthernet/Lib/TCP.c].  A table is the list of its
    entries (one port, three connections), so a loop over the table that returns
    at the first match is [list_find].  The pointer [TCP_GetConnectionInfo]
    returns is an index of the connection table, [None] for [NULL], and using
    [NULL] is a fault. *)
From S2P Require Import Prelude NetBuffers.

Definition MAX_OPEN_TCP_PORTS := 1%nat.
Definition MAX_TCP_CONNECTIONS := 3%nat.
Definition TCP_WINDOW_SIZE := 512.
Definition TCP_PORT_HTTP := SwapEndian_16 80.
Definition TCP_PACKETDIR_IN := false.
Definition TCP_PACKETDIR_OUT := true.
Definition TCP_FLAG_ACK := 16.
Definition TCP_FLAG_PSH := 8.
Definition TCP_FLAG_RST := 4.
Definition TCP_FLAG_SYN := 2.
Definition TCP_FLAG_FIN := 1.
Definition TCP_Port_Closed := 0.
Definition TCP_Port_Open := 1.
Definition TCP_Connection_Listen := 0.
Definition TCP_Connection_SYNReceived := 2.
Definition TCP_Connection_Established := 3.
Definition TCP_Connection_FINWait1 := 4.
Definition TCP_Connection_FINWait2 := 5.
Definition TCP_Connection_CloseWait := 6.
Definition TCP_Connection_Closing := 7.
Definition TCP_Connection_Closed := 10.

(** ** The checksum of a segment *)

(** [TCP_Checksum16] of the [TCPOutSize] bytes at [off] of the output frame. *)
Definition TCP_Checksum16 (d : list Z) (off : Z) (SourceAddress DestinationAddress : list Z)
    (TCPOutSize : Z) : outcome Z :=
  s0 ← access (peek 0 2 SourceAddress);
  s1 ← access (peek 2 2 SourceAddress);
  d0 ← access (peek 0 2 DestinationAddress);
  d1 ← access (peek 2 2 DestinationAddress);
  let Checksum := u32 (le_val s0 + le_val s1 + le_val d0 + le_val d1
                       + SwapEndian_16 PROTOCOL_TCP + SwapEndian_16 TCPOutSize) in
  Checksum ← sum_words (Z.to_nat (Z.shiftr TCPOutSize 1)) off d Checksum;
  Checksum ← (if truthy (Z.land TCPOutSize 1)
              then w ← access (peek (off + 2 * Z.shiftr TCPOutSize 1) 2 d);
                   mret (u32 (Checksum + Z.land (le_val w) 0x00FF))
              else mret Checksum);
  Checksum ← fold_carries carry_fuel Checksum;
  mret (u16 (Z.lnot Checksum)).

(** ** The tables *)

Section tcp.
Context {A : Type}.

Definition TCP_Init : nio A unit :=
  modifies (fun s => set_Ports ((fun p => {| P_Port := P_Port p; P_State := TCP_Port_Closed;
                                 ApplicationHandler := ApplicationHandler p |}) <$> PortStateTable s) s);;
  modifies (fun s => set_Connections (set_State TCP_Connection_Closed <$> ConnectionStateTable s) s).

Definition set_port (i : nat) (Port State : Z) (Handler : handler A) : nio A bool :=
  modifies (fun s => set_Ports (<[i := {| P_Port := Port; P_State := State;
                                          ApplicationHandler := Handler |}]> (PortStateTable s)) s);;
  mret true.

Definition TCP_SetPortState (Port State : Z) (Handler : handler A) : nio A bool :=
  ports ← reads PortStateTable;
  match list_find (fun p => P_Port p = Port) ports with
  | Some (i, _) => set_port i Port State Handler
  | None =>
      if State =? TCP_Port_Open then
        match list_find (fun p => P_State p = TCP_Port_Closed) ports with
        | Some (i, _) => set_port i Port State Handler
        | None => mret false
        end
      else mret true
  end.

Definition TCP_GetPortState (Port : Z) : nio A Z :=
  ports ← reads PortStateTable;
  match list_find (fun p => P_Port p = Port) ports with
  | Some (_, p) => mret (P_State p)
  | None => mret TCP_Port_Closed
  end.

(** The test of the three connection lookups. *)
Definition is_connection (Port : Z) (RemoteAddress : list Z) (RemotePort : Z)
    (c : TCP_ConnectionState_t) : Prop :=
  NetBuffers.Port c = Port /\ NetBuffers.RemoteAddress c = RemoteAddress
  /\ NetBuffers.RemotePort c = RemotePort.

#[global] Instance is_connection_dec p a r c : Decision (is_connection p a r c).
Proof. unfold is_connection. apply _. Defined.

Definition put_connection (i : nat) (c : TCP_ConnectionState_t) : nio A unit :=
  modifies (fun s => set_Connections (<[i := c]> (ConnectionStateTable s)) s).

Definition TCP_SetConnectionState (Port : Z) (RemoteAddress : list Z) (RemotePort State : Z)
    : nio A bool :=
  conns ← reads ConnectionStateTable;
  match list_find (is_connection Port RemoteAddress RemotePort) conns with
  | Some (i, c) => put_connection i (set_State State c);; mret true
  | None =>
      match list_find (fun c => NetBuffers.State c = TCP_Connection_Closed) conns with
      | Some (i, c) =>
          put_connection i {| NetBuffers.Port := Port; NetBuffers.RemotePort := RemotePort;
                              NetBuffers.RemoteAddress := RemoteAddress; Info := Info c;
                              NetBuffers.State := State |};;
          mret true
      | None => mret false
      end
  end.

Definition TCP_GetConnectionState (Port : Z) (RemoteAddress : list Z) (RemotePort : Z) : nio A Z :=
  conns ← reads ConnectionStateTable;
  match list_find (is_connection Port RemoteAddress RemotePort) conns with
  | Some (_, c) => mret (State c)
  | None => mret TCP_Connection_Closed
  end.

Definition TCP_GetConnectionInfo (Port : Z) (RemoteAddress : list Z) (RemotePort : Z)
    : nio A (option nat) :=
  conns ← reads ConnectionStateTable;
  match list_find (is_connection Port RemoteAddress RemotePort) conns with
  | Some (i, _) => mret (Some i)
  | None => mret None
  end.

(** [*ConnectionInfo] *)
Definition deref (ConnectionInfo : option nat) : nio A TCP_ConnectionInfo_t := fun s =>
  i ← access ConnectionInfo;
  c ← access (ConnectionStateTable s !! i);
  Returns (Info c, s).

(** Assignments through [ConnectionInfo]. *)
Definition update_info (ConnectionInfo : option nat)
    (f : TCP_ConnectionInfo_t -> TCP_ConnectionInfo_t) : nio A unit := fun s =>
  i ← access ConnectionInfo;
  c ← access (ConnectionStateTable s !! i);
  Returns (tt, set_Connections (<[i := on_Info f c]> (ConnectionStateTable s)) s).

(** ** [TCP_ProcessTCPPacket] *)

(** Offsets of the fields of [TCP_Header_t]. *)
Definition tcp_SourcePort := 0.
Definition tcp_DestinationPort := 2.
Definition tcp_SequenceNumber := 4.
Definition tcp_AcknowledgmentNumber := 8.
Definition tcp_Reserved := 12.
Definition tcp_Flags := 13.
Definition tcp_WindowSize := 14.
Definition tcp_Checksum := 16.
Definition tcp_UrgentPointer := 18.

(** What the header of the incoming segment says: the connection it belongs to
    and where its parts are. *)
Record segment := {
  sg_ip : Z;
  sg_in : Z;
  sg_out : Z;
  sg_dport : Z;
  sg_addr : list Z;
  sg_sport : Z;
  sg_flags : Z }.

Section process.
Context (g : segment).

Abbreviation set_state st := (TCP_SetConnectionState (sg_dport g) (sg_addr g) (sg_sport g) st).
Abbreviation get_info := (TCP_GetConnectionInfo (sg_dport g) (sg_addr g) (sg_sport g)).

(** [TCPHeaderOUT->Flags = ...] *)
Definition reply_flags (f : Z) : nio A unit := out_u8 (sg_out g + tcp_Flags) f.

(** The cases of the [switch]: [Some PacketResponse], or [None] for the early
    return with [NO_PROCESS]. *)

Definition on_listen : nio A (option bool) :=
  if sg_flags g =? TCP_FLAG_SYN then
    ok ← set_state TCP_Connection_SYNReceived;
    (if ok : bool then
       reply_flags (Z.lor TCP_FLAG_SYN TCP_FLAG_ACK);;
       ci ← get_info;
       seq ← in_u32 (sg_in g + tcp_SequenceNumber);
       update_info ci (set_SequenceNumberIn (u32 (SwapEndian_32 seq + 1)));;
       update_info ci (set_SequenceNumberOut 0);;
       update_info ci (on_Buffer (set_InUse false))
     else reply_flags TCP_FLAG_RST);;
    mret (Some true)
  else mret (Some false).

Definition on_syn_received : nio A (option bool) :=
  if sg_flags g =? TCP_FLAG_ACK then
    set_state TCP_Connection_Established;;
    ci ← get_info;
    update_info ci (fun i => set_SequenceNumberOut (u32 (SequenceNumberOut i + 1)) i);;
    mret (Some false)
  else mret (Some false).

(** Data for an established connection. *)
Definition on_data : nio A (option bool) :=
  ci ← get_info;
  i ← deref ci;
  (if negb (InUse (Buffer i)) && negb (Ready (Buffer i)) then
     update_info ci (on_Buffer (set_Direction TCP_PACKETDIR_IN));;
     update_info ci (on_Buffer (set_InUse true));;
     update_info ci (on_Buffer (set_Length 0))
   else mret tt);;
  i ← deref ci;
  if eqb (Direction (Buffer i)) TCP_PACKETDIR_IN && negb (Length (Buffer i) =? TCP_WINDOW_SIZE) then
    ip0 ← in_u8 (sg_ip g);
    off ← in_u8 (sg_in g + tcp_Reserved);
    total ← in_u16 (sg_ip g + 2);
    let IPOffset := Z.land ip0 15 * 4 in
    let TCPOffset := Z.shiftr off 4 * 4 in
    let DataLength := u16 (SwapEndian_16 total - IPOffset - TCPOffset) in
    bytes ← in_bytes (sg_in g + TCPOffset) DataLength;
    data ← lift (access (poke (Length (Buffer i)) bytes (Data (Buffer i))));
    update_info ci (on_Buffer (set_Data data));;
    update_info ci (fun i => set_SequenceNumberIn (u32 (SequenceNumberIn i + DataLength)) i);;
    update_info ci (on_Buffer (fun b => set_Length (u16 (Length b + DataLength)) b));;
    i ← deref ci;
    if negb (truthy (u16 (TCP_WINDOW_SIZE - Length (Buffer i))))
       || truthy (Z.land (sg_flags g) TCP_FLAG_PSH) then
      update_info ci (on_Buffer (set_InUse false));;
      update_info ci (on_Buffer (set_Ready true));;
      reply_flags TCP_FLAG_ACK;;
      mret (Some true)
    else mret (Some false)
  else mret None.

Definition on_established : nio A (option bool) :=
  if sg_flags g =? Z.lor TCP_FLAG_FIN TCP_FLAG_ACK then
    reply_flags (Z.lor TCP_FLAG_FIN TCP_FLAG_ACK);;
    set_state TCP_Connection_CloseWait;;
    ci ← get_info;
    update_info ci (fun i => set_SequenceNumberIn (u32 (SequenceNumberIn i + 1)) i);;
    update_info ci (fun i => set_SequenceNumberOut (u32 (SequenceNumberOut i + 1)) i);;
    mret (Some true)
  else if (sg_flags g =? TCP_FLAG_ACK) || (sg_flags g =? Z.lor TCP_FLAG_ACK TCP_FLAG_PSH)
  then on_data
  else mret (Some false).

Definition on_closing : nio A (option bool) :=
  ci ← get_info;
  reply_flags (Z.lor TCP_FLAG_ACK TCP_FLAG_FIN);;
  update_info ci (on_Buffer (set_InUse false));;
  set_state TCP_Connection_FINWait1;;
  mret (Some true).

(** The peer's FIN, in the two FIN wait states. *)
Definition on_fin : nio A (option bool) :=
  ci ← get_info;
  reply_flags TCP_FLAG_ACK;;
  update_info ci (fun i => set_SequenceNumberIn (u32 (SequenceNumberIn i + 1)) i);;
  update_info ci (fun i => set_SequenceNumberOut (u32 (SequenceNumberOut i + 1)) i);;
  set_state TCP_Connection_Closed;;
  mret (Some true).

Definition on_fin_wait1 : nio A (option bool) :=
  if sg_flags g =? Z.lor TCP_FLAG_FIN TCP_FLAG_ACK then on_fin
  else if sg_flags g =? TCP_FLAG_ACK then set_state TCP_Connection_FINWait2;; mret (Some false)
  else mret (Some false).

Definition on_fin_wait2 : nio A (option bool) :=
  if sg_flags g =? Z.lor TCP_FLAG_FIN TCP_FLAG_ACK then on_fin else mret (Some false).

Definition on_close_wait : nio A (option bool) :=
  if sg_flags g =? TCP_FLAG_ACK then set_state TCP_Connection_Closed;; mret (Some false)
  else mret (Some false).

Definition on_state (st : Z) : nio A (option bool) :=
  if st =? TCP_Connection_Listen then on_listen else
  if st =? TCP_Connection_SYNReceived then on_syn_received else
  if st =? TCP_Connection_Established then on_established else
  if st =? TCP_Connection_Closing then on_closing else
  if st =? TCP_Connection_FINWait1 then on_fin_wait1 else
  if st =? TCP_Connection_FINWait2 then on_fin_wait2 else
  if st =? TCP_Connection_CloseWait then on_close_wait else mret (Some false).

(** A segment for an open port. *)
Definition on_open_port : nio A (option bool) :=
  (if truthy (Z.land (sg_flags g) TCP_FLAG_SYN)
   then set_state TCP_Connection_Listen;; mret tt else mret tt);;
  if truthy (Z.land (sg_flags g) TCP_FLAG_RST) then
    ok ← set_state TCP_Connection_Closed;
    if ok : bool then reply_flags (Z.lor TCP_FLAG_RST TCP_FLAG_ACK);; mret (Some true)
    else mret (Some false)
  else
    st ← TCP_GetConnectionState (sg_dport g) (sg_addr g) (sg_sport g);
    on_state st.

(** The header of the reply. *)
Definition tcp_reply : nio A Z :=
  ci ← get_info;
  out_u16 (sg_out g + tcp_SourcePort) (sg_dport g);;
  out_u16 (sg_out g + tcp_DestinationPort) (sg_sport g);;
  i ← deref ci;
  out_u32 (sg_out g + tcp_SequenceNumber) (SwapEndian_32 (SequenceNumberOut i));;
  out_u32 (sg_out g + tcp_AcknowledgmentNumber) (SwapEndian_32 (SequenceNumberIn i));;
  out_bits 1 (sg_out g + tcp_Reserved) 4 4 (sizeof_TCP_Header_t / 4);;
  out_u16 (sg_out g + tcp_WindowSize)
    (SwapEndian_16 (if negb (InUse (Buffer i)) then TCP_WINDOW_SIZE
                    else u16 (TCP_WINDOW_SIZE - Length (Buffer i))));;
  out_u16 (sg_out g + tcp_UrgentPointer) 0;;
  out_u16 (sg_out g + tcp_Checksum) 0;;
  out_bits 1 (sg_out g + tcp_Reserved) 0 4 0;;
  dst ← in_bytes (sg_ip g + 16) 4;
  src ← in_bytes (sg_ip g + 12) 4;
  d ← reads (fun s => out_data s);
  sum ← lift (TCP_Checksum16 d (sg_out g) dst src sizeof_TCP_Header_t);
  out_u16 (sg_out g + tcp_Checksum) sum;;
  mret sizeof_TCP_Header_t.
End process.

Definition TCP_ProcessTCPPacket (IPHeaderInStart TCPHeaderInStart TCPHeaderOutStart : Z) : nio A Z :=
  dport ← in_u16 (TCPHeaderInStart + tcp_DestinationPort);
  addr ← in_bytes (IPHeaderInStart + 12) 4;
  sport ← in_u16 (TCPHeaderInStart + tcp_SourcePort);
  flags ← in_u8 (TCPHeaderInStart + tcp_Flags);
  let g := {| sg_ip := IPHeaderInStart; sg_in := TCPHeaderInStart; sg_out := TCPHeaderOutStart;
              sg_dport := dport; sg_addr := addr; sg_sport := sport; sg_flags := flags |} in
  port ← TCP_GetPortState dport;
  r ← (if port =? TCP_Port_Open then on_open_port g
       else reply_flags g (Z.lor TCP_FLAG_RST TCP_FLAG_ACK);; mret (Some true));
  match r with
  | None => mret NO_PROCESS
  | Some PacketResponse => if PacketResponse : bool then tcp_reply g else mret NO_RESPONSE
  end.

(** ** [TCP_Task] *)

(** The handlers of one connection, one after the other. *)
Fixpoint run_handlers (ports : list (TCP_PortState_t A)) (i : nat) : nio A unit :=
  match ports with
  | [] => mret tt
  | p :: ports =>
      c ← (fun s => c ← access (ConnectionStateTable s !! i); Returns (c, s));
      (if (P_Port p =? Port c) && (P_State p =? TCP_Port_Open) then
         a ← reads app;
         '(a, c) ← lift (ApplicationHandler p a c);
         modifies (set_app a);; put_connection i c
       else mret tt);;
      run_handlers ports i
  end.

Fixpoint run_applications (n : nat) (i : nat) : nio A unit :=
  match n with
  | O => mret tt
  | S n => ports ← reads PortStateTable; run_handlers ports i;; run_applications n (S i)
  end.

(** The IP header of a frame the stack sends ([IP_ProcessIPPacket] fills the
    same fields). *)
Definition ip_header (off TotalLength Protocol : Z) (Source Destination : list Z) : nio A unit :=
  out_u16 (off + 2) (SwapEndian_16 TotalLength);;
  out_u8 (off + 1) 0;;
  out_bits 1 off 0 4 (sizeof_IP_Header_t / 4);;
  out_bits 1 off 4 4 4;;
  out_bits 2 (off + 6) 13 3 0;;
  out_bits 2 (off + 6) 0 13 0;;
  out_u16 (off + 4) 0;;
  out_u16 (off + 10) 0;;
  out_u8 (off + 9) Protocol;;
  out_u8 (off + 8) DEFAULT_TTL;;
  out_set (off + 12) Source;;
  out_set (off + 16) Destination;;
  store_checksum off sizeof_IP_Header_t (off + 10).

(** The frame for the data a connection's application has left in its buffer. *)
Definition send_buffer (i : nat) (c : TCP_ConnectionState_t) : nio A unit :=
  let tcp := sizeof_Ethernet_Frame_Header_t + sizeof_IP_Header_t in
  let PacketSize := Length (Buffer (Info c)) in
  out_u16 (tcp + tcp_SourcePort) (Port c);;
  out_u16 (tcp + tcp_DestinationPort) (RemotePort c);;
  out_u32 (tcp + tcp_SequenceNumber) (SwapEndian_32 (SequenceNumberOut (Info c)));;
  out_u32 (tcp + tcp_AcknowledgmentNumber) (SwapEndian_32 (SequenceNumberIn (Info c)));;
  out_bits 1 (tcp + tcp_Reserved) 4 4 (sizeof_TCP_Header_t / 4);;
  out_u16 (tcp + tcp_WindowSize) (SwapEndian_16 TCP_WINDOW_SIZE);;
  out_u8 (tcp + tcp_Flags) TCP_FLAG_ACK;;
  out_u16 (tcp + tcp_UrgentPointer) 0;;
  out_u16 (tcp + tcp_Checksum) 0;;
  out_bits 1 (tcp + tcp_Reserved) 0 4 0;;
  bytes ← lift (access (peek 0 PacketSize (Data (Buffer (Info c)))));
  out_set (tcp + sizeof_TCP_Header_t) bytes;;
  update_info (Some i) (set_SequenceNumberOut (u32 (SequenceNumberOut (Info c) + PacketSize)));;
  d ← reads (fun s => out_data s);
  sum ← lift (TCP_Checksum16 d tcp ServerIPAddress (RemoteAddress c)
                (u16 (sizeof_TCP_Header_t + PacketSize)));
  out_u16 (tcp + tcp_Checksum) sum;;
  let PacketSize := u16 (PacketSize + sizeof_TCP_Header_t) in
  ip_header sizeof_Ethernet_Frame_Header_t (u16 (sizeof_IP_Header_t + PacketSize))
    PROTOCOL_TCP ServerIPAddress (RemoteAddress c);;
  let PacketSize := u16 (PacketSize + sizeof_IP_Header_t) in
  out_set 6 ServerMACAddress;;
  out_set 0 [0x02; 0x00; 0x02; 0x00; 0x02; 0x00];;
  out_u16 12 (SwapEndian_16 ETHERTYPE_IPV4);;
  let PacketSize := u16 (PacketSize + sizeof_Ethernet_Frame_Header_t) in
  modifies (fun s => set_FrameOUT {| FrameData := out_data s; FrameLength := PacketSize |} s);;
  update_info (Some i) (on_Buffer (set_Ready false)).

Definition wants_send (c : TCP_ConnectionState_t) : Prop :=
  Direction (Buffer (Info c)) = TCP_PACKETDIR_OUT /\ Ready (Buffer (Info c)) = true.

#[global] Instance wants_send_dec c : Decision (wants_send c).
Proof. unfold wants_send. apply _. Defined.

Definition TCP_Task : nio A unit :=
  run_applications MAX_TCP_CONNECTIONS 0;;
  out_length ← reads (fun s => FrameLength (FrameOUT s));
  if truthy out_length then mret tt else
  conns ← reads ConnectionStateTable;
  match list_find wants_send conns with
  | Some (i, c) => send_buffer i c
  | None => mret tt
  end.
End tcp.

#[export] Hint Unfold tcp_SourcePort tcp_DestinationPort tcp_SequenceNumber
  tcp_AcknowledgmentNumber tcp_Reserved tcp_Flags tcp_WindowSize tcp_Checksum
  tcp_UrgentPointer : net.
