(* ===== verification/Webserver.v ===== *)
(** * The web server of the RNDIS demo

    [Demos/Device/LowLevel/RNDISEthernet/Lib/Webserver.c]: the application behind
    the HTTP port.  Its state is the static variable [PageBlock] of its callback,
    which all connections share; the callback gets the connection and its buffer. *)
From Stdlib Require Import String Ascii.
From S2P Require Import Prelude NetBuffers TCP.

(** ** Strings *)

Definition chars (s : string) : list Z :=
  (fun c => Z.of_N (N_of_ascii c)) <$> String.list_ascii_of_string s.

Definition CRLF : list Z := [13; 10].
Definition tabs (n : nat) : list Z := replicate n 9.
Definition quote : list Z := [34].

Definition HTTP200Header : list Z :=
  chars "HTTP/1.1 200 OK" ++ CRLF ++
  chars "Server: LUFA RNDIS" ++ CRLF ++
  chars "Content-type: text/html" ++ CRLF ++
  chars "Connection: close" ++ CRLF ++ CRLF.

Definition HTTP404Header : list Z :=
  chars "HTTP/1.1 404 Not Found" ++ CRLF ++
  chars "Server: LUFA RNDIS" ++ CRLF ++
  chars "Connection: close" ++ CRLF ++ CRLF.

Definition LUFA_VERSION_STRING : list Z := chars "120730".

Definition HTTPPage : list Z :=
  chars "<html>" ++
  tabs 1 ++ chars "<head>" ++
  tabs 2 ++ chars "<title>" ++
  tabs 3 ++ chars "LUFA Webserver Demo" ++
  tabs 2 ++ chars "</title>" ++
  tabs 1 ++ chars "</head>" ++
  tabs 1 ++ chars "<body>" ++
  tabs 2 ++ chars "<h1>Hello from your USB AVR!</h1>" ++
  tabs 2 ++ chars "<p>" ++
  tabs 3 ++ chars "Hello! Welcome to the LUFA RNDIS Demo Webserver test page, running on your USB AVR via the LUFA library. This demonstrates the HTTP webserver, TCP/IP stack and RNDIS demo all running atop the LUFA USB stack." ++
  tabs 3 ++ chars "<br /><br />" ++
  tabs 3 ++ chars "<small>Project Information: <a href=" ++ quote ++ chars "http://www.lufa-lib.org" ++ quote ++
    chars ">http://www.lufa-lib.org</a>.</small>" ++
  tabs 3 ++ chars "<hr />" ++
  tabs 3 ++ chars "<i>LUFA Version: </i>" ++ LUFA_VERSION_STRING ++
  tabs 2 ++ chars "</p>" ++
  tabs 1 ++ chars "</body>" ++
  chars "</html>".

Definition HTTP_REPLY_BLOCK_SIZE := 128.
Definition sizeof_HTTPPage : Z := Z.of_nat (length HTTPPage) + 1.

(** [strncmp(RequestHeader, Command, strlen(Command)) == 0]; the request is in a
    buffer that is longer than any command. *)
Definition IsHTTPCommand (RequestHeader Command : list Z) : bool :=
  bool_decide (take (length Command) RequestHeader = Command).

(** ** The application macros of [TCP.h] *)

Section macros.
Implicit Types Buffer : TCP_ConnectionBuffer_t.

Definition TCP_APP_HAS_RECEIVED_PACKET Buffer : bool :=
  Ready Buffer && eqb (Direction Buffer) TCP_PACKETDIR_IN.
Definition TCP_APP_HAVE_CAPTURED_BUFFER Buffer : bool :=
  negb (Ready Buffer) && InUse Buffer && eqb (Direction Buffer) TCP_PACKETDIR_OUT.
Definition TCP_APP_CAPTURE_BUFFER Buffer := set_InUse true (set_Direction TCP_PACKETDIR_OUT Buffer).
Definition TCP_APP_RELEASE_BUFFER Buffer := set_InUse false Buffer.
Definition TCP_APP_SEND_BUFFER Buffer (Len : Z) :=
  set_Ready true (set_Length Len (set_Direction TCP_PACKETDIR_OUT Buffer)).
Definition TCP_APP_CLEAR_BUFFER Buffer := set_Length 0 (set_Ready false Buffer).
End macros.

Definition TCP_APP_CLOSECONNECTION (Connection : TCP_ConnectionState_t) :=
  set_State TCP_Connection_Closing Connection.

(** ** The callback *)

Definition on_buffer (f : TCP_ConnectionBuffer_t -> TCP_ConnectionBuffer_t) (c : TCP_ConnectionState_t) :=
  on_Info (on_Buffer f) c.

(** [strcpy_P(BufferDataStr, Header); TCP_APP_SEND_BUFFER(Buffer, strlen(BufferDataStr));] *)
Definition send_header (Header : list Z) (c : TCP_ConnectionState_t) : outcome TCP_ConnectionState_t :=
  data ← access (poke 0 (Header ++ [0]) (Data (Buffer (Info c))));
  mret (on_buffer (fun b => TCP_APP_SEND_BUFFER (set_Data data b) (Z.of_nat (length Header))) c).

(** The block of the page: [strlen_P] looks for the end of the page from its start
    on, and a start behind the final zero byte is outside the object. *)
Definition send_block (PageBlock : Z) (c : TCP_ConnectionState_t) : outcome TCP_ConnectionState_t :=
  let start := PageBlock * HTTP_REPLY_BLOCK_SIZE in
  RemLength ← access (if start <? sizeof_HTTPPage then Some (sizeof_HTTPPage - 1 - start) else None);
  let Length := Z.min RemLength HTTP_REPLY_BLOCK_SIZE in
  data ← access (poke 0 (slice start Length HTTPPage) (Data (Buffer (Info c))));
  mret (on_buffer (fun b => TCP_APP_SEND_BUFFER (set_Data data b) Length) c).

Definition Webserver_ApplicationCallback : handler Z := fun PageBlock c =>
  let b := Buffer (Info c) in
  if TCP_APP_HAS_RECEIVED_PACKET b then
    if IsHTTPCommand (Data b) (chars "GET") then
      if IsHTTPCommand (Data b) (chars "GET / ") then
        c ← send_header HTTP200Header c;
        mret (0, on_buffer TCP_APP_CAPTURE_BUFFER c)
      else
        c ← send_header HTTP404Header c;
        mret (PageBlock, TCP_APP_CLOSECONNECTION c)
    else if IsHTTPCommand (Data b) (chars "HEAD") then
      c ← (if IsHTTPCommand (Data b) (chars "HEAD / ")
           then send_header HTTP200Header c else send_header HTTP404Header c);
      mret (PageBlock, TCP_APP_CLOSECONNECTION c)
    else if IsHTTPCommand (Data b) (chars "TRACE") then
      mret (PageBlock, TCP_APP_CLOSECONNECTION
                         (on_buffer (fun b => TCP_APP_SEND_BUFFER b (Length b)) c))
    else mret (PageBlock, on_buffer TCP_APP_CLEAR_BUFFER c)
  else if TCP_APP_HAVE_CAPTURED_BUFFER b then
    c ← send_block PageBlock c;
    if PageBlock =? sizeof_HTTPPage / HTTP_REPLY_BLOCK_SIZE then
      mret (u8 (PageBlock + 1), TCP_APP_CLOSECONNECTION (on_buffer TCP_APP_RELEASE_BUFFER c))
    else mret (u8 (PageBlock + 1), c)
  else mret (PageBlock, c).

Definition Webserver_Init : nio Z bool :=
  TCP_SetPortState TCP_PORT_HTTP TCP_Port_Open Webserver_ApplicationCallback.
