(* ===== verification/EthernetStack.v ===== *)
(** * ARP, ICMP, DHCP, UDP, IP and Ethernet processing

    The handlers of [ARP.c], [ICMP.c], [DHCP.c], [UDP.c], [IP.c] and
    [Ethernet.c].  Each takes the offsets of its header in the input frame and in
    the output frame, writes its reply to the output frame, and returns the number
    of bytes written, [NO_RESPONSE] or [NO_PROCESS]. *)
From S2P Require Import Prelude NetBuffers TCP.

Definition ICMP_TYPE_ECHOREPLY := 0.
Definition ICMP_TYPE_ECHOREQUEST := 8.
Definition ARP_OPERATION_REQUEST := 1.
Definition ARP_OPERATION_REPLY := 2.
Definition UDP_PORT_DHCP_REQUEST := 67.
Definition DHCP_OP_BOOTREPLY := 2.
Definition DHCP_MAGIC_COOKIE := 0x63825363.
Definition DHCP_OPTION_SUBNETMASK := 1.
Definition DHCP_OPTION_MESSAGETYPE := 53.
Definition DHCP_OPTION_DHCPSERVER := 54.
Definition DHCP_OPTION_PAD := 0.
Definition DHCP_OPTION_END := 255.
Definition DHCP_MESSAGETYPE_DISCOVER := 1.
Definition DHCP_MESSAGETYPE_OFFER := 2.
Definition DHCP_MESSAGETYPE_REQUEST := 3.
Definition DHCP_MESSAGETYPE_ACK := 5.

Section stack.
Context {A : Type}.

(** ** ARP *)

(** Offsets of [ARP_Header_t]. *)
Definition arp_HardwareType := 0.
Definition arp_ProtocolType := 2.
Definition arp_HLEN := 4.
Definition arp_PLEN := 5.
Definition arp_Operation := 6.
Definition arp_SHA := 8.
Definition arp_SPA := 14.
Definition arp_THA := 18.
Definition arp_TPA := 24.

Definition arp_reply (In Out : Z) : nio A Z :=
  hw ← in_u16 (In + arp_HardwareType); out_u16 (Out + arp_HardwareType) hw;;
  proto ← in_u16 (In + arp_ProtocolType); out_u16 (Out + arp_ProtocolType) proto;;
  hlen ← in_u8 (In + arp_HLEN); out_u8 (Out + arp_HLEN) hlen;;
  plen ← in_u8 (In + arp_PLEN); out_u8 (Out + arp_PLEN) plen;;
  out_u16 (Out + arp_Operation) (SwapEndian_16 ARP_OPERATION_REPLY);;
  sha ← in_bytes (In + arp_SHA) 6; out_set (Out + arp_THA) sha;;
  spa ← in_bytes (In + arp_SPA) 4; out_set (Out + arp_TPA) spa;;
  out_set (Out + arp_SHA) ServerMACAddress;;
  out_set (Out + arp_SPA) ServerIPAddress;;
  mret sizeof_ARP_Header_t.

Definition ARP_ProcessARPPacket (In Out : Z) : nio A Z :=
  proto ← in_u16 (In + arp_ProtocolType);
  if negb (SwapEndian_16 proto =? ETHERTYPE_IPV4) then mret NO_RESPONSE else
  op ← in_u16 (In + arp_Operation);
  if negb (SwapEndian_16 op =? ARP_OPERATION_REQUEST) then mret NO_RESPONSE else
  tpa ← in_bytes (In + arp_TPA) 4;
  tha ← in_bytes (In + arp_THA) 6;
  if IP_COMPARE tpa ServerIPAddress || MAC_COMPARE tha ServerMACAddress
  then arp_reply In Out else mret NO_RESPONSE.

(** ** ICMP *)

(** Offsets of [ICMP_Header_t]. *)
Definition icmp_Type := 0.
Definition icmp_Code := 1.
Definition icmp_Checksum := 2.
Definition icmp_Id := 4.
Definition icmp_Sequence := 6.

(** [DataSize] is an [intptr_t], 16 bits wide; [memmove] takes it as a size. *)
Definition ICMP_ProcessICMPPacket (In Out : Z) : nio A Z :=
  type ← in_u8 (In + icmp_Type);
  if type =? ICMP_TYPE_ECHOREQUEST then
    out_u8 (Out + icmp_Type) ICMP_TYPE_ECHOREPLY;;
    out_u8 (Out + icmp_Code) 0;;
    out_u16 (Out + icmp_Checksum) 0;;
    id ← in_u16 (In + icmp_Id); out_u16 (Out + icmp_Id) id;;
    seq ← in_u16 (In + icmp_Sequence); out_u16 (Out + icmp_Sequence) seq;;
    len ← reads (fun s => FrameLength (FrameIN s));
    let DataSize := i16 (len - (In + sizeof_ICMP_Header_t)) in
    bytes ← in_bytes (In + sizeof_ICMP_Header_t) (u16 DataSize);
    out_set (Out + sizeof_ICMP_Header_t) bytes;;
    store_checksum Out (u16 (DataSize + sizeof_ICMP_Header_t)) (Out + icmp_Checksum);;
    mret (i16 (DataSize + sizeof_ICMP_Header_t))
  else mret NO_RESPONSE.

(** ** DHCP *)

(** Offsets of [DHCP_Header_t]. *)
Definition dhcp_Operation := 0.
Definition dhcp_HardwareType := 1.
Definition dhcp_HardwareAddressLength := 2.
Definition dhcp_Hops := 3.
Definition dhcp_TransactionID := 4.
Definition dhcp_ElapsedSeconds := 8.
Definition dhcp_Flags := 10.
Definition dhcp_YourIP := 16.
Definition dhcp_ClientHardwareAddress := 28.
Definition dhcp_Cookie := 236.

(** The reply's options. *)
Definition dhcp_options (MessageType : Z) : list Z :=
  [DHCP_OPTION_MESSAGETYPE; 1;
   if MessageType =? DHCP_MESSAGETYPE_DISCOVER then DHCP_MESSAGETYPE_OFFER else DHCP_MESSAGETYPE_ACK;
   DHCP_OPTION_SUBNETMASK; 4; 0xFF; 0xFF; 0xFF; 0x00;
   DHCP_OPTION_DHCPSERVER; 4] ++ ServerIPAddress ++ [DHCP_OPTION_END].

(** [while (DHCPOptionsINStart[0] != DHCP_OPTION_END) ...] *)
Fixpoint dhcp_walk (fuel : nat) (In Out : Z) : nio A Z :=
  match fuel with
  | O => lift Loops
  | S fuel =>
      opt ← in_u8 In;
      if opt =? DHCP_OPTION_END then mret NO_RESPONSE else
      type ← (if opt =? DHCP_OPTION_MESSAGETYPE then in_u8 (In + 2) else mret 0);
      if (opt =? DHCP_OPTION_MESSAGETYPE)
         && ((type =? DHCP_MESSAGETYPE_DISCOVER) || (type =? DHCP_MESSAGETYPE_REQUEST)) then
        out_set Out (dhcp_options type);;
        mret (sizeof_DHCP_Header_t + 12 + 4)
      else
        step ← (if opt =? DHCP_OPTION_PAD then mret 1 else n ← in_u8 (In + 1); mret (n + 2));
        dhcp_walk fuel (In + step) Out
  end.

(** Each round moves on by a byte or more and the next read faults outside the
    frame, so as many rounds as the frame has bytes, and one, are enough. *)
Definition dhcp_fuel : nat := Z.to_nat (ETHERNET_FRAME_SIZE_MAX + 1).

(** [memset] and the fields of the reply's header. *)
Definition dhcp_header (In Out : Z) : nio A unit :=
  out_set Out (replicate (Z.to_nat sizeof_DHCP_Header_t) 0);;
  hw ← in_u8 (In + dhcp_HardwareType); out_u8 (Out + dhcp_HardwareType) hw;;
  out_u8 (Out + dhcp_Operation) DHCP_OP_BOOTREPLY;;
  hlen ← in_u8 (In + dhcp_HardwareAddressLength); out_u8 (Out + dhcp_HardwareAddressLength) hlen;;
  out_u8 (Out + dhcp_Hops) 0;;
  xid ← in_u32 (In + dhcp_TransactionID); out_u32 (Out + dhcp_TransactionID) xid;;
  out_u16 (Out + dhcp_ElapsedSeconds) 0;;
  flags ← in_u16 (In + dhcp_Flags); out_u16 (Out + dhcp_Flags) flags;;
  out_set (Out + dhcp_YourIP) ClientIPAddress;;
  mac ← in_bytes (In + dhcp_ClientHardwareAddress) 6;
  out_set (Out + dhcp_ClientHardwareAddress) mac;;
  out_u32 (Out + dhcp_Cookie) (SwapEndian_32 DHCP_MAGIC_COOKIE).

Definition DHCP_ProcessDHCPPacket (IPHeaderInStart In Out : Z) : nio A Z :=
  dhcp_header In Out;;
  in_set (IPHeaderInStart + 12) ClientIPAddress;;
  in_set (IPHeaderInStart + 16) ServerIPAddress;;
  dhcp_walk dhcp_fuel (In + sizeof_DHCP_Header_t) (Out + sizeof_DHCP_Header_t).

(** ** UDP *)

(** Offsets of [UDP_Header_t]. *)
Definition udp_SourcePort := 0.
Definition udp_DestinationPort := 2.
Definition udp_Length := 4.
Definition udp_Checksum := 6.

Definition UDP_ProcessUDPPacket (IPHeaderInStart In Out : Z) : nio A Z :=
  port ← in_u16 (In + udp_DestinationPort);
  RetSize ← (if SwapEndian_16 port =? UDP_PORT_DHCP_REQUEST
             then DHCP_ProcessDHCPPacket IPHeaderInStart (In + sizeof_UDP_Header_t) (Out + sizeof_UDP_Header_t)
             else mret NO_RESPONSE);
  if 0 <? RetSize then
    dport ← in_u16 (In + udp_DestinationPort); out_u16 (Out + udp_SourcePort) dport;;
    sport ← in_u16 (In + udp_SourcePort); out_u16 (Out + udp_DestinationPort) sport;;
    out_u16 (Out + udp_Checksum) 0;;
    out_u16 (Out + udp_Length) (SwapEndian_16 (u16 (sizeof_UDP_Header_t + RetSize)));;
    mret (i16 (sizeof_UDP_Header_t + RetSize))
  else mret NO_RESPONSE.

(** ** IP *)

(** Offsets of [IP_Header_t]. *)
Definition ip_Protocol := 9.
Definition ip_SourceAddress := 12.
Definition ip_DestinationAddress := 16.

(** The [switch] on the protocol. *)
Definition ip_payload (Protocol In HeaderLengthBytes Out : Z) : nio A Z :=
  if Protocol =? PROTOCOL_ICMP
  then ICMP_ProcessICMPPacket (In + HeaderLengthBytes) (Out + sizeof_IP_Header_t) else
  if Protocol =? PROTOCOL_TCP
  then TCP_ProcessTCPPacket In (In + HeaderLengthBytes) (Out + sizeof_IP_Header_t) else
  if Protocol =? PROTOCOL_UDP
  then UDP_ProcessUDPPacket In (In + HeaderLengthBytes) (Out + sizeof_IP_Header_t)
  else mret NO_RESPONSE.

Definition IP_ProcessIPPacket (In Out : Z) : nio A Z :=
  b0 ← in_u8 In;
  let HeaderLengthBytes := Z.land b0 15 * 4 in
  dst ← in_bytes (In + ip_DestinationAddress) 4;
  if negb (IP_COMPARE dst ServerIPAddress) && negb (IP_COMPARE dst BroadcastIPAddress)
  then mret NO_RESPONSE else
  proto ← in_u8 (In + ip_Protocol);
  RetSize ← ip_payload proto In HeaderLengthBytes Out;
  if 0 <? RetSize then
    proto ← in_u8 (In + ip_Protocol);
    dst ← in_bytes (In + ip_DestinationAddress) 4;
    src ← in_bytes (In + ip_SourceAddress) 4;
    ip_header Out (u16 (sizeof_IP_Header_t + RetSize)) proto dst src;;
    mret (i16 (sizeof_IP_Header_t + RetSize))
  else mret RetSize.

(** ** Ethernet *)

(** Offsets of [Ethernet_Frame_Header_t]. *)
Definition eth_Destination := 0.
Definition eth_Source := 6.
Definition eth_EtherType := 12.

(** The [switch] on the type of the frame. *)
Definition eth_payload (EtherType : Z) : nio A Z :=
  if EtherType =? ETHERTYPE_ARP
  then ARP_ProcessARPPacket sizeof_Ethernet_Frame_Header_t sizeof_Ethernet_Frame_Header_t else
  if EtherType =? ETHERTYPE_IPV4
  then IP_ProcessIPPacket sizeof_Ethernet_Frame_Header_t sizeof_Ethernet_Frame_Header_t
  else mret NO_RESPONSE.

Definition eth_reply (RetSize : Z) : nio A unit :=
  out_set eth_Source ServerMACAddress;;
  src ← in_bytes eth_Source 6; out_set eth_Destination src;;
  type ← in_u16 eth_EtherType; out_u16 eth_EtherType type;;
  modifies (fun s => set_FrameOUT {| FrameData := out_data s;
                       FrameLength := u16 (sizeof_Ethernet_Frame_Header_t + RetSize) |} s).

Definition Ethernet_ProcessPacket : nio A unit :=
  dst ← in_bytes eth_Destination 6;
  len ← reads (fun s => FrameLength (FrameIN s));
  RetSize ←
    (if (MAC_COMPARE dst ServerMACAddress || MAC_COMPARE dst BroadcastMACAddress)
        && (ETHERNET_VER2_MINSIZE <? SwapEndian_16 len) then
       type ← in_u16 eth_EtherType;
       RetSize ← eth_payload (SwapEndian_16 type);
       (if 0 <? RetSize then eth_reply RetSize else mret tt);;
       mret RetSize
     else mret NO_RESPONSE);
  if negb (RetSize =? NO_PROCESS)
  then modifies (fun s => set_FrameIN {| FrameData := in_data s; FrameLength := 0 |} s)
  else mret tt.
End stack.

#[export] Hint Unfold arp_HardwareType arp_ProtocolType arp_HLEN arp_PLEN arp_Operation arp_SHA
  arp_SPA arp_THA arp_TPA icmp_Type icmp_Code icmp_Checksum icmp_Id icmp_Sequence
  dhcp_Operation dhcp_HardwareType dhcp_HardwareAddressLength dhcp_Hops dhcp_TransactionID
  dhcp_ElapsedSeconds dhcp_Flags dhcp_YourIP dhcp_ClientHardwareAddress dhcp_Cookie
  udp_SourcePort udp_DestinationPort udp_Length udp_Checksum ip_Protocol ip_SourceAddress
  ip_DestinationAddress eth_Destination eth_Source eth_EtherType : net.
