(* ===== verification/RNDISDevice.v ===== *)
(** * RNDIS: requests, notifications and packets

    The operations of [RNDISClassDevice.c] that talk to the host, and the tasks of
    the low-level demo ([RNDISEthernet.c]) that move Ethernet frames between the
    endpoints and the two frame buffers of the network stack. *)
From S2P Require Import Prelude ConfigDescriptors USBIo Endpoint DeviceRequests HIDDevice NetBuffers TCP EthernetStack RNDIS.

(** ** Operations the driver and the demo share *)

Section requests.
Context (fuel : nat) (USB_Device_ControlEndpointSize : Z).

(** SEND_ENCAPSULATED_COMMAND: read the message and process it. *)
Definition send_encapsulated (process : st rndis unit) (r : USB_Request_Header_t) (s : rndis) : io rndis :=
  Endpoint_ClearSETUP;;
  '(_, buffer) ← Endpoint_Read_Control_Stream_LE fuel (RNDISMessageBuffer s) (wLength r);
  Endpoint_ClearIN;;
  '(_, s) ← pure (process (set_message buffer s));
  mret s.

(** GET_ENCAPSULATED_RESPONSE: write the reply, a single zero byte when there is
    none, and free the buffer. *)
Definition prepare_response : st rndis Z :=
  len ← field msg_MessageLength;
  (if negb (truthy len) then store 0 [0];; set_field msg_MessageLength 1 else mret tt);;
  field msg_MessageLength.

Definition get_encapsulated (r : USB_Request_Header_t) (s : rndis) : io rndis :=
  '(len, s) ← pure (prepare_response s);
  Endpoint_ClearSETUP;;
  Endpoint_Write_Control_Stream_LE r USB_Device_ControlEndpointSize fuel (RNDISMessageBuffer s) (u16 len);;
  Endpoint_ClearOUT;;
  '(_, s) ← pure (set_field msg_MessageLength 0 s);
  mret s.

(** The bytes of a [USB_Request_Header_t]. *)
Definition request_bytes (r : USB_Request_Header_t) : list Z :=
  [bmRequestType r; bRequest r] ++ le_bytes 2 (wValue r) ++ le_bytes 2 (wIndex r) ++ le_bytes 2 (wLength r).

Definition Notification : USB_Request_Header_t :=
  mk_request class_to_host RNDIS_NOTIF_ResponseAvailable 0 0 0.

(** Tell the host that a reply is ready. *)
Definition notify (address : Z) (s : rndis) : io rndis :=
  Endpoint_SelectEndpoint address;;
  ready ← Endpoint_IsINReady;
  if ready && ResponseReady s then
    Endpoint_Write_Stream_LE fuel (request_bytes Notification) 8 None;;
    Endpoint_ClearIN;;
    mret (set_ResponseReady false s)
  else mret s.

(** The [RNDIS_Packet_Message_t] in front of a frame of [PacketLength] bytes. *)
Definition packet_header (PacketLength : Z) : list Z :=
  le32s [REMOTE_NDIS_PACKET_MSG; u32 (sizeof_RNDIS_Packet_Message_t + PacketLength);
         sizeof_RNDIS_Packet_Message_t - sizeof_RNDIS_Message_Header_t; PacketLength]
  ++ replicate 28 0.

(** Write the header and the frame. *)
Definition write_packet (Buffer : list Z) (PacketLength : Z) : io unit :=
  Endpoint_Write_Stream_LE fuel (packet_header PacketLength) sizeof_RNDIS_Packet_Message_t None;;
  Endpoint_Write_Stream_LE fuel Buffer PacketLength None;;
  Endpoint_ClearIN.

(** Read the header, and the frame when it is not too long: its length and the
    buffer, [None] after a stall.  [header] is the uninitialised local variable. *)
Definition read_packet (header Buffer : list Z) : io (option (Z * list Z)) :=
  '(_, header, _) ← Endpoint_Read_Stream_LE fuel header sizeof_RNDIS_Packet_Message_t None;
  bs ← get (peek pkt_DataLength 4 header);
  let DataLength := le_val bs in
  if ETHERNET_FRAME_SIZE_MAX <? DataLength then Endpoint_StallTransaction;; mret None else
  '(_, Buffer, _) ← Endpoint_Read_Stream_LE fuel Buffer (u16 DataLength) None;
  Endpoint_ClearOUT;;
  mret (Some (u16 DataLength, Buffer)).
End requests.

(** ** The class driver *)

Section class_driver.
Context (fuel : nat) (USB_Device_ControlEndpointSize : Z).
(** The contents of an uninitialised local variable. *)
Context (indeterminate : nat -> list Z).

Abbreviation info := USB_ClassInfo_RNDIS_Device_t.

Definition on_state (m : rndis -> io rndis) (i : info) : io info :=
  s ← m (rndis_State i); mret (set_rndis s i).

Definition RNDIS_Device_ProcessControlRequest (d : device) (i : info) : io info :=
  setup ← Endpoint_IsSETUPReceived;
  if negb setup then mret i else
  let r := USB_ControlRequest d in
  if negb (wIndex r =? ControlInterfaceNumber i) then mret i else
  if bRequest r =? RNDIS_REQ_SendEncapsulatedCommand then
    if bmRequestType r =? class_to_device then
      on_state (send_encapsulated fuel (RNDIS_Device_ProcessRNDISControlMessage
                  (AdapterVendorDescription i) (AdapterMACAddress i)) r) i
    else mret i
  else if bRequest r =? RNDIS_REQ_GetEncapsulatedResponse then
    if bmRequestType r =? class_to_host
    then on_state (get_encapsulated fuel USB_Device_ControlEndpointSize r) i else mret i
  else mret i.

Definition RNDIS_Device_ConfigureEndpoints (i : info) : io (bool * info) :=
  let i := mk_rndis_info (ControlInterfaceNumber i) (set_ep_Type EP_TYPE_BULK (DataINEndpoint i))
    (set_ep_Type EP_TYPE_BULK (DataOUTEndpoint i)) (set_ep_Type EP_TYPE_INTERRUPT (NotificationEndpoint i))
    (AdapterVendorDescription i) (AdapterMACAddress i)
    (mk_rndis (replicate (Z.to_nat RNDIS_MESSAGE_BUFFER_SIZE) 0) false 0 0) in
  ok ← Endpoint_ConfigureEndpointTable [DataINEndpoint i];
  if negb ok then mret (false, i) else
  ok ← Endpoint_ConfigureEndpointTable [DataOUTEndpoint i];
  if negb ok then mret (false, i) else
  ok ← Endpoint_ConfigureEndpointTable [NotificationEndpoint i];
  if negb ok then mret (false, i) else mret (true, i).

Definition RNDIS_Device_USBTask (i : info) : io info :=
  s ← USB_DeviceState;
  if negb (s =? DEVICE_STATE_Configured) then mret i else
  on_state (notify fuel (ep_Address (NotificationEndpoint i))) i.

(** The test at the start of the packet operations. *)
Definition data_ready (i : info) : io bool :=
  s ← USB_DeviceState;
  mret ((s =? DEVICE_STATE_Configured) && (CurrRNDISState (rndis_State i) =? RNDIS_Data_Initialized)).

Definition RNDIS_Device_IsPacketReceived (i : info) : io bool :=
  ready ← data_ready i;
  if negb ready then mret false else
  Endpoint_SelectEndpoint (ep_Address (DataOUTEndpoint i));;
  Endpoint_IsOUTReceived.

(** The code, the buffer and [*PacketLength]. *)
Definition RNDIS_Device_ReadPacket (i : info) (Buffer : list Z) (PacketLength : Z) : io (Z * list Z * Z) :=
  ready ← data_ready i;
  if negb ready then mret (ENDPOINT_RWSTREAM_DeviceDisconnected, Buffer, PacketLength) else
  Endpoint_SelectEndpoint (ep_Address (DataOUTEndpoint i));;
  received ← Endpoint_IsOUTReceived;
  if negb received then mret (ENDPOINT_RWSTREAM_NoError, Buffer, 0) else
  p ← read_packet fuel (indeterminate (Z.to_nat sizeof_RNDIS_Packet_Message_t)) Buffer;
  match p with
  | None => mret (RNDIS_ERROR_LOGICAL_CMD_FAILED, Buffer, 0)
  | Some (n, Buffer) => mret (ENDPOINT_RWSTREAM_NoError, Buffer, n)
  end.

Definition RNDIS_Device_SendPacket (i : info) (Buffer : list Z) (PacketLength : Z) : io Z :=
  ready ← data_ready i;
  if negb ready then mret ENDPOINT_RWSTREAM_DeviceDisconnected else
  Endpoint_SelectEndpoint (ep_Address (DataINEndpoint i));;
  ErrorCode ← Endpoint_WaitUntilReady fuel;
  if negb (ErrorCode =? ENDPOINT_READYWAIT_NoError) then mret ErrorCode else
  write_packet fuel Buffer PacketLength;;
  mret ENDPOINT_RWSTREAM_NoError.
End class_driver.

(** ** The demo *)

(** [Descriptors.h] *)
Definition CDC_TX_EPADDR := Z.lor ENDPOINT_DIR_IN 1.
Definition CDC_RX_EPADDR := 2.
Definition CDC_NOTIFICATION_EPADDR := Z.lor ENDPOINT_DIR_IN 3.
Definition CDC_TXRX_EPSIZE := 64.
Definition CDC_NOTIFICATION_EPSIZE := 8.

(** [RNDISEthernet.h], with the LEDs of the board the makefile selects. *)
Definition LEDS_LED1 := 16.
Definition LEDS_LED2 := 32.
Definition LEDS_LED3 := 128.
Definition LEDS_LED4 := 64.
Definition LEDMASK_USB_READY := Z.lor LEDS_LED2 LEDS_LED4.
Definition LEDMASK_USB_ERROR := Z.lor LEDS_LED1 LEDS_LED3.
Definition LEDMASK_USB_BUSY := LEDS_LED2.

(** The globals of the demo: those of [RNDIS.c] and of the network stack. *)
Record demo (A : Type) := mk_demo { Rndis : rndis; Net : net A }.
Arguments mk_demo {A} _ _.
Arguments Rndis {A} _.
Arguments Net {A} _.

Section demo.
Context {A : Type}.
Context (fuel : nat) (USB_Device_ControlEndpointSize : Z).
Context (indeterminate : nat -> list Z).

Definition demo_ControlRequest (d : device) (g : demo A) : io (demo A) :=
  let r := USB_ControlRequest d in
  if bRequest r =? RNDIS_REQ_SendEncapsulatedCommand then
    if bmRequestType r =? class_to_device then
      s ← send_encapsulated fuel ProcessRNDISControlMessage r (Rndis g); mret (mk_demo s (Net g))
    else mret g
  else if bRequest r =? RNDIS_REQ_GetEncapsulatedResponse then
    if bmRequestType r =? class_to_host then
      s ← get_encapsulated fuel USB_Device_ControlEndpointSize r (Rndis g); mret (mk_demo s (Net g))
    else mret g
  else mret g.

Definition demo_ConfigurationChanged (d : device) (g : demo A) : io (demo A) :=
  ok1 ← Endpoint_ConfigureEndpoint CDC_TX_EPADDR EP_TYPE_BULK CDC_TXRX_EPSIZE 1;
  ok2 ← Endpoint_ConfigureEndpoint CDC_RX_EPADDR EP_TYPE_BULK CDC_TXRX_EPSIZE 1;
  ok3 ← Endpoint_ConfigureEndpoint CDC_NOTIFICATION_EPADDR EP_TYPE_INTERRUPT CDC_NOTIFICATION_EPSIZE 1;
  LEDs_SetAllLEDs (if ok1 && ok2 && ok3 then LEDMASK_USB_READY else LEDMASK_USB_ERROR);;
  mret g.

(** The data endpoints: a frame from the host into [FrameIN] ([None] after the
    early return), then the frame in [FrameOUT] to the host. *)
Definition receive_frame (n : net A) : io (option (net A)) :=
  Endpoint_SelectEndpoint CDC_RX_EPADDR;;
  received ← Endpoint_IsOUTReceived;
  if received && negb (truthy (FrameLength (FrameIN n))) then
    p ← read_packet fuel (indeterminate (Z.to_nat sizeof_RNDIS_Packet_Message_t)) (in_data n);
    match p with
    | None => mret None
    | Some (len, data) => mret (Some (set_FrameIN {| FrameData := data; FrameLength := len |} n))
    end
  else mret (Some n).

Definition transmit_frame (n : net A) : io (net A) :=
  Endpoint_SelectEndpoint CDC_TX_EPADDR;;
  ready ← Endpoint_IsINReady;
  if ready && truthy (FrameLength (FrameOUT n)) then
    write_packet fuel (out_data n) (FrameLength (FrameOUT n));;
    mret (set_FrameOUT {| FrameData := out_data n; FrameLength := 0 |} n)
  else mret n.

Definition RNDIS_Task (g : demo A) : io (demo A) :=
  s ← notify fuel CDC_NOTIFICATION_EPADDR (Rndis g);
  '(len, s) ← pure (field msg_MessageLength s);
  if (CurrRNDISState s =? RNDIS_Data_Initialized) && negb (truthy len) then
    r ← receive_frame (Net g);
    match r with
    | None => mret (mk_demo s (Net g))
    | Some n => n ← transmit_frame n; mret (mk_demo s n)
    end
  else mret (mk_demo s (Net g)).

Definition Ethernet_Task (g : demo A) : io (demo A) :=
  s ← USB_DeviceState;
  if negb (s =? DEVICE_STATE_Configured) then mret g else
  if truthy (FrameLength (FrameIN (Net g))) then
    LEDs_SetAllLEDs LEDMASK_USB_BUSY;;
    '(_, n) ← pure (Ethernet_ProcessPacket (Net g));
    LEDs_SetAllLEDs LEDMASK_USB_READY;;
    mret (mk_demo (Rndis g) n)
  else mret g.
End demo.
