(* ===== verification/NetLemmas.v ===== *)
(** * Reasoning about the frame buffers

    Slices and splices of byte buffers, little and big endian values, the weakest
    precondition [nwp] of code on the network state (total: the code neither
    faults nor runs out of fuel), and the Internet checksum. *)
From S2P Require Import Prelude NetBuffers.

(** ** Slices *)

Lemma length_slice off n d :
  0 <= off -> 0 <= n -> off + n <= Z.of_nat (length d) -> Z.of_nat (length (slice off n d)) = n.
Proof. intros. unfold slice. rewrite length_take, length_drop. lia. Qed.

Lemma length_splice off bs d : length (splice off bs d) = length d.
Proof. apply length_inserts. Qed.

Lemma slice_app off n m d :
  0 <= off -> 0 <= n -> 0 <= m -> slice off (n + m) d = slice off n d ++ slice (off + n) m d.
Proof.
  intros. unfold slice. rewrite Z2Nat.inj_add by lia.
  rewrite (Z2Nat.inj_add off n) by lia. rewrite <- drop_drop. by rewrite take_take_drop.
Qed.

Lemma lookup_slice off n d i :
  slice off n d !! i = if decide (i < Z.to_nat n)%nat then d !! (Z.to_nat off + i)%nat else None.
Proof.
  unfold slice. case_decide.
  - by rewrite lookup_take_lt, lookup_drop.
  - apply lookup_ge_None. rewrite length_take. lia.
Qed.

Lemma slice_splice_eq off n bs d :
  0 <= off -> n = Z.of_nat (length bs) -> off + n <= Z.of_nat (length d) ->
  slice off n (splice off bs d) = bs.
Proof.
  intros Ho -> Hl. apply list_eq. intros i. rewrite lookup_slice, Nat2Z.id. case_decide.
  - unfold splice. rewrite list_lookup_inserts by lia. f_equal. lia.
  - symmetry. apply lookup_ge_None. lia.
Qed.

Lemma slice_splice_at off off' n bs d :
  off = off' -> 0 <= off -> n = Z.of_nat (length bs) -> off + n <= Z.of_nat (length d) ->
  slice off n (splice off' bs d) = bs.
Proof. intros <-. apply slice_splice_eq. Qed.

Lemma slice_splice_ne off n off' bs d :
  0 <= off -> 0 <= off' -> off + n <= off' \/ off' + Z.of_nat (length bs) <= off ->
  slice off n (splice off' bs d) = slice off n d.
Proof.
  intros H1 H2 Hd. apply list_eq. intros i. rewrite !lookup_slice. case_decide; [|done].
  unfold splice. destruct Hd.
  - apply list_lookup_inserts_lt. lia.
  - apply list_lookup_inserts_ge. lia.
Qed.

(** Part of a zeroed range. *)
Lemma slice_splice_zeros off n off' m d :
  0 <= off' <= off -> 0 <= n -> off + n <= off' + Z.of_nat m -> off' + Z.of_nat m <= Z.of_nat (length d) ->
  slice off n (splice off' (replicate m 0) d) = replicate (Z.to_nat n) 0.
Proof.
  intros H1 H2 H3 H4. apply list_eq. intros i. rewrite lookup_slice. case_decide.
  - unfold splice. rewrite list_lookup_inserts by (rewrite ?length_replicate; lia).
    rewrite !lookup_replicate_2 by lia. done.
  - symmetry. apply lookup_ge_None. rewrite length_replicate. lia.
Qed.

Lemma peek_slice off n d :
  0 <= off -> 0 <= n -> off + n <= Z.of_nat (length d) -> peek off n d = Some (slice off n d).
Proof. intros. unfold peek. by rewrite !(proj2 (Z.leb_le _ _)) by lia. Qed.

Lemma peek_Some off n d bs :
  peek off n d = Some bs ->
  bs = slice off n d /\ 0 <= off /\ 0 <= n /\ off + n <= Z.of_nat (length d).
Proof. unfold peek. case_match; [|done]. bprop. intros [= <-]. split; [done|lia]. Qed.

Lemma peek_out off n d : Z.of_nat (length d) < off + n -> peek off n d = None.
Proof. intros. unfold peek. rewrite (proj2 (Z.leb_gt _ _) H). by rewrite andb_false_r. Qed.

Lemma poke_splice off bs d :
  0 <= off -> off + Z.of_nat (length bs) <= Z.of_nat (length d) -> poke off bs d = Some (splice off bs d).
Proof. intros. unfold poke. by rewrite !(proj2 (Z.leb_le _ _)) by lia. Qed.

Lemma poke_out off bs d :
  Z.of_nat (length d) < off + Z.of_nat (length bs) -> poke off bs d = None.
Proof. intros. unfold poke. rewrite (proj2 (Z.leb_gt _ _) H). by rewrite andb_false_r. Qed.

Lemma Forall_slice (P : Z -> Prop) off n d : Forall P d -> Forall P (slice off n d).
Proof. intros. by apply Forall_take, Forall_drop. Qed.

Lemma Forall_splice (P : Z -> Prop) off bs d : Forall P d -> Forall P bs -> Forall P (splice off bs d).
Proof. intros. by apply Forall_inserts. Qed.

Lemma slice_1 off d : 0 <= off -> off < Z.of_nat (length d) -> exists a, slice off 1 d = [a].
Proof.
  intros. pose proof (length_slice off 1 d) as Hl.
  destruct (slice off 1 d) as [|a [|]] eqn:E; simpl in *; [lia| by exists a | lia].
Qed.

(** ** Values *)

(** A check that a witness evaluates. *)
Definition byteb (b : Z) : bool := (0 <=? b) && (b <? 256).

Lemma bytes_check l : forallb byteb l = true -> Forall byte_ok l.
Proof.
  induction l as [|b l IH]; [constructor|]. cbn. intros [H ?]%andb_true_iff. constructor; [|auto].
  unfold byteb in H. unfold byte_ok. bprop. lia.
Qed.

Lemma length_le_bytes n v : length (le_bytes n v) = n.
Proof. revert v. induction n; intros; simpl; auto. Qed.

Lemma le_bytes_ok n v : Forall byte_ok (le_bytes n v).
Proof.
  revert v. induction n; intros v; simpl; constructor; auto. unfold byte_ok.
  apply Z.mod_pos_bound. lia.
Qed.

Lemma le_bytes_val bs : Forall byte_ok bs -> le_bytes (length bs) (le_val bs) = bs.
Proof.
  induction 1 as [|b bs Hb Hbs IH]; [done|]. unfold byte_ok in Hb. cbn [le_val length le_bytes].
  rewrite Z.mul_comm, Z.mod_add, Z.mod_small by lia. f_equal.
  rewrite Z.div_add, Z.div_small by lia. exact IH.
Qed.

Lemma le_val_range bs : Forall byte_ok bs -> 0 <= le_val bs < 256 ^ Z.of_nat (length bs).
Proof.
  induction 1 as [|b bs Hb Hbs IH]; [simpl; lia|]. unfold byte_ok in Hb.
  cbn [le_val length]. rewrite Nat2Z.inj_succ, Z.pow_succ_r by lia. lia.
Qed.

Lemma le_val_bytes n v : le_val (le_bytes n v) = v mod 256 ^ Z.of_nat n.
Proof.
  revert v. induction n as [|n IH]; intros v; [simpl; by rewrite Z.mod_1_r|].
  cbn [le_bytes le_val]. rewrite IH, Nat2Z.inj_succ, Z.pow_succ_r by lia.
  assert (0 < 256 ^ Z.of_nat n) by (apply Z.pow_pos_nonneg; lia).
  rewrite Z.rem_mul_r by lia. lia.
Qed.

(** The bytes [n] of a buffer of bytes, read and written back. *)
Lemma le_bytes_slice n off d :
  Forall byte_ok d -> 0 <= off -> off + Z.of_nat n <= Z.of_nat (length d) ->
  le_bytes n (le_val (slice off (Z.of_nat n) d)) = slice off (Z.of_nat n) d.
Proof.
  intros Hd Ho Hl.
  pose proof (length_slice off (Z.of_nat n) d Ho ltac:(lia) Hl) as E.
  assert (length (slice off (Z.of_nat n) d) = n) as E' by lia.
  rewrite <- E' at 1. apply le_bytes_val. by apply Forall_slice.
Qed.

Lemma le_bytes_slice1 off d : Forall byte_ok d -> 0 <= off -> off + 1 <= Z.of_nat (length d) ->
  le_bytes 1 (le_val (slice off 1 d)) = slice off 1 d.
Proof. apply (le_bytes_slice 1). Qed.
Lemma le_bytes_slice2 off d : Forall byte_ok d -> 0 <= off -> off + 2 <= Z.of_nat (length d) ->
  le_bytes 2 (le_val (slice off 2 d)) = slice off 2 d.
Proof. apply (le_bytes_slice 2). Qed.
Lemma le_bytes_slice4 off d : Forall byte_ok d -> 0 <= off -> off + 4 <= Z.of_nat (length d) ->
  le_bytes 4 (le_val (slice off 4 d)) = slice off 4 d.
Proof. apply (le_bytes_slice 4). Qed.

Lemma SwapEndian_16_eq x : SwapEndian_16 x = x / 256 mod 256 + 256 * (x mod 256).
Proof.
  unfold SwapEndian_16.
  assert (Z.shiftr (Z.land x 0xFF00) 8 = x / 256 mod 256) as ->.
  { rewrite Z.shiftr_land. change (Z.shiftr 0xFF00 8) with (Z.ones 8).
    by rewrite Z.land_ones, Z.shiftr_div_pow2 by lia. }
  change 0xFF with (Z.ones 8). rewrite Z.land_ones by lia.
  rewrite Z.shiftl_mul_pow2 by lia. change (2 ^ 8) with 256.
  pose proof (Z.add_lor_land (x / 256 mod 256) (x mod 256 * 256)) as Hs.
  assert (Z.land (x / 256 mod 256) (x mod 256 * 256) = 0) as E.
  { apply Z.bits_inj'. intros n Hn. rewrite Z.land_spec, Z.bits_0.
    change 256 with (2 ^ 8). destruct (Z.ltb_spec n 8).
    - rewrite (Z.mul_pow2_bits_low (x mod 2 ^ 8)) by lia. apply andb_false_r.
    - rewrite Z.mod_pow2_bits_high by lia. done. }
  rewrite E, Z.add_0_r in Hs. rewrite Hs, u16_small by zdm. lia.
Qed.

(** A field in network byte order. *)
Lemma SwapEndian_16_be a b : byte_ok a -> byte_ok b -> SwapEndian_16 (le_val [a; b]) = 256 * a + b.
Proof. unfold byte_ok. intros. rewrite SwapEndian_16_eq. cbn [le_val]. zdm. Qed.

Lemma SwapEndian_16_range x : 0 <= SwapEndian_16 x < 65536.
Proof. apply u16_range. Qed.

Lemma le_bytes_swap x : 0 <= x < 65536 -> le_bytes 2 (SwapEndian_16 x) = [x / 256; x mod 256].
Proof. intros. rewrite SwapEndian_16_eq. cbn [le_bytes]. f_equal; [|f_equal]; zdm. Qed.

(** Two bit field assignments that cover their unit. *)
Ltac bit_fields n :=
  cbn [le_bytes le_val]; unfold bits; rewrite ?Z.mul_0_r, ?Z.add_0_r;
  change 256 with (2 ^ 8); rewrite <- ?Z.land_ones by lia;
  rewrite ?Z.ldiff_land, ?Z.land_lor_distr_l, <- ?Z.land_assoc;
  repeat match goal with |- context [Z.land n ?c] =>
    let c' := eval vm_compute in c in change c with c' end;
  rewrite ?Z.land_0_r; reflexivity.

(** [HeaderLength] and then [Version] of an IP header. *)
Lemma ip_version_bits x :
  le_bytes 1 (bits (le_val (le_bytes 1 (bits x 0 4 5))) 4 4 4) = [0x45].
Proof. bit_fields x. Qed.

(** [DataOffset] and then [Reserved] of a TCP header. *)
Lemma tcp_offset_bits x :
  le_bytes 1 (bits (le_val (le_bytes 1 (bits x 4 4 5))) 0 4 0) = [0x50].
Proof. bit_fields x. Qed.

(** [Flags] and then [FragmentOffset] of an IP header. *)
Lemma ip_fragment_bits x :
  le_bytes 2 (bits (le_val (le_bytes 2 (bits x 13 3 0))) 0 13 0) = [0; 0].
Proof.
  set (v := le_val _). assert (v / 2 ^ 13 mod 2 ^ 3 = 0) as Hv.
  { subst v. rewrite le_val_bytes. change (256 ^ Z.of_nat 2) with (2 ^ 16).
    rewrite <- Z.land_ones, <- !Z.shiftr_div_pow2, <- Z.land_ones, Z.shiftr_land, <- Z.land_assoc by lia.
    unfold bits. rewrite Z.shiftl_0_l, Z.land_0_l, Z.lor_0_r.
    rewrite Z.ldiff_land, Z.shiftr_land, <- Z.land_assoc. apply Z.land_0_r. }
  assert (0 <= v < 2 ^ 16) as Hr.
  { subst v. rewrite le_val_bytes. apply Z.mod_pos_bound. lia. }
  unfold bits. rewrite Z.shiftl_0_l, Z.land_0_l, Z.lor_0_r.
  change (Z.shiftl (Z.ones 13) 0) with (Z.ones 13). rewrite Z.ldiff_ones_r by lia.
  rewrite Z.shiftr_div_pow2, Z.shiftl_mul_pow2 by lia.
  assert (v / 2 ^ 13 = 0) as -> by zdm. done.
Qed.

(** ** Weakest preconditions *)

Section wp.
Context {S : Type}.
Implicit Types s : S.

Definition nwp {T} (m : st S T) s (Q : T -> S -> Prop) : Prop :=
  match m s with Returns (x, s') => Q x s' | _ => False end.

Lemma nwp_bind {T U} (m : st S T) (f : T -> st S U) s Q :
  nwp m s (fun x s' => nwp (f x) s' Q) -> nwp (m ≫= f) s Q.
Proof. unfold nwp, mbind, st_bind. by destruct (m s) as [[]| |]. Qed.

Lemma nwp_mono {T} (m : st S T) s (P Q : T -> S -> Prop) :
  nwp m s P -> (forall x s', P x s' -> Q x s') -> nwp m s Q.
Proof. unfold nwp. destruct (m s) as [[]| |]; eauto. Qed.

Lemma nwp_ret {T} (x : T) s Q : Q x s -> nwp (mret x) s Q.
Proof. done. Qed.

Lemma nwp_reads {T} (f : S -> T) s Q : Q (f s) s -> nwp (reads f) s Q.
Proof. done. Qed.

Lemma nwp_modifies f s (Q : unit -> S -> Prop) : Q tt (f s) -> nwp (modifies f) s Q.
Proof. done. Qed.

Lemma nwp_lift {T} (o : outcome T) x s Q : o = Returns x -> Q x s -> nwp (lift o) s Q.
Proof. intros ->. done. Qed.

Lemma nwp_returns {T} (m : st S T) s Q :
  nwp m s Q -> exists x s', m s = Returns (x, s') /\ Q x s'.
Proof. unfold nwp. destruct (m s) as [[x s']| |]; [eauto|done..]. Qed.

(** A step that is known, as an equation. *)
Lemma bind_eq {T U} (m : st S T) (f : T -> st S U) s x s' :
  m s = Returns (x, s') -> (m ≫= f) s = f x s'.
Proof. unfold mbind, st_bind. by intros ->. Qed.

(** Code that faults. *)
Lemma faults_bind {T U} (m : st S T) (f : T -> st S U) s :
  nwp m s (fun x s' => f x s' = Faults) -> (m ≫= f) s = Faults.
Proof. unfold nwp, mbind, st_bind. by destruct (m s) as [[]| |]. Qed.

Lemma faults_left {T U} (m : st S T) (f : T -> st S U) s : m s = Faults -> (m ≫= f) s = Faults.
Proof. unfold mbind, st_bind. by intros ->. Qed.
End wp.

Section accesses.
Context {A : Type}.
Implicit Types s : net A.

Lemma nwp_in_bytes off n s Q :
  0 <= off -> 0 <= n -> off + n <= Z.of_nat (length (in_data s)) ->
  Q (slice off n (in_data s)) s -> nwp (in_bytes off n) s Q.
Proof. intros. unfold nwp, in_bytes. by rewrite peek_slice. Qed.

Lemma nwp_in_set off bs s (Q : unit -> net A -> Prop) :
  0 <= off -> off + Z.of_nat (length bs) <= Z.of_nat (length (in_data s)) ->
  Q tt (set_in_data (splice off bs (in_data s)) s) -> nwp (in_set off bs) s Q.
Proof. intros. unfold nwp, in_set. by rewrite poke_splice. Qed.

Lemma nwp_out_bytes off n s Q :
  0 <= off -> 0 <= n -> off + n <= Z.of_nat (length (out_data s)) ->
  Q (slice off n (out_data s)) s -> nwp (out_bytes off n) s Q.
Proof. intros. unfold nwp, out_bytes. by rewrite peek_slice. Qed.

Lemma nwp_out_set off bs s (Q : unit -> net A -> Prop) :
  0 <= off -> off + Z.of_nat (length bs) <= Z.of_nat (length (out_data s)) ->
  Q tt (set_out_data (splice off bs (out_data s)) s) -> nwp (out_set off bs) s Q.
Proof. intros. unfold nwp, out_set. by rewrite poke_splice. Qed.

(** Reads, as equations. *)
Lemma in_bytes_eq off n s :
  0 <= off -> 0 <= n -> off + n <= Z.of_nat (length (in_data s)) ->
  in_bytes off n s = Returns (slice off n (in_data s), s).
Proof. intros. unfold in_bytes. by rewrite peek_slice. Qed.

Lemma in_u8_eq off s :
  0 <= off -> off + 1 <= Z.of_nat (length (in_data s)) ->
  in_u8 off s = Returns (le_val (slice off 1 (in_data s)), s).
Proof. intros. unfold in_u8. by erewrite bind_eq by (apply in_bytes_eq; lia). Qed.

Lemma in_u16_eq off s :
  0 <= off -> off + 2 <= Z.of_nat (length (in_data s)) ->
  in_u16 off s = Returns (le_val (slice off 2 (in_data s)), s).
Proof. intros. unfold in_u16. by erewrite bind_eq by (apply in_bytes_eq; lia). Qed.

Lemma faults_in_bytes off n s :
  Z.of_nat (length (in_data s)) < off + n -> in_bytes off n s = Faults.
Proof. intros. unfold in_bytes. by rewrite peek_out. Qed.

End accesses.

(** What an assignment to one global leaves of the others. *)
Section frames.
Context {A : Type}.
Implicit Types s : net A.
Lemma set_out_in d s : FrameIN (set_out_data d s) = FrameIN s. Proof. done. Qed.
Lemma set_out_out d s : out_data (set_out_data d s) = d. Proof. done. Qed.
Lemma set_out_out_length d s : FrameLength (FrameOUT (set_out_data d s)) = FrameLength (FrameOUT s).
Proof. done. Qed.
Lemma set_out_conns d s : ConnectionStateTable (set_out_data d s) = ConnectionStateTable s.
Proof. done. Qed.
Lemma set_out_ports d s : PortStateTable (set_out_data d s) = PortStateTable s. Proof. done. Qed.
Lemma set_out_twice d d' s : set_out_data d (set_out_data d' s) = set_out_data d s. Proof. done. Qed.
Lemma set_in_in d s : in_data (set_in_data d s) = d. Proof. done. Qed.
Lemma set_in_length d s : FrameLength (FrameIN (set_in_data d s)) = FrameLength (FrameIN s).
Proof. done. Qed.
Lemma set_in_out d s : FrameOUT (set_in_data d s) = FrameOUT s. Proof. done. Qed.
Lemma set_in_twice d d' s : set_in_data d (set_in_data d' s) = set_in_data d s. Proof. done. Qed.
Lemma set_conns_in l s : FrameIN (set_Connections l s) = FrameIN s. Proof. done. Qed.
Lemma set_conns_out l s : FrameOUT (set_Connections l s) = FrameOUT s. Proof. done. Qed.
Lemma set_conns_conns l s : ConnectionStateTable (set_Connections l s) = l. Proof. done. Qed.
Lemma set_conns_twice l l' s : set_Connections l (set_Connections l' s) = set_Connections l s.
Proof. done. Qed.
Lemma set_out_conns_swap d l s :
  set_Connections l (set_out_data d s) = set_out_data d (set_Connections l s).
Proof. done. Qed.
Lemma set_in_out_swap d d' s : set_in_data d (set_out_data d' s) = set_out_data d' (set_in_data d s).
Proof. done. Qed.
End frames.
#[export] Hint Rewrite @set_out_in @set_out_out @set_out_out_length @set_out_conns @set_out_ports
  @set_out_twice @set_in_in @set_in_length @set_in_out @set_in_twice @set_conns_in @set_conns_out
  @set_conns_conns @set_conns_twice @set_out_conns_swap @set_in_out_swap : net.

(** Side conditions: an access at a constant or bounded offset of a buffer whose
    length is known. *)
Ltac net_simpl := autorewrite with net; cbn [FrameIN FrameOUT FrameData FrameLength set_FrameIN set_FrameOUT].
Ltac net_len :=
  autounfold with net in *; net_simpl;
  unfold ServerMACAddress, ServerIPAddress, ClientIPAddress;
  rewrite ?length_splice, ?length_le_bytes, ?length_replicate;
  repeat (rewrite length_slice by (rewrite ?length_splice; lia));
  cbn [length]; lia.

(** A buffer that holds two fields, one after the other. *)
Lemma slice_fields off b1 b2 d :
  0 <= off -> slice off (Z.of_nat (length b1)) d = b1 ->
  slice (off + Z.of_nat (length b1)) (Z.of_nat (length b2)) d = b2 ->
  slice off (Z.of_nat (length (b1 ++ b2))) d = b1 ++ b2.
Proof. intros Ho E1 E2. rewrite length_app, Nat2Z.inj_add, slice_app by lia. by rewrite E1, E2. Qed.

(** Bytes stay bytes. *)
Ltac list_ok := repeat (apply Forall_cons; split; [unfold byte_ok; zdm|]); apply Forall_nil; done.
Ltac bytes_ok :=
  repeat apply Forall_splice;
  first [ assumption | apply le_bytes_ok | by apply Forall_slice | list_ok ].

(** Values copied from one buffer to another. *)
Ltac copies := repeat first [ rewrite le_bytes_slice1 by (done || net_len)
  | rewrite le_bytes_slice2 by (done || net_len) | rewrite le_bytes_slice4 by (done || net_len) ].

(** The slices of a buffer after writes to it. *)
Ltac slice1 :=
  match goal with
  | |- context [slice ?o ?n (splice ?o' ?bs ?d)] =>
      first [ rewrite (slice_splice_ne o n o' bs d) by net_len
            | rewrite (slice_splice_at o o' n bs d) by net_len
            | rewrite slice_splice_zeros by net_len ]
  end.
Ltac slices := repeat slice1.

(** [slice off _ d = b1 ++ b2 ++ ...], field by field. *)
Ltac fields := repeat (apply slice_fields; [net_len|..]); slices.

(** One step of straight-line code. *)
Ltac nstep1 :=
  lazymatch goal with
  | |- nwp (_ ≫= _) _ _ => apply nwp_bind
  | |- nwp (if true then ?m else _) ?s ?Q => change (nwp m s Q)
  | |- nwp (if false then _ else ?m) ?s ?Q => change (nwp m s Q)
  | |- nwp (mret _) _ _ => apply nwp_ret
  | |- nwp (reads _) _ _ => apply nwp_reads
  | |- nwp (modifies _) _ _ => apply nwp_modifies
  | |- nwp (in_bytes _ _) _ _ => apply nwp_in_bytes; [net_len..|]
  | |- nwp (in_set _ _) _ _ => apply nwp_in_set; [net_len..|]
  | |- nwp (out_bytes _ _) _ _ => apply nwp_out_bytes; [net_len..|]
  | |- nwp (out_set _ _) _ _ => apply nwp_out_set; [net_len..|]
  | |- nwp (in_u8 _) _ _ => unfold in_u8 at 1
  | |- nwp (in_u16 _) _ _ => unfold in_u16 at 1
  | |- nwp (in_u32 _) _ _ => unfold in_u32 at 1
  | |- nwp (out_u8 _ _) _ _ => unfold out_u8 at 1
  | |- nwp (out_u16 _ _) _ _ => unfold out_u16 at 1
  | |- nwp (out_u32 _ _) _ _ => unfold out_u32 at 1
  | |- nwp (out_bits _ _ _ _ _) _ _ => unfold out_bits at 1
  end; cbn beta zeta; net_simpl.
Ltac nstep := repeat nstep1.

Ltac fstep := apply faults_bind; nstep.

(** ** The checksum *)

(** The sum of the little endian words of a list of bytes, without a last odd
    byte. *)
Fixpoint word_sum (bs : list Z) : Z :=
  match bs with
  | a :: b :: bs => a + 256 * b + word_sum bs
  | _ => 0
  end.

(** Induction on the words of a list. *)
Lemma word_ind (P : list Z -> Prop) :
  P [] -> (forall a, P [a]) -> (forall a b bs, P bs -> P (a :: b :: bs)) -> forall bs, P bs.
Proof.
  intros H0 H1 H2 bs. enough (P bs /\ forall a, P (a :: bs)) by tauto.
  induction bs as [|b bs [IH1 IH2]]; auto.
Qed.

Lemma word_sum_range bs : Forall byte_ok bs -> 0 <= word_sum bs <= 65535 * Z.of_nat (length bs).
Proof.
  induction bs as [|a|a b bs IH] using word_ind; intros H; cbn [word_sum length]; try lia.
  apply Forall_cons in H as [Ha H]. apply Forall_cons in H as [Hb H].
  specialize (IH H). unfold byte_ok in *. lia.
Qed.

Lemma word_sum_app l1 l2 :
  Z.of_nat (length l1) mod 2 = 0 -> word_sum (l1 ++ l2) = word_sum l1 + word_sum l2.
Proof.
  induction l1 as [|a|a b bs IH] using word_ind; intros H; [done|done|].
  cbn [Datatypes.app word_sum length] in *. rewrite IH; [lia|zdm].
Qed.

Lemma sum_words_spec n off d c :
  Forall byte_ok d -> 0 <= off -> off + 2 * Z.of_nat n <= Z.of_nat (length d) ->
  sum_words n off d c =
    Returns (match n with O => c | _ => u32 (c + word_sum (slice off (2 * Z.of_nat n) d)) end).
Proof.
  intros Hd. revert off c. induction n as [|n IH]; intros off c Ho Hl; [done|].
  cbn [sum_words]. rewrite peek_slice by lia. cbn [access mbind outcome_bind].
  rewrite IH by lia. f_equal.
  replace (2 * Z.of_nat (S n)) with (2 + 2 * Z.of_nat n) by lia. rewrite slice_app by lia.
  pose proof (length_slice off 2 d) as H2.
  destruct (slice off 2 d) as [|a [|b [|]]]; cbn [length] in H2; try lia.
  cbn [Datatypes.app word_sum le_val]. replace (a + 256 * (b + 256 * 0)) with (a + 256 * b) by lia.
  destruct n; [change (slice (off + 2) (2 * Z.of_nat 0) d) with (@nil Z); cbn [word_sum]; f_equal; lia|].
  unfold wrap. rewrite Zplus_mod_idemp_l. f_equal. lia.
Qed.

(** One's complement folding of a 32-bit sum. *)
Lemma fold_carries_spec c :
  0 <= c < 2 ^ 32 ->
  exists r, fold_carries carry_fuel c = Returns r /\ 0 <= r < 65536 /\ (r - c) mod 65535 = 0 /\
            (0 < c <-> 0 < r).
Proof.
  assert (forall x, 0 <= x < 2 ^ 32 -> Z.land x 0xFFFF0000 = 65536 * (x / 65536)) as Hh.
  { intros x Hx. change 0xFFFF0000 with (Z.shiftl (Z.ones 16) 16).
    rewrite <- (Z.mul_comm (x / 65536)).
    change 65536 with (2 ^ 16). rewrite <- Z.shiftl_mul_pow2, <- Z.shiftr_div_pow2 by lia.
    apply Z.bits_inj'. intros n Hn. rewrite Z.land_spec, !Z.shiftl_spec by lia.
    destruct (Z.ltb_spec n 16); [by rewrite !(Z.testbit_neg_r _ (n - 16)), andb_false_r by lia|].
    rewrite Z.shiftr_spec, Z.sub_add by lia. destruct (Z.ltb_spec n 32).
    - by rewrite Z.ones_spec_low, andb_true_r by lia.
    - rewrite Z.ones_spec_high, andb_false_r by lia. symmetry.
      rewrite <- (Z.mod_small x (2 ^ 32)) by lia. apply Z.mod_pow2_bits_high. lia. }
  assert (forall x, 0 <= x < 2 ^ 32 ->
            u32 (Z.land x 0xFFFF + Z.shiftr x 16) = x mod 65536 + x / 65536) as Hl.
  { intros x Hx. change 0xFFFF with (Z.ones 16). rewrite Z.land_ones, Z.shiftr_div_pow2 by lia.
    rewrite u32_small by zdm. done. }
  intros Hc. unfold carry_fuel. cbn [fold_carries].
  rewrite (Hh c) by done. unfold truthy.
  destruct (Z.eqb_spec (65536 * (c / 65536)) 0) as [E|E]; cbn [negb].
  { exists c. split_and!; [done|zdm|zdm|by rewrite Z.sub_diag|done]. }
  rewrite (Hl c) by done. set (c1 := c mod 65536 + c / 65536).
  assert (0 < c1 < 131071) by (subst c1; zdm).
  assert ((c1 - c) mod 65535 = 0) as Hm1.
  { subst c1. replace (c mod 65536 + c / 65536 - c) with ((- (c / 65536)) * 65535) by zdm.
    apply Z.mod_mul. lia. }
  rewrite (Hh c1) by lia. destruct (Z.eqb_spec (65536 * (c1 / 65536)) 0) as [E1|E1]; cbn [negb].
  { exists c1. split_and!; [done|zdm|zdm|done|split; zdm]. }
  rewrite (Hl c1) by lia. set (c2 := c1 mod 65536 + c1 / 65536).
  assert (c1 / 65536 = 1) as Hq by zdm.
  assert (0 < c2 < 65536) by (subst c2; zdm).
  rewrite (Hh c2) by lia. rewrite (Z.div_small c2) by lia. cbn [negb Z.eqb Z.mul].
  exists c2. split_and!; [done|lia|lia| |split; zdm].
  assert (c2 = c1 - 65535) as -> by (subst c2; zdm). 
  replace (c1 - 65535 - c) with ((c1 - c) + (-1) * 65535) by lia. by rewrite Z.mod_add by lia.
Qed.

Lemma checksum_spec d off N :
  Forall byte_ok d -> 0 <= off -> 0 <= N -> off + N <= Z.of_nat (length d) ->
  Z.of_nat (length d) <= 65536 ->
  exists r, Ethernet_Checksum16 d off N = Returns (65535 - r) /\ 0 <= r < 65536 /\
    (r - word_sum (slice off (2 * (N / 2)) d)) mod 65535 = 0 /\
    (0 < word_sum (slice off (2 * (N / 2)) d) <-> 0 < r).
Proof.
  intros Hd Ho HN Hl Hs. unfold Ethernet_Checksum16.
  assert (0 <= N / 2 /\ 2 * (N / 2) <= N) as [Hn1 Hn2] by zdm.
  rewrite Z.shiftr_div_pow2 by lia. change (2 ^ 1) with 2.
  rewrite sum_words_spec by (done || lia). rewrite Z2Nat.id by lia.
  set (S := word_sum _).
  assert (0 <= S < 2 ^ 32) as HS.
  { pose proof (word_sum_range (slice off (2 * (N / 2)) d) (Forall_slice _ _ _ _ Hd)) as Hw.
    rewrite length_slice in Hw by lia. subst S. lia. }
  assert (match Z.to_nat (N / 2) with O => 0 | _ => u32 (0 + S) end = S) as ->.
  { destruct (Z.to_nat (N / 2)) eqn:E; [|by rewrite Z.add_0_l, u32_small by lia].
    subst S. assert (N / 2 = 0) as -> by lia. done. }
  cbn [mbind outcome_bind].
  destruct (fold_carries_spec S HS) as (r & -> & Hr & Hm & Hp). exists r. cbn [mbind outcome_bind].
  split_and!; try done; try lia. unfold mret, outcome_ret. f_equal. unfold Z.lnot, wrap.
  symmetry. apply (Z.mod_unique_pos _ _ (-1)); lia.
Qed.

(** A packet of even size whose checksum field held zero when the checksum was
    computed, and then the checksum, passes the receiver's check. *)
Lemma checksum_verifies d d' off N pre post c :
  Forall byte_ok d -> Forall byte_ok d' -> 0 <= off -> N mod 2 = 0 ->
  off + N <= Z.of_nat (length d) -> length d' = length d -> Z.of_nat (length d) <= 65536 ->
  slice off N d = pre ++ [0; 0] ++ post -> Z.of_nat (length pre) mod 2 = 0 ->
  Ethernet_Checksum16 d off N = Returns c ->
  slice off N d' = pre ++ le_bytes 2 c ++ post ->
  Ethernet_Checksum16 d' off N = Returns 0.
Proof.
  intros Hd Hd' Ho He Hl Hl' Hs Es Hp Hc Es'.
  assert (0 <= N) as HN.
  { destruct (Z.leb_spec 0 N); [done|]. unfold slice in Es. rewrite Z2Nat.nonpos in Es by lia.
    by destruct pre. }
  assert (2 * (N / 2) = N) as E2 by zdm.
  destruct (checksum_spec d off N) as (r & Hr & Hrr & Hm & Hpos); try done.
  destruct (checksum_spec d' off N) as (r' & Hr' & Hrr' & Hm' & Hpos'); try done; try lia.
  rewrite E2 in *. rewrite Es in Hm, Hpos. rewrite Es' in Hm', Hpos'.
  rewrite Hc in Hr. injection Hr as ->.
  rewrite !word_sum_app in Hm, Hpos, Hm', Hpos' by done.
  change (word_sum [0; 0]) with 0 in *.
  assert (word_sum (le_bytes 2 (65535 - r)) = 65535 - r) as Ew.
  { cbn [le_bytes word_sum]. zdm. }
  rewrite Ew in *.
  pose proof (word_sum_range pre) as R1. pose proof (word_sum_range post) as R2.
  assert (Forall byte_ok (pre ++ [0; 0] ++ post)) as HF by (rewrite <- Es; by apply Forall_slice).
  apply Forall_app in HF as [HF1 HF]. apply Forall_app in HF as [_ HF2].
  specialize (R1 HF1). specialize (R2 HF2). rewrite Hr'. f_equal.
  assert (0 < r') by (apply Hpos'; lia).
  assert (r' mod 65535 = 0) by zdm. zdm.
Qed.

(** A packet that passes the receiver's check. *)
Definition valid_checksum (bytes : list Z) : Prop :=
  Ethernet_Checksum16 bytes 0 (Z.of_nat (length bytes)) = Returns 0.

Lemma slice_slice off N k n d :
  0 <= off -> 0 <= k -> 0 <= n -> k + n <= N -> slice k n (slice off N d) = slice (off + k) n d.
Proof.
  intros. apply list_eq. intros i. rewrite !lookup_slice. case_decide; [|done].
  rewrite decide_True by lia. f_equal. lia.
Qed.

Lemma sum_words_slice n off N k d c :
  0 <= off -> 0 <= k -> k + 2 * Z.of_nat n <= N -> off + N <= Z.of_nat (length d) ->
  sum_words n k (slice off N d) c = sum_words n (off + k) d c.
Proof.
  intros Ho. revert k c. induction n as [|n IH]; intros k c Hk Hn Hl; [done|].
  cbn [sum_words]. rewrite !peek_slice by (rewrite ?length_slice; lia).
  rewrite slice_slice by lia. cbn [access mbind outcome_bind]. rewrite IH by lia.
  by replace (off + (k + 2)) with (off + k + 2) by lia.
Qed.

Lemma checksum_slice off N d :
  0 <= off -> 0 <= N -> off + N <= Z.of_nat (length d) ->
  Ethernet_Checksum16 (slice off N d) 0 N = Ethernet_Checksum16 d off N.
Proof.
  intros. unfold Ethernet_Checksum16. rewrite sum_words_slice, Z.add_0_r; try done; try lia.
  rewrite Z.shiftr_div_pow2 by lia. zdm.
Qed.
