(* ===== verification/EndianSpec.v ===== *)
(** * Byte order

    [LUFA/Common/Endianness.h] reverses bytes in three ways: with masks and
    shifts (constants), by exchanging the bytes of a union (other values of 16 and
    32 bits), and by exchanging bytes in place from both ends ([SwapEndian_n]).
    They are equivalent to one another and to the reversal of the bytes. *)
From S2P Require Import Prelude NetBuffers NetLemmas.

(** The bits of two numbers side by side. *)
Lemma lor_beside a b k : 0 <= k -> 0 <= a < 2 ^ k -> Z.lor a (b * 2 ^ k) = a + b * 2 ^ k.
Proof.
  intros Hk Ha. pose proof (Z.add_lor_land a (b * 2 ^ k)) as Hs.
  assert (Z.land a (b * 2 ^ k) = 0) as E; [|lia].
  apply Z.bits_inj'. intros n Hn. rewrite Z.land_spec, Z.bits_0. destruct (Z.ltb_spec n k).
  - rewrite Z.mul_pow2_bits_low by lia. apply andb_false_r.
  - rewrite <- (Z.mod_small a (2 ^ k)) by lia. by rewrite Z.mod_pow2_bits_high by lia.
Qed.

(** [(x & 0xFF << k) >> k] *)
Lemma field_down x k : 0 <= k -> Z.shiftr (Z.land x (Z.shiftl 255 k)) k = x / 2 ^ k mod 256.
Proof.
  intros. rewrite Z.shiftr_land, Z.shiftr_shiftl_l, Z.sub_diag by lia.
  change (Z.shiftl 255 0) with (Z.ones 8). by rewrite Z.land_ones, Z.shiftr_div_pow2 by lia.
Qed.

Lemma field_at x k : 0 <= k -> Z.land x (Z.shiftl 255 k) = (x / 2 ^ k mod 256) * 2 ^ k.
Proof.
  intros. rewrite <- field_down, <- Z.shiftl_mul_pow2, <- Z.ldiff_ones_r by lia.
  apply Z.bits_inj'. intros n Hn. rewrite Z.ldiff_spec, Z.land_spec.
  rewrite Z.testbit_ones_nonneg, (Z.shiftl_spec _ _ n) by lia. destruct (Z.ltb_spec n k); cbn [negb].
  - rewrite (Z.testbit_neg_r 255 (n - k)) by lia. by rewrite !andb_false_r.
  - by rewrite andb_true_r.
Qed.

Lemma SwapEndian_32_eq x : 0 <= x < 2 ^ 32 ->
  SwapEndian_32 x = x / 2 ^ 24 mod 256 + (x / 2 ^ 16 mod 256) * 2 ^ 8
                    + (x / 2 ^ 8 mod 256) * 2 ^ 16 + (x / 2 ^ 0 mod 256) * 2 ^ 24.
Proof.
  intros Hx. unfold SwapEndian_32.
  change 0xFF000000 with (Z.shiftl 255 24). change 0x00FF0000 with (Z.shiftl 255 16).
  change 0x0000FF00 with (Z.shiftl 255 8). change 0x000000FF with (Z.shiftl 255 0).
  rewrite field_down, !field_at by lia. rewrite Z.shiftr_div_pow2, !Z.shiftl_mul_pow2 by lia.
  set (b3 := x / 2 ^ 24 mod 256). set (b2 := x / 2 ^ 16 mod 256).
  set (b1 := x / 2 ^ 8 mod 256). set (b0 := x / 2 ^ 0 mod 256).
  assert (0 <= b3 < 256 /\ 0 <= b2 < 256 /\ 0 <= b1 < 256 /\ 0 <= b0 < 256) as (H3 & H2 & H1 & H0)
    by (repeat split; apply Z.mod_pos_bound; lia).
  replace (b2 * 2 ^ 16 / 2 ^ 8) with (b2 * 2 ^ 8) by (rewrite <- (Z.div_mul (b2 * 2 ^ 8) (2 ^ 8)) by lia; f_equal; lia).
  replace (b1 * 2 ^ 8 * 2 ^ 8) with (b1 * 2 ^ 16) by lia.
  replace (b0 * 2 ^ 0 * 2 ^ 24) with (b0 * 2 ^ 24) by lia.
  rewrite (lor_beside b3 b2 8), (lor_beside _ b1 16), (lor_beside _ b0 24) by lia. apply u32_small. lia.
Qed.

(** The loop reverses what is between its two ends. *)
Lemma swap_loop_rev : forall fuel a m z, (length m <= fuel)%nat -> Z.of_nat (length m) < 256 ->
  swap_loop fuel (a ++ m ++ z) (Z.of_nat (length a)) (Z.of_nat (length m)) = Returns (a ++ reverse m ++ z).
Proof.
  induction fuel as [|fuel IH]; intros a m z Hf Hm.
  { destruct m; [done|cbn in Hf; lia]. }
  destruct m as [|x m]; [done|]. destruct m as [|y l _] using rev_ind; [done|].
  cbn [swap_loop]. rewrite (proj2 (Z.ltb_lt _ _)) by (cbn [length]; rewrite length_app; cbn; lia).
  assert (forall b r (v w : Z), arr_get (b ++ v :: r) (Z.of_nat (length b)) = Some v /\
    arr_set (b ++ v :: r) (Z.of_nat (length b)) w = Some (b ++ w :: r)) as Hat.
  { intros. rewrite arr_get_Some, arr_set_Some, Nat2Z.id, list_lookup_middle, length_app by done.
    cbn [length]. split_and!; try lia; try done. by rewrite insert_app_r_alt, Nat.sub_diag by lia. }
  assert (forall v w, (a ++ (v :: l ++ [w]) ++ z = a ++ v :: l ++ w :: z)
    /\ (a ++ v :: l ++ w :: z = (a ++ v :: l) ++ w :: z)) as Hr
    by (intros; cbn; rewrite <- !app_assoc; done).
  assert (Z.of_nat (length a) + Z.of_nat (length (x :: l ++ [y])) - 1 = Z.of_nat (length (a ++ x :: l))) as ->
    by (cbn [length]; rewrite !length_app; cbn; lia).
  rewrite (proj1 (Hr _ _)), (proj1 (Hat _ _ x 0)). cbn [access mbind outcome_bind].
  rewrite (proj2 (Hr _ _)), (proj1 (Hat _ _ y 0)). cbn [access mbind outcome_bind]. rewrite <- (proj2 (Hr _ _)), (proj2 (Hat _ _ _ _)). cbn [access mbind outcome_bind].
  assert (length (a ++ x :: l) = length (a ++ y :: l)) as -> by (rewrite !length_app; done).
  rewrite (proj2 (Hr _ _)), (proj2 (Hat _ _ _ _)). cbn [access mbind outcome_bind].
  assert (u8 (Z.of_nat (length (x :: l ++ [y])) - 2) = Z.of_nat (length l)) as ->.
  { cbn [length] in *. rewrite length_app in *. cbn [length] in *. rewrite u8_small by lia. lia. }
  replace (Z.of_nat (length a) + 1) with (Z.of_nat (length (a ++ [y]))) by (rewrite length_app; cbn; lia).
  replace ((a ++ y :: l) ++ x :: z) with ((a ++ [y]) ++ l ++ x :: z) by (rewrite <- !app_assoc; done).
  rewrite IH by (cbn in *; rewrite ?length_app in *; cbn in *; lia).
  f_equal. rewrite reverse_cons, reverse_app, <- !app_assoc. done.
Qed.

(** C39: the three ways to reverse bytes agree: the byte exchange of 16-bit and
    32-bit values gives the value of the masks and shifts, and the in-place exchange
    terminates without an access outside the data, having reversed it. *)
Theorem swap_endian_equivalence :
  (forall x, 0 <= x < 2 ^ 16 -> SwapEndian_16_runtime x = SwapEndian_16 x) /\
  (forall x, 0 <= x < 2 ^ 32 -> SwapEndian_32_runtime x = SwapEndian_32 x) /\
  (forall d, Z.of_nat (length d) < 256 -> SwapEndian_n d (Z.of_nat (length d)) = Returns (reverse d)).
Proof.
  split_and!.
  - intros x Hx. rewrite SwapEndian_16_eq. cbn. zdm.
  - intros x Hx. rewrite SwapEndian_32_eq by done. cbn.
    rewrite !Z.div_div by lia. cbn. rewrite ?Z.mul_0_r, ?Z.add_0_r, ?Z.div_1_r.
    change (256 * (256 * 256)) with (2 ^ 24). change (256 * 256) with (2 ^ 16). change (2 ^ 8) with 256. lia.
  - intros d Hd. unfold SwapEndian_n. rewrite Nat2Z.id.
    pose proof (swap_loop_rev (length d) [] d [] ltac:(lia) Hd) as H. by rewrite !app_nil_r in H.
Qed.
