(* ===== verification/RNDISSpec.v ===== *)
(** * What RNDIS messages are answered

    The replies of the message processing of the class driver and of the demo, as
    functions of the message, the adapter states they lead to, and the messages
    that are not handled safely. *)
From S2P Require Import Prelude NetBuffers NetLemmas RNDIS.

(** ** The specification *)

(** The message buffer holds [n] bytes; the filter is a 32-bit value. *)
Record wf_rndis (n : Z) (s : rndis) : Prop := {
  wf_message_length : Z.of_nat (length (RNDISMessageBuffer s)) = n;
  wf_message_bytes : Forall byte_ok (RNDISMessageBuffer s);
  wf_filter : 0 <= CurrPacketFilter s < 2 ^ 32 }.

(** The 32-bit field at [off] of a message. *)
Definition field_of (b : list Z) (off : Z) : Z := le_val (slice off 4 b).

Fixpoint assoc {X} (k : Z) (l : list (Z * X)) : option X :=
  match l with [] => None | (k', v) :: l => if k =? k' then Some v else assoc k l end.

(** What the adapter says about itself. *)
Definition info_table (size : Z) (vendor mac : list Z) (filter : Z) : list (Z * list Z) :=
  [(OID_GEN_SUPPORTED_LIST, le32s AdapterSupportedOIDList);
   (OID_GEN_PHYSICAL_MEDIUM, le_bytes 4 0);
   (OID_GEN_HARDWARE_STATUS, le_bytes 4 NDIS_HardwareStatus_Ready);
   (OID_GEN_MEDIA_SUPPORTED, le_bytes 4 REMOTE_NDIS_MEDIUM_802_3);
   (OID_GEN_MEDIA_IN_USE, le_bytes 4 REMOTE_NDIS_MEDIUM_802_3);
   (OID_GEN_VENDOR_ID, le_bytes 4 0x00FFFFFF);
   (OID_GEN_MAXIMUM_FRAME_SIZE, le_bytes 4 1500);
   (OID_GEN_TRANSMIT_BLOCK_SIZE, le_bytes 4 1500);
   (OID_GEN_RECEIVE_BLOCK_SIZE, le_bytes 4 1500);
   (OID_GEN_VENDOR_DESCRIPTION, vendor);
   (OID_GEN_MEDIA_CONNECT_STATUS, le_bytes 4 REMOTE_NDIS_MEDIA_STATE_CONNECTED);
   (OID_GEN_LINK_SPEED, le_bytes 4 100000);
   (OID_802_3_PERMANENT_ADDRESS, mac);
   (OID_802_3_CURRENT_ADDRESS, mac);
   (OID_802_3_MAXIMUM_LIST_SIZE, le_bytes 4 1);
   (OID_GEN_CURRENT_PACKET_FILTER, le_bytes 4 filter);
   (OID_GEN_XMIT_OK, le_bytes 4 0); (OID_GEN_RCV_OK, le_bytes 4 0);
   (OID_GEN_XMIT_ERROR, le_bytes 4 0); (OID_GEN_RCV_ERROR, le_bytes 4 0);
   (OID_GEN_RCV_NO_BUFFER, le_bytes 4 0); (OID_802_3_RCV_ERROR_ALIGNMENT, le_bytes 4 0);
   (OID_802_3_XMIT_ONE_COLLISION, le_bytes 4 0); (OID_802_3_XMIT_MORE_COLLISIONS, le_bytes 4 0);
   (OID_GEN_MAXIMUM_TOTAL_SIZE, le_bytes 4 (size + 1500))].

Definition query_reply (id : Z) (info : option (list Z)) : list Z :=
  match info with
  | Some info =>
      let n := Z.of_nat (length info) in
      le32s [REMOTE_NDIS_QUERY_CMPLT; 24 + n; id; REMOTE_NDIS_STATUS_SUCCESS; n; 16] ++ info
  | None => le32s [REMOTE_NDIS_QUERY_CMPLT; 24; id; REMOTE_NDIS_STATUS_NOT_SUPPORTED; 0; 0]
  end.

Definition can_set (oid : Z) : bool := (oid =? OID_GEN_CURRENT_PACKET_FILTER) || (oid =? OID_802_3_MULTICAST_LIST).

(** The reply to a message, if there is one. *)
Definition reply (table : list (Z * list Z)) (type id oid : Z) : option (list Z) :=
  if type =? REMOTE_NDIS_INITIALIZE_MSG
  then Some (le32s [REMOTE_NDIS_INITIALIZE_CMPLT; 52; id; REMOTE_NDIS_STATUS_SUCCESS; 1; 0; 1; 0; 1; 1544; 0; 0; 0]) else
  if type =? REMOTE_NDIS_QUERY_MSG then Some (query_reply id (assoc oid table)) else
  if type =? REMOTE_NDIS_SET_MSG
  then Some (le32s [REMOTE_NDIS_SET_CMPLT; 16; id; if can_set oid then REMOTE_NDIS_STATUS_SUCCESS
                                               else REMOTE_NDIS_STATUS_NOT_SUPPORTED]) else
  if type =? REMOTE_NDIS_RESET_MSG then Some (le32s [REMOTE_NDIS_RESET_CMPLT; 16; REMOTE_NDIS_STATUS_SUCCESS; 0]) else
  if type =? REMOTE_NDIS_KEEPALIVE_MSG
  then Some (le32s [REMOTE_NDIS_KEEPALIVE_CMPLT; 16; id; REMOTE_NDIS_STATUS_SUCCESS]) else None.

(** The state of the adapter and its packet filter after a message; [off] is the
    state for a filter of zero. *)
Definition adapter_step (off type oid value : Z) (a : Z * Z) : Z * Z :=
  if type =? REMOTE_NDIS_INITIALIZE_MSG then (RNDIS_Initialized, a.2) else
  if type =? REMOTE_NDIS_HALT_MSG then (RNDIS_Uninitialized, a.2) else
  if (type =? REMOTE_NDIS_SET_MSG) && (oid =? OID_GEN_CURRENT_PACKET_FILTER)
  then (if truthy value then RNDIS_Data_Initialized else off, value) else a.

(** ** Steps *)

Lemma field_eq off s :
  0 <= off -> off + 4 <= Z.of_nat (length (RNDISMessageBuffer s)) ->
  field off s = Returns (field_of (RNDISMessageBuffer s) off, s).
Proof. intros. unfold field, message_bytes, mbind, st_bind. by rewrite peek_slice by lia. Qed.

Lemma nwp_field off b rr cs pf Q :
  0 <= off -> off + 4 <= Z.of_nat (length b) ->
  Q (field_of b off) (mk_rndis b rr cs pf) -> nwp (field off) (mk_rndis b rr cs pf) Q.
Proof.
  intros. unfold field, message_bytes. apply nwp_bind. unfold nwp at 1.
  cbn [RNDISMessageBuffer]. by rewrite peek_slice by lia.
Qed.

Lemma nwp_store off bs b rr cs pf (Q : unit -> rndis -> Prop) :
  0 <= off -> off + Z.of_nat (length bs) <= Z.of_nat (length b) ->
  Q tt (mk_rndis (splice off bs b) rr cs pf) -> nwp (store off bs) (mk_rndis b rr cs pf) Q.
Proof. intros. unfold store, nwp. cbn [RNDISMessageBuffer]. by rewrite poke_splice by lia. Qed.

Lemma nwp_set_field off v b rr cs pf (Q : unit -> rndis -> Prop) :
  0 <= off -> off + 4 <= Z.of_nat (length b) ->
  Q tt (mk_rndis (splice off (le_bytes 4 v) b) rr cs pf) -> nwp (set_field off v) (mk_rndis b rr cs pf) Q.
Proof. intros. apply nwp_store; [done|by rewrite length_le_bytes|done]. Qed.

Ltac rstep1 :=
  lazymatch goal with
  | |- nwp (_ ≫= _) _ _ => apply nwp_bind
  | |- nwp (mret _) _ _ => apply nwp_ret
  | |- nwp (reads _) _ _ => apply nwp_reads
  | |- nwp (modifies _) _ _ => apply nwp_modifies
  | |- nwp (field _) _ _ => apply nwp_field; [net_len..|]
  | |- nwp (store _ _) _ _ => apply nwp_store; [net_len..|]
  | |- nwp (set_field _ _) _ _ => apply nwp_set_field; [net_len..|]
  end; cbv beta iota zeta delta [set_ResponseReady set_CurrRNDISState set_CurrPacketFilter set_message
         RNDISMessageBuffer ResponseReady CurrRNDISState CurrPacketFilter].
Ltac rstep := autounfold with net; repeat rstep1.

(** A field of a buffer after writes to it, and copied to the reply. *)
Lemma le_bytes_field b off :
  Forall byte_ok b -> 0 <= off -> off + 4 <= Z.of_nat (length b) -> le_bytes 4 (field_of b off) = slice off 4 b.
Proof. apply le_bytes_slice4. Qed.

Lemma field_range b off : Forall byte_ok b -> 0 <= field_of b off < 2 ^ 32.
Proof.
  intros Hb. unfold field_of. pose proof (le_val_range (slice off 4 b) ltac:(by apply Forall_slice)) as Hv.
  assert (Z.of_nat (length (slice off 4 b)) <= 4) as Hl.
  { unfold slice. rewrite length_take. lia. }
  split; [lia|]. eapply Z.lt_le_trans; [apply Hv|]. change (2 ^ 32) with (256 ^ 4). apply Z.pow_le_mono_r; lia.
Qed.

Lemma le32s_cons v l : le32s (v :: l) = le_bytes 4 v ++ le32s l.
Proof. done. Qed.
Lemma le32s_nil : le32s [] = [].
Proof. done. Qed.
Lemma length_le32s l : Z.of_nat (length (le32s l)) = 4 * Z.of_nat (length l).
Proof. induction l as [|v l IH]; [done|]. rewrite le32s_cons, length_app, length_le_bytes. cbn [length]. lia. Qed.
Lemma le32s_ok l : Forall byte_ok (le32s l).
Proof. induction l; [constructor|]. rewrite le32s_cons. by apply Forall_app_2; [apply le_bytes_ok|]. Qed.

(** ** Queries *)

Section query.
Context (n : Z) (vendor mac : list Z).
Context (Hvendor : Forall byte_ok vendor) (Hmac : Forall byte_ok mac).

Abbreviation table filter := (info_table n vendor mac filter).

Lemma table_bytes oid filter info : assoc oid (table filter) = Some info -> Forall byte_ok info.
Proof.
  unfold info_table. cbn [assoc].
  repeat case_match; intros; simplify_eq; try done; try apply le_bytes_ok. apply le32s_ok.
Qed.

Lemma process_query_spec oid b rr cs pf (Q : option Z -> rndis -> Prop) :
  (forall info, assoc oid (table pf) = Some info -> 24 + Z.of_nat (length info) <= Z.of_nat (length b)) ->
  24 + 4 <= Z.of_nat (length b) -> Z.of_nat (length b) < 65536 ->
  match assoc oid (table pf) with
  | Some info => Q (Some (Z.of_nat (length info))) (mk_rndis (splice 24 info b) rr cs pf)
  | None => Q None (mk_rndis b rr cs pf)
  end ->
  nwp (process_query n vendor mac oid 24) (mk_rndis b rr cs pf) Q.
Proof.
  intros Hfit Hb Hl. unfold process_query.
  assert (forall info, assoc oid (table pf) = Some info -> Q (Some (Z.of_nat (length info))) (mk_rndis (splice 24 info b) rr cs pf) ->
    nwp (respond 24 info) (mk_rndis b rr cs pf) Q) as Hr.
  { intros info E HQ. pose proof (Hfit info E). unfold respond. apply nwp_bind, nwp_store; [lia..|].
    apply nwp_ret. by rewrite u16_small by lia. }
  assert (forall v, Q (Some 4) (mk_rndis (splice 24 (le_bytes 4 v) b) rr cs pf) ->
    nwp (respond32 24 v) (mk_rndis b rr cs pf) Q) as Hr32.
  { intros v HQ. unfold respond32. apply nwp_bind, nwp_set_field; [lia..|]. by apply nwp_ret. }
  intros HQ.
  repeat match goal with
  | |- nwp (if ?e then _ else _) _ _ =>
      match e with context [oid =? ?c] => destruct (oid =? c) eqn:?; cbn [orb] end
  end;
  repeat match goal with H : (oid =? _) = true |- _ => apply Z.eqb_eq in H; subst oid end;
  lazymatch goal with
  | |- nwp (respond _ _) _ _ => apply Hr; [reflexivity|exact HQ]
  | |- nwp (respond32 _ _) _ _ => apply Hr32; exact HQ
  | |- nwp (_ ≫= _) _ _ => apply nwp_bind, nwp_reads, Hr32; exact HQ
  | _ => idtac
  end.
  apply nwp_ret. unfold info_table in HQ. cbn [assoc] in HQ.
  repeat match goal with H : (oid =? ?c) = false |- _ => rewrite H in HQ; clear H end. exact HQ.
Qed.
End query.

(** ** Messages *)

(** The parts of the message in the buffer. *)
Abbreviation m_type s := (field_of (RNDISMessageBuffer s) 0).
Abbreviation m_id s := (field_of (RNDISMessageBuffer s) 8).
Abbreviation m_oid s := (field_of (RNDISMessageBuffer s) 12).
Abbreviation m_value s := (field_of (RNDISMessageBuffer s) (8 + field_of (RNDISMessageBuffer s) 20)).

(** A message whose reply fits the buffer of [n] bytes, and whose value, when it
    sets the packet filter, is inside it. *)
Definition message_fits (n : Z) (table : list (Z * list Z)) (s : rndis) : Prop :=
  (m_type s = REMOTE_NDIS_QUERY_MSG -> forall info, assoc (m_oid s) table = Some info ->
     24 + Z.of_nat (length info) <= n) /\
  (m_type s = REMOTE_NDIS_SET_MSG -> m_oid s = OID_GEN_CURRENT_PACKET_FILTER ->
     12 + field_of (RNDISMessageBuffer s) 20 <= n).

(** [s'] is [s] after its message: the adapter has the state of [adapter_step], and
    the buffer holds the reply. *)
Definition processed (n off : Z) (table : list (Z * list Z)) (s s' : rndis) : Prop :=
  wf_rndis n s' /\
  (CurrRNDISState s', CurrPacketFilter s') =
    adapter_step off (m_type s) (m_oid s) (m_value s) (CurrRNDISState s, CurrPacketFilter s) /\
  match reply table (m_type s) (m_id s) (m_oid s) with
  | Some r => ResponseReady s' = true /\ slice 0 (Z.of_nat (length r)) (RNDISMessageBuffer s') = r
  | None => if m_type s =? REMOTE_NDIS_HALT_MSG
            then ResponseReady s' = false /\ field_of (RNDISMessageBuffer s') 4 = 0 else s' = s
  end.

(** The two handlers of SET differ in the state for a filter of zero. *)
Definition set_oid_with (off OId SetData : Z) : st rndis bool :=
  if OId =? OID_GEN_CURRENT_PACKET_FILTER then
    v ← field SetData;
    modifies (set_CurrPacketFilter v);;
    filter ← reads CurrPacketFilter;
    modifies (set_CurrRNDISState (if truthy filter then RNDIS_Data_Initialized else off));;
    mret true
  else if OId =? OID_802_3_MULTICAST_LIST then mret true
  else mret false.

(** The reply in the buffer after the writes of its fields. *)
Ltac reply_fields :=
  unfold field_of; rewrite ?le32s_cons, ?le32s_nil, ?app_nil_r, <- ?app_assoc; slices; copies;
  fields; try reflexivity; try (copies; reflexivity);
  try (rewrite ?length_le_bytes, length_slice by lia; reflexivity).

Lemma wf_splice n b' rr' cs' pf' :
  Z.of_nat (length b') = n -> Forall byte_ok b' -> 0 <= pf' < 2 ^ 32 -> wf_rndis n (mk_rndis b' rr' cs' pf').
Proof. by split. Qed.

(** Writes elsewhere. *)
Lemma field_splice off o bs d :
  0 <= o -> 0 <= off -> off + 4 <= o \/ o + Z.of_nat (length bs) <= off -> off + 4 <= Z.of_nat (length d) ->
  field_of (splice o bs d) off = field_of d off.
Proof. intros. unfold field_of. by rewrite slice_splice_ne by lia. Qed.
(** A field written back. *)
Lemma splice_field off d :
  Forall byte_ok d -> 0 <= off -> off + 4 <= Z.of_nat (length d) ->
  splice off (le_bytes 4 (field_of d off)) d = d.
Proof.
  intros Hd Ho Hl. rewrite le_bytes_field by done. apply list_eq. intros i.
  unfold splice. destruct (decide (Z.to_nat off <= i < Z.to_nat off + 4)%nat) as [Hi|Hi].
  - rewrite list_lookup_inserts by (try (pose proof (length_slice off 4 d); lia); lia).
    unfold slice. rewrite lookup_take, lookup_drop, decide_True by lia. f_equal. lia.
  - pose proof (length_slice off 4 d). destruct (decide (i < Z.to_nat off)%nat).
    + by rewrite list_lookup_inserts_lt by lia.
    + by rewrite list_lookup_inserts_ge by lia.
Qed.
(** A field read back. *)
Lemma field_same off v d :
  0 <= off -> off + 4 <= Z.of_nat (length d) -> field_of (splice off (le_bytes 4 v) d) off = u32 v.
Proof.
  intros. unfold field_of. rewrite (slice_splice_at off off 4) by net_len. apply le_val_bytes.
Qed.
Ltac keep_fields :=
  repeat first [rewrite field_splice by net_len | rewrite field_same by net_len].

(** The end of a message of the known type [E]. *)
Ltac message_open E :=
  unfold processed;
  cbv beta iota delta [RNDISMessageBuffer CurrRNDISState CurrPacketFilter ResponseReady];
  rewrite E; unfold reply, adapter_step;
  cbn -[le32s le_bytes field_of Z.of_nat length slice splice assoc can_set query_reply].
Ltac message_close := split_and!; [apply wf_splice; [net_len|bytes_ok|try done]|try done..].
Ltac message_done E := message_open E; message_close.

Section messages.
Context (n off : Z) (tbl : list (Z * list Z)).
Context (b : list Z) (rr : bool) (cs pf : Z).
Context (Hn : 52 <= n < 65536).
Context (W : wf_rndis n (mk_rndis b rr cs pf)).

Abbreviation s := (mk_rndis b rr cs pf).

Lemma initialize_spec : field_of b 0 = REMOTE_NDIS_INITIALIZE_MSG ->
  nwp on_initialize s (fun _ => processed n off tbl s).
Proof.
  destruct W as [Hl Hb Hf]. cbn in Hl, Hb, Hf. intros E. unfold on_initialize. rstep.
  message_done E. reply_fields.
Qed.

Lemma halt_spec : field_of b 0 = REMOTE_NDIS_HALT_MSG -> nwp on_halt s (fun _ => processed n off tbl s).
Proof.
  destruct W as [Hl Hb Hf]. cbn in Hl, Hb, Hf. intros E. unfold on_halt. rstep.
  message_done E. unfold field_of. by slices.
Qed.

Lemma reset_spec : field_of b 0 = REMOTE_NDIS_RESET_MSG -> nwp on_reset s (fun _ => processed n off tbl s).
Proof.
  destruct W as [Hl Hb Hf]. cbn in Hl, Hb, Hf. intros E. unfold on_reset. rstep.
  message_done E. reply_fields.
Qed.

Lemma keepalive_spec : field_of b 0 = REMOTE_NDIS_KEEPALIVE_MSG ->
  nwp on_keepalive s (fun _ => processed n off tbl s).
Proof.
  destruct W as [Hl Hb Hf]. cbn in Hl, Hb, Hf. intros E. unfold on_keepalive. rstep.
  message_done E. reply_fields.
Qed.

Lemma set_spec : message_fits n tbl s -> field_of b 0 = REMOTE_NDIS_SET_MSG ->
  nwp (on_set (set_oid_with off)) s (fun _ => processed n off tbl s).
Proof.
  destruct W as [Hl Hb Hf]. cbn in Hl, Hb, Hf. intros [_ Hfit] E. cbn in Hfit. specialize (Hfit E).
  pose proof (field_range b 20 Hb) as H20.
  unfold on_set. rstep. unfold set_oid_with.
  destruct (field_of b 12 =? OID_GEN_CURRENT_PACKET_FILTER) eqn:Eo.
  - specialize (Hfit (proj1 (Z.eqb_eq _ _) Eo)).
    rewrite splice_field by (bytes_ok || net_len). keep_fields. rewrite u32_small by lia. rstep. keep_fields.
    message_open E. unfold can_set. rewrite Eo. cbn [orb andb]. message_close.
    + by apply field_range.
    + reply_fields.
  - destruct (field_of b 12 =? OID_802_3_MULTICAST_LIST) eqn:Em; rstep;
      message_open E; unfold can_set; rewrite Eo, Em; cbn [orb andb]; message_close; reply_fields.
Qed.

(** What a QUERY handler does. *)
Definition query_handler (table : list (Z * list Z)) (q : st rndis unit) : Prop :=
  message_fits n table s -> field_of b 0 = REMOTE_NDIS_QUERY_MSG -> nwp q s (fun _ => processed n off table s).

Lemma dispatch_spec q :
  query_handler tbl q -> message_fits n tbl s -> nwp (dispatch q (set_oid_with off)) s (fun _ => processed n off tbl s).
Proof.
  intros Hq Hfit. destruct W as [Hl Hb Hf]. cbn in Hl, Hb, Hf. unfold dispatch. rstep.
  destruct (field_of b 0 =? REMOTE_NDIS_INITIALIZE_MSG) eqn:E1; [by apply initialize_spec, Z.eqb_eq|].
  destruct (field_of b 0 =? REMOTE_NDIS_HALT_MSG) eqn:E2; [by apply halt_spec, Z.eqb_eq|].
  destruct (field_of b 0 =? REMOTE_NDIS_QUERY_MSG) eqn:E3; [by apply Hq; [|apply Z.eqb_eq]|].
  destruct (field_of b 0 =? REMOTE_NDIS_SET_MSG) eqn:E4; [by apply set_spec; [|apply Z.eqb_eq]|].
  destruct (field_of b 0 =? REMOTE_NDIS_RESET_MSG) eqn:E5; [by apply reset_spec, Z.eqb_eq|].
  destruct (field_of b 0 =? REMOTE_NDIS_KEEPALIVE_MSG) eqn:E6; [by apply keepalive_spec, Z.eqb_eq|].
  rstep. unfold processed, reply, adapter_step.
  cbv beta iota delta [RNDISMessageBuffer CurrRNDISState CurrPacketFilter ResponseReady].
  by rewrite E1, E2, E3, E4, E5, E6.
Qed.
End messages.

(** The end of a query: the information of [Ea], the reply around it. *)
Ltac query_end E Hfit Hbytes :=
  let info := fresh "info" in let Ea := fresh "Ea" in
  destruct (assoc _ _) as [info|] eqn:Ea;
  [specialize (Hfit info eq_refl); specialize (Hbytes info eq_refl)|];
  rstep; keep_fields; change (u32 24) with 24; rewrite ?u32_small by lia; message_open E; rewrite Ea; message_close;
  unfold query_reply; cbv zeta; reply_fields.

Section handlers.
Context (off n : Z) (b : list Z) (rr : bool) (cs pf : Z).
Context (Hn : 52 <= n < 65536).
Context (W : wf_rndis n (mk_rndis b rr cs pf)).

Abbreviation s := (mk_rndis b rr cs pf).

Lemma driver_query_spec description mac :
  Forall byte_ok description -> Forall byte_ok mac ->
  query_handler n off b rr cs pf (info_table RNDIS_MESSAGE_BUFFER_SIZE (description ++ [0]) mac pf)
    (RNDIS_Device_query description mac).
Proof.
  intros Hd Hm [Hfit _] E. cbn [RNDISMessageBuffer] in Hfit. specialize (Hfit E).
  assert (Forall byte_ok (description ++ [0])) as Hv by (apply Forall_app_2; [done|list_ok]).
  destruct W as [Hl Hb Hf]. cbn in Hl, Hb, Hf. unfold RNDIS_Device_query, RNDIS_Device_ProcessNDISQuery. rstep.
  pose proof (table_bytes RNDIS_MESSAGE_BUFFER_SIZE (description ++ [0]) mac Hv Hm (field_of b 12) pf) as Hbytes.
  apply process_query_spec; [|net_len..|].
  { intros info Hi. specialize (Hfit info Hi). net_len. }
  query_end E Hfit Hbytes.
Qed.

Lemma demo_query_spec :
  query_handler n off b rr cs pf (info_table demo_BufferSize demo_VendorDescription demo_MACAddress pf) demo_query.
Proof.
  intros [Hfit _] E. cbn [RNDISMessageBuffer] in Hfit. specialize (Hfit E).
  destruct W as [Hl Hb Hf]. cbn in Hl, Hb, Hf. unfold demo_query, ProcessNDISQuery. rstep.
  pose proof (table_bytes demo_BufferSize demo_VendorDescription demo_MACAddress
                ltac:(list_ok) ltac:(list_ok) (field_of b 12) pf) as Hbytes.
  apply process_query_spec; [|net_len..|].
  { intros info Hi. specialize (Hfit info Hi). net_len. }
  query_end E Hfit Hbytes.
Qed.
End handlers.

(** ** The class driver and the demo *)


Lemma demo_table_fits filter oid info :
  assoc oid (info_table demo_BufferSize demo_VendorDescription demo_MACAddress filter) = Some info ->
  24 + Z.of_nat (length info) <= demo_BufferSize.
Proof.
  unfold info_table. cbn [assoc].
  repeat case_match; intros; simplify_eq; rewrite ?length_le_bytes, ?length_le32s; done.
Qed.

(** The demo answers every query: its buffer has room for the longest reply,
    the list of supported OIDs.  A message is only unsafe when it sets the packet
    filter from outside the buffer. *)
Theorem demo_message_answered s :
  let table := info_table demo_BufferSize demo_VendorDescription demo_MACAddress (CurrPacketFilter s) in
  wf_rndis demo_BufferSize s ->
  (m_type s = REMOTE_NDIS_SET_MSG -> m_oid s = OID_GEN_CURRENT_PACKET_FILTER ->
   12 + field_of (RNDISMessageBuffer s) 20 <= demo_BufferSize) ->
  exists s', ProcessRNDISControlMessage s = Returns (tt, s') /\
    processed demo_BufferSize RNDIS_Data_Initialized table s s'.
Proof.
  destruct s as [b rr cs pf]. intros table W Hset.
  assert (52 <= demo_BufferSize < 65536) as Hn by done.
  assert (message_fits demo_BufferSize table (mk_rndis b rr cs pf)) as Hfit.
  { split; [|done]. intros _ info. apply demo_table_fits. }
  pose proof (dispatch_spec _ RNDIS_Data_Initialized table b rr cs pf Hn W _
    (demo_query_spec RNDIS_Data_Initialized _ b rr cs pf Hn W) Hfit) as H.
  apply nwp_returns in H as ([] & s' & E & H). by exists s'.
Qed.

(** The class driver's buffer has 128 bytes, but the reply to a query for the
    list of supported OIDs has 132: the copy of the list leaves the buffer. *)
Theorem supported_list_overflow description mac s :
  wf_rndis RNDIS_MESSAGE_BUFFER_SIZE s -> m_type s = REMOTE_NDIS_QUERY_MSG -> m_oid s = OID_GEN_SUPPORTED_LIST ->
  RNDIS_Device_ProcessRNDISControlMessage description mac s = Faults.
Proof.
  destruct s as [b rr cs pf]. intros [Hl Hb Hf] Et Eo. cbn [RNDISMessageBuffer] in Hl, Hb, Et, Eo.
  unfold RNDIS_MESSAGE_BUFFER_SIZE in Hl.
  unfold RNDIS_Device_ProcessRNDISControlMessage, dispatch. apply faults_bind. rstep. rewrite Et. cbn.
  unfold RNDIS_Device_query. apply faults_bind. rstep. apply faults_bind. rstep. apply faults_bind. rstep.
  rewrite Eo. apply faults_left. apply faults_left. unfold store. cbn [RNDISMessageBuffer].
  rewrite poke_out; [done|]. rewrite length_le32s, length_splice, Hl. done.
Qed.
