(* ===== verification/RNDISDeviceSpec.v ===== *)
(** * RNDIS packets on the wire

    What the packet operations of the class driver and the tasks of the demo send
    to the host and take from it, and that they keep the buffers well formed for
    every host. *)
From S2P Require Import Prelude ConfigDescriptors USBIo Endpoint EndpointSpec ControlStream DeviceRequests HIDDevice NetBuffers TCP EthernetStack NetLemmas EthernetSpec RNDIS RNDISSpec RNDISDevice.

(** ** Packets *)

Lemma packet_header_bytes n : Forall is_byte (packet_header n).
Proof. apply Forall_app_2; [apply le32s_ok|by apply Forall_replicate]. Qed.

Lemma length_packet_header n : length (packet_header n) = 44%nat.
Proof. done. Qed.

Lemma packet_header_length n : 0 <= n < 2 ^ 32 -> field_of (packet_header n) 12 = n.
Proof.
  intros Hn. change (field_of (packet_header n) 12) with (le_val (le_bytes 4 n)).
  rewrite le_val_bytes. apply Z.mod_small. done.
Qed.

(** The fuel for a packet: two rounds a byte of the longest frame. *)
Definition packet_fuel : nat := 3001.

Section packets.
Context (h : hw) (fuel : nat) (Hfuel : (packet_fuel <= fuel)%nat).

Lemma write_packet_sends buf n t :
  cooperative h c_ClearIN -> Forall is_byte buf -> 0 <= n <= 1500 -> n <= Z.of_nat (length buf) ->
  wp true h (write_packet fuel buf n) t (fun _ s =>
    sent s = packet_header n ++ take (Z.to_nat n) buf /\ received s = []).
Proof.
  unfold packet_fuel in Hfuel. intros Hco Hb Hn Hl. unfold write_packet. wp_step.
  eapply wp_mono; [apply write_completes; auto using packet_header_bytes; rewrite ?length_packet_header; autounfold with net; lia|].
  intros r1 s1 (_ & R1 & S1). cbn beta. wp_step.
  eapply wp_mono; [apply write_completes; auto; lia|]. intros r2 s2 (_ & R2 & S2). cbn beta.
  repeat wp_step. rewrite !sent_app, !received_app, S1, S2, R1, R2, app_nil_r. done.
Qed.

(** What a packet leaves: nothing after a stall, else the frame. *)
Definition packet_read (buf : list Z) (r : option (Z * list Z)) (s : list event) : Prop :=
  sent s = [] /\ exists hd data, received s = hd ++ data /\ length hd = 44%nat /\
    if 1500 <? field_of hd 12 then r = None /\ data = []
    else Z.of_nat (length data) = field_of hd 12 /\
         r = Some (field_of hd 12, data ++ drop (length data) buf).

Lemma read_packet_reads header buf t :
  cooperative h c_ClearOUT -> length header = 44%nat -> 1500 <= Z.of_nat (length buf) ->
  wp true h (read_packet fuel header buf) t (packet_read buf).
Proof.
  unfold packet_fuel in Hfuel. intros Hco Hh Hl. unfold read_packet. wp_step.
  eapply wp_mono; [apply read_completes; [done|autounfold with net; rewrite ?Hh; lia..]|].
  intros [[? ?] ?] s1 (E & S1 & L1). simplify_eq. autounfold with net in *. cbn beta iota.
  rewrite drop_ge, app_nil_r by lia. wp_step. wp_step.
  { apply (peek_slice 12 4); lia. }
  change (le_val (slice 12 4 (received s1))) with (field_of (received s1) 12). cbv zeta. wp_step; wp_step.
  - repeat wp_step. unfold packet_read. rewrite ?sent_app, ?received_app, S1. split; [done|].
    exists (received s1), []. cbn. unfold ETHERNET_FRAME_SIZE_MAX in *. rewrite H. split_and!; auto. lia.
  - unfold ETHERNET_FRAME_SIZE_MAX in *. pose proof (field_range _ 12 (received_bytes s1)) as Hr.
    bprop. rewrite u16_small by lia.
    eapply wp_mono; [apply read_completes; [done|lia..]|].
    intros [[? ?] ?] s2 (E2 & S2 & L2). simplify_eq. cbn beta iota. repeat wp_step.
    unfold packet_read. rewrite !sent_app, !received_app, S1, S2. split; [done|].
    exists (received s1), (received s2). cbn. rewrite !app_nil_r. rewrite (proj2 (Z.ltb_ge _ _)) by lia.
    split_and!; [done|lia|done|]. by replace (Z.to_nat (field_of (received s1) 12)) with (length (received s2)) by lia.
Qed.
End packets.

(** A packet message from the host. *)
Definition message (data : list Z) : list Z := packet_header (Z.of_nat (length data)) ++ data.

Lemma message_bytes_ok data : Forall is_byte data -> Forall is_byte (message data).
Proof. intros. apply Forall_app_2; [apply packet_header_bytes|done]. Qed.

Lemma delivers_app h t s B : delivers h t B -> received s = [] -> delivers h (t ++ s) B.
Proof. intros Hd Hs s'. rewrite <- app_assoc, Hd, received_app, Hs. done. Qed.

Lemma packet_delivered h t s buf q data :
  valid h t s -> delivers h t (message data) -> Forall is_byte data -> Z.of_nat (length data) <= 1500 ->
  packet_read buf q s -> q = Some (Z.of_nat (length data), data ++ drop (length data) buf).
Proof.
  intros Hv Hdel Hd Hl (_ & hd & data' & R & Lh & Hq). pose proof (message_bytes_ok data Hd) as HB.
  unfold message in *. set (n := Z.of_nat (length data)) in *.
  assert (hd = packet_header n) as ->.
  { pose proof (delivered _ _ _ _ 44 Hv Hdel HB) as Hk. rewrite R, length_app in Hk.
    rewrite !take_app_length' in Hk by done. apply Hk; [lia|]. rewrite length_app, length_packet_header. lia. }
  rewrite packet_header_length, (proj2 (Z.ltb_ge _ _)) in Hq by lia. destruct Hq as [Ld ->].
  pose proof (delivered _ _ _ _ (44 + length data) Hv Hdel HB) as Hk.
  rewrite R, !length_app, length_packet_header in Hk. specialize (Hk ltac:(lia) ltac:(lia)).
  rewrite !take_app_add', !take_ge in Hk by (done || lia). by apply app_inv_head in Hk as ->.
Qed.

(** The adapter may move frames. *)
Definition data_on (i : USB_ClassInfo_RNDIS_Device_t) : Prop :=
  CurrRNDISState (rndis_State i) = RNDIS_Data_Initialized.

Lemma wp_data_ready h i t (Q : bool -> list event -> Prop) :
  configured h -> data_on i -> (forall a, Q true [Ask q_DeviceState a]) -> wp true h (data_ready i) t Q.
Proof.
  intros Hc Hd HQ. unfold data_ready. repeat wp_step. rewrite Hc in H. subst a. rewrite Hd. apply HQ.
Qed.

Lemma send_packet_sends h fuel i buf n t :
  cooperative h c_ClearIN -> configured h -> data_on i -> (packet_fuel <= fuel)%nat ->
  Forall is_byte buf -> 0 <= n <= 1500 -> n <= Z.of_nat (length buf) ->
  wp true h (RNDIS_Device_SendPacket fuel i buf n) t (fun r s =>
    r = ENDPOINT_RWSTREAM_NoError /\ sent s = packet_header n ++ take (Z.to_nat n) buf).
Proof.
  intros Hco Hc On Hf Hb Hn Hl. unfold RNDIS_Device_SendPacket. wp_step.
  apply wp_data_ready; [done..|]. intros a. cbn [negb]. repeat wp_step.
  eapply wp_mono; [apply wait_ready_now; [apply Hco|unfold packet_fuel in Hf; lia]|].
  intros code s [-> Hs]. cbn beta. wp_step; [done|]. wp_step.
  eapply wp_mono; [by apply write_packet_sends|]. intros _ s' [E _]. cbn beta. wp_step.
  split; [done|]. rewrite app_nil_r, !sent_app, E, (silent_sent s Hs). done.
Qed.

Lemma read_packet_device h fuel ind i buf p t :
  cooperative h c_ClearOUT -> configured h -> data_on i -> (packet_fuel <= fuel)%nat ->
  (forall k, length (ind k) = k) -> 1500 <= Z.of_nat (length buf) ->
  wp true h (RNDIS_Device_ReadPacket fuel ind i buf p) t (fun r s =>
    exists q, packet_read buf q s /\ r = match q with
      | Some (n, buf') => (ENDPOINT_RWSTREAM_NoError, buf', n)
      | None => (RNDIS_ERROR_LOGICAL_CMD_FAILED, buf, 0)
      end).
Proof.
  intros Hco Hc On Hf Hind Hl. unfold RNDIS_Device_ReadPacket. wp_step.
  apply wp_data_ready; [done..|]. intros a. cbn [negb]. repeat wp_step.
  - exfalso. destruct Hco as [Hr _]. bprop. subst. by eapply (proj2 (Hr _)).
  - eapply wp_mono; [apply read_packet_reads; [done..| |done]; apply Hind|].
    intros q s Hq. cbn beta. destruct q as [[n buf']|]; wp_step; rewrite app_nil_r.
    + by exists (Some (n, buf')).
    + by exists None.
Qed.

(** C35: a frame that [RNDIS_Device_SendPacket] sends is the frame that
    [RNDIS_Device_ReadPacket] reads from the same bytes: with hosts that keep up,
    both operations return without an error, the bytes on the wire are the packet
    header and the frame, and reading them gives the length and the bytes of the
    frame and leaves the rest of the buffer alone. *)
Theorem packet_round_trip h1 h2 fuel ind i1 i2 buf1 buf2 n p t1 t2 :
  cooperative h1 c_ClearIN -> cooperative h2 c_ClearOUT -> configured h1 -> configured h2 ->
  data_on i1 -> data_on i2 -> (packet_fuel <= fuel)%nat -> (forall k, length (ind k) = k) ->
  Forall is_byte buf1 -> 0 <= n <= ETHERNET_FRAME_SIZE_MAX -> n <= Z.of_nat (length buf1) ->
  ETHERNET_FRAME_SIZE_MAX <= Z.of_nat (length buf2) ->
  exists s1, RNDIS_Device_SendPacket fuel i1 buf1 n h1 t1 = Returns (ENDPOINT_RWSTREAM_NoError, t1 ++ s1) /\
    sent s1 = packet_header n ++ take (Z.to_nat n) buf1 /\
    (delivers h2 t2 (sent s1) ->
     exists buf s2, RNDIS_Device_ReadPacket fuel ind i2 buf2 p h2 t2 =
         Returns ((ENDPOINT_RWSTREAM_NoError, buf, n), t2 ++ s2) /\
       buf = take (Z.to_nat n) buf1 ++ drop (Z.to_nat n) buf2).
Proof.
  unfold ETHERNET_FRAME_SIZE_MAX. intros Hc1 Hc2 Hd1 Hd2 On1 On2 Hf Hind Hb Hn Hl1 Hl2.
  destruct (wp_total _ _ _ _ (send_packet_sends h1 fuel i1 buf1 n t1 Hc1 Hd1 On1 Hf Hb Hn Hl1)) as (r & s1 & E1 & -> & S1).
  exists s1. split_and!; [done..|]. intros Hdel.
  assert (length (take (Z.to_nat n) buf1) = Z.to_nat n) as Ln by (rewrite length_take; lia).
  assert (sent s1 = message (take (Z.to_nat n) buf1)) as Em by (unfold message; by rewrite S1, Ln, Z2Nat.id by lia).
  rewrite Em in Hdel.
  destruct (wp_total _ _ _ _ (wp_valid _ _ _ _ _ (read_packet_device h2 fuel ind i2 buf2 p t2 Hc2 Hd2 On2 Hf Hind Hl2)))
    as (r & s2 & E2 & (q & Hq & ->) & Hv).
  apply (packet_delivered _ _ _ _ _ _ Hv Hdel) in Hq; [|by apply Forall_take|rewrite Ln; lia].
  rewrite Hq, Ln, Z2Nat.id in E2 by lia. eauto.
Qed.

(** ** The tasks of the demo, with any host *)

Section any_host.
Context (h : hw) (fuel : nat).

(** A read stream keeps the length of the buffer, and stores bytes. *)
Lemma read_stream_wf buf n t :
  0 <= n < 65536 -> n <= Z.of_nat (length buf) -> Forall is_byte buf ->
  wp false h (Endpoint_Read_Stream_LE fuel buf n None) t (fun r _ =>
    length r.1.2 = length buf /\ Forall is_byte r.1.2).
Proof.
  intros Hn Hl Hb. eapply wp_mono; [apply read_le_ok; [done..|unfold valid_start; cbn; lia]|].
  intros [[code buf'] bp'] s (_ & -> & (Hk & _)). cbn in Hk. cbn [fst snd start default].
  split.
  - rewrite !length_app, length_take, length_drop. cbn. lia.
  - repeat apply Forall_app_2; [by apply Forall_take|apply received_bytes|by apply Forall_drop].
Qed.

Lemma write_stream_runs buf n t :
  0 <= n < 65536 -> n <= Z.of_nat (length buf) -> Forall is_byte buf ->
  wp false h (Endpoint_Write_Stream_LE fuel buf n None) t (fun _ _ => True).
Proof.
  intros. eapply wp_mono; [apply write_le_ok; [done..|unfold valid_start; cbn; lia|done]|]. done.
Qed.

Lemma read_packet_wf header buf t :
  length header = 44%nat -> Forall is_byte header -> 1500 <= Z.of_nat (length buf) -> Forall is_byte buf ->
  wp false h (read_packet fuel header buf) t (fun r _ => match r with
    | Some (n, buf') => 0 <= n <= 1500 /\ length buf' = length buf /\ Forall is_byte buf'
    | None => True
    end).
Proof.
  intros Hh Hhb Hl Hb. unfold read_packet. wp_step.
  eapply wp_mono; [apply read_stream_wf; [autounfold with net; rewrite ?Hh; lia..|done]|].
  intros [[? header'] ?] s1 [L1 B1]. cbn in L1, B1. cbn beta iota. wp_step. wp_step.
  { apply (peek_slice pkt_DataLength 4); autounfold with net; lia. }
  cbv zeta. pose proof (field_range header' 12 B1) as Hr. unfold field_of in Hr.
  unfold pkt_DataLength, ETHERNET_FRAME_SIZE_MAX. wp_step; [repeat wp_step; done|].
  bprop. rewrite u16_small by lia. wp_step. eapply wp_mono; [apply read_stream_wf; [lia..|done]|].
  intros [[? buf'] ?] s2 [L2 B2]. cbn in L2, B2. cbn beta iota. repeat wp_step. split_and!; done || lia.
Qed.

Lemma write_packet_runs buf n t :
  0 <= n <= 1500 -> n <= Z.of_nat (length buf) -> Forall is_byte buf ->
  wp false h (write_packet fuel buf n) t (fun _ _ => True).
Proof.
  intros. unfold write_packet. wp_step.
  eapply wp_mono; [apply write_stream_runs; auto using packet_header_bytes; autounfold with net; rewrite ?length_packet_header; lia|].
  intros. wp_step. eapply wp_mono; [apply write_stream_runs; done || lia|]. intros. by repeat wp_step.
Qed.

Lemma notify_spec address s t :
  wp false h (notify fuel address s) t (fun s' _ => exists r, s' = set_ResponseReady r s).
Proof.
  unfold notify. repeat wp_step.
  - eapply wp_mono; [apply write_stream_runs; [lia|done|]|]; [|intros; repeat wp_step; eauto].
    repeat constructor; done.
  - exists (ResponseReady s). by destruct s.
Qed.
End any_host.

(** The buffers of the demo are well formed, and so are the frames in them. *)
Record demo_ok {A} (g : demo A) : Prop := {
  ok_rndis : wf_rndis demo_BufferSize (Rndis g);
  ok_frames : wf_frames (Net g);
  ok_in : 0 <= FrameLength (FrameIN (Net g)) <= ETHERNET_FRAME_SIZE_MAX;
  ok_out : 0 <= FrameLength (FrameOUT (Net g)) <= ETHERNET_FRAME_SIZE_MAX }.

Section demo.
Context {A : Type} (h : hw) (fuel : nat) (ind : nat -> list Z).
Context (Hind : forall k, length (ind k) = k /\ Forall is_byte (ind k)).
Implicit Types (g : demo A) (n : net A).

(** The frame buffers of [n]. *)
Definition frames_ok n : Prop :=
  wf_frames n /\ 0 <= FrameLength (FrameIN n) <= 1500 /\ 0 <= FrameLength (FrameOUT n) <= 1500.

(** [n'] has the tables of [n]. *)
Definition same_tables n n' : Prop :=
  ConnectionStateTable n' = ConnectionStateTable n /\ PortStateTable n' = PortStateTable n.

Lemma receive_frame_safe n t :
  frames_ok n ->
  wp false h (receive_frame fuel ind n) t (fun r _ =>
    match r with Some n' => frames_ok n' /\ same_tables n n' | None => True end).
Proof.
  intros (W & Hi & Ho). pose proof W as [L1 L2 B1 B2]. unfold receive_frame. repeat wp_step.
  - destruct (Hind (Z.to_nat sizeof_RNDIS_Packet_Message_t)) as [Hl Hb].
    eapply wp_mono; [apply read_packet_wf; [done..|lia|done]|].
    intros [[len data]|] s Hq; [destruct Hq as (Hn & Hd & Hdb); wp_step|by wp_step].
    split; [|done]. repeat split; cbn; try done; lia.
  - split; [exact (conj W (conj Hi Ho))|by split].
Qed.

Lemma transmit_frame_safe n t :
  frames_ok n -> wp false h (transmit_frame fuel n) t (fun n' _ => frames_ok n' /\ same_tables n n').
Proof.
  intros (W & Hi & Ho). pose proof W as [L1 L2 B1 B2]. unfold transmit_frame. repeat wp_step.
  - eapply wp_mono; [apply write_packet_runs; [lia..|done]|]. intros. wp_step. split; [|by split].
    split; [by split|]. cbn. lia.
  - split; [exact (conj W (conj Hi Ho))|by split].
Qed.

(** C36: whatever the host does and sends, moving frames between the endpoints and
    the buffers makes no access outside them, keeps them well formed (so that no
    frame is ever longer than its buffer), and leaves the tables of the network stack
    and the state of the adapter alone. *)
Theorem rndis_task_safe g t :
  demo_ok g ->
  wp false h (RNDIS_Task fuel ind g) t (fun g' _ =>
    demo_ok g' /\ CurrRNDISState (Rndis g') = CurrRNDISState (Rndis g) /\
    ConnectionStateTable (Net g') = ConnectionStateTable (Net g) /\
    PortStateTable (Net g') = PortStateTable (Net g)).
Proof.
  destruct g as [[b rr cs pf] n]. intros [[Hl Hb Hp] Hf Hi Ho]. cbn [Rndis Net RNDISMessageBuffer] in *.
  unfold RNDIS_Task. wp_step. eapply wp_mono; [apply notify_spec|]. intros s1 t1 [r ->].
  cbn [set_ResponseReady RNDISMessageBuffer Rndis Net CurrRNDISState].
  assert (frames_ok n) as Hn by done.
  assert (wf_rndis demo_BufferSize (mk_rndis b r cs pf)) as Wr by done.
  assert (forall n', frames_ok n' -> same_tables n n' -> demo_ok (mk_demo (mk_rndis b r cs pf) n') /\
    cs = cs /\ ConnectionStateTable n' = ConnectionStateTable n /\
    PortStateTable n' = PortStateTable n) as Hok by (intros n' (? & ? & ?) (? & ?); done).
  wp_step. eapply wp_pure; [by apply (field_eq 4); cbn; [|rewrite Hl]|]. cbn beta iota. wp_step; [|by wp_step; apply Hok].
  wp_step. eapply wp_mono; [by apply receive_frame_safe|]. intros [n'|] t2; [|intros _; wp_step; by apply Hok].
  intros [Hn' [Ht1 Ht2]]. wp_step. eapply wp_mono; [by apply transmit_frame_safe|]. intros n2 t3 [Hn2 [Hs1 Hs2]].
  wp_step. apply (Hok n2); [done|]. split; [by rewrite Hs1|by rewrite Hs2].
Qed.

(** ** The tasks of the demo, with a host that keeps up *)

Lemma receive_frame_reads n t :
  cooperative h c_ClearOUT -> (packet_fuel <= fuel)%nat -> wf_frames n -> FrameLength (FrameIN n) = 0 ->
  wp true h (receive_frame fuel ind n) t (fun r s => exists q, packet_read (in_data n) q s /\
    r = match q with
        | Some (len, data) => Some (set_FrameIN {| FrameData := data; FrameLength := len |} n)
        | None => None
        end).
Proof.
  intros Hco Hf W Hz. pose proof W as [L1 _ _ _]. unfold receive_frame. rewrite Hz. repeat wp_step.
  - eapply wp_mono; [apply read_packet_reads; [done..| |lia]; apply Hind|]. intros q s Hq. cbn beta.
    destruct q as [[len data]|]; wp_step; rewrite app_nil_r; [by exists (Some (len, data))|by exists None].
  - exfalso. destruct Hco as [Hr _]. rewrite andb_true_r in H0. apply truthy_eq in H0. subst.
    by eapply (proj2 (Hr _)).
Qed.

Lemma transmit_frame_sends n t :
  cooperative h c_ClearIN -> (packet_fuel <= fuel)%nat -> wf_frames n -> 0 < FrameLength (FrameOUT n) <= 1500 ->
  wp true h (transmit_frame fuel n) t (fun n' s =>
    n' = set_FrameOUT {| FrameData := out_data n; FrameLength := 0 |} n /\ received s = [] /\
    sent s = packet_header (FrameLength (FrameOUT n)) ++ slice 0 (FrameLength (FrameOUT n)) (out_data n)).
Proof.
  intros Hco Hf W Hn. pose proof W as [_ L2 _ B2]. unfold transmit_frame. repeat wp_step.
  - eapply wp_mono; [apply write_packet_sends; [done|done|done|lia|lia]|]. intros _ s [E R]. cbn beta. wp_step.
    rewrite app_nil_r. split_and!; done.
  - exfalso. destruct Hco as [Hr _]. unfold truthy in H0 at 2. rewrite (proj2 (Z.eqb_neq _ _)), andb_true_r in H0 by lia.
    apply truthy_eq in H0. subst. by eapply (proj1 (Hr _)).
Qed.

(** The adapter is ready to move frames, and no reply or notification is due. *)
Definition idle (s : rndis) : Prop :=
  CurrRNDISState s = RNDIS_Data_Initialized /\ field_of (RNDISMessageBuffer s) 4 = 0 /\ ResponseReady s = false.

Lemma rndis_task_exchange g t data :
  cooperative h c_ClearIN -> cooperative h c_ClearOUT -> (packet_fuel <= fuel)%nat ->
  demo_ok g -> idle (Rndis g) -> FrameLength (FrameIN (Net g)) = 0 -> 0 < FrameLength (FrameOUT (Net g)) ->
  delivers h t (message data) -> Forall is_byte data -> Z.of_nat (length data) <= 1500 ->
  wp true h (RNDIS_Task fuel ind g) t (fun g' s =>
    sent s = message (slice 0 (FrameLength (FrameOUT (Net g))) (out_data (Net g))) /\
    FrameLength (FrameOUT (Net g')) = 0 /\
    FrameIN (Net g') = {| FrameData := data ++ drop (length data) (in_data (Net g));
                          FrameLength := Z.of_nat (length data) |}).
Proof.
  destruct g as [[b rr cs pf] n]. intros Hin Hout Hf [[Hl _ _] W _ Ho] (E1 & E2 & E3) Hz Hp Hdel Hd Hld.
  cbn [Rndis Net RNDISMessageBuffer CurrRNDISState ResponseReady] in *. subst cs rr.
  unfold RNDIS_Task, notify. repeat wp_step; [by rewrite andb_false_r in *|].
  eapply wp_pure; [by apply (field_eq 4); cbn; [|rewrite Hl]|]. cbn beta iota.
  cbn [Rndis Net RNDISMessageBuffer CurrRNDISState]. rewrite E2. change (_ && _) with true. cbn beta iota.
  wp_step. eapply wp_mono; [apply wp_valid, receive_frame_reads; done|].
  intros r s1 [(q & Hq & ->) Hv]. cbn beta.
  pose proof Hq as (S1 & _).
  apply (packet_delivered _ _ _ _ _ data Hv) in Hq as ->; [|by repeat apply delivers_app|done..].
  pose proof W as [L1 L2 B1 B2]. unfold ETHERNET_FRAME_SIZE_MAX in Ho.
  set (data' := data ++ drop (length data) (in_data n)).
  assert (wf_frames (set_FrameIN {| FrameData := data'; FrameLength := Z.of_nat (length data) |} n)) as W'.
  { split; cbn; [|done| |done].
    - unfold data'. rewrite length_app, length_drop. lia.
    - apply Forall_app_2; [done|by apply Forall_drop]. }
  wp_step. eapply wp_mono; [apply transmit_frame_sends; [done..|cbn; lia]|].
  intros n' s2 (-> & R2 & S2). cbn beta. wp_step. cbn in S2 |- *. split_and!; [|done..].
  rewrite app_nil_r, sent_app, S1, S2. unfold message. rewrite length_slice by lia. done.
Qed.

Lemma ethernet_task_runs g n t :
  configured h -> length_accepted (FrameLength (FrameIN (Net g))) ->
  Ethernet_ProcessPacket (Net g) = Returns (tt, n) ->
  wp true h (Ethernet_Task g) t (fun g' s => g' = mk_demo (Rndis g) n /\ sent s = [] /\ received s = []).
Proof.
  intros Hc Hl E. unfold Ethernet_Task. repeat wp_step.
  - rewrite Hc in H. by subst.
  - eapply wp_pure; [exact E|]. by repeat wp_step.
  - apply truthy_eq in H1. by rewrite H1 in Hl.
Qed.

End demo.
