(* ===== verification/EchoSpec.v ===== *)
(** * Pings

    ICMP echo requests through IP and Ethernet: the reply and its checksums when
    the frame is sound, and what an unsound header length does. *)
From S2P Require Import Prelude NetBuffers TCP EthernetStack NetLemmas EthernetSpec.

Section echo.
Context {A : Type}.
Implicit Types s : net A.

(** An IPv4 packet at offset 14 of the frame with protocol [proto], a header of
    [h] bytes, for the server or for everybody. *)
Definition ip_packet (d : list Z) (proto h : Z) : Prop :=
  slice 12 2 d = [0x08; 0x00] /\ slice 23 1 d = [proto] /\
  Z.land (le_val (slice 14 1 d)) 15 * 4 = h /\
  (slice 30 4 d = ServerIPAddress \/ slice 30 4 d = BroadcastIPAddress).

(** The echo reply to the request at [In] with [n] bytes of data. *)
Definition echo_reply (d : list Z) (In n sum : Z) : list Z :=
  [0] ++ [0] ++ le_bytes 2 sum ++ slice (In + 4) 2 d ++ slice (In + 6) 2 d ++ slice (In + 8) n d.

Lemma icmp_echo_spec s In Out n :
  wf_frames s -> 0 <= In -> 0 <= Out -> 0 <= n -> n mod 2 = 0 ->
  In + 8 + n = FrameLength (FrameIN s) -> FrameLength (FrameIN s) <= 1500 -> Out + 8 + n <= 1500 ->
  slice In 1 (in_data s) = [8] ->
  nwp (ICMP_ProcessICMPPacket In Out) s (fun r s' => exists sum,
    r = 8 + n /\ wrote s s' Out (echo_reply (in_data s) In n sum) /\
    valid_checksum (echo_reply (in_data s) In n sum)).
Proof.
  intros W Hi Ho Hn He Hf Hf' Ho' Ht. start_frames W. unfold ICMP_ProcessICMPPacket. nstep.
  autounfold with net. rewrite Z.add_0_r, Ht. change (le_val [8] =? ICMP_TYPE_ECHOREQUEST) with true.
  nstep. autounfold with net.
  replace (FrameLength (FrameIN s) - (In + 8)) with n by lia.
  assert (i16 n = n) as -> by (unfold i16; rewrite u16_small by lia; by rewrite (proj2 (Z.ltb_lt _ _)) by lia).
  rewrite u16_small by lia. nstep. copies.
  set (d1 := splice (Out + 8) _ _).
  assert (wrote s (set_out_data d1 s) Out (([0] ++ [0]) ++ [0; 0] ++
    slice (In + 4) 2 (in_data s) ++ slice (In + 6) 2 (in_data s) ++ slice (In + 8) n (in_data s))) as Hw.
  { subst d1. rewrite <- !(assoc_L (++)). wrote_fields. }
  rewrite (u16_small (n + 8)) by lia.
  eapply nwp_mono; [eapply (store_checksum_wrote s); [done| | | |exact Hw|..]; try done; try lia|].
  { zdm. } 
  { rewrite !length_app, !Nat2Z.inj_add, !length_slice by lia. cbn [length]. lia. }
  intros [] s' (sum & Hw' & Hv). nstep. exists sum. split.
  - unfold i16. rewrite u16_small by lia. rewrite (proj2 (Z.ltb_lt _ _)) by lia. lia.
  - unfold echo_reply. revert Hw' Hv. rewrite <- !(assoc_L (++)). done.
Qed.

(** A ping to the server is answered.  The frame holds a sound IPv4 header
    of [h] bytes and an echo request with an even number [n] of data bytes; the
    reply goes back to the sender with the addresses exchanged, the identifier,
    sequence number and data of the request, and valid IP and ICMP checksums. *)
Theorem echo_answered s h n :
  wf_frames s -> for_server (in_data s) -> length_accepted (FrameLength (FrameIN s)) ->
  ip_packet (in_data s) PROTOCOL_ICMP h -> 20 <= h -> 0 <= n -> n mod 2 = 0 ->
  FrameLength (FrameIN s) = 14 + h + 8 + n -> FrameLength (FrameIN s) <= 1500 ->
  slice (14 + h) 1 (in_data s) = [ICMP_TYPE_ECHOREQUEST] ->
  exists s' ipsum sum, Ethernet_ProcessPacket s = Returns (tt, s') /\
    let echo := echo_reply (in_data s) (14 + h) n sum in
    let header := ip_bytes (28 + n) PROTOCOL_ICMP ipsum (slice 30 4 (in_data s)) (slice 26 4 (in_data s)) in
    answered s s' (eth_bytes (in_data s) ++ header ++ echo) /\
    valid_checksum header /\ valid_checksum echo.
Proof.
  intros W Hdst Hlen (Hty & Hpr & Hh & Hip) Hh20 Hn He Hf Hf' Ht. start_frames W.
  assert (forall sum, Z.of_nat (length (echo_reply (in_data s) (14 + h) n sum)) = 8 + n) as El.
  { intros. unfold echo_reply.
    rewrite !length_app, !Nat2Z.inj_add, !length_slice, length_le_bytes by lia. cbn [length]. lia. }
  destruct (eth_reply_spec s s (fun pl => exists ipsum sum,
    let echo := echo_reply (in_data s) (14 + h) n sum in
    let header := ip_bytes (28 + n) PROTOCOL_ICMP ipsum (slice 30 4 (in_data s)) (slice 26 4 (in_data s)) in
    pl = header ++ echo /\ valid_checksum header /\ valid_checksum echo))
    as (pl & s' & (ipsum & sum & -> & Hv1 & Hv2) & E & Ha); try done; [|by exists s', ipsum, sum].
  rewrite Hty. change (eth_payload _) with (@IP_ProcessIPPacket A 14 14).
  eapply nwp_mono; [apply (ip_reply_spec s s 14 14 (fun pl => exists sum,
    pl = echo_reply (in_data s) (14 + h) n sum /\ valid_checksum pl)); try done|].
  - change (14 + 9) with 23. rewrite Hpr, Hh.
    change (ip_payload _ _ _ _) with (@ICMP_ProcessICMPPacket A (14 + h) 34).
    eapply nwp_mono; [apply (icmp_echo_spec s (14 + h) 34 n); try done; try lia|].
    intros r s' (sum & -> & Hw & Hv). eexists. split; [by eauto|]. rewrite El. split_and!; try done; lia.
  - intros r s' (pl & ipsum & (sum & -> & Hv) & Hr). cbv zeta in Hr. rewrite El in Hr.
    change (14 + 9) with 23 in Hr. change (14 + 16) with 30 in Hr. change (14 + 12) with 26 in Hr.
    rewrite Hpr in Hr. change (le_val [PROTOCOL_ICMP]) with PROTOCOL_ICMP in Hr.
    replace (20 + (8 + n)) with (28 + n) in Hr by lia.
    destruct Hr as (Hl1 & -> & Hl2 & Hw & Hv').
    eexists. split; [by exists ipsum, sum|]. split_and!; try done.
    all: rewrite length_app, Nat2Z.inj_add, El, Hl2; lia.
Qed.

(** An echo request whose data would end before it starts. *)
Lemma icmp_short_faults s In Out :
  wf_frames s -> 0 <= In <= 100 -> 0 <= Out <= 100 ->
  0 <= FrameLength (FrameIN s) < In + 8 -> slice In 1 (in_data s) = [8] ->
  ICMP_ProcessICMPPacket In Out s = Faults.
Proof.
  intros W Hi Ho Hf Ht. start_frames W. unfold ICMP_ProcessICMPPacket.
  fstep. autounfold with net. rewrite Z.add_0_r, Ht.
  change (le_val [8] =? ICMP_TYPE_ECHOREQUEST) with true.
  do 8 fstep. apply faults_left, faults_in_bytes. net_simpl.
  unfold i16. set (x := FrameLength (FrameIN s) - (In + 8)).
  assert (u16 x = 65536 + x) as -> by (unfold wrap; symmetry; apply (Z.mod_unique_pos _ _ (-1)); lia).
  rewrite (proj2 (Z.ltb_ge _ _)) by lia.
  unfold wrap. rewrite <- (Z.mod_unique_pos _ 65536 (-1) (65536 + x)); lia.
Qed.

(** A fault of the protocol handler is one of [Ethernet_ProcessPacket]. *)
Lemma ip_payload_faults s h proto :
  wf_frames s -> for_server (in_data s) -> length_accepted (FrameLength (FrameIN s)) ->
  ip_packet (in_data s) proto h -> ip_payload proto 14 h 14 s = Faults ->
  Ethernet_ProcessPacket s = Faults.
Proof.
  intros W Hdst Hlen (Hty & Hpr & Hh & Hip) Hf. start_frames W. unfold Ethernet_ProcessPacket.
  do 2 fstep. apply faults_left. autounfold with net. replace (_ && _) with true.
  2:{ symmetry. apply andb_true_iff. split; [|by apply Z.ltb_lt]. unfold MAC_COMPARE.
      destruct Hdst as [-> | ->]; reflexivity. }
  fstep. autounfold with net. rewrite Hty. change (eth_payload _) with (@IP_ProcessIPPacket A 14 14).
  apply faults_left. unfold IP_ProcessIPPacket. do 2 fstep. autounfold with net. change (14 + 16) with 30.
  replace (_ && _) with false by (destruct Hip as [-> | ->]; reflexivity).
  fstep. autounfold with net. change (14 + 9) with 23. rewrite Hpr, Hh. apply faults_left.
  cbn [le_val]. by rewrite Z.mul_0_r, Z.add_0_r.
Qed.

(** A ping whose IP header length reaches past the end of the frame makes
    the size of the data negative: the copy of the echo data leaves the frame
    buffer, whatever the frame holds. *)
Theorem echo_negative_size s h :
  wf_frames s -> for_server (in_data s) -> length_accepted (FrameLength (FrameIN s)) ->
  ip_packet (in_data s) PROTOCOL_ICMP h -> 0 <= h -> 0 <= FrameLength (FrameIN s) < 14 + h + 8 ->
  slice (14 + h) 1 (in_data s) = [ICMP_TYPE_ECHOREQUEST] ->
  Ethernet_ProcessPacket s = Faults.
Proof.
  intros W Hdst Hlen Hip Hh Hf Ht. apply (ip_payload_faults s h PROTOCOL_ICMP); try done.
  assert (h <= 60).
  { destruct Hip as (_ & _ & <- & _). change 15 with (Z.ones 4). rewrite Z.land_ones by lia. zdm. }
  apply (icmp_short_faults s (14 + h) 34); try done; lia.
Qed.

(** The checksum of an echo reply with an odd number of data bytes leaves
    the last byte out, so two replies that differ there carry the same checksum. *)
Theorem odd_checksum_ignores_last (d : list Z) (b b' : Z) :
  Forall byte_ok d -> byte_ok b -> byte_ok b' -> Z.of_nat (length d) < 65536 ->
  Z.of_nat (length d) mod 2 = 0 ->
  Ethernet_Checksum16 (d ++ [b]) 0 (Z.of_nat (length (d ++ [b]))) =
  Ethernet_Checksum16 (d ++ [b']) 0 (Z.of_nat (length (d ++ [b']))).
Proof.
  intros Hd Hb Hb' Hl He. unfold Ethernet_Checksum16.
  assert (forall x, byte_ok x -> sum_words (Z.to_nat (Z.shiftr (Z.of_nat (length (d ++ [x]))) 1)) 0 (d ++ [x]) 0
    = sum_words (Z.to_nat (Z.shiftr (Z.of_nat (length d)) 1)) 0 d 0) as E.
  { intros x Hx. rewrite !Z.shiftr_div_pow2, length_app by lia. cbn [length].
    replace (Z.of_nat (length d + 1) / 2 ^ 1) with (Z.of_nat (length d) / 2 ^ 1) by zdm.
    assert (slice 0 (Z.of_nat (length d)) (d ++ [x]) = d) as Es.
    { unfold slice. rewrite Nat2Z.id. change (Z.to_nat 0) with 0%nat. by rewrite drop_0, take_app_length. }
    symmetry. rewrite <- (sum_words_slice _ 0 (Z.of_nat (length d)) 0 (d ++ [x])), Es; try done;
      rewrite ?length_app; cbn [length]; zdm. }
  by rewrite !E.
Qed.
End echo.
