(* ===== verification/DHCPSpec.v ===== *)
(** * DHCP exchanges

    The option walk of [DHCP_ProcessDHCPPacket] against an abstract list of
    options, and the reply to a DISCOVER or REQUEST message through UDP, IP and
    Ethernet. *)
From S2P Require Import Prelude NetBuffers TCP EthernetStack NetLemmas EthernetSpec EchoSpec.

(** ** Options *)

Inductive dhcp_option : Type :=
  | Pad
  | Opt (code : Z) (data : list Z).

Definition encode_option (o : dhcp_option) : list Z :=
  match o with
  | Pad => [DHCP_OPTION_PAD]
  | Opt code data => [code; Z.of_nat (length data)] ++ data
  end.

Definition encode_options (os : list dhcp_option) : list Z := concat (encode_option <$> os) ++ [DHCP_OPTION_END].

(** An option as RFC 2132 has it: a code other than those of the padding and end
    options, and a message type that has a value. *)
Definition option_ok (o : dhcp_option) : Prop :=
  match o with
  | Pad => True
  | Opt code data => byte_ok code /\ code <> DHCP_OPTION_PAD /\ code <> DHCP_OPTION_END /\
      Z.of_nat (length data) < 256 /\ Forall byte_ok data /\ (code = DHCP_OPTION_MESSAGETYPE -> data <> [])
  end.

(** The message the server answers: the first message type option that is a
    DISCOVER or a REQUEST. *)
Fixpoint request_type (os : list dhcp_option) : option Z :=
  match os with
  | [] => None
  | Opt code (t :: _) :: os =>
      if (code =? DHCP_OPTION_MESSAGETYPE)
         && ((t =? DHCP_MESSAGETYPE_DISCOVER) || (t =? DHCP_MESSAGETYPE_REQUEST))
      then Some t else request_type os
  | _ :: os => request_type os
  end.

Lemma dhcp_options_ok t : Forall byte_ok (dhcp_options t).
Proof.
  unfold dhcp_options. destruct (t =? DHCP_MESSAGETYPE_DISCOVER);
    cbn [Datatypes.app ServerIPAddress]; unfold ServerIPAddress; cbn [Datatypes.app];
    repeat (apply Forall_cons; split; [done|]); done.
Qed.

Section dhcp.
Context {A : Type}.
Implicit Types s : net A.

(** The bytes of a buffer from a slice that is a concatenation. *)
Lemma slice_first off a b d :
  0 <= off -> off + Z.of_nat (length (a ++ b)) <= Z.of_nat (length d) ->
  slice off (Z.of_nat (length (a ++ b))) d = a ++ b ->
  slice off (Z.of_nat (length a)) d = a /\ slice (off + Z.of_nat (length a)) (Z.of_nat (length b)) d = b.
Proof.
  intros Ho Hl E. rewrite length_app, Nat2Z.inj_add in *. rewrite slice_app in E by lia.
  apply app_inj_1 in E; [done|]. apply Nat2Z.inj. rewrite length_slice; lia.
Qed.

(** The walk finds what the list of options says. *)
Lemma dhcp_walk_spec os fuel off Out s :
  wf_frames s -> 0 <= off -> (length os < fuel)%nat -> Forall option_ok os ->
  off + Z.of_nat (length (encode_options os)) <= 1500 -> 0 <= Out <= 1400 ->
  slice off (Z.of_nat (length (encode_options os))) (in_data s) = encode_options os ->
  nwp (dhcp_walk fuel off Out) s (fun r s' =>
    match request_type os with
    | Some t => r = 256 /\ wrote s s' Out (dhcp_options t)
    | None => r = NO_RESPONSE /\ s' = s
    end).
Proof.
  intros W. start_frames W. revert fuel off.
  induction os as [|o os IH]; intros [|fuel] off Ho Hf Hok Hl HO Es; cbn [length] in Hf; try lia.
  { cbn [dhcp_walk]. change (Z.of_nat (length (encode_options []))) with 1 in Es, Hl. nstep.
    rewrite Es. cbn. by split. }
  apply Forall_cons in Hok as [Hok Hoks].
  change (encode_options (o :: os)) with ((encode_option o ++ concat (encode_option <$> os)) ++ [255]) in *.
  rewrite <- (assoc_L (++)) in *. change (concat (encode_option <$> os) ++ [255]) with (encode_options os) in *.
  destruct (slice_first off (encode_option o) (encode_options os) (in_data s) Ho ltac:(lia) Es) as [E1 E2].
  rewrite length_app, Nat2Z.inj_add in Hl.
  destruct o as [|code data]; cbn [dhcp_walk].
  - change (Z.of_nat (length (encode_option Pad))) with 1 in *. nstep. rewrite E1.
    change (le_val (encode_option Pad)) with 0. change (0 =? DHCP_OPTION_END) with false. nstep.
    apply (IH fuel (off + 1)); try done; lia.
  - destruct Hok as (Hc & Hc0 & Hc1 & Hd & Hdb & Hm). cbn [encode_option] in *.
    rewrite <- (assoc_L (++)) in *.
    assert (Z.of_nat (length ([code; Z.of_nat (length data)] ++ data)) = 2 + Z.of_nat (length data)) as EL.
    { rewrite length_app. cbn [length]. lia. }
    rewrite EL in Hl, E2.
    destruct (slice_first off [code] ([Z.of_nat (length data)] ++ data) (in_data s)) as [Ec E1'];
      [done|rewrite !length_app; cbn [length]; lia|exact E1|].
    destruct (slice_first (off + 1) [Z.of_nat (length data)] data (in_data s)) as [El E1''];
      [lia|rewrite !length_app; cbn [length]; lia|exact E1'|].
    change (Z.of_nat (length [code])) with 1 in *.
    change (Z.of_nat (length [Z.of_nat (length data)])) with 1 in *.
    assert (forall t r, data = t :: r -> slice (off + 2) 1 (in_data s) = [t]) as Et.
    { intros t r ->. cbn [length] in *. destruct (slice_first (off + 1 + 1) [t] r (in_data s)) as [Et _];
      [lia|rewrite !length_app; cbn [length]; lia|exact E1''|].
      by replace (off + 2) with (off + 1 + 1) by lia. }
    nstep. rewrite Ec. cbn [le_val]. rewrite Z.mul_0_r, Z.add_0_r.
    rewrite (proj2 (Z.eqb_neq code _)) by done.
    assert (nwp (step ← (if code =? DHCP_OPTION_PAD then mret 1 else n ← in_u8 (off + 1); mret (n + 2));
                 dhcp_walk fuel (off + step) Out) s (fun r s' =>
      match request_type os with
      | Some t => r = 256 /\ wrote s s' Out (dhcp_options t)
      | None => r = NO_RESPONSE /\ s' = s
      end)) as Hnext.
    { rewrite (proj2 (Z.eqb_neq code _)) by done. nstep. rewrite El. cbn [le_val].
      apply IH; try done; try lia.
      by replace (off + (Z.of_nat (length data) + 256 * 0 + 2)) with (off + (2 + Z.of_nat (length data))) by lia. }
    cbn [request_type]. destruct (Z.eqb_spec code DHCP_OPTION_MESSAGETYPE) as [->|Hne].
    + destruct data as [|t r]; [by destruct Hm|]. cbn [length] in *. nstep. rewrite (Et t r) by done.
      cbn [le_val andb]. rewrite Z.mul_0_r, Z.add_0_r. destruct (_ || _) eqn:Eq; [|exact Hnext].
      assert (length (dhcp_options t) = 16%nat) as EO by done. nstep. split; [done|].
      eexists. split; [reflexivity|]. split_and!; [net_len| |slices; done|].
      * apply Forall_splice; [done|]. apply dhcp_options_ok.
      * intros o n Ho' Hd'. slices. done.
    + nstep. cbn [andb]. destruct data; exact Hnext.
Qed.

(** ** The reply *)

(** The 240 bytes of the reply to the message at [In]. *)
Definition dhcp_bytes (d : list Z) (In : Z) : list Z :=
  [DHCP_OP_BOOTREPLY] ++ slice (In + 1) 1 d ++ slice (In + 2) 1 d ++ [0] ++ slice (In + 4) 4 d ++
  [0; 0] ++ slice (In + 10) 2 d ++ replicate 4 0 ++ ClientIPAddress ++ replicate 8 0 ++
  slice (In + 28) 6 d ++ replicate 202 0 ++ [0x63; 0x82; 0x53; 0x63].

Lemma length_dhcp_bytes d In :
  0 <= In -> In + 34 <= Z.of_nat (length d) -> Z.of_nat (length (dhcp_bytes d In)) = 240.
Proof.
  intros. unfold dhcp_bytes.
  rewrite !length_app, !Nat2Z.inj_add, !length_slice, !length_replicate by lia. done.
Qed.

Lemma dhcp_header_spec s In Out :
  wf_frames s -> 0 <= In <= 1200 -> 0 <= Out <= 1200 ->
  nwp (dhcp_header In Out) s (fun _ s' => wrote s s' Out (dhcp_bytes (in_data s) In)).
Proof.
  intros W Hi Ho. start_frames W. unfold dhcp_header. change (Z.to_nat sizeof_DHCP_Header_t) with 240%nat.
  nstep. copies. autounfold with net. eexists. split; [reflexivity|]. split_and!; [net_len|bytes_ok| |].
  - unfold dhcp_bytes. fields; try done.
  - intros o n Hn Hd. rewrite length_dhcp_bytes in Hd by lia. slices. done.
Qed.

(** The input frame once the handler has put the addresses of the reply into
    its IP header. *)
Definition readdressed s (ip : Z) : net A :=
  set_in_data (splice (ip + 16) ServerIPAddress (splice (ip + 12) ClientIPAddress (in_data s))) s.

Lemma readdressed_wf s ip : wf_frames s -> wf_frames (readdressed s ip).
Proof.
  intros W. start_frames W. unfold readdressed. split; net_simpl; rewrite ?length_splice; try done.
  bytes_ok.
Qed.

Lemma length_encode_options os : (length os < length (encode_options os))%nat.
Proof.
  unfold encode_options. rewrite length_app. cbn [length].
  enough (length os <= length (concat (encode_option <$> os)))%nat by lia.
  induction os as [|o os IH]; [done|]. cbn. rewrite length_app. destruct o; cbn; lia.
Qed.

(** A message with the options [os] at [In]. *)
Definition dhcp_message (d : list Z) (In : Z) (os : list dhcp_option) : Prop :=
  Forall option_ok os /\ In + 240 + Z.of_nat (length (encode_options os)) <= 1500 /\
  slice (In + 240) (Z.of_nat (length (encode_options os))) d = encode_options os.

Lemma dhcp_spec s ip In Out os t :
  wf_frames s -> 0 <= ip -> ip + 20 <= In <= 1000 -> 0 <= Out <= 1000 ->
  dhcp_message (in_data s) In os -> request_type os = Some t ->
  nwp (DHCP_ProcessDHCPPacket ip In Out) s (fun r s' => r = 256 /\
    wrote (readdressed s ip) s' Out (dhcp_bytes (in_data s) In ++ dhcp_options t)).
Proof.
  intros W Hip Hi Ho (Hok & Hl & Es) Ht. start_frames W. unfold DHCP_ProcessDHCPPacket. nstep.
  eapply nwp_mono; [apply dhcp_header_spec; done || lia|]. intros [] s1 Hw1. cbn beta.
  pose proof (wrote_wf _ _ _ _ Hw1 W) as W1. start_frames W1.
  assert (in_data s1 = in_data s) as Ei by (by destruct Hw1 as (d & -> & _)).
  nstep. rewrite Ei.
  apply (wrote_set_in (in_data (readdressed s ip))) in Hw1.
  change (set_in_data (in_data (readdressed s ip)) s) with (readdressed s ip) in Hw1.
  set (s2 := set_in_data _ s1). change (set_in_data _ s1) with s2 in Hw1.
  pose proof (wrote_wf _ _ _ _ Hw1 (readdressed_wf s ip W)) as W2.
  autounfold with net. eapply nwp_mono; [apply (dhcp_walk_spec os); try done; try lia|].
  - pose proof (length_encode_options os). unfold dhcp_fuel, ETHERNET_FRAME_SIZE_MAX. lia.
  - subst s2. net_simpl. slices. autounfold with net. done.
  - rewrite Ht. intros r s' (-> & Hw). split; [done|].
    eapply wrote_snoc; [lia|exact Hw1|]. by rewrite length_dhcp_bytes by lia.
Qed.

(** The UDP header of the reply: the ports exchanged, no checksum. *)
Definition udp_bytes (d : list Z) (In len : Z) : list Z :=
  slice (In + 2) 2 d ++ slice In 2 d ++ be16 len ++ [0; 0].

Lemma udp_dhcp_spec s ip In Out os t :
  wf_frames s -> 0 <= ip -> ip + 20 <= In <= 900 -> 0 <= Out <= 900 ->
  slice (In + 2) 2 (in_data s) = [0; 67] ->
  dhcp_message (in_data s) (In + 8) os -> request_type os = Some t ->
  nwp (UDP_ProcessUDPPacket ip In Out) s (fun r s' => r = 264 /\
    wrote (readdressed s ip) s' Out
      (udp_bytes (in_data s) In 264 ++ dhcp_bytes (in_data s) (In + 8) ++ dhcp_options t)).
Proof.
  intros W Hip Hi Ho Hport Hm Ht. start_frames W. unfold UDP_ProcessUDPPacket. nstep.
  autounfold with net. rewrite Hport.
  change (SwapEndian_16 (le_val [0; 67]) =? UDP_PORT_DHCP_REQUEST) with true. cbn match.
  eapply nwp_mono; [apply (dhcp_spec _ _ _ _ os t); done || lia|]. intros r s1 (-> & Hw). cbn beta.
  pose proof (wrote_wf _ _ _ _ Hw (readdressed_wf s ip W)) as W1. start_frames W1.
  change (0 <? 256) with true. nstep. copies.
  assert (in_data s1 = in_data (readdressed s ip)) as Ei by (by destruct Hw as (d & -> & _)).
  assert (forall o n, In <= o -> slice o n (in_data s1) = slice o n (in_data s)) as Es.
  { intros o n Ho1. rewrite Ei. unfold readdressed. net_simpl. slices. done. }
  rewrite !Es by net_len. split; [done|].
  eapply (wrote_app _ s1); [lia| |].
  - replace (Z.of_nat _) with 8; [exact Hw|]. unfold udp_bytes.
    rewrite !length_app, !Nat2Z.inj_add, !length_slice by lia. done.
  - autounfold with net. change (u16 (8 + 256)) with 264. unfold udp_bytes, be16.
    rewrite le_bytes_swap by lia. wrote_fields. by rewrite Z.add_0_r.
Qed.

(** A DHCP DISCOVER or REQUEST is answered with the client's address: the
    OFFER or ACK goes from the server's to the client's IP address (not to the
    addresses of the request), to the ports exchanged, with the transaction's
    identifier and hardware address and the server's options, and a valid IP
    checksum. *)
Theorem dhcp_answered s h os t :
  wf_frames s -> for_server (in_data s) -> length_accepted (FrameLength (FrameIN s)) ->
  ip_packet (in_data s) PROTOCOL_UDP h -> 20 <= h ->
  slice (14 + h + 2) 2 (in_data s) = [0; 67] ->
  dhcp_message (in_data s) (14 + h + 8) os -> request_type os = Some t ->
  exists s' sum, Ethernet_ProcessPacket s = Returns (tt, s') /\
    let header := ip_bytes 284 PROTOCOL_UDP sum ServerIPAddress ClientIPAddress in
    answered (readdressed s 14) s' (eth_bytes (in_data s) ++ header ++
      udp_bytes (in_data s) (14 + h) 264 ++ dhcp_bytes (in_data s) (14 + h + 8) ++ dhcp_options t) /\
    valid_checksum header.
Proof.
  intros W Hdst Hlen (Hty & Hpr & Hh & Hip) Hh20 Hport Hm Ht. start_frames W.
  assert (h <= 60) by (rewrite <- Hh; change 15 with (Z.ones 4); rewrite Z.land_ones by lia; zdm).
  pose (udp := udp_bytes (in_data s) (14 + h) 264 ++ dhcp_bytes (in_data s) (14 + h + 8) ++ dhcp_options t).
  assert (Z.of_nat (length udp) = 264) as El.
  { subst udp. unfold udp_bytes. rewrite !length_app, !Nat2Z.inj_add, length_dhcp_bytes, !length_slice by lia.
    done. }
  pose proof (readdressed_wf s 14 W) as W0.
  assert (forall o n, 0 <= o -> 34 <= o \/ o + n <= 26 -> slice o n (in_data (readdressed s 14)) = slice o n (in_data s)) as Eo.
  { intros o n Ho Hd. unfold readdressed. net_simpl. slices. done. }
  destruct (eth_reply_spec s (readdressed s 14) (fun pl => exists sum,
    let header := ip_bytes 284 PROTOCOL_UDP sum ServerIPAddress ClientIPAddress in
    pl = header ++ udp /\ valid_checksum header))
    as (pl & s' & (sum & -> & Hv) & E & Ha); try done.
  2:{ exists s', sum. split; [done|]. split; [|done]. revert Ha. unfold eth_bytes. by rewrite !Eo by lia. }
  rewrite Hty. change (eth_payload _) with (@IP_ProcessIPPacket A 14 14).
  eapply nwp_mono; [apply (ip_reply_spec s (readdressed s 14) 14 14 (fun pl => pl = udp)); try done|].
  - change (14 + 9) with 23. rewrite Hpr, Hh.
    change (ip_payload _ _ _ _) with (@UDP_ProcessUDPPacket A 14 (14 + h) 34).
    eapply nwp_mono; [apply (udp_dhcp_spec s 14 (14 + h) 34 os t); try done; try lia|].
    intros r s' (-> & Hw). eexists. split; [reflexivity|]. rewrite El. split_and!; try done; lia.
  - intros r s' (pl & sum & -> & Hr). cbv zeta in Hr. rewrite El in Hr.
    change (14 + 9) with 23 in Hr. rewrite (Eo 23 1), Hpr in Hr by lia.
    change (20 + 264) with 284 in Hr.
    assert (slice (14 + 16) 4 (in_data (readdressed s 14)) = ServerIPAddress) as E1.
    { unfold readdressed. net_simpl. slices. done. }
    assert (slice (14 + 12) 4 (in_data (readdressed s 14)) = ClientIPAddress) as E2.
    { unfold readdressed. net_simpl. slices. done. }
    rewrite E1, E2 in Hr. destruct Hr as (_ & -> & Hl2 & Hw & Hv').
    eexists. split; [by exists sum|]. split_and!; try done.
    all: rewrite length_app, Nat2Z.inj_add, El; done.
Qed.
End dhcp.
