(* ===== verification/TCPTable.v ===== *)
(** * The TCP connection table as a map

    A connection is identified by the port on the device, the remote address and
    the remote port.  [conn_state] reads the table as a map from identifiers to
    states; the theorems relate the table functions of [TCP.c] to it, and the
    rules evaluate code that runs on the entry of one connection. *)
From S2P Require Import Prelude NetBuffers TCP NetLemmas.

(** ** Keys *)

Record key := mk_key { k_port : Z; k_addr : list Z; k_rport : Z }.

#[export] Instance key_eq_dec : EqDecision key.
Proof. solve_decision. Defined.

Definition key_of (c : TCP_ConnectionState_t) : key := mk_key (Port c) (RemoteAddress c) (RemotePort c).

Abbreviation has_key k := (is_connection (k_port k) (k_addr k) (k_rport k)).

Lemma has_key_iff k c : has_key k c <-> key_of c = k.
Proof. destruct k, c. unfold is_connection, key_of. cbn. split; [by intros (-> & -> & ->)|by intros [= -> -> ->]]. Qed.

(** The state the table gives a connection: closed when it has no entry. *)
Definition conn_state (l : list TCP_ConnectionState_t) (k : key) : Z :=
  match list_find (has_key k) l with Some (_, c) => State c | None => TCP_Connection_Closed end.

(** A connection that has an entry, or can get one. *)
Definition has_room (l : list TCP_ConnectionState_t) (k : key) : Prop :=
  is_Some (list_find (has_key k) l) \/
  is_Some (list_find (fun c => State c = TCP_Connection_Closed) l).

(** No two live entries are for the same connection: of two entries with the same
    key the second, which the lookups never reach, is closed. *)
Definition wf_table (l : list TCP_ConnectionState_t) : Prop :=
  forall i j ci cj, l !! i = Some ci -> l !! j = Some cj -> (i < j)%nat -> key_of ci = key_of cj ->
    State cj = TCP_Connection_Closed.

(** ** Searching an updated table *)

Section find.
Context {X : Type} (P : X -> Prop) `{forall x, Decision (P x)}.

Lemma find_same l i x y :
  list_find P l = Some (i, x) -> P y -> list_find P (<[i := y]> l) = Some (i, y).
Proof.
  intros (Hi & Hx & Hlt)%list_find_Some Hy. apply list_find_Some. split_and!; [|done|].
  - apply list_lookup_insert_eq. by eapply lookup_lt_Some.
  - intros j z Hj Hlt'. rewrite list_lookup_insert_ne in Hj by lia. eauto.
Qed.

Lemma find_other l i x y :
  l !! i = Some x -> ~ P x -> ~ P y -> list_find P (<[i := y]> l) = list_find P l.
Proof.
  revert i. induction l as [|z l IH]; intros [|i] Hi Hx Hy; [done..| |].
  - injection Hi as ->. cbn. by rewrite !decide_False.
  - cbn in *. destruct (decide (P z)); [done|]. f_equal. by apply IH.
Qed.

(** A new match where there was none. *)
Lemma find_new l i x y :
  list_find P l = None -> l !! i = Some x -> P y -> list_find P (<[i := y]> l) = Some (i, y).
Proof.
  intros Hn Hi Hy. apply list_find_Some. split_and!; [|done|].
  - apply list_lookup_insert_eq. by eapply lookup_lt_Some.
  - intros j z Hj Hlt. rewrite list_lookup_insert_ne in Hj by lia.
    apply list_find_None in Hn. eapply Forall_lookup_1 in Hn; eauto.
Qed.
End find.

(** ** Running on one entry *)

Section table.
Context {A : Type}.
Implicit Types s : net A.

(** Entry [i] is the one the lookups find for [k]. *)
Definition at_conn s (k : key) (i : nat) (c : TCP_ConnectionState_t) : Prop :=
  list_find (has_key k) (ConnectionStateTable s) = Some (i, c).

Definition put s (i : nat) (c : TCP_ConnectionState_t) : net A :=
  set_Connections (<[i := c]> (ConnectionStateTable s)) s.

Lemma at_conn_key s k i c : at_conn s k i c -> key_of c = k.
Proof. intros (_ & Hc & _)%list_find_Some. by apply has_key_iff. Qed.

Lemma at_conn_lookup s k i c : at_conn s k i c -> ConnectionStateTable s !! i = Some c.
Proof. by intros (? & _)%list_find_Some. Qed.

Lemma at_conn_put s k i c c' : at_conn s k i c -> key_of c' = k -> at_conn (put s i c') k i c'.
Proof. intros H Hk. unfold at_conn, put. apply (find_same _ _ _ c); [done|]. by apply has_key_iff. Qed.

Lemma at_conn_out s k i c d : at_conn s k i c -> at_conn (set_out_data d s) k i c.
Proof. done. Qed.

Lemma put_put s i c c' : put (put s i c) i c' = put s i c'.
Proof. unfold put. net_simpl. by rewrite list_insert_insert_eq. Qed.

Lemma put_out s d i c : put (set_out_data d s) i c = set_out_data d (put s i c).
Proof. done. Qed.

Lemma put_in s i c : FrameIN (put s i c) = FrameIN s. Proof. done. Qed.
Lemma put_outf s i c : FrameOUT (put s i c) = FrameOUT s. Proof. done. Qed.

Lemma conn_state_at s k i c : at_conn s k i c -> conn_state (ConnectionStateTable s) k = State c.
Proof. intros H. unfold conn_state. by rewrite H. Qed.

(** The other connections do not see the update. *)
Lemma conn_state_put s k k' i c c' :
  at_conn s k i c -> key_of c' = k -> k' <> k ->
  conn_state (ConnectionStateTable (put s i c')) k' = conn_state (ConnectionStateTable s) k'.
Proof.
  intros H Hc Hk. unfold conn_state, put. net_simpl.
  rewrite (find_other _ _ i c); [done|by eapply at_conn_lookup|..]; rewrite has_key_iff.
  - rewrite (at_conn_key _ _ _ _ H). congruence.
  - congruence.
Qed.

Lemma nwp_set_state s k i c st (Q : bool -> net A -> Prop) :
  at_conn s k i c -> Q true (put s i (set_State st c)) ->
  nwp (TCP_SetConnectionState (k_port k) (k_addr k) (k_rport k) st) s Q.
Proof. intros H HQ. unfold TCP_SetConnectionState. nstep. rewrite H. nstep. exact HQ. Qed.

Lemma nwp_get_state s k i c (Q : Z -> net A -> Prop) :
  at_conn s k i c -> Q (State c) s ->
  nwp (TCP_GetConnectionState (k_port k) (k_addr k) (k_rport k)) s Q.
Proof. intros H HQ. unfold TCP_GetConnectionState. nstep. by rewrite H. Qed.

Lemma nwp_get_info s k i c (Q : option nat -> net A -> Prop) :
  at_conn s k i c -> Q (Some i) s ->
  nwp (TCP_GetConnectionInfo (k_port k) (k_addr k) (k_rport k)) s Q.
Proof. intros H HQ. unfold TCP_GetConnectionInfo. nstep. by rewrite H. Qed.

Lemma nwp_deref s k i c (Q : TCP_ConnectionInfo_t -> net A -> Prop) :
  at_conn s k i c -> Q (Info c) s -> nwp (deref (Some i)) s Q.
Proof. intros H HQ. unfold nwp, deref. cbn. rewrite (at_conn_lookup _ _ _ _ H). done. Qed.

Lemma nwp_update_info s k i c f (Q : unit -> net A -> Prop) :
  at_conn s k i c -> Q tt (put s i (on_Info f c)) -> nwp (update_info (Some i) f) s Q.
Proof. intros H HQ. unfold nwp, update_info. cbn. rewrite (at_conn_lookup _ _ _ _ H). done. Qed.

(** ** The table functions *)

(** A table that is searched for [k] gives [conn_state]. *)
Lemma conn_state_closed l k i c :
  wf_table l -> l !! i = Some c -> State c = TCP_Connection_Closed -> key_of c = k ->
  conn_state l k <> TCP_Connection_Closed ->
  exists j c', list_find (has_key k) l = Some (j, c') /\ (j < i)%nat.
Proof.
  intros Hw Hi Hc Hk Hs. unfold conn_state in Hs.
  destruct (list_find (has_key k) l) as [[j c']|] eqn:E; [|done]. exists j, c'. split; [done|].
  apply list_find_Some in E as (Hj & Hk' & Hlt). rewrite has_key_iff in Hk'.
  destruct (decide (j < i)%nat); [done|]. destruct (decide (j = i)) as [->|]; [congruence|].
  exfalso. apply Hs. eapply (Hw i j); eauto; [lia|congruence].
Qed.

(** Taking over a closed entry does not change what the others see. *)
Lemma conn_state_evict l k' i c y :
  wf_table l -> l !! i = Some c -> State c = TCP_Connection_Closed -> key_of y <> k' ->
  conn_state (<[i := y]> l) k' = conn_state l k'.
Proof.
  intros Hw Hi Hc Hy. destruct (decide (key_of c = k')) as [Hk|Hk].
  2:{ unfold conn_state. rewrite (find_other _ _ i c); [done|done|..]; by rewrite has_key_iff. }
  destruct (decide (conn_state l k' = TCP_Connection_Closed)) as [Hs|Hs].
  - rewrite Hs. unfold conn_state.
    destruct (list_find (has_key k') (<[i:=y]> l)) as [[j cj]|] eqn:E; [|done].
    apply list_find_Some in E as (Hj & Hkj & Hlt). rewrite has_key_iff in Hkj.
    destruct (decide (j = i)) as [->|].
    { rewrite list_lookup_insert_eq in Hj by (by eapply lookup_lt_Some). congruence. }
    rewrite list_lookup_insert_ne in Hj by done.
    destruct (decide (i < j)%nat); [eapply (Hw i j); eauto; congruence|].
    unfold conn_state in Hs. destruct (list_find (has_key k') l) as [[j' c']|] eqn:E.
    + apply list_find_Some in E as (Hj' & Hk' & Hlt'). rewrite has_key_iff in Hk'.
      destruct (decide (j = j')) as [->|]; [congruence|].
      destruct (decide (j < j')%nat).
      * exfalso. apply (Hlt' j cj); [done|done|]. by apply has_key_iff.
      * eapply (Hw j' j); eauto; [lia|congruence].
    + apply list_find_None in E. eapply Forall_lookup_1 in E; [|exact Hj]. by rewrite has_key_iff in E.
  - destruct (conn_state_closed l k' i c Hw Hi Hc Hk Hs) as (j & c' & E & Hlt).
    unfold conn_state. rewrite E. apply list_find_Some in E as (Hj & Hk' & Hlt').
    assert (list_find (has_key k') (<[i:=y]> l) = Some (j, c')) as ->; [|done].
    apply list_find_Some. split_and!; [by rewrite list_lookup_insert_ne by lia|done|].
    intros m z Hm Hmj. rewrite list_lookup_insert_ne in Hm by lia. eauto.
Qed.

(** Updates of the entry the lookups find, and of an entry nobody finds. *)
Lemma wf_table_same l k i c c' :
  wf_table l -> list_find (has_key k) l = Some (i, c) -> key_of c' = k -> wf_table (<[i := c']> l).
Proof.
  intros Hw (Hi & Hki & Hfirst)%list_find_Some Hk' m j cm cj Hm Hj Hlt Hk.
  apply has_key_iff in Hki. destruct (decide (j = i)) as [->|].
  { exfalso. rewrite list_lookup_insert_ne in Hm by lia. apply (Hfirst m cm); [done|lia|].
    rewrite list_lookup_insert_eq in Hj by (by eapply lookup_lt_Some). injection Hj as <-.
    apply has_key_iff. congruence. }
  rewrite list_lookup_insert_ne in Hj by done. destruct (decide (m = i)) as [->|].
  - rewrite list_lookup_insert_eq in Hm by (by eapply lookup_lt_Some). injection Hm as <-.
    eapply (Hw i j); eauto. congruence.
  - rewrite list_lookup_insert_ne in Hm by done. eapply (Hw m j); eauto.
Qed.

Lemma wf_table_new l k i c c' :
  wf_table l -> list_find (has_key k) l = None -> l !! i = Some c -> key_of c' = k ->
  wf_table (<[i := c']> l).
Proof.
  intros Hw E Hi Hk' m j cm cj Hm Hj Hlt Hk.
  assert (forall m cm, l !! m = Some cm -> key_of cm <> k) as Hno.
  { intros m' cm' Hm' Hk0. apply list_find_None in E. eapply Forall_lookup_1 in E; [|exact Hm'].
    by rewrite has_key_iff in E. }
  destruct (decide (j = i)) as [->|].
  { exfalso. rewrite list_lookup_insert_ne in Hm by lia.
    rewrite list_lookup_insert_eq in Hj by (by eapply lookup_lt_Some). injection Hj as <-.
    apply (Hno m cm); congruence. }
  rewrite list_lookup_insert_ne in Hj by done. destruct (decide (m = i)) as [->|].
  - rewrite list_lookup_insert_eq in Hm by (by eapply lookup_lt_Some). injection Hm as <-.
    exfalso. apply (Hno j cj); congruence.
  - rewrite list_lookup_insert_ne in Hm by done. eapply (Hw m j); eauto.
Qed.

(** C24: [TCP_SetConnectionState] refines an update of the map of connections:
    it succeeds exactly when the connection has an entry or a closed entry can be
    taken over, the connection then has the state, and every other connection
    keeps its own; when it fails nothing changes.  No connection ever has two
    live entries. *)
Theorem set_connection_state_spec s k st :
  wf_table (ConnectionStateTable s) ->
  exists b s', TCP_SetConnectionState (k_port k) (k_addr k) (k_rport k) st s = Returns (b, s') /\
    (b = true <-> has_room (ConnectionStateTable s) k) /\
    (b = false -> s' = s) /\ wf_table (ConnectionStateTable s') /\
    (b = true -> conn_state (ConnectionStateTable s') k = st /\
      forall k', k' <> k -> conn_state (ConnectionStateTable s') k' = conn_state (ConnectionStateTable s) k').
Proof.
  intros Hw. unfold TCP_SetConnectionState, has_room, mbind, st_bind, reads.
  destruct (list_find (has_key k) (ConnectionStateTable s)) as [[i c]|] eqn:E.
  - assert (at_conn s k i c) as Hat by done.
    eexists true, (put s i (set_State st c)). split_and!; [done|naive_solver|done|..].
    + unfold put. rewrite set_conns_conns. eapply wf_table_same; eauto. by apply (at_conn_key _ _ _ _ Hat).
    + intros _. pose proof (at_conn_key _ _ _ _ Hat) as Hk. split.
      * by rewrite (conn_state_at _ k i (set_State st c)) by (by eapply at_conn_put).
      * intros k' Hk'. by eapply conn_state_put.
  - destruct (list_find (fun c => State c = TCP_Connection_Closed) (ConnectionStateTable s))
      as [[i c]|] eqn:E2.
    2:{ exists false, s. split_and!; try done. naive_solver. }
    apply list_find_Some in E2 as (Hi & Hc & _).
    set (c' := {| Port := k_port k; RemotePort := k_rport k; RemoteAddress := k_addr k;
                  Info := Info c; State := st |}).
    assert (key_of c' = k) as Hk' by (by destruct k).
    eexists true, (put s i c'). split_and!; [done|naive_solver|done|..].
    + unfold put. rewrite set_conns_conns. by eapply wf_table_new.
    + intros _. unfold put. rewrite set_conns_conns. split.
      * unfold conn_state. rewrite (find_new _ _ i c c'); [done|done|done|]. by apply has_key_iff.
      * intros k2 Hk2. eapply conn_state_evict; eauto. congruence.
Qed.
End table.

#[export] Hint Rewrite @put_put @put_out @put_in @put_outf : net.
