(* ===== verification/TCPSpec.v ===== *)
(** * TCP segments and the connection state machine

    The checksum and the header of the segments the stack sends, the connection
    state machine that [TCP_ProcessTCPPacket] implements, and the segments it does
    not handle safely. *)
From S2P Require Import Prelude NetBuffers TCP EthernetStack NetLemmas EthernetSpec TCPTable.

(** ** The checksum *)

(** The sum of the pseudo header. *)
Definition pseudo_sum (src dst : list Z) (N : Z) : Z :=
  word_sum src + word_sum dst + SwapEndian_16 PROTOCOL_TCP + SwapEndian_16 N.

Lemma word_sum_four l :
  length l = 4%nat -> exists a b, peek 0 2 l = Some a /\ peek 2 2 l = Some b /\ word_sum l = le_val a + le_val b.
Proof.
  intros Hl. destruct l as [|a [|b [|c [|d [|]]]]]; try done.
  exists [a; b], [c; d]. split_and!; [done|done|]. cbn. lia.
Qed.

Lemma land_low_byte x : Z.land x 255 = x mod 256.
Proof. change 255 with (Z.ones 8). by rewrite Z.land_ones by lia. Qed.

(** The last byte of an odd number of bytes counts as a word with a zero. *)
Lemma odd_tail d off N c :
  Forall byte_ok d -> 0 <= off -> 0 <= N -> off + N + 1 <= Z.of_nat (length d) ->
  0 <= c + word_sum (slice off N d ++ [0]) < 2 ^ 32 ->
  (if truthy (Z.land N 1)
   then x ← access (peek (off + 2 * (N / 2)) 2 d);
        mret (u32 (c + word_sum (slice off (2 * (N / 2)) d) + Z.land (le_val x) 0x00FF))
   else mret (c + word_sum (slice off (2 * (N / 2)) d)))
  = Returns (c + word_sum (slice off N d ++ [0])).
Proof.
  intros Hd Ho HN Hl Hc.
  replace (Z.land N 1) with (N mod 2) by (change 1 with (Z.ones 1); by rewrite Z.land_ones by lia).
  assert (N mod 2 = 0 /\ N = 2 * (N / 2) \/ N mod 2 = 1 /\ N = 2 * (N / 2) + 1) as [[-> E]|[-> E]] by zdm.
  - rewrite <- E. rewrite word_sum_app by (rewrite length_slice; [zdm|lia..]).
    change (word_sum [0]) with 0. by rewrite Z.add_0_r.
  - change (truthy 1) with true. cbn match. set (m := 2 * (N / 2)) in *.
    rewrite peek_slice by lia. cbn [access mbind outcome_bind].
    pose proof (Forall_slice byte_ok (off + m) 2 d Hd) as Hb.
    pose proof (slice_app (off + m) 1 1 d ltac:(lia) ltac:(lia) ltac:(lia)) as E2. change (1 + 1) with 2 in E2.
    destruct (slice_1 (off + m) d) as [a Ea]; [lia..|].
    destruct (slice_1 (off + m + 1) d) as [b Eb]; [lia..|].
    rewrite Ea, Eb in E2. rewrite E2 in *. cbn [Datatypes.app] in *.
    apply Forall_cons in Hb as [Ha Hb]. unfold byte_ok in Ha.
    assert (word_sum (slice off N d ++ [0]) = word_sum (slice off m d) + a) as ES.
    { rewrite E, slice_app, <- (assoc_L (++)), word_sum_app by (try (rewrite length_slice); zdm).
      rewrite Ea. cbn. lia. }
    rewrite ES in *. rewrite land_low_byte. cbn [le_val].
    replace ((a + 256 * (b + 256 * 0)) mod 256) with a by zdm.
    rewrite Z.add_assoc, u32_small by lia. done.
Qed.

Lemma tcp_checksum_spec d off src dst N :
  Forall byte_ok d -> 0 <= off -> 0 <= N < 65536 -> off + N + 1 <= Z.of_nat (length d) ->
  Z.of_nat (length d) <= 65000 -> length src = 4%nat -> length dst = 4%nat ->
  Forall byte_ok src -> Forall byte_ok dst ->
  let S := pseudo_sum src dst N + word_sum (slice off N d ++ [0]) in
  exists r, TCP_Checksum16 d off src dst N = Returns (65535 - r) /\ 0 <= r < 65536 /\
    (r - S) mod 65535 = 0 /\ (0 < S <-> 0 < r).
Proof.
  intros Hd Ho HN Hl Hs Hs4 Hd4 Hsb Hdb S. unfold TCP_Checksum16.
  destruct (word_sum_four src Hs4) as (s0 & s1 & Es0 & Es1 & Es).
  destruct (word_sum_four dst Hd4) as (d0 & d1 & Ed0 & Ed1 & Ed).
  rewrite Es0, Es1, Ed0, Ed1. cbn [access mbind outcome_bind].
  pose proof (word_sum_range src Hsb) as Rs. pose proof (word_sum_range dst Hdb) as Rd.
  rewrite Hs4 in Rs. rewrite Hd4 in Rd.
  pose proof (SwapEndian_16_range N) as RN.
  assert (SwapEndian_16 PROTOCOL_TCP = 1536) as EP by done.
  assert (u32 (le_val s0 + le_val s1 + le_val d0 + le_val d1 + SwapEndian_16 PROTOCOL_TCP + SwapEndian_16 N)
    = pseudo_sum src dst N) as ->.
  { unfold pseudo_sum. rewrite Es, Ed, EP in *. rewrite u32_small; lia. }
  assert (0 <= pseudo_sum src dst N < 700000) as Rp by (unfold pseudo_sum; lia).
  set (c0 := pseudo_sum src dst N) in *.
  assert (0 <= N / 2 /\ (N = 2 * (N / 2) \/ N = 2 * (N / 2) + 1)) as [Hn1 Hn2] by zdm.
  rewrite Z.shiftr_div_pow2 by lia. change (2 ^ 1) with 2.
  rewrite sum_words_spec by (done || lia). rewrite Z2Nat.id by lia. cbn [mbind outcome_bind].
  set (w := slice off (2 * (N / 2)) d).
  assert (0 <= word_sum w < 65535 * 65000) as Rw.
  { pose proof (word_sum_range w (Forall_slice _ _ _ _ Hd)) as Hw.
    assert (Z.of_nat (length w) = 2 * (N / 2)) by (apply length_slice; lia). lia. }
  assert (match Z.to_nat (N / 2) with O => c0 | _ => u32 (c0 + word_sum w) end = c0 + word_sum w) as ->.
  { destruct (Z.to_nat (N / 2)) eqn:E; [|rewrite u32_small; lia].
    assert (w = []) as -> by (subst w; assert (N / 2 = 0) as -> by lia; done). cbn. lia. }
  assert (0 <= word_sum (slice off N d ++ [0]) <= 65535 * 65000) as RS.
  { pose proof (word_sum_range (slice off N d ++ [0])) as Hw. rewrite length_app, Nat2Z.inj_add, length_slice in Hw by lia.
    change (Z.of_nat (length [0])) with 1 in Hw. specialize (Hw ltac:(apply Forall_app; split; [by apply Forall_slice|list_ok])).
    lia. }
  subst w. rewrite (odd_tail d off N c0) by (done || lia). fold S. cbn [mbind outcome_bind].
  destruct (fold_carries_spec S ltac:(lia)) as (r & -> & Hr & Hm & Hp). exists r. cbn [mbind outcome_bind].
  split_and!; try done; try lia. unfold mret, outcome_ret. f_equal. unfold Z.lnot, wrap.
  symmetry. apply (Z.mod_unique_pos _ _ (-1)); lia.
Qed.

(** A segment between two addresses that passes the receiver's check (the sum of
    an odd number of bytes takes a zero byte behind them). *)
Definition valid_segment (src dst bytes : list Z) : Prop :=
  TCP_Checksum16 (bytes ++ [0]) 0 src dst (Z.of_nat (length bytes)) = Returns 0.

Lemma tcp_checksum_verifies d off src dst N pre post :
  Forall byte_ok d -> 0 <= off -> 0 <= N < 60000 -> off + N + 1 <= Z.of_nat (length d) ->
  Z.of_nat (length d) <= 65000 -> length src = 4%nat -> length dst = 4%nat ->
  Forall byte_ok src -> Forall byte_ok dst ->
  slice off N d = pre ++ [0; 0] ++ post -> Z.of_nat (length pre) mod 2 = 0 ->
  exists c, TCP_Checksum16 d off src dst N = Returns c /\ 0 <= c < 65536 /\
    valid_segment src dst (pre ++ le_bytes 2 c ++ post).
Proof.
  intros Hd Ho HN Hl Hs Hs4 Hd4 Hsb Hdb Es Hp.
  destruct (tcp_checksum_spec d off src dst N) as (r & Hr & Rr & Hm & Hpos); try done; [lia|].
  exists (65535 - r). split_and!; [done|lia|lia|].
  assert (N = Z.of_nat (length (pre ++ le_bytes 2 (65535 - r) ++ post))) as EN.
  { apply (f_equal (fun l => Z.of_nat (length l))) in Es. rewrite length_slice in Es by lia.
    rewrite !length_app in *. rewrite length_le_bytes. cbn [length] in Es. lia. }
  assert (Forall byte_ok (pre ++ [0; 0] ++ post)) as HF by (rewrite <- Es; by apply Forall_slice).
  apply Forall_app in HF as [HF1 HF]. apply Forall_app in HF as [_ HF2].
  unfold valid_segment. rewrite <- EN. set (new := pre ++ le_bytes 2 (65535 - r) ++ post) in *.
  assert (Forall byte_ok new) as Hnew by (subst new; repeat (apply Forall_app; split); try done; apply le_bytes_ok).
  destruct (tcp_checksum_spec (new ++ [0]) 0 src dst N) as (r' & Hr' & Rr' & Hm' & Hpos');
    try done; try (rewrite length_app; cbn [length]; lia); [apply Forall_app; split; [done|list_ok]|lia|].
  assert (slice 0 N (new ++ [0]) = new) as En.
  { unfold slice. rewrite EN, Nat2Z.id. change (Z.to_nat 0) with 0%nat. by rewrite drop_0, take_app_length. }
  rewrite En in *. rewrite Es in *. subst new.
  rewrite <- !(assoc_L (++)) in *. rewrite !word_sum_app in Hm, Hpos, Hm', Hpos' by done.
  change (word_sum [0; 0]) with 0 in *.
  assert (word_sum (le_bytes 2 (65535 - r)) = 65535 - r) as Ew by (cbn [le_bytes word_sum]; zdm).
  rewrite Ew in *. rewrite Hr'. f_equal.
  pose proof (word_sum_range pre HF1) as R1.
  pose proof (word_sum_range (post ++ [0]) ltac:(apply Forall_app; split; [done|list_ok])) as R2.
  pose proof (word_sum_range src Hsb). pose proof (word_sum_range dst Hdb).
  pose proof (SwapEndian_16_range N). unfold pseudo_sum in *. change (SwapEndian_16 PROTOCOL_TCP) with 1536 in *.
  assert (0 < r') by (apply Hpos'; lia). assert (r' mod 65535 = 0) by zdm. zdm.
Qed.

(** ** Replies *)

(** The 20 bytes of a segment header without options. *)
Definition tcp_bytes (sport dport seq ack flags window sum : Z) : list Z :=
  le_bytes 2 sport ++ le_bytes 2 dport ++ le_bytes 4 (SwapEndian_32 seq) ++ le_bytes 4 (SwapEndian_32 ack) ++
  [0x50] ++ [flags] ++ be16 window ++ le_bytes 2 sum ++ [0; 0].

Definition seg_key (g : segment) : key := mk_key (sg_dport g) (sg_addr g) (sg_sport g).

(** The window a connection offers. *)
Definition window_of (b : TCP_ConnectionBuffer_t) : Z :=
  if InUse b then u16 (TCP_WINDOW_SIZE - Length b) else TCP_WINDOW_SIZE.

(** Steps on the entry of the connection of [g], which is at [i]. *)
Ltac at_tac Hat Hk :=
  repeat apply at_conn_out; first [exact Hat | eapply at_conn_put; [exact Hat|exact Hk]].
Ltac tcp_step1 g i Hat Hk :=
  first
  [ progress unfold reply_flags at 1
  | eapply (nwp_set_state _ (seg_key g) i _); [at_tac Hat Hk|]
  | eapply (nwp_get_info _ (seg_key g) i _); [at_tac Hat Hk|]
  | eapply (nwp_deref _ (seg_key g) i _); [at_tac Hat Hk|]
  | eapply (nwp_update_info _ (seg_key g) i _); [at_tac Hat Hk|]
  | nstep1 ]; cbn beta zeta; net_simpl.

Section tcp.
Context {A : Type}.
Implicit Types s : net A.

(** The checksum of a segment in the output frame, and the segment with it. *)
Lemma tcp_checksum_wrote s d1 off src dst pre post :
  wf_frames s -> wrote s (set_out_data d1 s) off (pre ++ [0; 0] ++ post) ->
  0 <= off -> off + Z.of_nat (length (pre ++ [0; 0] ++ post)) < 1500 ->
  Z.of_nat (length pre) mod 2 = 0 ->
  length src = 4%nat -> length dst = 4%nat -> Forall byte_ok src -> Forall byte_ok dst ->
  exists sum,
    TCP_Checksum16 d1 off src dst (Z.of_nat (length (pre ++ [0; 0] ++ post))) = Returns sum /\
    wrote s (set_out_data (splice (off + Z.of_nat (length pre)) (le_bytes 2 sum) d1) s) off
      (pre ++ le_bytes 2 sum ++ post) /\
    valid_segment src dst (pre ++ le_bytes 2 sum ++ post).
Proof.
  intros W Hw Ho Hl Hp Hs4 Hd4 Hsb Hdb. pose proof (wrote_wf _ _ _ _ Hw W) as W1. start_frames W1.
  rewrite set_out_out in *.
  assert (slice off (Z.of_nat (length (pre ++ [0; 0] ++ post))) d1 = pre ++ [0; 0] ++ post) as Es.
  { destruct Hw as (d & E & _ & _ & Es & _).
    assert (d1 = d) as -> by (by injection E). exact Es. }
  destruct (tcp_checksum_verifies d1 off src dst (Z.of_nat (length (pre ++ [0; 0] ++ post))) pre post)
    as (sum & Hc & Rc & Hv); try done; try lia.
  exists sum. split_and!; [done| |done].
  rewrite <- (set_out_twice _ d1 s). 
  by apply (wrote_patch s (set_out_data d1 s) off pre [0; 0] (le_bytes 2 sum) post);
    [done|lia|exact Hw|done|apply le_bytes_ok].
Qed.

Lemma tcp_reply_spec s g i c flags :
  wf_frames s -> at_conn s (seg_key g) i c -> 0 <= sg_ip g <= 100 -> 0 <= sg_out g <= 100 ->
  slice (sg_out g + 13) 1 (out_data s) = [flags] ->
  let src := slice (sg_ip g + 16) 4 (in_data s) in
  let dst := slice (sg_ip g + 12) 4 (in_data s) in
  nwp (tcp_reply g) s (fun r s' => r = 20 /\ exists sum,
    let bytes := tcp_bytes (sg_dport g) (sg_sport g) (SequenceNumberOut (Info c)) (SequenceNumberIn (Info c))
                   flags (window_of (Buffer (Info c))) sum in
    wrote s s' (sg_out g) bytes /\ valid_segment src dst bytes).
Proof.
  intros W Hat Hip Hout Hfl src dst. start_frames W. unfold tcp_reply. nstep.
  apply (nwp_get_info _ (seg_key g) i c); [exact Hat|]. nstep.
  eapply nwp_deref; [exact Hat|]. nstep.
  slices. rewrite tcp_offset_bits.
  assert (0 <= window_of (Buffer (Info c)) < 65536) as Hwin.
  { unfold window_of. destruct (InUse _); [apply u16_range|done]. }
  replace (if negb _ then _ else _) with (window_of (Buffer (Info c)))
    by (unfold window_of; by destruct (InUse _)).
  rewrite le_bytes_swap by done. autounfold with net. set (d1 := splice (sg_out g + 12) [0x50] _).
  assert (wrote s (set_out_data d1 s) (sg_out g) ((le_bytes 2 (sg_dport g) ++ le_bytes 2 (sg_sport g) ++
    le_bytes 4 (SwapEndian_32 (SequenceNumberOut (Info c))) ++
    le_bytes 4 (SwapEndian_32 (SequenceNumberIn (Info c))) ++ [0x50] ++ [flags] ++
    be16 (window_of (Buffer (Info c)))) ++ [0; 0] ++ [0; 0])) as Hw.
  { subst d1. unfold be16. rewrite <- !(assoc_L (++)). wrote_fields. all: try (rewrite <- Hfl; f_equal; net_len). }
  destruct (tcp_checksum_wrote s d1 (sg_out g) src dst _ _ W Hw) as (sum & Hc & Hw' & Hv);
    try done; try lia; try (by apply Forall_slice); try (apply Nat2Z.inj; subst src dst; rewrite length_slice; lia).
  { change (sg_out g + 20 < 1500). lia. }
  assert (Z.of_nat (length d1) = 1500) as Hl1 by (by destruct (wrote_wf _ _ _ _ Hw W)).
  eapply nwp_lift; [exact Hc|]. nstep. split; [done|]. exists sum.
  revert Hw' Hv. unfold tcp_bytes. rewrite <- !(assoc_L (++)). done.
Qed.

(** ** The state machine *)

(** The connection state machine: the state after a segment with [flags], and
    the flags of the reply, if there is one. *)
Definition tcp_switch (st flags : Z) : Z * option Z :=
  let FIN_ACK := Z.lor TCP_FLAG_FIN TCP_FLAG_ACK in
  if st =? TCP_Connection_Listen then
    if flags =? TCP_FLAG_SYN
    then (TCP_Connection_SYNReceived, Some (Z.lor TCP_FLAG_SYN TCP_FLAG_ACK)) else (st, None) else
  if st =? TCP_Connection_SYNReceived then
    if flags =? TCP_FLAG_ACK then (TCP_Connection_Established, None) else (st, None) else
  if st =? TCP_Connection_Established then
    if flags =? FIN_ACK then (TCP_Connection_CloseWait, Some FIN_ACK) else (st, None) else
  if st =? TCP_Connection_Closing then (TCP_Connection_FINWait1, Some FIN_ACK) else
  if st =? TCP_Connection_FINWait1 then
    if flags =? FIN_ACK then (TCP_Connection_Closed, Some TCP_FLAG_ACK)
    else if flags =? TCP_FLAG_ACK then (TCP_Connection_FINWait2, None) else (st, None) else
  if st =? TCP_Connection_FINWait2 then
    if flags =? FIN_ACK then (TCP_Connection_Closed, Some TCP_FLAG_ACK) else (st, None) else
  if st =? TCP_Connection_CloseWait then
    if flags =? TCP_FLAG_ACK then (TCP_Connection_Closed, None) else (st, None) else (st, None).

Definition tcp_step (st flags : Z) : Z * option Z :=
  if truthy (Z.land flags TCP_FLAG_RST)
  then (TCP_Connection_Closed, Some (Z.lor TCP_FLAG_RST TCP_FLAG_ACK))
  else tcp_switch (if truthy (Z.land flags TCP_FLAG_SYN) then TCP_Connection_Listen else st) flags.

(** The segments that carry data. *)
Definition data_segment (st flags : Z) : Prop :=
  st = TCP_Connection_Established /\ (flags = TCP_FLAG_ACK \/ flags = Z.lor TCP_FLAG_ACK TCP_FLAG_PSH).

(** The outcome of one case: entry [i] has the state [st'], and the reply's flags
    are in the output frame. *)
Definition case_result s (g : segment) (i : nat) (next : Z * option Z) (r : option bool) s' : Prop :=
  r = Some (bool_decide (is_Some (snd next))) /\
  exists c' d, key_of c' = seg_key g /\ State c' = fst next /\ s' = set_out_data d (put s i c') /\
    Z.of_nat (length d) = 1500 /\ Forall byte_ok d /\
    (forall f, snd next = Some f -> slice (sg_out g + 13) 1 d = [f]).

Lemma set_out_self s : set_out_data (out_data s) s = s.
Proof. by destruct s as [? []]. Qed.

Lemma put_self s k i c : at_conn s k i c -> put s i c = s.
Proof.
  intros H. unfold put. rewrite list_insert_id by (by eapply at_conn_lookup). by destruct s.
Qed.

Lemma case_reply s g i c' st f f' :
  wf_frames s -> 0 <= sg_out g <= 200 -> key_of c' = seg_key g -> State c' = st -> f' mod 256 = f ->
  case_result s g i (st, Some f) (Some true)
    (set_out_data (splice (sg_out g + tcp_Flags) (le_bytes 1 f') (out_data s)) (put s i c')).
Proof.
  intros W Ho Hk Hs Hf. start_frames W. split; [done|]. exists c'. eexists. split_and!; try done.
  - net_len.
  - bytes_ok.
  - cbn [snd]. intros f0 [= <-]. autounfold with net. slices. cbn [le_bytes]. by rewrite Hf.
Qed.

Lemma case_silent s g i c' st :
  wf_frames s -> key_of c' = seg_key g -> State c' = st ->
  case_result s g i (st, None) (Some false) (put s i c').
Proof.
  intros W Hk Hs. start_frames W. split; [done|]. exists c', (out_data s).
  split_and!; try done. by destruct s as [? []].
Qed.

Lemma on_state_spec s g i c :
  wf_frames s -> at_conn s (seg_key g) i c -> 0 <= sg_in g <= 200 -> 0 <= sg_out g <= 200 ->
  ~ data_segment (State c) (sg_flags g) ->
  nwp (on_state g (State c)) s (case_result s g i (tcp_switch (State c) (sg_flags g))).
Proof.
  intros W Hat Hin Hout Hnd. start_frames W. pose proof (at_conn_key _ _ _ _ Hat) as Hk.
  assert (case_result s g i (State c, None) (Some false) s) as Hstay.
  { split; [done|]. exists c, (out_data s). rewrite (put_self _ _ _ _ Hat), set_out_self.
    split_and!; try done. }
  unfold on_state, tcp_switch, reply_flags, on_listen, on_syn_received, on_established, on_closing,
    on_fin_wait1, on_fin_wait2, on_close_wait, on_fin. cbv zeta.
  repeat lazymatch goal with
  | |- context [State c =? ?st] => destruct (Z.eqb_spec (State c) st) as [?|?]
  end; try exact Hstay;
  repeat lazymatch goal with
  | |- nwp (if sg_flags g =? ?f then _ else _) _ _ => destruct (Z.eqb_spec (sg_flags g) f) as [?|?]
  end; try exact Hstay;
  repeat tcp_step1 g i Hat Hk; try exact Hstay.
  4:{ destruct (Z.eqb_spec (sg_flags g) TCP_FLAG_ACK); [by destruct Hnd; split; auto|].
      destruct (Z.eqb_spec (sg_flags g) (Z.lor TCP_FLAG_ACK TCP_FLAG_PSH)); [by destruct Hnd; split; auto|].
      exact Hstay. }
  all: first [by apply case_reply | by apply case_silent].
Qed.

(** ** [TCP_ProcessTCPPacket] *)

(** The segment in the input frame. *)
Definition segment_at (d : list Z) (ip tcp out : Z) : segment :=
  {| sg_ip := ip; sg_in := tcp; sg_out := out; sg_dport := le_val (slice (tcp + 2) 2 d);
     sg_addr := slice (ip + 12) 4 d; sg_sport := le_val (slice tcp 2 d);
     sg_flags := le_val (slice (tcp + 13) 1 d) |}.

Definition port_open s (port : Z) : Prop :=
  exists i p, list_find (fun p => P_Port p = port) (PortStateTable s) = Some (i, p) /\
              P_State p = TCP_Port_Open.

(** Setting the state of a connection that has room gives it an entry. *)
Lemma set_state_room s k st (Q : bool -> net A -> Prop) :
  wf_table (ConnectionStateTable s) -> has_room (ConnectionStateTable s) k ->
  (forall i c, at_conn (put s i c) k i c -> State c = st -> wf_table (ConnectionStateTable (put s i c)) ->
     (forall k', k' <> k -> conn_state (ConnectionStateTable (put s i c)) k'
                            = conn_state (ConnectionStateTable s) k') -> Q true (put s i c)) ->
  nwp (TCP_SetConnectionState (k_port k) (k_addr k) (k_rport k) st) s Q.
Proof.
  intros Hw Hr HQ. unfold TCP_SetConnectionState. nstep.
  destruct (list_find (has_key k) (ConnectionStateTable s)) as [[i c]|] eqn:E.
  - assert (at_conn s k i c) as Hat by done. pose proof (at_conn_key _ _ _ _ Hat) as Hk.
    nstep. apply HQ; [by eapply at_conn_put|done|by eapply wf_table_same|].
    intros k' Hk'. by eapply conn_state_put.
  - destruct Hr as [[? Hr]|[[i c] Hr]]; [congruence|]. rewrite Hr. nstep.
    apply list_find_Some in Hr as (Hi & Hc & _). apply HQ; [|done|..].
    + eapply find_new; [done|done|]. apply has_key_iff. by destruct k.
    + eapply wf_table_new; try done. by destruct k.
    + intros k' Hk'. eapply conn_state_evict; eauto. destruct k. unfold key_of. cbn in *. congruence.
Qed.

(** [s'] is [s] with the connection of [g] moved to the state of [next], and the
    flags of the reply, if there is one, in the output frame. *)
Definition moved s (g : segment) (next : Z * option Z) (r : option bool) s' : Prop :=
  r = Some (bool_decide (is_Some (snd next))) /\
  conn_state (ConnectionStateTable s') (seg_key g) = fst next /\
  (forall k', k' <> seg_key g -> conn_state (ConnectionStateTable s') k'
                                 = conn_state (ConnectionStateTable s) k') /\
  wf_table (ConnectionStateTable s') /\ wf_frames s' /\ FrameIN s' = FrameIN s /\
  FrameLength (FrameOUT s') = FrameLength (FrameOUT s) /\ PortStateTable s' = PortStateTable s /\
  (forall f, snd next = Some f -> slice (sg_out g + 13) 1 (out_data s') = [f] /\
     exists i c, at_conn s' (seg_key g) i c).

(** The entry exists: the case of its state. *)
Lemma moved_state s g i c :
  wf_frames s -> wf_table (ConnectionStateTable s) -> at_conn s (seg_key g) i c ->
  0 <= sg_in g <= 200 -> 0 <= sg_out g <= 200 -> ~ data_segment (State c) (sg_flags g) ->
  nwp (on_state g (State c)) s (moved s g (tcp_switch (State c) (sg_flags g))).
Proof.
  intros W Hwt Hat Hin Hout Hnd. start_frames W.
  eapply nwp_mono; [apply on_state_spec; done|].
  intros r s' (-> & c' & d & Hk & Hst & -> & Hl & Hb & Hf). pose proof (at_conn_put _ _ _ _ c' Hat Hk) as Hat'.
  unfold moved. net_simpl. rewrite (conn_state_at _ _ _ _ Hat').
  split_and!; try done.
  - intros k' Hk'. by eapply conn_state_put.
  - by eapply wf_table_same.
  - intros f Ef. split; [by apply Hf|]. by exists i, c'.
Qed.

(** A reset closes the connection. *)
Lemma moved_reset s g :
  wf_frames s -> wf_table (ConnectionStateTable s) -> has_room (ConnectionStateTable s) (seg_key g) ->
  0 <= sg_out g <= 200 ->
  nwp (ok ← TCP_SetConnectionState (sg_dport g) (sg_addr g) (sg_sport g) TCP_Connection_Closed;
       if ok : bool then reply_flags g (Z.lor TCP_FLAG_RST TCP_FLAG_ACK);; mret (Some true)
       else mret (Some false)) s
    (moved s g (TCP_Connection_Closed, Some (Z.lor TCP_FLAG_RST TCP_FLAG_ACK))).
Proof.
  intros W Hwt Hr Hout. start_frames W. apply nwp_bind. apply (set_state_room s (seg_key g)); [done..|].
  intros i c Hat Hst Hwt' Ho. cbn beta. unfold reply_flags. nstep.
  unfold moved. net_simpl. rewrite (conn_state_at _ _ _ _ Hat). split_and!; try done.
  - split; net_simpl; try done; [net_len|bytes_ok].
  - cbn [snd]. intros f [= <-]. split; [|by exists i, c]. autounfold with net. by slices.
Qed.

Lemma moved_from s s1 g next r s' :
  (forall k', k' <> seg_key g -> conn_state (ConnectionStateTable s1) k' = conn_state (ConnectionStateTable s) k') ->
  FrameIN s1 = FrameIN s -> FrameLength (FrameOUT s1) = FrameLength (FrameOUT s) ->
  PortStateTable s1 = PortStateTable s -> moved s1 g next r s' -> moved s g next r s'.
Proof.
  intros Ho Hi Hl Hp (-> & H1 & H2 & H3 & H4 & H5 & H6 & H7 & H8).
  unfold moved. split_and!; try done; try congruence. intros k' Hk'. rewrite H2, Ho; done.
Qed.

(** A segment for an open port moves its connection as the state machine says. *)
Lemma on_open_port_spec s g :
  wf_frames s -> wf_table (ConnectionStateTable s) -> has_room (ConnectionStateTable s) (seg_key g) ->
  0 <= sg_in g <= 200 -> 0 <= sg_out g <= 200 ->
  ~ data_segment (conn_state (ConnectionStateTable s) (seg_key g)) (sg_flags g) ->
  nwp (on_open_port g) s
    (moved s g (tcp_step (conn_state (ConnectionStateTable s) (seg_key g)) (sg_flags g))).
Proof.
  intros W Hwt Hr Hin Hout Hnd. unfold on_open_port, tcp_step.
  set (k := seg_key g) in *.
  destruct (truthy (Z.land (sg_flags g) TCP_FLAG_SYN)) eqn:Esyn.
  - nstep. apply (set_state_room s k); [done..|]. intros i c Hat Hst Hwt1 Ho1. cbn beta. nstep.
    assert (wf_frames (put s i c)) as W1 by (by destruct W).
    eapply nwp_mono; [|intros r s' Hm; eapply (moved_from s (put s i c)); [done..|exact Hm]].
    destruct (truthy (Z.land (sg_flags g) TCP_FLAG_RST)).
    + apply moved_reset; try done. left. by exists (i, c).
    + nstep. apply (nwp_get_state _ k i c); [done|]. rewrite <- Hst. apply (moved_state _ _ i); try done.
      intros [E _]. by rewrite Hst in E.
  - nstep. destruct (truthy (Z.land (sg_flags g) TCP_FLAG_RST)); [by apply moved_reset|].
    destruct (list_find (has_key k) (ConnectionStateTable s)) as [[i c]|] eqn:E.
    + assert (at_conn s k i c) as Hat by done. rewrite (conn_state_at _ _ _ _ Hat) in *.
      nstep. apply (nwp_get_state _ k i c); [done|]. by apply (moved_state _ _ i).
    + assert (conn_state (ConnectionStateTable s) k = TCP_Connection_Closed) as Ec
        by (unfold conn_state; by rewrite E).
      rewrite Ec. nstep. unfold TCP_GetConnectionState. nstep.
      change (list_find _ (ConnectionStateTable s)) with (list_find (has_key k) (ConnectionStateTable s)).
      rewrite E. nstep. unfold moved. by split_and!.
Qed.

(** The reading of the header, in front of the processing of the segment. *)
Lemma process_segment s ip tcp out :
  wf_frames s -> 0 <= ip <= 100 -> 0 <= tcp <= 200 ->
  let g := segment_at (in_data s) ip tcp out in
  TCP_ProcessTCPPacket ip tcp out s =
  (port ← TCP_GetPortState (sg_dport g);
   r ← (if port =? TCP_Port_Open then on_open_port g
        else reply_flags g (Z.lor TCP_FLAG_RST TCP_FLAG_ACK);; mret (Some true));
   match r with
   | None => mret NO_PROCESS
   | Some PacketResponse => if PacketResponse : bool then tcp_reply g else mret NO_RESPONSE
   end) s.
Proof.
  intros W Hip Htcp g. start_frames W. unfold TCP_ProcessTCPPacket. autounfold with net.
  erewrite bind_eq by (apply in_u16_eq; lia). erewrite bind_eq by (apply in_bytes_eq; lia).
  erewrite bind_eq by (apply in_u16_eq; lia). erewrite bind_eq by (apply in_u8_eq; lia).
  by rewrite Z.add_0_r.
Qed.

Lemma nwp_port_open s port (Q : Z -> net A -> Prop) :
  port_open s port -> Q TCP_Port_Open s -> nwp (TCP_GetPortState port) s Q.
Proof. intros (i & p & E & Hp) HQ. unfold TCP_GetPortState. nstep. rewrite E. nstep. by rewrite Hp. Qed.

(** C7: [TCP_ProcessTCPPacket] refines the connection state machine [tcp_step].
    For a segment without data to an open port, whose connection has an entry or
    can get one, the connection of the sender moves to the state of the machine,
    every other connection keeps its state, and a reply is made exactly when the
    machine has one: a header with the machine's flags, the ports exchanged and a
    valid checksum. *)
Theorem tcp_state_machine s ip tcp out :
  wf_frames s -> wf_table (ConnectionStateTable s) -> 0 <= ip <= 100 -> 0 <= tcp <= 200 -> 0 <= out <= 100 ->
  let g := segment_at (in_data s) ip tcp out in
  port_open s (sg_dport g) -> has_room (ConnectionStateTable s) (seg_key g) ->
  ~ data_segment (conn_state (ConnectionStateTable s) (seg_key g)) (sg_flags g) ->
  let next := tcp_step (conn_state (ConnectionStateTable s) (seg_key g)) (sg_flags g) in
  exists r s', TCP_ProcessTCPPacket ip tcp out s = Returns (r, s') /\
    conn_state (ConnectionStateTable s') (seg_key g) = fst next /\
    (forall k, k <> seg_key g -> conn_state (ConnectionStateTable s') k = conn_state (ConnectionStateTable s) k) /\
    wf_table (ConnectionStateTable s') /\ wf_frames s' /\ FrameIN s' = FrameIN s /\
    match snd next with
    | None => r = NO_RESPONSE
    | Some f => r = sizeof_TCP_Header_t /\ exists seq ack window sum,
        let bytes := tcp_bytes (sg_dport g) (sg_sport g) seq ack f window sum in
        slice out 20 (out_data s') = bytes /\
        valid_segment (slice (ip + 16) 4 (in_data s)) (slice (ip + 12) 4 (in_data s)) bytes
    end.
Proof.
  intros W Hwt Hip Htcp Hout g Hport Hr Hnd next. apply nwp_returns.
  unfold nwp. rewrite process_segment by done. fold g.
  apply nwp_bind, nwp_port_open; [exact Hport|]. cbn beta.
  change (TCP_Port_Open =? TCP_Port_Open) with true. cbn match. apply nwp_bind.
  eapply nwp_mono; [apply on_open_port_spec; try done; cbn; lia|].
  fold g. fold next. intros r s1 (-> & Hst & Ho & Hwt1 & W1 & Hi & _ & _ & Hf). cbn beta match.
  destruct (snd next) as [f|]; cbn [bool_decide].
  - destruct (Hf f eq_refl) as [Hfl (i & c & Hat)].
    change (bool_decide _) with true. cbn match.
    eapply nwp_mono; [apply (tcp_reply_spec s1 g i c f); done|].
    intros r s' (-> & sum & Hw & Hv). rewrite Hi in Hv.
    pose proof (wrote_wf _ _ _ _ Hw W1) as W'.
    destruct Hw as (d & -> & _ & _ & Hs & _). split_and!; try done.
    eexists _, _, _, sum. split; [exact Hs|exact Hv].
  - change (bool_decide _) with false. by nstep.
Qed.

(** A segment for a port that is not open is meant to be refused with a
    reset, but the reply takes its sequence numbers from the connection's entry:
    when the sender has none, the lookup's [NULL] is used. *)
Theorem closed_port_null s ip tcp out :
  wf_frames s -> 0 <= ip <= 100 -> 0 <= tcp <= 200 -> 0 <= out <= 100 ->
  let g := segment_at (in_data s) ip tcp out in
  list_find (fun p => P_Port p = sg_dport g) (PortStateTable s) = None ->
  list_find (has_key (seg_key g)) (ConnectionStateTable s) = None ->
  TCP_ProcessTCPPacket ip tcp out s = Faults.
Proof.
  intros W Hip Htcp Hout g Hport Hnone. start_frames W. rewrite process_segment by done. fold g.
  unfold TCP_GetPortState. erewrite bind_eq by (erewrite bind_eq by done; by rewrite Hport).
  change (TCP_Port_Closed =? TCP_Port_Open) with false. cbn match.
  assert (sg_out g = out) as Eout by done.
  apply faults_bind. unfold reply_flags. nstep. unfold tcp_reply, TCP_GetConnectionInfo.
  cbn [k_port k_addr k_rport seg_key] in Hnone.
  erewrite bind_eq by (erewrite bind_eq by done; net_simpl; by rewrite Hnone).
  do 2 fstep. by apply faults_left.
Qed.

(** ** Data *)

(** The data of a segment: where it starts and its length, from the lengths in
    the two headers. *)
Definition data_offset (d : list Z) (g : segment) : Z :=
  Z.shiftr (le_val (slice (sg_in g + 12) 1 d)) 4 * 4.
Definition data_length (d : list Z) (g : segment) : Z :=
  u16 (SwapEndian_16 (le_val (slice (sg_ip g + 2) 2 d)) - Z.land (le_val (slice (sg_ip g) 1 d)) 15 * 4
       - data_offset d g).

(** The buffer of a connection that is free takes the direction of the data. *)
Definition claim_buffer (b : TCP_ConnectionBuffer_t) : TCP_ConnectionBuffer_t :=
  if negb (InUse b) && negb (Ready b)
  then set_Length 0 (set_InUse true (set_Direction TCP_PACKETDIR_IN b)) else b.

(** The buffer can take data: it holds received data and is not full. *)
Definition receiving (b : TCP_ConnectionBuffer_t) : Prop :=
  Direction b = TCP_PACKETDIR_IN /\ Length b <> TCP_WINDOW_SIZE.

(** Received data is handed to the application when the buffer is full or the
    sender pushes. *)
Definition handed (b : TCP_ConnectionBuffer_t) (n : Z) (push : bool) : bool :=
  (Length b + n =? TCP_WINDOW_SIZE) || push.

(** The buffer after [bytes] have been received. *)
Definition receive (b : TCP_ConnectionBuffer_t) (bytes : list Z) (hand : bool) : TCP_ConnectionBuffer_t :=
  let len := Length b + Z.of_nat (length bytes) in
  let b := set_Length len (set_Data (splice (Length b) bytes (Data b)) b) in
  if hand then set_Ready true (set_InUse false b) else b.

Lemma claim_spec s k i c :
  at_conn s k i c ->
  nwp (if negb (InUse (Buffer (Info c))) && negb (Ready (Buffer (Info c))) then
     update_info (Some i) (on_Buffer (set_Direction TCP_PACKETDIR_IN));;
     update_info (Some i) (on_Buffer (set_InUse true));;
     update_info (Some i) (on_Buffer (set_Length 0)) else mret tt) s
    (fun _ s' => s' = put s i (on_Info (on_Buffer claim_buffer) c)).
Proof.
  intros Hat. pose proof (at_conn_key _ _ _ _ Hat) as Hk.
  set (c1 := on_Info (on_Buffer claim_buffer) c).
  destruct (negb (InUse (Buffer (Info c))) && negb (Ready (Buffer (Info c)))) eqn:E.
  - nstep. eapply nwp_update_info; [exact Hat|]. nstep.
    eapply nwp_update_info; [eapply at_conn_put; [exact Hat|exact Hk]|]. net_simpl.
    eapply nwp_update_info; [eapply at_conn_put; [exact Hat|exact Hk]|]. net_simpl.
    f_equal. subst c1. unfold on_Info, on_Buffer, claim_buffer. cbn. by rewrite E.
  - nstep. assert (c1 = c) as ->; [|by rewrite (put_self _ _ _ _ Hat)]. subst c1.
    unfold on_Info, on_Buffer, claim_buffer. rewrite E. by destruct c as [? ? ? [] ?].
Qed.

Lemma data_offset_range d g :
  Forall byte_ok d -> 0 <= sg_in g -> sg_in g + 13 <= Z.of_nat (length d) -> 0 <= data_offset d g <= 60.
Proof.
  intros Hd Hi Hl. unfold data_offset. rewrite Z.shiftr_div_pow2 by lia.
  pose proof (le_val_range (slice (sg_in g + 12) 1 d) (Forall_slice _ _ _ _ Hd)) as Hr.
  rewrite length_slice in Hr by lia. zdm.
Qed.

Lemma on_data_spec s g i c :
  wf_frames s -> at_conn s (seg_key g) i c -> 0 <= sg_ip g <= 100 -> 0 <= sg_in g <= 200 -> 0 <= sg_out g <= 200 ->
  let b := claim_buffer (Buffer (Info c)) in
  let n := data_length (in_data s) g in
  receiving b -> Z.of_nat (length (Data b)) = TCP_WINDOW_SIZE -> 0 <= Length b -> Length b + n <= TCP_WINDOW_SIZE ->
  sg_in g + data_offset (in_data s) g + n <= 1500 ->
  nwp (on_data g) s (fun r s' =>
    let bytes := slice (sg_in g + data_offset (in_data s) g) n (in_data s) in
    let hand := handed b n (truthy (Z.land (sg_flags g) TCP_FLAG_PSH)) in
    let b' := receive b bytes hand in
    r = Some hand /\
    exists c' d, s' = set_out_data d (put s i c') /\ Z.of_nat (length d) = 1500 /\ Forall byte_ok d /\
      (hand = true -> slice (sg_out g + 13) 1 d = [TCP_FLAG_ACK]) /\
      key_of c' = seg_key g /\ State c' = State c /\ Buffer (Info c') = b' /\ SequenceNumberOut (Info c') = SequenceNumberOut (Info c) /\
      SequenceNumberIn (Info c') = u32 (SequenceNumberIn (Info c) + n)).
Proof.
  intros W Hat Hip Hin Hout b n (Hdir & Hfull) HD Hl0 Hl Hn. start_frames W.
  pose proof (at_conn_key _ _ _ _ Hat) as Hk. unfold on_data. do 5 tcp_step1 g i Hat Hk.
  pose (c1 := on_Info (on_Buffer claim_buffer) c).
  nstep. eapply nwp_mono; [by apply (claim_spec s (seg_key g))|]. intros [] s1 ->. cbn beta. fold c1.
  assert (at_conn (put s i c1) (seg_key g) i c1) as Hat1 by (by eapply at_conn_put).
  nstep. eapply nwp_deref; [exact Hat1|]. change (Buffer (Info c1)) with b.
  replace (eqb (Direction b) TCP_PACKETDIR_IN && negb (Length b =? TCP_WINDOW_SIZE)) with true
    by (rewrite Hdir; symmetry; apply negb_true_iff, Z.eqb_neq; done).
  assert (0 <= data_offset (in_data s) g) as Hoff by (apply data_offset_range; done || lia).
  assert (0 <= n) as Hn0 by apply u16_range.
  nstep. autounfold with net. fold (data_offset (in_data s) g). fold (data_length (in_data s) g). fold n.
  nstep. set (bytes := slice (sg_in g + data_offset (in_data s) g) n (in_data s)).
  assert (Z.of_nat (length bytes) = n) as Eb by (apply length_slice; lia).
  eapply nwp_lift; [by rewrite poke_splice by lia|]. set (data := splice (Length b) bytes (Data b)).
  assert (u16 (Length b + n) = Length b + n) as El by (apply u16_small; unfold TCP_WINDOW_SIZE in *; lia).
  repeat tcp_step1 g i Hat Hk. set (c2 := on_Info (on_Buffer _) (on_Info _ (on_Info _ c1))).
  change (Length (Buffer (Info c2))) with (u16 (Length b + n)). rewrite El.
  assert (Buffer (Info c2) = receive b bytes false) as Eb2.
  { unfold receive. rewrite Eb, <- El. done. }
  replace (negb (truthy (u16 (TCP_WINDOW_SIZE - (Length b + n))))) with (Length b + n =? TCP_WINDOW_SIZE).
  2:{ unfold truthy. rewrite negb_involutive, u16_small by (unfold TCP_WINDOW_SIZE in *; lia).
      apply eq_true_iff_eq. rewrite !Z.eqb_eq. lia. }
  fold (handed b n (truthy (Z.land (sg_flags g) TCP_FLAG_PSH))). destruct (handed _ _ _).
  - repeat tcp_step1 g i Hat Hk. split; [done|]. eexists _, _. split; [reflexivity|].
    split_and!; try done; [net_len|bytes_ok|intros _; by slices|].
    cbn [Info on_Info Buffer on_Buffer] in *. rewrite Eb2. done.
  - nstep. split; [done|]. exists c2, (out_data s). split_and!; try done.
    rewrite <- (set_out_self (put s i c2)) at 1. done.
Qed.

Lemma get_state_eq s k i c :
  at_conn s k i c -> TCP_GetConnectionState (k_port k) (k_addr k) (k_rport k) s = Returns (State c, s).
Proof. intros H. unfold TCP_GetConnectionState. erewrite bind_eq by done. by rewrite H. Qed.

(** A segment with data reaches the data case. *)
Lemma data_case s g i c :
  at_conn s (seg_key g) i c -> data_segment (State c) (sg_flags g) -> on_open_port g s = on_data g s.
Proof.
  intros Hat [Hst Hfl]. unfold on_open_port.
  assert (truthy (Z.land (sg_flags g) TCP_FLAG_SYN) = false) as -> by (by destruct Hfl as [-> | ->]).
  assert (truthy (Z.land (sg_flags g) TCP_FLAG_RST) = false) as -> by (by destruct Hfl as [-> | ->]).
  erewrite bind_eq by done. erewrite bind_eq by (by apply (get_state_eq s (seg_key g) i c)).
  rewrite Hst. change (on_state g TCP_Connection_Established s) with (on_established g s).
  unfold on_established. by destruct Hfl as [-> | ->].
Qed.

(** Data for an established connection.  When the buffer of the connection
    is free or receiving and the data fits, it is appended to the buffer, the
    sequence number moves by its length, the connection stays established, the
    others are not touched, and the buffer goes to the application, and is
    acknowledged, exactly when it is full or the sender pushes. *)
Theorem tcp_data_received s ip tcp out i c :
  wf_frames s -> wf_table (ConnectionStateTable s) -> 0 <= ip <= 100 -> 0 <= tcp <= 200 -> 0 <= out <= 100 ->
  let g := segment_at (in_data s) ip tcp out in
  port_open s (sg_dport g) -> at_conn s (seg_key g) i c -> data_segment (State c) (sg_flags g) ->
  let b := claim_buffer (Buffer (Info c)) in
  let n := data_length (in_data s) g in
  receiving b -> Z.of_nat (length (Data b)) = TCP_WINDOW_SIZE -> 0 <= Length b -> Length b + n <= TCP_WINDOW_SIZE ->
  tcp + data_offset (in_data s) g + n <= 1500 ->
  let bytes := slice (tcp + data_offset (in_data s) g) n (in_data s) in
  let hand := handed b n (truthy (Z.land (sg_flags g) TCP_FLAG_PSH)) in
  exists s' c', TCP_ProcessTCPPacket ip tcp out s = Returns (if hand then sizeof_TCP_Header_t else NO_RESPONSE, s') /\
    ConnectionStateTable s' = <[i := c']> (ConnectionStateTable s) /\
    key_of c' = seg_key g /\ State c' = TCP_Connection_Established /\ Buffer (Info c') = receive b bytes hand /\
    SequenceNumberIn (Info c') = u32 (SequenceNumberIn (Info c) + n) /\
    SequenceNumberOut (Info c') = SequenceNumberOut (Info c).
Proof.
  intros W Hwt Hip Htcp Hout g Hport Hat [Hst Hfl] b n Hrec HD Hl0 Hl Hn bytes hand.
  rewrite process_segment by done. fold g.
  enough (nwp (port ← TCP_GetPortState (sg_dport g);
     r ← (if port =? TCP_Port_Open then on_open_port g
          else reply_flags g (Z.lor TCP_FLAG_RST TCP_FLAG_ACK);; mret (Some true));
     match r with
     | None => mret NO_PROCESS
     | Some PacketResponse => if PacketResponse : bool then tcp_reply g else mret NO_RESPONSE
     end) s (fun r s' => r = (if hand then sizeof_TCP_Header_t else NO_RESPONSE) /\ exists c',
       ConnectionStateTable s' = <[i := c']> (ConnectionStateTable s) /\
       key_of c' = seg_key g /\ State c' = TCP_Connection_Established /\ Buffer (Info c') = receive b bytes hand /\
       SequenceNumberIn (Info c') = u32 (SequenceNumberIn (Info c) + n) /\
       SequenceNumberOut (Info c') = SequenceNumberOut (Info c))) as Hq.
  { apply nwp_returns in Hq as (r & s' & E & -> & c' & Hc'). by exists s', c'. }
  apply nwp_bind, nwp_port_open; [exact Hport|]. cbn beta.
  change (TCP_Port_Open =? TCP_Port_Open) with true. cbn match. apply nwp_bind.
  unfold nwp. rewrite (data_case s g i c) by done.
  eapply (nwp_mono (on_data g)); [apply (on_data_spec s g i c); try done; cbn; lia|].
  intros r s' (-> & c' & d & -> & Hld & Hbd & Hf & Hk & Hst' & Hb & Ho & Hi). cbn beta match.
  fold b n bytes hand in Hf, Hb. fold b n hand.
  destruct hand; [|nstep; split; [done|]; exists c'; split_and!; try done; congruence].
  assert (wf_frames (set_out_data d (put s i c'))) as W1 by (destruct W; by split).
  eapply nwp_mono; [apply (tcp_reply_spec _ g i c' TCP_FLAG_ACK)|]; try done.
  - by eapply at_conn_put.
  - by apply Hf.
  - intros r s' (-> & sum & (d' & -> & _) & _). split; [done|]. exists c'. split_and!; try done. congruence.
Qed.

(** Data that does not fit the rest of the buffer is copied all the same:
    the copy leaves the buffer of the connection. *)
Theorem tcp_data_overflow s ip tcp out i c :
  wf_frames s -> 0 <= ip <= 100 -> 0 <= tcp <= 200 -> 0 <= out <= 100 ->
  let g := segment_at (in_data s) ip tcp out in
  port_open s (sg_dport g) -> at_conn s (seg_key g) i c -> data_segment (State c) (sg_flags g) ->
  let b := claim_buffer (Buffer (Info c)) in
  let n := data_length (in_data s) g in
  receiving b -> Z.of_nat (length (Data b)) = TCP_WINDOW_SIZE -> 0 <= Length b -> TCP_WINDOW_SIZE < Length b + n ->
  TCP_ProcessTCPPacket ip tcp out s = Faults.
Proof.
  intros W Hip Htcp Hout g Hport Hat Hdata b n [Hdir Hfull] HD Hl0 Hl. start_frames W.
  rewrite process_segment by done. fold g. apply faults_bind, nwp_port_open; [exact Hport|].
  change (TCP_Port_Open =? TCP_Port_Open) with true. cbn match. apply faults_left.
  rewrite (data_case s g i c) by done. unfold on_data.
  apply faults_bind. apply (nwp_get_info _ (seg_key g) i c); [exact Hat|].
  apply faults_bind. eapply nwp_deref; [exact Hat|].
  apply faults_bind. eapply nwp_mono; [by apply (claim_spec s (seg_key g))|]. intros [] s1 ->. cbn beta.
  pose proof (at_conn_key _ _ _ _ Hat) as Hk. set (c1 := on_Info (on_Buffer claim_buffer) c).
  apply faults_bind. eapply nwp_deref; [eapply at_conn_put; [exact Hat|exact Hk]|].
  change (Buffer (Info c1)) with b.
  replace (eqb (Direction b) TCP_PACKETDIR_IN && negb (Length b =? TCP_WINDOW_SIZE)) with true
    by (rewrite Hdir; symmetry; apply negb_true_iff, Z.eqb_neq; done).
  assert (sg_in g = tcp /\ sg_ip g = ip) as [E1 E2] by done.
  assert (0 <= data_offset (in_data s) g) as Hoff by (apply data_offset_range; done || (cbn; lia)).
  assert (0 <= n) as Hn0 by apply u16_range.
  do 3 fstep. autounfold with net. fold (data_offset (in_data s) g). fold (data_length (in_data s) g). fold n.
  destruct (Z.leb_spec (sg_in g + data_offset (in_data s) g + n) 1500).
  - fstep. apply faults_left. unfold lift.
    rewrite poke_out; [done|]. rewrite length_slice; lia.
  - apply faults_left, faults_in_bytes. net_simpl. lia.
Qed.
End tcp.
