(* ===== verification/TCPSend.v ===== *)
(** * Sending the data of the applications

    The frame [TCP_Task] builds for the first connection whose application has
    left data to send: complete Ethernet, IP and TCP headers with valid checksums
    around the data. *)
From S2P Require Import Prelude NetBuffers TCP EthernetStack NetLemmas EthernetSpec TCPTable TCPSpec.

Section send.
Context {A : Type}.
Implicit Types s : net A.

(** The entry of a connection that is well formed enough to be sent from. *)
Record sendable (c : TCP_ConnectionState_t) : Prop := {
  snd_address : length (RemoteAddress c) = 4%nat;
  snd_bytes : Forall byte_ok (RemoteAddress c);
  snd_data : Forall byte_ok (Data (Buffer (Info c)));
  snd_size : Z.of_nat (length (Data (Buffer (Info c)))) = TCP_WINDOW_SIZE;
  snd_length : 0 <= Length (Buffer (Info c)) <= TCP_WINDOW_SIZE }.

(** The data to send. *)
Definition outgoing (c : TCP_ConnectionState_t) : list Z :=
  slice 0 (Length (Buffer (Info c))) (Data (Buffer (Info c))).

(** The segment, and the frame around it. *)
Definition data_segment_bytes (c : TCP_ConnectionState_t) (sum : Z) : list Z :=
  tcp_bytes (Port c) (RemotePort c) (SequenceNumberOut (Info c)) (SequenceNumberIn (Info c))
    TCP_FLAG_ACK TCP_WINDOW_SIZE sum ++ outgoing c.

(** The header of the segment in front of its checksum. *)
Definition segment_head (c : TCP_ConnectionState_t) : list Z :=
  le_bytes 2 (Port c) ++ le_bytes 2 (RemotePort c) ++ le_bytes 4 (SwapEndian_32 (SequenceNumberOut (Info c))) ++
  le_bytes 4 (SwapEndian_32 (SequenceNumberIn (Info c))) ++ [0x50] ++ [TCP_FLAG_ACK] ++ be16 TCP_WINDOW_SIZE.

Definition data_frame (c : TCP_ConnectionState_t) (ipsum sum : Z) : list Z :=
  ([0x02; 0x00; 0x02; 0x00; 0x02; 0x00] ++ ServerMACAddress ++ [0x08; 0x00]) ++
  ip_bytes (40 + Z.of_nat (length (outgoing c))) PROTOCOL_TCP ipsum ServerIPAddress (RemoteAddress c) ++
  data_segment_bytes c sum.

(** The entry once its data is in the output frame. *)
Definition after_send (c : TCP_ConnectionState_t) : TCP_ConnectionState_t :=
  on_Info (fun i => on_Buffer (set_Ready false)
    (set_SequenceNumberOut (u32 (SequenceNumberOut i + Z.of_nat (length (outgoing c)))) i)) c.

Lemma nwp_update_entry s i c f (Q : unit -> net A -> Prop) :
  ConnectionStateTable s !! i = Some c -> Q tt (put s i (on_Info f c)) -> nwp (update_info (Some i) f) s Q.
Proof. intros H HQ. unfold nwp, update_info. cbn. by rewrite H. Qed.

Lemma length_ip_bytes len proto sum src dst :
  length src = 4%nat -> length dst = 4%nat -> Z.of_nat (length (ip_bytes len proto sum src dst)) = 20.
Proof. intros Hs Hd. unfold ip_bytes. rewrite !length_app, Hs, Hd. done. Qed.

Lemma wrote_at s s' off off' bytes : off' = off -> wrote s s' off bytes -> wrote s s' off' bytes.
Proof. by intros ->. Qed.

Lemma wrote_put s s' off bytes i c : wrote s s' off bytes -> wrote (put s i c) (put s' i c) off bytes.
Proof. intros (d & -> & H). by exists d. Qed.

Lemma send_buffer_spec s i c :
  wf_frames s -> ConnectionStateTable s !! i = Some c -> sendable c ->
  nwp (send_buffer i c) s (fun _ s' => exists d ipsum sum,
    s' = set_FrameOUT {| FrameData := d; FrameLength := Z.of_nat (length (data_frame c ipsum sum)) |}
           (put s i (after_send c)) /\
    slice 0 (Z.of_nat (length (data_frame c ipsum sum))) d = data_frame c ipsum sum /\
    valid_checksum (ip_bytes (40 + Z.of_nat (length (outgoing c))) PROTOCOL_TCP ipsum ServerIPAddress (RemoteAddress c)) /\
    valid_segment ServerIPAddress (RemoteAddress c) (data_segment_bytes c sum)).
Proof.
  intros W Hi [Ha Hab Hdb Hds Hl]. start_frames W. unfold TCP_WINDOW_SIZE in *.
  assert (Z.of_nat (length (outgoing c)) = Length (Buffer (Info c))) as EL by (apply length_slice; lia).
  assert (Forall byte_ok (outgoing c)) as Hob by (by apply Forall_slice).
  unfold send_buffer. nstep. slices. rewrite tcp_offset_bits.
  eapply nwp_lift; [by rewrite peek_slice by lia|]. fold (outgoing c). nstep.
  autounfold with net. change (14 + 20) with 34. set (d1 := splice (34 + 20) (outgoing c) _).
  assert (wrote s (set_out_data d1 s) 34 (segment_head c ++ [0; 0] ++ [0; 0] ++ outgoing c)) as Hw.
  { subst d1. unfold segment_head, be16. rewrite <- !(assoc_L (++)). unfold TCP_WINDOW_SIZE.
    rewrite le_bytes_swap by lia. wrote_fields. }
  assert (Z.of_nat (length (segment_head c ++ [0; 0] ++ [0; 0] ++ outgoing c)) = 20 + Length (Buffer (Info c))) as EN.
  { rewrite !length_app, !Nat2Z.inj_add, EL. change (Z.of_nat (length (segment_head c))) with 16. cbn [length]. lia. }
  destruct (tcp_checksum_wrote s d1 34 ServerIPAddress (RemoteAddress c) (segment_head c) ([0; 0] ++ outgoing c) W Hw)
    as (sum & Hc & Hw1 & Hv); try done; [lia|list_ok|].
  rewrite EN in Hc. change (Z.of_nat (length (segment_head c))) with 16 in Hw1.
  apply (nwp_update_entry _ i c); [done|]. set (c1 := on_Info _ c). nstep.
  assert (Z.of_nat (length d1) = 1500) as Hl1 by (by destruct (wrote_wf _ _ _ _ Hw W)).
  rewrite (u16_small (20 + _)) by lia. eapply nwp_lift; [exact Hc|]. nstep.
  apply (wrote_put _ _ _ _ i c1) in Hw1. autorewrite with net in Hw1.
  pose proof (wrote_wf _ _ _ _ Hw1 ltac:(by destruct W)) as W1.
  rewrite !(u16_small (Length _ + 20)), (u16_small (20 + _)) by lia.
  eapply nwp_mono; [apply ip_header_spec; done || list_ok || lia|].
  intros [] s2 (ipsum & Hw2 & Hv2). cbn beta.
  pose proof (wrote_wf _ _ _ _ Hw2 W1) as W2. start_frames W2.
  nstep. set (d3 := splice 12 _ _).
  assert (wrote s2 (set_out_data d3 s2) 0 ([0x02; 0x00; 0x02; 0x00; 0x02; 0x00] ++ ServerMACAddress ++ [0x08; 0x00])) as Hw3.
  { subst d3. wrote_fields. }
  replace (20 + (Length (Buffer (Info c)) + 20)) with (40 + Z.of_nat (length (outgoing c))) in Hw2, Hv2 by lia.
  set (ip := ip_bytes (40 + _) _ _ _ _) in *.
  assert (Z.of_nat (length ip) = 20) as Eip by (by apply length_ip_bytes).
  pose proof (wrote_app _ _ _ 14 ip _ ltac:(lia) (wrote_at _ _ 34 (14 + Z.of_nat (length ip)) _ ltac:(lia) Hw1) Hw2) as Hw4.
  pose proof (wrote_app _ _ _ 0 ([0x02; 0x00; 0x02; 0x00; 0x02; 0x00] ++ ServerMACAddress ++ [0x08; 0x00]) _
    ltac:(lia) Hw4 Hw3) as (d & E & _ & _ & Hs & _).
  rewrite E. change (set_FrameOUT ?f (set_out_data d (put s i c1))) with (set_FrameOUT f (put s i c1)).
  assert (d3 = d) as <- by (by injection E).
  apply (nwp_update_entry _ i c1).
  { apply list_lookup_insert_eq. by eapply lookup_lt_Some. }
  exists d3, ipsum, sum.
  assert (data_frame c ipsum sum = ([2; 0; 2; 0; 2; 0] ++ ServerMACAddress ++ [8; 0]) ++
    ip ++ segment_head c ++ le_bytes 2 sum ++ [0; 0] ++ outgoing c) as EF by done.
  rewrite <- EF in Hs. split_and!; [|exact Hs|exact Hv2|exact Hv].
  assert (Z.of_nat (length (data_frame c ipsum sum)) = 54 + Length (Buffer (Info c))) as ->.
  { rewrite EF, !length_app, !Nat2Z.inj_add, Eip, EL. change (Z.of_nat (length (segment_head c))) with 16.
    rewrite length_le_bytes. unfold ServerMACAddress. cbn [length]. lia. }
  rewrite (u16_small (Length (Buffer (Info c)) + 20 + 20)), u16_small by lia.
  replace (Length (Buffer (Info c)) + 20 + 20 + 14) with (54 + Length (Buffer (Info c))) by lia.
  unfold put, after_send. rewrite EL. subst c1. unfold set_FrameOUT, set_Connections. cbn.
  by rewrite list_insert_insert_eq.
Qed.

(** C32: once the applications have run, and unless a frame is still waiting to
    be sent, [TCP_Task] takes the first connection whose application has left
    data, puts a frame with that data in the output buffer, complete with its
    three headers and valid IP and TCP checksums, advances the connection's
    sequence number by the length of the data, and frees the buffer. *)
Theorem tcp_task_sends s s1 i c :
  run_applications MAX_TCP_CONNECTIONS 0 s = Returns (tt, s1) ->
  wf_frames s1 -> FrameLength (FrameOUT s1) = 0 ->
  list_find wants_send (ConnectionStateTable s1) = Some (i, c) -> sendable c ->
  exists s' ipsum sum, TCP_Task s = Returns (tt, s') /\
    FrameLength (FrameOUT s') = Z.of_nat (length (data_frame c ipsum sum)) /\
    slice 0 (FrameLength (FrameOUT s')) (out_data s') = data_frame c ipsum sum /\
    ConnectionStateTable s' = <[i := after_send c]> (ConnectionStateTable s1) /\
    valid_checksum (ip_bytes (40 + Z.of_nat (length (outgoing c))) PROTOCOL_TCP ipsum ServerIPAddress (RemoteAddress c)) /\
    valid_segment ServerIPAddress (RemoteAddress c) (data_segment_bytes c sum).
Proof.
  intros Hrun W Hlen Hfind Hc. unfold TCP_Task. erewrite bind_eq by exact Hrun.
  erewrite bind_eq by done. rewrite Hlen. change (truthy 0) with false. cbn match.
  erewrite bind_eq by done. rewrite Hfind.
  assert (ConnectionStateTable s1 !! i = Some c) as Hi by (by apply list_find_Some in Hfind as (? & _)).
  pose proof (send_buffer_spec s1 i c W Hi Hc) as Hn.
  apply nwp_returns in Hn as ([] & s' & E & d & ipsum & sum & -> & Hs & Hv1 & Hv2).
  eexists _, ipsum, sum. split; [exact E|]. by split_and!.
Qed.
End send.
