(* ===== verification/WebserverSpec.v ===== *)
(** * What the web server serves

    A request for the page is answered with the HTTP header and the whole page, in
    blocks; requests on two connections at a time disturb each other. *)
From Stdlib Require Import String.
From S2P Require Import Prelude NetBuffers TCP NetLemmas TCPSend Webserver.

(** ** One connection *)

(** [n] rounds of the callback and of [TCP_Task] sending the data it left: the data
    sent, and the state after it. *)
Fixpoint serve (n : nat) (PageBlock : Z) (c : TCP_ConnectionState_t) : outcome (list Z * Z * TCP_ConnectionState_t) :=
  match n with
  | O => mret ([], PageBlock, c)
  | S n =>
      '(PageBlock, c) ← Webserver_ApplicationCallback PageBlock c;
      '(out, PageBlock, c') ← serve n PageBlock (after_send c);
      mret (outgoing c ++ out, PageBlock, c')
  end.

Lemma serve_S n pb c pb1 c1 :
  Webserver_ApplicationCallback pb c = Returns (pb1, c1) ->
  serve (S n) pb c = ('(out, pb', c') ← serve n pb1 (after_send c1); mret (outgoing c1 ++ out, pb', c')).
Proof. intros E. cbn [serve]. by rewrite E. Qed.

(** A request is in the buffer. *)
Definition requested (c : TCP_ConnectionState_t) (request : list Z) : Prop :=
  TCP_APP_HAS_RECEIVED_PACKET (Buffer (Info c)) = true /\
  Z.of_nat (length (Data (Buffer (Info c)))) = TCP_WINDOW_SIZE /\
  take (length request) (Data (Buffer (Info c))) = request.

(** The buffer belongs to the server until the page is sent. *)
Definition captured (c : TCP_ConnectionState_t) : Prop :=
  TCP_APP_HAS_RECEIVED_PACKET (Buffer (Info c)) = false /\
  TCP_APP_HAVE_CAPTURED_BUFFER (Buffer (Info c)) = true /\
  Z.of_nat (length (Data (Buffer (Info c)))) = TCP_WINDOW_SIZE.

(** Bytes copied to the start of the buffer. *)
Lemma copied bytes d :
  Z.of_nat (length bytes) <= Z.of_nat (length d) ->
  poke 0 bytes d = Some (splice 0 bytes d) /\ slice 0 (Z.of_nat (length bytes)) (splice 0 bytes d) = bytes.
Proof. intros. split; [by apply poke_splice|]. apply slice_splice_eq; lia. Qed.

Definition block (PageBlock : Z) : list Z :=
  take 128 (drop (Z.to_nat (PageBlock * 128)) HTTPPage).

Definition last_block : Z := sizeof_HTTPPage / HTTP_REPLY_BLOCK_SIZE.

Lemma page_length : Z.of_nat (length HTTPPage) = 495.
Proof. by vm_compute. Qed.
Lemma last_block_eq : last_block = 3.
Proof. by vm_compute. Qed.

Lemma block_slice pb : 0 <= pb <= 3 ->
  let n := Z.min (495 - pb * 128) 128 in
  Z.of_nat (length (block pb)) = n /\ slice (pb * 128) n HTTPPage = block pb.
Proof.
  intros Hpb n. pose proof page_length as Hp. unfold block, slice.
  assert (length (drop (Z.to_nat (pb * 128)) HTTPPage) = Z.to_nat (495 - pb * 128)) as Hd
    by (rewrite length_drop; lia).
  split; [rewrite length_take; lia|]. destruct (Z.le_gt_cases 128 (495 - pb * 128)).
  - by replace (Z.to_nat n) with 128%nat by lia.
  - by rewrite !take_ge by lia.
Qed.

Lemma send_block_ok pb c :
  0 <= pb <= last_block -> Z.of_nat (length (Data (Buffer (Info c)))) = TCP_WINDOW_SIZE ->
  send_block pb c = Returns (on_buffer (fun b =>
    TCP_APP_SEND_BUFFER (set_Data (splice 0 (block pb) (Data (Buffer (Info c)))) b) (Z.of_nat (length (block pb)))) c).
Proof.
  rewrite last_block_eq. unfold TCP_WINDOW_SIZE. intros Hpb Hl. destruct (block_slice pb Hpb) as [E1 E2].
  unfold send_block, sizeof_HTTPPage, HTTP_REPLY_BLOCK_SIZE. rewrite page_length.
  rewrite (proj2 (Z.ltb_lt _ _)) by lia. cbn [access mbind outcome_bind].
  replace (495 + 1 - 1 - pb * 128) with (495 - pb * 128) by lia. rewrite E2, <- E1.
  by rewrite (proj1 (copied (block pb) (Data (Buffer (Info c))) ltac:(lia))).
Qed.

(** A round with a captured buffer sends one block; the last one closes the
    connection and gives the buffer back. *)
Lemma serve_block pb c :
  captured c -> 0 <= pb <= last_block ->
  exists c', Webserver_ApplicationCallback pb c = Returns (pb + 1, c') /\ outgoing c' = block pb /\
    if pb =? last_block
    then State c' = TCP_Connection_Closing /\ InUse (Buffer (Info c')) = false
    else captured (after_send c') /\ State c' = State c.
Proof.
  intros (Hr & Hc & Hl) Hpb. unfold Webserver_ApplicationCallback. rewrite Hr, Hc.
  change (sizeof_HTTPPage / HTTP_REPLY_BLOCK_SIZE) with last_block. rewrite send_block_ok by done.
  rewrite last_block_eq in *. unfold TCP_WINDOW_SIZE in Hl. destruct (block_slice pb Hpb) as [E1 _].
  destruct (copied (block pb) (Data (Buffer (Info c))) ltac:(lia)) as [_ Ho].
  cbn [mbind outcome_bind]. unfold TCP_APP_HAVE_CAPTURED_BUFFER in Hc. apply andb_true_iff in Hc as [[_ Hu]%andb_true_iff _].
  destruct (Z.eqb_spec pb 3); eexists; (split; [rewrite u8_small by lia; reflexivity|]).
  - split_and!; [exact Ho|done..].
  - split_and!; [exact Ho| |done]. unfold captured, TCP_APP_HAS_RECEIVED_PACKET, TCP_APP_HAVE_CAPTURED_BUFFER.
    cbn -[splice]. by rewrite Hu, length_splice.
Qed.

(** The rounds that are left, from block [pb] on. *)
Lemma serve_blocks : forall n pb c,
  captured c -> 0 <= pb -> pb + Z.of_nat n = last_block ->
  exists c', serve (S n) pb c = Returns (drop (Z.to_nat (pb * 128)) HTTPPage, last_block + 1, c') /\
    State c' = TCP_Connection_Closing /\ InUse (Buffer (Info c')) = false.
Proof.
  induction n as [|n IH]; intros pb c Hc Hpb Hn.
  all: destruct (serve_block pb c Hc ltac:(lia)) as (c1 & E1 & O1 & S1); rewrite (serve_S _ _ _ _ _ E1).
  - replace pb with last_block in * by lia. rewrite Z.eqb_refl in S1.
    exists (after_send c1). split; [|exact S1]. cbn. rewrite O1, app_nil_r, last_block_eq. reflexivity.
  - rewrite (proj2 (Z.eqb_neq _ _)) in S1 by lia. destruct S1 as [Hc1 _].
    destruct (IH (pb + 1) (after_send c1) Hc1 ltac:(lia) ltac:(lia)) as (c' & E & S').
    exists c'. split; [|exact S']. rewrite E. cbn [mbind outcome_bind].
    unfold mret, outcome_ret. do 3 f_equal. rewrite O1. unfold block.
    replace (Z.to_nat ((pb + 1) * 128)) with (Z.to_nat (pb * 128) + 128)%nat by lia.
    by rewrite <- drop_drop, take_drop.
Qed.

(** C33: a request for the page is answered with the HTTP header and the whole page:
    the header, then the page in blocks, one a round, whatever block an earlier
    request left [PageBlock] at; the connection is then closing and its buffer free
    for the client. *)
Theorem page_served pb c :
  requested c (chars "GET / ") ->
  exists c', serve (2 + Z.to_nat last_block) pb c = Returns (HTTP200Header ++ HTTPPage, last_block + 1, c') /\
    State c' = TCP_Connection_Closing /\ InUse (Buffer (Info c')) = false.
Proof.
  intros (Hr & Hl & Hg). unfold TCP_WINDOW_SIZE in Hl. set (d := Data (Buffer (Info c))) in *.
  assert (IsHTTPCommand d (chars "GET / ") = true) as H6 by (apply bool_decide_eq_true, Hg).
  assert (IsHTTPCommand d (chars "GET") = true) as H3.
  { apply bool_decide_eq_true. change (length (chars "GET")) with (3 `min` length (chars "GET / "))%nat.
    by rewrite <- take_take, Hg. }
  destruct (copied (HTTP200Header ++ [0]) d) as [Ep Hs]; [vm_compute (Z.of_nat (length (_ ++ _))); lia|].
  assert (exists c1, Webserver_ApplicationCallback pb c = Returns (0, c1) /\ outgoing c1 = HTTP200Header /\
    captured (after_send c1)) as (c1 & E1 & O1 & C1).
  { unfold Webserver_ApplicationCallback, send_header. fold d. rewrite Hr, H3, H6, Ep. eexists. split; [reflexivity|]. split.
    - rewrite length_app, Nat2Z.inj_add, slice_app in Hs by lia. apply app_inj_1 in Hs as [Hs _]; [exact Hs|].
      apply Nat2Z.inj. rewrite length_slice; [done|lia|lia|].
      rewrite length_splice, Hl. vm_compute (Z.of_nat (length _)). lia.
    - unfold captured. cbn -[splice]. by rewrite length_splice. }
  destruct (serve_blocks (Z.to_nat last_block) 0 (after_send c1) C1) as (c' & E & S'); [done..|].
  exists c'. split; [|exact S']. change (2 + Z.to_nat last_block)%nat with (S (S (Z.to_nat last_block))).
  rewrite (serve_S _ _ _ _ _ E1), E, O1. done.
Qed.

(** ** Two connections *)

(** [n] rounds of the TCP task, each frame it leaves being sent. *)
Fixpoint rounds (n : nat) : nio Z unit :=
  match n with
  | O => mret tt
  | S n =>
      TCP_Task;;
      modifies (fun s => set_FrameOUT {| FrameData := out_data s; FrameLength := 0 |} s);;
      rounds n
  end.

(** A connection to the HTTP port with a request for the page. *)
Definition client (port : Z) : TCP_ConnectionState_t :=
  {| Port := TCP_PORT_HTTP; RemotePort := port; RemoteAddress := ClientIPAddress;
     Info := {| SequenceNumberIn := 1; SequenceNumberOut := 1;
                Buffer := {| Length := 6; Data := chars "GET / " ++ replicate 506 0;
                             Direction := TCP_PACKETDIR_IN; Ready := true; InUse := false |} |};
     State := TCP_Connection_Established |}.

Definition no_connection : TCP_ConnectionState_t :=
  {| Port := 0; RemotePort := 0; RemoteAddress := [0; 0; 0; 0];
     Info := {| SequenceNumberIn := 0; SequenceNumberOut := 0;
                Buffer := {| Length := 0; Data := replicate 512 0; Direction := TCP_PACKETDIR_IN;
                             Ready := false; InUse := false |} |};
     State := TCP_Connection_Closed |}.

(** The server with the given connections. *)
Definition server (conns : list TCP_ConnectionState_t) : net Z :=
  let empty := {| FrameData := replicate 1500 0; FrameLength := 0 |} in
  mk_net empty empty
    [{| P_Port := TCP_PORT_HTTP; P_State := TCP_Port_Open; ApplicationHandler := Webserver_ApplicationCallback |}]
    conns 0.

(** Two requests at a time: [PageBlock] is one variable for all connections, so
    when the page of the first connection is done the second one goes on behind the
    end of the page.  A single request is served in as many rounds. *)
Theorem two_requests_overrun :
  rounds 7 (server [client 1; client 2; no_connection]) = Faults /\
  exists s, rounds 7 (server [client 1; no_connection; no_connection]) = Returns (tt, s).
Proof.
  split; [by vm_compute|].
  destruct (rounds 7 (server [client 1; no_connection; no_connection])) as [[[] s]| |] eqn:E;
    [by exists s|exfalso; by vm_compute in E..].
Qed.
