(* ===== verification/NetWitness.v ===== *)
(** * Concrete exchanges

    The theorems on the network stack, the web server and RNDIS at concrete
    frames, messages and hosts. *)
From Stdlib Require Import String.
From S2P Require Import Prelude ConfigDescriptors USBIo Endpoint EndpointSpec ControlStream DeviceRequests HIDDevice NetBuffers TCP EthernetStack NetLemmas EthernetSpec EchoSpec DHCPSpec TCPTable TCPSpec TCPSend Webserver WebserverSpec RNDIS RNDISSpec RNDISDevice RNDISDeviceSpec.

(** ** Frames *)

Definition padded (l : list Z) : list Z := l ++ replicate (1500 - length l) 0.

Definition framesb {A} (s : net A) : bool :=
  (Z.of_nat (length (in_data s)) =? 1500) && (Z.of_nat (length (out_data s)) =? 1500)
  && forallb byteb (in_data s) && forallb byteb (out_data s).

Lemma frames_check {A} (s : net A) : framesb s = true -> wf_frames s.
Proof.
  unfold framesb. intros H. bprop. split; auto using bytes_check.
Qed.

(** A stack without applications that received [l], padded to [n] bytes. *)
Definition received_frame (l : list Z) (n : Z) (conns : list TCP_ConnectionState_t) : net unit :=
  mk_net {| FrameData := padded l; FrameLength := n |} {| FrameData := padded []; FrameLength := 0 |}
    [{| P_Port := TCP_PORT_HTTP; P_State := TCP_Port_Open; ApplicationHandler := fun a c => Returns (a, c) |}]
    conns tt.

Definition HostMAC : list Z := [2; 0; 2; 0; 2; 0].
Definition closed3 : list TCP_ConnectionState_t := [no_connection; no_connection; no_connection].

(** "Who has 10.0.0.2?", from 10.0.0.1, to everybody. *)
Definition arp_frame : list Z :=
  BroadcastMACAddress ++ HostMAC ++ [8; 6; 0; 1; 8; 0; 6; 4; 0; 1] ++ HostMAC ++ ClientIPAddress ++
  [0; 0; 0; 0; 0; 0] ++ ServerIPAddress.
Definition arp_net : net unit := received_frame arp_frame 60 closed3.

Lemma arp_answered_witness :
  exists s', Ethernet_ProcessPacket arp_net = Returns (tt, s') /\
    answered arp_net s' (eth_bytes (in_data arp_net) ++ arp_answer (in_data arp_net) 14).
Proof.
  apply (arp_answered arp_net); [by apply frames_check|by right|by vm_compute|by vm_compute|].
  split_and!; [by vm_compute|by vm_compute|by left].
Defined.

Lemma frame_length_dropped_witness :
  Ethernet_ProcessPacket (received_frame arp_frame 512 closed3) =
    Returns (tt, set_FrameIN {| FrameData := padded arp_frame; FrameLength := 0 |} (received_frame arp_frame 512 closed3)).
Proof. apply (frame_length_dropped (received_frame arp_frame 512 closed3)); [by apply frames_check|done|done]. Defined.

(** An IPv4 frame to the server. *)
Definition ip_frame (header proto : Z) (options payload : list Z) : list Z :=
  ServerMACAddress ++ HostMAC ++ [8; 0; header; 0; 0; 60; 0; 0; 0; 0; 64; proto; 0; 0] ++
  ClientIPAddress ++ ServerIPAddress ++ options ++ payload.

(** A ping with four bytes of data. *)
Definition ping_net (header n : Z) : net unit :=
  received_frame (ip_frame header PROTOCOL_ICMP [] [8; 0; 0; 0; 1; 2; 3; 4; 100; 101; 102; 103]) n closed3.

Lemma echo_answered_witness :
  exists s' ipsum sum, Ethernet_ProcessPacket (ping_net 0x45 46) = Returns (tt, s') /\
    let echo := echo_reply (in_data (ping_net 0x45 46)) 34 4 sum in
    let header := ip_bytes 32 PROTOCOL_ICMP ipsum (slice 30 4 (in_data (ping_net 0x45 46)))
                    (slice 26 4 (in_data (ping_net 0x45 46))) in
    answered (ping_net 0x45 46) s' (eth_bytes (in_data (ping_net 0x45 46)) ++ header ++ echo) /\
    valid_checksum header /\ valid_checksum echo.
Proof.
  apply (echo_answered (ping_net 0x45 46) 20 4); try done; [by apply frames_check|by left|].
  split_and!; [done..|by left].
Defined.

(** A ping whose header length is 60 in a frame of 46 bytes. *)
Definition bad_ping : net unit :=
  received_frame (ip_frame 0x4F PROTOCOL_ICMP (replicate 40 0) [8]) 46 closed3.

Lemma echo_negative_size_witness : Ethernet_ProcessPacket bad_ping = Faults.
Proof.
  apply (echo_negative_size bad_ping 60); try done; [by apply frames_check|by left|].
  split_and!; [done..|by left].
Defined.

(** A DHCP DISCOVER. *)
Definition discover_options : list dhcp_option := [Opt 12 [65; 66]; Pad; Opt 53 [1]].
Definition dhcp_net : net unit :=
  received_frame (ip_frame 0x45 PROTOCOL_UDP []
    ([0; 68; 0; 67; 1; 0; 0; 0] ++ [1; 1; 6; 0; 9; 8; 7; 6] ++ replicate 20 0 ++ HostMAC ++ replicate 206 0 ++
     encode_options discover_options)) 300 closed3.

Lemma dhcp_answered_witness :
  exists s' sum, Ethernet_ProcessPacket dhcp_net = Returns (tt, s') /\
    let header := ip_bytes 284 PROTOCOL_UDP sum ServerIPAddress ClientIPAddress in
    answered (readdressed dhcp_net 14) s' (eth_bytes (in_data dhcp_net) ++ header ++
      udp_bytes (in_data dhcp_net) 34 264 ++ dhcp_bytes (in_data dhcp_net) 42 ++ dhcp_options 1) /\
    valid_checksum header.
Proof.
  apply (dhcp_answered dhcp_net 20 discover_options 1); try done; [by apply frames_check|by left| |].
  - split_and!; [done..|by left].
  - split_and!; [|done|by vm_compute].
    repeat constructor; cbn; unfold byte_ok; try lia; try done; repeat constructor; done.
Defined.

(** ** TCP *)

(** A segment from port 1000 of the host to a port of the server. *)
Definition segment_frame (dport flags : Z) (data : list Z) : list Z :=
  ServerMACAddress ++ HostMAC ++ [8; 0; 0x45; 0] ++ be16 (40 + Z.of_nat (length data)) ++
  [0; 0; 0; 0; 64; PROTOCOL_TCP; 0; 0] ++ ClientIPAddress ++ ServerIPAddress ++
  [3; 232] ++ be16 dport ++ [0; 0; 0; 7; 0; 0; 0; 0; 0x50; flags; 2; 0; 0; 0; 0; 0] ++ data.

Definition segment_net (dport flags : Z) (data : list Z) (conns : list TCP_ConnectionState_t) : net unit :=
  received_frame (segment_frame dport flags data) 60 conns.

Lemma closed3_table : wf_table closed3.
Proof.
  intros i j ci cj Hi Hj _ _. unfold closed3 in Hj. destruct j as [|[|[|]]]; cbn in Hj; by simplify_eq.
Qed.

Definition syn_key : key := mk_key TCP_PORT_HTTP ClientIPAddress 59395.

Lemma set_connection_state_spec_witness :
  exists b s', TCP_SetConnectionState (k_port syn_key) (k_addr syn_key) (k_rport syn_key) TCP_Connection_Listen
      (segment_net 80 TCP_FLAG_SYN [] closed3) = Returns (b, s') /\
    (b = true <-> has_room closed3 syn_key) /\
    (b = false -> s' = segment_net 80 TCP_FLAG_SYN [] closed3) /\ wf_table (ConnectionStateTable s') /\
    (b = true -> conn_state (ConnectionStateTable s') syn_key = TCP_Connection_Listen /\
      forall k', k' <> syn_key -> conn_state (ConnectionStateTable s') k' = conn_state closed3 k').
Proof. apply (set_connection_state_spec (segment_net 80 TCP_FLAG_SYN [] closed3) syn_key). apply closed3_table. Defined.

(** The first segment of a connection. *)
Lemma tcp_state_machine_witness :
  exists r s', TCP_ProcessTCPPacket 14 34 34 (segment_net 80 TCP_FLAG_SYN [] closed3) = Returns (r, s') /\
    conn_state (ConnectionStateTable s') syn_key = TCP_Connection_SYNReceived /\ r = 20.
Proof.
  destruct (tcp_state_machine (segment_net 80 TCP_FLAG_SYN [] closed3) 14 34 34) as (r & s' & E & Hc & _ & _ & _ & _ & H).
  - by apply frames_check.
  - apply closed3_table.
  - lia.
  - lia.
  - lia.
  - exists 0%nat. eexists. by split.
  - right. vm_compute. by eexists.
  - intros [H _]. by vm_compute in H.
  - exists r, s'. split; [exact E|]. split; [exact Hc|]. exact (proj1 H).
Defined.

Lemma closed_port_null_witness :
  TCP_ProcessTCPPacket 14 34 34 (segment_net 81 TCP_FLAG_SYN [] closed3) = Faults.
Proof.
  apply (closed_port_null (segment_net 81 TCP_FLAG_SYN [] closed3)); try lia; [by apply frames_check|by vm_compute..].
Defined.

(** An established connection with [n] bytes in its buffer. *)
Definition peer (n : Z) : TCP_ConnectionState_t :=
  {| Port := TCP_PORT_HTTP; RemotePort := 59395; RemoteAddress := ClientIPAddress;
     Info := {| SequenceNumberIn := 7; SequenceNumberOut := 1;
                Buffer := {| Length := n; Data := replicate 512 0; Direction := TCP_PACKETDIR_IN;
                             Ready := false; InUse := true |} |};
     State := TCP_Connection_Established |}.
Definition with_peer (n : Z) : list TCP_ConnectionState_t := [peer n; no_connection; no_connection].
Definition data_net (n : Z) : net unit :=
  segment_net 80 (Z.lor TCP_FLAG_ACK TCP_FLAG_PSH) [71; 69; 84] (with_peer n).

Lemma with_peer_table n : wf_table (with_peer n).
Proof.
  intros i j ci cj Hi Hj Hlt Hk. unfold with_peer in *. destruct j as [|[|[|]]]; cbn in Hj; simplify_eq; done || lia.
Qed.

Lemma tcp_data_received_witness :
  exists s' c', TCP_ProcessTCPPacket 14 34 34 (data_net 0) = Returns (20, s') /\
    ConnectionStateTable s' = <[0%nat := c']> (with_peer 0) /\ Length (Buffer (Info c')) = 3 /\
    Ready (Buffer (Info c')) = true /\ slice 0 3 (Data (Buffer (Info c'))) = [71; 69; 84].
Proof.
  destruct (tcp_data_received (data_net 0) 14 34 34 0 (peer 0)) as (s' & c' & E & Ht & _ & _ & Hb & _).
  - by apply frames_check.
  - apply with_peer_table.
  - lia.
  - lia.
  - lia.
  - exists 0%nat. eexists. by split.
  - by vm_compute.
  - split; [done|]. right. by vm_compute.
  - by split.
  - done.
  - done.
  - by vm_compute.
  - by vm_compute.
  - exists s', c'. split; [exact E|]. split; [exact Ht|]. clear E Ht. rewrite Hb. clear Hb.
    split_and!; vm_compute; reflexivity.
Defined.

Lemma tcp_data_overflow_witness : TCP_ProcessTCPPacket 14 34 34 (data_net 510) = Faults.
Proof.
  apply (tcp_data_overflow (data_net 510) 14 34 34 0 (peer 510)).
  - by apply frames_check.
  - lia.
  - lia.
  - lia.
  - exists 0%nat. eexists. by split.
  - by vm_compute.
  - split; [by vm_compute|]. right. by vm_compute.
  - split; by vm_compute.
  - by vm_compute.
  - by vm_compute.
  - by vm_compute.
Defined.

(** The server's first answer to a client. *)
Definition one_client : net Z := server [client 1; no_connection; no_connection].

Lemma tcp_task_sends_witness :
  exists s' ipsum sum c, TCP_Task one_client = Returns (tt, s') /\
    outgoing c = HTTP200Header /\ slice 0 (FrameLength (FrameOUT s')) (out_data s') = data_frame c ipsum sum.
Proof.
  destruct (run_applications MAX_TCP_CONNECTIONS 0 one_client) as [[[] s1]| |] eqn:E; [|by vm_compute in E..].
  assert (framesb s1 && (FrameLength (FrameOUT s1) =? 0) = true /\
          exists c, list_find wants_send (ConnectionStateTable s1) = Some (0%nat, c) /\ outgoing c = HTTP200Header /\
            sendable c) as [Hf (c & Hc & Ho & Hs)].
  { vm_compute in E. injection E as <-. split; [by vm_compute|]. eexists. split; [by vm_compute|]. split; [by vm_compute|].
    split; [by vm_compute|apply bytes_check; by vm_compute|apply bytes_check; by vm_compute|by vm_compute|by vm_compute]. }
  apply andb_true_iff in Hf as [Hf Hz].
  destruct (tcp_task_sends one_client s1 0 c E (frames_check _ Hf) (proj1 (Z.eqb_eq _ _) Hz) Hc Hs)
    as (s' & ipsum & sum & Et & _ & Hd & _).
  exists s', ipsum, sum, c. split; [exact Et|]. split; [exact Ho|exact Hd].
Defined.

Lemma page_served_witness :
  exists c', serve 5 0 (client 1) = Returns (HTTP200Header ++ HTTPPage, 4, c') /\
    State c' = TCP_Connection_Closing /\ InUse (Buffer (Info c')) = false.
Proof. apply (page_served 0 (client 1)). split_and!; by vm_compute. Defined.

(** ** RNDIS messages *)

(** The adapter with a message of [l] in a buffer of [n] bytes. *)
Definition adapter (n : nat) (l : list Z) : rndis :=
  mk_rndis (le32s l ++ replicate (n - 4 * length l) 0) false RNDIS_Initialized 0.

Definition rndisb (n : Z) (s : rndis) : bool :=
  (Z.of_nat (length (RNDISMessageBuffer s)) =? n) && forallb byteb (RNDISMessageBuffer s)
  && (0 <=? CurrPacketFilter s) && (CurrPacketFilter s <? 2 ^ 32).

Lemma rndis_check n s : rndisb n s = true -> wf_rndis n s.
Proof. unfold rndisb. intros H. bprop. split; auto using bytes_check. Qed.

Definition description : list Z := chars "LUFA RNDIS Demo Adapter".

(** A query for the hardware address. *)
Definition address_query : rndis := adapter 128 [REMOTE_NDIS_QUERY_MSG; 28; 77; OID_802_3_CURRENT_ADDRESS; 0; 0; 0].


(** Setting the packet filter. *)
Definition filter_set : rndis :=
  adapter 132 [REMOTE_NDIS_SET_MSG; 32; 5; OID_GEN_CURRENT_PACKET_FILTER; 4; 20; 0; 0x2D].

Lemma demo_message_answered_witness :
  exists s', ProcessRNDISControlMessage filter_set = Returns (tt, s') /\
    CurrRNDISState s' = RNDIS_Data_Initialized /\ CurrPacketFilter s' = 0x2D.
Proof.
  destruct (demo_message_answered filter_set) as (s' & E & _ & Ha & _).
  - apply rndis_check. by vm_compute.
  - intros _ _. by vm_compute.
  - exists s'. split; [exact E|]. vm_compute in Ha |- *. injection Ha as H1 H2. split; [exact H1|exact H2].
Defined.

Lemma supported_list_overflow_witness :
  RNDIS_Device_ProcessRNDISControlMessage description HostMAC
    (adapter 128 [REMOTE_NDIS_QUERY_MSG; 28; 1; OID_GEN_SUPPORTED_LIST; 0; 0; 0]) = Faults.
Proof.
  apply (supported_list_overflow description HostMAC); [apply rndis_check; by vm_compute|by vm_compute..].
Defined.

(** ** RNDIS packets *)

(** A host that is always ready, of a configured device, and sends [B]. *)
Definition packet_host (B : list Z) : hw := fun t q =>
  match q with
  | q_Read_8 => nth (length (received t)) B 0
  | q_DeviceState => DEVICE_STATE_Configured
  | q_IsINReady | q_IsOUTReceived | q_IsReadWriteAllowed => 1
  | _ => 0
  end.

Lemma packet_host_cooperative B c : cooperative (packet_host B) c.
Proof. by split. Qed.

Lemma packet_host_delivers B : delivers (packet_host B) [] B.
Proof. done. Qed.

Definition data_info : USB_ClassInfo_RNDIS_Device_t :=
  mk_rndis_info 0 (mk_endpoint 129 64 2 1) (mk_endpoint 2 64 2 1) (mk_endpoint 131 8 3 1) description HostMAC
    (mk_rndis (replicate 128 0) false RNDIS_Data_Initialized 1).

Definition junk (n : nat) : list Z := replicate n 7.
Lemma junk_ok k : length (junk k) = k /\ Forall is_byte (junk k).
Proof. split; [apply length_replicate|by apply Forall_replicate]. Qed.

Definition ping_bytes : list Z := take 60 (padded arp_frame).

Lemma packet_round_trip_witness :
  exists s1, RNDIS_Device_SendPacket packet_fuel data_info ping_bytes 60 (packet_host []) [] =
      Returns (ENDPOINT_RWSTREAM_NoError, [] ++ s1) /\
    sent s1 = packet_header 60 ++ ping_bytes /\
    (delivers (packet_host (message ping_bytes)) [] (sent s1) ->
     exists buf s2, RNDIS_Device_ReadPacket packet_fuel junk data_info (padded []) 0 (packet_host (message ping_bytes)) [] =
         Returns ((ENDPOINT_RWSTREAM_NoError, buf, 60), [] ++ s2) /\
       buf = ping_bytes ++ drop 60 (padded [])).
Proof.
  apply (packet_round_trip (packet_host []) (packet_host (message ping_bytes)) packet_fuel junk data_info data_info
           ping_bytes (padded []) 60 0 [] []).
  - apply packet_host_cooperative.
  - apply packet_host_cooperative.
  - done.
  - done.
  - done.
  - done.
  - done.
  - intros k. apply junk_ok.
  - apply bytes_check. by vm_compute.
  - by vm_compute.
  - by vm_compute.
  - by vm_compute.
Defined.

(** The demo, ready, with an ARP request. *)
Definition arp_demo : demo unit := mk_demo (mk_rndis (replicate 132 0) false RNDIS_Data_Initialized 1) arp_net.

Lemma arp_demo_ok : demo_ok arp_demo.
Proof. split; [apply rndis_check; by vm_compute|apply frames_check; by vm_compute|by vm_compute|by vm_compute]. Qed.

Lemma rndis_task_safe_witness :
  wp false (packet_host [1; 2; 3]) (RNDIS_Task 100 junk arp_demo) [] (fun g' _ =>
    demo_ok g' /\ CurrRNDISState (Rndis g') = RNDIS_Data_Initialized /\
    ConnectionStateTable (Net g') = closed3 /\ PortStateTable (Net g') = PortStateTable arp_net).
Proof. apply (rndis_task_safe (packet_host [1; 2; 3]) 100 junk junk_ok arp_demo []). apply arp_demo_ok. Defined.

