(* ===== verification/Dataflash.v ===== *)
(** * The Dataflash disk of the mass storage demo

    [Drivers/Board/AVR8/USBKEY/Dataflash.h], the driver of the board's two
    AT45DB642D chips, and [Demos/Device/ClassDriver/MassStorage/Lib/
    DataflashManager.c], which keeps a disk of 512-byte blocks in their 1024-byte
    pages.  A chip is selected by a pin of port E and exchanges bytes over the SPI:
    writing the SPI data register shifts one byte out and one in ([c_SPI_Transfer]),
    and the byte that came in is read from the register ([q_SPDR]). *)
From S2P Require Import Prelude ConfigDescriptors USBIo Endpoint.

(** ** [AT45DB642D.h] *)

Definition DF_STATUS_READY := 128.
Definition DF_STATUS_SECTORPROTECTION_ON := 2.
Definition DF_CMD_GETSTATUS := 0xD7.
Definition DF_CMD_MAINMEMTOBUFF1 := 0x53.
Definition DF_CMD_MAINMEMTOBUFF2 := 0x55.
Definition DF_CMD_MAINMEMPAGEREAD := 0xD2.
Definition DF_CMD_BUFF1WRITE := 0x84.
Definition DF_CMD_BUFF2WRITE := 0x87.
Definition DF_CMD_BUFF1TOMAINMEMWITHERASE := 0x83.
Definition DF_CMD_BUFF2TOMAINMEMWITHERASE := 0x86.
Definition DF_CMD_SECTORPROTECTIONOFF_BYTE1 := 0x3D.
Definition DF_CMD_SECTORPROTECTIONOFF_BYTE2 := 0x2A.
Definition DF_CMD_SECTORPROTECTIONOFF_BYTE3 := 0x7F.
Definition DF_CMD_SECTORPROTECTIONOFF_BYTE4 := 0x9A.
Definition DF_CMD_READMANUFACTURERDEVICEINFO := 0x9F.
Definition DF_MANUFACTURER_ATMEL := 0x1F.

(** ** [Dataflash.h] *)

Definition DATAFLASH_CHIPCS_MASK := 3.
Definition DATAFLASH_TOTALCHIPS := 2.
Definition DATAFLASH_NO_CHIP := DATAFLASH_CHIPCS_MASK.
Definition DATAFLASH_CHIP1 := 2.
Definition DATAFLASH_CHIP2 := 1.
Definition DATAFLASH_PAGE_SIZE := 1024.
Definition DATAFLASH_PAGES := 8192.

Definition Dataflash_TransferByte (Byte : Z) : io Z := cmd (c_SPI_Transfer (u8 Byte));; ask_u8 q_SPDR.
Definition Dataflash_SendByte (Byte : Z) : io unit := cmd (c_SPI_Transfer (u8 Byte)).
Definition Dataflash_ReceiveByte : io Z := cmd (c_SPI_Transfer 0);; ask_u8 q_SPDR.

Definition Dataflash_GetSelectedChip : io Z :=
  p ← ask_u8 q_PORTE; mret (Z.land p DATAFLASH_CHIPCS_MASK).

Definition Dataflash_SelectChip (ChipMask : Z) : io unit :=
  p ← ask_u8 q_PORTE; cmd (c_PORTE (Z.lor (Z.land p (Z.lnot DATAFLASH_CHIPCS_MASK)) ChipMask)).

Definition Dataflash_DeselectChip : io unit := Dataflash_SelectChip DATAFLASH_NO_CHIP.

Definition Dataflash_SelectChipFromPage (PageAddress : Z) : io unit :=
  Dataflash_DeselectChip;;
  if DATAFLASH_PAGES * DATAFLASH_TOTALCHIPS <=? PageAddress then mret tt else
  if truthy (Z.land PageAddress 1) then Dataflash_SelectChip DATAFLASH_CHIP2
  else Dataflash_SelectChip DATAFLASH_CHIP1.

Definition Dataflash_ToggleSelectedChipCS : io unit :=
  SelectedChipMask ← Dataflash_GetSelectedChip;
  Dataflash_DeselectChip;;
  Dataflash_SelectChip SelectedChipMask.

(** [while (!(Dataflash_ReceiveByte() & DF_STATUS_READY));] *)
Fixpoint poll_ready (fuel : nat) : io unit :=
  match fuel with
  | O => loops
  | S fuel =>
      status ← Dataflash_ReceiveByte;
      if truthy (Z.land status DF_STATUS_READY) then mret tt else poll_ready fuel
  end.

Definition Dataflash_WaitWhileBusy (fuel : nat) : io unit :=
  Dataflash_ToggleSelectedChipCS;;
  Dataflash_SendByte DF_CMD_GETSTATUS;;
  poll_ready fuel;;
  Dataflash_ToggleSelectedChipCS.

Definition Dataflash_SendAddressBytes (PageAddress BufferByte : Z) : io unit :=
  let PageAddress := Z.shiftr PageAddress 1 in
  Dataflash_SendByte (Z.shiftr PageAddress 5);;
  Dataflash_SendByte (Z.lor (u16 (Z.shiftl PageAddress 3)) (Z.shiftr BufferByte 8));;
  Dataflash_SendByte BufferByte.

(** ** [DataflashManager.h] *)

Definition VIRTUAL_MEMORY_BYTES := DATAFLASH_PAGES * DATAFLASH_PAGE_SIZE * DATAFLASH_TOTALCHIPS.
Definition VIRTUAL_MEMORY_BLOCK_SIZE := 512.
Definition VIRTUAL_MEMORY_BLOCKS := VIRTUAL_MEMORY_BYTES / VIRTUAL_MEMORY_BLOCK_SIZE.

(** The 16-byte chunks of a block and of a page. *)
Definition block_chunks := Z.shiftr VIRTUAL_MEMORY_BLOCK_SIZE 4.
Definition page_chunks := Z.shiftr DATAFLASH_PAGE_SIZE 4.

(** [CurrDFPage] and [CurrDFPageByte] of a block address. *)
Definition first_page (BlockAddress : Z) : Z :=
  u16 (u32 (BlockAddress * VIRTUAL_MEMORY_BLOCK_SIZE) / DATAFLASH_PAGE_SIZE).
Definition first_byte (BlockAddress : Z) : Z :=
  u16 (u32 (BlockAddress * VIRTUAL_MEMORY_BLOCK_SIZE) mod DATAFLASH_PAGE_SIZE).

(** [UsingSecondBuffer ? second : first] *)
Definition buffer_cmd (UsingSecondBuffer : bool) (second first : Z) : Z :=
  if UsingSecondBuffer then second else first.

(** The local variables of a transfer: [CurrDFPage], [CurrDFPageByteDiv16],
    [UsingSecondBuffer], and the place the data comes from or goes to. *)
Record transfer (S : Type) := mk_transfer {
    CurrDFPage : Z;
    CurrDFPageByteDiv16 : Z;
    UsingSecondBuffer : bool;
    place : S
  }.
Arguments mk_transfer {S}.
Arguments CurrDFPage {S}.
Arguments CurrDFPageByteDiv16 {S}.
Arguments UsingSecondBuffer {S}.
Arguments place {S}.

(** [DataflashManager_WriteBlocks] and [DataflashManager_WriteBlocks_RAM] are the
    same loops around different accesses to the data, which are parameters:
    [before] and [after] run around every chunk and say whether to go on, [fetch]
    gets the next byte, and [toggle] precedes the buffer write command of a new
    page. *)
Section writing.
Context (fuel : nat) {S : Type} (before : io bool) (fetch : S -> io (Z * S)) (after : io bool) (toggle : io unit).

(** The commands in front of the first chunk. *)
Definition begin_write (BlockAddress : Z) : io unit :=
  Dataflash_SelectChipFromPage (first_page BlockAddress);;
  (if VIRTUAL_MEMORY_BLOCK_SIZE <? DATAFLASH_PAGE_SIZE then
     Dataflash_SendByte DF_CMD_MAINMEMTOBUFF1;;
     Dataflash_SendAddressBytes (first_page BlockAddress) 0;;
     Dataflash_WaitWhileBusy fuel
   else mret tt);;
  Dataflash_SendByte DF_CMD_BUFF1WRITE;;
  Dataflash_SendAddressBytes 0 (first_byte BlockAddress).

(** Store the buffer in its page. *)
Definition store_page (page : Z) (second : bool) : io unit :=
  Dataflash_WaitWhileBusy fuel;;
  Dataflash_SendByte (buffer_cmd second DF_CMD_BUFF2TOMAINMEMWITHERASE DF_CMD_BUFF1TOMAINMEMWITHERASE);;
  Dataflash_SendAddressBytes page 0.

(** The end of a page: store it and go on with the next one. *)
Definition next_page (TotalBlocks page : Z) (second : bool) : io (Z * bool) :=
  store_page page second;;
  let page := u16 (page + 1) in
  chip ← Dataflash_GetSelectedChip;
  let second := if chip =? DATAFLASH_CHIP2 then negb second else second in
  Dataflash_SelectChipFromPage page;;
  (if (VIRTUAL_MEMORY_BLOCK_SIZE <? DATAFLASH_PAGE_SIZE) && (u16 (TotalBlocks * block_chunks) <? page_chunks) then
     Dataflash_WaitWhileBusy fuel;;
     Dataflash_SendByte (buffer_cmd second DF_CMD_MAINMEMTOBUFF2 DF_CMD_MAINMEMTOBUFF1);;
     Dataflash_SendAddressBytes page 0;;
     Dataflash_WaitWhileBusy fuel
   else mret tt);;
  toggle;;
  Dataflash_SendByte (buffer_cmd second DF_CMD_BUFF2WRITE DF_CMD_BUFF1WRITE);;
  Dataflash_SendAddressBytes 0 0;;
  mret (page, second).

Fixpoint write_bytes (n : nat) (p : S) : io S :=
  match n with
  | O => mret p
  | Datatypes.S n => '(b, p) ← fetch p; Dataflash_SendByte b;; write_bytes n p
  end.

(** [n] chunks of the current block; [None]: the transfer was given up. *)
Fixpoint write_chunks (n : nat) (TotalBlocks : Z) (x : transfer S) : io (option (transfer S)) :=
  match n with
  | O => mret (Some x)
  | Datatypes.S n =>
      go ← before;
      if negb go then mret None else
      x ← (if CurrDFPageByteDiv16 x =? page_chunks then
             '(page, second) ← next_page TotalBlocks (CurrDFPage x) (UsingSecondBuffer x);
             mret (mk_transfer page 0 second (place x))
           else mret x);
      p ← write_bytes 16 (place x);
      let x := mk_transfer (CurrDFPage x) (u8 (CurrDFPageByteDiv16 x + 1)) (UsingSecondBuffer x) p in
      go ← after;
      if negb go then mret None else write_chunks n TotalBlocks x
  end.

(** [TotalBlocks] blocks. *)
Fixpoint write_blocks (TotalBlocks : nat) (x : transfer S) : io (option (transfer S)) :=
  match TotalBlocks with
  | O => mret (Some x)
  | Datatypes.S n =>
      r ← write_chunks (Z.to_nat block_chunks) (Z.of_nat TotalBlocks) x;
      match r with
      | None => mret None
      | Some x => write_blocks n x
      end
  end.
End writing.

(** The same for [DataflashManager_ReadBlocks] and [DataflashManager_ReadBlocks_RAM];
    [put] takes the next byte. *)
Section reading.
Context {S : Type} (before : io bool) (put : S -> Z -> io S) (after : io bool).

Definition begin_read (page byte : Z) : io unit :=
  Dataflash_SelectChipFromPage page;;
  Dataflash_SendByte DF_CMD_MAINMEMPAGEREAD;;
  Dataflash_SendAddressBytes page byte;;
  Dataflash_SendByte 0;; Dataflash_SendByte 0;; Dataflash_SendByte 0;; Dataflash_SendByte 0.

Fixpoint read_bytes (n : nat) (p : S) : io S :=
  match n with
  | O => mret p
  | Datatypes.S n => b ← Dataflash_ReceiveByte; p ← put p b; read_bytes n p
  end.

Fixpoint read_chunks (n : nat) (x : transfer S) : io (option (transfer S)) :=
  match n with
  | O => mret (Some x)
  | Datatypes.S n =>
      go ← before;
      if negb go then mret None else
      x ← (if CurrDFPageByteDiv16 x =? page_chunks then
             let page := u16 (CurrDFPage x + 1) in
             begin_read page 0;;
             mret (mk_transfer page 0 (UsingSecondBuffer x) (place x))
           else mret x);
      p ← read_bytes 16 (place x);
      let x := mk_transfer (CurrDFPage x) (u8 (CurrDFPageByteDiv16 x + 1)) (UsingSecondBuffer x) p in
      go ← after;
      if negb go then mret None else read_chunks n x
  end.

Fixpoint read_blocks (TotalBlocks : nat) (x : transfer S) : io (option (transfer S)) :=
  match TotalBlocks with
  | O => mret (Some x)
  | Datatypes.S n =>
      r ← read_chunks (Z.to_nat block_chunks) x;
      match r with
      | None => mret None
      | Some x => read_blocks n x
      end
  end.
End reading.

(** The transfer as it starts: [CurrDFPageByteDiv16] is the first byte's chunk. *)
Definition start_transfer {S} (BlockAddress : Z) (p : S) : transfer S :=
  mk_transfer (first_page BlockAddress) (u8 (Z.shiftr (first_byte BlockAddress) 4)) false p.

(** ** [DataflashManager.c] *)

Section manager.
Context (fuel : nat).

(** A full or empty endpoint bank is released and waited for. *)
Definition endpoint_ready (clear : io unit) : io bool :=
  allowed ← Endpoint_IsReadWriteAllowed;
  if negb allowed then
    clear;;
    ErrorCode ← Endpoint_WaitUntilReady fuel;
    mret (negb (truthy ErrorCode))
  else mret true.

(** Go on unless [MSInterfaceInfo->State.IsMassStoreReset]. *)
Definition not_reset : io bool := r ← ask_bool q_IsMassStoreReset; mret (negb r).

Definition from_endpoint (u : unit) : io (Z * unit) := b ← Endpoint_Read_8; mret (b, u).
Definition to_endpoint (u : unit) (b : Z) : io unit := Endpoint_Write_8 b.

(** The buffer's bytes from an index on. *)
Definition from_buffer (Buffer : list Z) (i : Z) : io (Z * Z) := b ← get (arr_get Buffer i); mret (b, i + 1).
Definition to_buffer (p : list Z * Z) (b : Z) : io (list Z * Z) :=
  Buffer ← get (arr_set (fst p) (snd p) b); mret (Buffer, snd p + 1).

Definition DataflashManager_WriteBlocks (BlockAddress TotalBlocks : Z) : io unit :=
  begin_write fuel BlockAddress;;
  ErrorCode ← Endpoint_WaitUntilReady fuel;
  if truthy ErrorCode then mret tt else
  r ← write_blocks fuel (endpoint_ready Endpoint_ClearOUT) from_endpoint not_reset (mret tt)
        (Z.to_nat TotalBlocks) (start_transfer BlockAddress tt);
  match r with
  | None => mret tt
  | Some x =>
      store_page fuel (CurrDFPage x) (UsingSecondBuffer x);;
      Dataflash_WaitWhileBusy fuel;;
      allowed ← Endpoint_IsReadWriteAllowed;
      (if negb allowed then Endpoint_ClearOUT else mret tt);;
      Dataflash_DeselectChip
  end.

Definition DataflashManager_ReadBlocks (BlockAddress TotalBlocks : Z) : io unit :=
  begin_read (first_page BlockAddress) (first_byte BlockAddress);;
  ErrorCode ← Endpoint_WaitUntilReady fuel;
  if truthy ErrorCode then mret tt else
  r ← read_blocks (endpoint_ready Endpoint_ClearIN) to_endpoint not_reset
        (Z.to_nat TotalBlocks) (start_transfer BlockAddress tt);
  match r with
  | None => mret tt
  | Some _ =>
      allowed ← Endpoint_IsReadWriteAllowed;
      (if negb allowed then Endpoint_ClearIN else mret tt);;
      Dataflash_DeselectChip
  end.

Definition DataflashManager_WriteBlocks_RAM (BlockAddress TotalBlocks : Z) (Buffer : list Z) : io unit :=
  begin_write fuel BlockAddress;;
  r ← write_blocks fuel (mret true) (from_buffer Buffer) (mret true) Dataflash_ToggleSelectedChipCS
        (Z.to_nat TotalBlocks) (start_transfer BlockAddress 0);
  match r with
  | None => mret tt
  | Some x =>
      store_page fuel (CurrDFPage x) (UsingSecondBuffer x);;
      Dataflash_WaitWhileBusy fuel;;
      Dataflash_DeselectChip
  end.

Definition DataflashManager_ReadBlocks_RAM (BlockAddress TotalBlocks : Z) (Buffer : list Z) : io (list Z) :=
  begin_read (first_page BlockAddress) (first_byte BlockAddress);;
  r ← read_blocks (mret true) to_buffer (mret true) (Z.to_nat TotalBlocks) (start_transfer BlockAddress (Buffer, 0));
  match r with
  | None => mret Buffer
  | Some x => Dataflash_DeselectChip;; mret (fst (place x))
  end.

(** Turn the sector protection of one chip off. *)
Definition unprotect (ChipMask : Z) : io unit :=
  Dataflash_SelectChip ChipMask;;
  Dataflash_SendByte DF_CMD_GETSTATUS;;
  status ← Dataflash_ReceiveByte;
  if truthy (Z.land status DF_STATUS_SECTORPROTECTION_ON) then
    Dataflash_ToggleSelectedChipCS;;
    Dataflash_SendByte DF_CMD_SECTORPROTECTIONOFF_BYTE1;;
    Dataflash_SendByte DF_CMD_SECTORPROTECTIONOFF_BYTE2;;
    Dataflash_SendByte DF_CMD_SECTORPROTECTIONOFF_BYTE3;;
    Dataflash_SendByte DF_CMD_SECTORPROTECTIONOFF_BYTE4
  else mret tt.

Definition DataflashManager_ResetDataflashProtections : io unit :=
  unprotect DATAFLASH_CHIP1;;
  unprotect DATAFLASH_CHIP2;;
  Dataflash_DeselectChip.

(** Whether one chip answers with the manufacturer's code. *)
Definition check_chip (ChipMask : Z) : io bool :=
  Dataflash_SelectChip ChipMask;;
  Dataflash_SendByte DF_CMD_READMANUFACTURERDEVICEINFO;;
  ReturnByte ← Dataflash_ReceiveByte;
  Dataflash_DeselectChip;;
  mret (ReturnByte =? DF_MANUFACTURER_ATMEL).

Definition DataflashManager_CheckDataflashOperation : io bool :=
  ok ← check_chip DATAFLASH_CHIP1;
  if negb ok then mret false else
  ok ← check_chip DATAFLASH_CHIP2;
  if negb ok then mret false else mret true.
End manager.
