(* ===== verification/DataflashChip.v ===== *)
(** * The Dataflash chips

    What the commands of an AT45DB642D do, as a function of the bytes it is sent:
    the environment of the Dataflash driver.  A chip has 8192 pages and two
    buffers.  A command starts when the chip is selected, takes a 24-bit address
    (13 bits page, 11 bits byte) and, for a transfer between a page and a buffer, is
    executed when the chip is deselected.  The chip is then busy until a read of its
    status register shows that it is ready again, and ignores commands on the pages
    and on the buffer in use meanwhile.  Nothing is assumed about how long that
    takes, nor about what a chip shifts out in all other cases. *)
From S2P Require Import Prelude ConfigDescriptors USBIo Endpoint EndpointSpec Dataflash.

Inductive phase : Type :=
  | Opcode                                      (* selected, nothing received *)
  | Address (op : Z) (more : nat) (addr : Z)    (* [more] address bytes to come *)
  | Waiting (more : nat) (addr : Z)             (* page read: don't-care bytes to come *)
  | Reading (page byte : Z)                     (* the next byte to shift out *)
  | Writing (second : bool) (byte : Z)          (* the next byte of the buffer *)
  | Pending (op page : Z)                       (* executed at the end *)
  | Status
  | Other.

Record chip := mk_chip {
    mem : Z -> Z -> Z;
    buff : bool -> Z -> Z;
    busy : option bool;
    at_phase : phase;
    out : option Z
  }.

Definition enter (p : phase) (c : chip) : chip := mk_chip (mem c) (buff c) (busy c) p None.
Definition set_busy (b : option bool) (c : chip) : chip := mk_chip (mem c) (buff c) b (at_phase c) (out c).

Definition addr_page (addr : Z) : Z := addr / 2048.
Definition addr_byte (addr : Z) : Z := addr mod 2048.

Definition takes_address (op : Z) : bool :=
  bool_decide (op ∈ [DF_CMD_MAINMEMTOBUFF1; DF_CMD_MAINMEMTOBUFF2; DF_CMD_MAINMEMPAGEREAD; DF_CMD_BUFF1WRITE;
    DF_CMD_BUFF2WRITE; DF_CMD_BUFF1TOMAINMEMWITHERASE; DF_CMD_BUFF2TOMAINMEMWITHERASE]).

(** The phase after the last address byte. *)
Definition addressed (c : chip) (op addr : Z) : phase :=
  if op =? DF_CMD_MAINMEMPAGEREAD then
    match busy c with None => Waiting 4 addr | Some _ => Other end
  else if op =? DF_CMD_BUFF1WRITE then Writing false (addr_byte addr)
  else if op =? DF_CMD_BUFF2WRITE then Writing true (addr_byte addr)
  else Pending op (addr_page addr).

Definition set_buff (u : bool) (i b : Z) (c : chip) : bool -> Z -> Z :=
  fun u' i' => if eqb u' u && (i' =? i) then b else buff c u' i'.

(** One byte is shifted into a selected chip. *)
Definition shift (b : Z) (c : chip) : chip :=
  match at_phase c with
  | Opcode =>
      if b =? DF_CMD_GETSTATUS then enter Status c
      else if takes_address b then enter (Address b 3 0) c else enter Other c
  | Address op more addr =>
      let addr := addr * 256 + b in
      match more with
      | S (S n) => enter (Address op (S n) addr) c
      | _ => enter (addressed c op addr) c
      end
  | Waiting more addr =>
      match more with
      | S (S n) => enter (Waiting (S n) addr) c
      | _ => enter (Reading (addr_page addr) (addr_byte addr)) c
      end
  | Reading p i => mk_chip (mem c) (buff c) (busy c) (Reading p (i + 1)) (Some (mem c p i))
  | Writing u i =>
      let c' := enter (Writing u (i + 1)) c in
      if bool_decide (busy c = Some u) then c'
      else mk_chip (mem c') (set_buff u i b c) (busy c') (at_phase c') (out c')
  | Pending _ _ | Status | Other => enter (at_phase c) c
  end.

(** The transfers between pages and buffers. *)
Definition load_buffer (u : bool) (p : Z) (c : chip) : chip :=
  mk_chip (mem c) (fun u' i => if eqb u' u then mem c p i else buff c u' i) (Some u) (at_phase c) (out c).
Definition program_page (u : bool) (p : Z) (c : chip) : chip :=
  mk_chip (fun p' i => if p' =? p then buff c u i else mem c p' i) (buff c) (Some u) (at_phase c) (out c).

Definition execute (op p : Z) (c : chip) : chip :=
  match busy c with
  | Some _ => c
  | None =>
      if op =? DF_CMD_MAINMEMTOBUFF1 then load_buffer false p c
      else if op =? DF_CMD_MAINMEMTOBUFF2 then load_buffer true p c
      else if op =? DF_CMD_BUFF1TOMAINMEMWITHERASE then program_page false p c
      else if op =? DF_CMD_BUFF2TOMAINMEMWITHERASE then program_page true p c
      else c
  end.

(** The end of a command. *)
Definition deselect (c : chip) : chip :=
  enter Opcode (match at_phase c with Pending op p => execute op p c | _ => c end).

(** ** The two chips and the port that selects them *)

Record flash := mk_flash { port : Z; chip1 : chip; chip2 : chip }.

(** Even pages are in the first chip, odd pages in the second. *)
Definition chip_of (second : bool) (f : flash) : chip := if second then chip2 f else chip1 f.
Definition set_chip (second : bool) (c : chip) (f : flash) : flash :=
  if second then mk_flash (port f) (chip1 f) c else mk_flash (port f) c (chip2 f).

(** The select pins are active low. *)
Definition selected (p : Z) : option bool :=
  if Z.land p DATAFLASH_CHIPCS_MASK =? DATAFLASH_CHIP1 then Some false
  else if Z.land p DATAFLASH_CHIPCS_MASK =? DATAFLASH_CHIP2 then Some true else None.

Definition on_selected (g : chip -> chip) (f : flash) : flash :=
  match selected (port f) with Some i => set_chip i (g (chip_of i f)) f | None => f end.

Definition step (f : flash) (e : event) : flash :=
  match e with
  | Cmd (c_PORTE v) =>
      let f' := if bool_decide (selected v = selected (port f)) then f else on_selected deselect f in
      let f' := mk_flash v (chip1 f') (chip2 f') in
      if bool_decide (selected v = selected (port f)) then f' else on_selected (enter Opcode) f'
  | Cmd (c_SPI_Transfer b) => on_selected (shift b) f
  | Ask q_SPDR a =>
      on_selected (fun c => match at_phase c with
        | Status => if truthy (Z.land a DF_STATUS_READY) then set_busy None c else c
        | _ => c
        end) f
  | _ => f
  end.

Definition run (f : flash) (t : list event) : flash := foldl step f t.

(** The byte of the disk at an address. *)
Definition page_of (a : Z) : Z := a / DATAFLASH_PAGE_SIZE.
Definition disk (f : flash) (a : Z) : Z :=
  mem (chip_of (Z.odd (page_of a)) f) (page_of a / 2) (a mod DATAFLASH_PAGE_SIZE).

(** The byte the selected chip has shifted out, where that is determined. *)
Definition shifted_out (f : flash) : option Z :=
  match selected (port f) with Some i => out (chip_of i f) | None => None end.

Definition in_status (f : flash) : Prop :=
  exists i, selected (port f) = Some i /\ at_phase (chip_of i f) = Status.

(** The events of polls that were answered with [l]. *)
Definition polls (l : list Z) : list event := concat ((fun a => [Cmd (c_SPI_Transfer 0); Ask q_SPDR a]) <$> l).

(** The chips are connected: the port reads back, what a chip shifts out arrives,
    and a chip is busy for less than [k] polls. *)
Record attached (h : hw) (f0 : flash) (k : nat) : Prop := {
    att_port : forall t, h t q_PORTE = port (run f0 t);
    att_out : forall t v, shifted_out (run f0 t) = Some v -> h t q_SPDR = v;
    att_ready : forall t l, in_status (run f0 t) -> valid h t (polls l) ->
      Forall (fun a => truthy (Z.land a DF_STATUS_READY) = false) l -> (length l < k)%nat
  }.

Lemma run_app f t s : run f (t ++ s) = run (run f t) s.
Proof. apply foldl_app. Qed.

Lemma chip_of_set i c f : chip_of i (set_chip i c f) = c.
Proof. by destruct i. Qed.
Lemma chip_of_set_ne i j c f : i <> j -> chip_of i (set_chip j c f) = chip_of i f.
Proof. by destruct i, j. Qed.
Lemma port_set i c f : port (set_chip i c f) = port f.
Proof. by destruct i. Qed.

Lemma run_silent s : silent s -> forall f, run f s = f.
Proof. induction 1 as [|e s He _ IH]; intros f; [done|]. cbn. rewrite <- (IH f) at 2. f_equal. by destruct e as [[] ?|?]. Qed.
