(* ===== verification/DataflashSpec.v ===== *)
(** * Correctness of the Dataflash disk

    The block transfers of [DataflashManager.c] on the chips of [DataflashChip]:
    writing blocks changes exactly their bytes of the disk, reading blocks gives
    the bytes of the disk, across pages, chips and buffers. *)
From S2P Require Import Prelude ConfigDescriptors USBIo Endpoint EndpointSpec Dataflash DataflashChip.

(** ** Code on the chips

    The state with chip [i] and its neighbour, whatever the order. *)
Definition two (p : Z) (i : bool) (c d : chip) : flash := if i then mk_flash p d c else mk_flash p c d.

Lemma two_eta i f : f = two (port f) i (chip_of i f) (chip_of (negb i) f).
Proof. by destruct i, f. Qed.
Lemma two_swap p i c d : two p i c d = two p (negb i) d c.
Proof. by destruct i. Qed.
Lemma port_two p i c d : port (two p i c d) = p.
Proof. by destruct i. Qed.
Lemma chip_of_two p i c d : chip_of i (two p i c d) = c.
Proof. by destruct i. Qed.
Lemma chip_of_two_other p i c d : chip_of (negb i) (two p i c d) = d.
Proof. by destruct i. Qed.
Lemma set_chip_two p i c d c' : set_chip i c' (two p i c d) = two p i c' d.
Proof. by destruct i. Qed.
Lemma on_selected_two g p i c d : selected p = Some i -> on_selected g (two p i c d) = two p i (g c) d.
Proof. intros E. unfold on_selected. by rewrite port_two, E, chip_of_two, set_chip_two. Qed.
Lemma on_none g f : selected (port f) = None -> on_selected g f = f.
Proof. intros E. unfold on_selected. by rewrite E. Qed.

Section code.
Context (h : hw) (f0 : flash) (k : nat) (Hatt : attached h f0 k) (fuel : nat) (Hfuel : (k <= fuel)%nat).

Definition now (t : list event) : flash := run f0 t.

Lemma now_app t s : now (t ++ s) = run (now t) s.
Proof. apply run_app. Qed.

(** Code that touches no endpoint, from the state [f] of the chips. *)
Definition fw {A} (m : io A) (f : flash) (Q : A -> flash -> Prop) : Prop :=
  forall t, now t = f -> wp true h m t (fun a s => Q a (run f s) /\ sent s = [] /\ received s = []).

Lemma fw_ret {A} (a : A) f (Q : A -> flash -> Prop) : Q a f -> fw (mret a) f Q.
Proof. intros ? t _. by apply wp_ret. Qed.

Lemma fw_bind {A B} (m : io A) (g : A -> io B) f Q : fw m f (fun a f' => fw (g a) f' Q) -> fw (m ≫= g) f Q.
Proof.
  intros Hm t Ht. apply wp_bind. eapply wp_mono; [by apply Hm|]. intros a s (Hg & Es & Er).
  eapply wp_mono; [apply Hg; by rewrite now_app, Ht|]. intros b s' (HQ & Es' & Er').
  rewrite run_app, sent_app, received_app, Es, Es', Er, Er'. done.
Qed.

Lemma fw_mono {A} (m : io A) f (P Q : A -> flash -> Prop) : fw m f P -> (forall a f', P a f' -> Q a f') -> fw m f Q.
Proof. intros H HPQ t Ht. eapply wp_mono; [by apply H|]. intros a s (? & ?). split; auto. Qed.

Lemma fw_port f (Q : Z -> flash -> Prop) : Q (u8 (port f)) f -> fw (ask_u8 q_PORTE) f Q.
Proof.
  intros HQ t Ht. apply wp_ask_u8. intros a Ha. rewrite (att_port _ _ _ Hatt) in Ha. change (run f0 t) with (now t) in Ha.
  rewrite Ht in Ha. by subst a.
Qed.

Lemma fw_cmd c f (Q : unit -> flash -> Prop) :
  sent [Cmd c] = [] -> Q tt (step f (Cmd c)) -> fw (cmd c) f Q.
Proof. intros Hs HQ t Ht. by apply wp_cmd. Qed.

Lemma fw_send b p i c d (Q : unit -> flash -> Prop) :
  selected p = Some i -> Q tt (two p i (shift (u8 b) c) d) -> fw (Dataflash_SendByte b) (two p i c d) Q.
Proof. intros E HQ. apply fw_cmd; [done|]. cbn [step]. by rewrite on_selected_two. Qed.

Lemma mask_select p m : 0 <= m <= 3 -> Z.land (Z.lor (Z.land p (Z.lnot DATAFLASH_CHIPCS_MASK)) m) DATAFLASH_CHIPCS_MASK = m.
Proof.
  intros Hm. rewrite Z.land_lor_distr_l, <-Z.land_assoc. unfold DATAFLASH_CHIPCS_MASK.
  replace (Z.land (Z.lnot 3) 3) with 0 by done. rewrite Z.land_0_r, Z.lor_0_l.
  change 3 with (Z.ones 2). rewrite Z.land_ones by lia. apply Z.mod_small. change (2 ^ 2) with 4. lia.
Qed.

Definition with_port (p : Z) (f : flash) : flash := mk_flash p (chip1 f) (chip2 f).

Lemma fw_deselect f (Q : unit -> flash -> Prop) :
  (forall p, selected p = None -> Q tt (with_port p (on_selected deselect f))) -> fw Dataflash_DeselectChip f Q.
Proof.
  intros HQ. unfold Dataflash_DeselectChip, Dataflash_SelectChip. apply fw_bind, fw_port, fw_cmd; [done|].
  set (v := Z.lor _ _). assert (selected v = None) as Ev by (unfold selected, v; by rewrite mask_select).
  cbn [step]. rewrite Ev. rewrite on_none with (f := mk_flash _ _ _) by done.
  case_bool_decide as E; [|by apply HQ]. rewrite <- (on_none deselect f) at 1 2 by done. by apply HQ.
Qed.

Lemma fw_select_chip i f (Q : unit -> flash -> Prop) :
  selected (port f) = None ->
  (forall p, selected p = Some i -> Q tt (set_chip i (enter Opcode (chip_of i f)) (with_port p f))) ->
  fw (Dataflash_SelectChip (if i then DATAFLASH_CHIP2 else DATAFLASH_CHIP1)) f Q.
Proof.
  intros En HQ. unfold Dataflash_SelectChip. apply fw_bind, fw_port, fw_cmd; [done|].
  set (v := Z.lor _ _). assert (selected v = Some i) as Ev by (unfold selected, v; rewrite mask_select; by destruct i).
  cbn [step]. rewrite Ev, En. cbn -[on_selected deselect enter]. rewrite (on_none deselect f En).
  unfold on_selected at 1. cbn [port]. rewrite Ev. by apply HQ.
Qed.

Lemma fw_get_chip p i c d (Q : Z -> flash -> Prop) :
  selected p = Some i -> Q (if i then DATAFLASH_CHIP2 else DATAFLASH_CHIP1) (two p i c d) ->
  fw Dataflash_GetSelectedChip (two p i c d) Q.
Proof.
  intros E HQ. apply fw_bind, fw_port, fw_ret. rewrite port_two.
  replace (Z.land (u8 p) DATAFLASH_CHIPCS_MASK) with (if i then DATAFLASH_CHIP2 else DATAFLASH_CHIP1); [done|].
  unfold selected in E. unfold wrap, DATAFLASH_CHIPCS_MASK in *.
  replace (Z.land (p mod 2 ^ 8) 3) with (Z.land p 3).
  - destruct (Z.eqb_spec (Z.land p 3) DATAFLASH_CHIP1), (Z.eqb_spec (Z.land p 3) DATAFLASH_CHIP2); by simplify_eq.
  - change 3 with (Z.ones 2). rewrite !Z.land_ones by lia. change (2 ^ 2) with 4. change (2 ^ 8) with 256. zdm.
Qed.

Lemma fw_toggle p i c d (Q : unit -> flash -> Prop) :
  selected p = Some i -> (forall p', selected p' = Some i -> Q tt (two p' i (deselect c) d)) ->
  fw Dataflash_ToggleSelectedChipCS (two p i c d) Q.
Proof.
  intros E HQ. apply fw_bind, (fw_get_chip _ i); [done|]. apply fw_bind, fw_deselect. intros p1 E1.
  apply fw_select_chip; [done|]. intros p2 E2. rewrite on_selected_two by done. specialize (HQ p2 E2). by destruct i.
Qed.

Lemma polls_snoc l a : polls (l ++ [a]) = polls l ++ [Cmd (c_SPI_Transfer 0); Ask q_SPDR a].
Proof. unfold polls. by rewrite fmap_app, concat_app. Qed.

Lemma land_ready_u8 a : Z.land (u8 a) DF_STATUS_READY = Z.land a DF_STATUS_READY.
Proof.
  unfold wrap, DF_STATUS_READY. rewrite <- (Z.land_ones a 8), <- Z.land_assoc by lia. by change (Z.land (Z.ones 8) 128) with 128.
Qed.

(** Polling ends: the chip is ready. *)
Lemma poll_ends p i c d t0 : now t0 = two p i c d -> selected p = Some i -> at_phase c = Status -> out c = None ->
  forall fuel l, valid h t0 (polls l) -> Forall (fun a => truthy (Z.land a DF_STATUS_READY) = false) l ->
  now (t0 ++ polls l) = two p i c d -> (k <= length l + fuel)%nat ->
  wp true h (poll_ready fuel) (t0 ++ polls l) (fun _ s => run (two p i c d) s = two p i (set_busy None c) d /\ sent s = [] /\ received s = []).
Proof.
  intros H0 E Ec Eo. assert (enter Status c = c) as Es by (destruct c; cbn in *; by subst).
  induction fuel0 as [|fl IH]; intros l Hv Hl Hn Hk.
  { pose proof (att_ready _ _ _ Hatt t0 l) as Hr. exfalso.
    enough (length l < k)%nat by lia. apply Hr; try done. exists i. change (run f0 t0) with (now t0).
    rewrite H0, port_two, chip_of_two. done. }
  cbn [poll_ready]. unfold Dataflash_ReceiveByte. do 2 wp_step. apply wp_cmd. apply wp_ask_u8. intros a Ha. cbn [app].
  rewrite land_ready_u8. rewrite <- app_assoc in Ha.
  assert (forall e, run (two p i c d) [Cmd (c_SPI_Transfer 0); e] = step (two p i c d) e) as Hrun.
  { intros e. cbn -[step]. f_equal. cbn [step]. rewrite on_selected_two by done. unfold shift. by rewrite Ec, Es. }
  wp_step.
  - wp_step. split; [|done]. rewrite Hrun. cbn [step]. rewrite on_selected_two by done.
    by rewrite Ec, H.
  - assert (step (two p i c d) (Ask q_SPDR a) = two p i c d) as Hst.
    { cbn [step]. rewrite on_selected_two by done. by rewrite Ec, H. }
    rewrite <- app_assoc, <- polls_snoc. eapply wp_mono; [apply (IH (l ++ [a]))|].
    + rewrite polls_snoc. apply valid_app. split; [done|]. cbn. by rewrite <- !app_assoc.
    + apply Forall_app. auto.
    + rewrite polls_snoc, app_assoc, now_app, Hn, Hrun. done.
    + rewrite length_app. cbn. lia.
    + intros [] s (HQ & ? & ?). split; [|done].
      change (?x :: ?y :: s) with ([x; y] ++ s). rewrite run_app, Hrun, Hst. done.
Qed.

Lemma fw_wait p i c d (Q : unit -> flash -> Prop) :
  selected p = Some i -> (forall p', selected p' = Some i -> Q tt (two p' i (set_busy None (deselect c)) d)) ->
  fw (Dataflash_WaitWhileBusy fuel) (two p i c d) Q.
Proof.
  intros E HQ. apply fw_bind, fw_toggle; [done|]. intros p1 E1. apply fw_bind, fw_send; [done|].
  apply fw_bind. intros t Ht. pose proof (poll_ends _ _ _ _ _ Ht E1 eq_refl eq_refl fuel []) as Hp.
  rewrite app_nil_r in Hp. eapply wp_mono; [apply Hp; cbn; auto; lia|]. intros [] s (Hs & ? & ?). split; [|done].
  rewrite Hs. apply fw_toggle; [done|]. intros p2 E2. apply HQ, E2.
Qed.

(** Select the chip of a page: the command of the other one ends. *)
Lemma fw_select_page P f (Q : unit -> flash -> Prop) :
  0 <= P < DATAFLASH_PAGES * DATAFLASH_TOTALCHIPS ->
  (forall p, selected p = Some (Z.odd P) ->
     let g := on_selected deselect f in
     Q tt (two p (Z.odd P) (enter Opcode (chip_of (Z.odd P) g)) (chip_of (negb (Z.odd P)) g))) ->
  fw (Dataflash_SelectChipFromPage P) f Q.
Proof.
  intros HP HQ. apply fw_bind, fw_deselect. intros p1 E1.
  replace (_ <=? P) with false by (symmetry; apply Z.leb_gt; lia).
  replace (truthy (Z.land P 1)) with (Z.odd P).
  2:{ unfold truthy. change 1 with (Z.ones 1). rewrite (Z.land_ones P 1) by lia. change (2 ^ 1) with 2. rewrite Zmod_odd. by destruct (Z.odd P). }
  assert (fw (Dataflash_SelectChip (if Z.odd P then DATAFLASH_CHIP2 else DATAFLASH_CHIP1)) (with_port p1 (on_selected deselect f)) Q) as H.
  { apply fw_select_chip; [done|]. intros p2 E2. specialize (HQ p2 E2). cbv zeta in HQ. set (g := on_selected deselect f) in *.
    by destruct (Z.odd P), g. }
  by destruct (Z.odd P).
Qed.

(** The bytes of an address. *)
Lemma address_bytes P b :
  0 <= P < 16384 -> 0 <= b < 1024 ->
  (u8 (Z.shiftr (Z.shiftr P 1) 5) * 256 + u8 (Z.lor (u16 (Z.shiftl (Z.shiftr P 1) 3)) (Z.shiftr b 8))) * 256 + u8 b =
  P / 2 * 2048 + b.
Proof.
  intros HP Hb. unfold wrap. rewrite !Z.shiftr_div_pow2, Z.shiftl_mul_pow2 by lia.
  change (2 ^ 1) with 2. change (2 ^ 5) with 32. change (2 ^ 8) with 256. change (2 ^ 3) with 8. change (2 ^ 16) with 65536.
  set (q := P / 2). assert (0 <= q < 8192) by (unfold q; zdm). assert (0 <= b / 256 < 4) by zdm.
  assert (Z.lor ((q * 8) mod 65536) (b / 256) = q * 8 + b / 256) as ->.
  { rewrite Z.mod_small by lia. rewrite <- Z.lxor_lor, <- Z.add_nocarry_lxor; [done|..].
    all: change (q * 8) with (q * 2 ^ 3); rewrite <- Z.shiftl_mul_pow2 by lia.
    all: apply Z.bits_inj'; intros n Hn; rewrite Z.land_spec, Z.bits_0, Z.shiftl_spec by lia.
    all: destruct (Z.ltb_spec n 3); [by rewrite Z.testbit_neg_r by lia|].
    all: rewrite (Z.bits_above_log2 (b / 256) n), andb_false_r; [done|lia|].
    all: destruct (Z.eq_dec (b / 256) 0) as [->|]; [cbn; lia|]; apply Z.log2_lt_pow2; [lia|].
    all: assert (2 ^ 3 <= 2 ^ n) by (apply Z.pow_le_mono_r; lia); lia. }
  zdm.
Qed.

(** A command and its address. *)
Lemma fw_opcode op p i c d (Q : unit -> flash -> Prop) :
  selected p = Some i -> at_phase c = Opcode -> takes_address op = true ->
  Q tt (two p i (enter (Address op 3 0) c) d) -> fw (Dataflash_SendByte op) (two p i c d) Q.
Proof.
  intros E Ec Hop HQ. apply fw_send; [done|]. unfold shift. rewrite Ec.
  assert (u8 op = op /\ (op =? DF_CMD_GETSTATUS) = false) as [-> ->]; [|by rewrite Hop].
  apply bool_decide_eq_true in Hop. by repeat (apply elem_of_cons in Hop as [->|Hop]; [done|]); apply elem_of_nil in Hop.
Qed.

Lemma fw_address op P b p i c d (Q : unit -> flash -> Prop) :
  selected p = Some i -> 0 <= P < 16384 -> 0 <= b < 1024 ->
  Q tt (two p i (enter (addressed c op (P / 2 * 2048 + b)) c) d) ->
  fw (Dataflash_SendAddressBytes P b) (two p i (enter (Address op 3 0) c) d) Q.
Proof.
  intros E HP Hb HQ. apply fw_bind, fw_send; [done|]. apply fw_bind, fw_send; [done|]. apply fw_send; [done|].
  cbv [shift at_phase enter]. cbn [Nat.pred]. rewrite Z.mul_0_l, Z.add_0_l, (address_bytes P b HP Hb). exact HQ.
Qed.

(** Use code on the chips in code that also uses endpoints. *)
Lemma wp_fw {A} (m : io A) t Q (P : A -> list event -> Prop) :
  fw m (now t) Q -> (forall a s, Q a (now (t ++ s)) -> sent s = [] -> received s = [] -> P a s) -> wp true h m t P.
Proof.
  intros H HP. eapply wp_mono; [by apply H|]. intros a s (HQ & ? & ?). apply HP; [|done..]. by rewrite now_app.
Qed.

(** ** Writing *)

Definition disk_size := VIRTUAL_MEMORY_BYTES.

Lemma disk_size_eq : disk_size = 16777216.
Proof. reflexivity. Qed.
Lemma blocks_eq : VIRTUAL_MEMORY_BLOCKS = 32768.
Proof. reflexivity. Qed.

Lemma disk_two p P c d a :
  disk (two p (Z.odd P) c d) a =
  mem (if eqb (Z.odd (page_of a)) (Z.odd P) then c else d) (page_of a / 2) (a mod DATAFLASH_PAGE_SIZE).
Proof. unfold disk. by destruct (Z.odd (page_of a)), (Z.odd P). Qed.

(** Two pages of one chip are different pages of the disk. *)
Lemma same_page P P' : 0 <= P -> 0 <= P' -> Z.odd P = Z.odd P' -> P / 2 = P' / 2 -> P = P'.
Proof.
  intros ? ? Ho Hd. rewrite (Z.div_mod P 2), (Z.div_mod P' 2) by lia. rewrite !Zmod_odd, Ho, Hd. done.
Qed.

(** Once page [P] is stored by buffer [u], the next page of the other chip may
    go to the buffer [next_buffer P u]. *)
Definition next_buffer (P : Z) (u : bool) : bool := if Z.odd P then negb u else u.

(** A transfer that changes the disk from [old] to [new], up to the address [stop]:
    its next byte is byte [b] of page [P], which buffer [u] is being filled for.
    Pages before [P] are new; the buffer has the new bytes up to [b], and those
    that stay behind [stop]. *)
Section transfer.
Context (old new : Z -> Z) (stop : Z).

Record writing (P b : Z) (u : bool) (f : flash) : Prop := {
    w_port : selected (port f) = Some (Z.odd P);
    w_phase : at_phase (chip_of (Z.odd P) f) = Writing u b;
    w_busy : busy (chip_of (Z.odd P) f) <> Some u;
    w_next : busy (chip_of (negb (Z.odd P)) f) <> Some (next_buffer P u);
    w_buff : forall j, 0 <= j < 1024 -> j < b \/ stop <= P * 1024 + j ->
      buff (chip_of (Z.odd P) f) u j = new (P * 1024 + j);
    w_disk : forall a, 0 <= a < disk_size -> disk f a = if a <? P * 1024 then new a else old a
  }.

Context (start : Z) (Hstart : 0 <= start) (Hstop : stop <= disk_size)
  (Hold : forall a, a < start \/ stop <= a -> new a = old a)
  (Hbyte : forall a, start <= a < stop -> is_byte (new a)).

Lemma fw_store_page P u p i c d (Q : unit -> flash -> Prop) :
  selected p = Some i -> 0 <= P < 16384 ->
  (forall p', selected p' = Some i ->
     Q tt (two p' i (enter (Pending (buffer_cmd u DF_CMD_BUFF2TOMAINMEMWITHERASE DF_CMD_BUFF1TOMAINMEMWITHERASE) (P / 2))
                       (set_busy None (deselect c))) d)) ->
  fw (store_page fuel P u) (two p i c d) Q.
Proof.
  intros E HP HQ. unfold store_page. apply fw_bind, fw_wait; [done|]. intros p' E'.
  apply fw_bind, fw_opcode; [done|done|by destruct u|]. apply fw_address; [done|lia|lia|].
  replace (addressed _ _ _) with (Pending (buffer_cmd u DF_CMD_BUFF2TOMAINMEMWITHERASE DF_CMD_BUFF1TOMAINMEMWITHERASE) (P / 2)).
  - by apply HQ.
  - unfold addressed, addr_page. rewrite Z.add_0_r, Z.div_mul by lia. by destruct u.
Qed.

(** Show [writing] of an explicit state. *)
Lemma writing_two P b u p c d :
  selected p = Some (Z.odd P) -> at_phase c = Writing u b -> busy c <> Some u -> busy d <> Some (next_buffer P u) ->
  (forall j, 0 <= j < 1024 -> j < b \/ stop <= P * 1024 + j -> buff c u j = new (P * 1024 + j)) ->
  (forall a, 0 <= a < disk_size -> disk (two p (Z.odd P) c d) a = if a <? P * 1024 then new a else old a) ->
  writing P b u (two p (Z.odd P) c d).
Proof. intros. constructor; rewrite ?port_two, ?chip_of_two, ?chip_of_two_other; auto. Qed.

Lemma writing_inv P b u f :
  writing P b u f -> exists p c d, f = two p (Z.odd P) c d /\
    selected p = Some (Z.odd P) /\ at_phase c = Writing u b /\ busy c <> Some u /\ busy d <> Some (next_buffer P u) /\
    (forall j, 0 <= j < 1024 -> j < b \/ stop <= P * 1024 + j -> buff c u j = new (P * 1024 + j)) /\
    (forall a, 0 <= a < disk_size -> disk (two p (Z.odd P) c d) a = if a <? P * 1024 then new a else old a).
Proof.
  intros [H1 H2 H3 H4 H5 H6]. rewrite (two_eta (Z.odd P) f) in *. rewrite port_two, chip_of_two, chip_of_two_other in *.
  do 3 eexists. split_and!; [reflexivity|..]; assumption.
Qed.

Lemma write_one P b u f :
  writing P b u f -> 0 <= b < 1024 -> start <= P * 1024 + b < stop ->
  fw (Dataflash_SendByte (new (P * 1024 + b))) f (fun _ f' => writing P (b + 1) u f').
Proof.
  intros (p & c & d & -> & Ep & Ec & Hb & Hn & Hbuf & Hd)%writing_inv Hr Hin.
  apply fw_send; [done|]. unfold shift. rewrite Ec. rewrite bool_decide_eq_false_2 by done. apply writing_two; try done.
  - intros j Hj Hc. cbn. unfold set_buff. rewrite eqb_reflx. cbn.
    destruct (Z.eqb_spec j b) as [->|]; [|apply Hbuf; lia]. pose proof (Hbyte (P * 1024 + b) Hin). unfold wrap, is_byte in *.
    apply Z.mod_small. lia.
  - intros a Ha. rewrite <- Hd by done. rewrite !disk_two. by destruct (eqb _ _).
Qed.

(** The page of an address of the disk. *)
Lemma page_range a : 0 <= a < disk_size -> 0 <= page_of a < 16384.
Proof. rewrite disk_size_eq. unfold page_of, DATAFLASH_PAGE_SIZE. intros. zdm. Qed.

Lemma page_split a : a = page_of a * 1024 + a mod DATAFLASH_PAGE_SIZE /\ 0 <= a mod DATAFLASH_PAGE_SIZE < 1024.
Proof. unfold page_of, DATAFLASH_PAGE_SIZE. zdm. Qed.

Lemma page_at P j : 0 <= j < 1024 -> page_of (P * 1024 + j) = P /\ (P * 1024 + j) mod DATAFLASH_PAGE_SIZE = j.
Proof. unfold page_of, DATAFLASH_PAGE_SIZE. zdm. Qed.

(** Storing a full buffer makes its page new. *)
Lemma program_disk P b u p c d p' a :
  0 <= P -> (forall j, 0 <= j < 1024 -> j < b \/ stop <= P * 1024 + j -> buff c u j = new (P * 1024 + j)) ->
  (forall a, 0 <= a < disk_size -> disk (two p (Z.odd P) c d) a = if a <? P * 1024 then new a else old a) ->
  (b = 1024 \/ stop <= P * 1024 + b) -> 0 <= a < disk_size ->
  forall c', mem c' = mem (program_page u (P / 2) c) ->
  disk (two p' (Z.odd P) c' d) a = if a <? (P + 1) * 1024 then new a else old a.
Proof.
  intros HP Hbuf Hd Hb Ha c' Ec'. specialize (Hd a Ha). rewrite disk_two in *. pose proof (page_range a Ha).
  destruct (page_split a) as [Ea Hj]. set (q := page_of a) in *. set (j := a mod DATAFLASH_PAGE_SIZE) in *.
  destruct (eqb (Z.odd q) (Z.odd P)) eqn:Eo.
  - apply eqb_prop in Eo. rewrite Ec'. cbn [mem program_page]. destruct (Z.eqb_spec (q / 2) (P / 2)) as [E2|E2].
    + assert (q = P) as Eq by (apply same_page; lia || done). rewrite Eq in *. rewrite Hbuf; [|lia|lia].
      rewrite <- Ea. by replace (a <? (P + 1) * 1024) with true by lia.
    + rewrite Hd. assert (q <> P) by congruence.
      destruct (Z.ltb_spec a (P * 1024)), (Z.ltb_spec a ((P + 1) * 1024)); try done; lia.
  - rewrite Hd. assert (q <> P) by (intros ->; by rewrite eqb_reflx in Eo).
    destruct (Z.ltb_spec a (P * 1024)), (Z.ltb_spec a ((P + 1) * 1024)); try done; lia.
Qed.

(** What [toggle] may do in front of a buffer write command: end the (empty)
    command of the selected chip. *)
Definition harmless (toggle : io unit) : Prop :=
  forall p i c d (Q : unit -> flash -> Prop), selected p = Some i -> at_phase c = Opcode -> out c = None ->
    (forall p', selected p' = Some i -> Q tt (two p' i c d)) -> fw toggle (two p i c d) Q.

(** The new page's chip in front of the buffer write command: [d] is the chip as it
    was before it was selected. *)
Definition prepared (P : Z) (u : bool) (keep : bool) (d d' : chip) : Prop :=
  mem d' = mem d /\ at_phase d' = Opcode /\ out d' = None /\ busy d' <> Some u /\
  (keep = true -> forall j, buff d' u j = mem d (P / 2) j).

Lemma fw_preserve P u (keep : bool) p i d c (Q : unit -> flash -> Prop) :
  selected p = Some i -> 0 <= P < 16384 -> busy d <> Some u ->
  (forall p' d', selected p' = Some i -> prepared P u keep d d' -> Q tt (two p' i d' c)) ->
  fw (if keep then
        Dataflash_WaitWhileBusy fuel;;
        Dataflash_SendByte (buffer_cmd u DF_CMD_MAINMEMTOBUFF2 DF_CMD_MAINMEMTOBUFF1);;
        Dataflash_SendAddressBytes P 0;;
        Dataflash_WaitWhileBusy fuel
      else mret tt) (two p i (enter Opcode d) c) Q.
Proof.
  intros E HP Hb HQ. destruct keep; [|apply fw_ret, HQ; [done|by split_and!]].
  apply fw_bind, fw_wait; [done|]. intros p1 E1. apply fw_bind, fw_opcode; [done|done|by destruct u|].
  apply fw_bind, fw_address; [done|lia|lia|]. apply fw_wait; [done|]. intros p2 E2. apply HQ; [done|].
  set (e := set_busy None (deselect (enter Opcode d))). assert (deselect (enter (addressed e (buffer_cmd u DF_CMD_MAINMEMTOBUFF2 DF_CMD_MAINMEMTOBUFF1)
    (P / 2 * 2048 + 0)) e) = enter Opcode (load_buffer u (P / 2) e)) as ->.
  { assert (addr_page (P / 2 * 2048 + 0) = P / 2) as Ea by (unfold addr_page; rewrite Z.add_0_r; by apply Z.div_mul).
    destruct u; cbv [deselect enter at_phase addressed buffer_cmd]; cbn -[addr_page Z.div load_buffer]; by rewrite Ea. }
  split_and!; try done. intros _ j. cbn. by rewrite eqb_reflx.
Qed.

Lemma next_page_spec toggle TotalBlocks P u f :
  harmless toggle -> writing P 1024 u f -> 0 <= P -> P + 1 < 16384 ->
  1 <= TotalBlocks -> (2 <= TotalBlocks -> (P + 2) * 1024 <= stop) -> start <= (P + 1) * 1024 ->
  fw (next_page fuel toggle TotalBlocks P u) f (fun r f' =>
    r = (P + 1, next_buffer P u) /\ writing (P + 1) 0 (next_buffer P u) f').
Proof.
  intros Ht (p & c & d & -> & Ep & Ec & Hb & Hn & Hbuf & Hd)%writing_inv HP0 HP HT Hst Hs. unfold next_page.
  assert (u16 (P + 1) = P + 1) as -> by (unfold wrap; apply Z.mod_small; lia).
  apply fw_bind, fw_store_page; [done|lia|]. intros p1 E1.
  apply fw_bind, (fw_get_chip _ (Z.odd P)); [done|].
  replace (if _ =? DATAFLASH_CHIP2 then negb u else u) with (next_buffer P u) by (unfold next_buffer; by destruct (Z.odd P)).
  set (v := next_buffer P u) in *. apply fw_bind, fw_select_page; [vm_compute (DATAFLASH_PAGES * _); lia|]. intros p2 E2.
  cbv zeta. rewrite on_selected_two by done.
  assert (Z.odd (P + 1) = negb (Z.odd P)) as Eo by (rewrite Z.odd_add; by destruct (Z.odd P)). rewrite Eo in *.
  rewrite chip_of_two_other, negb_involutive, chip_of_two.
  set (c1 := deselect (enter (Pending _ _) _)).
  assert (mem c1 = mem (program_page u (P / 2) c) /\ busy c1 = Some u) as [Em Hb1].
  { unfold c1, deselect at 1. cbn [at_phase enter]. assert (deselect c = enter Opcode c) as -> by (unfold deselect; by rewrite Ec).
    by destruct u. }
  change ((VIRTUAL_MEMORY_BLOCK_SIZE <? DATAFLASH_PAGE_SIZE) && ?x) with x. set (keep := _ <? page_chunks).
  apply fw_bind, fw_preserve; [done|lia|done|]. intros p3 d3 E3 (Em3 & Ec3 & Eo3 & Hb3 & Hk).
  apply fw_bind, Ht; [done..|]. intros p4 E4.
  apply fw_bind, fw_opcode; [done|done|by destruct v|]. apply fw_bind, fw_address; [done|lia|lia|]. apply fw_ret. split; [done|].
  rewrite <- Eo. set (d5 := enter _ d3).
  assert (forall a, disk (two p4 (Z.odd (P + 1)) d5 c1) a = disk (two p4 (Z.odd P) c1 d3) a) as Ed.
  { intros a. rewrite Eo, two_swap, negb_involutive. unfold disk. by destruct (Z.odd P), (Z.odd (page_of a)). }
  assert (forall a, 0 <= a < disk_size -> disk (two p4 (Z.odd (P + 1)) d5 c1) a = if a <? (P + 1) * 1024 then new a else old a) as Hd'.
  { intros a Ha. rewrite Ed. transitivity (disk (two p4 (Z.odd P) c1 d) a).
    - rewrite !disk_two. by destruct (eqb _ _); [|rewrite Em3].
    - apply (program_disk P 1024 u p c); auto. }
  apply writing_two; try done.
  - by rewrite Eo.
  - unfold d5. by destruct v.
  - rewrite Hb1. unfold next_buffer, v. rewrite Eo. unfold next_buffer. by destruct (Z.odd P), u.
  - intros j Hj Hc. change (buff d5 v j) with (buff d3 v j). destruct keep eqn:Ek.
    + rewrite Hk by done. rewrite <- Em3. assert (stop <= (P + 1) * 1024 + j) by lia.
      assert (0 <= (P + 1) * 1024 + j < disk_size) as Ha by (rewrite disk_size_eq in *; lia).
      specialize (Hd' _ Ha). rewrite disk_two in Hd'. destruct (page_at (P + 1) j Hj) as [E5 E6]. rewrite E5, E6, eqb_reflx in Hd'.
      change (mem d5) with (mem d3) in Hd'. rewrite Hd'. replace (_ <? _) with false by lia. rewrite Hold; [done|lia].
    + exfalso. assert (TotalBlocks <> 1) by (intros ->; by vm_compute in Ek). specialize (Hst ltac:(lia)). lia.
Qed.

(** No chip is selected or busy. *)
Definition idle_flash (f : flash) : Prop :=
  selected (port f) = None /\ busy (chip1 f) = None /\ busy (chip2 f) = None.

(** A range of blocks: [BlockAddress] starts at the address [start]. *)
Definition block_at (BlockAddress : Z) : Prop := 0 <= BlockAddress < VIRTUAL_MEMORY_BLOCKS /\ start = BlockAddress * 512.

Lemma first_page_byte B : block_at B -> first_page B = start / 1024 /\ first_byte B = start mod 1024 /\ 0 <= start < disk_size.
Proof.
  intros [HB Hs]. rewrite blocks_eq in HB. rewrite disk_size_eq. unfold first_page, first_byte, wrap.
  change VIRTUAL_MEMORY_BLOCK_SIZE with 512. change DATAFLASH_PAGE_SIZE with 1024. rewrite <- Hs.
  rewrite (Z.mod_small start) by lia. rewrite (Z.mod_small (start / 1024)) by zdm. rewrite (Z.mod_small (start mod 1024)) by zdm.
  split_and!; [done..|lia|lia].
Qed.

Lemma begin_write_spec B f :
  block_at B -> idle_flash f -> (forall a, 0 <= a < disk_size -> disk f a = old a) ->
  fw (begin_write fuel B) f (fun _ f' => writing (start / 1024) (start mod 1024) false f').
Proof.
  intros HB (Hsel & Hb1 & Hb2) Hd. destruct (first_page_byte B HB) as (EP & Eb & Hr).
  rewrite disk_size_eq in Hr.
  set (P := start / 1024) in *. set (b := start mod 1024) in *.
  assert (0 <= P < 16384 /\ 0 <= b < 1024 /\ start = P * 1024 + b) as (HP & Hb & Es) by (unfold P, b; zdm).
  assert (forall i, busy (chip_of i f) = None) as Hbs by (by intros []).
  unfold begin_write. rewrite EP, Eb. apply fw_bind, fw_select_page; [vm_compute (DATAFLASH_PAGES * _); lia|].
  intros p1 E1. cbv zeta. rewrite on_none by done. set (c := chip_of (Z.odd P) f). set (d := chip_of (negb (Z.odd P)) f).
  change (VIRTUAL_MEMORY_BLOCK_SIZE <? DATAFLASH_PAGE_SIZE) with true.
  apply fw_bind, fw_bind, fw_opcode; [done..|]. apply fw_bind, fw_address; [done|lia|lia|]. apply fw_wait; [done|].
  intros p2 E2. set (e := enter Opcode c).
  assert (deselect (enter (addressed e DF_CMD_MAINMEMTOBUFF1 (P / 2 * 2048 + 0)) e) = enter Opcode (load_buffer false (P / 2) e)) as ->.
  { assert (addr_page (P / 2 * 2048 + 0) = P / 2) as Ea by (unfold addr_page; rewrite Z.add_0_r; by apply Z.div_mul).
    unfold deselect. cbn -[addr_page Z.div load_buffer]. rewrite Ea. unfold execute, e. cbn [busy enter]. unfold c. by rewrite Hbs. }
  apply fw_bind, fw_opcode; [done..|]. apply fw_address; [done|lia|lia|].
  assert (forall q c' a, mem c' = mem c -> disk (two q (Z.odd P) c' d) a = disk f a) as Hdk.
  { intros q c' a Em. rewrite disk_two. unfold disk, c, d in *. destruct (Z.odd (page_of a)), (Z.odd P); cbn in *; by rewrite ?Em. }
  apply writing_two; try done.
  - cbn. unfold addr_byte. f_equal. change 0 with (0 * 2048) at 1. cbn. apply Z.mod_small. lia.
  - unfold d. by rewrite Hbs.
  - intros j Hj Hc. cbn. rewrite Hold by lia. rewrite <- Hd by (rewrite disk_size_eq in *; lia).
    unfold disk. destruct (page_at P j Hj) as [-> ->]. done.
  - intros a Ha. rewrite Hdk by done. rewrite Hd by done. destruct (Z.ltb_spec a (P * 1024)); [|done]. symmetry. apply Hold. lia.
Qed.

(** The last page is stored. *)
Lemma finish_write_spec P b u f :
  writing P b u f -> 0 <= P < 16384 -> 0 <= b <= 1024 -> stop = P * 1024 + b ->
  fw (store_page fuel P u) f (fun _ f1 => fw (Dataflash_WaitWhileBusy fuel) f1 (fun _ f' =>
    selected (port f') = Some (Z.odd P) /\ at_phase (chip_of (Z.odd P) f') = Opcode /\ busy (chip_of (Z.odd P) f') = None /\
    forall a, 0 <= a < disk_size -> disk f' a = new a)).
Proof.
  intros (p & c & d & -> & Ep & Ec & Hb & Hn & Hbuf & Hd)%writing_inv HP Hr Es.
  apply fw_store_page; [done|lia|]. intros p1 E1. apply fw_wait; [done|]. intros p2 E2.
  rewrite port_two, chip_of_two. split_and!; try done. intros a Ha.
  erewrite (program_disk P b u p c d p2 a); try done; [|lia|by right; lia|].
  - destruct (Z.ltb_spec a ((P + 1) * 1024)); [done|]. symmetry. apply Hold. lia.
  - assert (deselect c = enter Opcode c) as -> by (unfold deselect; by rewrite Ec). by destruct u.
Qed.

(** The accesses to the data of a write: [here t p a] says that after the history
    [t] the place [p] has the data of the disk address [a]. *)
Record source {S} (before : io bool) (fetch : S -> io (Z * S)) (after : io bool) (here : list event -> S -> Z -> Prop)
    : Prop := {
    src_quiet : forall t s p a, received s = [] -> here t p a -> here (t ++ s) p a;
    src_go : forall m t p a, m = before \/ m = after -> here t p a ->
      wp true h m t (fun go s => go = true /\ now (t ++ s) = now t /\ here (t ++ s) p a /\ sent s = []);
    src_fetch : forall t p a, here t p a -> start <= a < stop ->
      wp true h (fetch p) t (fun r s => fst r = new a /\ now (t ++ s) = now t /\ here (t ++ s) (snd r) (a + 1) /\ sent s = [])
  }.

Section loops.
Context {S : Type} (before : io bool) (fetch : S -> io (Z * S)) (after : io bool) (toggle : io unit).
Context (here : list event -> S -> Z -> Prop) (Hsrc : source before fetch after here) (Htog : harmless toggle).

(** The state between two chunks: the next byte of the disk is at [a]. *)
Definition between (a : Z) (x : transfer S) (t : list event) : Prop :=
  let P := CurrDFPage x in let b := CurrDFPageByteDiv16 x * 16 in
  0 <= P < 16384 /\ 0 <= b <= 1024 /\ a = P * 1024 + b /\ start <= a /\
  writing P b (UsingSecondBuffer x) (now t) /\ here t (place x) a.

Lemma write_bytes_spec P u : forall n b p t,
  writing P b u (now t) -> 0 <= b -> b + Z.of_nat n <= 1024 -> here t p (P * 1024 + b) ->
  start <= P * 1024 + b -> P * 1024 + b + Z.of_nat n <= stop ->
  wp true h (write_bytes fetch n p) t (fun p' s =>
    writing P (b + Z.of_nat n) u (now (t ++ s)) /\ here (t ++ s) p' (P * 1024 + (b + Z.of_nat n)) /\ sent s = []).
Proof.
  induction n as [|n IH]; intros b p t Hw Hb Hn Hh Hs He; cbn [write_bytes].
  { wp_step. rewrite app_nil_r, Z.add_0_r. done. }
  wp_step. eapply wp_mono; [apply (src_fetch _ _ _ _ Hsrc); [done|lia]|]. intros [v p'] s1 (Ev & En & Hh1 & Es1). cbn in Ev, Hh1. subst v.
  wp_step. rewrite <- En in Hw. eapply wp_fw; [apply (write_one P b u _ Hw); lia|]. intros [] s2 Hw2 Es2 Er2.
  eapply wp_mono; [apply (IH (b + 1))|]; try lia; [done|apply (src_quiet _ _ _ _ Hsrc); [done|by rewrite Z.add_assoc]|].
  intros p2 s3 (Hw3 & Hh3 & Es3). rewrite <- !app_assoc in *. rewrite !sent_app, Es1, Es2, Es3.
  replace (b + Z.of_nat (Datatypes.S n)) with (b + 1 + Z.of_nat n) by lia. done.
Qed.

Lemma write_chunk_page TotalBlocks a x t :
  between a x t -> a < stop -> 1 <= TotalBlocks -> (CurrDFPageByteDiv16 x = 64 -> stop = a + TotalBlocks * 512) ->
  wp true h (if CurrDFPageByteDiv16 x =? page_chunks then
               '(page, second) ← next_page fuel toggle TotalBlocks (CurrDFPage x) (UsingSecondBuffer x);
               mret (mk_transfer page 0 second (place x))
             else mret x) t
    (fun x' s => between a x' (t ++ s) /\ CurrDFPageByteDiv16 x' < 64 /\ sent s = []).
Proof.
  intros (HP & Hb & Ea & Hs & Hw & Hh) Ha HT Hst. change page_chunks with 64.
  destruct (Z.eqb_spec (CurrDFPageByteDiv16 x) 64) as [E64|E64].
  - specialize (Hst E64). rewrite E64 in *. pose proof Hstop as Hle. rewrite disk_size_eq in Hle.
    wp_step. eapply wp_fw; [apply (next_page_spec toggle TotalBlocks _ _ _ Htog Hw); lia|].
    intros [P' u'] s ([= -> ->] & Hw') Es Er. wp_step. rewrite app_nil_r.
    unfold between. cbn [CurrDFPage CurrDFPageByteDiv16 UsingSecondBuffer place].
    split_and!; try lia; try done. by apply (src_quiet _ _ _ _ Hsrc).
  - wp_step. rewrite app_nil_r. split_and!; [done|lia|done].
Qed.

Lemma write_chunks_spec TotalBlocks : 1 <= TotalBlocks -> forall n a x t,
  (n <= 32)%nat -> between a x t -> stop = a + 16 * Z.of_nat n + (TotalBlocks - 1) * 512 -> start mod 512 = 0 -> stop mod 512 = 0 ->
  wp true h (write_chunks fuel before fetch after toggle n TotalBlocks x) t (fun r s =>
    exists x', r = Some x' /\ between (a + 16 * Z.of_nat n) x' (t ++ s) /\ sent s = []).
Proof.
  intros HT. induction n as [|n IH]; intros a x t Hn Hbt He H1 H2; cbn [write_chunks].
  { wp_step. exists x. by rewrite app_nil_r, Z.mul_0_r, Z.add_0_r. }
  assert (Hh := Hbt). destruct Hh as (HP & Hb & Ea & Hs & Hw & Hh).
  wp_step. eapply wp_mono; [apply (src_go _ _ _ _ Hsrc before); [by left|done]|]. intros go s1 (-> & En1 & Hh1 & Es1). cbn [negb].
  wp_step. eapply wp_mono; [apply (write_chunk_page TotalBlocks a x)|].
  { unfold between. cbv zeta. rewrite En1. split_and!; try done; lia. } { lia. } { lia. } { intros E64. zdm. }
  intros x2 s2 ((HP2 & Hb2 & Ea2 & _ & Hw2 & Hh2) & H64 & Es2). wp_step.
  eapply wp_mono; [apply (write_bytes_spec (CurrDFPage x2) (UsingSecondBuffer x2) 16 (CurrDFPageByteDiv16 x2 * 16))|]; try lia; try done.
  { by rewrite <- Ea2. }
  intros p3 s3 (Hw3 & Hh3 & Es3). wp_step. eapply wp_mono; [apply (src_go _ _ _ _ Hsrc after); [by right|exact Hh3]|].
  intros go s4 (-> & En4 & Hh4 & Es4). cbn [negb]. eapply wp_mono; [apply (IH (a + 16))|]; try lia; try done.
  - unfold between. cbn [CurrDFPage CurrDFPageByteDiv16 UsingSecondBuffer place].
    assert (u8 (CurrDFPageByteDiv16 x2 + 1) * 16 = CurrDFPageByteDiv16 x2 * 16 + 16) as -> by (unfold wrap; rewrite Z.mod_small; lia).
    rewrite En4. split_and!; try lia; try done. by replace (a + 16) with (CurrDFPage x2 * 1024 + (CurrDFPageByteDiv16 x2 * 16 + Z.of_nat 16)) by lia.
  - intros r s5 (x5 & -> & Hx5 & Es5). exists x5. split; [done|]. rewrite <- !app_assoc in *. rewrite !sent_app, Es1, Es2, Es3, Es4, Es5.
    by replace (a + 16 * Z.of_nat (Datatypes.S n)) with (a + 16 + 16 * Z.of_nat n) by lia.
Qed.

Lemma write_blocks_spec : forall n a x t,
  between a x t -> stop = a + 512 * Z.of_nat n -> start mod 512 = 0 -> stop mod 512 = 0 ->
  wp true h (write_blocks fuel before fetch after toggle n x) t (fun r s =>
    exists x', r = Some x' /\ between stop x' (t ++ s) /\ sent s = []).
Proof.
  induction n as [|n IH]; intros a x t Hb He H1 H2; cbn [write_blocks].
  { wp_step. exists x. rewrite app_nil_r. by replace stop with a by lia. }
  wp_step. eapply wp_mono; [apply (write_chunks_spec (Z.of_nat (Datatypes.S n)) ltac:(lia) _ a)|]; try done.
  { change (Z.to_nat block_chunks) with 32%nat. lia. }
  intros r s1 (x1 & -> & Hx1 & Es1). eapply wp_mono; [apply (IH _ x1 _ Hx1)|]; try done.
  { change (Z.of_nat (Z.to_nat block_chunks)) with 32. lia. }
  intros r s2 (x2 & -> & Hx2 & Es2). exists x2. by rewrite <- app_assoc in Hx2; rewrite sent_app, Es1, Es2.
Qed.
End loops.
End transfer.

(** ** Reading *)

Section reading.
Context (start stop : Z) (D : Z -> Z) (Hstop : stop <= disk_size)
  (Hbyte : forall a, start <= a < stop -> is_byte (D a)).

(** The chips are idle and hold the disk [D]. *)
Definition holds (f : flash) : Prop :=
  busy (chip1 f) = None /\ busy (chip2 f) = None /\ forall a, 0 <= a < disk_size -> disk f a = D a.

(** The next byte that is shifted out is byte [b] of page [P]. *)
Definition reading_at (P b : Z) (f : flash) : Prop :=
  holds f /\ selected (port f) = Some (Z.odd P) /\ at_phase (chip_of (Z.odd P) f) = Reading (P / 2) b.

(** The selected chip is not in the middle of a transfer between page and buffer. *)
Definition no_transfer (f : flash) : Prop :=
  forall i, selected (port f) = Some i -> forall op p, at_phase (chip_of i f) <> Pending op p.

Lemma deselect_nothing c : (forall op p, at_phase c <> Pending op p) -> deselect c = enter Opcode c.
Proof. intros H. unfold deselect. destruct (at_phase c) as [| | | | |op p| |]; try done. by destruct (H op p). Qed.

Lemma holds_two p i c d c' d' p' :
  holds (two p i c d) -> mem c' = mem c -> busy c' = busy c -> mem d' = mem d -> busy d' = busy d -> holds (two p' i c' d').
Proof.
  intros (H1 & H2 & H3) Em Eb Em' Eb'. split_and!.
  - destruct i; cbn in *; congruence.
  - destruct i; cbn in *; congruence.
  - intros a Ha. rewrite <- H3 by done. unfold disk. destruct i, (Z.odd (page_of a)); cbn; congruence.
Qed.

Lemma holds_deselected f : no_transfer f -> holds f -> holds (on_selected deselect f).
Proof.
  intros Hn Hh. unfold on_selected. destruct (selected (port f)) as [i|] eqn:E; [|done].
  rewrite deselect_nothing by (by apply Hn). rewrite (two_eta i f) in Hh |- *. rewrite chip_of_two, set_chip_two.
  by eapply holds_two.
Qed.

Lemma begin_read_spec P b f :
  holds f -> no_transfer f -> 0 <= P < 16384 -> 0 <= b < 1024 -> fw (begin_read P b) f (fun _ f' => reading_at P b f').
Proof.
  intros Hh Hn HP Hb. unfold begin_read. apply fw_bind, fw_select_page; [vm_compute (DATAFLASH_PAGES * _); lia|].
  intros p E. cbv zeta. set (g := on_selected deselect f). pose proof (holds_deselected f Hn Hh) as Hg. fold g in Hg.
  apply fw_bind, fw_opcode; [done..|]. apply fw_bind, fw_address; [done|lia|lia|].
  assert (busy (chip_of (Z.odd P) g) = None) as Eb by (destruct Hg as (? & ? & _); by destruct (Z.odd P)).
  unfold addressed. cbn [busy enter]. rewrite Eb. change (_ =? DF_CMD_MAINMEMPAGEREAD) with true. cbv iota.
  do 3 (apply fw_bind, fw_send; [done|]). apply fw_send; [done|]. cbv [shift at_phase enter].
  assert (addr_page (P / 2 * 2048 + b) = P / 2 /\ addr_byte (P / 2 * 2048 + b) = b) as [-> ->]
    by (unfold addr_page, addr_byte; zdm).
  split_and!.
  - rewrite (two_eta (Z.odd P) g) in Hg. by eapply holds_two.
  - by rewrite port_two.
  - by rewrite chip_of_two.
Qed.

Lemma read_one P b f :
  reading_at P b f -> 0 <= P < 16384 -> 0 <= b < 1024 -> start <= P * 1024 + b < stop ->
  fw Dataflash_ReceiveByte f (fun v f' => v = D (P * 1024 + b) /\ reading_at P (b + 1) f').
Proof.
  intros (Hh & Es & Ec) HP Hb Hr. unfold Dataflash_ReceiveByte. rewrite (two_eta (Z.odd P) f) in *.
  set (c := chip_of (Z.odd P) f) in *. set (d := chip_of (negb (Z.odd P)) f) in *. rewrite port_two, chip_of_two in *.
  assert (mem c (P / 2) b = D (P * 1024 + b)) as Em.
  { destruct Hh as (_ & _ & Hd). rewrite <- Hd by (rewrite disk_size_eq in *; lia).
    rewrite disk_two. destruct (page_at P b Hb) as [-> ->]. by rewrite eqb_reflx. }
  apply fw_bind, (fw_send 0); [done|]. change (u8 0) with 0. unfold shift. rewrite Ec, Em. set (c1 := mk_chip _ _ _ _ _).
  intros t Ht. apply wp_ask_u8. intros a Ha.
  rewrite (att_out _ _ _ Hatt t (D (P * 1024 + b))) in Ha.
  2:{ change (run f0 t) with (now t). rewrite Ht. unfold shifted_out. by rewrite port_two, Es, chip_of_two. }
  subst a. assert (run (two (port f) (Z.odd P) c1 d) [Ask q_SPDR (D (P * 1024 + b))] = two (port f) (Z.odd P) c1 d) as ->.
  { cbn [run foldl step]. by rewrite on_selected_two. }
  pose proof (Hbyte _ Hr). unfold is_byte, wrap in H. split; [split|done].
  - unfold wrap. rewrite Z.mod_small; [done|]. lia.
  - split_and!; [by eapply holds_two|by rewrite port_two|by rewrite chip_of_two].
Qed.

(** The accesses to the destination of a read. *)
Record sink {S} (before : io bool) (put : S -> Z -> io S) (after : io bool) (here : list event -> S -> Z -> Prop) : Prop := {
    snk_quiet : forall t s p a, sent s = [] -> here t p a -> here (t ++ s) p a;
    snk_go : forall m t p a, m = before \/ m = after -> here t p a ->
      wp true h m t (fun go s => go = true /\ now (t ++ s) = now t /\ here (t ++ s) p a /\ received s = []);
    snk_put : forall t p a, here t p a -> start <= a < stop ->
      wp true h (put p (D a)) t (fun p' s => now (t ++ s) = now t /\ here (t ++ s) p' (a + 1) /\ received s = [])
  }.

Section loops.
Context {S : Type} (before : io bool) (put : S -> Z -> io S) (after : io bool).
Context (here : list event -> S -> Z -> Prop) (Hsnk : sink before put after here).

Definition reading_between (a : Z) (x : transfer S) (t : list event) : Prop :=
  let P := CurrDFPage x in let b := CurrDFPageByteDiv16 x * 16 in
  0 <= P < 16384 /\ 0 <= b <= 1024 /\ a = P * 1024 + b /\ start <= a /\ reading_at P b (now t) /\ here t (place x) a.

Lemma read_bytes_spec P : forall n b p t,
  reading_at P b (now t) -> 0 <= P < 16384 -> 0 <= b -> b + Z.of_nat n <= 1024 -> here t p (P * 1024 + b) ->
  start <= P * 1024 + b -> P * 1024 + b + Z.of_nat n <= stop ->
  wp true h (read_bytes put n p) t (fun p' s =>
    reading_at P (b + Z.of_nat n) (now (t ++ s)) /\ here (t ++ s) p' (P * 1024 + (b + Z.of_nat n)) /\ received s = []).
Proof.
  induction n as [|n IH]; intros b p t Hw HP Hb Hn Hh Hs He; cbn [read_bytes].
  { wp_step. rewrite app_nil_r, Z.add_0_r. done. }
  wp_step. eapply wp_fw; [apply (read_one P b _ Hw); lia|]. intros v s1 (-> & Hw1) Es1 Er1.
  wp_step. eapply wp_mono; [apply (snk_put _ _ _ _ Hsnk); [by apply (snk_quiet _ _ _ _ Hsnk)|lia]|].
  intros p' s2 (En2 & Hh2 & Er2). eapply wp_mono; [apply (IH (b + 1))|]; try lia.
  - by rewrite En2.
  - by rewrite Z.add_assoc.
  - intros p3 s3 (Hw3 & Hh3 & Er3). rewrite <- !app_assoc in *. rewrite !received_app, Er1, Er2, Er3.
    replace (b + Z.of_nat (Datatypes.S n)) with (b + 1 + Z.of_nat n) by lia. done.
Qed.

Lemma reading_no_transfer P b f : reading_at P b f -> no_transfer f.
Proof. intros (_ & E & Ec) i Ei op p. rewrite E in Ei. injection Ei as <-. by rewrite Ec. Qed.

Lemma read_chunk_page a x t :
  reading_between a x t -> a < stop ->
  wp true h (if CurrDFPageByteDiv16 x =? page_chunks then
               let page := u16 (CurrDFPage x + 1) in
               begin_read page 0;; mret (mk_transfer page 0 (UsingSecondBuffer x) (place x))
             else mret x) t
    (fun x' s => reading_between a x' (t ++ s) /\ CurrDFPageByteDiv16 x' < 64 /\ received s = []).
Proof.
  intros (HP & Hb & Ea & Hs & Hw & Hh) Ha. change page_chunks with 64.
  destruct (Z.eqb_spec (CurrDFPageByteDiv16 x) 64) as [E64|E64].
  - rewrite E64 in *. pose proof Hstop as Hle. rewrite disk_size_eq in Hle. cbv zeta.
    assert (u16 (CurrDFPage x + 1) = CurrDFPage x + 1) as -> by (unfold wrap; apply Z.mod_small; lia).
    wp_step. eapply wp_fw; [apply (begin_read_spec (CurrDFPage x + 1) 0); [apply Hw|by eapply reading_no_transfer|lia|lia]|].
    intros [] s Hw' Es Er. wp_step. rewrite app_nil_r. unfold reading_between.
    cbn [CurrDFPage CurrDFPageByteDiv16 UsingSecondBuffer place].
    split_and!; try lia; try done. by apply (snk_quiet _ _ _ _ Hsnk).
  - wp_step. rewrite app_nil_r. split_and!; [done|lia|done].
Qed.

Lemma read_chunks_spec : forall n a x t,
  reading_between a x t -> a + 16 * Z.of_nat n <= stop ->
  wp true h (read_chunks before put after n x) t (fun r s =>
    exists x', r = Some x' /\ reading_between (a + 16 * Z.of_nat n) x' (t ++ s) /\ received s = []).
Proof.
  induction n as [|n IH]; intros a x t Hbt He; cbn [read_chunks].
  { wp_step. exists x. by rewrite app_nil_r, Z.mul_0_r, Z.add_0_r. }
  assert (Hh := Hbt). destruct Hh as (HP & Hb & Ea & Hs & Hw & Hh).
  wp_step. eapply wp_mono; [apply (snk_go _ _ _ _ Hsnk before); [by left|done]|]. intros go s1 (-> & En1 & Hh1 & Es1). cbn [negb].
  wp_step. eapply wp_mono; [apply (read_chunk_page a x)|].
  { unfold reading_between. cbv zeta. rewrite En1. split_and!; try done; lia. } { lia. }
  intros x2 s2 ((HP2 & Hb2 & Ea2 & _ & Hw2 & Hh2) & H64 & Es2). wp_step.
  eapply wp_mono; [apply (read_bytes_spec (CurrDFPage x2) 16 (CurrDFPageByteDiv16 x2 * 16))|]; try lia; try done.
  { by rewrite <- Ea2. }
  intros p3 s3 (Hw3 & Hh3 & Es3). wp_step. eapply wp_mono; [apply (snk_go _ _ _ _ Hsnk after); [by right|exact Hh3]|].
  intros go s4 (-> & En4 & Hh4 & Es4). cbn [negb]. eapply wp_mono; [apply (IH (a + 16))|]; try lia; try done.
  - unfold reading_between. cbn [CurrDFPage CurrDFPageByteDiv16 UsingSecondBuffer place].
    assert (u8 (CurrDFPageByteDiv16 x2 + 1) * 16 = CurrDFPageByteDiv16 x2 * 16 + 16) as -> by (unfold wrap; rewrite Z.mod_small; lia).
    rewrite En4. split_and!; try lia; try done. by replace (a + 16) with (CurrDFPage x2 * 1024 + (CurrDFPageByteDiv16 x2 * 16 + Z.of_nat 16)) by lia.
  - intros r s5 (x5 & -> & Hx5 & Es5). exists x5. split; [done|]. rewrite <- !app_assoc in *. rewrite !received_app, Es1, Es2, Es3, Es4, Es5.
    by replace (a + 16 * Z.of_nat (Datatypes.S n)) with (a + 16 + 16 * Z.of_nat n) by lia.
Qed.

Lemma read_blocks_spec : forall n a x t,
  reading_between a x t -> stop = a + 512 * Z.of_nat n ->
  wp true h (read_blocks before put after n x) t (fun r s =>
    exists x', r = Some x' /\ reading_between stop x' (t ++ s) /\ received s = []).
Proof.
  induction n as [|n IH]; intros a x t Hb He; cbn [read_blocks].
  { wp_step. exists x. rewrite app_nil_r. by replace stop with a by lia. }
  change (Z.to_nat block_chunks) with 32%nat.
  wp_step. eapply wp_mono; [apply (read_chunks_spec 32 a); [done|lia]|].
  intros r s1 (x1 & -> & Hx1 & Es1). eapply wp_mono; [apply (IH _ x1 _ Hx1); lia|].
  intros r s2 (x2 & -> & Hx2 & Es2). exists x2. by rewrite <- app_assoc in Hx2; rewrite received_app, Es1, Es2.
Qed.
End loops.
End reading.
End code.
