(* ===== verification/DataflashDisk.v ===== *)
(** * The block transfers of the Dataflash disk

    The functions of [DataflashManager.c]: blocks are written from a buffer or from
    the host, and read to a buffer or to the host. *)
From S2P Require Import Prelude ConfigDescriptors USBIo Endpoint EndpointSpec Dataflash DataflashChip DataflashSpec.

(** The disk [d] with the bytes [l] from the address [start] on. *)
Definition overwritten (d : Z -> Z) (start : Z) (l : list Z) (a : Z) : Z :=
  if (start <=? a) && (a <? start + Z.of_nat (length l)) then nth (Z.to_nat (a - start)) l 0 else d a.

(** [n] blocks from [B] on are on the disk. *)
Definition blocks_ok (B n : Z) : Prop := 0 <= B < VIRTUAL_MEMORY_BLOCKS /\ 0 <= n /\ B + n <= VIRTUAL_MEMORY_BLOCKS.

(** The bytes of the disk [d] from [start] on. *)
Definition disk_bytes (d : Z -> Z) (start : Z) (n : nat) : list Z := (fun i => d (start + Z.of_nat i)) <$> seq 0 n.

Lemma disk_bytes_S d start n : disk_bytes d start (S n) = disk_bytes d start n ++ [d (start + Z.of_nat n)].
Proof. unfold disk_bytes. rewrite seq_S, fmap_app. done. Qed.

Lemma length_disk_bytes d start n : length (disk_bytes d start n) = n.
Proof. unfold disk_bytes. by rewrite length_fmap, length_seq. Qed.

Lemma start_pos B n : blocks_ok B n -> 0 <= B * 512.
Proof. intros []. lia. Qed.

Lemma stop_ok B n : blocks_ok B n -> B * 512 + n * 512 <= disk_size.
Proof. intros (? & ? & H). rewrite blocks_eq in H. rewrite disk_size_eq. lia. Qed.

Lemma block_start B n : blocks_ok B n -> block_at (B * 512) B.
Proof. intros (? & ? & ?). by split. Qed.

Section disk.
Context (h : hw) (f0 : flash) (k : nat) (Hatt : attached h f0 k) (fuel : nat) (Hfuel : (k <= fuel)%nat).
Abbreviation now := (now f0).

Lemma harmless_nothing : harmless h f0 (mret tt).
Proof. intros p i c d Q E _ _ HQ. apply fw_ret, HQ, E. Qed.

Lemma harmless_toggle : harmless h f0 Dataflash_ToggleSelectedChipCS.
Proof.
  intros p i c d Q E Ec Eo HQ. apply (fw_toggle h f0 k Hatt fuel Hfuel); [done|]. intros p' E'.
  replace (deselect c) with c; [by apply HQ|]. destruct c; cbn in *; by subst.
Qed.

(** ** Blocks in memory *)

Lemma ram_source old start Buffer n :
  0 <= n -> n <= Z.of_nat (length Buffer) ->
  source h f0 (overwritten old start (take (Z.to_nat n) Buffer)) (start + n) start
    (mret true) (from_buffer Buffer) (mret true) (fun _ i a => i = a - start).
Proof.
  intros Hn Hl. constructor.
  - done.
  - intros m t p a [-> | ->] Hp; wp_step; by rewrite app_nil_r.
  - intros t p a -> Ha. unfold from_buffer.
    destruct (lookup_lt_is_Some_2 Buffer (Z.to_nat (a - start))) as [b Hb]; [lia|].
    wp_step. apply (wp_get _ _ _ b).
    { unfold arr_get. by replace (0 <=? a - start) with true by lia. }
    wp_step. cbn. rewrite app_nil_r. split_and!; [|done|lia|done]. unfold overwritten. rewrite length_take.
    rewrite Nat.min_l, Z2Nat.id by lia. rewrite (proj2 (Z.leb_le _ _)), (proj2 (Z.ltb_lt _ _)) by lia. cbn [andb]. rewrite nth_lookup, lookup_take_lt by lia. by rewrite Hb.
Qed.

(** What the chips are like after a write. *)
Definition written (old : Z -> Z) (start : Z) (l : list Z) (f : flash) : Prop :=
  selected (port f) = None /\ forall a, 0 <= a < disk_size -> disk f a = overwritten old start l a.

Section writing.
Context (B n : Z) (l : list Z) (Hbl : blocks_ok B n) (Hl : Z.of_nat (length l) = n * 512) (Hby : Forall is_byte l)
  (t0 : list event) (Hidle : idle_flash (now t0)).
Abbreviation old := (disk (now t0)).
Abbreviation new := (overwritten old (B * 512) l).

Lemma overwritten_old a : a < B * 512 \/ B * 512 + n * 512 <= a -> new a = old a.
Proof.
  intros Ha. unfold overwritten. rewrite Hl. destruct (Z.leb_spec (B * 512) a), (Z.ltb_spec a (B * 512 + n * 512)); done || lia.
Qed.

Lemma overwritten_byte a : B * 512 <= a < B * 512 + n * 512 -> is_byte (new a).
Proof.
  intros Ha. unfold overwritten. rewrite Hl, (proj2 (Z.leb_le _ _)), (proj2 (Z.ltb_lt _ _)) by lia. cbn [andb].
  destruct (lookup_lt_is_Some_2 l (Z.to_nat (a - B * 512))) as [b Hb]; [lia|].
  rewrite (nth_lookup_Some _ _ _ _ Hb). by eapply Forall_lookup_1 in Hby.
Qed.

Context {S : Type} (before : io bool) (fetch : S -> io (Z * S)) (after : io bool) (toggle : io unit).
Context (here : list event -> S -> Z -> Prop) (Hsrc : source h f0 new (B * 512 + n * 512) (B * 512) before fetch after here)
  (Htog : harmless h f0 toggle).

Lemma begin_ok : wp true h (begin_write fuel B) t0 (fun _ s =>
  writing old new (B * 512 + n * 512) (B * 512 / 1024) (B * 512 mod 1024) false (now (t0 ++ s)) /\ sent s = [] /\ received s = []).
Proof.
  eapply wp_fw; [apply (begin_write_spec h f0 k Hatt fuel Hfuel old new _ _ (start_pos B n Hbl) (stop_ok B n Hbl) overwritten_old _ _ (block_start B n Hbl) Hidle); done|].
  intros [] s H ? ?. done.
Qed.

Lemma start_ok t p :
  writing old new (B * 512 + n * 512) (B * 512 / 1024) (B * 512 mod 1024) false (now t) -> here t p (B * 512) ->
  between f0 old new (B * 512 + n * 512) (B * 512) here (B * 512) (start_transfer B p) t.
Proof.
  intros Hw Hh. destruct (first_page_byte k fuel Hfuel (B * 512) (start_pos B n Hbl) B (block_start B n Hbl)) as (EP & Eb & Hr). rewrite disk_size_eq in Hr.
  unfold between, start_transfer. cbn [CurrDFPage CurrDFPageByteDiv16 UsingSecondBuffer place]. rewrite EP, Eb.
  assert (u8 (Z.shiftr (B * 512 mod 1024) 4) * 16 = B * 512 mod 1024) as ->.
  { unfold wrap. rewrite Z.shiftr_div_pow2 by lia. change (2 ^ 8) with 256. change (2 ^ 4) with 16. zdm. }
  split_and!; try done; zdm.
Qed.

Lemma blocks_written t p :
  writing old new (B * 512 + n * 512) (B * 512 / 1024) (B * 512 mod 1024) false (now t) -> here t p (B * 512) ->
  wp true h (write_blocks fuel before fetch after toggle (Z.to_nat n) (start_transfer B p)) t (fun r s =>
    exists x, r = Some x /\ between f0 old new (B * 512 + n * 512) (B * 512) here (B * 512 + n * 512) x (t ++ s) /\ sent s = []).
Proof.
  intros Hw Hh. destruct Hbl as (HB & Hn & _).
  apply (write_blocks_spec h f0 k Hatt fuel Hfuel _ _ _ _ (start_pos B n Hbl) (stop_ok B n Hbl) overwritten_old overwritten_byte _ _ _ _ _ Hsrc Htog _ (B * 512)).
  - by apply start_ok.
  - lia.
  - zdm.
  - zdm.
Qed.

(** The last page is stored; [m] is what comes between its store and the end. *)
Lemma finish_ok x t :
  between f0 old new (B * 512 + n * 512) (B * 512) here (B * 512 + n * 512) x t ->
  wp true h (store_page fuel (CurrDFPage x) (UsingSecondBuffer x)) t (fun _ s => sent s = [] /\ received s = [] /\
    wp true h (Dataflash_WaitWhileBusy fuel) (t ++ s) (fun _ s' => sent s' = [] /\ received s' = [] /\
      exists i, selected (port (now (t ++ s ++ s'))) = Some i /\ at_phase (chip_of i (now (t ++ s ++ s'))) = Opcode /\
        forall a, 0 <= a < disk_size -> disk (now (t ++ s ++ s')) a = new a)).
Proof.
  intros (HP & Hb & Ea & _ & Hw & _).
  eapply wp_fw; [apply (finish_write_spec h f0 k Hatt fuel Hfuel _ _ _ _ overwritten_old _ _ _ _ Hw); lia|].
  intros [] s H Es Er. split_and!; [done..|]. eapply wp_fw; [exact H|]. intros [] s' (? & ? & _ & ?) Es' Er'.
  rewrite <- app_assoc in *. eauto 10.
Qed.

Lemma deselect_ok t i :
  selected (port (now t)) = Some i -> at_phase (chip_of i (now t)) = Opcode ->
  (forall a, 0 <= a < disk_size -> disk (now t) a = new a) ->
  wp true h Dataflash_DeselectChip t (fun _ s => written old (B * 512) l (now (t ++ s)) /\ sent s = [] /\ received s = []).
Proof.
  intros E Ec Hd. eapply wp_fw; [apply (fw_deselect h f0 k Hatt fuel Hfuel (now t) (fun _ f => written old (B * 512) l f))|].
  - intros p Ep. split; [done|]. intros a Ha. rewrite <- Hd by done. unfold on_selected. rewrite E.
    unfold deselect. rewrite Ec. unfold disk, chip_of, set_chip, with_port. by destruct i, (Z.odd (page_of a)).
  - intros [] s H ? ?. done.
Qed.
End writing.

Lemma ram_written B n Buffer t :
  blocks_ok B n -> n * 512 <= Z.of_nat (length Buffer) -> Forall is_byte Buffer -> idle_flash (now t) ->
  wp true h (DataflashManager_WriteBlocks_RAM fuel B n Buffer) t (fun _ s =>
    written (disk (now t)) (B * 512) (take (Z.to_nat (n * 512)) Buffer) (now (t ++ s))).
Proof.
  intros Hbl Hlen Hby Hidle. set (l := take _ Buffer).
  assert (Z.of_nat (length l) = n * 512) as Hl by (destruct Hbl; unfold l; rewrite length_take; lia).
  assert (Forall is_byte l) as Hbl' by (by apply Forall_take).
  pose proof (ram_source (disk (now t)) (B * 512) Buffer (n * 512) ltac:(destruct Hbl; lia) Hlen) as Hsrc. fold l in Hsrc.
  unfold DataflashManager_WriteBlocks_RAM. wp_step.
  eapply wp_mono; [apply (begin_ok B n l Hbl Hl t Hidle)|]. intros [] s1 (Hw & _).
  wp_step. eapply wp_mono; [apply (blocks_written B n l Hbl Hl Hbl' t _ _ _ _ _ Hsrc harmless_toggle); [done|lia]|].
  intros r s2 (x & -> & Hx & _).
  wp_step. eapply wp_mono; [apply (finish_ok B n l Hl t _ _ _ Hx)|]. intros [] s3 (_ & _ & Hwait).
  wp_step. eapply wp_mono; [exact Hwait|]. intros [] s4 (_ & _ & i & E & Ec & Hd).
  eapply wp_mono; [eapply (deselect_ok B l t)|]; rewrite <- !app_assoc in *; [done..|].
  intros [] s5 (HQ & _). by rewrite <- !app_assoc in HQ.
Qed.

(** ** Reading *)

Section reading.
Context (B n : Z) (Hbl : blocks_ok B n) (D : Z -> Z)
  (Hby : forall a, B * 512 <= a < B * 512 + n * 512 -> is_byte (D a)).
Context {S : Type} (before : io bool) (put : S -> Z -> io S) (after : io bool).
Context (here : list event -> S -> Z -> Prop)
  (Hsnk : sink h f0 (B * 512) (B * 512 + n * 512) D before put after here).

Lemma begin_read_ok t :
  holds D (now t) -> selected (port (now t)) = None ->
  wp true h (begin_read (first_page B) (first_byte B)) t (fun _ s =>
    reading_at D (B * 512 / 1024) (B * 512 mod 1024) (now (t ++ s)) /\ sent s = [] /\ received s = []).
Proof.
  intros Hh Hsel. destruct (first_page_byte k fuel Hfuel (B * 512) (start_pos B n Hbl) B (block_start B n Hbl)) as (-> & -> & Hr).
  rewrite disk_size_eq in Hr.
  eapply wp_fw; [apply (begin_read_spec h f0 k Hatt fuel Hfuel D (B * 512 / 1024) (B * 512 mod 1024)); [done| |zdm|zdm]|].
  - intros i Ei. by rewrite Hsel in Ei.
  - intros [] s H ? ?. done.
Qed.

Lemma blocks_read t p :
  reading_at D (B * 512 / 1024) (B * 512 mod 1024) (now t) -> here t p (B * 512) ->
  wp true h (read_blocks before put after (Z.to_nat n) (start_transfer B p)) t (fun r s =>
    exists x, r = Some x /\ reading_between f0 (B * 512) D here (B * 512 + n * 512) x (t ++ s) /\ received s = []).
Proof.
  intros Hw Hh. pose proof Hbl as (HB & Hn & _).
  apply (read_blocks_spec h f0 k Hatt fuel Hfuel _ _ _ (stop_ok B n Hbl) Hby _ _ _ _ Hsnk _ (B * 512)).
  2: lia.
  destruct (first_page_byte k fuel Hfuel (B * 512) (start_pos B n Hbl) B (block_start B n Hbl)) as (EP & Eb & Hr).
  rewrite disk_size_eq in Hr.
  unfold reading_between, start_transfer. cbn [CurrDFPage CurrDFPageByteDiv16 UsingSecondBuffer place]. rewrite EP, Eb.
  assert (u8 (Z.shiftr (B * 512 mod 1024) 4) * 16 = B * 512 mod 1024) as ->.
  { unfold wrap. rewrite Z.shiftr_div_pow2 by lia. change (2 ^ 8) with 256. change (2 ^ 4) with 16. zdm. }
  split_and!; try done; zdm.
Qed.

(** The chips at the end of a read: unchanged, none selected. *)
Lemma end_read_ok x t a :
  reading_between f0 (B * 512) D here a x t ->
  wp true h Dataflash_DeselectChip t (fun _ s =>
    holds D (now (t ++ s)) /\ selected (port (now (t ++ s))) = None /\ sent s = [] /\ received s = []).
Proof.
  intros (_ & _ & _ & _ & (Hh & Hr) & _). assert (reading_at D (CurrDFPage x) (CurrDFPageByteDiv16 x * 16) (now t)) as Hr' by done.
  apply reading_no_transfer in Hr'.
  eapply wp_fw; [apply (fw_deselect h f0 k Hatt fuel Hfuel (now t) (fun _ f => holds D f /\ selected (port f) = None))|].
  - intros p Ep. split; [|done]. destruct (holds_deselected D _ Hr' Hh) as (? & ? & Hd). split_and!; [done..|].
    intros a' Ha'. rewrite <- Hd by done. unfold disk. by destruct (Z.odd (page_of a')).
  - intros [] s [? ?] ? ?. done.
Qed.
End reading.

Lemma ram_sink D start Buffer n :
  0 <= n -> n <= Z.of_nat (length Buffer) ->
  sink h f0 start (start + n) D (mret true) to_buffer (mret true) (fun _ p a =>
    0 <= snd p /\ snd p = a - start /\
    fst p = disk_bytes D start (Z.to_nat (snd p)) ++ drop (Z.to_nat (snd p)) Buffer).
Proof.
  intros Hn Hl. constructor.
  - done.
  - intros m t p a [-> | ->] Hp; wp_step; by rewrite app_nil_r.
  - intros t [buf i] a (Hi & Ei & Eb) Ha. cbn [fst snd] in *. subst buf. unfold to_buffer. cbn [fst snd]. wp_step.
    apply (wp_get _ _ _ (disk_bytes D start (Datatypes.S (Z.to_nat i)) ++ drop (Datatypes.S (Z.to_nat i)) Buffer)).
    + unfold arr_set. rewrite length_app, length_disk_bytes, length_drop.
      rewrite (proj2 (Z.leb_le _ _)), (proj2 (Z.ltb_lt _ _)) by lia. cbn [andb]. f_equal.
      rewrite insert_app_r_alt by (rewrite length_disk_bytes; lia). rewrite length_disk_bytes, Nat.sub_diag, disk_bytes_S.
      destruct (drop (Z.to_nat i) Buffer) as [|b l] eqn:E.
      { apply (f_equal length) in E. rewrite length_drop in E. cbn in E. lia. }
      cbn [insert list_insert]. rewrite <- app_assoc. cbn [app]. do 2 f_equal; [f_equal; lia|].
      rewrite <- Nat.add_1_r, <- drop_drop, E. done.
    + wp_step. cbn [fst snd app]. rewrite app_nil_r. split_and!; try done; try lia. by replace (Z.to_nat (i + 1)) with (Datatypes.S (Z.to_nat i)) by lia.
Qed.

Lemma ram_read B n Buffer D t :
  blocks_ok B n -> n * 512 <= Z.of_nat (length Buffer) -> holds D (now t) -> selected (port (now t)) = None ->
  (forall a, B * 512 <= a < B * 512 + n * 512 -> is_byte (D a)) ->
  wp true h (DataflashManager_ReadBlocks_RAM B n Buffer) t (fun r s =>
    r = disk_bytes D (B * 512) (Z.to_nat (n * 512)) ++ drop (Z.to_nat (n * 512)) Buffer /\
    holds D (now (t ++ s)) /\ selected (port (now (t ++ s))) = None).
Proof.
  intros Hbl Hlen Hh Hsel Hby. unfold DataflashManager_ReadBlocks_RAM. wp_step.
  eapply wp_mono; [by apply (begin_read_ok B n Hbl)|]. intros [] s1 (Hr & _ & _).
  wp_step. eapply wp_mono; [eapply (blocks_read B n Hbl D Hby _ _ _ _ (ram_sink D (B * 512) Buffer (n * 512) ltac:(destruct Hbl; lia) Hlen)); [exact Hr|]|].
  { cbn [fst snd]. split_and!; [lia|lia|done]. }
  intros r s2 (x & -> & Hx & _). wp_step. eapply wp_mono; [eapply end_read_ok, Hx|]. intros [] s3 (Hh3 & Hs3 & _ & _).
  wp_step. rewrite app_nil_r. rewrite <- !app_assoc in *. split_and!; [|done..].
  destruct Hx as (_ & _ & _ & _ & _ & (? & Ei & ->)). rewrite Ei. by replace (B * 512 + n * 512 - B * 512) with (n * 512) by lia.
Qed.

(** ** Blocks from and to the host

    The endpoints are always ready, and the host does not reset the interface. *)
Definition host_ready (h : hw) : Prop :=
  (forall t, h t q_IsINReady <> 0 /\ h t q_IsOUTReceived <> 0) /\ forall t, h t q_IsMassStoreReset = 0.

Context (Hready : host_ready h) (Hf1 : (1 <= fuel)%nat).

(** The next byte to be read or written is number [a - start]. *)
Definition received_up_to (t0 : list event) (start : Z) (t : list event) (u : unit) (a : Z) : Prop :=
  exists s, t = t0 ++ s /\ Z.of_nat (length (received s)) = a - start.

Lemma now_silent t s : silent s -> now (t ++ s) = now t.
Proof. intros Hs. unfold DataflashSpec.now. by rewrite run_app, run_silent. Qed.

(** Neither the wait for an endpoint nor the look at the reset flag moves a byte. *)
Lemma go_ok (c : command) m t :
  c = c_ClearIN \/ c = c_ClearOUT -> m = endpoint_ready fuel (cmd c) \/ m = not_reset ->
  wp true h m t (fun go s => go = true /\ now (t ++ s) = now t /\ sent s = [] /\ received s = []).
Proof.
  intros Hc [-> | ->].
  - unfold endpoint_ready. repeat wp_step; rewrite ?app_nil_r.
    + eapply wp_mono; [apply wait_ready_now; [apply Hready|done]|]. intros code s [-> Hs]. wp_step. rewrite app_nil_r.
      rewrite !sent_app, !received_app, (silent_sent s), (silent_received s) by done.
      split_and!; [done| |by destruct Hc; subst c..].
      rewrite !app_assoc, now_silent by done. unfold DataflashSpec.now. rewrite !run_app. by destruct Hc; subst c.
    + by rewrite now_silent by (auto with trace).
  - unfold not_reset. repeat wp_step. rewrite now_silent by (auto with trace). rewrite (proj2 Hready) in H. by subst.
Qed.

Lemma endpoint_source old start n data t0 :
  n = Z.of_nat (length data) -> Forall is_byte data -> delivers h t0 data ->
  source h f0 (overwritten old start data) (start + n) start
    (endpoint_ready fuel Endpoint_ClearOUT) from_endpoint not_reset (received_up_to t0 start).
Proof.
  intros Hn Hby Hd. constructor.
  - intros t s p a Hs (s0 & -> & E). exists (s0 ++ s). by rewrite app_assoc, received_app, Hs, app_nil_r.
  - intros m t p a Hm (s0 & -> & E). eapply wp_mono; [apply (go_ok c_ClearOUT); [by right|exact Hm]|].
    intros go s (-> & En & Es & Er). split_and!; [done..| |done]. exists (s0 ++ s).
    by rewrite app_assoc, received_app, Er, app_nil_r.
  - intros t [] a (s0 & -> & E) Ha. unfold from_endpoint. repeat wp_step. cbn [fst snd]. rewrite (Hd s0) in H. subst.
    destruct (lookup_lt_is_Some_2 data (length (received s0))) as [b Hb]; [lia|].
    rewrite (nth_lookup_Some _ _ _ _ Hb). assert (is_byte b) as Hbb by (by eapply Forall_lookup_1 in Hby).
    unfold is_byte in Hbb. assert (u8 b = b) as Eb by (unfold wrap; apply Z.mod_small; lia).
    split_and!; [| |exists (s0 ++ [Ask q_Read_8 b])|done].
    + rewrite Eb. unfold overwritten. rewrite (proj2 (Z.leb_le _ _)), (proj2 (Z.ltb_lt _ _)) by lia. cbn [andb].
      rewrite (nth_lookup_Some _ _ _ b); [done|]. by replace (Z.to_nat (a - start)) with (length (received s0)) by lia.
    + unfold DataflashSpec.now. by rewrite run_app.
    + rewrite received_app, length_app, app_nil_r, app_assoc. split; [done|]. cbn. lia.
Qed.

(** The end of a transfer with the host: the bank is released if it has to be, and
    no chip stays selected. *)
Lemma release_ok (c : command) (Q : flash -> Prop) t :
  c = c_ClearIN \/ c = c_ClearOUT ->
  (forall t', now t' = now t -> wp true h Dataflash_DeselectChip t' (fun _ s => Q (now (t' ++ s)) /\ sent s = [] /\ received s = [])) ->
  wp true h (allowed ← Endpoint_IsReadWriteAllowed; (if negb allowed then cmd c else mret tt);; Dataflash_DeselectChip) t
    (fun _ s => Q (now (t ++ s)) /\ sent s = [] /\ received s = []).
Proof.
  intros Hc HQ. do 2 wp_step. wp_step. wp_step. wp_step; wp_step.
  - eapply wp_mono; [apply HQ|].
    + unfold DataflashSpec.now. rewrite !run_app. by destruct Hc; subst c.
    + intros [] s (? & ? & ?). rewrite !sent_app, !received_app. rewrite <- !app_assoc in *. by destruct Hc; subst c.
  - eapply wp_mono; [apply HQ|].
    + unfold DataflashSpec.now. by rewrite !run_app.
    + intros [] s (? & ? & ?). rewrite !sent_app, !received_app. by rewrite <- !app_assoc in *.
Qed.

Lemma endpoint_written B n data t :
  blocks_ok B n -> Z.of_nat (length data) = n * 512 -> Forall is_byte data -> idle_flash (now t) -> delivers h t data ->
  wp true h (DataflashManager_WriteBlocks fuel B n) t (fun _ s =>
    written (disk (now t)) (B * 512) data (now (t ++ s)) /\ sent s = [] /\ Z.of_nat (length (received s)) = n * 512).
Proof.
  intros Hbl Hl Hby Hidle Hd. unfold DataflashManager_WriteBlocks.
  pose proof (endpoint_source (disk (now t)) (B * 512) (n * 512) data t ltac:(lia) Hby Hd) as Hsrc.
  wp_step. eapply wp_mono; [apply (begin_ok B n data Hbl Hl t Hidle)|]. intros [] s1 (Hw & Es1 & Er1).
  wp_step. eapply wp_mono; [apply wait_ready_now; [apply Hready|done]|]. intros code s2 [-> Hs2]. cbv beta.
  change (truthy 0) with false. cbv iota. pose proof (silent_sent s2 Hs2) as Es2. pose proof (silent_received s2 Hs2) as Er2.
  wp_step. eapply wp_mono; [apply (blocks_written B n data Hbl Hl Hby t _ _ _ _ _ Hsrc harmless_nothing)|].
  { by rewrite now_silent. }
  { exists (s1 ++ s2). rewrite app_assoc, received_app, Er1, Er2. split; [done|cbn; lia]. }
  intros r s3 (x & -> & Hx & Es3).
  assert (Z.of_nat (length (received s3)) = n * 512) as L3.
  { destruct Hx as (_ & _ & _ & _ & _ & (s0 & E0 & El)). rewrite <- !app_assoc in E0. apply app_inv_head in E0. subst s0.
    rewrite !received_app, Er1, Er2 in El. cbn in El. lia. }
  wp_step. eapply wp_mono; [apply (finish_ok B n data Hl t _ _ _ Hx)|]. intros [] s4 (Es4 & Er4 & Hwait).
  wp_step. eapply wp_mono; [exact Hwait|]. intros [] s5 (Es5 & Er5 & i & E & Ec & Hdk).
  eapply wp_mono; [apply (release_ok c_ClearOUT (written (disk (now t)) (B * 512) data)); [by right|]|].
  - intros t' Ht'. rewrite <- !app_assoc in *. rewrite <- Ht' in E, Ec. apply (deselect_ok B data t t' i E Ec).
    by rewrite Ht'.
  - intros [] s6 (HQ & Es6 & Er6). rewrite <- !app_assoc in *. rewrite !sent_app, !received_app.
    rewrite Es1, Es2, Es3, Es4, Es5, Es6, Er1, Er2, Er4, Er5, Er6, !app_nil_r. done.
Qed.

Definition sent_up_to (D : Z -> Z) (t0 : list event) (start : Z) (t : list event) (u : unit) (a : Z) : Prop :=
  exists s, t = t0 ++ s /\ start <= a /\ sent s = disk_bytes D start (Z.to_nat (a - start)).

Lemma endpoint_sink D start stop t0 :
  (forall a, start <= a < stop -> is_byte (D a)) ->
  sink h f0 start stop D (endpoint_ready fuel Endpoint_ClearIN) to_endpoint not_reset (sent_up_to D t0 start).
Proof.
  intros Hby. constructor.
  - intros t s p a Hs (s0 & -> & Hle & E). exists (s0 ++ s). by rewrite app_assoc, sent_app, Hs, app_nil_r.
  - intros m t p a Hm (s0 & -> & Hle & E). eapply wp_mono; [apply (go_ok c_ClearIN); [by left|exact Hm]|].
    intros go s (-> & En & Es & Er). split_and!; [done..| |done]. exists (s0 ++ s).
    by rewrite app_assoc, sent_app, Es, app_nil_r.
  - intros t [] a (s0 & -> & Hle & E) Ha. unfold to_endpoint. repeat wp_step.
    pose proof (Hby a Ha) as Hb. unfold is_byte in Hb.
    split_and!; [by unfold DataflashSpec.now; rewrite run_app| |done]. exists (s0 ++ [Cmd (c_Write_8 (u8 (D a)))]).
    rewrite app_assoc, sent_app, E. split_and!; [done|lia|]. replace (Z.to_nat (a + 1 - start)) with (S (Z.to_nat (a - start))) by lia.
    rewrite disk_bytes_S. f_equal. cbn. unfold wrap. rewrite Z.mod_small by lia. do 2 f_equal. lia.
Qed.

Lemma endpoint_read B n D t :
  blocks_ok B n -> holds D (now t) -> selected (port (now t)) = None ->
  (forall a, B * 512 <= a < B * 512 + n * 512 -> is_byte (D a)) ->
  wp true h (DataflashManager_ReadBlocks fuel B n) t (fun _ s =>
    (holds D (now (t ++ s)) /\ selected (port (now (t ++ s))) = None) /\
    sent s = disk_bytes D (B * 512) (Z.to_nat (n * 512)) /\ received s = []).
Proof.
  intros Hbl Hh Hsel Hby. unfold DataflashManager_ReadBlocks. wp_step.
  eapply wp_mono; [by apply (begin_read_ok B n Hbl)|]. intros [] s1 (Hr & Es1 & Er1).
  wp_step. eapply wp_mono; [apply wait_ready_now; [apply Hready|done]|]. intros code s2 [-> Hs2]. cbv beta.
  change (truthy 0) with false. cbv iota. pose proof (silent_sent s2 Hs2) as Es2. pose proof (silent_received s2 Hs2) as Er2.
  wp_step. eapply wp_mono; [apply (blocks_read B n Hbl D Hby _ _ _ _ (endpoint_sink D (B * 512) (B * 512 + n * 512) t Hby))|].
  { by rewrite now_silent. }
  { exists (s1 ++ s2). rewrite app_assoc, sent_app, Es1, Es2, Z.sub_diag. done. }
  intros r s3 (x & -> & Hx & Er3).
  assert (sent s3 = disk_bytes D (B * 512) (Z.to_nat (n * 512))) as Es3.
  { destruct Hx as (_ & _ & _ & _ & _ & (s0 & E0 & _ & El)). rewrite <- !app_assoc in E0. apply app_inv_head in E0. subst s0.
    rewrite !sent_app, Es1, Es2 in El. cbn in El. rewrite El. f_equal. lia. }
  eapply wp_mono; [apply (release_ok c_ClearIN (fun f => holds D f /\ selected (port f) = None)); [by left|]|].
  - intros t' Ht'. eapply wp_mono; [apply (end_read_ok B D (fun _ _ _ => True) x t' (B * 512 + n * 512))|].
    2:{ intros [] s (? & ? & ? & ?). done. }
    destruct Hx as (HP & Hb & Ea & Hst & Hw & _). unfold reading_between. rewrite Ht'. split_and!; done || lia.
  - intros [] s6 (HQ & Es6 & Er6). rewrite <- !app_assoc in *. rewrite !sent_app, !received_app.
    rewrite Es1, Es2, Es6, Er1, Er2, Er3, Er6, !app_nil_r. done.
Qed.
End disk.

(** ** Write and read back *)

Lemma disk_bytes_overwritten d start l : disk_bytes (overwritten d start l) start (length l) = l.
Proof.
  apply list_eq_same_length with (length l); [done|apply length_disk_bytes|]. intros i x y Hi Hx Hy.
  unfold disk_bytes in Hx. rewrite list_lookup_fmap, lookup_seq_lt in Hx by done. injection Hx as <-.
  unfold overwritten. rewrite (proj2 (Z.leb_le _ _)), (proj2 (Z.ltb_lt _ _)) by lia. cbn [andb].
  rewrite <- (nth_lookup_Some _ _ 0 _ Hy). f_equal. lia.
Qed.

(** Two states of the chips with the same disk. *)
Definition same_disk (f g : flash) : Prop := forall a, 0 <= a < disk_size -> disk f a = disk g a.

(** C34: what [DataflashManager_WriteBlocks_RAM] has stored, [DataflashManager_ReadBlocks_RAM]
    returns: the pages are split over two chips, each write merges the blocks with the
    rest of a page in the buffers of the chips, and nothing of it shows.  The read may
    come at any later time at which the chips have finished and the disk is as the
    write left it. *)
Theorem disk_round_trip h f0 k fuel B n Buffer Buffer' t :
  attached h f0 k -> (k <= fuel)%nat -> blocks_ok B n -> Z.of_nat (length Buffer) = n * 512 -> Forall is_byte Buffer ->
  length Buffer' = length Buffer -> idle_flash (now f0 t) ->
  wp true h (DataflashManager_WriteBlocks_RAM fuel B n Buffer) t (fun _ s =>
    forall t', idle_flash (now f0 t') -> same_disk (now f0 t') (now f0 (t ++ s)) ->
    wp true h (DataflashManager_ReadBlocks_RAM B n Buffer') t' (fun r s' =>
      r = Buffer /\ same_disk (now f0 (t' ++ s')) (now f0 t'))).
Proof.
  intros Hatt Hfuel Hbl Hlen Hby Hlen' Hidle. pose proof Hbl as (_ & Hn & _).
  eapply wp_mono; [apply (ram_written h f0 k Hatt fuel Hfuel B n Buffer t); done || lia|].
  rewrite take_ge by lia. intros [] s [_ Hw] t' (Hs & Hb1 & Hb2) Hd. set (D := overwritten _ _ _) in Hw.
  eapply wp_mono; [apply (ram_read h f0 k Hatt fuel Hfuel B n Buffer' D t')|].
  - done.
  - lia.
  - split_and!; [done..|]. intros a Ha. rewrite Hd by done. by apply Hw.
  - done.
  - intros a Ha. by eapply (overwritten_byte f0 k fuel Hfuel B n Buffer Hlen Hby).
  - intros r s' (-> & Hh & _). split.
    + rewrite drop_ge, app_nil_r by lia. unfold D.
      replace (Z.to_nat (n * 512)) with (length Buffer) by lia. apply disk_bytes_overwritten.
    + intros a Ha. rewrite (proj2 (proj2 Hh)), Hd by done. symmetry. by apply Hw.
Qed.
