(* ===== verification/MassStorage.v ===== *)
(** * The mass storage class driver, device side

    [LUFA/Drivers/USB/Class/Device/MassStorageClassDevice.c]: commands arrive in
    command block wrappers (CBW), are handed to the application, and are answered
    with command status wrappers (CSW).  The wrappers are the bytes of the packed
    structures of [MassStorageClassCommon.h].  [IsMassStoreReset] is volatile and is
    set by control requests that are handled inside the driver's loops, so it is
    read and written like a register. *)
From S2P Require Import Prelude ConfigDescriptors USBIo Endpoint DeviceRequests HIDDevice NetBuffers.

Definition MS_CBW_SIGNATURE := 0x43425355.
Definition MS_CSW_SIGNATURE := 0x53425355.
Definition MS_COMMAND_DIR_DATA_IN := 128.
Definition MS_REQ_GetMaxLUN := 0xFE.
Definition MS_REQ_MassStorageReset := 0xFF.
Definition MS_SCSI_COMMAND_Pass := 0.
Definition MS_SCSI_COMMAND_Fail := 1.
Definition sizeof_MS_CommandBlockWrapper_t := 31.
Definition sizeof_MS_CommandStatusWrapper_t := 13.

Record USB_ClassInfo_MS_Device_t := mk_ms {
    MS_InterfaceNumber : Z;
    MS_DataINEndpoint : USB_Endpoint_Table_t;
    MS_DataOUTEndpoint : USB_Endpoint_Table_t;
    TotalLUNs : Z;
    CommandBlock : list Z;
    CommandStatus : list Z
  }.

Definition set_CommandBlock (b : list Z) (i : USB_ClassInfo_MS_Device_t) :=
  mk_ms (MS_InterfaceNumber i) (MS_DataINEndpoint i) (MS_DataOUTEndpoint i) (TotalLUNs i) b (CommandStatus i).
Definition set_CommandStatus (b : list Z) (i : USB_ClassInfo_MS_Device_t) :=
  mk_ms (MS_InterfaceNumber i) (MS_DataINEndpoint i) (MS_DataOUTEndpoint i) (TotalLUNs i) (CommandBlock i) b.

(** The fields of the command block. *)
Definition cbw_Signature (b : list Z) : Z := le_val (slice 0 4 b).
Definition cbw_Tag (b : list Z) : Z := le_val (slice 4 4 b).
Definition cbw_DataTransferLength (b : list Z) : Z := le_val (slice 8 4 b).
Definition cbw_Flags (b : list Z) : Z := le_val (slice 12 1 b).
Definition cbw_LUN (b : list Z) : Z := le_val (slice 13 1 b).
Definition cbw_SCSICommandLength (b : list Z) : Z := le_val (slice 14 1 b).
Definition cbw_SCSICommandData (b : list Z) : list Z := slice 15 16 b.

(** The callback: [true] when the command succeeded. *)
Class MSApplication (A : Type) := {
    CALLBACK_MS_Device_SCSICommandReceived :
      USB_ClassInfo_MS_Device_t -> A -> io (bool * USB_ClassInfo_MS_Device_t * A)
  }.

Section driver.
Context {A : Type} `{!MSApplication A} (fuel : nat).
Abbreviation info := USB_ClassInfo_MS_Device_t.

Definition MS_Device_ProcessControlRequest (d : device) (i : info) : io unit :=
  setup ← Endpoint_IsSETUPReceived;
  if negb setup then mret tt else
  let r := USB_ControlRequest d in
  if negb (wIndex r =? MS_InterfaceNumber i) then mret tt else
  if bRequest r =? MS_REQ_MassStorageReset then
    if bmRequestType r =? class_to_device then
      Endpoint_ClearSETUP;;
      Endpoint_ClearStatusStage fuel r;;
      cmd (c_SetMassStoreReset true)
    else mret tt
  else if bRequest r =? MS_REQ_GetMaxLUN then
    if bmRequestType r =? class_to_host then hid_reply fuel r (TotalLUNs i - 1) else mret tt
  else mret tt.

Definition MS_Device_ConfigureEndpoints (i : info) : io (bool * info) :=
  cmd (c_SetMassStoreReset false);;
  let i := mk_ms (MS_InterfaceNumber i) (set_ep_Type EP_TYPE_BULK (MS_DataINEndpoint i))
    (set_ep_Type EP_TYPE_BULK (MS_DataOUTEndpoint i)) (TotalLUNs i)
    (replicate (Z.to_nat sizeof_MS_CommandBlockWrapper_t) 0) (replicate (Z.to_nat sizeof_MS_CommandStatusWrapper_t) 0) in
  ok ← Endpoint_ConfigureEndpointTable [MS_DataINEndpoint i];
  if negb ok then mret (false, i) else
  ok ← Endpoint_ConfigureEndpointTable [MS_DataOUTEndpoint i];
  if negb ok then mret (false, i) else mret (true, i).

(** Repeat a stream transfer while it is incomplete; [false]: the interface was
    reset meanwhile. *)
Fixpoint repeat_stream (n : nat) (stream : list Z -> Z -> option Z -> io (Z * list Z * option Z))
    (Buffer : list Z) (Length : Z) (BytesProcessed : option Z) : io (bool * list Z) :=
  match n with
  | O => loops
  | S n =>
      '(code, Buffer, BytesProcessed) ← stream Buffer Length BytesProcessed;
      if code =? ENDPOINT_RWSTREAM_IncompleteTransfer then
        reset ← ask_bool q_IsMassStoreReset;
        if reset : bool then mret (false, Buffer) else repeat_stream n stream Buffer Length BytesProcessed
      else mret (true, Buffer)
  end.

(** The checks on the first 15 bytes of a command block. *)
Definition invalid_command_block (i : info) : bool :=
  let b := CommandBlock i in
  negb (cbw_Signature b =? MS_CBW_SIGNATURE) || (TotalLUNs i <=? cbw_LUN b) ||
  truthy (Z.land (cbw_Flags b) 0x1F) || (cbw_SCSICommandLength b =? 0) || (16 <? cbw_SCSICommandLength b).

Definition MS_Device_ReadInCommandBlock (i : info) : io (bool * info) :=
  Endpoint_SelectEndpoint (ep_Address (MS_DataOUTEndpoint i));;
  '(ok, b) ← repeat_stream fuel (Endpoint_Read_Stream_LE fuel) (CommandBlock i)
               (sizeof_MS_CommandBlockWrapper_t - 16) (Some 0);
  let i := set_CommandBlock b i in
  if negb ok then mret (false, i) else
  if invalid_command_block i then
    Endpoint_StallTransaction;;
    Endpoint_SelectEndpoint (ep_Address (MS_DataINEndpoint i));;
    Endpoint_StallTransaction;;
    mret (false, i)
  else
    '(ok, d) ← repeat_stream fuel (Endpoint_Read_Stream_LE fuel) (drop 15 (CommandBlock i))
                 (cbw_SCSICommandLength (CommandBlock i)) (Some 0);
    let i := set_CommandBlock (take 15 (CommandBlock i) ++ d) i in
    if negb ok then mret (false, i) else
    Endpoint_ClearOUT;;
    mret (true, i).

(** Wait until the selected endpoint is no longer stalled; [false]: the interface was
    reset. *)
Fixpoint wait_unstalled (n : nat) : io bool :=
  match n with
  | O => loops
  | S n =>
      stalled ← Endpoint_IsStalled;
      if negb stalled then mret true else
      cmd c_USBTask;;
      reset ← ask_bool q_IsMassStoreReset;
      if reset : bool then mret false else wait_unstalled n
  end.

Definition MS_Device_ReturnCommandStatus (i : info) : io unit :=
  Endpoint_SelectEndpoint (ep_Address (MS_DataOUTEndpoint i));;
  go ← wait_unstalled fuel;
  if negb go then mret tt else
  Endpoint_SelectEndpoint (ep_Address (MS_DataINEndpoint i));;
  go ← wait_unstalled fuel;
  if negb go then mret tt else
  '(go, _) ← repeat_stream fuel (Endpoint_Write_Stream_LE fuel) (CommandStatus i)
               sizeof_MS_CommandStatusWrapper_t (Some 0);
  if negb go then mret tt else Endpoint_ClearIN.

(** The status wrapper for the command block [b]. *)
Definition command_status (b : list Z) (SCSICommandResult : bool) : list Z :=
  le_bytes 4 MS_CSW_SIGNATURE ++ slice 4 4 b ++ slice 8 4 b ++
  [if SCSICommandResult then MS_SCSI_COMMAND_Pass else MS_SCSI_COMMAND_Fail].

(** A command: read it, have it processed, return its status. *)
Definition process_command (i : info) (a : A) : io (info * A) :=
  '(ok, i) ← MS_Device_ReadInCommandBlock i;
  if negb ok then mret (i, a) else
  (if truthy (Z.land (cbw_Flags (CommandBlock i)) MS_COMMAND_DIR_DATA_IN)
   then Endpoint_SelectEndpoint (ep_Address (MS_DataINEndpoint i)) else mret tt);;
  '(SCSICommandResult, i, a) ← CALLBACK_MS_Device_SCSICommandReceived i a;
  let i := set_CommandStatus (command_status (CommandBlock i) SCSICommandResult) i in
  (if negb SCSICommandResult && truthy (le_val (slice 8 4 (CommandStatus i)))
   then Endpoint_StallTransaction else mret tt);;
  MS_Device_ReturnCommandStatus i;;
  mret (i, a).

Definition reset_interface (i : info) : io unit :=
  Endpoint_ResetEndpoint (ep_Address (MS_DataOUTEndpoint i));;
  Endpoint_ResetEndpoint (ep_Address (MS_DataINEndpoint i));;
  Endpoint_SelectEndpoint (ep_Address (MS_DataOUTEndpoint i));;
  Endpoint_ClearStall;;
  Endpoint_ResetDataToggle;;
  Endpoint_SelectEndpoint (ep_Address (MS_DataINEndpoint i));;
  Endpoint_ClearStall;;
  Endpoint_ResetDataToggle;;
  cmd (c_SetMassStoreReset false).

Definition MS_Device_USBTask (i : info) (a : A) : io (info * A) :=
  s ← USB_DeviceState;
  if negb (s =? DEVICE_STATE_Configured) then mret (i, a) else
  Endpoint_SelectEndpoint (ep_Address (MS_DataOUTEndpoint i));;
  received ← Endpoint_IsOUTReceived;
  '(i, a) ← (if received : bool then process_command i a else mret (i, a));
  reset ← ask_bool q_IsMassStoreReset;
  (if reset : bool then reset_interface i else mret tt);;
  mret (i, a).
End driver.
