(* ===== verification/SCSI.v ===== *)
(** * The SCSI commands of the mass storage demo

    [Demos/Device/ClassDriver/MassStorage/Lib/SCSI.c] and the callback of
    [MassStorage.c]: the application behind the mass storage class driver.  Its
    state is [SenseData], the bytes of the answer to REQUEST SENSE. *)
From Stdlib Require Import String Ascii.
From S2P Require Import Prelude ConfigDescriptors USBIo Endpoint NetBuffers Dataflash MassStorage.

Definition SCSI_CMD_INQUIRY := 0x12.
Definition SCSI_CMD_REQUEST_SENSE := 0x03.
Definition SCSI_CMD_TEST_UNIT_READY := 0x00.
Definition SCSI_CMD_READ_CAPACITY_10 := 0x25.
Definition SCSI_CMD_SEND_DIAGNOSTIC := 0x1D.
Definition SCSI_CMD_PREVENT_ALLOW_MEDIUM_REMOVAL := 0x1E.
Definition SCSI_CMD_WRITE_10 := 0x2A.
Definition SCSI_CMD_READ_10 := 0x28.
Definition SCSI_CMD_VERIFY_10 := 0x2F.
Definition SCSI_CMD_MODE_SENSE_6 := 0x1A.

Definition SCSI_SENSE_KEY_GOOD := 0x00.
Definition SCSI_SENSE_KEY_HARDWARE_ERROR := 0x04.
Definition SCSI_SENSE_KEY_ILLEGAL_REQUEST := 0x05.
Definition SCSI_SENSE_KEY_DATA_PROTECT := 0x07.
Definition SCSI_ASENSE_NO_ADDITIONAL_INFORMATION := 0x00.
Definition SCSI_ASENSE_INVALID_COMMAND := 0x20.
Definition SCSI_ASENSE_LOGICAL_BLOCK_ADDRESS_OUT_OF_RANGE := 0x21.
Definition SCSI_ASENSE_INVALID_FIELD_IN_CDB := 0x24.
Definition SCSI_ASENSE_WRITE_PROTECTED := 0x27.
Definition SCSI_ASENSEQ_NO_QUALIFIER := 0x00.

(** [AppConfig.h] *)
Definition TOTAL_LUNS := 1.
Definition DISK_READ_ONLY := false.

Definition LUN_MEDIA_BLOCKS := VIRTUAL_MEMORY_BLOCKS / TOTAL_LUNS.

(** A string in an array of [n] bytes. *)
Definition text (n : nat) (s : string) : list Z :=
  resize n 0 ((fun c => Z.of_N (N_of_ascii c)) <$> list_ascii_of_string s).

(** The 36 bytes of the packed structure: device type and qualifier, removable bit,
    version, response format, additional length, reserved and flag bytes, names. *)
Definition InquiryData : list Z :=
  [0; 128; 0; 2; 0x1F; 0; 0; 0] ++ text 8 "LUFA" ++ text 16 "Dataflash Disk" ++ text 4 "0.00".

(** The initial [SenseData]: response code 0x70, additional length 0x0A. *)
Definition SenseData : list Z := [0x70; 0; 0; 0; 0; 0; 0; 0x0A; 0; 0; 0; 0; 0; 0; 0; 0; 0; 0].

(** Key (the low four bits of byte 2), code and qualifier. *)
Definition SCSI_SET_SENSE (Key Acode Aqual : Z) (s : list Z) : list Z :=
  <[13%nat := Aqual]> (<[12%nat := Acode]> (<[2%nat := Z.lor (Z.land (nth 2 s 0) 0xF0) Key]> s)).

Section commands.
Context (fuel : nat).
Abbreviation info := USB_ClassInfo_MS_Device_t.

(** [CommandBlock.SCSICommandData[n]], and big endian numbers in it. *)
Definition cdb_byte (n : Z) (i : info) : Z := le_val (slice (15 + n) 1 (CommandBlock i)).
Definition cdb_u16 (n : Z) (i : info) : Z := SwapEndian_16 (le_val (slice (15 + n) 2 (CommandBlock i))).
Definition cdb_u32 (n : Z) (i : info) : Z := SwapEndian_32 (le_val (slice (15 + n) 4 (CommandBlock i))).

(** [CommandBlock.DataTransferLength = v] *)
Definition set_DataTransferLength (v : Z) (i : info) : info :=
  set_CommandBlock (splice 8 (le_bytes 4 v) (CommandBlock i)) i.
(** [CommandBlock.DataTransferLength -= n] *)
Definition transferred (n : Z) (i : info) : info :=
  set_DataTransferLength (u32 (cbw_DataTransferLength (CommandBlock i) - n)) i.

Definition SCSI_Command_Inquiry (i : info) (s : list Z) : io (bool * info * list Z) :=
  let AllocationLength := cdb_u16 3 i in
  let BytesTransferred := Z.min AllocationLength (Z.of_nat (length InquiryData)) in
  if truthy (Z.land (cdb_byte 1 i) 3) || truthy (cdb_byte 2 i) then
    mret (false, i, SCSI_SET_SENSE SCSI_SENSE_KEY_ILLEGAL_REQUEST SCSI_ASENSE_INVALID_FIELD_IN_CDB
                      SCSI_ASENSEQ_NO_QUALIFIER s)
  else
    Endpoint_Write_Stream_LE fuel InquiryData BytesTransferred None;;
    Endpoint_Null_Stream fuel (u16 (AllocationLength - BytesTransferred)) None;;
    Endpoint_ClearIN;;
    mret (true, transferred BytesTransferred i, s).

Definition SCSI_Command_Request_Sense (i : info) (s : list Z) : io (bool * info * list Z) :=
  let AllocationLength := cdb_byte 4 i in
  let BytesTransferred := Z.min AllocationLength (Z.of_nat (length s)) in
  Endpoint_Write_Stream_LE fuel s BytesTransferred None;;
  Endpoint_Null_Stream fuel (u16 (AllocationLength - BytesTransferred)) None;;
  Endpoint_ClearIN;;
  mret (true, transferred BytesTransferred i, s).

Definition SCSI_Command_Read_Capacity_10 (i : info) (s : list Z) : io (bool * info * list Z) :=
  let LastBlockAddressInLUN := LUN_MEDIA_BLOCKS - 1 in
  let MediaBlockSize := VIRTUAL_MEMORY_BLOCK_SIZE in
  Endpoint_Write_Stream_BE fuel (le_bytes 4 LastBlockAddressInLUN) 4 None;;
  Endpoint_Write_Stream_BE fuel (le_bytes 4 MediaBlockSize) 4 None;;
  Endpoint_ClearIN;;
  mret (true, transferred 8 i, s).

Definition SCSI_Command_Send_Diagnostic (i : info) (s : list Z) : io (bool * info * list Z) :=
  if negb (truthy (Z.land (cdb_byte 1 i) 4)) then
    mret (false, i, SCSI_SET_SENSE SCSI_SENSE_KEY_ILLEGAL_REQUEST SCSI_ASENSE_INVALID_FIELD_IN_CDB
                      SCSI_ASENSEQ_NO_QUALIFIER s)
  else
    ok ← DataflashManager_CheckDataflashOperation;
    if negb ok then
      mret (false, i, SCSI_SET_SENSE SCSI_SENSE_KEY_HARDWARE_ERROR SCSI_ASENSE_NO_ADDITIONAL_INFORMATION
                        SCSI_ASENSEQ_NO_QUALIFIER s)
    else mret (true, set_DataTransferLength 0 i, s).

Definition SCSI_Command_ReadWrite_10 (IsDataRead : bool) (i : info) (s : list Z) : io (bool * info * list Z) :=
  if negb IsDataRead && DISK_READ_ONLY then
    mret (false, i, SCSI_SET_SENSE SCSI_SENSE_KEY_DATA_PROTECT SCSI_ASENSE_WRITE_PROTECTED
                      SCSI_ASENSEQ_NO_QUALIFIER s)
  else
    let BlockAddress := cdb_u32 2 i in
    let TotalBlocks := cdb_u16 7 i in
    if LUN_MEDIA_BLOCKS <=? BlockAddress then
      mret (false, i, SCSI_SET_SENSE SCSI_SENSE_KEY_ILLEGAL_REQUEST
                        SCSI_ASENSE_LOGICAL_BLOCK_ADDRESS_OUT_OF_RANGE SCSI_ASENSEQ_NO_QUALIFIER s)
    else
      let BlockAddress := if 1 <? TOTAL_LUNS then u32 (BlockAddress + cbw_LUN (CommandBlock i) * LUN_MEDIA_BLOCKS)
                          else BlockAddress in
      (if IsDataRead then DataflashManager_ReadBlocks fuel BlockAddress TotalBlocks
       else DataflashManager_WriteBlocks fuel BlockAddress TotalBlocks);;
      mret (true, transferred (u32 (TotalBlocks * VIRTUAL_MEMORY_BLOCK_SIZE)) i, s).

Definition SCSI_Command_ModeSense_6 (i : info) (s : list Z) : io (bool * info * list Z) :=
  Endpoint_Write_8 0;;
  Endpoint_Write_8 0;;
  Endpoint_Write_8 (if DISK_READ_ONLY then 0x80 else 0);;
  Endpoint_Write_8 0;;
  Endpoint_ClearIN;;
  mret (true, transferred 4 i, s).

(** The [switch] on the operation code. *)
Definition decode_command (i : info) (s : list Z) : io (bool * info * list Z) :=
  let op := cdb_byte 0 i in
  if op =? SCSI_CMD_INQUIRY then SCSI_Command_Inquiry i s else
  if op =? SCSI_CMD_REQUEST_SENSE then SCSI_Command_Request_Sense i s else
  if op =? SCSI_CMD_READ_CAPACITY_10 then SCSI_Command_Read_Capacity_10 i s else
  if op =? SCSI_CMD_SEND_DIAGNOSTIC then SCSI_Command_Send_Diagnostic i s else
  if op =? SCSI_CMD_WRITE_10 then SCSI_Command_ReadWrite_10 false i s else
  if op =? SCSI_CMD_READ_10 then SCSI_Command_ReadWrite_10 true i s else
  if op =? SCSI_CMD_MODE_SENSE_6 then SCSI_Command_ModeSense_6 i s else
  if (op =? SCSI_CMD_TEST_UNIT_READY) || (op =? SCSI_CMD_PREVENT_ALLOW_MEDIUM_REMOVAL) || (op =? SCSI_CMD_VERIFY_10)
  then mret (true, set_DataTransferLength 0 i, s)
  else mret (false, i, SCSI_SET_SENSE SCSI_SENSE_KEY_ILLEGAL_REQUEST SCSI_ASENSE_INVALID_COMMAND
                         SCSI_ASENSEQ_NO_QUALIFIER s).

Definition SCSI_DecodeSCSICommand (i : info) (s : list Z) : io (bool * info * list Z) :=
  '(CommandSuccess, i, s) ← decode_command i s;
  if CommandSuccess : bool then
    mret (true, i, SCSI_SET_SENSE SCSI_SENSE_KEY_GOOD SCSI_ASENSE_NO_ADDITIONAL_INFORMATION SCSI_ASENSEQ_NO_QUALIFIER s)
  else mret (false, i, s).

(** [MassStorage.c]: the LEDs show that a command is being processed. *)
Definition LEDMASK_USB_BUSY := 32.
Definition LEDMASK_USB_READY := Z.lor 32 64.

Definition SCSICommandReceived (i : info) (s : list Z) : io (bool * info * list Z) :=
  LEDs_SetAllLEDs LEDMASK_USB_BUSY;;
  '(CommandSuccess, i, s) ← SCSI_DecodeSCSICommand i s;
  LEDs_SetAllLEDs LEDMASK_USB_READY;;
  mret (CommandSuccess, i, s).
End commands.

#[export] Instance scsi_application (fuel : nat) : MSApplication (list Z) :=
  {| CALLBACK_MS_Device_SCSICommandReceived := SCSICommandReceived fuel |}.

(** The interface at reset: the state is zeroed, as static data are. *)
Definition Disk_MS_Interface : USB_ClassInfo_MS_Device_t :=
  mk_ms 0 (mk_endpoint (Z.lor 0x80 3) 64 0 1) (mk_endpoint 4 64 0 1) TOTAL_LUNS (repeat 0 31) (repeat 0 13).

(** One pass of the main loop of [MassStorage.c]. *)
Definition main_pass (fuel : nat) (i : USB_ClassInfo_MS_Device_t) (s : list Z) : io (USB_ClassInfo_MS_Device_t * list Z) :=
  '(i, s) ← @MS_Device_USBTask (list Z) (scsi_application fuel) fuel i s;
  cmd c_USBTask;;
  mret (i, s).
