(* ===== verification/Quiet.v ===== *)
(** * Code with events of one kind

    [emits P m]: the events of [m] satisfy [P], in every environment, with a tactic
    that proves it from the structure of the code.  The first use is code that does
    not touch the peripherals (the memory chips and their port, the USART, the timer):
    the waiting and the streams of the endpoint layer. *)
From S2P Require Import Prelude ConfigDescriptors USBIo Endpoint EndpointSpec.

Definition off_chip (e : event) : Prop :=
  match e with
  | Ask (q_SPDR | q_Register _) _ | Cmd (c_PORTE _ | c_SPI_Transfer _ | c_Register _ _) => False
  | _ => True
  end.

(** The streams do not select or stall an endpoint either. *)
Definition on_stream (e : event) : Prop :=
  off_chip e /\ match e with Cmd (c_SelectEndpoint _ | c_StallTransaction) => False | _ => True end.

Definition emits (P : event -> Prop) {A} (m : io A) : Prop :=
  forall h t a t', m h t = Returns (a, t') -> exists s, t' = t ++ s /\ Forall P s.
Notation avoids := (emits on_stream).

Lemma on_stream_off s : Forall on_stream s -> Forall off_chip s.
Proof. intros Hs. eapply Forall_impl; [exact Hs|]. by intros e []. Qed.

(** The endpoints that are stalled, when [ep] is selected. *)
Fixpoint stalls (ep : Z) (s : list event) : list Z :=
  match s with
  | [] => []
  | Cmd (c_SelectEndpoint a) :: s => stalls a s
  | Cmd c_StallTransaction :: s => ep :: stalls ep s
  | _ :: s => stalls ep s
  end.

Lemma stalls_on_stream s1 : Forall on_stream s1 -> forall ep s, stalls ep (s1 ++ s) = stalls ep s.
Proof. induction 1 as [|e s1 [_ He] _ IH]; intros ep s; [done|]. destruct e as [|[]]; cbn; done || apply IH. Qed.

Section emits.
Context (P : event -> Prop).

Lemma wp_emits {A} tot h (m : io A) t Q :
  emits P m -> wp tot h m t Q -> wp tot h m t (fun a s => Q a s /\ Forall P s).
Proof.
  intros Ha. unfold wp. destruct (m h t) as [[a t']| |] eqn:E; [|done..]. intros (s & -> & ? & ?).
  destruct (Ha _ _ _ _ E) as (s' & <-%app_inv_head & ?). eauto.
Qed.

Lemma av_ret {A} (a : A) : emits P (mret a).
Proof. intros h t a' t' [= <- <-]. exists []. by rewrite app_nil_r. Qed.

Lemma av_bind {A B} (m : io A) (f : A -> io B) : emits P m -> (forall a, emits P (f a)) -> emits P (m ≫= f).
Proof.
  intros Hm Hf h t b t' E. unfold mbind, io_bind in E. destruct (m h t) as [[a t1]| |] eqn:E1; try done.
  destruct (Hm _ _ _ _ E1) as (s1 & -> & H1). destruct (Hf _ _ _ _ _ E) as (s2 & -> & H2).
  exists (s1 ++ s2). rewrite app_assoc. split; [done|]. by apply Forall_app_2.
Qed.

Lemma av_ask q : (forall a, P (Ask q a)) -> emits P (ask q).
Proof. intros Hq h t a t' [= <- <-]. eexists. split; [done|]. by apply Forall_singleton. Qed.
Lemma av_cmd c : P (Cmd c) -> emits P (cmd c).
Proof. intros Hc h t a t' [= <- <-]. eexists. split; [done|]. by apply Forall_singleton. Qed.
Lemma av_get {A} (o : option A) : emits P (get o).
Proof. destruct o; [apply av_ret|]. by intros ? ? ? ?. Qed.
Lemma av_loops {A} : emits P (loops (A := A)).
Proof. by intros ? ? ? ?. Qed.
Lemma av_fault {A} : emits P (fault (A := A)).
Proof. by intros ? ? ? ?. Qed.

(** A weaker kind. *)
Lemma emits_mono (P' : event -> Prop) {A} (m : io A) : (forall e, P e -> P' e) -> emits P m -> emits P' m.
Proof.
  intros Hp Hm h t a t' E. destruct (Hm _ _ _ _ E) as (s & -> & Hs). exists s. split; [done|]. by eapply Forall_impl.
Qed.

(** Code with events of one kind says nothing else: partial correctness from [emits]. *)
Lemma wp_emits_safe {A} tot h (m : io A) t Q : wp tot h m t (fun _ _ => True) -> emits P m ->
  (forall a s, Forall P s -> Q a s) -> wp tot h m t Q.
Proof. intros Hw He HQ. eapply wp_mono; [apply wp_emits; [exact He|exact Hw]|]. intros a s [_ ?]. by apply HQ. Qed.
End emits.

Ltac avoid :=
  repeat (autounfold with usbio; lazymatch goal with
  | |- emits _ (mret _) => apply av_ret
  | |- emits _ (mbind _ _) => apply av_bind; [|intros ?]
  | |- emits _ (ask _) => apply av_ask; intros ?; first [exact I | by split]
  | |- emits _ (ask_bool _) => unfold ask_bool
  | |- emits _ (ask_u8 _) => unfold ask_u8
  | |- emits _ (ask_u16 _) => unfold ask_u16
  | |- emits _ (cmd _) => apply av_cmd; first [exact I | by split]
  | |- emits _ (get _) => apply av_get
  | |- emits _ loops => apply av_loops
  | |- emits _ fault => apply av_fault
  | |- emits _ (if ?b then _ else _) => destruct b
  | |- emits _ (let '(_, _) := ?p in _) => destruct p
  | |- emits _ (match ?p with _ => _ end) => destruct p
  | |- emits _ (let _ := _ in _) => cbv zeta
  end).

(** A history without events of the chips, from its parts. *)
Ltac off := repeat first [assumption|exact I|apply on_stream_off; assumption|apply Forall_app_2|apply Forall_cons_2|apply Forall_nil_2].

Lemma av_wait fuel : avoids (Endpoint_WaitUntilReady fuel).
Proof.
  unfold Endpoint_WaitUntilReady. avoid. generalize USB_STREAM_TIMEOUT_MS as r. generalize a as p. clear a.
  induction fuel as [|fuel IH]; intros p r; cbn [wait_loop]; avoid; apply IH.
Qed.

Lemma av_stream T fuel buf n bp :
  avoids (CLEAR_ENDPOINT T) -> (forall buf i, avoids (TRANSFER_BYTE T buf i)) -> avoids (Template_Endpoint_RW T fuel buf n bp).
Proof.
  intros Hc Ht. unfold Template_Endpoint_RW. avoid; [apply av_wait|].
  generalize (match bp with Some b => BUFFER_MOVE T (BUFFER_OFFSET T n) b | None => BUFFER_OFFSET T n end) as i.
  generalize (remaining n bp) as l. generalize 0 as d. revert buf.
  induction fuel as [|fl IH]; intros buf d l i; cbn [stream_loop]; avoid; auto using av_wait.
Qed.

Lemma av_read fuel buf n bp : avoids (Endpoint_Read_Stream_LE fuel buf n bp).
Proof. apply av_stream; [|intros; cbn; unfold read_byte]; cbn; avoid. Qed.
Lemma av_write fuel buf n bp : avoids (Endpoint_Write_Stream_LE fuel buf n bp).
Proof. apply av_stream; [|intros; cbn; unfold write_byte]; cbn; avoid. Qed.
