(* ===== verification/MassStorageSpec.v ===== *)
(** * Commands of the mass storage driver

    The command and status wrappers on the wire: a valid command is read, handed to
    the application and answered with its status; an invalid one stalls both
    endpoints. *)
From S2P Require Import Prelude ConfigDescriptors USBIo Endpoint EndpointSpec Quiet DeviceRequests HIDDevice NetBuffers NetLemmas Dataflash DataflashChip DataflashSpec DataflashDisk MassStorage SCSI.

(** ** Code that leaves the Dataflash alone *)

Lemma run_off_chip s : Forall off_chip s -> forall f, run f s = f.
Proof.
  induction 1 as [|e s He _ IH]; intros f; [done|]. cbn. rewrite <- (IH f) at 2. f_equal.
  by destruct e as [[] ?|[]].
Qed.

Lemma av_repeat stream : (forall buf n bp, avoids (stream buf n bp)) ->
  forall R buf n bp, avoids (repeat_stream R stream buf n bp).
Proof. intros Hs. induction R as [|R IH]; intros buf n bp; cbn [repeat_stream]; avoid; auto. Qed.

(** ** Transfers in several packets

    A host that keeps up, and does not reset the interface. *)
Definition no_reset (h : hw) : Prop := forall t, h t q_IsMassStoreReset = 0.

(** The next look at the bank finds it ready. *)
Definition fresh (h : hw) (t : list event) : Prop := forall s, silent s -> h (t ++ s) q_IsReadWriteAllowed <> 0.

Section rounds.
Context (h : hw) (T : stream_template) (c : command).
Context (Hco : cooperative h c) (Hcl : CLEAR_ENDPOINT T = cmd c) (Hmv : forall p k, BUFFER_MOVE T p k = p + k)
  (Hof : forall n, BUFFER_OFFSET T n = 0)
  (Htr : forall buf i t, 0 <= i < Z.of_nat (length buf) ->
     wp true h (TRANSFER_BYTE T buf i) t (fun buf' _ => length buf' = length buf)).

(** The result of one round: complete, or stopped at the end of a packet after [j]
    bytes. *)
Definition round_result (n : nat) (d b : Z) (t : list event) (r : Z * list Z * option Z) (s : list event) : Prop :=
  r.1.1 = 0 \/
  r.1.1 = ENDPOINT_RWSTREAM_IncompleteTransfer /\ fresh h (t ++ s) /\
  exists j, 0 <= j < Z.of_nat n /\ r.2 = Some (u16 (b + (d + j))) /\ (h t q_IsReadWriteAllowed <> 0 -> 1 <= j).

Lemma round_loop : forall n fuel buf i d b t,
  (n + 1 <= fuel)%nat -> 0 <= d -> d + Z.of_nat n < 65536 -> in_buffer buf i 1 (Z.of_nat n) ->
  wp true h (stream_loop T fuel buf i (Z.of_nat n) d (Some b)) t (round_result n d b t).
Proof.
  induction n as [|n IH]; intros fuel buf i d b t Hf Hd Hn Hi; destruct fuel as [|fuel]; try lia; cbn [stream_loop].
  { apply wp_ret. by left. }
  replace (negb (truthy (Z.of_nat (S n)))) with false by (symmetry; unfold truthy; rewrite negb_involutive; apply Z.eqb_neq; lia).
  do 4 wp_step.
  - apply truthy_false in H0. rewrite H0 in H |- *. rewrite Hcl. repeat wp_step. right. cbn [fst snd app].
    split_and!; [done| |].
    + intros s Hs. pose proof (proj2 Hco t s H Hs) as Hx. rewrite <- app_assoc. exact Hx.
    + exists 0. rewrite Z.add_0_r. split_and!; [lia..|done|]. by rewrite H.
  - wp_step. eapply wp_mono; [apply Htr; specialize (Hi 0); lia|]. intros buf' s Hl. cbv beta.
    rewrite Hmv, !u16_small by lia. replace (Z.of_nat (S n) - 1) with (Z.of_nat n) by lia.
    eapply wp_mono; [apply IH; [lia|lia|lia|]|].
    { intros j Hj. rewrite Hl. specialize (Hi (j + 1)). lia. }
    intros r s' [?|(E5 & Hfr & j & Hj & Er & _)]; [by left|]. right. split_and!; [done|by rewrite <- !app_assoc in *|].
    exists (j + 1). split_and!; [lia..| |lia]. rewrite Er. do 3 f_equal. lia.
Qed.

Lemma round_returns fuel buf n b t :
  0 <= b <= n -> n < 65536 -> n <= Z.of_nat (length buf) -> (Z.to_nat n + 1 <= fuel)%nat ->
  wp true h (Template_Endpoint_RW T fuel buf n (Some b)) t (fun r s =>
    r.1.1 = 0 \/
    r.1.1 = ENDPOINT_RWSTREAM_IncompleteTransfer /\ fresh h (t ++ s) /\
    exists j, 0 <= j < n - b /\ r.2 = Some (b + j) /\ (fresh h t -> 1 <= j)).
Proof.
  intros Hb Hn Hl Hf. unfold Template_Endpoint_RW. wp_step.
  eapply wp_mono; [apply wait_ready_now; [apply Hco|lia]|]. intros code s [-> Hs]. cbv beta. change (truthy 0) with false. cbv iota.
  cbn [remaining]. rewrite u16_small by lia. rewrite Hof, Hmv.
  replace (n - b) with (Z.of_nat (Z.to_nat (n - b))) by lia.
  eapply wp_mono; [apply round_loop; [lia|lia|lia|]|].
  { intros j Hj. lia. }
  intros r s' [?|(E5 & Hfr & j & Hj & Er & Hp)]; [by left|]. right. split_and!; [done|by rewrite <- !app_assoc in *|].
  exists j. split_and!; [lia..| |]. { rewrite Er, u16_small by lia. done. } intros Hfr'. apply Hp, Hfr', Hs.
Qed.
End rounds.

Section host.
Context (h : hw) (fuel : nat) (Hnr : no_reset h).

(** The read of [n] bytes, of which the first [b] have arrived. *)
Lemma repeat_read (Hco : cooperative h c_ClearOUT) n : 0 <= n < 65536 -> (Z.to_nat n + 1 <= fuel)%nat ->
  forall R (fr : bool) buf b t, (fr = true -> fresh h t) -> 0 <= b <= n -> n <= Z.of_nat (length buf) ->
  (Z.to_nat (n - b) + (if fr then 1 else 2) <= R)%nat ->
  wp true h (repeat_stream R (Endpoint_Read_Stream_LE fuel) buf n (Some b)) t (fun r s =>
    r = (true, take (Z.to_nat b) buf ++ received s ++ drop (Z.to_nat n) buf) /\
    Z.of_nat (length (received s)) = n - b /\ sent s = []).
Proof.
  intros Hn Hf. induction R as [|R IH]; intros fr buf b t Hfr Hb Hl HR; [destruct fr; lia|]. cbn [repeat_stream]. wp_step.
  assert (wp true h (Endpoint_Read_Stream_LE fuel buf n (Some b)) t (fun r s => r.1.1 = 0 \/
    r.1.1 = ENDPOINT_RWSTREAM_IncompleteTransfer /\ fresh h (t ++ s) /\
    exists j, 0 <= j < n - b /\ r.2 = Some (b + j) /\ (fresh h t -> 1 <= j))) as Ht.
  { apply (round_returns h read_LE c_ClearOUT); try done; try lia.
    intros buf' i t' Hi. apply (wp_read_byte h read_LE 1); [done|]. intros. apply length_insert. }
  pose proof (read_le_ok h fuel buf n (Some b) t ltac:(lia) Hl ltac:(unfold valid_start; cbn; lia)) as Hp.
  eapply wp_mono; [apply (wp_combine _ _ _ _ _ Ht Hp)|]. change (start (Some b)) with b.
  intros [[code buf'] bp'] s1 (Hc & Hs1 & -> & (Hk & Hok & Hinc & _)). cbn [fst snd] in Hc. cbv beta iota.
  set (B := take _ _ ++ received s1 ++ _). destruct Hc as [-> |(-> & Hfr1 & j & Hj & -> & Hj1)].
  - change (0 =? ENDPOINT_RWSTREAM_IncompleteTransfer) with false. cbv iota. wp_step. destruct (Hok eq_refl) as [El _]. rewrite app_nil_r. split_and!; [|lia|done].
    unfold B. do 4 f_equal. lia.
  - change (_ =? ENDPOINT_RWSTREAM_IncompleteTransfer) with true. cbv iota. do 2 wp_step. rewrite (Hnr (t ++ s1)) in H. subst.
    change (truthy 0) with false. cbv iota. destruct (Hinc eq_refl) as (b' & [= <-] & [= E]). rewrite Z.add_0_l in E.
    assert (Z.of_nat (length (received s1)) = j) as Ej by (rewrite u16_small in E by lia; lia).
    assert (length B = length buf) as LB by (unfold B; rewrite !length_app, length_take, length_drop; lia).
    eapply wp_mono; [apply (IH true)|].
    + intros _ s Hs. rewrite <- app_assoc. apply Hfr1. apply (silent_app [_]); [by apply silent_ask|done].
    + lia.
    + rewrite LB. done.
    + destruct fr; [specialize (Hj1 (Hfr eq_refl)); lia|lia].
    + intros r s2 (-> & L2 & S2). rewrite !received_app, !sent_app, Hs1, S2, !length_app. split_and!; [|cbn; lia|done].
      f_equal. rewrite <- app_assoc. cbn [app received omap list_omap].
      assert (take (Z.to_nat (b + j)) B = take (Z.to_nat b) buf ++ received s1) as ->.
      { unfold B. rewrite app_assoc, take_app_length'; [done|]. rewrite length_app, length_take. lia. }
      assert (drop (Z.to_nat n) B = drop (Z.to_nat n) buf) as ->.
      { unfold B. rewrite app_assoc, drop_app_ge by (rewrite length_app, length_take; lia).
        rewrite drop_drop. f_equal. rewrite length_app, length_take. lia. }
      by rewrite <- !app_assoc.
Qed.

(** The write of [n] bytes, of which the first [b] have been taken. *)
Lemma repeat_write (Hco : cooperative h c_ClearIN) n buf : 0 <= n < 65536 -> (Z.to_nat n + 1 <= fuel)%nat ->
  n <= Z.of_nat (length buf) -> Forall is_byte buf ->
  forall R (fr : bool) b t, (fr = true -> fresh h t) -> 0 <= b <= n ->
  (Z.to_nat (n - b) + (if fr then 1 else 2) <= R)%nat ->
  wp true h (repeat_stream R (Endpoint_Write_Stream_LE fuel) buf n (Some b)) t (fun r s =>
    r = (true, buf) /\ sent s = take (Z.to_nat (n - b)) (drop (Z.to_nat b) buf) /\ received s = []).
Proof.
  intros Hn Hf Hl Hby. induction R as [|R IH]; intros fr b t Hfr Hb HR; [destruct fr; lia|]. cbn [repeat_stream]. wp_step.
  assert (wp true h (Endpoint_Write_Stream_LE fuel buf n (Some b)) t (fun r s => r.1.1 = 0 \/
    r.1.1 = ENDPOINT_RWSTREAM_IncompleteTransfer /\ fresh h (t ++ s) /\
    exists j, 0 <= j < n - b /\ r.2 = Some (b + j) /\ (fresh h t -> 1 <= j))) as Ht.
  { apply (round_returns h write_LE c_ClearIN); try done; try lia. intros buf' i t' Hi.
    destruct (arr_get_is_Some _ _ Hi) as [x Hx]. cbn [TRANSFER_BYTE write_LE]. unfold write_byte. rewrite Hx. repeat wp_step; [done|].
    repeat wp_step. done. }
  pose proof (write_le_ok h fuel buf n (Some b) t ltac:(lia) Hl ltac:(unfold valid_start; cbn; lia) Hby) as Hp.
  eapply wp_mono; [apply (wp_combine _ _ _ _ _ Ht Hp)|]. change (start (Some b)) with b.
  intros [[code buf'] bp'] s1 (Hc & -> & Hr1 & k & Hs1 & (Hk & Hok & Hinc & _)). cbn [fst snd] in Hc. cbv beta iota.
  destruct Hc as [-> |(-> & Hfr1 & j & Hj & -> & Hj1)].
  - change (0 =? ENDPOINT_RWSTREAM_IncompleteTransfer) with false. cbv iota. wp_step. destruct (Hok eq_refl) as [El _].
    rewrite app_nil_r. split_and!; [done| |done]. rewrite Hs1. f_equal. lia.
  - change (_ =? ENDPOINT_RWSTREAM_IncompleteTransfer) with true. cbv iota. do 2 wp_step. rewrite (Hnr (t ++ s1)) in H. subst.
    change (truthy 0) with false. cbv iota. destruct (Hinc eq_refl) as (b' & [= <-] & [= E]). rewrite Z.add_0_l in E.
    assert (Z.of_nat k = j) as Ej by (rewrite u16_small in E by lia; lia).
    eapply wp_mono; [apply (IH true)|].
    + intros _ s Hs. rewrite <- app_assoc. apply Hfr1. apply (silent_app [_]); [by apply silent_ask|done].
    + lia.
    + destruct fr; [specialize (Hj1 (Hfr eq_refl)); lia|lia].
    + intros r s2 (-> & S2 & R2). rewrite !received_app, !sent_app, Hs1, S2, Hr1, R2. split_and!; [done| |done].
      cbn [sent omap list_omap app]. replace (Z.to_nat (b + j)) with (Z.to_nat b + k)%nat by lia. rewrite <- drop_drop.
      replace (Z.to_nat (n - b)) with (k + Z.to_nat (n - (b + j)))%nat by lia.
      by rewrite <- take_take_drop.
Qed.
End host.

(** ** Command blocks *)

(** A valid command block, as far as it is read: 15 bytes and the command. *)
Definition valid_command (luns : Z) (b : list Z) : Prop :=
  cbw_Signature b = MS_CBW_SIGNATURE /\ cbw_LUN b < luns /\ Z.land (cbw_Flags b) 0x1F = 0 /\
  1 <= cbw_SCSICommandLength b <= 16 /\ Z.of_nat (length b) = 15 + cbw_SCSICommandLength b.

Definition wf_ms (i : USB_ClassInfo_MS_Device_t) : Prop :=
  length (CommandBlock i) = 31%nat /\ Forall is_byte (CommandBlock i).

(** The interface once the command block [b] has been read. *)
Definition with_command (b : list Z) (i : USB_ClassInfo_MS_Device_t) : USB_ClassInfo_MS_Device_t :=
  set_CommandBlock (b ++ drop (length b) (CommandBlock i)) i.

Lemma slice_take15 off n m b b' : 0 <= off -> off + n <= 15 -> 0 <= n -> (15 <= m)%nat -> take m b = take m b' -> slice off n b = slice off n b'.
Proof.
  intros Ho Hn H0 Hm E. unfold slice. rewrite !take_drop_commute.
  replace (Z.to_nat off + Z.to_nat n)%nat with ((Z.to_nat off + Z.to_nat n) `min` m)%nat by lia.
  by rewrite <- !take_take, E.
Qed.

Lemma valid_not_invalid i b :
  valid_command (TotalLUNs i) b -> take 15 (CommandBlock i) = take 15 b -> invalid_command_block i = false /\
    cbw_SCSICommandLength (CommandBlock i) = cbw_SCSICommandLength b.
Proof.
  intros (Hs & Hl & Hf & Hn & _) E.
  assert (forall off n, 0 <= off -> 0 <= n -> off + n <= 15 -> slice off n (CommandBlock i) = slice off n b) as Es
    by (intros; by apply (slice_take15 _ _ 15)).
  unfold invalid_command_block, cbw_Signature, cbw_LUN, cbw_Flags, cbw_SCSICommandLength in *.
  rewrite !Es by lia. split; [|done]. rewrite Hs, Hf, (proj2 (Z.leb_gt _ _)), (proj2 (Z.eqb_neq _ 0)), (proj2 (Z.ltb_ge 16 _)) by lia. done.
Qed.

(** ** The driver

    The host clears a stalled endpoint before it has been looked at [k] times. *)
Definition stall_polls (l : list Z) : list event :=
  concat ((fun a => [Ask q_IsStalled a; Cmd c_USBTask; Ask q_IsMassStoreReset 0]) <$> l).
Definition clears_stalls (h : hw) (k : nat) : Prop :=
  forall t l, valid h t (stall_polls l) -> Forall (fun a => a <> 0) l -> (length l < k)%nat.

Lemma clears_stalls_le h k k' : (k <= k')%nat -> clears_stalls h k -> clears_stalls h k'.
Proof. intros Hk H t l Hv Hl. specialize (H t l Hv Hl). lia. Qed.

Lemma stall_polls_snoc l a : stall_polls (l ++ [a]) = stall_polls l ++ [Ask q_IsStalled a; Cmd c_USBTask; Ask q_IsMassStoreReset 0].
Proof. unfold stall_polls. by rewrite fmap_app, concat_app. Qed.

Section driver.
Context (h : hw) (fuel : nat) (Hfuel : (40 <= fuel)%nat).
Context (HcoOUT : cooperative h c_ClearOUT) (HcoIN : cooperative h c_ClearIN) (Hnr : no_reset h).
Context (Hns : clears_stalls h fuel) (Hcf : configured h).

Lemma read_delivered buf b rest t :
  delivers h t (b ++ rest) -> Forall is_byte b -> (length b <= 16)%nat -> (length b <= length buf)%nat ->
  wp true h (repeat_stream fuel (Endpoint_Read_Stream_LE fuel) buf (Z.of_nat (length b)) (Some 0)) t (fun r s =>
    r = (true, b ++ drop (length b) buf) /\ received s = b /\ sent s = [] /\ Forall on_stream s /\ delivers h (t ++ s) rest).
Proof.
  intros Hd Hby H16 Hl.
  pose proof (repeat_read h fuel Hnr HcoOUT (Z.of_nat (length b)) ltac:(lia) ltac:(lia) fuel false buf 0 t ltac:(done) ltac:(lia)
    ltac:(lia) ltac:(cbv match; lia)) as H.
  eapply wp_mono; [apply wp_emits; [apply av_repeat; intros; apply av_read|apply wp_valid, H]|].
  intros r s (((-> & El & Es) & Hv) & Hoff).
  assert (received s = b) as Er.
  { apply list_eq_same_length with (length b); [lia|lia|]. intros j x y Hj Hx Hy.
    rewrite (delivered_nth _ _ _ _ _ _ Hv Hd Hx), app_nth1 by lia. rewrite (nth_lookup_Some _ _ _ _ Hy).
    apply u8_small. by eapply Forall_lookup_1 in Hby. }
  rewrite Er, Nat2Z.id. split_and!; try done. apply (delivers_shift h t b); [done|by rewrite Er].
Qed.

(** A valid command block is read. *)
Lemma read_command i b rest t :
  wf_ms i -> valid_command (TotalLUNs i) b -> Forall is_byte b -> delivers h t (b ++ rest) ->
  wp true h (MS_Device_ReadInCommandBlock fuel i) t (fun r s =>
    r = (true, with_command b i) /\ received s = b /\ sent s = [] /\ Forall off_chip s /\ delivers h (t ++ s) rest).
Proof.
  intros [Hl Hb] Hval Hby Hd. unfold MS_Device_ReadInCommandBlock. assert (Hval' := Hval). destruct Hval' as (_ & _ & _ & Hn & Hlen).
  assert (Forall is_byte (take 15 b)) as Hb1 by (by apply Forall_take).
  assert (Forall is_byte (drop 15 b)) as Hb2 by (by apply Forall_drop).
  assert (length (take 15 b) = 15%nat) as L1 by (rewrite length_take; lia).
  assert (length (drop 15 b) = Z.to_nat (cbw_SCSICommandLength b)) as L2 by (rewrite length_drop; lia).
  wp_step. wp_step. wp_step. wp_step.
  assert (delivers h (t ++ [Cmd (c_SelectEndpoint (Z.land (ep_Address (MS_DataOUTEndpoint i)) 15))]) (take 15 b ++ drop 15 b ++ rest)) as Hd1.
  { apply (delivers_shift h t []); [|done]. cbn. by rewrite app_assoc, take_drop. }
  pose proof (read_delivered (CommandBlock i) _ _ _ Hd1 Hb1 ltac:(lia) ltac:(lia)) as H1. rewrite L1 in H1.
  change (sizeof_MS_CommandBlockWrapper_t - 16) with (Z.of_nat 15). eapply wp_mono; [exact H1|]. clear H1.
  intros r s1 (-> & R1 & S1 & O1 & Hd2). cbv beta iota. cbn [negb].
  destruct (valid_not_invalid (set_CommandBlock (take 15 b ++ drop 15 (CommandBlock i)) i) b Hval) as [-> E].
  { cbn [CommandBlock set_CommandBlock]. by rewrite take_app_length'. }
  cbn [CommandBlock set_CommandBlock] in *. rewrite E. wp_step.
  pose proof (read_delivered (drop 15 (take 15 b ++ drop 15 (CommandBlock i))) _ _ _ Hd2 Hb2 ltac:(lia)
    ltac:(rewrite !length_drop, length_app, L1, length_drop; lia)) as H2. rewrite L2, Z2Nat.id in H2 by lia.
  eapply wp_mono; [exact H2|]. clear H2. intros r s2 (-> & R2 & S2 & O2 & Hd3). cbv beta iota. cbn [negb]. wp_step. wp_step. wp_step.
  rewrite !received_app, !sent_app, R1, S1, R2, S2. split_and!.
  - f_equal. unfold with_command, set_CommandBlock. cbn. f_equal.
    rewrite (take_app_length' (take 15 b)), (drop_app_length' (take 15 b)), drop_drop by done.
    rewrite app_assoc, take_drop. do 2 f_equal. lia.
  - cbn. by rewrite app_nil_r, take_drop.
  - done.
  - off.
  - rewrite app_nil_r, !app_assoc in *. by apply (delivers_shift _ _ []).
Qed.

Lemma unstalled_loop t : forall n l, valid h t (stall_polls l) -> Forall (fun a => a <> 0) l -> (fuel <= length l + n)%nat ->
  wp true h (wait_unstalled n) (t ++ stall_polls l) (fun go s => go = true /\ sent s = [] /\ received s = [] /\ Forall off_chip s).
Proof.
  induction n as [|n IH]; intros l Hv Hl Hn.
  { exfalso. specialize (Hns t l Hv Hl). lia. }
  cbn [wait_unstalled]. do 4 wp_step.
  - wp_step. split_and!; try done. off.
  - do 4 wp_step. rewrite Hnr in H1. rewrite <- H1. change (truthy 0) with false. cbv iota.
    rewrite <- !app_assoc.
    change ([Ask q_IsStalled a] ++ [Cmd c_USBTask] ++ [Ask q_IsMassStoreReset 0]) with [Ask q_IsStalled a; Cmd c_USBTask; Ask q_IsMassStoreReset 0].
    rewrite <- stall_polls_snoc.
    eapply wp_mono; [apply (IH (l ++ [a]))|].
    + rewrite stall_polls_snoc. apply valid_app. split; [done|]. cbn. rewrite <- !app_assoc in *. split_and!; done || by rewrite Hnr.
    + apply Forall_app. split; [done|]. by apply Forall_singleton, truthy_true.
    + rewrite length_app. cbn. lia.
    + intros go s (-> & Es & Er & Hs). rewrite !sent_app, !received_app, Es, Er. split_and!; try done. off.
Qed.

Lemma unstalled t : wp true h (wait_unstalled fuel) t (fun go s => go = true /\ sent s = [] /\ received s = [] /\ Forall off_chip s).
Proof. pose proof (unstalled_loop t fuel []) as H. rewrite app_nil_r in H. apply H; done || lia. Qed.

(** The status of a command is returned. *)
Lemma return_status i t :
  length (CommandStatus i) = 13%nat -> Forall is_byte (CommandStatus i) ->
  wp true h (MS_Device_ReturnCommandStatus fuel i) t (fun _ s => sent s = CommandStatus i /\ received s = [] /\ Forall off_chip s).
Proof.
  intros Hl Hby. unfold MS_Device_ReturnCommandStatus. wp_step. wp_step. wp_step.
  wp_step. eapply wp_mono; [apply unstalled|]. intros go s1 (-> & S1 & R1 & O1). cbn [negb]. wp_step. wp_step. wp_step.
  eapply wp_mono; [apply unstalled|]. intros go s2 (-> & S2 & R2 & O2). cbn [negb]. wp_step.
  pose proof (repeat_write h fuel Hnr HcoIN 13 (CommandStatus i) ltac:(lia) ltac:(lia) ltac:(lia) Hby fuel false 0) as H.
  eapply wp_mono; [apply wp_emits; [apply av_repeat; intros; apply av_write|apply H; [done|lia|cbv match; lia]]|].
  intros r s3 ((-> & S3 & R3) & O3). cbv beta iota. cbn [negb]. wp_step.
  rewrite !sent_app, !received_app, S1, S2, S3, R1, R2, R3. cbn. rewrite app_nil_r, drop_0, take_ge by lia.
  split_and!; try done. off.
Qed.

Lemma command_status_ok b ok : Forall is_byte b -> (12 <= length b)%nat ->
  length (command_status b ok) = 13%nat /\ Forall is_byte (command_status b ok).
Proof.
  intros Hb Hl. unfold command_status. split.
  - rewrite !length_app, length_le_bytes. unfold slice. rewrite !length_take, !length_drop. cbn. lia.
  - repeat apply Forall_app_2; [apply le_bytes_ok|by apply Forall_slice|by apply Forall_slice|]. by destruct ok; repeat constructor.
Qed.

(** *** A command from block to status *)

Section command.
Context {A : Type} `{!MSApplication A}.

Lemma process_ok i a b rest t (Phi : bool * USB_ClassInfo_MS_Device_t * A -> list event -> Prop) :
  wf_ms i -> valid_command (TotalLUNs i) b -> Forall is_byte b -> delivers h t (b ++ rest) ->
  (forall s1, received s1 = b -> sent s1 = [] -> Forall off_chip s1 -> delivers h (t ++ s1) rest ->
     wp true h (CALLBACK_MS_Device_SCSICommandReceived (with_command b i) a) (t ++ s1)
       (fun r s => wf_ms r.1.2 /\ Phi r s)) ->
  wp true h (process_command fuel i a) t (fun r s => exists ok i2 s1 s2 s3,
    s = s1 ++ s2 ++ s3 /\ received s1 = b /\ sent s1 = [] /\ Forall off_chip s1 /\
    Phi (ok, i2, snd r) s2 /\ fst r = set_CommandStatus (command_status (CommandBlock i2) ok) i2 /\
    sent s3 = command_status (CommandBlock i2) ok /\ received s3 = [] /\ Forall off_chip s3).
Proof.
  intros Hwf Hval Hby Hd Hcb. unfold process_command. wp_step.
  eapply wp_mono; [by apply (read_command i b rest)|]. intros r s1 (-> & R1 & S1 & O1 & Hd1). cbv beta iota. cbn [negb].
  wp_step. set (sel := if truthy _ then _ else _).
  assert (wp true h sel (t ++ s1) (fun _ s => received s = [] /\ sent s = [] /\ Forall off_chip s)) as Hsel.
  { unfold sel. destruct (truthy _); repeat wp_step; split_and!; try done; off. }
  eapply wp_mono; [exact Hsel|]. intros [] s2 (R2 & S2 & O2). rewrite <- app_assoc. wp_step.
  eapply wp_mono; [apply (Hcb (s1 ++ s2))|].
  { by rewrite received_app, R1, R2, app_nil_r. } { by rewrite sent_app, S1, S2. } { off. }
  { rewrite app_assoc. by apply (delivers_shift h _ []); [|by rewrite R2]. }
  intros [[ok i2] a2] s3 [[Hl2 Hb2] HPhi]. cbn [fst snd] in *. cbv beta iota zeta.
  destruct (command_status_ok (CommandBlock i2) ok Hb2 ltac:(lia)) as [Lc Bc].
  wp_step. set (st := if _ : bool then _ else _).
  assert (forall t, wp true h st t (fun _ s => received s = [] /\ sent s = [] /\ Forall off_chip s)) as Hst.
  { intros t1. unfold st. destruct (_ && _); repeat wp_step; split_and!; try done; off. }
  eapply wp_mono; [apply Hst|]. intros [] s4 (R4 & S4 & O4). wp_step.
  eapply wp_mono; [apply return_status; done|]. intros [] s5 (S5 & R5 & O5). wp_step.
  exists ok, i2, (s1 ++ s2), s3, (s4 ++ s5). cbn [fst snd] in *.
  rewrite !received_app, !sent_app, R1, R2, R4, R5, S1, S2, S4, S5, !app_nil_r, !app_assoc. split_and!; try done; off.
Qed.

(** The start of the task, when there is a packet: the events before the command. *)
Definition task_start (i : USB_ClassInfo_MS_Device_t) (v : Z) : list event :=
  [Ask q_DeviceState DEVICE_STATE_Configured; Cmd (c_SelectEndpoint (Z.land (ep_Address (MS_DataOUTEndpoint i)) 15)); Ask q_IsOUTReceived v].

Lemma task_command i a t Q :
  (forall v, wp true h (process_command fuel i a) (t ++ task_start i v) (fun r s =>
     Q r (task_start i v ++ s ++ [Ask q_IsMassStoreReset 0]))) ->
  wp true h (MS_Device_USBTask fuel i a) t Q.
Proof.
  intros HQ. unfold MS_Device_USBTask. wp_step. wp_step. wp_step. rewrite Hcf in H. subst.
  change (negb (u8 DEVICE_STATE_Configured =? DEVICE_STATE_Configured)) with false. cbv iota.
  do 4 wp_step. pose proof (proj2 (proj1 HcoOUT (t ++ [Ask q_DeviceState DEVICE_STATE_Configured] ++
    [Cmd (c_SelectEndpoint (Z.land (ep_Address (MS_DataOUTEndpoint i)) 15))]))) as Ho.
  rewrite app_assoc in Ho. rewrite H in Ho. replace (truthy a0) with true by (symmetry; unfold truthy; by apply negb_true_iff, Z.eqb_neq).
  wp_step. rewrite <- !app_assoc. eapply wp_mono; [apply (HQ a0)|].
  intros [i3 a3] s4 HQ4. cbv beta iota. wp_step. wp_step. rewrite Hnr in H0. rewrite <- H0. change (truthy 0) with false. cbv iota.
  repeat wp_step. exact HQ4.
Qed.

Lemma task_ok i a b rest t (Phi : bool * USB_ClassInfo_MS_Device_t * A -> list event -> Prop) :
  wf_ms i -> valid_command (TotalLUNs i) b -> Forall is_byte b -> delivers h t (b ++ rest) ->
  (forall s1, received s1 = b -> sent s1 = [] -> Forall off_chip s1 -> delivers h (t ++ s1) rest ->
     wp true h (CALLBACK_MS_Device_SCSICommandReceived (with_command b i) a) (t ++ s1)
       (fun r s => wf_ms r.1.2 /\ Phi r s)) ->
  wp true h (MS_Device_USBTask fuel i a) t (fun r s => exists ok i2 s1 s2 s3,
    s = s1 ++ s2 ++ s3 /\ received s1 = b /\ sent s1 = [] /\ Forall off_chip s1 /\
    Phi (ok, i2, snd r) s2 /\ fst r = set_CommandStatus (command_status (CommandBlock i2) ok) i2 /\
    sent s3 = command_status (CommandBlock i2) ok /\ received s3 = [] /\ Forall off_chip s3).
Proof.
  intros Hwf Hval Hby Hd Hcb. apply task_command. intros v. set (s0 := task_start i v).
  assert (received s0 = [] /\ sent s0 = [] /\ Forall off_chip s0) as (R0 & S0 & O0) by (split_and!; try done; off).
  eapply wp_mono; [apply (process_ok i a b rest (t ++ s0) Phi); try done|].
  { by apply (delivers_shift h _ []); [|by rewrite R0]. }
  { intros s1 R1 S1 O1 Hd1. rewrite <- app_assoc in *. apply Hcb; [by rewrite received_app, R0|by rewrite sent_app, S0|off|done]. }
  intros r s4 (ok & i2 & s1 & s2 & s3 & -> & R1 & S1 & O1 & HP & Ei & S3 & R3 & O3).
  exists ok, i2, (s0 ++ s1), s2, (s3 ++ [Ask q_IsMassStoreReset 0]). rewrite !received_app, !sent_app, R0, S0, R1, S1, S3, R3, !app_nil_r.
  split_and!; try done; try off. by rewrite <- !app_assoc.
Qed.

Lemma invalid_ok i a b rest t :
  wf_ms i -> length b = 15%nat -> Forall is_byte b -> invalid_command_block (with_command b i) = true -> delivers h t (b ++ rest) ->
  wp true h (process_command fuel i a) t (fun r s => r = (with_command b i, a) /\ received s = b /\ sent s = [] /\
    exists s1, s = Cmd (c_SelectEndpoint (Z.land (ep_Address (MS_DataOUTEndpoint i)) 15)) :: s1 ++
      [Cmd c_StallTransaction; Cmd (c_SelectEndpoint (Z.land (ep_Address (MS_DataINEndpoint i)) 15)); Cmd c_StallTransaction] /\
      Forall on_stream s1).
Proof.
  intros [Hl Hb] L15 Hby Hinv Hd. unfold process_command, MS_Device_ReadInCommandBlock. do 5 wp_step.
  assert (delivers h (t ++ [Cmd (c_SelectEndpoint (Z.land (ep_Address (MS_DataOUTEndpoint i)) 15))]) (b ++ rest)) as Hd1
    by (by apply (delivers_shift h t [])).
  pose proof (read_delivered (CommandBlock i) _ _ _ Hd1 Hby ltac:(lia) ltac:(lia)) as H1. rewrite L15 in H1.
  change (sizeof_MS_CommandBlockWrapper_t - 16) with (Z.of_nat 15). eapply wp_mono; [exact H1|]. clear H1.
  intros r s1 (-> & R1 & S1 & O1 & _). cbv beta iota. cbn [negb]. rewrite <- L15. fold (with_command b i). rewrite Hinv.
  do 7 wp_step. cbn [negb]. wp_step. rewrite !received_app, !sent_app, R1, S1. cbn. rewrite !app_nil_r.
  split_and!; [done..|]. exists s1. done.
Qed.
End command.
End driver.

(** C40: a command block with a wrong signature, an unknown logical unit, reserved flags or
    a command length outside 1 to 16 is not passed on: the task stalls the OUT endpoint
    and then the IN endpoint, sends no status, and the application keeps its state.
    Holds for every application behind the driver. *)
Theorem invalid_command_stalled {A} `{!MSApplication A} h fuel i (a : A) b rest t ep :
  (40 <= fuel)%nat -> cooperative h c_ClearOUT -> no_reset h -> configured h -> wf_ms i ->
  length b = 15%nat -> Forall is_byte b -> invalid_command_block (with_command b i) = true -> delivers h t (b ++ rest) ->
  wp true h (MS_Device_USBTask fuel i a) t (fun r s =>
    r = (with_command b i, a) /\ received s = b /\ sent s = [] /\
    stalls ep s = [Z.land (ep_Address (MS_DataOUTEndpoint i)) 15; Z.land (ep_Address (MS_DataINEndpoint i)) 15]).
Proof.
  intros Hf Hco Hnr Hcf Hwf L15 Hby Hinv Hd. apply (task_command h fuel Hco Hnr Hcf). intros v.
  eapply wp_mono; [apply (invalid_ok h fuel Hf Hco Hnr i a b rest (t ++ task_start i v)); try done|].
  { by apply (delivers_shift h _ []). }
  intros r s (-> & R & S & s1 & Es & O1). rewrite !received_app, !sent_app, R, S. cbn. rewrite app_nil_r.
  split_and!; [done..|]. rewrite Es. cbn. rewrite <- app_assoc, stalls_on_stream by done. done.
Qed.
