(* ===== verification/SCSISpec.v ===== *)
(** * The mass storage demo: blocks from the host to the chips and back

    READ (10) and WRITE (10) commands through the class driver, the SCSI command
    decoder and the Dataflash manager. *)
From S2P Require Import Prelude ConfigDescriptors USBIo Endpoint EndpointSpec Quiet DeviceRequests HIDDevice NetBuffers NetLemmas EndianSpec Dataflash DataflashChip DataflashSpec DataflashDisk MassStorage SCSI MassStorageSpec.

(** Numbers as SCSI has them. *)
Definition be_bytes (n : nat) (v : Z) : list Z := reverse (le_bytes n v).

(** The command block of a READ (10) or WRITE (10) command: [n] blocks from [B] on;
    [len] is the transfer length the host announces. *)
Definition block_command (op flags tag len lun B n : Z) : list Z :=
  le_bytes 4 MS_CBW_SIGNATURE ++ le_bytes 4 tag ++ le_bytes 4 len ++ [flags; lun; 10] ++
  [op; 0] ++ be_bytes 4 B ++ [0] ++ be_bytes 2 n ++ [0].

(** The answer to it. *)
Definition passed (tag residue : Z) : list Z :=
  le_bytes 4 MS_CSW_SIGNATURE ++ le_bytes 4 tag ++ le_bytes 4 residue ++ [MS_SCSI_COMMAND_Pass].

(** The answer to a command that failed: the whole length is left. *)
Definition failed (tag len : Z) : list Z :=
  le_bytes 4 MS_CSW_SIGNATURE ++ le_bytes 4 tag ++ le_bytes 4 len ++ [MS_SCSI_COMMAND_Fail].

Lemma be_value4 v : 0 <= v < 2 ^ 32 -> SwapEndian_32 (le_val (be_bytes 4 v)) = v.
Proof.
  intros Hv. rewrite SwapEndian_32_eq; unfold be_bytes; cbn -[Z.mul Z.add Z.div Z.modulo Z.pow].
  - change (2 ^ 24) with 16777216. change (2 ^ 16) with 65536. change (2 ^ 8) with 256. change (2 ^ 0) with 1.
    change (2 ^ 32) with 4294967296 in Hv. zdm.
  - change (2 ^ 32) with 4294967296 in *. zdm.
Qed.

Lemma be_value2 v : 0 <= v < 65536 -> SwapEndian_16 (le_val (be_bytes 2 v)) = v.
Proof.
  intros Hv. unfold be_bytes. cbn -[Z.mul Z.add Z.div Z.modulo SwapEndian_16].
  change (SwapEndian_16 (le_val [v / 256 mod 256; v mod 256]) = v). rewrite SwapEndian_16_be by (unfold byte_ok; zdm). zdm.
Qed.

Lemma be_bytes_ok n v : Forall is_byte (be_bytes n v).
Proof. apply Forall_reverse, le_bytes_ok. Qed.

Lemma length_block_command op flags tag len lun B n : length (block_command op flags tag len lun B n) = 25%nat.
Proof. done. Qed.

Lemma block_command_bytes op flags tag len lun B n :
  is_byte op -> is_byte flags -> is_byte lun -> Forall is_byte (block_command op flags tag len lun B n).
Proof.
  intros. unfold block_command. rewrite !Forall_app, !Forall_cons, !Forall_nil.
  split_and!; try apply be_bytes_ok; try apply le_bytes_ok; done.
Qed.

Lemma block_command_valid op flags tag len lun B n luns :
  0 <= lun < luns -> Z.land flags 0x1F = 0 -> valid_command luns (block_command op flags tag len lun B n).
Proof.
  intros Hl Hf. unfold valid_command, cbw_LUN, cbw_Flags, cbw_SCSICommandLength.
  change (le_val (slice 12 1 (block_command op flags tag len lun B n))) with (flags + 256 * 0).
  change (le_val (slice 13 1 (block_command op flags tag len lun B n))) with (lun + 256 * 0).
  change (le_val (slice 14 1 (block_command op flags tag len lun B n))) with 10.
  rewrite !Z.mul_0_r, !Z.add_0_r. split_and!; try lia; done.
Qed.

(** The fields of a command that has been read. *)
Section fields.
Context (op flags tag len lun B n : Z) (i : USB_ClassInfo_MS_Device_t) (Hwf : wf_ms i).
Context (Hop : is_byte op) (Hfl : is_byte flags) (Hlun : is_byte lun) (HB : 0 <= B < 2 ^ 32) (Hn : 0 <= n < 65536) (Hlen : 0 <= len < 2 ^ 32).
Abbreviation i1 := (with_command (block_command op flags tag len lun B n) i).

Lemma field_op : cdb_byte 0 i1 = op.
Proof. change (cdb_byte 0 i1) with (op + 256 * 0). lia. Qed.
Lemma field_address : cdb_u32 2 i1 = B.
Proof. rewrite <- (be_value4 B HB) at 2. reflexivity. Qed.
Lemma field_blocks : cdb_u16 7 i1 = n.
Proof. rewrite <- (be_value2 n Hn) at 2. reflexivity. Qed.
Lemma field_length : cbw_DataTransferLength (CommandBlock i1) = len.
Proof.
  transitivity (le_val (le_bytes 4 len)); [reflexivity|]. rewrite le_val_bytes. apply Z.mod_small. done.
Qed.

Lemma wf_command : wf_ms i1.
Proof.
  destruct Hwf as [Hl Hb]. split; cbn [CommandBlock with_command set_CommandBlock].
  - rewrite length_app, length_drop, length_block_command, Hl. done.
  - apply Forall_app_2; [by apply block_command_bytes|by apply Forall_drop].
Qed.

Lemma wf_transferred m : wf_ms (transferred m i1).
Proof.
  destruct wf_command as [Hl Hb]. unfold transferred, set_DataTransferLength. split; cbn [CommandBlock set_CommandBlock].
  - unfold splice. by rewrite length_inserts.
  - apply Forall_splice; [done|apply le_bytes_ok].
Qed.

Lemma passed_status m : command_status (CommandBlock (transferred m i1)) true = passed tag (u32 (len - m)).
Proof.
  unfold transferred. rewrite field_length. unfold set_DataTransferLength, command_status, passed. cbn [CommandBlock set_CommandBlock].
  do 3 f_equal.
Qed.
End fields.

(** ** The demo

    The chips answer, the host keeps up, clears stalled endpoints and does not reset
    the interface. *)
Record disk_host (h : hw) (f0 : flash) (k : nat) : Prop := {
    dh_attached : attached h f0 k;
    dh_out : cooperative h c_ClearOUT;
    dh_in : cooperative h c_ClearIN;
    dh_no_reset : no_reset h;
    dh_stalls : clears_stalls h k;
    dh_configured : configured h
  }.

(** The disk is [d]. *)
Definition same_as (d : Z -> Z) (f : flash) : Prop := forall a, 0 <= a < disk_size -> disk f a = d a.

(** The sense data after a command that passed. *)
Definition good_sense (s : list Z) : list Z :=
  SCSI_SET_SENSE SCSI_SENSE_KEY_GOOD SCSI_ASENSE_NO_ADDITIONAL_INFORMATION SCSI_ASENSEQ_NO_QUALIFIER s.

(** The callback of a command with a wrong address. *)
Lemma refused_spec h fuel (read : bool) flags tag len lun B n i sense t :
  let op := if read then SCSI_CMD_READ_10 else SCSI_CMD_WRITE_10 in
  let i1 := with_command (block_command op flags tag len lun B n) i in
  VIRTUAL_MEMORY_BLOCKS <= B < 2 ^ 32 ->
  wp true h (SCSICommandReceived fuel i1 sense) t (fun r s =>
    r = (false, i1, SCSI_SET_SENSE SCSI_SENSE_KEY_ILLEGAL_REQUEST SCSI_ASENSE_LOGICAL_BLOCK_ADDRESS_OUT_OF_RANGE SCSI_ASENSEQ_NO_QUALIFIER sense) /\
    sent s = [] /\ received s = [] /\ Forall off_chip s).
Proof.
  intros op i1 HB. rewrite blocks_eq in HB.
  assert (decode_command fuel i1 sense = SCSI_Command_ReadWrite_10 fuel read i1 sense) as Edec.
  { unfold decode_command. replace (cdb_byte 0 i1) with op by (symmetry; apply field_op). by destruct read. }
  unfold SCSICommandReceived, SCSI_DecodeSCSICommand. rewrite Edec. unfold SCSI_Command_ReadWrite_10.
  change DISK_READ_ONLY with false. replace (cdb_u32 2 i1) with B by (symmetry; apply field_address; lia).
  rewrite andb_false_r, (proj2 (Z.leb_le _ _)) by (change LUN_MEDIA_BLOCKS with 32768; lia). cbv zeta iota.
  repeat wp_step. split_and!; try done. off.
Qed.

Section demo.
Context (h : hw) (f0 : flash) (k fuel : nat) (Hh : disk_host h f0 k) (Hk : (k <= fuel)%nat) (H40 : (40 <= fuel)%nat).
Abbreviation now := (now f0).

Lemma demo_ready : host_ready h.
Proof. split; [apply (dh_out _ _ _ Hh)|apply (dh_no_reset _ _ _ Hh)]. Qed.

Lemma now_off_chip t s : Forall off_chip s -> now (t ++ s) = now t.
Proof. intros Hs. unfold DataflashSpec.now. by rewrite run_app, run_off_chip. Qed.

(** The callback of a READ (10) or WRITE (10) command moves the blocks of the command
    and passes. *)
Lemma block_transfer (read : bool) flags tag len lun B n i sense t (Psi : flash -> list event -> Prop) :
  let op := if read then SCSI_CMD_READ_10 else SCSI_CMD_WRITE_10 in
  let i1 := with_command (block_command op flags tag len lun B n) i in
  blocks_ok B n -> n < 65536 ->
  (forall t', now t' = now t ->
     (forall L, delivers h t L -> delivers h t' L) ->
     wp true h (if read then DataflashManager_ReadBlocks fuel B n else DataflashManager_WriteBlocks fuel B n) t'
     (fun _ s => Psi (now (t' ++ s)) s)) ->
  wp true h (SCSICommandReceived fuel i1 sense) t (fun r s =>
    r = (true, transferred (n * 512) i1, good_sense sense) /\
    exists s', sent s = sent s' /\ received s = received s' /\ Psi (now (t ++ s)) s').
Proof.
  intros op i1 Hbl Hn Hm. pose proof Hbl as (HB & Hn0 & _). rewrite blocks_eq in HB.
  assert (cdb_byte 0 i1 = op) as Eop by apply field_op.
  assert (cdb_u32 2 i1 = B) as EB by (apply field_address; lia). assert (cdb_u16 7 i1 = n) as En by (apply field_blocks; lia).
  assert (decode_command fuel i1 sense = SCSI_Command_ReadWrite_10 fuel read i1 sense) as Edec.
  { unfold decode_command. rewrite Eop. by destruct read. }
  unfold SCSICommandReceived, SCSI_DecodeSCSICommand. rewrite Edec. unfold SCSI_Command_ReadWrite_10.
  change DISK_READ_ONLY with false. rewrite andb_false_r, EB, En, (proj2 (Z.leb_gt _ _)).
  2:{ change LUN_MEDIA_BLOCKS with 32768. lia. }
  change (1 <? TOTAL_LUNS) with false. change VIRTUAL_MEMORY_BLOCK_SIZE with 512. cbv iota zeta.
  assert (u32 (n * 512) = n * 512) as -> by (unfold wrap; apply Z.mod_small; change (2 ^ 32) with 4294967296; lia).
  do 6 wp_step. eapply wp_mono; [apply Hm|].
  - by rewrite now_off_chip by off.
  - intros L HL. by apply (delivers_shift h _ []).
  - intros [] s HPsi. repeat wp_step. split; [done|]. exists s. rewrite !sent_app, !received_app. cbn. rewrite !app_nil_r.
    split_and!; [done..|]. rewrite cons_middle, !app_assoc. rewrite now_off_chip by off. done.
Qed.

(** One command through the driver: [Psi] is what the transfer of its blocks does. *)
Lemma block_command_task (read : bool) flags tag len B n i sense rest t (Psi : flash -> list event -> Prop) :
  let op := if read then SCSI_CMD_READ_10 else SCSI_CMD_WRITE_10 in
  wf_ms i -> TotalLUNs i = TOTAL_LUNS -> is_byte flags -> Z.land flags 0x1F = 0 -> 0 <= len < 2 ^ 32 ->
  blocks_ok B n -> n < 65536 -> delivers h t (block_command op flags tag len 0 B n ++ rest) ->
  (forall t', now t' = now t -> delivers h t' rest ->
     wp true h (if read then DataflashManager_ReadBlocks fuel B n else DataflashManager_WriteBlocks fuel B n) t'
     (fun _ s => Psi (now (t' ++ s)) s)) ->
  let i1 := transferred (n * 512) (with_command (block_command op flags tag len 0 B n) i) in
  wp true h (main_pass fuel i sense) t (fun r s => exists s',
    r = (set_CommandStatus (passed tag (u32 (len - n * 512))) i1, good_sense sense) /\
    sent s = sent s' ++ passed tag (u32 (len - n * 512)) /\ Psi (now (t ++ s)) s').
Proof.
  intros op Hwf Hlu Hfl Hf5 Hlen Hbl Hn Hd Hm i1. set (b := block_command op flags tag len 0 B n).
  assert (is_byte op) as Hop by (by unfold op; destruct read).
  assert (Forall is_byte b) as Hby by (by apply block_command_bytes).
  assert (valid_command (TotalLUNs i) b) as Hval by (rewrite Hlu; by apply block_command_valid).
  unfold main_pass. wp_step. eapply wp_mono; [apply (task_ok h fuel H40 (dh_out _ _ _ Hh) (dh_in _ _ _ Hh) (dh_no_reset _ _ _ Hh) (clears_stalls_le _ _ _ Hk (dh_stalls _ _ _ Hh))
    (dh_configured _ _ _ Hh) i sense b rest t (fun r s => r = (true, i1, good_sense sense) /\
      exists s1 s', Forall off_chip s1 /\ sent s = sent s' /\ Psi (now (t ++ s1 ++ s)) s') Hwf Hval Hby Hd)|].
  - intros s1 R1 S1 O1 Hd1. eapply wp_mono; [apply (block_transfer read flags tag len 0 B n i sense (t ++ s1) Psi Hbl Hn)|].
    + intros t' Et Hdt. apply Hm; [by rewrite Et, now_off_chip|by apply Hdt].
    + intros r s (-> & s' & Es & Er & HP). cbn [fst snd]. split; [by apply wf_transferred|]. split; [done|].
      exists s1, s'. by rewrite app_assoc.
  - intros [i3 a3] s (ok & i2 & s1 & s2 & s3 & -> & R1 & S1 & O1 & ([= -> -> Er] & s1' & s' & O1' & Es & HP) & Ei & S3 & R3 & O3).
    cbn [fst snd] in *. repeat wp_step.
    exists s'. unfold i1 in Ei, S3. rewrite passed_status in Ei, S3 by done. subst.
    rewrite !sent_app, S1, S3, Es. split_and!; [done|by rewrite app_nil_r|].
    rewrite app_nil_r.
    enough (now (t ++ (s1 ++ s2 ++ s3) ++ [Cmd c_USBTask]) = now (t ++ s1' ++ s2)) as -> by done.
    rewrite !app_assoc. rewrite now_off_chip by off. rewrite now_off_chip by done.
    by rewrite !now_app, (run_off_chip s1), (run_off_chip s1').
Qed.
(** The two commands, from their parts. *)
Lemma write10_pass i sense tag len B n data t :
  wf_ms i -> TotalLUNs i = TOTAL_LUNS -> 0 <= len < 2 ^ 32 ->
  blocks_ok B n -> n < 65536 -> Z.of_nat (length data) = n * 512 -> Forall is_byte data ->
  idle_flash (now t) -> delivers h t (block_command SCSI_CMD_WRITE_10 0 tag len 0 B n ++ data) ->
  wp true h (main_pass fuel i sense) t (fun r s =>
    same_as (overwritten (disk (now t)) (B * 512) data) (now (t ++ s)) /\
    sent s = passed tag (u32 (len - n * 512)) /\ snd r = good_sense sense).
Proof.
  intros Hwf Hlu Hlen Hbl Hn Hl Hby Hidle Hd.
  eapply wp_mono; [apply (block_command_task false 0 tag len B n i sense data t
    (fun f s => written (disk (now t)) (B * 512) data f /\ sent s = [])); try done|].
  - intros t' Et Hd'. eapply wp_mono; [apply (endpoint_written h f0 k (dh_attached _ _ _ Hh) fuel Hk demo_ready ltac:(lia)
      B n data t'); rewrite ?Et; done|].
    intros [] s (Hw & Es & _). by rewrite Et in Hw.
  - intros r s (s' & -> & -> & [_ Hw] & ->). done.
Qed.

Lemma read10_pass i sense tag len B n t :
  wf_ms i -> TotalLUNs i = TOTAL_LUNS -> 0 <= len < 2 ^ 32 ->
  blocks_ok B n -> n < 65536 -> (forall a, B * 512 <= a < B * 512 + n * 512 -> is_byte (disk (now t) a)) ->
  idle_flash (now t) -> delivers h t (block_command SCSI_CMD_READ_10 MS_COMMAND_DIR_DATA_IN tag len 0 B n) ->
  wp true h (main_pass fuel i sense) t (fun r s =>
    sent s = disk_bytes (disk (now t)) (B * 512) (Z.to_nat (n * 512)) ++ passed tag (u32 (len - n * 512)) /\
    same_as (disk (now t)) (now (t ++ s)) /\ snd r = good_sense sense).
Proof.
  intros Hwf Hlu Hlen Hbl Hn Hby (Hs & Hb1 & Hb2) Hd.
  eapply wp_mono; [apply (block_command_task true MS_COMMAND_DIR_DATA_IN tag len B n i sense [] t
    (fun f s => same_as (disk (now t)) f /\ sent s = disk_bytes (disk (now t)) (B * 512) (Z.to_nat (n * 512)))); try done|].
  - intros t' Et Hd'. eapply wp_mono; [apply (endpoint_read h f0 k (dh_attached _ _ _ Hh) fuel Hk demo_ready ltac:(lia)
      B n (disk (now t)) t'); rewrite ?Et; done|].
    intros [] s ((Hh' & _) & Es & _). split; [|done]. exact (proj2 (proj2 Hh')).
  - intros r s (s' & -> & -> & Hw & ->). done.
Qed.
End demo.

(** A WRITE (10) command stores the data the host sends: one pass of the main loop
    reads the command block, writes the blocks to the chips, at the addresses of the
    command and nowhere else, and returns a status block that passes the command, with
    the host's tag and the residue of the transfer length. *)
Theorem write10_stored h f0 k fuel i sense tag len B n data t :
  disk_host h f0 k -> (k <= fuel)%nat -> (40 <= fuel)%nat ->
  wf_ms i -> TotalLUNs i = TOTAL_LUNS -> 0 <= len < 2 ^ 32 ->
  blocks_ok B n -> n < 65536 -> Z.of_nat (length data) = n * 512 -> Forall is_byte data ->
  idle_flash (now f0 t) -> delivers h t (block_command SCSI_CMD_WRITE_10 0 tag len 0 B n ++ data) ->
  wp true h (main_pass fuel i sense) t (fun r s =>
    same_as (overwritten (disk (now f0 t)) (B * 512) data) (now f0 (t ++ s)) /\
    sent s = passed tag (u32 (len - n * 512)) /\ snd r = good_sense sense).
Proof. intros. by eapply write10_pass. Qed.

(** A READ (10) command returns the blocks of the command: one pass of the main
    loop sends the bytes of the disk at its addresses, then the status block, and leaves
    the disk as it was. *)
Theorem read10_returned h f0 k fuel i sense tag len B n t :
  disk_host h f0 k -> (k <= fuel)%nat -> (40 <= fuel)%nat ->
  wf_ms i -> TotalLUNs i = TOTAL_LUNS -> 0 <= len < 2 ^ 32 ->
  blocks_ok B n -> n < 65536 -> (forall a, B * 512 <= a < B * 512 + n * 512 -> is_byte (disk (now f0 t) a)) ->
  idle_flash (now f0 t) -> delivers h t (block_command SCSI_CMD_READ_10 MS_COMMAND_DIR_DATA_IN tag len 0 B n) ->
  wp true h (main_pass fuel i sense) t (fun r s =>
    sent s = disk_bytes (disk (now f0 t)) (B * 512) (Z.to_nat (n * 512)) ++ passed tag (u32 (len - n * 512)) /\
    same_as (disk (now f0 t)) (now f0 (t ++ s)) /\ snd r = good_sense sense).
Proof. intros. by eapply read10_pass. Qed.

(** A READ (10) or WRITE (10) command whose first block is not on the disk fails: the
    status block says so, with the transfer length as the residue, no data is sent, the
    chips do not see the command, and the sense data name the reason. *)
Theorem out_of_range_refused h f0 k fuel (read : bool) i sense flags tag len B n rest t :
  let op := if read then SCSI_CMD_READ_10 else SCSI_CMD_WRITE_10 in
  disk_host h f0 k -> (k <= fuel)%nat -> (40 <= fuel)%nat -> wf_ms i -> TotalLUNs i = TOTAL_LUNS -> is_byte flags -> Z.land flags 0x1F = 0 ->
  VIRTUAL_MEMORY_BLOCKS <= B < 2 ^ 32 -> delivers h t (block_command op flags tag len 0 B n ++ rest) ->
  wp true h (main_pass fuel i sense) t (fun r s =>
    sent s = failed tag len /\ received s = block_command op flags tag len 0 B n /\ now f0 (t ++ s) = now f0 t /\
    snd r = SCSI_SET_SENSE SCSI_SENSE_KEY_ILLEGAL_REQUEST SCSI_ASENSE_LOGICAL_BLOCK_ADDRESS_OUT_OF_RANGE SCSI_ASENSEQ_NO_QUALIFIER sense).
Proof.
  intros op Hh Hk H40 Hwf Hlu Hfl Hf5 HB Hd. set (b := block_command op flags tag len 0 B n).
  assert (is_byte op) as Hop by (by unfold op; destruct read).
  assert (valid_command (TotalLUNs i) b) as Hval by (rewrite Hlu; by apply block_command_valid).
  unfold main_pass. wp_step. eapply wp_mono; [apply (task_ok h fuel H40 (dh_out _ _ _ Hh) (dh_in _ _ _ Hh) (dh_no_reset _ _ _ Hh)
    (clears_stalls_le _ _ _ Hk (dh_stalls _ _ _ Hh)) (dh_configured _ _ _ Hh) i sense b rest t (fun r s => r = (false, with_command b i, SCSI_SET_SENSE
      SCSI_SENSE_KEY_ILLEGAL_REQUEST SCSI_ASENSE_LOGICAL_BLOCK_ADDRESS_OUT_OF_RANGE SCSI_ASENSEQ_NO_QUALIFIER sense) /\
      sent s = [] /\ received s = [] /\ Forall off_chip s) Hwf Hval (block_command_bytes op flags tag len 0 B n Hop Hfl ltac:(unfold is_byte; lia)) Hd)|].
  - intros s1 _ _ _ _. eapply wp_mono; [apply (refused_spec h fuel read flags tag len 0 B n i sense _ HB)|].
    intros r s (-> & ?). split; [by apply wf_command|done].
  - intros [i3 a3] s (ok & i2 & s1 & s2 & s3 & -> & R1 & S1 & O1 & ([= -> -> ->] & S2 & R2 & O2) & Ei & S3 & R3 & O3).
    repeat wp_step. rewrite app_nil_r, !sent_app, !received_app, S1, S2, S3, R1, R2, R3. cbn [app sent received omap list_omap snd]. rewrite !app_nil_r.
    split_and!; [done..| |done]. apply now_off_chip. off.
Qed.
