(* ===== verification/DiskWitness.v ===== *)
(** * Witnesses for the mass storage demo

    A board with two blank chips that are always ready, and a host that sends given
    bytes: the hypotheses of the properties of the disk can hold together. *)
From S2P Require Import Prelude ConfigDescriptors USBIo Endpoint EndpointSpec Quiet DeviceRequests HIDDevice NetBuffers NetLemmas Dataflash DataflashChip DataflashSpec DataflashDisk MassStorage SCSI MassStorageSpec SCSISpec.

Definition blank : chip := mk_chip (fun _ _ => 255) (fun _ _ => 0) None Opcode None.
Definition board : flash := mk_flash DATAFLASH_CHIPCS_MASK blank blank.

Definition disk_hw (data : list Z) : hw := fun t q =>
  match q with
  | q_PORTE => port (run board t)
  | q_SPDR => match shifted_out (run board t) with Some v => v | None => DF_STATUS_READY end
  | q_Read_8 => nth (length (received t)) data 0
  | q_DeviceState => DEVICE_STATE_Configured
  | q_IsMassStoreReset | q_IsStalled => 0
  | _ => 1
  end.

Lemma status_ready f : in_status f -> shifted_out (run f [Cmd (c_SPI_Transfer 0)]) = None.
Proof.
  intros (i & Ei & Ec). cbn. unfold on_selected, shifted_out. rewrite Ei. unfold shift. rewrite Ec.
  destruct f as [p c1 c2], i; cbn in *; by rewrite Ei.
Qed.

Lemma disk_hw_attached data : attached (disk_hw data) board 1.
Proof.
  split; [done| |].
  - intros t v E. cbn. by rewrite E.
  - intros t [|a l] Hs Hv Hl; [cbn; lia|]. destruct Hv as (_ & Ha & _). inversion_clear Hl as [|? ? Hn]. cbn in Ha.
    rewrite run_app, status_ready in Ha by done. by subst a.
Qed.

Lemma disk_hw_host data : disk_host (disk_hw data) board 1.
Proof.
  split; [apply disk_hw_attached|by split|by split|done| |done].
  intros t [|a l] Hv Hl; [cbn; lia|]. destruct Hv as (Ha & _). inversion_clear Hl as [|? ? Hn]. cbn in Ha. by subst.
Qed.

Lemma disk_hw_delivers data : delivers (disk_hw data) [] data.
Proof. by intros s. Qed.

(** Two blocks, from the second block of the disk on: the end of the first page and
    the start of the next. *)
Definition two_blocks : list Z := concat (repeat [1; 2; 3; 4; 5; 6; 7; 8] 128).

Lemma two_blocks_ok : blocks_ok 1 2.
Proof. unfold blocks_ok. rewrite blocks_eq. lia. Qed.

Lemma two_blocks_bytes : Forall is_byte two_blocks.
Proof. apply bytes_check. by vm_compute. Qed.

Lemma board_idle : idle_flash (now board []).
Proof. by split_and!; vm_compute. Qed.

Lemma interface_ok : wf_ms Disk_MS_Interface.
Proof. split; [done|]. apply bytes_check. by vm_compute. Qed.

Lemma disk_round_trip_witness :
  wp true (disk_hw []) (DataflashManager_WriteBlocks_RAM 40 1 2 two_blocks) [] (fun _ s =>
    forall t', idle_flash (now board t') -> same_disk (now board t') (now board ([] ++ s)) ->
    wp true (disk_hw []) (DataflashManager_ReadBlocks_RAM 1 2 (repeat 0 1024)) t' (fun r s' =>
      r = two_blocks /\ same_disk (now board (t' ++ s')) (now board t'))).
Proof.
  apply (disk_round_trip (disk_hw []) board 1 40 1 2 two_blocks (repeat 0 1024) []).
  - apply disk_hw_attached.
  - lia.
  - apply two_blocks_ok.
  - done.
  - apply two_blocks_bytes.
  - done.
  - apply board_idle.
Defined.

Definition write_packets : list Z := block_command SCSI_CMD_WRITE_10 0 77 1024 0 1 2 ++ two_blocks.

Lemma write10_stored_witness :
  wp true (disk_hw write_packets) (main_pass 40 Disk_MS_Interface SenseData) [] (fun r s =>
    same_as (overwritten (disk (now board [])) (1 * 512) two_blocks) (now board ([] ++ s)) /\
    sent s = passed 77 (u32 (1024 - 2 * 512)) /\ snd r = good_sense SenseData).
Proof.
  apply (write10_stored (disk_hw write_packets) board 1 40 Disk_MS_Interface SenseData 77 1024 1 2 two_blocks []).
  - apply disk_hw_host.
  - lia.
  - lia.
  - apply interface_ok.
  - done.
  - lia.
  - apply two_blocks_ok.
  - lia.
  - done.
  - apply two_blocks_bytes.
  - apply board_idle.
  - apply disk_hw_delivers.
Defined.

Definition read_packets : list Z := block_command SCSI_CMD_READ_10 MS_COMMAND_DIR_DATA_IN 78 1024 0 1 2.

Lemma read10_returned_witness :
  wp true (disk_hw read_packets) (main_pass 40 Disk_MS_Interface SenseData) [] (fun r s =>
    sent s = disk_bytes (disk (now board [])) (1 * 512) (Z.to_nat (2 * 512)) ++ passed 78 (u32 (1024 - 2 * 512)) /\
    same_as (disk (now board [])) (now board ([] ++ s)) /\ snd r = good_sense SenseData).
Proof.
  apply (read10_returned (disk_hw read_packets) board 1 40 Disk_MS_Interface SenseData 78 1024 1 2 []).
  - apply disk_hw_host.
  - lia.
  - lia.
  - apply interface_ok.
  - done.
  - lia.
  - apply two_blocks_ok.
  - lia.
  - intros a _. unfold disk, chip_of, is_byte. destruct (Z.odd _); cbn; lia.
  - apply board_idle.
  - apply disk_hw_delivers.
Defined.

Lemma out_of_range_refused_witness :
  let cmd := block_command SCSI_CMD_READ_10 MS_COMMAND_DIR_DATA_IN 79 512 0 32768 1 in
  wp true (disk_hw cmd) (main_pass 40 Disk_MS_Interface SenseData) [] (fun r s =>
    sent s = failed 79 512 /\ received s = cmd /\ now board ([] ++ s) = now board [] /\
    snd r = SCSI_SET_SENSE SCSI_SENSE_KEY_ILLEGAL_REQUEST SCSI_ASENSE_LOGICAL_BLOCK_ADDRESS_OUT_OF_RANGE
      SCSI_ASENSEQ_NO_QUALIFIER SenseData).
Proof.
  intros cmd. apply (out_of_range_refused (disk_hw cmd) board 1 40 true Disk_MS_Interface SenseData MS_COMMAND_DIR_DATA_IN 79 512 32768 1 [] []).
  - apply disk_hw_host.
  - lia.
  - lia.
  - apply interface_ok.
  - done.
  - unfold is_byte, MS_COMMAND_DIR_DATA_IN. lia.
  - done.
  - rewrite blocks_eq. lia.
  - apply disk_hw_delivers.
Defined.

(** A command for a logical unit the disk does not have. *)
Definition wrong_unit : list Z := take 15 (block_command SCSI_CMD_READ_10 MS_COMMAND_DIR_DATA_IN 80 512 1 0 1).

Lemma invalid_command_stalled_witness :
  wp true (disk_hw wrong_unit) (@MS_Device_USBTask (list Z) (scsi_application 40) 40 Disk_MS_Interface SenseData) [] (fun r s =>
    r = (with_command wrong_unit Disk_MS_Interface, SenseData) /\ received s = wrong_unit /\ sent s = [] /\ stalls 0 s = [4; 3]).
Proof.
  apply (@invalid_command_stalled (list Z) (scsi_application 40) (disk_hw wrong_unit) 40 Disk_MS_Interface SenseData wrong_unit [] [] 0).
  - lia.
  - by split.
  - done.
  - done.
  - apply interface_ok.
  - done.
  - apply bytes_check. by vm_compute.
  - by vm_compute.
  - rewrite app_nil_r. apply disk_hw_delivers.
Defined.
