(* ===== verification/RingBuffer.v ===== *)
(** * The ring buffer

    [LUFA/Drivers/Misc/RingBuffer.h]: a byte queue in an array, for one thread that
    inserts and one that removes, where a thread is the main program or an interrupt
    handler.  The pointers [In] and [Out] are offsets from [Start], so that [End] is
    [Size].  The last section splits the operations into the accesses that other
    threads can see and runs two threads in any interleaving. *)
From S2P Require Import Prelude.

Record RingBuffer_t := mk_ring {
    rb_In : Z;
    rb_Out : Z;
    rb_Size : Z;
    rb_Count : Z;
    rb_Data : list Z
  }.

Definition RingBuffer_InitBuffer (DataPtr : list Z) (Size : Z) : RingBuffer_t := mk_ring 0 0 Size 0 DataPtr.

Definition RingBuffer_GetCount (b : RingBuffer_t) : Z := rb_Count b.
Definition RingBuffer_GetFreeCount (b : RingBuffer_t) : Z := u16 (rb_Size b - RingBuffer_GetCount b).
Definition RingBuffer_IsEmpty (b : RingBuffer_t) : bool := RingBuffer_GetCount b =? 0.
Definition RingBuffer_IsFull (b : RingBuffer_t) : bool := RingBuffer_GetCount b =? rb_Size b.

(** [if (++p == Buffer->End) p = Buffer->Start] *)
Definition next_slot (b : RingBuffer_t) (p : Z) : Z := if p + 1 =? rb_Size b then 0 else p + 1.

(** The steps of an insertion: the byte is stored, the pointer moves, the count goes
    up with the interrupts disabled. *)
Definition store_in (d : Z) (b : RingBuffer_t) : option RingBuffer_t :=
  l ← arr_set (rb_Data b) (rb_In b) d; Some (mk_ring (rb_In b) (rb_Out b) (rb_Size b) (rb_Count b) l).
Definition advance_in (b : RingBuffer_t) : RingBuffer_t :=
  mk_ring (next_slot b (rb_In b)) (rb_Out b) (rb_Size b) (rb_Count b) (rb_Data b).
Definition count_up (b : RingBuffer_t) : RingBuffer_t :=
  mk_ring (rb_In b) (rb_Out b) (rb_Size b) (u16 (rb_Count b + 1)) (rb_Data b).

(** Those of a removal. *)
Definition load_out (b : RingBuffer_t) : option Z := arr_get (rb_Data b) (rb_Out b).
Definition advance_out (b : RingBuffer_t) : RingBuffer_t :=
  mk_ring (rb_In b) (next_slot b (rb_Out b)) (rb_Size b) (rb_Count b) (rb_Data b).
Definition count_down (b : RingBuffer_t) : RingBuffer_t :=
  mk_ring (rb_In b) (rb_Out b) (rb_Size b) (u16 (rb_Count b - 1)) (rb_Data b).

Definition RingBuffer_Insert (b : RingBuffer_t) (d : Z) : option RingBuffer_t :=
  b ← store_in d b; Some (count_up (advance_in b)).

Definition RingBuffer_Remove (b : RingBuffer_t) : option (Z * RingBuffer_t) :=
  d ← load_out b; Some (d, count_down (advance_out b)).

Definition RingBuffer_Peek (b : RingBuffer_t) : option Z := load_out b.

(** ** Two threads

    Each thread executes one of its steps when it is scheduled.  The producer takes
    the next byte it is offered when there is room, and the consumer removes a byte
    when there is one. *)
Inductive producer_pc : Type := P_idle | P_room (d : Z) | P_stored (d : Z) | P_advanced (d : Z).
Inductive consumer_pc : Type := C_idle | C_some | C_loaded (d : Z) | C_advanced (d : Z).

(** [inserted] and [removed] record the bytes of the completed operations. *)
Record threads := mk_threads {
    ring : RingBuffer_t;
    producer : producer_pc;
    consumer : consumer_pc;
    inserted : list Z;
    removed : list Z
  }.

Definition producer_step (d : Z) (s : threads) : option threads :=
  match producer s with
  | P_idle =>
      Some (if RingBuffer_IsFull (ring s) then s
            else mk_threads (ring s) (P_room d) (consumer s) (inserted s) (removed s))
  | P_room d => b ← store_in d (ring s); Some (mk_threads b (P_stored d) (consumer s) (inserted s) (removed s))
  | P_stored d => Some (mk_threads (advance_in (ring s)) (P_advanced d) (consumer s) (inserted s) (removed s))
  | P_advanced d => Some (mk_threads (count_up (ring s)) P_idle (consumer s) (inserted s ++ [d]) (removed s))
  end.

Definition consumer_step (s : threads) : option threads :=
  match consumer s with
  | C_idle =>
      Some (if RingBuffer_IsEmpty (ring s) then s
            else mk_threads (ring s) (producer s) C_some (inserted s) (removed s))
  | C_some => d ← load_out (ring s); Some (mk_threads (ring s) (producer s) (C_loaded d) (inserted s) (removed s))
  | C_loaded d => Some (mk_threads (advance_out (ring s)) (producer s) (C_advanced d) (inserted s) (removed s))
  | C_advanced d => Some (mk_threads (count_down (ring s)) (producer s) C_idle (inserted s) (removed s ++ [d]))
  end.

(** A schedule: [Some d] runs the producer, which is offered the byte [d], [None] the
    consumer. *)
Definition thread_step (s : threads) (who : option Z) : option threads :=
  match who with Some d => producer_step d s | None => consumer_step s end.

Fixpoint run_threads (sched : list (option Z)) (s : threads) : option threads :=
  match sched with
  | [] => Some s
  | who :: sched => s ← thread_step s who; run_threads sched s
  end.

Definition start_threads (DataPtr : list Z) (Size : Z) : threads :=
  mk_threads (RingBuffer_InitBuffer DataPtr Size) P_idle C_idle [] [].
