(* ===== verification/RingBufferSpec.v ===== *)
(** * The ring buffer is a queue

    The contents of a buffer as a list, the effect of every operation on it, the
    behaviour of a full buffer, and the correctness of concurrent use: for every
    interleaving of the steps of the two threads, what has been removed and what is in
    the buffer is what was inserted, in that order. *)
From S2P Require Import Prelude RingBuffer.

(** [j] slots behind [p]. *)
Definition slot (size p j : Z) : Z := (p + j) mod size.

(** The slots from [out] on hold [q]. *)
Definition stores (size : Z) (data : list Z) (out : Z) (q : list Z) : Prop :=
  forall j x, q !! j = Some x -> arr_get data (slot size out (Z.of_nat j)) = Some x.

(** A buffer that holds [q]. *)
Record holds_queue (b : RingBuffer_t) (q : list Z) : Prop := {
    hq_size : 0 < rb_Size b < 65536;
    hq_data : Z.of_nat (length (rb_Data b)) = rb_Size b;
    hq_out : 0 <= rb_Out b < rb_Size b;
    hq_room : Z.of_nat (length q) <= rb_Size b;
    hq_count : rb_Count b = Z.of_nat (length q);
    hq_in : rb_In b = slot (rb_Size b) (rb_Out b) (Z.of_nat (length q));
    hq_stores : stores (rb_Size b) (rb_Data b) (rb_Out b) q
  }.

Lemma slot_range size p j : 0 < size -> 0 <= slot size p j < size.
Proof. intros. apply Z.mod_pos_bound. done. Qed.

Lemma next_slot_eq b p : 0 <= p < rb_Size b -> next_slot b p = slot (rb_Size b) p 1.
Proof.
  intros Hp. unfold next_slot, slot. destruct (Z.eqb_spec (p + 1) (rb_Size b)) as [->|].
  - by rewrite Z_mod_same_full.
  - by rewrite Z.mod_small by lia.
Qed.

Lemma slot_slot size p i j : 0 < size -> slot size (slot size p i) j = slot size p (i + j).
Proof. intros. unfold slot. rewrite Z.add_assoc. apply Zplus_mod_idemp_l. Qed.

(** Slots less than [size] apart are different. *)
Lemma slot_ne size p i j : 0 < size -> 0 <= i -> i < j -> j < i + size -> slot size p i <> slot size p j.
Proof.
  intros Hs Hi Hij Hj E. unfold slot in E.
  assert ((j - i) mod size = 0) as H.
  { replace (j - i) with ((p + j) - (p + i)) by lia. rewrite Zminus_mod, E, Z.sub_diag. apply Z.mod_0_l. lia. }
  rewrite Z.mod_small in H by lia. lia.
Qed.

Lemma slot_0 size p : 0 <= p < size -> slot size p 0 = p.
Proof. intros. unfold slot. rewrite Z.add_0_r. by apply Z.mod_small. Qed.

Lemma slot_size size p : 0 <= p < size -> slot size p size = p.
Proof. intros. unfold slot. replace (p + size) with (p + 1 * size) by lia. rewrite Z_mod_plus_full. by apply Z.mod_small. Qed.

Lemma stores_tail size data out x q : 0 < size -> stores size data out (x :: q) -> stores size data (slot size out 1) q.
Proof. intros Hs H j y Hj. rewrite slot_slot by done. replace (1 + Z.of_nat j) with (Z.of_nat (S j)) by lia. by apply H. Qed.

Lemma stores_head size data out x q : 0 <= out < size -> stores size data out (x :: q) -> arr_get data out = Some x.
Proof. intros Hp H. specialize (H 0%nat x eq_refl). by rewrite slot_0 in H. Qed.

(** A byte that is stored behind the queue leaves it alone. *)
Lemma stores_behind size data data' out q d :
  0 < size -> Z.of_nat (length q) < size -> arr_set data (slot size out (Z.of_nat (length q))) d = Some data' ->
  stores size data out q -> stores size data' out (q ++ [d]).
Proof.
  intros Hs Hl Hset H j x Hj. destruct (decide (j < length q)%nat) as [Hlt|Hge].
  - rewrite lookup_app_l in Hj by done. rewrite (arr_get_set_ne _ _ _ _ _ Hset); [by apply H|].
    intros E. by eapply (slot_ne size out (Z.of_nat j) (Z.of_nat (length q))); try lia.
  - rewrite lookup_app_r in Hj by lia. apply list_lookup_singleton_Some in Hj as [Hj <-].
    replace (Z.of_nat j) with (Z.of_nat (length q)) by lia. by apply arr_get_set_eq in Hset.
Qed.

Lemma stores_prefix size data out q d : stores size data out (q ++ [d]) -> stores size data out q.
Proof. intros H j x Hj. apply H. by apply lookup_app_l_Some. Qed.

(** ** The operations of one thread *)

Lemma init_queue l : (0 < length l)%nat -> Z.of_nat (length l) < 65536 ->
  holds_queue (RingBuffer_InitBuffer l (Z.of_nat (length l))) [].
Proof. intros. split; cbn; try lia; [by rewrite slot_0 by lia|by intros j x]. Qed.

Lemma full_queue b q : holds_queue b q -> RingBuffer_IsFull b = true <-> Z.of_nat (length q) = rb_Size b.
Proof. intros H. unfold RingBuffer_IsFull, RingBuffer_GetCount. rewrite Z.eqb_eq, (hq_count _ _ H). done. Qed.

Lemma empty_queue b q : holds_queue b q -> RingBuffer_IsEmpty b = true <-> q = [].
Proof.
  intros H. unfold RingBuffer_IsEmpty, RingBuffer_GetCount. rewrite Z.eqb_eq, (hq_count _ _ H).
  destruct q; cbn; split; done || lia.
Qed.

Lemma insert_queue b q d : holds_queue b q -> Z.of_nat (length q) < rb_Size b ->
  exists b', RingBuffer_Insert b d = Some b' /\ holds_queue b' (q ++ [d]) /\ rb_Size b' = rb_Size b.
Proof.
  intros [Hs Hd Ho Hr Hc Hi Hst] Hl. unfold RingBuffer_Insert, store_in.
  destruct (arr_set_is_Some (rb_Data b) (rb_In b) d) as [l Hset].
  { rewrite Hd, Hi. apply slot_range. lia. }
  rewrite Hset. cbn. eexists. split_and!; [done| |done].
  split; cbn; rewrite ?length_app; cbn; try done; try lia.
  - by rewrite (arr_set_length _ _ _ _ Hset).
  - rewrite u16_small by lia. lia.
  - rewrite next_slot_eq by (cbn; rewrite Hi; apply slot_range; lia). cbn. rewrite Hi, slot_slot by lia. f_equal. lia.
  - apply (stores_behind _ (rb_Data b)); try done; [lia|]. by rewrite <- Hi.
Qed.

Lemma remove_queue b x q : holds_queue b (x :: q) ->
  exists b', RingBuffer_Remove b = Some (x, b') /\ holds_queue b' q /\ rb_Size b' = rb_Size b.
Proof.
  intros [Hs Hd Ho Hr Hc Hi Hst]. unfold RingBuffer_Remove, load_out. cbn [length] in *.
  rewrite (stores_head _ _ _ _ _ Ho Hst). cbn. eexists. split_and!; [done| |done].
  split; cbn; try done; try lia.
  - rewrite next_slot_eq by done. apply slot_range. lia.
  - rewrite u16_small by lia. lia.
  - rewrite next_slot_eq, slot_slot by (done || lia). rewrite Hi. f_equal. lia.
  - rewrite next_slot_eq by done. apply (stores_tail _ _ _ x); [lia|done].
Qed.

Lemma peek_queue b x q : holds_queue b (x :: q) -> RingBuffer_Peek b = Some x.
Proof. intros H. apply (stores_head _ _ _ _ _ (hq_out _ _ H) (hq_stores _ _ H)). Qed.

(** ** Two threads

    [q] is the queue as of the completed operations and [o] the slot of its head; the
    pointers and the count may be a step ahead of or behind them. *)
Definition pending_in (p : producer_pc) : list Z :=
  match p with P_stored d | P_advanced d => [d] | _ => [] end.

Record consistent (s : threads) (o : Z) (q : list Z) : Prop := {
    cs_size : 0 < rb_Size (ring s) < 65536;
    cs_data : Z.of_nat (length (rb_Data (ring s))) = rb_Size (ring s);
    cs_o : 0 <= o < rb_Size (ring s);
    cs_room : Z.of_nat (length q) + match producer s with P_idle => 0 | _ => 1 end <= rb_Size (ring s);
    cs_count : rb_Count (ring s) = Z.of_nat (length q);
    cs_in : rb_In (ring s) = slot (rb_Size (ring s)) o (Z.of_nat (length q) + match producer s with P_advanced _ => 1 | _ => 0 end);
    cs_out : rb_Out (ring s) = match consumer s with C_advanced _ => slot (rb_Size (ring s)) o 1 | _ => o end;
    cs_stores : stores (rb_Size (ring s)) (rb_Data (ring s)) o (q ++ pending_in (producer s));
    cs_head : match consumer s with C_idle => True | C_some => q <> [] | C_loaded d | C_advanced d => head q = Some d end;
    cs_fifo : inserted s = removed s ++ q
  }.

Lemma producer_consistent d s o q : consistent s o q ->
  exists s' q', producer_step d s = Some s' /\ consistent s' o q'.
Proof.
  intros [Hs Hd Ho Hr Hc Hi Hout Hst Hh Hf]. unfold producer_step. destruct s as [b p c ins rem]; cbn in *. destruct p as [|e|e|e].
  - destruct (RingBuffer_IsFull b) eqn:E; eexists _, q; (split; [done|]); [by split|].
    unfold RingBuffer_IsFull, RingBuffer_GetCount in E. apply Z.eqb_neq in E. split; cbn; done || lia.
  - rewrite Z.add_0_r in Hi. unfold store_in. destruct (arr_set_is_Some (rb_Data b) (rb_In b) e) as [l Hset].
    { rewrite Hd, Hi. apply slot_range. lia. }
    rewrite Hset. cbn. eexists _, q. split; [done|]. rewrite app_nil_r in Hst.
    split; cbn; try done; [by rewrite (arr_set_length _ _ _ _ Hset)|by rewrite Z.add_0_r|].
    apply (stores_behind _ (rb_Data b)); try done; [lia|lia|]. by rewrite <- Hi.
  - eexists _, q. split; [done|]. split; cbn; try done.
    rewrite next_slot_eq by (rewrite Hi; apply slot_range; lia). rewrite Hi, Z.add_0_r, slot_slot by lia. done.
  - eexists _, (q ++ [e]). split; [done|]. split; cbn; rewrite ?length_app; cbn; rewrite ?app_nil_r; try done; try lia.
    + rewrite u16_small by lia. lia.
    + rewrite Hi. f_equal. lia.
    + destruct c; try done; destruct q; cbn in *; done.
    + by rewrite Hf, <- app_assoc.
Qed.

Lemma consumer_consistent s o q : consistent s o q ->
  exists s' o' q', consumer_step s = Some s' /\ consistent s' o' q'.
Proof.
  intros [Hs Hd Ho Hr Hc Hi Hout Hst Hh Hf]. unfold consumer_step. destruct s as [b p c ins rem]; cbn in *. destruct c as [| |e|e].
  - destruct (RingBuffer_IsEmpty b) eqn:E; eexists _, o, q; (split; [done|]); [by split|].
    unfold RingBuffer_IsEmpty, RingBuffer_GetCount in E. apply Z.eqb_neq in E. split; cbn; try done. intros ->. by cbn in Hc.
  - destruct q as [|x q]; [done|]. unfold load_out. rewrite Hout, (stores_head _ _ _ _ _ Ho Hst). cbn.
    eexists _, o, (x :: q). split; [done|]. by split.
  - eexists _, o, q. split; [done|]. split; cbn; try done. by rewrite next_slot_eq, Hout by (rewrite Hout; done).
  - destruct q as [|x q]; [done|]. injection Hh as ->. cbn [length] in *.
    eexists _, (slot (rb_Size b) o 1), q. split; [done|]. split; cbn; try done; try lia.
    + apply slot_range. lia.
    + rewrite u16_small by (destruct p; lia). lia.
    + rewrite Hi, slot_slot by lia. f_equal. lia.
    + apply (stores_tail _ _ _ e); [lia|done].
    + by rewrite Hf, <- app_assoc.
Qed.

Lemma threads_consistent sched : forall s o q, consistent s o q ->
  exists s' o' q', run_threads sched s = Some s' /\ consistent s' o' q' /\ rb_Size (ring s') = rb_Size (ring s).
Proof.
  induction sched as [|who sched IH]; intros s o q H; [by exists s, o, q|]. cbn.
  assert (exists s1 o1 q1, thread_step s who = Some s1 /\ consistent s1 o1 q1) as (s1 & o1 & q1 & E & H1).
  { destruct who as [d|]; cbn; [|by eapply consumer_consistent].
    destruct (producer_consistent d s o q H) as (s1 & q1 & ? & ?). by exists s1, o, q1. }
  rewrite E. cbn. destruct (IH s1 o1 q1 H1) as (s2 & o2 & q2 & E2 & H2 & Hs). exists s2, o2, q2. split_and!; [done..|].
  rewrite Hs. destruct who as [d|]; cbn in E; unfold producer_step, consumer_step in E; repeat case_match; inv_opt; cbn; try done.
  by unfold store_in in *; inv_opt.
Qed.

(** What a buffer holds, read off its fields. *)
Definition contents (b : RingBuffer_t) : list Z :=
  (fun j => nth (Z.to_nat (slot (rb_Size b) (rb_Out b) (Z.of_nat j))) (rb_Data b) 0) <$> seq 0 (Z.to_nat (rb_Count b)).

Lemma contents_queue b q : holds_queue b q -> contents b = q.
Proof.
  intros [Hs Hd Ho Hr Hc Hi Hst]. apply list_eq_same_length with (length q); [done|by unfold contents; rewrite length_fmap, length_seq, Hc; lia|].
  intros j x y Hj Hx Hy. unfold contents in Hx. rewrite list_lookup_fmap, lookup_seq_lt in Hx by lia. injection Hx as <-.
  specialize (Hst j y Hy). apply arr_get_Some in Hst as [_ Hst]. by apply nth_lookup_Some.
Qed.

(** C10: the ring buffer is a queue for two threads.  However the steps of the inserting
    and of the removing thread interleave, no access leaves the array, and the bytes
    removed so far are the first of the bytes inserted, in order; when both threads are
    between operations, the buffer holds exactly the others. *)
Theorem ring_buffer_fifo sched (DataPtr : list Z) :
  (0 < length DataPtr)%nat -> Z.of_nat (length DataPtr) < 65536 ->
  exists s, run_threads sched (start_threads DataPtr (Z.of_nat (length DataPtr))) = Some s /\
    removed s `prefix_of` inserted s /\
    0 <= rb_Count (ring s) <= rb_Size (ring s) /\
    (producer s = P_idle -> consumer s = C_idle -> inserted s = removed s ++ contents (ring s)).
Proof.
  intros H0 Hl. destruct (threads_consistent sched (start_threads DataPtr (Z.of_nat (length DataPtr))) 0 []) as (s & o & q & E & H & Hs).
  { split; cbn; try done; try lia. }
  exists s. split; [done|]. destruct H as [Hsz Hd Ho Hr Hc Hi Hout Hst Hh Hf]. split_and!.
  - rewrite Hf. by apply prefix_app_r.
  - lia.
  - destruct (producer s); lia.
  - intros Ep Ec. rewrite Ep, Ec in *. rewrite Hf. f_equal. symmetry. apply contents_queue.
    cbn in Hst. rewrite app_nil_r in Hst. rewrite Z.add_0_r in Hi, Hr. rewrite <- Hout in *. by split.
Qed.

(** Without the test for room, an insertion into a full buffer overwrites the oldest
    byte, and the count exceeds the size: the same slot is then read twice. *)
Lemma insert_full_loses b x q d : holds_queue b (x :: q) -> RingBuffer_IsFull b = true -> rb_Size b < 65535 ->
  exists b', RingBuffer_Insert b d = Some b' /\ rb_Count b' = rb_Size b' + 1 /\ contents b' = d :: q ++ [d].
Proof.
  intros H Hf%(full_queue _ _ H) H16. destruct H as [Hs Hd Ho Hr Hc Hi Hst]. unfold RingBuffer_Insert, store_in.
  assert (rb_In b = rb_Out b) as Ei.
  { rewrite Hi, Hf. by apply slot_size. }
  destruct (arr_set_is_Some (rb_Data b) (rb_In b) d) as [l Hset]; [rewrite Ei; lia|]. rewrite Hset. cbn.
  eexists. split; [done|]. cbn [rb_Count rb_Size count_up advance_in]. rewrite u16_small by lia. split; [lia|].
  pose proof (arr_set_length _ _ _ _ Hset) as Ll.
  apply list_eq_same_length with (S (S (length q))).
  { cbn. rewrite length_app. cbn. lia. }
  { unfold contents. cbn. rewrite length_fmap, length_seq, u16_small by lia. cbn [length] in *. lia. }
  intros j y z Hj Hy Hz. unfold contents in Hy. cbn in Hy. rewrite u16_small in Hy by lia. cbn [length] in *. rewrite list_lookup_fmap, lookup_seq_lt in Hy by lia. injection Hy as <-.
  assert (forall k, k = rb_Out b -> nth (Z.to_nat k) l 0 = d) as Hsame.
  { intros k ->. rewrite <- Ei. apply arr_get_set_eq, arr_get_Some in Hset as [_ Hg]. by apply nth_lookup_Some. }
  destruct j as [|j]; [injection Hz as <-; apply Hsame, slot_0; done|].
  change ((q ++ [d]) !! j = Some z) in Hz.
  destruct (decide (j < length q)%nat) as [Hlt|Hge].
  - rewrite lookup_app_l in Hz by done. pose proof (Hst (S j) z Hz) as Hg.
    rewrite <- (arr_get_set_ne _ _ _ _ _ Hset) in Hg; [by apply arr_get_Some in Hg as [_ Hg]; apply nth_lookup_Some|].
    rewrite Ei, <- (slot_0 (rb_Size b) (rb_Out b)) at 1 by done. apply slot_ne; lia.
  - rewrite lookup_app_r in Hz by lia. apply list_lookup_singleton_Some in Hz as [Ej <-]. apply Hsame.
    cbn [Nat.add]. replace (Z.of_nat (S j)) with (rb_Size b) by lia. by apply slot_size.
Qed.

(** A schedule that inserts two bytes and removes one in between. *)
Lemma ring_buffer_fifo_witness :
  match run_threads (repeat (Some 7) 4 ++ [None; Some 8; None; Some 8; None; Some 8; None; Some 8]) (start_threads [0; 0] 2) with
  | Some s => removed s = [7] /\ inserted s = removed s ++ contents (ring s)
  | None => False
  end.
Proof.
  destruct (ring_buffer_fifo (repeat (Some 7) 4 ++ [None; Some 8; None; Some 8; None; Some 8; None; Some 8]) [0; 0])
    as (s & E & _ & _ & H); [cbn; lia|reflexivity|].
  change (Z.of_nat (length [0; 0])) with 2 in E. rewrite E. vm_compute in E. injection E as <-.
  split; [vm_compute; reflexivity|]. apply H; reflexivity.
Defined.
