(* ===== verification/CDCDevice.v ===== *)
(** * The CDC class driver, device side

    [LUFA/Drivers/USB/Class/Device/CDCClassDevice.c]: the class requests of a virtual
    serial port and the transfer of bytes and strings.  The interface object is a
    record, the two events of the application are the class [CDCApplication], and
    strings are arrays of characters with a terminating zero. *)
From S2P Require Import Prelude ConfigDescriptors USBIo Endpoint DeviceRequests HIDDevice NetBuffers RNDISDevice.

Definition CDC_REQ_SetLineEncoding := 0x20.
Definition CDC_REQ_GetLineEncoding := 0x21.
Definition CDC_REQ_SetControlLineState := 0x22.
Definition CDC_REQ_SendBreak := 0x23.
Definition CDC_NOTIF_SerialState := 0x20.
Definition CDC_PARITY_Odd := 1.
Definition CDC_PARITY_Even := 2.
Definition CDC_LINEENCODING_TwoStopBits := 2.

Definition ENDPOINT_RWSTREAM_DeviceDisconnected := 2.

(** [_FDEV_ERR] and [_FDEV_EOF] of the C library. *)
Definition FDEV_ERR := -1.
Definition FDEV_EOF := -2.

Record CDC_LineEncoding_t := mk_line {
    BaudRateBPS : Z;
    CharFormat : Z;
    ParityType : Z;
    DataBits : Z
  }.

Record USB_ClassInfo_CDC_Device_t := mk_cdc {
    ControlInterfaceNumber : Z;
    CDC_DataINEndpoint : USB_Endpoint_Table_t;
    CDC_DataOUTEndpoint : USB_Endpoint_Table_t;
    CDC_NotificationEndpoint : USB_Endpoint_Table_t;
    HostToDevice : Z;
    DeviceToHost : Z;
    LineEncoding : CDC_LineEncoding_t
  }.

Definition set_HostToDevice (v : Z) (i : USB_ClassInfo_CDC_Device_t) :=
  mk_cdc (ControlInterfaceNumber i) (CDC_DataINEndpoint i) (CDC_DataOUTEndpoint i) (CDC_NotificationEndpoint i)
    v (DeviceToHost i) (LineEncoding i).
Definition set_LineEncoding (l : CDC_LineEncoding_t) (i : USB_ClassInfo_CDC_Device_t) :=
  mk_cdc (ControlInterfaceNumber i) (CDC_DataINEndpoint i) (CDC_DataOUTEndpoint i) (CDC_NotificationEndpoint i)
    (HostToDevice i) (DeviceToHost i) l.

Class CDCApplication (A : Type) := {
    EVENT_CDC_Device_LineEncodingChanged : USB_ClassInfo_CDC_Device_t -> A -> io A;
    EVENT_CDC_Device_ControLineStateChanged : USB_ClassInfo_CDC_Device_t -> A -> io A;
    EVENT_CDC_Device_BreakSent : USB_ClassInfo_CDC_Device_t -> Z -> A -> io A
  }.

Section driver.
Context (fuel : nat).
Abbreviation info := USB_ClassInfo_CDC_Device_t.

Section requests.
Context {A : Type} `{!CDCApplication A}.

Definition get_line_encoding (r : USB_Request_Header_t) (i : info) : io unit :=
  Endpoint_ClearSETUP;;
  wait_in_ready fuel;;
  Endpoint_Write_32_LE (BaudRateBPS (LineEncoding i));;
  Endpoint_Write_8 (CharFormat (LineEncoding i));;
  Endpoint_Write_8 (ParityType (LineEncoding i));;
  Endpoint_Write_8 (DataBits (LineEncoding i));;
  Endpoint_ClearIN;;
  Endpoint_ClearStatusStage fuel r.

Definition set_line_encoding (r : USB_Request_Header_t) (i : info) (a : A) : io (info * A) :=
  Endpoint_ClearSETUP;;
  attached ← poll_attached fuel Endpoint_IsOUTReceived;
  if negb attached then mret (i, a) else
  BaudRate ← Endpoint_Read_32_LE;
  Format ← Endpoint_Read_8;
  Parity ← Endpoint_Read_8;
  Bits ← Endpoint_Read_8;
  let i := set_LineEncoding (mk_line BaudRate Format Parity Bits) i in
  Endpoint_ClearOUT;;
  Endpoint_ClearStatusStage fuel r;;
  a ← EVENT_CDC_Device_LineEncodingChanged i a;
  mret (i, a).

Definition CDC_Device_ProcessControlRequest (d : device) (i : info) (a : A) : io (info * A) :=
  setup ← Endpoint_IsSETUPReceived;
  if negb setup then mret (i, a) else
  let r := USB_ControlRequest d in
  if negb (wIndex r =? ControlInterfaceNumber i) then mret (i, a) else
  if bRequest r =? CDC_REQ_GetLineEncoding then
    if bmRequestType r =? class_to_host then get_line_encoding r i;; mret (i, a) else mret (i, a)
  else if bRequest r =? CDC_REQ_SetLineEncoding then
    if bmRequestType r =? class_to_device then set_line_encoding r i a else mret (i, a)
  else if bRequest r =? CDC_REQ_SetControlLineState then
    if bmRequestType r =? class_to_device then
      Endpoint_ClearSETUP;;
      Endpoint_ClearStatusStage fuel r;;
      let i := set_HostToDevice (wValue r) i in
      a ← EVENT_CDC_Device_ControLineStateChanged i a;
      mret (i, a)
    else mret (i, a)
  else if bRequest r =? CDC_REQ_SendBreak then
    if bmRequestType r =? class_to_device then
      Endpoint_ClearSETUP;;
      Endpoint_ClearStatusStage fuel r;;
      a ← EVENT_CDC_Device_BreakSent i (u8 (wValue r)) a;
      mret (i, a)
    else mret (i, a)
  else mret (i, a).
End requests.

Definition CDC_Device_ConfigureEndpoints (i : info) : io (bool * info) :=
  let i := mk_cdc (ControlInterfaceNumber i) (set_ep_Type EP_TYPE_BULK (CDC_DataINEndpoint i))
    (set_ep_Type EP_TYPE_BULK (CDC_DataOUTEndpoint i)) (set_ep_Type EP_TYPE_INTERRUPT (CDC_NotificationEndpoint i))
    0 0 (mk_line 0 0 0 0) in
  ok ← Endpoint_ConfigureEndpointTable [CDC_DataINEndpoint i];
  if negb ok then mret (false, i) else
  ok ← Endpoint_ConfigureEndpointTable [CDC_DataOUTEndpoint i];
  if negb ok then mret (false, i) else
  ok ← Endpoint_ConfigureEndpointTable [CDC_NotificationEndpoint i];
  if negb ok then mret (false, i) else mret (true, i).

(** The condition all data operations start with. *)
Definition not_open (i : info) : io bool :=
  s ← USB_DeviceState;
  mret (negb (s =? DEVICE_STATE_Configured) || negb (truthy (BaudRateBPS (LineEncoding i)))).

Definition CDC_Device_SendData (i : info) (Buffer : list Z) (Length : Z) : io Z :=
  closed ← not_open i;
  if closed : bool then mret ENDPOINT_RWSTREAM_DeviceDisconnected else
  Endpoint_SelectEndpoint (ep_Address (CDC_DataINEndpoint i));;
  '(code, _, _) ← Endpoint_Write_Stream_LE fuel Buffer Length None;
  mret code.

(** The characters of a string before its terminating zero. *)
Fixpoint strlen (s : list Z) : option nat :=
  match s with
  | [] => None
  | c :: s => if truthy c then n ← strlen s; Some (S n) else Some 0%nat
  end.

Definition CDC_Device_SendString (i : info) (String : list Z) : io Z :=
  closed ← not_open i;
  if closed : bool then mret ENDPOINT_RWSTREAM_DeviceDisconnected else
  Endpoint_SelectEndpoint (ep_Address (CDC_DataINEndpoint i));;
  n ← get (strlen String);
  '(code, _, _) ← Endpoint_Write_Stream_LE fuel String (u16 (Z.of_nat n)) None;
  mret code.

Definition CDC_Device_SendByte (i : info) (Data : Z) : io Z :=
  closed ← not_open i;
  if closed : bool then mret ENDPOINT_RWSTREAM_DeviceDisconnected else
  Endpoint_SelectEndpoint (ep_Address (CDC_DataINEndpoint i));;
  allowed ← Endpoint_IsReadWriteAllowed;
  ErrorCode ← (if negb allowed then Endpoint_ClearIN;; Endpoint_WaitUntilReady fuel
               else mret ENDPOINT_READYWAIT_NoError);
  if negb (ErrorCode =? ENDPOINT_READYWAIT_NoError) then mret ErrorCode else
  Endpoint_Write_8 Data;;
  mret ENDPOINT_READYWAIT_NoError.

Definition CDC_Device_Flush (i : info) : io Z :=
  closed ← not_open i;
  if closed : bool then mret ENDPOINT_RWSTREAM_DeviceDisconnected else
  Endpoint_SelectEndpoint (ep_Address (CDC_DataINEndpoint i));;
  n ← Endpoint_BytesInEndpoint;
  if negb (truthy n) then mret ENDPOINT_READYWAIT_NoError else
  allowed ← Endpoint_IsReadWriteAllowed;
  Endpoint_ClearIN;;
  if negb allowed then
    ErrorCode ← Endpoint_WaitUntilReady fuel;
    if negb (ErrorCode =? ENDPOINT_READYWAIT_NoError) then mret ErrorCode else
    Endpoint_ClearIN;;
    mret ENDPOINT_READYWAIT_NoError
  else mret ENDPOINT_READYWAIT_NoError.

Definition CDC_Device_USBTask (i : info) : io unit :=
  closed ← not_open i;
  if closed : bool then mret tt else
  CDC_Device_Flush i;;
  mret tt.

Definition CDC_Device_BytesReceived (i : info) : io Z :=
  closed ← not_open i;
  if closed : bool then mret 0 else
  Endpoint_SelectEndpoint (ep_Address (CDC_DataOUTEndpoint i));;
  received ← Endpoint_IsOUTReceived;
  if received : bool then
    n ← Endpoint_BytesInEndpoint;
    if negb (truthy n) then Endpoint_ClearOUT;; mret 0 else Endpoint_BytesInEndpoint
  else mret 0.

Definition CDC_Device_ReceiveByte (i : info) : io Z :=
  closed ← not_open i;
  if closed : bool then mret (-1) else
  Endpoint_SelectEndpoint (ep_Address (CDC_DataOUTEndpoint i));;
  received ← Endpoint_IsOUTReceived;
  if received : bool then
    n ← Endpoint_BytesInEndpoint;
    ReceivedByte ← (if truthy n then Endpoint_Read_8 else mret (-1));
    n ← Endpoint_BytesInEndpoint;
    (if negb (truthy n) then Endpoint_ClearOUT else mret tt);;
    mret ReceivedByte
  else mret (-1).

(** The notification of the control lines: a request header and the states. *)
Definition SerialState : USB_Request_Header_t := mk_request class_to_host CDC_NOTIF_SerialState 0 0 2.

Definition CDC_Device_SendControlLineStateChange (i : info) : io unit :=
  closed ← not_open i;
  if closed : bool then mret tt else
  Endpoint_SelectEndpoint (ep_Address (CDC_NotificationEndpoint i));;
  Endpoint_Write_Stream_LE fuel (request_bytes SerialState) 8 None;;
  Endpoint_Write_Stream_LE fuel (le_bytes 2 (DeviceToHost i)) 2 None;;
  Endpoint_ClearIN.

(** The standard streams on the port. *)
Definition CDC_Device_putchar (c : Z) (i : info) : io Z :=
  e ← CDC_Device_SendByte i (u8 c); mret (if truthy e then FDEV_ERR else 0).

Definition CDC_Device_getchar (i : info) : io Z :=
  ReceivedByte ← CDC_Device_ReceiveByte i; mret (if ReceivedByte <? 0 then FDEV_EOF else ReceivedByte).

Fixpoint CDC_Device_getchar_Blocking (n : nat) (i : info) : io Z :=
  match n with
  | O => loops
  | S n =>
      ReceivedByte ← CDC_Device_ReceiveByte i;
      if ReceivedByte <? 0 then
        s ← USB_DeviceState;
        if s =? DEVICE_STATE_Unattached then mret FDEV_EOF else
        CDC_Device_USBTask i;;
        cmd c_USBTask;;
        CDC_Device_getchar_Blocking n i
      else mret ReceivedByte
  end.
End driver.
