(* ===== verification/USBtoSerial.v ===== *)
(** * The USB to serial bridge

    [Projects/USBtoSerial/USBtoSerial.c]: bytes from the host go through a ring buffer
    to the USART, bytes from the USART through another one to the host.  The receive
    interrupt handler of the USART inserts into the second buffer; it runs wherever
    the program is about to look at that buffer and a byte is waiting.  (An interrupt
    elsewhere, or between the steps of a buffer operation, has the same effect: see
    [ring_buffer_fifo].) *)
From S2P Require Import Prelude ConfigDescriptors USBIo Endpoint DeviceRequests NetBuffers RingBuffer CDCDevice.

Definition TOV0 := 0.
Definition UDRE1 := 5.
Definition RXC1 := 7.
Definition bit (n : Z) : Z := Z.shiftl 1 n.

(** Bits of the USART's control registers. *)
Definition UPM11 := 5.
Definition UPM10 := 4.
Definition USBS1 := 3.
Definition UCSZ11 := 2.
Definition UCSZ10 := 1.
Definition U2X1 := 1.
Definition RXCIE1 := 7.
Definition RXEN1 := 4.
Definition TXEN1 := 3.

(** The clock of the board's processor, from the makefile. *)
Definition F_CPU := 8000000.

(** [(((F_CPU / 8) + (Baud / 2)) / Baud) - 1]; a division by zero is a fault. *)
Definition SERIAL_2X_UBBRVAL (Baud : Z) : option Z :=
  if Baud =? 0 then None else Some (u32 ((F_CPU / 8 + Baud / 2) / Baud - 1)).

Definition line_config (l : CDC_LineEncoding_t) : Z :=
  let ConfigMask := if ParityType l =? CDC_PARITY_Odd then Z.lor (bit UPM11) (bit UPM10)
    else if ParityType l =? CDC_PARITY_Even then bit UPM11 else 0 in
  let ConfigMask := if CharFormat l =? CDC_LINEENCODING_TwoStopBits then Z.lor ConfigMask (bit USBS1) else ConfigMask in
  if DataBits l =? 6 then Z.lor ConfigMask (bit UCSZ10)
  else if DataBits l =? 7 then Z.lor ConfigMask (bit UCSZ11)
  else if DataBits l =? 8 then Z.lor ConfigMask (Z.lor (bit UCSZ11) (bit UCSZ10)) else ConfigMask.

Definition LineEncodingChanged (i : USB_ClassInfo_CDC_Device_t) : io unit :=
  cmd (c_Register UCSR1B 0);; cmd (c_Register UCSR1A 0);; cmd (c_Register UCSR1C 0);;
  ubrr ← get (SERIAL_2X_UBBRVAL (BaudRateBPS (LineEncoding i)));
  cmd (c_Register UBRR1 (u16 ubrr));;
  cmd (c_Register UCSR1C (line_config (LineEncoding i)));;
  cmd (c_Register UCSR1A (bit U2X1));;
  cmd (c_Register UCSR1B (Z.lor (Z.lor (bit RXCIE1) (bit TXEN1)) (bit RXEN1))).

#[export] Instance bridge_application : CDCApplication unit :=
  {| EVENT_CDC_Device_LineEncodingChanged := fun i _ => LineEncodingChanged i;
     EVENT_CDC_Device_ControLineStateChanged := fun _ _ => mret tt;
     EVENT_CDC_Device_BreakSent := fun _ _ _ => mret tt |}.

Definition VirtualSerial_CDC_Interface : USB_ClassInfo_CDC_Device_t :=
  mk_cdc 0 (mk_endpoint (Z.lor 0x80 3) 16 0 1) (mk_endpoint 4 16 0 1) (mk_endpoint (Z.lor 0x80 2) 8 0 1)
    0 0 (mk_line 0 0 0 0).

(** The two buffers, as [main] initialises them. *)
Record bridge := mk_bridge { USBtoUSART_Buffer : RingBuffer_t; USARTtoUSB_Buffer : RingBuffer_t }.
Definition start_bridge : bridge :=
  mk_bridge (RingBuffer_InitBuffer (repeat 0 128) 128) (RingBuffer_InitBuffer (repeat 0 128) 128).

Section main.
Context (fuel : nat).

(** [Serial_SendByte] *)
Fixpoint wait_transmitter (n : nat) : io unit :=
  match n with
  | O => loops
  | S n =>
      status ← ask_u8 (q_Register UCSR1A);
      if truthy (Z.land status (bit UDRE1)) then mret tt else wait_transmitter n
  end.
Definition Serial_SendByte (DataByte : Z) : io unit :=
  wait_transmitter fuel;; cmd (c_Register UDR1 (u8 DataByte)).

(** The interrupt handler. *)
Definition USART1_RX_vect (b : RingBuffer_t) : io RingBuffer_t :=
  ReceivedByte ← ask_u8 (q_Register UDR1);
  s ← USB_DeviceState;
  if s =? DEVICE_STATE_Configured then get (RingBuffer_Insert b ReceivedByte) else mret b.

(** It runs as long as a byte is waiting. *)
Fixpoint interrupts (n : nat) (b : RingBuffer_t) : io RingBuffer_t :=
  match n with
  | O => loops
  | S n =>
      status ← ask_u8 (q_Register UCSR1A);
      if truthy (Z.land status (bit RXC1)) then b ← USART1_RX_vect b; interrupts n b else mret b
  end.

(** From the host to the first buffer. *)
Definition receive_from_host (i : USB_ClassInfo_CDC_Device_t) (b : RingBuffer_t) : io RingBuffer_t :=
  if negb (RingBuffer_IsFull b) then
    ReceivedByte ← CDC_Device_ReceiveByte i;
    if negb (ReceivedByte <? 0) then get (RingBuffer_Insert b (u8 ReceivedByte)) else mret b
  else mret b.

(** [while (BufferCount--)]: from the second buffer to the host. *)
Fixpoint send_to_host (BufferCount : nat) (i : USB_ClassInfo_CDC_Device_t) (b : RingBuffer_t) : io RingBuffer_t :=
  match BufferCount with
  | O => mret b
  | S n =>
      b ← interrupts fuel b;
      d ← get (RingBuffer_Peek b);
      e ← CDC_Device_SendByte fuel i d;
      if negb (e =? ENDPOINT_READYWAIT_NoError) then mret b else
      b ← interrupts fuel b;
      '(_, b) ← get (RingBuffer_Remove b);
      send_to_host n i b
  end.

Definition flush_to_host (i : USB_ClassInfo_CDC_Device_t) (b : RingBuffer_t) : io RingBuffer_t :=
  b ← interrupts fuel b;
  let BufferCount := RingBuffer_GetCount b in
  flags ← ask_u8 (q_Register TIFR0);
  if truthy (Z.land flags (bit TOV0)) || (96 <? BufferCount) then
    flags ← ask_u8 (q_Register TIFR0);
    cmd (c_Register TIFR0 (Z.lor flags (bit TOV0)));;
    send_to_host (Z.to_nat BufferCount) i b
  else mret b.

(** From the first buffer to the USART. *)
Definition send_to_serial (b : RingBuffer_t) : io RingBuffer_t :=
  if negb (RingBuffer_IsEmpty b) then
    '(d, b) ← get (RingBuffer_Remove b);
    Serial_SendByte d;;
    mret b
  else mret b.

(** One pass of the main loop. *)
Definition bridge_pass (i : USB_ClassInfo_CDC_Device_t) (s : bridge) : io bridge :=
  u ← receive_from_host i (USBtoUSART_Buffer s);
  r ← flush_to_host i (USARTtoUSB_Buffer s);
  u ← send_to_serial u;
  CDC_Device_USBTask fuel i;;
  cmd c_USBTask;;
  mret (mk_bridge u r).

(** Passes of the loop; the requests [USB_USBTask] handles may change the interface
    between two of them. *)
Fixpoint bridge_loop (ports : list USB_ClassInfo_CDC_Device_t) (s : bridge) : io bridge :=
  match ports with
  | [] => mret s
  | i :: ports => s ← bridge_pass i s; bridge_loop ports s
  end.
End main.
