(* ===== verification/CDCDeviceSpec.v ===== *)
(** * The line encoding of the virtual serial port

    What SET_LINE_ENCODING stores GET_LINE_ENCODING returns, and what the bridge makes of
    it: the settings of the USART, and the division the handler does not guard. *)
From S2P Require Import Prelude ConfigDescriptors USBIo Endpoint EndpointSpec ControlStream DeviceRequests DeviceRequestsSpec HIDDevice HIDDeviceSpec NetBuffers RNDISDevice RingBuffer CDCDevice USBtoSerial.

(** The law of the application: its reaction to a line encoding with a baud rate leaves
    the endpoints alone. *)
Class CDCApplicationOk (A : Type) `{!CDCApplication A} := {
    line_changed_ok : forall h i a t, BaudRateBPS (LineEncoding i) <> 0 ->
      wp false h (EVENT_CDC_Device_LineEncodingChanged i a) t (fun _ s => sent s = [] /\ received s = [])
  }.

(** Four bytes as a number, little end first. *)
Definition word (b0 b1 b2 b3 : Z) : Z := b0 + Z.shiftl b1 8 + Z.shiftl b2 16 + Z.shiftl b3 24.

Lemma word_eq b0 b1 b2 b3 : word b0 b1 b2 b3 = b0 + 256 * (b1 + 256 * (b2 + 256 * b3)).
Proof. unfold word. rewrite !Z.shiftl_mul_pow2 by lia. change (2 ^ 8) with 256. change (2 ^ 16) with 65536. change (2 ^ 24) with 16777216. lia. Qed.

Lemma word_bytes b0 b1 b2 b3 : is_byte b0 -> is_byte b1 -> is_byte b2 -> is_byte b3 ->
  [u8 (Z.land (word b0 b1 b2 b3) 255); u8 (Z.shiftr (word b0 b1 b2 b3) 8);
   u8 (Z.shiftr (word b0 b1 b2 b3) 16); u8 (Z.shiftr (word b0 b1 b2 b3) 24)] = [b0; b1; b2; b3].
Proof.
  unfold is_byte. intros H0 H1 H2 H3. rewrite word_eq, (land_mask_wrap 8) by lia.
  unfold u8, wrap. rewrite !Z.shiftr_div_pow2 by lia.
  change (2 ^ 8) with 256. change (2 ^ 16) with 65536. change (2 ^ 24) with 16777216.
  f_equal; [zdm|]. f_equal; [zdm|]. f_equal; [zdm|]. f_equal. zdm.
Qed.

Section driver.
Context {A : Type} `{!CDCApplication A, !CDCApplicationOk A}.
Context (h : hw) (fuel : nat) (Hc : configured h).

Lemma poll_attached_true n q t : q <> q_Read_8 -> q <> q_SPDR ->
  wp false h (poll_attached n (ask_bool q)) t (fun b s => b = true /\ silent s).
Proof.
  intros Hq Hs. revert t. induction n as [|n IH]; intros t; [done|]. cbn [poll_attached].
  do 3 wp_step; [wp_step; auto with trace|]. do 3 wp_step.
  rewrite <- H1, Hc. change (u8 _ =? _) with false. cbv match.
  eapply wp_mono; [apply IH|]. intros b s [-> ?]. auto with trace.
Qed.

Lemma status_stage_quiet d t :
  wp false h (Endpoint_ClearStatusStage fuel (USB_ControlRequest d)) t (fun _ s => sent s = [] /\ received s = []).
Proof.
  unfold Endpoint_ClearStatusStage. wp_step; wp_step.
  all: eapply wp_mono; [apply poll_attached_true; discriminate|]; intros b s [-> Hs]; cbn beta; cbv match; wp_step; wp_step.
  all: by rewrite sent_app, received_app, silent_sent, silent_received.
Qed.

Context (d : device) (i : USB_ClassInfo_CDC_Device_t) (a : A).
Context (Hset : forall t, h t q_IsSETUPReceived <> 0).

Definition is_cdc_request (type req : Z) : Prop :=
  bmRequestType (USB_ControlRequest d) = type /\ bRequest (USB_ControlRequest d) = req /\
  wIndex (USB_ControlRequest d) = ControlInterfaceNumber i.

Definition line_bytes (l : CDC_LineEncoding_t) : list Z :=
  [u8 (Z.land (BaudRateBPS l) 255); u8 (Z.shiftr (BaudRateBPS l) 8); u8 (Z.shiftr (BaudRateBPS l) 16);
   u8 (Z.shiftr (BaudRateBPS l) 24); u8 (CharFormat l); u8 (ParityType l); u8 (DataBits l)].

(** The first three tests: a SETUP packet for this interface. *)
Lemma enter_request type req t Q :
  is_cdc_request type req ->
  (forall x, wp false h (
     if req =? CDC_REQ_GetLineEncoding then
       if type =? class_to_host then get_line_encoding fuel (USB_ControlRequest d) i;; mret (i, a) else mret (i, a)
     else if req =? CDC_REQ_SetLineEncoding then
       if type =? class_to_device then set_line_encoding fuel (USB_ControlRequest d) i a else mret (i, a)
     else fault) (t ++ [Ask q_IsSETUPReceived x]) (fun r s => Q r ([Ask q_IsSETUPReceived x] ++ s))) ->
  wp false h (CDC_Device_ProcessControlRequest fuel d i a) t Q.
Proof.
  intros (E1 & E2 & E3) H. unfold CDC_Device_ProcessControlRequest. rewrite E1, E2, E3, Z.eqb_refl.
  do 4 wp_step; [exfalso; bprop; apply (Hset t); congruence|]. cbv zeta. cbn [negb].
  specialize (H a0). case_match; [exact H|]. case_match; [exact H|]. done.
Qed.

Lemma get_line_run t : is_cdc_request class_to_host CDC_REQ_GetLineEncoding ->
  wp false h (CDC_Device_ProcessControlRequest fuel d i a) t (fun x s =>
    x = (i, a) /\ sent s = line_bytes (LineEncoding i)).
Proof.
  intros H. apply (enter_request _ _ _ _ H). intros x. rewrite !Z.eqb_refl. cbv match. unfold get_line_encoding.
  repeat wp_step. eapply wp_mono; [apply wait_in_ready_silent|]. intros ? s Hs. cbn beta in *. repeat wp_step.
  eapply wp_mono; [apply status_stage_quiet|]. intros ? s' [W R]. cbn beta in *. repeat wp_step. split; [done|].
  autorewrite with trace_rw. rewrite (silent_sent s), W by done. done.
Qed.

Lemma set_line_run t B : is_cdc_request class_to_device CDC_REQ_SetLineEncoding ->
  delivers h t B -> Forall is_byte B -> length B = 7%nat -> take 4 B <> [0; 0; 0; 0] ->
  wp false h (CDC_Device_ProcessControlRequest fuel d i a) t (fun x s =>
    (exists l, x.1 = set_LineEncoding l i /\ line_bytes l = B) /\ sent s = []).
Proof.
  intros H Hd HB HL Hnz. apply (enter_request _ _ _ _ H). intros x. change (_ =? CDC_REQ_GetLineEncoding) with false.
  rewrite !Z.eqb_refl. cbv match. unfold set_line_encoding. do 3 wp_step. wp_step.
  eapply wp_mono; [by apply poll_attached_true|]. intros ? s [-> Hs]. cbn [negb]. cbv match. repeat wp_step.
  repeat match goal with
  | H : h _ q_Read_8 = _ |- _ => rewrite <- !app_assoc, Hd, !received_app, (silent_received s) in H by done; cbn in H
  end.
  do 7 (destruct B as [|? B]; [done|]). destruct B; [|done]. cbn in *. subst.
  repeat match goal with H : Forall _ (_ :: _) |- _ => inversion_clear H end.
  rewrite !u8_small by done. eapply wp_mono; [apply status_stage_quiet|]. intros ? s1 [W1 R1]. cbn beta.
  change (?b0 + Z.shiftl ?b1 8 + Z.shiftl ?b2 16 + Z.shiftl ?b3 24) with (word b0 b1 b2 b3).
  wp_step. eapply wp_mono; [apply line_changed_ok|].
  { cbn. intros E. apply Hnz. rewrite word_eq in E. unfold is_byte in *. repeat f_equal; lia. }
  intros a' s2 [W2 R2]. cbn beta. wp_step. split.
  - eexists. split; [done|]. unfold line_bytes. cbn [BaudRateBPS CharFormat ParityType DataBits].
    change [?a; ?b; ?c; ?d; ?e; ?f; ?g] with ([a; b; c; d] ++ [e; f; g]).
    rewrite word_bytes by done. by rewrite !u8_small.
  - autorewrite with trace_rw. rewrite (silent_sent s) by done. change (sent (s1 ++ s2 ++ []) = []). by rewrite !sent_app, W1, W2.
Qed.
End driver.

(** The line encoding comes back as it was set: the seven bytes the host sends with
    SET_LINE_ENCODING, with a baud rate other than zero, are the bytes the device sends
    on the next GET_LINE_ENCODING. *)
Theorem line_encoding_round_trip {A} `{!CDCApplication A, !CDCApplicationOk A} h fuel d1 d2 i (a : A) t B :
  configured h -> (forall t, h t q_IsSETUPReceived <> 0) ->
  is_cdc_request d1 i class_to_device CDC_REQ_SetLineEncoding ->
  is_cdc_request d2 i class_to_host CDC_REQ_GetLineEncoding ->
  delivers h t B -> Forall is_byte B -> length B = 7%nat -> take 4 B <> [0; 0; 0; 0] ->
  wp false h ('(i', a') ← CDC_Device_ProcessControlRequest fuel d1 i a;
              CDC_Device_ProcessControlRequest fuel d2 i' a') t (fun x s =>
    sent s = B /\ line_bytes (LineEncoding x.1) = B).
Proof.
  intros Hc Hset H1 H2 Hd HB HL Hnz. wp_step. eapply wp_mono; [by eapply set_line_run|].
  intros [i' a'] s [(l & E & Hl) W]. cbn in E. subst i'. cbv beta iota. eapply wp_mono; [by apply get_line_run|].
  intros x s' [-> W']. by rewrite sent_app, W, W'.
Qed.

(** A division by zero: the handler of the bridge does not expect a baud rate of zero. *)
Theorem zero_baud_rate_faults i h t : BaudRateBPS (LineEncoding i) = 0 -> LineEncodingChanged i h t = Faults.
Proof. intros E. unfold LineEncodingChanged. rewrite E. done. Qed.

#[export] Instance bridge_application_ok : CDCApplicationOk unit.
Proof.
  split. intros h i a t Hb. cbn. unfold LineEncodingChanged. do 6 wp_step.
  unfold SERIAL_2X_UBBRVAL. rewrite (proj2 (Z.eqb_neq _ _) Hb). repeat wp_step; done.
Qed.

(** ** Witnesses *)

(** A host that sends the line encoding 9600 8N1. *)
Definition line_9600 : list Z := [0x80; 0x25; 0; 0; 0; 0; 8].
Definition line_host : hw := fun t q =>
  match q with
  | q_DeviceState => DEVICE_STATE_Configured
  | q_Read_8 => nth (length (received t)) line_9600 0
  | _ => 1
  end.

Lemma line_encoding_round_trip_witness :
  match ('(i', a') ← CDC_Device_ProcessControlRequest 3 (device0 (mk_request 33 32 0 0 7)) VirtualSerial_CDC_Interface tt;
         CDC_Device_ProcessControlRequest 3 (device0 (mk_request 161 33 0 0 7)) i' a') line_host [] with
  | Returns (x, s) => sent s = line_9600 /\ BaudRateBPS (LineEncoding x.1) = 9600
  | _ => False
  end.
Proof.
  pose proof (line_encoding_round_trip line_host 3 (device0 (mk_request 33 32 0 0 7)) (device0 (mk_request 161 33 0 0 7))
    VirtualSerial_CDC_Interface tt [] line_9600 (fun t => eq_refl) ltac:(done) ltac:(done) ltac:(done) (fun s => eq_refl)
    ltac:(apply (bool_decide_eq_true_1 _); by vm_compute) eq_refl ltac:(done)) as H.
  wp_run H.
  destruct H as (s' & -> & Hs & _). split; [exact Hs|]. vm_compute in E. injection E as <- _. reflexivity.
Defined.
