(* ===== verification/SerialSpec.v ===== *)
(** * The serial port loses nothing

    The bridge of [USBtoSerial.v] as two byte streams: what it reads from the host it
    writes to the USART, whatever the host and the line do, and what it receives from
    the USART it sends to the host as long as the line does not run ahead of the host
    by more than the buffer.  In every case no access leaves a buffer. *)
From S2P Require Import Prelude ConfigDescriptors USBIo Endpoint EndpointSpec Quiet ControlStream DeviceRequests DeviceRequestsSpec HIDDevice NetBuffers RNDISDevice RingBuffer RingBufferSpec CDCDevice USBtoSerial.

(** ** The four streams *)

(** The bytes read from the USART, and those written to it. *)
Definition uart_in (t : list event) : list Z :=
  omap (fun e => match e with Ask (q_Register UDR1) a => Some (u8 a) | _ => None end) t.
Definition serial_out (t : list event) : list Z :=
  omap (fun e => match e with Cmd (c_Register UDR1 b) => Some b | _ => None end) t.

Lemma uart_in_app t t' : uart_in (t ++ t') = uart_in t ++ uart_in t'.
Proof. apply omap_app. Qed.
Lemma serial_out_app t t' : serial_out (t ++ t') = serial_out t ++ serial_out t'.
Proof. apply omap_app. Qed.

(** The bytes read from the host, written to the USART, read from it, and written to
    the host in [s]. *)
Definition moves (s : list event) (r o u w : list Z) : Prop :=
  received s = r /\ serial_out s = o /\ uart_in s = u /\ sent s = w.

Lemma moves_app s s' r o u w r' o' u' w' :
  moves s r o u w -> moves s' r' o' u' w' -> moves (s ++ s') (r ++ r') (o ++ o') (u ++ u') (w ++ w').
Proof.
  intros (<- & <- & <- & <-) (<- & <- & <- & <-). unfold moves.
  by rewrite received_app, serial_out_app, uart_in_app, sent_app.
Qed.

(** Events without data, before or after. *)
Lemma moves_cons e s r o u w : moves [e] [] [] [] [] -> moves s r o u w -> moves (e :: s) r o u w.
Proof. apply (moves_app [e]). Qed.
Lemma moves_snoc s s' r o u w : moves s r o u w -> moves s' [] [] [] [] -> moves (s ++ s') r o u w.
Proof. intros H H'. pose proof (moves_app _ _ _ _ _ _ _ _ _ _ H H') as G. by rewrite !app_nil_r in G. Qed.
Lemma moves_skip s s' r o u w : moves s [] [] [] [] -> moves s' r o u w -> moves (s ++ s') r o u w.
Proof. apply (moves_app s). Qed.

Lemma moves_quiet s : silent s -> Forall on_stream s -> moves s [] [] [] [].
Proof.
  intros Hs Ho. split_and!; [by apply silent_received| |..|by apply silent_sent].
  all: induction Ho as [|[[] ?|[]] s [??] Ho IH]; try done; inversion Hs; subst; try done; by apply IH.
Qed.

Ltac moved := repeat first [done|assumption|apply moves_cons|apply moves_skip|apply moves_snoc].

(** ** The buffers *)

(** The pointers are in the array, which holds bytes: no operation can fault. *)
Record ring_ok (b : RingBuffer_t) : Prop := {
    ro_data : Z.of_nat (length (rb_Data b)) = rb_Size b;
    ro_in : 0 <= rb_In b < rb_Size b;
    ro_out : 0 <= rb_Out b < rb_Size b;
    ro_bytes : Forall is_byte (rb_Data b)
  }.

Lemma next_slot_range b p : 0 <= p < rb_Size b -> 0 <= next_slot b p < rb_Size b.
Proof. intros. unfold next_slot. case_match; bprop; lia. Qed.

Lemma insert_ok b d : ring_ok b -> is_byte d ->
  exists b', RingBuffer_Insert b d = Some b' /\ ring_ok b' /\ rb_Size b' = rb_Size b.
Proof.
  intros [Hd Hi Ho Hb] Hx. unfold RingBuffer_Insert, store_in.
  destruct (arr_set_is_Some (rb_Data b) (rb_In b) d) as [l Hs]; [lia|]. rewrite Hs. cbn. eexists. split_and!; [done| |done].
  split; cbn; [by rewrite (arr_set_length _ _ _ _ Hs)|by apply (next_slot_range (mk_ring _ _ _ _ _))|done|].
  apply arr_set_Some in Hs as [_ ->]. by apply Forall_insert.
Qed.

Lemma peek_ok b : ring_ok b -> exists d, RingBuffer_Peek b = Some d /\ is_byte d.
Proof.
  intros [Hd Hi Ho Hb]. destruct (arr_get_is_Some (rb_Data b) (rb_Out b)) as [d Hg]; [lia|]. exists d. split; [done|].
  by eapply (arr_get_Forall is_byte).
Qed.

Lemma remove_ok b : ring_ok b ->
  exists d b', RingBuffer_Remove b = Some (d, b') /\ RingBuffer_Peek b = Some d /\ is_byte d /\ ring_ok b' /\ rb_Size b' = rb_Size b.
Proof.
  intros H. destruct (peek_ok _ H) as (d & Hg & Hx). destruct H as [Hd Hi Ho Hb]. unfold RingBuffer_Peek in Hg.
  unfold RingBuffer_Remove. rewrite Hg. cbn. eexists d, _. split_and!; try done.
  split; cbn; try done. by apply next_slot_range.
Qed.

(** The interrupts insert one byte after the other. *)
Fixpoint insert_all (l : list Z) (b : RingBuffer_t) : option RingBuffer_t :=
  match l with [] => Some b | d :: l => b ← RingBuffer_Insert b d; insert_all l b end.

Lemma insert_all_ok l : Forall is_byte l -> forall b, ring_ok b ->
  exists b', insert_all l b = Some b' /\ ring_ok b' /\ rb_Size b' = rb_Size b.
Proof.
  induction 1 as [|d l Hd _ IH]; intros b Hb; [by exists b|]. destruct (insert_ok b d Hb Hd) as (b1 & E & H1 & S1). cbn.
  rewrite E. cbn. destruct (IH b1 H1) as (b' & ? & ? & ?). exists b'. by rewrite <- S1.
Qed.

Lemma insert_all_queue l : forall b b' q, insert_all l b = Some b' -> holds_queue b q ->
  Z.of_nat (length q) + Z.of_nat (length l) <= rb_Size b -> holds_queue b' (q ++ l).
Proof.
  induction l as [|d l IH]; intros b b' q E Hq Hr; cbn in *; [injection E as <-; by rewrite app_nil_r|].
  destruct (insert_queue b q d Hq) as (b1 & E1 & H1 & S1); [lia|]. rewrite E1 in E. cbn in E.
  rewrite cons_middle, app_assoc. apply (IH b1); [done..|]. rewrite S1, length_app. cbn. lia.
Qed.

(** ** The CDC driver *)

Section bridge.
Context (h : hw) (fuel : nat).

Lemma wait_moves t : wp false h (Endpoint_WaitUntilReady fuel) t (fun _ s => moves s [] [] [] []).
Proof.
  eapply wp_mono; [apply wp_emits; [apply av_wait|apply wait_until_ready]|]. intros c s [[? ?] ?].
  by apply moves_quiet.
Qed.

Lemma not_open_moves i t : wp false h (not_open i) t (fun _ s => moves s [] [] [] []).
Proof. unfold not_open. repeat wp_step. done. Qed.

Lemma receive_byte i t : wp false h (CDC_Device_ReceiveByte i) t (fun x s =>
  (x = -1 /\ moves s [] [] [] []) \/ (0 <= x < 256 /\ moves s [x] [] [] [])).
Proof.
  unfold CDC_Device_ReceiveByte. wp_step. eapply wp_mono; [apply not_open_moves|]. intros b s Hs. cbn beta.
  do 2 wp_step; [left; split; [done|]; moved|].
  repeat wp_step; first [left; split; [done|]; moved; fail|right; split; [apply u8_range|]; by moved].
Qed.

Lemma send_byte i d t : 0 <= d < 256 -> wp false h (CDC_Device_SendByte fuel i d) t (fun e s =>
  moves s [] [] [] (if e =? ENDPOINT_READYWAIT_NoError then [d] else [])).
Proof.
  intros Hd. unfold CDC_Device_SendByte. wp_step. eapply wp_mono; [apply not_open_moves|]. intros b s Hs. cbn beta.
  do 2 wp_step; [moved|]. do 5 wp_step.
  eapply (wp_mono _ _ _ _ (fun _ s => moves s [] [] [] [])).
  { do 2 wp_step; [|done]. repeat wp_step. eapply wp_mono; [apply wait_moves|]. intros; moved. }
  intros e s' Hs'. cbn beta. do 2 wp_step.
  - bprop. rewrite (proj2 (Z.eqb_neq _ _)) by done. moved.
  - autounfold with usbio. rewrite u8_small by done. repeat wp_step. moved.
Qed.

Lemma flush_moves i t : wp false h (CDC_Device_Flush fuel i) t (fun _ s => moves s [] [] [] []).
Proof.
  unfold CDC_Device_Flush. wp_step. eapply wp_mono; [apply not_open_moves|]. intros b s Hs. cbn beta.
  repeat wp_step; try moved. eapply wp_mono; [apply wait_moves|]. intros c s' Hs'. cbn beta. repeat wp_step; moved.
Qed.

Lemma task_moves i t : wp false h (CDC_Device_USBTask fuel i) t (fun _ s => moves s [] [] [] []).
Proof.
  unfold CDC_Device_USBTask. wp_step. eapply wp_mono; [apply not_open_moves|]. intros b s Hs. cbn beta.
  repeat wp_step; [moved|]. eapply wp_mono; [apply flush_moves|]. intros. wp_step. moved.
Qed.

(** ** The interrupt handler *)

Lemma interrupts_moves n : forall b t, ring_ok b ->
  wp false h (interrupts n b) t (fun b' s => moves s [] [] (uart_in s) [] /\ ring_ok b' /\ rb_Size b' = rb_Size b /\
    (configured h -> insert_all (uart_in s) b = Some b')).
Proof.
  induction n as [|n IH]; intros b t Hb; [done|]. cbn [interrupts]. do 3 wp_step; [|by wp_step].
  unfold USART1_RX_vect. do 6 wp_step. destruct (insert_ok b (u8 a0) Hb (u8_range _)) as (b1 & E1 & Hb1 & S1).
  apply (wp_mono _ _ _ _ (fun b1 s => s = [] /\ ring_ok b1 /\ rb_Size b1 = rb_Size b /\
    (configured h -> RingBuffer_Insert b (u8 a0) = Some b1))).
  { destruct (u8 a1 =? _) eqn:E; wp_step; [exact E1|done|]. split_and!; [done..|]. intros Hc. rewrite <- H2, Hc in E. done. }
  intros b2 s (-> & Hb2 & S2 & E2). eapply wp_mono; [by apply IH|]. intros b' s ((R & O & _ & W) & Hb' & S' & E).
  change (uart_in _) with (u8 a0 :: uart_in s). split_and!; [by split_and!|done|congruence|].
  intros Hc. cbn. rewrite (E2 Hc). by apply E.
Qed.
End bridge.

(** ** From the serial line to the host

    [n] bytes are waiting before [s], and fewer than [size] at any point of it. *)
Definition fits (size n : Z) (s : list event) : Prop :=
  forall s1 s2, s = s1 ++ s2 -> n + Z.of_nat (length (uart_in s1)) - Z.of_nat (length (sent s1)) < size.

Lemma fits_l size n s s' : fits size n (s ++ s') -> fits size n s.
Proof. intros H s1 s2 ->. apply (H s1 (s2 ++ s')). by rewrite app_assoc. Qed.
Lemma fits_r size n s s' : fits size n (s ++ s') ->
  fits size (n + Z.of_nat (length (uart_in s)) - Z.of_nat (length (sent s))) s'.
Proof.
  intros H s1 s2 ->. specialize (H (s ++ s1) s2). rewrite uart_in_app, sent_app, !length_app in H.
  rewrite <- app_assoc in H. specialize (H eq_refl). lia.
Qed.
Lemma fits_all size n s : fits size n s -> n + Z.of_nat (length (uart_in s)) - Z.of_nat (length (sent s)) < size.
Proof. intros H. apply (H s []). by rewrite app_nil_r. Qed.

Section to_host.
Context (h : hw) (fuel : nat) (i : USB_ClassInfo_CDC_Device_t).

(** From [b] to [b'] the bytes received in [s] are sent, in order, if [b] holds at least
    [n]. *)
Definition forwards (n : nat) (b b' : RingBuffer_t) (s : list event) : Prop :=
  ring_ok b' /\ rb_Size b' = rb_Size b /\
  (configured h -> forall q, holds_queue b q -> (n <= length q)%nat -> fits (rb_Size b) (Z.of_nat (length q)) s ->
    exists q', holds_queue b' q' /\ q ++ uart_in s = sent s ++ q').

Lemma forwards_app n m b b1 b' s s' :
  forwards n b b1 s -> forwards m b1 b' s' -> (m <= n - length (sent s))%nat -> forwards n b b' (s ++ s').
Proof.
  intros (H1 & S1 & F1) (H2 & S2 & F2) Hn. split_and!; [done|congruence|]. intros Hc q Hq Hl Hf.
  destruct (F1 Hc q Hq Hl) as (q1 & Hq1 & E1); [by eapply fits_l|]. apply fits_r in Hf.
  pose proof E1 as L. apply (f_equal length) in L. rewrite !length_app in L.
  destruct (F2 Hc q1 Hq1) as (q' & Hq' & E2); [lia| |].
  { rewrite S1. by replace (Z.of_nat (length q1)) with (Z.of_nat (length q) + Z.of_nat (length (uart_in s)) - Z.of_nat (length (sent s))) by lia. }
  exists q'. split; [done|]. by rewrite uart_in_app, sent_app, app_assoc, E1, <- !app_assoc, E2.
Qed.

Lemma forwards_same n b s r o : ring_ok b -> moves s r o [] [] -> forwards n b b s.
Proof. intros Hb (_ & _ & Hu & Hs). split_and!; [done..|]. intros _ q Hq _ _. exists q. by rewrite Hu, Hs, app_nil_r. Qed.

Lemma forwards_skip n b b' s s' : ring_ok b -> moves s [] [] [] [] -> forwards n b b' s' -> forwards n b b' (s ++ s').
Proof. intros Hb Hs F. eapply (forwards_app n n); [by eapply forwards_same|exact F|]. destruct Hs as (_ & _ & _ & ->). cbn. lia. Qed.

Lemma forwards_insert n b b' s r o : ring_ok b' -> rb_Size b' = rb_Size b ->
  (configured h -> insert_all (uart_in s) b = Some b') -> moves s r o (uart_in s) [] -> forwards n b b' s.
Proof.
  intros Hb' S' E (_ & _ & _ & Hs). split_and!; [done..|]. intros Hc q Hq _ Hf. exists (q ++ uart_in s). rewrite Hs. split; [|done].
  apply fits_all in Hf. rewrite Hs in Hf. cbn in Hf. apply (insert_all_queue (uart_in s) b); [auto|done|lia].
Qed.

(** A byte that is sent, and removed after some more have been inserted. *)
Lemma forwards_byte b b1 b2 d x l s s' :
  RingBuffer_Peek b = Some d -> moves s [] [] [] [d] -> moves s' [] [] l [] ->
  (configured h -> insert_all l b = Some b1) -> rb_Size b1 = rb_Size b ->
  RingBuffer_Remove b1 = Some (x, b2) -> ring_ok b2 -> rb_Size b2 = rb_Size b1 -> forwards 1 b b2 (s ++ s').
Proof.
  intros Hp Hs Hs' E S1 Er H2 S2. pose proof (moves_app _ _ _ _ _ _ _ _ _ _ Hs Hs') as (_ & _ & Hu & Hw). cbn in Hu, Hw.
  split_and!; [done|congruence|]. intros Hc q Hq Hl Hf. apply fits_all in Hf. rewrite Hu, Hw in Hf. cbn in Hf.
  destruct q as [|y q]; [cbn in Hl; lia|]. rewrite (peek_queue _ _ _ Hq) in Hp. injection Hp as ->.
  pose proof (insert_all_queue l b b1 _ (E Hc) Hq) as H1. destruct (remove_queue b1 d (q ++ l)) as (b3 & E3 & H3 & _); [apply H1; lia|].
  rewrite Er in E3. injection E3 as -> ->. exists (q ++ l). by rewrite Hu, Hw.
Qed.

Lemma interrupts_forward n b t : ring_ok b ->
  wp false h (interrupts fuel b) t (fun b' s => forwards n b b' s /\ moves s [] [] (uart_in s) []).
Proof.
  intros Hb. eapply wp_mono; [by apply interrupts_moves|]. intros b' s (Hs & H' & S' & E).
  split; [by eapply forwards_insert|done].
Qed.

Lemma send_to_host_forward n : forall b t, ring_ok b ->
  wp false h (send_to_host fuel n i b) t (fun b' s => forwards n b b' s /\ received s = [] /\ serial_out s = []).
Proof.
  induction n as [|n IH]; intros b t Hb; cbn [send_to_host].
  { wp_step. split; [by eapply forwards_same|done]. }
  wp_step. eapply wp_mono; [by apply (interrupts_forward (S n))|]. intros b1 s1 [F1 M1]. cbn beta.
  destruct (peek_ok b1 ltac:(apply F1)) as (d & Hp & Hd). wp_step. wp_step; [exact Hp|]. wp_step.
  eapply wp_mono; [by apply send_byte|]. intros e s2 M2. cbn beta in M2 |- *. wp_step.
  { wp_step. destruct (e =? _); [done|]. rewrite app_nil_r. pose proof M1 as (? & ? & _ & W1). split.
    - eapply forwards_app; [exact F1|eapply (forwards_same (S n)); [apply F1|exact M2]|rewrite W1; cbn; lia].
    - destruct (moves_app _ _ _ _ _ _ _ _ _ _ M1 M2) as (? & ? & _). done. }
  destruct (e =? _); [|done]. wp_step. eapply wp_mono; [apply interrupts_moves, F1|].
  intros b2 s3 (M3 & H2 & S2 & E2). cbn beta. destruct (remove_ok b2 H2) as (x & b3 & E3 & _ & _ & H3 & S3).
  wp_step. wp_step; [exact E3|]. cbv beta iota. eapply wp_mono; [by apply IH|]. intros b' s4 (F4 & R4 & O4).
  pose proof (forwards_byte _ _ _ _ _ _ _ _ Hp M2 M3 E2 S2 E3 H3 S3) as F3.
  pose proof (moves_app _ _ _ _ _ _ _ _ _ _ M2 M3) as M23.
  pose proof (moves_app _ _ _ _ _ _ _ _ _ _ M1 M23) as (R & O & _).
  change (s1 ++ _) with (s1 ++ s2 ++ s3 ++ s4).
  replace (s1 ++ s2 ++ s3 ++ s4) with ((s1 ++ (s2 ++ s3)) ++ s4) by by rewrite <- !app_assoc.
  split; [|by rewrite received_app, serial_out_app, R, O, R4, O4].
  pose proof M1 as (_ & _ & _ & W1). destruct M23 as (_ & _ & _ & W23).
  eapply forwards_app; [|exact F4|].
  - destruct F3 as (? & ? & F3). eapply (forwards_app (S n) 1); [exact F1| |rewrite W1; cbn; lia]. by split.
  - rewrite sent_app, W1, W23. cbn. lia.
Qed.

(** The count of a buffer is the length of its queue. *)
Lemma forwards_count b b' s : forwards (Z.to_nat (RingBuffer_GetCount b)) b b' s -> forwards 0 b b' s.
Proof.
  intros (H & S & F). split_and!; [done..|]. intros Hc q Hq _. apply F; [done..|].
  unfold RingBuffer_GetCount. rewrite (hq_count _ _ Hq). lia.
Qed.

Lemma flush_forward b t : ring_ok b ->
  wp false h (flush_to_host fuel i b) t (fun b' s => forwards 0 b b' s /\ received s = [] /\ serial_out s = []).
Proof.
  intros Hb. unfold flush_to_host. wp_step. eapply wp_mono; [by apply (interrupts_forward 0)|].
  intros b1 s1 [F1 M1]. cbn beta zeta. pose proof M1 as (R1 & O1 & _ & W1). wp_step. wp_step. wp_step.
  - do 4 wp_step. eapply wp_mono; [apply send_to_host_forward, F1|]. intros b' s2 (F2 & R2 & O2).
    rewrite !received_app, !serial_out_app, R1, R2, O1, O2. split; [|done].
    eapply (forwards_app 0 0); [exact F1| |by rewrite W1].
    do 3 (apply forwards_skip; [apply F1|done|]). by apply forwards_count.
  - wp_step. rewrite app_nil_r, !received_app, !serial_out_app, R1, O1. split; [|done].
    eapply (forwards_app 0 0); [exact F1|by eapply forwards_same; [apply F1|]|by rewrite W1].
Qed.
End to_host.

(** ** From the host to the serial line *)

(** The bytes read from the host in [s] are written to the line, in order. *)
Definition transmits (b b' : RingBuffer_t) (s : list event) : Prop :=
  rb_Size b' = rb_Size b /\
  forall q, holds_queue b q -> exists q', holds_queue b' q' /\ q ++ received s = serial_out s ++ q'.

Section from_host.
Context (h : hw) (fuel : nat) (i : USB_ClassInfo_CDC_Device_t).

Lemma transmits_app b b1 b' s s' : transmits b b1 s -> transmits b1 b' s' -> transmits b b' (s ++ s').
Proof.
  intros [S1 H1] [S2 H2]. split; [congruence|]. intros q Hq. destruct (H1 q Hq) as (q1 & Hq1 & E1).
  destruct (H2 q1 Hq1) as (q' & Hq' & E2). exists q'. split; [done|].
  by rewrite received_app, serial_out_app, app_assoc, E1, <- !app_assoc, E2.
Qed.

Lemma transmits_same b s : received s = [] -> serial_out s = [] -> transmits b b s.
Proof. intros R O. split; [done|]. intros q Hq. exists q. by rewrite R, O, app_nil_r. Qed.

Lemma receive_transmits b q t : holds_queue b q -> ring_ok b ->
  wp false h (receive_from_host i b) t (fun b' s => transmits b b' s /\ ring_ok b' /\ sent s = [] /\ uart_in s = []).
Proof.
  intros Hq Hb. unfold receive_from_host. wp_step; [|by wp_step; split; [apply transmits_same|]].
  bprop. wp_step. eapply wp_mono; [apply receive_byte|]. intros x s [[-> (R & O & U & W)]|[Hx (R & O & U & W)]]; cbn beta.
  - change (negb _) with false. cbv match. wp_step. rewrite app_nil_r. split; [by apply transmits_same|done].
  - rewrite (proj2 (Z.ltb_ge _ _)) by lia. change (negb _) with true. cbv match.
    assert (Z.of_nat (length q) < rb_Size b) as Hr.
    { pose proof (hq_room _ _ Hq). destruct (decide (Z.of_nat (length q) = rb_Size b)) as [E|]; [|lia].
      apply (full_queue _ _ Hq) in E. congruence. }
    rewrite u8_small by done. destruct (insert_queue b q x Hq Hr) as (b' & E & H' & S').
    destruct (insert_ok b x Hb Hx) as (b2 & E2 & H2 & _). rewrite E in E2. injection E2 as <-.
    wp_step; [exact E|]. rewrite app_nil_r. split; [|done]. split; [done|]. intros q0 Hq0.
    rewrite <- (contents_queue _ _ Hq0), (contents_queue _ _ Hq), R, O. by exists (q ++ [x]).
Qed.

Lemma serial_send_byte d t : wp false h (Serial_SendByte fuel d) t (fun _ s => moves s [] [u8 d] [] []).
Proof.
  unfold Serial_SendByte. wp_step. apply (wp_mono _ _ _ _ (fun _ s => moves s [] [] [] [])).
  { generalize fuel. intros n. revert t. induction n as [|n IH]; intros t; [done|]. cbn [wait_transmitter].
    do 3 wp_step; [by wp_step|]. eapply wp_mono; [apply IH|]. intros. by apply moves_skip. }
  intros _ s Hs. wp_step. by apply moves_skip.
Qed.

Lemma send_transmits b q t : holds_queue b q -> ring_ok b ->
  wp false h (send_to_serial fuel b) t (fun b' s => transmits b b' s /\ ring_ok b' /\ sent s = [] /\ uart_in s = []).
Proof.
  intros Hq Hb. unfold send_to_serial. wp_step; [|by wp_step; split; [apply transmits_same|]].
  destruct q as [|x q].
  { pose proof (proj2 (empty_queue _ _ Hq) eq_refl) as E. rewrite E in H. done. }
  destruct (remove_ok b Hb) as (y & b1 & E & Hp & Hx & H1 & S1). rewrite (peek_queue _ _ _ Hq) in Hp. injection Hp as ->.
  destruct (remove_queue b y q Hq) as (b2 & E2 & H2 & S2). rewrite E in E2. injection E2 as <-.
  wp_step. wp_step; [exact E|]. cbv beta iota. wp_step. eapply wp_mono; [apply serial_send_byte|].
  intros _ s (R & O & U & W). wp_step. change ([] ++ s ++ []) with (s ++ []). rewrite app_nil_r.
  split_and!; [|done..]. split; [done|]. intros q0 Hq0. rewrite <- (contents_queue _ _ Hq0), (contents_queue _ _ Hq), R, O, u8_small by done.
  exists q. by rewrite app_nil_r.
Qed.
End from_host.

(** ** The bridge *)

Section bridge_spec.
Context (h : hw) (fuel : nat).

Definition bridge_ok (s : bridge) : Prop :=
  ring_ok (USBtoUSART_Buffer s) /\ (exists q, holds_queue (USBtoUSART_Buffer s) q) /\ ring_ok (USARTtoUSB_Buffer s).

Definition bridges (a b : bridge) (s : list event) : Prop :=
  bridge_ok b /\ transmits (USBtoUSART_Buffer a) (USBtoUSART_Buffer b) s /\
  forwards h 0 (USARTtoUSB_Buffer a) (USARTtoUSB_Buffer b) s.

(** What is sent to the host does not concern the first buffer, nor what is received
    from it the second one. *)
Lemma transmits_data b b' s s' : received s = received s' -> serial_out s = serial_out s' -> transmits b b' s' -> transmits b b' s.
Proof. unfold transmits. by intros -> ->. Qed.

Lemma bridge_pass_ok i b t : bridge_ok b -> wp false h (bridge_pass fuel i b) t (bridges b).
Proof.
  intros (Hu & [q Hq] & Hr). unfold bridge_pass. wp_step. eapply wp_mono; [by apply (receive_transmits h i _ q)|].
  intros u1 s1 (T1 & Hu1 & W1 & U1). cbn beta. wp_step. eapply wp_mono; [by apply flush_forward|].
  intros r1 s2 (F2 & R2 & O2). cbn beta. wp_step. destruct (T1) as [S1 Q1]. destruct (Q1 q Hq) as (q1 & Hq1 & E1).
  eapply wp_mono; [by apply (send_transmits h fuel u1 q1)|]. intros u2 s3 (T3 & Hu2 & W3 & U3). cbn beta.
  wp_step. eapply wp_mono; [apply task_moves|]. intros _ s4 (R4 & O4 & U4 & W4). do 2 wp_step. wp_step.
  destruct T3 as [S3 Q3]. destruct (Q3 q1 Hq1) as (q2 & Hq2 & E3). split; [|split].
  - split_and!; cbn; [done|by exists q2|apply F2].
  - cbn [USBtoUSART_Buffer]. apply (transmits_data _ _ _ (s1 ++ s3)); [..|by apply (transmits_app _ u1)].
    + rewrite !received_app, R2, R4. cbn. by rewrite app_nil_r.
    + rewrite !serial_out_app, O2, O4. cbn. by rewrite app_nil_r.
  - cbn [USARTtoUSB_Buffer]. eapply (forwards_app _ 0 0); [by eapply forwards_same|eapply (forwards_app _ 0 0); [exact F2| |lia]|lia].
    eapply forwards_same; [apply F2|]. apply moves_snoc; [by split_and!|]. apply moves_skip; [by split_and!|done].
Qed.


Lemma bridge_loop_ok ports : forall b t, bridge_ok b -> wp false h (bridge_loop fuel ports b) t (bridges b).
Proof.
  induction ports as [|i ports IH]; intros b t Hb; cbn [bridge_loop]; wp_step.
  { split; [done|]. split; [by apply transmits_same|]. eapply forwards_same; [apply Hb|done]. }
  eapply wp_mono; [by apply bridge_pass_ok|]. intros b1 s1 (Hb1 & T1 & F1). eapply wp_mono; [by apply IH|].
  intros b2 s2 (Hb2 & T2 & F2). split; [done|]. split; [by eapply transmits_app|]. eapply (forwards_app _ 0 0); [done..|lia].
Qed.

Lemma start_queue : holds_queue (RingBuffer_InitBuffer (repeat 0 128) 128) [].
Proof. apply (init_queue (repeat 0 128)); cbn; lia. Qed.

Lemma start_bridge_ok : bridge_ok start_bridge.
Proof.
  assert (ring_ok (RingBuffer_InitBuffer (repeat 0 128) 128)).
  { split; [done..|]. by apply (bool_decide_eq_true_1 _); vm_compute. }
  split_and!; [done| |done]. exists []. apply start_queue.
Qed.

(** C29: the USB to serial bridge passes on what the host sends: in every run of the main
    loop, whatever the host, the line and the requests in between do, the bytes read
    from the host are those written to the USART, in order, followed by the contents of
    the buffer, and no access leaves a buffer. *)
Theorem host_bytes_transmitted ports t :
  wp false h (bridge_loop fuel ports start_bridge) t (fun b s =>
    received s = serial_out s ++ contents (USBtoUSART_Buffer b)).
Proof.
  eapply wp_mono; [apply bridge_loop_ok, start_bridge_ok|]. intros b s (_ & (_ & T) & _).
  destruct (T []) as (q & Hq & E); [apply start_queue|]. by rewrite (contents_queue _ _ Hq).
Qed.

(** C28: the bridge passes on what the serial line receives: while the device is
    configured, and as long as the line is never 128 bytes ahead of the host, the bytes
    the receive interrupts took from the USART are those sent to the host, in order,
    followed by the contents of the buffer, wherever the interrupts occur. *)
Theorem serial_bytes_forwarded ports t :
  configured h ->
  wp false h (bridge_loop fuel ports start_bridge) t (fun b s =>
    fits 128 0 s -> uart_in s = sent s ++ contents (USARTtoUSB_Buffer b)).
Proof.
  intros Hc. eapply wp_mono; [apply bridge_loop_ok, start_bridge_ok|]. intros b s (_ & _ & (_ & _ & F)) Hf.
  destruct (F Hc []) as (q & Hq & E); [apply start_queue|cbn; lia|done|]. by rewrite (contents_queue _ _ Hq).
Qed.
End bridge_spec.

(** ** Witnesses *)

(** A board on whose line two bytes arrive while the host polls. *)
Definition busy_line : hw := fun t q =>
  match q with
  | q_DeviceState => DEVICE_STATE_Configured
  | q_Register UCSR1A => if decide (length (uart_in t) < 2)%nat then 0xA0 else 0x20
  | q_Register UDR1 => 65 + Z.of_nat (length (uart_in t))
  | q_Register TIFR0 => 1
  | q_IsReadWriteAllowed | q_IsINReady => 1
  | _ => 0
  end.

(** The same interface after the host has set the line. *)
Definition open_port : USB_ClassInfo_CDC_Device_t := set_LineEncoding (mk_line 9600 0 0 8) VirtualSerial_CDC_Interface.

(** How far the line is ahead of the host at its furthest. *)
Fixpoint furthest (n : Z) (s : list event) : Z :=
  match s with
  | [] => n
  | e :: s => n `max` furthest (n + Z.of_nat (length (uart_in [e])) - Z.of_nat (length (sent [e]))) s
  end.

Lemma furthest_fits size s : forall n, furthest n s < size -> fits size n s.
Proof.
  induction s as [|e s IH]; intros n Hf s1 s2 E; cbn [furthest] in Hf.
  - symmetry in E. apply app_eq_nil in E as [-> ->]. cbn. lia.
  - destruct s1 as [|e' s1]; [cbn; lia|]. injection E as <- ->. specialize (IH _ ltac:(exact (Z.le_lt_trans _ _ _ (Z.le_max_r _ _) Hf)) s1 s2 eq_refl).
    change (e :: s1) with ([e] ++ s1). rewrite uart_in_app, sent_app, !length_app. lia.
Qed.

Lemma serial_bytes_forwarded_witness :
  match bridge_loop 4 [open_port; open_port] start_bridge busy_line [] with
  | Returns (b, s) => uart_in s = [65; 66] /\ uart_in s = sent s ++ contents (USARTtoUSB_Buffer b)
  | _ => False
  end.
Proof.
  pose proof (serial_bytes_forwarded busy_line 4 [open_port; open_port] [] (fun t => eq_refl)) as H.
  apply wp_run_eq in H. destruct (bridge_loop _ _ _ _ _) as [[b s]| |] eqn:E; [|exact H|vm_compute in E; discriminate E].
  destruct H as (s' & -> & H). cbn [app]. assert (furthest 0 s' < 128) as Hf.
  { vm_compute in E. injection E as _ <-. reflexivity. }
  split; [|apply H, furthest_fits, Hf]. vm_compute in E. injection E as _ <-. reflexivity.
Defined.
