(* ===== verification/Pipe.v ===== *)
(** * The pipe layer of the host

    [LUFA/Drivers/USB/Core/AVR8/Pipe_AVR8.c], [Pipe_AVR8.h] and [PipeStream_AVR8.c]:
    the counterpart of the endpoint layer when the controller is the host.  Accesses
    to the registers of the selected pipe are events; the code computes the values of
    the configuration registers itself, so these are modelled as registers. *)
From S2P Require Import Prelude ConfigDescriptors USBIo Endpoint.

Definition PIPE_READYWAIT_NoError := 0.
Definition PIPE_READYWAIT_PipeStalled := 1.
Definition PIPE_READYWAIT_DeviceDisconnected := 2.
Definition PIPE_READYWAIT_Timeout := 3.

Definition PIPE_RWSTREAM_NoError := 0.
Definition PIPE_RWSTREAM_PipeStalled := 1.
Definition PIPE_RWSTREAM_DeviceDisconnected := 2.
Definition PIPE_RWSTREAM_Timeout := 3.
Definition PIPE_RWSTREAM_IncompleteTransfer := 4.

Definition PIPE_CONTROLPIPE := 0.
Definition PIPE_TOTAL_PIPES := 7.
Definition PIPE_MAX_SIZE := 256.
Definition PIPE_CONTROLPIPE_DEFAULT_SIZE := 64.
Definition PIPE_DIR_IN := 128.
Definition PIPE_EPNUM_MASK := 15.
Definition PIPE_PIPENUM_MASK := 15.
Definition EP_TYPE_CONTROL := 0.

(** Bits of the configuration registers. *)
Definition PEPNUM0 := 0.
Definition PEPNUM1 := 1.
Definition PTOKEN0 := 4.
Definition EPTYPE0 := 6.
Definition ALLOC := 1.
Definition EPSIZE0 := 4.
Definition EPDIR := 0.

Definition PIPE_TOKEN_SETUP := Z.shiftl 0 PTOKEN0.
Definition PIPE_TOKEN_IN := Z.shiftl 1 PTOKEN0.
Definition PIPE_TOKEN_OUT := Z.shiftl 2 PTOKEN0.

(** Host states, [Host.h]. *)
Definition HOST_STATE_WaitForDevice := 0.
Definition HOST_STATE_Unattached := 1.
Definition HOST_STATE_Powered := 2.
Definition HOST_STATE_Powered_WaitForDeviceSettle := 3.
Definition HOST_STATE_Powered_WaitForConnect := 4.
Definition HOST_STATE_Powered_DoReset := 5.
Definition HOST_STATE_Powered_ConfigPipe := 6.
Definition HOST_STATE_Default := 7.
Definition HOST_STATE_Default_PostReset := 8.
Definition HOST_STATE_Default_PostAddressSet := 9.
Definition HOST_STATE_Addressed := 10.
Definition HOST_STATE_Configured := 11.

(** ** The primitives *)

Definition host_bool (q : host_query) : io bool := ask_bool (q_Host q).
Definition host_cmd (c : host_command) : io unit := cmd (c_Host c).
Definition read_pipe_reg (r : pipe_register) : io Z := ask_u8 (q_Host (p_Register r)).
Definition write_pipe_reg (r : pipe_register) (v : Z) : io unit := cmd (c_Host (k_Register r (u8 v))).

Definition Pipe_IsINReceived : io bool := host_bool p_IsINReceived.
Definition Pipe_IsOUTReady : io bool := host_bool p_IsOUTReady.
Definition Pipe_IsSETUPSent : io bool := host_bool p_IsSETUPSent.
Definition Pipe_IsReadWriteAllowed : io bool := host_bool p_IsReadWriteAllowed.
Definition Pipe_IsStalled : io bool := host_bool p_IsStalled.
Definition Pipe_IsError : io bool := host_bool p_IsError.
Definition Pipe_IsConfigured : io bool := host_bool p_IsConfigured.
Definition Pipe_BytesInPipe : io Z := ask_u16 (q_Host p_BytesInPipe).
Definition Pipe_Read_8 : io Z := ask_u8 (q_Host p_Read_8).

Definition Pipe_SelectPipe (Address : Z) : io unit := host_cmd (k_SelectPipe (Z.land Address PIPE_PIPENUM_MASK)).
Definition Pipe_ResetPipe (Address : Z) : io unit := host_cmd (k_ResetPipe (Z.land Address PIPE_PIPENUM_MASK)).
Definition Pipe_EnablePipe : io unit := host_cmd k_EnablePipe.
Definition Pipe_DisablePipe : io unit := host_cmd k_DisablePipe.
Definition Pipe_Freeze : io unit := host_cmd k_Freeze.
Definition Pipe_Unfreeze : io unit := host_cmd k_Unfreeze.
Definition Pipe_SetInfiniteINRequests : io unit := host_cmd k_SetInfiniteINRequests.
Definition Pipe_ClearError : io unit := host_cmd k_ClearError.
Definition Pipe_ClearStall : io unit := host_cmd k_ClearStall.
Definition Pipe_ClearSETUP : io unit := host_cmd k_ClearSETUP.
Definition Pipe_ClearIN : io unit := host_cmd k_ClearIN.
Definition Pipe_ClearOUT : io unit := host_cmd k_ClearOUT.
Definition Pipe_Write_8 (Data : Z) : io unit := host_cmd (k_Write_8 (u8 Data)).
Definition Pipe_Discard_8 : io unit := _ ← Pipe_Read_8; mret tt.

Definition USB_Host_GetFrameNumber : io Z := ask_u16 (q_Host p_GetFrameNumber).
Definition USB_HostState : io Z := ask_u8 (q_Host p_HostState).

#[export] Hint Unfold host_bool host_cmd read_pipe_reg write_pipe_reg Pipe_IsINReceived Pipe_IsOUTReady Pipe_IsSETUPSent
  Pipe_IsReadWriteAllowed Pipe_IsStalled Pipe_IsError Pipe_IsConfigured Pipe_BytesInPipe Pipe_Read_8
  Pipe_SelectPipe Pipe_ResetPipe Pipe_EnablePipe Pipe_DisablePipe Pipe_Freeze Pipe_Unfreeze
  Pipe_SetInfiniteINRequests Pipe_ClearError Pipe_ClearStall Pipe_ClearSETUP Pipe_ClearIN Pipe_ClearOUT
  Pipe_Write_8 Pipe_Discard_8 USB_Host_GetFrameNumber USB_HostState : usbio.

Definition Pipe_GetPipeDirection : io Z :=
  v ← read_pipe_reg UPCFG0X; mret (if truthy (Z.land v (Z.shiftl 1 EPDIR)) then PIPE_DIR_IN else 0).

Definition Pipe_GetCurrentPipe : io Z :=
  n ← read_pipe_reg UPNUM; d ← Pipe_GetPipeDirection; mret (Z.lor (Z.land n PIPE_PIPENUM_MASK) d).

Definition Pipe_GetPipeToken : io Z := v ← read_pipe_reg UPCFG0X; mret (Z.land v (Z.shiftl 3 PTOKEN0)).

Definition Pipe_SetPipeToken (Token : Z) : io unit :=
  v ← read_pipe_reg UPCFG0X; write_pipe_reg UPCFG0X (Z.lor (Z.ldiff v (Z.shiftl 3 PTOKEN0)) Token).

Definition Pipe_GetBoundEndpointAddress : io Z :=
  v ← read_pipe_reg UPCFG0X;
  mret (Z.lor (Z.land (Z.shiftr v PEPNUM0) PIPE_EPNUM_MASK)
              (if truthy (Z.land v PEPNUM1) then 0 else ENDPOINT_DIR_IN)).

(** [CheckBytes <<= 1] until it is [Bytes] or the largest size; six rounds are enough. *)
Fixpoint size_mask (n : nat) (MaskVal CheckBytes Bytes : Z) : Z :=
  match n with
  | O => MaskVal
  | S n =>
      if (CheckBytes <? Bytes) && (CheckBytes <? PIPE_MAX_SIZE)
      then size_mask n (u8 (MaskVal + 1)) (u16 (Z.shiftl CheckBytes 1)) Bytes else MaskVal
  end.
Definition Pipe_BytesToEPSizeMask (Bytes : Z) : Z := u8 (Z.shiftl (size_mask 6 0 8 Bytes) EPSIZE0).

(** ** Configuration *)

(** [USB_Pipe_Table_t] *)
Record USB_Pipe_Table_t := mk_pipe {
    pipe_Address : Z;
    pipe_Size : Z;
    pipe_EndpointAddress : Z;
    pipe_Type : Z;
    pipe_Banks : Z
  }.

(** The pipes from [PNum] on are allocated anew, since the controller keeps the order
    of their memory; [n] are left. *)
Fixpoint configure_pipes (n : nat) (PNum Number cfg0 cfg1 : Z) : io bool :=
  match n with
  | O => mret true
  | S n =>
      Pipe_SelectPipe PNum;;
      '(UPCFG0XTemp, UPCFG1XTemp, UPCFG2XTemp, UPIENXTemp) ←
        (if PNum =? Number then mret (cfg0, cfg1, 0, 0) else
         a ← read_pipe_reg UPCFG0X; b ← read_pipe_reg UPCFG1X; c ← read_pipe_reg UPCFG2X; d ← read_pipe_reg UPIENX;
         mret (a, b, c, d));
      if negb (truthy (Z.land UPCFG1XTemp (Z.shiftl 1 ALLOC))) then configure_pipes n (PNum + 1) Number cfg0 cfg1 else
      Pipe_DisablePipe;;
      v ← read_pipe_reg UPCFG1X;
      write_pipe_reg UPCFG1X (Z.ldiff v (Z.shiftl 1 ALLOC));;
      Pipe_EnablePipe;;
      write_pipe_reg UPCFG0X UPCFG0XTemp;;
      write_pipe_reg UPCFG1X UPCFG1XTemp;;
      write_pipe_reg UPCFG2X UPCFG2XTemp;;
      write_pipe_reg UPIENX UPIENXTemp;;
      Pipe_SetInfiniteINRequests;;
      ok ← Pipe_IsConfigured;
      if negb ok then mret false else configure_pipes n (PNum + 1) Number cfg0 cfg1
  end.

Definition Pipe_ConfigurePipe (Address Type_ EndpointAddress Size Banks : Z) : io bool :=
  let Number := Z.land Address PIPE_EPNUM_MASK in
  let Token := if truthy (Z.land Address PIPE_DIR_IN) then PIPE_TOKEN_IN else PIPE_TOKEN_OUT in
  if PIPE_TOTAL_PIPES <=? Number then mret false else
  let Token := if Type_ =? EP_TYPE_CONTROL then PIPE_TOKEN_SETUP else Token in
  let cfg0 := u8 (Z.lor (Z.lor (Z.shiftl Type_ EPTYPE0) Token) (Z.shiftl (Z.land EndpointAddress PIPE_EPNUM_MASK) PEPNUM0)) in
  let cfg1 := u8 (Z.lor (Z.lor (Z.shiftl 1 ALLOC) Banks) (Pipe_BytesToEPSizeMask Size)) in
  ok ← configure_pipes (Z.to_nat (PIPE_TOTAL_PIPES - Number)) Number Number cfg0 cfg1;
  if negb ok then mret false else Pipe_SelectPipe Number;; mret true.

Fixpoint Pipe_ConfigurePipeTable (Table : list USB_Pipe_Table_t) : io bool :=
  match Table with
  | [] => mret true
  | e :: Table =>
      if negb (truthy (pipe_Address e)) then Pipe_ConfigurePipeTable Table else
      ok ← Pipe_ConfigurePipe (pipe_Address e) (pipe_Type e) (pipe_EndpointAddress e) (pipe_Size e) (pipe_Banks e);
      if negb ok then mret false else Pipe_ConfigurePipeTable Table
  end.

Fixpoint clear_pipes (n : nat) (PNum : Z) : io unit :=
  match n with
  | O => mret tt
  | S n =>
      Pipe_SelectPipe PNum;;
      write_pipe_reg UPIENX 0;; write_pipe_reg UPINTX 0;; write_pipe_reg UPCFG1X 0;;
      Pipe_DisablePipe;;
      clear_pipes n (PNum + 1)
  end.
Definition Pipe_ClearPipes : io unit := write_pipe_reg UPINT 0;; clear_pipes (Z.to_nat PIPE_TOTAL_PIPES) 0.

Fixpoint find_bound (n : nat) (PNum EndpointAddress : Z) : io bool :=
  match n with
  | O => mret false
  | S n =>
      Pipe_SelectPipe PNum;;
      ok ← Pipe_IsConfigured;
      if negb ok then find_bound n (PNum + 1) EndpointAddress else
      a ← Pipe_GetBoundEndpointAddress;
      if a =? EndpointAddress then mret true else find_bound n (PNum + 1) EndpointAddress
  end.
Definition Pipe_IsEndpointBound (EndpointAddress : Z) : io bool :=
  PrevPipeNumber ← Pipe_GetCurrentPipe;
  found ← find_bound (Z.to_nat PIPE_TOTAL_PIPES) 0 EndpointAddress;
  if found : bool then mret true else Pipe_SelectPipe PrevPipeNumber;; mret false.

(** ** Waiting and streams *)

Fixpoint pipe_wait_loop (fuel : nat) (TimeoutMSRem PreviousFrameNumber : Z) : io Z :=
  match fuel with
  | O => loops
  | S fuel =>
      token ← Pipe_GetPipeToken;
      ready ← (if token =? PIPE_TOKEN_IN then Pipe_IsINReceived else Pipe_IsOUTReady);
      if ready : bool then mret PIPE_READYWAIT_NoError else
      stalled ← Pipe_IsStalled;
      if stalled : bool then mret PIPE_READYWAIT_PipeStalled else
      s ← USB_HostState;
      if s =? HOST_STATE_Unattached then mret PIPE_READYWAIT_DeviceDisconnected else
      CurrentFrameNumber ← USB_Host_GetFrameNumber;
      if negb (CurrentFrameNumber =? PreviousFrameNumber) then
        if negb (truthy TimeoutMSRem) then mret PIPE_READYWAIT_Timeout
        else pipe_wait_loop fuel (u8 (TimeoutMSRem - 1)) CurrentFrameNumber
      else pipe_wait_loop fuel TimeoutMSRem PreviousFrameNumber
  end.

Definition Pipe_WaitUntilReady (fuel : nat) : io Z :=
  PreviousFrameNumber ← USB_Host_GetFrameNumber;
  pipe_wait_loop fuel USB_STREAM_TIMEOUT_MS PreviousFrameNumber.

(** The macros of a stream template, with its token. *)
Record pipe_template := {
    TEMPLATE_TOKEN : Z;
    CLEAR_PIPE : io unit;
    PIPE_OFFSET : Z -> Z;
    PIPE_MOVE : Z -> Z -> Z;
    PIPE_TRANSFER : list Z -> Z -> io (list Z)
  }.

Definition pipe_write_byte (Buffer : list Z) (DataStream : Z) : io (list Z) :=
  b ← get (arr_get Buffer DataStream); Pipe_Write_8 b;; mret Buffer.
Definition pipe_read_byte (Buffer : list Z) (DataStream : Z) : io (list Z) :=
  b ← Pipe_Read_8; get (arr_set Buffer DataStream b).

Section template_rw.
Context (T : pipe_template).

Fixpoint pipe_stream_loop (fuel : nat) (Buffer : list Z) (DataStream Length BytesInTransfer : Z)
    (BytesProcessed : option Z) : io (Z * list Z * option Z) :=
  match fuel with
  | O => loops
  | S fuel' =>
      if negb (truthy Length) then mret (PIPE_RWSTREAM_NoError, Buffer, BytesProcessed) else
      allowed ← Pipe_IsReadWriteAllowed;
      if negb allowed then
        CLEAR_PIPE T;;
        match BytesProcessed with
        | Some b => mret (PIPE_RWSTREAM_IncompleteTransfer, Buffer, Some (u16 (b + BytesInTransfer)))
        | None =>
            ErrorCode ← Pipe_WaitUntilReady fuel;
            if truthy ErrorCode then mret (ErrorCode, Buffer, BytesProcessed)
            else pipe_stream_loop fuel' Buffer DataStream Length BytesInTransfer BytesProcessed
        end
      else
        Buffer ← PIPE_TRANSFER T Buffer DataStream;
        pipe_stream_loop fuel' Buffer (PIPE_MOVE T DataStream 1) (u16 (Length - 1))
          (u16 (BytesInTransfer + 1)) BytesProcessed
  end.

(** [Template_Pipe_RW.c] *)
Definition Template_Pipe_RW (fuel : nat) (Buffer : list Z) (Length : Z)
    (BytesProcessed : option Z) : io (Z * list Z * option Z) :=
  let DataStream := PIPE_OFFSET T Length in
  Pipe_SetPipeToken (TEMPLATE_TOKEN T);;
  ErrorCode ← Pipe_WaitUntilReady fuel;
  if truthy ErrorCode then mret (ErrorCode, Buffer, BytesProcessed) else
  let DataStream := match BytesProcessed with Some b => PIPE_MOVE T DataStream b | None => DataStream end in
  pipe_stream_loop fuel Buffer DataStream (remaining Length BytesProcessed) 0 BytesProcessed.
End template_rw.

Definition pipe_write_LE := {| TEMPLATE_TOKEN := PIPE_TOKEN_OUT; CLEAR_PIPE := Pipe_ClearOUT;
  PIPE_OFFSET := fun _ => 0; PIPE_MOVE := Z.add; PIPE_TRANSFER := pipe_write_byte |}.
Definition pipe_write_BE := {| TEMPLATE_TOKEN := PIPE_TOKEN_OUT; CLEAR_PIPE := Pipe_ClearOUT;
  PIPE_OFFSET := fun l => l - 1; PIPE_MOVE := Z.sub; PIPE_TRANSFER := pipe_write_byte |}.
Definition pipe_read_LE := {| TEMPLATE_TOKEN := PIPE_TOKEN_IN; CLEAR_PIPE := Pipe_ClearIN;
  PIPE_OFFSET := fun _ => 0; PIPE_MOVE := Z.add; PIPE_TRANSFER := pipe_read_byte |}.
Definition pipe_read_BE := {| TEMPLATE_TOKEN := PIPE_TOKEN_IN; CLEAR_PIPE := Pipe_ClearIN;
  PIPE_OFFSET := fun l => l - 1; PIPE_MOVE := Z.sub; PIPE_TRANSFER := pipe_read_byte |}.

Definition Pipe_Write_Stream_LE := Template_Pipe_RW pipe_write_LE.
Definition Pipe_Write_Stream_BE := Template_Pipe_RW pipe_write_BE.
Definition Pipe_Read_Stream_LE := Template_Pipe_RW pipe_read_LE.
Definition Pipe_Read_Stream_BE := Template_Pipe_RW pipe_read_BE.

(** ** Discard and null streams

    [task] is what runs before waiting for the next packet: [USB_USBTask] in
    [Pipe_Null_Stream], nothing in [Pipe_Discard_Stream]. *)
Fixpoint pipe_plain_loop (fuel : nat) (clear task transfer : io unit) (Length BytesInTransfer : Z)
    (BytesProcessed : option Z) : io (Z * option Z) :=
  match fuel with
  | O => loops
  | S fuel' =>
      if negb (truthy Length) then mret (PIPE_RWSTREAM_NoError, BytesProcessed) else
      allowed ← Pipe_IsReadWriteAllowed;
      if negb allowed then
        clear;;
        match BytesProcessed with
        | Some b => mret (PIPE_RWSTREAM_IncompleteTransfer, Some (u16 (b + BytesInTransfer)))
        | None =>
            task;;
            ErrorCode ← Pipe_WaitUntilReady fuel;
            if truthy ErrorCode then mret (ErrorCode, BytesProcessed)
            else pipe_plain_loop fuel' clear task transfer Length BytesInTransfer BytesProcessed
        end
      else
        transfer;;
        pipe_plain_loop fuel' clear task transfer (u16 (Length - 1)) (u16 (BytesInTransfer + 1)) BytesProcessed
  end.

Definition Pipe_Discard_Stream (fuel : nat) (Length : Z) (BytesProcessed : option Z) : io (Z * option Z) :=
  Pipe_SetPipeToken PIPE_TOKEN_IN;;
  ErrorCode ← Pipe_WaitUntilReady fuel;
  if truthy ErrorCode then mret (ErrorCode, BytesProcessed) else
  pipe_plain_loop fuel Pipe_ClearIN (mret tt) Pipe_Discard_8 (remaining Length BytesProcessed) 0 BytesProcessed.

Definition Pipe_Null_Stream (fuel : nat) (Length : Z) (BytesProcessed : option Z) : io (Z * option Z) :=
  Pipe_SetPipeToken PIPE_TOKEN_OUT;;
  ErrorCode ← Pipe_WaitUntilReady fuel;
  if truthy ErrorCode then mret (ErrorCode, BytesProcessed) else
  pipe_plain_loop fuel Pipe_ClearOUT (cmd c_USBTask) (Pipe_Write_8 0) (remaining Length BytesProcessed) 0 BytesProcessed.

(** ** Descriptors

    [USB_GetNextDescriptorComp], for a comparator that accesses the pipes. *)
Fixpoint next_descriptor_comp (mem : list Z) (fuel : nat) (ComparatorRoutine : Z -> io Z) (c : cursor) : io (Z * cursor) :=
  match fuel with
  | O => loops
  | S fuel =>
      if negb (truthy (BytesRem c)) then mret (DESCRIPTOR_SEARCH_COMP_EndOfDescriptor, c) else
      let prev := c in
      c ← get (USB_GetNextDescriptor mem c);
      ErrorCode ← ComparatorRoutine (CurrConfigLoc c);
      if negb (ErrorCode =? DESCRIPTOR_SEARCH_NotFound)
      then mret (ErrorCode, if ErrorCode =? DESCRIPTOR_SEARCH_Fail then prev else c)
      else next_descriptor_comp mem fuel ComparatorRoutine c
  end.
