(* ===== verification/HostRequests.v ===== *)
(** * Control requests of the host

    [USB_Host_WaitMS] of [LUFA/Drivers/USB/Core/AVR8/Host_AVR8.c] and the functions of
    [LUFA/Drivers/USB/Core/HostStandardReq.c].  The global [USB_ControlRequest] is the
    argument [r]; the buffer is [None] for the null pointer, and the functions return
    it with the data received. *)
From S2P Require Import Prelude ConfigDescriptors USBIo Endpoint Pipe DeviceRequests HIDDevice NetBuffers RNDISDevice.

Definition HOST_WAITERROR_Successful := 0.
Definition HOST_WAITERROR_DeviceDisconnect := 1.
Definition HOST_WAITERROR_PipeError := 2.
Definition HOST_WAITERROR_SetupStalled := 3.

Definition HOST_SENDCONTROL_Successful := 0.
Definition HOST_SENDCONTROL_DeviceDisconnected := 1.
Definition HOST_SENDCONTROL_PipeError := 2.
Definition HOST_SENDCONTROL_SetupStalled := 3.
Definition HOST_SENDCONTROL_SoftwareTimeOut := 4.

Definition USB_HOST_TIMEOUT_MS := 1000.
Definition USB_MODE_Host := 2.

Definition USB_Host_IsBusSuspended : io bool := host_bool p_IsBusSuspended.
Definition USB_Host_ResumeBus : io unit := host_cmd k_ResumeBus.
Definition USB_Host_SuspendBus : io unit := host_cmd k_SuspendBus.
Definition USB_CurrentMode : io Z := ask_u8 (q_Host p_CurrentMode).
Definition USB_INT_HasOccurred (i : host_interrupt) : io bool := host_bool (p_HasOccurred i).
Definition USB_INT_IsEnabled (i : host_interrupt) : io bool := host_bool (p_IntEnabled i).
Definition USB_INT_Enable (i : host_interrupt) : io unit := host_cmd (k_INT_Enable i).
Definition USB_INT_Disable (i : host_interrupt) : io unit := host_cmd (k_INT_Disable i).
Definition USB_INT_Clear (i : host_interrupt) : io unit := host_cmd (k_INT_Clear i).

#[export] Hint Unfold USB_Host_IsBusSuspended USB_Host_ResumeBus USB_Host_SuspendBus USB_CurrentMode
  USB_INT_HasOccurred USB_INT_IsEnabled USB_INT_Enable USB_INT_Disable USB_INT_Clear : usbio.

(** The loop over the bytes of the header. *)
Fixpoint write_header (HeaderStream : list Z) : io unit :=
  match HeaderStream with
  | [] => mret tt
  | b :: HeaderStream => Pipe_Write_8 b;; write_header HeaderStream
  end.

Inductive wait_type : Type :=
  | USB_HOST_WAITFOR_SetupSent | USB_HOST_WAITFOR_InReceived | USB_HOST_WAITFOR_OutReady.

Section requests.
Context (fuel : nat).

(** The loop of [USB_Host_WaitMS]. *)
Fixpoint wait_ms_loop (n : nat) (MS : Z) : io Z :=
  match n with
  | O => loops
  | S n =>
      if negb (truthy MS) then mret HOST_WAITERROR_Successful else
      sof ← USB_INT_HasOccurred USB_INT_HSOFI;
      MS ← (if sof : bool then USB_INT_Clear USB_INT_HSOFI;; mret (u8 (MS - 1)) else mret MS);
      s ← USB_HostState;
      unattached ← (if s =? HOST_STATE_Unattached then mret true else
                    m ← USB_CurrentMode; mret (negb (m =? USB_MODE_Host)));
      if unattached : bool then mret HOST_WAITERROR_DeviceDisconnect else
      error ← Pipe_IsError;
      if error : bool then Pipe_ClearError;; mret HOST_WAITERROR_PipeError else
      stalled ← Pipe_IsStalled;
      if stalled : bool then Pipe_ClearStall;; mret HOST_WAITERROR_SetupStalled else
      wait_ms_loop n MS
  end.

Definition USB_Host_WaitMS (MS : Z) : io Z :=
  BusSuspended ← USB_Host_IsBusSuspended;
  HSOFIEnabled ← USB_INT_IsEnabled USB_INT_HSOFI;
  USB_INT_Disable USB_INT_HSOFI;;
  USB_INT_Clear USB_INT_HSOFI;;
  USB_Host_ResumeBus;;
  ErrorCode ← wait_ms_loop fuel MS;
  (if BusSuspended : bool then USB_Host_SuspendBus else mret tt);;
  (if HSOFIEnabled : bool then USB_INT_Enable USB_INT_HSOFI else mret tt);;
  mret ErrorCode.

Definition wait_condition (w : wait_type) : io bool :=
  match w with
  | USB_HOST_WAITFOR_SetupSent => Pipe_IsSETUPSent
  | USB_HOST_WAITFOR_InReceived => Pipe_IsINReceived
  | USB_HOST_WAITFOR_OutReady => Pipe_IsOUTReady
  end.

Fixpoint wait_for_ios (n : nat) (WaitType : wait_type) (TimeoutCounter : Z) : io Z :=
  match n with
  | O => loops
  | S n =>
      ready ← wait_condition WaitType;
      if ready : bool then mret HOST_SENDCONTROL_Successful else
      ErrorCode ← USB_Host_WaitMS 1;
      if negb (ErrorCode =? HOST_WAITERROR_Successful) then mret ErrorCode else
      if negb (truthy TimeoutCounter) then mret HOST_SENDCONTROL_SoftwareTimeOut else
      wait_for_ios n WaitType (u16 (TimeoutCounter - 1))
  end.
Definition USB_Host_WaitForIOS (WaitType : wait_type) : io Z := wait_for_ios fuel WaitType USB_HOST_TIMEOUT_MS.

(** The data stage of a read: the bytes of a packet, and the packets. *)
Fixpoint in_packet (n : nat) (Buffer : list Z) (DataStream DataLen : Z) : io (list Z * Z * Z) :=
  match n with
  | O => loops
  | S n =>
      k ← Pipe_BytesInPipe;
      if truthy k && truthy DataLen then
        b ← Pipe_Read_8;
        Buffer ← get (arr_set Buffer DataStream b);
        in_packet n Buffer (DataStream + 1) (u16 (DataLen - 1))
      else mret (Buffer, DataStream, DataLen)
  end.

Fixpoint in_packets (n : nat) (Buffer : list Z) (DataStream DataLen : Z) : io (Z * list Z) :=
  match n with
  | O => loops
  | S n =>
      if negb (truthy DataLen) then mret (HOST_SENDCONTROL_Successful, Buffer) else
      Pipe_Unfreeze;;
      ReturnStatus ← USB_Host_WaitForIOS USB_HOST_WAITFOR_InReceived;
      if negb (ReturnStatus =? HOST_SENDCONTROL_Successful) then mret (ReturnStatus, Buffer) else
      k ← Pipe_BytesInPipe;
      let DataLen := if negb (truthy k) then 0 else DataLen in
      '(Buffer, DataStream, DataLen) ← in_packet fuel Buffer DataStream DataLen;
      Pipe_Freeze;;
      Pipe_ClearIN;;
      in_packets n Buffer DataStream DataLen
  end.

(** The data stage of a write. *)
Fixpoint out_packet (n : nat) (USB_Host_ControlPipeSize : Z) (Buffer : list Z) (DataStream DataLen : Z) : io (Z * Z) :=
  match n with
  | O => loops
  | S n =>
      if negb (truthy DataLen) then mret (DataStream, DataLen) else
      k ← Pipe_BytesInPipe;
      if k <? USB_Host_ControlPipeSize then
        b ← get (arr_get Buffer DataStream);
        Pipe_Write_8 b;;
        out_packet n USB_Host_ControlPipeSize Buffer (DataStream + 1) (u16 (DataLen - 1))
      else mret (DataStream, DataLen)
  end.

Fixpoint out_packets (n : nat) (USB_Host_ControlPipeSize : Z) (Buffer : list Z) (DataStream DataLen : Z) : io Z :=
  match n with
  | O => loops
  | S n =>
      if negb (truthy DataLen) then mret HOST_SENDCONTROL_Successful else
      ReturnStatus ← USB_Host_WaitForIOS USB_HOST_WAITFOR_OutReady;
      if negb (ReturnStatus =? HOST_SENDCONTROL_Successful) then mret ReturnStatus else
      '(DataStream, DataLen) ← out_packet fuel USB_Host_ControlPipeSize Buffer DataStream DataLen;
      Pipe_ClearOUT;;
      out_packets n USB_Host_ControlPipeSize Buffer DataStream DataLen
  end.

(** The SETUP stage. *)
Definition send_setup (r : USB_Request_Header_t) : io Z :=
  USB_Host_ResumeBus;;
  ReturnStatus ← USB_Host_WaitMS 1;
  if negb (ReturnStatus =? HOST_WAITERROR_Successful) then mret ReturnStatus else
  Pipe_SetPipeToken PIPE_TOKEN_SETUP;;
  Pipe_ClearError;;
  Pipe_Unfreeze;;
  write_header (request_bytes r);;
  Pipe_ClearSETUP;;
  ReturnStatus ← USB_Host_WaitForIOS USB_HOST_WAITFOR_SetupSent;
  if negb (ReturnStatus =? HOST_SENDCONTROL_Successful) then mret ReturnStatus else
  Pipe_Freeze;;
  USB_Host_WaitMS 1.

(** The data and status stages of a read and of a write; [Buffer] is [DataStream]. *)
Definition control_in (r : USB_Request_Header_t) (Buffer : option (list Z)) : io (Z * option (list Z)) :=
  Pipe_SetPipeToken PIPE_TOKEN_IN;;
  '(ReturnStatus, Buffer) ←
    match Buffer with
    | Some b => '(ReturnStatus, b) ← in_packets fuel b 0 (wLength r); mret (ReturnStatus, Some b)
    | None => mret (HOST_SENDCONTROL_Successful, None)
    end;
  if negb (ReturnStatus =? HOST_SENDCONTROL_Successful) then mret (ReturnStatus, Buffer) else
  Pipe_SetPipeToken PIPE_TOKEN_OUT;;
  Pipe_Unfreeze;;
  ReturnStatus ← USB_Host_WaitForIOS USB_HOST_WAITFOR_OutReady;
  if negb (ReturnStatus =? HOST_SENDCONTROL_Successful) then mret (ReturnStatus, Buffer) else
  Pipe_ClearOUT;;
  ReturnStatus ← USB_Host_WaitForIOS USB_HOST_WAITFOR_OutReady;
  mret (ReturnStatus, Buffer).

Definition control_out (USB_Host_ControlPipeSize : Z) (r : USB_Request_Header_t) (Buffer : option (list Z)) : io Z :=
  ReturnStatus ←
    match Buffer with
    | Some b =>
        Pipe_SetPipeToken PIPE_TOKEN_OUT;;
        Pipe_Unfreeze;;
        ReturnStatus ← out_packets fuel USB_Host_ControlPipeSize b 0 (wLength r);
        if negb (ReturnStatus =? HOST_SENDCONTROL_Successful) then mret ReturnStatus else
        ReturnStatus ← USB_Host_WaitForIOS USB_HOST_WAITFOR_OutReady;
        if negb (ReturnStatus =? HOST_SENDCONTROL_Successful) then mret ReturnStatus else
        Pipe_Freeze;;
        mret HOST_SENDCONTROL_Successful
    | None => mret HOST_SENDCONTROL_Successful
    end;
  if negb (ReturnStatus =? HOST_SENDCONTROL_Successful) then mret ReturnStatus else
  Pipe_SetPipeToken PIPE_TOKEN_IN;;
  Pipe_Unfreeze;;
  ReturnStatus ← USB_Host_WaitForIOS USB_HOST_WAITFOR_InReceived;
  if negb (ReturnStatus =? HOST_SENDCONTROL_Successful) then mret ReturnStatus else
  Pipe_ClearIN;;
  mret HOST_SENDCONTROL_Successful.

Definition USB_Host_SendControlRequest_PRV (USB_Host_ControlPipeSize : Z) (r : USB_Request_Header_t)
    (Buffer : option (list Z)) : io (Z * option (list Z)) :=
  ReturnStatus ← send_setup r;
  if negb (ReturnStatus =? HOST_SENDCONTROL_Successful) then mret (ReturnStatus, Buffer) else
  if truthy (Z.land (bmRequestType r) REQDIR_DEVICETOHOST) then control_in r Buffer
  else ReturnStatus ← control_out USB_Host_ControlPipeSize r Buffer; mret (ReturnStatus, Buffer).

Definition USB_Host_SendControlRequest (USB_Host_ControlPipeSize : Z) (r : USB_Request_Header_t)
    (Buffer : option (list Z)) : io (Z * option (list Z)) :=
  BusSuspended ← USB_Host_IsBusSuspended;
  '(ReturnStatus, Buffer) ← USB_Host_SendControlRequest_PRV USB_Host_ControlPipeSize r Buffer;
  Pipe_Freeze;;
  (if BusSuspended : bool then USB_Host_SuspendBus else mret tt);;
  Pipe_ResetPipe PIPE_CONTROLPIPE;;
  mret (ReturnStatus, Buffer).
End requests.

(** ** The standard requests *)

Definition REQ_GetInterface := 10.
Definition REQ_SetInterface := 11.

(** The state of the host the functions share. *)
Record host := mk_host {
    WaitMSRemaining : Z;
    PostWaitState : Z;
    USB_Host_ControlPipeSize : Z;
    USB_Host_ConfigurationNumber : Z
  }.

Definition set_ConfigNumber (n : Z) (s : host) : host :=
  mk_host (WaitMSRemaining s) (PostWaitState s) (USB_Host_ControlPipeSize s) n.

Section standard.
Context (fuel : nat).

(** The requests of a read with a buffer, and of one without data. *)
Definition request_in (s : host) (r : USB_Request_Header_t) (Buffer : list Z) : io (Z * list Z) :=
  Pipe_SelectPipe PIPE_CONTROLPIPE;;
  '(e, b) ← USB_Host_SendControlRequest fuel (USB_Host_ControlPipeSize s) r (Some Buffer);
  mret (e, default Buffer b).
Definition request_none (s : host) (r : USB_Request_Header_t) : io Z :=
  Pipe_SelectPipe PIPE_CONTROLPIPE;;
  '(e, _) ← USB_Host_SendControlRequest fuel (USB_Host_ControlPipeSize s) r None;
  mret e.

Definition USB_Host_SetDeviceConfiguration (s : host) (ConfigNumber : Z) : io (Z * host) :=
  ErrorCode ← request_none s (mk_request (to_device REQREC_DEVICE) REQ_SetConfiguration ConfigNumber 0 0);
  if ErrorCode =? HOST_SENDCONTROL_Successful then
    host_cmd (k_SetHostState (if truthy ConfigNumber then HOST_STATE_Configured else HOST_STATE_Addressed));;
    mret (ErrorCode, set_ConfigNumber ConfigNumber s)
  else mret (ErrorCode, s).

Definition USB_Host_GetDeviceConfiguration (s : host) (ConfigNumber : list Z) : io (Z * list Z) :=
  request_in s (mk_request (to_host REQREC_DEVICE) REQ_GetConfiguration 0 0 1) ConfigNumber.

Definition USB_Host_GetDescriptor (s : host) (Type_ Index : Z) (Buffer : list Z) (BufferLength : Z) : io (Z * list Z) :=
  request_in s (mk_request (to_host REQREC_DEVICE) REQ_GetDescriptor (Z.lor (Z.shiftl Type_ 8) Index) 0 BufferLength) Buffer.

Definition USB_Host_GetDeviceStatus (s : host) (FeatureStatus : list Z) : io (Z * list Z) :=
  request_in s (mk_request (to_host REQREC_DEVICE) REQ_GetStatus 0 0 0) FeatureStatus.

Definition USB_Host_ClearEndpointStall (s : host) (EndpointAddress : Z) : io Z :=
  request_none s (mk_request (to_device REQREC_ENDPOINT) REQ_ClearFeature FEATURE_SEL_EndpointHalt EndpointAddress 0).

Definition USB_Host_SetInterfaceAltSetting (s : host) (InterfaceIndex AltSetting : Z) : io Z :=
  request_none s (mk_request (to_device REQREC_INTERFACE) REQ_SetInterface AltSetting InterfaceIndex 0).

Definition USB_Host_GetInterfaceAltSetting (s : host) (InterfaceIndex : Z) (AltSetting : list Z) : io (Z * list Z) :=
  request_in s (mk_request (to_host REQREC_INTERFACE) REQ_GetInterface 0 InterfaceIndex 1) AltSetting.
End standard.
