(* ===== verification/HostRequestsSpec.v ===== *)
(** * Control requests of the host on the bus

    A control request that succeeds is one SETUP transaction with the bytes of the
    request, the data in order, and the status transaction in the other direction;
    what the device sends ends up in the buffer, for every device. *)
From S2P Require Import Prelude ConfigDescriptors USBIo Endpoint EndpointSpec Quiet Pipe DeviceRequests HIDDevice NetBuffers NetLemmas RNDISDevice HostRequests.

(** ** What happens on the bus *)

(** A transaction the host starts, with the data it sends. *)
Inductive transaction : Type := T_setup (l : list Z) | T_out (l : list Z) | T_in.

(** The transactions of a history, when [cur] has been written to the pipe before; and
    what is then in the pipe. *)
Fixpoint transactions_from (cur : list Z) (s : list event) : list transaction :=
  match s with
  | [] => []
  | Cmd (c_Host c) :: s =>
      match c with
      | k_Write_8 b => transactions_from (cur ++ [b]) s
      | k_ClearSETUP => T_setup cur :: transactions_from [] s
      | k_ClearOUT => T_out cur :: transactions_from [] s
      | k_ClearIN => T_in :: transactions_from cur s
      | _ => transactions_from cur s
      end
  | _ :: s => transactions_from cur s
  end.
Definition transactions : list event -> list transaction := transactions_from [].

Fixpoint in_pipe_from (cur : list Z) (s : list event) : list Z :=
  match s with
  | [] => cur
  | Cmd (c_Host c) :: s =>
      match c with
      | k_Write_8 b => in_pipe_from (cur ++ [b]) s
      | k_ClearSETUP | k_ClearOUT => in_pipe_from [] s
      | _ => in_pipe_from cur s
      end
  | _ :: s => in_pipe_from cur s
  end.

(** The bytes the host read. *)
Definition hreceived (t : list event) : list Z :=
  omap (fun e => match e with Ask (q_Host p_Read_8) a => Some (u8 a) | _ => None end) t.

Lemma transactions_from_app s : forall cur s',
  transactions_from cur (s ++ s') = transactions_from cur s ++ transactions_from (in_pipe_from cur s) s'.
Proof. induction s as [|[|[]] s IH]; intros; cbn; auto. destruct c; cbn; rewrite ?IH; done. Qed.
Lemma in_pipe_from_app s : forall cur s', in_pipe_from cur (s ++ s') = in_pipe_from (in_pipe_from cur s) s'.
Proof. induction s as [|[|[]] s IH]; intros; cbn; auto. destruct c; cbn; rewrite ?IH; done. Qed.
Lemma hreceived_app t t' : hreceived (t ++ t') = hreceived t ++ hreceived t'.
Proof. apply omap_app. Qed.

(** From [cur] in the pipe to [cur'], by the transactions [ts], reading [l]. *)
Definition wire (cur : list Z) (s : list event) (ts : list transaction) (cur' l : list Z) : Prop :=
  transactions_from cur s = ts /\ in_pipe_from cur s = cur' /\ hreceived s = l.

Lemma wire_app c s ts c1 l s' ts' c2 l' :
  wire c s ts c1 l -> wire c1 s' ts' c2 l' -> wire c (s ++ s') (ts ++ ts') c2 (l ++ l').
Proof.
  intros (<- & <- & <-) (<- & <- & <-). split_and!; [apply transactions_from_app|apply in_pipe_from_app|apply hreceived_app].
Qed.

(** Events that start no transaction and read nothing; they leave the state of the host
    alone, too. *)
Definition calm (e : event) : Prop :=
  match e with
  | Ask (q_Host p_Read_8) _ => False
  | Cmd (c_Host (k_Write_8 _ | k_ClearSETUP | k_ClearOUT | k_ClearIN | k_SetHostState _ | k_SetDeviceAddress _ |
                 k_EnumerationComplete | k_EnumerationFailed _ _ | k_DeviceUnattached | k_ResetInterface)) => False
  | _ => True
  end.

Lemma wire_calm s : Forall calm s -> forall cur, wire cur s [] cur [].
Proof.
  induction 1 as [|e s He _ IH]; intros cur; [done|]. destruct (IH cur) as (E1 & E2 & E3). split_and!.
  all: destruct e as [[]|[]]; cbn; try done; destruct q + destruct c; done.
Qed.

Lemma wire_skip s cur s' ts c' l : Forall calm s -> wire cur s' ts c' l -> wire cur (s ++ s') ts c' l.
Proof. intros Hs H. by apply (wire_app cur s [] cur [] s' ts c' l (wire_calm s Hs cur)). Qed.
Lemma wire_end s cur s' ts c' l : Forall calm s' -> wire cur s ts c' l -> wire cur (s ++ s') ts c' l.
Proof. intros Hs H. pose proof (wire_app _ _ _ _ _ _ _ _ _ H (wire_calm s' Hs c')) as G. by rewrite !app_nil_r in G. Qed.

(** Parts that read nothing. *)
Lemma wire_quiet c s ts c1 s' ts' c2 l : wire c s ts c1 [] -> wire c1 s' ts' c2 l -> wire c (s ++ s') (ts ++ ts') c2 l.
Proof. apply wire_app. Qed.
Lemma wire_read c s ts c1 s' ts' c2 l : wire c s ts c1 l -> wire c1 s' ts' c2 [] -> wire c (s ++ s') (ts ++ ts') c2 l.
Proof. intros H H'. pose proof (wire_app _ _ _ _ _ _ _ _ _ H H') as G. by rewrite app_nil_r in G. Qed.

(** One event with data. *)
Lemma wire_clear_setup cur s ts c' l : wire [] s ts c' l -> wire cur ([Cmd (c_Host k_ClearSETUP)] ++ s) (T_setup cur :: ts) c' l.
Proof. by intros (<- & <- & <-). Qed.
Lemma wire_clear_out cur s ts c' l : wire [] s ts c' l -> wire cur ([Cmd (c_Host k_ClearOUT)] ++ s) (T_out cur :: ts) c' l.
Proof. by intros (<- & <- & <-). Qed.
Lemma wire_clear_in cur s ts c' l : wire cur s ts c' l -> wire cur ([Cmd (c_Host k_ClearIN)] ++ s) (T_in :: ts) c' l.
Proof. by intros (<- & <- & <-). Qed.

Lemma wire_read_8 cur s ts c' l a : wire cur s ts c' l -> wire cur ([Ask (q_Host p_Read_8) a] ++ s) ts c' (u8 a :: l).
Proof. by intros (<- & <- & <-). Qed.

(** Assemble a wire from its parts. *)
Ltac calms := repeat first [assumption|exact I|apply Forall_app_2|apply Forall_cons_2|apply Forall_nil_2].
Ltac wires := repeat first [eassumption|apply wire_clear_setup|apply wire_clear_out|apply wire_clear_in|
  apply wire_skip; [by calms|]|apply wire_calm; by calms|
  solve [apply wire_end; [by calms|eassumption]]|eapply wire_quiet; [eassumption|]|eapply wire_read; [eassumption|]].

(** The same when the transactions are given. *)
Ltac wires_eq :=
  rewrite <- ?app_assoc;
  lazymatch goal with
  | |- wire ?c ?s ?ts ?c' ?l =>
      let H := fresh in let E := fresh in
      assert (exists ts', wire c s ts' c' l /\ ts' = ts) as (? & H & E); [eexists; split; [by wires|done]|rewrite <- E; exact H]
  end.

(** ** Waiting *)

Section requests.
Context (h : hw) (fuel : nat).

Lemma calm_wait_ms MS : emits calm (USB_Host_WaitMS fuel MS).
Proof.
  unfold USB_Host_WaitMS. avoid. generalize fuel MS. intros n. induction n as [|n IH]; intros m; cbn [wait_ms_loop]; avoid; apply IH.
Qed.

Lemma calm_wait_ios w : emits calm (USB_Host_WaitForIOS fuel w).
Proof.
  unfold USB_Host_WaitForIOS. generalize fuel at 2, USB_HOST_TIMEOUT_MS. intros n.
  induction n as [|n IH]; intros m; cbn [wait_for_ios]; unfold wait_condition; avoid; auto using calm_wait_ms.
Qed.

Lemma wait_ms_safe MS t : wp false h (USB_Host_WaitMS fuel MS) t (fun _ _ => True).
Proof.
  unfold USB_Host_WaitMS. repeat wp_step. eapply (wp_mono _ _ _ _ (fun _ _ => True)); [|intros; repeat wp_step; done].
  match goal with |- wp _ _ _ ?x _ => generalize x end. generalize fuel MS. intros n.
  induction n as [|n IH]; intros m t'; [done|]. cbn [wait_ms_loop]. repeat wp_step; try done; apply IH.
Qed.

Lemma wait_ios_safe w t : wp false h (USB_Host_WaitForIOS fuel w) t (fun _ _ => True).
Proof.
  unfold USB_Host_WaitForIOS. generalize fuel at 2, USB_HOST_TIMEOUT_MS. intros n. revert t.
  induction n as [|n IH]; intros t m; [done|]. cbn [wait_for_ios]. unfold wait_condition.
  destruct w; repeat wp_step; try done; (eapply wp_mono; [apply wait_ms_safe|]); intros; repeat wp_step; try done; apply IH.
Qed.

Lemma wait_ms_calm MS t : wp false h (USB_Host_WaitMS fuel MS) t (fun _ s => Forall calm s).
Proof. eapply wp_emits_safe; [apply wait_ms_safe|apply calm_wait_ms|done]. Qed.
Lemma wait_ios_calm w t : wp false h (USB_Host_WaitForIOS fuel w) t (fun _ s => Forall calm s).
Proof. eapply wp_emits_safe; [apply wait_ios_safe|apply calm_wait_ios|done]. Qed.

(** ** The SETUP stage *)

Lemma write_header_wire tot l : forall cur t,
  wp tot h (write_header l) t (fun _ s => wire cur s [] (cur ++ (u8 <$> l)) []).
Proof.
  induction l as [|b l IH]; intros cur t; cbn [write_header].
  { wp_step. split_and!; [done| |done]. by rewrite app_nil_r. }
  do 3 wp_step. eapply wp_mono; [apply (IH (cur ++ [u8 b]))|]. intros _ s (E1 & E2 & E3). rewrite fmap_cons, cons_middle, app_assoc.
  by split_and!.
Qed.

Definition setup_bytes (r : USB_Request_Header_t) : list Z := u8 <$> request_bytes r.

Lemma send_setup_wire r t : wp false h (send_setup fuel r) t (fun code s =>
  exists ts, wire [] s ts [] [] /\ (code = HOST_SENDCONTROL_Successful -> ts = [T_setup (setup_bytes r)])).
Proof.
  unfold send_setup, Pipe_SetPipeToken. do 4 wp_step. eapply wp_mono; [apply wait_ms_calm|]. intros c s1 H1. cbn beta.
  wp_step; [wp_step; exists []; split; [wires|]; intros ->; done|].
  repeat wp_step. all: try done. cbn beta in *. eapply wp_mono; [apply (write_header_wire _ _ [])|]. intros ? s2 H2. cbn beta in *.
  repeat wp_step. eapply wp_mono; [apply wait_ios_calm|]. intros c' s3 H3. cbn beta in *. wp_step.
  { wp_step. eexists. split; [wires|]. by intros ->. }
  repeat wp_step. eapply wp_mono; [apply wait_ms_calm|]. intros c'' s4 Hs4. cbn beta in *. eexists. split; [wires|done].
Qed.

(** ** The data stage of a read *)

(** The data [l] is stored from [i] on. *)
Definition stored (buf : list Z) (i : Z) (l buf' : list Z) : Prop :=
  buf' = take (Z.to_nat i) buf ++ l ++ drop (Z.to_nat i + length l) buf.

Lemma stored_nil buf i : stored buf i [] buf.
Proof. unfold stored. cbn. rewrite Nat.add_0_r. by rewrite take_drop. Qed.

Lemma stored_length buf i l buf' : 0 <= i -> i + Z.of_nat (length l) <= Z.of_nat (length buf) -> stored buf i l buf' -> length buf' = length buf.
Proof. intros ? ? ->. rewrite !length_app, length_take, length_drop. lia. Qed.

Lemma stored_app buf i l buf1 l' buf' : 0 <= i -> i + Z.of_nat (length l) + Z.of_nat (length l') <= Z.of_nat (length buf) ->
  stored buf i l buf1 -> stored buf1 (i + Z.of_nat (length l)) l' buf' -> stored buf i (l ++ l') buf'.
Proof.
  intros Hi Hl -> ->. unfold stored. replace (Z.to_nat (i + Z.of_nat (length l))) with (Z.to_nat i + length l)%nat by lia.
  rewrite length_app, Nat.add_assoc. set (n := Z.to_nat i) in *.
  assert (length (take n buf) = n) as Ln by (rewrite length_take; lia).
  rewrite take_app_ge, drop_app_ge by lia. rewrite Ln.
  replace (n + length l - n)%nat with (length l) by lia. rewrite take_app_length, <- app_assoc. f_equal. rewrite <- app_assoc. do 2 f_equal.
  replace (n + length l + length l' - n)%nat with (length l + length l')%nat by lia.
  rewrite drop_app_ge by lia. replace (length l + length l' - length l)%nat with (length l') by lia. by rewrite drop_drop.
Qed.

Lemma stored_one buf i b buf' : arr_set buf i b = Some buf' -> stored buf i [b] buf'.
Proof.
  intros H. pose proof (arr_set_length _ _ _ _ H). apply arr_set_Some in H as [Hi ->]. unfold stored.
  replace (Z.to_nat i + length [b])%nat with (S (Z.to_nat i)) by (cbn; lia). apply insert_take_drop. lia.
Qed.

Lemma read_packet_wire n : forall buf i len cur t, 0 <= i -> 0 <= len < 65536 -> i + len <= Z.of_nat (length buf) ->
  wp false h (in_packet n buf i len) t (fun '(buf', i', len') s => exists l,
    wire cur s [] cur l /\ stored buf i l buf' /\ i' = i + Z.of_nat (length l) /\ len' = len - Z.of_nat (length l) /\ 0 <= len').
Proof.
  induction n as [|n IH]; intros buf i len cur t Hi Hl Hb; [done|]. cbn [in_packet]. do 3 wp_step. apply wp_if; intros Hgo.
  - apply andb_prop in Hgo as [_ Hn%truthy_neq]. do 2 wp_step. destruct (arr_set_is_Some buf i (u8 a0)) as [buf1 Hs]; [lia|].
    wp_step. wp_step; [exact Hs|]. pose proof (arr_set_length _ _ _ _ Hs) as Ls. rewrite u16_small by lia.
    eapply wp_mono; [apply (IH buf1 (i + 1) (len - 1) cur); lia|]. intros [[buf' i'] len'] s (l & Hw & Hst & -> & -> & Hpos).
    cbn beta iota. exists (u8 a0 :: l). split_and!; [|by eapply (stored_app _ _ [u8 a0]); [lia|cbn; lia|by apply stored_one|]|cbn; lia..].
    apply wire_skip; [by calms|]. by apply wire_read_8.
  - wp_step. exists []. split_and!; [wires|apply stored_nil|cbn; lia..].
Qed.

Lemma read_packets_wire n : forall buf i len t, 0 <= i -> 0 <= len < 65536 -> i + len <= Z.of_nat (length buf) ->
  wp false h (in_packets fuel n buf i len) t (fun '(code, buf') s => exists l k,
    wire [] s (replicate k T_in) [] l /\ stored buf i l buf' /\ Z.of_nat (length l) <= len).
Proof.
  induction n as [|n IH]; intros buf i len t Hi Hl Hb; [done|]. cbn [in_packets].
  wp_step; [wp_step; exists [], 0%nat; split_and!; [wires|apply stored_nil|cbn; lia]|].
  do 4 wp_step. eapply wp_mono; [apply wait_ios_calm|]. intros c s1 H1. cbn beta in *.
  wp_step; [wp_step; exists [], 0%nat; split_and!; [wires|apply stored_nil|cbn; lia]|].
  do 3 wp_step. cbv zeta.
  eapply wp_mono; [apply (read_packet_wire fuel buf i _ []); [lia|case_match; lia|case_match; lia]|].
  intros [[buf1 i1] len1] s2 (l1 & W1 & S1 & -> & -> & Hpos). cbn beta iota. do 4 wp_step.
  assert (Z.of_nat (length l1) <= len) by (case_match; lia).
  pose proof (stored_length buf i l1 buf1 Hi ltac:(lia) S1) as L1.
  set (len' := (if negb (truthy (u16 a)) then 0 else len) - Z.of_nat (length l1)) in *.
  assert (len' <= len - Z.of_nat (length l1)) by (unfold len'; case_match; lia).
  eapply wp_mono; [apply IH; [lia..|]; lia|]. intros [code buf'] s3 (l2 & k & W2 & S2 & Hl2). cbn beta iota.
  exists (l1 ++ l2), (S k). split_and!; [|eapply stored_app; [done|lia|done..]|rewrite length_app; lia].
  do 2 (apply wire_skip; [by calms|]). apply wire_skip; [by calms|].
  eapply (wire_app [] s2 [] [] l1); [done|]. apply wire_skip; [by calms|]. by apply wire_clear_in.
Qed.

Lemma control_in_wire r buf t : 0 <= wLength r < 65536 ->
  (forall b, buf = Some b -> wLength r <= Z.of_nat (length b)) ->
  wp false h (control_in fuel r buf) t (fun '(code, buf') s => exists l ts,
    wire [] s ts [] l /\ Z.of_nat (length l) <= wLength r /\
    match buf with Some b => exists b', buf' = Some b' /\ stored b 0 l b' | None => buf' = None /\ l = [] end /\
    (code = HOST_SENDCONTROL_Successful -> exists k, ts = replicate k T_in ++ [T_out []])).
Proof.
  intros Hw Hb. unfold control_in, Pipe_SetPipeToken. do 6 wp_step.
  apply (wp_mono _ _ _ _ (fun '(code, buf') s => exists l k, wire [] s (replicate k T_in) [] l /\ Z.of_nat (length l) <= wLength r /\
    match buf with Some b => exists b', buf' = Some b' /\ stored b 0 l b' | None => buf' = None /\ l = [] end)).
  { destruct buf as [b|].
    - wp_step. eapply wp_mono; [apply read_packets_wire; [done|done|]|].
      { specialize (Hb b eq_refl). lia. }
      intros [c b'] s (l & k & W & S & Hl). wp_step. exists l, k. rewrite app_nil_r. eauto 10.
    - wp_step. exists [], 0%nat. split_and!; [wires|cbn; lia|done..]. }
  intros [c buf'] s1 (l & k & W1 & Hl & Hbuf). cbv beta iota.
  wp_step; [wp_step; eexists l, _; split; [wires|]; split_and!; [done..|by intros ->]|].
  repeat wp_step. eapply wp_mono; [apply wait_ios_calm|]. intros c2 s2 H2. cbn beta in *.
  wp_step; [wp_step; eexists l, _; split; [wires|]; split_and!; [done..|by intros ->]|].
  repeat wp_step. eapply wp_mono; [apply wait_ios_calm|]. intros c3 s3 Hs3. cbn beta in *.
  wp_step. eexists l, _; split; [wires|]; split_and!; [done..|]. intros _. by exists k.
Qed.

(** ** The data stage of a write *)

Lemma slice_get buf i b : arr_get buf i = Some b -> slice i 1 buf = [b].
Proof.
  intros [Hi Hg]%arr_get_Some. unfold slice. change (Z.to_nat 1) with 1%nat. rewrite (drop_S _ _ _ Hg). done.
Qed.

Definition bytes_out (ps : list (list Z)) : list transaction := T_out <$> ps.

Lemma write_packet_wire size buf n : forall i len cur t, Forall is_byte buf -> 0 <= i -> 0 <= len < 65536 -> i + len <= Z.of_nat (length buf) ->
  wp false h (out_packet n size buf i len) t (fun '(i', len') s => exists k, 0 <= k <= len /\
    i' = i + k /\ len' = len - k /\ wire cur s [] (cur ++ slice i k buf) []).
Proof.
  induction n as [|n IH]; intros i len cur t Hbuf Hi Hl Hb; [done|]. cbn [out_packet].
  wp_step; [wp_step; exists 0; split_and!; try lia; unfold slice; cbn; rewrite app_nil_r; wires|]. bprop.
  do 4 wp_step; [|wp_step; exists 0; split_and!; try lia; unfold slice; cbn; rewrite app_nil_r; wires].
  destruct (arr_get_is_Some buf i) as [b Hg]; [lia|]. wp_step. wp_step; [exact Hg|]. do 2 wp_step.
  rewrite u16_small by lia. eapply wp_mono; [apply (IH (i + 1) (len - 1) (cur ++ [b])); done || lia|].
  intros [i' len'] s (k & Hk & -> & -> & W). cbn beta iota. exists (k + 1). split_and!; try lia.
  pose proof (arr_get_Forall is_byte _ _ _ Hg Hbuf). rewrite u8_small by done.
  rewrite Z.add_comm, slice_app, (slice_get _ _ _ Hg), (app_assoc cur) by lia. apply wire_skip; [by calms|]. destruct W as (? & ? & ?). by split_and!.
Qed.

Lemma write_packets_wire size buf n : forall i len t, Forall is_byte buf -> 0 <= i -> 0 <= len < 65536 -> i + len <= Z.of_nat (length buf) ->
  wp false h (out_packets fuel n size buf i len) t (fun code s => exists ps, wire [] s (bytes_out ps) [] [] /\
    (code = HOST_SENDCONTROL_Successful -> concat ps = slice i len buf)).
Proof.
  induction n as [|n IH]; intros i len t Hbuf Hi Hl Hb; [done|]. cbn [out_packets].
  wp_step; [wp_step; exists []; bprop; split; [wires|by rewrite H]|].
  do 1 wp_step. eapply wp_mono; [apply wait_ios_calm|]. intros c s1 H1. cbn beta in *.
  wp_step; [wp_step; exists []; split; [wires|by intros ->]|]. wp_step.
  eapply wp_mono; [apply (write_packet_wire size buf fuel i len []); done|]. intros [i1 len1] s2 (k & Hk & -> & -> & W1). cbn beta iota.
  repeat wp_step. eapply wp_mono; [apply (IH (i + k) (len - k)); done || lia|]. intros code s3 (ps & W2 & Hps). cbn beta.
  exists (slice i k buf :: ps). split.
  - apply wire_skip; [by calms|].
    apply (wire_quiet [] s2 [] (slice i k buf)); [done|]. by apply wire_clear_out.
  - intros E. cbn. rewrite (Hps E), <- slice_app by lia. f_equal. lia.
Qed.

Lemma control_out_wire size r buf t : 0 <= wLength r < 65536 ->
  (forall b, buf = Some b -> Forall is_byte b /\ wLength r <= Z.of_nat (length b)) ->
  wp false h (control_out fuel size r buf) t (fun code s => exists ts, wire [] s ts [] [] /\
    (code = HOST_SENDCONTROL_Successful -> exists ps, ts = bytes_out ps ++ [T_in] /\
      concat ps = match buf with Some b => take (Z.to_nat (wLength r)) b | None => [] end)).
Proof.
  intros Hw Hb. unfold control_out, Pipe_SetPipeToken. wp_step.
  apply (wp_mono _ _ _ _ (fun code s => exists ps, wire [] s (bytes_out ps) [] [] /\
    (code = HOST_SENDCONTROL_Successful -> concat ps = match buf with Some b => take (Z.to_nat (wLength r)) b | None => [] end))).
  { destruct buf as [b|]; [|by wp_step; exists []]. destruct (Hb b eq_refl) as [Hbytes Hlen].
    repeat wp_step. eapply wp_mono; [apply write_packets_wire; done || lia|]. intros c s1 (ps & W1 & Hps). cbn beta.
    wp_step; [wp_step; exists ps; split; [wires|by intros ->]|]. bprop. specialize (Hps H0).
    repeat wp_step. eapply wp_mono; [apply wait_ios_calm|]. intros c' s2 H2. cbn beta in *.
    repeat wp_step; exists ps; (split; [wires|]); done || by intros ->. }
  intros c s1 (ps & W1 & Hps). cbn beta. wp_step; [wp_step; eexists; split; [wires|by intros ->]|]. bprop. specialize (Hps H).
  repeat wp_step. eapply wp_mono; [apply wait_ios_calm|]. intros c' s2 H2. cbn beta in *.
  wp_step; [wp_step; eexists; split; [wires|by intros ->]|]. repeat wp_step. eexists. split; [wires|]. intros _. by exists ps.
Qed.

(** ** The whole request *)

(** The transactions of a successful request: the SETUP packet, the data and the status
    in the opposite direction. *)
Definition request_transactions (r : USB_Request_Header_t) (data : list Z) (ts : list transaction) : Prop :=
  if truthy (Z.land (bmRequestType r) REQDIR_DEVICETOHOST)
  then exists k, ts = T_setup (setup_bytes r) :: replicate k T_in ++ [T_out []]
  else exists ps, ts = T_setup (setup_bytes r) :: bytes_out ps ++ [T_in] /\ concat ps = data.

Lemma control_request_prv size r buf t : 0 <= wLength r < 65536 ->
  (forall b, buf = Some b -> Forall is_byte b /\ wLength r <= Z.of_nat (length b)) ->
  wp false h (USB_Host_SendControlRequest_PRV fuel size r buf) t (fun '(code, buf') s => exists l ts,
    wire [] s ts [] l /\ Z.of_nat (length l) <= wLength r /\
    match buf with Some b => exists b', buf' = Some b' /\ stored b 0 l b' | None => buf' = None /\ l = [] end /\
    (code = HOST_SENDCONTROL_Successful ->
      request_transactions r (match buf with Some b => take (Z.to_nat (wLength r)) b | None => [] end) ts)).
Proof.
  intros Hw Hb. unfold USB_Host_SendControlRequest_PRV.
  assert (match buf with Some b => exists b', buf = Some b' /\ stored b 0 [] b' | None => buf = None /\ @nil Z = [] end) as Hnone.
  { destruct buf; [eexists; split; [done|apply stored_nil]|done]. }
  wp_step. eapply wp_mono; [apply send_setup_wire|]. intros c s1 (ts1 & W1 & Hts1). cbn beta.
  wp_step; [wp_step; eexists [], _; split; [wires|]; split_and!; [cbn; lia|done|by intros ->]|]. bprop.
  rewrite (Hts1 H) in W1. unfold request_transactions. wp_step.
  - eapply wp_mono; [apply control_in_wire; [done|by intros b E; apply Hb]|].
    intros [code buf'] s2 (l & ts & W2 & Hl & Hbuf & Hts). rewrite H0. exists l, ([T_setup (setup_bytes r)] ++ ts).
    split; [by eapply wire_quiet|]. split_and!; [done..|]. intros E. destruct (Hts E) as [k ->]. by exists k.
  - wp_step. eapply wp_mono; [by apply control_out_wire|]. intros code s2 (ts & W2 & Hts). cbn beta. wp_step.
    rewrite H0. exists [], ([T_setup (setup_bytes r)] ++ ts). rewrite app_nil_r. split; [by eapply wire_quiet|].
    split_and!; [cbn; lia|done|]. intros E. destruct (Hts E) as (ps & -> & ?). by exists ps.
Qed.

Lemma control_request_wire size r buf t : 0 <= wLength r < 65536 ->
  (forall b, buf = Some b -> Forall is_byte b /\ wLength r <= Z.of_nat (length b)) ->
  wp false h (USB_Host_SendControlRequest fuel size r buf) t (fun '(code, buf') s => exists l ts,
    wire [] s ts [] l /\ Z.of_nat (length l) <= wLength r /\
    match buf with Some b => exists b', buf' = Some b' /\ stored b 0 l b' | None => buf' = None /\ l = [] end /\
    (code = HOST_SENDCONTROL_Successful ->
      request_transactions r (match buf with Some b => take (Z.to_nat (wLength r)) b | None => [] end) ts)).
Proof.
  intros Hw Hb. unfold USB_Host_SendControlRequest. do 4 wp_step.
  eapply wp_mono; [apply control_request_prv; done|]. intros [code buf'] s (l & ts & W & Hl & Hbuf & Hts). cbv beta iota.
  assert (forall s', Forall calm s' -> wire [] ([Ask (q_Host p_IsBusSuspended) a] ++ s ++ s') ts [] l).
  { intros. apply wire_skip; [by calms|]. by apply wire_end. }
  repeat wp_step; exists l, ts; (split; [|done]); match goal with Hx : forall s', _ |- _ => apply Hx end; calms.
Qed.

Lemma setup_bytes_eq r : Forall is_byte (request_bytes r) -> setup_bytes r = request_bytes r.
Proof. unfold setup_bytes. induction 1 as [|b l Hb _ IH]; [done|]. rewrite fmap_cons, IH. by rewrite u8_small. Qed.

(** C23: a control request of the host, whatever the device does: no access leaves the
    buffer; what the device sends is stored from its start on, and never more than was
    asked for; and a request that succeeds is, on the bus, one SETUP transaction with
    the eight bytes of the request, then the data (for a write, the first [wLength]
    bytes of the buffer in order), then the status transaction in the opposite
    direction. *)
Theorem control_request_on_bus size r buf t :
  Forall is_byte (request_bytes r) -> 0 <= wLength r < 65536 ->
  (forall b, buf = Some b -> Forall is_byte b /\ wLength r <= Z.of_nat (length b)) ->
  wp false h (USB_Host_SendControlRequest fuel size r buf) t (fun '(code, buf') s =>
    buf' = (fun b => hreceived s ++ drop (length (hreceived s)) b) <$> buf /\
    Z.of_nat (length (hreceived s)) <= wLength r /\
    (code = HOST_SENDCONTROL_Successful ->
      if truthy (Z.land (bmRequestType r) REQDIR_DEVICETOHOST)
      then exists k, transactions s = T_setup (request_bytes r) :: replicate k T_in ++ [T_out []]
      else exists ps, transactions s = T_setup (request_bytes r) :: bytes_out ps ++ [T_in] /\
        concat ps = match buf with Some b => take (Z.to_nat (wLength r)) b | None => [] end)).
Proof.
  intros Hr Hw Hb. eapply wp_mono; [by apply control_request_wire|]. intros [code buf'] s (l & ts & (<- & _ & <-) & Hl & Hbuf & Hts).
  rewrite <- setup_bytes_eq by done. split_and!; [|done|exact Hts]. destruct buf as [b|]; [|by destruct Hbuf].
  destruct Hbuf as (b' & -> & ->). done.
Qed.
End requests.
