(* ===== verification/HostTask.v ===== *)
(** * The host state machine

    [LUFA/Drivers/USB/Core/AVR8/Host_AVR8.c] and [USB_HostTask] of [USBTask.c]: the
    enumeration of an attached device, one step at a time.  [USB_HostState] is volatile
    (interrupts change it), so it is read and written through events; the static
    variables of [USB_Host_ProcessNextHostState] are in the record [host].  The first
    eight bytes the device sends are its descriptor's: [offset_Endpoint0Size] is
    [offsetof(USB_Descriptor_Device_t, Endpoint0Size)]. *)
From S2P Require Import Prelude ConfigDescriptors USBIo Endpoint Pipe DeviceRequests HIDDevice NetBuffers RNDISDevice HostRequests.

Definition HOST_ENUMERROR_NoError := 0.
Definition HOST_ENUMERROR_WaitStage := 1.
Definition HOST_ENUMERROR_ControlError := 3.
Definition HOST_ENUMERROR_PipeConfigError := 4.

Definition HOST_DEVICE_SETTLE_DELAY_MS := 1000.
Definition USB_HOST_DEVICEADDRESS := 1.
Definition ENDPOINT_CONTROLEP := 0.
Definition offset_Endpoint0Size := 7.

(** The steps of the VBUS control. *)
Definition VBUS_Manual_Off := 0.
Definition OTGPAD_On := 1.
Definition VBUS_Auto_Enable := 2.
Definition VBUS_Auto_On := 3.
Definition VBUS_Auto_Off := 4.

Definition Set_USB_HostState (State : Z) : io unit := host_cmd (k_SetHostState State).
Definition Delay_MS_1 : io unit := host_cmd k_Delay_MS.
#[export] Hint Unfold Set_USB_HostState Delay_MS_1 : usbio.

Definition set_WaitMSRemaining (v : Z) (s : host) : host :=
  mk_host v (PostWaitState s) (USB_Host_ControlPipeSize s) (USB_Host_ConfigurationNumber s).
Definition set_PostWaitState (v : Z) (s : host) : host :=
  mk_host (WaitMSRemaining s) v (USB_Host_ControlPipeSize s) (USB_Host_ConfigurationNumber s).
Definition set_ControlPipeSize (v : Z) (s : host) : host :=
  mk_host (WaitMSRemaining s) (PostWaitState s) v (USB_Host_ConfigurationNumber s).

(** [HOST_TASK_NONBLOCK_WAIT] *)
Definition nonblock_wait (Duration NextState : Z) (s : host) : io host :=
  Set_USB_HostState HOST_STATE_WaitForDevice;;
  mret (set_PostWaitState NextState (set_WaitMSRemaining Duration s)).

Section task.
Context (fuel : nat).

(** [while (!(USB_Host_IsBusResetComplete()));] *)
Fixpoint wait_bus_reset (n : nat) : io unit :=
  match n with
  | O => loops
  | S n => complete ← host_bool p_IsBusResetComplete; if complete : bool then mret tt else wait_bus_reset n
  end.

(** The workaround for powerless pull-up devices. *)
Fixpoint look_for_frame (MSRem : nat) : io unit :=
  match MSRem with
  | O => mret tt
  | S n =>
      sof ← USB_INT_HasOccurred USB_INT_HSOFI;
      if sof : bool then USB_INT_Clear USB_INT_HSOFI;; USB_INT_Clear USB_INT_DDISCI
      else Delay_MS_1;; look_for_frame n
  end.

Definition USB_Host_ResetDevice (s : host) : io host :=
  BusSuspended ← USB_Host_IsBusSuspended;
  USB_INT_Disable USB_INT_DDISCI;;
  host_cmd k_ResetBus;;
  wait_bus_reset fuel;;
  USB_Host_ResumeBus;;
  HSOFIEnabled ← USB_INT_IsEnabled USB_INT_HSOFI;
  USB_INT_Disable USB_INT_HSOFI;;
  USB_INT_Clear USB_INT_HSOFI;;
  look_for_frame 10;;
  (if HSOFIEnabled : bool then USB_INT_Enable USB_INT_HSOFI else mret tt);;
  (if BusSuspended : bool then USB_Host_SuspendBus else mret tt);;
  USB_INT_Enable USB_INT_DDISCI;;
  mret (set_ConfigNumber 0 s).

(** The result of a step: [ErrorCode], [SubErrorCode] and the state. *)
Definition step_ok (s : host) : io (Z * Z * host) := mret (HOST_ENUMERROR_NoError, HOST_ENUMERROR_NoError, s).

Definition on_wait_for_device (s : host) : io (Z * Z * host) :=
  if truthy (WaitMSRemaining s) then
    SubErrorCode ← USB_Host_WaitMS fuel 1;
    if negb (SubErrorCode =? HOST_WAITERROR_Successful) then
      Set_USB_HostState (PostWaitState s);;
      mret (HOST_ENUMERROR_WaitStage, SubErrorCode, s)
    else
      let s := set_WaitMSRemaining (u16 (WaitMSRemaining s - 1)) s in
      (if negb (truthy (WaitMSRemaining s)) then Set_USB_HostState (PostWaitState s) else mret tt);;
      step_ok s
  else step_ok s.

Definition on_settle (s : host) : io (Z * Z * host) :=
  if truthy (WaitMSRemaining s) then
    Delay_MS_1;; step_ok (set_WaitMSRemaining (u16 (WaitMSRemaining s - 1)) s)
  else
    let s := set_WaitMSRemaining (u16 (WaitMSRemaining s - 1)) s in
    host_cmd (k_VBUS VBUS_Manual_Off);;
    host_cmd (k_VBUS OTGPAD_On);;
    host_cmd (k_VBUS VBUS_Auto_Enable);;
    host_cmd (k_VBUS VBUS_Auto_On);;
    Set_USB_HostState HOST_STATE_Powered_WaitForConnect;;
    step_ok s.

Definition on_wait_for_connect (s : host) : io (Z * Z * host) :=
  connected ← USB_INT_HasOccurred USB_INT_DCONNI;
  if connected : bool then
    USB_INT_Clear USB_INT_DCONNI;;
    USB_INT_Clear USB_INT_DDISCI;;
    USB_INT_Clear USB_INT_VBERRI;;
    USB_INT_Enable USB_INT_VBERRI;;
    USB_Host_ResumeBus;;
    Pipe_ClearPipes;;
    s ← nonblock_wait 100 HOST_STATE_Powered_DoReset s;
    step_ok s
  else step_ok s.

Definition configure_control_pipe (Size : Z) : io bool :=
  Pipe_ConfigurePipe PIPE_CONTROLPIPE EP_TYPE_CONTROL ENDPOINT_CONTROLEP Size 1.

Definition on_config_pipe (s : host) : io (Z * Z * host) :=
  ok ← configure_control_pipe PIPE_CONTROLPIPE_DEFAULT_SIZE;
  if negb ok then mret (HOST_ENUMERROR_PipeConfigError, 0, s) else
  Set_USB_HostState HOST_STATE_Default;;
  step_ok s.

(** The requests of the enumeration. *)
Definition get_device_descriptor : USB_Request_Header_t :=
  mk_request (to_host REQREC_DEVICE) REQ_GetDescriptor (Z.shiftl DTYPE_Device 8) 0 8.
Definition set_device_address : USB_Request_Header_t :=
  mk_request (to_device REQREC_DEVICE) REQ_SetAddress USB_HOST_DEVICEADDRESS 0 0.

(** [DataBuffer] is not initialised. *)
Context (DataBuffer0 : list Z).

Definition on_default (s : host) : io (Z * Z * host) :=
  Pipe_SelectPipe PIPE_CONTROLPIPE;;
  '(SubErrorCode, DataBuffer) ← USB_Host_SendControlRequest fuel (USB_Host_ControlPipeSize s) get_device_descriptor (Some DataBuffer0);
  if negb (SubErrorCode =? HOST_SENDCONTROL_Successful) then mret (HOST_ENUMERROR_ControlError, SubErrorCode, s) else
  size ← get (b ← DataBuffer; arr_get b offset_Endpoint0Size);
  s ← USB_Host_ResetDevice (set_ControlPipeSize size s);
  s ← nonblock_wait 200 HOST_STATE_Default_PostReset s;
  step_ok s.

Definition on_post_reset (s : host) : io (Z * Z * host) :=
  ok ← configure_control_pipe (USB_Host_ControlPipeSize s);
  if negb ok then mret (HOST_ENUMERROR_PipeConfigError, 0, s) else
  '(SubErrorCode, _) ← USB_Host_SendControlRequest fuel (USB_Host_ControlPipeSize s) set_device_address None;
  if negb (SubErrorCode =? HOST_SENDCONTROL_Successful) then mret (HOST_ENUMERROR_ControlError, SubErrorCode, s) else
  s ← nonblock_wait 100 HOST_STATE_Default_PostAddressSet s;
  step_ok s.

Definition on_post_address_set (s : host) : io (Z * Z * host) :=
  host_cmd (k_SetDeviceAddress (Z.land USB_HOST_DEVICEADDRESS 0x7F));;
  Set_USB_HostState HOST_STATE_Addressed;;
  host_cmd k_EnumerationComplete;;
  step_ok s.

Definition enumeration_step (State : Z) (s : host) : io (Z * Z * host) :=
  if State =? HOST_STATE_WaitForDevice then on_wait_for_device s
  else if State =? HOST_STATE_Powered then
    Set_USB_HostState HOST_STATE_Powered_WaitForDeviceSettle;;
    step_ok (set_WaitMSRemaining HOST_DEVICE_SETTLE_DELAY_MS s)
  else if State =? HOST_STATE_Powered_WaitForDeviceSettle then on_settle s
  else if State =? HOST_STATE_Powered_WaitForConnect then on_wait_for_connect s
  else if State =? HOST_STATE_Powered_DoReset then
    s ← USB_Host_ResetDevice s;
    s ← nonblock_wait 200 HOST_STATE_Powered_ConfigPipe s;
    step_ok s
  else if State =? HOST_STATE_Powered_ConfigPipe then on_config_pipe s
  else if State =? HOST_STATE_Default then on_default s
  else if State =? HOST_STATE_Default_PostReset then on_post_reset s
  else if State =? HOST_STATE_Default_PostAddressSet then on_post_address_set s
  else step_ok s.

Definition USB_Host_ProcessNextHostState (s : host) : io host :=
  State ← USB_HostState;
  '(ErrorCode, SubErrorCode, s) ← enumeration_step State s;
  if ErrorCode =? HOST_ENUMERROR_NoError then mret s else
  State ← USB_HostState;
  if State =? HOST_STATE_Unattached then mret s else
  host_cmd (k_EnumerationFailed ErrorCode SubErrorCode);;
  host_cmd (k_VBUS VBUS_Auto_Off);;
  host_cmd k_DeviceUnattached;;
  host_cmd k_ResetInterface;;
  mret s.

Definition USB_HostTask (s : host) : io host :=
  PrevPipe ← Pipe_GetCurrentPipe;
  Pipe_SelectPipe PIPE_CONTROLPIPE;;
  s ← USB_Host_ProcessNextHostState s;
  Pipe_SelectPipe PrevPipe;;
  mret s.

(** The main loop calls the task over and over. *)
Fixpoint host_tasks (n : nat) (s : host) : io host :=
  match n with O => mret s | S n => s ← USB_HostTask s; host_tasks n s end.
End task.
