(* ===== verification/HostTaskSpec.v ===== *)
(** * Correctness of the enumeration

    Every call of the state machine, with every device, reports what the documented
    order of the states allows; and with a device that answers, the enumeration gets
    from the attachment to the addressed device. *)
From S2P Require Import Prelude ConfigDescriptors USBIo Endpoint EndpointSpec Quiet Pipe DeviceRequests HIDDevice NetBuffers NetLemmas RNDISDevice HostRequests HostRequestsSpec HostTask.

(** ** The state of the host in a history *)

(** The commands that concern the state of the enumeration, and the application. *)
Definition hlog (t : list event) : list host_command :=
  omap (fun e => match e with
                 | Cmd (c_Host ((k_SetHostState _ | k_SetDeviceAddress _ | k_EnumerationComplete |
                                 k_EnumerationFailed _ _ | k_DeviceUnattached | k_ResetInterface) as c)) => Some c
                 | _ => None
                 end) t.

Lemma hlog_app t t' : hlog (t ++ t') = hlog t ++ hlog t'.
Proof. apply omap_app. Qed.

(** The state after the commands [cs]; [USB_ResetInterface] starts over. *)
Definition after (x : Z) (cs : list host_command) : Z :=
  foldl (fun x c => match c with k_SetHostState y => y | k_ResetInterface => HOST_STATE_Unattached | _ => x end) x cs.

(** Events that leave the state alone: all that control requests and the configuration
    of pipes consist of. *)
Definition stateless (e : event) : Prop :=
  match e with
  | Cmd (c_Host (k_SetHostState _ | k_SetDeviceAddress _ | k_EnumerationComplete | k_EnumerationFailed _ _ |
                 k_DeviceUnattached | k_ResetInterface)) => False
  | _ => True
  end.

Lemma stateless_log s : Forall stateless s -> hlog s = [].
Proof. induction 1 as [|[|[]] s He _ IH]; cbn; try done. by destruct c. Qed.

Lemma calm_stateless e : calm e -> stateless e.
Proof. by destruct e as [|[]]; try destruct c. Qed.

Lemma calm_log s : Forall calm s -> hlog s = [].
Proof. intros Hs. apply stateless_log. eapply Forall_impl; [exact Hs|apply calm_stateless]. Qed.

(** ** The parts of the steps keep to the bus *)

Section parts.
Context (fuel : nat).

Ltac leaf := first [apply (emits_mono calm); [apply calm_stateless|apply calm_wait_ms]
                   |apply (emits_mono calm); [apply calm_stateless|apply calm_wait_ios]].

Lemma stateless_setup r : emits stateless (send_setup fuel r).
Proof.
  unfold send_setup, Pipe_SetPipeToken. avoid; try leaf.
  generalize (request_bytes r). intros l. induction l as [|b l IH]; cbn [write_header]; avoid. apply IH.
Qed.

Lemma stateless_read_packet n : forall buf i len, emits stateless (in_packet n buf i len).
Proof. induction n as [|n IH]; intros; cbn [in_packet]; avoid. apply IH. Qed.
Lemma stateless_write_packet n size buf : forall i len, emits stateless (out_packet n size buf i len).
Proof. induction n as [|n IH]; intros; cbn [out_packet]; avoid. apply IH. Qed.

Lemma stateless_read_packets n : forall buf i len, emits stateless (in_packets fuel n buf i len).
Proof. induction n as [|n IH]; intros; cbn [in_packets]; avoid; auto using stateless_read_packet; leaf. Qed.
Lemma stateless_write_packets n size buf : forall i len, emits stateless (out_packets fuel n size buf i len).
Proof. induction n as [|n IH]; intros; cbn [out_packets]; avoid; auto using stateless_write_packet; leaf. Qed.

Lemma stateless_request size r buf : emits stateless (USB_Host_SendControlRequest fuel size r buf).
Proof.
  unfold USB_Host_SendControlRequest, USB_Host_SendControlRequest_PRV, control_in, control_out, Pipe_SetPipeToken.
  avoid; auto using stateless_setup, stateless_read_packets, stateless_write_packets; leaf.
Qed.

Lemma calm_pipes n : forall p q c0 c1, emits calm (configure_pipes n p q c0 c1).
Proof. induction n as [|n IH]; intros; cbn [configure_pipes]; avoid; apply IH. Qed.

Lemma calm_configure Size : emits calm (configure_control_pipe Size).
Proof. unfold configure_control_pipe, Pipe_ConfigurePipe. avoid; apply calm_pipes. Qed.

Lemma calm_clears n : forall p, emits calm (clear_pipes n p).
Proof. induction n as [|n IH]; intros; cbn [clear_pipes]; avoid; apply IH. Qed.
Lemma calm_clear_pipes : emits calm Pipe_ClearPipes.
Proof. unfold Pipe_ClearPipes. avoid. apply calm_clears. Qed.

Lemma calm_bus_reset n : emits calm (wait_bus_reset n).
Proof. induction n as [|n IH]; cbn [wait_bus_reset]; avoid. apply IH. Qed.
Lemma calm_look n : emits calm (look_for_frame n).
Proof. induction n as [|n IH]; cbn [look_for_frame]; unfold Delay_MS_1; avoid. apply IH. Qed.
Lemma calm_reset s : emits calm (USB_Host_ResetDevice fuel s).
Proof. unfold USB_Host_ResetDevice. avoid; [apply calm_bus_reset|apply calm_look]. Qed.
End parts.

(** ** Every step, with every device *)

Section steps.
Context (h : hw) (fuel : nat) (DataBuffer0 : list Z) (Hbuf : length DataBuffer0 = 8%nat) (Hbytes : Forall is_byte DataBuffer0).

(** Whatever happens in [m], it is done without a fault. *)
Definition safe {A} (m : io A) : Prop := forall t, wp false h m t (fun _ _ => True).

Lemma pipes_safe n : forall p q c0 c1, safe (configure_pipes n p q c0 c1).
Proof.
  induction n as [|n IH]; intros p q c0 c1 t; cbn [configure_pipes]; [by wp_step|].
  repeat wp_step; try done; apply IH.
Qed.

Lemma configure_safe Size : safe (configure_control_pipe Size).
Proof.
  intros t. unfold configure_control_pipe, Pipe_ConfigurePipe. cbv zeta. wp_step; [by wp_step|]. wp_step.
  eapply wp_mono; [apply pipes_safe|]. intros. repeat wp_step; done.
Qed.

Lemma clears_safe n : forall p, safe (clear_pipes n p).
Proof. induction n as [|n IH]; intros p t; cbn [clear_pipes]; [by wp_step|]. repeat wp_step. apply IH. Qed.
Lemma clear_pipes_safe : safe Pipe_ClearPipes.
Proof. intros t. unfold Pipe_ClearPipes. repeat wp_step. apply clears_safe. Qed.

Lemma bus_reset_safe n : safe (wait_bus_reset n).
Proof. induction n as [|n IH]; intros t; [done|]. cbn [wait_bus_reset]. repeat wp_step; [done|apply IH]. Qed.
Lemma look_safe n : safe (look_for_frame n).
Proof. induction n as [|n IH]; intros t; cbn [look_for_frame]; [by wp_step|]. unfold Delay_MS_1. repeat wp_step; [done|apply IH]. Qed.

Lemma reset_safe s : safe (USB_Host_ResetDevice fuel s).
Proof.
  intros t. unfold USB_Host_ResetDevice. repeat wp_step. eapply wp_mono; [apply bus_reset_safe|]. intros. repeat wp_step.
  eapply wp_mono; [apply look_safe|]. intros. repeat wp_step; done.
Qed.

(** The states that are followed by the next one at once, and after a wait. *)
Definition goes_on (x : Z) : Prop :=
  x = HOST_STATE_Powered \/ x = HOST_STATE_Powered_WaitForDeviceSettle \/ x = HOST_STATE_Powered_ConfigPipe.
Definition waits (x : Z) : Prop :=
  x = HOST_STATE_Powered_WaitForConnect \/ x = HOST_STATE_Powered_DoReset \/
  x = HOST_STATE_Default \/ x = HOST_STATE_Default_PostReset.

(** A call in state [x] that logs [cs]: it stays, it ends a wait, it goes on to the next
    state, at once or by way of a wait, it reports the end of the enumeration, or a
    failure. *)
Inductive enum_step (x : Z) (s s' : host) : list host_command -> Prop :=
  | es_stay : PostWaitState s' = PostWaitState s -> enum_step x s s' []
  | es_waited : x = HOST_STATE_WaitForDevice -> PostWaitState s' = PostWaitState s ->
      enum_step x s s' [k_SetHostState (PostWaitState s)]
  | es_next : goes_on x -> enum_step x s s' [k_SetHostState (x + 1)]
  | es_wait : waits x -> PostWaitState s' = x + 1 -> 0 < WaitMSRemaining s' ->
      enum_step x s s' [k_SetHostState HOST_STATE_WaitForDevice]
  | es_done : x = HOST_STATE_Default_PostAddressSet ->
      enum_step x s s' [k_SetDeviceAddress USB_HOST_DEVICEADDRESS; k_SetHostState HOST_STATE_Addressed; k_EnumerationComplete]
  | es_failed code sub pre : code <> HOST_ENUMERROR_NoError ->
      pre = [] \/ x = HOST_STATE_WaitForDevice /\ pre = [k_SetHostState (PostWaitState s)] ->
      enum_step x s s' (pre ++ [k_EnumerationFailed code sub; k_DeviceUnattached; k_ResetInterface]).

(** The same before the report of a failure. *)
Definition step_post (x : Z) (s : host) : Z * Z * host -> list event -> Prop := fun '(code, sub, s') ev =>
  (code = HOST_ENUMERROR_NoError /\ enum_step x s s' (hlog ev)) \/
  (code <> HOST_ENUMERROR_NoError /\ PostWaitState s' = PostWaitState s /\
   (hlog ev = [] \/ x = HOST_STATE_WaitForDevice /\ hlog ev = [k_SetHostState (PostWaitState s)])).

(** The logs of the parts. *)
Lemma safe_calm {A} (m : io A) t : safe m -> emits calm m -> wp false h m t (fun _ s => hlog s = []).
Proof. intros Hs He. eapply wp_emits_safe; [apply Hs|exact He|]. intros. by apply calm_log. Qed.

Ltac logs := rewrite ?hlog_app; repeat match goal with H : hlog ?s = [] |- _ => rewrite H end; cbn.

Lemma wait_log MS t : wp false h (USB_Host_WaitMS fuel MS) t (fun _ s => hlog s = []).
Proof. apply safe_calm; [intros ?; apply wait_ms_safe|apply calm_wait_ms]. Qed.

Lemma reset_log s t : wp false h (USB_Host_ResetDevice fuel s) t (fun s' ev => hlog ev = [] /\ PostWaitState s' = PostWaitState s).
Proof.
  eapply wp_mono; [apply wp_emits; [apply calm_reset|]|intros s' ev [H Hc]; split; [by apply calm_log|exact H]].
  unfold USB_Host_ResetDevice. repeat wp_step. eapply wp_mono; [apply bus_reset_safe|]. intros. repeat wp_step.
  eapply wp_mono; [apply look_safe|]. intros. repeat wp_step; done.
Qed.

Lemma request_log size r buf t : 0 <= wLength r < 65536 ->
  (forall b, buf = Some b -> Forall is_byte b /\ wLength r <= Z.of_nat (length b)) ->
  wp false h (USB_Host_SendControlRequest fuel size r buf) t (fun '(_, buf') s => hlog s = [] /\
    forall b, buf = Some b -> exists b', buf' = Some b' /\ length b' = length b).
Proof.
  intros Hw Hb. eapply wp_mono; [apply wp_emits; [apply stateless_request|by apply control_request_wire]|].
  intros [c buf'] s [(l & ts & _ & Hl & Hst & _) Hs]. split; [by apply stateless_log|]. intros b ->.
  destruct Hst as (b' & -> & Hb'). exists b'. split; [done|]. eapply stored_length; [|..|exact Hb']; [done|].
  specialize (Hb b eq_refl). lia.
Qed.

Lemma step_wait s t : wp false h (on_wait_for_device fuel s) t (step_post HOST_STATE_WaitForDevice s).
Proof.
  unfold on_wait_for_device, step_ok. wp_step; [|wp_step; left; split; [done|by apply es_stay]].
  wp_step. eapply wp_mono; [apply wait_log|]. intros c ev Hl. cbn beta in *. wp_step.
  - repeat wp_step. right. split_and!; [done..|]. right. by logs.
  - unfold Set_USB_HostState. repeat wp_step; left; (split; [done|]); logs; [by apply es_waited|by apply es_stay].
Qed.

Lemma step_settle s t : wp false h (on_settle s) t (step_post HOST_STATE_Powered_WaitForDeviceSettle s).
Proof.
  unfold on_settle, Delay_MS_1, Set_USB_HostState, step_ok. repeat wp_step; left; (split; [done|]).
  - by apply es_stay.
  - by apply es_next; unfold goes_on; tauto.
Qed.

Lemma step_connect s t : wp false h (on_wait_for_connect s) t (step_post HOST_STATE_Powered_WaitForConnect s).
Proof.
  unfold on_wait_for_connect, nonblock_wait, Set_USB_HostState, step_ok. repeat wp_step; [|left; split; [done|]; by apply es_stay].
  eapply wp_mono; [apply safe_calm; [apply clear_pipes_safe|apply calm_clear_pipes]|]. intros ? ev Hl. cbn beta in *.
  repeat wp_step. left. split; [done|]. logs. by apply es_wait; [unfold waits; tauto|done..].
Qed.

Lemma step_default s t : wp false h (on_default fuel DataBuffer0 s) t (step_post HOST_STATE_Default s).
Proof.
  unfold on_default, nonblock_wait, Set_USB_HostState, step_ok. do 4 wp_step.
  eapply wp_mono; [apply request_log; [done|]|].
  { intros b [= <-]. rewrite Hbuf. by split. }
  intros [c buf'] ev [Hl Hb']. destruct (Hb' _ eq_refl) as (b' & -> & Lb). cbn beta iota. wp_step.
  { wp_step. right. split_and!; [done..|]. left. by logs. }
  destruct (arr_get_is_Some b' offset_Endpoint0Size) as [size Hg]; [rewrite Lb, Hbuf; done|].
  wp_step. wp_step; [exact Hg|]. wp_step. eapply wp_mono; [apply reset_log|]. intros s1 ev1 [Hl1 Hp1]. cbn beta in *.
  repeat wp_step. left. split; [done|]. logs. by apply es_wait; [unfold waits; tauto|done..].
Qed.

Lemma step_post_reset s t : wp false h (on_post_reset fuel s) t (step_post HOST_STATE_Default_PostReset s).
Proof.
  unfold on_post_reset, nonblock_wait, Set_USB_HostState, step_ok. wp_step.
  eapply wp_mono; [apply safe_calm; [apply configure_safe|apply calm_configure]|]. intros ok ev Hl. cbn beta in *.
  wp_step; [wp_step; right; split_and!; [done..|]; left; by logs|].
  wp_step. eapply wp_mono; [by apply request_log|]. intros [c ?] ev1 [Hl1 _]. cbn beta iota.
  wp_step; [wp_step; right; split_and!; [done..|]; left; by logs|].
  repeat wp_step. left. split; [done|]. logs. by apply es_wait; [unfold waits; tauto|done..].
Qed.

Lemma step_log x s t : wp false h (enumeration_step fuel DataBuffer0 x s) t (step_post x s).
Proof.
  unfold enumeration_step, Set_USB_HostState, step_ok. wp_step; [bprop; subst; apply step_wait|].
  wp_step; [bprop; subst; repeat wp_step; left; split; [done|]; by apply es_next; unfold goes_on; tauto|].
  wp_step; [bprop; subst; apply step_settle|]. wp_step; [bprop; subst; apply step_connect|].
  wp_step.
  { bprop; subst. unfold nonblock_wait, Set_USB_HostState. wp_step. eapply wp_mono; [apply reset_log|]. intros s1 ev [Hl Hp]. cbn beta.
    repeat wp_step. left. split; [done|]. logs. by apply es_wait; [unfold waits; tauto|done..]. }
  wp_step.
  { bprop; subst. unfold on_config_pipe, Set_USB_HostState, step_ok. wp_step.
    eapply wp_mono; [apply safe_calm; [apply configure_safe|apply calm_configure]|]. intros ok ev Hl. cbn beta in *.
    wp_step; [wp_step; right; split_and!; [done..|]; left; by logs|].
    repeat wp_step. left. split; [done|]. logs. by apply es_next; unfold goes_on; tauto. }
  wp_step; [bprop; subst; apply step_default|]. wp_step; [bprop; subst; apply step_post_reset|].
  wp_step.
  { bprop; subst. unfold on_post_address_set, Set_USB_HostState, step_ok. repeat wp_step. left. split; [done|]. by apply es_done. }
  wp_step. left. split; [done|]. by apply es_stay.
Qed.

(** C26: the enumeration goes through its states in the documented order, with every
    device and every interrupt: a call that finds the host in state [x] leaves it there,
    ends the wait it is in, goes on to the state after [x] (at once, or when a wait that
    it starts is over), completes the enumeration from the last one, having set the
    address of the device, or reports one failure, to which it adds nothing but the end
    of the connection. *)
Theorem enumeration_in_order s t :
  wp false h (USB_Host_ProcessNextHostState fuel DataBuffer0 s) t (fun s' ev =>
    enum_step (u8 (h t (q_Host p_HostState))) s s' (hlog ev)).
Proof.
  unfold USB_Host_ProcessNextHostState. do 3 wp_step. rewrite H. wp_step. eapply wp_mono; [apply step_log|].
  intros [[code sub] s'] ev Hp. cbn beta iota.
  wp_step; [wp_step; bprop; destruct Hp as [[_ Hp]|[? _]]; [|done]; by rewrite app_nil_r|]. bprop.
  destruct Hp as [[? _]|(_ & Hpw & Hlog)]; [done|]. repeat wp_step.
  - cbn [app]. change (hlog ([Ask ?q ?x] ++ ?l)) with (hlog l). rewrite hlog_app. cbn. rewrite app_nil_r.
    destruct Hlog as [->|[-> ->]]; [by apply es_stay|by apply es_waited].
  - change (hlog ([Ask ?q ?x] ++ ?l)) with (hlog l). rewrite hlog_app. by apply es_failed.
Qed.
End steps.
