(* ===== verification/HostEnumeration.v ===== *)
(** * The enumeration of a device that answers

    From the attachment to the addressed device: the state machine gets there in 1608
    calls, after two requests, with the packet size the device asked for. *)
From S2P Require Import Prelude ConfigDescriptors USBIo Endpoint EndpointSpec Quiet Pipe DeviceRequests HIDDevice NetBuffers NetLemmas RNDISDevice HostRequests HostRequestsSpec HostTask HostTaskSpec.

(** The bytes read since the last SETUP packet. *)
Fixpoint since_setup_from (cur : list Z) (t : list event) : list Z :=
  match t with
  | [] => cur
  | Cmd (c_Host k_ClearSETUP) :: t => since_setup_from [] t
  | Ask (q_Host p_Read_8) a :: t => since_setup_from (cur ++ [u8 a]) t
  | _ :: t => since_setup_from cur t
  end.
Definition since_setup : list event -> list Z := since_setup_from [].

(** A device with the descriptor [D], attached to a host that starts in state [x0]: the
    host's state is what the program made it, there are frames on the bus and no errors
    or stalls, every wait is over at once, and the first eight bytes the device sends
    after a SETUP packet are those of its descriptor. *)
Record attached (h : hw) (x0 : Z) (D : list Z) : Prop := {
    at_state : forall t, h t (q_Host p_HostState) = after x0 (hlog t);
    at_mode : forall t, h t (q_Host p_CurrentMode) = USB_MODE_Host;
    at_error : forall t, h t (q_Host p_IsError) = 0;
    at_stall : forall t, h t (q_Host p_IsStalled) = 0;
    at_frames : forall t, h t (q_Host (p_HasOccurred USB_INT_HSOFI)) = 1;
    at_connect : forall t, h t (q_Host (p_HasOccurred USB_INT_DCONNI)) = 1;
    at_configured : forall t, h t (q_Host p_IsConfigured) = 1;
    at_reset : forall t, h t (q_Host p_IsBusResetComplete) = 1;
    at_setup : forall t, h t (q_Host p_IsSETUPSent) = 1;
    at_in : forall t, h t (q_Host p_IsINReceived) = 1;
    at_out : forall t, h t (q_Host p_IsOUTReady) = 1;
    at_bytes : forall t, (length (since_setup t) < 8)%nat -> 0 < h t (q_Host p_BytesInPipe) < 65536;
    at_data : forall t, (length (since_setup t) < 8)%nat -> h t (q_Host p_Read_8) = nth (length (since_setup t)) D 0
  }.

Lemma since_setup_from_app t : forall cur t', since_setup_from cur (t ++ t') = since_setup_from (since_setup_from cur t) t'.
Proof. induction t as [|[[]|[]] t IH]; intros; cbn; auto; [destruct q|destruct c]; auto. Qed.

Lemma since_setup_from_calm s : Forall calm s -> forall cur, since_setup_from cur s = cur.
Proof. induction 1 as [|[[]|[]] s He _ IH]; intros cur; cbn; auto; [destruct q|destruct c]; done || auto. Qed.

Lemma since_setup_calm s t : Forall calm s -> since_setup (t ++ s) = since_setup t.
Proof. intros Hs. unfold since_setup. by rewrite since_setup_from_app, since_setup_from_calm. Qed.

Lemma after_app x cs cs' : after x (cs ++ cs') = after (after x cs) cs'.
Proof. apply foldl_app. Qed.

Section enumeration.
Context (h : hw) (fuel : nat) (Hfuel : (10 <= fuel)%nat) (x0 : Z) (D : list Z) (Ha : attached h x0 D).
Context (HD : length D = 8%nat) (HDb : Forall is_byte D).

(** The state of the host. *)
Definition state_of (t : list event) : Z := after x0 (hlog t).

Lemma state_stateless t s : Forall stateless s -> state_of (t ++ s) = state_of t.
Proof. intros Hs. unfold state_of. by rewrite hlog_app, (stateless_log s), app_nil_r. Qed.

Lemma calm_all s : Forall calm s -> Forall stateless s.
Proof. intros Hs. eapply Forall_impl; [exact Hs|apply calm_stateless]. Qed.

Ltac stateless := repeat first [assumption|exact I|apply calm_all; assumption|apply Forall_app_2|apply Forall_cons_2|apply Forall_nil_2].

(** Symbolic execution where the device's answer is known. *)
Lemma wp_known_bool q v t (Q : bool -> list event -> Prop) : h t q = v -> Q (truthy v) [Ask q v] -> wp true h (ask_bool q) t Q.
Proof. intros <- H. by exists [Ask q (h t q)]. Qed.
Lemma wp_known_u8 q v t (Q : Z -> list event -> Prop) : h t q = v -> Q (u8 v) [Ask q v] -> wp true h (ask_u8 q) t Q.
Proof. intros <- H. by exists [Ask q (h t q)]. Qed.

Ltac known := first
  [exact (at_mode _ _ _ Ha _)|exact (at_error _ _ _ Ha _)|exact (at_stall _ _ _ Ha _)|exact (at_frames _ _ _ Ha _)
  |exact (at_connect _ _ _ Ha _)|exact (at_configured _ _ _ Ha _)|exact (at_reset _ _ _ Ha _)|exact (at_setup _ _ _ Ha _)
  |exact (at_in _ _ _ Ha _)|exact (at_out _ _ _ Ha _)
  |rewrite (at_state _ _ _ Ha); match goal with |- after x0 (hlog ?t) = ?v => change (state_of t = v) end;
   repeat rewrite state_stateless by (by stateless); eassumption].

Ltac dstep :=
  lazymatch goal with
  | |- wp _ _ (ask_bool _) _ _ => first [eapply wp_known_bool; [known|]|wp_step]
  | |- wp _ _ (ask_u8 _) _ _ => first [eapply wp_known_u8; [known|]|wp_step]
  | |- wp _ _ (if ?b then _ else _) _ _ =>
      first [match goal with H : b = _ |- _ => rewrite H; cbv match end
            |let b' := eval vm_compute in b in
             lazymatch b' with true => change b with true; cbv match | false => change b with false; cbv match end
            |wp_step]
  | _ => wp_step
  end.

(** ** The parts *)

Definition working (t : list event) (x : Z) : Prop := state_of t = x /\ (u8 x =? HOST_STATE_Unattached) = false.

Lemma working_stateless t s x : Forall stateless s -> working t x -> working (t ++ s) x.
Proof. intros Hs [H ?]. split; [|done]. by rewrite state_stateless. Qed.
Ltac works := repeat (apply working_stateless; [by stateless|]); eassumption.

Lemma wait_ms_does t x : working t x ->
  wp true h (USB_Host_WaitMS fuel 1) t (fun c s => c = HOST_WAITERROR_Successful /\ Forall calm s).
Proof.
  intros [Hs Hn]. eapply wp_mono; [apply wp_emits; [apply calm_wait_ms|]|intros c s [H ?]; split; [exact H|done]].
  unfold USB_Host_WaitMS. repeat wp_step.
  eapply (wp_mono _ _ _ _ (fun c _ => c = HOST_WAITERROR_Successful)); [|intros; repeat wp_step; done].
  destruct fuel as [|[|n]]; [lia|lia|]. cbn [wait_ms_loop]. repeat dstep. done.
Qed.

Lemma wait_ios_does w t : wp true h (USB_Host_WaitForIOS fuel w) t (fun c s => c = HOST_SENDCONTROL_Successful /\ Forall calm s).
Proof.
  unfold USB_Host_WaitForIOS. destruct fuel as [|n]; [lia|]. cbn [wait_for_ios]. unfold wait_condition.
  destruct w; repeat dstep; cbn beta; (split; [done|by calms]).
Qed.

Lemma configure_does Size t : wp true h (configure_control_pipe Size) t (fun ok s => ok = true /\ Forall calm s).
Proof.
  eapply wp_mono; [apply wp_emits; [apply calm_configure|]|intros c s [H ?]; split; [exact H|done]].
  unfold configure_control_pipe, Pipe_ConfigurePipe. cbv zeta. dstep. wp_step.
  eapply (wp_mono _ _ _ _ (fun ok _ => ok = true)); [|intros ? ? ->; repeat dstep; done].
  match goal with |- wp _ _ (configure_pipes ?n ?p ?q ?c0 ?c1) _ _ => generalize n; generalize p at 1; generalize c0 c1 end.
  intros c0 c1 p n. revert p t. induction n as [|n IH]; intros p t; cbn [configure_pipes]; [by wp_step|].
  repeat dstep; apply IH.
Qed.

Lemma clears_does n : forall p t, wp true h (clear_pipes n p) t (fun _ _ => True).
Proof. induction n as [|n IH]; intros p t; cbn [clear_pipes]; [by wp_step|]. repeat wp_step. apply IH. Qed.

Lemma reset_does s t : wp true h (USB_Host_ResetDevice fuel s) t (fun s' ev => s' = set_ConfigNumber 0 s /\ Forall calm ev).
Proof.
  eapply wp_mono; [apply wp_emits; [apply calm_reset|]|intros c ev [H ?]; split; [exact H|done]].
  unfold USB_Host_ResetDevice. repeat wp_step. eapply (wp_mono _ _ _ _ (fun _ _ => True)).
  { destruct fuel as [|n]; [lia|]. cbn [wait_bus_reset]. repeat dstep. done. }
  intros. repeat wp_step. eapply (wp_mono _ _ _ _ (fun _ _ => True)); [cbn [look_for_frame]; repeat dstep; done|].
  intros. repeat wp_step; done.
Qed.

(** ** The requests *)

Lemma header_does l t : wp true h (write_header l) t (fun _ s => Forall stateless s).
Proof. revert t. induction l as [|b l IH]; intros t; cbn [write_header]; repeat wp_step; [done|]. eapply wp_mono; [apply IH|]. intros. by stateless. Qed.

Lemma setup_does r t x : working t x -> wp true h (send_setup fuel r) t (fun c s => c = HOST_SENDCONTROL_Successful /\
  wire [] s [T_setup (setup_bytes r)] [] [] /\ Forall stateless s /\ since_setup (t ++ s) = []).
Proof.
  intros Hx.
  assert (wp true h (send_setup fuel r) t (fun c s => c = HOST_SENDCONTROL_Successful /\ since_setup (t ++ s) = [])) as Ht.
  { unfold send_setup, Pipe_SetPipeToken. do 4 wp_step. eapply wp_mono; [eapply wait_ms_does; works|]. intros c s1 [-> H1]. cbn beta.
    repeat dstep. eapply wp_mono; [apply header_does|]. intros ? s2 H2. cbn beta in *. repeat dstep.
    eapply wp_mono; [apply wait_ios_does|]. intros c s3 [-> H3]. cbn beta. repeat dstep.
    eapply wp_mono; [eapply wait_ms_does; works|]. intros c s4 [-> H4]. split; [done|].
    unfold since_setup. rewrite !since_setup_from_app. cbn. by rewrite (since_setup_from_calm s3), (since_setup_from_calm s4). }
  eapply wp_mono; [apply wp_combine; [exact Ht|apply wp_emits; [apply stateless_setup|apply send_setup_wire]]|].
  intros c s [[-> ?] [(ts & W & Hts) ?]]. by rewrite (Hts eq_refl) in W.
Qed.

(** What remains of the descriptor is read. *)
Lemma drop_descriptor i : (i < 8)%nat -> drop i D = nth i D 0 :: drop (S i) D.
Proof. intros Hi. apply drop_S. destruct (nth_lookup_or_length D i 0); [done|lia]. Qed.

Lemma read_packet_does n : forall m buf i t cur, (n < m)%nat -> (i + n = 8)%nat -> length buf = 8%nat ->
  length (since_setup t) = i ->
  wp true h (in_packet m buf (Z.of_nat i) (Z.of_nat n)) t (fun '(buf', _, len') s =>
    stored buf (Z.of_nat i) (drop i D) buf' /\ len' = 0 /\ wire cur s [] cur (drop i D) /\ Forall stateless s).
Proof.
  induction n as [|n IH]; intros m buf i t cur Hn Hi Hb Hs; (destruct m as [|m]; [lia|]); cbn [in_packet].
  - do 3 wp_step. rewrite andb_false_r. cbv match. wp_step. rewrite drop_ge by lia.
    split_and!; [apply stored_nil|done|by wires|by stateless].
  - do 3 wp_step. pose proof (at_bytes _ _ _ Ha t ltac:(lia)) as Hk. subst a.
    assert (truthy (u16 (h t (q_Host p_BytesInPipe))) && truthy (Z.of_nat (S n)) = true) as ->.
    { rewrite u16_small by lia. unfold truthy. rewrite !(proj2 (Z.eqb_neq _ 0)) by lia. done. }
    cbv match. do 2 wp_step. destruct (arr_set_is_Some buf (Z.of_nat i) (u8 a)) as [buf1 Hset]; [lia|].
    wp_step. wp_step; [exact Hset|]. rewrite u16_small by lia.
    assert (since_setup (t ++ [Ask (q_Host p_BytesInPipe) (h t (q_Host p_BytesInPipe))]) = since_setup t) as E1 by (by apply since_setup_calm; calms).
    rewrite (at_data _ _ _ Ha) in H by (rewrite E1; lia). rewrite E1, Hs in H. subst a.
    assert (is_byte (nth i D 0)) as Hd.
    { apply (Forall_lookup_1 _ D i); [done|]. destruct (nth_lookup_or_length D i 0); [done|lia]. }
    replace (Z.of_nat i + 1) with (Z.of_nat (S i)) by lia. replace (Z.of_nat (S n) - 1) with (Z.of_nat n) by lia.
    eapply wp_mono; [apply (IH m buf1 (S i) _ cur); [lia|lia|by rewrite (arr_set_length _ _ _ _ Hset)|]|].
    { unfold since_setup. rewrite !since_setup_from_app. cbn. rewrite length_app. unfold since_setup in Hs. cbn. lia. }
    intros [[buf' i'] len'] s (Hst & -> & W & Hss). cbn beta iota. rewrite (drop_descriptor i) by lia. split_and!; [|done| |by stateless].
    + rewrite u8_small in Hset by done. apply (stored_app buf _ [nth i D 0] buf1); [lia| |by apply stored_one|].
      { rewrite length_drop. cbn. lia. }
      by replace (Z.of_nat i + Z.of_nat (length [nth i D 0])) with (Z.of_nat (S i)) by (cbn; lia).
    + apply wire_skip; [by calms|]. rewrite <- (u8_small (nth i D 0)) at 2 by done. by apply wire_read_8.
Qed.

(** The data stage of the first request: the buffer receives the descriptor. *)
Lemma read_descriptor_does fl buf t : length buf = 8%nat -> since_setup t = [] ->
  wp true h (in_packets fuel (S (S fl)) buf 0 8) t (fun '(c, buf') s =>
    c = HOST_SENDCONTROL_Successful /\ buf' = D /\ wire [] s [T_in] [] D /\ Forall stateless s).
Proof.
  intros Hb Hs. cbn [in_packets]. repeat dstep.
  eapply wp_mono; [apply wait_ios_does|]. intros c s1 [-> H1]. cbn beta. repeat dstep.
  assert (since_setup ((t ++ [Cmd (c_Host k_Unfreeze)]) ++ s1) = []) as E1.
  { rewrite <- app_assoc. rewrite since_setup_calm; [done|by calms]. }
  pose proof (at_bytes _ _ _ Ha ((t ++ [Cmd (c_Host k_Unfreeze)]) ++ s1)) as Hk. rewrite E1 in Hk. specialize (Hk ltac:(cbn; lia)). subst a.
  replace (truthy _) with true by (unfold truthy; rewrite u16_small, (proj2 (Z.eqb_neq _ 0)) by lia; done). cbn [negb].
  eapply wp_mono; [apply (read_packet_does 8 fuel buf 0 _ []); [lia|lia|done|]|].
  { rewrite since_setup_calm, E1 by (by calms). done. }
  intros [[buf' i'] len'] s2 (Hst & -> & W & Hs2). cbn beta iota. repeat dstep.
  rewrite drop_0 in *. split_and!; [done| | |by stateless].
  - unfold stored in Hst. cbn in Hst. rewrite Hst, HD. rewrite drop_ge, app_nil_r by lia. done.
  - wires_eq.
Qed.

Lemma control_in_does buf t x : working t x -> length buf = 8%nat -> since_setup t = [] ->
  wp true h (control_in fuel get_device_descriptor (Some buf)) t (fun '(c, buf') s =>
    c = HOST_SENDCONTROL_Successful /\ buf' = Some D /\ wire [] s [T_in; T_out []] [] D /\ Forall stateless s).
Proof.
  intros Hx Hb Hs. unfold control_in, Pipe_SetPipeToken. assert (exists fl, fuel = S (S fl)) as [fl Hfl].
  { destruct fuel as [|[|fl]]; [lia..|]. by exists fl. }
  replace (in_packets fuel fuel) with (in_packets fuel (S (S fl))) by congruence.
  do 7 dstep. eapply wp_mono; [apply read_descriptor_does; [done|]|].
  { by rewrite since_setup_calm by (by calms). }
  intros [c b'] s1 (-> & -> & W & Hs1). cbn beta iota. repeat dstep.
  eapply wp_mono; [apply wait_ios_does|]. intros c s2 [-> H2]. cbn beta. repeat dstep.
  eapply wp_mono; [apply wait_ios_does|]. intros c s3 [-> H3]. cbn beta. repeat dstep.
  rewrite (app_nil_r s1) in *. split_and!; [done..| |by stateless]. wires_eq.
Qed.

Lemma get_descriptor_does size buf t x : working t x -> length buf = 8%nat ->
  wp true h (USB_Host_SendControlRequest fuel size get_device_descriptor (Some buf)) t (fun '(c, buf') s =>
    c = HOST_SENDCONTROL_Successful /\ buf' = Some D /\ Forall stateless s /\
    wire [] s [T_setup (request_bytes get_device_descriptor); T_in; T_out []] [] D).
Proof.
  intros Hx Hb. unfold USB_Host_SendControlRequest. repeat dstep. unfold USB_Host_SendControlRequest_PRV. dstep.
  eapply wp_mono; [eapply setup_does; works|]. intros c s1 (-> & W1 & Hs1 & E1). cbn beta. do 2 dstep.
  eapply wp_mono; [eapply control_in_does; [works|done|done]|]. intros [c b'] s2 (-> & -> & W2 & Hs2). cbn beta iota.
  change (setup_bytes get_device_descriptor) with (request_bytes get_device_descriptor) in W1.
  repeat dstep; (split_and!; [done..|by stateless|]); wires_eq.
Qed.

Lemma set_address_does size t x : working t x ->
  wp true h (USB_Host_SendControlRequest fuel size set_device_address None) t (fun '(c, _) s =>
    c = HOST_SENDCONTROL_Successful /\ Forall stateless s /\ wire [] s [T_setup (request_bytes set_device_address); T_in] [] []).
Proof.
  intros Hx. unfold USB_Host_SendControlRequest. repeat dstep. unfold USB_Host_SendControlRequest_PRV. dstep.
  eapply wp_mono; [eapply setup_does; works|]. intros c s1 (-> & W1 & Hs1 & E1). cbn beta. do 2 dstep.
  change (setup_bytes set_device_address) with (request_bytes set_device_address) in W1.
  unfold control_out, Pipe_SetPipeToken. repeat dstep.
  eapply wp_mono; [apply wait_ios_does|]. intros c s2 [-> H2]. cbn beta.
  repeat dstep; (split_and!; [done..|by stateless|]); wires_eq.
Qed.

(** ** Stages *)

Context (DataBuffer0 : list Z) (Hbuf : length DataBuffer0 = 8%nat).

(** From state [x] a step, and [n] calls of the task, lead from [s] to [s'], with the
    transactions [ts], the received bytes [l] and the log [cs]. *)
Definition steps_to (x : Z) (s s' : host) (ts : list transaction) (l : list Z) (cs : list host_command) : Prop :=
  forall t, state_of t = x -> wp true h (enumeration_step fuel DataBuffer0 x s) t (fun '(e, _, s1) ev =>
    e = HOST_ENUMERROR_NoError /\ s1 = s' /\ wire [] ev ts [] l /\ hlog ev = cs).

Definition stage (n : nat) (x : Z) (s s' : host) (ts : list transaction) (l : list Z) (cs : list host_command) : Prop :=
  forall t, state_of t = x -> wp true h (host_tasks fuel DataBuffer0 n s) t (fun s1 ev =>
    s1 = s' /\ wire [] ev ts [] l /\ hlog ev = cs).

Lemma stage_app n m x s s1 s' ts ts' l l' cs cs' :
  stage n x s s1 ts l cs -> stage m (after x cs) s1 s' ts' l' cs' -> stage (n + m) x s s' (ts ++ ts') (l ++ l') (cs ++ cs').
Proof.
  intros H1 H2 t Hx. revert s t Hx H1. assert (forall s t Q, wp true h (s1 ← host_tasks fuel DataBuffer0 n s; host_tasks fuel DataBuffer0 m s1) t Q ->
    wp true h (host_tasks fuel DataBuffer0 (n + m) s) t Q) as Hsplit.
  { intros s t Q. enough (forall t, host_tasks fuel DataBuffer0 (n + m) s h t = (s1 ← host_tasks fuel DataBuffer0 n s; host_tasks fuel DataBuffer0 m s1) h t) as E by (unfold wp; by rewrite E).
    clear. revert s. induction n as [|k IH]; intros s t; [done|]. cbn [Nat.add host_tasks].
    unfold mbind, io_bind. destruct (USB_HostTask fuel DataBuffer0 s h t) as [[a t']| |]; [|done..]. rewrite IH. done. }
  intros s t Hx H1. apply Hsplit. wp_step. eapply wp_mono; [by apply H1|]. intros r ev (-> & W1 & L1). cbn beta.
  eapply wp_mono; [apply H2|].
  { unfold state_of in *. by rewrite hlog_app, after_app, Hx, L1. }
  intros r ev2 (-> & W2 & L2). split_and!; [done|by eapply wire_app|by rewrite hlog_app, L1, L2].
Qed.

Lemma step_stage x s s' ts l cs : 0 <= x < 256 -> steps_to x s s' ts l cs -> stage 1 x s s' ts l cs.
Proof.
  intros Hr Hst t Hx. cbn [host_tasks]. wp_step. unfold USB_HostTask, Pipe_GetCurrentPipe, Pipe_GetPipeDirection, USB_Host_ProcessNextHostState.
  repeat dstep. rewrite u8_small by done. eapply wp_mono; [apply Hst|].
  { repeat rewrite state_stateless by (by stateless). done. }
  intros [[e sub] s1] ev (-> & -> & W & L). cbn beta iota. repeat dstep. split_and!; [done| |].
  - wires_eq.
  - rewrite !hlog_app, L. cbn. by rewrite !app_nil_r.
Qed.

Ltac finish_step := split_and!; [done..|wires_eq|rewrite ?hlog_app;
  repeat match goal with
  | H : Forall calm ?s |- context [hlog ?s] => rewrite (calm_log s H)
  | H : Forall HostTaskSpec.stateless ?s |- context [hlog ?s] => rewrite (stateless_log s H)
  end; done].

Lemma powered_step s : steps_to HOST_STATE_Powered s (set_WaitMSRemaining HOST_DEVICE_SETTLE_DELAY_MS s) [] []
  [k_SetHostState HOST_STATE_Powered_WaitForDeviceSettle].
Proof. intros t Hx. unfold enumeration_step, step_ok. repeat dstep. finish_step. Qed.

Lemma settle_stage n s : Z.of_nat n < 65536 ->
  stage n HOST_STATE_Powered_WaitForDeviceSettle (set_WaitMSRemaining (Z.of_nat n) s) (set_WaitMSRemaining 0 s) [] [] [].
Proof.
  induction n as [|n IH]; intros Hn; [intros t Hx; cbn [host_tasks]; wp_step; done|].
  apply (stage_app 1 n _ _ (set_WaitMSRemaining (Z.of_nat n) s) _ [] [] [] [] [] []); [|apply IH; lia].
  apply step_stage; [done|]. intros t Hx. unfold enumeration_step, on_settle, step_ok. cbn [WaitMSRemaining set_WaitMSRemaining].
  repeat dstep. rewrite u16_small by lia. replace (Z.of_nat (S n) - 1) with (Z.of_nat n) by lia. finish_step.
Qed.

Lemma settle_end s : WaitMSRemaining s = 0 -> steps_to HOST_STATE_Powered_WaitForDeviceSettle s (set_WaitMSRemaining 65535 s) [] []
  [k_SetHostState HOST_STATE_Powered_WaitForConnect].
Proof. intros Hw t Hx. unfold enumeration_step, on_settle, step_ok. rewrite Hw. repeat dstep. finish_step. Qed.

Definition waiting (Duration NextState : Z) (s : host) : host := set_PostWaitState NextState (set_WaitMSRemaining Duration s).

Lemma connect_step s : steps_to HOST_STATE_Powered_WaitForConnect s (waiting 100 HOST_STATE_Powered_DoReset s) [] []
  [k_SetHostState HOST_STATE_WaitForDevice].
Proof.
  intros t Hx. unfold enumeration_step, on_wait_for_connect, nonblock_wait, step_ok, Pipe_ClearPipes. repeat dstep.
  eapply wp_mono; [apply wp_emits; [apply calm_clears|apply clears_does]|]. intros ? ev [_ Hev]. cbn beta. repeat dstep. finish_step.
Qed.

Lemma wait_stage n p s : Z.of_nat n < 65536 -> 0 < Z.of_nat n -> PostWaitState s = p ->
  stage n HOST_STATE_WaitForDevice (set_WaitMSRemaining (Z.of_nat n) s) (set_WaitMSRemaining 0 s) [] [] [k_SetHostState p].
Proof.
  intros Hn H0 Hp. destruct n as [|n]; [lia|]. clear H0.
  assert (forall t k, state_of t = HOST_STATE_WaitForDevice -> Z.of_nat k < 65535 ->
    wp true h (enumeration_step fuel DataBuffer0 HOST_STATE_WaitForDevice (set_WaitMSRemaining (Z.of_nat (S k)) s)) t
      (fun '(e, _, s1) ev => e = HOST_ENUMERROR_NoError /\ s1 = set_WaitMSRemaining (Z.of_nat k) s /\ wire [] ev [] [] [] /\
         hlog ev = if decide (k = 0)%nat then [k_SetHostState p] else [])) as Hstep.
  { intros t k Hx Hk. unfold enumeration_step, on_wait_for_device, step_ok. cbn [WaitMSRemaining set_WaitMSRemaining PostWaitState].
    do 3 dstep. eapply wp_mono; [eapply wait_ms_does; by split|]. intros c ev [-> Hev]. cbn beta.
    rewrite u16_small by lia. replace (Z.of_nat (S k) - 1) with (Z.of_nat k) by lia. rewrite Hp.
    destruct k as [|k]; repeat dstep; finish_step. }
  induction n as [|n IH].
  - apply (step_stage _ _ (set_WaitMSRemaining 0 s)); [done|]. intros t Hx. eapply wp_mono; [apply (Hstep t 0%nat); [done|lia]|].
    intros [[e sub] s1] ev H. exact H.
  - apply (stage_app 1 (S n) _ _ (set_WaitMSRemaining (Z.of_nat (S n)) s) _ [] [] [] [] [] _); [|apply IH; lia].
    apply step_stage; [done|]. intros t Hx. eapply wp_mono; [apply (Hstep t (S n)); [done|lia]|].
    intros [[e sub] s1] ev H. exact H.
Qed.

Lemma reset_step s : steps_to HOST_STATE_Powered_DoReset s (waiting 200 HOST_STATE_Powered_ConfigPipe (set_ConfigNumber 0 s)) [] []
  [k_SetHostState HOST_STATE_WaitForDevice].
Proof.
  intros t Hx. unfold enumeration_step, nonblock_wait, step_ok. do 6 dstep. eapply wp_mono; [apply reset_does|].
  intros ? ev [-> Hev]. cbn beta. repeat dstep. finish_step.
Qed.

Lemma config_step s : steps_to HOST_STATE_Powered_ConfigPipe s s [] [] [k_SetHostState HOST_STATE_Default].
Proof.
  intros t Hx. unfold enumeration_step, on_config_pipe, step_ok. do 7 dstep. eapply wp_mono; [apply configure_does|].
  intros ? ev [-> Hev]. cbn beta. repeat dstep. finish_step.
Qed.

Definition descriptor_transactions : list transaction := [T_setup (request_bytes get_device_descriptor); T_in; T_out []].
Definition address_transactions : list transaction := [T_setup (request_bytes set_device_address); T_in].

(** The host after the first request. *)
Definition described (s : host) : host :=
  waiting 200 HOST_STATE_Default_PostReset (set_ConfigNumber 0 (set_ControlPipeSize (nth 7 D 0) s)).

Lemma default_step s : steps_to HOST_STATE_Default s (described s) descriptor_transactions D [k_SetHostState HOST_STATE_WaitForDevice].
Proof.
  intros t Hx. unfold enumeration_step, on_default, nonblock_wait, step_ok. do 11 dstep.
  eapply wp_mono; [eapply (get_descriptor_does _ _ _ HOST_STATE_Default); [|done]|].
  { apply working_stateless; [by stateless|]. by split. }
  intros [c b'] ev (-> & -> & Hev & W). cbn beta iota. do 2 dstep.
  wp_step. { change (Some D ≫= fun b => arr_get b offset_Endpoint0Size) with (arr_get D 7). apply arr_get_Some. split; [lia|].
    destruct (nth_lookup_or_length D 7 0) as [E|]; [exact E|lia]. }
  wp_step. eapply wp_mono; [apply reset_does|]. intros ? ev1 [-> Hev1]. cbn beta. repeat dstep. finish_step.
Qed.

Lemma post_reset_step s : steps_to HOST_STATE_Default_PostReset s (waiting 100 HOST_STATE_Default_PostAddressSet s)
  address_transactions [] [k_SetHostState HOST_STATE_WaitForDevice].
Proof.
  intros t Hx. unfold enumeration_step, on_post_reset, nonblock_wait, step_ok. do 9 dstep.
  eapply wp_mono; [apply configure_does|]. intros ? ev [-> Hev]. cbn beta. do 2 dstep.
  eapply wp_mono; [eapply (set_address_does _ _ HOST_STATE_Default_PostReset)|].
  { apply working_stateless; [by stateless|]. by split. }
  intros [c b'] ev1 (-> & Hev1 & W). cbn beta iota. repeat dstep. finish_step.
Qed.

Lemma post_address_step s : steps_to HOST_STATE_Default_PostAddressSet s s [] []
  [k_SetDeviceAddress USB_HOST_DEVICEADDRESS; k_SetHostState HOST_STATE_Addressed; k_EnumerationComplete].
Proof. intros t Hx. unfold enumeration_step, on_post_address_set, step_ok. repeat dstep. finish_step. Qed.

Lemma addressed_stage n s : stage n HOST_STATE_Addressed s s [] [] [].
Proof.
  induction n as [|n IH]; [intros t Hx; cbn [host_tasks]; wp_step; done|].
  apply (stage_app 1 n _ _ s _ [] [] [] [] [] []); [|exact IH]. apply step_stage; [done|]. intros t Hx.
  unfold enumeration_step, step_ok. repeat dstep. finish_step.
Qed.

(** The stages with their durations. *)
Lemma settled v s : 0 <= v < 65536 ->
  stage (Z.to_nat v) HOST_STATE_Powered_WaitForDeviceSettle (set_WaitMSRemaining v s) (set_WaitMSRemaining 0 s) [] [] [].
Proof. intros Hv. rewrite <- (Z2Nat.id v) at 2 by lia. apply settle_stage. lia. Qed.

Lemma waited v p s : 0 < v < 65536 ->
  stage (Z.to_nat v) HOST_STATE_WaitForDevice (waiting v p s) (waiting 0 p s) [] [] [k_SetHostState p].
Proof.
  intros Hv. pose proof (wait_stage (Z.to_nat v) p (set_PostWaitState p s) ltac:(lia) ltac:(lia) eq_refl) as H.
  rewrite Z2Nat.id in H by lia. exact H.
Qed.

(** The states a device goes through. *)
Definition enumeration_log : list host_command :=
  [k_SetHostState HOST_STATE_Powered_WaitForDeviceSettle; k_SetHostState HOST_STATE_Powered_WaitForConnect;
   k_SetHostState HOST_STATE_WaitForDevice; k_SetHostState HOST_STATE_Powered_DoReset;
   k_SetHostState HOST_STATE_WaitForDevice; k_SetHostState HOST_STATE_Powered_ConfigPipe;
   k_SetHostState HOST_STATE_Default;
   k_SetHostState HOST_STATE_WaitForDevice; k_SetHostState HOST_STATE_Default_PostReset;
   k_SetHostState HOST_STATE_WaitForDevice; k_SetHostState HOST_STATE_Default_PostAddressSet;
   k_SetDeviceAddress USB_HOST_DEVICEADDRESS; k_SetHostState HOST_STATE_Addressed; k_EnumerationComplete].

(** A step, and two stages. *)
Definition one (x : Z) {s s' ts l cs} (Hx : 0 <= x < 256) (H : steps_to x s s' ts l cs) : stage 1 x s s' ts l cs := step_stage x s s' ts l cs Hx H.
Definition then_ {n m x y s s1 s' ts ts' l l' cs cs'} (H1 : stage n x s s1 ts l cs) (E : y = after x cs)
    (H2 : stage m y s1 s' ts' l' cs') : stage (n + m) x s s' (ts ++ ts') (l ++ l') (cs ++ cs').
Proof. subst y. by eapply stage_app. Defined.

(** The host when it asks for the descriptor, and when the enumeration is complete. *)
Definition before_default (s : host) : host := waiting 0 HOST_STATE_Powered_ConfigPipe (set_ConfigNumber 0 (waiting 0 HOST_STATE_Powered_DoReset s)).
Definition enumerated (s : host) : host :=
  waiting 0 HOST_STATE_Default_PostAddressSet (set_ConfigNumber 0 (set_ControlPipeSize (nth 7 D 0) (before_default s))).

Lemma powered_to_default s :
  stage (1 + (Z.to_nat 1000 + (1 + (1 + (Z.to_nat 100 + (1 + (Z.to_nat 200 + 1))))))) HOST_STATE_Powered s (before_default s) []
    [] (take 7 enumeration_log).
Proof.
  exact (then_ (one HOST_STATE_Powered ltac:(done) (powered_step s)) eq_refl
    (then_ (settled 1000 s ltac:(lia)) eq_refl
    (then_ (one HOST_STATE_Powered_WaitForDeviceSettle ltac:(done) (settle_end (set_WaitMSRemaining 0 s) eq_refl)) eq_refl
    (then_ (one HOST_STATE_Powered_WaitForConnect ltac:(done) (connect_step (set_WaitMSRemaining 65535 (set_WaitMSRemaining 0 s)))) eq_refl
    (then_ (waited 100 HOST_STATE_Powered_DoReset s ltac:(lia)) eq_refl
    (then_ (one HOST_STATE_Powered_DoReset ltac:(done) (reset_step (waiting 0 HOST_STATE_Powered_DoReset s))) eq_refl
    (then_ (waited 200 HOST_STATE_Powered_ConfigPipe (set_ConfigNumber 0 (waiting 0 HOST_STATE_Powered_DoReset s)) ltac:(lia)) eq_refl
    (one HOST_STATE_Powered_ConfigPipe ltac:(done) (config_step (before_default s)))))))))).
Qed.

Lemma default_to_addressed s :
  stage (1 + (Z.to_nat 200 + (1 + (Z.to_nat 100 + 1)))) HOST_STATE_Default (before_default s) (enumerated s)
    (descriptor_transactions ++ address_transactions) D (drop 7 enumeration_log).
Proof.
  pose proof (then_ (one HOST_STATE_Default ltac:(done) (default_step (before_default s))) eq_refl
    (then_ (waited 200 HOST_STATE_Default_PostReset (set_ConfigNumber 0 (set_ControlPipeSize (nth 7 D 0) (before_default s))) ltac:(lia)) eq_refl
    (then_ (one HOST_STATE_Default_PostReset ltac:(done) (post_reset_step (waiting 0 HOST_STATE_Default_PostReset (set_ConfigNumber 0 (set_ControlPipeSize (nth 7 D 0) (before_default s)))))) eq_refl
    (then_ (waited 100 HOST_STATE_Default_PostAddressSet (set_ConfigNumber 0 (set_ControlPipeSize (nth 7 D 0) (before_default s))) ltac:(lia)) eq_refl
    (one HOST_STATE_Default_PostAddressSet ltac:(done) (post_address_step (enumerated s))))))) as H.
  cbn [app] in H. rewrite ?app_nil_r in H. exact H.
Qed.

Lemma enumerated_stage k s :
  stage (1608 + k) HOST_STATE_Powered s (enumerated s) (descriptor_transactions ++ address_transactions) D enumeration_log.
Proof.
  pose proof (then_ (powered_to_default s) eq_refl (then_ (default_to_addressed s) eq_refl (addressed_stage k (enumerated s)))) as H.
  rewrite ?app_nil_r in H. replace (1608 + k)%nat with (1 + (Z.to_nat 1000 + (1 + (1 + (Z.to_nat 100 + (1 + (Z.to_nat 200 + 1)))))) +
    (1 + (Z.to_nat 200 + (1 + (Z.to_nat 100 + 1))) + k))%nat by lia. exact H.
Qed.
End enumeration.

(** C5: an attached device is enumerated.  The host calls its task over and over, starting
    in the powered state; the device answers its control requests and its first eight
    bytes are those of its descriptor.  Then the task returns every time, and after 1608
    calls (a millisecond each, most of them) the device is addressed: on the bus there
    were two requests, for the descriptor and to set the address, all data received is
    the descriptor, the states were passed through in the documented order, and the size
    of the control pipe is the one the descriptor asks for. *)
Theorem enumeration_completes h fuel D DataBuffer0 s n :
  attached h HOST_STATE_Powered D -> length D = 8%nat -> Forall is_byte D -> length DataBuffer0 = 8%nat ->
  (10 <= fuel)%nat -> 1608 <= Z.of_nat n ->
  exists s' t, host_tasks fuel DataBuffer0 n s h [] = Returns (s', t) /\
    transactions t = [T_setup (request_bytes get_device_descriptor); T_in; T_out []; T_setup (request_bytes set_device_address); T_in] /\
    hreceived t = D /\ hlog t = enumeration_log /\ USB_Host_ControlPipeSize s' = nth 7 D 0.
Proof.
  intros Ha HD HDb Hb Hf Hn. assert (exists k, n = (1608 + k)%nat) as [k ->].
  { exists (Z.to_nat (Z.of_nat n - 1608)). lia. }
  pose proof (enumerated_stage h fuel Hf _ D Ha HD HDb DataBuffer0 Hb k s [] eq_refl) as H.
  destruct (wp_total _ _ _ _ H) as (s' & t & E & -> & (W & _ & R) & L). by exists (enumerated D s), t.
Qed.

(** ** Witnesses *)

(** A keyboard's descriptor, up to the size of its control endpoint, and the device. *)
Definition keyboard_descriptor : list Z := [18; 1; 16; 1; 0; 0; 0; 8].
Definition keyboard : hw := fun t q =>
  match q with
  | q_Host p_HostState => after HOST_STATE_Powered (hlog t)
  | q_Host p_CurrentMode => USB_MODE_Host
  | q_Host (p_IsError | p_IsStalled) => 0
  | q_Host p_BytesInPipe => 8 - Z.of_nat (length (since_setup t))
  | q_Host p_Read_8 => nth (length (since_setup t)) keyboard_descriptor 0
  | _ => 1
  end.

Lemma keyboard_attached : attached keyboard HOST_STATE_Powered keyboard_descriptor.
Proof. split; try done. intros t Hl. cbn. lia. Qed.

Lemma keyboard_bytes : Forall is_byte keyboard_descriptor.
Proof. apply (bool_decide_eq_true_1 _). by vm_compute. Qed.

Lemma enumeration_completes_witness :
  exists s' t, host_tasks 10 (repeat 0 8) (Z.to_nat 1608) (mk_host 0 0 64 0) keyboard [] = Returns (s', t) /\
    transactions t = [T_setup [128; 6; 0; 1; 0; 0; 8; 0]; T_in; T_out []; T_setup [0; 5; 1; 0; 0; 0; 0; 0]; T_in] /\
    hreceived t = keyboard_descriptor /\ hlog t = enumeration_log /\ USB_Host_ControlPipeSize s' = 8.
Proof.
  exact (enumeration_completes keyboard 10 keyboard_descriptor (repeat 0 8) (mk_host 0 0 64 0) (Z.to_nat 1608)
    keyboard_attached eq_refl keyboard_bytes eq_refl ltac:(lia) ltac:(lia)).
Defined.

Lemma enumeration_in_order_witness :
  match USB_Host_ProcessNextHostState 10 (repeat 0 8) (mk_host 0 0 64 0) keyboard [] with
  | Returns (s', ev) => enum_step HOST_STATE_Powered (mk_host 0 0 64 0) s' (hlog ev)
  | _ => False
  end.
Proof.
  pose proof (enumeration_in_order keyboard 10 (repeat 0 8) eq_refl ltac:(apply (bool_decide_eq_true_1 _); by vm_compute)
    (mk_host 0 0 64 0) []) as H.
  wp_run H. destruct H as (s' & -> & H). exact H.
Defined.

Lemma control_request_on_bus_witness :
  match USB_Host_SendControlRequest 10 64 get_device_descriptor (Some (repeat 0 8)) keyboard [] with
  | Returns ((code, buf'), s) => code = 0 /\ buf' = Some keyboard_descriptor /\
      exists k, transactions s = T_setup [128; 6; 0; 1; 0; 0; 8; 0] :: replicate k T_in ++ [T_out []]
  | _ => False
  end.
Proof.
  pose proof (control_request_on_bus keyboard 10 64 get_device_descriptor (Some (repeat 0 8)) []
    ltac:(apply (bool_decide_eq_true_1 _); by vm_compute) ltac:(done)
    ltac:(intros b [= <-]; split; [apply (bool_decide_eq_true_1 _); by vm_compute|done])) as H.
  wp_run H. destruct p as [code buf']. destruct H as (s' & -> & _ & _ & H).
  assert (code = 0 /\ buf' = Some keyboard_descriptor) as [-> ->].
  { vm_compute in E. injection E as <- <- _. done. }
  split; [reflexivity|]. split; [reflexivity|]. exact (H eq_refl).
Defined.
