(* ===== verification/PipeSpec.v ===== *)
(** * Streams of the host on the bus

    What the streams of [Pipe] look like as packets, for every device that keeps up, and
    what a device delivers. *)
From S2P Require Import Prelude ConfigDescriptors USBIo Endpoint EndpointSpec Quiet Pipe DeviceRequests HIDDevice NetBuffers NetLemmas RNDISDevice HostRequests HostRequestsSpec.

Lemma nth_lookup_in (l : list Z) (i : nat) : (i < length l)%nat -> l !! i = Some (nth i l 0).
Proof. intros Hi. destruct (nth_lookup_or_length l i 0) as [E|]; [exact E|lia]. Qed.

Lemma bytes_u8 l : Forall is_byte l -> u8 <$> l = l.
Proof. induction 1 as [|b l Hb _ IH]; [done|]. by rewrite fmap_cons, IH, u8_small. Qed.

(** ** Packets *)

Inductive packet : Type := P_setup (pipe : Z) (data : list Z) | P_out (pipe : Z) (data : list Z) | P_in (pipe : Z) (data : list Z).

(** The selected pipe, the bytes moved since the last packet, and the packets. *)
Record bus := mk_bus { bus_pipe : Z; bus_bank : list Z; bus_packets : list packet }.

Definition bus_event (b : bus) (e : event) : bus :=
  let '(mk_bus p c ps) := b in
  match e with
  | Cmd (c_Host (k_SelectPipe q)) => mk_bus q c ps
  | Cmd (c_Host (k_Write_8 v)) => mk_bus p (c ++ [v]) ps
  | Ask (q_Host p_Read_8) a => mk_bus p (c ++ [u8 a]) ps
  | Cmd (c_Host k_ClearSETUP) => mk_bus p [] (ps ++ [P_setup p c])
  | Cmd (c_Host k_ClearOUT) => mk_bus p [] (ps ++ [P_out p c])
  | Cmd (c_Host k_ClearIN) => mk_bus p [] (ps ++ [P_in p c])
  | _ => b
  end.
Definition bus_after (b : bus) (s : list event) : bus := foldl bus_event b s.

(** The packets of a history, each with its pipe; the bytes sent in them. *)
Definition pipe_packets (s : list event) : list packet := bus_packets (bus_after (mk_bus 0 [] []) s).
Definition bytes_sent (s : list event) : list Z :=
  concat ((fun k => match k with P_setup _ l | P_out _ l => l | P_in _ _ => [] end) <$> pipe_packets s).

(** From pipe [p] with [c] in its bank to [q] with [c'], by the packets [ps], reading [l]. *)
Definition flows (p : Z) (c : list Z) (s : list event) (ps : list packet) (q : Z) (c' l : list Z) : Prop :=
  (forall ps0, bus_after (mk_bus p c ps0) s = mk_bus q c' (ps0 ++ ps)) /\ hreceived s = l.

Lemma flows_app p c s ps q c' l s' ps' r c'' l' :
  flows p c s ps q c' l -> flows q c' s' ps' r c'' l' -> flows p c (s ++ s') (ps ++ ps') r c'' (l ++ l').
Proof.
  intros [H1 <-] [H2 <-]. split; [|apply hreceived_app]. intros ps0. unfold bus_after in *.
  by rewrite foldl_app, H1, H2, <- app_assoc.
Qed.

(** Events without data, on any pipe. *)
Lemma flows_calm s : Forall calm s -> forall p, exists q, forall c, flows p c s [] q c [].
Proof.
  induction 1 as [|e s He _ IH]; intros p; [exists p; intros c; split; [intros; by rewrite app_nil_r|done]|].
  assert (exists p', forall c, flows p c [e] [] p' c []) as [p' Hp].
  { destruct e as [[]|[]]; try (exists p; intros ?; split; [intros; by rewrite app_nil_r|done]).
    - exists p. destruct q; done || (intros ?; split; [intros; by rewrite app_nil_r|done]).
    - destruct c; done || (eexists; intros c'; split; [intros; rewrite app_nil_r; reflexivity|done]). }
  destruct (IH p') as [q Hq]. exists q. intros c. exact (flows_app _ _ [e] _ _ _ _ _ _ _ _ _ (Hp c) (Hq c)).
Qed.

(** Events without data, on the same pipe. *)
Definition still (e : event) : Prop := calm e /\ match e with Cmd (c_Host (k_SelectPipe _)) => False | _ => True end.

Lemma flows_still s : Forall still s -> forall p c, flows p c s [] p c [].
Proof.
  induction 1 as [|e s [He Hs] _ IH]; intros p c; [split; [intros; by rewrite app_nil_r|done]|].
  apply (flows_app p c [e] [] p c []); [|apply IH]. split; [intros; rewrite app_nil_r|];
    destruct e as [[]|[]]; try done; destruct q + destruct c0; done.
Qed.

Lemma still_calm s : Forall still s -> Forall calm s.
Proof. intros Hs. eapply Forall_impl; [exact Hs|]. by intros e []. Qed.

Ltac stills := repeat first [assumption|split; exact I|apply Forall_app_2|apply Forall_cons_2|apply Forall_nil_2].

Lemma flows_skip s p c s' ps q c' l : Forall still s -> flows p c s' ps q c' l -> flows p c (s ++ s') ps q c' l.
Proof. intros Hs H. exact (flows_app p c s [] p c [] _ _ _ _ _ (flows_still s Hs p c) H). Qed.

Lemma flows_end s p c s' ps q c' l : Forall still s' -> flows p c s ps q c' l -> flows p c (s ++ s') ps q c' l.
Proof. intros Hs H. pose proof (flows_app _ _ _ _ _ _ _ _ _ _ _ _ H (flows_still s' Hs q c')) as G. by rewrite !app_nil_r in G. Qed.

(** Selecting a pipe, whatever was selected before; the events of a packet. *)
Lemma flows_select p p' c s ps q c' l :
  flows p c s ps q c' l -> flows p' c ([Cmd (c_Host (k_SelectPipe p))] ++ s) ps q c' l.
Proof. intros [H1 <-]. split; [|done]. intros ps0. by rewrite <- H1. Qed.

Lemma flows_out p c s ps q c' l : flows p [] s ps q c' l -> flows p c ([Cmd (c_Host k_ClearOUT)] ++ s) (P_out p c :: ps) q c' l.
Proof. intros [H1 <-]. split; [|done]. intros ps0. rewrite cons_middle, app_assoc, <- H1. done. Qed.
Lemma flows_in p c s ps q c' l : flows p [] s ps q c' l -> flows p c ([Cmd (c_Host k_ClearIN)] ++ s) (P_in p c :: ps) q c' l.
Proof. intros [H1 <-]. split; [|done]. intros ps0. rewrite cons_middle, app_assoc, <- H1. done. Qed.

Lemma flows_write p c v : flows p c [Cmd (c_Host (k_Write_8 v))] [] p (c ++ [v]) [].
Proof. split; [|done]. intros ps0. by rewrite app_nil_r. Qed.
Lemma flows_read p c a : flows p c [Ask (q_Host p_Read_8) a] [] p (c ++ [u8 a]) [u8 a].
Proof. split; [|done]. intros ps0. by rewrite app_nil_r. Qed.

(** From [t0] on, the device's pipe delivers [B] to the host. *)
Definition pipe_delivers (h : hw) (t0 : list event) (B : list Z) : Prop :=
  forall s, h (t0 ++ s) (q_Host p_Read_8) = nth (length (hreceived s)) B 0.

Lemma pipe_delivered h t0 B s : valid h t0 s -> pipe_delivers h t0 B -> Forall is_byte B ->
  (length (hreceived s) <= length B)%nat -> hreceived s = take (length (hreceived s)) B.
Proof.
  intros Hv Hd HB. induction s as [|e s IH] using rev_ind; [done|].
  apply valid_app in Hv as [Hv He]. rewrite hreceived_app, length_app. intros Hl.
  destruct (hreceived [e]) as [|x l] eqn:Ee; [rewrite app_nil_r, Nat.add_0_r; apply IH; [done|cbn in Hl; lia]|].
  assert (exists a, e = Ask (q_Host p_Read_8) a /\ x = u8 a /\ l = []) as (a & -> & -> & ->).
  { destruct e as [[] ?|?]; try done. destruct q; try done. cbn in Ee. injection Ee as <- <-. by eexists. }
  cbn [length] in *. destruct He as [Ha _]. rewrite Hd in Ha. rewrite Nat.add_1_r.
  erewrite take_S_r by (apply nth_lookup_in; lia). rewrite <- IH by (done || lia). do 2 f_equal.
  rewrite Ha. apply u8_small. subst a. change (is_byte (nth (length (hreceived s)) B 0)). apply (proj1 (Forall_nth is_byte 0 B) HB). lia.
Qed.

(** ** A device that keeps up

    The pipes are ready, a full bank is free after its packet, and nothing stalls. *)
Record keeps_up (h : hw) : Prop := {
    ku_in : forall t, h t (q_Host p_IsINReceived) <> 0;
    ku_out : forall t, h t (q_Host p_IsOUTReady) <> 0;
    ku_bank : forall t c s, c = k_ClearOUT \/ c = k_ClearIN -> Forall still s ->
      h t (q_Host p_IsReadWriteAllowed) = 0 ->
      h (t ++ Ask (q_Host p_IsReadWriteAllowed) 0 :: Cmd (c_Host c) :: s) (q_Host p_IsReadWriteAllowed) <> 0;
    ku_state : forall t, u8 (h t (q_Host p_HostState)) = HOST_STATE_Configured
  }.

Section driver.
Context (h : hw) (Hh : keeps_up h) (fuel : nat).

Lemma pipe_ready n t : (1 <= n)%nat -> wp true h (Pipe_WaitUntilReady n) t (fun code s => code = PIPE_READYWAIT_NoError /\ Forall still s).
Proof.
  intros Hn. destruct n as [|n]; [lia|]. unfold Pipe_WaitUntilReady. cbn [pipe_wait_loop]. unfold Pipe_GetPipeToken.
  repeat wp_step. all: try (split; [done|by stills]).
  all: exfalso; match goal with
       | H : h ?x ?q = ?a, H' : truthy ?a = false |- _ =>
           apply truthy_eq in H'; first [apply (ku_in _ Hh x); congruence | apply (ku_out _ Hh x); congruence]
       end.
Qed.

(** ** Streams *)

(** Bytes moved one by one from [i] on. *)
Inductive moves (R : list Z -> Z -> Z -> list Z -> Prop) : list Z -> Z -> list Z -> list Z -> Prop :=
  | moves_nil buf i : moves R buf i [] buf
  | moves_cons buf i b buf1 l buf' : R buf i b buf1 -> moves R buf1 (i + 1) l buf' -> moves R buf i (b :: l) buf'.

Section stream.
Context (T : pipe_template) (c : host_command) (P : Z -> list Z -> packet) (rd : bool) (R : list Z -> Z -> Z -> list Z -> Prop).
Context (Hc : c = k_ClearOUT \/ c = k_ClearIN) (Hclear : CLEAR_PIPE T = host_cmd c) (Hmove : PIPE_MOVE T = Z.add).
Context (Hpacket : forall p d s ps q d' l, flows p [] s ps q d' l -> flows p d ([Cmd (c_Host c)] ++ s) (P p d :: ps) q d' l).
Context (Hbyte : forall buf i t, 0 <= i < Z.of_nat (length buf) ->
  wp true h (PIPE_TRANSFER T buf i) t (fun buf' s => exists b, R buf i b buf' /\ length buf' = length buf /\
    forall p d, flows p d s [] p (d ++ [b]) (if rd then [b] else []))).

(** The rest of a stream: [n] bytes from [i] on. *)
Definition streamed (buf : list Z) (i : Z) (n : nat) (r : Z * list Z * option Z) (s : list event) : Prop :=
  exists l buf', r = (PIPE_RWSTREAM_NoError, buf', None) /\ length l = n /\ moves R buf i l buf' /\
  forall p d, exists ps d', flows p d s (P p <$> ps) p d' (if rd then l else []) /\ concat ps ++ d' = d ++ l.

Lemma streamed_byte buf i b buf1 n r s1 s :
  R buf i b buf1 -> (forall p d, flows p d s1 [] p (d ++ [b]) (if rd then [b] else [])) ->
  streamed buf1 (i + 1) n r s -> streamed buf i (S n) r (s1 ++ s).
Proof.
  intros HR H1 (l & buf' & -> & <- & Hm & Hf). exists (b :: l), buf'. split_and!; [done|done|by apply (moves_cons _ _ _ _ buf1)|].
  intros p d. destruct (Hf p (d ++ [b])) as (ps & d' & F & E). exists ps, d'. split; [|by rewrite E, <- app_assoc].
  pose proof (flows_app _ _ _ _ _ _ _ _ _ _ _ _ (H1 p d) F) as G. by destruct rd.
Qed.

Lemma streamed_skip buf i n r s1 s : Forall still s1 -> streamed buf i n r s -> streamed buf i n r (s1 ++ s).
Proof.
  intros H1 (l & buf' & -> & <- & Hm & Hf). exists l, buf'. split_and!; [done..|].
  intros p d. destruct (Hf p d) as (ps & d' & F & E). exists ps, d'. split; [by apply flows_skip|done].
Qed.

Lemma streamed_packet buf i n r s : streamed buf i n r s -> streamed buf i n r ([Cmd (c_Host c)] ++ s).
Proof.
  intros (l & buf' & -> & <- & Hm & Hf). exists l, buf'. split_and!; [done..|].
  intros p d. destruct (Hf p []) as (ps & d' & F & E). exists (d :: ps), d'. split; [by apply Hpacket|].
  cbn. by rewrite <- app_assoc, E.
Qed.

Lemma transfer_streams n f buf i d t :
  (forall buf i d t, 0 <= i -> i + Z.of_nat n <= Z.of_nat (length buf) ->
     wp true h (pipe_stream_loop T f buf i (Z.of_nat n) d None) t (streamed buf i n)) ->
  Z.of_nat (S n) < 65536 -> 0 <= i -> i + Z.of_nat (S n) <= Z.of_nat (length buf) ->
  wp true h (Buffer ← PIPE_TRANSFER T buf i;
             pipe_stream_loop T f Buffer (PIPE_MOVE T i 1) (u16 (Z.of_nat (S n) - 1)) (u16 (d + 1)) None)
     t (streamed buf i (S n)).
Proof.
  intros IH Hn Hi Hb. wp_step. eapply wp_mono; [apply Hbyte; lia|]. intros buf1 s1 (b & HR & Hl & H1). cbn beta.
  rewrite Hmove, u16_small by lia. replace (Z.of_nat (S n) - 1) with (Z.of_nat n) by lia.
  eapply wp_mono; [apply IH; [lia|rewrite Hl; lia]|]. intros r s. by apply (streamed_byte buf i b buf1).
Qed.

Lemma stream_flows : forall n f buf i d t,
  (2 * n + 1 <= f)%nat -> Z.of_nat n < 65536 -> 0 <= i -> i + Z.of_nat n <= Z.of_nat (length buf) ->
  wp true h (pipe_stream_loop T f buf i (Z.of_nat n) d None) t (streamed buf i n).
Proof.
  assert (Htt : forall n, negb (truthy (Z.of_nat (S n))) = false).
  { intros. unfold truthy. rewrite negb_involutive. apply Z.eqb_neq. lia. }
  induction n as [|n IH]; intros f buf i d t Hf Hn Hi Hb; destruct f as [|f]; try lia.
  - apply wp_ret. exists [], buf. split_and!; [done|done|constructor|]. intros p e. exists [], e. rewrite app_nil_r. split; [|done].
    destruct rd; by apply flows_still.
  - cbn [pipe_stream_loop]. rewrite Htt. cbv match. do 3 wp_step.
    apply wp_if; intros Ha.
    + apply negb_true_iff, truthy_eq in Ha. subst a. rewrite Hclear. do 4 wp_step.
      eapply wp_mono; [apply pipe_ready; lia|]. intros code s [-> Hs]. cbn beta. cbv match. destruct f as [|f]; [lia|].
      change (truthy PIPE_READYWAIT_NoError) with false. cbv match. cbn [pipe_stream_loop]. rewrite Htt. cbv match. do 3 wp_step.
      apply wp_if; intros Ha'.
      * exfalso. apply negb_true_iff, truthy_eq in Ha'. rewrite <- !app_assoc in *. subst.
        apply (ku_bank _ Hh t c s Hc Hs); [assumption|]. by rewrite Ha in Ha'.
      * eapply wp_mono; [apply transfer_streams; [intros; apply IH; lia|lia..]|].
        intros r s' Hst. apply streamed_skip; [by stills|]. apply streamed_packet, streamed_skip; [done|].
        apply streamed_skip; [by stills|done].
    + eapply wp_mono; [apply transfer_streams; [intros; apply IH; lia|lia..]|].
      intros r s' Hst. apply streamed_skip; [by stills|done].
Qed.

Context (Hoff : forall n, PIPE_OFFSET T n = 0).

Lemma template_flows buf n t : (Z.to_nat (2 * n + 1) <= fuel)%nat -> 0 <= n < 65536 -> n <= Z.of_nat (length buf) ->
  wp true h (Template_Pipe_RW T fuel buf n None) t (streamed buf 0 (Z.to_nat n)).
Proof.
  intros Hf Hn Hb. unfold Template_Pipe_RW, Pipe_SetPipeToken. cbv zeta. do 6 wp_step.
  eapply wp_mono; [apply pipe_ready; lia|]. intros code s [-> Hs]. cbn beta. change (truthy PIPE_READYWAIT_NoError) with false. cbv match.
  cbn [remaining]. rewrite Hoff.
  rewrite <- (Z2Nat.id n) at 1 by lia. eapply wp_mono; [apply stream_flows; lia|].
  intros r s' Hst. repeat first [exact Hst | apply streamed_skip; [by stills|]].
Qed.
End stream.

Definition write_move (buf : list Z) (i b : Z) (buf' : list Z) : Prop := buf' = buf /\ exists v, arr_get buf i = Some v /\ b = u8 v.
Definition read_move (buf : list Z) (i b : Z) (buf' : list Z) : Prop := arr_set buf i b = Some buf'.

Lemma moves_write buf i l buf' : 0 <= i -> moves write_move buf i l buf' -> buf' = buf /\ l = u8 <$> slice i (Z.of_nat (length l)) buf.
Proof.
  intros Hi Hm. revert Hi. induction Hm as [buf i|buf i b buf1 l buf' (-> & v & Hg & ->) _ IH]; intros Hi; [by unfold slice|].
  destruct IH as [-> IH]; [lia|]. split; [done|]. cbn [length]. replace (Z.of_nat (S (length l))) with (1 + Z.of_nat (length l)) by lia.
  rewrite slice_app, fmap_app, <- IH by lia. by rewrite (slice_get _ _ _ Hg).
Qed.

Lemma moves_read buf i l buf' : 0 <= i -> i + Z.of_nat (length l) <= Z.of_nat (length buf) -> moves read_move buf i l buf' -> stored buf i l buf'.
Proof.
  intros Hi Hl Hm. revert Hi Hl. induction Hm as [buf i|buf i b buf1 l buf' Hg _ IH]; intros Hi Hl; [apply stored_nil|].
  cbn [length] in Hl. unfold read_move in Hg. pose proof (arr_set_length _ _ _ _ Hg) as L1.
  apply (stored_app buf i [b] buf1 l buf'); [done|cbn; lia|by apply stored_one|apply IH; lia].
Qed.

(** Writing and reading a buffer of bytes. *)
Lemma write_stream_flows buf n t : (Z.to_nat (2 * n + 1) <= fuel)%nat -> 0 <= n < 65536 -> n <= Z.of_nat (length buf) -> Forall is_byte buf ->
  wp true h (Pipe_Write_Stream_LE fuel buf n None) t (fun r s => r = (PIPE_RWSTREAM_NoError, buf, None) /\
    forall p, exists ps d', flows p [] s (P_out p <$> ps) p d' [] /\ concat ps ++ d' = take (Z.to_nat n) buf).
Proof.
  intros Hf Hn Hb Hby. eapply wp_mono.
  - apply (template_flows pipe_write_LE k_ClearOUT P_out false write_move); try done; [by left|intros; by apply flows_out|].
    intros b i t' Hi. destruct (arr_get_is_Some b i Hi) as [v Hg]. cbn. unfold pipe_write_byte. wp_step. wp_step; [exact Hg|]. repeat wp_step.
    exists (u8 v). split_and!; [by unfold write_move; eauto|done|]. intros p d. apply flows_write.
  - intros r s (l & buf' & -> & Hl & [-> El]%moves_write & Hs); [|done]. split; [done|]. intros p.
    destruct (Hs p []) as (ps & d' & F & E). exists ps, d'. split; [done|]. rewrite E, El, Hl. unfold slice.
    rewrite Z2Nat.id by lia. apply bytes_u8. by apply Forall_take.
Qed.

Lemma read_stream_flows buf n t : (Z.to_nat (2 * n + 1) <= fuel)%nat -> 0 <= n < 65536 -> n <= Z.of_nat (length buf) ->
  wp true h (Pipe_Read_Stream_LE fuel buf n None) t (fun r s => exists l, r = (PIPE_RWSTREAM_NoError, l ++ drop (length l) buf, None) /\
    Z.of_nat (length l) = n /\ forall p, exists ps d', flows p [] s (P_in p <$> ps) p d' l /\ concat ps ++ d' = l).
Proof.
  intros Hf Hn Hb. eapply wp_mono.
  - apply (template_flows pipe_read_LE k_ClearIN P_in true read_move); try done; [by right|intros; by apply flows_in|].
    intros b i t' Hi. cbn. unfold pipe_read_byte. do 3 wp_step. destruct (arr_set_is_Some b i (u8 a) Hi) as [b' Hs]. wp_step; [exact Hs|].
    exists (u8 a). split_and!; [exact Hs|by apply arr_set_length in Hs|]. intros p d. apply flows_read.
  - intros r s (l & buf' & -> & Hl & Hst%moves_read & Hs); [|lia..]. exists l. unfold stored in Hst. cbn in Hst. subst buf'.
    split_and!; [done|lia|]. intros p. exact (Hs p []).
Qed.

(** ** The stages of a command *)

(** Packets between moments when nothing is in a bank, whatever pipe is selected. *)
Definition piece (s : list event) (ps : list packet) (l : list Z) : Prop := forall p, exists q, flows p [] s ps q [] l.

Lemma piece_app s ps l s' ps' l' : piece s ps l -> piece s' ps' l' -> piece (s ++ s') (ps ++ ps') (l ++ l').
Proof. intros H H' p. destruct (H p) as [q F]. destruct (H' q) as [r F']. exists r. by eapply flows_app. Qed.
Lemma piece_calm s : Forall calm s -> piece s [] [].
Proof. intros Hs p. destruct (flows_calm s Hs p) as [q F]. exists q. apply F. Qed.
Lemma piece_skip s s' ps l : Forall calm s -> piece s' ps l -> piece (s ++ s') ps l.
Proof. intros Hs H. exact (piece_app s [] [] s' ps l (piece_calm s Hs) H). Qed.
Lemma piece_end s s' ps l : Forall calm s' -> piece s ps l -> piece (s ++ s') ps l.
Proof. intros Hs H. pose proof (piece_app s ps l s' [] [] H (piece_calm s' Hs)) as G. by rewrite !app_nil_r in G. Qed.

Lemma piece_packets s ps l : piece s ps l -> pipe_packets s = ps /\ hreceived s = l.
Proof. intros H. destruct (H 0) as (q & F & ?). split; [|done]. unfold pipe_packets. by rewrite F. Qed.

(** A stream on the pipe [x], and the packet its last bytes are in. *)
Lemma piece_stream (P : Z -> list Z -> packet) c x s L l :
  (forall p d s ps q d' l, flows p [] s ps q d' l -> flows p d ([Cmd (c_Host c)] ++ s) (P p d :: ps) q d' l) ->
  (forall p, exists ps d', flows p [] s (P p <$> ps) p d' l /\ concat ps ++ d' = L) ->
  exists ps, concat ps = L /\ forall s', Forall calm s' ->
    piece ([Cmd (c_Host (k_SelectPipe x))] ++ [Cmd (c_Host k_Unfreeze)] ++ s ++ [Cmd (c_Host c)] ++ s') (P x <$> ps) l.
Proof.
  intros HP H. destruct (H x) as (ps & d' & F & E). exists (ps ++ [d']). split; [by rewrite concat_app; cbn; rewrite app_nil_r|].
  intros s' Hs'. set (sel := [Cmd (c_Host (k_SelectPipe x))]). set (unf := [Cmd (c_Host k_Unfreeze)]).
  replace (sel ++ unf ++ s ++ [Cmd (c_Host c)] ++ s') with ((sel ++ unf ++ s ++ [Cmd (c_Host c)]) ++ s') by (by rewrite <- !app_assoc).
  apply piece_end; [done|].
  intros p. exists x. apply flows_select, flows_skip; [by stills|]. rewrite fmap_app.
  rewrite <- (app_nil_r l). eapply flows_app; [exact F|]. apply (HP x d' [] [] x [] []). by apply flows_still.
Qed.
End driver.

(** The test for an error after a part that had none. *)
Ltac no_error := change (negb (PIPE_RWSTREAM_NoError =? PIPE_RWSTREAM_NoError)) with false; cbv match.

(** ** A device for the witnesses *)

(** A device that sends given bytes and is always ready. *)
Definition bulk_device (data : list Z) : hw := fun t q =>
  match q with
  | q_Host p_Read_8 => nth (length (hreceived t)) data 0
  | q_Host p_HostState => HOST_STATE_Configured
  | q_Host p_CurrentMode => USB_MODE_Host
  | q_Host (p_IsStalled | p_IsError) => 0
  | _ => 1
  end.

Lemma bulk_device_keeps_up data : keeps_up (bulk_device data).
Proof. by split. Qed.
Lemma bulk_device_delivers data : pipe_delivers (bulk_device data) [] data.
Proof. done. Qed.
Definition host0 : host := mk_host 0 0 64 1.
