(* ===== verification/MassStorageHost.v ===== *)
(** * The mass storage class driver, host side

    [LUFA/Drivers/USB/Class/Host/MassStorageClassHost.c]: finding the interface of a
    mass storage device in its configuration descriptor, and the commands, each a
    command block wrapper, the data, and a status wrapper. *)
From S2P Require Import Prelude ConfigDescriptors USBIo Endpoint Pipe DeviceRequests HIDDevice NetBuffers RNDISDevice HostRequests MassStorage SCSI.

Definition MS_ENUMERROR_NoError := 0.
Definition MS_ENUMERROR_InvalidConfigDescriptor := 1.
Definition MS_ENUMERROR_NoCompatibleInterfaceFound := 2.
Definition MS_ERROR_LOGICAL_CMD_FAILED := 0x80.
Definition MS_COMMAND_DATA_TIMEOUT_MS := 10000.
Definition MS_COMMAND_DIR_DATA_OUT := 0.

Definition MS_CSCP_MassStorageClass := 0x08.
Definition MS_CSCP_SCSITransparentSubclass := 0x06.
Definition MS_CSCP_BulkOnlyTransportProtocol := 0x50.
Definition EP_TYPE_MASK := 3.

Record USB_ClassInfo_MS_Host_t := mk_ms_host {
    DataINPipe : USB_Pipe_Table_t;
    DataOUTPipe : USB_Pipe_Table_t;
    IsActive : bool;
    InterfaceNumber_ : Z;
    TransactionTag : Z
  }.

(** ** The interface *)

Section comparators.
Context (mem : list Z).

Definition DCOMP_MS_Host_NextMSInterface (p : Z) : io Z :=
  type ← get (DESCRIPTOR_TYPE mem p);
  if negb (type =? DTYPE_Interface) then mret DESCRIPTOR_SEARCH_NotFound else
  Class_ ← get (arr_get mem (p + 5));
  SubClass ← get (arr_get mem (p + 6));
  Protocol ← get (arr_get mem (p + 7));
  mret (if (Class_ =? MS_CSCP_MassStorageClass) && (SubClass =? MS_CSCP_SCSITransparentSubclass) &&
           (Protocol =? MS_CSCP_BulkOnlyTransportProtocol)
        then DESCRIPTOR_SEARCH_Found else DESCRIPTOR_SEARCH_NotFound).

Definition DCOMP_MS_Host_NextMSInterfaceEndpoint (p : Z) : io Z :=
  type ← get (DESCRIPTOR_TYPE mem p);
  if type =? DTYPE_Endpoint then
    Attributes ← get (arr_get mem (p + 3));
    if Z.land Attributes EP_TYPE_MASK =? EP_TYPE_BULK then
      EndpointAddress ← get (arr_get mem (p + 2));
      bound ← Pipe_IsEndpointBound EndpointAddress;
      mret (if bound : bool then DESCRIPTOR_SEARCH_NotFound else DESCRIPTOR_SEARCH_Found)
    else mret DESCRIPTOR_SEARCH_NotFound
  else mret (if type =? DTYPE_Interface then DESCRIPTOR_SEARCH_Fail else DESCRIPTOR_SEARCH_NotFound).

(** The loop of [MS_Host_ConfigurePipes]: the locations of the interface and of its two
    endpoints, or [None] when there is no interface left. *)
Fixpoint find_endpoints (n fuel : nat) (c : cursor) (DataIN DataOUT Interface : option Z) : io (option (Z * Z * Z)) :=
  match DataIN, DataOUT, Interface with
  | Some i, Some o, Some f => mret (Some (i, o, f))
  | _, _, _ =>
      match n with
      | O => loops
      | S n =>
          '(found, c) ← match Interface with
                        | Some _ =>
                            '(e, c) ← next_descriptor_comp mem fuel DCOMP_MS_Host_NextMSInterfaceEndpoint c;
                            mret (e =? DESCRIPTOR_SEARCH_COMP_Found, c)
                        | None => mret (false, c)
                        end;
          if negb found then
            '(e, c) ← next_descriptor_comp mem fuel DCOMP_MS_Host_NextMSInterface c;
            if negb (e =? DESCRIPTOR_SEARCH_COMP_Found) then mret None
            else find_endpoints n fuel c None None (Some (CurrConfigLoc c))
          else
            let p := CurrConfigLoc c in
            EndpointAddress ← get (arr_get mem (p + 2));
            if truthy (Z.land EndpointAddress ENDPOINT_DIR_IN)
            then find_endpoints n fuel c (Some p) DataOUT Interface
            else find_endpoints n fuel c DataIN (Some p) Interface
      end
  end.

(** A pipe for the endpoint at [p]. *)
Definition pipe_for (e : USB_Pipe_Table_t) (p : Z) : io USB_Pipe_Table_t :=
  Size ← get (get_u16 mem (p + 4));
  EndpointAddress ← get (arr_get mem (p + 2));
  mret (mk_pipe (pipe_Address e) Size EndpointAddress EP_TYPE_BULK (pipe_Banks e)).

(** A pipe that cannot be configured makes the function return [false], which is 0. *)
Definition MS_Host_ConfigurePipes (fuel : nat) (i : USB_ClassInfo_MS_Host_t) (ConfigDescriptorSize : Z)
    : io (Z * USB_ClassInfo_MS_Host_t) :=
  let i := mk_ms_host (DataINPipe i) (DataOUTPipe i) false 0 0 in
  type ← get (DESCRIPTOR_TYPE mem 0);
  if negb (type =? DTYPE_Configuration) then mret (MS_ENUMERROR_InvalidConfigDescriptor, i) else
  found ← find_endpoints fuel fuel (mk_cursor ConfigDescriptorSize 0) None None None;
  match found with
  | None => mret (MS_ENUMERROR_NoCompatibleInterfaceFound, i)
  | Some (DataINEndpoint, DataOUTEndpoint, MassStorageInterface) =>
      inpipe ← pipe_for (DataINPipe i) DataINEndpoint;
      outpipe ← pipe_for (DataOUTPipe i) DataOUTEndpoint;
      let i := mk_ms_host inpipe outpipe false 0 0 in
      ok ← Pipe_ConfigurePipeTable [DataINPipe i];
      if negb ok then mret (bool_Z false, i) else
      ok ← Pipe_ConfigurePipeTable [DataOUTPipe i];
      if negb ok then mret (bool_Z false, i) else
      n ← get (arr_get mem (MassStorageInterface + 2));
      mret (MS_ENUMERROR_NoError, mk_ms_host inpipe outpipe true n 0)
  end.
End comparators.

(** ** The commands *)

(** [MS_CommandBlockWrapper_t], without the signature and the tag. *)
Record command_block := mk_cbw {
    DataTransferLength : Z;
    Flags : Z;
    LUN : Z;
    SCSICommandData : list Z
  }.

(** The 31 bytes of the wrapper. *)
Definition cbw_bytes (Tag : Z) (b : command_block) : list Z :=
  le_bytes 4 MS_CBW_SIGNATURE ++ le_bytes 4 Tag ++ le_bytes 4 (DataTransferLength b) ++
  [u8 (Flags b); u8 (LUN b); Z.of_nat (length (SCSICommandData b))] ++ (u8 <$> SCSICommandData b) ++
  repeat 0 (16 - length (SCSICommandData b)).

Definition set_TransactionTag (t : Z) (i : USB_ClassInfo_MS_Host_t) : USB_ClassInfo_MS_Host_t :=
  mk_ms_host (DataINPipe i) (DataOUTPipe i) (IsActive i) (InterfaceNumber_ i) t.

(** [if (++TransactionTag == 0xFFFFFFFF) TransactionTag = 1] *)
Definition next_tag (t : Z) : Z := let t := u32 (t + 1) in if t =? 0xFFFFFFFF then 1 else t.

Section driver.
Context (fuel : nat) (hs : host).
(** The contents of the status block before it is read. *)
Context (SCSIStatusBlock0 : list Z).
Abbreviation info := USB_ClassInfo_MS_Host_t.

Definition stalled_pipe : io bool :=
  stalled ← Pipe_IsStalled;
  if stalled : bool then
    a ← Pipe_GetBoundEndpointAddress;
    USB_Host_ClearEndpointStall fuel hs a;;
    mret true
  else mret false.

Fixpoint wait_for_data (n : nat) (i : info) (TimeoutMSRem PreviousFrameNumber : Z) : io Z :=
  match n with
  | O => loops
  | S n =>
      received ← Pipe_IsINReceived;
      if received : bool then
        Pipe_SelectPipe (pipe_Address (DataINPipe i));;
        Pipe_Freeze;;
        Pipe_SelectPipe (pipe_Address (DataOUTPipe i));;
        Pipe_Freeze;;
        mret PIPE_RWSTREAM_NoError
      else
        CurrentFrameNumber ← USB_Host_GetFrameNumber;
        if negb (CurrentFrameNumber =? PreviousFrameNumber) && negb (truthy TimeoutMSRem) then mret PIPE_RWSTREAM_Timeout else
        let TimeoutMSRem := if negb (CurrentFrameNumber =? PreviousFrameNumber) then u16 (TimeoutMSRem - 1) else TimeoutMSRem in
        Pipe_Freeze;;
        Pipe_SelectPipe (pipe_Address (DataOUTPipe i));;
        Pipe_Unfreeze;;
        stalled ← stalled_pipe;
        if stalled : bool then mret PIPE_RWSTREAM_PipeStalled else
        Pipe_Freeze;;
        Pipe_SelectPipe (pipe_Address (DataINPipe i));;
        Pipe_Unfreeze;;
        stalled ← stalled_pipe;
        if stalled : bool then mret PIPE_RWSTREAM_PipeStalled else
        s ← USB_HostState;
        if s =? HOST_STATE_Unattached then mret PIPE_RWSTREAM_DeviceDisconnected else
        wait_for_data n i TimeoutMSRem CurrentFrameNumber
  end.

Definition MS_Host_WaitForDataReceived (i : info) : io Z :=
  PreviousFrameNumber ← USB_Host_GetFrameNumber;
  Pipe_SelectPipe (pipe_Address (DataINPipe i));;
  Pipe_Unfreeze;;
  wait_for_data fuel i MS_COMMAND_DATA_TIMEOUT_MS PreviousFrameNumber.

(** [while (!(Pipe_IsOUTReady()))], until the device is gone. *)
Fixpoint wait_out (n : nat) : io Z :=
  match n with
  | O => loops
  | S n =>
      ready ← Pipe_IsOUTReady;
      if ready : bool then mret PIPE_RWSTREAM_NoError else
      s ← USB_HostState;
      if s =? HOST_STATE_Unattached then mret PIPE_RWSTREAM_DeviceDisconnected else wait_out n
  end.

(** [BytesRem] has 16 bits. *)
Definition MS_Host_SendReceiveData (i : info) (b : command_block) (Buffer : list Z) : io (Z * list Z) :=
  let BytesRem := u16 (DataTransferLength b) in
  if truthy (Z.land (Flags b) MS_COMMAND_DIR_DATA_IN) then
    ErrorCode ← MS_Host_WaitForDataReceived i;
    if negb (ErrorCode =? PIPE_RWSTREAM_NoError) then Pipe_Freeze;; mret (ErrorCode, Buffer) else
    Pipe_SelectPipe (pipe_Address (DataINPipe i));;
    Pipe_Unfreeze;;
    '(ErrorCode, Buffer, _) ← Pipe_Read_Stream_LE fuel Buffer BytesRem None;
    if negb (ErrorCode =? PIPE_RWSTREAM_NoError) then mret (ErrorCode, Buffer) else
    Pipe_ClearIN;;
    Pipe_Freeze;;
    mret (ErrorCode, Buffer)
  else
    Pipe_SelectPipe (pipe_Address (DataOUTPipe i));;
    Pipe_Unfreeze;;
    '(ErrorCode, Buffer, _) ← Pipe_Write_Stream_LE fuel Buffer BytesRem None;
    if negb (ErrorCode =? PIPE_RWSTREAM_NoError) then mret (ErrorCode, Buffer) else
    Pipe_ClearOUT;;
    e ← wait_out fuel;
    if negb (e =? PIPE_RWSTREAM_NoError) then mret (e, Buffer) else
    Pipe_Freeze;;
    mret (ErrorCode, Buffer).

(** The status is the last byte of the status block. *)
Definition MS_Host_GetReturnedStatus (i : info) : io Z :=
  ErrorCode ← MS_Host_WaitForDataReceived i;
  if negb (ErrorCode =? PIPE_RWSTREAM_NoError) then mret ErrorCode else
  Pipe_SelectPipe (pipe_Address (DataINPipe i));;
  Pipe_Unfreeze;;
  '(ErrorCode, SCSICommandStatus, _) ← Pipe_Read_Stream_LE fuel SCSIStatusBlock0 sizeof_MS_CommandStatusWrapper_t None;
  if negb (ErrorCode =? PIPE_RWSTREAM_NoError) then mret ErrorCode else
  Pipe_ClearIN;;
  Pipe_Freeze;;
  Status ← get (arr_get SCSICommandStatus 12);
  mret (if negb (Status =? MS_SCSI_COMMAND_Pass) then MS_ERROR_LOGICAL_CMD_FAILED else ErrorCode).

(** The result: the error code, the buffer and the interface. *)
Definition MS_Host_SendCommand (i : info) (b : command_block) (BufferPtr : option (list Z)) : io (Z * option (list Z) * info) :=
  let i := set_TransactionTag (next_tag (TransactionTag i)) i in
  Pipe_SelectPipe (pipe_Address (DataOUTPipe i));;
  Pipe_Unfreeze;;
  '(ErrorCode, _, _) ← Pipe_Write_Stream_LE fuel (cbw_bytes (TransactionTag i) b) sizeof_MS_CommandBlockWrapper_t None;
  if negb (ErrorCode =? PIPE_RWSTREAM_NoError) then mret (ErrorCode, BufferPtr, i) else
  Pipe_ClearOUT;;
  Pipe_WaitUntilReady fuel;;
  Pipe_Freeze;;
  '(ErrorCode, BufferPtr) ←
    match BufferPtr with
    | Some buf => '(e, buf) ← MS_Host_SendReceiveData i b buf; mret (e, Some buf)
    | None => mret (PIPE_RWSTREAM_NoError, None)
    end;
  if negb (ErrorCode =? PIPE_RWSTREAM_NoError) && negb (ErrorCode =? PIPE_RWSTREAM_PipeStalled)
  then Pipe_Freeze;; mret (ErrorCode, BufferPtr, i) else
  e ← MS_Host_GetReturnedStatus i;
  mret (e, BufferPtr, i).

(** ** The class requests *)

Definition MS_Host_ResetMSInterface (i : info) : io Z :=
  ErrorCode ← request_none fuel hs (mk_request (Z.lor REQTYPE_CLASS REQREC_INTERFACE) MS_REQ_MassStorageReset 0 (InterfaceNumber_ i) 0);
  if negb (ErrorCode =? HOST_SENDCONTROL_Successful) then mret ErrorCode else
  Pipe_SelectPipe (pipe_Address (DataINPipe i));;
  a ← Pipe_GetBoundEndpointAddress;
  ErrorCode ← USB_Host_ClearEndpointStall fuel hs a;
  if negb (ErrorCode =? HOST_SENDCONTROL_Successful) then mret ErrorCode else
  Pipe_SelectPipe (pipe_Address (DataOUTPipe i));;
  a ← Pipe_GetBoundEndpointAddress;
  ErrorCode ← USB_Host_ClearEndpointStall fuel hs a;
  if negb (ErrorCode =? HOST_SENDCONTROL_Successful) then mret ErrorCode else
  mret HOST_SENDCONTROL_Successful.

(** A device that stalls the request has one unit. *)
Definition MS_Host_GetMaxLUN (i : info) (MaxLUNIndex : Z) : io (Z * Z) :=
  '(ErrorCode, b) ← request_in fuel hs
    (mk_request (Z.lor REQDIR_DEVICETOHOST (Z.lor REQTYPE_CLASS REQREC_INTERFACE)) MS_REQ_GetMaxLUN 0 (InterfaceNumber_ i) 1) [MaxLUNIndex];
  MaxLUNIndex ← get (arr_get b 0);
  mret (if ErrorCode =? HOST_SENDCONTROL_SetupStalled then (HOST_SENDCONTROL_Successful, 0) else (ErrorCode, MaxLUNIndex)).

(** ** The SCSI commands *)

Definition sizeof_SCSI_Inquiry_Response_t := 36.
Definition sizeof_SCSI_Capacity_t := 8.
Definition sizeof_SCSI_Request_Sense_Response_t := 18.

(** The test each of them starts with, and the command. *)
Definition scsi_command (i : info) (b : command_block) (BufferPtr : option (list Z)) : io (Z * option (list Z) * info) :=
  s ← USB_HostState;
  if negb (s =? HOST_STATE_Configured) || negb (IsActive i) then mret (HOST_SENDCONTROL_DeviceDisconnected, BufferPtr, i)
  else MS_Host_SendCommand i b BufferPtr.

Definition inquiry_block (LUNIndex : Z) : command_block :=
  mk_cbw sizeof_SCSI_Inquiry_Response_t MS_COMMAND_DIR_DATA_IN LUNIndex
    [SCSI_CMD_INQUIRY; 0; 0; 0; sizeof_SCSI_Inquiry_Response_t; 0].
Definition MS_Host_GetInquiryData (i : info) (LUNIndex : Z) (InquiryData : list Z) :=
  scsi_command i (inquiry_block LUNIndex) (Some InquiryData).

Definition test_unit_ready_block (LUNIndex : Z) : command_block :=
  mk_cbw 0 MS_COMMAND_DIR_DATA_IN LUNIndex [SCSI_CMD_TEST_UNIT_READY; 0; 0; 0; 0; 0].
Definition MS_Host_TestUnitReady (i : info) (LUNIndex : Z) :=
  scsi_command i (test_unit_ready_block LUNIndex) None.

Definition read_capacity_block (LUNIndex : Z) : command_block :=
  mk_cbw sizeof_SCSI_Capacity_t MS_COMMAND_DIR_DATA_IN LUNIndex [SCSI_CMD_READ_CAPACITY_10; 0; 0; 0; 0; 0; 0; 0; 0; 0].

(** The buffer holds [Blocks] and [BlockSize], which are swapped when the command succeeds. *)
Definition MS_Host_ReadDeviceCapacity (i : info) (LUNIndex : Z) (DeviceCapacity : list Z) : io (Z * option (list Z) * info) :=
  '(ErrorCode, b, i) ← scsi_command i (read_capacity_block LUNIndex) (Some DeviceCapacity);
  if negb (ErrorCode =? PIPE_RWSTREAM_NoError) then mret (ErrorCode, b, i) else
  let DeviceCapacity := default DeviceCapacity b in
  mret (PIPE_RWSTREAM_NoError,
        Some (le_bytes 4 (SwapEndian_32 (le_val (slice 0 4 DeviceCapacity))) ++
              le_bytes 4 (SwapEndian_32 (le_val (slice 4 4 DeviceCapacity)))), i).

Definition request_sense_block (LUNIndex : Z) : command_block :=
  mk_cbw sizeof_SCSI_Request_Sense_Response_t MS_COMMAND_DIR_DATA_IN LUNIndex
    [SCSI_CMD_REQUEST_SENSE; 0; 0; 0; sizeof_SCSI_Request_Sense_Response_t; 0].
Definition MS_Host_RequestSense (i : info) (LUNIndex : Z) (SenseData : list Z) :=
  scsi_command i (request_sense_block LUNIndex) (Some SenseData).

Definition prevent_removal_block (LUNIndex : Z) (PreventRemoval : bool) : command_block :=
  mk_cbw 0 MS_COMMAND_DIR_DATA_OUT LUNIndex [SCSI_CMD_PREVENT_ALLOW_MEDIUM_REMOVAL; 0; 0; bool_Z PreventRemoval; 0; 0].
Definition MS_Host_PreventAllowMediumRemoval (i : info) (LUNIndex : Z) (PreventRemoval : bool) :=
  scsi_command i (prevent_removal_block LUNIndex PreventRemoval) None.

Definition block_transfer (op Flags LUNIndex BlockAddress Blocks BlockSize : Z) : command_block :=
  mk_cbw (u32 (Blocks * BlockSize)) Flags LUNIndex
    [op; 0; Z.shiftr BlockAddress 24; Z.shiftr BlockAddress 16; Z.shiftr BlockAddress 8; Z.land BlockAddress 0xFF;
     0; 0; Blocks; 0].
Definition read_command := block_transfer SCSI_CMD_READ_10 MS_COMMAND_DIR_DATA_IN.
Definition write_command := block_transfer SCSI_CMD_WRITE_10 MS_COMMAND_DIR_DATA_OUT.

Definition MS_Host_ReadDeviceBlocks (i : info) (LUNIndex BlockAddress Blocks BlockSize : Z) (BlockBuffer : list Z) :=
  scsi_command i (read_command LUNIndex BlockAddress Blocks BlockSize) (Some BlockBuffer).
Definition MS_Host_WriteDeviceBlocks (i : info) (LUNIndex BlockAddress Blocks BlockSize : Z) (BlockBuffer : list Z) :=
  scsi_command i (write_command LUNIndex BlockAddress Blocks BlockSize) (Some BlockBuffer).
End driver.
