(* ===== verification/MassStorageHostSpec.v ===== *)
(** * Commands of the mass storage host on the bus

    What a SCSI command of the host looks like on its two pipes, for every device that
    keeps up: the command block wrapper, the data, the status; and, since the wrapper
    is the one the device's driver takes, that blocks written and read through both
    drivers are the blocks of the disk. *)
From S2P Require Import Prelude ConfigDescriptors USBIo Endpoint EndpointSpec Quiet Pipe DeviceRequests HIDDevice NetBuffers NetLemmas RNDISDevice HostRequests HostRequestsSpec Dataflash DataflashChip DataflashSpec DataflashDisk MassStorage SCSI MassStorageSpec SCSISpec PipeSpec MassStorageHost.

Section driver.
Context (h : hw) (Hh : keeps_up h) (fuel : nat).
Context (hs : host) (SCSIStatusBlock0 : list Z) (HSb : length SCSIStatusBlock0 = 13%nat) (Hfuel : (64 <= fuel)%nat).
Abbreviation info := USB_ClassInfo_MS_Host_t.
Abbreviation number e := (Z.land (pipe_Address e) PIPE_PIPENUM_MASK).

Lemma data_received i t : wp true h (MS_Host_WaitForDataReceived fuel hs i) t (fun code s => code = PIPE_RWSTREAM_NoError /\ Forall calm s).
Proof.
  unfold MS_Host_WaitForDataReceived. destruct fuel as [|n]; [lia|]. cbn [wait_for_data]. do 10 wp_step.
  - repeat wp_step. split; [done|]. by calms.
  - exfalso. match goal with H : h ?x ?q = ?a, H' : truthy ?a = false |- _ => apply truthy_eq in H'; apply (ku_in _ Hh x); congruence end.
Qed.

Lemma out_sent t : wp true h (wait_out fuel) t (fun code s => code = PIPE_RWSTREAM_NoError /\ Forall calm s).
Proof.
  destruct fuel as [|n]; [lia|]. cbn [wait_out]. do 4 wp_step; [repeat wp_step; split; [done|by calms]|].
  exfalso. match goal with H : h ?x ?q = ?a, H' : truthy ?a = false |- _ => apply truthy_eq in H'; apply (ku_out _ Hh x); congruence end.
Qed.

(** The data stage; [l] is the data. *)
Definition data_stage_result (i : info) (b : command_block) (buf : list Z) (r : Z * list Z) (s : list event) : Prop :=
  let n := Z.to_nat (u16 (DataTransferLength b)) in
  exists ps,
    if truthy (Z.land (Flags b) MS_COMMAND_DIR_DATA_IN)
    then exists l, r = (PIPE_RWSTREAM_NoError, l ++ drop n buf) /\ length l = n /\ concat ps = l /\
           piece s (P_in (number (DataINPipe i)) <$> ps) l
    else r = (PIPE_RWSTREAM_NoError, buf) /\ concat ps = take n buf /\ piece s (P_out (number (DataOUTPipe i)) <$> ps) [].

Lemma data_stage_flows i b buf t :
  u16 (DataTransferLength b) <= Z.of_nat (length buf) -> (Z.to_nat (2 * u16 (DataTransferLength b) + 1) <= fuel)%nat ->
  Forall is_byte buf ->
  wp true h (MS_Host_SendReceiveData fuel hs i b buf) t (data_stage_result i b buf).
Proof.
  intros Hl Hf Hby. pose proof (u16_range (DataTransferLength b)) as Hr. unfold MS_Host_SendReceiveData, data_stage_result. cbv zeta.
  apply wp_if; intros ->.
  - wp_step. eapply wp_mono; [apply data_received|]. intros code s1 [-> H1]. cbn beta. cbv match.
    no_error. repeat wp_step.
    eapply wp_mono; [apply (read_stream_flows h Hh fuel); lia|]. intros r s2 (l & -> & El & Hs2). cbn beta iota.
    no_error. repeat wp_step.
    destruct (piece_stream P_in k_ClearIN (number (DataINPipe i)) s2 l l flows_in Hs2) as (ps & E & Hp).
    exists ps. replace (Z.to_nat (u16 (DataTransferLength b))) with (length l) by lia. exists l. split_and!; [done..|].
    apply piece_skip; [done|]. apply Hp. by calms.
  - do 6 wp_step. eapply wp_mono; [apply (write_stream_flows h Hh fuel); done|]. intros r s2 [-> Hs2]. cbn beta iota.
    no_error. repeat wp_step.
    eapply wp_mono; [apply out_sent|]. intros e s3 [-> H3]. cbn beta.
    no_error. repeat wp_step.
    destruct (piece_stream P_out k_ClearOUT (number (DataOUTPipe i)) s2 _ [] flows_out Hs2) as (ps & E & Hp).
    exists ps. split_and!; [done..|]. apply Hp. by calms.
Qed.

(** What the host makes of a status block. *)
Definition status_code (st : list Z) : Z := if nth 12 st 0 =? MS_SCSI_COMMAND_Pass then PIPE_RWSTREAM_NoError else MS_ERROR_LOGICAL_CMD_FAILED.

Lemma status_flows i t : wp true h (MS_Host_GetReturnedStatus fuel hs SCSIStatusBlock0 i) t (fun code s => exists st ps,
  length st = 13%nat /\ concat ps = st /\ code = status_code st /\ piece s (P_in (number (DataINPipe i)) <$> ps) st).
Proof.
  unfold MS_Host_GetReturnedStatus. wp_step. eapply wp_mono; [apply data_received|]. intros code s1 [-> H1]. cbn beta. no_error. repeat wp_step.
  eapply wp_mono; [apply (read_stream_flows h Hh fuel SCSIStatusBlock0 sizeof_MS_CommandStatusWrapper_t); unfold sizeof_MS_CommandStatusWrapper_t; lia|].
  intros r s2 (st & -> & El & Hs2). cbn beta iota. unfold sizeof_MS_CommandStatusWrapper_t in El. no_error. rewrite drop_ge, app_nil_r by lia. repeat wp_step.
  - apply arr_get_Some. split; [lia|]. apply (nth_lookup_in st 12). lia.
  - repeat wp_step.
    destruct (piece_stream P_in k_ClearIN (number (DataINPipe i)) s2 st st flows_in Hs2) as (ps & E & Hp).
    exists st, ps. split_and!; [lia|done| |].
    + unfold status_code. change (Z.to_nat 12) with 12%nat. by destruct (_ =? _).
    + apply piece_skip; [done|]. apply Hp. by calms.
Qed.

Definition well_formed_block (b : command_block) : Prop := (length (SCSICommandData b) <= 16)%nat.

Lemma length_cbw tag b : well_formed_block b -> length (cbw_bytes tag b) = 31%nat.
Proof. unfold well_formed_block, cbw_bytes. intros. rewrite !length_app, length_fmap, repeat_length, !length_le_bytes. cbn. lia. Qed.

Lemma cbw_is_bytes tag b : well_formed_block b -> Forall is_byte (cbw_bytes tag b).
Proof.
  unfold well_formed_block, cbw_bytes. intros. rewrite !Forall_app. split_and!; try apply le_bytes_ok.
  - repeat constructor; try apply u8_range; unfold is_byte; lia.
  - apply Forall_fmap, Forall_true. intros. apply u8_range.
  - apply Forall_forall. intros x ->%list_elem_of_In%repeat_spec. done.
Qed.

(** ** The whole command *)

Definition to_the_host (b : command_block) : bool := truthy (Z.land (Flags b) MS_COMMAND_DIR_DATA_IN).
Definition data_length (b : command_block) : nat := Z.to_nat (u16 (DataTransferLength b)).

(** A command on the bus: the wrapper [ws] on the OUT pipe, the data [ds] on the pipe of
    their direction, the status [ss] on the IN pipe; and the result. *)
Definition on_the_bus (i : info) (b : command_block) (buf : option (list Z)) (r : Z * option (list Z) * info) (s : list event)
    (ws ds ss : list (list Z)) : Prop :=
  let tag := next_tag (TransactionTag i) in
  pipe_packets s = (P_out (number (DataOUTPipe i)) <$> ws) ++
    ((if to_the_host b then P_in (number (DataINPipe i)) else P_out (number (DataOUTPipe i))) <$> ds) ++
    (P_in (number (DataINPipe i)) <$> ss) /\
  hreceived s = (if to_the_host b then concat ds else []) ++ concat ss /\
  concat ws = cbw_bytes tag b /\ length (concat ss) = 13%nat /\
  match buf with
  | Some l => if to_the_host b then length (concat ds) = data_length b else concat ds = take (data_length b) l
  | None => ds = []
  end /\
  r = (status_code (concat ss), (if to_the_host b then (fun l => concat ds ++ drop (data_length b) l) <$> buf else buf), set_TransactionTag tag i).

(** The driver and the buffer can hold the command. *)
Definition fits (b : command_block) (buf : option (list Z)) : Prop :=
  (length (SCSICommandData b) <= 16)%nat /\ (2 * data_length b + 1 <= fuel)%nat /\
  forall l, buf = Some l -> (data_length b <= length l)%nat /\ Forall is_byte l.

Lemma command_flows i b buf t : fits b buf ->
  wp true h (MS_Host_SendCommand fuel hs SCSIStatusBlock0 i b buf) t (fun r s => exists ws ds ss, on_the_bus i b buf r s ws ds ss).
Proof.
  intros (H16 & Hf & Hbuf). unfold MS_Host_SendCommand. cbv zeta. cbn [TransactionTag set_TransactionTag DataOUTPipe DataINPipe].
  set (tag := next_tag (TransactionTag i)). repeat wp_step.
  eapply wp_mono; [apply (write_stream_flows h Hh fuel (cbw_bytes tag b) sizeof_MS_CommandBlockWrapper_t);
    unfold sizeof_MS_CommandBlockWrapper_t; rewrite ?length_cbw by done; try lia; by apply cbw_is_bytes|].
  intros r s1 [-> Hs1]. cbn beta iota. no_error.
  destruct (piece_stream P_out k_ClearOUT (number (DataOUTPipe i)) s1 _ [] flows_out Hs1) as (ws & Ew & Hw).
  rewrite take_ge in Ew by (rewrite length_cbw by done; done). repeat wp_step.
  eapply wp_mono; [apply (pipe_ready h Hh); lia|]. intros ? s2 [_ H2]. cbn beta. repeat wp_step.
  apply (wp_mono _ _ _ _ (fun r s => exists ds buf', r = (PIPE_RWSTREAM_NoError, buf') /\
    piece s ((if to_the_host b then P_in (number (DataINPipe i)) else P_out (number (DataOUTPipe i))) <$> ds) (if to_the_host b then concat ds else []) /\
    match buf with Some l => if to_the_host b then length (concat ds) = data_length b else concat ds = take (data_length b) l | None => ds = [] end /\
    buf' = (if to_the_host b then (fun l => concat ds ++ drop (data_length b) l) <$> buf else buf))).
  { destruct buf as [l|].
    - destruct (Hbuf l eq_refl) as [Hl Hby]. unfold data_length in *. pose proof (u16_range (DataTransferLength b)).
      wp_step. eapply wp_mono; [apply data_stage_flows; done || lia|].
      intros r s (ps & Hr). fold (to_the_host b) in Hr. destruct (to_the_host b).
      + destruct Hr as (d & -> & Ed & <- & Hp). wp_step. rewrite app_nil_r. eauto 10.
      + destruct Hr as (-> & Ed & Hp). wp_step. rewrite app_nil_r. eauto 10.
    - wp_step. exists [], None. destruct (to_the_host b); (split_and!; [done| |done..]; apply piece_calm; by calms). }
  intros r s3 (ds & buf' & -> & Hp & Hd & Eb). cbn beta iota. no_error. change (false && _) with false. cbv match. wp_step.
  eapply wp_mono; [apply status_flows|]. intros code s4 (st & ss & Hst & E & -> & Hps). cbn beta. cbn [DataINPipe] in *. wp_step.
  exists ws, ds, ss. rewrite app_nil_r. unfold on_the_bus. rewrite E.
  assert (piece (([Cmd (c_Host (k_SelectPipe (number (DataOUTPipe i))))] ++ [Cmd (c_Host k_Unfreeze)] ++ s1 ++ [Cmd (c_Host k_ClearOUT)] ++ s2 ++ [Cmd (c_Host k_Freeze)]) ++ s3 ++ s4)
    ((P_out (number (DataOUTPipe i)) <$> ws) ++ ((if to_the_host b then P_in (number (DataINPipe i)) else P_out (number (DataOUTPipe i))) <$> ds) ++ (P_in (number (DataINPipe i)) <$> ss))
    ([] ++ (if to_the_host b then concat ds else []) ++ st)) as HP.
  { apply piece_app; [apply Hw; apply Forall_app_2; [by apply still_calm|by calms]|by apply piece_app]. }
  rewrite <- !app_assoc in HP. apply piece_packets in HP as [HP HR]. cbn [app] in HP, HR |- *. rewrite HP, HR. subst buf'. done.
Qed.
End driver.

(** C14: a SCSI command of the host, for every command and every device that keeps up.  The
    command returns.  On the bus there were, in this order: the wrapper of the command,
    on the OUT pipe; the data, [data_length] bytes of them, on the pipe of their
    direction; and a status of 13 bytes on the IN pipe.  Nothing else was sent or read.
    What the device sent is at the start of the buffer, what the host sends is the start
    of the buffer, and the code is success if the last byte of the status says so.  An
    interface that is not active gets an error, and the bus stays quiet. *)
Theorem scsi_command_on_bus h fuel hs SCSIStatusBlock0 i b buf t :
  keeps_up h -> (64 <= fuel)%nat -> length SCSIStatusBlock0 = 13%nat -> fits fuel b buf ->
  wp true h (scsi_command fuel hs SCSIStatusBlock0 i b buf) t (fun r s =>
    if IsActive i then exists ws ds ss, on_the_bus i b buf r s ws ds ss
    else r = (HOST_SENDCONTROL_DeviceDisconnected, buf, i) /\ pipe_packets s = []).
Proof.
  intros Hh Hf Hs Hfit. unfold scsi_command. do 3 wp_step. rewrite <- H, (ku_state _ Hh). change (negb (HOST_STATE_Configured =? HOST_STATE_Configured)) with false.
  destruct (IsActive i); cbn [negb orb]; cbv match.
  - eapply wp_mono; [by apply command_flows|]. intros r s (ws & ds & ss & Hp & Hr). by exists ws, ds, ss.
  - by wp_step.
Qed.
