(* ===== verification/DiskEndToEnd.v ===== *)
(** * Blocks through both mass storage drivers

    The commands of the host driver meet the device driver: the wrapper the one sends
    is the command the other decodes, so that blocks written by the host are on the
    disk, and blocks of the disk are in the buffer of the host. *)
From S2P Require Import Prelude ConfigDescriptors USBIo Endpoint EndpointSpec Quiet Pipe DeviceRequests HIDDevice NetBuffers NetLemmas RNDISDevice HostRequests HostRequestsSpec Dataflash DataflashChip DataflashSpec DataflashDisk MassStorage SCSI MassStorageSpec SCSISpec DiskWitness PipeSpec MassStorageHost MassStorageHostSpec.

(** The device reads the 25 bytes of a wrapper with a ten-byte command; releasing the bank
    drops the rest of the packet. *)
Definition read_by_device (l : list Z) : list Z := take 25 l ++ drop 31 l.

(** ** The wrapper *)

Lemma cbw_block_command (op flags tag B n : Z) : is_byte flags -> is_byte op -> 0 <= n < 256 -> 0 <= B < 2 ^ 32 ->
  cbw_bytes tag (block_transfer op flags 0 B n 512) = block_command op flags tag (n * 512) 0 B n ++ repeat 0 6.
Proof.
  intros Hfl Hop Hn HB. unfold cbw_bytes, block_transfer, block_command. cbn [DataTransferLength Flags LUN SCSICommandData].
  assert (u32 (n * 512) = n * 512) as -> by (unfold wrap; apply Z.mod_small; change (2 ^ 32) with 4294967296; lia).
  rewrite <- !app_assoc. do 3 f_equal. unfold be_bytes. cbn -[u8 Z.div Z.modulo Z.shiftr Z.land Z.mul].
  rewrite (u8_small flags), (u8_small op), (u8_small n), (u8_small 0) by done || lia.
  change 0xFF with (Z.ones 8). rewrite Z.land_ones, !Z.shiftr_div_pow2 by lia. unfold wrap.
  change (2 ^ 32) with 4294967296 in HB. change (2 ^ 24) with 16777216. change (2 ^ 16) with 65536. change (2 ^ 8) with 256.
  rewrite !Z.div_div, Z.mod_mod, (Z.div_small n 256), (Z.mod_small n) by lia. done.
Qed.

(** The bytes of a command on the bus. *)
Lemma sent_packets p (ws ds ss : list (list Z)) (f : list Z -> packet) (q : Z) :
  concat ((fun k => match k with P_setup _ l | P_out _ l => l | P_in _ _ => [] end) <$> ((P_out p <$> ws) ++ (f <$> ds) ++ (P_in q <$> ss))) =
  concat ws ++ concat ((fun k => match k with P_setup _ l | P_out _ l => l | P_in _ _ => [] end) <$> (f <$> ds)).
Proof.
  rewrite !fmap_app, !concat_app, <- !list_fmap_compose. f_equal.
  - f_equal. rewrite <- (list_fmap_id ws) at 2. done.
  - rewrite <- (app_nil_r (concat _)) at 2. f_equal. by induction ss.
Qed.

(** A lemma of the two theorems: what the device gets of a command with the data [d]. *)
Lemma device_gets op flags tag B n (d : list Z) :
  read_by_device ((block_command op flags tag (n * 512) 0 B n ++ repeat 0 6) ++ d) = block_command op flags tag (n * 512) 0 B n ++ d.
Proof.
  unfold read_by_device. rewrite <- app_assoc, take_app_length' by done. done.
Qed.

Lemma sent_data p (ds : list (list Z)) :
  concat ((fun k => match k with P_setup _ l | P_out _ l => l | P_in _ _ => [] end) <$> (P_out p <$> ds)) = concat ds.
Proof. rewrite <- list_fmap_compose. f_equal. rewrite <- (list_fmap_id ds) at 2. done. Qed.
Lemma sent_none p (ds : list (list Z)) :
  concat ((fun k => match k with P_setup _ l | P_out _ l => l | P_in _ _ => [] end) <$> (P_in p <$> ds)) = [].
Proof. by induction ds. Qed.

Section end_to_end.
Context (hh : hw) (Hhost : keeps_up hh) (fuel : nat) (hs : host) (SCSIStatusBlock0 : list Z) (HSb : length SCSIStatusBlock0 = 13%nat).
Context (i : USB_ClassInfo_MS_Host_t) (Hactive : IsActive i = true) (B n : Z) (Hbl : blocks_ok B n) (Hn : n < 128).
Context (Hfuel : (Z.to_nat (2 * (n * 512) + 64) <= fuel)%nat).
Abbreviation tag := (next_tag (TransactionTag i)).

Lemma blocks_fit op flags buf : n * 512 <= Z.of_nat (length buf) -> Forall is_byte buf ->
  data_length (block_transfer op flags 0 B n 512) = Z.to_nat (n * 512) /\ fits fuel (block_transfer op flags 0 B n 512) (Some buf).
Proof.
  intros Hl Hby. destruct Hbl as (_ & Hn0 & _).
  assert (data_length (block_transfer op flags 0 B n 512) = Z.to_nat (n * 512)) as E.
  { unfold data_length. cbn [DataTransferLength block_transfer]. f_equal. rewrite u32_small, u16_small; lia. }
  split; [done|]. unfold fits. rewrite E. split_and!; [cbn; lia|lia|]. intros l [= <-]. split; [lia|done].
Qed.

Lemma host_transfers op flags buf t : n * 512 <= Z.of_nat (length buf) -> Forall is_byte buf ->
  wp true hh (scsi_command fuel hs SCSIStatusBlock0 i (block_transfer op flags 0 B n 512) (Some buf)) t (fun r s =>
    exists ws ds ss, on_the_bus i (block_transfer op flags 0 B n 512) (Some buf) r s ws ds ss).
Proof.
  intros Hl Hby. unfold scsi_command. do 3 wp_step. rewrite <- H, (ku_state _ Hhost), Hactive.
  change (negb (HOST_STATE_Configured =? HOST_STATE_Configured) || negb true) with false. cbv match.
  assert (64 <= fuel)%nat by (destruct Hbl as (_ & ? & _); lia).
  eapply wp_mono; [by apply command_flows, blocks_fit|]. intros r s (ws & ds & ss & Hp & Hr). by exists ws, ds, ss.
Qed.

End end_to_end.

Lemma length_passed t r : length (passed t r) = 13%nat.
Proof. done. Qed.
Lemma passed_bytes t r : Forall is_byte (passed t r).
Proof. unfold passed. rewrite !Forall_app. split_and!; try apply le_bytes_ok. by repeat constructor. Qed.

(** C1: blocks written by the host are on the disk.  The host's command to write [n] blocks
    from [B] on returns and succeeds, when the status it reads is the one the device's
    driver answers; and a device that gets the bytes this command sent, in one pass of
    its main loop, has stored the data of the buffer at these blocks and nothing else,
    and answers this status. *)
Theorem blocks_written_end_to_end hh fuel hs SCSIStatusBlock0 i hd f0 k dfuel di sense B n data th td :
  keeps_up hh -> (Z.to_nat (2 * (n * 512) + 64) <= fuel)%nat -> length SCSIStatusBlock0 = 13%nat -> IsActive i = true ->
  disk_host hd f0 k -> (k <= dfuel)%nat -> (40 <= dfuel)%nat -> wf_ms di -> TotalLUNs di = TOTAL_LUNS -> idle_flash (now f0 td) ->
  blocks_ok B n -> n < 128 -> Z.of_nat (length data) = n * 512 -> Forall is_byte data ->
  let status := passed (next_tag (TransactionTag i)) 0 in
  pipe_delivers hh th status ->
  exists i' sh, MS_Host_WriteDeviceBlocks fuel hs SCSIStatusBlock0 i 0 B n 512 data hh th = Returns ((PIPE_RWSTREAM_NoError, Some data, i'), th ++ sh) /\
    (delivers hd td (read_by_device (bytes_sent sh)) ->
     wp true hd (main_pass dfuel di sense) td (fun _ sd =>
       same_as (overwritten (disk (now f0 td)) (B * 512) data) (now f0 (td ++ sd)) /\ sent sd = status)).
Proof.
  intros Hh Hf Hsb Ha Hdev Hk H40 Hwf Hlu Hidle Hbl Hn Hl Hby status Hpd. pose proof Hbl as (HB & Hn0 & HB'). rewrite blocks_eq in HB'.
  destruct (blocks_fit fuel SCSIStatusBlock0 Hsb B n Hbl Hn Hf SCSI_CMD_WRITE_10 MS_COMMAND_DIR_DATA_OUT data ltac:(lia) Hby) as [El _].
  pose proof (host_transfers hh Hh fuel hs SCSIStatusBlock0 Hsb i Ha B n Hbl Hn Hf SCSI_CMD_WRITE_10 MS_COMMAND_DIR_DATA_OUT data th ltac:(lia) Hby) as Hw.
  apply wp_valid in Hw. destruct (wp_total _ _ _ _ Hw) as (r & sh & E & (ws & ds & ss & Hp & Hr & Ew & Lss & Ed & ->) & Hv).
  rewrite El in Ed. change (hreceived sh = concat ss) in Hr. change (concat ds = take (Z.to_nat (n * 512)) data) in Ed.
  rewrite take_ge in Ed by lia.
  assert (concat ss = status) as Ess.
  { pose proof (pipe_delivered _ _ _ _ Hv Hpd (passed_bytes _ _)) as G. rewrite Hr, Lss in G. by apply G. }
  rewrite Ess in E. eexists _, sh. split; [exact E|]. intros Hd. unfold bytes_sent in Hd.
  change (to_the_host _) with false in Hp. cbv match in Hp. rewrite Hp, sent_packets, sent_data, Ew, Ed in Hd.
  unfold write_command in Hd. rewrite cbw_block_command, device_gets in Hd by done || lia.
  eapply wp_mono; [apply (write10_pass hd f0 k dfuel Hdev Hk H40 di sense (next_tag (TransactionTag i)) (n * 512) B n data td); try done; lia|].
  intros r sd (H1 & H2 & _). rewrite Z.sub_diag in H2. done.
Qed.


(** The length of a transfer is cut to 16 bits: of a command for 128 blocks, whose wrapper
    announces 65536 bytes, no byte is sent. *)
Lemma long_write_truncated h fuel hs SCSIStatusBlock0 i LUNIndex B buf t :
  keeps_up h -> (64 <= fuel)%nat -> length SCSIStatusBlock0 = 13%nat -> IsActive i = true -> Forall is_byte buf ->
  wp true h (MS_Host_WriteDeviceBlocks fuel hs SCSIStatusBlock0 i LUNIndex B 128 512 buf) t (fun _ s =>
    bytes_sent s = cbw_bytes (next_tag (TransactionTag i)) (write_command LUNIndex B 128 512) /\
    DataTransferLength (write_command LUNIndex B 128 512) = 65536).
Proof.
  intros Hh Hf Hs Ha Hby. unfold MS_Host_WriteDeviceBlocks, scsi_command. do 3 wp_step. rewrite <- H, (ku_state _ Hh), Ha.
  change (negb (HOST_STATE_Configured =? HOST_STATE_Configured) || negb true) with false. cbv match.
  eapply wp_mono; [apply command_flows; try done; split_and!; [cbn; lia|change (2 * 0 + 1 <= fuel)%nat; lia|]; intros l [= <-]; split; [change (0 <= length buf)%nat; lia|done]|].
  intros r s (ws & ds & ss & Hp & _ & Ew & _ & Ed & _). split; [|done].
  change (concat ds = []) in Ed. change (to_the_host _) with false in Hp. cbv match in Hp.
  unfold bytes_sent. lazymatch goal with |- context [pipe_packets (?x ++ s)] => change (pipe_packets (x ++ s)) with (pipe_packets s) end.
  rewrite Hp, sent_packets, sent_data, Ew, Ed. apply app_nil_r.
Qed.

(** ** Witnesses *)

(** The interface of the host. *)
Definition host_interface (tag : Z) : USB_ClassInfo_MS_Host_t :=
  mk_ms_host (mk_pipe 129 64 0x83 EP_TYPE_BULK 1) (mk_pipe 2 64 4 EP_TYPE_BULK 1) true 0 tag.
Definition no_status : list Z := repeat 0 13.

Lemma scsi_command_on_bus_witness :
  match scsi_command 64 host0 no_status (host_interface 0) (read_capacity_block 0) (Some (repeat 0 8)) (bulk_device ([0; 0; 127; 255; 0; 0; 2; 0] ++ passed 1 0)) [] with
  | Returns (r, s) => exists ws ds ss, on_the_bus (host_interface 0) (read_capacity_block 0) (Some (repeat 0 8)) r s ws ds ss
  | _ => False
  end.
Proof.
  pose proof (scsi_command_on_bus (bulk_device ([0; 0; 127; 255; 0; 0; 2; 0] ++ passed 1 0)) 64 host0 no_status (host_interface 0)
    (read_capacity_block 0) (Some (repeat 0 8)) [] (bulk_device_keeps_up _) ltac:(lia) eq_refl
    ltac:(split_and!; [cbn; lia|vm_compute; lia|]; intros l [= <-]; split; [vm_compute; lia|apply bytes_check; by vm_compute])) as H.
  apply wp_total in H as (r & s & E & H). rewrite E. exact H.
Defined.

Lemma blocks_written_end_to_end_witness :
  exists i' sh, MS_Host_WriteDeviceBlocks (Z.to_nat 2112) host0 no_status (host_interface 76) 0 1 2 512 two_blocks (bulk_device (passed 77 0)) [] =
      Returns ((PIPE_RWSTREAM_NoError, Some two_blocks, i'), sh) /\
    wp true (disk_hw write_packets) (main_pass 40 Disk_MS_Interface SenseData) [] (fun _ sd =>
      same_as (overwritten (disk (now board [])) (1 * 512) two_blocks) (now board ([] ++ sd)) /\ sent sd = passed 77 0).
Proof.
  destruct (blocks_written_end_to_end (bulk_device (passed 77 0)) (Z.to_nat 2112) host0 no_status (host_interface 76) (disk_hw write_packets) board 1 40
    Disk_MS_Interface SenseData 1 2 two_blocks [] [] (bulk_device_keeps_up _) ltac:(lia) eq_refl eq_refl (disk_hw_host _) ltac:(lia) ltac:(lia)
    interface_ok eq_refl board_idle two_blocks_ok ltac:(lia) eq_refl two_blocks_bytes (bulk_device_delivers _)) as (i' & sh & E & H).
  exists i', sh. split; [exact E|]. apply H.
  assert (match MS_Host_WriteDeviceBlocks (Z.to_nat 2112) host0 no_status (host_interface 76) 0 1 2 512 two_blocks (bulk_device (passed 77 0)) [] with
    | Returns (_, t) => read_by_device (bytes_sent t) = write_packets | _ => False end) as G by (vm_compute; reflexivity).
  rewrite E in G. change (read_by_device (bytes_sent sh) = write_packets) in G. rewrite G. apply disk_hw_delivers.
Defined.

Lemma blank_bytes a : 1 * 512 <= a < 1 * 512 + 2 * 512 -> is_byte (disk (now board []) a).
Proof. intros _. unfold disk, chip_of, is_byte. destruct (Z.odd _); cbn; lia. Qed.

