(* ===== verification/Controller.v ===== *)
(** * The USB controller: set-up, modes and the interrupt handler

    [LUFA/Drivers/USB/Core/AVR8/USBController_AVR8.c], [USBInterrupt_AVR8.c] and the
    inline functions of their headers, for the AT90USB1287 (series 7: device and host,
    with VBUS and ID pin), at the level of registers: bits are set and cleared in them,
    and the volatile variables of the library are locations like them.  What the
    other files take as the environment - [USB_DeviceState], [USB_HostState] - is
    changed here. *)
From S2P Require Import Prelude USBIo Pipe.

(** ** Registers and variables *)

Inductive location : Type :=
  | USBCON | UHWCON | USBSTA | USBINT | PLLCSR
  | UDCON | UDIEN | UDINT | UDADDR | UEIENX | UEINTX
  | UHIEN | UHINT | OTGCON | OTGIEN | OTGINT
  | DDRE | PORTE
  | USB_DeviceState | USB_HostState_ | USB_CurrentMode_ | USB_Options | USB_IsInitialized
  | USB_Device_ConfigurationNumber | USB_Device_ControlEndpointSize
  | USB_Device_RemoteWakeupEnabled | USB_Device_CurrentlySelfPowered
  | USB_Host_ConfigurationNumber_ | USB_Host_ControlPipeSize_.

#[export] Instance location_eq_dec : EqDecision location.
Proof. solve_decision. Defined.

(** Bits, from the data sheet. *)
Definition USBE := 7.
Definition HOST := 6.
Definition FRZCLK := 5.
Definition OTGPADE := 4.
Definition IDTE := 1.
Definition VBUSTE := 0.
Definition UIMOD := 7.
Definition UIDE := 6.
Definition UVCONE := 4.
Definition UVREGE := 0.
Definition ID := 1.
Definition VBUS := 0.
Definition IDTI := 1.
Definition VBUSTI := 0.
Definition PLLP1 := 3.
Definition PLLP0 := 2.
Definition PLLE := 1.
Definition PLOCK := 0.
Definition LSM := 2.
Definition RMWKUP := 1.
Definition DETACH := 0.
Definition WAKEUPE := 4.
Definition EORSTE := 3.
Definition SOFE := 2.
Definition SUSPE := 0.
Definition WAKEUPI := 4.
Definition EORSTI := 3.
Definition SOFI := 2.
Definition SUSPI := 0.
Definition ADDEN := 7.
Definition RXSTPE := 3.
Definition RXSTPI := 3.
Definition HSOFE := 5.
Definition RSTE := 2.
Definition DDISCE := 1.
Definition DCONNE := 0.
Definition HSOFI := 5.
Definition RSTI := 2.
Definition DDISCI := 1.
Definition DCONNI := 0.
Definition VBUSHWC := 2.
Definition VBUSREQ := 1.
Definition VBUSRQC := 0.
Definition BCERRE := 2.
Definition VBERRE := 1.
Definition SRPE := 0.
Definition BCERRI := 2.
Definition VBERRI := 1.
Definition SRPI := 0.

Definition USB_OPT_REG_DISABLED := Z.shiftl 1 1.
Definition USB_OPT_MANUAL_PLL := Z.shiftl 1 2.
Definition USB_DEVICE_OPT_LOWSPEED := Z.shiftl 1 0.
Definition USB_MODE_None := 0.
Definition USB_MODE_Device := 1.
Definition USB_MODE_Host_ := 2.
Definition USB_MODE_UID := 3.
Definition HOST_ERROR_VBusVoltageDip := 0.
Definition HOST_ENUMERROR_NoDeviceDetected := 2.

(** What the rest of the program sees: the events of the library, and the configuration
    of the control endpoint. *)
Inductive usb_event : Type :=
  | Device_StartOfFrame | Device_Connect | Device_Disconnect | Device_Suspend | Device_WakeUp | Device_Reset
  | Host_StartOfFrame | Host_DeviceAttached | Host_DeviceUnattached | Host_HostError (Code : Z)
  | Host_DeviceEnumerationFailed (Code SubCode : Z) | UIDChange
  | ConfigureControlEndpoint (Size : Z).

Record controller := mk_controller { store : location -> Z; events : list usb_event }.

Definition bit_of (l : location) (b : Z) (s : controller) : bool := Z.testbit (store s l) b.

(** ** Statements *)

(** A statement returns, or waits for ever. *)
Definition step : Type := controller -> option controller.

Definition skip : step := Some.
Definition andthen (f g : step) : step := fun s => s ← f s; g s.
Definition when (c : controller -> bool) (f g : step) : step := fun s => if c s then f s else g s.

Definition put (l : location) (v : Z) (s : controller) : controller :=
  mk_controller (fun l' => if decide (l' = l) then v else store s l') (events s).

Definition write (l : location) (v : Z) : step := fun s => Some (put l v s).
Definition write_from (l : location) (v : controller -> Z) : step := fun s => Some (put l (v s) s).
Definition set_bit (l : location) (b : Z) : step := fun s => Some (put l (Z.lor (store s l) (Z.shiftl 1 b)) s).
Definition clear_bit (l : location) (b : Z) : step := fun s => Some (put l (Z.ldiff (store s l) (Z.shiftl 1 b)) s).
Definition signal (e : usb_event) : step := fun s => Some (mk_controller (store s) (events s ++ [e])).

Declare Scope step_scope.
Delimit Scope step_scope with step.
Infix ";>" := andthen (at level 60, right associativity) : step_scope.
Open Scope step_scope.

(** ** The inline functions *)

Definition USB_VBUS_GetStatus : controller -> bool := bit_of USBSTA VBUS.
Definition USB_Detach : step := set_bit UDCON DETACH.
Definition USB_Attach : step := clear_bit UDCON DETACH.

Definition USB_PLL_PSC := Z.lor (Z.shiftl 1 PLLP1) (Z.shiftl 1 PLLP0).
Definition USB_PLL_On : step := write PLLCSR USB_PLL_PSC ;> write PLLCSR (Z.lor USB_PLL_PSC (Z.shiftl 1 PLLE)).
Definition USB_PLL_Off : step := write PLLCSR 0.
Definition USB_PLL_IsReady : controller -> bool := bit_of PLLCSR PLOCK.
Definition USB_REG_On : step := set_bit UHWCON UVREGE.
Definition USB_REG_Off : step := clear_bit UHWCON UVREGE.
Definition USB_OTGPAD_On : step := set_bit USBCON OTGPADE.
Definition USB_OTGPAD_Off : step := clear_bit USBCON OTGPADE.
Definition USB_CLK_Freeze : step := set_bit USBCON FRZCLK.
Definition USB_CLK_Unfreeze : step := clear_bit USBCON FRZCLK.
Definition USB_Controller_Disable : step := clear_bit USBCON USBE.
Definition USB_Controller_Reset : step := clear_bit USBCON USBE ;> set_bit USBCON USBE.
Definition USB_GetUSBModeFromUID (s : controller) : Z := if bit_of USBSTA ID s then USB_MODE_Device else USB_MODE_Host_.

Definition USB_Host_HostMode_On : step := set_bit USBCON HOST.
Definition USB_Host_VBUS_Manual_Enable : step := set_bit OTGCON VBUSHWC ;> clear_bit UHWCON UVCONE ;> set_bit DDRE 7.
Definition USB_Host_VBUS_Manual_On : step := set_bit PORTE 7.
Definition USB_Host_VBUS_Manual_Off : step := clear_bit PORTE 7.
Definition USB_Host_VBUS_Auto_Off : step := set_bit OTGCON VBUSRQC.

Definition USB_Device_SetLowSpeed : step := set_bit UDCON LSM.
Definition USB_Device_SetFullSpeed : step := clear_bit UDCON LSM.
Definition USB_Device_IsAddressSet : controller -> bool := bit_of UDADDR ADDEN.

(** ** Interrupts *)

Inductive usb_interrupt : Type :=
  | INT_VBUSTI | INT_IDTI | INT_WAKEUPI | INT_SUSPI | INT_EORSTI | INT_SOFI | INT_RXSTPI
  | INT_HSOFI | INT_DCONNI | INT_DDISCI | INT_RSTI | INT_BCERRI | INT_VBERRI | INT_SRPI.

(** Where an interrupt is enabled, and its flag. *)
Definition enable_bit (i : usb_interrupt) : location * Z :=
  match i with
  | INT_VBUSTI => (USBCON, VBUSTE) | INT_IDTI => (USBCON, IDTE)
  | INT_WAKEUPI => (UDIEN, WAKEUPE) | INT_SUSPI => (UDIEN, SUSPE) | INT_EORSTI => (UDIEN, EORSTE) | INT_SOFI => (UDIEN, SOFE)
  | INT_RXSTPI => (UEIENX, RXSTPE)
  | INT_HSOFI => (UHIEN, HSOFE) | INT_DCONNI => (UHIEN, DCONNE) | INT_DDISCI => (UHIEN, DDISCE) | INT_RSTI => (UHIEN, RSTE)
  | INT_BCERRI => (OTGIEN, BCERRE) | INT_VBERRI => (OTGIEN, VBERRE) | INT_SRPI => (OTGIEN, SRPE)
  end.
Definition flag_bit (i : usb_interrupt) : location * Z :=
  match i with
  | INT_VBUSTI => (USBINT, VBUSTI) | INT_IDTI => (USBINT, IDTI)
  | INT_WAKEUPI => (UDINT, WAKEUPI) | INT_SUSPI => (UDINT, SUSPI) | INT_EORSTI => (UDINT, EORSTI) | INT_SOFI => (UDINT, SOFI)
  | INT_RXSTPI => (UEINTX, RXSTPI)
  | INT_HSOFI => (UHINT, HSOFI) | INT_DCONNI => (UHINT, DCONNI) | INT_DDISCI => (UHINT, DDISCI) | INT_RSTI => (UHINT, RSTI)
  | INT_BCERRI => (OTGINT, BCERRI) | INT_VBERRI => (OTGINT, VBERRI) | INT_SRPI => (OTGINT, SRPI)
  end.

Definition USB_INT_Enable (i : usb_interrupt) : step := set_bit (enable_bit i).1 (enable_bit i).2.
Definition USB_INT_Disable (i : usb_interrupt) : step := clear_bit (enable_bit i).1 (enable_bit i).2.
Definition USB_INT_Clear (i : usb_interrupt) : step := clear_bit (flag_bit i).1 (flag_bit i).2.
Definition USB_INT_IsEnabled (i : usb_interrupt) : controller -> bool := bit_of (enable_bit i).1 (enable_bit i).2.
Definition USB_INT_HasOccurred (i : usb_interrupt) : controller -> bool := bit_of (flag_bit i).1 (flag_bit i).2.

Definition USB_INT_DisableAllInterrupts : step :=
  clear_bit USBCON VBUSTE ;> clear_bit USBCON IDTE ;> write OTGIEN 0 ;> write UHIEN 0 ;> write UDIEN 0.
Definition USB_INT_ClearAllInterrupts : step := write USBINT 0 ;> write OTGINT 0 ;> write UHINT 0 ;> write UDINT 0.

(** ** Set-up *)

Section controller.
(** The size of endpoint 0 in the device descriptor, if the application has one; and
    the number of times the PLL is polled before it locks. *)
Context (Endpoint0Size : option Z) (lock_polls : nat).

(** [while (!(USB_PLL_IsReady()));]: the PLL locks when it is on. *)
Fixpoint wait_pll (n : nat) : step :=
  match n with
  | O => when (bit_of PLLCSR PLLE) (set_bit PLLCSR PLOCK) (fun _ => None)
  | S n => when USB_PLL_IsReady skip (wait_pll n)
  end.

Definition manual_pll (s : controller) : bool := truthy (Z.land (store s USB_Options) USB_OPT_MANUAL_PLL).
Definition start_pll : step := when manual_pll skip (USB_PLL_On ;> wait_pll lock_polls).
Definition stop_pll : step := when manual_pll skip USB_PLL_Off.

Definition configure_control_endpoint : step := fun s => signal (ConfigureControlEndpoint (store s USB_Device_ControlEndpointSize)) s.

Definition USB_Init_Device : step :=
  write USB_DeviceState DEVICE_STATE_Unattached ;>
  write USB_Device_ConfigurationNumber 0 ;>
  write USB_Device_RemoteWakeupEnabled 0 ;>
  write USB_Device_CurrentlySelfPowered 0 ;>
  match Endpoint0Size with Some n => write USB_Device_ControlEndpointSize n | None => skip end ;>
  when (fun s => truthy (Z.land (store s USB_Options) USB_DEVICE_OPT_LOWSPEED)) USB_Device_SetLowSpeed USB_Device_SetFullSpeed ;>
  USB_INT_Enable INT_VBUSTI ;>
  configure_control_endpoint ;>
  USB_INT_Clear INT_SUSPI ;>
  USB_INT_Enable INT_SUSPI ;>
  USB_INT_Enable INT_EORSTI ;>
  USB_Attach.

Definition USB_Init_Host : step :=
  write USB_HostState_ HOST_STATE_Unattached ;>
  write USB_Host_ConfigurationNumber_ 0 ;>
  write USB_Host_ControlPipeSize_ PIPE_CONTROLPIPE_DEFAULT_SIZE ;>
  USB_Host_HostMode_On ;>
  USB_Host_VBUS_Auto_Off ;>
  USB_Host_VBUS_Manual_Enable ;>
  USB_Host_VBUS_Manual_On ;>
  USB_INT_Enable INT_SRPI ;>
  USB_INT_Enable INT_BCERRI ;>
  USB_Attach.

Definition in_mode (m : Z) (s : controller) : bool := store s USB_CurrentMode_ =? m.

Definition reset_device : step := set_bit UHWCON UIMOD ;> stop_pll ;> USB_Init_Device.
Definition reset_host : step := clear_bit UHWCON UIMOD ;> start_pll ;> USB_Init_Host.

Definition set_up_interface (UIDModeSelectEnabled : bool) : step :=
  USB_INT_DisableAllInterrupts ;>
  USB_INT_ClearAllInterrupts ;>
  USB_Controller_Reset ;>
  (if UIDModeSelectEnabled then USB_INT_Enable INT_IDTI else skip) ;>
  USB_CLK_Unfreeze ;>
  when (in_mode USB_MODE_Device) reset_device (when (in_mode USB_MODE_Host_) reset_host skip) ;>
  USB_OTGPAD_On.
Definition USB_ResetInterface : step := fun s => set_up_interface (bit_of UHWCON UIDE s) s.

Definition USB_Init (Mode Options : Z) : step :=
  write USB_Options Options ;>
  (if negb (truthy (Z.land Options USB_OPT_REG_DISABLED)) then USB_REG_On else USB_REG_Off) ;>
  (if Mode =? USB_MODE_UID
   then set_bit UHWCON UIDE ;> USB_INT_Enable INT_IDTI ;> write_from USB_CurrentMode_ USB_GetUSBModeFromUID
   else clear_bit UHWCON UIDE ;> write USB_CurrentMode_ Mode) ;>
  write USB_IsInitialized 1 ;>
  USB_ResetInterface.

Definition USB_Disable : step :=
  USB_INT_DisableAllInterrupts ;>
  USB_INT_ClearAllInterrupts ;>
  USB_Detach ;>
  USB_Controller_Disable ;>
  stop_pll ;>
  USB_REG_Off ;>
  USB_OTGPAD_Off ;>
  write USB_CurrentMode_ USB_MODE_None ;>
  write USB_IsInitialized 0.

(** [while (UDCON & (1 << RMWKUP));]: the hardware clears the bit when the request is sent. *)
Definition USB_Device_SendRemoteWakeup : step :=
  start_pll ;> USB_CLK_Unfreeze ;> set_bit UDCON RMWKUP ;> clear_bit UDCON RMWKUP.

(** ** The interrupt handler *)

Definition on_interrupt (i : usb_interrupt) (f : step) : step :=
  when (fun s => USB_INT_HasOccurred i s && USB_INT_IsEnabled i s) f skip.

Definition on_sof : step := on_interrupt INT_SOFI (USB_INT_Clear INT_SOFI ;> signal Device_StartOfFrame).

Definition on_vbus : step := on_interrupt INT_VBUSTI (
  USB_INT_Clear INT_VBUSTI ;>
  when USB_VBUS_GetStatus
    (start_pll ;> write USB_DeviceState DEVICE_STATE_Powered ;> signal Device_Connect)
    (stop_pll ;> write USB_DeviceState DEVICE_STATE_Unattached ;> signal Device_Disconnect)).

Definition on_suspend : step := on_interrupt INT_SUSPI (
  USB_INT_Disable INT_SUSPI ;>
  USB_INT_Enable INT_WAKEUPI ;>
  USB_CLK_Freeze ;>
  stop_pll ;>
  write USB_DeviceState DEVICE_STATE_Suspended ;>
  signal Device_Suspend).

Definition resumed_state (s : controller) : Z :=
  if truthy (store s USB_Device_ConfigurationNumber) then DEVICE_STATE_Configured
  else if USB_Device_IsAddressSet s then DEVICE_STATE_Configured else DEVICE_STATE_Powered.

Definition on_wakeup : step := on_interrupt INT_WAKEUPI (
  start_pll ;>
  USB_CLK_Unfreeze ;>
  USB_INT_Clear INT_WAKEUPI ;>
  USB_INT_Disable INT_WAKEUPI ;>
  USB_INT_Enable INT_SUSPI ;>
  write_from USB_DeviceState resumed_state ;>
  signal Device_WakeUp).

Definition on_bus_reset : step := on_interrupt INT_EORSTI (
  USB_INT_Clear INT_EORSTI ;>
  write USB_DeviceState DEVICE_STATE_Default ;>
  write USB_Device_ConfigurationNumber 0 ;>
  USB_INT_Clear INT_SUSPI ;>
  USB_INT_Disable INT_SUSPI ;>
  USB_INT_Enable INT_WAKEUPI ;>
  configure_control_endpoint ;>
  signal Device_Reset).

Definition on_host_sof : step := on_interrupt INT_HSOFI (USB_INT_Clear INT_HSOFI ;> signal Host_StartOfFrame).

Definition on_disconnect : step := on_interrupt INT_DDISCI (
  USB_INT_Clear INT_DDISCI ;>
  USB_INT_Clear INT_DCONNI ;>
  USB_INT_Disable INT_DDISCI ;>
  signal Host_DeviceUnattached ;>
  USB_ResetInterface).

Definition on_vbus_error : step := on_interrupt INT_VBERRI (
  USB_INT_Clear INT_VBERRI ;>
  USB_Host_VBUS_Manual_Off ;>
  USB_Host_VBUS_Auto_Off ;>
  signal (Host_HostError HOST_ERROR_VBusVoltageDip) ;>
  signal Host_DeviceUnattached ;>
  write USB_HostState_ HOST_STATE_Unattached).

Definition on_srp : step := on_interrupt INT_SRPI (
  USB_INT_Clear INT_SRPI ;>
  USB_INT_Disable INT_SRPI ;>
  signal Host_DeviceAttached ;>
  USB_INT_Enable INT_DDISCI ;>
  write USB_HostState_ HOST_STATE_Powered).

Definition on_connection_error : step := on_interrupt INT_BCERRI (
  USB_INT_Clear INT_BCERRI ;>
  signal (Host_DeviceEnumerationFailed HOST_ENUMERROR_NoDeviceDetected 0) ;>
  signal Host_DeviceUnattached ;>
  USB_ResetInterface).

Definition on_id_change : step := on_interrupt INT_IDTI (
  USB_INT_Clear INT_IDTI ;>
  when (fun s => negb (store s USB_DeviceState =? DEVICE_STATE_Unattached)) (signal Device_Disconnect) skip ;>
  when (fun s => negb (store s USB_HostState_ =? HOST_STATE_Unattached)) (signal Host_DeviceUnattached) skip ;>
  write_from USB_CurrentMode_ USB_GetUSBModeFromUID ;>
  USB_ResetInterface ;>
  signal UIDChange).

Definition USB_GEN_vect : step :=
  on_sof ;> on_vbus ;> on_suspend ;> on_wakeup ;> on_bus_reset ;>
  on_host_sof ;> on_disconnect ;> on_vbus_error ;> on_srp ;> on_connection_error ;> on_id_change.
End controller.
