(* ===== verification/ControllerSpec.v ===== *)
(** * Correctness of the controller's interrupt handler

    The invariant of the controller in its two modes, which every run of the handler
    keeps whatever the hardware signals; what suspending and resuming leaves behind. *)
From stdpp Require Import relations.
From S2P Require Import Prelude USBIo Pipe Controller.
Open Scope step_scope.

(** The register with these bits set. *)
Definition bits_set : list Z -> Z := foldr (fun b v => Z.lor (Z.shiftl 1 b) v) 0.

(** ** Running statements *)

(** The statement returns, in a state with [Q]. *)
Definition runs (f : step) (s : controller) (Q : controller -> Prop) : Prop := exists s', f s = Some s' /\ Q s'.

Lemma runs_skip s (Q : controller -> Prop) : Q s -> runs skip s Q.
Proof. by exists s. Qed.
Lemma runs_andthen f g s Q : runs f s (fun s' => runs g s' Q) -> runs (f ;> g) s Q.
Proof. intros (s' & E & s'' & E' & H). exists s''. unfold andthen. by rewrite E. Qed.
Lemma runs_andthen_inv f g s Q : runs (f ;> g) s Q -> runs f s (fun s' => runs g s' Q).
Proof.
  intros (s'' & E & H). revert E. unfold andthen. destruct (f s) as [s'|] eqn:Ef; [|done]. intros E. exists s'. split; [done|]. by exists s''.
Qed.
Lemma runs_when c f g s Q : (c s = true -> runs f s Q) -> (c s = false -> runs g s Q) -> runs (when c f g) s Q.
Proof. unfold when. intros H1 H2. unfold runs. destruct (c s) eqn:E; [by apply H1|by apply H2]. Qed.
Lemma runs_if (b : bool) f g s Q : (b = true -> runs f s Q) -> (b = false -> runs g s Q) -> runs (if b then f else g) s Q.
Proof. destruct b; auto. Qed.
Lemma runs_mono f s (P Q : controller -> Prop) : runs f s P -> (forall s', P s' -> Q s') -> runs f s Q.
Proof. intros (s' & E & H) HQ. exists s'. auto. Qed.

(** From [s] to [s'] only the location [l] changes, and it has the value [v] then; or it has any value. *)
Record changed (l : location) (v : Z) (s s' : controller) : Prop := {
    ch_here : store s' l = v;
    ch_rest l' : l' <> l -> store s' l' = store s l';
    ch_events : events s' = events s
  }.
Record same_but (l : location) (s s' : controller) : Prop := {
    sb_rest l' : l' <> l -> store s' l' = store s l';
    sb_events : events s' = events s
  }.
Record signalled (e : usb_event) (s s' : controller) : Prop := {
    si_store l : store s' l = store s l;
    si_events : events s' = events s ++ [e]
  }.

Lemma put_changed l v s : changed l v s (put l v s).
Proof. split; unfold put; cbn; [by rewrite decide_True| |done]. intros l' H. by rewrite decide_False. Qed.
Lemma changed_same_but l v s s' : changed l v s s' -> same_but l s s'.
Proof. intros []. by split. Qed.
Lemma same_but_refl l s : same_but l s s.
Proof. by split. Qed.
Lemma same_but_trans l s s' s'' : same_but l s s' -> same_but l s' s'' -> same_but l s s''.
Proof. intros [R E] [R' E']. split; [|congruence]. intros l' H. by rewrite R', R. Qed.

Lemma runs_write l v s (Q : controller -> Prop) : (forall s', changed l v s s' -> Q s') -> runs (write l v) s Q.
Proof. intros H. eexists. split; [reflexivity|]. apply H, put_changed. Qed.
Lemma runs_write_from l v s (Q : controller -> Prop) : (forall s', changed l (v s) s s' -> Q s') -> runs (write_from l v) s Q.
Proof. intros H. eexists. split; [reflexivity|]. apply H, put_changed. Qed.
Lemma runs_set_bit l b s (Q : controller -> Prop) :
  (forall s', changed l (Z.lor (store s l) (Z.shiftl 1 b)) s s' -> Q s') -> runs (set_bit l b) s Q.
Proof. intros H. eexists. split; [reflexivity|]. apply H, put_changed. Qed.
Lemma runs_clear_bit l b s (Q : controller -> Prop) :
  (forall s', changed l (Z.ldiff (store s l) (Z.shiftl 1 b)) s s' -> Q s') -> runs (clear_bit l b) s Q.
Proof. intros H. eexists. split; [reflexivity|]. apply H, put_changed. Qed.
Lemma runs_signal e s (Q : controller -> Prop) : (forall s', signalled e s s' -> Q s') -> runs (signal e) s Q.
Proof. intros H. eexists. split; [reflexivity|]. by apply H. Qed.

(** One statement. *)
Ltac exec1 :=
  lazymatch goal with
  | |- runs (_ ;> _) _ _ => apply runs_andthen
  | |- runs skip _ _ => apply runs_skip
  | |- runs (write _ _) _ _ => apply runs_write; intros ? ?
  | |- runs (write_from _ _) _ _ => apply runs_write_from; intros ? ?
  | |- runs (set_bit _ _) _ _ => apply runs_set_bit; intros ? ?
  | |- runs (clear_bit _ _) _ _ => apply runs_clear_bit; intros ? ?
  | |- runs (signal _) _ _ => apply runs_signal; intros ? ?
  | |- runs (when _ _ _) _ _ => apply runs_when; intros ?
  | |- runs (if _ then _ else _) _ _ => apply runs_if; intros ?
  | |- runs (on_interrupt _ _) _ _ => apply runs_when; intros ?
  | |- runs (USB_INT_Enable _) _ _ => apply runs_set_bit; cbn [enable_bit flag_bit fst snd]; intros ? ?
  | |- runs (USB_INT_Disable _) _ _ => apply runs_clear_bit; cbn [enable_bit flag_bit fst snd]; intros ? ?
  | |- runs (USB_INT_Clear _) _ _ => apply runs_clear_bit; cbn [enable_bit flag_bit fst snd]; intros ? ?
  | |- runs (configure_control_endpoint) _ _ => apply runs_signal; intros ? ?
  | |- runs (match ?o with Some _ => _ | None => _ end) _ _ => destruct o
  end.
Ltac exec := repeat exec1.

(** The contents of a location after the statements, from its contents before them. *)
Ltac look :=
  unfold USB_INT_IsEnabled, USB_INT_HasOccurred, bit_of, in_mode; cbn [enable_bit flag_bit fst snd];
  repeat match goal with
  | H : changed ?l ?v ?s ?s' |- context [store ?s' ?l] => rewrite (ch_here _ _ _ _ H)
  | H : changed ?l ?v ?s ?s' |- context [store ?s' ?l'] => rewrite (ch_rest _ _ _ _ H l') by discriminate
  | H : same_but ?l ?s ?s' |- context [store ?s' ?l'] => rewrite (sb_rest _ _ _ H l') by discriminate
  | H : signalled ?e ?s ?s' |- context [store ?s' ?l'] => rewrite (si_store _ _ _ H l')
  end.

(** Bits of the values. *)
Ltac bits :=
  look; repeat first [rewrite Z.lor_spec|rewrite Z.ldiff_spec|rewrite Z.bits_0];
  repeat match goal with
  | |- context [Z.testbit (Z.shiftl 1 ?a) ?b] =>
      let r := eval vm_compute in (Z.testbit (Z.shiftl 1 a) b) in change (Z.testbit (Z.shiftl 1 a) b) with r
  end; rewrite ?andb_true_r, ?andb_false_r, ?orb_true_r, ?orb_false_r; cbn [negb andb orb].

(** ** The invariant *)

(** In device mode: of the suspend and the wake-up interrupt exactly one is enabled, and
    it is the wake-up interrupt when the clock is frozen or the device suspended;
    resets and the cable are watched; the host's interrupts are off. *)
Record device_mode (s : controller) : Prop := {
    dm_mode : store s USB_CurrentMode_ = USB_MODE_Device;
    dm_one : USB_INT_IsEnabled INT_SUSPI s = negb (USB_INT_IsEnabled INT_WAKEUPI s);
    dm_frozen : bit_of USBCON FRZCLK s = true -> USB_INT_IsEnabled INT_WAKEUPI s = true;
    dm_suspended : store s USB_DeviceState = DEVICE_STATE_Suspended -> USB_INT_IsEnabled INT_WAKEUPI s = true;
    dm_reset : USB_INT_IsEnabled INT_EORSTI s = true;
    dm_vbus : USB_INT_IsEnabled INT_VBUSTI s = true;
    dm_host : store s UHIEN = 0 /\ store s OTGIEN = 0
  }.

(** In host mode: a new device is watched for exactly when no disconnection is, which is
    when none is attached; the clock runs; the device's interrupts are off. *)
Record host_mode (s : controller) : Prop := {
    hm_mode : store s USB_CurrentMode_ = USB_MODE_Host_;
    hm_one : USB_INT_IsEnabled INT_SRPI s = negb (USB_INT_IsEnabled INT_DDISCI s);
    hm_attached : store s USB_HostState_ <> HOST_STATE_Unattached -> USB_INT_IsEnabled INT_DDISCI s = true;
    hm_error : USB_INT_IsEnabled INT_BCERRI s = true;
    hm_clock : bit_of USBCON FRZCLK s = false;
    hm_device : store s UDIEN = 0 /\ USB_INT_IsEnabled INT_VBUSTI s = false
  }.

(** In both, the controller is on and attached, and the ID pin is watched if it decides. *)
Record running (s : controller) : Prop := {
    ru_on : bit_of USBCON USBE s = true;
    ru_attached : bit_of UDCON DETACH s = false;
    ru_id : bit_of UHWCON UIDE s = true -> USB_INT_IsEnabled INT_IDTI s = true;
    ru_mode : device_mode s \/ host_mode s
  }.

Section controller.
Context (Endpoint0Size : option Z) (lock_polls : nat).

Lemma wait_pll_runs n s : bit_of PLLCSR PLLE s = true ->
  runs (wait_pll n) s (fun s' => bit_of PLLCSR PLOCK s' = true /\ same_but PLLCSR s s').
Proof.
  intros Hp. induction n as [|n IH]; cbn [wait_pll].
  - exec1; [|congruence]. exec. split; [by bits|]. by eapply changed_same_but.
  - exec1; [|done]. exec. split; [done|apply same_but_refl].
Qed.

Lemma start_pll_runs s : runs (start_pll lock_polls) s (fun s' =>
  (manual_pll s = false -> USB_PLL_IsReady s' = true) /\ same_but PLLCSR s s').
Proof.
  unfold start_pll. exec1; [exec; split; [congruence|apply same_but_refl]|]. unfold USB_PLL_On. do 4 exec1.
  eapply runs_mono; [apply wait_pll_runs; by bits|]. intros r [? ?]. split; [done|].
  eapply same_but_trans; [by eapply changed_same_but|]. eapply same_but_trans; [by eapply changed_same_but|done].
Qed.

Lemma stop_pll_runs s : runs stop_pll s (fun s' => (manual_pll s = false -> store s' PLLCSR = 0) /\ same_but PLLCSR s s').
Proof.
  unfold stop_pll, USB_PLL_Off. exec1; exec; [split; [congruence|apply same_but_refl]|].
  split; [intros _; by eapply ch_here|by eapply changed_same_but].
Qed.

Ltac pll :=
  lazymatch goal with
  | |- runs (start_pll _) _ _ => eapply runs_mono; [apply start_pll_runs|]; intros ? [? ?]
  | |- runs stop_pll _ _ => eapply runs_mono; [apply stop_pll_runs|]; intros ? [? ?]
  end.
Ltac run := repeat first [exec1 | pll].

(** ** Set-up *)

Definition known_mode (s : controller) : Prop := store s USB_CurrentMode_ = USB_MODE_Device \/ store s USB_CurrentMode_ = USB_MODE_Host_.

(** Conditions on later states, as conditions on the state they depend on. *)
Ltac look_in H :=
  unfold USB_INT_IsEnabled, USB_INT_HasOccurred, bit_of, in_mode in H; cbn [enable_bit flag_bit fst snd] in H;
  repeat match type of H with
  | context [store ?s' ?l'] =>
    match goal with
    | C : changed l' ?v ?s s' |- _ => rewrite (ch_here _ _ _ _ C) in H
    | C : changed ?l ?v ?s s' |- _ => rewrite (ch_rest _ _ _ _ C l') in H by discriminate
    | C : same_but ?l ?s s' |- _ => rewrite (sb_rest _ _ _ C l') in H by discriminate
    | C : signalled ?e ?s s' |- _ => rewrite (si_store _ _ _ C l') in H
    end
  end;
  repeat first [rewrite Z.lor_spec in H|rewrite Z.ldiff_spec in H|rewrite Z.bits_0 in H];
  repeat match type of H with
  | context [Z.testbit (Z.shiftl 1 ?a) ?b] =>
      let r := eval vm_compute in (Z.testbit (Z.shiftl 1 a) b) in change (Z.testbit (Z.shiftl 1 a) b) with r in H
  end; rewrite ?andb_true_r, ?andb_false_r, ?orb_true_r, ?orb_false_r in H; cbn [negb andb orb] in H.
Ltac conditions :=
  repeat match goal with
  | H : ?t = ?b |- _ => lazymatch type of b with bool => progress look_in H end
  | H : store _ _ = _ |- _ => progress look_in H
  | H : store _ _ <> _ |- _ => progress look_in H
  | H : store ?s ?l = 0, B : Z.testbit (store ?s ?l) _ = true |- _ => by rewrite H in B
  end;
  repeat match goal with
  | H : (_ =? _) = true |- _ => apply Z.eqb_eq in H
  | H : (_ =? _) = false |- _ => apply Z.eqb_neq in H
  end.
Ltac settle :=
  unfold bit_of, USB_INT_IsEnabled in *; cbn [enable_bit flag_bit fst snd] in *; bits;
  repeat match goal with
  | H : store ?s ?l = _ |- context [store ?s ?l] => rewrite H
  | H : Z.testbit (store ?s ?l) ?b = _ |- context [Z.testbit (store ?s ?l) ?b] => rewrite H
  end; first [done|congruence|by auto].

(** After the interrupts are off, the controller reset and its clock running. *)
Record prepared (s : controller) : Prop := {
    pr_on : bit_of USBCON USBE s = true;
    pr_clock : bit_of USBCON FRZCLK s = false;
    pr_id : bit_of UHWCON UIDE s = true -> USB_INT_IsEnabled INT_IDTI s = true;
    pr_vbus : USB_INT_IsEnabled INT_VBUSTI s = false;
    pr_device : store s UDIEN = 0;
    pr_host : store s UHIEN = 0 /\ store s OTGIEN = 0
  }.

Lemma device_reset s : prepared s -> store s USB_CurrentMode_ = USB_MODE_Device ->
  runs (reset_device Endpoint0Size ;> USB_OTGPAD_On) s (fun s' => running s' /\ store s' USB_CurrentMode_ = store s USB_CurrentMode_).
Proof.
  intros [] Hm. unfold reset_device, USB_Init_Device, USB_Attach, USB_Device_SetLowSpeed, USB_Device_SetFullSpeed, USB_OTGPAD_On. run.
  all: conditions; destruct pr_host0; split; [split|]; [..|left; split; [..|split]|].
  all: try settle. all: try (intros; settle).
Qed.

Lemma host_reset s : prepared s -> store s USB_CurrentMode_ = USB_MODE_Host_ ->
  runs (reset_host lock_polls ;> USB_OTGPAD_On) s (fun s' => running s' /\ store s' USB_CurrentMode_ = store s USB_CurrentMode_).
Proof.
  intros [] Hm. unfold reset_host, USB_Init_Host, USB_Attach, USB_Host_HostMode_On, USB_Host_VBUS_Auto_Off, USB_Host_VBUS_Manual_Enable, USB_Host_VBUS_Manual_On, USB_OTGPAD_On. run.
  all: conditions; destruct pr_host0; split; [split|]; [..|right; split; [..|split]|].
  all: try settle. all: try (intros; settle).
Qed.

Lemma reset_runs s : known_mode s ->
  runs (USB_ResetInterface Endpoint0Size lock_polls) s (fun s' => running s' /\ store s' USB_CurrentMode_ = store s USB_CurrentMode_).
Proof.
  intros Hm. unfold USB_ResetInterface.
  change (runs (set_up_interface Endpoint0Size lock_polls (bit_of UHWCON UIDE s)) s (fun s' => running s' /\ store s' USB_CurrentMode_ = store s USB_CurrentMode_)).
  unfold set_up_interface, USB_INT_DisableAllInterrupts, USB_INT_ClearAllInterrupts, USB_Controller_Reset, USB_CLK_Unfreeze.
  change (set_bit USBCON OTGPADE) with USB_OTGPAD_On. run; conditions.
  all: first [apply (runs_andthen_inv (reset_device Endpoint0Size)); eapply runs_mono; [apply device_reset|]
             |apply (runs_andthen_inv (reset_host lock_polls)); eapply runs_mono; [apply host_reset|]
             |idtac].
  all: try (split; [..|split]; intros; conditions; settle); try settle.
  all: exfalso; destruct Hm; congruence.
Qed.

(** What the invariant speaks of. *)
Definition watched (l : location) : bool :=
  bool_decide (l ∈ [USBCON; UDCON; UHWCON; UDIEN; UHIEN; OTGIEN; USB_CurrentMode_; USB_DeviceState; USB_HostState_]).

Lemma running_agree s s' : (forall l, watched l = true -> store s' l = store s l) -> running s -> running s'.
Proof.
  intros H [? ? ? Hm].
  split; unfold bit_of, USB_INT_IsEnabled, bit_of in *; cbn [enable_bit fst snd] in *; rewrite ?H by reflexivity; try done.
  destruct Hm as [[]|[]]; [left|right]; split; unfold bit_of, USB_INT_IsEnabled, bit_of in *; cbn [enable_bit fst snd] in *;
    rewrite ?H by reflexivity; done.
Qed.

Lemma running_ext s s' : (forall l, store s' l = store s l) -> running s -> running s'.
Proof. intros H. apply running_agree. auto. Qed.

Lemma running_put l v s : watched l = false -> running s -> running (put l v s).
Proof. intros Hl. apply running_agree. intros l' Hl'. eapply ch_rest; [apply put_changed|congruence]. Qed.

Lemma running_known s : running s -> known_mode s.
Proof. intros [_ _ _ [[]|[]]]; [by left|by right]. Qed.

Lemma init_runs Mode Options s : Mode ∈ [USB_MODE_Device; USB_MODE_Host_; USB_MODE_UID] ->
  runs (USB_Init Endpoint0Size lock_polls Mode Options) s running.
Proof.
  intros HM. unfold USB_Init, USB_REG_On, USB_REG_Off. run.
  all: eapply runs_mono; [apply reset_runs|by intros ? []].
  all: unfold known_mode; bits.
  all: repeat (apply elem_of_cons in HM as [->|HM]); try done; try (by inversion HM); try (by left); try (by right).
  all: unfold USB_GetUSBModeFromUID. all: try (case_match; [by left|by right]).
Qed.

(** ** The handlers *)

Ltac handle :=
  run; try done; conditions; repeat match goal with H : (_ && _) = true |- _ => apply andb_true_iff in H as [? ?] end; conditions.
Ltac keep_device := split; [..|left; split; [..|split]]; intros; conditions; settle.
Ltac keep_host := split; [..|right; split; [..|split]]; intros; conditions; settle.

Definition keeps (f : step) : Prop := forall s, running s -> runs f s running.

Ltac mode :=
  intros s Hr; pose proof Hr as [? ? ? [[? ? ? ? ? ? []]|[? ? ? ? ? []]]].

Lemma sof_runs : keeps on_sof.
Proof. mode; unfold on_sof; handle. keep_device. Qed.

Lemma vbus_runs : keeps (on_vbus lock_polls).
Proof. mode; unfold on_vbus; handle; first [keep_device|congruence]. Qed.

Lemma suspend_runs : keeps on_suspend.
Proof. mode; unfold on_suspend, USB_CLK_Freeze; handle; first [keep_device|congruence]. Qed.

Lemma resumed_not_suspended s : resumed_state s <> DEVICE_STATE_Suspended.
Proof. unfold resumed_state. by repeat case_match. Qed.

Lemma wakeup_runs : keeps (on_wakeup lock_polls).
Proof. pose proof resumed_not_suspended. mode; unfold on_wakeup, USB_CLK_Unfreeze; handle; first [keep_device|congruence]. Qed.

Lemma bus_reset_runs : keeps on_bus_reset.
Proof. mode; unfold on_bus_reset; handle; first [keep_device|congruence]. Qed.

Lemma host_sof_runs : keeps on_host_sof.
Proof. mode; unfold on_host_sof; handle; first [keep_host|congruence]. Qed.

Lemma vbus_error_runs : keeps on_vbus_error.
Proof. mode; unfold on_vbus_error, USB_Host_VBUS_Manual_Off, USB_Host_VBUS_Auto_Off; handle; first [keep_host|congruence]. Qed.

Lemma srp_runs : keeps on_srp.
Proof. mode; unfold on_srp; handle; first [keep_host|congruence]. Qed.

(** The interface is set up again, in the mode it had or in the one of the ID pin. *)
Ltac resets :=
  handle; try (eapply runs_mono; [apply reset_runs|intros ? [? ?]]); try done.

Lemma disconnect_runs : keeps (on_disconnect Endpoint0Size lock_polls).
Proof. intros s Hr. pose proof (running_known s Hr) as Hm. unfold on_disconnect. resets. unfold known_mode in *. by look. Qed.

Lemma connection_error_runs : keeps (on_connection_error Endpoint0Size lock_polls).
Proof. intros s Hr. pose proof (running_known s Hr) as Hm. unfold on_connection_error. resets. unfold known_mode in *. by look. Qed.

Lemma id_change_runs : keeps (on_id_change Endpoint0Size lock_polls).
Proof.
  intros s Hr. unfold on_id_change. resets.
  all: try by (run; eapply running_ext; [by eapply si_store|]).
  all: unfold known_mode; look; unfold USB_GetUSBModeFromUID; case_match; [by left|by right].
Qed.

Lemma keeps_andthen f g : keeps f -> keeps g -> keeps (f ;> g).
Proof. intros Hf Hg s Hs. apply runs_andthen. eapply runs_mono; [by apply Hf|]. apply Hg. Qed.

Lemma handler_runs : keeps (USB_GEN_vect Endpoint0Size lock_polls).
Proof.
  unfold USB_GEN_vect.
  repeat apply keeps_andthen; auto using sof_runs, vbus_runs, suspend_runs, wakeup_runs, bus_reset_runs, host_sof_runs,
    disconnect_runs, vbus_error_runs, srp_runs, connection_error_runs, id_change_runs.
Qed.

(** ** The program around the handler *)

(** What happens between two runs of the handler: the hardware changes its status and
    raises flags; the device task takes an address, a configuration, a state - never the
    suspended one, which is the handler's; the host task, one of its steps at a time,
    moves on while a device is attached, or gives up and sets the interface up again. *)
Definition hardware (l : location) : Prop := l ∈ [USBSTA; USBINT; UDINT; UHINT; OTGINT; UEINTX; UDADDR; PLLCSR].

Inductive moves : controller -> controller -> Prop :=
  | move_hardware s l v : hardware l -> moves s (put l v s)
  | move_interrupt s s' : USB_GEN_vect Endpoint0Size lock_polls s = Some s' -> moves s s'
  | move_device_state s v : v <> DEVICE_STATE_Suspended -> moves s (put USB_DeviceState v s)
  | move_configuration s v : moves s (put USB_Device_ConfigurationNumber v s)
  | move_remote_wakeup s s' : USB_Device_SendRemoteWakeup lock_polls s = Some s' -> moves s s'
  | move_host_state s v : store s USB_HostState_ <> HOST_STATE_Unattached -> moves s (put USB_HostState_ v s)
  | move_reset s s' : USB_ResetInterface Endpoint0Size lock_polls s = Some s' -> moves s s'.

Lemma keeps_result f s s' : keeps f -> running s -> f s = Some s' -> running s'.
Proof. intros Hf Hs E. destruct (Hf s Hs) as (x & E' & H). congruence. Qed.

Lemma reset_keeps : keeps (USB_ResetInterface Endpoint0Size lock_polls).
Proof. intros s Hs. eapply runs_mono; [apply reset_runs, running_known, Hs|]. by intros ? []. Qed.

Lemma remote_wakeup_keeps : keeps (USB_Device_SendRemoteWakeup lock_polls).
Proof. mode; unfold USB_Device_SendRemoteWakeup, USB_CLK_Unfreeze; handle. - keep_device. - keep_host. Qed.

Lemma device_state_keeps v : v <> DEVICE_STATE_Suspended -> keeps (write USB_DeviceState v).
Proof. intros Hv. mode; handle. - keep_device. - keep_host. Qed.

Lemma host_state_keeps v s : store s USB_HostState_ <> HOST_STATE_Unattached -> running s -> runs (write USB_HostState_ v) s running.
Proof. intros Ha. revert s Ha. intros s Ha Hr. revert Ha. revert s Hr. mode; intros Ha; handle. - keep_device. - keep_host. Qed.

Lemma moves_running s s' : running s -> moves s s' -> running s'.
Proof.
  intros Hr Hs. destruct Hs as [s1 l v Hl|s1 s2 E|s1 v Hv|s1 v|s1 s2 E|s1 v Hv|s1 s2 E].
  - apply running_put; [|done]. unfold hardware in Hl. set_unfold in Hl. by destruct_or? Hl; subst l.
  - by eapply keeps_result; [apply handler_runs|..].
  - by eapply keeps_result; [apply (device_state_keeps v Hv)|..].
  - by apply running_put.
  - by eapply keeps_result; [apply remote_wakeup_keeps|..].
  - destruct (host_state_keeps v s1 Hv Hr) as (x & [= <-] & Hx). exact Hx.
  - by eapply keeps_result; [apply reset_keeps|..].
Qed.

Lemma moves_star_running s s' : running s -> rtc moves s s' -> running s'.
Proof. intros Hr Hs. induction Hs as [|a b c Hab _ IH]; [done|]. apply IH. by eapply moves_running. Qed.

(** C8: once [USB_Init] has set the controller up - in device mode, in host mode or in
    the mode the ID pin chooses - every run of the interrupt handler returns, and through
    any number of interrupts, steps of the tasks and changes of the hardware the
    controller stays on and attached, watches the ID pin if it has to, and in device mode
    has exactly one of the suspend and wake-up interrupts enabled (the wake-up one when
    its clock is frozen or the device suspended), in host mode exactly one of the attach
    and the detach interrupts (the detach one when a device is attached). *)
Theorem controller_invariant Mode Options s0 : Mode ∈ [USB_MODE_Device; USB_MODE_Host_; USB_MODE_UID] ->
  exists s1, USB_Init Endpoint0Size lock_polls Mode Options s0 = Some s1 /\
    forall s, rtc moves s1 s -> running s /\ exists s', USB_GEN_vect Endpoint0Size lock_polls s = Some s' /\ running s'.
Proof.
  intros HM. destruct (init_runs Mode Options s0 HM) as (s1 & E & H1). exists s1. split; [done|]. intros s Hs.
  pose proof (moves_star_running s1 s H1 Hs) as Hr.
  split; [done|]. by apply handler_runs.
Qed.

(** ** Suspending and resuming *)

(** A handler whose interrupt has not occurred does nothing. *)
Lemma runs_idle i f s (Q : controller -> Prop) :
  USB_INT_HasOccurred i s && USB_INT_IsEnabled i s = false -> Q s -> runs (on_interrupt i f) s Q.
Proof. intros H HQ. apply runs_when; [congruence|]. intros _. by apply runs_skip. Qed.

Lemma runs_taken i f s Q : USB_INT_HasOccurred i s && USB_INT_IsEnabled i s = true -> runs f s Q -> runs (on_interrupt i f) s Q.
Proof. intros H HQ. apply runs_when; [done|congruence]. Qed.

(** Of the flags the handler looks at in device mode, these are raised. *)
Record raised (sof vbus suspend wakeup reset id : bool) (s : controller) : Prop := {
    ra_sof : USB_INT_HasOccurred INT_SOFI s = sof;
    ra_vbus : USB_INT_HasOccurred INT_VBUSTI s = vbus;
    ra_suspend : USB_INT_HasOccurred INT_SUSPI s = suspend;
    ra_wakeup : USB_INT_HasOccurred INT_WAKEUPI s = wakeup;
    ra_reset : USB_INT_HasOccurred INT_EORSTI s = reset;
    ra_id : USB_INT_HasOccurred INT_IDTI s = id
  }.

Ltac idle := apply runs_idle; [apply andb_false_iff; first [by left; settle|by right; settle]|].
Ltac taken := apply runs_taken; [apply andb_true_iff; split; settle|].

Ltac handler :=
  unfold USB_GEN_vect, on_sof, on_vbus, on_suspend, on_wakeup, on_bus_reset, on_host_sof, on_disconnect, on_vbus_error,
    on_srp, on_connection_error, on_id_change, USB_CLK_Freeze, USB_CLK_Unfreeze;
  repeat lazymatch goal with
  | |- runs (on_interrupt _ _) _ _ => first [idle|taken]
  | _ => first [exec1|pll]
  end.

(** The events signalled. *)
Ltac look_events :=
  repeat match goal with
  | H : changed ?l ?v ?s ?s' |- context [events ?s'] => rewrite (ch_events _ _ _ _ H)
  | H : same_but ?l ?s ?s' |- context [events ?s'] => rewrite (sb_events _ _ _ H)
  | H : signalled ?e ?s ?s' |- context [events ?s'] => rewrite (si_events _ _ _ H)
  end.

Ltac rest l Hl := destruct l; first [by look|exfalso; apply Hl; set_solver].

(** What suspending does. *)
Record suspended (s s' : controller) : Prop := {
    su_state : store s' USB_DeviceState = DEVICE_STATE_Suspended;
    su_clock : store s' USBCON = Z.lor (store s USBCON) (Z.shiftl 1 FRZCLK);
    su_enabled : store s' UDIEN = Z.lor (Z.ldiff (store s UDIEN) (Z.shiftl 1 SUSPE)) (Z.shiftl 1 WAKEUPE);
    su_pll : manual_pll s = false -> store s' PLLCSR = 0;
    su_rest l : l ∉ [USB_DeviceState; USBCON; UDIEN; PLLCSR] -> store s' l = store s l;
    su_events : events s' = events s ++ [Device_Suspend]
  }.

Lemma suspends s : device_mode s -> raised false false true false false false s -> USB_INT_IsEnabled INT_SUSPI s = true ->
  runs (USB_GEN_vect Endpoint0Size lock_polls) s (suspended s).
Proof.
  intros [? ? ? ? ? ? []] [] He. handler.
  split; [settle|by look|by look| |intros l Hl; rest l Hl|by look_events].
  unfold manual_pll in *. intros Hm. look. apply H4. by look.
Qed.

(** What resuming does. *)
Record resumed (s s' : controller) : Prop := {
    re_state : store s' USB_DeviceState = resumed_state s;
    re_clock : store s' USBCON = Z.ldiff (store s USBCON) (Z.shiftl 1 FRZCLK);
    re_flag : store s' UDINT = Z.ldiff (store s UDINT) (Z.shiftl 1 WAKEUPI);
    re_enabled : store s' UDIEN = Z.lor (Z.ldiff (store s UDIEN) (Z.shiftl 1 WAKEUPE)) (Z.shiftl 1 SUSPE);
    re_pll : manual_pll s = false -> USB_PLL_IsReady s' = true;
    re_rest l : l ∉ [USB_DeviceState; USBCON; UDINT; UDIEN; PLLCSR] -> store s' l = store s l;
    re_events : events s' = events s ++ [Device_WakeUp]
  }.

Lemma resumes f s : device_mode s -> raised false false f true false false s -> USB_INT_IsEnabled INT_WAKEUPI s = true ->
  runs (USB_GEN_vect Endpoint0Size lock_polls) s (resumed s).
Proof.
  intros [? dm_one ? ? ? ? []] [] He. rewrite He in dm_one. handler.
  split; [|by look|by look|by look| |intros l Hl; rest l Hl|by look_events].
  - look. unfold resumed_state, USB_Device_IsAddressSet, bit_of. by look.
  - unfold USB_PLL_IsReady, bit_of in *. intros Hm. look. by apply H1.
Qed.

(** Bits set and cleared again. *)
Ltac by_bits :=
  apply Z.bits_inj; intros i; repeat first [rewrite Z.lor_spec|rewrite Z.ldiff_spec]; rewrite ?Z.shiftl_1_l, ?Z.pow2_bits_eqb by done;
  repeat match goal with |- context [?b =? i] => destruct (Z.eqb_spec b i); subst end;
  repeat match goal with H : Z.testbit _ _ = _ |- _ => rewrite H end; by rewrite ?andb_true_r, ?orb_false_r.

Lemma set_then_clear v b : 0 <= b -> Z.testbit v b = false -> Z.ldiff (Z.lor v (Z.shiftl 1 b)) (Z.shiftl 1 b) = v.
Proof. intros Hb H. by_bits. Qed.

Lemma swap_bits v a b : 0 <= a -> 0 <= b -> a <> b -> Z.testbit v a = true -> Z.testbit v b = false ->
  Z.lor (Z.ldiff (Z.lor (Z.ldiff v (Z.shiftl 1 a)) (Z.shiftl 1 b)) (Z.shiftl 1 b)) (Z.shiftl 1 a) = v.
Proof. intros Ha Hb Hne H H'. by_bits. Qed.

Lemma device_awake s : device_mode s -> USB_INT_IsEnabled INT_SUSPI s = true ->
  bit_of UDIEN WAKEUPE s = false /\ bit_of USBCON FRZCLK s = false.
Proof.
  intros [_ Hone Hf _ _ _ _] He. rewrite He in Hone. change (USB_INT_IsEnabled INT_WAKEUPI s) with (bit_of UDIEN WAKEUPE s) in *.
  destruct (bit_of UDIEN WAKEUPE s); [done|]. split; [done|]. destruct (bit_of USBCON FRZCLK s); [|done]. by specialize (Hf eq_refl).
Qed.

(** C25: a configured device that is suspended and woken up is back where it was: the
    suspend interrupt freezes the clock, stops the PLL and leaves only the wake-up
    interrupt to hear of the bus; and the wake-up interrupt starts the PLL, waits until
    it is locked, and restores every register and variable - the state [Configured]
    among them - with exactly the two events of the library signalled. *)
Theorem suspend_resume s :
  running s -> store s USB_CurrentMode_ = USB_MODE_Device ->
  store s USB_DeviceState = DEVICE_STATE_Configured -> store s USB_Device_ConfigurationNumber <> 0 -> manual_pll s = false ->
  raised false false true false false false s -> USB_INT_IsEnabled INT_SUSPI s = true ->
  exists s1, USB_GEN_vect Endpoint0Size lock_polls s = Some s1 /\
    store s1 USB_DeviceState = DEVICE_STATE_Suspended /\ bit_of USBCON FRZCLK s1 = true /\ store s1 PLLCSR = 0 /\
    USB_INT_IsEnabled INT_WAKEUPI s1 = true /\ USB_INT_IsEnabled INT_SUSPI s1 = false /\
  exists s2, (set_bit UDINT WAKEUPI ;> USB_GEN_vect Endpoint0Size lock_polls) s1 = Some s2 /\
    USB_PLL_IsReady s2 = true /\ (forall l, l <> PLLCSR -> store s2 l = store s l) /\
    events s2 = events s ++ [Device_Suspend; Device_WakeUp].
Proof.
  intros Hr Hm Hc Hn Hp Hf He.
  assert (device_mode s) as Hd by (destruct Hr as [_ _ _ [|[Hm' _ _ _ _ _]]]; [done|by rewrite Hm in Hm']).
  destruct (suspends s Hd Hf He) as (s1 & E1 & [S C En P R Ev]). exists s1. split; [done|].
  destruct (handler_runs s Hr) as (s1' & E1' & Hr1). assert (s1' = s1) as -> by congruence.
  destruct (device_awake s Hd He) as [Hw Hz].
  set (s2 := put UDINT (Z.lor (store s1 UDINT) (Z.shiftl 1 WAKEUPI)) s1).
  pose proof (put_changed UDINT (Z.lor (store s1 UDINT) (Z.shiftl 1 WAKEUPI)) s1) as Hs2. fold s2 in Hs2.
  assert (running s2) as Hr2 by by apply running_put.
  assert (device_mode s2) as Hd2.
  { destruct Hr2 as [_ _ _ [|[Hm2 _ _ _ _ _]]]; [done|]. revert Hm2. look. rewrite R by set_solver. by rewrite Hm. }
  assert (USB_INT_IsEnabled INT_WAKEUPI s1 = true) as He1 by (unfold USB_INT_IsEnabled, bit_of; cbn [enable_bit fst snd]; rewrite En; by bits).
  assert (USB_INT_IsEnabled INT_SUSPI s1 = false) as He1' by (unfold USB_INT_IsEnabled, bit_of; cbn [enable_bit fst snd]; rewrite En; by bits).
  assert (bit_of USBCON FRZCLK s1 = true) as Hz1 by (unfold bit_of; rewrite C; by bits).
  destruct (resumes true s2) as (s3 & E3 & [S' C' F' En' P' R' Ev']); [done| |by unfold USB_INT_IsEnabled; look|].
  { destruct Hf as []. split; unfold USB_INT_HasOccurred, bit_of in *; cbn [flag_bit fst snd] in *; look; rewrite ?R by set_solver; bits; done. }
  do 4 (split; [auto|]). split; [done|].
  exists s3. split; [done|]. split; [apply P'; unfold manual_pll; look; rewrite R by set_solver; done|]. split.
  - intros l Hl. destruct (decide (l ∈ [USB_DeviceState; USBCON; UDINT; UDIEN])) as [Hin|Hout].
    + set_unfold in Hin. destruct_or? Hin; subst l.
      * rewrite S', Hc. unfold resumed_state. look. rewrite R by set_solver. unfold truthy. by rewrite (proj2 (Z.eqb_neq _ _) Hn).
      * rewrite C'. look. rewrite C. by apply set_then_clear.
      * rewrite F'. look. rewrite R by set_solver. apply set_then_clear; [done|]. by destruct Hf.
      * rewrite En'. look. rewrite En. by apply swap_bits.
    + rewrite R' by set_solver. rewrite (ch_rest _ _ _ _ Hs2) by set_solver. apply R. set_solver.
  - rewrite Ev'. look_events. by rewrite Ev, <- app_assoc.
Qed.

(** A device that has an address and no configuration is [Configured] after a wake-up. *)
Lemma addressed_device_wakes_configured f s : device_mode s -> raised false false f true false false s -> USB_INT_IsEnabled INT_WAKEUPI s = true ->
  store s USB_Device_ConfigurationNumber = 0 -> USB_Device_IsAddressSet s = true ->
  runs (USB_GEN_vect Endpoint0Size lock_polls) s (fun s' => store s' USB_DeviceState = DEVICE_STATE_Configured).
Proof.
  intros Hd Hf He Hn Ha. eapply runs_mono; [by eapply resumes|]. intros s' [S _ _ _ _ _ _]. rewrite S. unfold resumed_state. by rewrite Hn, Ha.
Qed.
End controller.

(** ** Witnesses *)

Definition off : controller := mk_controller (fun _ => 0) [].

Lemma controller_invariant_witness : USB_MODE_UID ∈ [USB_MODE_Device; USB_MODE_Host_; USB_MODE_UID] /\
  exists s1, USB_Init (Some 8) 3 USB_MODE_UID 0 off = Some s1 /\
    forall s, rtc (moves (Some 8) 3) s1 s -> running s /\ exists s', USB_GEN_vect (Some 8) 3 s = Some s' /\ running s'.
Proof.
  split; [by right; right; left|]. apply (controller_invariant (Some 8) 3 USB_MODE_UID 0 off). by right; right; left.
Defined.

(** A configured device whose bus has fallen silent. *)
Definition silent : controller :=
  mk_controller (fun l => match l with
    | USBCON => bits_set [USBE; VBUSTE; OTGPADE] | UHWCON => bits_set [UIMOD; UVREGE] | PLLCSR => bits_set [PLLE; PLOCK]
    | UDIEN => bits_set [EORSTE; SUSPE] | UDINT => bits_set [SUSPI] | UDADDR => bits_set [ADDEN; 2]
    | USB_CurrentMode_ => USB_MODE_Device | USB_DeviceState => DEVICE_STATE_Configured | USB_Device_ConfigurationNumber => 1
    | _ => 0
    end) [].

Lemma silent_running : running silent.
Proof. split; [done..|]. left. by split. Qed.

Lemma suspend_resume_witness : running silent /\
  exists s1, USB_GEN_vect (Some 8) 3 silent = Some s1 /\
    store s1 USB_DeviceState = DEVICE_STATE_Suspended /\ bit_of USBCON FRZCLK s1 = true /\ store s1 PLLCSR = 0 /\
    USB_INT_IsEnabled INT_WAKEUPI s1 = true /\ USB_INT_IsEnabled INT_SUSPI s1 = false /\
  exists s2, (set_bit UDINT WAKEUPI ;> USB_GEN_vect (Some 8) 3) s1 = Some s2 /\
    USB_PLL_IsReady s2 = true /\ (forall l, l <> PLLCSR -> store s2 l = store silent l) /\
    events s2 = events silent ++ [Device_Suspend; Device_WakeUp].
Proof. split; [apply silent_running|]. apply (suspend_resume (Some 8) 3 silent); [apply silent_running|done..|by split|done]. Defined.
