(* ===== verification/HIDHost.v ===== *)
(** * The HID class driver, host side

    [LUFA/Drivers/USB/Class/Host/HIDClassHost.c]: finding the interface of a HID device
    in its configuration descriptor, the protocols - for the report protocol the report
    descriptor is fetched and parsed - and the reports.  Dereferencing an endpoint that
    was not found is a fault. *)
From S2P Require Import Prelude HIDParser HIDReport ConfigDescriptors USBIo Endpoint Pipe DeviceRequests HIDDevice NetBuffers RNDISDevice HostRequests.

Definition HID_ERROR_LOGICAL := 0x80.
Definition HID_ENUMERROR_NoError := 0.
Definition HID_ENUMERROR_InvalidConfigDescriptor := 1.
Definition HID_ENUMERROR_NoCompatibleInterfaceFound := 2.
Definition HID_CSCP_HIDClass := 0x03.
Definition HID_CSCP_NonBootProtocol := 0x00.

Record USB_ClassInfo_HID_Host_t := mk_hid_host {
    DataINPipe : USB_Pipe_Table_t;
    DataOUTPipe : USB_Pipe_Table_t;
    HIDInterfaceProtocol : Z;
    HIDParserData : option HID_ReportInfo_t;
    IsActive : bool;
    HIDInterfaceNumber : Z;
    SupportsBootProtocol : bool;
    DeviceUsesOUTPipe : bool;
    UsingBootProtocol : bool;
    HIDReportSize : Z;
    LargestReportSize : Z
  }.
Abbreviation info := USB_ClassInfo_HID_Host_t.

(** The pipes, and the part of the state the protocols and the parser change. *)
Definition set_pipes (inpipe outpipe : USB_Pipe_Table_t) (i : info) : info :=
  mk_hid_host inpipe outpipe (HIDInterfaceProtocol i) (HIDParserData i) (IsActive i) (HIDInterfaceNumber i)
    (SupportsBootProtocol i) (DeviceUsesOUTPipe i) (UsingBootProtocol i) (HIDReportSize i) (LargestReportSize i).
Definition set_boot (b : bool) (i : info) : info :=
  mk_hid_host (DataINPipe i) (DataOUTPipe i) (HIDInterfaceProtocol i) (HIDParserData i) (IsActive i) (HIDInterfaceNumber i)
    (SupportsBootProtocol i) (DeviceUsesOUTPipe i) b (HIDReportSize i) (LargestReportSize i).
Definition set_parsed (d : option HID_ReportInfo_t) (i : info) : info :=
  mk_hid_host (DataINPipe i) (DataOUTPipe i) (HIDInterfaceProtocol i) d (IsActive i) (HIDInterfaceNumber i)
    (SupportsBootProtocol i) (DeviceUsesOUTPipe i) (UsingBootProtocol i) (HIDReportSize i) (LargestReportSize i).
Definition set_largest (n : Z) (i : info) : info :=
  mk_hid_host (DataINPipe i) (DataOUTPipe i) (HIDInterfaceProtocol i) (HIDParserData i) (IsActive i) (HIDInterfaceNumber i)
    (SupportsBootProtocol i) (DeviceUsesOUTPipe i) (UsingBootProtocol i) (HIDReportSize i) n.

(** ** The interface *)

Section comparators.
Context (mem : list Z).

Definition DCOMP_HID_Host_NextHIDInterface (p : Z) : io Z :=
  type ← get (DESCRIPTOR_TYPE mem p);
  if type =? DTYPE_Interface then
    Class_ ← get (arr_get mem (p + 5));
    mret (if Class_ =? HID_CSCP_HIDClass then DESCRIPTOR_SEARCH_Found else DESCRIPTOR_SEARCH_NotFound)
  else mret DESCRIPTOR_SEARCH_NotFound.

Definition DCOMP_HID_Host_NextHIDDescriptor (p : Z) : io Z :=
  type ← get (DESCRIPTOR_TYPE mem p);
  mret (if type =? HID_DTYPE_HID then DESCRIPTOR_SEARCH_Found
        else if type =? DTYPE_Interface then DESCRIPTOR_SEARCH_Fail else DESCRIPTOR_SEARCH_NotFound).

Definition DCOMP_HID_Host_NextHIDInterfaceEndpoint (p : Z) : io Z :=
  type ← get (DESCRIPTOR_TYPE mem p);
  if type =? DTYPE_Endpoint then
    EndpointAddress ← get (arr_get mem (p + 2));
    bound ← Pipe_IsEndpointBound EndpointAddress;
    mret (if bound : bool then DESCRIPTOR_SEARCH_NotFound else DESCRIPTOR_SEARCH_Found)
  else mret (if type =? DTYPE_Interface then DESCRIPTOR_SEARCH_Fail else DESCRIPTOR_SEARCH_NotFound).

(** [do ... while]: the next HID interface, of the protocol asked for if there is one. *)
Fixpoint next_interface (n fuel : nat) (Protocol : Z) (c : cursor) : io (option cursor) :=
  match n with
  | O => loops
  | S n =>
      '(e, c) ← next_descriptor_comp mem fuel DCOMP_HID_Host_NextHIDInterface c;
      if negb (e =? DESCRIPTOR_SEARCH_COMP_Found) then mret None else
      if negb (truthy Protocol) then mret (Some c) else
      p ← get (arr_get mem (CurrConfigLoc c + 7));
      if negb (p =? Protocol) then next_interface n fuel Protocol c else mret (Some c)
  end.

(** The loop of [HID_Host_ConfigurePipes]: the locations of the endpoints that were
    found, of the interface and of its HID descriptor. *)
Fixpoint find_hid (n fuel : nat) (Protocol : Z) (c : cursor) (DataIN DataOUT HIDInterface HIDDescriptor : option Z)
    : io (option (option Z * option Z * option Z * option Z)) :=
  let done := mret (Some (DataIN, DataOUT, HIDInterface, HIDDescriptor)) in
  match n with
  | O => loops
  | S n =>
      if bool_decide (is_Some DataIN) && bool_decide (is_Some DataOUT) then done else
      '(found, c) ← match HIDInterface with
                    | Some _ =>
                        '(e, c) ← next_descriptor_comp mem fuel DCOMP_HID_Host_NextHIDInterfaceEndpoint c;
                        mret (e =? DESCRIPTOR_SEARCH_COMP_Found, c)
                    | None => mret (false, c)
                    end;
      if negb found then
        if bool_decide (is_Some DataIN) || bool_decide (is_Some DataOUT) then done else
        r ← next_interface fuel fuel Protocol c;
        match r with
        | None => mret None
        | Some c =>
            let HIDInterface := CurrConfigLoc c in
            '(e, c) ← next_descriptor_comp mem fuel DCOMP_HID_Host_NextHIDDescriptor c;
            if negb (e =? DESCRIPTOR_SEARCH_COMP_Found) then mret None
            else find_hid n fuel Protocol c None None (Some HIDInterface) (Some (CurrConfigLoc c))
        end
      else
        let p := CurrConfigLoc c in
        EndpointAddress ← get (arr_get mem (p + 2));
        if Z.land EndpointAddress ENDPOINT_DIR_IN =? ENDPOINT_DIR_IN
        then find_hid n fuel Protocol c (Some p) DataOUT HIDInterface HIDDescriptor
        else find_hid n fuel Protocol c DataIN (Some p) HIDInterface HIDDescriptor
  end.

Definition interrupt_pipe (e : USB_Pipe_Table_t) (Endpoint : option Z) : io USB_Pipe_Table_t :=
  p ← get Endpoint;
  Size ← get (get_u16 mem (p + 4));
  EndpointAddress ← get (arr_get mem (p + 2));
  mret (mk_pipe (pipe_Address e) Size EndpointAddress EP_TYPE_INTERRUPT (pipe_Banks e)).

(** A pipe that cannot be configured makes the function return [false], which is 0. *)
Definition HID_Host_ConfigurePipes (fuel : nat) (i : info) (ConfigDescriptorSize : Z) : io (Z * info) :=
  let i := mk_hid_host (DataINPipe i) (DataOUTPipe i) (HIDInterfaceProtocol i) (HIDParserData i) false 0 false false false 0 0 in
  type ← get (DESCRIPTOR_TYPE mem 0);
  if negb (type =? DTYPE_Configuration) then mret (HID_ENUMERROR_InvalidConfigDescriptor, i) else
  found ← find_hid fuel fuel (HIDInterfaceProtocol i) (mk_cursor ConfigDescriptorSize 0) None None None None;
  match found with
  | None => mret (HID_ENUMERROR_NoCompatibleInterfaceFound, i)
  | Some (DataINEndpoint, DataOUTEndpoint, HIDInterface, HIDDescriptor) =>
      inpipe ← interrupt_pipe (DataINPipe i) DataINEndpoint;
      outpipe ← interrupt_pipe (DataOUTPipe i) DataOUTEndpoint;
      let i := set_pipes inpipe outpipe i in
      ok ← Pipe_ConfigurePipeTable [DataINPipe i];
      if negb ok then mret (bool_Z false, i) else
      ok ← Pipe_ConfigurePipeTable [DataOUTPipe i];
      if negb ok then mret (bool_Z false, i) else
      f ← get HIDInterface;
      d ← get HIDDescriptor;
      n ← get (arr_get mem (f + 2));
      size ← get (get_u16 mem (d + 7));
      sub ← get (arr_get mem (f + 6));
      mret (HID_ENUMERROR_NoError,
            mk_hid_host inpipe outpipe (HIDInterfaceProtocol i) (HIDParserData i) true n
              (negb (sub =? HID_CSCP_NonBootProtocol)) false false size 8)
  end.
End comparators.

(** ** Reports and protocols *)

Section driver.
Context (fuel : nat) (hs : host).

Definition set_report (i : info) (ReportType ReportID ReportSize : Z) : USB_Request_Header_t :=
  mk_request class_to_device HID_REQ_SetReport (Z.lor (Z.shiftl (ReportType + 1) 8) ReportID) (HIDInterfaceNumber i) ReportSize.

(** The request is the one that sends a report. *)
Definition HID_Host_ReceiveReportByID (i : info) (ReportID : Z) (Buffer : list Z) : io (Z * list Z) :=
  d ← get (HIDParserData i);
  n ← get (USB_GetHIDReportSize d ReportID HID_REPORT_ITEM_In);
  request_in fuel hs (set_report i HID_REPORT_ITEM_In ReportID n) Buffer.

(** The identifier of the report, when reports have one, is the first byte of the buffer. *)
Definition HID_Host_ReceiveReport (i : info) (Buffer : list Z) : io (Z * list Z) :=
  s ← USB_HostState;
  if negb (s =? HOST_STATE_Configured) || negb (IsActive i) then mret (PIPE_READYWAIT_DeviceDisconnected, Buffer) else
  Pipe_SelectPipe (pipe_Address (DataINPipe i));;
  Pipe_Unfreeze;;
  '(BufferPos, Buffer, ReportSize) ←
    (if negb (UsingBootProtocol i) then
       d ← get (HIDParserData i);
       '(ReportID, BufferPos, Buffer) ←
         (if UsingReportIDs d then
            b ← Pipe_Read_8; Buffer ← get (arr_set Buffer 0 b); mret (b, 1%nat, Buffer)
          else mret (0, 0%nat, Buffer));
       n ← get (USB_GetHIDReportSize d ReportID HID_REPORT_ITEM_In);
       mret (BufferPos, Buffer, n)
     else n ← Pipe_BytesInPipe; mret (0%nat, Buffer, n));
  '(ErrorCode, data, _) ← Pipe_Read_Stream_LE fuel (drop BufferPos Buffer) ReportSize None;
  let Buffer := take BufferPos Buffer ++ data in
  if negb (ErrorCode =? PIPE_RWSTREAM_NoError) then mret (ErrorCode, Buffer) else
  Pipe_ClearIN;;
  Pipe_Freeze;;
  mret (PIPE_RWSTREAM_NoError, Buffer).

(** [return false] is code 0 here, too. *)
Definition HID_Host_SendReportByID (i : info) (ReportID ReportType : Z) (Buffer : list Z) (ReportSize : Z) : io Z :=
  s ← USB_HostState;
  if negb (s =? HOST_STATE_Configured) || negb (IsActive i) then mret (bool_Z false) else
  if DeviceUsesOUTPipe i && (ReportType =? HID_REPORT_ITEM_Out) then
    Pipe_SelectPipe (pipe_Address (DataOUTPipe i));;
    Pipe_Unfreeze;;
    (if truthy ReportID then _ ← Pipe_Write_Stream_LE fuel [ReportID] 1 None; mret tt else mret tt);;
    '(ErrorCode, _, _) ← Pipe_Write_Stream_LE fuel Buffer ReportSize None;
    if negb (ErrorCode =? PIPE_RWSTREAM_NoError) then mret ErrorCode else
    Pipe_ClearOUT;;
    Pipe_Freeze;;
    mret PIPE_RWSTREAM_NoError
  else
    '(e, _) ← request_in fuel hs (set_report i ReportType ReportID ReportSize) Buffer;
    mret e.

Definition HID_Host_IsReportReceived (i : info) : io bool :=
  s ← USB_HostState;
  if negb (s =? HOST_STATE_Configured) || negb (IsActive i) then mret false else
  Pipe_SelectPipe (pipe_Address (DataINPipe i));;
  Pipe_Unfreeze;;
  ReportReceived ← Pipe_IsINReceived;
  Pipe_Freeze;;
  mret ReportReceived.

Definition set_protocol (i : info) (Protocol : Z) : USB_Request_Header_t :=
  mk_request class_to_device HID_REQ_SetProtocol Protocol (HIDInterfaceNumber i) 0.

Definition HID_Host_SetBootProtocol (i : info) : io (Z * info) :=
  if negb (SupportsBootProtocol i) then mret (HID_ERROR_LOGICAL, i) else
  ErrorCode ← request_none fuel hs (set_protocol i 0);
  if negb (ErrorCode =? HOST_SENDCONTROL_Successful) then mret (ErrorCode, i) else
  mret (HOST_SENDCONTROL_Successful, set_boot true (set_largest 8 i)).

Definition HID_Host_SetIdlePeriod (i : info) (MS : Z) : io Z :=
  request_none fuel hs (mk_request class_to_device HID_REQ_SetIdle (Z.land (Z.shiftl MS 6) 0xFF00) (HIDInterfaceNumber i) 0).

(** [HIDReportData] is an array of the function; [indeterminate] is what it holds. *)
Context `{!HIDParserEnv} (indeterminate : nat -> list Z).

Definition get_report_descriptor (i : info) : USB_Request_Header_t :=
  mk_request (to_host REQREC_INTERFACE) REQ_GetDescriptor (Z.shiftl HID_DTYPE_Report 8) (HIDInterfaceNumber i) (HIDReportSize i).

(** What is made of the descriptor. *)
Definition parse_reports (i : info) (HIDReportData : list Z) : io (Z * info) :=
  match HIDParserData i with
  | None => mret (HID_ERROR_LOGICAL, i)
  | Some _ =>
      '(ErrorCode, d) ← get (USB_ProcessHIDReport HIDReportData (HIDReportSize i));
      let i := set_parsed (Some d) i in
      if negb (ErrorCode =? HID_PARSE_Successful) then mret (Z.lor HID_ERROR_LOGICAL ErrorCode, i) else
      let LargestReportSizeBits := LargestReportSizeBits d in
      mret (0, set_largest (u8 (Z.shiftr LargestReportSizeBits 3 + bool_Z (truthy (Z.land LargestReportSizeBits 7)))) i)
  end.

Definition HID_Host_SetReportProtocol (i : info) : io (Z * info) :=
  '(ErrorCode, HIDReportData) ← request_in fuel hs (get_report_descriptor i) (indeterminate (Z.to_nat (HIDReportSize i)));
  if negb (ErrorCode =? HOST_SENDCONTROL_Successful) then mret (ErrorCode, i) else
  '(ErrorCode, i) ←
    (if UsingBootProtocol i then
       '(e, _) ← USB_Host_SendControlRequest fuel (USB_Host_ControlPipeSize hs) (set_protocol i 1) None;
       mret (e, if e =? HOST_SENDCONTROL_Successful then set_boot false i else i)
     else mret (HOST_SENDCONTROL_Successful, i));
  if negb (ErrorCode =? HOST_SENDCONTROL_Successful) then mret (ErrorCode, i) else
  parse_reports i HIDReportData.
End driver.
