(* ===== verification/MouseDemo.v ===== *)
(** * A mouse and a host for it

    [Demos/Device/ClassDriver/Mouse/Mouse.c], an application of the HID device driver
    with the joystick and the button of the USBKEY board
    ([LUFA/Drivers/Board/AVR8/USBKEY]), and
    [Demos/Host/ClassDriver/MouseHostWithParser/MouseHostWithParser.c], which shows what
    a mouse does on its LEDs.  The set-up, the LED events and the descriptors other than
    the report descriptor are left out. *)
From S2P Require Import Prelude HIDParser HIDItems HIDReport ConfigDescriptors USBIo Endpoint Pipe DeviceRequests HIDDevice NetBuffers RNDISDevice HostRequests HIDHost.

(** ** The board *)

Definition JOY_BMASK := Z.lor (Z.lor (Z.shiftl 1 5) (Z.shiftl 1 6)) (Z.shiftl 1 7).
Definition JOY_EMASK := Z.lor (Z.shiftl 1 4) (Z.shiftl 1 5).
Definition JOY_PORTE_MASK_SHIFT := 1.
Definition JOY_LEFT := Z.shiftl 1 6.
Definition JOY_RIGHT := Z.shiftr (Z.shiftl 1 4) JOY_PORTE_MASK_SHIFT.
Definition JOY_UP := Z.shiftl 1 7.
Definition JOY_DOWN := Z.shiftr (Z.shiftl 1 5) JOY_PORTE_MASK_SHIFT.
Definition JOY_PRESS := Z.shiftl 1 5.
Definition BUTTONS_BUTTON1 := Z.shiftl 1 2.
Definition LEDS_LED1 := Z.shiftl 1 4.
Definition LEDS_LED2 := Z.shiftl 1 5.
Definition LEDS_LED3 := Z.shiftl 1 7.
Definition LEDS_LED4 := Z.shiftl 1 6.
Definition LEDS_ALL_LEDS := Z.lor (Z.lor (Z.lor LEDS_LED1 LEDS_LED2) LEDS_LED3) LEDS_LED4.
Definition LEDS_NO_LEDS := 0.

(** The contacts pull the pins down. *)
Definition joystick_status (b e : Z) : Z :=
  Z.lor (Z.land (255 - b) JOY_BMASK) (Z.shiftr (Z.land (255 - e) JOY_EMASK) JOY_PORTE_MASK_SHIFT).
Definition button_status (e : Z) : Z := Z.lxor (Z.land e BUTTONS_BUTTON1) BUTTONS_BUTTON1.

Definition Joystick_GetStatus : io Z :=
  b ← ask_u8 (q_Register PINB);
  e ← ask_u8 (q_Register PINE);
  mret (joystick_status b e).
Definition Buttons_GetStatus : io Z :=
  e ← ask_u8 (q_Register PINE); mret (button_status e).

(** ** The mouse *)

Definition pressed (status mask : Z) : bool := truthy (Z.land status mask).

(** [USB_MouseReport_Data_t] is the button byte and the signed bytes X and Y. *)
Definition fill_report (JoyStatus ButtonStatus : Z) (ReportData : list Z) : option (list Z) :=
  ReportData ← (if pressed JoyStatus JOY_UP then arr_set ReportData 2 (u8 (-1))
                else if pressed JoyStatus JOY_DOWN then arr_set ReportData 2 1 else Some ReportData);
  ReportData ← (if pressed JoyStatus JOY_LEFT then arr_set ReportData 1 (u8 (-1))
                else if pressed JoyStatus JOY_RIGHT then arr_set ReportData 1 1 else Some ReportData);
  ReportData ← (if pressed JoyStatus JOY_PRESS
                then b ← arr_get ReportData 0; arr_set ReportData 0 (u8 (Z.lor b (Z.shiftl 1 0))) else Some ReportData);
  if pressed ButtonStatus BUTTONS_BUTTON1
  then b ← arr_get ReportData 0; arr_set ReportData 0 (u8 (Z.lor b (Z.shiftl 1 1))) else Some ReportData.

Definition sizeof_USB_MouseReport_Data_t := 3.

(** The report is always sent. *)
Definition mouse_CreateHIDReport (ReportID : Z) (ReportData : list Z) : io (bool * Z * list Z * Z * unit) :=
  JoyStatus_LCL ← Joystick_GetStatus;
  ButtonStatus_LCL ← Buttons_GetStatus;
  ReportData ← get (fill_report JoyStatus_LCL ButtonStatus_LCL ReportData);
  mret (true, ReportID, ReportData, sizeof_USB_MouseReport_Data_t, tt).

#[export] Instance mouse : HIDApplication unit := {
    CALLBACK_HID_Device_CreateHIDReport _ _ ReportID _ ReportData _ := mouse_CreateHIDReport ReportID ReportData;
    CALLBACK_HID_Device_ProcessHIDReport _ a _ _ _ _ := mret a
  }.

Definition MOUSE_EPADDR := 0x81.
Definition MOUSE_EPSIZE := 8.
Definition Mouse_HID_Interface : USB_ClassInfo_HID_Device_t :=
  mk_hid 0 (mk_endpoint MOUSE_EPADDR MOUSE_EPSIZE 0 1) (Some (replicate 3 0)) 3 false 0 0 0.

(** [Descriptors.c]: the report descriptor. *)
Definition MouseReport : list item := HID_DESCRIPTOR_MOUSE (-1) 1 (-1) 1 3 false.

(** The configuration: one interface, whose only endpoint sends the reports. *)
Definition mouse_ConfigurationDescriptor : list Z :=
  [9; DTYPE_Configuration; 34; 0; 1; 1; 0; 0xC0; 50] ++
  [9; DTYPE_Interface; 0; 0; 1; HID_CSCP_HIDClass; 0x01; 0x02; 0] ++
  [9; HID_DTYPE_HID; 0x11; 0x01; 0; 1; HID_DTYPE_Report; Z.of_nat (length (encode_items MouseReport)); 0] ++
  [7; DTYPE_Endpoint; MOUSE_EPADDR; 0x03; MOUSE_EPSIZE; 0; 5].

(** ** The host *)

Definition USAGE_PAGE_BUTTON := 0x09.
Definition USAGE_PAGE_GENERIC_DCTRL := 0x01.
Definition USAGE_MOUSE := 0x02.
Definition USAGE_SCROLL_WHEEL := 0x38.
Definition USAGE_X := 0x30.
Definition USAGE_Y := 0x31.

(** [for (CurrPath = CollectionPath; CurrPath != NULL; CurrPath = CurrPath->Parent)]; a path
    is at most as long as the array. *)
Fixpoint in_mouse (n : nat) (paths : list HID_CollectionPath_t) (CurrPath : option nat) : bool :=
  match n, CurrPath with
  | S n, Some k =>
      match paths !! k with
      | Some p =>
          ((Usage_Page (Path_Usage p) =? USAGE_PAGE_GENERIC_DCTRL) && (Usage_Usage (Path_Usage p) =? USAGE_MOUSE)) ||
          in_mouse n paths (Path_Parent p)
      | None => false
      end
  | _, _ => false
  end.

Definition mouse_FilterHIDReportItem (paths : list HID_CollectionPath_t) (CurrentItem : HID_ReportItem_t) : bool :=
  let page := Usage_Page (Attr_Usage (Attributes CurrentItem)) in
  in_mouse (length paths) paths (CollectionPath CurrentItem) &&
  ((page =? USAGE_PAGE_BUTTON) || (page =? USAGE_PAGE_GENERIC_DCTRL)).

(** [HID_ALIGN_DATA(ReportItem, int16_t)] *)
Definition HID_ALIGN_DATA_16 (it : HID_ReportItem_t) : Z := i16 (u32 (Z.shiftl (Value it) (16 - BitSize (Attributes it)))).

(** The LEDs after one item. *)
Definition show_item (it : HID_ReportItem_t) (LEDMask : Z) : Z :=
  let Usage := Attr_Usage (Attributes it) in
  let In := ItemType it =? HID_REPORT_ITEM_In in
  let desktop := (Usage_Page Usage =? USAGE_PAGE_GENERIC_DCTRL) in
  if (Usage_Page Usage =? USAGE_PAGE_BUTTON) && In then
    if truthy (Value it) then LEDS_ALL_LEDS else LEDMask
  else if desktop && (Usage_Usage Usage =? USAGE_SCROLL_WHEEL) && In then
    let WheelDelta := HID_ALIGN_DATA_16 it in
    if truthy WheelDelta then Z.lor (Z.lor LEDS_LED1 LEDS_LED2) (if 0 <? WheelDelta then LEDS_LED3 else LEDS_LED4) else LEDMask
  else if desktop && ((Usage_Usage Usage =? USAGE_X) || (Usage_Usage Usage =? USAGE_Y)) && In then
    let DeltaMovement := HID_ALIGN_DATA_16 it in
    if truthy DeltaMovement then
      Z.lor LEDMask (if Usage_Usage Usage =? USAGE_X then if 0 <? DeltaMovement then LEDS_LED1 else LEDS_LED2
                     else if 0 <? DeltaMovement then LEDS_LED3 else LEDS_LED4)
    else LEDMask
  else LEDMask.

(** The loop over the items, which updates their values. *)
Fixpoint show_items (n : nat) (k : Z) (items : list HID_ReportItem_t) (Report : list Z) (LEDMask : Z) : option (list HID_ReportItem_t * Z) :=
  match n with
  | O => Some (items, LEDMask)
  | S n =>
      it ← arr_get items k;
      '(found, it) ← USB_GetHIDReportItemInfo Report (Some it);
      it ← it;
      items ← arr_set items k it;
      show_items n (k + 1) items Report (if found : bool then show_item it LEDMask else LEDMask)
  end.

Definition set_items (items : list HID_ReportItem_t) (d : HID_ReportInfo_t) : HID_ReportInfo_t :=
  {| TotalReportItems := TotalReportItems d; ReportItems := items; CollectionPaths := CollectionPaths d;
     TotalDeviceReports := TotalDeviceReports d; ReportIDSizes := ReportIDSizes d;
     LargestReportSizeBits := LargestReportSizeBits d; UsingReportIDs := UsingReportIDs d |}.

(** [HIDReportInfo] is the parser data of the interface; [indeterminate], what the report
    buffer of the function holds. *)
Definition MouseHost_Task (fuel : nat) (indeterminate : nat -> list Z) (i : USB_ClassInfo_HID_Host_t) : io USB_ClassInfo_HID_Host_t :=
  s ← USB_HostState;
  if negb (s =? HOST_STATE_Configured) then mret i else
  received ← HID_Host_IsReportReceived i;
  if negb received then mret i else
  '(_, Report) ← HID_Host_ReceiveReport fuel i (indeterminate (Z.to_nat (LargestReportSize i)));
  d ← get (HIDParserData i);
  '(items, LEDMask) ← get (show_items (Z.to_nat (TotalReportItems d)) 0 (ReportItems d) Report LEDS_NO_LEDS);
  LEDs_SetAllLEDs LEDMask;;
  mret (set_parsed (Some (set_items items d)) i).
