(* ===== verification/HIDHostSpec.v ===== *)
(** * Correctness of the HID host driver

    A control request that reads returns, and is complete when it succeeds.  The report
    protocol: what the host keeps is the parse of what the device sent. *)
From S2P Require Import Prelude HIDParser HIDReport ConfigDescriptors USBIo Endpoint EndpointSpec Quiet Pipe DeviceRequests HIDDevice NetBuffers NetLemmas RNDISDevice HostRequests HostRequestsSpec PipeSpec HIDHost.

Lemma wp_and {A} h (m : io A) t P Q : wp false h m t P -> wp false h m t Q -> wp false h m t (fun a s => P a s /\ Q a s).
Proof.
  unfold wp. destruct (m h t) as [[a t']| |]; [|done..]. intros (s & -> & ? & ?) (s' & <-%app_inv_head & _ & ?). eauto.
Qed.

Lemma calm_reads_nothing s : Forall calm s -> hreceived s = [].
Proof. intros H. apply (wire_calm s H []). Qed.

(** ** Reads that are complete

    A packet that has arrived is not empty. *)
Definition full_packets (h : hw) : Prop :=
  forall t a, truthy a = true -> u16 (h (t ++ [Ask (q_Host p_IsINReceived) a]) (q_Host p_BytesInPipe)) <> 0.

Section reads.
Context (h : hw) (Hfull : full_packets h) (fuel : nat).

(** A wait that succeeds has just seen the packet. *)
Lemma wait_in_saw n r t : wp false h (wait_for_ios fuel n USB_HOST_WAITFOR_InReceived r) t (fun code s =>
  code = HOST_SENDCONTROL_Successful -> exists s0 a, s = s0 ++ [Ask (q_Host p_IsINReceived) a] /\ truthy a = true).
Proof.
  revert r t. induction n as [|n IH]; intros r t; [done|]. cbn [wait_for_ios wait_condition]. do 3 wp_step.
  wp_step; [wp_step; intros _; by exists [], a|]. wp_step. eapply wp_mono; [apply wait_ms_safe|]. intros c s1 _. cbn beta.
  wp_step; [wp_step; intros ->; done|]. wp_step; [by wp_step|]. eapply wp_mono; [apply IH|].
  intros code s Hs E. destruct (Hs E) as (s0 & b & -> & Hb). exists ([Ask (q_Host p_IsINReceived) a] ++ s1 ++ s0), b.
  by rewrite <- !app_assoc.
Qed.

Lemma packets_complete n : forall buf i len t, 0 <= i -> 0 <= len < 65536 -> i + len <= Z.of_nat (length buf) ->
  wp false h (in_packets fuel n buf i len) t (fun '(code, _) s =>
    code = HOST_SENDCONTROL_Successful -> Z.of_nat (length (hreceived s)) = len).
Proof.
  induction n as [|n IH]; intros buf i len t Hi Hl Hb; [done|]. cbn [in_packets].
  wp_step; [wp_step; bprop; subst; done|]. do 4 wp_step.
  eapply wp_mono; [apply wp_and; [apply wait_ios_calm|apply wait_in_saw]|]. intros c s1 [H1 Hsaw]. cbn beta.
  wp_step; [wp_step; intros ->; done|]. bprop. destruct (Hsaw H0) as (s0 & a & -> & Ha).
  do 3 wp_step. cbv zeta. rewrite <- app_assoc in H2.
  assert (truthy (u16 a0) = true) as Ha0.
  { unfold truthy. rewrite (proj2 (Z.eqb_neq _ _)); [done|]. subst a0. rewrite !app_assoc. by apply Hfull. }
  rewrite Ha0. cbn [negb].
  eapply wp_mono; [apply (read_packet_wire h fuel buf i len []); lia|].
  intros [[buf1 i1] len1] s2 (l1 & (_ & _ & W1) & S1 & -> & -> & Hpos). cbn beta iota. do 4 wp_step.
  pose proof (stored_length buf i l1 buf1 Hi ltac:(lia) S1) as L1.
  eapply wp_mono; [apply IH; lia|]. intros [code buf'] s3 Hs3 E. specialize (Hs3 E). rewrite !hreceived_app, !length_app, W1.
  apply Forall_app in H1 as [H1 _]. rewrite (calm_reads_nothing _ H1). cbn. lia.
Qed.

Lemma control_in_complete r buf t : 0 <= wLength r < 65536 -> wLength r <= Z.of_nat (length buf) ->
  wp false h (control_in fuel r (Some buf)) t (fun '(code, _) s =>
    code = HOST_SENDCONTROL_Successful -> Z.of_nat (length (hreceived s)) = wLength r).
Proof.
  intros Hw Hb. unfold control_in, Pipe_SetPipeToken. do 6 wp_step.
  apply (wp_mono _ _ _ _ (fun '(code, _) s => code = HOST_SENDCONTROL_Successful -> Z.of_nat (length (hreceived s)) = wLength r)).
  { wp_step. eapply wp_mono; [apply packets_complete; lia|]. intros [c b'] s Hs. wp_step. by rewrite app_nil_r. }
  intros [c buf'] s1 Hs1. cbv beta iota. wp_step; [wp_step; intros ->; done|]. bprop.
  repeat wp_step. eapply wp_mono; [apply wait_ios_calm|]. intros c2 s2 H2. cbn beta in *.
  wp_step; [wp_step; intros ->; done|].
  repeat wp_step. eapply wp_mono; [apply wait_ios_calm|]. intros c3 s3 Hs3. cbn beta in *.
  wp_step. intros _. rewrite !hreceived_app, (calm_reads_nothing s2), (calm_reads_nothing s3) by done. cbn. rewrite !app_nil_r. by apply Hs1.
Qed.

Lemma request_complete size r buf t : 0 <= wLength r < 65536 -> wLength r <= Z.of_nat (length buf) ->
  truthy (Z.land (bmRequestType r) REQDIR_DEVICETOHOST) = true ->
  wp false h (USB_Host_SendControlRequest fuel size r (Some buf)) t (fun '(code, _) s =>
    code = HOST_SENDCONTROL_Successful -> Z.of_nat (length (hreceived s)) = wLength r).
Proof.
  intros Hw Hb Hd. unfold USB_Host_SendControlRequest. do 4 wp_step.
  apply (wp_mono _ _ _ _ (fun '(code, _) s => code = HOST_SENDCONTROL_Successful -> Z.of_nat (length (hreceived s)) = wLength r)).
  - unfold USB_Host_SendControlRequest_PRV. wp_step. eapply wp_mono; [apply send_setup_wire|]. intros c s1 (ts & (_ & _ & W) & _). cbn beta.
    wp_step; [wp_step; intros ->; done|]. rewrite Hd. cbv match. eapply wp_mono; [by apply control_in_complete|].
    intros [code b] s Hs E. rewrite hreceived_app, W. by apply Hs.
  - intros [c b] s Hs. cbv beta iota. repeat wp_step; intros E; rewrite !hreceived_app; cbn; rewrite !app_nil_r; by apply Hs.
Qed.
End reads.

(** ** Requests that return

    Frames go on, a packet that has arrived is not empty and stays until it is released.
    Then a request ends after at most 1001 frames for each of its packets, with
    success or with the error that was found. *)
Record responsive (h : hw) : Prop := {
    rs_frames : forall t, h t (q_Host (p_HasOccurred USB_INT_HSOFI)) <> 0;
    rs_full : full_packets h;
    rs_stays : forall t a, h t (q_Host p_BytesInPipe) = a -> u16 (h (t ++ [Ask (q_Host p_BytesInPipe) a]) (q_Host p_BytesInPipe)) = u16 a
  }.

Section returns.
Context (h : hw) (Hh : responsive h) (fuel : nat).

Lemma frame_returns t : (2 <= fuel)%nat -> wp true h (USB_Host_WaitMS fuel 1) t (fun _ _ => True).
Proof.
  intros Hf. unfold USB_Host_WaitMS. repeat wp_step.
  eapply (wp_mono _ _ _ _ (fun _ _ => True)); [|intros; repeat wp_step; done].
  destruct fuel as [|[|n]]; [lia|lia|]. cbn [wait_ms_loop]. change (negb (truthy 1)) with false. change (negb (truthy (u8 (1 - 1)))) with true. cbv match.
  do 4 wp_step. apply wp_if; intros Hs; [|exfalso; apply truthy_eq in Hs; subst; by eapply (rs_frames _ Hh)].
  repeat wp_step; done.
Qed.

Lemma wait_returns w t : (1002 <= fuel)%nat -> wp true h (USB_Host_WaitForIOS fuel w) t (fun _ _ => True).
Proof.
  intros Hf. unfold USB_Host_WaitForIOS, USB_HOST_TIMEOUT_MS.
  assert (forall n r t, 0 <= r < 65536 -> (Z.to_nat r < n)%nat -> wp true h (wait_for_ios fuel n w r) t (fun _ _ => True)) as G; [|apply G; lia].
  induction n as [|n IH]; intros r t' Hr Hn; [lia|]. cbn [wait_for_ios].
  wp_step. eapply (wp_mono _ _ _ _ (fun _ _ => True)); [destruct w; cbn [wait_condition]; repeat wp_step; done|]. intros ready s1 _. cbn beta.
  wp_step; [by wp_step|]. wp_step. eapply wp_mono; [apply frame_returns; lia|]. intros c s2 _. cbn beta.
  wp_step; [by wp_step|]. wp_step; [by wp_step|].
  match goal with Hr : negb (truthy r) = false |- _ => apply truthy_true in Hr end. rewrite u16_small by lia. apply IH; lia.
Qed.

Lemma packet_returns n : forall buf i len t, (Z.to_nat len < n)%nat -> 0 <= i -> 0 <= len < 65536 -> i + len <= Z.of_nat (length buf) ->
  wp true h (in_packet n buf i len) t (fun '(buf', i', len') _ =>
    length buf' = length buf /\ i' + len' = i + len /\ i <= i' /\ 0 <= len' /\
    (u16 (h t (q_Host p_BytesInPipe)) <> 0 -> 0 < len -> i < i')).
Proof.
  induction n as [|n IH]; intros buf i len t Hn Hi Hl Hb; [lia|]. cbn [in_packet]. do 3 wp_step. apply wp_if; intros Hgo.
  - apply andb_prop in Hgo as [_ Hz%truthy_neq]. do 2 wp_step. destruct (arr_set_is_Some buf i (u8 a0)) as [buf1 Hs]; [lia|].
    wp_step. wp_step; [exact Hs|]. pose proof (arr_set_length _ _ _ _ Hs) as Ls. rewrite u16_small by lia.
    eapply wp_mono; [apply (IH buf1 (i + 1) (len - 1)); lia|]. intros [[buf' i'] len'] s (? & ? & ? & ? & _). cbn beta iota. lia.
  - wp_step. do 4 (split; [lia|]). intros H1 H2. subst a. unfold truthy in Hgo.
    rewrite (proj2 (Z.eqb_neq _ _) H1), (proj2 (Z.eqb_neq len 0)) in Hgo by lia. done.
Qed.

Lemma packets_return n : forall buf i len t, (Z.to_nat len < n)%nat -> (1002 <= fuel)%nat -> (Z.to_nat len < fuel)%nat ->
  0 <= i -> 0 <= len < 65536 -> i + len <= Z.of_nat (length buf) -> wp true h (in_packets fuel n buf i len) t (fun _ _ => True).
Proof.
  induction n as [|n IH]; intros buf i len t Hn Hf Hfl Hi Hl Hb; [lia|]. cbn [in_packets].
  apply wp_if; intros Hz; [by wp_step|]. apply truthy_true in Hz. do 4 wp_step. eapply wp_mono; [by apply wait_returns|]. intros c s1 _. cbn beta.
  wp_step; [by wp_step|]. do 3 wp_step. cbv zeta.
  assert (0 <= (if negb (truthy (u16 a)) then 0 else len) <= len) by (case_match; lia).
  eapply wp_mono; [apply packet_returns; lia|]. intros [[buf' i'] len'] s2 (L & E & Hi' & Hl' & Hp). cbn beta iota. do 4 wp_step.
  assert (len' < len).
  { destruct (truthy (u16 a)) eqn:Ea; cbn [negb] in *; [|lia]. apply truthy_neq in Ea. rewrite (rs_stays _ Hh) in Hp by done. lia. }
  apply IH; lia.
Qed.

Lemma header_returns l t : wp true h (write_header l) t (fun _ _ => True).
Proof. revert t. induction l as [|b l IH]; intros t; cbn [write_header]; repeat wp_step; [done|]. apply IH. Qed.

Lemma setup_returns r t : (1002 <= fuel)%nat -> wp true h (send_setup fuel r) t (fun _ _ => True).
Proof.
  intros Hf. unfold send_setup, Pipe_SetPipeToken. repeat wp_step. eapply wp_mono; [apply frame_returns; lia|]. intros c s1 _. cbn beta.
  repeat wp_step; [done|]. eapply wp_mono; [apply header_returns|]. intros ? s2 _. cbn beta.
  repeat wp_step. eapply wp_mono; [by apply wait_returns|]. intros c' s3 _. cbn beta.
  repeat wp_step; [done|]. eapply wp_mono; [apply frame_returns; lia|done].
Qed.

(** A read, or a request without data, returns. *)
Lemma request_returns size r buf t : (1002 <= fuel)%nat -> (Z.to_nat (wLength r) < fuel)%nat -> 0 <= wLength r < 65536 ->
  match buf with Some b => wLength r <= Z.of_nat (length b) /\ truthy (Z.land (bmRequestType r) REQDIR_DEVICETOHOST) = true | None => True end ->
  wp true h (USB_Host_SendControlRequest fuel size r buf) t (fun _ _ => True).
Proof.
  intros Hf Hfw Hw Hb. unfold USB_Host_SendControlRequest, USB_Host_SendControlRequest_PRV. do 5 wp_step.
  eapply wp_mono; [by apply setup_returns|]. intros c s1 _. cbn beta. wp_step; [repeat wp_step; done|].
  apply (wp_mono _ _ _ _ (fun _ _ => True)); [|intros [c' b'] ? _; repeat wp_step; done].
  wp_step.
  - unfold control_in, Pipe_SetPipeToken. do 6 wp_step. apply (wp_mono _ _ _ _ (fun _ _ => True)).
    { destruct buf as [b|]; [|by wp_step]. wp_step. eapply wp_mono; [apply packets_return; lia|]. intros [c' b'] ? _. by wp_step. }
    intros [c' b'] s2 _. repeat wp_step; [done|]. eapply wp_mono; [by apply wait_returns|]. intros ? ? _. cbn beta.
    repeat wp_step; [done|]. eapply wp_mono; [by apply wait_returns|]. intros ? ? _. by wp_step.
  - destruct buf as [b|]; [by destruct Hb as [_ Hb]; rewrite Hb in *|]. unfold control_out, Pipe_SetPipeToken. repeat wp_step; [done|].
    eapply wp_mono; [by apply wait_returns|]. intros ? ? _. cbn beta. repeat wp_step; done.
Qed.

End returns.

(** ** The report protocol *)

Section report_protocol.
Context `{Env : HIDParserEnv} (h : hw) (fuel : nat) (hs : host) (indeterminate : nat -> list Z).
Context (Hind : forall n, length (indeterminate n) = n /\ Forall is_byte (indeterminate n)).

(** The descriptor the host asked for, when the request succeeds. *)
Lemma descriptor_received i t D : full_packets h -> pipe_delivers h t D -> Forall is_byte D -> Z.of_nat (length D) = HIDReportSize i ->
  HIDReportSize i < 65536 -> Forall is_byte (request_bytes (get_report_descriptor i)) ->
  wp false h (request_in fuel hs (get_report_descriptor i) (indeterminate (Z.to_nat (HIDReportSize i)))) t (fun '(code, data) s =>
    code = HOST_SENDCONTROL_Successful -> data = D /\
      exists k, wire [] s (T_setup (request_bytes (get_report_descriptor i)) :: replicate k T_in ++ [T_out []]) [] D).
Proof.
  intros Hfull Hd HD HL Hs Hr. set (r := get_report_descriptor i) in *. set (buf := indeterminate (Z.to_nat (HIDReportSize i))).
  assert (length buf = length D) as Lb by (unfold buf; rewrite (proj1 (Hind _)); lia).
  assert (wLength r = Z.of_nat (length D)) as Ew by done.
  unfold request_in. do 4 wp_step.
  eapply wp_mono; [apply wp_valid, wp_and; [apply control_request_wire; [lia|]|apply (request_complete h Hfull); [lia|lia|done]]|].
  { intros b [= <-]. split; [apply Hind|lia]. }
  intros [code b'] s [[(l & ts & W & Hl & (b2 & -> & Hst) & Hts) Hfullread] Hv]. cbv beta iota. wp_step. intros E.
  specialize (Hfullread E). specialize (Hts E). destruct W as (W1 & W2 & W3).
  assert (l = D) as ->.
  { assert (pipe_delivers h (t ++ [Cmd (c_Host (k_SelectPipe (Z.land PIPE_CONTROLPIPE PIPE_PIPENUM_MASK)))]) D) as Hd'.
    { intros s'. rewrite <- app_assoc, Hd. done. }
    pose proof (pipe_delivered _ _ _ _ Hv Hd' HD ltac:(lia)) as G. rewrite W3 in *. rewrite G. apply take_ge. lia. }
  unfold stored in Hst. cbn in Hst. rewrite drop_ge, app_nil_r in Hst by lia. subst b2. split; [done|].
  unfold request_transactions in Hts. change (truthy (Z.land (bmRequestType r) REQDIR_DEVICETOHOST)) with true in Hts. cbv match in Hts.
  destruct Hts as [k ->]. rewrite (setup_bytes_eq _ Hr) in W1. exists k. rewrite app_nil_r. apply wire_skip; [by calms|]. by split_and!.
Qed.

Lemma descriptor_arrives i t D : responsive h -> (1002 <= fuel)%nat -> (length D < fuel)%nat -> pipe_delivers h t D -> Forall is_byte D ->
  Z.of_nat (length D) = HIDReportSize i -> HIDReportSize i < 65536 -> Forall is_byte (request_bytes (get_report_descriptor i)) ->
  wp true h (request_in fuel hs (get_report_descriptor i) (indeterminate (Z.to_nat (HIDReportSize i)))) t (fun '(code, data) s =>
    code = HOST_SENDCONTROL_Successful -> data = D /\
      exists k, wire [] s (T_setup (request_bytes (get_report_descriptor i)) :: replicate k T_in ++ [T_out []]) [] D).
Proof.
  intros Hh Hf HfD Hd HD HL Hs Hr.
  eapply wp_mono; [apply wp_combine; [|by apply (descriptor_received i t D (rs_full _ Hh))]|by intros [] ? [_ ?]].
  unfold request_in. do 4 wp_step. instantiate (1 := fun _ _ => True).
  eapply wp_mono; [apply (request_returns h Hh); [done|cbn; lia|cbn; lia|]|intros [] ? _; by wp_step].
  split; [|done]. rewrite (proj1 (Hind _)). cbn. lia.
Qed.

(** The request that leaves the boot protocol. *)
Definition leaves_boot (i : info) (ts : list transaction) : Prop :=
  if UsingBootProtocol i
  then exists ps, concat ps = [] /\ ts = T_setup (request_bytes (set_protocol i 1)) :: bytes_out ps ++ [T_in]
  else ts = [].

(** What the parser left behind: the code, the data, and the size of the largest report. *)
Definition parsed_as (c : Z) (d : HID_ReportInfo_t) (code : Z) (i' : info) : Prop :=
  code = (if c =? HID_PARSE_Successful then 0 else Z.lor HID_ERROR_LOGICAL c) /\ HIDParserData i' = Some d /\
  (c = HID_PARSE_Successful -> LargestReportSize i' = u8 ((LargestReportSizeBits d + 7) / 8)).

Lemma bytes_of_bits n : Z.shiftr n 3 + bool_Z (truthy (Z.land n 7)) = (n + 7) / 8.
Proof.
  change 7 with (Z.ones 3) at 1. rewrite Z.land_ones, Z.shiftr_div_pow2 by lia. change (2 ^ 3) with 8.
  unfold truthy. destruct (Z.eqb_spec (n mod 8) 0); cbn [negb bool_Z]; Z.div_mod_to_equations; lia.
Qed.

Lemma reports_parsed i D c d t : HIDParserData i <> None -> USB_ProcessHIDReport D (HIDReportSize i) = Some (c, d) ->
  wp true h (parse_reports i D) t (fun '(code, i') s => s = [] /\ parsed_as c d code i' /\ UsingBootProtocol i' = UsingBootProtocol i).
Proof.
  intros Hd Hp. unfold parse_reports. destruct (HIDParserData i); [|done]. wp_step. wp_step; [exact Hp|]. cbv zeta beta iota.
  unfold parsed_as. wp_step; bprop.
  - rewrite (proj2 (Z.eqb_neq _ _)) by done. wp_step. by split_and!.
  - subst c. cbn [Z.eqb]. wp_step. split_and!; try done. intros _. cbn. by rewrite bytes_of_bits.
Qed.

Lemma request_is_bytes r : is_byte (bmRequestType r) -> is_byte (bRequest r) -> Forall is_byte (request_bytes r).
Proof. intros. unfold request_bytes. rewrite !Forall_app. split_and!; try apply le_bytes_ok. by repeat (apply Forall_cons_2; [done|]). Qed.

(** C21: the report protocol of the host: when the device sends its report descriptor [D],
    in packets that are not empty, while frames go on, the function returns.  Then the
    host's parser data are the parse of [D] - with the code of the parser, or success and
    the size of the largest report in bytes - and the boot protocol is left; on the bus
    there was the request for the descriptor, and the one to leave the boot protocol if it
    was in use.  If a request fails, its code is returned and the parser data stay as they
    were. *)
Theorem report_protocol_parsed i t D c d :
  responsive h -> (1002 <= fuel)%nat -> (length D < fuel)%nat ->
  pipe_delivers h t D -> Forall is_byte D -> Z.of_nat (length D) = HIDReportSize i -> HIDReportSize i < 65536 ->
  HIDParserData i <> None -> USB_ProcessHIDReport D (HIDReportSize i) = Some (c, d) ->
  wp true h (HID_Host_SetReportProtocol fuel hs indeterminate i) t (fun '(code, i') s =>
    (code <> 0 /\ HIDParserData i' = HIDParserData i) \/
    (parsed_as c d code i' /\ UsingBootProtocol i' = false /\
     exists k ts, leaves_boot i ts /\
       transactions s = T_setup (request_bytes (get_report_descriptor i)) :: replicate k T_in ++ T_out [] :: ts)).
Proof.
  intros Hh Hf HfD Hdel HD HL Hs Hpd Hp.
  unfold HID_Host_SetReportProtocol. wp_step.
  eapply wp_mono; [apply (descriptor_arrives i t D); try done; apply request_is_bytes; done|].
  intros [code data] s1 Hs1. cbv beta iota. wp_step; [wp_step; bprop; by left|]. bprop. destruct (Hs1 H) as (-> & k & W1).
  wp_step. apply (wp_mono _ _ _ _ (fun '(code, i') s => (code <> 0 /\ i' = i) \/
    (code = 0 /\ i' = set_boot false i /\ exists ts, leaves_boot i ts /\ wire [] s ts [] []))).
  { unfold leaves_boot. wp_step.
    - wp_step. eapply wp_mono; [apply wp_combine; [apply (request_returns h Hh fuel); [done|cbn; lia|cbn; lia|done]|apply control_request_wire; [cbn; lia|done]]|].
      intros [c' b] s [_ (l & ts & W & _ & [_ ->] & Hts)]. cbv beta iota. wp_step. rewrite app_nil_r.
      destruct (Z.eqb_spec c' HOST_SENDCONTROL_Successful) as [->|]; [right|by left]. split_and!; [done..|].
      pose proof (Hts eq_refl) as G. change (exists ps, ts = T_setup (setup_bytes (set_protocol i 1)) :: bytes_out ps ++ [T_in] /\ concat ps = []) in G.
      destruct G as (ps & -> & Hps). rewrite setup_bytes_eq in W by (by apply request_is_bytes). eexists. split; [|exact W]. rewrite H0. by exists ps.
    - wp_step. right. split; [done|]. split; [destruct i; cbn in *; by subst|]. exists []. rewrite H0. by split_and!. }
  intros [c' i'] s2 Hs2. cbv beta iota.
  destruct Hs2 as [[Hc ->]|(-> & -> & ts & Hts & W2)].
  - wp_step; [wp_step; by left|]. by bprop.
  - wp_step; [done|]. eapply wp_mono; [by apply (reports_parsed _ D c d)|]. intros [code' i'] s3 (-> & Hpa & Hb). right.
    split_and!; [done..|]. exists k, ts. split; [done|].
    pose proof (wire_app _ _ _ _ _ _ _ _ _ W1 W2) as (Hw & _ & _). rewrite app_nil_r. unfold transactions. rewrite Hw. cbn. by rewrite <- app_assoc.
Qed.
End report_protocol.
