(* ===== verification/MouseEndToEnd.v ===== *)
(** * The mouse on the screen of its host

    The report the mouse makes of its joystick and its button, on its way to the LEDs of
    [MouseHostWithParser]: the two demonstrations of [MouseDemo], each with its class
    driver and the parser's items of the mouse's own report descriptor. *)
From S2P Require Import Prelude HIDParser HIDItems HIDReport ConfigDescriptors USBIo Endpoint EndpointSpec Quiet Pipe DeviceRequests HIDDevice HIDDeviceSpec NetBuffers NetLemmas RNDISDevice HostRequests HostRequestsSpec PipeSpec HIDHost HIDHostSpec MouseDemo.

(** ** The items of the mouse *)

(** The filter of the host; the rest is what the memory of the parser holds before. *)
Definition mouse_filter (junk : Z) (junk_state : HID_StateTable_t) : HIDParserEnv := {|
    FilterHIDReportItem := mouse_FilterHIDReportItem; indet := junk; indet_state := junk_state
  |}.

(** Items up to their values. *)
Definition forget (it : HID_ReportItem_t) : HID_ReportItem_t := set_Value 0 0 it.
Definition alike (d d' : HID_ReportInfo_t) : Prop :=
  set_items (forget <$> ReportItems d) d = set_items (forget <$> ReportItems d') d'.

(** The interface of a host that uses the report protocol of the mouse: the state
    [HID_Host_SetReportProtocol] leaves when the device sends its report descriptor, and
    the values of the items whatever they were since. *)
Record shows_mouse (junk : Z) (junk_state : HID_StateTable_t) (i : USB_ClassInfo_HID_Host_t) : Prop := {
    sm_active : IsActive i = true;
    sm_report : UsingBootProtocol i = false;
    sm_parsed : exists D c d d', D = encode_items MouseReport /\
      @USB_ProcessHIDReport (mouse_filter junk junk_state) D (Z.of_nat (length D)) = Some (c, d) /\
      LargestReportSize i = u8 ((LargestReportSizeBits d + 7) / 8) /\ HIDParserData i = Some d' /\ alike d d'
  }.

Lemma fmap_get (l l' : list HID_ReportItem_t) k : forget <$> l = forget <$> l' -> forget <$> arr_get l k = forget <$> arr_get l' k.
Proof. intros E. unfold arr_get. case_match; [|done]. rewrite <- !list_lookup_fmap. by rewrite E. Qed.

Lemma read_forgets report it it' : forget it = forget it' ->
  match USB_GetHIDReportItemInfo report (Some it), USB_GetHIDReportItemInfo report (Some it') with
  | Some (b, Some x), Some (b', Some x') => b = b' /\ forget x = forget x' /\ forget x = forget it /\ (b = true -> forall m, show_item x m = show_item x' m)
  | None, None => True
  | _, _ => False
  end.
Proof.
  destruct it, it'. unfold forget, set_Value, USB_GetHIDReportItemInfo. cbn. intros [= -> -> -> -> -> ->].
  repeat (case_match; simplify_option_eq; try done).
Qed.

Lemma set_forgets (l l' : list HID_ReportItem_t) k it it' x x' : forget <$> l = forget <$> l' ->
  arr_get l k = Some it -> arr_get l' k = Some it' -> forget x = forget it -> forget x = forget x' ->
  exists m m', arr_set l k x = Some m /\ arr_set l' k x' = Some m' /\ forget <$> m = forget <$> m' /\ forget <$> m = forget <$> l.
Proof.
  intros E Hl Hl' Ei Ex. unfold arr_get, arr_set in *. destruct (0 <=? k) eqn:Hk; [|done].
  pose proof (lookup_lt_Some _ _ _ Hl). pose proof (lookup_lt_Some _ _ _ Hl'). bprop.
  rewrite (proj2 (Z.ltb_lt k (Z.of_nat (length l)))), (proj2 (Z.ltb_lt k (Z.of_nat (length l')))) by lia. cbn [andb].
  eexists _, _. split_and!; [done..| |]; rewrite !list_fmap_insert; [by rewrite E, Ex|].
  rewrite Ei. apply list_insert_id. by rewrite list_lookup_fmap, Hl.
Qed.

(** What is shown does not depend on the old values. *)
Lemma show_forgets report n : forall k l l' m, forget <$> l = forget <$> l' ->
  match show_items n k l report m, show_items n k l' report m with
  | Some (x, leds), Some (x', leds') => forget <$> x = forget <$> x' /\ leds = leds' /\ forget <$> x = forget <$> l
  | None, None => True
  | _, _ => False
  end.
Proof.
  induction n as [|n IH]; intros k l l' m E; [done|]. cbn [show_items]. pose proof (fmap_get l l' k E) as Eg.
  destruct (arr_get l k) as [it|] eqn:Hl, (arr_get l' k) as [it'|] eqn:Hl'; try done. cbn in Eg.
  pose proof (read_forgets report it it' ltac:(by injection Eg; destruct it, it'; unfold forget, set_Value; cbn; intros; subst)) as Hr.
  cbn [mbind option_bind].
  destruct (USB_GetHIDReportItemInfo report (Some it)) as [[b [x|]]|], (USB_GetHIDReportItemInfo report (Some it')) as [[b' [x'|]]|]; try done.
  destruct Hr as (<- & Ex & Ei & Hs). destruct (set_forgets l l' k it it' x x' E Hl Hl' Ei Ex) as (p & p' & Sp & Sp' & Ep & El).
  cbn [mbind option_bind]. rewrite Sp, Sp'. cbn [mbind option_bind].
  replace (if b then show_item x' m else m) with (if b then show_item x m else m) by (destruct b; [by apply Hs|done]).
  pose proof (IH (k + 1) p p' (if b then show_item x m else m) Ep) as G. rewrite El in G. exact G.
Qed.

(** ** The movement *)

(** The LEDs for a joystick and a button. *)
Definition movement_leds (JoyStatus ButtonStatus : Z) : Z :=
  if pressed JoyStatus JOY_PRESS || pressed ButtonStatus BUTTONS_BUTTON1 then LEDS_ALL_LEDS else
  Z.lor (if pressed JoyStatus JOY_LEFT then LEDS_LED2 else if pressed JoyStatus JOY_RIGHT then LEDS_LED1 else LEDS_NO_LEDS)
        (if pressed JoyStatus JOY_UP then LEDS_LED4 else if pressed JoyStatus JOY_DOWN then LEDS_LED3 else LEDS_NO_LEDS).

Lemma report_filled J B : exists R, fill_report J B (replicate 3 0) = Some R /\ length R = 3%nat /\ Forall is_byte R.
Proof.
  unfold fill_report. destruct (pressed J JOY_UP), (pressed J JOY_DOWN), (pressed J JOY_LEFT), (pressed J JOY_RIGHT), (pressed J JOY_PRESS), (pressed B BUTTONS_BUTTON1);
    (eexists; split_and!; [reflexivity|reflexivity|by apply bytes_check; vm_compute]).
Qed.

(** The parse of the mouse's report descriptor: one report, of three bytes without an ID,
    whose items show the movement. *)
Lemma mouse_parsed junk junk_state c d : let D := encode_items MouseReport in
  @USB_ProcessHIDReport (mouse_filter junk junk_state) D (Z.of_nat (length D)) = Some (c, d) ->
  c = HID_PARSE_Successful /\ UsingReportIDs d = false /\ USB_GetHIDReportSize d 0 HID_REPORT_ITEM_In = Some 3 /\
  (LargestReportSizeBits d + 7) / 8 = 3 /\
  forall J B R, fill_report J B (replicate 3 0) = Some R ->
    exists items, show_items (Z.to_nat (TotalReportItems d)) 0 (ReportItems d) R LEDS_NO_LEDS = Some (items, movement_leds J B).
Proof.
  intros D H. vm_compute in H. injection H as <- <-. do 4 (split; [vm_compute; reflexivity|]).
  intros J B R. unfold fill_report, movement_leds. change (TotalReportItems _) with 5. 
  destruct (pressed J JOY_UP), (pressed J JOY_DOWN), (pressed J JOY_LEFT), (pressed J JOY_RIGHT), (pressed J JOY_PRESS), (pressed B BUTTONS_BUTTON1);
    intros E; vm_compute in E; injection E as <-; eexists; vm_compute; reflexivity.
Qed.

(** ** The mouse sends its report *)

(** A board whose pins are held, of a configured device that has sent nothing in this
    frame: the endpoint takes bytes until the first one is written, and from then on as
    the host collects them. *)
Record held (h : hw) (t : list event) (frame pinb pine : Z) : Prop := {
    hd_state : forall s, u8 (h (t ++ s) q_DeviceState) = DEVICE_STATE_Configured;
    hd_frame : forall s, u16 (h (t ++ s) q_GetFrameNumber) <> frame;
    hd_free : forall s, sent s = [] -> h (t ++ s) q_IsReadWriteAllowed <> 0;
    hd_host : cooperative h c_ClearIN;
    hd_pinb : forall s, u8 (h (t ++ s) (q_Register PINB)) = pinb;
    hd_pine : forall s, u8 (h (t ++ s) (q_Register PINE)) = pine
  }.

Lemma mouse_sends h fuel i t pinb pine prev :
  held h t (PrevFrameNum i) pinb pine -> (7 <= fuel)%nat ->
  PrevReportINBuffer i = Some prev -> length prev = 3%nat -> PrevReportINBufferSize i = 3 ->
  wp true h (HID_Device_USBTask fuel i tt) t (fun '(i', _) s =>
    fill_report (joystick_status pinb pine) (button_status pine) (replicate 3 0) = Some (sent s) /\ received s = []).
Proof.
  intros [Hst Hfr Hfree Hco Hb He] Hf Hp Hl Hs.
  destruct (report_filled (joystick_status pinb pine) (button_status pine)) as (R & ER & LR & HR).
  pose proof (Hst []) as Hst0. rewrite app_nil_r in Hst0.
  unfold HID_Device_USBTask. repeat (wp_step; []).
  wp_step; [exfalso; bprop; congruence|]. repeat (wp_step; []).
  wp_step; [exfalso; bprop; eapply (Hfr [Ask q_DeviceState a]); congruence|]. repeat (wp_step; []).
  assert (a1 <> 0) as Ha1 by (subst a1; rewrite <- !app_assoc; by apply Hfree).
  wp_step; [exfalso; bprop; congruence|].
  unfold CALLBACK_HID_Device_CreateHIDReport, mouse, mouse_CreateHIDReport, Joystick_GetStatus, Buttons_GetStatus.
  rewrite Hs. repeat (wp_step; []).
  assert (u8 a2 = pinb /\ u8 a3 = pine /\ u8 a4 = pine) as (-> & -> & ->) by (subst a2 a3 a4; rewrite <- !app_assoc; by rewrite Hb, !He).
  wp_step; [exact ER|]. repeat (wp_step; []). rewrite Hp.
  wp_step; [unfold memcmp_differs; rewrite LR, Hl; reflexivity|].
  unfold save_report. rewrite Hp, Hs. do 2 wp_step. wp_step; [unfold memcpy; rewrite LR, Hl; reflexivity|]. wp_step.
  change (truthy sizeof_USB_MouseReport_Data_t && (true || _ || _)) with true. unfold send_report, sizeof_USB_MouseReport_Data_t.
  cbv match zeta. change (truthy 0) with false. cbv match. repeat (wp_step; []).
  eapply wp_mono; [apply write_completes; [done|done|lia|rewrite LR; lia|change (Z.to_nat 3) with 3%nat; lia]|].
  intros [[? ?] ?] s (_ & Hr & Hsn). cbv beta iota. repeat wp_step.
  rewrite !sent_app, !received_app, Hr, Hsn. cbn. by rewrite !app_nil_r, take_ge by lia.
Qed.

(** ** The host shows it *)

(** What the LEDs show at the end. *)
Definition shown (s : list event) : option Z := last (omap (fun e => match e with Cmd (c_SetAllLEDs m) => Some m | _ => None end) s).

Lemma shown_last s m : shown (s ++ [Cmd (c_SetAllLEDs m)]) = Some m.
Proof. unfold shown. rewrite omap_app. apply last_snoc. Qed.

Lemma delivers_later h t D s : pipe_delivers h t D -> hreceived s = [] -> pipe_delivers h (t ++ s) D.
Proof. intros Hd E s'. by rewrite <- app_assoc, Hd, hreceived_app, E. Qed.

Lemma host_configured h t Q : keeps_up h -> (forall a, Q HOST_STATE_Configured [Ask (q_Host p_HostState) a]) -> wp true h USB_HostState t Q.
Proof. intros Hk HQ. wp_step. apply wp_ask_u8; intros a Ha. rewrite <- Ha, (ku_state _ Hk). apply HQ. Qed.

(** What a report without an ID is read into: the start of the buffer. *)
Lemma host_receives h fuel i d n buf D t :
  keeps_up h -> (Z.to_nat (2 * n + 1) <= fuel)%nat -> 0 <= n < 65536 -> n <= Z.of_nat (length buf) -> IsActive i = true -> UsingBootProtocol i = false ->
  HIDParserData i = Some d -> UsingReportIDs d = false -> USB_GetHIDReportSize d 0 HID_REPORT_ITEM_In = Some n ->
  pipe_delivers h t D -> Forall is_byte D -> Z.of_nat (length D) = n ->
  wp true h (HID_Host_ReceiveReport fuel i buf) t (fun r _ => r = (PIPE_RWSTREAM_NoError, D ++ drop (length D) buf)).
Proof.
  intros Hk Hf Hn Hb Hact Hrep Hdata Hids Hsize Hdel HD HL. unfold HID_Host_ReceiveReport.
  wp_step. apply host_configured; [done|]. intros a. rewrite Hact, Hrep, Hdata. cbn [orb negb].
  change (negb (HOST_STATE_Configured =? HOST_STATE_Configured)) with false. cbn [orb]. cbv match. repeat (wp_step; []).
  wp_step; [done|]. rewrite Hids. repeat (wp_step; []). wp_step; [exact Hsize|]. repeat (wp_step; []). cbn [drop].
  eapply wp_mono; [apply wp_valid, (read_stream_flows h Hk fuel); done|]. intros r s [(l & -> & Hl & Hs) Hv]. cbv beta iota.
  no_error. repeat wp_step. rewrite <- !app_assoc in Hv.
  destruct (Hs 0) as (ps & d' & [_ Hr] & _).
  assert (l = D) as ->; [|done].
  lazymatch type of Hv with valid _ (t ++ ?s0) _ => assert (pipe_delivers h (t ++ s0) D) as Hd by (by apply delivers_later) end.
  pose proof (pipe_delivered _ _ _ _ Hv Hd HD) as G. rewrite Hr in G. rewrite G by lia. apply take_ge. lia.
Qed.

Lemma alike_fields d d' : alike d d' ->
  forget <$> ReportItems d' = forget <$> ReportItems d /\ TotalReportItems d' = TotalReportItems d /\
  UsingReportIDs d' = UsingReportIDs d /\ ReportIDSizes d' = ReportIDSizes d.
Proof. unfold alike, set_items. intros E. injection E. intros. by split_and!. Qed.

Lemma host_shows h fuel indet junk junk_state i J B R t :
  keeps_up h -> (7 <= fuel)%nat -> (forall n, length (indet n) = n) -> shows_mouse junk junk_state i ->
  fill_report J B (replicate 3 0) = Some R -> pipe_delivers h t R ->
  wp true h (MouseHost_Task fuel indet i) t (fun i' s => shown s = Some (movement_leds J B) /\ shows_mouse junk junk_state i').
Proof.
  intros Hk Hf Hind Hm HR Hdel. pose proof Hm as [Hact Hrep (D & c & d & d' & -> & Hp & Hlarge & Hdata & Halike)].
  destruct (mouse_parsed junk junk_state c d Hp) as (-> & Hids & Hsize & Hbits & Hshow).
  destruct (alike_fields _ _ Halike) as (Fi & Ft & Fu & Fs). destruct (Hshow J B R HR) as [items0 Hshown].
  destruct (report_filled J B) as (R' & HR' & LR & BR). rewrite HR in HR'. injection HR' as <-.
  unfold MouseHost_Task. wp_step. apply host_configured; [done|]. intros a1. change (negb (HOST_STATE_Configured =? HOST_STATE_Configured)) with false. cbv match.
  unfold HID_Host_IsReportReceived. do 2 wp_step. apply host_configured; [done|]. intros a2. rewrite Hact. cbn [orb negb].
  change (negb (HOST_STATE_Configured =? HOST_STATE_Configured)) with false. cbn [orb]. cbv match. repeat (wp_step; []).
  assert (truthy a = true) as -> by (unfold truthy; rewrite (proj2 (Z.eqb_neq _ _)); [done|]; subst a; by apply ku_in).
  cbn [negb]. cbv match. rewrite Hlarge, Hbits. wp_step. rewrite <- !app_assoc.
  eapply wp_mono; [apply (host_receives h fuel i d' 3 _ R _ Hk ltac:(lia) ltac:(lia)); [rewrite Hind; vm_compute; discriminate|exact Hact|exact Hrep|exact Hdata| | |by apply delivers_later|exact BR|lia]|].
  { by rewrite Fu. }
  { unfold USB_GetHIDReportSize. rewrite Fs. exact Hsize. }
  intros r s ->. cbv beta iota. rewrite drop_ge, app_nil_r by (rewrite Hind, LR; done). rewrite Hdata. wp_step. wp_step; [done|].
  pose proof (show_forgets R (Z.to_nat (TotalReportItems d)) 0 (ReportItems d') (ReportItems d) LEDS_NO_LEDS Fi) as Hsame.
  rewrite Hshown in Hsame. rewrite Ft. destruct (show_items _ 0 (ReportItems d') R LEDS_NO_LEDS) as [[items leds]|] eqn:Es; [|done].
  destruct Hsame as (_ & -> & Hforget). wp_step. wp_step; [done|]. repeat wp_step. split; [rewrite !app_assoc, ?app_nil_r; apply shown_last|].
  split; [done..|]. eexists _, _, d, _. split_and!; [done|exact Hp|done|done|].
  unfold alike in *. rewrite Halike. unfold set_items. cbn. by rewrite Hforget.
Qed.

(** What [HID_Host_SetReportProtocol] leaves when it succeeds is an interface that shows the mouse. *)
Lemma parsed_shows_mouse junk junk_state c d code i (D := encode_items MouseReport) :
  @USB_ProcessHIDReport (mouse_filter junk junk_state) D (Z.of_nat (length D)) = Some (c, d) ->
  parsed_as c d code i -> IsActive i = true -> UsingBootProtocol i = false -> shows_mouse junk junk_state i.
Proof.
  intros Hp (_ & Hd & Hl) Ha Hb. destruct (mouse_parsed _ _ _ _ Hp) as (-> & _).
  split; [done..|]. exists D, HID_PARSE_Successful, d, d. split_and!; [done..|by apply Hl|done|done].
Qed.

(** C4: the mouse moves the LEDs of its host.  A mouse whose joystick and button are held,
    in a frame in which it has not sent yet, sends in one pass of its HID task the report
    of that movement, in time; and a host that parsed the mouse's report descriptor, when
    these bytes arrive on its pipe, shows in one pass of its task exactly the LEDs of the
    movement - all of them for a button, otherwise one for each axis that is moved - and is
    ready for the next report. *)
Theorem mouse_moves_leds hd dfuel di prev pinb pine td fuel indet junk junk_state hi th :
  held hd td (PrevFrameNum di) pinb pine -> (7 <= dfuel)%nat ->
  PrevReportINBuffer di = Some prev -> length prev = 3%nat -> PrevReportINBufferSize di = 3 ->
  (7 <= fuel)%nat -> (forall n, length (indet n) = n) -> shows_mouse junk junk_state hi ->
  exists di' sd, HID_Device_USBTask dfuel di tt hd td = Returns ((di', tt), td ++ sd) /\ length (sent sd) = 3%nat /\
    (forall hh, keeps_up hh -> pipe_delivers hh th (sent sd) ->
     wp true hh (MouseHost_Task fuel indet hi) th (fun hi' sh =>
       shown sh = Some (movement_leds (joystick_status pinb pine) (button_status pine)) /\ shows_mouse junk junk_state hi')).
Proof.
  intros Hd Hdf Hp Hl Hs Hf Hind Hm.
  destruct (wp_total _ _ _ _ (mouse_sends hd dfuel di td pinb pine prev Hd Hdf Hp Hl Hs)) as ([di' []] & sd & E & Hr & _).
  exists di', sd. split; [exact E|]. split; [|intros hh Hh Hdel; by apply (host_shows hh fuel indet junk junk_state hi _ _ (sent sd))].
  destruct (report_filled (joystick_status pinb pine) (button_status pine)) as (R & ER & LR & _). rewrite Hr in ER. by injection ER as ->.
Qed.

(** A HID interface with one endpoint, as the mouse has, is not configured: the driver reads
    the other endpoint through a null pointer. *)
Definition unbound : hw := fun _ _ => 0.

Lemma mouse_pipes_fault d largest : HID_Host_ConfigurePipes mouse_ConfigurationDescriptor 40
  (mk_hid_host (mk_pipe 129 0 0 0 1) (mk_pipe 2 0 0 0 1) 0 d false 0 false false false 0 largest) 34 unbound [] = Faults.
Proof. vm_compute. reflexivity. Qed.

(** ** Witnesses *)

(** A board with the pins given, and what a host kept of the mouse. *)
Definition mouse_board (pinb pine : Z) : hw := fun _ q =>
  match q with
  | q_DeviceState => DEVICE_STATE_Configured
  | q_Register PINB => pinb
  | q_Register PINE => pine
  | _ => 1
  end.

Lemma mouse_board_held pinb pine t : is_byte pinb -> is_byte pine -> held (mouse_board pinb pine) t 0 pinb pine.
Proof. intros. split; try done; intros; by apply u8_small. Qed.

Definition mouse_pipe : USB_Pipe_Table_t := mk_pipe 129 8 0x81 EP_TYPE_INTERRUPT 1.
Definition mouse_host (d : option HID_ReportInfo_t) (largest : Z) : USB_ClassInfo_HID_Host_t :=
  mk_hid_host mouse_pipe mouse_pipe 0 d true 0 true false false 58 largest.

Definition mouse_info : HID_ReportInfo_t :=
  Eval vm_compute in
    match @USB_ProcessHIDReport (mouse_filter 0 zero_state) (encode_items MouseReport) 58 with
    | Some (_, d) => d | None => ParserData (@initial_state (mouse_filter 0 zero_state)) end.

Lemma mouse_info_parsed : @USB_ProcessHIDReport (mouse_filter 0 zero_state) (encode_items MouseReport) 58 = Some (HID_PARSE_Successful, mouse_info).
Proof. vm_compute. reflexivity. Qed.

Lemma mouse_host_shows : shows_mouse 0 zero_state (mouse_host (Some mouse_info) 3).
Proof.
  split; [done..|]. exists (encode_items MouseReport), HID_PARSE_Successful, mouse_info, mouse_info.
  split_and!; [done|exact mouse_info_parsed|by vm_compute|done|done].
Qed.

(** The joystick pushed to the left and up: LED2 and LED4. *)
Lemma mouse_moves_leds_witness :
  exists di' sd, HID_Device_USBTask 7 Mouse_HID_Interface tt (mouse_board 0x20 0xFF) [] = Returns ((di', tt), [] ++ sd) /\
    length (sent sd) = 3%nat /\
    wp true (bulk_device (sent sd)) (MouseHost_Task 7 zeros (mouse_host (Some mouse_info) 3)) [] (fun hi' sh =>
      shown sh = Some (Z.lor LEDS_LED2 LEDS_LED4) /\ shows_mouse 0 zero_state hi').
Proof.
  destruct (mouse_moves_leds (mouse_board 0x20 0xFF) 7 Mouse_HID_Interface (replicate 3 0) 0x20 0xFF [] 7 zeros 0 zero_state
    (mouse_host (Some mouse_info) 3) [] (mouse_board_held 0x20 0xFF [] ltac:(done) ltac:(done)) ltac:(lia) eq_refl eq_refl eq_refl ltac:(lia)
    (fun n => length_replicate n 0) mouse_host_shows) as (di' & sd & E & L & H).
  exists di', sd. split_and!; [exact E|exact L|]. exact (H (bulk_device (sent sd)) (bulk_device_keeps_up _) (bulk_device_delivers _)).
Defined.

(** The mouse's report descriptor, from a device that sends it. *)
Lemma zeros_indeterminate n : length (zeros n) = n /\ Forall is_byte (zeros n).
Proof. unfold zeros. rewrite length_replicate. split; [done|]. by apply Forall_replicate. Qed.

Lemma mouse_report_bytes : Forall is_byte (encode_items MouseReport).
Proof. apply bytes_check. by vm_compute. Qed.

Lemma bulk_device_responsive data : responsive (bulk_device data).
Proof. split; [done..|by intros ? ? <-]. Qed.

Lemma report_protocol_parsed_witness :
  match @HID_Host_SetReportProtocol 1100 host0 (mouse_filter 0 zero_state) zeros (mouse_host (Some mouse_info) 0) (bulk_device (encode_items MouseReport)) [] with
  | Returns ((code, i'), t) => code = 0 /\ HIDParserData i' = Some mouse_info /\ LargestReportSize i' = 3 /\ UsingBootProtocol i' = false /\
      exists k ts, leaves_boot (mouse_host (Some mouse_info) 0) ts /\
        transactions t = T_setup [0x81; 6; 0; 0x22; 0; 0; 58; 0] :: replicate k T_in ++ T_out [] :: ts
  | _ => False
  end.
Proof.
  pose proof (@report_protocol_parsed (mouse_filter 0 zero_state) (bulk_device (encode_items MouseReport)) 1100 host0 zeros zeros_indeterminate
    (mouse_host (Some mouse_info) 0) [] (encode_items MouseReport) HID_PARSE_Successful mouse_info (bulk_device_responsive _) ltac:(lia) ltac:(vm_compute; lia) (bulk_device_delivers _) mouse_report_bytes
    eq_refl ltac:(done) ltac:(done) mouse_info_parsed) as H.
  assert (match @HID_Host_SetReportProtocol 1100 host0 (mouse_filter 0 zero_state) zeros (mouse_host (Some mouse_info) 0) (bulk_device (encode_items MouseReport)) [] with
    | Returns ((code, _), _) => code = 0 | _ => False end) as Hok by (vm_compute; reflexivity).
  apply wp_run_eq in H. destruct (@HID_Host_SetReportProtocol _ _ _ _ _ _ _) as [[[code i'] t]| |]; [|done|done].
  subst code. destruct H as (s & -> & [[? _]|(Hp & Hb & k & ts & Hts & Htr)]); [done|]. destruct Hp as (_ & Hd & Hl).
  split_and!; [done|done|by rewrite (Hl eq_refl)|done|]. by exists k, ts.
Defined.
