(* ===== verification/SelfProgram.v ===== *)
(** * The program memory

    The bootloaders write the flash through the page buffer of the self-programming unit.
    The operations of avr-libc ([avr/boot.h], [avr/pgmspace.h], [avr/eeprom.h]) are events;
    [memory] is what the data sheet says of their effects, and [memory_answers] that the
    controller reads what was written.  The size of a page, the signature, the flag of a
    watchdog reset and the start of the bootloader depend on the controller and on the
    makefile. *)
From S2P Require Import Prelude USBIo Endpoint EndpointSpec.

Lemma truthy_nonzero n : n <> 0 -> truthy n = true.
Proof. intros Hn. unfold truthy. by rewrite (proj2 (Z.eqb_neq _ _)). Qed.

(** ** Operations *)

Class MCU := { SPM_PAGESIZE : Z; AVR_SIGNATURE_1 : Z; AVR_SIGNATURE_2 : Z; AVR_SIGNATURE_3 : Z; WDRF : Z; BOOT_START_ADDR : Z }.

Definition boot_page_fill (Address Data : Z) : io unit := cmd (c_Memory (w_Page_Fill (u32 Address) (u16 Data))).
Definition boot_page_erase (Address : Z) : io unit := cmd (c_Memory (w_Page_Erase (u32 Address))).
Definition boot_page_write (Address : Z) : io unit := cmd (c_Memory (w_Page_Write (u32 Address))).
Definition boot_spm_busy_wait : io unit := cmd (c_Memory w_Busy_Wait).
Definition boot_rww_enable : io unit := cmd (c_Memory w_RWW_Enable).
Definition boot_lock_bits_set (LockBits : Z) : io unit := cmd (c_Memory (w_LockBits (u8 LockBits))).
Definition boot_lock_fuse_bits_get (Address : Z) : io Z := ask_u8 (q_Memory (m_LockFuse Address)).
Definition eeprom_write_byte (Address Data : Z) : io unit := cmd (c_Memory (w_EEPROM (u16 Address) (u8 Data))).
Definition eeprom_read_byte (Address : Z) : io Z := ask_u8 (q_Memory (m_EEPROM (u16 Address))).
Definition pgm_read_byte_far (Address : Z) : io Z := ask_u8 (q_Memory (m_Byte (u32 Address))).
Definition pgm_read_word_far (Address : Z) : io Z := ask_u16 (q_Memory (m_Word (u32 Address))).

Definition wdt_disable : io unit := cmd (c_Watchdog (-1)).
Definition wdt_enable (Timeout : Z) : io unit := cmd (c_Watchdog Timeout).
Definition WDTO_250MS := 4.

(** The safe variants wait for the unit first. *)
Definition boot_page_fill_safe (Address Data : Z) : io unit := boot_spm_busy_wait;; boot_page_fill Address Data.
Definition boot_page_erase_safe (Address : Z) : io unit := boot_spm_busy_wait;; boot_page_erase Address.
Definition boot_page_write_safe (Address : Z) : io unit := boot_spm_busy_wait;; boot_page_write Address.
Definition boot_lock_bits_set_safe (LockBits : Z) : io unit := boot_spm_busy_wait;; boot_lock_bits_set LockBits.

#[export] Hint Unfold boot_page_fill boot_page_erase boot_page_write boot_spm_busy_wait boot_rww_enable boot_lock_bits_set
  boot_lock_fuse_bits_get eeprom_write_byte eeprom_read_byte pgm_read_byte_far pgm_read_word_far wdt_disable wdt_enable : usbio.

(** The loop of the bootloaders that clears the application, from [CurrFlashAddress] on and
    [n] pages at most. *)
Fixpoint clear_pages `{MCU} (n : nat) (CurrFlashAddress : Z) : io unit :=
  match n with
  | O => loops
  | S n =>
      if CurrFlashAddress <? BOOT_START_ADDR then
        boot_page_erase CurrFlashAddress;; boot_spm_busy_wait;;
        boot_page_write CurrFlashAddress;; boot_spm_busy_wait;;
        clear_pages n (CurrFlashAddress + SPM_PAGESIZE)
      else mret tt
  end.

(** ** The key that starts the application

    [Application_Jump_Check] of the bootloaders, on the variable [MagicBootKey]: whether the
    application is started, and the key. *)
Definition MAGIC_BOOT_KEY := 0xDC42.
Definition Application_Jump_Check `{MCU} (MagicBootKey : Z) : io (bool * Z) :=
  mcusr ← ask_u8 (q_Register MCUSR);
  if truthy (Z.land mcusr (Z.shiftl 1 WDRF)) && (MagicBootKey =? MAGIC_BOOT_KEY) then
    mcusr ← ask_u8 (q_Register MCUSR);
    cmd (c_Register MCUSR (Z.land mcusr (Z.lxor 255 (Z.shiftl 1 WDRF))));;
    wdt_disable;;
    mret (true, 0)
  else mret (false, MagicBootKey).

(** ** The API for applications *)

Module BootloaderAPI.
Definition GET_LOCK_BITS := 1.
Definition BootloaderAPI_ErasePage (Address : Z) : io unit := boot_page_erase_safe Address;; boot_spm_busy_wait;; boot_rww_enable.
Definition BootloaderAPI_WritePage (Address : Z) : io unit := boot_page_write_safe Address;; boot_spm_busy_wait;; boot_rww_enable.
Definition BootloaderAPI_FillWord (Address Word : Z) : io unit := boot_page_fill_safe Address Word.
Definition BootloaderAPI_ReadSignature (Address : Z) : io Z := boot_signature_byte_get Address.
Definition BootloaderAPI_ReadFuse (Address : Z) : io Z := boot_lock_fuse_bits_get Address.
Definition BootloaderAPI_ReadLock : io Z := boot_lock_fuse_bits_get GET_LOCK_BITS.
Definition BootloaderAPI_WriteLock (LockBits : Z) : io unit := boot_lock_bits_set_safe LockBits.
End BootloaderAPI.

(** ** The memory *)

(** Flash and EEPROM by byte, the page buffer by word; the self-programming unit may be
    busy, and the application section cannot be read until it is enabled again. *)
Record memory := mk_memory { flash : Z -> Z; buffer : Z -> Z; busy : bool; readable : bool; eeprom : Z -> Z }.

Section memory.
Context `{MCU}.

Definition page_of (a : Z) : Z := a / SPM_PAGESIZE.
Definition word_of (a : Z) : Z := (a mod SPM_PAGESIZE) / 2.
Definition buffer_byte (b : Z -> Z) (a : Z) : Z := if Z.even a then b (word_of a) mod 256 else b (word_of a) / 256.
Definition no_words : Z -> Z := fun _ => 65535.

(** Erasing sets all bits of a page and writing can only clear them; while the unit is busy
    nothing else is done. *)
Definition memory_step (m : memory) (c : memory_command) : memory :=
  match c with
  | w_Busy_Wait => mk_memory (flash m) (buffer m) false (readable m) (eeprom m)
  | w_EEPROM a b => mk_memory (flash m) (buffer m) (busy m) (readable m) (fun x => if x =? a then b else eeprom m x)
  | w_LockBits _ => m
  | w_Page_Fill a w =>
      if busy m then m else mk_memory (flash m) (fun k => if k =? word_of a then w else buffer m k) false (readable m) (eeprom m)
  | w_Page_Erase a =>
      if busy m then m else mk_memory (fun x => if page_of x =? page_of a then 255 else flash m x) (buffer m) true false (eeprom m)
  | w_Page_Write a =>
      if busy m then m
      else mk_memory (fun x => if page_of x =? page_of a then Z.land (flash m x) (buffer_byte (buffer m) x) else flash m x) no_words true false (eeprom m)
  | w_RWW_Enable => if busy m then m else mk_memory (flash m) no_words false true (eeprom m)
  end.

Definition memory_event (m : memory) (e : event) : memory :=
  match e with Cmd (c_Memory c) => memory_step m c | _ => m end.
Definition memory_after (m : memory) (s : list event) : memory := foldl memory_event m s.

Lemma memory_after_app m s s' : memory_after m (s ++ s') = memory_after (memory_after m s) s'.
Proof. apply foldl_app. Qed.

(** Events that leave the memory alone. *)
Definition leaves_memory (e : event) : Prop := match e with Cmd (c_Memory _) => False | _ => True end.

Lemma memory_left m s : Forall leaves_memory s -> memory_after m s = m.
Proof. induction 1 as [|e s He _ IH]; [done|]. destruct e as [|[]]; done. Qed.

(** From the history [t] on, the controller reads the memory [m]. *)
Definition memory_answers (h : hw) (t : list event) (m : memory) : Prop :=
  forall s, let m' := memory_after m s in
  (busy m' = false -> readable m' = true -> forall a,
     h (t ++ s) (q_Memory (m_Byte a)) = flash m' a /\ h (t ++ s) (q_Memory (m_Word a)) = flash m' a + Z.shiftl (flash m' (a + 1)) 8) /\
  forall a, h (t ++ s) (q_Memory (m_EEPROM a)) = eeprom m' a.

Lemma memory_answers_later h t m s : memory_answers h t m -> memory_answers h (t ++ s) (memory_after m s).
Proof. intros Ha s'. rewrite <- app_assoc, <- memory_after_app. apply Ha. Qed.

(** ** Programming *)

(** A controller with pages of at most 255 words. *)
Context (words : Z) (Hpage : SPM_PAGESIZE = 2 * words) (Hwords : 0 < words < 256).

Lemma page_nonzero : SPM_PAGESIZE <> 0.
Proof. lia. Qed.
Lemma page_positive : 0 < SPM_PAGESIZE.
Proof. lia. Qed.

Definition aligned (a : Z) : Prop := a mod SPM_PAGESIZE = 0.

(** The unit is idle, the buffer holds the bytes [D] and is blank after them. *)
Definition holds (m : memory) (D : list Z) : Prop :=
  busy m = false /\ forall a, 0 <= a < SPM_PAGESIZE -> buffer_byte (buffer m) a = nth (Z.to_nat a) D 255.

(** Flash after [D] is programmed from [S] on, into pages that were erased for it. *)
Definition page_end (a : Z) : Z := (a + SPM_PAGESIZE - 1) / SPM_PAGESIZE * SPM_PAGESIZE.
Definition programmed (f : Z -> Z) (S : Z) (D : list Z) (x : Z) : Z :=
  let n := Z.of_nat (length D) in
  if (S <=? x) && (x <? S + n) then nth (Z.to_nat (x - S)) D 255
  else if (S + n <=? x) && (x <? page_end (S + n)) then 255 else f x.

(** Quotients by the size of a page, as variables. *)
Ltac page_div a q :=
  pose proof (Z.div_mod a SPM_PAGESIZE page_nonzero); pose proof (Z.mod_pos_bound a SPM_PAGESIZE page_positive);
  set (q := a / SPM_PAGESIZE) in *; clearbody q.

Lemma page_of_eq P x : aligned P -> (page_of x =? page_of P) = (P <=? x) && (x <? P + SPM_PAGESIZE).
Proof.
  unfold aligned, page_of. intros HP. page_div P p. page_div x y. rewrite HP in *. clear HP.
  set (r := x mod SPM_PAGESIZE) in *. clearbody r. clear Hpage. generalize dependent SPM_PAGESIZE. intros n HP Hn Hx Hr. subst P x.
  destruct (Z.eqb_spec y p) as [->|E]; symmetry; [apply andb_true_iff; split; [apply Z.leb_le|apply Z.ltb_lt]; lia|].
  apply andb_false_iff. rewrite Z.leb_gt, Z.ltb_ge. destruct (Z.lt_ge_cases y p); [left|right]; nia.
Qed.

Lemma aligned_next P : aligned P -> aligned (P + SPM_PAGESIZE).
Proof. unfold aligned. rewrite <- Zplus_mod_idemp_r, Z.mod_same, Z.add_0_r by apply page_nonzero. done. Qed.

Lemma blank_holds m : busy m = false -> buffer m = no_words -> holds m [].
Proof. intros Hb E. split; [done|]. intros a Ha. unfold buffer_byte. rewrite E. destruct (Z.even a), (Z.to_nat a); done. Qed.

(** Filling the next word. *)
Lemma fill_holds m D k a b0 b1 : holds m D -> length D = (2 * k)%nat -> a mod SPM_PAGESIZE = 2 * Z.of_nat k -> is_byte b0 -> is_byte b1 ->
  holds (memory_step m (w_Page_Fill a (b0 + Z.shiftl b1 8))) (D ++ [b0; b1]) /\
  flash (memory_step m (w_Page_Fill a (b0 + Z.shiftl b1 8))) = flash m.
Proof.
  intros [Hb Hbuf] Hl Ha H0 H1. unfold memory_step. rewrite Hb. split; [|done]. split; [done|]. intros x Hx. cbn [buffer]. unfold buffer_byte, word_of.
  rewrite Ha, (Z.mul_comm 2), Z.div_mul, (Z.mod_small x) by lia. rewrite Z.shiftl_mul_pow2 by lia. change (2 ^ 8) with 256.
  unfold is_byte in *. specialize (Hbuf x Hx). unfold buffer_byte, word_of in Hbuf. rewrite (Z.mod_small x) in Hbuf by lia.
  destruct (Z.eqb_spec (x / 2) (Z.of_nat k)) as [E|E].
  - pose proof (Z.div_mod x 2 ltac:(lia)) as Hx2. rewrite Zmod_even in Hx2. destruct (Z.even x); rewrite app_nth2 by lia.
    + replace (Z.to_nat x - length D)%nat with 0%nat by lia. cbn. clear -H0 H1. Z.div_mod_to_equations; lia.
    + replace (Z.to_nat x - length D)%nat with 1%nat by lia. cbn. clear -H0 H1. Z.div_mod_to_equations; lia.
  - rewrite Hbuf. pose proof (Z.div_mod x 2 ltac:(lia)). pose proof (Z.mod_pos_bound x 2 ltac:(lia)).
    destruct (Nat.lt_ge_cases (Z.to_nat x) (length D)); [by rewrite app_nth1|].
    rewrite !nth_overflow; [done|rewrite length_app; cbn; lia|done].
Qed.

(** Writing a page that is erased. *)
Lemma write_page m P D : holds m D -> aligned P -> Z.of_nat (length D) <= SPM_PAGESIZE -> Forall is_byte D ->
  (forall x, P <= x < P + SPM_PAGESIZE -> flash m x = 255) ->
  let m' := memory_after m [Cmd (c_Memory (w_Page_Write P)); Cmd (c_Memory w_Busy_Wait)] in
  holds m' [] /\ forall x, flash m' x = if (P <=? x) && (x <? P + SPM_PAGESIZE) then nth (Z.to_nat (x - P)) D 255 else flash m x.
Proof.
  intros [Hb Hbuf] HP Hl HD Her m'. unfold m', memory_after. cbn. rewrite Hb. cbn. split; [by apply blank_holds|].
  intros x. rewrite page_of_eq by done. destruct ((P <=? x) && (x <? P + SPM_PAGESIZE)) eqn:E; [|done]. bprop.
  rewrite Her by lia. assert (x - P = x mod SPM_PAGESIZE) as Ex.
  { unfold aligned in HP. rewrite <- (Z.mod_small (x - P) SPM_PAGESIZE) by lia. by rewrite Zminus_mod, HP, Z.sub_0_r, Zmod_mod. }
  assert (buffer_byte (buffer m) x = nth (Z.to_nat (x - P)) D 255) as ->.
  { rewrite <- Hbuf by lia. unfold buffer_byte, word_of. rewrite Ex, Zmod_mod. replace (Z.even (x mod SPM_PAGESIZE)) with (Z.even x); [done|].
    rewrite (Z.div_mod x SPM_PAGESIZE) at 1 by apply page_nonzero. rewrite Z.even_add, Z.even_mul.
    replace (Z.even SPM_PAGESIZE) with true by (by rewrite Hpage, Z.even_mul). by destruct (Z.even (x mod SPM_PAGESIZE)). }
  rewrite Z.land_comm. change 255 with (Z.ones 8) at 2. rewrite Z.land_ones by lia. apply Z.mod_small. change (2 ^ 8) with 256.
  destruct (nth_in_or_default (Z.to_nat (x - P)) D 255) as [Hin|E2]; [|rewrite E2; lia].
  rewrite Forall_forall in HD. apply HD. by apply list_elem_of_In.
Qed.

(** The first page, and the rest after it. *)
Lemma programmed_page f f' P B D x : aligned P -> Z.of_nat (length B) = SPM_PAGESIZE -> D <> [] ->
  (forall y, f' y = if (P <=? y) && (y <? P + SPM_PAGESIZE) then nth (Z.to_nat (y - P)) B 255
                    else if (P + SPM_PAGESIZE <=? y) && (y <? P + SPM_PAGESIZE + SPM_PAGESIZE) then 255 else f y) ->
  programmed f' (P + SPM_PAGESIZE) D x = programmed f P (B ++ D) x.
Proof.
  intros HP HB HD Hf. unfold programmed. rewrite length_app, Nat2Z.inj_add, HB, Z.add_assoc.
  assert (0 < Z.of_nat (length D)) by (destruct D; [done|cbn; lia]).
  set (S := P + SPM_PAGESIZE) in *. set (n := Z.of_nat (length D)) in *.
  assert (S + SPM_PAGESIZE <= page_end (S + n)) as He.
  { unfold page_end. apply aligned_next in HP. fold S in HP. unfold aligned in HP. page_div (S + n + SPM_PAGESIZE - 1) e. page_div S q. rewrite HP in *.
    pose proof page_positive. assert (q < e) by (apply Z.lt_nge; intros ?; nia). nia. }
  rewrite Hf. fold S.
  repeat match goal with |- context [?a <=? ?b] => destruct (Z.leb_spec a b) | |- context [?a <? ?b] => destruct (Z.ltb_spec a b) end;
    cbn [andb]; try lia; try done; first [by rewrite app_nth1 by lia|rewrite app_nth2 by lia; f_equal; lia].
Qed.

(** The first page is erased before. *)
Lemma programmed_erased f f' P D x : aligned P -> D <> [] ->
  (forall y, f' y = if (P <=? y) && (y <? P + SPM_PAGESIZE) then 255 else f y) -> programmed f' P D x = programmed f P D x.
Proof.
  intros HP HD Hf. unfold programmed. assert (0 < Z.of_nat (length D)) by (destruct D; [done|cbn; lia]).
  set (n := Z.of_nat (length D)) in *. assert (P + SPM_PAGESIZE <= page_end (P + n)) as He.
  { unfold page_end, aligned in *. page_div (P + n + SPM_PAGESIZE - 1) e. page_div P q. rewrite HP in *.
    pose proof page_positive. assert (q < e) by (apply Z.lt_nge; intros ?; nia). nia. }
  rewrite Hf.
  repeat match goal with |- context [?a <=? ?b] => destruct (Z.leb_spec a b) | |- context [?a <? ?b] => destruct (Z.ltb_spec a b) end;
    cbn [andb]; try lia; done.
Qed.

(** The last page. *)
Lemma programmed_last f f' P D x : aligned P -> 0 < Z.of_nat (length D) <= SPM_PAGESIZE ->
  (forall y, f' y = if (P <=? y) && (y <? P + SPM_PAGESIZE) then nth (Z.to_nat (y - P)) D 255 else f y) ->
  f' x = programmed f P D x.
Proof.
  intros HP HD Hf. unfold programmed. assert (page_end (P + Z.of_nat (length D)) = P + SPM_PAGESIZE) as ->.
  { unfold page_end, aligned in *. page_div (P + Z.of_nat (length D) + SPM_PAGESIZE - 1) e. page_div P q. rewrite HP in *.
    assert (e = q + 1) as -> by nia. nia. }
  rewrite Hf.
  repeat match goal with |- context [?a <=? ?b] => destruct (Z.leb_spec a b) | |- context [?a <? ?b] => destruct (Z.ltb_spec a b) end;
    cbn [andb]; try lia; try done. rewrite nth_overflow; [done|lia].
Qed.
End memory.
