(* ===== verification/DataStage.v ===== *)
(** * The data stage of a bootloader's request

    The host's packets, byte by byte, and the pages of the flash that are programmed from
    them: what the bootloaders' loops have in common. *)
From S2P Require Import Prelude ConfigDescriptors USBIo Endpoint EndpointSpec Quiet DeviceRequests HIDDevice NetBuffers NetLemmas SelfProgram.

(** ** The packets of a data stage *)

(** The bytes that are left of the packet in the bank, and the packets after it. *)
Definition bank : Type := list Z * list (list Z).

Definition bank_event (b : bank) (e : event) : bank :=
  match e with
  | Ask q_Read_8 _ => (tail b.1, b.2)
  | Cmd c_ClearOUT => (hd [] b.2, tail b.2)
  | _ => b
  end.
Definition bank_after (b : bank) (s : list event) : bank := foldl bank_event b s.

Lemma bank_after_app b s s' : bank_after b (s ++ s') = bank_after (bank_after b s) s'.
Proof. apply foldl_app. Qed.

(** From the history [t] on, the host sends these packets, each when it is waited for. *)
Definition supplies (h : hw) (t : list event) (b : bank) : Prop :=
  forall s, let b' := bank_after b s in
  h (t ++ s) q_IsOUTReceived <> 0 /\ h (t ++ s) q_BytesInEndpoint = Z.of_nat (length b'.1) /\ h (t ++ s) q_Read_8 = hd 0 b'.1.

Lemma supplies_later h t b s : supplies h t b -> supplies h (t ++ s) (bank_after b s).
Proof. intros Hs s'. rewrite <- app_assoc, <- bank_after_app. apply Hs. Qed.

(** Packets that fit an endpoint, and are not empty. *)
Definition packet_ok (p : list Z) : Prop := (0 < length p <= 64)%nat /\ Forall is_byte p.
Definition bank_ok (b : bank) : Prop := (length b.1 <= 64)%nat /\ Forall is_byte b.1 /\ Forall packet_ok b.2.
Definition bank_bytes (b : bank) : list Z := b.1 ++ concat b.2.

Lemma bank_ok_next p next : bank_ok (p, next) -> bank_ok (hd [] next, tail next).
Proof. intros (_ & _ & Hn). destruct next as [|q next]; cbn; [split_and!; [cbn; lia|constructor|constructor]|]. inversion_clear Hn as [|? ? [Hl Hb] Hr]. split_and!; cbn; done || lia. Qed.

(** The bank before the next byte: a new packet if the last one is used up. *)
Definition refilled (b : bank) : bank := match b.1 with [] => (hd [] b.2, tail b.2) | _ => b end.

(** Packets of whole words. *)
Definition whole_words (b : bank) : Prop := Nat.Even (length b.1) /\ Forall (fun p => Nat.Even (length p)) b.2.

Lemma refilled_ok b : bank_ok b -> bank_ok (refilled b).
Proof. intros Hb. destruct b as [[|x p] next]; [by apply (bank_ok_next [])|done]. Qed.
Lemma refilled_words b : whole_words b -> whole_words (refilled b).
Proof. intros [H1 H2]. destruct b as [[|x p] [|q next]]; cbn in *; split; try done; by apply Forall_cons in H2 as [? ?]. Qed.
Lemma refilled_bytes b : bank_bytes (refilled b) = bank_bytes b.
Proof. by destruct b as [[|x p] [|q next]]. Qed.

(** The next word: its bytes, and the bank without them. *)
Lemma refilled_word b x y l : bank_ok b -> whole_words b -> bank_bytes b = x :: y :: l ->
  exists p, refilled b = (x :: y :: p, (refilled b).2) /\ bank_bytes (p, (refilled b).2) = l /\
    bank_ok (p, (refilled b).2) /\ whole_words (p, (refilled b).2) /\ is_byte x /\ is_byte y.
Proof.
  intros Hb Hw E. assert (exists z p next, refilled b = (z :: p, next)) as (z & p & next & Er).
  { destruct b as [[|z p] next]; [|by exists z, p, next]. destruct next as [|q next]; [discriminate E|]. destruct Hb as (_ & _ & Hq).
    inversion_clear Hq as [|? ? [Hq' _] _]. destruct q as [|z p]; [cbn in Hq'; lia|]. by exists z, p, next. }
  apply refilled_ok in Hb. apply refilled_words in Hw. rewrite <- refilled_bytes in E. rewrite Er in *.
  destruct Hb as (Hl & Hby & Hn), Hw as [He Hw]. cbn in *. destruct p as [|w p]; [destruct He as [k Hk]; exfalso; cbn in Hk; lia|].
  unfold bank_bytes in E. cbn in E. injection E as -> -> E. apply Forall_cons in Hby as [Hx Hby]. apply Forall_cons in Hby as [Hy Hby].
  exists p. split_and!; try done. { split_and!; [cbn in *; lia|done|done]. } split; [|done]. destruct He as [k Hk]. exists (k - 1)%nat. cbn [length fst] in *. lia.
Qed.

Lemma poll_now h fuel t : (1 <= fuel)%nat -> h t q_IsOUTReceived <> 0 ->
  wp true h (poll_attached fuel Endpoint_IsOUTReceived) t (fun ok s => ok = true /\ s = [Ask q_IsOUTReceived (h t q_IsOUTReceived)]).
Proof.
  intros Hf Hr. destruct fuel as [|fuel]; [lia|]. cbn [poll_attached]. do 3 wp_step. wp_step; [wp_step; by subst|].
  exfalso. unfold truthy in H0. rewrite negb_false_iff in H0. apply Z.eqb_eq in H0. congruence.
Qed.

Lemma wp_assoc {A B C} tot h (m : io A) (f : A -> io B) (g : B -> io C) t Q :
  wp tot h ((m ≫= f) ≫= g) t Q -> wp tot h (m ≫= (fun a => f a ≫= g)) t Q.
Proof. unfold wp, mbind, io_bind. by destruct (m h t) as [[]| |]. Qed.

Lemma wp_regroup {A B C} tot h (m : io A) (f : A -> io B) (g : B -> io C) t Q :
  wp tot h (m ≫= (fun a => f a ≫= g)) t Q -> wp tot h ((m ≫= f) ≫= g) t Q.
Proof. unfold wp, mbind, io_bind. by destruct (m h t) as [[]| |]. Qed.

Section stage.
Context (h : hw).

(** The number of bytes the bank holds. *)
Lemma bytes_in_bank b t : supplies h t b -> bank_ok b ->
  wp true h Endpoint_BytesInEndpoint t (fun n s => n = Z.of_nat (length b.1) /\ Forall leaves_memory s /\ bank_after b s = b).
Proof.
  intros Hs (Hl & _). wp_step. wp_step. pose proof (Hs []) as (_ & E & _). rewrite app_nil_r in E. cbn in E.
  rewrite H in E. subst a. rewrite E. split; [unfold u16; apply wrap_small; lia|]. split; [by repeat constructor|done].
Qed.

Lemma byte_from_bank x p next t : supplies h t (x :: p, next) -> is_byte x ->
  wp true h Endpoint_Read_8 t (fun a s => a = x /\ Forall leaves_memory s /\ bank_after (x :: p, next) s = (p, next)).
Proof.
  intros Hs Hx. do 2 wp_step. pose proof (Hs []) as (_ & _ & E). rewrite app_nil_r in E. cbn in E. rewrite H in E. subst a. rewrite E.
  split; [by apply u8_small|]. split; [by repeat constructor|done].
Qed.

Lemma word_from_bank x y p next t : supplies h t (x :: y :: p, next) -> is_byte x -> is_byte y ->
  wp true h Endpoint_Read_16_LE t (fun w s => w = x + Z.shiftl y 8 /\ Forall leaves_memory s /\ bank_after (x :: y :: p, next) s = (p, next)).
Proof.
  intros Hs Hx Hy. unfold Endpoint_Read_16_LE. wp_step. eapply wp_mono; [by apply (byte_from_bank x (y :: p) next)|]. intros a s1 (-> & H1 & E1). cbn beta.
  wp_step. eapply wp_mono; [apply (byte_from_bank y p next); [|done]|].
  { rewrite <- E1. by apply supplies_later. }
  intros b s2 (-> & H2 & E2). cbn beta. wp_step. rewrite app_nil_r. split; [done|]. split; [by apply Forall_app_2|]. by rewrite bank_after_app, E1.
Qed.
End stage.

(** ** Pages *)

Section pages.
Context `{MCU} (words : Z) (Hpage : SPM_PAGESIZE = 2 * words) (Hwords : 0 < words < 256).

Definition erased_page (f : Z -> Z) (P : Z) : Prop := forall x, P <= x < P + SPM_PAGESIZE -> f x = 255.

(** A page that is full, or the last one. *)
Lemma page_committed m P B : holds m B -> aligned P -> 0 <= P < 2 ^ 32 -> Z.of_nat (length B) <= SPM_PAGESIZE -> Forall is_byte B -> erased_page (flash m) P ->
  let s := [Cmd (c_Memory (w_Page_Write (u32 P))); Cmd (c_Memory w_Busy_Wait)] in
  holds (memory_after m s) [] /\ eeprom (memory_after m s) = eeprom m /\
  forall x, flash (memory_after m s) x = if (P <=? x) && (x <? P + SPM_PAGESIZE) then nth (Z.to_nat (x - P)) B 255 else flash m x.
Proof.
  intros Hh HP H32 HB HD He s. unfold s. rewrite u32_small by lia. destruct (write_page words Hpage Hwords m P B Hh HP HB HD He) as [H1 H2].
  split_and!; [done| |done]. unfold memory_after. cbn. destruct Hh as [-> _]. done.
Qed.

(** The next page. *)
Lemma page_erased m P : holds m [] -> aligned P -> 0 <= P < 2 ^ 32 ->
  let s := [Cmd (c_Memory (w_Page_Erase (u32 P))); Cmd (c_Memory w_Busy_Wait)] in
  holds (memory_after m s) [] /\ eeprom (memory_after m s) = eeprom m /\
  forall x, flash (memory_after m s) x = if (P <=? x) && (x <? P + SPM_PAGESIZE) then 255 else flash m x.
Proof.
  intros [Hb Hh] HP H32 s. unfold s. rewrite u32_small by lia. unfold memory_after. cbn. rewrite Hb. cbn.
  split_and!; [done|done|]. intros x. by rewrite (page_of_eq words).
Qed.
End pages.

(** The bytes of the flash from [A] on. *)
Definition flash_bytes (f : Z -> Z) (A : Z) (n : nat) : list Z := (fun i => f (A + Z.of_nat i)) <$> seq 0 n.

Lemma flash_bytes_word f A n : flash_bytes f A (2 + n) = f A :: f (A + 1) :: flash_bytes f (A + 2) n.
Proof.
  unfold flash_bytes. cbn [seq Nat.add]. rewrite !fmap_cons, Z.add_0_r. do 2 f_equal. rewrite <- (fmap_S_seq 1), <- (fmap_S_seq 0), <- !list_fmap_compose.
  apply list_fmap_ext. intros i x _. cbn. f_equal. lia.
Qed.

Lemma programmed_bytes `{MCU} f A D : flash_bytes (programmed f A D) A (length D) = D.
Proof.
  apply (list_eq_same_length _ _ (length D)); [done|unfold flash_bytes; by rewrite length_fmap, length_seq|].
  intros i x y Hi. unfold flash_bytes. rewrite list_lookup_fmap, lookup_seq_lt by done. cbn. intros [= <-] Hy. unfold programmed.
  rewrite (proj2 (Z.leb_le A _)), (proj2 (Z.ltb_lt _ (A + _))) by lia. cbn [andb]. replace (Z.to_nat (A + Z.of_nat i - A)) with i by lia.
  by apply nth_lookup_Some.
Qed.

Lemma flash_bytes_cons f A n : flash_bytes f A (S n) = f A :: flash_bytes f (A + 1) n.
Proof.
  unfold flash_bytes. cbn [seq]. rewrite fmap_cons, Z.add_0_r. f_equal. rewrite <- fmap_S_seq, <- list_fmap_compose.
  apply list_fmap_ext. intros i x _. cbn. f_equal. lia.
Qed.

(** The end of a request that sends data to the device: the status stage. *)
Lemma stage_ready h fuel r t : (1 <= fuel)%nat -> bmRequestType r = class_to_device -> (forall s, h (t ++ s) q_IsINReady <> 0) ->
  wp true h (Endpoint_ClearStatusStage fuel r) t (fun _ s => Forall leaves_memory s).
Proof.
  intros Hf Er Hin. unfold Endpoint_ClearStatusStage. rewrite Er. change (truthy (Z.land class_to_device REQDIR_DEVICETOHOST)) with false. cbv match.
  destruct fuel as [|f]; [lia|]. cbn [poll_attached]. repeat (wp_step; []). wp_step.
  - repeat wp_step; by repeat constructor.
  - exfalso. unfold truthy in H0. rewrite negb_false_iff in H0. apply Z.eqb_eq in H0. subst a. apply (Hin []). by rewrite app_nil_r.
Qed.

(** A host with the packets [b] for the request whose data stage starts after [k] events. *)
Definition packet_host (k : nat) (b : bank) : hw := fun t q =>
  let b' := bank_after b (drop k t) in
  match q with
  | q_IsOUTReceived | q_IsINReady => 1
  | q_BytesInEndpoint => Z.of_nat (length b'.1)
  | q_Read_8 => hd 0 b'.1
  | _ => 0
  end.

Lemma packet_host_supplies k b t : length t = k -> supplies (packet_host k b) t b.
Proof. intros <- s. unfold packet_host. by rewrite drop_app_length. Qed.
