(* ===== verification/BootloaderDFU.v ===== *)
(** * The DFU bootloader

    [Bootloaders/DFU/BootloaderDFU.c]: the control requests of the device firmware update
    class, with the commands of Atmel's protocol in their data.  The variables of the file
    are the record [dfu].  A handler that returns because the device was detached keeps
    what it has changed so far. *)
From S2P Require Import Prelude ConfigDescriptors USBIo Endpoint DeviceRequests HIDDevice SelfProgram.

Definition dfuIDLE := 2.
Definition dfuDNLOAD_IDLE := 5.
Definition dfuUPLOAD_IDLE := 9.
Definition dfuERROR := 10.
Definition OK := 0.
Definition errWRITE := 3.
Definition errCHECK_ERASED := 5.

Definition DFU_FILE_SUFFIX_SIZE := 16.
Definition DFU_FILLER_BYTES_SIZE := 26.
Definition DFU_REQ_DNLOAD := 1.
Definition DFU_REQ_UPLOAD := 2.
Definition DFU_REQ_GETSTATUS := 3.
Definition DFU_REQ_CLRSTATUS := 4.
Definition DFU_REQ_GETSTATE := 5.
Definition DFU_REQ_ABORT := 6.
Definition COMMAND_PROG_START := 1.
Definition COMMAND_DISP_DATA := 3.
Definition COMMAND_WRITE := 4.
Definition COMMAND_READ := 5.
Definition COMMAND_CHANGE_BASE_ADDR := 6.
Definition BOOTLOADER_VERSION := Z.lor (Z.shiftl 2 4) 0.
Definition BOOTLOADER_ID_BYTE1 := 0xDC.
Definition BOOTLOADER_ID_BYTE2 := 0xFB.
Definition FIXED_CONTROL_ENDPOINT_SIZE := 32.
Definition CONTROL_REQTYPE_TYPE := 0x60.
Definition LEDS_LED1 := Z.shiftl 1 4.
Definition LEDS_LED2 := Z.shiftl 1 5.

(** ** State *)

Record DFU_Command_t := mk_command { Command : Z; Data : list Z; DataSize : Z }.

Record dfu := mk_dfu {
    IsSecure : bool;
    RunBootloader : bool;
    WaitForExit : bool;
    DFU_State : Z;
    DFU_Status : Z;
    SentCommand : DFU_Command_t;
    ResponseByte : Z;
    AppStartPtr : Z;
    Flash64KBPage : Z;
    StartAddr : Z;
    EndAddr : Z;
    MagicBootKey : Z
  }.

(** The state after a reset; the key is not initialised. *)
Definition dfu_init (SECURE_MODE : bool) (key : Z) : dfu :=
  mk_dfu SECURE_MODE true false dfuIDLE OK (mk_command 0 [0; 0; 0; 0; 0] 0) 0 0 0 0 0 key.

Definition set_secure (b : bool) (s : dfu) : dfu :=
  mk_dfu b (RunBootloader s) (WaitForExit s) (DFU_State s) (DFU_Status s) (SentCommand s) (ResponseByte s) (AppStartPtr s)
    (Flash64KBPage s) (StartAddr s) (EndAddr s) (MagicBootKey s).
Definition set_exit (run wait : bool) (s : dfu) : dfu :=
  mk_dfu (IsSecure s) run wait (DFU_State s) (DFU_Status s) (SentCommand s) (ResponseByte s) (AppStartPtr s)
    (Flash64KBPage s) (StartAddr s) (EndAddr s) (MagicBootKey s).
Definition set_state (state status : Z) (s : dfu) : dfu :=
  mk_dfu (IsSecure s) (RunBootloader s) (WaitForExit s) state status (SentCommand s) (ResponseByte s) (AppStartPtr s)
    (Flash64KBPage s) (StartAddr s) (EndAddr s) (MagicBootKey s).
Definition set_command (c : DFU_Command_t) (s : dfu) : dfu :=
  mk_dfu (IsSecure s) (RunBootloader s) (WaitForExit s) (DFU_State s) (DFU_Status s) c (ResponseByte s) (AppStartPtr s)
    (Flash64KBPage s) (StartAddr s) (EndAddr s) (MagicBootKey s).
Definition set_response (b : Z) (s : dfu) : dfu :=
  mk_dfu (IsSecure s) (RunBootloader s) (WaitForExit s) (DFU_State s) (DFU_Status s) (SentCommand s) b (AppStartPtr s)
    (Flash64KBPage s) (StartAddr s) (EndAddr s) (MagicBootKey s).
Definition set_application (ptr key : Z) (s : dfu) : dfu :=
  mk_dfu (IsSecure s) (RunBootloader s) (WaitForExit s) (DFU_State s) (DFU_Status s) (SentCommand s) (ResponseByte s) ptr
    (Flash64KBPage s) (StartAddr s) (EndAddr s) key.
Definition set_range (page64 start end_ : Z) (s : dfu) : dfu :=
  mk_dfu (IsSecure s) (RunBootloader s) (WaitForExit s) (DFU_State s) (DFU_Status s) (SentCommand s) (ResponseByte s) (AppStartPtr s)
    page64 start end_ (MagicBootKey s).

Definition data_byte (s : dfu) (i : nat) : Z := nth i (Data (SentCommand s)) 0.
Definition IS_ONEBYTE_COMMAND (s : dfu) (cb1 : Z) : bool := data_byte s 0 =? cb1.
Definition IS_TWOBYTE_COMMAND (s : dfu) (cb1 cb2 : Z) : bool := (data_byte s 0 =? cb1) && (data_byte s 1 =? cb2).

(** The union of the low word [StartAddr] and the high word [Flash64KBPage]. *)
Definition flash_address (s : dfu) : Z := StartAddr s + Z.shiftl (Flash64KBPage s) 16.

(** ** Commands *)

Section commands.
Context `{MCU}.

Definition LoadStartEndAddresses (s : dfu) : dfu :=
  set_range (Flash64KBPage s) (data_byte s 2 + Z.shiftl (data_byte s 1) 8) (data_byte s 4 + Z.shiftl (data_byte s 3) 8) s.

Definition ProcessMemProgCommand (s : dfu) : io dfu :=
  if IS_ONEBYTE_COMMAND s 0x00 || IS_ONEBYTE_COMMAND s 0x01 then
    let s := LoadStartEndAddresses s in
    (if IS_ONEBYTE_COMMAND s 0x00 then boot_page_erase (flash_address s);; boot_spm_busy_wait else mret tt);;
    mret (set_state dfuDNLOAD_IDLE (DFU_Status s) s)
  else mret s.

(** The loop of the blank check: the first of the [n] bytes from [CurrFlashAddress] on that is not blank. *)
Fixpoint find_not_blank (n : nat) (CurrFlashAddress : Z) : io (option Z) :=
  match n with
  | O => mret None
  | S n =>
      b ← pgm_read_byte_far CurrFlashAddress;
      if negb (b =? 0xFF) then mret (Some CurrFlashAddress) else find_not_blank n (CurrFlashAddress + 1)
  end.

Definition ProcessMemReadCommand (s : dfu) : io dfu :=
  if IS_ONEBYTE_COMMAND s 0x00 || IS_ONEBYTE_COMMAND s 0x02 then
    let s := LoadStartEndAddresses s in
    mret (set_state dfuUPLOAD_IDLE (DFU_Status s) s)
  else if IS_ONEBYTE_COMMAND s 0x01 then
    found ← find_not_blank (Z.to_nat BOOT_START_ADDR) 0;
    match found with
    | Some CurrFlashAddress =>
        mret (set_state dfuERROR errCHECK_ERASED (set_range (u8 (Z.shiftr CurrFlashAddress 16)) (u16 CurrFlashAddress) (EndAddr s) s))
    | None => mret s
    end
  else mret s.

Definition ProcessWriteCommand (fuel : nat) (s : dfu) : io dfu :=
  if IS_ONEBYTE_COMMAND s 0x03 then
    let s := set_exit (RunBootloader s) true s in
    if truthy (DataSize (SentCommand s)) then
      if data_byte s 1 =? 0x01 then
        mret (set_application (data_byte s 4 + Z.shiftl (data_byte s 3) 8) (MagicBootKey s) s)
      else mret s
    else if data_byte s 1 =? 0x00 then
      wdt_enable WDTO_250MS;;
      mret (set_application (AppStartPtr s) MAGIC_BOOT_KEY s)
    else mret (set_exit false (WaitForExit s) s)
  else if IS_TWOBYTE_COMMAND s 0x00 0xFF then
    clear_pages fuel 0;;
    boot_rww_enable;;
    mret (set_secure false s)
  else mret s.

(** The index into the array is the host's. *)
Definition ProcessReadCommand (s : dfu) : io dfu :=
  let DataIndexToRead := data_byte s 1 in
  if IS_ONEBYTE_COMMAND s 0x00 then
    b ← get (arr_get [BOOTLOADER_VERSION; BOOTLOADER_ID_BYTE1; BOOTLOADER_ID_BYTE2] DataIndexToRead);
    mret (set_response b s)
  else if IS_ONEBYTE_COMMAND s 0x01 then
    b ← get (arr_get [AVR_SIGNATURE_1; AVR_SIGNATURE_2; AVR_SIGNATURE_3] (DataIndexToRead - 0x30));
    mret (set_response b s)
  else mret s.

Definition allowed_when_secure (s : dfu) : bool :=
  ((Command (SentCommand s) =? COMMAND_WRITE) && IS_TWOBYTE_COMMAND s 0x00 0xFF) || (Command (SentCommand s) =? COMMAND_READ).

Definition ProcessBootloaderCommand (fuel : nat) (s : dfu) : io dfu :=
  if IsSecure s && negb (allowed_when_secure s) then
    Endpoint_StallTransaction;;
    mret (set_state dfuERROR errWRITE s)
  else
    let c := Command (SentCommand s) in
    if c =? COMMAND_PROG_START then ProcessMemProgCommand s
    else if c =? COMMAND_DISP_DATA then ProcessMemReadCommand s
    else if c =? COMMAND_WRITE then ProcessWriteCommand fuel s
    else if c =? COMMAND_READ then ProcessReadCommand s
    else if c =? COMMAND_CHANGE_BASE_ADDR then
      mret (if IS_TWOBYTE_COMMAND s 0x03 0x00 then set_range (data_byte s 2) (StartAddr s) (EndAddr s) s else s)
    else mret s.

(** ** The data of a download *)

(** An empty bank is released and the next packet is waited for; [false] when the device is unattached. *)
Definition next_packet (fuel : nat) : io bool := Endpoint_ClearOUT;; poll_attached fuel Endpoint_IsOUTReceived.
Definition bank_filled (fuel : nat) : io bool :=
  n ← Endpoint_BytesInEndpoint;
  if negb (truthy n) then next_packet fuel else mret true.

(** Waiting for the next packet is one of the [NumberOfBytes] trips, too. *)
Fixpoint DiscardFillerBytes (fuel : nat) (NumberOfBytes : nat) : io unit :=
  match NumberOfBytes with
  | O => mret tt
  | S NumberOfBytes =>
      n ← Endpoint_BytesInEndpoint;
      if negb (truthy n) then
        attached ← next_packet fuel;
        if attached : bool then DiscardFillerBytes fuel NumberOfBytes else mret tt
      else Endpoint_Discard_8;; DiscardFillerBytes fuel NumberOfBytes
  end.

(** The parameters of a command: bytes of the packet, five at most; the other bytes are the old ones. *)
Fixpoint read_parameters (n : nat) (DataByte : Z) (c : DFU_Command_t) : io DFU_Command_t :=
  match n with
  | O => mret c
  | S n =>
      left ← Endpoint_BytesInEndpoint;
      if negb (truthy left) then mret c else
      b ← Endpoint_Read_8;
      data ← get (arr_set (Data c) DataByte b);
      read_parameters n (DataByte + 1) (mk_command (Command c) data (u16 (DataSize c - 1)))
  end.

(** The loop over the words of the flash; [false] when the device is unattached. *)
Fixpoint program_words (fuel : nat) (WordsRemaining : nat) (CurrFlashAddress CurrFlashPageStartAddress WordsInFlashPage : Z) : io bool :=
  match WordsRemaining with
  | O => mret true
  | S WordsRemaining =>
      attached ← bank_filled fuel;
      if negb attached then mret false else
      w ← Endpoint_Read_16_LE;
      boot_page_fill CurrFlashAddress w;;
      let WordsInFlashPage := u8 (WordsInFlashPage + 1) in
      let CurrFlashAddress := u32 (CurrFlashAddress + 2) in
      if (WordsInFlashPage =? Z.shiftr SPM_PAGESIZE 1) || (WordsRemaining =? 0)%nat then
        boot_page_write CurrFlashPageStartAddress;; boot_spm_busy_wait;;
        if negb (WordsRemaining =? 0)%nat then
          boot_page_erase CurrFlashAddress;; boot_spm_busy_wait;;
          program_words fuel WordsRemaining CurrFlashAddress CurrFlashAddress 0
        else program_words fuel WordsRemaining CurrFlashAddress CurrFlashPageStartAddress WordsInFlashPage
      else program_words fuel WordsRemaining CurrFlashAddress CurrFlashPageStartAddress WordsInFlashPage
  end.

(** The loop over the bytes of the EEPROM: whether the device stayed attached, and the address. *)
Fixpoint program_eeprom (fuel : nat) (BytesRemaining : nat) (StartAddr : Z) : io (bool * Z) :=
  match BytesRemaining with
  | O => mret (true, StartAddr)
  | S BytesRemaining =>
      attached ← bank_filled fuel;
      if negb attached then mret (false, StartAddr) else
      b ← Endpoint_Read_8;
      eeprom_write_byte StartAddr b;;
      program_eeprom fuel BytesRemaining (u16 (StartAddr + 1))
  end.

(** ** The data of an upload *)

Definition bank_free (fuel : nat) : io bool :=
  n ← Endpoint_BytesInEndpoint;
  if n =? FIXED_CONTROL_ENDPOINT_SIZE then Endpoint_ClearIN;; poll_attached fuel Endpoint_IsINReady else mret true.

Fixpoint upload_words (fuel : nat) (WordsRemaining : nat) (CurrFlashAddress : Z) : io bool :=
  match WordsRemaining with
  | O => mret true
  | S WordsRemaining =>
      attached ← bank_free fuel;
      if negb attached then mret false else
      w ← pgm_read_word_far CurrFlashAddress;
      Endpoint_Write_16_LE w;;
      upload_words fuel WordsRemaining (u32 (CurrFlashAddress + 2))
  end.

Fixpoint upload_eeprom (fuel : nat) (BytesRemaining : nat) (StartAddr : Z) : io (bool * Z) :=
  match BytesRemaining with
  | O => mret (true, StartAddr)
  | S BytesRemaining =>
      attached ← bank_free fuel;
      if negb attached then mret (false, StartAddr) else
      b ← eeprom_read_byte StartAddr;
      Endpoint_Write_8 b;;
      upload_eeprom fuel BytesRemaining (u16 (StartAddr + 1))
  end.
End commands.

(** ** The requests *)

Section requests.
Context `{MCU} (fuel : nat).

Definition set_DataSize (n : Z) (s : dfu) : dfu := set_command (mk_command (Command (SentCommand s)) (Data (SentCommand s)) n) s.

(** The first download after the command to exit processes that command once more. *)
Definition finish_exit (s : dfu) : io dfu :=
  if WaitForExit s then
    s ← ProcessBootloaderCommand fuel s;
    mret (set_exit (RunBootloader s) false s)
  else mret s.

(** The command in the data stage, if there is one. *)
Definition read_command (s : dfu) : io (bool * dfu) :=
  if truthy (DataSize (SentCommand s)) then
    attached ← poll_attached fuel Endpoint_IsOUTReceived;
    if negb attached then mret (false, s) else
    b ← Endpoint_Read_8;
    c ← read_parameters 5 0 (mk_command b (Data (SentCommand s)) (u16 (DataSize (SentCommand s) - 1)));
    s ← ProcessBootloaderCommand fuel (set_command c s);
    mret (true, s)
  else mret (true, s).

Definition BytesRemaining (s : dfu) : Z := u16 (EndAddr s - StartAddr s + 1).

(** The firmware after the command, between the filler bytes and the suffix. *)
Definition download (s : dfu) : io (bool * dfu) :=
  if negb (truthy (DataSize (SentCommand s))) then mret (true, set_state dfuIDLE (DFU_Status s) s) else
  DiscardFillerBytes fuel (Z.to_nat DFU_FILLER_BYTES_SIZE);;
  DiscardFillerBytes fuel (Z.to_nat (u8 (StartAddr s mod FIXED_CONTROL_ENDPOINT_SIZE)));;
  '(attached, s) ←
    (if IS_ONEBYTE_COMMAND s 0x00 then
       let WordsRemaining := Z.shiftr (BytesRemaining s) 1 in
       attached ← program_words fuel (Z.to_nat WordsRemaining) (flash_address s) (flash_address s) 0;
       if negb attached then mret (false, s) else
       let s := set_range (Flash64KBPage s) (EndAddr s) (EndAddr s) s in
       boot_rww_enable;;
       mret (true, s)
     else
       '(attached, start) ← program_eeprom fuel (Z.to_nat (BytesRemaining s)) (StartAddr s);
       mret (attached, set_range (Flash64KBPage s) start (EndAddr s) s));
  if negb attached then mret (false, s) else
  DiscardFillerBytes fuel (Z.to_nat DFU_FILE_SUFFIX_SIZE);;
  mret (true, s).

Definition dfu_DNLOAD (r : USB_Request_Header_t) (s : dfu) : io dfu :=
  Endpoint_ClearSETUP;;
  s ← finish_exit s;
  '(attached, s) ← read_command s;
  if negb attached then mret s else
  '(attached, s) ← (if DFU_State s =? dfuDNLOAD_IDLE then download s else mret (true, s));
  if negb attached then mret s else
  Endpoint_ClearOUT;;
  Endpoint_ClearStatusStage fuel r;;
  mret s.

(** The bytes of the memory from [StartAddr] to [EndAddr]. *)
Definition upload (s : dfu) : io (bool * dfu) :=
  '(attached, s) ←
    (if IS_ONEBYTE_COMMAND s 0x00 then
       let WordsRemaining := Z.shiftr (BytesRemaining s) 1 in
       attached ← upload_words fuel (Z.to_nat WordsRemaining) (flash_address s);
       if negb attached then mret (false, s) else
       mret (true, set_range (Flash64KBPage s) (EndAddr s) (EndAddr s) s)
     else if IS_ONEBYTE_COMMAND s 0x02 then
       '(attached, start) ← upload_eeprom fuel (Z.to_nat (BytesRemaining s)) (StartAddr s);
       mret (attached, set_range (Flash64KBPage s) start (EndAddr s) s)
     else mret (true, s));
  if negb attached then mret (false, s) else
  mret (true, set_state dfuIDLE (DFU_Status s) s).

Definition dfu_UPLOAD (r : USB_Request_Header_t) (s : dfu) : io dfu :=
  Endpoint_ClearSETUP;;
  attached ← poll_attached fuel Endpoint_IsINReady;
  if negb attached then mret s else
  '(attached, s) ←
    (if negb (DFU_State s =? dfuUPLOAD_IDLE) then
       (if (DFU_State s =? dfuERROR) && IS_ONEBYTE_COMMAND s 0x01 then Endpoint_Write_16_LE (StartAddr s)
        else Endpoint_Write_8 (ResponseByte s));;
       mret (true, s)
     else upload s);
  if negb attached then mret s else
  Endpoint_ClearIN;;
  Endpoint_ClearStatusStage fuel r;;
  mret s.

Definition dfu_GETSTATUS (r : USB_Request_Header_t) (s : dfu) : io dfu :=
  Endpoint_ClearSETUP;;
  Endpoint_Write_8 (DFU_Status s);;
  Endpoint_Write_8 0;;
  Endpoint_Write_16_LE 0;;
  Endpoint_Write_8 (DFU_State s);;
  Endpoint_Write_8 0;;
  Endpoint_ClearIN;;
  Endpoint_ClearStatusStage fuel r;;
  mret s.

Definition EVENT_USB_Device_ControlRequest (r : USB_Request_Header_t) (s : dfu) : io dfu :=
  if negb (Z.land (bmRequestType r) (Z.lor CONTROL_REQTYPE_TYPE CONTROL_REQTYPE_RECIPIENT) =? Z.lor REQTYPE_CLASS REQREC_INTERFACE)
  then mret s else
  LEDs_ToggleLEDs (Z.lor LEDS_LED1 LEDS_LED2);;
  let s := set_DataSize (wLength r) s in
  let c := bRequest r in
  if c =? DFU_REQ_DNLOAD then dfu_DNLOAD r s
  else if c =? DFU_REQ_UPLOAD then dfu_UPLOAD r s
  else if c =? DFU_REQ_GETSTATUS then dfu_GETSTATUS r s
  else if c =? DFU_REQ_CLRSTATUS then
    Endpoint_ClearSETUP;;
    let s := set_state (DFU_State s) OK s in
    Endpoint_ClearStatusStage fuel r;;
    mret s
  else if c =? DFU_REQ_GETSTATE then
    Endpoint_ClearSETUP;;
    Endpoint_Write_8 (DFU_State s);;
    Endpoint_ClearIN;;
    Endpoint_ClearStatusStage fuel r;;
    mret s
  else if c =? DFU_REQ_ABORT then
    Endpoint_ClearSETUP;;
    let s := set_state dfuIDLE (DFU_Status s) s in
    Endpoint_ClearStatusStage fuel r;;
    mret s
  else mret s.
End requests.
