(* ===== verification/BootloaderDFUSpec.v ===== *)
(** * Correctness of the DFU bootloader

    Firmware that is downloaded is in the flash, and is what an upload returns; in secure
    mode nothing is read or written before the whole application is erased; and the
    requests that go wrong. *)
From S2P Require Import Prelude ConfigDescriptors USBIo Endpoint EndpointSpec Quiet DeviceRequests HIDDevice NetBuffers NetLemmas SelfProgram DataStage BootloaderDFU.

(** ** The packets of a download *)

Section stage.
Context (h : hw) (fuel : nat) (Hf : (1 <= fuel)%nat).

(** Releasing the bank: the next packet. *)
Lemma next_packet_ok b t : supplies h t b ->
  wp true h (next_packet fuel) t (fun ok s => ok = true /\ Forall leaves_memory s /\ bank_after b s = (hd [] b.2, tail b.2)).
Proof.
  intros Hs. unfold next_packet. do 3 wp_step. eapply wp_mono; [apply poll_now; [done|by apply Hs]|].
  intros ok s [-> ->]. split; [done|]. split; [by repeat constructor|]. done.
Qed.

Lemma bank_filled_ok b t : supplies h t b -> bank_ok b ->
  wp true h (bank_filled fuel) t (fun ok s => ok = true /\ Forall leaves_memory s /\ bank_after b s = refilled b).
Proof.
  intros Hs Hb. unfold bank_filled. wp_step. eapply wp_mono; [by apply bytes_in_bank|]. intros n s (-> & Hm & Eb). cbn beta.
  apply (supplies_later _ _ _ s) in Hs. rewrite Eb in Hs. destruct b as [[|x p] next]; cbn [fst length] in *.
  - change (negb (truthy (Z.of_nat 0))) with true. cbv match. eapply wp_mono; [by apply (next_packet_ok ([], next))|].
    intros ok s' (-> & Hm' & Eb'). split; [done|]. split; [by apply Forall_app_2|]. by rewrite bank_after_app, Eb.
  - assert (negb (truthy (Z.of_nat (S (length p)))) = false) as ->.
    { unfold truthy. rewrite negb_involutive. apply Z.eqb_neq. lia. }
    wp_step. rewrite app_nil_r. done.
Qed.

End stage.

(** ** Programming the flash *)

Section program.
Context `{MCU} (words : Z) (Hpage : SPM_PAGESIZE = 2 * words) (Hwords : 0 < words < 256).

(** The memory after [D] is programmed, and the bank after its words are read. *)
Record words_done (m : memory) (b : bank) (P : Z) (D rest : list Z) (s : list event) : Prop := {
    wd_flash : forall x, flash (memory_after m s) x = programmed (flash m) P D x;
    wd_idle : holds (memory_after m s) [];
    wd_eeprom : eeprom (memory_after m s) = eeprom m;
    wd_bytes : bank_bytes (bank_after b s) = rest;
    wd_bank : bank_ok (bank_after b s)
  }.

Lemma words_done_after m m1 b b1 P D rest s0 s : memory_after m s0 = m1 -> flash m1 = flash m -> eeprom m1 = eeprom m -> bank_after b s0 = b1 ->
  words_done m1 b1 P D rest s -> words_done m b P D rest (s0 ++ s).
Proof.
  intros <- Ef Ee <- [H1 H2 H3 H4 H5]. split; rewrite ?memory_after_app, ?bank_after_app; try done; [|by rewrite H3].
  intros x. by rewrite H1, Ef.
Qed.

(** The counter of the words in the page. *)
Lemma words_in_page (B : list Z) x y : Nat.Even (length B) -> Z.of_nat (length B) < SPM_PAGESIZE -> let B' := B ++ [x; y] in
  u8 (Z.of_nat (length B) / 2 + 1) = Z.of_nat (length B') / 2 /\ Z.of_nat (length B') = Z.of_nat (length B) + 2 /\ Nat.Even (length B') /\
  (Z.of_nat (length B') / 2 =? Z.shiftr SPM_PAGESIZE 1) = (Z.of_nat (length B') =? SPM_PAGESIZE) /\ Z.of_nat (length B') <= SPM_PAGESIZE.
Proof.
  intros [k Hk] HB B'. assert (length B' = (2 * (k + 1))%nat) as E by (unfold B'; rewrite length_app, Hk; cbn [length]; lia).
  rewrite E, Hk, Hpage, Z.shiftr_div_pow2 by lia. change (2 ^ 1) with 2.
  replace (Z.of_nat (2 * k)) with (Z.of_nat k * 2) by lia. replace (Z.of_nat (2 * (k + 1))) with ((Z.of_nat k + 1) * 2) by lia.
  rewrite (Z.mul_comm 2 words), !Z.div_mul by lia. rewrite u8_small by lia. split_and!; [lia|lia|by exists (k + 1)%nat| |lia].
  destruct (Z.eqb_spec (Z.of_nat k + 1) words), (Z.eqb_spec ((Z.of_nat k + 1) * 2) (words * 2)); lia || done.
Qed.

(** The last page, and a page before it. *)
Lemma last_page_done m b P B : holds m B -> aligned P -> 0 <= P < 2 ^ 32 -> B <> [] -> Z.of_nat (length B) <= SPM_PAGESIZE -> Forall is_byte B ->
  erased_page (flash m) P -> bank_ok b ->
  words_done m b P B (bank_bytes b) [Cmd (c_Memory (w_Page_Write (u32 P))); Cmd (c_Memory w_Busy_Wait)].
Proof.
  intros Hh HP H32 Hne HB HD He Hok. destruct (page_committed words Hpage Hwords m P B) as (H1 & H2 & H3); try done.
  split; try done. intros x. apply (programmed_last words); [done|done|done| |done]. destruct B; [done|cbn [length] in *; lia].
Qed.

Lemma full_page_done m b P B D rest s : holds m B -> aligned P -> 0 <= P -> P + SPM_PAGESIZE < 2 ^ 32 -> Z.of_nat (length B) = SPM_PAGESIZE -> Forall is_byte B ->
  erased_page (flash m) P -> D <> [] ->
  let c := [Cmd (c_Memory (w_Page_Write (u32 P))); Cmd (c_Memory w_Busy_Wait)] ++
           [Cmd (c_Memory (w_Page_Erase (u32 (P + SPM_PAGESIZE)))); Cmd (c_Memory w_Busy_Wait)] in
  holds (memory_after m c) [] /\ erased_page (flash (memory_after m c)) (P + SPM_PAGESIZE) /\
  (words_done (memory_after m c) b (P + SPM_PAGESIZE) D rest s -> words_done m b P (B ++ D) rest (c ++ s)).
Proof.
  intros Hh HP H0 H32 HB HD He Hne c. destruct (page_committed words Hpage Hwords m P B) as (H1 & H2 & H3); try done; [lia..|].
  set (w := [Cmd (c_Memory (w_Page_Write _)); _]) in *. set (e := [Cmd (c_Memory (w_Page_Erase _)); _]) in *.
  destruct (page_erased words Hpage Hwords (memory_after m w) (P + SPM_PAGESIZE) H1 (aligned_next words Hpage Hwords P HP) ltac:(lia)) as (E1 & E2 & E3).
  fold e in E1, E2, E3. unfold c. rewrite memory_after_app. split; [done|]. split; [intros x Hx; rewrite E3; by rewrite (proj2 (Z.leb_le _ _)), (proj2 (Z.ltb_lt _ _)) by lia|].
  intros [W1 W2 W3 W4 W5]. split; rewrite ?memory_after_app, ?bank_after_app; try done; [|by rewrite W3, E2].
  intros x. rewrite W1. apply (programmed_page words); try done. intros y. rewrite E3, H3.
  destruct (Z.leb_spec (P + SPM_PAGESIZE) y), (Z.ltb_spec y (P + SPM_PAGESIZE)); cbn [andb]; try lia; rewrite ?andb_true_r, ?andb_false_r; done.
Qed.

Context (h : hw) (fuel : nat) (Hf : (1 <= fuel)%nat).

(** The next word goes to the buffer, and the loop goes on with [k]. *)
Lemma next_word (k : io bool) x y D B P m b t rest Q :
  supplies h t b -> bank_ok b -> whole_words b -> bank_bytes b = x :: y :: D ++ rest ->
  Forall is_byte B -> holds m B -> Z.of_nat (length B) < SPM_PAGESIZE -> Nat.Even (length B) ->
  aligned P -> 0 <= P -> P + Z.of_nat (length B) < 2 ^ 32 ->
  (forall s0 m1 b1, memory_after m s0 = m1 -> flash m1 = flash m -> eeprom m1 = eeprom m -> bank_after b s0 = b1 -> holds m1 (B ++ [x; y]) ->
     Forall is_byte (B ++ [x; y]) -> supplies h (t ++ s0) b1 -> bank_ok b1 -> whole_words b1 -> bank_bytes b1 = D ++ rest ->
     wp true h k (t ++ s0) (fun ok s => Q ok (s0 ++ s))) ->
  wp true h (attached ← bank_filled fuel; if negb attached then mret false else
             w ← Endpoint_Read_16_LE; boot_page_fill (P + Z.of_nat (length B)) w;; k) t Q.
Proof.
  intros Hs Hok Hw ED HB Hh LB [j Hj] HP H0 H32 Hk.
  destruct (refilled_word b x y (D ++ rest) Hok Hw ED) as (p & Er & Eb & Hok' & Hw' & Hx & Hy).
  wp_step. eapply wp_mono; [by apply bank_filled_ok|]. intros ok s1 (-> & Hm1 & Eb1). cbn beta. cbn [negb]. cbv match.
  wp_step. eapply wp_mono; [apply (word_from_bank h x y p (refilled b).2); [|done|done]|].
  { rewrite <- Er, <- Eb1. by apply supplies_later. }
  intros w s2 (-> & Hm2 & Eb2). cbn beta. unfold boot_page_fill. do 2 wp_step.
  set (fill := Cmd (c_Memory _)). set (s0 := s1 ++ s2 ++ [fill]).
  assert (bank_after b s0 = (p, (refilled b).2)) as Eb0 by (unfold s0; rewrite !bank_after_app, Eb1, Er, Eb2; done).
  assert (memory_after m s0 = memory_step m (w_Page_Fill (P + Z.of_nat (length B)) (x + Z.shiftl y 8))) as Em.
  { unfold s0. rewrite !memory_after_app, !(memory_left _ s1), (memory_left _ s2) by done. unfold is_byte in *.
    assert (0 <= x + Z.shiftl y 8 < 65536) by (rewrite Z.shiftl_mul_pow2; lia).
    unfold fill. rewrite u32_small, u16_small by lia. done. }
  replace (((t ++ s1) ++ s2) ++ [fill]) with (t ++ s0) by (unfold s0; by rewrite !app_assoc).
  destruct (fill_holds m B j (P + Z.of_nat (length B)) x y Hh Hj) as [Hfill Hflash]; [|done|done|].
  { unfold aligned in HP. rewrite <- Zplus_mod_idemp_l, HP, Z.mod_small; lia. }
  eapply wp_mono; [apply (Hk s0 _ (p, (refilled b).2) Em Hflash); try done|].
  - destruct Hh as [Hb _]. cbn. by rewrite Hb.
  - apply Forall_app_2; [done|]. by apply Forall_cons_2; [|apply Forall_cons_2].
  - rewrite <- Eb0. by apply supplies_later.
  - intros ok s HQ. unfold s0 in HQ. by rewrite <- !app_assoc in HQ.
Qed.

(** Words of [B] are in the buffer, and [D] is still to come. *)
Lemma words_programmed n : forall D B P m b t rest, n <> 0%nat ->
  supplies h t b -> bank_ok b -> whole_words b -> bank_bytes b = D ++ rest -> length D = (2 * n)%nat ->
  Forall is_byte B -> holds m B -> Z.of_nat (length B) < SPM_PAGESIZE -> Nat.Even (length B) ->
  aligned P -> 0 <= P -> P + Z.of_nat (length B) + 2 * Z.of_nat n < 2 ^ 32 -> erased_page (flash m) P ->
  wp true h (program_words fuel n (P + Z.of_nat (length B)) P (Z.of_nat (length B) / 2)) t (fun ok s =>
    ok = true /\ words_done m b P (B ++ D) rest s).
Proof.
  induction n as [|n IH]; intros D B P m b t rest Hn Hs Hok Hw ED LD HB Hh LB EB HP H0 H32 He; [done|]. clear Hn.
  destruct D as [|x [|y D]]; [cbn in LD; lia|cbn in LD; lia|]. cbn [length] in LD. cbn [program_words].
  apply (next_word _ x y D B P m b t rest); try done; [lia|].
  intros s0 m1 b1 Em1 Ef Ee Eb0 Hh1 HB' Hs1 Hok' Hw' Eb. set (B' := B ++ [x; y]) in *.
  destruct (words_in_page B x y EB LB) as (Eu & EB' & EvB & Ecmp & LB'). fold B' in Eu, EB', EvB, Ecmp, LB'.
  rewrite Eu, Ecmp. rewrite (u32_small (P + Z.of_nat (length B) + 2)) by lia. replace (P + Z.of_nat (length B) + 2) with (P + Z.of_nat (length B')) by lia.
  apply (wp_mono _ _ _ _ (fun ok s => ok = true /\ words_done m1 b1 P (B' ++ D) rest s)).
  2: { intros ok s [-> Hd]. split; [done|]. apply (words_done_after m m1 b b1); [done..|]. by unfold B' in Hd; rewrite <- app_assoc in Hd. }
  assert (erased_page (flash m1) P) as He1 by (by rewrite Ef).
  assert (B' <> []) as Hne by (intros E; rewrite E in EB'; cbn in EB'; lia). clearbody B'. clear Em1 Eb0 Hs ED Hh Hok Hw.
  destruct (Nat.eqb_spec n 0) as [->|Hn].
  { rewrite orb_true_r. destruct D; [|cbn in LD; lia]. unfold boot_page_write, boot_spm_busy_wait. do 4 wp_step. cbn [negb program_words]. wp_step.
    split; [done|]. rewrite !app_nil_r. change ([] ++ rest) with rest in Eb. rewrite <- Eb. apply last_page_done; done || lia. }
  rewrite orb_false_r. destruct (Z.eqb_spec (Z.of_nat (length B')) SPM_PAGESIZE) as [Efull|Hfree]; cbv match.
  - assert (D <> []) as HD by (intros ->; cbn in LD; lia). rewrite Efull.
    unfold boot_page_write, boot_page_erase, boot_spm_busy_wait. do 4 wp_step. cbn [negb]. do 4 wp_step.
    destruct (full_page_done m1 b1 P B' D rest [] Hh1 HP H0 ltac:(lia) Efull HB' He1 HD) as (F1 & F2 & _).
    set (c := [Cmd (c_Memory (w_Page_Write _)); _] ++ _) in *.
    match goal with |- wp _ _ _ ?t' _ => assert (t' = (t ++ s0) ++ c) as -> by (unfold c; by rewrite <- !app_assoc) end.
    assert (supplies h ((t ++ s0) ++ c) b1) as Hs2 by (apply (supplies_later _ _ _ c) in Hs1; exact Hs1).
    pose proof (IH D [] (P + SPM_PAGESIZE) (memory_after m1 c) b1 _ rest Hn Hs2 Hok' Hw' Eb ltac:(lia) (Forall_nil_2 _) F1 ltac:(cbn [length]; lia)
      ltac:(by exists 0%nat) (aligned_next words Hpage Hwords P HP) ltac:(lia) ltac:(cbn [length]; lia) F2) as G.
    cbn [length] in G. rewrite Z.add_0_r in G. eapply wp_mono; [exact G|]. intros ok s [-> Hd]. split; [done|].
    destruct (full_page_done m1 b1 P B' D rest s Hh1 HP H0 ltac:(lia) Efull HB' He1 HD) as (_ & _ & Hfull). exact (Hfull Hd).
  - eapply wp_mono; [apply (IH D B' P m1 b1); done || lia|done].
Qed.
End program.

(** ** Filler bytes and parameters *)

(** What [n] trips of the loop that discards bytes leave: a trip that finds the bank empty
    fetches the next packet and discards nothing. *)
Fixpoint discarded (n : nat) (b : bank) : bank :=
  match n with
  | O => b
  | S n => discarded n (match b.1 with [] => (hd [] b.2, tail b.2) | _ :: p => (p, b.2) end)
  end.

Lemma discarded_in_packet n : forall p next, (n <= length p)%nat -> discarded n (p, next) = (drop n p, next).
Proof. induction n as [|n IH]; intros p next Hn; [done|]. destruct p as [|x p]; [cbn in Hn; lia|]. cbn. apply IH. cbn in Hn. lia. Qed.

(** At the start of a packet one byte less is discarded. *)
Lemma discarded_next_packet n p next : (n <= length p)%nat -> discarded (S n) ([], p :: next) = (drop n p, next).
Proof. intros Hn. cbn. by apply discarded_in_packet. Qed.

Section stages.
Context (h : hw) (fuel : nat) (Hf : (1 <= fuel)%nat).

Lemma discard_ok n : forall b t, supplies h t b -> bank_ok b ->
  wp true h (DiscardFillerBytes fuel n) t (fun _ s => Forall leaves_memory s /\ bank_after b s = discarded n b).
Proof.
  induction n as [|n IH]; intros b t Hs Hb; [cbn [DiscardFillerBytes]; by wp_step|]. cbn [DiscardFillerBytes discarded]. wp_step.
  eapply wp_mono; [by apply bytes_in_bank|]. intros k s (-> & Hm & Eb). cbn beta. apply (supplies_later _ _ _ s) in Hs. rewrite Eb in Hs.
  destruct b as [[|x p] next]; cbn [fst snd length] in *.
  - change (negb (truthy (Z.of_nat 0))) with true. cbv match. wp_step. eapply wp_mono; [by apply (next_packet_ok h fuel Hf ([], next))|].
    intros ok s' (-> & Hm' & Eb'). cbv match. apply (supplies_later _ _ _ s') in Hs. rewrite Eb' in Hs.
    eapply wp_mono; [apply IH; [exact Hs|by apply (bank_ok_next [])]|]. intros _ s2 [H2 E2].
    split; [by repeat apply Forall_app_2|]. by rewrite !bank_after_app, Eb, Eb', E2.
  - assert (negb (truthy (Z.of_nat (S (length p)))) = false) as -> by (unfold truthy; rewrite negb_involutive; apply Z.eqb_neq; lia).
    destruct Hb as (Hl & [Hx Hp]%Forall_cons & Hn). unfold Endpoint_Discard_8. do 2 wp_step.
    eapply wp_mono; [by apply (byte_from_bank h x p next)|]. intros a s' (-> & Hm' & Eb'). cbn beta. wp_step. rewrite app_nil_r.
    apply (supplies_later _ _ _ s') in Hs. rewrite Eb' in Hs.
    eapply wp_mono; [apply IH; [exact Hs|by split_and!; cbn in *; [lia|..]]|]. intros _ s2 [H2 E2].
    split; [by repeat apply Forall_app_2|]. by rewrite !bank_after_app, Eb, Eb', E2.
Qed.

Lemma parameters_read n : forall i c p next t, supplies h t (p, next) -> bank_ok (p, next) -> (n <= length p)%nat ->
  (i + n)%nat = length (Data c) -> Z.of_nat n <= DataSize c < 65536 ->
  wp true h (read_parameters n (Z.of_nat i) c) t (fun c' s =>
    c' = mk_command (Command c) (take i (Data c) ++ take n p) (DataSize c - Z.of_nat n) /\ Forall leaves_memory s /\ bank_after (p, next) s = (drop n p, next)).
Proof.
  induction n as [|n IH]; intros i [cmd data size] p next t Hs Hb Hn Hi Hd; cbn [Data Command DataSize] in *.
  - cbn [read_parameters]. wp_step. rewrite Z.sub_0_r, take_0, app_nil_r, take_ge, drop_0 by lia. done.
  - cbn [read_parameters]. wp_step. eapply wp_mono; [by apply bytes_in_bank|]. intros k s (-> & Hm & Eb). cbn beta.
    destruct p as [|x p]; cbn [fst snd length] in *; [lia|].
    assert (negb (truthy (Z.of_nat (S (length p)))) = false) as -> by (unfold truthy; rewrite negb_involutive; apply Z.eqb_neq; lia).
    apply (supplies_later _ _ _ s) in Hs. rewrite Eb in Hs. destruct Hb as (Hl & [Hx Hp]%Forall_cons & Hnx). cbn in Hl.
    wp_step. eapply wp_mono; [by apply (byte_from_bank h x p next)|]. intros a s' (-> & Hm' & Eb'). cbn beta.
    apply (supplies_later _ _ _ s') in Hs. rewrite Eb' in Hs.
    wp_step. wp_step. { unfold arr_set. cbn [Data]. rewrite (proj2 (Z.leb_le 0 (Z.of_nat i))), (proj2 (Z.ltb_lt (Z.of_nat i) (Z.of_nat (length data)))) by lia. cbn [andb]. by rewrite Nat2Z.id. }
    cbn [Data Command DataSize]. replace (Z.of_nat i + 1) with (Z.of_nat (S i)) by lia. rewrite u16_small, app_nil_r by lia.
    eapply wp_mono; [apply IH; [exact Hs|by split_and!; cbn; [lia|..]|lia|cbn [Data]; rewrite length_insert; lia|cbn [DataSize]; lia]|].
    intros c' s2 (-> & H2 & E2). cbn [Data Command DataSize]. change ([] ++ s2) with s2. split; [|split; [by repeat apply Forall_app_2|by rewrite !bank_after_app, Eb, Eb', E2]].
    f_equal; [|lia]. rewrite (take_S_r _ _ x) by (apply list_lookup_insert_eq; lia). rewrite take_insert_ge by lia. by rewrite <- app_assoc.
Qed.
End stages.

(** ** Requests *)

(** The history in which a handler looks at the data stage. *)
Definition accepted (t : list event) : list event :=
  t ++ [Cmd (c_ToggleLEDs (Z.lor LEDS_LED1 LEDS_LED2)); Cmd c_ClearSETUP].

(** A bootloader that takes commands. *)
Record open (s : dfu) : Prop := {
    op_secure : IsSecure s = false;
    op_exit : WaitForExit s = false;
    op_data : length (Data (SentCommand s)) = 5%nat;
    op_page : 0 <= Flash64KBPage s < 256
  }.

(** A command for the bytes of the flash from [S] on, [n] of them. *)
Definition range_command (c S n : Z) : list Z := [c; 0; S / 256; S mod 256; (S + n - 1) / 256; (S + n - 1) mod 256].

Lemma range_bytes c S n : is_byte c -> 0 <= S < 65536 -> 0 <= S + n - 1 < 65536 -> Forall is_byte (range_command c S n).
Proof.
  intros Hc HS HE. unfold range_command. repeat apply Forall_cons_2; try done; unfold is_byte; Z.div_mod_to_equations; lia.
Qed.

Lemma word_of_bytes v : v mod 256 + Z.shiftl (v / 256) 8 = v.
Proof. rewrite Z.shiftl_mul_pow2 by lia. change (2 ^ 8) with 256. Z.div_mod_to_equations. lia. Qed.

(** The state in which a command is processed, and the one after a command with a range. *)
Definition commanded (c S n size : Z) (s : dfu) : dfu :=
  set_command (mk_command c [0; S / 256; S mod 256; (S + n - 1) / 256; (S + n - 1) mod 256] size) s.
Definition ranged (c S n size state : Z) (s : dfu) : dfu :=
  set_state state (DFU_Status s) (set_range (Flash64KBPage s) S (S + n - 1) (commanded c S n size s)).

Lemma load_range c S n size s : LoadStartEndAddresses (commanded c S n size s) = set_range (Flash64KBPage s) S (S + n - 1) (commanded c S n size s).
Proof. unfold LoadStartEndAddresses, commanded, data_byte. cbn. by rewrite !word_of_bytes. Qed.

Section requests.
Context `{MCU} (words : Z) (Hpage : SPM_PAGESIZE = 2 * words) (Hwords : 0 < words < 256).
Context (h : hw) (fuel : nat) (Hf : (1 <= fuel)%nat).

Lemma command_read s c S n rest next t Q :
  supplies h t (range_command c S n ++ rest, next) -> bank_ok (range_command c S n ++ rest, next) -> length (Data (SentCommand s)) = 5%nat ->
  6 <= DataSize (SentCommand s) < 65536 ->
  (forall s0, Forall leaves_memory s0 -> bank_after (range_command c S n ++ rest, next) s0 = (rest, next) ->
     wp true h (ProcessBootloaderCommand fuel (commanded c S n (DataSize (SentCommand s) - 6) s)) (t ++ s0) (fun s' e => Q (true, s') (s0 ++ e))) ->
  wp true h (read_command fuel s) t Q.
Proof.
  intros Hs Hb Hl Hd HQ. unfold read_command. assert (truthy (DataSize (SentCommand s)) = true) as -> by (unfold truthy; rewrite (proj2 (Z.eqb_neq _ _)) by lia; done).
  pose proof (Hs []) as (Hout & _). rewrite app_nil_r in Hout.
  wp_step. eapply wp_mono; [by apply poll_now|]. intros ok s1 [-> ->]. cbn beta. cbn [negb]. cbv match. set (e1 := [Ask q_IsOUTReceived _]).
  apply (supplies_later _ _ _ e1) in Hs. change (bank_after _ e1) with (range_command c S n ++ rest, next) in Hs.
  destruct Hb as (Hlen & [Hc Hby]%Forall_cons & Hn). set (ps := [0; S / 256; S mod 256; (S + n - 1) / 256; (S + n - 1) mod 256] ++ rest).
  change (range_command c S n ++ rest) with (c :: ps) in *. wp_step. eapply wp_mono; [by apply (byte_from_bank h c ps next)|].
  intros a s2 (-> & H2 & E2). cbn beta. apply (supplies_later _ _ _ s2) in Hs. rewrite E2 in Hs. rewrite u16_small by lia. wp_step.
  eapply wp_mono; [apply (parameters_read h fuel Hf 5 0 (mk_command c (Data (SentCommand s)) (DataSize (SentCommand s) - 1)) ps next); [exact Hs| |cbn; lia|by cbn|cbn; lia]|].
  { split_and!; [cbn in *; lia|done|done]. }
  intros c' s3 (-> & H3 & E3). cbn [Data Command DataSize take]. rewrite app_nil_l. wp_step.
  change (drop 5 ps) with rest in E3.
  change (mk_command c (take 5 ps) _) with (mk_command c [0; S / 256; S mod 256; (S + n - 1) / 256; (S + n - 1) mod 256] (DataSize (SentCommand s) - 1 - 5)).
  replace (DataSize (SentCommand s) - 1 - 5) with (DataSize (SentCommand s) - 6) by lia. rewrite <- !app_assoc.
  eapply wp_mono; [apply (HQ (e1 ++ s2 ++ s3)); [by repeat first [apply Forall_app_2|apply Forall_cons_2|done]|]|].
  { rewrite !bank_after_app. change (bank_after _ e1) with (c :: ps, next). by rewrite E2. }
  intros s' e HQe. wp_step. rewrite app_nil_r. cbn beta in HQe. by rewrite <- !app_assoc in HQe.
Qed.

(** The start of the data stage of a download. *)
Lemma stage_supplied t b : supplies h (accepted t) b ->
  supplies h ((t ++ [Cmd (c_ToggleLEDs (Z.lor LEDS_LED1 LEDS_LED2))]) ++ [Cmd c_ClearSETUP]) b.
Proof. unfold accepted. by rewrite <- app_assoc. Qed.

End requests.

(** ** Firmware in the flash *)

(** Firmware [D] for the bytes from [S] on: the command, 26 filler bytes, the data and the
    suffix, in packets of whole words of which the first ends with the filler bytes. *)
Record firmware (S : Z) (D : list Z) (first : list Z) (ps : list (list Z)) : Prop := {
    fw_start : 0 <= S /\ S mod FIXED_CONTROL_ENDPOINT_SIZE = 0;
    fw_bytes : Forall is_byte D;
    fw_length : D <> [] /\ Nat.Even (length D) /\ S + Z.of_nat (length D) <= 65536 /\ Z.of_nat (length D) + 48 < 65536;
    fw_first : exists filler, length filler = 26%nat /\ Forall is_byte filler /\ first = range_command COMMAND_PROG_START S (Z.of_nat (length D)) ++ filler;
    fw_packets : exists suffix, length suffix = 16%nat /\ concat ps = D ++ suffix;
    fw_words : Forall (fun p => packet_ok p /\ Nat.Even (length p)) ps
  }.


Section firmware.
Context `{MCU} (words : Z) (Hpage : SPM_PAGESIZE = 2 * words) (Hwords : 0 < words < 256).
Context (h : hw) (fuel : nat) (Hf : (1 <= fuel)%nat).

(** What a download leaves: the memory, and the state in which an upload can be asked for. *)
Record downloaded (m : memory) (A : Z) (D : list Z) (s s' : dfu) (e : list event) : Prop := {
    dl_flash : forall x, flash (memory_after m e) x = programmed (flash m) A D x;
    dl_idle : holds (memory_after m e) [];
    dl_readable : readable (memory_after m e) = true;
    dl_eeprom : eeprom (memory_after m e) = eeprom m;
    dl_open : open s';
    dl_state : DFU_State s' = dfuDNLOAD_IDLE /\ Flash64KBPage s' = Flash64KBPage s
  }.

Lemma download_stored m s S D first ps t :
  open s -> holds m [] -> firmware S D first ps -> aligned (S + Z.shiftl (Flash64KBPage s) 16) ->
  supplies h t ([], ps) -> erased_page (flash m) (S + Z.shiftl (Flash64KBPage s) 16) ->
  wp true h (program_words fuel (Z.to_nat (Z.shiftr (Z.of_nat (length D)) 1)) (S + Z.shiftl (Flash64KBPage s) 16) (S + Z.shiftl (Flash64KBPage s) 16) 0) t (fun ok e =>
    ok = true /\ words_done m ([], ps) (S + Z.shiftl (Flash64KBPage s) 16) D (drop (length D) (concat ps)) e).
Proof.
  intros [_ _ _ Hpg] Hh [[HS _] HD (Hne & [k Hk] & HE & Hl) _ (suffix & Ls & Ec) Hw] HA Hs He.
  assert (Z.to_nat (Z.shiftr (Z.of_nat (length D)) 1) = k) as ->.
  { rewrite Z.shiftr_div_pow2, Hk by lia. change (2 ^ 1) with 2. replace (Z.of_nat (2 * k)) with (Z.of_nat k * 2) by lia. rewrite Z.div_mul by lia. lia. }
  rewrite Z.shiftl_mul_pow2 in * by lia. change (2 ^ 16) with 65536 in *.
  pose proof (words_programmed words Hpage Hwords h fuel Hf k D [] (S + Flash64KBPage s * 65536) m ([], ps) t suffix) as G.
  cbn [length] in G. rewrite Z.add_0_r in G. change (Z.of_nat 0 / 2) with 0 in G. change ([] ++ D) with D in G. rewrite Ec, drop_app_length. apply G; clear G; try done.
  - intros ->. cbn in Hk. by destruct D.
  - split_and!; [cbn; lia|constructor|]. eapply Forall_impl; [exact Hw|]. by intros p [].
  - split; [by exists 0%nat|]. eapply Forall_impl; [exact Hw|]. by intros p [].
  - lia.
  - by exists 0%nat.
  - lia.
  - lia.
Qed.

Definition download_request (v ix n : Z) : USB_Request_Header_t := mk_request class_to_device DFU_REQ_DNLOAD v ix n.

(** A download reaches its handler. *)
Lemma request_downloads r s t Q : bmRequestType r = class_to_device -> bRequest r = DFU_REQ_DNLOAD -> WaitForExit s = false ->
  wp true h ('(attached, s) ← read_command fuel (set_DataSize (wLength r) s);
             if negb attached then mret s else
             '(attached, s) ← (if DFU_State s =? dfuDNLOAD_IDLE then download fuel s else mret (true, s));
             if negb attached then mret s else
             Endpoint_ClearOUT;; Endpoint_ClearStatusStage fuel r;; mret s) (accepted t) (fun s' e =>
    Q s' ([Cmd (c_ToggleLEDs (Z.lor LEDS_LED1 LEDS_LED2)); Cmd c_ClearSETUP] ++ e)) ->
  wp true h (EVENT_USB_Device_ControlRequest fuel r s) t Q.
Proof.
  intros Et Er Hw HQ. unfold EVENT_USB_Device_ControlRequest. rewrite Et, Er.
  change (negb _) with false. cbv match zeta. wp_step. wp_step. change (DFU_REQ_DNLOAD =? DFU_REQ_DNLOAD) with true. cbv match.
  unfold dfu_DNLOAD, finish_exit. do 2 wp_step. change (WaitForExit (set_DataSize (wLength r) s)) with (WaitForExit s). rewrite Hw. do 2 wp_step.
  do 2 wp_step. rewrite app_nil_r. unfold accepted in HQ. rewrite <- app_assoc. eapply wp_mono; [exact HQ|]. intros s' e HQe. exact HQe.
Qed.

Lemma prog_started s S n size t Q : IsSecure s = false ->
  Q (ranged COMMAND_PROG_START S n size dfuDNLOAD_IDLE s)
    [Cmd (c_Memory (w_Page_Erase (u32 (S + Z.shiftl (Flash64KBPage s) 16)))); Cmd (c_Memory w_Busy_Wait)] ->
  wp true h (ProcessBootloaderCommand fuel (commanded COMMAND_PROG_START S n size s)) t Q.
Proof.
  intros Hsec HQ. unfold ProcessBootloaderCommand. change (IsSecure (commanded _ _ _ _ _)) with (IsSecure s). rewrite Hsec. cbn [andb]. cbv match zeta.
  change (Command (SentCommand (commanded COMMAND_PROG_START S n size s)) =? COMMAND_PROG_START) with true. cbv match.
  unfold ProcessMemProgCommand. change (IS_ONEBYTE_COMMAND (commanded COMMAND_PROG_START S n size s) 0 || _) with true. cbv match.
  rewrite load_range. cbv zeta. change (IS_ONEBYTE_COMMAND (set_range _ _ _ _) 0) with true. cbv match.
  unfold boot_page_erase, boot_spm_busy_wait. repeat wp_step. exact HQ.
Qed.

(** The data of a download: the words between the filler bytes and the suffix. *)
Lemma data_downloaded m s s1 S D first filler ps t :
  open s -> holds m [] -> firmware S D first ps -> aligned (S + Z.shiftl (Flash64KBPage s) 16) ->
  supplies h t (filler, ps) -> length filler = 26%nat -> bank_ok (filler, ps) -> erased_page (flash m) (S + Z.shiftl (Flash64KBPage s) 16) ->
  s1 = ranged COMMAND_PROG_START S (Z.of_nat (length D)) (42 + Z.of_nat (length D)) dfuDNLOAD_IDLE s ->
  wp true h (download fuel s1) t (fun r e =>
    r = (true, set_range (Flash64KBPage s) (EndAddr s1) (EndAddr s1) s1) /\
    (forall x, flash (memory_after m e) x = programmed (flash m) (S + Z.shiftl (Flash64KBPage s) 16) D x) /\
    holds (memory_after m e) [] /\ readable (memory_after m e) = true /\ eeprom (memory_after m e) = eeprom m).
Proof.
  intros Ho Hh Hfw HA Hs Lf Hb He E1. pose proof Hfw as [[HS HS32] _ (Hne & _ & HE & Hl) _ _ _].
  assert (0 < Z.of_nat (length D)) as HD0 by (destruct D; [done|cbn [length]; lia]).
  unfold download. assert (DataSize (SentCommand s1) = 42 + Z.of_nat (length D)) as -> by by subst.
  rewrite truthy_nonzero by lia. cbn [negb]. cbv match.
  wp_step. eapply wp_mono; [by apply discard_ok|]. intros _ e1 [M1 B1]. cbn beta.
  change (Z.to_nat DFU_FILLER_BYTES_SIZE) with 26%nat in B1. rewrite discarded_in_packet, drop_ge in B1 by lia.
  apply (supplies_later _ _ _ e1) in Hs. rewrite B1 in Hs.
  assert (StartAddr s1 = S) as -> by by subst. rewrite HS32. change (Z.to_nat (u8 0)) with 0%nat. wp_step. cbn [DiscardFillerBytes]. wp_step. rewrite app_nil_r.
  change (IS_ONEBYTE_COMMAND s1 0) with (data_byte s1 0 =? 0). assert (data_byte s1 0 = 0) as -> by by subst. change (0 =? 0) with true. cbv match.
  assert (flash_address s1 = S + Z.shiftl (Flash64KBPage s) 16) as -> by by subst.
  assert (BytesRemaining s1 = Z.of_nat (length D)) as ->.
  { subst s1. unfold BytesRemaining. cbn [EndAddr StartAddr ranged set_state set_range]. rewrite u16_small; lia. }
  do 3 wp_step. eapply wp_mono; [by apply (download_stored m s S D first ps)|]. intros ok e2 [-> [W1 W2 W3 W4 W5]]. cbn beta. cbn [negb]. cbv match zeta.
  do 3 wp_step. set (en := [Cmd (c_Memory w_RWW_Enable)]). apply (supplies_later _ _ _ e2), (supplies_later _ _ _ en) in Hs.
  cbn [negb]. cbv match. rewrite app_nil_r. rewrite <- !app_assoc in *.
  wp_step. eapply wp_mono; [apply (discard_ok h fuel Hf _ _ _ Hs); exact W5|]. intros _ e3 [M3 _]. cbn beta. wp_step.
  split; [by subst|].
  match goal with |- context [memory_after m ?g] => assert (memory_after m g = memory_step (memory_after m e2) w_RWW_Enable) as -> end.
  { rewrite !memory_after_app, (memory_left _ e1), !(memory_left _ e3), !(memory_left _ []) by done. done. }
  pose proof W2 as [Wb _]. unfold memory_step. rewrite Wb. cbn [flash readable eeprom]. split_and!; [done| |done|done]. by apply blank_holds.
Qed.

Lemma firmware_downloaded v ix m s S D first ps t :
  open s -> holds m [] -> firmware S D first ps -> aligned (S + Z.shiftl (Flash64KBPage s) 16) ->
  supplies h (accepted t) (first, ps) -> (forall e, h (t ++ e) q_IsINReady <> 0) ->
  wp true h (EVENT_USB_Device_ControlRequest fuel (download_request v ix (48 + Z.of_nat (length D))) s) t
    (downloaded m (S + Z.shiftl (Flash64KBPage s) 16) D s).
Proof.
  intros Ho Hh Hfw HA Hs Hin. pose proof Ho as [Hsec Hex Hlen Hpg]. pose proof Hfw as [[HS HS32] HD (Hne & HDe & HE & Hl) (filler & Lf & Bf & ->) (suffix & Ls & Ec) Hw].
  assert (0 < Z.of_nat (length D)) as HD0 by (destruct D; [done|cbn [length]; lia]).
  apply request_downloads; [done..|]. change (wLength (download_request _ _ ?n)) with n.
  assert (bank_ok (range_command COMMAND_PROG_START S (Z.of_nat (length D)) ++ filler, ps)) as Hb.
  { split_and!; [cbn; lia|apply Forall_app_2; [apply range_bytes; done || lia|done]|]. eapply Forall_impl; [exact Hw|]. by intros p []. }
  wp_step. apply (command_read h fuel Hf _ COMMAND_PROG_START S (Z.of_nat (length D)) filler ps); [exact Hs|exact Hb|exact Hlen|cbn; lia|].
  intros s0 M0 B0. set (n := Z.of_nat (length D)) in *. set (A := S + Z.shiftl (Flash64KBPage s) 16) in *.
  change (DataSize (SentCommand (set_DataSize (48 + n) s))) with (48 + n). replace (48 + n - 6) with (42 + n) by lia.
  change (commanded COMMAND_PROG_START S n (42 + n) (set_DataSize (48 + n) s)) with (commanded COMMAND_PROG_START S n (42 + n) s).
  apply prog_started; [exact Hsec|]. cbn [negb]. cbv match. set (s1 := ranged COMMAND_PROG_START S n (42 + n) dfuDNLOAD_IDLE s).
  change (DFU_State s1 =? dfuDNLOAD_IDLE) with true. cbv match. fold A. set (er := [Cmd (c_Memory (w_Page_Erase (u32 A))); Cmd (c_Memory w_Busy_Wait)]).
  assert (0 <= A < 2 ^ 32) as HA32 by (unfold A; rewrite Z.shiftl_mul_pow2; lia).
  destruct (page_erased words Hpage Hwords m A Hh HA HA32) as (P1 & P2 & P3). fold er in P1, P2, P3.
  assert (supplies h (accepted t ++ s0 ++ er) (filler, ps)) as Hs1.
  { rewrite app_assoc. apply (supplies_later _ _ _ s0) in Hs. rewrite B0 in Hs. by apply (supplies_later _ _ _ er) in Hs. }
  assert (bank_ok (filler, ps)) as Hb1 by (destruct Hb as (_ & _ & ?); split_and!; [cbn; lia|done|done]).
  assert (erased_page (flash (memory_after m er)) A) as He1.
  { intros x Hx. rewrite P3. by rewrite (proj2 (Z.leb_le A x)), (proj2 (Z.ltb_lt x (A + SPM_PAGESIZE))) by lia. }
  wp_step. eapply wp_mono; [apply (data_downloaded (memory_after m er) s s1 S D _ filler ps _ Ho P1 Hfw HA Hs1 Lf Hb1 He1); reflexivity|].
  intros r e2 (-> & F1 & F2 & F3 & F4). cbv match. cbn [negb]. cbv match. do 3 wp_step.
  wp_step. eapply wp_mono; [apply (stage_ready h fuel); [exact Hf|done|intros g; unfold accepted; rewrite <- !app_assoc; apply Hin]|]. intros ? e3 M3. cbn beta in M3. wp_step.
  match goal with |- downloaded _ _ _ _ _ ?g => assert (memory_after m g = memory_after (memory_after m er) e2) as Em end.
  { rewrite !memory_after_app, (memory_left _ s0), !(memory_left _ e3), !(memory_left _ []) by done. done. }
  split; rewrite ?Em; [|done|done|by rewrite F4, P2| |done].
  - intros x. rewrite F1. apply (programmed_erased words); done.
  - by split.
Qed.
End firmware.

(** ** Firmware back to the host *)

(** From [t] on, with the bytes [c] in the bank, the host takes each packet that is sent. *)
Definition collects (h : hw) (t : list event) (c : list Z) : Prop :=
  forall s, h (t ++ s) q_IsINReady <> 0 /\ h (t ++ s) q_IsOUTReceived <> 0 /\
            h (t ++ s) q_BytesInEndpoint = Z.of_nat (length (pending_from c s)).

Lemma collects_later h t c s : collects h t c -> collects h (t ++ s) (pending_from c s).
Proof. intros Hc s'. rewrite <- app_assoc, <- pending_from_app. apply Hc. Qed.

Section upload.
Context `{MCU} (h : hw) (fuel : nat) (Hf : (1 <= fuel)%nat).

Lemma poll_in t : h t q_IsINReady <> 0 ->
  wp true h (poll_attached fuel Endpoint_IsINReady) t (fun ok s => ok = true /\ s = [Ask q_IsINReady (h t q_IsINReady)]).
Proof.
  intros Hr. destruct fuel as [|f]; [lia|]. cbn [poll_attached]. do 3 wp_step. wp_step; [wp_step; by subst|].
  exfalso. unfold truthy in H1. rewrite negb_false_iff in H1. apply Z.eqb_eq in H1. congruence.
Qed.

(** A bank with room for a word: packets of the size of the endpoint are sent. *)
Definition room (c : list Z) : Prop := (length c <= 32)%nat /\ Nat.Even (length c).
Definition packets_full (c : list Z) (s : list event) : Prop := Forall (fun p => length p = 32%nat) (packets_from c s).

Lemma bank_free_ok c t : collects h t c -> room c ->
  wp true h (bank_free fuel) t (fun ok s => ok = true /\ Forall leaves_memory s /\ sent s = [] /\
    pending_from c s = (if (length c =? 32)%nat then [] else c) /\ packets_full c s).
Proof.
  intros Hc [Hl _]. pose proof (Hc []) as (_ & _ & Hn). rewrite app_nil_r in Hn. cbn in Hn.
  unfold bank_free. do 2 wp_step. wp_step.
  assert (u16 a = Z.of_nat (length c)) as -> by (subst a; rewrite Hn; apply wrap_small; lia).
  destruct (Nat.eqb_spec (length c) 32) as [E|E].
  - rewrite E. change (Z.of_nat 32 =? FIXED_CONTROL_ENDPOINT_SIZE) with true. cbv match. do 2 wp_step.
    eapply wp_mono; [apply poll_in; rewrite <- app_assoc; apply Hc|]. intros ok s [-> ->]. split; [done|]. split; [by repeat constructor|].
    split; [done|]. split; [done|]. unfold packets_full. cbn. by repeat constructor.
  - rewrite (proj2 (Z.eqb_neq _ _)) by (unfold FIXED_CONTROL_ENDPOINT_SIZE; lia). wp_step. split_and!; try done; repeat constructor.
Qed.

(** A word of the flash in the bank. *)
Lemma word_sent m A c t : memory_answers h t m -> busy m = false -> readable m = true -> 0 <= A < 2 ^ 32 -> is_byte (flash m A) -> is_byte (flash m (A + 1)) ->
  wp true h (w ← pgm_read_word_far A; Endpoint_Write_16_LE w) t (fun _ s =>
    Forall leaves_memory s /\ sent s = [flash m A; flash m (A + 1)] /\ pending_from c s = c ++ [flash m A; flash m (A + 1)] /\ packets_from c s = []).
Proof.
  intros Ha Hb Hr HA Hx Hy. destruct (Ha []) as [Hw _]. rewrite app_nil_r in Hw. destruct (Hw Hb Hr A) as [_ Ew]. clear Hw. change (memory_after m []) with m in Ew.
  unfold pgm_read_word_far, Endpoint_Write_16_LE. rewrite u32_small by lia. do 2 wp_step.
  set (x := flash m A) in *. set (y := flash m (A + 1)) in *. unfold is_byte in *.
  assert (u16 a = x + Z.shiftl y 8) as -> by (subst a; rewrite Ew; apply u16_small; rewrite Z.shiftl_mul_pow2; lia).
  assert (u8 (Z.land (x + Z.shiftl y 8) 255) = x) as E1.
  { change 255 with (Z.ones 8). rewrite Z.land_ones, Z.shiftl_mul_pow2 by lia. change (2 ^ 8) with 256. rewrite Z.mod_add, Z.mod_small, u8_small; lia. }
  assert (u8 (Z.shiftr (x + Z.shiftl y 8) 8) = y) as E2.
  { rewrite Z.shiftr_div_pow2, Z.shiftl_mul_pow2 by lia. change (2 ^ 8) with 256. rewrite Z.div_add, Z.div_small, u8_small; lia. }
  repeat wp_step. rewrite E1, E2. split; [by repeat constructor|]. cbn. by rewrite <- app_assoc.
Qed.

Lemma words_uploaded n : forall A c t m, memory_answers h t m -> busy m = false -> readable m = true -> collects h t c -> room c ->
  0 <= A -> A + 2 * Z.of_nat n < 2 ^ 32 -> (forall x, A <= x < A + 2 * Z.of_nat n -> is_byte (flash m x)) ->
  wp true h (upload_words fuel n A) t (fun ok s =>
    ok = true /\ Forall leaves_memory s /\ sent s = flash_bytes (flash m) A (2 * n) /\ packets_full c s /\ room (pending_from c s)).
Proof.
  induction n as [|n IH]; intros A c t m Ha Hb Hr Hc Hroom HA HA2 Hby; cbn [upload_words].
  - wp_step. split_and!; try done. constructor.
  - wp_step. eapply wp_mono; [by apply (bank_free_ok c)|]. intros ok s1 (-> & M1 & S1 & E1 & F1). cbn beta. cbn [negb]. cbv match.
    set (c1 := if (length c =? 32)%nat then [] else c) in *.
    assert (room c1 /\ (length c1 <= 30)%nat) as [[_ Hev] Hl].
    { unfold c1, room in *. destruct (Nat.eqb_spec (length c) 32); [split; [split; [cbn; lia|by exists 0%nat]|cbn; lia]|].
      destruct Hroom as [Hl [k Hk]]. split; [split; [done|by exists k]|lia]. }
    assert (memory_answers h (t ++ s1) m) as Ha1 by (rewrite <- (memory_left m s1 M1); by apply memory_answers_later).
    assert (collects h (t ++ s1) c1) as Hc1 by (rewrite <- E1; by apply collects_later).
    apply wp_assoc. wp_step. eapply wp_mono; [apply (word_sent m A c1 _ Ha1 Hb Hr); [lia|apply Hby; lia|apply Hby; lia]|].
    intros _ s2 (M2 & S2 & E2 & F2). cbn beta. set (c2 := c1 ++ [flash m A; flash m (A + 1)]) in *.
    rewrite u32_small by lia. eapply wp_mono; [apply (IH (A + 2) c2 _ m); try done; try lia|].
    + rewrite <- (memory_left m s2 M2). by apply memory_answers_later.
    + rewrite <- E2. by apply collects_later.
    + unfold c2, room. rewrite length_app. cbn [length]. split; [lia|]. destruct Hev as [k Hk]. exists (k + 1)%nat. lia.
    + intros x Hx. apply Hby. lia.
    + intros ok s3 (-> & M3 & S3 & F3 & R3). split; [done|]. split; [by repeat apply Forall_app_2|].
      rewrite !sent_app, S1, S2, S3. change (2 * S n)%nat with (S n + (S n + 0))%nat. replace (S n + (S n + 0))%nat with (2 + 2 * n)%nat by lia.
      rewrite flash_bytes_word. split; [done|]. unfold packets_full in *. rewrite !packets_from_app, !pending_from_app, E1, E2, F2.
      split; [|done]. by apply Forall_app_2.
Qed.
End upload.

Section round_trip.
Context `{MCU} (words : Z) (Hpage : SPM_PAGESIZE = 2 * words) (Hwords : 0 < words < 256).
Context (h : hw) (fuel : nat) (Hf : (1 <= fuel)%nat).

(** The range of the last command, to be uploaded. *)
Definition displays (S n : Z) (s : dfu) : Prop :=
  open s /\ DFU_State s = dfuUPLOAD_IDLE /\ data_byte s 0 = 0 /\ StartAddr s = S /\ EndAddr s = S + n - 1.

Lemma range_displayed v ix s S n t : open s -> 0 <= S -> 0 < n -> S + n <= 65536 ->
  supplies h (accepted t) (range_command COMMAND_DISP_DATA S n, []) -> (forall e, h (t ++ e) q_IsINReady <> 0) ->
  wp true h (EVENT_USB_Device_ControlRequest fuel (download_request v ix 6) s) t (fun s' e =>
    Forall leaves_memory e /\ displays S n s' /\ Flash64KBPage s' = Flash64KBPage s).
Proof.
  intros Ho HS Hn HE Hs Hin. pose proof Ho as [Hsec Hex Hlen Hpg]. apply (request_downloads h fuel); [done..|].
  rewrite <- (app_nil_r (range_command _ _ _)) in Hs. change (wLength (download_request _ _ ?n)) with n.
  assert (bank_ok (range_command COMMAND_DISP_DATA S n ++ [], [])) as Hb.
  { split_and!; [cbn; lia|rewrite app_nil_r; apply range_bytes; done || lia|done]. }
  wp_step. apply (command_read h fuel Hf _ COMMAND_DISP_DATA S n [] []); [exact Hs|exact Hb|exact Hlen|cbn; lia|].
  intros s0 M0 B0. change (commanded COMMAND_DISP_DATA S n _ (set_DataSize 6 s)) with (commanded COMMAND_DISP_DATA S n 0 s).
  unfold ProcessBootloaderCommand. change (IsSecure (commanded _ _ _ _ _)) with (IsSecure s). rewrite Hsec. cbn [andb]. cbv match zeta.
  change (Command (SentCommand (commanded COMMAND_DISP_DATA S n 0 s)) =? COMMAND_PROG_START) with false.
  change (Command (SentCommand (commanded COMMAND_DISP_DATA S n 0 s)) =? COMMAND_DISP_DATA) with true. cbv match.
  unfold ProcessMemReadCommand. change (IS_ONEBYTE_COMMAND (commanded COMMAND_DISP_DATA S n 0 s) 0 || _) with true. cbv match.
  rewrite load_range. cbv zeta. wp_step. cbn [negb]. cbv match.
  change (DFU_State _ =? dfuDNLOAD_IDLE) with false. cbv match. do 2 wp_step. cbn [negb]. cbv match. do 3 wp_step. wp_step.
  eapply wp_mono; [apply (stage_ready h fuel); [exact Hf|done|intros g; unfold accepted; rewrite <- !app_assoc; apply Hin]|].
  intros ? e3 M3. cbn beta in M3. wp_step. split; [by repeat first [apply Forall_app_2|apply Forall_cons_2|done]|]. split; [|done].
  split; [by split|]. by split_and!.
Qed.

(** The end of an upload: the host's status stage. *)
Lemma status_taken r t : bmRequestType r = class_to_host -> h t q_IsOUTReceived <> 0 ->
  wp true h (Endpoint_ClearStatusStage fuel r) t (fun _ s => exists a, s = [Ask q_IsOUTReceived a; Cmd c_ClearOUT]).
Proof.
  intros Er Hout. unfold Endpoint_ClearStatusStage. rewrite Er. change (truthy (Z.land class_to_host REQDIR_DEVICETOHOST)) with true. cbv match.
  wp_step. eapply wp_mono; [by apply poll_now|]. intros ok s [-> ->]. do 2 wp_step. by eexists.
Qed.

(** The upload of a range of whole words. *)
Lemma range_uploaded v ix s S n k m t : displays S n s -> 0 <= S -> 0 < n -> S + n <= 65536 -> n < 65536 -> n = 2 * Z.of_nat k ->
  memory_answers h t m -> busy m = false -> readable m = true ->
  (forall x, S + Z.shiftl (Flash64KBPage s) 16 <= x < S + Z.shiftl (Flash64KBPage s) 16 + n -> is_byte (flash m x)) ->
  collects h (accepted t) [] ->
  wp true h (EVENT_USB_Device_ControlRequest fuel (mk_request class_to_host DFU_REQ_UPLOAD v ix n) s) t (fun s' e =>
    sent e = flash_bytes (flash m) (S + Z.shiftl (Flash64KBPage s) 16) (2 * k) /\ Forall (fun p => (length p <= 32)%nat) (packets e) /\
    DFU_State s' = dfuIDLE /\ Forall leaves_memory e).
Proof.
  intros (Ho & Hst & Hd & HS & HE) HS0 Hn HE2 Hn2 Hk Ha Hb Hr Hby Hc. pose proof Ho as [_ _ _ Hpg].
  unfold EVENT_USB_Device_ControlRequest. change (bmRequestType _) with class_to_host. change (bRequest _) with DFU_REQ_UPLOAD.
  change (wLength _) with n. change (negb (Z.land class_to_host _ =? _)) with false. cbv match zeta.
  do 2 wp_step. change (DFU_REQ_UPLOAD =? DFU_REQ_DNLOAD) with false. change (DFU_REQ_UPLOAD =? DFU_REQ_UPLOAD) with true. cbv match.
  unfold dfu_UPLOAD. wp_step.
  do 3 wp_step. rewrite <- app_assoc. change (t ++ [_] ++ [_]) with (accepted t).
  wp_step. eapply wp_mono; [apply (poll_in h fuel Hf); rewrite <- (app_nil_r (accepted t)); apply Hc|]. intros ok e1 [-> ->]. cbn beta. cbn [negb]. cbv match.
  set (e1 := [Ask q_IsINReady _]). set (s0 := set_DataSize n s). change (DFU_State s0) with (DFU_State s). rewrite Hst.
  change (dfuUPLOAD_IDLE =? dfuUPLOAD_IDLE) with true. cbn [negb]. cbv match. unfold upload.
  change (IS_ONEBYTE_COMMAND s0 0) with (data_byte s 0 =? 0). rewrite Hd. change (0 =? 0) with true. cbv match.
  assert (Z.to_nat (Z.shiftr (BytesRemaining s0) 1) = k) as ->.
  { unfold BytesRemaining. change (EndAddr s0) with (EndAddr s). change (StartAddr s0) with (StartAddr s). rewrite HE, HS, u16_small by lia.
    rewrite Z.shiftr_div_pow2 by lia. change (2 ^ 1) with 2. replace (S + n - 1 - S + 1) with (Z.of_nat k * 2) by lia. rewrite Z.div_mul by lia. lia. }
  change (flash_address s0) with (StartAddr s + Z.shiftl (Flash64KBPage s) 16). rewrite HS.
  assert (0 <= S + Z.shiftl (Flash64KBPage s) 16 <= 2 ^ 24) as HA by (rewrite Z.shiftl_mul_pow2; lia).
  assert (memory_answers h (accepted t ++ e1) m) as Ha1.
  { unfold accepted. rewrite <- app_assoc. rewrite <- (memory_left m ([Cmd (c_ToggleLEDs (Z.lor LEDS_LED1 LEDS_LED2)); Cmd c_ClearSETUP] ++ e1)) by by repeat constructor.
    by apply memory_answers_later. }
  assert (collects h (accepted t ++ e1) []) as Hc1 by (by apply (collects_later _ _ [] e1)).
  do 3 wp_step. eapply wp_mono; [apply (words_uploaded h fuel Hf k _ [] _ m Ha1 Hb Hr Hc1)|].
  { split; [cbn; lia|by exists 0%nat]. } { lia. } { lia. } { intros x Hx. apply Hby. lia. }
  intros ok s1 (-> & M1 & S1 & F1 & [R1 _]). cbn beta. cbn [negb]. cbv match. wp_step. cbn [negb]. cbv match. wp_step. cbn [negb]. cbv match. do 3 wp_step.
  eapply wp_mono; [apply status_taken; [done|rewrite <- !app_assoc; apply Hc]|]. intros ? e3 [a ->]. cbn beta. wp_step.
  rewrite !app_nil_r, !sent_app, S1. split; [by cbn; rewrite app_nil_r|].
  split; [|split; [done|by repeat first [apply Forall_app_2|apply Forall_cons_2|done]]].
  change (packets ?g) with (packets_from [] (e1 ++ s1 ++ [Cmd c_ClearIN] ++ [Ask q_IsOUTReceived a; Cmd c_ClearOUT])).
  rewrite !packets_from_app. change (pending_from [] e1) with ([] : list Z). change (packets_from [] e1) with ([] : list (list Z)).
  apply Forall_app_2; [done|]. apply Forall_app_2; [eapply Forall_impl; [exact F1|]; intros q Hq; cbn beta in Hq; lia|].
  cbn [packets_from app pending_from]. by apply Forall_cons_2.
Qed.
End round_trip.


(** ** A session

    Hosts that answer as the theorem asks, on a controller with pages of 256 bytes. *)
Section hosts.
Context `{MCU}.

(** The memory is [m], and packets are taken. *)
Definition upload_host (m : memory) : hw := fun t q =>
  let m' := memory_after m t in
  match q with
  | q_IsOUTReceived | q_IsINReady => 1
  | q_BytesInEndpoint => Z.of_nat (length (pending_from [] (drop 2 t)))
  | q_Memory (m_Byte a) => flash m' a
  | q_Memory (m_Word a) => flash m' a + Z.shiftl (flash m' (a + 1)) 8
  | q_Memory (m_EEPROM a) => eeprom m' a
  | _ => 0
  end.

Lemma upload_host_memory m : memory_answers (upload_host m) [] m.
Proof. by intros s. Qed.
Lemma upload_host_collects m : collects (upload_host m) (accepted []) [].
Proof. by intros s. Qed.
End hosts.

Definition at90usb : MCU :=
  {| SPM_PAGESIZE := 256; AVR_SIGNATURE_1 := 0x1E; AVR_SIGNATURE_2 := 0x97; AVR_SIGNATURE_3 := 0x82; WDRF := 3; BOOT_START_ADDR := 0x1E000 |}.
Definition blank_memory : memory := mk_memory (fun _ => 255) no_words false true (fun _ => 255).
Definition small_firmware : list Z := [0x0C; 0x94; 0x2A; 0x00; 0xFF; 0xCF].
Definition small_first : list Z := range_command COMMAND_PROG_START 0 6 ++ repeat 0 26.
Definition small_packets : list (list Z) := [small_firmware ++ repeat 0 16].

Lemma small_firmware_sent : firmware 0 small_firmware small_first small_packets.
Proof.
  split; [done|by repeat constructor|split_and!; [done|by exists 3%nat|done|done]| | |].
  - exists (repeat 0 26). split_and!; [done|by repeat constructor|done].
  - by exists (repeat 0 16).
  - repeat constructor; cbn; try lia; try done. by exists 11%nat.
Qed.

