(* ===== verification/BootloaderDFUSecure.v ===== *)
(** * Secure mode of the DFU bootloader

    A bootloader in secure mode neither reads the memories for the host nor changes them,
    until it is told to erase the application; only then it takes other commands. *)
From S2P Require Import Prelude ConfigDescriptors USBIo Endpoint EndpointSpec Quiet DeviceRequests HIDDevice NetBuffers NetLemmas SelfProgram DataStage BootloaderDFU.

(** Events that do not concern the memories, and events that do not read them. *)
Definition silent (e : event) : Prop := match e with Cmd (c_Memory _) | Ask (q_Memory _) _ => False | _ => True end.
Definition no_read (e : event) : Prop := match e with Ask (q_Memory _) _ => False | _ => True end.

Lemma silent_leaves s : Forall silent s -> Forall leaves_memory s.
Proof. intros Hs. eapply Forall_impl; [exact Hs|]. intros [] He; [done|]. by destruct c. Qed.
Lemma silent_no_read s : Forall silent s -> Forall no_read s.
Proof. intros Hs. eapply Forall_impl; [exact Hs|]. by intros [] He. Qed.

(** What code that returns has done; code that faults or loops is not excluded. *)
Definition yields {A} (m : io A) (Q : A -> list event -> Prop) : Prop :=
  forall h t a t', m h t = Returns (a, t') -> exists s, t' = t ++ s /\ Q a s.

Lemma yields_ret {A} (a : A) Q : Q a [] -> yields (mret a) Q.
Proof. intros HQ h t a' t' [= <- <-]. exists []. by rewrite app_nil_r. Qed.

Lemma yields_bind {A B} (m : io A) (f : A -> io B) P Q :
  yields m P -> (forall a s, P a s -> yields (f a) (fun b s' => Q b (s ++ s'))) -> yields (m ≫= f) Q.
Proof.
  intros Hm Hf h t b t' E. unfold mbind, io_bind in E. destruct (m h t) as [[a t1]| |] eqn:E1; try done.
  destruct (Hm _ _ _ _ E1) as (s1 & -> & H1). destruct (Hf a s1 H1 _ _ _ _ E) as (s2 & -> & H2). exists (s1 ++ s2). by rewrite app_assoc.
Qed.

Lemma yields_mono {A} (m : io A) P Q : yields m P -> (forall a s, P a s -> Q a s) -> yields m Q.
Proof. intros Hm HPQ h t a t' E. destruct (Hm _ _ _ _ E) as (s & -> & H). eauto. Qed.

Lemma yields_emits {A} P (m : io A) : emits P m -> yields m (fun _ s => Forall P s).
Proof. intros Hm h t a t' E. exact (Hm h t a t' E). Qed.

Lemma yields_after_cmd {A} c (f : unit -> io A) Q : yields (f tt) (fun a s => Q a ([Cmd c] ++ s)) -> yields (cmd c ≫= f) Q.
Proof. intros Hf. eapply (yields_bind _ _ (fun _ s => s = [Cmd c])); [intros h t a t' [= <- <-]; eauto|]. by intros [] ? ->. Qed.

Lemma yields_after_ret {A B} (a : A) (f : A -> io B) Q : yields (f a) Q -> yields (mret a ≫= f) Q.
Proof. intros Hf. eapply (yields_bind _ _ (fun b s => b = a /\ s = [])); [by apply yields_ret|]. by intros ? ? [-> ->]. Qed.

Ltac quiet_first := eapply yields_bind; [apply (yields_emits silent); avoid; eauto|]; cbn beta.

(** Waits and parameters are silent. *)
Lemma silent_poll fuel (ready : io bool) : emits silent ready -> emits silent (poll_attached fuel ready).
Proof. intros Hr. induction fuel as [|fuel IH]; cbn [poll_attached]; avoid; done. Qed.

Lemma silent_poll_out fuel : emits silent (poll_attached fuel Endpoint_IsOUTReceived).
Proof. apply silent_poll. avoid. Qed.
Lemma silent_poll_in fuel : emits silent (poll_attached fuel Endpoint_IsINReady).
Proof. apply silent_poll. avoid. Qed.
#[local] Hint Resolve silent_poll_out silent_poll_in : core.

Lemma silent_status fuel r : emits silent (Endpoint_ClearStatusStage fuel r).
Proof. unfold Endpoint_ClearStatusStage. avoid; eauto. Qed.

Lemma silent_parameters n : forall i c, emits silent (read_parameters n i c).
Proof. induction n as [|n IH]; intros i c; cbn [read_parameters]; avoid. apply IH. Qed.
#[local] Hint Resolve silent_status silent_parameters : core.

Section secure.
Context `{MCU} (words : Z) (Hpage : SPM_PAGESIZE = 2 * words) (Hwords : 0 < words < 256) (Hboot : 0 <= BOOT_START_ADDR <= 2 ^ 24).

(** The application is blank after these events, and nothing was read during them. *)
Definition blank (m : memory) : Prop := forall x, 0 <= x < BOOT_START_ADDR -> flash m x = 255.
Definition erased (s : list event) : Prop := Forall no_read s /\ forall m, holds m [] -> blank (memory_after m s).

Lemma erased_silent s1 s s2 : Forall silent s1 -> erased s -> Forall silent s2 -> erased (s1 ++ s ++ s2).
Proof.
  intros H1 [Hn He] H2. split; [repeat apply Forall_app_2; auto using silent_no_read|]. intros m Hm.
  rewrite !memory_after_app, (memory_left _ s1), (memory_left _ s2) by auto using silent_leaves. by apply He.
Qed.

Lemma page_cleared m P : holds m [] -> aligned P -> 0 <= P < 2 ^ 32 -> (forall x, 0 <= x < P -> flash m x = 255) ->
  let s := [Cmd (c_Memory (w_Page_Erase (u32 P))); Cmd (c_Memory w_Busy_Wait); Cmd (c_Memory (w_Page_Write (u32 P))); Cmd (c_Memory w_Busy_Wait)] in
  holds (memory_after m s) [] /\ forall x, 0 <= x < P + SPM_PAGESIZE -> flash (memory_after m s) x = 255.
Proof.
  intros Hh HP H32 Hb s. destruct (page_erased words Hpage Hwords m P Hh HP H32) as (E1 & _ & E3).
  set (s1 := [Cmd (c_Memory (w_Page_Erase _)); _]) in *. pose proof (page_positive words Hpage Hwords) as Hp.
  destruct (page_committed words Hpage Hwords (memory_after m s1) P [] E1 HP H32) as (C1 & _ & C3); [cbn; lia|constructor| |].
  { intros x Hx. rewrite E3. by rewrite (proj2 (Z.leb_le P x)), (proj2 (Z.ltb_lt x (P + SPM_PAGESIZE))) by lia. }
  change s with (s1 ++ [Cmd (c_Memory (w_Page_Write (u32 P))); Cmd (c_Memory w_Busy_Wait)]). rewrite memory_after_app. split; [done|].
  intros x Hx. rewrite C3, E3. destruct ((P <=? x) && (x <? P + SPM_PAGESIZE)) eqn:E; [by destruct (Z.to_nat (x - P))|]. apply Hb.
  destruct (Z.leb_spec P x), (Z.ltb_spec x (P + SPM_PAGESIZE)); cbn in E; lia || done.
Qed.

Lemma pages_cleared n : forall k, 0 <= k -> yields (clear_pages n (k * SPM_PAGESIZE)) (fun _ s => Forall no_read s /\
  forall m, holds m [] -> (forall x, 0 <= x < k * SPM_PAGESIZE -> flash m x = 255) -> holds (memory_after m s) [] /\ blank (memory_after m s)).
Proof.
  induction n as [|n IH]; intros k Hk; cbn [clear_pages]; [by intros ? ? ? ?|]. destruct (Z.ltb_spec (k * SPM_PAGESIZE) BOOT_START_ADDR) as [Hlt|Hge].
  - unfold boot_page_erase, boot_page_write, boot_spm_busy_wait. do 4 apply yields_after_cmd.
    replace (k * SPM_PAGESIZE + SPM_PAGESIZE) with ((k + 1) * SPM_PAGESIZE) by lia.
    eapply yields_mono; [apply IH; lia|]. intros _ s [Hn He]. cbn beta. cbn [app].
    split; [by repeat (apply Forall_cons_2; [done|])|]. intros m Hm Hb.
    destruct (page_cleared m (k * SPM_PAGESIZE) Hm) as [C1 C2]; [unfold aligned; apply Z.mod_mul, (page_nonzero words Hpage Hwords)|pose proof (page_positive words Hpage Hwords); nia|done|].
    match goal with |- holds (memory_after m ?g) [] /\ _ => change g with ([Cmd (c_Memory (w_Page_Erase (u32 (k * SPM_PAGESIZE)))); Cmd (c_Memory w_Busy_Wait);
      Cmd (c_Memory (w_Page_Write (u32 (k * SPM_PAGESIZE)))); Cmd (c_Memory w_Busy_Wait)] ++ s) end.
    rewrite memory_after_app. apply He; [exact C1|]. intros x Hx. apply C2. lia.
  - apply yields_ret. split; [constructor|]. intros m Hm Hb. split; [done|]. intros x Hx. apply Hb. lia.
Qed.

(** ** Requests *)

(** Secure mode: no command waits, and no data is expected or offered. *)
Record locked (s : dfu) : Prop := {
    lk_secure : IsSecure s = true;
    lk_exit : WaitForExit s = false;
    lk_state : DFU_State s = dfuIDLE \/ DFU_State s = dfuERROR
  }.

(** A step that stays in secure mode, or leaves it after the application is erased. *)
Definition secured (s : dfu) (e : list event) : Prop :=
  (locked s /\ Forall silent e) \/ (IsSecure s = false /\ DFU_State s <> dfuDNLOAD_IDLE /\ erased e).

Lemma secured_silent s s1 e s2 : Forall silent s1 -> secured s e -> Forall silent s2 -> secured s (s1 ++ e ++ s2).
Proof.
  intros H1 [[Hl He]|(Hi & Hd & He)] H2; [left; split; [done|by repeat apply Forall_app_2]|right]. split_and!; [done|done|]. by apply erased_silent.
Qed.

Context (fuel : nat).

Lemma command_secured s : locked s -> yields (ProcessBootloaderCommand fuel s) secured.
Proof.
  intros [Hsec Hex Hst]. unfold ProcessBootloaderCommand. rewrite Hsec. cbn [andb]. destruct (allowed_when_secure s) eqn:Ha; cbn [negb].
  2: { quiet_first. intros _ e He. apply yields_ret. left. split; [split; try done; by right|]. by rewrite app_nil_r. }
  unfold allowed_when_secure in Ha. apply orb_true_iff in Ha as [Ha|Ha].
  - apply andb_true_iff in Ha as [Hc Hb]. apply Z.eqb_eq in Hc. rewrite Hc. change (COMMAND_WRITE =? COMMAND_PROG_START) with false.
    change (COMMAND_WRITE =? COMMAND_DISP_DATA) with false. change (COMMAND_WRITE =? COMMAND_WRITE) with true. cbv match zeta.
    unfold ProcessWriteCommand. pose proof Hb as Hb'. unfold IS_TWOBYTE_COMMAND in Hb'. apply andb_true_iff in Hb' as [H0 _]. apply Z.eqb_eq in H0.
    unfold IS_ONEBYTE_COMMAND. rewrite H0. change (0 =? 3) with false. cbv match. rewrite Hb.
    eapply yields_bind; [apply (pages_cleared fuel 0); lia|]. intros _ e [Hn He]. cbn beta. unfold boot_rww_enable.
    apply yields_after_cmd, yields_ret. right. split; [done|]. split; [by destruct Hst as [E|E]; cbn; rewrite E|].
    rewrite app_nil_r. split; [apply Forall_app_2; [done|by repeat constructor]|]. intros m Hm. destruct (He m Hm) as [Hh Hbl]; [lia|].
    rewrite memory_after_app. intros x Hx. cbn. destruct Hh as [-> _]. cbn. by apply Hbl.
  - apply Z.eqb_eq in Ha. rewrite Ha. change (COMMAND_READ =? COMMAND_PROG_START) with false. change (COMMAND_READ =? COMMAND_DISP_DATA) with false.
    change (COMMAND_READ =? COMMAND_WRITE) with false. change (COMMAND_READ =? COMMAND_READ) with true. cbv match zeta.
    assert (forall b, locked (set_response b s)) as Hl by by split.
    unfold ProcessReadCommand. destruct (IS_ONEBYTE_COMMAND s 0); [|destruct (IS_ONEBYTE_COMMAND s 1)].
    1, 2: quiet_first; intros b e He; apply yields_ret; left; split; [by split|]; by rewrite app_nil_r.
    apply yields_ret. left. by split.
Qed.

Lemma read_command_secured s : locked s -> yields (read_command fuel s) (fun r e => secured r.2 e).
Proof.
  intros Hl. pose proof Hl as [Hsec Hex Hst]. unfold read_command. destruct (truthy _); [|apply yields_ret; by left].
  quiet_first. intros ok e1 H1. destruct (negb ok); [apply yields_ret; left; split; [done|]; by rewrite app_nil_r|].
  quiet_first. intros b e2 H2. quiet_first. intros c e3 H3.
  eapply yields_bind; [apply (command_secured (set_command c s)); by split|]. intros s' e4 H4. apply yields_ret. cbn [snd].
  rewrite app_nil_r, (app_assoc e2), (app_assoc e1). rewrite <- (app_nil_r e4). apply secured_silent; [by repeat apply Forall_app_2|done|constructor].
Qed.

Lemma secured_state s e : secured s e -> (DFU_State s =? dfuDNLOAD_IDLE) = false.
Proof. intros [[[_ _ [E|E]] _]|(_ & E & _)]; [by rewrite E..|by apply Z.eqb_neq]. Qed.

Lemma request_secured r s : locked s -> yields (EVENT_USB_Device_ControlRequest fuel r s) secured.
Proof.
  intros Hl. unfold EVENT_USB_Device_ControlRequest. destruct (negb _); [apply yields_ret; by left|].
  quiet_first. intros _ e0 H0. cbv zeta. set (s0 := set_DataSize (wLength r) s).
  assert (locked s0) as Hl0 by (destruct Hl; by split). clearbody s0. pose proof Hl0 as [Hsec Hex Hst].
  eapply (yields_mono _ (fun s' e => secured s' e)); [|intros s' e He; rewrite <- (app_nil_r e); by apply secured_silent].
  destruct (bRequest r =? DFU_REQ_DNLOAD).
  { unfold dfu_DNLOAD, finish_exit. rewrite Hex. quiet_first. intros _ e1 H1. apply yields_after_ret.
    eapply yields_bind; [by apply read_command_secured|]. intros [ok s1] e2 H2. cbn [snd] in H2.
    assert (forall e3, Forall silent e3 -> secured s1 (e1 ++ e2 ++ e3)) as Hend by (intros e3 H3; by apply secured_silent).
    destruct (negb ok); [apply yields_ret; by apply Hend|]. rewrite (secured_state s1 e2 H2).
    apply yields_after_ret. cbn [negb].
    quiet_first. intros _ e3 H3. quiet_first. intros _ e4 H4. apply yields_ret. apply Hend. by repeat apply Forall_app_2. }
  destruct (bRequest r =? DFU_REQ_UPLOAD).
  { unfold dfu_UPLOAD. quiet_first. intros _ e1 H1. quiet_first. intros ok e2 H2.
    destruct (negb ok); [apply yields_ret; left; split; [done|by repeat apply Forall_app_2]|].
    assert ((DFU_State s0 =? dfuUPLOAD_IDLE) = false) as -> by by destruct Hst as [-> | ->]. cbn [negb].
    eapply (yields_bind _ _ (fun r e => r = (true, s0) /\ Forall silent e)).
    { quiet_first. intros _ e3 H3. apply yields_ret. by rewrite app_nil_r. }
    intros ? e3 [-> H3]. cbn [negb]. quiet_first. intros _ e4 H4. quiet_first. intros _ e5 H5. apply yields_ret. left. split; [done|by repeat apply Forall_app_2]. }
  destruct (bRequest r =? DFU_REQ_GETSTATUS).
  { unfold dfu_GETSTATUS. repeat (quiet_first; intros ? ? ?). apply yields_ret. left. split; [done|by repeat apply Forall_app_2]. }
  destruct (bRequest r =? DFU_REQ_CLRSTATUS).
  { cbv zeta. repeat (quiet_first; intros ? ? ?). apply yields_ret. left. split; [by split|by repeat apply Forall_app_2]. }
  destruct (bRequest r =? DFU_REQ_GETSTATE).
  { repeat (quiet_first; intros ? ? ?). apply yields_ret. left. split; [done|by repeat apply Forall_app_2]. }
  destruct (bRequest r =? DFU_REQ_ABORT).
  { cbv zeta. repeat (quiet_first; intros ? ? ?). apply yields_ret. left. split; [split; [done|done|by left]|by repeat apply Forall_app_2]. }
  apply yields_ret. by left.
Qed.

(** ** Sessions *)

(** The requests of a host, up to the one that ends secure mode. *)
Fixpoint secure_session (rs : list USB_Request_Header_t) (s : dfu) : io dfu :=
  match rs with
  | [] => mret s
  | r :: rs => if IsSecure s then s ← EVENT_USB_Device_ControlRequest fuel r s; secure_session rs s else mret s
  end.
End secure.


(** A host that tries to read, and then erases. *)
Definition two_pages : MCU :=
  {| SPM_PAGESIZE := 128; AVR_SIGNATURE_1 := 0x1E; AVR_SIGNATURE_2 := 0x95; AVR_SIGNATURE_3 := 0x87; WDRF := 3; BOOT_START_ADDR := 256 |}.
Definition erase_host : hw := packet_host 2 ([COMMAND_WRITE; 0; 0xFF], []).
Definition erase_session : list USB_Request_Header_t := [mk_request class_to_device DFU_REQ_DNLOAD 0 0 3; mk_request class_to_host DFU_REQ_UPLOAD 0 0 64].

