(* ===== verification/BootloaderHID.v ===== *)
(** * The HID bootloader

    [Bootloaders/HID/BootloaderHID.c]: a report that the host sets is a page of the flash
    with its address.  Whether an address fits 16 bits depends on the controller
    ([FLASHEND]); the waits of the file do not look at the state of the device. *)
From S2P Require Import Prelude ConfigDescriptors USBIo Endpoint DeviceRequests HIDDevice SelfProgram.

Definition COMMAND_STARTAPPLICATION := 0xFFFF.
Definition CONTROL_REQTYPE_TYPE := 0x60.
Definition HID_IN_EPADDR := Z.lor 128 1.
Definition HID_IN_EPSIZE := 64.

Section bootloader.
Context `{MCU} (FLASHEND : Z) (fuel : nat).

(** Whether the application is started, and the key; the watchdog stays on. *)
Definition Application_Jump_Check (MagicBootKey : Z) : io (bool * Z) :=
  mcusr ← ask_u8 (q_Register MCUSR);
  if truthy (Z.land mcusr (Z.shiftl 1 WDRF)) && (MagicBootKey =? MAGIC_BOOT_KEY) then mret (true, 0)
  else mret (false, MagicBootKey).

Definition EVENT_USB_Device_ConfigurationChanged : io unit :=
  _ ← Endpoint_ConfigureEndpoint HID_IN_EPADDR EP_TYPE_INTERRUPT HID_IN_EPSIZE 1; mret tt.

(** The loop that waits for a packet of the host. *)
Fixpoint wait_received (n : nat) : io unit :=
  match n with
  | O => loops
  | S n => received ← Endpoint_IsOUTReceived; if received : bool then mret tt else wait_received n
  end.

(** A value of the type of [PageAddress]. *)
Definition address (a : Z) : Z := if FLASHEND >? 0xFFFF then u32 a else u16 a.

(** The loop over the words of a page, [n] trips at most. *)
Fixpoint fill_page (n : nat) (PageAddress PageWord : Z) : io unit :=
  match n with
  | O => loops
  | S n =>
      if PageWord <? Z.quot SPM_PAGESIZE 2 then
        bytes ← Endpoint_BytesInEndpoint;
        (if negb (truthy bytes) then Endpoint_ClearOUT;; wait_received fuel else mret tt);;
        w ← Endpoint_Read_16_LE;
        boot_page_fill (address (PageAddress + u16 (Z.shiftl PageWord 1))) w;;
        fill_page n PageAddress (u8 (PageWord + 1))
      else mret tt
  end.

Definition program_page (PageAddress : Z) : io unit :=
  boot_page_erase PageAddress;;
  boot_spm_busy_wait;;
  fill_page 256 PageAddress 0;;
  boot_page_write PageAddress;;
  boot_spm_busy_wait;;
  boot_rww_enable.

(** The value of [RunBootloader] after a request. *)
Definition EVENT_USB_Device_ControlRequest (r : USB_Request_Header_t) (RunBootloader : bool) : io bool :=
  if negb (Z.land (bmRequestType r) (Z.lor CONTROL_REQTYPE_TYPE CONTROL_REQTYPE_RECIPIENT) =? Z.lor REQTYPE_CLASS REQREC_INTERFACE)
  then mret RunBootloader
  else if bRequest r =? HID_REQ_SetReport then
    Endpoint_ClearSETUP;;
    wait_received fuel;;
    w ← Endpoint_Read_16_LE;
    let PageAddress := if FLASHEND >? 0xFFFF then Z.shiftl w 8 else w in
    let command := if FLASHEND >? 0xFFFF then u16 (Z.shiftr PageAddress 8) else PageAddress in
    RunBootloader ←
      (if command =? COMMAND_STARTAPPLICATION then mret false
       else program_page PageAddress;; mret RunBootloader);
    Endpoint_ClearOUT;;
    Endpoint_ClearStatusStage fuel r;;
    mret RunBootloader
  else mret RunBootloader.
End bootloader.
