(* ===== verification/BootloaderHIDSpec.v ===== *)
(** * Correctness of the HID bootloader

    A report programs its page of the flash and nothing else; the report with the start
    address ends the bootloader. *)
From S2P Require Import Prelude ConfigDescriptors USBIo Endpoint EndpointSpec Quiet DeviceRequests HIDDevice NetBuffers NetLemmas SelfProgram DataStage BootloaderHID.

Section report.
Context `{MCU} (words : Z) (Hpage : SPM_PAGESIZE = 2 * words) (Hwords : 0 < words < 256).
Context (FLASHEND : Z) (fuel : nat) (Hf : (1 <= fuel)%nat).

Section host.
Context (h : hw).

Lemma received_now b t : supplies h t b ->
  wp true h (wait_received fuel) t (fun _ s => Forall leaves_memory s /\ bank_after b s = b).
Proof.
  intros Hs. pose proof (Hs []) as (Hr & _). rewrite app_nil_r in Hr. destruct fuel as [|f]; [lia|]. cbn [wait_received].
  do 3 wp_step. subst a. rewrite truthy_nonzero by done. wp_step. split; [by repeat constructor|done].
Qed.

(** A word of the packets. *)
Lemma word_fetched {A} (k : Z -> io A) x y l b t Q : supplies h t b -> bank_ok b -> whole_words b -> bank_bytes b = x :: y :: l ->
  (forall s b', Forall leaves_memory s -> bank_after b s = b' -> supplies h (t ++ s) b' -> bank_ok b' -> whole_words b' -> bank_bytes b' = l ->
     is_byte x -> is_byte y -> wp true h (k (x + Z.shiftl y 8)) (t ++ s) (fun a s' => Q a (s ++ s'))) ->
  wp true h (bytes ← Endpoint_BytesInEndpoint; (if negb (truthy bytes) then Endpoint_ClearOUT;; wait_received fuel else mret tt);;
             w ← Endpoint_Read_16_LE; k w) t Q.
Proof.
  intros Hs Hok Hw E HQ. destruct (refilled_word b x y l Hok Hw E) as (p & Er & Eb & Hok' & Hw' & Hx & Hy).
  wp_step. eapply wp_mono; [by apply bytes_in_bank|]. intros n s1 (-> & M1 & B1). cbn beta.
  apply (supplies_later _ _ _ s1) in Hs. rewrite B1 in Hs.
  wp_step. eapply (wp_mono _ _ _ _ (fun _ s => Forall leaves_memory s /\ bank_after b s = refilled b)).
  { destruct b as [[|z q] next]; cbn [fst length].
    - change (negb (truthy (Z.of_nat 0))) with true. cbv match. do 3 wp_step.
      apply (supplies_later _ _ _ [Cmd c_ClearOUT]) in Hs. eapply wp_mono; [apply (received_now _ _ Hs)|].
      intros _ s [M B]. split; [by apply Forall_app_2; [repeat constructor|]|]. by rewrite bank_after_app, B.
    - rewrite truthy_nonzero by lia. cbn [negb]. cbv match. by wp_step. }
  intros _ s2 [M2 B2]. cbn beta. apply (supplies_later _ _ _ s2) in Hs. rewrite B2, Er in Hs.
  wp_step. eapply wp_mono; [by apply (word_from_bank h x y p (refilled b).2)|]. intros w s3 (-> & M3 & B3). cbn beta.
  apply (supplies_later _ _ _ s3) in Hs. rewrite B3 in Hs.
  rewrite <- !app_assoc in *. eapply wp_mono; [apply (HQ (s1 ++ s2 ++ s3) (p, (refilled b).2)); try done; [by repeat apply Forall_app_2|]|].
  - by rewrite !bank_after_app, B1, B2, Er.
  - intros a s' HQ'. cbn beta in HQ'. by rewrite <- !app_assoc in HQ'.
Qed.

Definition word_left (n : nat) (PageWord : Z) : Prop := 0 <= PageWord /\ PageWord + Z.of_nat n = words.

(** The address of a page in the type of the program. *)
Definition page_address (P : Z) : Prop := aligned P /\ 0 <= P /\ P + SPM_PAGESIZE <= (if FLASHEND >? 0xFFFF then 2 ^ 24 else 2 ^ 16).

Lemma address_in_page P a : page_address P -> 0 <= a < SPM_PAGESIZE -> address FLASHEND (P + a) = P + a.
Proof. intros (_ & H0 & HP) Ha. unfold address. destruct (FLASHEND >? 0xFFFF); [apply u32_small|apply u16_small]; lia. Qed.

(** The rest of a page. *)
Lemma page_filled n : forall B k fl D b t m rest P, word_left n k -> Z.of_nat (length B) = 2 * k -> (n < fl)%nat -> length D = (2 * n)%nat ->
  supplies h t b -> bank_ok b -> whole_words b -> bank_bytes b = D ++ rest -> holds m B -> Forall is_byte B -> page_address P ->
  wp true h (fill_page FLASHEND fuel fl P k) t (fun _ s =>
    holds (memory_after m s) (B ++ D) /\ flash (memory_after m s) = flash m /\ eeprom (memory_after m s) = eeprom m /\
    Forall is_byte (B ++ D) /\ bank_bytes (bank_after b s) = rest).
Proof.
  induction n as [|n IH]; intros B k fl D b t m rest P [Hk Hn] HB Hfl HD Hs Hok Hw E Hh HBy HP; (destruct fl as [|fl]; [lia|]); cbn [fill_page].
  - rewrite Hpage, (Z.mul_comm 2), Z.quot_mul by lia. rewrite (proj2 (Z.ltb_ge k words)) by lia. wp_step. destruct D; [|cbn in HD; lia]. by rewrite app_nil_r.
  - rewrite Hpage, (Z.mul_comm 2), Z.quot_mul by lia. rewrite (proj2 (Z.ltb_lt k words)) by lia. destruct D as [|x [|y D]]; [cbn in HD; lia|cbn in HD; lia|]. cbn [length] in HD.
    apply (word_fetched _ x y (D ++ rest) b); try done. intros s1 b1 M1 B1 Hs1 Hok1 Hw1 Eb Hx Hy. rewrite u16_small by (rewrite Z.shiftl_mul_pow2; lia).
    rewrite Z.shiftl_mul_pow2 by lia. change (2 ^ 1) with 2. rewrite address_in_page by (done || lia). unfold boot_page_fill. do 2 wp_step.
    set (s2 := s1 ++ [Cmd (c_Memory (w_Page_Fill (u32 (P + k * 2)) (u16 (x + Z.shiftl y 8))))]).
    assert (0 <= P + k * 2 < 2 ^ 32) as HA by (destruct HP as (_ & ? & HP); destruct (FLASHEND >? 0xFFFF); lia).
    assert (memory_after m s2 = memory_step m (w_Page_Fill (P + k * 2) (x + Z.shiftl y 8))) as Em.
    { unfold s2. rewrite memory_after_app, (memory_left _ s1 M1). unfold is_byte in *. rewrite u32_small by lia.
      rewrite u16_small by (rewrite Z.shiftl_mul_pow2; lia). done. }
    destruct (fill_holds m B (Z.to_nat k) (P + k * 2) x y Hh) as [Hfill Hflash]; [lia| |done|done|].
    { destruct HP as (HP & _). unfold aligned in HP. rewrite <- Zplus_mod_idemp_l, HP, Z.mod_small; lia. }
    rewrite <- Em in Hfill, Hflash. change [Cmd (c_Memory _)] with ([Cmd (c_Memory (w_Page_Fill (u32 (P + k * 2)) (u16 (x + Z.shiftl y 8))))]).
    replace ((t ++ s1) ++ _) with (t ++ s2) by (unfold s2; by rewrite app_assoc). rewrite u8_small by lia.
    assert (bank_after b s2 = b1) as B2 by (unfold s2; by rewrite bank_after_app, B1).
    eapply wp_mono; [apply (IH (B ++ [x; y]) (k + 1) fl D b1 _ (memory_after m s2) rest P)|]; try done.
    + split; lia.
    + rewrite length_app. cbn [length]. lia.
    + lia.
    + lia.
    + rewrite <- B2. by apply (supplies_later _ _ b).
    + apply Forall_app_2; [done|]. by apply Forall_cons_2; [|apply Forall_cons_2].
    + intros _ s (K1 & K2 & K3 & K4 & K5). rewrite <- app_assoc in K1, K4. rewrite (app_assoc s1). change (s1 ++ [_]) with s2.
      rewrite memory_after_app, bank_after_app, B2, K2, K3, Hflash. split_and!; try done.
      rewrite Em. destruct Hh as [Hb _]. unfold memory_step. by rewrite Hb.
Qed.

(** A report with a page. *)
Record page_programmed (m : memory) (P : Z) (D : list Z) (e : list event) : Prop := {
    pp_flash : forall x, flash (memory_after m e) x = if (P <=? x) && (x <? P + SPM_PAGESIZE) then nth (Z.to_nat (x - P)) D 255 else flash m x;
    pp_idle : holds (memory_after m e) [];
    pp_readable : readable (memory_after m e) = true;
    pp_eeprom : eeprom (memory_after m e) = eeprom m
  }.

Lemma page_written D b t m rest P : Z.of_nat (length D) = SPM_PAGESIZE -> supplies h t b -> bank_ok b -> whole_words b -> bank_bytes b = D ++ rest ->
  holds m [] -> page_address P -> wp true h (program_page FLASHEND fuel P) t (fun _ s => page_programmed m P D s).
Proof.
  intros HD Hs Hok Hw E Hh HP. pose proof HP as (HA & H0 & HP2).
  assert (0 <= P < 2 ^ 32) as H32 by (destruct (FLASHEND >? 0xFFFF); lia).
  destruct (page_erased words Hpage Hwords m P Hh HA H32) as (P1 & P2 & P3).
  unfold program_page, boot_page_erase, boot_spm_busy_wait, boot_page_write, boot_rww_enable. do 4 wp_step.
  set (er := [Cmd (c_Memory (w_Page_Erase (u32 P))); Cmd (c_Memory w_Busy_Wait)]) in *.
  replace ((t ++ _) ++ _) with (t ++ er) by (unfold er; by rewrite <- app_assoc).
  wp_step. eapply wp_mono; [apply (page_filled (Z.to_nat words) [] 0 256 D b (t ++ er) (memory_after m er) rest P)|]; try done.
  - split; lia.
  - lia.
  - lia.
  - by apply (supplies_later _ _ _ er) in Hs.
  - intros _ s (K1 & K2 & K3 & K4 & K5). cbn beta. cbn [app] in K1, K4.
    destruct (page_committed words Hpage Hwords (memory_after (memory_after m er) s) P D K1 HA H32 ltac:(lia) K4) as (C1 & C2 & C3).
    { intros x Hx. rewrite K2, P3. by rewrite (proj2 (Z.leb_le P x)), (proj2 (Z.ltb_lt x (P + SPM_PAGESIZE))) by lia. }
    set (wr := [Cmd (c_Memory (w_Page_Write (u32 P))); _]) in *. repeat wp_step.
    match goal with |- page_programmed _ _ _ ?g => assert (memory_after m g = memory_step (memory_after (memory_after (memory_after m er) s) wr) w_RWW_Enable) as Em end.
    { by rewrite (app_assoc [Cmd _]), !memory_after_app. }
    pose proof C1 as [Cb _]. unfold memory_step in Em. rewrite Cb in Em. split; rewrite Em; cbn [flash readable eeprom].
    + intros x. rewrite C3, K2, P3. by destruct ((P <=? x) && (x <? P + SPM_PAGESIZE)).
    + by apply blank_holds.
    + done.
    + by rewrite C2, K3.
Qed.

(** The address in the first word of a report. *)
Definition report_address (w : Z) : Z := if FLASHEND >? 0xFFFF then Z.shiftl w 8 else w.
Definition set_report (v ix n : Z) : USB_Request_Header_t := mk_request class_to_device HID_REQ_SetReport v ix n.

Lemma report_command w : 0 <= w < 65536 -> (if FLASHEND >? 0xFFFF then u16 (Z.shiftr (report_address w) 8) else report_address w) = w.
Proof. intros Hw. unfold report_address. destruct (FLASHEND >? 0xFFFF); [|done]. rewrite Z.shiftr_shiftl_l, Z.sub_diag, Z.shiftl_0_r by lia. by apply u16_small. Qed.

(** The packets of a report: the address, then [l]. *)
Record report (a0 a1 : Z) (l : list Z) (first : list Z) (next : list (list Z)) : Prop := {
    rp_first : exists p, first = a0 :: a1 :: p;
    rp_bytes : bank_bytes (first, next) = a0 :: a1 :: l;
    rp_bank : bank_ok (first, next);
    rp_words : whole_words (first, next)
  }.

Lemma request_handled v ix n run a0 a1 l first next t Q :
  supplies h (t ++ [Cmd c_ClearSETUP]) (first, next) -> report a0 a1 l first next -> (forall s, h (t ++ s) q_IsINReady <> 0) ->
  (forall s1 b, Forall leaves_memory s1 -> supplies h (t ++ s1) b -> bank_ok b -> whole_words b -> bank_bytes b = l ->
    wp true h (if a0 + Z.shiftl a1 8 =? COMMAND_STARTAPPLICATION then mret false else program_page FLASHEND fuel (report_address (a0 + Z.shiftl a1 8));; mret run)
       (t ++ s1) (fun r e => forall s2, Forall leaves_memory s2 -> Q r (s1 ++ e ++ s2))) ->
  wp true h (EVENT_USB_Device_ControlRequest FLASHEND fuel (set_report v ix n) run) t Q.
Proof.
  intros Hs [[p ->] E (Hl & [Hx [Hy Hp]%Forall_cons]%Forall_cons & Hn) [[k Hk] Hw]] Hin HQ. cbn [fst length] in *.
  unfold EVENT_USB_Device_ControlRequest. change (bmRequestType _) with class_to_device. change (bRequest _) with HID_REQ_SetReport.
  change (negb (Z.land class_to_device _ =? _)) with false. cbv match. change (HID_REQ_SetReport =? HID_REQ_SetReport) with true. cbv match.
  do 3 wp_step. wp_step. eapply wp_mono; [by apply (received_now _ _ Hs)|]. intros _ s1 [M1 B1]. cbn beta.
  apply (supplies_later _ _ _ s1) in Hs. rewrite B1 in Hs.
  wp_step. eapply wp_mono; [by apply (word_from_bank h a0 a1 p next)|]. intros w s2 (-> & M2 & B2). cbn beta zeta.
  apply (supplies_later _ _ _ s2) in Hs. rewrite B2 in Hs. unfold is_byte in *.
  assert (0 <= a0 + Z.shiftl a1 8 < 65536) as Hw16 by (rewrite Z.shiftl_mul_pow2; lia).
  set (w := a0 + Z.shiftl a1 8) in *. change (if FLASHEND >? 0xFFFF then Z.shiftl w 8 else w) with (report_address w). rewrite (report_command w Hw16).
  set (s0 := [Cmd c_ClearSETUP] ++ s1 ++ s2). replace (((t ++ _) ++ s1) ++ s2) with (t ++ s0) in * by (unfold s0; by rewrite <- !app_assoc).
  wp_step. eapply wp_mono; [apply (HQ s0 (p, next))|].
  - unfold s0. apply Forall_app_2; [by repeat constructor|]. by apply Forall_app_2.
  - done.
  - split_and!; [cbn; lia|done|done].
  - split; [exists (k - 1)%nat; cbn [fst]; lia|done].
  - unfold bank_bytes in *. cbn [fst snd] in *. by injection E.
  - intros r e Hr. cbn beta in Hr. do 3 wp_step. eapply wp_mono; [apply (stage_ready h fuel); [exact Hf|done|]|].
    { intros s. rewrite <- !app_assoc. apply Hin. }
    intros ? s3 M3. cbn beta in M3. wp_step. rewrite app_nil_r. specialize (Hr ([Cmd c_ClearOUT] ++ s3)).
    rewrite !(app_assoc s1), !(app_assoc [Cmd c_ClearSETUP]). fold s0. apply Hr. apply Forall_app_2; [by repeat constructor|done].
Qed.

Lemma page_reported v ix n run a0 a1 D rest first next t m :
  supplies h (t ++ [Cmd c_ClearSETUP]) (first, next) -> report a0 a1 (D ++ rest) first next -> (forall s, h (t ++ s) q_IsINReady <> 0) ->
  a0 + Z.shiftl a1 8 <> COMMAND_STARTAPPLICATION -> Z.of_nat (length D) = SPM_PAGESIZE -> holds m [] -> page_address (report_address (a0 + Z.shiftl a1 8)) ->
  wp true h (EVENT_USB_Device_ControlRequest FLASHEND fuel (set_report v ix n) run) t (fun r e =>
    r = run /\ page_programmed m (report_address (a0 + Z.shiftl a1 8)) D e).
Proof.
  intros Hs Hr Hin Hne HD Hh HP. eapply request_handled; [exact Hs|exact Hr|exact Hin|]. intros s1 b M1 Hs1 Hok Hw E.
  rewrite (proj2 (Z.eqb_neq _ _) Hne). wp_step. eapply wp_mono; [by apply (page_written D b _ m rest)|]. intros _ e [F1 F2 F3 F4]. cbn beta. wp_step.
  intros s2 M2. split; [done|]. rewrite app_nil_r.
  assert (memory_after m (s1 ++ e ++ s2) = memory_after m e) as Em by by rewrite !memory_after_app, (memory_left m s1 M1), (memory_left _ s2 M2).
  split; rewrite Em; done.
Qed.

Lemma start_reported v ix n run a0 a1 l first next t :
  supplies h (t ++ [Cmd c_ClearSETUP]) (first, next) -> report a0 a1 l first next -> (forall s, h (t ++ s) q_IsINReady <> 0) ->
  a0 + Z.shiftl a1 8 = COMMAND_STARTAPPLICATION ->
  wp true h (EVENT_USB_Device_ControlRequest FLASHEND fuel (set_report v ix n) run) t (fun r e => r = false /\ Forall leaves_memory e).
Proof.
  intros Hs Hr Hin E. eapply request_handled; [exact Hs|exact Hr|exact Hin|]. intros s1 b M1 Hs1 Hok Hw Eb. rewrite E.
  change (COMMAND_STARTAPPLICATION =? COMMAND_STARTAPPLICATION) with true. cbv match. wp_step. intros s2 M2. split; [done|]. by apply Forall_app_2.
Qed.
End host.
End report.
