(* ===== verification/HIDLoader.v ===== *)
(** * The host's loader for the HID bootloader

    [Bootloaders/HID/HostLoaderApp/hid_bootloader_cli.c]: options, the Intel hex file, and
    the pages that are sent.  Files and lines are lists of bytes; the image and its mask are
    functions on the indices of the C arrays, outside of which an access is a fault.
    Access to the USB device is a parameter. *)
From Stdlib Require Import String Ascii.
From S2P Require Import Prelude.

Definition MAX_MEMORY_SIZE := 0x10000.

(** ** Options *)

Record options := mk_options {
    wait_for_device_to_appear : bool;
    hard_reboot_device : bool;
    reboot_after_programming : bool;
    verbose : bool;
    code_size : Z;
    block_size : Z;
    filename : option string
  }.
Definition options_init : options := mk_options false false true false 0 0 None.

Definition set_sizes (kb block : Z) (o : options) : options :=
  mk_options (wait_for_device_to_appear o) (hard_reboot_device o) (reboot_after_programming o) (verbose o) (kb * 1024) block (filename o).

(** The rest of [s] after a prefix. *)
Definition after (p s : string) : option string :=
  if String.prefix p s then Some (substring (String.length p) (String.length s - String.length p) s) else None.

(** The part of the controller after [-mmcu=]; [None] when the program dies. *)
Definition parse_mcu (arg : string) (o : options) : option options :=
  arg ← match after "at90usb" arg with Some rest => Some rest | None => after "atmega" arg end;
  if String.prefix "128" arg then Some (set_sizes 128 256 o)
  else if String.prefix "64" arg then Some (set_sizes 64 256 o)
  else if String.prefix "32" arg then Some (set_sizes 32 128 o)
  else if String.prefix "16" arg then Some (set_sizes 16 128 o)
  else if String.prefix "8" arg then Some (set_sizes 8 128 o)
  else None.

Definition parse_option (arg : string) (o : options) : option options :=
  if String.prefix "-" arg then
    if String.eqb arg "-w" then Some (mk_options true (hard_reboot_device o) (reboot_after_programming o) (verbose o) (code_size o) (block_size o) (filename o))
    else if String.eqb arg "-r" then Some (mk_options (wait_for_device_to_appear o) true (reboot_after_programming o) (verbose o) (code_size o) (block_size o) (filename o))
    else if String.eqb arg "-n" then Some (mk_options (wait_for_device_to_appear o) (hard_reboot_device o) false (verbose o) (code_size o) (block_size o) (filename o))
    else if String.eqb arg "-v" then Some (mk_options (wait_for_device_to_appear o) (hard_reboot_device o) (reboot_after_programming o) true (code_size o) (block_size o) (filename o))
    else match after "-mmcu=" arg with Some mcu => parse_mcu mcu o | None => Some o end
  else Some (mk_options (wait_for_device_to_appear o) (hard_reboot_device o) (reboot_after_programming o) (verbose o) (code_size o) (block_size o) (Some arg)).
Fixpoint parse_options (args : list string) (o : options) : option options :=
  match args with
  | [] => Some o
  | arg :: args => o ← parse_option arg o; parse_options args o
  end.

(** ** Numbers in a line

    [sscanf] with [%02x] and [%04x]: white space, then at most [width] characters, which
    are a sign, [0x] and digits. *)
Inductive scanned := Matched (n : Z) | Mismatch | Input_end.

Definition is_space (c : Z) : bool := (c =? 32) || ((9 <=? c) && (c <=? 13)).
Definition hex_digit (c : Z) : option Z :=
  if (48 <=? c) && (c <=? 57) then Some (c - 48)
  else if (65 <=? c) && (c <=? 70) then Some (c - 55)
  else if (97 <=? c) && (c <=? 102) then Some (c - 87)
  else None.

Fixpoint skip_space (s : list Z) : list Z :=
  match s with c :: rest => if is_space c then skip_space rest else s | [] => [] end.
(** The number at the start of [s], if there is a digit. *)
Fixpoint scan_digits (width : nat) (acc : option Z) (s : list Z) : option Z :=
  match width, s with
  | S width, c :: s =>
      match hex_digit c with
      | Some d => scan_digits width (Some (match acc with Some a => a * 16 + d | None => d end)) s
      | None => acc
      end
  | _, _ => acc
  end.
Definition scan_prefix (width : nat) (s : list Z) : option Z :=
  match width, s with
  | S (S width'), z :: x :: s' => if (z =? 48) && ((x =? 120) || (x =? 88)) then scan_digits width' None s' else scan_digits width None s
  | _, _ => scan_digits width None s
  end.
Definition scan_hex (width : nat) (s : list Z) : scanned :=
  match skip_space s with
  | [] => Input_end
  | c :: s' =>
      let number := if c =? 45 then Z.opp <$> scan_prefix (width - 1) s'
                    else if c =? 43 then scan_prefix (width - 1) s'
                    else scan_prefix width (c :: s') in
      match number with Some n => Matched n | None => Mismatch end
  end.

(** The string from [ptr] on; behind the end of the string the buffer is not initialised. *)
Definition at_ptr (line : list Z) (ptr : nat) : outcome (list Z) :=
  if (ptr <=? length line)%nat then Returns (drop ptr line) else Faults.

(** [if (!sscanf(...)) return r;]: at the end of the input [sscanf] is not zero, and the
    variable is used without a value. *)
Definition sscanf_or {A} (width : nat) (line : list Z) (ptr : nat) (failed : outcome A) (k : Z -> outcome A) : outcome A :=
  s ← at_ptr line ptr;
  match scan_hex width s with Matched n => k n | Mismatch => failed | Input_end => Faults end.

(** ** The hex file *)

Record ihex := mk_ihex {
    firmware_image : Z -> Z;
    firmware_mask : Z -> bool;
    end_record_seen : bool;
    byte_count : Z;
    extended_addr : Z
  }.

Definition ihex_init : ihex := mk_ihex (fun _ => 0xFF) (fun _ => false) false 0 0.
Definition set_end (s : ihex) : ihex := mk_ihex (firmware_image s) (firmware_mask s) true (byte_count s) (extended_addr s).
Definition set_extended (a : Z) (s : ihex) : ihex := mk_ihex (firmware_image s) (firmware_mask s) (end_record_seen s) (byte_count s) a.
Definition count_bytes (n : Z) (s : ihex) : ihex := mk_ihex (firmware_image s) (firmware_mask s) (end_record_seen s) (byte_count s + n) (extended_addr s).
Definition store_byte (a b : Z) (s : ihex) : outcome ihex :=
  if (0 <=? a) && (a <? MAX_MEMORY_SIZE) then
    Returns (mk_ihex (fun x => if x =? a then b else firmware_image s x) (fun x => if x =? a then true else firmware_mask s x)
      (end_record_seen s) (byte_count s) (extended_addr s))
  else Faults.

Definition low8 (n : Z) : Z := Z.land n 255.

(** The loop over the bytes of a record, [256 - num] trips at most: the position and the
    sum after it, or that the line is refused, and the state. *)
Fixpoint store_bytes (trips : nat) (line : list Z) (base num len : Z) (ptr : nat) (sum : Z) (s : ihex) : outcome (option (nat * Z) * ihex) :=
  match trips with
  | O => Returns (None, s)
  | S trips =>
      if num =? len then Returns (Some (ptr, sum), s) else
      text ← at_ptr line ptr;
      match scan_hex 2 text with
      | Matched i =>
          let i := low8 i in
          s ← store_byte (u32 (base + num)) i s;
          store_bytes trips line base (num + 1) len (ptr + 2) (sum + i) s
      | _ => Returns (None, s)
      end
  end.

Definition checksum_wrong (sum cksum : Z) : bool := truthy (low8 (low8 sum + low8 cksum)).

(** The record with an extended address: its value is shifted. *)
Definition parse_extended (line : list Z) (ptr : nat) (sum shift : Z) (s : ihex) : outcome (Z * ihex) :=
  sscanf_or 4 line ptr (Returns (1, s)) (fun i =>
    let sum := sum + (low8 (Z.shiftr i 8) + low8 i) in
    sscanf_or 2 line (ptr + 4) (Returns (1, s)) (fun cksum =>
      if checksum_wrong sum cksum then Returns (1, s) else Returns (1, set_extended (u32 (Z.shiftl i shift)) s))).

(** A line: 1 when it is accepted, 0 when it is not. *)
Definition parse_hex_line (line : list Z) (s : ihex) : outcome (Z * ihex) :=
  if negb (hd 0 line =? 58) then Returns (0, s) else
  if (length line <? 11)%nat then Returns (0, s) else
  sscanf_or 2 line 1 (Returns (0, s)) (fun len =>
    if Z.of_nat (length line) <? 11 + len * 2 then Returns (0, s) else
    sscanf_or 4 line 3 (Returns (0, s)) (fun addr =>
      sscanf_or 2 line 7 (Returns (0, s)) (fun code =>
        if MAX_MEMORY_SIZE <=? u32 (addr + extended_addr s + len) then Returns (0, s) else
        let sum := low8 len + low8 (Z.shiftr addr 8) + low8 addr + low8 code in
        if negb (code =? 0) then
          if code =? 1 then Returns (1, set_end s)
          else if (code =? 2) && (len =? 2) then parse_extended line 9 sum 4 s
          else if (code =? 4) && (len =? 2) then parse_extended line 9 sum 16 s
          else Returns (1, s)
        else
          '(ok, s) ← store_bytes 256 line (addr + extended_addr s) 0 len 9 sum (count_bytes len s);
          match ok with
          | None => Returns (0, s)
          | Some (ptr, sum) =>
              sscanf_or 2 line ptr (Returns (0, s)) (fun cksum =>
                if checksum_wrong sum cksum then Returns (0, s) else Returns (1, s))
          end))).

(** [fgets]: up to a line feed, and at most [n] bytes: the line and the rest. *)
Fixpoint fgets (n : nat) (file : list Z) : list Z * list Z :=
  match n, file with
  | S n, c :: file => if c =? 10 then ([c], file) else let '(line, rest) := fgets n file in (c :: line, rest)
  | _, _ => ([], file)
  end.
(** The string in a buffer ends at the first zero. *)
Fixpoint c_string (buf : list Z) : list Z :=
  match buf with c :: buf => if c =? 0 then [] else c :: c_string buf | [] => [] end.

(** The loop over the lines; nothing is read from the standard input, which is never at its end. *)
Fixpoint read_lines (fuel : nat) (file : list Z) (s : ihex) : outcome (Z * ihex) :=
  match fuel with
  | O => Loops
  | S fuel =>
      match file with
      | [] => Returns (byte_count s, s)
      | _ =>
          let '(buf, file) := fgets 1023 file in
          let line := c_string buf in
          '(ok, s) ← match line with [] => Returns (1, s) | _ => parse_hex_line line s end;
          if ok =? 0 then Returns (-2, s)
          else if end_record_seen s then Returns (byte_count s, s)
          else read_lines fuel file s
      end
  end.

(** The state before is forgotten; without a file the answer is -1. *)
Definition read_intel_hex (file : option (list Z)) : outcome (Z * ihex) :=
  match file with
  | None => Returns (-1, ihex_init)
  | Some file => read_lines (S (length file)) file ihex_init
  end.

(** ** The pages *)

Definition mask_set (s : ihex) (first : Z) (n : nat) : bool := existsb (fun i => firmware_mask s (first + Z.of_nat i)) (seq 0 n).
Definition ihex_bytes_within_range (s : ihex) (first last : Z) : bool :=
  if (first <? 0) || (MAX_MEMORY_SIZE <=? first) || (last <? 0) || (MAX_MEMORY_SIZE <=? last) then false
  else mask_set s first (Z.to_nat (last - first + 1)).

Definition ihex_get_data (s : ihex) (addr len : Z) : list Z :=
  if (addr <? 0) || (len <? 0) || (MAX_MEMORY_SIZE <=? addr + len) then repeat 255 (Z.to_nat len)
  else (fun i => let a := addr + Z.of_nat i in if firmware_mask s a then firmware_image s a else 255) <$> seq 0 (Z.to_nat len).

(** What [main] writes to the device for the page at [addr]. *)
Definition page_buffer (o : options) (s : ihex) (addr : Z) : list Z :=
  (if code_size o <? 0x10000 then [Z.land addr 255; Z.land (Z.shiftr addr 8) 255]
   else [Z.land (Z.shiftr addr 8) 255; Z.land (Z.shiftr addr 16) 255]) ++ ihex_get_data s addr (block_size o).

Section device.
(** Whether [teensy_write] succeeds with the last of the buffers written. *)
Context (write_ok : list (list Z) -> bool).

(** The loop over the pages: whether the program goes on after it, and the buffers written. *)
Fixpoint program_data (fuel : nat) (o : options) (s : ihex) (addr : Z) (written : list (list Z)) : outcome (bool * list (list Z)) :=
  match fuel with
  | O => Loops
  | S fuel =>
      if addr <? code_size o then
        if (0 <? addr) && negb (ihex_bytes_within_range s addr (addr + block_size o - 1)) then
          program_data fuel o s (addr + block_size o) written
        else
          let written := written ++ [page_buffer o s addr] in
          if negb (write_ok written) then Returns (false, written)
          else program_data fuel o s (addr + block_size o) written
      else Returns (true, written)
  end.

(** [main], with the options and a device that is found at once: whether it ends without an
    error, and the buffers written. *)
Definition main (fuel : nat) (o : options) (file : option (list Z)) : outcome (bool * list (list Z)) :=
  if bool_decide (filename o = None) || (code_size o =? 0) then Returns (false, []) else
  '(num, s) ← read_intel_hex file;
  if num <? 0 then Returns (false, []) else
  '(ok, written) ← program_data fuel o s 0 [];
  if negb ok then Returns (false, written) else
  if reboot_after_programming o then Returns (true, written ++ [[0xFF; 0xFF] ++ repeat 0 (Z.to_nat (block_size o))])
  else Returns (true, written).
End device.
