(* ===== verification/HIDLoaderSpec.v ===== *)
(** * Correctness of the loader

    A hex file is read into the image it stands for, and the pages that are sent program
    it into the flash of the bootloader's controller. *)
From Stdlib Require Import String Ascii.
From S2P Require Import Prelude EndpointSpec HIDLoader.

(** ** Hexadecimal digits *)

Definition hex_char (d : Z) : Z := if d <? 10 then 48 + d else 55 + d.
Definition hex2 (b : Z) : list Z := [hex_char (b / 16); hex_char (b mod 16)].

Lemma hex_char_range d : 0 <= d < 16 -> 48 <= hex_char d <= 57 \/ 65 <= hex_char d <= 70.
Proof. intros Hd. unfold hex_char. destruct (Z.ltb_spec d 10); lia. Qed.

Lemma hex_digit_char d : 0 <= d < 16 -> hex_digit (hex_char d) = Some d.
Proof.
  intros Hd. unfold hex_digit, hex_char. destruct (Z.ltb_spec d 10).
  - rewrite (proj2 (Z.leb_le 48 _)), (proj2 (Z.leb_le _ 57)) by lia. cbn [andb]. f_equal. lia.
  - rewrite (proj2 (Z.leb_gt (55 + d) 57)), andb_false_r by lia. rewrite (proj2 (Z.leb_le 65 _)), (proj2 (Z.leb_le _ 70)) by lia.
    cbn [andb]. f_equal. lia.
Qed.

(** Digits in a row are a number. *)
Lemma scan_hex_digits (width : nat) d s : (2 <= width)%nat -> 0 <= d < 16 -> (exists c, s !! 0%nat = Some c /\ c <> 120 /\ c <> 88) ->
  scan_hex width (hex_char d :: s) = match scan_digits width None (hex_char d :: s) with Some n => Matched n | None => Mismatch end.
Proof.
  intros Hw Hd (c & Hc & H1 & H2). destruct s as [|c' s]; [done|]. injection Hc as ->. pose proof (hex_char_range d Hd) as Hr.
  assert (is_space (hex_char d) = false) as Hs.
  { unfold is_space. apply orb_false_iff. split; [apply Z.eqb_neq; lia|]. apply andb_false_iff. right. apply Z.leb_gt. lia. }
  unfold scan_hex. cbn [skip_space]. rewrite Hs. cbv match.
  rewrite (proj2 (Z.eqb_neq (hex_char d) 45)), (proj2 (Z.eqb_neq (hex_char d) 43)) by lia.
  unfold scan_prefix. destruct width as [|[|width]]; [lia|lia|]. rewrite (proj2 (Z.eqb_neq c 120)), (proj2 (Z.eqb_neq c 88)) by lia.
  by rewrite andb_false_r.
Qed.

Lemma scan_digit width acc d s : 0 <= d < 16 ->
  scan_digits (S width) acc (hex_char d :: s) = scan_digits width (Some (match acc with Some a => a * 16 + d | None => d end)) s.
Proof. intros Hd. cbn [scan_digits]. by rewrite hex_digit_char. Qed.

Lemma byte_digits b : is_byte b -> 0 <= b / 16 < 16 /\ 0 <= b mod 16 < 16 /\ b / 16 * 16 + b mod 16 = b.
Proof. unfold is_byte. intros Hb. Z.div_mod_to_equations. lia. Qed.

Lemma hex_char_not_x d : 0 <= d < 16 -> hex_char d <> 120 /\ hex_char d <> 88.
Proof. intros Hd. pose proof (hex_char_range d Hd). lia. Qed.

Lemma scan_byte b s : is_byte b -> scan_hex 2 (hex2 b ++ s) = Matched b.
Proof.
  intros Hb. destruct (byte_digits b Hb) as (H1 & H2 & E). unfold hex2. cbn [app].
  rewrite scan_hex_digits by (lia || (eexists; split; [done|by apply hex_char_not_x])). rewrite !scan_digit by done. cbn [scan_digits]. by rewrite E.
Qed.

Lemma scan_word x y s : is_byte x -> is_byte y -> scan_hex 4 (hex2 x ++ hex2 y ++ s) = Matched (x * 256 + y).
Proof.
  intros Hx Hy. destruct (byte_digits x Hx) as (X1 & X2 & EX), (byte_digits y Hy) as (Y1 & Y2 & EY). unfold hex2. cbn [app].
  rewrite scan_hex_digits by (lia || (eexists; split; [done|by apply hex_char_not_x])). rewrite !scan_digit by done. cbn [scan_digits]. f_equal. lia.
Qed.

(** ** Records *)

Inductive hex_record :=
  | Bytes (addr : Z) (bytes : list Z)
  | Segment (i : Z)
  | Linear (i : Z).

Definition sum_of (l : list Z) : Z := foldr Z.add 0 l.
Definition checksum (body : list Z) : Z := (- sum_of body) mod 256.

Definition record_body (r : hex_record) : list Z :=
  match r with
  | Bytes addr bytes => Z.of_nat (length bytes) :: addr / 256 :: addr mod 256 :: 0 :: bytes
  | Segment i => [2; 0; 0; 2; i / 256; i mod 256]
  | Linear i => [2; 0; 0; 4; i / 256; i mod 256]
  end.
Definition end_body : list Z := [0; 0; 0; 1].
Fixpoint hex_text (l : list Z) : list Z := match l with [] => [] | b :: l => hex2 b ++ hex_text l end.
Definition hex_line (body eol : list Z) : list Z := 58 :: hex_text (body ++ [checksum body]) ++ eol.
Definition hex_file (records : list hex_record) (eol : list Z) : list Z :=
  (records ≫= fun r => hex_line (record_body r) eol) ++ hex_line end_body eol.

(** The base address after a record, and records that lie in the memory the loader has. *)
Definition base_after (r : hex_record) (base : Z) : Z :=
  match r with Bytes _ _ => base | Segment i => Z.shiftl i 4 | Linear i => Z.shiftl i 16 end.
Definition record_ok (r : hex_record) (base : Z) : Prop :=
  match r with
  | Bytes addr bytes => 0 <= addr < 65536 /\ Forall is_byte bytes /\ (length bytes < 256)%nat /\ addr + base + Z.of_nat (length bytes) < MAX_MEMORY_SIZE
  | Segment i | Linear i => 0 <= i < 65536 /\ base + 2 < MAX_MEMORY_SIZE
  end.
Fixpoint records_ok (records : list hex_record) (base : Z) : Prop :=
  match records with
  | [] => base < MAX_MEMORY_SIZE
  | r :: records => record_ok r base /\ records_ok records (base_after r base)
  end.
Definition eol_ok (eol : list Z) : Prop := eol = [10] \/ eol = [13; 10].

(** An image with bytes from [a] on. *)
Definition stored (a : Z) (bytes : list Z) (img : Z -> option Z) : Z -> option Z :=
  fun x => if (a <=? x) && (x <? a + Z.of_nat (length bytes)) then Some (nth (Z.to_nat (x - a)) bytes 0) else img x.

(** What the records stand for. *)
Definition image_after (r : hex_record) (base : Z) (img : Z -> option Z) : Z -> option Z :=
  match r with
  | Bytes addr bytes => stored (addr + base) bytes img
  | _ => img
  end.
Fixpoint image_from (records : list hex_record) (base : Z) (img : Z -> option Z) : Z -> option Z :=
  match records with
  | [] => img
  | r :: records => image_from records (base_after r base) (image_after r base img)
  end.
Definition image_of (records : list hex_record) : Z -> option Z := image_from records 0 (fun _ => None).
Definition bytes_of (r : hex_record) : Z := match r with Bytes _ bytes => Z.of_nat (length bytes) | _ => 0 end.

(** The state of the loader: the arrays hold an image, and the variables. *)
Record read (s : ihex) (img : Z -> option Z) (count base : Z) (ended : bool) : Prop := {
    rd_mask : forall x, firmware_mask s x = match img x with Some _ => true | None => false end;
    rd_image : forall x b, img x = Some b -> firmware_image s x = b;
    rd_count : byte_count s = count;
    rd_base : extended_addr s = base;
    rd_end : end_record_seen s = ended
  }.

Lemma read_ext s img img' count base ended : (forall x, img x = img' x) -> read s img count base ended -> read s img' count base ended.
Proof. intros E [H1 H2 H3 H4 H5]. split; try done; [intros x; by rewrite H1, E|intros x b Hx; apply H2; by rewrite E]. Qed.

Lemma stored_cons a b bytes img x : stored (a + 1) bytes (stored a [b] img) x = stored a (b :: bytes) img x.
Proof.
  unfold stored. cbn [length]. destruct (Z.leb_spec a x), (Z.leb_spec (a + 1) x), (Z.ltb_spec x (a + 1 + Z.of_nat (length bytes))),
    (Z.ltb_spec x (a + Z.of_nat 1)), (Z.ltb_spec x (a + Z.of_nat (S (length bytes)))); cbn [andb]; try lia; try done.
  - replace (Z.to_nat (x - a)) with (S (Z.to_nat (x - (a + 1)))) by lia. done.
  - replace (Z.to_nat (x - a)) with 0%nat by lia. done.
Qed.

(** ** A line *)

Section line.
Context (body eol : list Z) (Hb : Forall is_byte body).
Let line := hex_line body eol.

Lemma checksum_byte : is_byte (checksum body).
Proof. unfold is_byte, checksum. apply Z.mod_pos_bound. lia. Qed.

Lemma hex_text_length (l : list Z) : length (hex_text l) = (2 * length l)%nat.
Proof. induction l as [|b l IH]; [done|]. cbn [hex_text length]. rewrite length_app, IH. cbn [length hex2]. lia. Qed.

Lemma line_length : length line = (3 + 2 * length body + length eol)%nat.
Proof. unfold line, hex_line. cbn [length]. rewrite length_app, hex_text_length, length_app. cbn [length]. lia. Qed.

(** The text from the byte [i] of the record on. *)
Lemma line_at i l : drop i (body ++ [checksum body]) = l -> (i <= length body)%nat -> at_ptr line (1 + 2 * i) = Returns (hex_text l ++ eol).
Proof.
  intros <- Hi. unfold at_ptr. rewrite line_length, (proj2 (Nat.leb_le _ _)) by lia. f_equal. unfold line, hex_line.
  set (all := body ++ [checksum body]). assert (i <= length all)%nat as Hl by (unfold all; rewrite length_app; cbn; lia). clearbody all.
  cbn [Nat.add drop]. revert all Hl. clear. induction i as [|i IH]; intros all Hl; [done|]. destruct all as [|b all]; [cbn in Hl; lia|].
  replace (2 * S i)%nat with (S (S (2 * i))) by lia. cbn [drop hex_text app hex2]. rewrite <- IH by (cbn in Hl; lia). done.
Qed.

Lemma body_byte i b l : drop i (body ++ [checksum body]) = b :: l -> (i <= length body)%nat -> is_byte b.
Proof.
  intros E Hi. assert (b ∈ body ++ [checksum body]) as Hin by (rewrite <- (take_drop i (body ++ _)), E; apply elem_of_app; right; by left).
  apply elem_of_app in Hin as [Hin|Hin]; [by eapply Forall_forall in Hb|]. apply list_elem_of_singleton in Hin as ->. apply checksum_byte.
Qed.

Lemma byte_scanned {A} i b l (failed : outcome A) k : drop i (body ++ [checksum body]) = b :: l -> (i <= length body)%nat ->
  sscanf_or 2 line (1 + 2 * i) failed k = k b.
Proof.
  intros E Hi. pose proof (body_byte i b l E Hi) as Hbyte.
  unfold sscanf_or. rewrite (line_at i _ E Hi). cbn [mbind outcome_bind hex_text].
  rewrite <- app_assoc. by rewrite scan_byte.
Qed.

Lemma word_scanned {A} i x y l (failed : outcome A) k : drop i (body ++ [checksum body]) = x :: y :: l -> (i <= length body)%nat -> is_byte x -> is_byte y ->
  sscanf_or 4 line (1 + 2 * i) failed k = k (x * 256 + y).
Proof.
  intros E Hi Hx Hy. unfold sscanf_or. rewrite (line_at i _ E Hi). cbn [mbind outcome_bind hex_text]. rewrite <- !app_assoc. by rewrite scan_word.
Qed.

Lemma store_bytes_ok base count ext ended rest bytes : forall trips num i sum s img,
  drop i (body ++ [checksum body]) = bytes ++ rest -> (i + length bytes <= length body)%nat -> (length bytes < trips)%nat ->
  0 <= base + num -> base + num + Z.of_nat (length bytes) <= MAX_MEMORY_SIZE -> read s img count ext ended ->
  exists s', store_bytes trips line base num (num + Z.of_nat (length bytes)) (1 + 2 * i) sum s =
      Returns (Some ((1 + 2 * (i + length bytes))%nat, sum + sum_of bytes), s') /\ read s' (stored (base + num) bytes img) count ext ended.
Proof.
  induction bytes as [|b bytes IH]; intros trips num i sum s img E Hi Ht H0 H1 Hs; (destruct trips as [|trips]; [lia|]); cbn [store_bytes length] in *.
  - rewrite Z.add_0_r, Z.eqb_refl. exists s. rewrite Nat.add_0_r, Z.add_0_r. split; [done|]. eapply read_ext; [|exact Hs]. intros x. unfold stored. cbn [length].
    destruct (Z.leb_spec (base + num) x), (Z.ltb_spec x (base + num + Z.of_nat 0)); cbn [andb]; lia || done.
  - rewrite (proj2 (Z.eqb_neq num (num + _))) by lia. rewrite (line_at i _ E) by lia. cbn [mbind outcome_bind app hex_text].
    assert (is_byte b) as Hbyte by (apply (body_byte i b (bytes ++ rest)); [done|lia]).
    rewrite <- app_assoc, scan_byte by done. cbv zeta. assert (low8 b = b) as ->.
    { unfold low8. change 255 with (Z.ones 8). rewrite Z.land_ones by lia. apply Z.mod_small. exact Hbyte. }
    unfold store_byte. unfold MAX_MEMORY_SIZE in *. rewrite u32_small by lia. rewrite (proj2 (Z.leb_le 0 _)), (proj2 (Z.ltb_lt _ 0x10000)) by lia. cbn [andb].
    cbn [mbind outcome_bind]. set (s1 := mk_ihex _ _ _ _ _). assert (read s1 (stored (base + num) [b] img) count ext ended) as Hs1.
    { destruct Hs as [S1 S2 S3 S4 S5]. split; try done; intros x; cbn [s1 firmware_mask firmware_image]; unfold stored; cbn [length].
      - destruct (Z.eqb_spec x (base + num)), (Z.leb_spec (base + num) x), (Z.ltb_spec x (base + num + Z.of_nat 1)); cbn [andb]; lia || done.
      - destruct (Z.eqb_spec x (base + num)) as [Ex|], (Z.leb_spec (base + num) x), (Z.ltb_spec x (base + num + Z.of_nat 1)); cbn [andb]; try lia; [|by auto..].
        intros b'. rewrite Ex, Z.sub_diag. cbn. by intros [= ->]. }
    replace (num + Z.of_nat (S (length bytes))) with (num + 1 + Z.of_nat (length bytes)) by lia. replace (1 + 2 * i + 2)%nat with (1 + 2 * S i)%nat by lia.
    destruct (IH trips (num + 1) (S i) (sum + b) s1 (stored (base + num) [b] img)) as (s' & -> & Hs'); [|lia..|exact Hs1|].
    { replace (S i) with (i + 1)%nat by lia. by rewrite <- drop_drop, E. }
    exists s'. replace (S i + length bytes)%nat with (i + S (length bytes))%nat by lia. cbn [sum_of foldr]. change (foldr Z.add 0 bytes) with (sum_of bytes). rewrite Z.add_assoc. split; [done|].
    rewrite Z.add_assoc in Hs'. eapply read_ext; [|exact Hs']. intros x. apply stored_cons.
Qed.
End line.

Lemma low8_mod n : low8 n = n mod 256.
Proof. unfold low8. change 255 with (Z.ones 8). by rewrite Z.land_ones by lia. Qed.

Lemma low8_byte b : is_byte b -> low8 b = b.
Proof. intros Hb. rewrite low8_mod. by apply Z.mod_small. Qed.

Lemma checksum_right sum body : sum mod 256 = sum_of body mod 256 -> checksum_wrong sum (checksum body) = false.
Proof.
  intros E. unfold checksum_wrong. rewrite !low8_mod, E. unfold checksum. rewrite Zmod_mod, <- Zplus_mod, Z.add_opp_diag_r. done.
Qed.

Lemma record_word_bytes n : 0 <= n < 65536 -> is_byte (n / 256) /\ is_byte (n mod 256) /\ n / 256 * 256 + n mod 256 = n /\ low8 (Z.shiftr n 8) = n / 256 /\ low8 n = n mod 256.
Proof.
  intros Hn. unfold is_byte. rewrite !low8_mod, Z.shiftr_div_pow2 by lia. change (2 ^ 8) with 256. repeat split; Z.div_mod_to_equations; lia.
Qed.

Section parse.
Context (eol : list Z) (Heol : eol_ok eol).

Lemma eol_length : (1 <= length eol)%nat.
Proof using Heol. destruct Heol as [-> | ->]; cbn; lia. Qed.

(** The start of any line. *)
Lemma line_starts len hi lo code rest s : Forall is_byte (len :: hi :: lo :: code :: rest) -> (Z.to_nat len <= length rest)%nat ->
  u32 (hi * 256 + lo + extended_addr s + len) < MAX_MEMORY_SIZE ->
  let body := len :: hi :: lo :: code :: rest in
  let line := hex_line body eol in
  let sum := low8 len + low8 (Z.shiftr (hi * 256 + lo) 8) + low8 (hi * 256 + lo) + low8 code in
  parse_hex_line line s =
    if negb (code =? 0) then
      if code =? 1 then Returns (1, set_end s)
      else if (code =? 2) && (len =? 2) then parse_extended line 9 sum 4 s
      else if (code =? 4) && (len =? 2) then parse_extended line 9 sum 16 s
      else Returns (1, s)
    else
      '(ok, s) ← store_bytes 256 line (hi * 256 + lo + extended_addr s) 0 len 9 sum (count_bytes len s);
      match ok with
      | None => Returns (0, s)
      | Some (ptr, sum) =>
          sscanf_or 2 line ptr (Returns (0, s)) (fun cksum =>
            if checksum_wrong sum cksum then Returns (0, s) else Returns (1, s))
      end.
Proof.
  intros Hb Hlen Hfit body line sum. pose proof eol_length as He. pose proof (line_length body eol) as HL. fold line in HL. cbn [body length] in HL.
  assert (is_byte len) as Hl by (by apply Forall_cons in Hb as [? _]). unfold is_byte in Hl.
  unfold parse_hex_line. change (negb (hd 0 line =? 58)) with false. cbv match. rewrite (proj2 (Nat.ltb_ge (length line) 11)) by lia.
  rewrite (byte_scanned body eol Hb 0 len (hi :: lo :: code :: rest ++ [checksum body])) by (done || cbn; lia).
  rewrite (proj2 (Z.ltb_ge (Z.of_nat (length line)) (11 + len * 2))) by lia.
  rewrite (word_scanned body eol 1 hi lo (code :: rest ++ [checksum body])) by (first [done|cbn; lia|by repeat (apply Forall_cons in Hb as [? Hb])]).
  rewrite (byte_scanned body eol Hb 3 code (rest ++ [checksum body])) by (done || cbn; lia).
  by rewrite (proj2 (Z.leb_gt MAX_MEMORY_SIZE _)) by done.
Qed.

Lemma extended_parsed code i shift s : 0 <= i < 65536 -> code = 2 \/ code = 4 -> 0 <= extended_addr s -> extended_addr s + 2 < MAX_MEMORY_SIZE -> 
  let body := [2; 0; 0; code; i / 256; i mod 256] in
  parse_extended (hex_line body eol) 9 (low8 2 + low8 (Z.shiftr (0 * 256 + 0) 8) + low8 (0 * 256 + 0) + low8 code) shift s =
    Returns (1, set_extended (u32 (Z.shiftl i shift)) s).
Proof.
  intros Hi Hcode H0 H1 body. destruct (record_word_bytes i Hi) as (Hhi & Hlo & Ei & E1 & E2).
  assert (Forall is_byte body) as Hb.
  { repeat apply Forall_cons_2; try done; unfold is_byte in *; lia. }
  unfold parse_extended. rewrite (word_scanned body eol 4 (i / 256) (i mod 256) [checksum body]) by (done || cbn; lia). rewrite Ei.
  rewrite (byte_scanned body eol Hb 6 (checksum body) []) by (done || cbn; lia).
  rewrite checksum_right; [done|]. rewrite E1, E2. f_equal. cbn [body sum_of foldr].
  change (low8 2) with 2. change (low8 (Z.shiftr (0 * 256 + 0) 8)) with 0. change (low8 (0 * 256 + 0)) with 0.
  rewrite low8_byte by (unfold is_byte; lia). lia.
Qed.

Lemma record_parsed r s img count base : record_ok r base -> 0 <= base -> read s img count base false ->
  exists s', parse_hex_line (hex_line (record_body r) eol) s = Returns (1, s') /\ read s' (image_after r base img) (count + bytes_of r) (base_after r base) false.
Proof.
  intros Hr H0 Hs. pose proof Hs as [S1 S2 S3 S4 S5]. unfold MAX_MEMORY_SIZE in *. destruct r as [addr bytes|i|i]; cbn [record_ok record_body bytes_of base_after image_after] in *.
  - destruct Hr as (Ha & Hby & Hl & Hfit). destruct (record_word_bytes addr Ha) as (Hhi & Hlo & Ea & E1 & E2).
    set (body := Z.of_nat (length bytes) :: addr / 256 :: addr mod 256 :: 0 :: bytes).
    assert (Forall is_byte body) as Hb by (repeat apply Forall_cons_2; try done; unfold is_byte; lia).
    unfold MAX_MEMORY_SIZE in *. unfold body. rewrite line_starts; [|exact Hb|lia|rewrite Ea, S4, u32_small by lia; exact Hfit].
    change (negb (0 =? 0)) with false. cbv match. rewrite Ea, S4, E1, E2. set (s1 := count_bytes _ s).
    assert (read s1 img (count + Z.of_nat (length bytes)) base false) as Hs1 by (split; try done; cbn; by rewrite S3).
    destruct (store_bytes_ok body eol Hb (addr + base) (count + Z.of_nat (length bytes)) base false [checksum body] bytes 256 0 4
      (low8 (Z.of_nat (length bytes)) + addr / 256 + addr mod 256 + low8 0) s1 img) as (s' & E & Hs'); [done|cbn; lia|lia|lia|unfold MAX_MEMORY_SIZE; lia|done|].
    change (0 + Z.of_nat (length bytes)) with (Z.of_nat (length bytes)) in E. change (1 + 2 * 4)%nat with 9%nat in E. fold body. rewrite E. clear E. cbn [mbind outcome_bind].
    rewrite (byte_scanned body eol Hb (4 + length bytes) (checksum body) []); [|by change (drop (4 + length bytes) (body ++ [checksum body])) with (drop (length bytes) (bytes ++ [checksum body])); rewrite drop_app_length|cbn; lia].
    rewrite checksum_right; [exists s'; split; [done|]; by rewrite Z.add_0_r in Hs'|].
    f_equal. cbn [body sum_of foldr]. change (foldr Z.add 0 bytes) with (sum_of bytes). rewrite (low8_byte (Z.of_nat _)) by (unfold is_byte; lia). change (low8 0) with 0. lia.
  - destruct Hr as [Hi Hfit]. unfold MAX_MEMORY_SIZE in *. destruct (record_word_bytes i Hi) as (Hhi & Hlo & _). rewrite line_starts; [| |cbn; lia|rewrite S4, u32_small by lia; unfold MAX_MEMORY_SIZE; lia].
    2: { repeat apply Forall_cons_2; try done; unfold is_byte in *; lia. }
    change (negb (2 =? 0)) with true. cbv match. change (2 =? 1) with false. change ((2 =? 2) && (2 =? 2)) with true. cbv match.
    rewrite extended_parsed by (first [done|by left|unfold MAX_MEMORY_SIZE; lia]). eexists. split; [done|]. rewrite Z.add_0_r. split; try done.
    cbn. apply u32_small. rewrite Z.shiftl_mul_pow2; lia.
  - destruct Hr as [Hi Hfit]. unfold MAX_MEMORY_SIZE in *. destruct (record_word_bytes i Hi) as (Hhi & Hlo & _). rewrite line_starts; [| |cbn; lia|rewrite S4, u32_small by lia; unfold MAX_MEMORY_SIZE; lia].
    2: { repeat apply Forall_cons_2; try done; unfold is_byte in *; lia. }
    change (negb (4 =? 0)) with true. cbv match. change (4 =? 1) with false. change ((4 =? 2) && (2 =? 2)) with false. change ((4 =? 4) && (2 =? 2)) with true. cbv match.
    rewrite extended_parsed by (first [done|by right|unfold MAX_MEMORY_SIZE; lia]). eexists. split; [done|]. rewrite Z.add_0_r. split; try done.
    cbn. apply u32_small. rewrite Z.shiftl_mul_pow2; lia.
Qed.

Lemma end_parsed s img count base : base < MAX_MEMORY_SIZE -> 0 <= base -> read s img count base false ->
  exists s', parse_hex_line (hex_line end_body eol) s = Returns (1, s') /\ read s' img count base true.
Proof.
  intros Hbase H0 [S1 S2 S3 S4 S5]. unfold MAX_MEMORY_SIZE in *. unfold end_body. rewrite line_starts; [|by repeat constructor|cbn; lia|rewrite S4, u32_small by lia; unfold MAX_MEMORY_SIZE; lia].
  exists (set_end s). split; [done|]. by split.
Qed.
End parse.

(** ** The lines of a file *)

Lemma hex_text_chars l : Forall is_byte l -> Forall (fun c => c <> 0 /\ c <> 10) (hex_text l).
Proof.
  induction 1 as [|b l Hb _ IH]; [constructor|]. cbn [hex_text]. apply Forall_app_2; [|exact IH].
  destruct (byte_digits b Hb) as (H1 & H2 & _). pose proof (hex_char_range _ H1). pose proof (hex_char_range _ H2). repeat constructor; lia.
Qed.

Lemma c_string_whole l : Forall (fun c => c <> 0) l -> c_string l = l.
Proof. induction 1 as [|c l Hc _ IH]; [done|]. cbn. by rewrite (proj2 (Z.eqb_neq c 0) Hc), IH. Qed.

Lemma fgets_line l rest : Forall (fun c => c <> 10) l -> forall n, (length l < n)%nat -> fgets n (l ++ 10 :: rest) = (l ++ [10], rest).
Proof.
  induction 1 as [|c l Hc _ IH]; intros n Hn; (destruct n as [|n]; [cbn in Hn; lia|]); cbn [fgets app]; [done|].
  rewrite (proj2 (Z.eqb_neq c 10) Hc), IH by (cbn in Hn; lia). done.
Qed.

Section file.
Context (eol : list Z) (Heol : eol_ok eol).

(** A line of the file: characters, and the line feed. *)
Lemma line_split body : Forall is_byte body -> exists l, hex_line body eol = l ++ [10] /\ Forall (fun c => c <> 0 /\ c <> 10) l /\ length l = (length (hex_line body eol) - 1)%nat.
Proof.
  intros Hb. assert (Forall is_byte (body ++ [checksum body])) as Hb' by (apply Forall_app_2; [done|repeat constructor; apply checksum_byte]).
  pose proof (hex_text_chars _ Hb') as Hc. unfold hex_line. destruct Heol as [-> | ->].
  - exists (58 :: hex_text (body ++ [checksum body])). split; [done|]. split; [by apply Forall_cons_2|]. cbn [length]. rewrite length_app. cbn [length]. lia.
  - exists (58 :: hex_text (body ++ [checksum body]) ++ [13]). split; [cbn; by rewrite <- app_assoc|].
    split; [apply Forall_cons_2; [done|]; apply Forall_app_2; [done|by repeat constructor]|]. cbn [length]. rewrite !length_app. cbn [length]. lia.
Qed.

Lemma line_taken body rest : Forall is_byte body -> (length body <= 260)%nat -> fgets 1023 (hex_line body eol ++ rest) = (hex_line body eol, rest) /\ c_string (hex_line body eol) = hex_line body eol.
Proof.
  intros Hb Hl. destruct (line_split body Hb) as (l & E & Hc & El). pose proof (line_length body eol) as HL.
  assert (length eol <= 2)%nat by (destruct Heol as [-> | ->]; cbn; lia). split.
  - rewrite E, <- app_assoc. change ([10] ++ rest) with (10 :: rest). apply fgets_line; [|lia]. eapply Forall_impl; [exact Hc|]. by intros ? [].
  - apply c_string_whole. rewrite E. apply Forall_app_2; [|by repeat constructor]. eapply Forall_impl; [exact Hc|]. by intros ? [].
Qed.

Lemma record_body_ok r base : record_ok r base -> Forall is_byte (record_body r) /\ (length (record_body r) <= 260)%nat.
Proof.
  destruct r as [addr bytes|i|i]; cbn [record_ok record_body length].
  - intros (Ha & Hb & Hl & _). destruct (record_word_bytes addr Ha) as (? & ? & _). split; [|lia]. repeat apply Forall_cons_2; try done. unfold is_byte. lia.
  - intros [Hi _]. destruct (record_word_bytes i Hi) as (? & ? & _). split; [|lia]. by repeat apply Forall_cons_2.
  - intros [Hi _]. destruct (record_word_bytes i Hi) as (? & ? & _). split; [|lia]. by repeat apply Forall_cons_2.
Qed.

(** One turn of the loop over the lines. *)
Lemma line_read body rest fuel s s' : Forall is_byte body -> (length body <= 260)%nat -> parse_hex_line (hex_line body eol) s = Returns (1, s') ->
  read_lines (S fuel) (hex_line body eol ++ rest) s = if end_record_seen s' then Returns (byte_count s', s') else read_lines fuel rest s'.
Proof.
  intros Hb Hl E. destruct (line_taken body rest Hb Hl) as [F C]. cbn [read_lines]. rewrite F, C, E. unfold hex_line. cbn [app].
  cbn [mbind outcome_bind]. change (1 =? 0) with false. done.
Qed.

Definition bytes_total (records : list hex_record) : Z := foldr (fun r n => bytes_of r + n) 0 records.

Lemma base_nonneg r base : record_ok r base -> 0 <= base -> 0 <= base_after r base.
Proof. destruct r as [addr bytes|i|i]; cbn; intros Hr H0; [done|destruct Hr as [Hr _]; apply Z.shiftl_nonneg; lia..]. Qed.

Lemma records_read trailing records : forall fuel base s img count, records_ok records base -> 0 <= base -> read s img count base false ->
  (length records < fuel)%nat ->
  exists s', read_lines fuel (hex_file records eol ++ trailing) s = Returns (count + bytes_total records, s') /\
    read s' (image_from records base img) (count + bytes_total records) (foldl (fun b r => base_after r b) base records) true.
Proof.
  induction records as [|r records IH]; intros fuel base s img count Hr H0 Hs Hf; (destruct fuel as [|fuel]; [cbn in Hf; lia|]).
  - destruct (end_parsed eol Heol s img count base Hr H0 Hs) as (s' & E & Hs'). exists s'. change (hex_file [] eol ++ trailing) with (hex_line end_body eol ++ trailing).
    rewrite (line_read _ _ _ s s') by (first [exact E|by repeat constructor|cbn; lia]). rewrite (rd_end _ _ _ _ _ Hs'), (rd_count _ _ _ _ _ Hs').
    cbn. rewrite Z.add_0_r. done.
  - destruct Hr as [Hr Hrs]. destruct (record_parsed eol Heol r s img count base Hr H0 Hs) as (s1 & E & Hs1). destruct (record_body_ok r base Hr) as [Hb Hl].
    assert (hex_file (r :: records) eol ++ trailing = hex_line (record_body r) eol ++ (hex_file records eol ++ trailing)) as ->.
    { unfold hex_file. cbn [mbind list_bind]. by rewrite <- !app_assoc. }
    rewrite (line_read _ _ _ s s1) by done. rewrite (rd_end _ _ _ _ _ Hs1).
    destruct (IH fuel (base_after r base) s1 (image_after r base img) (count + bytes_of r)) as (s' & E' & Hs'); [done|by apply base_nonneg|done|cbn in Hf; lia|].
    exists s'. rewrite E'. cbn [bytes_total foldr image_from foldl]. change (foldr _ 0 records) with (bytes_total records). rewrite Z.add_assoc. done.
Qed.
End file.

Lemma lines_long records eol : (length records <= length (hex_file records eol))%nat.
Proof.
  induction records as [|r records IH]; [cbn; lia|]. unfold hex_file in *. cbn [mbind list_bind]. rewrite <- app_assoc, length_app. unfold hex_line at 1. cbn [length].
  apply le_n_S. etransitivity; [exact IH|]. apply Nat.le_add_l.
Qed.


