(* ===== verification/HIDLoaderEndToEnd.v ===== *)
(** * From a hex file to the flash

    The loader of the host and the bootloader of the device together: every buffer the
    loader writes is a report the host's controller sends in packets of its choice. *)
From Stdlib Require Import String Ascii.
From S2P Require Import Prelude ConfigDescriptors USBIo Endpoint EndpointSpec Quiet DeviceRequests HIDDevice NetBuffers NetLemmas SelfProgram DataStage BootloaderHID BootloaderHIDSpec HIDLoader HIDLoaderSpec.

(** ** The pages that are written *)

Section pages.
Context (o : options) (s : ihex) (img : Z -> option Z) (blocks : nat).
Context (Hmask : forall x, firmware_mask s x = match img x with Some _ => true | None => false end).
Context (Himage : forall x b, img x = Some b -> firmware_image s x = b).
Context (Hblock : 0 < block_size o <= 256) (Hcode : code_size o = block_size o * Z.of_nat blocks).
Context (Hdata : forall x b, img x = Some b -> 0 <= x < code_size o /\ x + block_size o < MAX_MEMORY_SIZE).

Definition page_bytes (P : Z) : list Z := (fun i => default 255 (img (P + Z.of_nat i))) <$> seq 0 (Z.to_nat (block_size o)).
Definition page_used (P : Z) : bool :=
  (P =? 0) || existsb (fun i => match img (P + Z.of_nat i) with Some _ => true | None => false end) (seq 0 (Z.to_nat (block_size o))).

Lemma page_bytes_read P : 0 <= P -> ihex_get_data s P (block_size o) = page_bytes P.
Proof.
  intros HP. unfold ihex_get_data. rewrite (proj2 (Z.ltb_ge P 0)), (proj2 (Z.ltb_ge (block_size o) 0)) by lia. cbn [orb].
  destruct (Z.leb_spec MAX_MEMORY_SIZE (P + block_size o)) as [Hle|Hlt].
  - unfold page_bytes. apply (list_eq_same_length _ _ (Z.to_nat (block_size o))); [by rewrite length_fmap, length_seq|by rewrite repeat_length|].
    intros i x y Hi. rewrite list_lookup_fmap, lookup_seq_lt by done. cbn. intros Hx [= <-].
    assert (x = 255) as -> by (apply list_elem_of_lookup_2, list_elem_of_In, repeat_spec in Hx; done).
    destruct (img (P + Z.of_nat i)) as [b|] eqn:E; [|done]. destruct (Hdata _ _ E). lia.
  - apply list_fmap_ext. intros i x Hx. rewrite Hmask. destruct (img (P + Z.of_nat x)) as [b|] eqn:E; [|done]. cbn. by apply Himage.
Qed.

Lemma page_used_read P : 0 <= P -> (P <? code_size o) = true ->
  ((0 <? P) && negb (ihex_bytes_within_range s P (P + block_size o - 1))) = negb (page_used P).
Proof.
  intros HP _. unfold page_used, ihex_bytes_within_range. destruct (Z.eqb_spec P 0) as [->|Hne]; [done|]. cbn [orb].
  rewrite (proj2 (Z.ltb_lt 0 P)), (proj2 (Z.ltb_ge P 0)), (proj2 (Z.ltb_ge (P + block_size o - 1) 0)) by lia. cbn [andb orb]. rewrite orb_false_r. f_equal.
  replace (P + block_size o - 1 - P + 1) with (block_size o) by lia.
  assert (forall n, (forall i, (i < n)%nat -> firmware_mask s (P + Z.of_nat i) = match img (P + Z.of_nat i) with Some _ => true | None => false end)) as He by (intros; apply Hmask).
  destruct ((MAX_MEMORY_SIZE <=? P) || (MAX_MEMORY_SIZE <=? P + block_size o - 1)) eqn:Hbig.
  - symmetry. apply not_true_iff_false. intros Hx. apply existsb_exists in Hx as (i & Hi & Hx). destruct (img (P + Z.of_nat i)) as [b|] eqn:E; [|done].
    destruct (Hdata _ _ E). apply in_seq in Hi. apply orb_true_iff in Hbig as [Hbig|Hbig]; apply Z.leb_le in Hbig; lia.
  - unfold mask_set. induction (seq 0 _) as [|i l IH]; [done|]. cbn [existsb]. by rewrite Hmask, IH.
Qed.

(** The loop writes the buffers of the used pages. *)
Definition buffers (first n : nat) : list (list Z) :=
  page_buffer o s <$> List.filter page_used ((fun i => block_size o * Z.of_nat i) <$> seq first n).

Lemma data_programmed n : forall k fuel written, (k + n = blocks)%nat -> (n < fuel)%nat ->
  program_data (fun _ => true) fuel o s (block_size o * Z.of_nat k) written = Returns (true, written ++ buffers k n).
Proof.
  induction n as [|n IH]; intros k fuel written Hk Hf; (destruct fuel as [|fuel]; [lia|]); cbn [program_data].
  - rewrite (proj2 (Z.ltb_ge _ _)) by (rewrite Hcode; nia). by rewrite app_nil_r.
  - assert ((block_size o * Z.of_nat k <? code_size o) = true) as Hlt by (apply Z.ltb_lt; rewrite Hcode; nia). rewrite Hlt, page_used_read by (done || nia).
    replace (block_size o * Z.of_nat k + block_size o) with (block_size o * Z.of_nat (S k)) by lia.
    unfold buffers. cbn [seq fmap list_fmap List.filter]. destruct (page_used _); cbn [negb fmap list_fmap].
    + rewrite IH by lia. by rewrite <- app_assoc.
    + rewrite IH by lia. done.
Qed.
End pages.

(** ** The device *)

(** The packets of a buffer: whole words, the first one with the address. *)
Record in_packets (buf first : list Z) (next : list (list Z)) : Prop := {
    ip_bytes : bank_bytes (first, next) = buf;
    ip_first : (2 <= length first)%nat;
    ip_bank : bank_ok (first, next);
    ip_words : whole_words (first, next)
  }.

Lemma packets_report a0 a1 l first next : in_packets (a0 :: a1 :: l) first next -> report a0 a1 l first next.
Proof.
  intros [E Hl Hb Hw]. destruct first as [|x [|y p]]; [cbn in Hl; lia|cbn in Hl; lia|]. pose proof E as E'. unfold bank_bytes in E'. cbn in E'. injection E' as -> -> _.
  split; [by exists p|exact E|exact Hb|exact Hw].
Qed.

Section delivery.
Context `{MCU} (words : Z) (Hpage : SPM_PAGESIZE = 2 * words) (Hwords : 0 < words < 256).
Context (FLASHEND : Z) (fuel : nat) (Hf : (1 <= fuel)%nat).

(** The reports reach the bootloader one after the other, each in any environment in which
    the host sends its packets; [Q] holds of the flag and the memory after them. *)
Fixpoint delivered (buffers : list (list Z)) (run : bool) (m : memory) (Q : bool -> memory -> Prop) : Prop :=
  match buffers with
  | [] => Q run m
  | buf :: buffers =>
      forall h t first next v ix, supplies h (t ++ [Cmd c_ClearSETUP]) (first, next) -> in_packets buf first next -> (forall s, h (t ++ s) q_IsINReady <> 0) ->
      wp true h (BootloaderHID.EVENT_USB_Device_ControlRequest FLASHEND fuel (set_report v ix (Z.of_nat (length buf))) run) t (fun run' e =>
        delivered buffers run' (memory_after m e) Q)
  end.

Lemma delivered_app b1 b2 Q : forall run m, delivered b1 run m (fun run m => delivered b2 run m Q) -> delivered (b1 ++ b2) run m Q.
Proof.
  induction b1 as [|buf b1 IH]; intros run m Hd; [exact Hd|]. cbn [app delivered] in *. intros h t first next v ix Hs Hp Hin.
  eapply wp_mono; [by apply (Hd h t first next v ix)|]. intros run' e Hd'. cbn beta in *. by apply IH.
Qed.

Lemma delivered_mono (P Q : bool -> memory -> Prop) b : (forall run m, P run m -> Q run m) -> forall run m, delivered b run m P -> delivered b run m Q.
Proof.
  intros HPQ. induction b as [|buf b IH]; intros run m Hd; cbn [delivered] in *; [by apply HPQ|]. intros h t first next v ix Hs Hp Hin.
  eapply wp_mono; [by apply (Hd h t first next v ix)|]. intros run' e Hd'. by apply IH.
Qed.

(** A memory that can be programmed, and the application in it read. *)
Definition usable (m : memory) : Prop := holds m [] /\ readable m = true.

(** Pages of an image. *)
Section image.
Context (o : options) (img : Z -> option Z) (s : ihex).
Context (Hsize : block_size o = SPM_PAGESIZE) (Hfit : (code_size o <? 0x10000) = negb (FLASHEND >? 0xFFFF)).
Context (Hcode : code_size o <= 2 ^ 17) (Haligned : (code_size o <? 0x10000) = false -> SPM_PAGESIZE mod 256 = 0).
Context (Himg : forall P, 0 <= P -> ihex_get_data s P (block_size o) = page_bytes o img P).

Definition in_page (P x : Z) : bool := (P <=? x) && (x <? P + SPM_PAGESIZE).

Lemma page_address_sent P : aligned P -> 0 <= P -> P + SPM_PAGESIZE <= code_size o ->
  exists a0 a1, page_buffer o s P = a0 :: a1 :: page_bytes o img P /\ report_address FLASHEND (a0 + Z.shiftl a1 8) = P /\
    a0 + Z.shiftl a1 8 <> COMMAND_STARTAPPLICATION /\ page_address FLASHEND P.
Proof.
  intros HP H0 HE. unfold page_buffer. rewrite Himg by done. unfold report_address, page_address. change 255 with (Z.ones 8) at 1 2 3 4.
  rewrite Hfit in *. rewrite !Z.land_ones, !Z.shiftr_div_pow2 by lia. change (2 ^ 8) with 256. change (2 ^ 16) with 65536.
  pose proof (page_positive words Hpage Hwords) as Hpos. destruct (FLASHEND >? 0xFFFF) eqn:Hbig; cbn [negb] in *.
  - specialize (Haligned eq_refl). eexists _, _. split; [done|]. change (P / 65536) with (P / 65536).
    assert (P mod 256 = 0) as H256.
    { unfold aligned in HP. apply Z.mod_divide in HP as [q ->]; [|by apply (page_nonzero words)]. apply Z.mod_divide in Haligned as [r ->]; [|done]. by rewrite Z.mul_assoc, Z.mod_mul. }
    assert ((P / 256) mod 256 + Z.shiftl ((P / 65536) mod 256) 8 = P / 256) as ->.
    { rewrite Z.shiftl_mul_pow2 by lia. change (2 ^ 8) with 256. Z.div_mod_to_equations. lia. }
    rewrite Z.shiftl_mul_pow2 by lia. change (2 ^ 8) with 256. unfold COMMAND_STARTAPPLICATION. split_and!; try done; Z.div_mod_to_equations; lia.
  - apply Z.ltb_lt in Hfit. eexists _, _. split; [done|].
    assert (P mod 256 + Z.shiftl ((P / 256) mod 256) 8 = P) as ->.
    { rewrite Z.shiftl_mul_pow2 by lia. change (2 ^ 8) with 256. Z.div_mod_to_equations. lia. }
    unfold COMMAND_STARTAPPLICATION. split_and!; try done; lia.
Qed.

Lemma page_bytes_nth P x : in_page P x = true -> nth (Z.to_nat (x - P)) (page_bytes o img P) 255 = default 255 (img x).
Proof.
  intros Hx. unfold in_page in Hx. apply andb_true_iff in Hx as [H1 H2]. apply Z.leb_le in H1. apply Z.ltb_lt in H2. unfold page_bytes. rewrite Hsize.
  apply nth_lookup_Some. rewrite list_lookup_fmap, lookup_seq_lt by lia. cbn. do 3 f_equal. lia.
Qed.

Lemma page_bytes_length P : Z.of_nat (length (page_bytes o img P)) = SPM_PAGESIZE.
Proof. unfold page_bytes. rewrite length_fmap, length_seq, Hsize. pose proof (page_positive words Hpage Hwords). lia. Qed.

(** The flash after pages are programmed. *)
Definition flashed (f : Z -> Z) (addrs : list Z) (x : Z) : Z := if existsb (fun P => in_page P x) addrs then default 255 (img x) else f x.

Lemma pages_delivered run addrs : Forall (fun P => aligned P /\ 0 <= P /\ P + SPM_PAGESIZE <= code_size o) addrs -> forall m, usable m ->
  delivered (page_buffer o s <$> addrs) run m (fun run' m' => run' = run /\ usable m' /\ eeprom m' = eeprom m /\ forall x, flash m' x = flashed (flash m) addrs x).
Proof.
  induction 1 as [|P addrs (HP & H0 & HE) _ IH]; intros m [Hm Hr]; cbn [fmap list_fmap delivered]; [done|].
  intros h t first next v ix Hs Hp Hin. destruct (page_address_sent P HP H0 HE) as (a0 & a1 & E & EP & Hne & HA). rewrite E in Hp. apply packets_report in Hp.
  eapply wp_mono; [apply (page_reported words Hpage Hwords FLASHEND fuel Hf h v ix _ run a0 a1 (page_bytes o img P) [] first next t m); try done|].
  - by rewrite app_nil_r.
  - apply page_bytes_length.
  - by rewrite EP.
  - rewrite EP. intros run' e [-> [F1 F2 F3 F4]]. cbn beta.
    assert (usable (memory_after m e)) as Hu by by split. specialize (IH _ Hu). revert IH. generalize (page_buffer o s <$> addrs) as bs.
    intros bs IH. eapply delivered_mono; [|exact IH]. intros run' m' (-> & Hu' & Ee & Ef). split; [done|]. split; [done|]. split; [by rewrite Ee|].
    intros x. rewrite Ef. unfold flashed. cbn [existsb]. rewrite F1. fold (in_page P x). destruct (in_page P x) eqn:Ex; cbn [orb]; [|done].
    rewrite page_bytes_nth by done. by destruct (existsb _ addrs).
Qed.
End image.
End delivery.

(** ** Together *)

(** The options are for the controller of the bootloader: its pages, and addresses of 16
    bits for a flash below 64 kB and of 24 bits for one above, where a page is 256 bytes. *)
Record options_fit `{MCU} (FLASHEND : Z) (o : options) (blocks : nat) : Prop := {
    of_block : block_size o = SPM_PAGESIZE /\ SPM_PAGESIZE <= 256;
    of_code : code_size o = SPM_PAGESIZE * Z.of_nat blocks /\ 0 < code_size o <= 2 ^ 17;
    of_address : (code_size o <? 0x10000) = negb (FLASHEND >? 0xFFFF);
    of_large : (code_size o <? 0x10000) = false -> SPM_PAGESIZE mod 256 = 0;
    of_file : filename o <> None
  }.

(** The image lies in the flash, and below the last page of 64 kB. *)
Definition image_fits (o : options) (img : Z -> option Z) : Prop :=
  forall x b, img x = Some b -> 0 <= x < code_size o /\ x + block_size o < MAX_MEMORY_SIZE.

Definition page_start `{MCU} (x : Z) : Z := x / SPM_PAGESIZE * SPM_PAGESIZE.

(** The flash afterwards: the image, the rest of its pages and of the first page blank. *)
Definition flash_with `{MCU} (o : options) (img : Z -> option Z) (f : Z -> Z) (x : Z) : Z :=
  if (0 <=? x) && (x <? code_size o) && page_used o img (page_start x) then default 255 (img x) else f x.

Section together.
Context `{MCU} (words : Z) (Hpage : SPM_PAGESIZE = 2 * words) (Hwords : 0 < words < 256).

Lemma page_start_in x : in_page (page_start x) x = true.
Proof.
  unfold in_page, page_start. pose proof (Z.div_mod x SPM_PAGESIZE (page_nonzero words Hpage Hwords)). pose proof (Z.mod_pos_bound x SPM_PAGESIZE (page_positive words Hpage Hwords)).
  apply andb_true_iff. split; [apply Z.leb_le|apply Z.ltb_lt]; lia.
Qed.

Lemma in_page_start i x : in_page (SPM_PAGESIZE * Z.of_nat i) x = true -> page_start x = SPM_PAGESIZE * Z.of_nat i.
Proof.
  unfold in_page, page_start. intros Hx. apply andb_true_iff in Hx as [H1 H2]. apply Z.leb_le in H1. apply Z.ltb_lt in H2.
  rewrite <- (Z.div_unique x SPM_PAGESIZE (Z.of_nat i) (x - SPM_PAGESIZE * Z.of_nat i)); lia.
Qed.

(** The pages that are written hold [x]. *)
Lemma pages_cover o img blocks x : code_size o = SPM_PAGESIZE * Z.of_nat blocks ->
  existsb (fun P => in_page P x) (List.filter (page_used o img) ((fun i => SPM_PAGESIZE * Z.of_nat i) <$> seq 0 blocks)) =
  (0 <=? x) && (x <? code_size o) && page_used o img (page_start x).
Proof.
  intros Hc. pose proof (page_positive words Hpage Hwords) as Hp. apply eq_iff_eq_true. rewrite existsb_exists, !andb_true_iff, Z.leb_le, Z.ltb_lt. split.
  - intros (P & Hin & Hx). apply filter_In in Hin as [Hin Hu]. apply list_elem_of_In, list_elem_of_fmap in Hin as (i & -> & Hi). apply elem_of_seq in Hi.
    rewrite (in_page_start i x Hx). split; [|done]. unfold in_page in Hx. apply andb_true_iff in Hx as [H1 H2]. apply Z.leb_le in H1. apply Z.ltb_lt in H2. nia.
  - intros [[H0 H1] Hu]. exists (page_start x). split; [|apply page_start_in]. apply filter_In. split; [|done]. apply list_elem_of_In, list_elem_of_fmap.
    pose proof (Z.div_pos x SPM_PAGESIZE H0 Hp). exists (Z.to_nat (x / SPM_PAGESIZE)). unfold page_start. rewrite Z2Nat.id by done. split; [lia|]. apply elem_of_seq.
    assert (x / SPM_PAGESIZE < Z.of_nat blocks) by (apply Z.div_lt_upper_bound; lia). lia.
Qed.

Lemma pages_aligned o img blocks : code_size o = SPM_PAGESIZE * Z.of_nat blocks ->
  Forall (fun P => aligned P /\ 0 <= P /\ P + SPM_PAGESIZE <= code_size o) (List.filter (page_used o img) ((fun i => SPM_PAGESIZE * Z.of_nat i) <$> seq 0 blocks)).
Proof.
  intros Hc. pose proof (page_positive words Hpage Hwords) as Hp. apply Forall_forall. intros P Hin. apply list_elem_of_In, filter_In in Hin as [Hin _].
  apply list_elem_of_In, list_elem_of_fmap in Hin as (i & -> & Hi). apply elem_of_seq in Hi. split; [|nia]. unfold aligned. by rewrite Z.mul_comm, Z.mod_mul by lia.
Qed.

(** A page with a byte of the image is used. *)
Lemma page_used_with o img x b : block_size o = SPM_PAGESIZE -> img x = Some b -> page_used o img (page_start x) = true.
Proof.
  intros Hb Hx. unfold page_used. apply orb_true_iff. right. apply existsb_exists. pose proof (page_start_in x) as Hin. unfold in_page in Hin.
  apply andb_true_iff in Hin as [H1 H2]. apply Z.leb_le in H1. apply Z.ltb_lt in H2. exists (Z.to_nat (x - page_start x)). split; [apply in_seq; lia|].
  by rewrite Z2Nat.id, Zplus_minus, Hx by lia.
Qed.

Lemma bytes_nonneg records : 0 <= bytes_total records.
Proof. induction records as [|r records IH]; cbn [bytes_total foldr]; [done|]. fold (bytes_total records). destruct r; cbn [bytes_of]; lia. Qed.
End together.


(** A controller with a flash of 32 kB, and a small program. *)
Definition small_mcu : MCU :=
  {| SPM_PAGESIZE := 128; AVR_SIGNATURE_1 := 0x1E; AVR_SIGNATURE_2 := 0x95; AVR_SIGNATURE_3 := 0x87; WDRF := 3; BOOT_START_ADDR := 0x7000 |}.
Definition small_options : options := set_sizes 32 128 (mk_options false false true false 0 0 (Some "app.hex"%string)).
Definition small_records : list hex_record := [Bytes 0 [0x0C; 0x94; 0x40; 0x00]; Bytes 0x80 [0xFF; 0xCF]].

(** The buffer of its first page, and the packets of 8 bytes in which a host may send it. *)
Definition small_buffer : list Z := [0; 0; 0x0C; 0x94; 0x40; 0x00] ++ repeat 255 124.
Fixpoint packets_of (n : nat) (l : list Z) : list (list Z) := match n with O => [] | S n => take 8 l :: packets_of n (drop 8 l) end.

Lemma small_packets : in_packets small_buffer (take 8 small_buffer) (packets_of 16 (drop 8 small_buffer)).
Proof.
  split; [reflexivity|cbn; lia|split_and!; [cbn; lia|by repeat constructor|]|split; [by exists 4%nat|]].
  - vm_compute packets_of. repeat constructor; cbn; lia.
  - vm_compute packets_of. repeat (apply Forall_cons_2; [first [by exists 4%nat|by exists 1%nat]|]). constructor.
Qed.


(** ** What goes wrong *)

(** On a controller with 64 kB the loader and the bootloader disagree about the address:
    the second page is programmed at address 1, in the first page. *)
Lemma address_of_64k o s : code_size o = 64 * 1024 ->
  exists l, page_buffer o s 0x100 = 1 :: 0 :: l /\ report_address 0xFFFF (1 + Z.shiftl 0 8) = 1.
Proof. intros Hc. unfold page_buffer. rewrite Hc. by eexists. Qed.

(** The last page below 64 kB is sent blank, whatever the file has for it. *)
Lemma last_page_blank s : ihex_get_data s 0xFF00 256 = repeat 255 256.
Proof. reflexivity. Qed.

(** A record behind an extended address at the top of 32 bits passes the check of its range
    and is stored outside of the arrays. *)
Lemma record_outside s : extended_addr s = 0xFFFF0000 -> parse_hex_line (hex_line [1; 0xFF; 0xFF; 0; 7] [10]) s = Faults.
Proof.
  intros E. rewrite line_starts; [|by left|by repeat constructor|cbn; lia|by rewrite E]. change (negb (0 =? 0)) with false. cbv match. rewrite E. reflexivity.
Qed.

(** An extended address with a wrong checksum is ignored without an error. *)
Definition wrong_line : list Z := 58 :: hex_text [2; 0; 0; 2; 0x10; 0; 0] ++ [10].
Lemma wrong_checksum_accepted s : extended_addr s = 0 -> parse_hex_line wrong_line s = Returns (1, s).
Proof. intros E. unfold parse_hex_line. rewrite E. reflexivity. Qed.
