(* ===== verification/BootloaderCDC.v ===== *)
(** * The CDC bootloader

    [Bootloaders/CDC/BootloaderCDC.c]: the commands of the AVR109 protocol, on a virtual
    serial port.  The variables of the file are the record [avr109]; a line encoding is
    the seven bytes of its structure.  The options of Config/AppConfig.h are those of the
    repository: every command is supported. *)
From S2P Require Import Prelude ConfigDescriptors USBIo Endpoint DeviceRequests HIDDevice SelfProgram.

Definition CDC_NOTIFICATION_EPADDR := Z.lor 128 2.
Definition CDC_TX_EPADDR := Z.lor 128 3.
Definition CDC_RX_EPADDR := 4.
Definition CDC_TXRX_EPSIZE := 16.
Definition CDC_NOTIFICATION_EPSIZE := 8.
Definition CONTROL_REQTYPE_TYPE := 0x60.
Definition CDC_REQ_SetLineEncoding := 0x20.
Definition CDC_REQ_GetLineEncoding := 0x21.
Definition GET_LOW_FUSE_BITS := 0.
Definition GET_LOCK_BITS := 1.
Definition GET_EXTENDED_FUSE_BITS := 2.
Definition GET_HIGH_FUSE_BITS := 3.
Definition SOFTWARE_IDENTIFIER := [76; 85; 70; 65; 67; 68; 67].
Definition BOOTLOADER_VERSION_MAJOR := 1.
Definition BOOTLOADER_VERSION_MINOR := 0.
Definition LEDS_LED1 := Z.shiftl 1 4.
Definition LEDS_LED2 := Z.shiftl 1 5.

Record avr109 := mk_avr109 { LineEncoding : list Z; CurrAddress : Z; RunBootloader : bool }.
Definition avr109_init : avr109 := mk_avr109 [0; 0; 0; 0; 0; 0; 8] 0 true.
Definition set_address (a : Z) (s : avr109) : avr109 := mk_avr109 (LineEncoding s) a (RunBootloader s).

Section bootloader.
Context `{MCU} (fuel : nat).

(** ** Bytes of the serial port *)

(** The outer loop of the next function: an empty packet of the host is released;
    [false] when the device is unattached. *)
Fixpoint wait_command (n : nat) : io bool :=
  match n with
  | O => loops
  | S n =>
      allowed ← Endpoint_IsReadWriteAllowed;
      if negb allowed then
        Endpoint_ClearOUT;;
        attached ← poll_attached fuel Endpoint_IsOUTReceived;
        if negb attached then mret false else wait_command n
      else mret true
  end.

Definition FetchNextCommandByte : io Z :=
  Endpoint_SelectEndpoint CDC_RX_EPADDR;;
  attached ← wait_command fuel;
  if negb attached then mret 0 else Endpoint_Read_8.

Definition WriteNextResponseByte (Response : Z) : io unit :=
  Endpoint_SelectEndpoint CDC_TX_EPADDR;;
  allowed ← Endpoint_IsReadWriteAllowed;
  attached ← (if negb allowed then Endpoint_ClearIN;; poll_attached fuel Endpoint_IsINReady else mret true);
  if negb attached then mret tt else Endpoint_Write_8 Response.

Fixpoint WriteResponse (Response : list Z) : io unit :=
  match Response with [] => mret tt | b :: Response => WriteNextResponseByte b;; WriteResponse Response end.

(** ** Blocks *)

(** The loops of the block commands, [BlockSize] trips each; they leave the address. *)
Fixpoint read_flash (BlockSize : nat) (HighByte : bool) (CurrAddress : Z) : io Z :=
  match BlockSize with
  | O => mret CurrAddress
  | S BlockSize =>
      b ← pgm_read_byte_far (Z.lor CurrAddress (Z.b2z HighByte));
      WriteNextResponseByte b;;
      read_flash BlockSize (negb HighByte) (if HighByte then u32 (CurrAddress + 2) else CurrAddress)
  end.

Fixpoint read_eeprom (BlockSize : nat) (CurrAddress : Z) : io Z :=
  match BlockSize with
  | O => mret CurrAddress
  | S BlockSize =>
      b ← eeprom_read_byte (Z.shiftr CurrAddress 1);
      WriteNextResponseByte b;;
      read_eeprom BlockSize (u32 (CurrAddress + 2))
  end.

Fixpoint write_flash (BlockSize : nat) (HighByte : bool) (LowByte CurrAddress : Z) : io Z :=
  match BlockSize with
  | O => mret CurrAddress
  | S BlockSize =>
      b ← FetchNextCommandByte;
      if HighByte then
        boot_page_fill CurrAddress (Z.lor (Z.shiftl b 8) LowByte);;
        write_flash BlockSize false LowByte (u32 (CurrAddress + 2))
      else write_flash BlockSize true b CurrAddress
  end.

Fixpoint write_eeprom (BlockSize : nat) (CurrAddress : Z) : io Z :=
  match BlockSize with
  | O => mret CurrAddress
  | S BlockSize =>
      b ← FetchNextCommandByte;
      eeprom_write_byte (Z.shiftr CurrAddress 1) b;;
      write_eeprom BlockSize (u32 (CurrAddress + 2))
  end.

Definition ReadWriteMemoryBlock (Command : Z) (s : avr109) : io avr109 :=
  high ← FetchNextCommandByte;
  low ← FetchNextCommandByte;
  let BlockSize := Z.to_nat (u16 (Z.lor (Z.shiftl high 8) low)) in
  MemoryType ← FetchNextCommandByte;
  if negb (MemoryType =? 69) && negb (MemoryType =? 70) then WriteNextResponseByte 63;; mret s
  else if Command =? 103 then
    boot_rww_enable;;
    a ← (if MemoryType =? 70 then read_flash BlockSize false (CurrAddress s) else read_eeprom BlockSize (CurrAddress s));
    mret (set_address a s)
  else
    let PageStartAddress := CurrAddress s in
    (if MemoryType =? 70 then boot_page_erase PageStartAddress;; boot_spm_busy_wait else mret tt);;
    a ← (if MemoryType =? 70 then write_flash BlockSize false 0 (CurrAddress s) else write_eeprom BlockSize (CurrAddress s));
    (if MemoryType =? 70 then boot_page_write PageStartAddress;; boot_spm_busy_wait else mret tt);;
    WriteNextResponseByte 13;;
    mret (set_address a s).

(** ** Commands *)

(** The bytes are ints of 16 bits when they are shifted. *)
Definition read_address : io Z :=
  high ← FetchNextCommandByte;
  low ← FetchNextCommandByte;
  mret (Z.lor (u32 (i16 (Z.shiftl high 9))) (u32 (i16 (Z.shiftl low 1)))).

Definition process_command (Command : Z) (s : avr109) : io avr109 :=
  let ok (s : avr109) := WriteNextResponseByte 13;; mret s in
  if Command =? 69 then ok (mk_avr109 (LineEncoding s) (CurrAddress s) false)
  else if Command =? 84 then FetchNextCommandByte;; ok s
  else if (Command =? 76) || (Command =? 80) then ok s
  else if Command =? 116 then WriteResponse [0x44; 0x00];; mret s
  else if Command =? 97 then WriteNextResponseByte 89;; mret s
  else if Command =? 65 then a ← read_address; ok (set_address a s)
  else if Command =? 112 then WriteNextResponseByte 83;; mret s
  else if Command =? 83 then WriteResponse SOFTWARE_IDENTIFIER;; mret s
  else if Command =? 86 then WriteResponse [48 + BOOTLOADER_VERSION_MAJOR; 48 + BOOTLOADER_VERSION_MINOR];; mret s
  else if Command =? 115 then WriteResponse [AVR_SIGNATURE_3; AVR_SIGNATURE_2; AVR_SIGNATURE_1];; mret s
  else if Command =? 101 then clear_pages fuel 0;; ok s
  else if Command =? 108 then b ← FetchNextCommandByte; boot_lock_bits_set b;; ok s
  else if Command =? 114 then b ← boot_lock_fuse_bits_get GET_LOCK_BITS; WriteNextResponseByte b;; mret s
  else if Command =? 70 then b ← boot_lock_fuse_bits_get GET_LOW_FUSE_BITS; WriteNextResponseByte b;; mret s
  else if Command =? 78 then b ← boot_lock_fuse_bits_get GET_HIGH_FUSE_BITS; WriteNextResponseByte b;; mret s
  else if Command =? 81 then b ← boot_lock_fuse_bits_get GET_EXTENDED_FUSE_BITS; WriteNextResponseByte b;; mret s
  else if Command =? 98 then WriteResponse [89; Z.shiftr SPM_PAGESIZE 8; Z.land SPM_PAGESIZE 0xFF];; mret s
  else if (Command =? 66) || (Command =? 103) then ReadWriteMemoryBlock Command s
  else if Command =? 67 then b ← FetchNextCommandByte; boot_page_fill (CurrAddress s) b;; ok s
  else if Command =? 99 then
    b ← FetchNextCommandByte;
    boot_page_fill (Z.lor (CurrAddress s) 1) b;;
    ok (set_address (u32 (CurrAddress s + 2)) s)
  else if Command =? 109 then boot_page_write (CurrAddress s);; boot_spm_busy_wait;; ok s
  else if Command =? 82 then
    ProgramWord ← pgm_read_word_far (CurrAddress s);
    WriteNextResponseByte (Z.shiftr ProgramWord 8);;
    WriteNextResponseByte (Z.land ProgramWord 0xFF);;
    mret s
  else if Command =? 68 then
    b ← FetchNextCommandByte;
    eeprom_write_byte (Z.shiftr (CurrAddress s) 1) b;;
    ok (set_address (u32 (CurrAddress s + 2)) s)
  else if Command =? 100 then
    b ← eeprom_read_byte (Z.shiftr (CurrAddress s) 1);
    WriteNextResponseByte b;;
    mret (set_address (u32 (CurrAddress s + 2)) s)
  else if negb (Command =? 27) then WriteNextResponseByte 63;; mret s
  else mret s.

(** The end of a command: the response is sent, and the command acknowledged. *)
Definition send_response : io unit :=
  Endpoint_SelectEndpoint CDC_TX_EPADDR;;
  allowed ← Endpoint_IsReadWriteAllowed;
  let IsEndpointFull := negb allowed in
  Endpoint_ClearIN;;
  attached ← (if IsEndpointFull then
                attached ← poll_attached fuel Endpoint_IsINReady;
                if negb attached then mret false else Endpoint_ClearIN;; mret true
              else mret true);
  if negb attached then mret tt else
  attached ← poll_attached fuel Endpoint_IsINReady;
  if negb attached then mret tt else
  Endpoint_SelectEndpoint CDC_RX_EPADDR;;
  Endpoint_ClearOUT.

Definition CDC_Task (s : avr109) : io avr109 :=
  Endpoint_SelectEndpoint CDC_RX_EPADDR;;
  received ← Endpoint_IsOUTReceived;
  if negb received then mret s else
  Command ← FetchNextCommandByte;
  s ← process_command Command s;
  send_response;;
  mret s.

(** ** Events *)

Definition EVENT_USB_Device_ConfigurationChanged : io unit :=
  _ ← Endpoint_ConfigureEndpoint CDC_NOTIFICATION_EPADDR EP_TYPE_INTERRUPT CDC_NOTIFICATION_EPSIZE 1;
  _ ← Endpoint_ConfigureEndpoint CDC_TX_EPADDR EP_TYPE_BULK CDC_TXRX_EPSIZE 1;
  _ ← Endpoint_ConfigureEndpoint CDC_RX_EPADDR EP_TYPE_BULK CDC_TXRX_EPSIZE 1;
  mret tt.

Definition EVENT_USB_Device_ControlRequest (r : USB_Request_Header_t) (s : avr109) : io avr109 :=
  if negb (Z.land (bmRequestType r) (Z.lor CONTROL_REQTYPE_TYPE CONTROL_REQTYPE_RECIPIENT) =? Z.lor REQTYPE_CLASS REQREC_INTERFACE)
  then mret s else
  LEDs_ToggleLEDs (Z.lor LEDS_LED1 LEDS_LED2);;
  if bRequest r =? CDC_REQ_GetLineEncoding then
    if bmRequestType r =? class_to_host then
      Endpoint_ClearSETUP;;
      _ ← Endpoint_Write_Control_Stream_LE r 8 fuel (LineEncoding s) 7;
      Endpoint_ClearOUT;;
      mret s
    else mret s
  else if bRequest r =? CDC_REQ_SetLineEncoding then
    if bmRequestType r =? class_to_device then
      Endpoint_ClearSETUP;;
      '(_, l) ← Endpoint_Read_Control_Stream_LE fuel (LineEncoding s) 7;
      Endpoint_ClearIN;;
      mret (mk_avr109 l (CurrAddress s) (RunBootloader s))
    else mret s
  else mret s.
End bootloader.
