(* ===== verification/BootloaderCDCSpec.v ===== *)
(** * Correctness of the CDC bootloader

    A block that the host writes is in the flash, and is what the host reads back. *)
From S2P Require Import Prelude ConfigDescriptors USBIo Endpoint EndpointSpec Quiet DeviceRequests HIDDevice NetBuffers NetLemmas SelfProgram DataStage EndianSpec BootloaderCDC.

(** ** The serial port *)

(** Whether the receiving endpoint is selected, the packets of the host, and the bytes in
    the packet to the host. *)
Record port := mk_port { p_rx : bool; p_out : bank; p_in : nat }.

Definition port_event (p : port) (e : event) : port :=
  match e with
  | Cmd (c_SelectEndpoint a) => mk_port (a =? Z.land CDC_RX_EPADDR 15) (p_out p) (p_in p)
  | Cmd (c_Write_8 _) => mk_port (p_rx p) (p_out p) (S (p_in p))
  | Cmd c_ClearIN => mk_port (p_rx p) (p_out p) 0
  | _ => mk_port (p_rx p) (bank_event (p_out p) e) (p_in p)
  end.
Definition port_after (p : port) (s : list event) : port := foldl port_event p s.

Lemma port_after_app p s s' : port_after p (s ++ s') = port_after (port_after p s) s'.
Proof. apply foldl_app. Qed.

(** From the history [t] on, a host sends its packets and takes the answers. *)
Definition talks (h : hw) (t : list event) (p : port) : Prop :=
  forall s, let p' := port_after p s in
  h (t ++ s) q_IsOUTReceived <> 0 /\ h (t ++ s) q_IsINReady <> 0 /\ h (t ++ s) q_Read_8 = hd 0 (p_out p').1 /\
  truthy (h (t ++ s) q_IsReadWriteAllowed) = (if p_rx p' then negb (bool_decide ((p_out p').1 = [])) else (p_in p' <? 16)%nat).

Lemma talks_later h t p s : talks h t p -> talks h (t ++ s) (port_after p s).
Proof. intros Hs s'. rewrite <- app_assoc, <- port_after_app. apply Hs. Qed.

(** A bank that is empty is followed by a packet. *)
Lemma refilled_full b x l : bank_ok b -> bank_bytes b = x :: l -> exists q next, refilled b = (x :: q, next) /\ bank_bytes (q, next) = l /\ bank_ok (q, next) /\ is_byte x.
Proof.
  intros Hb E. pose proof (refilled_ok b Hb) as Hb'. rewrite <- refilled_bytes in E.
  assert (exists y q next, refilled b = (y :: q, next)) as (y & q & next & Er).
  { destruct b as [[|y q] out]; [|by exists y, q, out]. destruct out as [|[|y q] out]; [discriminate E|destruct Hb as (_ & _ & Hn)|by exists y, q, out].
    apply Forall_cons in Hn as [[Hn _] _]. cbn in Hn. lia. }
  rewrite Er in *. unfold bank_bytes in E. cbn in E. injection E as -> E. destruct Hb' as (Hl & [Hx Hq]%Forall_cons & Hn). exists q, next.
  split_and!; try done. split_and!; [cbn in *; lia|done|done].
Qed.

Section port.
Context (h : hw) (fuel : nat) (Hf : (2 <= fuel)%nat).

Lemma poll_taken t : h t q_IsINReady <> 0 ->
  wp true h (poll_attached fuel Endpoint_IsINReady) t (fun ok s => ok = true /\ s = [Ask q_IsINReady (h t q_IsINReady)]).
Proof.
  intros Hr. destruct fuel as [|f]; [lia|]. cbn [poll_attached]. do 3 wp_step. subst a. rewrite truthy_nonzero by done. by wp_step.
Qed.

Lemma allowed_now p t : talks h t p -> p_rx p = true -> (p_out p).1 <> [] ->
  wp true h Endpoint_IsReadWriteAllowed t (fun b s => b = true /\ exists a, s = [Ask q_IsReadWriteAllowed a]).
Proof.
  intros Ht Hrx Hne. destruct (Ht []) as (_ & _ & _ & E). rewrite app_nil_r in E. cbn in E. rewrite Hrx, bool_decide_eq_false_2 in E by done.
  do 2 wp_step. subst a. split; [done|by eexists].
Qed.

Lemma command_ready p t x l : talks h t p -> p_rx p = true -> bank_ok (p_out p) -> bank_bytes (p_out p) = x :: l ->
  wp true h (wait_command fuel fuel) t (fun ok s => ok = true /\ Forall leaves_memory s /\ sent s = [] /\ port_after p s = mk_port true (refilled (p_out p)) (p_in p)).
Proof.
  intros Ht Hrx Hok E. destruct (refilled_full _ x l Hok E) as (q & next & Er & _). destruct fuel as [|[|f]]; [lia|lia|]. cbn [wait_command].
  destruct p as [rx [[|y b] out] n]; cbn [p_rx p_out p_in] in *; subst rx.
  - destruct (Ht []) as (_ & _ & _ & Ea). rewrite app_nil_r in Ea. cbn in Ea. do 3 wp_step. subst a. rewrite Ea. cbn [negb]. cbv match.
    set (e1 := [Ask q_IsReadWriteAllowed _]). repeat (wp_step; []). apply (talks_later _ _ _ (e1 ++ [Cmd c_ClearOUT])) in Ht. rewrite app_assoc in Ht.
    eapply wp_mono; [apply poll_now; [lia|destruct (Ht []) as (Hr & _); by rewrite app_nil_r in Hr]|]. intros ok e2 [-> ->]. cbn beta. cbn [negb]. cbv match.
    set (e2 := [Ask q_IsOUTReceived _]). apply (talks_later _ _ _ e2) in Ht. wp_step. eapply wp_mono; [apply (allowed_now _ _ Ht); [done|]|].
    { change (p_out (port_after _ e2)) with (refilled ([] : list Z, out)). by rewrite Er. }
    intros ok e3 [-> [a ->]]. cbn beta. cbn [negb]. cbv match. wp_step. split; [done|]. split; [by repeat constructor|]. by split.
  - wp_step. eapply wp_mono; [apply (allowed_now _ _ Ht); done|]. intros ok e1 [-> [a ->]]. cbn beta. cbn [negb]. cbv match. wp_step. split_and!; try done. by repeat constructor.
Qed.

(** The next byte of a command. *)
Lemma byte_fetched {A} (k : Z -> io A) x l p t Q : talks h t p -> bank_ok (p_out p) -> bank_bytes (p_out p) = x :: l ->
  (forall s p', Forall leaves_memory s -> sent s = [] -> port_after p s = p' -> talks h (t ++ s) p' -> bank_ok (p_out p') -> bank_bytes (p_out p') = l ->
     p_in p' = p_in p -> is_byte x -> wp true h (k x) (t ++ s) (fun a s' => Q a (s ++ s'))) ->
  wp true h (x ← FetchNextCommandByte fuel; k x) t Q.
Proof.
  intros Ht Hok E HQ. destruct (refilled_full _ x l Hok E) as (q & next & Er & Eb & Hok' & Hx). unfold FetchNextCommandByte.
  repeat (wp_step; []). set (e0 := [Cmd (c_SelectEndpoint _)]). pose proof (talks_later _ _ _ e0 Ht) as Ht1.
  eapply wp_mono; [by apply (command_ready _ _ x l Ht1)|]. intros ok e1 (-> & M1 & S1 & P1). cbn beta. cbn [negb]. cbv match.
  apply (talks_later _ _ _ e1) in Ht1. rewrite P1 in Ht1. change (p_out (port_after p e0)) with (p_out p) in *. rewrite Er in Ht1. destruct (Ht1 []) as (_ & _ & E8 & _).
  rewrite app_nil_r in E8. cbn in E8. wp_step. rewrite E8 in *. subst a. rewrite u8_small by exact Hx. set (e2 := [Ask q_Read_8 x]).
  apply (talks_later _ _ _ e2) in Ht1. rewrite <- !app_assoc in *.
  eapply wp_mono; [apply (HQ (e0 ++ e1 ++ e2) (mk_port true (q, next) (p_in p)))|]; try done.
  - apply Forall_app_2; [by repeat constructor|]. apply Forall_app_2; [done|by repeat constructor].
  - by rewrite !sent_app, S1.
  - rewrite !port_after_app, P1. cbn. by rewrite Er.
Qed.

(** A byte of the response. *)
Lemma byte_written b p t : talks h t p -> (p_in p <= 16)%nat ->
  wp true h (WriteNextResponseByte fuel b) t (fun _ s => Forall leaves_memory s /\ sent s = [u8 b] /\
    port_after p s = mk_port false (p_out p) (if (p_in p <? 16)%nat then S (p_in p) else 1)).
Proof.
  intros Ht Hn. unfold WriteNextResponseByte. wp_step. do 2 wp_step. set (e0 := [Cmd (c_SelectEndpoint _)]). apply (talks_later _ _ _ e0) in Ht.
  destruct (Ht []) as (_ & _ & _ & Ea). rewrite app_nil_r in Ea. change (p_rx (port_after _ _)) with false in Ea. change (p_in (port_after _ _)) with (p_in p) in Ea.
  cbv match in Ea. do 3 wp_step. subst a. rewrite Ea. set (e1 := [Ask q_IsReadWriteAllowed _]). destruct (p_in p <? 16)%nat; cbn [negb]; cbv match.
  - wp_step. cbn [negb]. cbv match. wp_step. split; [by repeat constructor|]. split; [done|]. done.
  - do 2 wp_step. apply (talks_later _ _ _ (e1 ++ [Cmd c_ClearIN])) in Ht. rewrite app_assoc in Ht.
    eapply wp_mono; [apply poll_taken; destruct (Ht []) as (_ & Hr & _); by rewrite app_nil_r in Hr|]. intros ok e2 [-> ->]. cbn beta. cbn [negb]. cbv match.
    wp_step. split; [by repeat constructor|]. split; done.
Qed.
End port.

(** ** Blocks *)

Lemma i16_small x : 0 <= x < 32768 -> i16 x = x.
Proof. intros Hx. unfold i16. rewrite u16_small by lia. change (2 ^ 15) with 32768. by rewrite (proj2 (Z.ltb_lt x 32768)) by lia. Qed.

Lemma word_lor x y : is_byte x -> is_byte y -> Z.lor (Z.shiftl y 8) x = x + Z.shiftl y 8.
Proof. intros Hx Hy. rewrite Z.lor_comm, Z.shiftl_mul_pow2 by lia. apply lor_beside; [lia|exact Hx]. Qed.

Section blocks.
Context `{MCU} (words : Z) (Hpage : SPM_PAGESIZE = 2 * words) (Hwords : 0 < words < 256).
Context (h : hw) (fuel : nat) (Hf : (2 <= fuel)%nat).

(** The bytes of a block go to the buffer. *)
Lemma block_filled n : forall B low D P p t m rest, length D = (2 * n)%nat -> talks h t p -> bank_ok (p_out p) -> bank_bytes (p_out p) = D ++ rest ->
  holds m B -> Nat.Even (length B) -> Forall is_byte B -> aligned P -> 0 <= P -> P + Z.of_nat (length B) + 2 * Z.of_nat n <= P + SPM_PAGESIZE -> P + SPM_PAGESIZE < 2 ^ 32 ->
  wp true h (write_flash fuel (2 * n) false low (P + Z.of_nat (length B))) t (fun a s =>
    a = P + Z.of_nat (length B) + 2 * Z.of_nat n /\ holds (memory_after m s) (B ++ D) /\ flash (memory_after m s) = flash m /\ eeprom (memory_after m s) = eeprom m /\
    Forall is_byte (B ++ D) /\ sent s = [] /\ p_in (port_after p s) = p_in p).
Proof.
  induction n as [|n IH]; intros B low D P p t m rest HD Ht Hok E Hh [j Hj] HBy HP H0 Hfit H32.
  - destruct D; [|cbn in HD; lia]. change (2 * 0)%nat with 0%nat. cbn [write_flash]. wp_step. rewrite app_nil_r. split_and!; try done. lia.
  - destruct D as [|x [|y D]]; [cbn in HD; lia|cbn in HD; lia|]. cbn [length] in HD. replace (2 * S n)%nat with (S (S (2 * n))) by lia. cbn [write_flash].
    apply (byte_fetched h fuel Hf _ x (y :: D ++ rest) p); [done|done|done|]. intros s1 p1 M1 S1 P1 Ht1 Hok1 E1 I1 Hx. cbv match.
    apply (byte_fetched h fuel Hf _ y (D ++ rest) p1); [done|done|done|]. intros s2 p2 M2 S2 P2 Ht2 Hok2 E2 I2 Hy. cbv match.
    rewrite word_lor by done. unfold boot_page_fill. do 2 wp_step. set (fill := Cmd (c_Memory _)). rewrite u32_small by lia.
    assert (memory_after m (s1 ++ s2 ++ [fill]) = memory_step m (w_Page_Fill (P + Z.of_nat (length B)) (x + Z.shiftl y 8))) as Em.
    { rewrite !memory_after_app, (memory_left _ s1 M1), (memory_left _ s2 M2). unfold fill, is_byte in *. rewrite u32_small by lia.
      rewrite u16_small by (rewrite Z.shiftl_mul_pow2; lia). done. }
    destruct (fill_holds m B j (P + Z.of_nat (length B)) x y Hh Hj) as [Hfill Hflash]; [|done|done|].
    { unfold aligned in HP. rewrite <- Zplus_mod_idemp_l, HP, Z.mod_small; lia. }
    rewrite <- Em in Hfill, Hflash. apply (talks_later _ _ _ [fill]) in Ht2.
    assert (p_out (port_after p2 [fill]) = p_out p2 /\ p_in (port_after p2 [fill]) = p_in p2) as [Eo Ei] by done.
    replace (P + Z.of_nat (length B) + 2) with (P + Z.of_nat (length (B ++ [x; y]))) by (rewrite length_app; cbn [length]; lia).
    eapply wp_mono; [apply (IH (B ++ [x; y]) x D P (port_after p2 [fill]) _ (memory_after m (s1 ++ s2 ++ [fill])) rest)|]; try done.
    + lia.
    + exists (j + 1)%nat. rewrite length_app. cbn [length]. lia.
    + apply Forall_app_2; [done|]. by apply Forall_cons_2; [|apply Forall_cons_2].
    + rewrite length_app. cbn [length]. lia.
    + intros a s (Ha & K1 & K2 & K3 & K4 & K5 & K6). rewrite <- app_assoc in K1, K4. cbn [app] in K1, K4.
      assert (memory_after m (s1 ++ s2 ++ [fill] ++ s) = memory_after (memory_after m (s1 ++ s2 ++ [fill])) s) as Ea by (rewrite !memory_after_app; done).
      split_and!; [rewrite Ha, length_app; cbn [length]; lia|by rewrite Ea|by rewrite Ea, K2| |done| |].
      * rewrite Ea, K3, Em. destruct Hh as [Hb _]. unfold memory_step. by rewrite Hb.
      * by rewrite !sent_app, S1, S2, K5.
      * rewrite !port_after_app, P1, P2. rewrite K6, Ei. by rewrite I2, I1.
Qed.

(** Bytes of the flash go to the host. *)
Lemma block_read n : forall (hi : bool) k p t m, talks h t p -> (p_in p <= 16)%nat -> memory_answers h t m -> busy m = false -> readable m = true ->
  0 <= k -> 2 * k + Z.b2z hi + Z.of_nat n + 1 < 2 ^ 32 -> (forall x, 2 * k + Z.b2z hi <= x < 2 * k + Z.b2z hi + Z.of_nat n -> is_byte (flash m x)) ->
  wp true h (read_flash fuel n hi (2 * k)) t (fun a s =>
    Forall leaves_memory s /\ sent s = flash_bytes (flash m) (2 * k + Z.b2z hi) n /\ (p_in (port_after p s) <= 16)%nat /\ a = 2 * ((2 * k + Z.b2z hi + Z.of_nat n) / 2)).
Proof.
  induction n as [|n IH]; intros hi k p t m Ht Hin Ha Hb Hr Hk H32 Hby; cbn [read_flash].
  - wp_step. split_and!; try done. destruct hi; cbn [Z.b2z]; Z.div_mod_to_equations; lia.
  - assert (Z.lor (2 * k) (Z.b2z hi) = 2 * k + Z.b2z hi) as Ea.
    { rewrite Z.lor_comm, Z.mul_comm. rewrite Z.add_comm. apply (lor_beside (Z.b2z hi) k 1); [lia|destruct hi; cbn; lia]. }
    rewrite Ea. destruct (Ha []) as [Hw _]. rewrite app_nil_r in Hw. destruct (Hw Hb Hr (2 * k + Z.b2z hi)) as [Eb _]. clear Hw. change (memory_after m []) with m in Eb.
    assert (is_byte (flash m (2 * k + Z.b2z hi))) as Hx by (apply Hby; lia).
    unfold pgm_read_byte_far. rewrite (u32_small (2 * k + Z.b2z hi)) by (destruct hi; cbn in *; lia). do 3 wp_step. subst a. rewrite Eb, u8_small by exact Hx.
    set (e0 := [Ask _ _]). apply (talks_later _ _ _ e0) in Ht. eapply wp_mono; [apply (byte_written h fuel Hf _ _ _ Ht); exact Hin|].
    intros _ s1 (M1 & S1 & P1). cbn beta. apply (talks_later _ _ _ s1) in Ht. rewrite P1 in Ht. rewrite u8_small in S1 by exact Hx.
    assert (memory_answers h ((t ++ e0) ++ s1) m) as Ha1.
    { rewrite <- app_assoc, <- (memory_left m (e0 ++ s1)) by (apply Forall_app_2; [by repeat constructor|done]). by apply memory_answers_later. }
    assert ((if (p_in (port_after p e0) <? 16)%nat then S (p_in (port_after p e0)) else 1%nat) <= 16)%nat as Hin1.
    { change (p_in (port_after p e0)) with (p_in p). destruct (Nat.ltb_spec (p_in p) 16); lia. }
    assert ((if hi then u32 (2 * k + 2) else 2 * k) = 2 * (k + Z.b2z hi)) as -> by (destruct hi; cbn [Z.b2z] in *; [rewrite u32_small by lia|]; lia).
    assert (2 * (k + Z.b2z hi) + Z.b2z (negb hi) = 2 * k + Z.b2z hi + 1) as Es by (destruct hi; cbn; lia).
    eapply wp_mono; [apply (IH (negb hi) (k + Z.b2z hi) _ _ m Ht Hin1 Ha1 Hb Hr)|].
    + destruct hi; cbn; lia.
    + destruct hi; cbn in *; lia.
    + intros x Hx'. rewrite Es in Hx'. apply Hby. lia.
    + intros a s2 (M2 & S2 & P2 & Ea2). rewrite Es in S2, Ea2. split_and!.
      * apply Forall_app_2; [by repeat constructor|]. by apply Forall_app_2.
      * rewrite !sent_app, S1, S2, flash_bytes_cons. done.
      * rewrite !port_after_app, P1. exact P2.
      * rewrite Ea2. f_equal. f_equal. lia.
Qed.
End blocks.

(** ** Commands *)

Section commands.
Context `{MCU} (words : Z) (Hpage : SPM_PAGESIZE = 2 * words) (Hwords : 0 < words < 256).
Context (h : hw) (fuel : nat) (Hf : (2 <= fuel)%nat).

(** The end of a command changes nothing and sends no byte of its own. *)
Lemma response_sent p t : talks h t p -> wp true h (send_response fuel) t (fun _ s => Forall leaves_memory s /\ sent s = []).
Proof.
  intros Ht. assert (forall s, h (t ++ s) q_IsINReady <> 0) as Hin by (intros s; apply Ht).
  unfold send_response. repeat (wp_step; []). destruct (negb (truthy a)); cbv match.
  - repeat (wp_step; []). repeat (wp_step; []). rewrite <- !app_assoc. eapply wp_mono; [apply (poll_taken h fuel Hf); apply Hin|]. intros ok e1 [-> ->]. cbn beta. cbn [negb]. cbv match.
    repeat (wp_step; []). cbn [negb]. cbv match. repeat (wp_step; []). rewrite <- !app_assoc. eapply wp_mono; [apply (poll_taken h fuel Hf); apply Hin|].
    intros ok e2 [-> ->]. cbn beta. cbn [negb]. cbv match. repeat wp_step. split; [by repeat constructor|done].
  - wp_step. cbn [negb]. cbv match. repeat (wp_step; []). rewrite <- !app_assoc. eapply wp_mono; [apply (poll_taken h fuel Hf); apply Hin|].
    intros ok e2 [-> ->]. cbn beta. cbn [negb]. cbv match. repeat wp_step. split; [by repeat constructor|done].
Qed.

(** A command reaches its case. *)
Lemma task_runs s c l p t Q : talks h t p -> bank_ok (p_out p) -> bank_bytes (p_out p) = c :: l ->
  (forall s1 p1, Forall leaves_memory s1 -> sent s1 = [] -> talks h (t ++ s1) p1 -> bank_ok (p_out p1) -> bank_bytes (p_out p1) = l -> p_in p1 = p_in p ->
     wp true h (process_command fuel c s) (t ++ s1) (fun s' e => forall s2, Forall leaves_memory s2 -> sent s2 = [] -> Q s' (s1 ++ e ++ s2))) ->
  wp true h (CDC_Task fuel s) t Q.
Proof.
  intros Ht Hok E HQ. assert (forall s, h (t ++ s) q_IsOUTReceived <> 0) as Hout by (intros s'; apply Ht). unfold CDC_Task. repeat (wp_step; []).
  subst a. rewrite truthy_nonzero by apply Hout. cbn [negb]. cbv match. set (e0 := [Cmd _]). set (e1 := [Ask _ _]). rewrite <- app_assoc.
  pose proof (talks_later _ _ _ (e0 ++ e1) Ht) as Ht1. apply (byte_fetched h fuel Hf _ c l _ _ _ Ht1); [done|done|].
  intros s1 p1 M1 S1 P1 Ht2 Hok1 E1 I1 Hc. rewrite <- !app_assoc in *. wp_step. eapply wp_mono; [apply (HQ (e0 ++ e1 ++ s1) p1)|]; try done.
  - apply Forall_app_2; [by repeat constructor|]. by apply Forall_app_2; [repeat constructor|].
  - intros s' e HQ'. cbn beta in HQ'. assert (talks h ((t ++ e0 ++ e1 ++ s1) ++ e) (port_after p1 e)) as Ht3 by by apply talks_later.
    rewrite <- !app_assoc in Ht3. rewrite <- !app_assoc. wp_step. eapply wp_mono; [apply (response_sent _ _ Ht3)|]. intros _ s2 [M2 S2]. cbn beta. wp_step.
    rewrite app_nil_r. specialize (HQ' s2 M2 S2). by rewrite <- !app_assoc in HQ'.
Qed.

(** What a command answers and does to the memory. *)
Definition idle_bytes (s : list event) : Prop := Forall leaves_memory s /\ sent s = [].
Lemma idle_app s s' : idle_bytes s -> idle_bytes s' -> idle_bytes (s ++ s').
Proof. intros [? S1] [? S2]. split; [by apply Forall_app_2|by rewrite sent_app, S1, S2]. Qed.

Definition host_sends (l : list Z) (p : port) : Prop := bank_ok (p_out p) /\ bank_bytes (p_out p) = l /\ p_in p = 0%nat.

(** The address, for words below 32 kB. *)
Lemma address_set s hi lo l p t : talks h t p -> host_sends (65 :: hi :: lo :: l) p -> hi < 64 ->
  wp true h (CDC_Task fuel s) t (fun s' e => Forall leaves_memory e /\ sent e = [13] /\ s' = set_address (2 * (hi * 256 + lo)) s).
Proof.
  intros Ht (Hok & E & Hin) Hhi. apply (task_runs s 65 (hi :: lo :: l) p t _ Ht Hok E). intros s1 p1 M1 S1 Ht1 Hok1 E1 I1.
  unfold process_command. change (65 =? 69) with false. change (65 =? 84) with false. change ((65 =? 76) || (65 =? 80)) with false. change (65 =? 116) with false.
  change (65 =? 97) with false. change (65 =? 65) with true. cbv match zeta. unfold read_address. apply wp_regroup.
  apply (byte_fetched h fuel Hf _ hi (lo :: l) p1); [done|done|done|]. intros s2 p2 M2 S2 _ Ht2 Hok2 E2 I2 Hxh. apply wp_regroup.
  apply (byte_fetched h fuel Hf _ lo l p2); [done|done|done|]. intros s3 p3 M3 S3 _ Ht3 Hok3 E3 I3 Hxl. wp_step. wp_step. unfold is_byte in *.
  wp_step. rewrite app_nil_r in *. eapply wp_mono; [apply (byte_written h fuel Hf 13 p3); [done|rewrite I3, I2, I1, Hin; lia]|]. intros _ s4 (M4 & S4 & _). cbn beta. wp_step. rewrite app_nil_r.
  intros s5 M5 S5. split; [by repeat apply Forall_app_2|]. split; [by rewrite !sent_app, S1, S2, S3, S4, S5|]. unfold set_address. f_equal.
  rewrite !Z.shiftl_mul_pow2 by lia. rewrite !i16_small, !u32_small by (change (2 ^ 9) with 512; change (2 ^ 1) with 2; lia).
  rewrite Z.lor_comm. rewrite (lor_beside (lo * 2 ^ 1) hi 9) by (change (2 ^ 1) with 2; lia). change (2 ^ 1) with 2. lia.
Qed.

(** The three bytes after a block command. *)
Lemma block_started c s nh nl l n p1 t Q : talks h t p1 -> bank_ok (p_out p1) -> bank_bytes (p_out p1) = nh :: nl :: 70 :: l -> nh * 256 + nl = Z.of_nat n ->
  (forall s1 p2, idle_bytes s1 -> talks h (t ++ s1) p2 -> bank_ok (p_out p2) -> bank_bytes (p_out p2) = l -> p_in p2 = p_in p1 ->
     wp true h (if c =? 103 then boot_rww_enable;; a ← read_flash fuel n false (CurrAddress s); mret (set_address a s)
                else (boot_page_erase (CurrAddress s);; boot_spm_busy_wait);; a ← write_flash fuel n false 0 (CurrAddress s);
                     (boot_page_write (CurrAddress s);; boot_spm_busy_wait);; WriteNextResponseByte fuel 13;; mret (set_address a s)) (t ++ s1)
       (fun s' e => Q s' (s1 ++ e))) ->
  wp true h (ReadWriteMemoryBlock fuel c s) t Q.
Proof.
  intros Ht Hok E Hn HQ. unfold ReadWriteMemoryBlock.
  apply (byte_fetched h fuel Hf _ nh (nl :: 70 :: l) p1); [done|done|done|]. intros s1 p2 M1 S1 _ Ht1 Hok1 E1 I1 Hh.
  apply (byte_fetched h fuel Hf _ nl (70 :: l) p2); [done|done|done|]. intros s2 p3 M2 S2 _ Ht2 Hok2 E2 I2 Hl.
  apply (byte_fetched h fuel Hf _ 70 l p3); [done|done|done|]. intros s3 p4 M3 S3 _ Ht3 Hok3 E3 I3 _. cbv zeta.
  change (negb (70 =? 69) && negb (70 =? 70)) with false. change (70 =? 70) with true. cbv match.
  unfold is_byte in *. rewrite word_lor by done. rewrite u16_small by (rewrite Z.shiftl_mul_pow2; lia).
  assert (Z.to_nat (nl + Z.shiftl nh 8) = n) as -> by (rewrite Z.shiftl_mul_pow2 by lia; change (2 ^ 8) with 256; lia).
  rewrite <- !app_assoc in *.
  eapply wp_mono; [apply (HQ (s1 ++ s2 ++ s3) p4); [|done|done|done|by rewrite I3, I2, I1]|].
  - split; [by repeat apply Forall_app_2|by rewrite !sent_app, S1, S2, S3].
  - intros s' e HQe. cbn beta in HQe. by rewrite <- !app_assoc in HQe.
Qed.

(** A block is written to its page. *)
Lemma block_written s nh nl D l P p t m n : talks h t p -> host_sends (66 :: nh :: nl :: 70 :: D ++ l) p -> nh * 256 + nl = Z.of_nat (length D) ->
  length D = (2 * n)%nat -> Z.of_nat (length D) <= SPM_PAGESIZE -> CurrAddress s = P -> aligned P -> 0 <= P -> P + SPM_PAGESIZE < 2 ^ 32 -> holds m [] ->
  wp true h (CDC_Task fuel s) t (fun s' e => sent e = [13] /\ s' = set_address (P + Z.of_nat (length D)) s /\
    holds (memory_after m e) [] /\ eeprom (memory_after m e) = eeprom m /\
    forall x, flash (memory_after m e) x = if (P <=? x) && (x <? P + SPM_PAGESIZE) then nth (Z.to_nat (x - P)) D 255 else flash m x).
Proof.
  intros Ht (Hok & E & Hin) Hn Hlen Hfit HA HP H0 H32 Hm. apply (task_runs s 66 (nh :: nl :: 70 :: D ++ l) p t _ Ht Hok E). intros s1 p1 M1 S1 Ht1 Hok1 E1 I1.
  change (process_command fuel 66 s) with (ReadWriteMemoryBlock fuel 66 s).
  apply (block_started 66 s nh nl (D ++ l) (length D) p1 _ _ Ht1 Hok1 E1 Hn). intros s2 p2 [M2 S2] Ht2 Hok2 E2 I2. change (66 =? 103) with false. cbv match. rewrite HA.
  unfold boot_page_erase, boot_page_write, boot_spm_busy_wait. do 4 wp_step. set (er := [Cmd (c_Memory (w_Page_Erase (u32 P)))] ++ [Cmd (c_Memory w_Busy_Wait)]).
  destruct (page_erased words Hpage Hwords m P Hm HP ltac:(lia)) as (P1 & P2 & P3). change [Cmd (c_Memory (w_Page_Erase (u32 P))); _] with er in P1, P2, P3.
  apply (talks_later _ _ _ er) in Ht2. assert (p_out (port_after p2 er) = p_out p2 /\ p_in (port_after p2 er) = p_in p2) as [Eo Ei] by done. rewrite <- Eo in Hok2, E2.
  pose proof (block_filled h fuel Hf n [] 0 D P (port_after p2 er) _ (memory_after m er) l Hlen Ht2 Hok2 E2 P1 ltac:(by exists 0%nat) ltac:(constructor) HP H0 ltac:(cbn [length]; lia) H32) as G.
  cbn [length] in G. rewrite Z.add_0_r, <- Hlen in G.
  wp_step. eapply wp_mono; [exact G|]. clear G. intros a e1 (-> & K1 & K2 & K3 & K4 & K5 & K6). cbn beta. cbn [app] in K1, K4.
  destruct (page_committed words Hpage Hwords (memory_after (memory_after m er) e1) P D K1 HP ltac:(lia) Hfit K4) as (C1 & C2 & C3).
  { intros x Hx. rewrite K2, P3. by rewrite (proj2 (Z.leb_le P x)), (proj2 (Z.ltb_lt x (P + SPM_PAGESIZE))) by lia. }
  do 5 wp_step. set (wr := [Cmd (c_Memory (w_Page_Write (u32 P)))] ++ [Cmd (c_Memory w_Busy_Wait)]). change [Cmd (c_Memory (w_Page_Write (u32 P))); _] with wr in C1, C2, C3.
  apply (talks_later _ _ _ (e1 ++ wr)) in Ht2. rewrite !app_assoc in *.
  eapply wp_mono; [apply (byte_written h fuel Hf 13 _ _ Ht2)|].
  { rewrite port_after_app. change (p_in (port_after ?q wr)) with (p_in q). rewrite K6, Ei, I2, I1, Hin. lia. }
  intros _ e2 (M3 & S3 & _). cbn beta. wp_step. rewrite app_nil_r. intros s3 M4 S4.
  match goal with |- sent ?g = _ /\ _ => assert (memory_after m g = memory_after (memory_after (memory_after m er) e1) wr) as -> end.
  { rewrite !memory_after_app, (memory_left _ s1), (memory_left _ s2), (memory_left _ e2), (memory_left _ s3) by done. done. }
  split; [by rewrite !sent_app, S1, S2, S3, S4, K5|]. split; [do 2 f_equal; lia|]. split; [done|]. split; [by rewrite C2, K3|].
  intros x. rewrite C3, K2, P3. by destruct ((P <=? x) && (x <? P + SPM_PAGESIZE)).
Qed.

(** A block is read. *)
Lemma block_sent s nh nl l k n p t m : talks h t p -> host_sends (103 :: nh :: nl :: 70 :: l) p -> nh * 256 + nl = Z.of_nat n -> CurrAddress s = 2 * k -> 0 <= k ->
  2 * k + Z.of_nat n + 1 < 2 ^ 32 -> memory_answers h t m -> busy m = false -> (forall x, 2 * k <= x < 2 * k + Z.of_nat n -> is_byte (flash m x)) ->
  wp true h (CDC_Task fuel s) t (fun s' e => sent e = flash_bytes (flash m) (2 * k) n /\ s' = set_address (2 * ((2 * k + Z.of_nat n) / 2)) s /\
    forall x, flash (memory_after m e) x = flash m x).
Proof.
  intros Ht (Hok & E & Hin) Hn HA Hk H32 Ha Hb Hby. apply (task_runs s 103 (nh :: nl :: 70 :: l) p t _ Ht Hok E). intros s1 p1 M1 S1 Ht1 Hok1 E1 I1.
  change (process_command fuel 103 s) with (ReadWriteMemoryBlock fuel 103 s).
  apply (block_started 103 s nh nl l n p1 _ _ Ht1 Hok1 E1 Hn). intros s2 p2 [M2 S2] Ht2 Hok2 E2 I2. change (103 =? 103) with true. cbv match. rewrite HA.
  unfold boot_rww_enable. do 2 wp_step. set (en := [Cmd (c_Memory w_RWW_Enable)]). apply (talks_later _ _ _ en) in Ht2.
  assert (memory_after m (s1 ++ s2 ++ en) = mk_memory (flash m) no_words false true (eeprom m)) as Em.
  { rewrite !memory_after_app, (memory_left _ s1), (memory_left _ s2) by done. cbn. by rewrite Hb. }
  assert (memory_answers h (((t ++ s1) ++ s2) ++ en) (mk_memory (flash m) no_words false true (eeprom m))) as Ha1.
  { rewrite <- Em, <- !app_assoc. by apply memory_answers_later. }
  wp_step. eapply wp_mono; [apply (block_read h fuel Hf n false k _ _ (mk_memory (flash m) no_words false true (eeprom m)) Ht2); [|exact Ha1|done|done|exact Hk|cbn [Z.b2z]; lia|]|].
  { change (p_in (port_after p2 en)) with (p_in p2). rewrite I2, I1, Hin. lia. } { cbn [Z.b2z flash]. intros x Hx. apply Hby. lia. }
  intros a e1 (M3 & S3 & _ & ->). cbn beta. wp_step. rewrite app_nil_r. intros s3 M4 S4. cbn [Z.b2z flash] in *. rewrite Z.add_0_r in *.
  split; [by rewrite !sent_app, S1, S2, S3, S4, app_nil_r|]. split; [done|]. intros x. rewrite !app_assoc, memory_after_app, (memory_left _ s3 M4).
  rewrite <- !app_assoc. rewrite (app_assoc s2), (app_assoc s1), memory_after_app, (memory_left _ e1 M3). by rewrite Em.
Qed.
End commands.

(** ** The round trip *)

(** What a host sends: an address, a block to write, and the request for a block. *)
Definition address_command (w : Z) : list Z := [65; w / 256; w mod 256].
Definition write_command (D : list Z) : list Z := [66; Z.of_nat (length D) / 256; Z.of_nat (length D) mod 256; 70] ++ D.
Definition read_command (n : Z) : list Z := [103; n / 256; n mod 256; 70].

(** From [t] on the host sends exactly the bytes [l], in packets of its choice. *)
Definition host_commands (h : hw) (t : list event) (l : list Z) : Prop := exists p, talks h t p /\ host_sends l p.


(** A host that sends [b], and a controller whose memory is [m]. *)
Definition port_host `{MCU} (b : bank) (m : memory) : hw := fun t q =>
  let p := port_after (mk_port false b 0) t in
  let m' := memory_after m t in
  match q with
  | q_IsOUTReceived | q_IsINReady => 1
  | q_IsReadWriteAllowed => Z.b2z (if p_rx p then negb (bool_decide ((p_out p).1 = [])) else (p_in p <? 16)%nat)
  | q_Read_8 => hd 0 (p_out p).1
  | q_Memory (m_Byte a) => flash m' a
  | q_Memory (m_Word a) => flash m' a + Z.shiftl (flash m' (a + 1)) 8
  | q_Memory (m_EEPROM a) => eeprom m' a
  | _ => 0
  end.

Lemma port_host_talks `{MCU} b m : talks (port_host b m) [] (mk_port false b 0).
Proof. intros s. split_and!; try done. cbn [app port_host]. unfold port_host. by destruct (if p_rx _ then _ else _). Qed.

Lemma port_host_memory `{MCU} b m : memory_answers (port_host b m) [] m.
Proof. by intros s. Qed.

Lemma port_host_commands `{MCU} l m : (0 < length l <= 64)%nat -> Forall is_byte l -> host_commands (port_host (l, []) m) [] l.
Proof.
  intros Hl Hb. exists (mk_port false (l, []) 0). split; [apply port_host_talks|]. split; [split_and!; [cbn; lia|done|done]|]. split; [|done].
  unfold bank_bytes. cbn. by rewrite app_nil_r.
Qed.

Definition mega32 : MCU :=
  {| SPM_PAGESIZE := 128; AVR_SIGNATURE_1 := 0x1E; AVR_SIGNATURE_2 := 0x95; AVR_SIGNATURE_3 := 0x87; WDRF := 3; BOOT_START_ADDR := 0x7000 |}.


(** From the word 16384 on, the shifted byte is negative and the address is not the host's. *)
Lemma high_address_wrong : Z.lor (u32 (i16 (Z.shiftl 64 9))) (u32 (i16 (Z.shiftl 0 1))) = 0xFFFF8000 /\ 2 * (64 * 256 + 0) = 0x8000.
Proof. done. Qed.
