(* ===== verification/SerialProtocol.v ===== *)
(** * The MightyMouse application and its receiver

    [SerialProtocol/SerialProtocol.ino], the Arduino sketch that turns a stream of bytes
    into keystrokes, clicks and mouse movements, and the classes of the Android application
    that produce the stream: [DispatcherSingleton] (messages and the transfer of files) and
    the numbers [TrackPad] sends.  The libraries of Arduino ([Mouse], [Keyboard], [Serial1])
    are events; a byte of the stream is its value from 0 to 255. *)
From stdpp Require Import strings.
From S2P Require Import Prelude.

(** ** The sketch *)

Definition START_BYTE := 255.
Definition CLICK_BEGIN := 67.
Definition KEY_BEGIN := 75.
Definition MOUSE_BEGIN := 77.
Definition WAIT_FOR_START := 0.
Definition STARTED := 1.
Definition CLICK_GET_0 := 10.
Definition KEY_GET_0 := 20.
Definition MOUSE_GET_0 := 30.
Definition MOUSE_GET_1 := 31.
Definition MOUSE_GET_2 := 32.

Record sketch := mk_sketch { currentState : Z; mouseX : Z; mouseY : Z }.

Definition sketch_init : sketch := mk_sketch WAIT_FOR_START 0 0.
Definition go_state (n : Z) (s : sketch) : sketch := mk_sketch n (mouseX s) (mouseY s).

(** What the sketch does: calls of the libraries, in order. *)
Inductive action :=
  | Mouse_click
  | Mouse_move (x y wheel : Z)
  | Keyboard_print (c : Z)
  | Serial1_text (s : string)
  | Serial1_number (n : Z)
  | Serial1_line (s : string).

#[export] Instance action_eq_dec : EqDecision action.
Proof. solve_decision. Defined.

Definition printError (location intVal : Z) (s : sketch) : sketch * list action :=
  (go_state WAIT_FOR_START s,
   [Serial1_text "E<"; Serial1_number (currentState s); Serial1_text ","; Serial1_number location; Serial1_text ",";
    Serial1_number intVal; Serial1_line ">"]).

(** The conversion of a received byte to the type [char], whose sign the compiler chooses. *)
Definition unsigned_char (b : Z) : Z := b.
Definition signed_char (b : Z) : Z := if b <? 128 then b else b - 256.

Section sketch.
Context (char : Z -> Z).

(** One byte from the serial port: the body of [loop]. *)
Definition receive (byte : Z) (s : sketch) : sketch * list action :=
  let inChar := char byte in
  let intVal := inChar in
  if intVal =? START_BYTE then (go_state STARTED s, [])
  else if currentState s =? WAIT_FOR_START then printError 0 intVal s
  else if currentState s =? STARTED then
    if intVal =? CLICK_BEGIN then (go_state CLICK_GET_0 s, [])
    else if intVal =? KEY_BEGIN then (go_state KEY_GET_0 s, [])
    else if intVal =? MOUSE_BEGIN then (go_state MOUSE_GET_0 s, [])
    else printError 5 intVal s
  else if currentState s =? CLICK_GET_0 then (go_state WAIT_FOR_START s, [Mouse_click])
  else if currentState s =? KEY_GET_0 then (go_state WAIT_FOR_START s, [Keyboard_print inChar])
  else if currentState s =? MOUSE_GET_0 then (mk_sketch MOUSE_GET_1 intVal (mouseY s), [])
  else if currentState s =? MOUSE_GET_1 then (mk_sketch MOUSE_GET_2 (mouseX s) intVal, [])
  else if currentState s =? MOUSE_GET_2 then (mk_sketch WAIT_FOR_START 0 0, [Mouse_move (mouseX s) (mouseY s) intVal])
  else printError 10 intVal s.

(** [loop], on the bytes that wait at the serial port: the bytes that still wait, and the rest. *)
Definition loop (available : list Z) (s : sketch) : list Z * (sketch * list action) :=
  match available with
  | [] => ([], (s, []))
  | byte :: available => (available, receive byte s)
  end.

(** The loop called again and again. *)
Fixpoint loops (n : nat) (available : list Z) (s : sketch) : list Z * (sketch * list action) :=
  match n with
  | O => (available, (s, []))
  | S n =>
      let '(available, (s, l)) := loop available s in
      let '(available, (s, l')) := loops n available s in
      (available, (s, l ++ l'))
  end.
End sketch.

(** ** The application *)

Definition DELIMITER := 255.
Definition KEYBOARD := 75.
Definition MOUSE := 77.
Definition CLICK := 67.
Definition CLICK_LEFT := [76].
Definition CLICK_RIGHT := [82].
Definition KEYCODE_DEL := [178].
Definition KEYCODE_ENTER := [176].

(** The conversion to the type [byte], as it goes over the wire. *)
Definition to_byte (n : Z) : Z := n mod 256.

(** The arrays of the dispatcher, whether there is a connection, and what was written to it. *)
Record dispatcher := mk_dispatcher { keyBytes : list Z; mouseBytes : list Z; clickBytes : list Z; connected : bool; written : list Z }.

Definition sendByte (toSend : list Z) (d : dispatcher) : dispatcher :=
  if negb (connected d) then d
  else mk_dispatcher (keyBytes d) (mouseBytes d) (clickBytes d) (connected d) (written d ++ toSend).
Definition sendDelimiter (d : dispatcher) : dispatcher := sendByte [DELIMITER] d.

Definition sendKeyboard (d : dispatcher) : dispatcher :=
  let d := sendByte [KEYBOARD] (sendDelimiter d) in sendByte (keyBytes d) d.
Definition sendMouse (d : dispatcher) : dispatcher :=
  let d := sendByte [MOUSE] (sendDelimiter d) in sendByte (mouseBytes d) d.
Definition sendClick (d : dispatcher) : dispatcher :=
  let d := sendByte [CLICK] (sendDelimiter d) in sendByte (clickBytes d) d.

(** The loops copy as many bytes as the arrays have; a shorter argument is an exception. *)
Definition setKeyBytes (keyInfo : list Z) (d : dispatcher) : option dispatcher :=
  k ← keyInfo !! 0%nat; Some (mk_dispatcher [k] (mouseBytes d) (clickBytes d) (connected d) (written d)).
Definition setMouseBytes (mouseInfo : list Z) (d : dispatcher) : option dispatcher :=
  x ← mouseInfo !! 0%nat; y ← mouseInfo !! 1%nat; w ← mouseInfo !! 2%nat;
  Some (mk_dispatcher (keyBytes d) [x; y; w] (clickBytes d) (connected d) (written d)).
Definition setClickBytes (bytes : list Z) (d : dispatcher) : option dispatcher :=
  b ← bytes !! 0%nat; Some (mk_dispatcher (keyBytes d) (mouseBytes d) [b] (connected d) (written d)).

Definition sendKeyBytes (k : list Z) (d : dispatcher) : option dispatcher := d ← setKeyBytes k d; Some (sendKeyboard d).
Definition sendLeftClick (d : dispatcher) : option dispatcher := d ← setClickBytes CLICK_LEFT d; Some (sendClick d).
Definition sendRightClick (d : dispatcher) : option dispatcher := d ← setClickBytes CLICK_RIGHT d; Some (sendClick d).
Definition sendDelete (d : dispatcher) : option dispatcher := d ← setKeyBytes KEYCODE_DEL d; Some (sendKeyboard d).
Definition sendEnter (d : dispatcher) : option dispatcher := d ← setKeyBytes KEYCODE_ENTER d; Some (sendKeyboard d).

(** A string of 16-bit characters, one message for each. *)
Fixpoint sendString (message : list Z) (d : dispatcher) : option dispatcher :=
  match message with
  | [] => Some d
  | c :: message => d ← sendKeyBytes [to_byte c] d; sendString message d
  end.

(** The loop of [SendFileTask]: [chars] are the characters that [read] still returns before
    the -1 of the end of the file, and [canceled] is the flag at the end of each trip. *)
Fixpoint send_file (chars : list Z) (canceled : nat -> bool) (d : dispatcher) : option dispatcher :=
  let charToSend := to_byte (hd (-1) chars) in
  d ← setKeyBytes [charToSend] d;
  let d := sendKeyboard d in
  if canceled O || (charToSend =? 255) then Some d
  else match chars with
       | [] => Some d
       | _ :: chars => send_file chars (canceled ∘ S) d
       end.

(** The numbers of a mouse message, from the rounded movements: at most 127 in each direction. *)
Definition limited (vel : Z) : Z := if vel >? 127 then 127 else if vel <? -127 then -127 else vel.
Definition mouseInfoToRelay (roundX roundY : Z) : list Z :=
  let xVel := limited (- roundX) in
  let yVel := limited (- roundY) in
  [to_byte (- xVel); to_byte (- yVel); to_byte 0].
Definition send_movement (roundX roundY : Z) (d : dispatcher) : option dispatcher :=
  d ← setMouseBytes (mouseInfoToRelay roundX roundY) d; Some (sendMouse d).

(** ** From the finger to the receiver *)

(** What a user does. *)
Inductive input :=
  | Types (message : list Z)
  | Deletes
  | Enters
  | LeftClicks
  | RightClicks
  | Moves (roundX roundY : Z).

Definition send_input (i : input) (d : dispatcher) : option dispatcher :=
  match i with
  | Types message => sendString message d
  | Deletes => sendDelete d
  | Enters => sendEnter d
  | LeftClicks => sendLeftClick d
  | RightClicks => sendRightClick d
  | Moves x y => send_movement x y d
  end.
Fixpoint send_inputs (l : list input) (d : dispatcher) : option dispatcher :=
  match l with
  | [] => Some d
  | i :: l => d ← send_input i d; send_inputs l d
  end.

(** What is to happen for it. *)
Definition clipped (n : Z) : Z := Z.max (-127) (Z.min 127 n).
Definition performs (i : input) : list action :=
  match i with
  | Types message => Keyboard_print <$> message
  | Deletes => [Keyboard_print 178]
  | Enters => [Keyboard_print 176]
  | LeftClicks | RightClicks => [Mouse_click]
  | Moves x y => [Mouse_move (clipped x mod 256) (clipped y mod 256) 0]
  end.

(** Text of 8-bit characters other than 255, and movements other than by -1. *)
Definition sendable (i : input) : Prop :=
  match i with
  | Types message => Forall (fun c => 0 <= c < 255) message
  | Moves x y => x <> -1 /\ y <> -1
  | _ => True
  end.

(** *** The receiver on a stream *)

Lemma loops_end char n s : loops char n [] s = ([], (s, [])).
Proof. revert s. induction n as [|n IH]; intros s; [done|]. cbn [loops loop]. by rewrite IH. Qed.

Fixpoint received (char : Z -> Z) (bytes : list Z) (s : sketch) : sketch * list action :=
  match bytes with
  | [] => (s, [])
  | b :: bytes => let '(s, l) := receive char b s in let '(s, l') := received char bytes s in (s, l ++ l')
  end.

Lemma loops_received char bytes : forall n s, (length bytes <= n)%nat -> loops char n bytes s = ([], received char bytes s).
Proof.
  induction bytes as [|b bytes IH]; intros n s Hn; [by rewrite loops_end|]. destruct n as [|n]; [cbn in Hn; lia|].
  cbn [loops loop received]. destruct (receive char b s) as [s1 l1]. rewrite IH by (cbn in Hn; lia). by destruct (received char bytes s1).
Qed.

Lemma stream_received_app char b1 b2 s :
  received char (b1 ++ b2) s = let '(s, l) := received char b1 s in let '(s, l') := received char b2 s in (s, l ++ l').
Proof.
  revert s. induction b1 as [|b b1 IH]; intros s; cbn [received app]; [by destruct (received char b2 s)|].
  destruct (receive char b s) as [s1 l1]. rewrite IH. destruct (received char b1 s1) as [s2 l2], (received char b2 s2) as [s3 l3].
  by rewrite app_assoc.
Qed.

Definition ready (s : sketch) : Prop := currentState s = WAIT_FOR_START.

(** Messages of the three kinds, in any state of the receiver. *)
Lemma receive_start s : receive unsigned_char 255 s = (go_state STARTED s, []).
Proof. done. Qed.

Ltac other b := unfold receive, unsigned_char; cbn [currentState go_state mouseX mouseY];
  rewrite (proj2 (Z.eqb_neq b START_BYTE)) by (unfold START_BYTE; lia); cbn.

Lemma key_received c s : c <> 255 -> received unsigned_char [DELIMITER; KEYBOARD; c] s = (go_state WAIT_FOR_START s, [Keyboard_print c]).
Proof. intros Hc. cbn [received]. unfold DELIMITER, KEYBOARD. rewrite receive_start. cbn. by other c. Qed.

Lemma click_received c s : c <> 255 -> received unsigned_char [DELIMITER; CLICK; c] s = (go_state WAIT_FOR_START s, [Mouse_click]).
Proof. intros Hc. cbn [received]. unfold DELIMITER, CLICK. rewrite receive_start. cbn. by other c. Qed.

Lemma mouse_received x y w s : x <> 255 -> y <> 255 -> w <> 255 ->
  received unsigned_char [DELIMITER; MOUSE; x; y; w] s = (mk_sketch WAIT_FOR_START 0 0, [Mouse_move x y w]).
Proof.
  intros Hx Hy Hw. cbn [received]. unfold DELIMITER, MOUSE. rewrite receive_start. cbn.
  other x. other y. by other w.
Qed.

(** *** What the application writes *)

Record wrote (d d' : dispatcher) (bytes : list Z) : Prop := {
    wr_bytes : written d' = written d ++ bytes;
    wr_connected : connected d' = connected d
  }.

Lemma wrote_trans d1 d2 d3 b1 b2 : wrote d1 d2 b1 -> wrote d2 d3 b2 -> wrote d1 d3 (b1 ++ b2).
Proof. intros [E1 C1] [E2 C2]. split; [by rewrite E2, E1, app_assoc|by rewrite C2]. Qed.

(** The arrays do not matter for what was written before. *)
Lemma wrote_from d k m c d' l : wrote (mk_dispatcher k m c (connected d) (written d)) d' l -> wrote d d' l.
Proof. intros [E C]. by split. Qed.

Section connection.
Context (d : dispatcher) (Hd : connected d = true).

Lemma message_byte_written l : wrote d (sendByte l d) l.
Proof. unfold sendByte. by rewrite Hd. Qed.

Lemma message_written (bytes : dispatcher -> list Z) kind l :
  bytes d = l -> (forall k b, bytes (mk_dispatcher (keyBytes d) (mouseBytes d) (clickBytes d) k b) = bytes d) ->
  wrote d (let d := sendByte [kind] (sendDelimiter d) in sendByte (bytes d) d) ([DELIMITER; kind] ++ l).
Proof.
  intros <- Hb. unfold sendDelimiter, sendByte. rewrite Hd. cbn. split; [|done]. cbn.
  rewrite <- !app_assoc. cbn. by rewrite Hb.
Qed.
End connection.

Lemma key_written c d : connected d = true -> exists d', sendKeyBytes [c] d = Some d' /\ wrote d d' [DELIMITER; KEYBOARD; c].
Proof. intros Hd. eexists. split; [done|]. apply (wrote_from d [c] (mouseBytes d) (clickBytes d)).
  by apply (message_written (mk_dispatcher [c] (mouseBytes d) (clickBytes d) (connected d) (written d)) Hd keyBytes KEYBOARD [c]). Qed.

Lemma click_written c d : connected d = true ->
  exists d', (d ← setClickBytes [c] d; Some (sendClick d)) = Some d' /\ wrote d d' [DELIMITER; CLICK; c].
Proof. intros Hd. eexists. split; [done|]. apply (wrote_from d (keyBytes d) (mouseBytes d) [c]).
  by apply (message_written (mk_dispatcher (keyBytes d) (mouseBytes d) [c] (connected d) (written d)) Hd clickBytes CLICK [c]). Qed.

Lemma movement_written x y w d : connected d = true ->
  exists d', (d ← setMouseBytes [x; y; w] d; Some (sendMouse d)) = Some d' /\ wrote d d' [DELIMITER; MOUSE; x; y; w].
Proof. intros Hd. eexists. split; [done|]. apply (wrote_from d (keyBytes d) [x; y; w] (clickBytes d)).
  by apply (message_written (mk_dispatcher (keyBytes d) [x; y; w] (clickBytes d) (connected d) (written d)) Hd mouseBytes MOUSE [x; y; w]). Qed.

(** *** Together *)

(** Messages sent and performed: what [d'] has more than [d] makes the receiver perform [l]
    and wait for the next message. *)
Definition carries (d d' : dispatcher) (l : list action) : Prop :=
  exists bytes, wrote d d' bytes /\ forall s, exists s',
    received unsigned_char bytes s = (s', l) /\ (bytes = [] \/ ready s').

Lemma carries_none d : carries d d [].
Proof. exists []. split; [split; [by rewrite app_nil_r|done]|]. intros s. exists s. split; [done|by left]. Qed.

Lemma carries_trans d1 d2 d3 l1 l2 : carries d1 d2 l1 -> carries d2 d3 l2 -> carries d1 d3 (l1 ++ l2).
Proof.
  intros (b1 & W1 & R1) (b2 & W2 & R2). exists (b1 ++ b2). split; [by eapply wrote_trans|]. intros s.
  destruct (R1 s) as (s1 & E1 & K1), (R2 s1) as (s2 & E2 & K2). exists s2. rewrite stream_received_app, E1, E2. split; [done|].
  destruct K2 as [->|K2]; [|by right]. cbn in E2. injection E2 as <- _. rewrite app_nil_r. exact K1.
Qed.

Lemma carries_one d d' bytes l s' : wrote d d' bytes -> (forall s, received unsigned_char bytes s = (s' s, l)) -> (forall s, ready (s' s)) -> carries d d' l.
Proof. intros W R K. exists bytes. split; [done|]. intros s. exists (s' s). split; [done|right; apply K]. Qed.

Lemma key_carried c d : connected d = true -> c <> 255 -> exists d', sendKeyBytes [c] d = Some d' /\ connected d' = true /\ carries d d' [Keyboard_print c].
Proof.
  intros Hd Hc. destruct (key_written c d Hd) as (d' & E & W). exists d'. split; [done|]. split; [by rewrite (wr_connected _ _ _ W)|].
  eapply carries_one; [exact W|intros s; by apply key_received|done].
Qed.

Lemma click_carried c d : connected d = true -> c <> 255 ->
  exists d', (d ← setClickBytes [c] d; Some (sendClick d)) = Some d' /\ connected d' = true /\ carries d d' [Mouse_click].
Proof.
  intros Hd Hc. destruct (click_written c d Hd) as (d' & E & W). exists d'. split; [done|]. split; [by rewrite (wr_connected _ _ _ W)|].
  eapply carries_one; [exact W|intros s; by apply click_received|done].
Qed.

Lemma string_carried message : Forall (fun c => 0 <= c < 255) message -> forall d, connected d = true ->
  exists d', sendString message d = Some d' /\ connected d' = true /\ carries d d' (Keyboard_print <$> message).
Proof.
  induction 1 as [|c message Hc _ IH]; intros d Hd; [exists d; split_and!; [done|done|apply carries_none]|].
  cbn [sendString]. assert (to_byte c = c) as -> by (unfold to_byte; apply Z.mod_small; lia).
  destruct (key_carried c d Hd ltac:(lia)) as (d1 & -> & Hd1 & K1). cbn. destruct (IH d1 Hd1) as (d2 & -> & Hd2 & K2). exists d2.
  split_and!; [done|done|]. exact (carries_trans _ _ _ [Keyboard_print c] _ K1 K2).
Qed.

Lemma limited_clipped n : - limited (- n) = clipped n.
Proof. unfold limited, clipped. destruct (Z.gtb_spec (- n) 127), (Z.ltb_spec (- n) (-127)); lia. Qed.

Lemma movement_carried x y d : connected d = true -> x <> -1 -> y <> -1 ->
  exists d', send_movement x y d = Some d' /\ connected d' = true /\ carries d d' [Mouse_move (clipped x mod 256) (clipped y mod 256) 0].
Proof.
  intros Hd Hx Hy. unfold send_movement, mouseInfoToRelay. cbv zeta. rewrite !limited_clipped. unfold to_byte. change (0 mod 256) with 0.
  destruct (movement_written (clipped x mod 256) (clipped y mod 256) 0 d Hd) as (d' & E & W). exists d'. split; [done|].
  split; [by rewrite (wr_connected _ _ _ W)|]. eapply (carries_one _ _ _ _ (fun _ => mk_sketch WAIT_FOR_START 0 0)); [exact W| |done].
  intros s. apply mouse_received; [unfold clipped; Z.div_mod_to_equations; lia..|lia].
Qed.

Lemma input_carried i d : connected d = true -> sendable i -> exists d', send_input i d = Some d' /\ connected d' = true /\ carries d d' (performs i).
Proof.
  intros Hd Hi. destruct i as [message| | | | |x y]; cbn [send_input performs sendable] in *.
  - by apply string_carried.
  - by apply (key_carried 178).
  - by apply (key_carried 176).
  - by apply (click_carried 76).
  - by apply (click_carried 82).
  - destruct Hi. by apply movement_carried.
Qed.

Lemma inputs_carried l : Forall sendable l -> forall d, connected d = true ->
  exists d', send_inputs l d = Some d' /\ connected d' = true /\ carries d d' (l ≫= performs).
Proof.
  induction 1 as [|i l Hi _ IH]; intros d Hd; [exists d; split_and!; [done|done|apply carries_none]|].
  cbn [send_inputs]. destruct (input_carried i d Hd Hi) as (d1 & -> & Hd1 & K1). cbn.
  destruct (IH d1 Hd1) as (d2 & -> & Hd2 & K2). exists d2. split_and!; [done|done|]. by apply (carries_trans _ d1).
Qed.


Definition phone : dispatcher := mk_dispatcher [0] [0; 0; 0] [0] true [].

(** *** Files *)

Lemma file_carried chars : Forall (fun c => 0 <= c < 255) chars -> forall canceled d, connected d = true -> (forall i, (i <= length chars)%nat -> canceled i = false) ->
  exists d' bytes, send_file chars canceled d = Some d' /\ wrote d d' bytes /\
    forall s, exists s', received unsigned_char bytes s = (s', Keyboard_print <$> chars) /\ currentState s' = STARTED.
Proof.
  induction 1 as [|c chars Hc _ IH]; intros canceled d Hd Hcan; cbn [send_file hd].
  - destruct (key_written 255 d Hd) as (d' & E & W). unfold sendKeyBytes in E. change (to_byte (-1)) with 255.
    destruct (setKeyBytes [255] d) as [d1|]; [|done]. injection E as E. cbn. rewrite orb_true_r, E. exists d', [DELIMITER; KEYBOARD; 255].
    split; [done|]. split; [done|]. intros s. by exists (go_state STARTED s).
  - assert (to_byte c = c) as -> by (unfold to_byte; apply Z.mod_small; lia).
    destruct (key_written c d Hd) as (d1 & E & W). unfold sendKeyBytes in E. destruct (setKeyBytes [c] d) as [d0|]; [|done]. injection E as E. cbn [mbind option_bind].
    cbv zeta. rewrite E, (Hcan 0%nat) by lia. rewrite (proj2 (Z.eqb_neq c 255)) by lia. cbn [orb].
    destruct (IH (canceled ∘ S) d1) as (d' & bytes & E' & W' & R); [by rewrite (wr_connected _ _ _ W)|intros i Hi; apply Hcan; cbn; lia|].
    exists d', ([DELIMITER; KEYBOARD; c] ++ bytes). split; [done|]. split; [by eapply wrote_trans|]. intros s.
    destruct (R (go_state WAIT_FOR_START s)) as (s' & Er & K). exists s'. rewrite stream_received_app, key_received by lia. by rewrite Er.
Qed.



(** *** What is lost *)

(** A slow movement, by -1: its byte is the start byte, and the receiver reports two errors
    instead of moving the mouse. *)
Lemma slow_movement_lost s :
  (mouseInfoToRelay (-1) 0 = [255; 0; 0]) /\
  exists s', received unsigned_char (DELIMITER :: MOUSE :: mouseInfoToRelay (-1) 0) s = (s',
    [Serial1_text "E<"; Serial1_number STARTED; Serial1_text ","; Serial1_number 5; Serial1_text ","; Serial1_number 0; Serial1_line ">";
     Serial1_text "E<"; Serial1_number WAIT_FOR_START; Serial1_text ","; Serial1_number 0; Serial1_text ","; Serial1_number 0; Serial1_line ">"]).
Proof. split; [done|]. by eexists. Qed.

(** Where [char] is signed no byte is the start byte: the receiver does nothing but report errors. *)
Definition is_error (a : action) : Prop := match a with Serial1_text _ | Serial1_number _ | Serial1_line _ => True | _ => False end.

Lemma signed_char_only_errors bytes s : ready s -> Forall (fun b => 0 <= b < 256) bytes ->
  let '(s', l) := received signed_char bytes s in ready s' /\ Forall is_error l.
Proof.
  intros Hr Hb. revert s Hr. induction Hb as [|b bytes Hb _ IH]; intros s Hr; [by split|]. cbn [received].
  assert (receive signed_char b s = printError 0 (signed_char b) s) as ->.
  { unfold receive. unfold ready in Hr. rewrite Hr. assert (signed_char b <> 255) as Hs.
    { unfold signed_char. destruct (Z.ltb_spec b 128); lia. }
    by rewrite (proj2 (Z.eqb_neq (signed_char b) START_BYTE) Hs). }
  unfold printError. specialize (IH (go_state WAIT_FOR_START s) eq_refl). destruct (received signed_char bytes _) as [s' l]. destruct IH as [? ?].
  split; [done|]. by repeat apply Forall_cons_2.
Qed.
