(* ===== verification/AVRISP.v ===== *)
(** * A programmer for AVR controllers

    [Projects/AVRISP-MKII]: the task of [AVRISP-MKII.c], the commands of the V2 protocol
    ([Lib/V2Protocol.c], [Lib/V2ProtocolParams.c]) and the programming of a target over its
    serial interface ([Lib/ISP/ISPProtocol.c], [Lib/ISP/ISPTarget.c]), configured as in the
    makefile: an AT90USB162 at 16 MHz.  A byte is exchanged with the target by the SPI
    controller ([c_SPI_Transfer], then the data register [q_SPDR]) or, for low speeds, by an
    interrupt of a timer, whose variables are queries and commands.  The structures that
    commands fill are bytes; [indeterminate] is what they hold before.  The commands for
    targets with other interfaces (XPROG) are the class [XPROGProtocol]. *)
From S2P Require Import Prelude ConfigDescriptors USBIo Endpoint DeviceRequests NetBuffers SelfProgram.

(** ** Constants *)

Definition CMD_SIGN_ON := 0x01.
Definition CMD_SET_PARAMETER := 0x02.
Definition CMD_GET_PARAMETER := 0x03.
Definition CMD_LOAD_ADDRESS := 0x06.
Definition CMD_RESET_PROTECTION := 0x0A.
Definition CMD_ENTER_PROGMODE_ISP := 0x10.
Definition CMD_LEAVE_PROGMODE_ISP := 0x11.
Definition CMD_CHIP_ERASE_ISP := 0x12.
Definition CMD_PROGRAM_FLASH_ISP := 0x13.
Definition CMD_READ_FLASH_ISP := 0x14.
Definition CMD_PROGRAM_EEPROM_ISP := 0x15.
Definition CMD_READ_EEPROM_ISP := 0x16.
Definition CMD_PROGRAM_FUSE_ISP := 0x17.
Definition CMD_READ_FUSE_ISP := 0x18.
Definition CMD_PROGRAM_LOCK_ISP := 0x19.
Definition CMD_READ_LOCK_ISP := 0x1A.
Definition CMD_READ_SIGNATURE_ISP := 0x1B.
Definition CMD_READ_OSCCAL_ISP := 0x1C.
Definition CMD_SPI_MULTI := 0x1D.
Definition CMD_XPROG := 0x50.
Definition CMD_XPROG_SETMODE := 0x51.
Definition STATUS_CMD_OK := 0x00.
Definition STATUS_CMD_TOUT := 0x80.
Definition STATUS_RDY_BSY_TOUT := 0x81.
Definition STATUS_CMD_FAILED := 0xC0.
Definition STATUS_CMD_UNKNOWN := 0xC9.
Definition STATUS_ISP_READY := 0x00.
Definition PARAM_BUILD_NUMBER_LOW := 0x80.
Definition PARAM_BUILD_NUMBER_HIGH := 0x81.
Definition PARAM_HW_VER := 0x90.
Definition PARAM_SW_MAJOR := 0x91.
Definition PARAM_SW_MINOR := 0x92.
Definition PARAM_VTARGET := 0x94.
Definition PARAM_SCK_DURATION := 0x98.
Definition PARAM_RESET_POLARITY := 0x9E.
Definition PARAM_STATUS_TGT_CONN := 0xA1.
Definition PARAM_DISCHARGEDELAY := 0xA4.
Definition PARAM_PRIV_READ := Z.shiftl 1 0.
Definition PARAM_PRIV_WRITE := Z.shiftl 1 1.
Definition FIRMWARE_VERSION_MINOR := 0x11.
Definition PROGRAMMER_ID := [65; 86; 82; 73; 83; 80; 95; 77; 75; 50].
Definition COMMAND_TIMEOUT_TICKS := 100.
Definition READ_WRITE_HIGH_BYTE_MASK := Z.shiftl 1 3.
Definition PROG_MODE_PAGED_WRITES_MASK := Z.shiftl 1 0.
Definition PROG_MODE_WORD_TIMEDELAY_MASK := Z.shiftl 1 1.
Definition PROG_MODE_WORD_VALUE_MASK := Z.shiftl 1 2.
Definition PROG_MODE_WORD_READYBUSY_MASK := Z.shiftl 1 3.
Definition PROG_MODE_PAGED_TIMEDELAY_MASK := Z.shiftl 1 4.
Definition PROG_MODE_PAGED_VALUE_MASK := Z.shiftl 1 5.
Definition PROG_MODE_PAGED_READYBUSY_MASK := Z.shiftl 1 6.
Definition PROG_MODE_COMMIT_PAGE_MASK := Z.shiftl 1 7.
Definition LOAD_EXTENDED_ADDRESS_CMD := 0x4D.
Definition AVRISP_DATA_OUT_EPADDR := 2.
Definition AVRISP_DATA_IN_EPADDR := Z.lor 128 2.
Definition AVRISP_DATA_EPSIZE := 64.
Definition F_CPU := 16000000.
Definition ISP_RESCUE_CLOCK_SPEED := 4000000.
Definition AUX_LINE_MASK := Z.shiftl 1 4.

(** ** The state *)

Record ParameterItem_t := mk_param { ParamID : Z; ParamPrivileges : Z; ParamValue : Z }.

Record programmer := mk_programmer {
    CurrentAddress : Z;
    MustLoadExtendedAddress : bool;
    HardwareSPIMode : bool;
    ParameterTable : list ParameterItem_t
  }.

Definition ParameterTable_init : list ParameterItem_t :=
  [mk_param PARAM_BUILD_NUMBER_LOW PARAM_PRIV_READ 0;
   mk_param PARAM_BUILD_NUMBER_HIGH PARAM_PRIV_READ 0;
   mk_param PARAM_HW_VER PARAM_PRIV_READ 0x00;
   mk_param PARAM_SW_MAJOR PARAM_PRIV_READ 0x01;
   mk_param PARAM_SW_MINOR PARAM_PRIV_READ FIRMWARE_VERSION_MINOR;
   mk_param PARAM_VTARGET PARAM_PRIV_READ 33;
   mk_param PARAM_SCK_DURATION (Z.lor PARAM_PRIV_READ PARAM_PRIV_WRITE) 6;
   mk_param PARAM_RESET_POLARITY (Z.lor PARAM_PRIV_READ PARAM_PRIV_WRITE) 0x01;
   mk_param PARAM_STATUS_TGT_CONN PARAM_PRIV_READ STATUS_ISP_READY;
   mk_param PARAM_DISCHARGEDELAY (Z.lor PARAM_PRIV_READ PARAM_PRIV_WRITE) 0x00].
Definition programmer_init : programmer := mk_programmer 0 false true ParameterTable_init.

Definition set_CurrentAddress (a : Z) (s : programmer) : programmer :=
  mk_programmer a (MustLoadExtendedAddress s) (HardwareSPIMode s) (ParameterTable s).
Definition set_MustLoad (b : bool) (s : programmer) : programmer :=
  mk_programmer (CurrentAddress s) b (HardwareSPIMode s) (ParameterTable s).
Definition set_HardwareSPIMode (b : bool) (s : programmer) : programmer :=
  mk_programmer (CurrentAddress s) (MustLoadExtendedAddress s) b (ParameterTable s).
Definition set_ParameterTable (l : list ParameterItem_t) (s : programmer) : programmer :=
  mk_programmer (CurrentAddress s) (MustLoadExtendedAddress s) (HardwareSPIMode s) l.

(** ** Registers *)

Definition read_register (r : io_register) : io Z := ask_u8 (q_Register r).
Definition write_register (r : io_register) (v : Z) : io unit := cmd (c_Register r v).
Definition or_register (r : io_register) (m : Z) : io unit := v ← read_register r; write_register r (Z.lor v m).
Definition mask_register (r : io_register) (m : Z) : io unit := v ← read_register r; write_register r (Z.land v (Z.lxor 255 m)).
#[export] Hint Unfold read_register write_register or_register mask_register : usbio.

(** [TIMER0_COMPA_vect]: the timeout of a command. *)
Definition TIMER0_COMPA_vect : io unit :=
  t ← read_register TimeoutTicksRemaining;
  if truthy t then t ← read_register TimeoutTicksRemaining; write_register TimeoutTicksRemaining (u8 (t - 1))
  else write_register TCCR0B 0.

(** ** Parameters *)

Fixpoint V2Params_GetParamFromTable (l : list ParameterItem_t) (ID : Z) : option ParameterItem_t :=
  match l with
  | [] => None
  | p :: l => if ID =? ParamID p then Some p else V2Params_GetParamFromTable l ID
  end.

(** A value stored through the pointer to the entry. *)
Fixpoint store_param (ID Value : Z) (l : list ParameterItem_t) : list ParameterItem_t :=
  match l with
  | [] => []
  | p :: l => if ID =? ParamID p then mk_param (ParamID p) (ParamPrivileges p) Value :: l else p :: store_param ID Value l
  end.

Definition V2Params_GetParameterPrivileges (s : programmer) (ID : Z) : Z :=
  match V2Params_GetParamFromTable (ParameterTable s) ID with None => 0 | Some p => ParamPrivileges p end.
Definition V2Params_GetParameterValue (s : programmer) (ID : Z) : Z :=
  match V2Params_GetParamFromTable (ParameterTable s) ID with None => 0 | Some p => ParamValue p end.

Section programmer.
Context (fuel : nat) (indeterminate : nat -> list Z) (EEPROM_Reset_Polarity : Z).

(** [eeprom_update_byte] of avr-libc writes a byte that is different. *)
Definition eeprom_update_byte (Address Value : Z) : io unit :=
  b ← eeprom_read_byte Address; if b =? Value then mret tt else eeprom_write_byte Address Value.

Definition V2Params_LoadNonVolatileParamValues (s : programmer) : io programmer :=
  b ← eeprom_read_byte EEPROM_Reset_Polarity;
  mret (set_ParameterTable (store_param PARAM_RESET_POLARITY b (ParameterTable s)) s).

(** The controller has no ADC. *)
Definition V2Params_UpdateParamValues (s : programmer) : io programmer := mret s.

Definition V2Params_SetParameterValue (ID Value : Z) (s : programmer) : io programmer :=
  match V2Params_GetParamFromTable (ParameterTable s) ID with
  | None => mret s
  | Some _ =>
      (if ID =? PARAM_RESET_POLARITY then eeprom_update_byte EEPROM_Reset_Polarity Value else mret tt);;
      mret (set_ParameterTable (store_param ID Value (ParameterTable s)) s)
  end.

(** ** The interface to the target *)

(** [SPI_AVR8.h] *)
Definition SPI_USE_DOUBLESPEED := Z.shiftl 1 6.
Definition SPI_Init (SPIOptions : Z) : io unit :=
  or_register DDRB (Z.shiftl 1 0);; or_register PORTB (Z.shiftl 1 0);;
  or_register DDRB (Z.lor (Z.shiftl 1 1) (Z.shiftl 1 2));; mask_register DDRB (Z.shiftl 1 3);; or_register PORTB (Z.shiftl 1 3);;
  (if truthy (Z.land SPIOptions SPI_USE_DOUBLESPEED) then or_register SPSR (Z.shiftl 1 0) else mask_register SPSR (Z.shiftl 1 0));;
  mask_register DDRB (Z.shiftl 1 0);;
  write_register SPCR (Z.lor (Z.shiftl 1 6) SPIOptions).
Definition SPI_Disable : io unit :=
  mask_register DDRB (Z.lor (Z.shiftl 1 1) (Z.shiftl 1 2));; mask_register PORTB (Z.lor (Z.shiftl 1 0) (Z.shiftl 1 3));;
  write_register SPCR 0;; write_register SPSR 0.
Definition SPI_TransferByte (Byte : Z) : io Z := cmd (c_SPI_Transfer (u8 Byte));; ask_u8 q_SPDR.
Definition SPI_SendByte (Byte : Z) : io unit := cmd (c_SPI_Transfer (u8 Byte)).
Definition SPI_ReceiveByte : io Z := cmd (c_SPI_Transfer 0);; ask_u8 q_SPDR.

(** The speeds of the controller; the bits are SPI_USE_DOUBLESPEED, SPR1 and SPR0, and the master mode. *)
Definition SPIMaskFromSCKDuration : list Z :=
  [SPI_USE_DOUBLESPEED; 0; Z.lor SPI_USE_DOUBLESPEED 1; 1; Z.lor SPI_USE_DOUBLESPEED 2; Z.lor SPI_USE_DOUBLESPEED 3; 3].
Definition SPI_MODE_MASTER := Z.shiftl 1 4.

(** [TIMER_COMP], with the frequency in tenths of a hertz. *)
Definition TIMER_COMP (freq10 : Z) : Z := 10 * (F_CPU / 8 / 2) / freq10 - 1.
Definition TimerCompareFromSCKDuration : list Z := TIMER_COMP <$>
  [963860; 898880; 842110; 792080; 747670; 707970; 672270; 640000; 610690; 583950; 559450; 516130;
   496900; 479050; 462430; 432440; 418850; 394090; 382780; 362000; 343350; 326540; 311290; 297400;
   284700; 273040; 257240; 247680; 234610; 222850; 212210; 202540; 193710; 185620; 175830; 169140;
   160970; 153560; 145200; 139140; 132240; 125990; 120310; 115110; 109440; 104310; 99630; 94680; 90810;
   86120; 82390; 78510; 74980; 71370; 68090; 64780; 61780; 58790; 56070; 53590; 50930; 48700; 46330;
   44180; 42090; 40190; 38230; 36450; 34740; 33100; 31610; 30110; 28690; 27340; 26110; 24840; 23690;
   22570; 21520; 20520; 19560; 18660; 17790; 16950; 16150; 15390; 14680; 13980; 13330; 12710; 12120;
   11550; 11010; 10490; 10000; 9530; 9090; 8660; 8260; 7870; 7500; 7150; 6820; 6500; 6190; 5900; 5630;
   5360; 5110; 4870; 4650; 4430; 4220; 4020; 3840; 3660; 3490; 3320; 3170; 3020; 2880; 2740; 2610;
   2490; 2380; 2260; 2160; 2060; 1960; 1870; 1780; 1700; 1620; 1540; 1470; 1400; 1340; 1280; 1220;
   1160; 1110; 1050; 1000; 954; 909; 866; 826; 787; 750; 715; 682; 650; 619; 590; 563; 536; 511].

Definition ISPTarget_ConfigureRescueClock : io unit :=
  or_register DDRC (Z.shiftl 1 6);;
  write_register TIMSK1 0;; write_register TCNT1 0;;
  write_register OCR1A (F_CPU / 2 / ISP_RESCUE_CLOCK_SPEED - 1);;
  write_register TCCR1A (Z.shiftl 1 6);;
  write_register TCCR1B (Z.lor (Z.shiftl 1 3) (Z.shiftl 1 0)).

(** The duration is a parameter that the host sets to any byte. *)
Definition ISPTarget_ConfigureSoftwareSPI (SCKDuration : Z) : io unit :=
  write_register TIMSK1 (Z.shiftl 1 1);; write_register TCNT1 0;;
  c ← get (arr_get TimerCompareFromSCKDuration (SCKDuration - Z.of_nat (length SPIMaskFromSCKDuration)));
  write_register OCR1A (u16 c);;
  write_register TCCR1A 0;; write_register TCCR1B 0.

Definition ISPTarget_EnableTargetISP (s : programmer) : io programmer :=
  let SCKDuration := V2Params_GetParameterValue s PARAM_SCK_DURATION in
  if SCKDuration <? Z.of_nat (length SPIMaskFromSCKDuration) then
    m ← get (arr_get SPIMaskFromSCKDuration SCKDuration);
    SPI_Init (Z.lor m SPI_MODE_MASTER);;
    mret (set_HardwareSPIMode true s)
  else
    or_register DDRB (Z.lor (Z.shiftl 1 1) (Z.shiftl 1 2));; or_register PORTB (Z.lor (Z.shiftl 1 0) (Z.shiftl 1 3));;
    ISPTarget_ConfigureSoftwareSPI SCKDuration;;
    mret (set_HardwareSPIMode false s).

Definition ISPTarget_DisableTargetISP (s : programmer) : io unit :=
  if HardwareSPIMode s then SPI_Disable
  else
    mask_register DDRB (Z.lor (Z.shiftl 1 1) (Z.shiftl 1 2));; mask_register PORTB (Z.lor (Z.shiftl 1 0) (Z.shiftl 1 3));;
    ISPTarget_ConfigureRescueClock.

(** [while (SoftSPI_BitsRemaining && TimeoutTicksRemaining);] *)
Fixpoint wait_soft_spi (n : nat) : io unit :=
  match n with
  | O => loops
  | S n =>
      b ← read_register SoftSPI_BitsRemaining;
      if negb (truthy b) then mret tt else
      t ← read_register TimeoutTicksRemaining;
      if negb (truthy t) then mret tt else wait_soft_spi n
  end.

Definition ISPTarget_TransferSoftSPIByte (Byte : Z) : io Z :=
  write_register SoftSPI_Data Byte;;
  write_register SoftSPI_BitsRemaining 8;;
  d ← read_register SoftSPI_Data;
  (if truthy (Z.land d (Z.shiftl 1 7)) then or_register PORTB (Z.shiftl 1 2) else mask_register PORTB (Z.shiftl 1 2));;
  write_register TCNT1 0;;
  write_register TCCR1B (Z.lor (Z.shiftl 1 3) (Z.shiftl 1 1));;
  wait_soft_spi fuel;;
  write_register TCCR1B 0;;
  read_register SoftSPI_Data.

Definition ISPTarget_SendByte (s : programmer) (Byte : Z) : io unit :=
  if HardwareSPIMode s then SPI_SendByte Byte else _ ← ISPTarget_TransferSoftSPIByte (u8 Byte); mret tt.
Definition ISPTarget_ReceiveByte (s : programmer) : io Z :=
  if HardwareSPIMode s then SPI_ReceiveByte else ISPTarget_TransferSoftSPIByte 0.
Definition ISPTarget_TransferByte (s : programmer) (Byte : Z) : io Z :=
  if HardwareSPIMode s then SPI_TransferByte Byte else ISPTarget_TransferSoftSPIByte (u8 Byte).

Definition ISPTarget_ChangeTargetResetLine (s : programmer) (ResetTarget : bool) : io unit :=
  if ResetTarget then
    or_register DDRB AUX_LINE_MASK;;
    if negb (truthy (V2Params_GetParameterValue s PARAM_RESET_POLARITY)) then or_register PORTB AUX_LINE_MASK
    else mask_register PORTB AUX_LINE_MASK
  else mask_register DDRB AUX_LINE_MASK;; mask_register PORTB AUX_LINE_MASK.

(** [while (DelayMS-- && TimeoutTicksRemaining)] *)
Fixpoint ISPProtocol_DelayMS (DelayMS : nat) : io unit :=
  match DelayMS with
  | O => mret tt
  | S DelayMS =>
      t ← read_register TimeoutTicksRemaining;
      if truthy t then cmd (c_Delay_MS 1);; ISPProtocol_DelayMS DelayMS else mret tt
  end.

(** The polling loop of [ISPTarget_WaitWhileTargetBusy]. *)
Fixpoint poll_busy (n : nat) (s : programmer) : io unit :=
  match n with
  | O => loops
  | S n =>
      ISPTarget_SendByte s 0xF0;; ISPTarget_SendByte s 0x00;; ISPTarget_SendByte s 0x00;;
      b ← ISPTarget_ReceiveByte s;
      if negb (truthy (Z.land b 1)) then mret tt else
      t ← read_register TimeoutTicksRemaining;
      if truthy t then poll_busy n s else mret tt
  end.
Definition ISPTarget_WaitWhileTargetBusy (s : programmer) : io Z :=
  poll_busy fuel s;;
  t ← read_register TimeoutTicksRemaining;
  mret (if 0 <? t then STATUS_CMD_OK else STATUS_RDY_BSY_TOUT).

Definition ISPTarget_LoadExtendedAddress (s : programmer) : io unit :=
  ISPTarget_SendByte s LOAD_EXTENDED_ADDRESS_CMD;; ISPTarget_SendByte s 0x00;;
  ISPTarget_SendByte s (Z.shiftr (Z.land (CurrentAddress s) 0x00FF0000) 16);; ISPTarget_SendByte s 0x00.

(** The loop that reads a byte until it is no longer [PollValue]. *)
Fixpoint poll_value (n : nat) (s : programmer) (PollAddress PollValue ReadMemCommand : Z) : io unit :=
  match n with
  | O => loops
  | S n =>
      ISPTarget_SendByte s ReadMemCommand;; ISPTarget_SendByte s (Z.shiftr PollAddress 8);; ISPTarget_SendByte s (Z.land PollAddress 0xFF);;
      b ← ISPTarget_TransferByte s 0x00;
      if negb (b =? PollValue) then mret tt else
      t ← read_register TimeoutTicksRemaining;
      if truthy t then poll_value n s PollAddress PollValue ReadMemCommand else mret tt
  end.

Definition ISPTarget_WaitForProgComplete (s : programmer) (ProgrammingMode PollAddress PollValue DelayMS ReadMemCommand : Z) : io Z :=
  let mode := Z.land ProgrammingMode (Z.lxor 255 (Z.lor PROG_MODE_PAGED_WRITES_MASK PROG_MODE_COMMIT_PAGE_MASK)) in
  ProgrammingStatus ←
    (if (mode =? PROG_MODE_WORD_TIMEDELAY_MASK) || (mode =? PROG_MODE_PAGED_TIMEDELAY_MASK) then
       ISPProtocol_DelayMS (Z.to_nat DelayMS);; mret STATUS_CMD_OK
     else if (mode =? PROG_MODE_WORD_VALUE_MASK) || (mode =? PROG_MODE_PAGED_VALUE_MASK) then
       poll_value fuel s PollAddress PollValue ReadMemCommand;;
       t ← read_register TimeoutTicksRemaining;
       mret (if negb (truthy t) then STATUS_CMD_TOUT else STATUS_CMD_OK)
     else if (mode =? PROG_MODE_WORD_READYBUSY_MASK) || (mode =? PROG_MODE_PAGED_READYBUSY_MASK) then ISPTarget_WaitWhileTargetBusy s
     else mret STATUS_CMD_OK);
  write_register TimeoutTicksRemaining COMMAND_TIMEOUT_TICKS;;
  mret ProgrammingStatus.

(** ** Commands of the serial programming interface *)

(** The start of an answer: the command's packet is released and the endpoint turned round. *)
Definition begin_answer : io unit :=
  Endpoint_ClearOUT;; Endpoint_SelectEndpoint AVRISP_DATA_IN_EPADDR;; Endpoint_SetEndpointDirection 128.

(** The parameters of a command, [n] bytes. *)
Definition read_params (n : nat) : io (list Z) :=
  '(_, p, _) ← Endpoint_Read_Stream_LE fuel (indeterminate n) (Z.of_nat n) None; mret p.

(** Bytes for the target, and the bytes it sends meanwhile. *)
Fixpoint send_bytes (s : programmer) (l : list Z) : io unit :=
  match l with [] => mret tt | b :: l => ISPTarget_SendByte s b;; send_bytes s l end.
Fixpoint transfer_bytes (s : programmer) (ByteDelay : Z) (l : list Z) : io (list Z) :=
  match l with
  | [] => mret []
  | b :: l =>
      ISPProtocol_DelayMS (Z.to_nat ByteDelay);;
      r ← ISPTarget_TransferByte s b;
      rs ← transfer_bytes s ByteDelay l;
      mret (r :: rs)
  end.

(** The loop that tries to synchronise, [SynchLoops] times at most: the status. *)
Fixpoint synchronise (SynchLoops : nat) (s : programmer) (PinStabDelayMS ByteDelay PollValue PollIndex : Z) (EnterProgBytes : list Z) : io Z :=
  match SynchLoops with
  | O => mret STATUS_CMD_FAILED
  | S SynchLoops =>
      t ← read_register TimeoutTicksRemaining;
      if negb (truthy t) then mret STATUS_CMD_FAILED else
      ResponseBytes ← transfer_bytes s ByteDelay EnterProgBytes;
      ok ← (if negb (truthy PollIndex) then mret true
            else b ← get (arr_get ResponseBytes (PollIndex - 1)); mret (b =? PollValue));
      if ok : bool then mret STATUS_CMD_OK
      else
        ISPTarget_ChangeTargetResetLine s false;; ISPProtocol_DelayMS (Z.to_nat PinStabDelayMS);;
        ISPTarget_ChangeTargetResetLine s true;; ISPProtocol_DelayMS (Z.to_nat PinStabDelayMS);;
        synchronise SynchLoops s PinStabDelayMS ByteDelay PollValue PollIndex EnterProgBytes
  end.

Definition ISPProtocol_EnterISPMode (s : programmer) : io programmer :=
  p ← read_params 11;
  begin_answer;;
  let s := set_CurrentAddress 0 s in
  ExecutionDelayMS ← get (arr_get p 2);
  ISPProtocol_DelayMS (Z.to_nat ExecutionDelayMS);;
  s ← ISPTarget_EnableTargetISP s;
  ISPTarget_ChangeTargetResetLine s true;;
  PinStabDelayMS ← get (arr_get p 1);
  ISPProtocol_DelayMS (Z.to_nat PinStabDelayMS);;
  SynchLoops ← get (arr_get p 3);
  ByteDelay ← get (arr_get p 4);
  PollValue ← get (arr_get p 5);
  PollIndex ← get (arr_get p 6);
  ResponseStatus ← synchronise (Z.to_nat SynchLoops) s PinStabDelayMS ByteDelay PollValue PollIndex (drop 7 p);
  Endpoint_Write_8 CMD_ENTER_PROGMODE_ISP;; Endpoint_Write_8 ResponseStatus;;
  Endpoint_ClearIN;;
  mret s.

Definition ISPProtocol_LeaveISPMode (s : programmer) : io programmer :=
  p ← read_params 2;
  begin_answer;;
  PreDelayMS ← get (arr_get p 0);
  PostDelayMS ← get (arr_get p 1);
  ISPProtocol_DelayMS (Z.to_nat PreDelayMS);;
  ISPTarget_ChangeTargetResetLine s false;;
  ISPTarget_DisableTargetISP s;;
  ISPProtocol_DelayMS (Z.to_nat PostDelayMS);;
  Endpoint_Write_8 CMD_LEAVE_PROGMODE_ISP;; Endpoint_Write_8 STATUS_CMD_OK;;
  Endpoint_ClearIN;;
  mret s.

(** What changes from byte to byte while memory is programmed: the command bytes for a write and
    for polling, the polling address, and the status. *)
Record progress := mk_progress { WriteCommand : Z; PollCommand : Z; PollAddress : Z; ProgrammingStatus : Z }.

(** The extended address, when it must be sent. *)
Definition load_extended (s : programmer) : io programmer :=
  if MustLoadExtendedAddress s then ISPTarget_LoadExtendedAddress s;; mret (set_MustLoad false s) else mret s.

(** The address after a byte: flash is addressed by words. *)
Definition next_address (s : programmer) (flash odd : bool) : programmer :=
  if odd || negb flash then
    let s := set_CurrentAddress (u32 (CurrentAddress s + 1)) s in
    if flash && negb (truthy (Z.land (CurrentAddress s) 0xFFFF)) then set_MustLoad true s else s
  else s.

(** A polling address is the one of the first byte that differs from what a busy target answers. *)
Definition note_poll (flash odd : bool) (ByteToWrite PollValue : Z) (s : programmer) (g : progress) : progress :=
  if negb (truthy (PollAddress g)) && negb (ByteToWrite =? PollValue) then
    mk_progress (WriteCommand g)
      (if odd && flash then Z.lor (PollCommand g) READ_WRITE_HIGH_BYTE_MASK
       else Z.land (PollCommand g) (Z.lxor 255 READ_WRITE_HIGH_BYTE_MASK))
      (Z.land (CurrentAddress s) 0xFFFF) (ProgrammingStatus g)
  else g.

(** The loop of [ISPProtocol_ProgramMemory]; it ends early when a byte fails. *)
Fixpoint program_bytes (ProgData : list Z) (flash odd : bool) (ProgrammingMode DelayMS PollValue : Z) (s : programmer) (g : progress) : io (programmer * progress) :=
  match ProgData with
  | [] => mret (s, g)
  | ByteToWrite :: ProgData =>
      s ← load_extended s;
      ISPTarget_SendByte s (WriteCommand g);; ISPTarget_SendByte s (Z.shiftr (CurrentAddress s) 8);;
      ISPTarget_SendByte s (Z.land (CurrentAddress s) 0xFF);; ISPTarget_SendByte s ByteToWrite;;
      let g := if flash then mk_progress (Z.lxor (WriteCommand g) READ_WRITE_HIGH_BYTE_MASK) (PollCommand g) (PollAddress g) (ProgrammingStatus g) else g in
      let g := note_poll flash odd ByteToWrite PollValue s g in
      g ← (if negb (truthy (Z.land ProgrammingMode PROG_MODE_PAGED_WRITES_MASK)) then
             let mode := if negb (truthy (PollAddress g)) && negb (truthy (Z.land ProgrammingMode PROG_MODE_WORD_READYBUSY_MASK))
                         then Z.lor (Z.land ProgrammingMode (Z.lxor 255 PROG_MODE_WORD_VALUE_MASK)) PROG_MODE_WORD_TIMEDELAY_MASK
                         else ProgrammingMode in
             status ← ISPTarget_WaitForProgComplete s mode (PollAddress g) PollValue DelayMS (PollCommand g);
             mret (mk_progress (WriteCommand g) (PollCommand g) (if status =? STATUS_CMD_OK then 0 else PollAddress g) status)
           else mret g);
      if negb (truthy (Z.land ProgrammingMode PROG_MODE_PAGED_WRITES_MASK)) && negb (ProgrammingStatus g =? STATUS_CMD_OK) then mret (s, g)
      else program_bytes ProgData flash (negb odd) ProgrammingMode DelayMS PollValue (next_address s flash odd) g
  end.

(** The end of a page. *)
Definition commit_page (CommitCommand PageStartAddress : Z) (flash : bool) (ProgrammingMode DelayMS PollValue : Z) (s : programmer) (g : progress) : io (programmer * Z) :=
  if truthy (Z.land ProgrammingMode PROG_MODE_COMMIT_PAGE_MASK) then
    ISPTarget_SendByte s CommitCommand;; ISPTarget_SendByte s (Z.shiftr PageStartAddress 8);;
    ISPTarget_SendByte s (Z.land PageStartAddress 0xFF);; ISPTarget_SendByte s 0x00;;
    let mode := if truthy (Z.land ProgrammingMode PROG_MODE_PAGED_VALUE_MASK) && negb (truthy (PollAddress g))
                then Z.lor (Z.land ProgrammingMode (Z.lxor 255 PROG_MODE_PAGED_VALUE_MASK)) PROG_MODE_PAGED_TIMEDELAY_MASK
                else ProgrammingMode in
    status ← ISPTarget_WaitForProgComplete s mode (PollAddress g) PollValue DelayMS (PollCommand g);
    mret (if flash && negb (truthy (Z.land (CurrentAddress s) 0xFFFF)) then set_MustLoad true s else s, status)
  else mret (s, ProgrammingStatus g).

(** The buffer for the data has 256 bytes; a packet of the host that ends with a full bank is
    followed by an empty one. *)
Definition ISPProtocol_ProgramMemory (V2Command : Z) (s : programmer) : io programmer :=
  let flash := V2Command =? CMD_PROGRAM_FLASH_ISP in
  p ← read_params 9;
  b0 ← get (arr_get p 0);
  b1 ← get (arr_get p 1);
  let BytesToWrite := SwapEndian_16 (b0 + Z.shiftl b1 8) in
  if BytesToWrite >? 256 then
    begin_answer;;
    Endpoint_Write_8 V2Command;; Endpoint_Write_8 STATUS_CMD_FAILED;;
    Endpoint_ClearIN;;
    mret s
  else
  '(_, ProgData, _) ← Endpoint_Read_Stream_LE fuel (indeterminate 256) BytesToWrite None;
  (if (10 + BytesToWrite) mod AVRISP_DATA_EPSIZE =? 0 then Endpoint_ClearOUT;; _ ← Endpoint_WaitUntilReady fuel; mret tt else mret tt);;
  begin_answer;;
  ProgrammingMode ← get (arr_get p 2);
  DelayMS ← get (arr_get p 3);
  WriteCommand ← get (arr_get p 4);
  CommitCommand ← get (arr_get p 5);
  PollCommand ← get (arr_get p 6);
  PollValue ← get (arr_get p (if flash then 7 else 8));
  let PageStartAddress := Z.land (CurrentAddress s) 0xFFFF in
  '(s, g) ← program_bytes (take (Z.to_nat BytesToWrite) ProgData) flash false ProgrammingMode DelayMS PollValue s
              (mk_progress WriteCommand PollCommand 0 STATUS_CMD_OK);
  '(s, status) ← commit_page CommitCommand PageStartAddress flash ProgrammingMode DelayMS PollValue s g;
  Endpoint_Write_8 V2Command;; Endpoint_Write_8 status;;
  Endpoint_ClearIN;;
  mret s.

(** A bank that is full is sent. *)
Definition flush_full : io unit :=
  allowed ← Endpoint_IsReadWriteAllowed;
  if negb allowed then Endpoint_ClearIN;; _ ← Endpoint_WaitUntilReady fuel; mret tt else mret tt.

(** The end of a long answer: its status, and an empty packet after a full one. *)
Definition finish_answer : io unit :=
  Endpoint_Write_8 STATUS_CMD_OK;;
  allowed ← Endpoint_IsReadWriteAllowed;
  Endpoint_ClearIN;;
  if negb allowed then
    _ ← Endpoint_WaitUntilReady fuel; Endpoint_ClearIN;; _ ← Endpoint_WaitUntilReady fuel; mret tt
  else mret tt.

(** The loop of [ISPProtocol_ReadMemory]. *)
Fixpoint read_bytes (BytesToRead : nat) (flash odd : bool) (ReadMemoryCommand : Z) (s : programmer) : io programmer :=
  match BytesToRead with
  | O => mret s
  | S BytesToRead =>
      s ← load_extended s;
      ISPTarget_SendByte s ReadMemoryCommand;; ISPTarget_SendByte s (Z.shiftr (CurrentAddress s) 8);;
      ISPTarget_SendByte s (Z.land (CurrentAddress s) 0xFF);;
      b ← ISPTarget_ReceiveByte s;
      Endpoint_Write_8 b;;
      flush_full;;
      read_bytes BytesToRead flash (negb odd) (if flash then Z.lxor ReadMemoryCommand READ_WRITE_HIGH_BYTE_MASK else ReadMemoryCommand)
        (next_address s flash odd)
  end.

Definition ISPProtocol_ReadMemory (V2Command : Z) (s : programmer) : io programmer :=
  p ← read_params 3;
  b0 ← get (arr_get p 0);
  b1 ← get (arr_get p 1);
  let BytesToRead := SwapEndian_16 (b0 + Z.shiftl b1 8) in
  begin_answer;;
  Endpoint_Write_8 V2Command;; Endpoint_Write_8 STATUS_CMD_OK;;
  ReadMemoryCommand ← get (arr_get p 2);
  s ← read_bytes (Z.to_nat BytesToRead) (V2Command =? CMD_READ_FLASH_ISP) false ReadMemoryCommand s;
  finish_answer;;
  mret s.

Definition ISPProtocol_ChipErase (s : programmer) : io programmer :=
  p ← read_params 6;
  begin_answer;;
  send_bytes s (drop 2 p);;
  PollMethod ← get (arr_get p 1);
  EraseDelayMS ← get (arr_get p 0);
  ResponseStatus ← (if negb (truthy PollMethod) then ISPProtocol_DelayMS (Z.to_nat EraseDelayMS);; mret STATUS_CMD_OK
                    else ISPTarget_WaitWhileTargetBusy s);
  Endpoint_Write_8 CMD_CHIP_ERASE_ISP;; Endpoint_Write_8 ResponseStatus;;
  Endpoint_ClearIN;;
  mret s.

(** The index of the byte that is wanted is the host's. *)
Definition ISPProtocol_ReadFuseLockSigOSCCAL (V2Command : Z) (s : programmer) : io programmer :=
  p ← read_params 5;
  begin_answer;;
  ResponseBytes ← transfer_bytes s 0 (drop 1 p);
  RetByte ← get (arr_get p 0);
  Endpoint_Write_8 V2Command;; Endpoint_Write_8 STATUS_CMD_OK;;
  b ← get (arr_get ResponseBytes (RetByte - 1));
  Endpoint_Write_8 b;;
  Endpoint_Write_8 STATUS_CMD_OK;;
  Endpoint_ClearIN;;
  mret s.

Definition ISPProtocol_WriteFuseLock (V2Command : Z) (s : programmer) : io programmer :=
  p ← read_params 4;
  begin_answer;;
  send_bytes s p;;
  Endpoint_Write_8 V2Command;; Endpoint_Write_8 STATUS_CMD_OK;; Endpoint_Write_8 STATUS_CMD_OK;;
  Endpoint_ClearIN;;
  mret s.

(** The bytes that are sent before the first one is received, and those that are received. *)
Fixpoint multi_send (n : nat) (CurrTxPos TxBytes : Z) (TxData : list Z) (s : programmer) : io unit :=
  match n with
  | O => mret tt
  | S n =>
      (if CurrTxPos <? TxBytes then b ← get (arr_get TxData CurrTxPos); ISPTarget_SendByte s b else ISPTarget_SendByte s 0);;
      multi_send n (CurrTxPos + 1) TxBytes TxData s
  end.
Fixpoint multi_receive (n : nat) (CurrTxPos TxBytes : Z) (TxData : list Z) (s : programmer) : io unit :=
  match n with
  | O => mret tt
  | S n =>
      '(b, CurrTxPos) ← (if CurrTxPos <? TxBytes
                         then x ← get (arr_get TxData CurrTxPos); b ← ISPTarget_TransferByte s x; mret (b, CurrTxPos + 1)
                         else b ← ISPTarget_ReceiveByte s; mret (b, CurrTxPos));
      Endpoint_Write_8 b;;
      flush_full;;
      multi_receive n CurrTxPos TxBytes TxData s
  end.

Definition ISPProtocol_SPIMulti (s : programmer) : io programmer :=
  p ← read_params 3;
  TxBytes ← get (arr_get p 0);
  RxBytes ← get (arr_get p 1);
  RxStartAddr ← get (arr_get p 2);
  '(_, TxData, _) ← Endpoint_Read_Stream_LE fuel (indeterminate 255) TxBytes None;
  begin_answer;;
  Endpoint_Write_8 CMD_SPI_MULTI;; Endpoint_Write_8 STATUS_CMD_OK;;
  multi_send (Z.to_nat RxStartAddr) 0 TxBytes TxData s;;
  multi_receive (Z.to_nat RxBytes) RxStartAddr TxBytes TxData s;;
  finish_answer;;
  mret s.

(** ** The other commands *)

(** The loop that discards the packets of an unknown command. *)
Fixpoint discard_packets (n : nat) : io unit :=
  match n with
  | O => loops
  | S n =>
      k ← Endpoint_BytesInEndpoint;
      if k =? AVRISP_DATA_EPSIZE then Endpoint_ClearOUT;; _ ← Endpoint_WaitUntilReady fuel; discard_packets n else mret tt
  end.

Definition V2Protocol_UnknownCommand (V2Command : Z) : io unit :=
  discard_packets fuel;;
  begin_answer;;
  Endpoint_Write_8 V2Command;; Endpoint_Write_8 STATUS_CMD_UNKNOWN;;
  Endpoint_ClearIN.

Definition V2Protocol_SignOn : io unit :=
  begin_answer;;
  Endpoint_Write_8 CMD_SIGN_ON;; Endpoint_Write_8 STATUS_CMD_OK;;
  Endpoint_Write_8 (Z.of_nat (length PROGRAMMER_ID));;
  _ ← Endpoint_Write_Stream_LE fuel PROGRAMMER_ID (Z.of_nat (length PROGRAMMER_ID)) None;
  Endpoint_ClearIN.

Definition V2Protocol_ResetProtection : io unit :=
  begin_answer;;
  Endpoint_Write_8 CMD_RESET_PROTECTION;; Endpoint_Write_8 STATUS_CMD_OK;;
  Endpoint_ClearIN.

Definition V2Protocol_GetSetParam (V2Command : Z) (s : programmer) : io programmer :=
  ID ← Endpoint_Read_8;
  Value ← (if V2Command =? CMD_SET_PARAMETER then Endpoint_Read_8 else mret 0);
  begin_answer;;
  Endpoint_Write_8 V2Command;;
  let ParamPrivs := V2Params_GetParameterPrivileges s ID in
  s ← (if (V2Command =? CMD_SET_PARAMETER) && truthy (Z.land ParamPrivs PARAM_PRIV_WRITE) then
         Endpoint_Write_8 STATUS_CMD_OK;; V2Params_SetParameterValue ID Value s
       else if (V2Command =? CMD_GET_PARAMETER) && truthy (Z.land ParamPrivs PARAM_PRIV_READ) then
         Endpoint_Write_8 STATUS_CMD_OK;; Endpoint_Write_8 (V2Params_GetParameterValue s ID);; mret s
       else Endpoint_Write_8 STATUS_CMD_FAILED;; mret s);
  Endpoint_ClearIN;;
  mret s.

(** The bytes of the address, the last one first in memory, over those it had. *)
Definition V2Protocol_LoadAddress (s : programmer) : io programmer :=
  '(_, b, _) ← Endpoint_Read_Stream_BE fuel (le_bytes 4 (CurrentAddress s)) 4 None;
  let s := set_CurrentAddress (le_val b) s in
  begin_answer;;
  let s := if truthy (Z.land (CurrentAddress s) (Z.shiftl 1 31)) then set_MustLoad true s else s in
  Endpoint_Write_8 CMD_LOAD_ADDRESS;; Endpoint_Write_8 STATUS_CMD_OK;;
  Endpoint_ClearIN;;
  mret s.

(** The commands for targets with other interfaces. *)
Class XPROGProtocol := {
    XPROGProtocol_SetMode : programmer -> io programmer;
    XPROGProtocol_Command : programmer -> io programmer
  }.
Context `{!XPROGProtocol}.

Definition dispatch (V2Command : Z) (s : programmer) : io programmer :=
  let got c := V2Command =? c in
  if got CMD_SIGN_ON then V2Protocol_SignOn;; mret s
  else if got CMD_SET_PARAMETER || got CMD_GET_PARAMETER then V2Protocol_GetSetParam V2Command s
  else if got CMD_LOAD_ADDRESS then V2Protocol_LoadAddress s
  else if got CMD_RESET_PROTECTION then V2Protocol_ResetProtection;; mret s
  else if got CMD_ENTER_PROGMODE_ISP then ISPProtocol_EnterISPMode s
  else if got CMD_LEAVE_PROGMODE_ISP then ISPProtocol_LeaveISPMode s
  else if got CMD_PROGRAM_FLASH_ISP || got CMD_PROGRAM_EEPROM_ISP then ISPProtocol_ProgramMemory V2Command s
  else if got CMD_READ_FLASH_ISP || got CMD_READ_EEPROM_ISP then ISPProtocol_ReadMemory V2Command s
  else if got CMD_CHIP_ERASE_ISP then ISPProtocol_ChipErase s
  else if got CMD_READ_FUSE_ISP || got CMD_READ_LOCK_ISP || got CMD_READ_SIGNATURE_ISP || got CMD_READ_OSCCAL_ISP then
    ISPProtocol_ReadFuseLockSigOSCCAL V2Command s
  else if got CMD_PROGRAM_FUSE_ISP || got CMD_PROGRAM_LOCK_ISP then ISPProtocol_WriteFuseLock V2Command s
  else if got CMD_SPI_MULTI then ISPProtocol_SPIMulti s
  else if got CMD_XPROG_SETMODE then XPROGProtocol_SetMode s
  else if got CMD_XPROG then XPROGProtocol_Command s
  else V2Protocol_UnknownCommand V2Command;; mret s.

Definition V2Protocol_ProcessCommand (s : programmer) : io programmer :=
  V2Command ← Endpoint_Read_8;
  write_register TimeoutTicksRemaining COMMAND_TIMEOUT_TICKS;;
  write_register TCCR0B (Z.lor (Z.shiftl 1 2) (Z.shiftl 1 0));;
  s ← dispatch V2Command s;
  write_register TCCR0B 0;;
  _ ← Endpoint_WaitUntilReady fuel;
  Endpoint_SelectEndpoint AVRISP_DATA_OUT_EPADDR;;
  Endpoint_SetEndpointDirection 0;;
  mret s.

Definition LEDMASK_USB_READY := Z.shiftl 1 7.
Definition LEDMASK_USB_ERROR := Z.shiftl 1 6.
Definition LEDMASK_BUSY := Z.lor (Z.shiftl 1 6) (Z.shiftl 1 7).

Definition AVRISP_Task (s : programmer) : io programmer :=
  state ← USB_DeviceState;
  if negb (state =? DEVICE_STATE_Configured) then mret s else
  s ← V2Params_UpdateParamValues s;
  Endpoint_SelectEndpoint AVRISP_DATA_OUT_EPADDR;;
  received ← Endpoint_IsOUTReceived;
  if received : bool then
    LEDs_SetAllLEDs LEDMASK_BUSY;;
    s ← V2Protocol_ProcessCommand s;
    LEDs_SetAllLEDs LEDMASK_USB_READY;;
    mret s
  else mret s.

(** Both directions use one endpoint. *)
Definition EVENT_USB_Device_ConfigurationChanged : io unit :=
  ConfigSuccess ← Endpoint_ConfigureEndpoint AVRISP_DATA_OUT_EPADDR 2 AVRISP_DATA_EPSIZE 1;
  LEDs_SetAllLEDs (if ConfigSuccess : bool then LEDMASK_USB_READY else LEDMASK_USB_ERROR).
End programmer.

(** ** The interrupt that replaces the SPI controller

    [TIMER1_COMPA_vect], on its variables, the port, and whether the timer runs; [miso] is the
    level of the input pin. *)
Record soft_spi := mk_soft { Data : Z; BitsRemaining : Z; port : Z; running : bool }.

Definition TIMER1_COMPA_vect (miso : bool) (s : soft_spi) : soft_spi :=
  let s :=
    if negb (truthy (Z.land (port s) (Z.shiftl 1 1))) then
      mk_soft (Data s) (BitsRemaining s)
        (if truthy (Z.land (Data s) (Z.shiftl 1 7)) then Z.lor (port s) (Z.shiftl 1 2) else Z.land (port s) (Z.lxor 255 (Z.shiftl 1 2))) (running s)
    else
      let d := u8 (Z.shiftl (Data s) 1) in
      let b := u8 (BitsRemaining s - 1) in
      mk_soft (if miso then Z.lor d (Z.shiftl 1 0) else d) b (port s) (if negb (truthy b) then false else running s) in
  mk_soft (Data s) (BitsRemaining s) (Z.lxor (port s) (Z.shiftl 1 1)) (running s).

(** What [ISPTarget_TransferSoftSPIByte] sets before it starts the timer. *)
Definition start_transfer (Byte : Z) (s : soft_spi) : soft_spi :=
  mk_soft Byte 8 (if truthy (Z.land Byte (Z.shiftl 1 7)) then Z.lor (port s) (Z.shiftl 1 2) else Z.land (port s) (Z.lxor 255 (Z.shiftl 1 2))) true.
